(* ===== verification/_CoqProject ===== *)
-Q . S2P
Prelude.v
Slices.v
Text.v
Memory.v
Boot.v
BootLoad.v
BootMap.v
Paging.v
PagingMap.v
UserMem.v
KernelMap.v
UserStack.v
Elf.v
Isolation.v
Slab.v
Lock.v
Thread.v
ThreadInv.v
Sched.v
ThreadKeep.v
Queue.v
Pipe.v
Proc.v
ProcInv.v
ProcOps.v
ProcSys.v
KernelHalf.v
ProcWait.v
Disk.v
Time.v
Fat.v
FatTable.v
FatData.v
FatFile.v
FatProps.v
FatDir.v
Console.v
Tty.v
Random.v
Ports.v
Interrupts.v
Mouse.v
Ps2Setup.v
Ata.v
Ustar.v
Xiangqi.v
XqRules.v
XqGame.v
XqFen.v
Vfs.v
Files.v
UserCopy.v
Syscall.v
FileTypes.v
FileCalls.v
PipeCalls.v
Devfs.v
Graphics.v
XqUi.v
Render.v
Compositor.v
Pci.v
Sound.v
HdaSetup.v
SoundStart.v
HdaCodec.v
Executor.v
Tasks.v
UserLib.v
Programs.v
FatVfs.v
MountFat.v
Startup.v
CallSteps.v
CallFs.v
CallWitness.v
