(* ===== verification/Prelude.v ===== *)
(** * A verification of qi-os

    qi-os is an x86-64 kernel in Rust ([kernel/src]) with a boot loader, a
    user library, user programs and a xiangqi (Chinese chess) engine.  This
    library models the parts of the kernel that keep state and decide, and the
    whole engine, as functions on explicit state, and proves what makes them
    correct.  All paths below are relative to [src/].

    ** How code becomes definitions

    A function that can only return is a function; one that can panic (an
    [unwrap], an index out of range, [panic!], an arithmetic overflow: the
    workspace sets [overflow-checks = true]) or that loops returns an
    [outcome]: [Ret], [Panic] or, for a loop modelled with fuel, [NoFuel].
    Integers are [Z]; where the width matters the check or the wrap-around is
    written out ([chk_u], [chk_i], [wrap_u], [wrap_i]).  Mutable objects that
    are shared by reference (threads, directory entries) live in a store keyed
    by address.  Traits are classes of operations, with a class of laws for
    what their users rely on.  Code outside the repository is such a class
    too: x86_64's frames, [crossbeam_queue::ArrayQueue], [heapless::Vec], the
    x86 port instructions, the ATA drive, Unicode upper-casing.  Every class
    has an instance, which the witnesses use.

    ** The parts and their files

    - Prelude (this file): outcomes, machine integers, bit fields, arrays,
      little-endian numbers, tactics and hint databases.  Slices: replacing
      and reading slices of lists.  Text: strings of the standard library.
    - Memory: [mem/memory.rs], the physical frame allocator.  Frames handed
      out are aligned, usable, unused and never handed out twice.
    - Boot, BootLoad, BootMap: [bootloader/src], its frame allocator, the
      loading of the kernel's segments, the mappings it makes, and the BIOS's
      memory map, which it sorts.  The kernel's allocator never meets the boot
      loader's frames; segments hold their bytes and zeros; no page is mapped
      twice; regions in any order become the sorted map the allocators need.
    - Paging, PagingMap, UserMem, UserStack, Elf: the address spaces of
      [task/proc.rs] and the memory calls of [syscall.rs] on physical memory,
      a map from frames to 512 words; x86_64's mapper is the class [PageApi],
      with an instance that walks four levels of tables.  A fork copies every
      page, an ELF file is laid out as its headers say, arguments arrive on
      the new stack, the heap grows by cleared pages.  Isolation: frames owned
      by one address space, and that building one disturbs no other.
    - KernelMap: the kernel's own mappings, the heap of [mem/allocator.rs] and
      the registers and sample buffer of [driver/sound/hda.rs], in the upper
      half of the root table.  Every byte of the heap is backed by a frame of
      its own; the driver's addresses are the controller's registers.
    - Lock: [task/lock.rs], the lock that disables interrupts.  Nested locks
      restore the interrupt flag.
    - Thread, ThreadInv, Sched: [task/thread.rs], the timer interrupt of
      [interrupts.rs] and the cleaner of [main.rs].  The state is the record
      [Kernel] (thread list, ready queue, store of control blocks, current
      thread, clock, interrupt state).  An operation is divided where the
      source lets go of the scheduler's lock: blocking, picking the next thread
      ([switch_pick]) and switching to it are steps of their own, between which
      the timer and other threads may run.  [sched_step] is the step relation;
      its invariant holds in every reachable state, no operation of the
      scheduler panics there, the ready queue is served round robin, sleepers
      wake on time.
    - Slab, ThreadKeep, Proc, ProcInv, ProcOps, ProcSys: [task/proc.rs] and
      [syscall.rs]: the process table, spawn, fork, exec, wait and exit.  The
      state is the record [System]: the kernel's threads, the control blocks,
      physical memory, the allocator and CR3.  [proc_step] is the step
      relation: stores of programs and of system calls, the pieces of fork,
      spawn, exec, wait, exit and the allocations between which interrupts are
      on, wake-ups, ticks and switches.  In every reachable state processes are
      isolated.  ProcWait: a wait that has blocked ends with the exit of the
      child and not before; one whose child exits before it blocks never ends.
      KernelHalf: no process ever owns a frame that was in use before the
      first process, and every process's page table maps the upper half as the
      kernel's does.
    - Interrupts: the segments of [mem/gdt.rs], the table of [interrupts.rs],
      [init] of [lib.rs] and [driver/pit.rs].  A program enters the kernel
      through one vector only; devices reach their handlers, which acknowledge
      them; a line without a gate ends in the double fault handler.
    - Startup: the end of the boot loader and [_start] of [main.rs], composed of
      the operations of the other files, [init] and the mount of the disk
      included.  From the boot loader's tables the kernel comes up with its
      heap, devices, volume and threads, and the invariant of the processes
      holds from then on.
    - Disk, Ata, Ports: the trait [BlockDevice] of [fs/fat.rs] with its laws,
      and [driver/ata.rs] over port input and output.  The ATA driver, on a
      drive that follows the PIO protocol, refines the disk in memory, and
      finds a drive that is there.
    - Time: [driver/cmos.rs] and the date arithmetic of [fs/fat.rs].
    - Fat, FatTable, FatData, FatFile, FatProps, FatDir: [fs/fat.rs] over any
      block device that satisfies the laws: allocation and freeing of cluster
      chains, reading and writing of files, directory entries, creation and
      lookup; creating a file changes 32 bytes of its directory and nothing else.
    - Ustar: [fs/ustar.rs], archives as lists of files.
    - Vfs: [fs/vfs/mod.rs], mounts, path resolution and the dentry cache.  The
      file systems may change between two resolutions; the cache, which nothing
      invalidates, answers as it did before.
    - Queue, Pipe: the bounded queue and [fs/vfs/pipe.rs], reads and writes
      turn by turn with the threads they block and wake.
    - Files, Syscall: [fs/vfs/sys.rs] and the dispatcher of [syscall.rs].  The
      state is the record [Machine]: the system, the open files (shared by
      reference between descriptors), the pipes and the file systems, which
      are seen through the class [VfsOps].  A call returns, ends its process,
      or waits; what is left of a call that waits is a value that is taken up
      when its thread runs again.  UserCopy: copying through the caller's page
      table.  FileTypes: descriptors always lead to files that make sense.
      FileCalls: opening, closing, seeking, flags.  PipeCalls: bytes written
      to a pipe by one call are read by another, through memory.  CallSteps:
      every system call, and every later turn of one, is a sequence of steps of
      [proc_step], so what holds in every reachable state holds after a call and
      in the middle of it, and the other processes see nothing of it.  What a
      file system has to keep to for this is the class [VfsLaws], which CallFs
      discharges for the devices and for the FAT volume.
    - Devfs: [fs/vfs/devfs.rs], the devices, an instance of [VfsOps].  FatVfs:
      the trait implementations of [fs/fat.rs], the other instance, and files
      on a disk through the system calls.  MountFat: [mount_fat32] of
      [fs/vfs/mod.rs] from the drive to the mount table; the volume that is
      mounted is the one on the drive.
    - UserLib: [userland/src/lib.rs], the functions that programs call, over
      the dispatcher and the caller's memory: the arguments of [execvp] arrive
      in [main] of the new program, [pwd] returns where [chdir] went.
      Programs: the other programs of [userland/src/bin] as trees of library
      calls: the mouse program stays on the screen, the shell runs a program
      in the child and waits in the parent.
      CallWitness: a machine that runs, for the witnesses.
    - Console, Tty: [console.rs] (the character grid and its painting) and
      [tty.rs] (line editing, reads).
    - Random: [random.rs] and the plain devices of [fs/vfs/devfs.rs].
    - Mouse: [driver/mouse.rs], the PS/2 interrupt of [interrupts.rs], the
      queues of [task/mouse.rs] and [task/keyboard.rs].  Ps2Setup: its set-up
      of the controller and the mouse, on devices that follow their protocols.
    - Executor, Tasks: [task/executor.rs], [task/mod.rs], the streams of
      [task/keyboard.rs] and [task/tty.rs] and the tasks of [console.rs] and
      [main.rs].  The executor is a machine of small steps between which keys
      and printed text arrive.  No input is left unattended, and the executor
      comes to rest with everything read.  The tasks' bodies are the class
      [TaskBodies], which Tasks discharges with the terminal and the sound card.
    - Graphics, Compositor: [graphics.rs] (the back buffer, filling of
      rectangles, scrolling), the window of [common/src/lib.rs] and the
      compositor of [main.rs].  Filling draws what setting pixels draws; the
      screen shows what the last process with a window writes to it.  Render: the renderer
      of [console.rs] pixel by pixel; after a paint the frame buffer shows the
      terminal.
    - Pci, Sound, HdaSetup: [driver/pci.rs] and [driver/sound]: enumeration
      finds exactly the functions present; the probe, reset and programming of
      the sound controller, the rings shared with it, and its interrupt
      handler, which returns whatever the registers hold.  SoundStart: the
      same with the mappings and physical addresses, as [init_pci] does it.
      HdaCodec: [hda_discovery] of [main.rs] and the stream of responses of
      [corb.rs], a task interleaved with the controller, its interrupts and the
      sleep of the executor's thread, as a machine of small steps; every run
      ends with the codec's graph reported or in the executor's lost wake-up.
    - Xiangqi, XqRules, XqGame, XqFen:
      [userland/games/xiangqi-engine/engine/src].  The engine as it is written;
      the rules it implements, stated declaratively and proved equal to the
      code; the invariant of a game, from which no move panics and generated
      moves are the legal ones; the FEN reader and its round trip.  XqUi:
      [userland/src/bin/xiangqi.rs], the program around the engine and its
      drawing in the window: clicks are on what is drawn, every board it shows
      was reached by legal moves, and drawing fails only near an edge.

    ** How the parts meet

    FAT sees disks through [BlockDevice] only; its theorems are proved against
    the laws and instantiated with the disk in memory, which the ATA driver
    refines.  Pipes, terminals and the mouse block and wake threads with the
    operations of Thread, and their theorems keep the scheduler's invariant of
    ThreadInv.  The same queue class serves pipes, terminals and the mouse.
    Path resolution sees file systems through [INodeOps] only.  Address spaces
    see frames through [FrameAllocator] and tables through [PageApi] and
    [AddrApi]; processes keep descriptors in a [Slab]; the values that are
    copied to user memory have a [Layout].  The scheduler's invariant is part
    of the processes' invariant, and both are kept by every system call.  The
    start of the kernel establishes what these invariants assume of the first
    state ([proc_boot]), from what the boot loader is proved to leave.

    ** Fuel

    Fuel stands for an iteration bound and every theorem that says a function
    returns proves the fuel it takes is enough: the length of a queue and one
    more for draining it, the number of clusters for walking a chain, the
    length of the archive in blocks for scanning it, the longest time a drive
    stays busy for polling it, the address of a dentry for walking to its root
    (parents have smaller addresses), the length of a path for its mount point,
    all of memory for a string that a process passes, 257 turns for a ring
    whose pointer has 8 bits, four times the number of clusters for a call on a
    file on the disk, the time a reset bit takes to settle for waiting for it,
    the bytes that wait in the keyboard controller for emptying it.  The start
    of the kernel needs 25652 free frames for the heap of 25600 pages and its
    52 tables, and those of the sound controller's windows.

    ** What is not modelled

    The shapes of glyphs and images (embedded_graphics, tinytga), how
    shell_words splits a line, the serial line (uart_16550) and the messages
    written to it, [mount_initramfs], which is never called, and the page tables
    the boot loader builds in pages of 2 MiB, whose list of mappings is modelled
    instead.  Inline assembly is modelled by the registers
    it sets and reads.  The binaries that are compiled into the kernel and the
    parse of their headers by the elf crate are inputs.
    Page faults and accesses of the kernel through a user pointer that is not
    mapped are panics.  The kernel does not check user pointers; the theorems on
    memory are about calls whose buffers are in the caller's lower half, and the
    kernel's variables are records, not bytes of the memory that is modelled.

    Interrupt handlers run between the steps of the code they interrupt, where
    interrupts are enabled; memory that several cores could touch at once does
    not occur, as the kernel runs on one.  The steps are the pieces between two
    points where the code lets go of a lock on what is shared, with these left
    whole: the copying of an address space by fork, the loading of a program by
    spawn and exec and the mapping of pages by the allocations (each with the
    update of the caller's control block that goes with it), an exit up to its
    last critical section, the choice and wake-up of a pipe's sleepers, one turn
    of a file or device operation, and the assembly of [switch.s].
    They are written as the functions they are in the source, and the dispatcher
    of the system calls is a function too, which runs a call from one point
    where it waits to the next; CallSteps takes it apart. *)
From stdpp Require Export base list gmap.
From Stdlib Require Export ZArith Lia.
#[global] Open Scope Z_scope.

(** * Outcomes

    Rust code can return, can panic (an [unwrap] on [None], an index out of
    range, an arithmetic overflow: the workspace is built with
    [overflow-checks = true]) or, for a loop modelled with fuel, run longer
    than the fuel allows.  The three are kept apart. *)
Inductive outcome (A : Type) : Type :=
| Ret (a : A)
| Panic
| NoFuel.
Arguments Ret {A} a.
Arguments Panic {A}.
Arguments NoFuel {A}.

Declare Scope outcome_scope.
Delimit Scope outcome_scope with outcome.

Definition obind {A B : Type} (c : outcome A) (k : A -> outcome B) : outcome B :=
  match c with
  | Ret a => k a
  | Panic => Panic
  | NoFuel => NoFuel
  end.

Notation "'let!' x := c 'in' k" := (obind c (fun x => k))
  (at level 10, x name, c at level 100, k at level 200)
  : outcome_scope.
Notation "'let!' ' p := c 'in' k" := (obind c (fun x => match x with p => k end))
  (at level 10, p pattern, c at level 100, k at level 200)
  : outcome_scope.
#[global] Open Scope outcome_scope.

(** [o.unwrap()] *)
Definition unwrap {A : Type} (o : option A) : outcome A :=
  match o with Some a => Ret a | None => Panic end.

(** [assert!(b)], and any branch that reaches [panic!()] when [b] fails. *)
Definition ensure (b : bool) : outcome unit := if b then Ret tt else Panic.

Definition is_ret {A : Type} (c : outcome A) : Prop := exists a, c = Ret a.
(** By evaluation. *)
Definition is_retb {A : Type} (c : outcome A) : bool := match c with Ret _ => true | _ => false end.
Lemma is_retb_ret {A} (c : outcome A) : is_retb c = true -> is_ret c.
Proof. destruct c; [by eexists | done | done]. Qed.

Lemma obind_ret_inv {A B} (c : outcome A) (k : A -> outcome B) (b : B) :
  obind c k = Ret b -> exists a, c = Ret a /\ k a = Ret b.
Proof. destruct c; simpl; [eauto | done | done]. Qed.

(** * Machine integers

    A [w]-bit integer is a [Z] in its range.  [chk_u] and [chk_i] are the
    overflow check of [+], [-] and [*]; [wrap_u] is [as] and [wrapping_*]. *)
Definition in_u (w z : Z) : bool := (0 <=? z) && (z <? 2 ^ w).
Definition in_i (w z : Z) : bool := (- 2 ^ (w - 1) <=? z) && (z <? 2 ^ (w - 1)).
Definition chk_u (w z : Z) : outcome Z := if in_u w z then Ret z else Panic.
Definition chk_i (w z : Z) : outcome Z := if in_i w z then Ret z else Panic.
(** [a - b] on unsigned operands. *)
Definition sub_u (a b : Z) : outcome Z := if a <? b then Panic else Ret (a - b).
Definition wrap_u (w z : Z) : Z := z mod 2 ^ w.
Definition wrap_i (w z : Z) : Z := (z + 2 ^ (w - 1)) mod 2 ^ w - 2 ^ (w - 1).

Lemma in_u_spec w z : in_u w z = true <-> 0 <= z < 2 ^ w.
Proof. unfold in_u. rewrite andb_true_iff, Z.leb_le, Z.ltb_lt. lia. Qed.

Lemma in_i_spec w z : in_i w z = true <-> - 2 ^ (w - 1) <= z < 2 ^ (w - 1).
Proof. unfold in_i. rewrite andb_true_iff, Z.leb_le, Z.ltb_lt. lia. Qed.

Lemma chk_u_ret w z : 0 <= z < 2 ^ w -> chk_u w z = Ret z.
Proof. intros H. unfold chk_u. by rewrite (proj2 (in_u_spec w z) H). Qed.

Lemma chk_i_ret w z : - 2 ^ (w - 1) <= z < 2 ^ (w - 1) -> chk_i w z = Ret z.
Proof. intros H. unfold chk_i. by rewrite (proj2 (in_i_spec w z) H). Qed.

Lemma chk_u_inv w z z' : chk_u w z = Ret z' -> z' = z /\ 0 <= z < 2 ^ w.
Proof.
  unfold chk_u. destruct (in_u w z) eqn:E; intros [= <-].
  split; [done | by apply in_u_spec].
Qed.

Lemma chk_i_inv w z z' : chk_i w z = Ret z' -> z' = z /\ - 2 ^ (w - 1) <= z < 2 ^ (w - 1).
Proof.
  unfold chk_i. destruct (in_i w z) eqn:E; intros [= <-].
  split; [done | by apply in_i_spec].
Qed.

Lemma sub_u_ret a b : b <= a -> sub_u a b = Ret (a - b).
Proof. intros H. unfold sub_u. destruct (Z.ltb_spec a b); [lia | done]. Qed.

Lemma wrap_u_small w z : 0 <= z < 2 ^ w -> wrap_u w z = z.
Proof. apply Z.mod_small. Qed.

Lemma wrap_u_range w z : 0 <= w -> 0 <= wrap_u w z < 2 ^ w.
Proof. intros. apply Z.mod_pos_bound, Z.pow_pos_nonneg; lia. Qed.

Lemma wrap_i_small w z : 0 < w -> - 2 ^ (w - 1) <= z < 2 ^ (w - 1) -> wrap_i w z = z.
Proof.
  intros Hw H. unfold wrap_i.
  assert (2 ^ w = 2 * 2 ^ (w - 1)) by (rewrite <- Z.pow_succ_r by lia; f_equal; lia).
  rewrite Z.mod_small by lia. lia.
Qed.

(** ** Bit fields *)
Lemma testbit_high y p i : 0 <= p -> 0 <= y < 2 ^ p -> p <= i -> Z.testbit y i = false.
Proof. intros Hp Hy Hi. rewrite <- (Z.mod_small y (2 ^ p)) by lia. by apply Z.mod_pow2_bits_high. Qed.

Lemma lor_low x y p : 0 <= p -> 0 <= y < 2 ^ p -> Z.lor (x * 2 ^ p) y = x * 2 ^ p + y.
Proof.
  intros Hp Hy. symmetry. apply Z.add_nocarry_lor, Z.bits_inj'. intros i Hi.
  rewrite Z.land_spec, Z.bits_0. destruct (Z.lt_ge_cases i p).
  - by rewrite Z.mul_pow2_bits_low by lia.
  - rewrite (testbit_high y p i) by lia. by rewrite andb_false_r.
Qed.

(** Three fields packed in one word. *)
Lemma lor_fields a b c n k :
  0 <= n -> 0 <= k -> 0 <= b < 2 ^ k -> 0 <= c < 2 ^ n ->
  Z.lor (Z.lor (Z.shiftl a (n + k)) (Z.shiftl b n)) c = (a * 2 ^ k + b) * 2 ^ n + c.
Proof.
  intros Hn Hk Hb Hc. rewrite !Z.shiftl_mul_pow2 by lia.
  pose proof (Z.pow_pos_nonneg 2 n ltac:(lia) Hn).
  rewrite (lor_low a (b * 2 ^ n) (n + k)); [| lia | rewrite Z.pow_add_r by lia; nia].
  rewrite Z.pow_add_r by lia.
  replace (a * (2 ^ n * 2 ^ k) + b * 2 ^ n) with ((a * 2 ^ k + b) * 2 ^ n) by ring.
  by apply lor_low.
Qed.

Lemma land_ones_mod x n : 0 <= n -> Z.land x (2 ^ n - 1) = x mod 2 ^ n.
Proof. intros. rewrite <- Z.land_ones by done. by rewrite Z.ones_equiv. Qed.

(** Testing one flag: [x & (1 << n) == 0]. *)
Lemma land_flag x n : 0 <= n -> (Z.land x (2 ^ n) =? 0) = negb (Z.testbit x n).
Proof.
  intros Hn. assert (E : Z.land x (2 ^ n) = Z.b2z (Z.testbit x n) * 2 ^ n).
  { apply Z.bits_inj'. intros i Hi. rewrite Z.land_spec, Z.pow2_bits_eqb by lia.
    destruct (Z.eqb_spec n i) as [<- | Hne].
    - rewrite andb_true_r. destruct (Z.testbit x n); simpl Z.b2z; [| by rewrite Z.mul_0_l, Z.bits_0].
      by rewrite Z.mul_1_l, Z.pow2_bits_true.
    - rewrite andb_false_r. destruct (Z.testbit x n); simpl Z.b2z; [| by rewrite Z.mul_0_l, Z.bits_0].
      by rewrite Z.mul_1_l, Z.pow2_bits_false. }
  rewrite E. pose proof (Z.pow_pos_nonneg 2 n ltac:(lia) Hn).
  destruct (Z.testbit x n); simpl Z.b2z; simpl negb; [apply Z.eqb_neq; lia | by rewrite Z.mul_0_l].
Qed.

(** [div_ceil] *)
Definition div_ceil (a b : Z) : Z := (a + b - 1) / b.

(** * Arrays

    Indexing panics out of range, in reading and in writing. *)
Definition idx {A : Type} (l : list A) (i : Z) : outcome A :=
  if i <? 0 then Panic else unwrap (l !! Z.to_nat i).

Definition upd {A : Type} (l : list A) (i : Z) (x : A) : outcome (list A) :=
  if (0 <=? i) && (i <? Z.of_nat (length l)) then Ret (<[Z.to_nat i := x]> l) else Panic.

(** [&l[a..b]] *)
Definition slice {A : Type} (l : list A) (a b : Z) : outcome (list A) :=
  if (0 <=? a) && (a <=? b) && (b <=? Z.of_nat (length l))
  then Ret (take (Z.to_nat (b - a)) (drop (Z.to_nat a) l)) else Panic.

(** [l[a..a + src.len()].copy_from_slice(src)] *)
Definition splice {A : Type} (l : list A) (a : Z) (src : list A) : outcome (list A) :=
  if (0 <=? a) && (a + Z.of_nat (length src) <=? Z.of_nat (length l))
  then Ret (take (Z.to_nat a) l ++ src ++ drop (Z.to_nat a + length src) l) else Panic.

Lemma idx_ret {A} (l : list A) i x :
  0 <= i -> l !! Z.to_nat i = Some x -> idx l i = Ret x.
Proof. intros Hi Hx. unfold idx. case_match; [lia |]. by rewrite Hx. Qed.

Lemma idx_inv {A} (l : list A) i x :
  idx l i = Ret x -> 0 <= i < Z.of_nat (length l) /\ l !! Z.to_nat i = Some x.
Proof.
  unfold idx, unwrap. case_match; [done |]. case_match; intros [= ->].
  match goal with H : _ !! _ = Some _ |- _ => pose proof (lookup_lt_Some _ _ _ H) end.
  split; [lia | done].
Qed.

Lemma upd_ret {A} (l : list A) i x :
  0 <= i < Z.of_nat (length l) -> upd l i x = Ret (<[Z.to_nat i := x]> l).
Proof. intros H. unfold upd. rewrite (proj2 (Z.leb_le _ _)), (proj2 (Z.ltb_lt _ _)); [done | lia..]. Qed.

Lemma upd_inv {A} (l : list A) i x l' :
  upd l i x = Ret l' -> 0 <= i < Z.of_nat (length l) /\ l' = <[Z.to_nat i := x]> l.
Proof. unfold upd. destruct ((0 <=? i) && _) eqn:E; intros [= <-]. split; [lia | done]. Qed.

Lemma slice_ret {A} (l : list A) a b :
  0 <= a <= b -> b <= Z.of_nat (length l) ->
  slice l a b = Ret (take (Z.to_nat (b - a)) (drop (Z.to_nat a) l)).
Proof.
  intros H1 H2. unfold slice.
  destruct (_ && _) eqn:E; [done |]. lia.
Qed.

Lemma splice_ret {A} (l : list A) a src :
  0 <= a -> a + Z.of_nat (length src) <= Z.of_nat (length l) ->
  splice l a src = Ret (take (Z.to_nat a) l ++ src ++ drop (Z.to_nat a + length src) l).
Proof. intros H1 H2. unfold splice. destruct (_ && _) eqn:E; [done |]. lia. Qed.

(** * Little-endian numbers: [from_le_bytes], [to_le_bytes], packed structs *)
Fixpoint le_bytes (n : nat) (z : Z) : list Z :=
  match n with
  | O => []
  | S m => z mod 256 :: le_bytes m (z / 256)
  end.

Fixpoint le_num (l : list Z) : Z :=
  match l with
  | [] => 0
  | b :: l' => b + 256 * le_num l'
  end.

Definition is_byte (b : Z) : Prop := 0 <= b < 256.

Lemma le_bytes_length n z : length (le_bytes n z) = n.
Proof. revert z; induction n; intros; simpl; auto. Qed.

Lemma le_bytes_byte n z : Forall is_byte (le_bytes n z).
Proof.
  revert z; induction n; intros; simpl; constructor; auto.
  apply Z.mod_pos_bound; lia.
Qed.

Lemma le_num_bound l : Forall is_byte l -> 0 <= le_num l < 256 ^ Z.of_nat (length l).
Proof.
  induction 1 as [|b l Hb _ IH]; simpl le_num; simpl length; [done |].
  rewrite Nat2Z.inj_succ, Z.pow_succ_r by lia. unfold is_byte in Hb. nia.
Qed.

Lemma le_num_bytes n z : le_num (le_bytes n z) = z mod 256 ^ Z.of_nat n.
Proof.
  revert z; induction n as [|n IH]; intros z; simpl le_bytes; simpl le_num.
  - by rewrite Z.mod_1_r.
  - rewrite IH, Nat2Z.inj_succ, Z.pow_succ_r by lia.
    rewrite Z.rem_mul_r by (try apply Z.pow_nonzero; lia). lia.
Qed.

Lemma le_bytes_num l : Forall is_byte l -> le_bytes (length l) (le_num l) = l.
Proof.
  induction 1 as [|b l Hb _ IH]; simpl; [done |].
  unfold is_byte in Hb. rewrite (Z.mul_comm 256).
  rewrite Z.mod_add, Z.mod_small, Z.div_add, Z.div_small, Z.add_0_l by lia.
  by rewrite IH.
Qed.

(** * Reachability: what every step preserves holds of every reachable state *)
Lemma rtc_preserve {A} (R : A -> A -> Prop) (P : A -> Prop) x y :
  (forall a b, R a b -> P a -> P b) -> rtc R x y -> P x -> P y.
Proof. intros Hs. induction 1; eauto. Qed.

(** * Automation

    [ostep] runs one bind whose left side is known to return; [run_inv] takes
    apart a computation known to have returned. *)
Ltac run_inv H :=
  match type of H with
  | obind _ _ = Ret _ =>
      let a := fresh "v" in let E := fresh "E" in
      apply obind_ret_inv in H; destruct H as (a & E & H)
  end.
Ltac run_inv_all :=
  repeat match goal with H : obind _ _ = Ret _ |- _ => run_inv H end.

(** Two results of one computation are equal. *)
Ltac ret_det :=
  repeat match goal with
  | H : ?a = Ret ?x, H' : ?a = Ret ?y |- _ =>
      tryif unify x y then fail else (rewrite H in H'; injection H' as H'; subst)
  end.

Create HintDb machine.
Create Rewrite HintDb machine_rw.
#[export] Hint Resolve le_bytes_byte chk_u_ret chk_i_ret wrap_u_small : machine.
#[export] Hint Rewrite le_bytes_length : machine_rw.
