(* ===== verification/Slices.v ===== *)
(** * Slices of lists: reading and replacing a part

    Shared by the disk (an image of bytes), files (the data of a chain), the
    console (rows of cells) and the sound ring. *)
From S2P Require Import Prelude.

Definition get {A} (l : list A) (a n : nat) : list A := take n (drop a l).
Definition put {A} (l : list A) (a : nat) (src : list A) : list A :=
  take a l ++ src ++ drop (a + length src) l.

Lemma length_get {A} (l : list A) a n : (a + n <= length l)%nat -> length (get l a n) = n.
Proof. intros. unfold get. rewrite length_take, length_drop. lia. Qed.

Lemma length_put {A} (l : list A) a src :
  (a + length src <= length l)%nat -> length (put l a src) = length l.
Proof. intros. unfold put. rewrite !length_app, length_take, length_drop. lia. Qed.

Lemma lookup_get {A} (l : list A) a n i : (i < n)%nat -> get l a n !! i = l !! (a + i)%nat.
Proof. intros. unfold get. by rewrite lookup_take_lt, lookup_drop by lia. Qed.

Lemma lookup_put_in {A} (l : list A) a src i :
  (a + length src <= length l)%nat -> (a <= i < a + length src)%nat ->
  put l a src !! i = src !! (i - a)%nat.
Proof.
  intros. unfold put. rewrite lookup_app_r; rewrite length_take; [| lia].
  rewrite lookup_app_l by lia. f_equal. lia.
Qed.

Lemma lookup_put_out {A} (l : list A) a src i :
  (a + length src <= length l)%nat -> (i < a \/ a + length src <= i)%nat ->
  put l a src !! i = l !! i.
Proof.
  intros ? [? | ?]; unfold put.
  - rewrite lookup_app_l by (rewrite length_take; lia). by rewrite lookup_take_lt by lia.
  - rewrite lookup_app_r; rewrite length_take; [| lia].
    rewrite lookup_app_r by lia. rewrite lookup_drop. f_equal. lia.
Qed.

Lemma get_eq {A} (l l' : list A) a a' n :
  (a + n <= length l)%nat -> (a' + n <= length l')%nat ->
  (forall i, (i < n)%nat -> l !! (a + i)%nat = l' !! (a' + i)%nat) -> get l a n = get l' a' n.
Proof.
  intros H1 H2 H. apply list_eq_same_length with n; [by apply length_get.. |].
  intros i x y Hi. rewrite !lookup_get by done. rewrite H by done. congruence.
Qed.

(** A slice that does not meet the written part. *)
Lemma get_put_out {A} (l : list A) a src b n :
  (a + length src <= length l)%nat -> (b + n <= length l)%nat ->
  (b + n <= a \/ a + length src <= b)%nat -> get (put l a src) b n = get l b n.
Proof.
  intros H1 H2 H3. apply get_eq; [by rewrite length_put | done |].
  intros i Hi. apply lookup_put_out; [done | lia].
Qed.

(** A slice of the written part. *)
Lemma get_put_in {A} (l : list A) a src b n :
  (a + length src <= length l)%nat -> (a <= b)%nat -> (b + n <= a + length src)%nat ->
  get (put l a src) b n = get src (b - a) n.
Proof.
  intros H1 H2 H3. apply get_eq; [rewrite length_put by done; lia | lia |].
  intros i Hi. rewrite lookup_put_in by lia. f_equal. lia.
Qed.

Lemma get_all {A} (l : list A) : get l 0 (length l) = l.
Proof. unfold get. by rewrite drop_0, firstn_all. Qed.

(** A slice that contains the written part. *)
Lemma get_put_around {A} (l : list A) a src b n :
  (b + n <= length l)%nat -> (b <= a)%nat -> (a + length src <= b + n)%nat ->
  get (put l a src) b n = put (get l b n) (a - b) src.
Proof.
  intros H1 H2 H3.
  apply list_eq_same_length with n.
  - rewrite length_put; rewrite length_get; lia.
  - apply length_get. by rewrite length_put by lia.
  - intros i x y Hi. rewrite lookup_get by done.
    assert (length (get l b n) = n) by (apply length_get; lia).
    destruct (decide (a <= b + i < a + length src)%nat).
    + rewrite !lookup_put_in by lia. replace (i - (a - b))%nat with (b + i - a)%nat by lia. congruence.
    + rewrite !lookup_put_out by lia. rewrite lookup_get by done. congruence.
Qed.

(** Reading a slice, changing a part of it and writing it back. *)
Lemma put_within {A} (l : list A) a n p src :
  (a + n <= length l)%nat -> (a <= p)%nat -> (p + length src <= a + n)%nat ->
  put l a (put (get l a n) (p - a) src) = put l p src.
Proof.
  intros H1 H2 H3. assert (Hg : length (get l a n) = n) by (apply length_get; lia).
  assert (Hp : length (put (get l a n) (p - a) src) = n) by (rewrite length_put; lia).
  apply list_eq_same_length with (length l); [rewrite length_put; lia.. |].
  intros i x y Hi. destruct (decide (p <= i < p + length src)%nat).
  - rewrite !lookup_put_in by lia. replace (i - a - (p - a))%nat with (i - p)%nat by lia. congruence.
  - rewrite (lookup_put_out l p) by lia. destruct (decide (a <= i < a + n)%nat).
    + rewrite lookup_put_in, lookup_put_out, lookup_get by lia.
      replace (a + (i - a))%nat with i by lia. congruence.
    + rewrite lookup_put_out by lia. congruence.
Qed.

Lemma put_put_app {A} (l : list A) a x y :
  (a + length x + length y <= length l)%nat ->
  put (put l a x) (a + length x) y = put l a (x ++ y).
Proof.
  intros H. apply list_eq_same_length with (length l).
  - rewrite length_put; [done | rewrite length_app; lia].
  - rewrite !length_put; rewrite ?length_put; lia.
  - intros i u v Hi. assert (length (put l a x) = length l) by (apply length_put; lia).
    assert (length (x ++ y) = (length x + length y)%nat) by apply length_app.
    destruct (decide (i < a)%nat); [rewrite !lookup_put_out by lia; congruence |].
    destruct (decide (i < a + length x)%nat).
    { rewrite lookup_put_out, !lookup_put_in, lookup_app_l by lia. congruence. }
    destruct (decide (i < a + length x + length y)%nat).
    { rewrite !lookup_put_in, lookup_app_r by lia. rewrite Nat.sub_add_distr. congruence. }
    rewrite !lookup_put_out by lia. congruence.
Qed.

Lemma put_get {A} (l : list A) a n : (a + n <= length l)%nat -> put l a (get l a n) = l.
Proof.
  intros H. unfold put. rewrite length_get by done. unfold get.
  rewrite <- drop_drop. rewrite (take_drop n). apply take_drop.
Qed.

Lemma put_nil {A} (l : list A) a : put l a [] = l.
Proof. unfold put. simpl. rewrite Nat.add_0_r. apply take_drop. Qed.

Lemma Forall_get {A} (P : A -> Prop) l a n : Forall P l -> Forall P (get l a n).
Proof. intros. unfold get. by apply Forall_take, Forall_drop. Qed.

Lemma Forall_put {A} (P : A -> Prop) l a src : Forall P l -> Forall P src -> Forall P (put l a src).
Proof. intros. unfold put. apply Forall_app_2; [by apply Forall_take | apply Forall_app_2; [done | by apply Forall_drop]]. Qed.

Lemma slice_get {A} (l : list A) a b :
  0 <= a <= b -> b <= Z.of_nat (length l) -> slice l a b = Ret (get l (Z.to_nat a) (Z.to_nat (b - a))).
Proof. apply slice_ret. Qed.

Lemma splice_put {A} (l : list A) a src :
  0 <= a -> a + Z.of_nat (length src) <= Z.of_nat (length l) ->
  splice l a src = Ret (put l (Z.to_nat a) src).
Proof. apply splice_ret. Qed.

(** ** Slices of concatenations *)
Lemma put_app_l {A} (x y : list A) a src :
  (a + length src <= length x)%nat -> put (x ++ y) a src = put x a src ++ y.
Proof.
  intros H. unfold put. rewrite take_app_le, drop_app_le by lia. by rewrite <- !app_assoc.
Qed.

Lemma put_app_r {A} (x y : list A) a src :
  put (x ++ y) (length x + a) src = x ++ put y a src.
Proof.
  unfold put. rewrite <- Nat.add_assoc, take_app_add, drop_app_add. by rewrite <- app_assoc.
Qed.

(** A write that fills the end of [x] and goes on into [y]. *)
Lemma put_across {A} (x y : list A) a b1 b2 :
  (a + length b1 = length x)%nat -> (length b2 <= length y)%nat ->
  put x a b1 ++ put y 0 b2 = put (x ++ y) a (b1 ++ b2).
Proof.
  intros H1 H2. rewrite <- put_put_app by (rewrite length_app; lia).
  rewrite put_app_l by lia. rewrite H1.
  assert (Hl : length (put x a b1) = length x) by (apply length_put; lia).
  rewrite <- Hl, <- (Nat.add_0_r (length (put x a b1))). by rewrite put_app_r.
Qed.

