(* ===== verification/Text.v ===== *)
(** * Strings of the standard library

    The functions of [core::str], [core::ffi::CStr] and [char] the sources use,
    on lists of code points (for [CStr] and UTF-8, of bytes). *)
From S2P Require Import Prelude.

(** [split_once(sep)] and [rsplit_once(sep)] for one character *)
Fixpoint split_once (sep : Z) (s : list Z) : option (list Z * list Z) :=
  match s with
  | [] => None
  | c :: s => if c =? sep then Some ([], s)
              else match split_once sep s with
                   | Some (a, b) => Some (c :: a, b)
                   | None => None
                   end
  end.
Fixpoint rsplit_once (sep : Z) (s : list Z) : option (list Z * list Z) :=
  match s with
  | [] => None
  | c :: s => match rsplit_once sep s with
              | Some (a, b) => Some (c :: a, b)
              | None => if c =? sep then Some ([], s) else None
              end
  end.

(** [CStr::from_bytes_until_nul] *)
Fixpoint until_nul (l : list Z) : option (list Z) :=
  match l with
  | [] => None
  | b :: l => if b =? 0 then Some [] else match until_nul l with Some s => Some (b :: s) | None => None end
  end.

(** UTF-8, as [str::from_utf8] accepts it: no overlong form, no surrogate,
    nothing above U+10FFFF. *)
Definition cont (b : Z) : bool := (128 <=? b) && (b <=? 191).
Fixpoint utf8_valid (l : list Z) : bool :=
  match l with
  | [] => true
  | b0 :: l1 =>
      if b0 <=? 127 then utf8_valid l1 else
      match l1 with
      | [] => false
      | b1 :: l2 =>
          if (194 <=? b0) && (b0 <=? 223) then cont b1 && utf8_valid l2 else
          match l2 with
          | [] => false
          | b2 :: l3 =>
              if (224 <=? b0) && (b0 <=? 239) then
                cont b1 && cont b2 && (negb (b0 =? 224) || (160 <=? b1)) && (negb (b0 =? 237) || (b1 <=? 159)) &&
                utf8_valid l3
              else
              match l3 with
              | [] => false
              | b3 :: l4 =>
                  (240 <=? b0) && (b0 <=? 244) && cont b1 && cont b2 && cont b3 &&
                  (negb (b0 =? 240) || (144 <=? b1)) && (negb (b0 =? 244) || (b1 <=? 143)) && utf8_valid l4
              end
          end
      end
  end.

(** [char::is_whitespace] *)
Definition is_whitespace (c : Z) : bool :=
  ((9 <=? c) && (c <=? 13)) || (c =? 32) || (c =? 133) || (c =? 160) || (c =? 5760) ||
  ((8192 <=? c) && (c <=? 8202)) || (c =? 8232) || (c =? 8233) || (c =? 8239) || (c =? 8287) || (c =? 12288).

(** [trim] *)
Fixpoint trim_start (s : list Z) : list Z :=
  match s with
  | [] => []
  | c :: s' => if is_whitespace c then trim_start s' else s
  end.
Definition trim (s : list Z) : list Z := rev (trim_start (rev (trim_start s))).

(** [split(sep)]: the pieces between separators, [word] the piece read so far. *)
Fixpoint split_acc (sep : Z) (s word : list Z) : list (list Z) :=
  match s with
  | [] => [word]
  | c :: s => if c =? sep then word :: split_acc sep s [] else split_acc sep s (word ++ [c])
  end.
Definition split (sep : Z) (s : list Z) : list (list Z) := split_acc sep s [].

(** [join(sep)] *)
Fixpoint join (sep : list Z) (l : list (list Z)) : list Z :=
  match l with
  | [] => []
  | [s] => s
  | s :: l => s ++ sep ++ join sep l
  end.

(** [strip_prefix] and [trim_start_matches(c)] *)
Fixpoint strip_prefix (p s : list Z) : option (list Z) :=
  match p, s with
  | [], _ => Some s
  | x :: p, y :: s => if x =? y then strip_prefix p s else None
  | _ :: _, [] => None
  end.
Fixpoint trim_start_matches (c : Z) (s : list Z) : list Z :=
  match s with
  | [] => []
  | x :: s' => if x =? c then trim_start_matches c s' else s
  end.
Definition starts_with (c : Z) (s : list Z) : bool := match s with x :: _ => x =? c | [] => false end.

(** ** Lemmas *)
Lemma rsplit_none sep s : Forall (fun c => c <> sep) s -> rsplit_once sep s = None.
Proof.
  induction 1 as [|c s Hc _ IH]; simpl; [done |]. rewrite IH. by destruct (Z.eqb_spec c sep).
Qed.

Lemma rsplit_last sep s t : Forall (fun c => c <> sep) t -> rsplit_once sep (s ++ sep :: t) = Some (s, t).
Proof.
  intros Ht. induction s as [|c s IH]; simpl; [by rewrite rsplit_none, Z.eqb_refl | by rewrite IH].
Qed.

Lemma rsplit_none_inv sep s : rsplit_once sep s = None -> Forall (fun c => c <> sep) s.
Proof.
  induction s as [|d s IH]; [done |]. simpl. destruct (rsplit_once sep s) as [[x y]|]; [done |].
  destruct (Z.eqb_spec d sep); [done |]. intros _. constructor; auto.
Qed.

Lemma rsplit_inv sep s a b : rsplit_once sep s = Some (a, b) -> s = a ++ sep :: b /\ Forall (fun c => c <> sep) b.
Proof.
  revert a b. induction s as [|c s IH]; intros a b H; simpl in H; [done |].
  destruct (rsplit_once sep s) as [[x y]|] eqn:E.
  - injection H as <- <-. destruct (IH x y eq_refl) as [-> Hy]. done.
  - destruct (Z.eqb_spec c sep) as [-> |]; [| done]. injection H as <- <-. split; [done |]. by apply rsplit_none_inv.
Qed.

(** The pieces of [split] hold no separator. *)
Lemma split_pieces sep s : Forall (Forall (fun c => c <> sep)) (split sep s).
Proof.
  unfold split. assert (H : forall acc, Forall (fun c => c <> sep) acc ->
    Forall (Forall (fun c => c <> sep)) (split_acc sep s acc)); [| by apply H].
  induction s as [|c s IH]; intros acc Ha; simpl; [by constructor |].
  destruct (Z.eqb_spec c sep); [by constructor; auto |]. apply IH. by apply Forall_app_2; [| constructor].
Qed.
