(* ===== verification/Memory.v ===== *)
(** * Physical frames: the kernel's bump allocator

    [kernel/src/mem/memory.rs]: [MemoryMapEntry], [BumpAllocator::starts_at],
    [next_frame] and [allocate_frame].  Frames are named by their start
    address.  [PhysFrame::containing_address] belongs to the [x86_64] crate
    and is a parameter, with its documented behaviour as a law. *)
From Stdlib Require Import Sorted.
From S2P Require Import Prelude.

(** What the allocator relies on of the [x86_64] crate: the frame (its start
    address) that contains a physical address; [PhysAddr::new] panics on an
    address of more than 52 bits. *)
Class FrameApi := { containing_address : Z -> outcome Z }.

Class FrameApiLaws (F : FrameApi) : Prop := {
  containing_address_ok a :
    0 <= a < 2 ^ 52 -> containing_address a = Ret (a - a mod 4096);
  containing_address_panics a : 2 ^ 52 <= a -> containing_address a = Panic
}.

(** A concrete instance, used to evaluate the model. *)
Definition align_down_frames : FrameApi :=
  {| containing_address a := if in_u 52 a then Ret (a - a mod 4096) else Panic |}.

Lemma align_down_frames_laws : FrameApiLaws align_down_frames.
Proof.
  split; intros a Ha; simpl.
  - by rewrite (proj2 (in_u_spec 52 a)).
  - destruct (in_u 52 a) eqn:E; [|done]. apply in_u_spec in E. lia.
Qed.

Record MemoryMapEntry := {
  base_address : Z;
  length_ : Z;
  mem_type : Z;
  acpi_flags : Z
}.

Definition start_addr (e : MemoryMapEntry) : Z := base_address e.

Definition end_addr (e : MemoryMapEntry) : outcome Z :=
  let! s := chk_u 64 (base_address e + length_ e) in
  chk_u 64 (s - 1).

Record UsedRegion := { start_address : Z; size : Z }.

Record BumpAllocator := {
  memory_map : list MemoryMapEntry;
  used_start : Z;               (** [used_frame_range.start] *)
  used_end : Z;                 (** [used_frame_range.end], inclusive *)
  current_region_index : Z;
  next_phys_addr : Z
}.

Definition with_region (s : BumpAllocator) (i : Z) : BumpAllocator :=
  {| memory_map := memory_map s; used_start := used_start s; used_end := used_end s;
     current_region_index := i; next_phys_addr := next_phys_addr s |}.
Definition with_next (s : BumpAllocator) (a : Z) : BumpAllocator :=
  {| memory_map := memory_map s; used_start := used_start s; used_end := used_end s;
     current_region_index := current_region_index s; next_phys_addr := a |}.

Section Alloc.
Context {F : FrameApi}.

Definition starts_at (start_frame_addr : Z) (map : list MemoryMapEntry) (used : UsedRegion)
  : outcome BumpAllocator :=
  let! start_frame := containing_address (start_address used) in
  let! e := chk_u 64 (start_address used + size used) in
  let! e := chk_u 64 (e - 1) in
  let! end_frame := containing_address e in
  Ret {| memory_map := map; used_start := start_frame; used_end := end_frame;
         current_region_index := 0; next_phys_addr := start_frame_addr |}.

(** One turn of the [loop] of [next_frame]: [inl] continues, [inr] leaves it,
    with [None] for the early return of [None]. *)
Definition next_frame_body (s : BumpAllocator)
  : outcome (BumpAllocator + option BumpAllocator) :=
  match memory_map s !! Z.to_nat (current_region_index s) with
  | None => Ret (inr None)
  | Some region =>
      let s := if start_addr region >? next_phys_addr s
               then with_next s (start_addr region) else s in
      let skip := let! i := chk_u 64 (current_region_index s + 1) in
                  Ret (inl (with_region s i)) in
      if negb (mem_type region =? 1) then skip else
      let! in_used :=
        if next_phys_addr s >=? used_start s then
          let! e := chk_u 64 (used_end s + 4096) in Ret (next_phys_addr s <? e)
        else Ret false in
      if in_used : bool then
        let! e := chk_u 64 (used_end s + 4096) in Ret (inl (with_next s e))
      else
      let! region_end := end_addr region in
      let! top := chk_u 64 (next_phys_addr s + 4096) in
      if region_end <? top then skip else
      let align_offset := next_phys_addr s mod 4096 in
      if negb (align_offset =? 0) then
        let! a := chk_u 64 (next_phys_addr s + (4096 - align_offset)) in
        Ret (inl (with_next s a))
      else
      let! top := chk_u 64 (next_phys_addr s + 4096) in
      let! region_end := end_addr region in
      if top >? region_end then skip else Ret (inr (Some s))
  end.

Fixpoint next_frame_loop (fuel : nat) (s : BumpAllocator)
  : outcome (BumpAllocator * bool) :=
  match fuel with
  | O => NoFuel
  | S fuel =>
      let! r := next_frame_body s in
      match r with
      | inl s' => next_frame_loop fuel s'
      | inr None => Ret (s, false)
      | inr (Some s') => Ret (s', true)
      end
  end.

Definition next_frame (fuel : nat) (s : BumpAllocator)
  : outcome (option Z * BumpAllocator) :=
  let! '(s, found) := next_frame_loop fuel s in
  if found : bool then
    let! curr_frame := containing_address (next_phys_addr s) in
    let! a := chk_u 64 (next_phys_addr s + 4096) in
    Ret (Some curr_frame, with_next s a)
  else Ret (None, s).

(** Four turns for each region left and four more: see [measure]. *)
Definition alloc_fuel (s : BumpAllocator) : nat := (4 * length (memory_map s) + 4)%nat.

Definition allocate_frame (s : BumpAllocator) : outcome (option Z * BumpAllocator) :=
  next_frame (alloc_fuel s) s.

(** A client that takes [n] frames, as [init_heap] or [map_stack] do. *)
Fixpoint allocate_frames (n : nat) (s : BumpAllocator) : outcome (list Z * BumpAllocator) :=
  match n with
  | O => Ret ([], s)
  | S n =>
      let! '(f, s1) := allocate_frame s in
      match f with
      | None => Ret ([], s1)
      | Some f => let! '(fs, s2) := allocate_frames n s1 in Ret (f :: fs, s2)
      end
  end.

End Alloc.

(** ** Well-formedness

    Regions and the kernel image lie in the 52-bit physical address space and
    no region is empty, so no address computation overflows. *)
Definition entry_ok (e : MemoryMapEntry) : Prop :=
  0 <= base_address e /\ 1 <= length_ e /\ base_address e + length_ e <= 2 ^ 52 - 8192.

Record alloc_ok (s : BumpAllocator) : Prop := {
  ok_map : Forall entry_ok (memory_map s);
  ok_used : 0 <= used_start s /\ used_start s <= used_end s <= 2 ^ 52 - 16384;
  ok_used_align : used_start s mod 4096 = 0 /\ used_end s mod 4096 = 0;
  ok_index : 0 <= current_region_index s <= Z.of_nat (length (memory_map s));
  ok_len : Z.of_nat (length (memory_map s)) < 2 ^ 32;
  ok_next : 0 <= next_phys_addr s <= 2 ^ 52 - 4096
}.

(** A frame is good when it is a whole page of a usable region, outside the
    kernel image. *)
Definition good_frame (s : BumpAllocator) (f : Z) : Prop :=
  f mod 4096 = 0 /\
  (f + 4096 <= used_start s \/ used_end s + 4096 <= f) /\
  exists e, e ∈ memory_map s /\ mem_type e = 1 /\
            base_address e <= f /\ f + 4096 < base_address e + length_ e.

(** ** Progress of the loop *)
Definition b2z (b : bool) : Z := if b then 1 else 0.

Definition measure (s : BumpAllocator) : Z :=
  4 * (Z.of_nat (length (memory_map s)) - current_region_index s)
  + 2 * b2z (next_phys_addr s <? used_end s + 4096)
  + b2z (negb (next_phys_addr s mod 4096 =? 0)
         || match memory_map s !! Z.to_nat (current_region_index s) with
            | Some e => start_addr e >? next_phys_addr s
            | None => false
            end).

(** [s'] is a later state of the same allocator. *)
Record advances (s s' : BumpAllocator) : Prop := {
  adv_map : memory_map s' = memory_map s;
  adv_used : used_start s' = used_start s /\ used_end s' = used_end s;
  adv_next : next_phys_addr s <= next_phys_addr s';
  adv_ok : alloc_ok s'
}.

Lemma advances_trans s1 s2 s3 : advances s1 s2 -> advances s2 s3 -> advances s1 s3.
Proof.
  intros [M1 [U1 V1] N1 _] [M2 [U2 V2] N2 O2].
  split; [congruence | split; congruence | lia | done].
Qed.

Lemma advances_good s s' f : advances s s' -> good_frame s' f -> good_frame s f.
Proof. intros [HM [HU HE] _ _]. unfold good_frame. by rewrite HM, HU, HE. Qed.

Lemma end_addr_ok e : entry_ok e -> end_addr e = Ret (base_address e + length_ e - 1).
Proof.
  intros (? & ? & ?). unfold end_addr.
  rewrite chk_u_ret by lia. simpl. by rewrite chk_u_ret by lia.
Qed.

Ltac bool_lia := unfold b2z in *; repeat case_match; lia.

Lemma advance_next s a :
  alloc_ok s -> next_phys_addr s <= a <= 2 ^ 52 - 4096 -> advances s (with_next s a).
Proof. intros [] ?. split; simpl; [done | done | lia |]. split; simpl; auto; lia. Qed.

Lemma advance_region s :
  alloc_ok s -> current_region_index s < Z.of_nat (length (memory_map s)) ->
  advances s (with_region s (current_region_index s + 1)).
Proof. intros [] ?. split; simpl; [done | done | lia |]. split; simpl; auto; lia. Qed.

Lemma measure_region s :
  measure (with_region s (current_region_index s + 1)) < measure s.
Proof. unfold measure; simpl. bool_lia. Qed.

(** Raising [next_phys_addr] to the start of the region costs nothing. *)
Definition at_region (s : BumpAllocator) (e : MemoryMapEntry) : BumpAllocator :=
  if start_addr e >? next_phys_addr s then with_next s (start_addr e) else s.

Lemma at_region_spec s e :
  alloc_ok s -> memory_map s !! Z.to_nat (current_region_index s) = Some e ->
  advances s (at_region s e) /\ measure (at_region s e) <= measure s
  /\ start_addr e <= next_phys_addr (at_region s e)
  /\ current_region_index (at_region s e) = current_region_index s.
Proof.
  intros Hok He. pose proof Hok as [Hmap _ _ _ _ Hn].
  assert (entry_ok e) as (? & ? & ?).
  { rewrite Forall_forall in Hmap. apply Hmap. by eapply list_elem_of_lookup_2. }
  unfold at_region. destruct (Z.gtb_spec (start_addr e) (next_phys_addr s)).
  - unfold start_addr in *. split; [apply advance_next; [done | lia] |].
    split; [| simpl; lia]. unfold measure; simpl. rewrite He. unfold start_addr. bool_lia.
  - split; [| lia]. split; [done | done | lia | done].
Qed.

(** Turning to an aligned address above the current one is progress when the
    current address was inside the kernel image or was not aligned. *)
Lemma measure_next s e a :
  memory_map s !! Z.to_nat (current_region_index s) = Some e ->
  start_addr e <= a -> a mod 4096 = 0 -> next_phys_addr s <= a ->
  (next_phys_addr s < used_end s + 4096 <= a \/ next_phys_addr s mod 4096 <> 0) ->
  measure (with_next s a) < measure s.
Proof. intros He ? Ha ? ?. unfold measure; simpl. rewrite He, Ha. simpl. bool_lia. Qed.

Definition step_ok (s : BumpAllocator) (r : BumpAllocator + option BumpAllocator) : Prop :=
  match r with
  | inl s' => advances s s' /\ measure s' < measure s
  | inr None => current_region_index s = Z.of_nat (length (memory_map s))
  | inr (Some s') => advances s s' /\ good_frame s (next_phys_addr s')
                     /\ next_phys_addr s' + 4096 <= 2 ^ 52 - 4096
  end.

Lemma align_up_mod a : 0 <= a -> (a + (4096 - a mod 4096)) mod 4096 = 0.
Proof.
  intros. pose proof (Z.div_mod a 4096 ltac:(lia)).
  replace (a + (4096 - a mod 4096)) with ((a / 4096 + 1) * 4096) by lia.
  apply Z.mod_mul; lia.
Qed.

Section Proofs.
Context {F : FrameApi} {FL : FrameApiLaws F}.

Lemma next_frame_body_spec s :
  alloc_ok s -> exists r, next_frame_body s = Ret r /\ step_ok s r.
Proof.
  intros Hok. unfold next_frame_body.
  destruct (memory_map s !! Z.to_nat (current_region_index s)) as [e|] eqn:He.
  2:{ eexists; split; [done |]. apply lookup_ge_None in He. destruct Hok. simpl. lia. }
  fold (at_region s e).
  destruct (at_region_spec s e Hok He) as (Hadv & Hm & Hst & Hi).
  assert (Hat : memory_map (at_region s e) !! Z.to_nat (current_region_index (at_region s e)) = Some e)
    by by rewrite Hi, (adv_map _ _ Hadv).
  pose proof (adv_ok _ _ Hadv) as Hok1. revert Hadv Hm Hst Hat Hok1. clear Hi.
  generalize (at_region s e) as t. intros t Hadv Hm Hst Hat Hok1.
  assert (Hlt : current_region_index t < Z.of_nat (length (memory_map t))).
  { apply lookup_lt_Some in Hat. destruct Hok1. lia. }
  pose proof Hok1 as [Hmap [Hu0 Hu1] [Hua Hub] Hix Hlen Hnx].
  assert (Hein : e ∈ memory_map t) by by eapply list_elem_of_lookup_2.
  assert (Hent : entry_ok e) by (rewrite Forall_forall in Hmap; by apply Hmap).
  pose proof Hent as (He0 & He1 & He2). unfold start_addr in Hst.
  assert (Hskip : step_ok s (inl (with_region t (current_region_index t + 1)))).
  { split; [eapply advances_trans; [done | by apply advance_region] |].
    pose proof (measure_region t). lia. }
  assert (Hbump : forall a, base_address e <= a -> a mod 4096 = 0 ->
    next_phys_addr t <= a <= 2 ^ 52 - 4096 ->
    (next_phys_addr t < used_end t + 4096 <= a \/ next_phys_addr t mod 4096 <> 0) ->
    step_ok s (inl (with_next t a))).
  { intros a ? ? ? ?. split; [eapply advances_trans; [done | by apply advance_next] |].
    pose proof (measure_next t e a Hat ltac:(unfold start_addr; lia) ltac:(done) ltac:(lia) ltac:(done)). lia. }
  rewrite (end_addr_ok e Hent), !(chk_u_ret 64 (current_region_index t + 1)),
    !(chk_u_ret 64 (used_end t + 4096)), !(chk_u_ret 64 (next_phys_addr t + 4096)) by lia.
  simpl obind.
  destruct (negb (mem_type e =? 1)) eqn:Hty; [eauto |].
  destruct (next_phys_addr t >=? used_start t) eqn:Hus; simpl obind.
  1: destruct (next_phys_addr t <? used_end t + 4096) eqn:Hue.
  { eexists; split; [done |]. apply Hbump; [lia | | lia | lia].
    rewrite Z.add_mod, Hub by lia. done. }
  all: destruct (_ <? _) eqn:Hfit in |- *; [eauto |].
  all: pose proof (Z.mod_pos_bound (next_phys_addr t) 4096 ltac:(lia)).
  all: destruct (negb (next_phys_addr t mod 4096 =? 0)) eqn:Hal.
  all: try (rewrite chk_u_ret by lia; simpl obind; eexists; split; [done |];
            apply Hbump; [lia | apply align_up_mod; lia | lia | lia]).
  all: destruct (_ >? _) eqn:Hfit2 in |- *; [eauto |].
  all: eexists; split; [done |]; split; [done |]; split; [| lia].
  all: apply (advances_good s t _ Hadv); split; [lia |]; split.
  - lia.
  - exists e. repeat split; [done | lia | lia | lia].
  - left. pose proof (Z.div_mod (next_phys_addr t) 4096 ltac:(lia)).
    pose proof (Z.div_mod (used_start t) 4096 ltac:(lia)). lia.
  - exists e. repeat split; [done | lia | lia | lia].
Qed.

Lemma measure_nonneg s : alloc_ok s -> 0 <= measure s.
Proof. intros []. unfold measure. bool_lia. Qed.

Lemma next_frame_loop_spec fuel s :
  alloc_ok s -> measure s < Z.of_nat fuel ->
  exists s' found, next_frame_loop fuel s = Ret (s', found) /\ advances s s' /\
    if found : bool
    then good_frame s (next_phys_addr s') /\ next_phys_addr s' + 4096 <= 2 ^ 52 - 4096
    else current_region_index s' = Z.of_nat (length (memory_map s')).
Proof.
  revert s; induction fuel as [|fuel IH]; intros s Hok Hm.
  - pose proof (measure_nonneg s Hok). lia.
  - simpl. destruct (next_frame_body_spec s Hok) as (r & -> & Hr). simpl obind.
    destruct r as [s1 | [s1 |]]; simpl in Hr.
    + destruct Hr as [Hadv Hlt].
      destruct (IH s1 (adv_ok _ _ Hadv) ltac:(lia)) as (s' & b & -> & Hadv' & Hb).
      exists s', b. split; [done |]. split; [by eapply advances_trans |].
      destruct b; [| done]. destruct Hb. split; [by eapply advances_good | done].
    + exists s1, true. tauto.
    + exists s, false. split; [done |]. split; [| done]. by split; [..|].
Qed.

Lemma measure_fuel s : alloc_ok s -> measure s < Z.of_nat (alloc_fuel s).
Proof. intros []. unfold measure, alloc_fuel. bool_lia. Qed.

Lemma allocate_frame_spec s :
  alloc_ok s ->
  exists r s', allocate_frame s = Ret (r, s') /\ advances s s' /\
    match r with
    | Some f => good_frame s f /\ next_phys_addr s <= f /\ next_phys_addr s' = f + 4096
    | None => current_region_index s' = Z.of_nat (length (memory_map s'))
    end.
Proof.
  intros Hok. unfold allocate_frame, next_frame.
  destruct (next_frame_loop_spec _ s Hok (measure_fuel s Hok)) as (t & b & -> & Hadv & Hb).
  simpl obind. destruct b.
  - destruct Hb as [Hg Hb]. pose proof (adv_ok _ _ Hadv) as Hok1.
    destruct (ok_next _ Hok1) as [? ?]. rewrite containing_address_ok by lia. simpl obind.
    rewrite chk_u_ret by lia. simpl obind. eexists _, _. split; [done |].
    pose proof Hg as [Hal _]. rewrite Hal, Z.sub_0_r.
    split; [eapply advances_trans; [done |]; apply advance_next; [done | lia] |].
    split; [done |]. split; [apply (adv_next _ _ Hadv) | done].
  - exists None, t. done.
Qed.

End Proofs.

(** ** What clients rely on *)
Section Clients.
Context {F : FrameApi} {FL : FrameApiLaws F}.

(** Total and safe: on a memory map that fits the 52-bit physical address
    space, [allocate_frame] neither panics nor loops; a frame it hands out is
    4 KiB aligned, lies wholly inside a region of type 1, does not touch the
    kernel image and is not below the bump pointer, which moves past it. *)
Theorem allocate_frame_safe s :
  alloc_ok s ->
  exists r s', allocate_frame s = Ret (r, s') /\ alloc_ok s' /\
    match r with
    | Some f => good_frame s f /\ next_phys_addr s <= f /\ next_phys_addr s' = f + 4096
    | None => current_region_index s' = Z.of_nat (length (memory_map s'))
    end.
Proof.
  intros Hok. destruct (allocate_frame_spec s Hok) as (r & s' & E & Hadv & H).
  exists r, s'. split; [done |]. split; [apply (adv_ok _ _ Hadv) | done].
Qed.

Lemma allocate_frames_above n s :
  alloc_ok s ->
  exists fs s', allocate_frames n s = Ret (fs, s') /\ advances s s' /\
    Forall (fun f => good_frame s f /\ next_phys_addr s <= f) fs /\
    StronglySorted (fun f g => f + 4096 <= g) fs.
Proof.
  revert s; induction n as [|n IH]; intros s Hok; simpl.
  - exists [], s. split; [done |]. split; [by split |]. split; constructor.
  - destruct (allocate_frame_spec s Hok) as ([f|] & s1 & -> & Hadv & Hf); simpl obind.
    + destruct (IH s1 (adv_ok _ _ Hadv)) as (fs & s2 & -> & Hadv2 & Hall & Hsort).
      simpl obind. exists (f :: fs), s2. split; [done |].
      split; [by eapply advances_trans |]. destruct Hf as (Hg & Hle & Hn).
      assert (Hfs : Forall (fun g => good_frame s g /\ f + 4096 <= g) fs).
      { eapply Forall_impl; [exact Hall |]. intros g [? ?]. split; [by eapply advances_good | lia]. }
      split.
      * constructor; [done |]. eapply Forall_impl; [exact Hfs |]. intros g [? ?]. split; [done | lia].
      * constructor; [done |]. eapply Forall_impl; [exact Hfs |]. by intros g [? ?].
    + exists [], s1. split; [done |]. split; [done |]. split; constructor.
Qed.

(** No frame is handed out twice: the frames of any run of allocations are
    good, and each starts at or after the end of all the ones before it, so
    they are pairwise disjoint. *)
Theorem allocate_frames_disjoint n s :
  alloc_ok s ->
  exists fs s', allocate_frames n s = Ret (fs, s') /\
    Forall (good_frame s) fs /\
    StronglySorted (fun f g => f + 4096 <= g) fs /\ NoDup fs.
Proof.
  intros Hok. destruct (allocate_frames_above n s Hok) as (fs & s' & E & _ & Hall & Hsort).
  exists fs, s'. split; [done |]. split.
  { eapply Forall_impl; [exact Hall |]. by intros f [? _]. }
  split; [done |]. clear E Hall. induction Hsort as [|f fs _ IH Hf]; constructor; [|done].
  intros Hin. rewrite Forall_forall in Hf. specialize (Hf f Hin). lia.
Qed.

(** The test for a frame that fits compares with the last byte of the
    region ([end_addr] is inclusive), so a usable region of exactly one page
    yields no frame although a full frame fits in it. *)
Theorem exact_page_region_refused s e :
  alloc_ok s -> memory_map s = [e] -> mem_type e = 1 -> current_region_index s = 0 ->
  base_address e mod 4096 = 0 -> length_ e = 4096 -> next_phys_addr s <= base_address e ->
  exists s', allocate_frame s = Ret (None, s').
Proof.
  intros Hok Hmap Hty Hix Hal Hlen Hn.
  destruct (allocate_frame_spec s Hok) as ([f|] & s' & E & Hadv & Hf); [| eauto].
  destruct Hf as ((_ & _ & e' & Hin & _ & ? & ?) & _).
  rewrite Hmap in Hin. apply list_elem_of_singleton in Hin. subst e'. lia.
Qed.

End Clients.

Module MemoryWitness.
#[local] Existing Instance align_down_frames.
#[local] Existing Instance align_down_frames_laws.

(** A PC-like map: low memory, a hole, then RAM from 1 MiB. *)
Definition pc_map : list MemoryMapEntry :=
  [ {| base_address := 0; length_ := 654336; mem_type := 1; acpi_flags := 0 |};
    {| base_address := 654336; length_ := 1024; mem_type := 2; acpi_flags := 0 |};
    {| base_address := 1048576; length_ := 4194304; mem_type := 1; acpi_flags := 0 |} ].
Definition pc : BumpAllocator :=
  {| memory_map := pc_map; used_start := 1048576; used_end := 1572864;
     current_region_index := 0; next_phys_addr := 1048576 |}.
Definition one_page : BumpAllocator :=
  {| memory_map := [ {| base_address := 8192; length_ := 4096; mem_type := 1; acpi_flags := 0 |} ];
     used_start := 1048576; used_end := 1572864; current_region_index := 0; next_phys_addr := 0 |}.

Lemma pc_ok : alloc_ok pc.
Proof. split; simpl; repeat constructor; simpl; lia. Qed.
Lemma one_page_ok : alloc_ok one_page.
Proof. split; simpl; repeat constructor; simpl; lia. Qed.

Example pc_starts_at :
  starts_at 1048576 pc_map {| start_address := 1048576; size := 524289 |} = Ret pc.
Proof. vm_compute. reflexivity. Qed.

Lemma allocate_frame_safe_witness :
  alloc_ok pc /\ exists r s', allocate_frame pc = Ret (r, s') /\ alloc_ok s' /\
    match r with
    | Some f => good_frame pc f /\ next_phys_addr pc <= f /\ next_phys_addr s' = f + 4096
    | None => current_region_index s' = Z.of_nat (length (memory_map s'))
    end.
Proof. split; [exact pc_ok | exact (allocate_frame_safe pc pc_ok)]. Defined.

Example pc_first_frame : (r ← Some (allocate_frame pc); match r with Ret (f, _) => f | _ => None end)
  = Some 1576960.
Proof. vm_compute. reflexivity. Qed.

Lemma allocate_frames_disjoint_witness :
  exists fs s', allocate_frames 3 pc = Ret (fs, s') /\
    Forall (good_frame pc) fs /\
    StronglySorted (fun f g => f + 4096 <= g) fs /\ NoDup fs.
Proof. exact (allocate_frames_disjoint 3 pc pc_ok). Defined.

Lemma exact_page_region_refused_witness : exists s', allocate_frame one_page = Ret (None, s').
Proof.
  apply (exact_page_region_refused one_page
    {| base_address := 8192; length_ := 4096; mem_type := 1; acpi_flags := 0 |});
    [exact one_page_ok | reflexivity .. | simpl; lia].
Defined.
End MemoryWitness.
