(* ===== verification/Boot.v ===== *)
(** * The boot loader

    [bootloader/src]: the frame allocator over the memory map
    ([memory.rs]), the copy of the kernel's segments from its ELF file
    ([load_kernel_elf]), and the mappings [_start] makes before it jumps to
    the kernel ([main.rs]).  The kernel's own allocator ([Memory]) continues
    where the boot loader's stops. *)
From Stdlib Require Import Sorted.
From S2P Require Import Prelude Slices Memory.

(** ** The frame allocator *)
Record BootInfoFrameAllocator := {
  bi_memory_map : list MemoryMapEntry;
  bi_used_start : Z;
  bi_used_end : Z;
  start_frame_addr : Z;
  next : Z
}.

(** [(start..end).step_by(4096)] *)
Definition step_addrs (start end_ : Z) : list Z := (fun i => start + 4096 * i) <$> seqZ 0 (div_ceil (end_ - start) 4096).

Section Boot.
Context {F : FrameApi}.

Definition boot_starts_at (start_frame_addr : Z) (map : list MemoryMapEntry) (used : UsedRegion) : outcome BootInfoFrameAllocator :=
  let! start_frame := containing_address (start_address used) in
  let! e := chk_u 64 (start_address used + size used) in
  let! e := chk_u 64 (e - 1) in
  let! end_frame := containing_address e in
  Ret {| bi_memory_map := map; bi_used_start := start_frame; bi_used_end := end_frame; start_frame_addr := start_frame_addr; next := 0 |}.

Implicit Type s : BootInfoFrameAllocator.

(** The frames of the addresses of one region. *)
Fixpoint region_frames s (addrs : list Z) : outcome (list Z) :=
  match addrs with
  | [] => Ret []
  | a :: addrs =>
      if a >=? start_frame_addr s then
        let! pf := containing_address a in
        let! pfs := region_frames s addrs in
        Ret (if (pf >? bi_used_end s) || (pf <? bi_used_start s) then pf :: pfs else pfs)
      else region_frames s addrs
  end.

(** All that the iterator yields; [nth] stops earlier, which shows only when an
    address behind the one it returns overflows. *)
Fixpoint usable_of s (regions : list MemoryMapEntry) : outcome (list Z) :=
  match regions with
  | [] => Ret []
  | r :: regions =>
      if mem_type r =? 1 then
        let! e := end_addr r in
        let! fs := region_frames s (step_addrs (start_addr r) e) in
        let! more := usable_of s regions in
        Ret (fs ++ more)
      else usable_of s regions
  end.
Definition usable_frames s : outcome (list Z) := usable_of s (bi_memory_map s).

Definition next_free_phys_addr s : outcome Z :=
  let! l := usable_frames s in unwrap (l !! Z.to_nat (next s)).

Definition boot_allocate_frame s : outcome (option Z * BootInfoFrameAllocator) :=
  let! l := usable_frames s in
  let frame := l !! Z.to_nat (next s) in
  let! n := chk_u 64 (next s + 1) in
  Ret (frame, {| bi_memory_map := bi_memory_map s; bi_used_start := bi_used_start s; bi_used_end := bi_used_end s;
                 start_frame_addr := start_frame_addr s; next := n |}).

(** [n] frames, each expected, as the mappings of [_start] take them. *)
Fixpoint boot_take (n : nat) s : outcome (list Z * BootInfoFrameAllocator) :=
  match n with
  | O => Ret ([], s)
  | S n =>
      let! '(f, s) := boot_allocate_frame s in
      let! f := unwrap f in
      let! '(fs, s) := boot_take n s in
      Ret (f :: fs, s)
  end.
End Boot.

(** ** What is handed out *)

(** A memory map as [sort_unstable_by_key] leaves it: regions one after the
    other, usable ones starting on a page. *)
Definition after_region (r r' : MemoryMapEntry) : Prop := base_address r + length_ r <= base_address r'.
Definition map_ok (map : list MemoryMapEntry) : Prop :=
  Forall entry_ok map /\ Forall (fun r => mem_type r = 1 -> base_address r mod 4096 = 0) map /\ StronglySorted after_region map.

(** Frames in order, none of them twice. *)
Definition in_order (l : list Z) : Prop := StronglySorted (fun f g => f + 4096 <= g) l.

Section Frames.
Context {F : FrameApi} {FL : FrameApiLaws F}.
Implicit Type s : BootInfoFrameAllocator.

Definition boot_good s (f : Z) : Prop := f mod 4096 = 0 /\ start_frame_addr s <= f /\ (f > bi_used_end s \/ f < bi_used_start s).

Lemma region_frames_ret s (n : nat) : forall b,
  b mod 4096 = 0 -> 0 <= b -> b + 4096 * Z.of_nat n <= 2 ^ 52 ->
  exists l, region_frames s ((fun i => b + 4096 * i) <$> seqZ 0 (Z.of_nat n)) = Ret l /\ in_order l /\
    Forall (fun f => boot_good s f /\ b <= f < b + 4096 * Z.of_nat n) l.
Proof.
  induction n as [|n IH]; intros b Hb H0 Hn; [exists []; repeat constructor |].
  rewrite seqZ_cons, fmap_cons by lia. cbn [region_frames]. replace (b + 4096 * 0) with b by lia.
  assert (E : (fun i => b + 4096 * i) <$> seqZ (Z.succ 0) (Z.pred (Z.of_nat (S n))) = (fun i => b + 4096 + 4096 * i) <$> seqZ 0 (Z.of_nat n)).
  { change (Z.succ 0) with (1 + 0). rewrite <- fmap_add_seqZ, <- list_fmap_compose. replace (Z.pred (Z.of_nat (S n))) with (Z.of_nat n) by lia.
    apply list_fmap_ext. intros i x _. cbn. lia. }
  rewrite E. destruct (IH (b + 4096)) as (l & El & Ho & Hl); [rewrite Z.add_mod, Hb by lia; done | lia | lia |]. rewrite El.
  assert (Hall : Forall (fun f => boot_good s f /\ b <= f < b + 4096 * Z.of_nat (S n)) l) by (eapply Forall_impl; [exact Hl | intros f [? ?]; split; [done | lia]]).
  rewrite Z.geb_leb. destruct (Z.leb_spec (start_frame_addr s) b); [| by exists l].
  rewrite containing_address_ok by lia. cbn [obind]. rewrite Hb, Z.sub_0_r. destruct ((b >? _) || (b <? _)) eqn:Eg; [| by exists l].
  exists (b :: l). split; [done |]. split; [constructor; [done |] | constructor; [| done]].
  - eapply Forall_impl; [exact Hl |]. intros f [_ Hf]. lia.
  - split; [| lia]. split; [done |]. split; [done |]. rewrite Z.gtb_ltb in Eg. lia.
Qed.

Lemma in_order_app l1 l2 c : in_order l1 -> in_order l2 -> Forall (fun f => f + 4096 <= c) l1 -> Forall (fun g => c <= g) l2 -> in_order (l1 ++ l2).
Proof.
  induction l1 as [|f l1 IH]; intros H1 H2 Hc1 Hc2; [done |]. apply StronglySorted_inv in H1 as [H1 Hf]. apply Forall_cons in Hc1 as [Hf1 Hc1].
  cbn. constructor; [by apply IH |]. apply Forall_app. split; [done |]. eapply Forall_impl; [exact Hc2 |]. intros g Hg. cbn in *. lia.
Qed.

(** Two page addresses less than a page apart. *)
Lemma aligned_gap a b : a mod 4096 = 0 -> b mod 4096 = 0 -> a - 4096 < b -> a <= b.
Proof. intros Ha Hb H. apply Z.mod_divide in Ha as [x ->]; [| lia]. apply Z.mod_divide in Hb as [y ->]; lia. Qed.

(** Regions from [b] on yield frames from [b] on. *)
Lemma usable_of_ret s map b :
  map_ok map -> b mod 4096 = 0 -> Forall (fun r => mem_type r = 1 -> b <= base_address r) map ->
  exists l, usable_of s map = Ret l /\ in_order l /\ Forall (fun f => boot_good s f /\ b <= f) l.
Proof.
  intros (He & Ha & Hs) Hb Hle. revert b Hb Hle. induction map as [|r map IH]; intros b Hb Hle; cbn [usable_of]; [exists []; repeat constructor |].
  apply Forall_cons in He as [Her He]. apply Forall_cons in Ha as [Har Ha]. apply StronglySorted_inv in Hs as [Hs Hr]. apply Forall_cons in Hle as [Hbr Hle].
  destruct (Z.eqb_spec (mem_type r) 1) as [E1|]; [| by apply IH]. specialize (Har E1). destruct Her as (H0 & H1 & H2).
  unfold end_addr, start_addr. rewrite !chk_u_ret by lia. cbn [obind]. rewrite chk_u_ret by lia. cbn [obind].
  set (n := Z.to_nat (div_ceil (base_address r + length_ r - 1 - base_address r) 4096)).
  assert (En : Z.of_nat n = (length_ r - 1 + 4095) / 4096).
  { unfold n, div_ceil. rewrite Z2Nat.id; [f_equal; lia | apply Z.div_pos; lia]. }
  pose proof (Z.div_mod (length_ r - 1 + 4095) 4096 ltac:(lia)). pose proof (Z.mod_pos_bound (length_ r - 1 + 4095) 4096 ltac:(lia)).
  unfold step_addrs. rewrite <- (Z2Nat.id (div_ceil _ _)) by (unfold div_ceil; apply Z.div_pos; lia). fold n.
  destruct (region_frames_ret s n (base_address r)) as (l1 & -> & Ho1 & Hl1); [done | lia | lia |]. cbn [obind].
  (* the next usable region starts on the page after the last frame *)
  set (c := base_address r + 4096 * Z.of_nat n).
  assert (Hc : c mod 4096 = 0) by (unfold c; rewrite Z.add_mod, Har, Z.mul_comm, Z.mod_mul by lia; done).
  destruct (IH He Ha Hs c Hc) as (l2 & -> & Ho2 & Hl2).
  { rewrite Forall_forall in *. intros r' Hr' Hu. pose proof (Ha r' Hr' Hu). pose proof (Hr r' Hr'). unfold after_region in *.
    apply (aligned_gap c (base_address r')); [done | done | unfold c; lia]. }
  cbn [obind]. exists (l1 ++ l2). split; [done |]. split.
  - apply (in_order_app l1 l2 c Ho1 Ho2); [| eapply Forall_impl; [exact Hl2 | by intros g [_ ?]]].
    rewrite Forall_forall in *. intros f Hf. destruct (Hl1 f Hf) as [[Hm _] Hb']. apply (aligned_gap (f + 4096) c); [| done | unfold c in *; lia].
    rewrite Z.add_mod, Hm by lia. done.
  - apply Forall_app. split; [eapply Forall_impl; [exact Hl1 |]; intros f [? ?]; split; [done | specialize (Hbr E1); lia] |].
    eapply Forall_impl; [exact Hl2 |]. intros f [? ?]. split; [done |]. specialize (Hbr E1). unfold c in *. lia.
Qed.

Lemma usable_frames_ret s :
  map_ok (bi_memory_map s) -> exists l, usable_frames s = Ret l /\ in_order l /\ Forall (boot_good s) l.
Proof.
  intros Hm. destruct (usable_of_ret s (bi_memory_map s) 0 Hm) as (l & E & Ho & Hl); [done | |].
  - destruct Hm as [He _]. eapply Forall_impl; [exact He |]. intros r [? _] _. lia.
  - exists l. split; [done |]. split; [done |]. eapply Forall_impl; [exact Hl |]. by intros f [? _].
Qed.

(** The frames do not depend on how many have been taken. *)
Definition with_taken s (n : Z) : BootInfoFrameAllocator :=
  {| bi_memory_map := bi_memory_map s; bi_used_start := bi_used_start s; bi_used_end := bi_used_end s;
     start_frame_addr := start_frame_addr s; next := n |}.
Lemma usable_frames_taken s n : usable_frames (with_taken s n) = usable_frames s.
Proof.
  assert (H : forall l, region_frames (with_taken s n) l = region_frames s l).
  { induction l as [|a l IH]; [done |]. cbn [region_frames]. by rewrite IH. }
  unfold usable_frames. cbn [bi_memory_map with_taken]. induction (bi_memory_map s) as [|r map IH]; [done |]. cbn [usable_of].
  rewrite IH. destruct (mem_type r =? 1); [| done]. destruct (end_addr r); [cbn [obind]; by rewrite H | done | done].
Qed.

(** Taking [n] frames takes the next [n] of the list. *)
Lemma boot_take_inv n : forall s l fs s',
  usable_frames s = Ret l -> 0 <= next s -> boot_take n s = Ret (fs, s') ->
  fs = get l (Z.to_nat (next s)) n /\ length fs = n /\ usable_frames s' = Ret l /\ next s' = next s + Z.of_nat n.
Proof.
  induction n as [|n IH]; intros s l fs s' El Hn E; cbn [boot_take] in E.
  { injection E as <- <-. split; [done |]. split; [done |]. split; [done | lia]. }
  unfold boot_allocate_frame in E. rewrite El in E. cbn [obind] in E. run_inv E. destruct v as [o s1]. run_inv E0. apply chk_u_inv in E1 as [-> _].
  injection E0 as <- <-. run_inv E. destruct (l !! Z.to_nat (next s)) as [f|] eqn:Ef; [| done]. cbn in E0. injection E0 as <-.
  run_inv E. destruct v as [fs1 s2]. injection E as <- <-.
  destruct (IH (with_taken s (next s + 1)) l fs1 s2) as (-> & Hlen & El2 & En); [by rewrite usable_frames_taken | cbn; lia | done |].
  cbn [next with_taken] in *. unfold get in *.
  replace (Z.to_nat (next s + 1)) with (S (Z.to_nat (next s))) in * by lia. rewrite (drop_S _ _ _ Ef).
  split; [done |]. split; [cbn; by rewrite Hlen |]. split; [done | lia].
Qed.
Lemma in_order_before l1 a l2 : in_order (l1 ++ a :: l2) -> Forall (fun f => f + 4096 <= a) l1.
Proof.
  induction l1 as [|f l1 IH]; intros H; [constructor |]. apply StronglySorted_inv in H as [H Hf]. constructor; [| by apply IH].
  rewrite Forall_forall in Hf. apply Hf. set_solver.
Qed.
Lemma in_order_prefix l1 l2 : in_order (l1 ++ l2) -> in_order l1.
Proof.
  induction l1 as [|f l1 IH]; intros H; [constructor |]. apply StronglySorted_inv in H as [H Hf]. constructor; [by apply IH |].
  by apply Forall_app in Hf as [Hf _].
Qed.

(** A frame outside the range of frames of an image is outside the image. *)
Lemma outside_image f start sz :
  f mod 4096 = 0 -> 1 <= sz -> f > start + sz - 1 - (start + sz - 1) mod 4096 \/ f < start - start mod 4096 ->
  f + 4096 <= start \/ start + sz <= f.
Proof.
  intros Hf Hs Ho. assert (Hal : forall x, (x - x mod 4096) mod 4096 = 0) by (intros x; rewrite Zminus_mod_idemp_r, Z.sub_diag; done).
  pose proof (Z.mod_pos_bound start 4096 ltac:(lia)). pose proof (Z.mod_pos_bound (start + sz - 1) 4096 ltac:(lia)). destruct Ho as [Ho | Ho].
  - right. assert (start + sz - 1 - (start + sz - 1) mod 4096 + 4096 <= f); [| lia]. apply aligned_gap; [| done | lia].
    rewrite Z.add_mod, Hal by lia. done.
  - left. assert (f + 4096 <= start - start mod 4096); [| lia]. apply aligned_gap; [| apply Hal | lia]. rewrite Z.add_mod, Hf by lia. done.
Qed.

(** The kernel's allocator starts from the same map and image. *)
Lemma kernel_starts a map used (s : BumpAllocator) :
  map_ok map -> Z.of_nat (length map) < 2 ^ 32 -> 0 <= a <= 2 ^ 52 - 4096 ->
  0 <= start_address used -> 1 <= size used -> start_address used + size used <= 2 ^ 52 - 16384 ->
  starts_at a map used = Ret s -> alloc_ok s /\ next_phys_addr s = a.
Proof.
  intros [He _] Hl Ha H0 H1 H2 E. unfold starts_at in E. rewrite containing_address_ok in E by lia. cbn [obind] in E.
  rewrite chk_u_ret in E by lia. cbn [obind] in E. rewrite chk_u_ret in E by lia. cbn [obind] in E.
  rewrite containing_address_ok in E by lia. injection E as <-. split; [| done].
  pose proof (Z.mod_pos_bound (start_address used) 4096 ltac:(lia)). pose proof (Z.mod_pos_bound (start_address used + size used - 1) 4096 ltac:(lia)).
  assert (Hal : forall x, (x - x mod 4096) mod 4096 = 0) by (intros x; rewrite Zminus_mod_idemp_r, Z.sub_diag; done).
  pose proof (Z.mod_le (start_address used) 4096 H0 ltac:(lia)).
  split; cbn; try done; try lia. split; [lia |]. split; [| lia]. apply aligned_gap; [apply Hal | apply Hal | lia].
Qed.

(** [C31] The kernel never gets a frame the boot loader has used.  The boot
    loader takes frames for its page tables and the kernel's stack and passes
    the next free address on; whatever the kernel's allocator then hands out
    lies behind all of them, and neither allocator hands out a frame twice or
    a frame of the kernel's image. *)
Theorem boot_kernel_frames_disjoint map used low s0 n fs s1 a (ks : BumpAllocator) m gs ks' :
  map_ok map -> Z.of_nat (length map) < 2 ^ 32 ->
  0 <= start_address used -> 1 <= size used -> start_address used + size used <= 2 ^ 52 - 16384 ->
  boot_starts_at low map used = Ret s0 -> boot_take n s0 = Ret (fs, s1) -> next_free_phys_addr s1 = Ret a ->
  0 <= a <= 2 ^ 52 - 4096 -> starts_at a map used = Ret ks -> allocate_frames m ks = Ret (gs, ks') ->
  in_order (fs ++ gs) /\ length fs = n /\
  Forall (fun f => f + 4096 <= start_address used \/ start_address used + size used <= f) (fs ++ gs).
Proof.
  intros Hm Hl H0 H1 H2 E0 Et Ea Hab Ek Eg. destruct (kernel_starts a map used ks Hm Hl Hab H0 H1 H2 Ek) as [Hok Hna].
  assert (Hu : (used_start ks, used_end ks) = (bi_used_start s0, bi_used_end s0) /\ bi_memory_map s0 = map /\ next s0 = 0 /\
    bi_used_start s0 = start_address used - start_address used mod 4096 /\
    bi_used_end s0 = start_address used + size used - 1 - (start_address used + size used - 1) mod 4096).
  { unfold boot_starts_at, starts_at in *. rewrite !containing_address_ok in E0, Ek by lia. cbn [obind] in *. rewrite !chk_u_ret in E0, Ek by lia. cbn [obind] in *.
    rewrite chk_u_ret in E0, Ek by lia. cbn [obind] in *. rewrite containing_address_ok in E0, Ek by lia. injection E0 as <-. injection Ek as <-. done. }
  destruct Hu as (Hu & Emap & En & Eus & Eue). injection Hu as Hus Hue.
  destruct (usable_frames_ret s0) as (l & El & Ho & Hgood); [by rewrite Emap |].
  destruct (boot_take_inv n s0 l fs s1 El ltac:(lia) Et) as (Efs & Hlen & El1 & En1). rewrite En in *. change (Z.to_nat 0) with O in Efs.
  unfold next_free_phys_addr in Ea. rewrite El1 in Ea. cbn [obind] in Ea. rewrite En1 in Ea.
  destruct (l !! Z.to_nat (0 + Z.of_nat n)) as [a'|] eqn:Ela; [| done]. injection Ea as ->. replace (Z.to_nat (0 + Z.of_nat n)) with n in Ela by lia.
  destruct (allocate_frames_above m ks Hok) as (gs' & ks1 & Eg' & _ & Hgs & Hsort). assert (gs' = gs) as -> by congruence.
  assert (Hsplit : l = fs ++ a :: drop (S n) l) by (rewrite Efs; unfold get; rewrite drop_0; symmetry; by apply take_drop_middle).
  assert (Hbelow : Forall (fun f => f + 4096 <= a) fs) by (apply (in_order_before fs a (drop (S n) l)); by rewrite <- Hsplit).
  assert (Hofs : in_order fs) by (apply (in_order_prefix fs (a :: drop (S n) l)); by rewrite <- Hsplit).
  split; [| split; [done |]].
  - apply (in_order_app fs gs a Hofs Hsort Hbelow). eapply Forall_impl; [exact Hgs |]. intros g [_ Hg]. lia.
  - apply Forall_app. split.
    + rewrite Hsplit in Hgood. apply Forall_app in Hgood as [Hgood _]. eapply Forall_impl; [exact Hgood |]. intros f (Hf & _ & Hout).
      apply (outside_image f (start_address used) (size used)); [done | lia |]. rewrite <- Eus, <- Eue. lia.
    + eapply Forall_impl; [exact Hgs |]. intros g [(Hg & Hout & _) _]. apply (outside_image g (start_address used) (size used)); [done | lia |].
      rewrite Hus, Hue, Eus, Eue in Hout. lia.
Qed.
End Frames.

(** ** A machine of a few pages *)
Module BootWitness.
#[local] Existing Instance align_down_frames.
#[local] Existing Instance align_down_frames_laws.
Definition ram : list MemoryMapEntry :=
  [ {| base_address := 0; length_ := 0x9FC00; mem_type := 1; acpi_flags := 1 |};
    {| base_address := 0xF0000; length_ := 0x10000; mem_type := 2; acpi_flags := 1 |};
    {| base_address := 0x100000; length_ := 0x10000; mem_type := 1; acpi_flags := 1 |} ].
Definition image : UsedRegion := {| start_address := 0x100000; size := 0x2800 |}.

Lemma ram_ok : map_ok ram.
Proof. repeat split; repeat constructor; cbn; unfold after_region; cbn; done || lia. Qed.

Definition boot0 : BootInfoFrameAllocator :=
  {| bi_memory_map := ram; bi_used_start := 0x100000; bi_used_end := 0x102000; start_frame_addr := 0x100000; next := 0 |}.
Definition kernel0 : BumpAllocator :=
  {| memory_map := ram; used_start := 0x100000; used_end := 0x102000; current_region_index := 0; next_phys_addr := 0x106000 |}.

Lemma boot_kernel_frames_disjoint_witness :
  exists ks', allocate_frames 2 kernel0 = Ret ([0x106000; 0x107000], ks') /\
  in_order ([0x103000; 0x104000; 0x105000] ++ [0x106000; 0x107000]) /\ length [0x103000; 0x104000; 0x105000] = 3%nat /\
  Forall (fun f => f + 4096 <= start_address image \/ start_address image + size image <= f) ([0x103000; 0x104000; 0x105000] ++ [0x106000; 0x107000]).
Proof.
  eexists. split; [vm_compute; reflexivity |].
  eapply (boot_kernel_frames_disjoint ram image 0x100000 boot0 3 [0x103000; 0x104000; 0x105000] (with_taken boot0 3) 0x106000 kernel0 2 [0x106000; 0x107000]);
    [apply ram_ok | cbn; lia | cbn; lia | cbn; lia | cbn; lia | vm_compute; reflexivity | vm_compute; reflexivity | vm_compute; reflexivity | lia
    | vm_compute; reflexivity | vm_compute; reflexivity].
Defined.

(** A region that starts inside a page: the frame of its first address starts
    before it, and the boot loader hands it out. *)
Example unaligned_region_underrun :
  usable_frames {| bi_memory_map := [ {| base_address := 0x200800; length_ := 0x2000; mem_type := 1; acpi_flags := 1 |} ];
    bi_used_start := 0x100000; bi_used_end := 0x102000; start_frame_addr := 0x100000; next := 0 |} = Ret [0x200000; 0x201000].
Proof. vm_compute. reflexivity. Qed.
End BootWitness.
