(* ===== verification/BootLoad.v ===== *)
(** * The boot loader's work for the kernel

    [bootloader/src/main.rs]: [load_kernel_elf] copies the kernel's segments
    from the ELF file in memory to their addresses, and [_start] maps the frame
    buffer, the kernel, its stack, all physical memory and the low memory. *)
From Stdlib Require Import Sorted.
From S2P Require Import Prelude Slices Memory.

Definition KERNEL_BASE_ADDR : Z := 0xFFFFFFFF80000000.
Definition LOWER_MEMORY_END_PAGE : Z := 0x100000.

(** ** Raw memory *)
Definition rd (m : gmap Z Z) (a : Z) : Z := default 0 (m !! a).
Definition rd_le (m : gmap Z Z) (a n : Z) : Z := le_num (rd m <$> seqZ a n).

(** [for i in 0..n { *dst.add(i) = *src.add(i) }] *)
Fixpoint copy_bytes (n : nat) (src dst : Z) (m : gmap Z Z) : gmap Z Z :=
  match n with O => m | S n => copy_bytes n (src + 1) (dst + 1) (<[dst := rd m src]> m) end.
(** [for i in 0..n { *dst.add(i) = 0 }] *)
Fixpoint zero_bytes (n : nat) (dst : Z) (m : gmap Z Z) : gmap Z Z :=
  match n with O => m | S n => zero_bytes n (dst + 1) (<[dst := 0]> m) end.

(** ** The ELF file *)

(** The fields that are read, at their offsets in the [repr(C)] structures. *)
Record Elf64Ehdr := { e_entry : Z; e_phoff : Z; e_phnum : Z }.
Record Elf64Phdr := { p_type : Z; p_offset : Z; p_vaddr : Z; p_filesz : Z; p_memsz : Z }.
Definition read_ehdr (m : gmap Z Z) (a : Z) : Elf64Ehdr :=
  {| e_entry := rd_le m (a + 24) 8; e_phoff := rd_le m (a + 32) 8; e_phnum := rd_le m (a + 56) 2 |}.
Definition read_phdr (m : gmap Z Z) (a : Z) : Elf64Phdr :=
  {| p_type := rd_le m a 4; p_offset := rd_le m (a + 8) 8; p_vaddr := rd_le m (a + 16) 8;
     p_filesz := rd_le m (a + 32) 8; p_memsz := rd_le m (a + 40) 8 |}.

Definition elf_base : Z := KERNEL_BASE_ADDR + 0x1000000.

(** One turn of the loop, on the smallest and largest address so far. *)
Definition load_phdr (ph : Elf64Phdr) (st : Z * Z * gmap Z Z) : outcome (Z * Z * gmap Z Z) :=
  let '(min_vaddr, max_vaddr, m) := st in
  if negb (p_type ph =? 1) then Ret st else
  let min_vaddr := if p_vaddr ph <? min_vaddr then p_vaddr ph else min_vaddr in
  let! end_ := chk_u 64 (p_vaddr ph + p_memsz ph) in
  let max_vaddr := if end_ >? max_vaddr then end_ else max_vaddr in
  let! src := chk_u 64 (elf_base + p_offset ph) in
  let m := copy_bytes (Z.to_nat (p_filesz ph)) src (p_vaddr ph) m in
  let! bss_start := chk_u 64 (p_vaddr ph + p_filesz ph) in
  let! bss_size := sub_u (p_memsz ph) (p_filesz ph) in
  Ret (min_vaddr, max_vaddr, zero_bytes (Z.to_nat bss_size) bss_start m).

(** Each header is read when its turn comes. *)
Fixpoint load_phdrs (n : nat) (at_ : Z) (st : Z * Z * gmap Z Z) : outcome (Z * Z * gmap Z Z) :=
  match n with
  | O => Ret st
  | S n => let! st := load_phdr (read_phdr (snd st) at_) st in load_phdrs n (at_ + 56) st
  end.

Definition load_kernel_elf (m : gmap Z Z) : outcome (Z * Z * gmap Z Z) :=
  let ehdr := read_ehdr m elf_base in
  let! phdrs := chk_u 64 (elf_base + e_phoff ehdr) in
  let! '(min_vaddr, max_vaddr, m) := load_phdrs (Z.to_nat (e_phnum ehdr)) phdrs (2 ^ 64 - 1, 0, m) in
  let! kernel_size := sub_u max_vaddr min_vaddr in
  Ret (e_entry (read_ehdr m elf_base), kernel_size, m).

(** ** Copies *)
Lemma rd_insert m a x b : rd (<[a := x]> m) b = if decide (a = b) then x else rd m b.
Proof. unfold rd. destruct (decide (a = b)) as [<- | Hne]; [by rewrite lookup_insert_eq | by rewrite lookup_insert_ne]. Qed.

Lemma copy_bytes_rd n : forall src dst m,
  src + Z.of_nat n <= dst \/ dst + Z.of_nat n <= src -> forall a,
  rd (copy_bytes n src dst m) a = if decide (dst <= a < dst + Z.of_nat n) then rd m (src + (a - dst)) else rd m a.
Proof.
  induction n as [|n IH]; intros src dst m Hd a; cbn [copy_bytes]; [by rewrite decide_False by lia |].
  rewrite IH by lia. rewrite !rd_insert. destruct (decide (dst + 1 <= a < dst + 1 + Z.of_nat n)) as [H1|H1].
  - rewrite (decide_True (P := dst <= a < dst + Z.of_nat (S n))) by lia. rewrite decide_False by lia. f_equal. lia.
  - destruct (decide (dst = a)) as [->|Hne].
    + rewrite (decide_True (P := a <= a < a + Z.of_nat (S n))) by lia. f_equal. lia.
    + by rewrite (decide_False (P := dst <= a < dst + Z.of_nat (S n))) by lia.
Qed.

Lemma zero_bytes_rd n : forall dst m a,
  rd (zero_bytes n dst m) a = if decide (dst <= a < dst + Z.of_nat n) then 0 else rd m a.
Proof.
  induction n as [|n IH]; intros dst m a; cbn [zero_bytes]; [by rewrite decide_False by lia |].
  rewrite IH, rd_insert. destruct (decide (dst + 1 <= a < dst + 1 + Z.of_nat n)) as [H1|H1].
  - by rewrite decide_True by lia.
  - destruct (decide (dst = a)) as [->|Hne]; [by rewrite decide_True by lia | by rewrite (decide_False (P := dst <= a < dst + Z.of_nat (S n))) by lia].
Qed.

(** Reads of a range depend on its bytes only. *)
Lemma rd_le_ext m m' a n : (forall i, a <= i < a + n -> rd m' i = rd m i) -> rd_le m' a n = rd_le m a n.
Proof.
  intros H. unfold rd_le. f_equal. apply list_fmap_ext. intros i x Hx. apply H. apply list_elem_of_lookup_2, elem_of_seqZ in Hx. lia.
Qed.

(** ** Loading *)

(** What a segment puts at an address, given the file in memory [m]. *)
Definition seg_byte (m : gmap Z Z) (ph : Elf64Phdr) (a : Z) : Z :=
  if decide (a < p_vaddr ph + p_filesz ph) then rd m (elf_base + p_offset ph + (a - p_vaddr ph)) else 0.
Definition in_seg (ph : Elf64Phdr) (a : Z) : Prop := p_type ph = 1 /\ p_vaddr ph <= a < p_vaddr ph + p_memsz ph.
#[export] Instance in_seg_dec ph a : Decision (in_seg ph a).
Proof. unfold in_seg. apply _. Defined.

(** A segment that lies in the file of [len] bytes and is loaded outside it. *)
Record seg_ok (len : Z) (ph : Elf64Phdr) : Prop := {
  sg_sizes : 0 <= p_filesz ph <= p_memsz ph;
  sg_dest : 0 <= p_vaddr ph /\ p_vaddr ph + p_memsz ph < 2 ^ 64;
  sg_src : 0 <= p_offset ph /\ p_offset ph + p_filesz ph <= len;
  sg_outside : p_vaddr ph + p_memsz ph <= elf_base \/ elf_base + len <= p_vaddr ph
}.

Lemma load_phdr_ret len ph mi ma m :
  seg_ok len ph -> elf_base + len < 2 ^ 64 -> p_type ph = 1 ->
  exists m', load_phdr ph (mi, ma, m) = Ret (Z.min (p_vaddr ph) mi, Z.max (p_vaddr ph + p_memsz ph) ma, m') /\
    (forall a, in_seg ph a -> rd m' a = seg_byte m ph a) /\ (forall a, ~ in_seg ph a -> rd m' a = rd m a).
Proof.
  intros [Hs Hd Ho Hout] Hl Ht. unfold load_phdr. rewrite Ht. cbn [Z.eqb Pos.eqb negb]. assert (Hbase : 0 < elf_base) by done.
  rewrite !chk_u_ret by lia. cbn [obind]. unfold sub_u. rewrite (proj2 (Z.ltb_ge _ _)) by lia. cbn [obind].
  eexists. split.
  { do 2 f_equal. f_equal; [destruct (Z.ltb_spec (p_vaddr ph) mi); lia | rewrite Z.gtb_ltb; destruct (Z.ltb_spec ma (p_vaddr ph + p_memsz ph)); lia]. }
  assert (Hcopy := copy_bytes_rd (Z.to_nat (p_filesz ph)) (elf_base + p_offset ph) (p_vaddr ph) m ltac:(lia)).
  split; intros a Ha; unfold in_seg, seg_byte in *; rewrite zero_bytes_rd, Hcopy, !Z2Nat.id by lia.
  - destruct (decide (p_vaddr ph + p_filesz ph <= a < _)) as [H1|H1]; [by rewrite decide_False by lia |].
    rewrite !decide_True by lia. done.
  - rewrite decide_False by lia. by rewrite decide_False by lia.
Qed.

(** The program headers of the file. *)
Fixpoint headers (m : gmap Z Z) (at_ : Z) (n : nat) : list Elf64Phdr :=
  match n with O => [] | S n => read_phdr m at_ :: headers m (at_ + 56) n end.
Definition seg_apart (ph ph' : Elf64Phdr) : Prop := forall a, in_seg ph a -> ~ in_seg ph' a.
Definition lowest (phs : list Elf64Phdr) (mi : Z) : Z :=
  foldl (fun mi ph => if decide (p_type ph = 1) then Z.min (p_vaddr ph) mi else mi) mi phs.
Definition highest (phs : list Elf64Phdr) (ma : Z) : Z :=
  foldl (fun ma ph => if decide (p_type ph = 1) then Z.max (p_vaddr ph + p_memsz ph) ma else ma) ma phs.

(** The file is where it was. *)
Definition same_file (len : Z) (m m' : gmap Z Z) : Prop := forall a, elf_base <= a < elf_base + len -> rd m' a = rd m a.

Lemma read_phdr_same len m m' a : same_file len m m' -> elf_base <= a -> a + 56 <= elf_base + len -> read_phdr m' a = read_phdr m a.
Proof. intros H H1 H2. unfold read_phdr. f_equal; apply rd_le_ext; intros i Hi; apply H; lia. Qed.

Lemma seg_byte_same len m m' ph a : same_file len m m' -> seg_ok len ph -> in_seg ph a -> seg_byte m' ph a = seg_byte m ph a.
Proof.
  intros H [Hs _ Ho _] [_ Ha]. unfold seg_byte. destruct (decide _); [| done]. apply H. lia.
Qed.

Lemma seg_outside_file len ph a : seg_ok len ph -> elf_base <= a < elf_base + len -> ~ in_seg ph a.
Proof. intros [_ _ _ Hout] Ha [_ Hin]. lia. Qed.

Lemma load_phdrs_ret len m0 : elf_base + len < 2 ^ 64 -> forall n at_ mi ma m,
  same_file len m0 m -> elf_base <= at_ -> at_ + 56 * Z.of_nat n <= elf_base + len ->
  let phs := headers m0 at_ n in
  Forall (fun ph => p_type ph = 1 -> seg_ok len ph) phs -> StronglySorted seg_apart phs ->
  exists m', load_phdrs n at_ (mi, ma, m) = Ret (lowest phs mi, highest phs ma, m') /\
    (forall ph a, ph ∈ phs -> in_seg ph a -> rd m' a = seg_byte m0 ph a) /\
    (forall a, (forall ph, ph ∈ phs -> ~ in_seg ph a) -> rd m' a = rd m a).
Proof.
  intros Hlen. induction n as [|n IH]; intros at_ mi ma m Hm H1 H2 phs Hok Hap; cbn [load_phdrs snd].
  { exists m. split; [done |]. split; [set_solver | done]. }
  cbn [headers] in phs. rewrite (read_phdr_same len m0 m) by (done || lia). set (ph := read_phdr m0 at_) in *. set (rest := headers m0 (at_ + 56) n) in *.
  apply Forall_cons in Hok as [Hph Hok]. apply StronglySorted_inv in Hap as [Hap Hapart]. rewrite Forall_forall in Hapart.
  destruct (decide (p_type ph = 1)) as [E1|E1].
  - destruct (load_phdr_ret len ph mi ma m (Hph E1) Hlen E1) as (m1 & -> & Hin & Hout). cbn [obind].
    destruct (IH (at_ + 56) (Z.min (p_vaddr ph) mi) (Z.max (p_vaddr ph + p_memsz ph) ma) m1) as (m' & E & Hin' & Hout'); [| lia | lia | done | done |].
    { intros a Ha. rewrite Hout; [by apply Hm |]. by apply (seg_outside_file len); [apply Hph |]. }
    fold rest in E, Hin', Hout'. exists m'. split; [unfold phs, lowest, highest; cbn [foldl]; by rewrite !decide_True by done |]. split.
    + intros p a Hp Ha. apply elem_of_cons in Hp as [-> | Hp]; [| by apply Hin'].
      rewrite Hout' by (intros q Hq; by apply (Hapart q Hq)). rewrite Hin by done. by apply (seg_byte_same len); [| apply Hph |].
    + intros a Ha. rewrite Hout' by (intros q Hq; apply Ha; set_solver). apply Hout, Ha. set_solver.
  - assert (load_phdr ph (mi, ma, m) = Ret (mi, ma, m)) as ->.
    { unfold load_phdr. by rewrite (proj2 (Z.eqb_neq _ _) E1). }
    cbn [obind]. destruct (IH (at_ + 56) mi ma m Hm) as (m' & E & Hin' & Hout'); [lia | lia | done | done |]. fold rest in E, Hin', Hout'.
    exists m'. split; [unfold phs, lowest, highest; cbn [foldl]; by rewrite !decide_False by done |]. split.
    + intros p a Hp Ha. apply elem_of_cons in Hp as [-> | Hp]; [by destruct Ha | by apply Hin'].
    + intros a Ha. apply Hout'. intros q Hq. apply Ha. set_solver.
Qed.

Lemma lowest_le phs : forall mi, lowest phs mi <= mi /\ (forall ph, ph ∈ phs -> p_type ph = 1 -> lowest phs mi <= p_vaddr ph).
Proof.
  induction phs as [|p phs IH]; intros mi; cbn; [split; [lia | set_solver] |].
  destruct (decide (p_type p = 1)) as [E|E]; [destruct (IH (Z.min (p_vaddr p) mi)) as [H1 H2] | destruct (IH mi) as [H1 H2]];
    (split; [unfold lowest in *; lia |]); intros ph [-> | Hp]%elem_of_cons Ht; try (by apply H2); try done. unfold lowest in *. lia.
Qed.
Lemma highest_ge phs : forall ma, ma <= highest phs ma /\ (forall ph, ph ∈ phs -> p_type ph = 1 -> p_vaddr ph + p_memsz ph <= highest phs ma).
Proof.
  induction phs as [|p phs IH]; intros ma; cbn; [split; [lia | set_solver] |].
  destruct (decide (p_type p = 1)) as [E|E]; [destruct (IH (Z.max (p_vaddr p + p_memsz p) ma)) as [H1 H2] | destruct (IH ma) as [H1 H2]];
    (split; [unfold highest in *; lia |]); intros ph [-> | Hp]%elem_of_cons Ht; try (by apply H2); try done. unfold highest in *. lia.
Qed.

(** [C32] The kernel is loaded.  For an ELF file in memory whose segments lie
    in the file, do not overlap each other and are loaded outside the file,
    [load_kernel_elf] returns the entry point and a size; every segment's
    memory holds its bytes of the file and then zeros, nothing else changes,
    and the segments fit in the size from the lowest one on. *)
Theorem kernel_loaded m len :
  let eh := read_ehdr m elf_base in
  let phs := headers m (elf_base + e_phoff eh) (Z.to_nat (e_phnum eh)) in
  64 <= len -> elf_base + len < 2 ^ 64 -> 0 <= e_phoff eh -> e_phoff eh + 56 * Z.of_nat (Z.to_nat (e_phnum eh)) <= len ->
  Forall (fun ph => p_type ph = 1 -> seg_ok len ph) phs -> StronglySorted seg_apart phs -> Exists (fun ph => p_type ph = 1) phs ->
  exists size m', load_kernel_elf m = Ret (e_entry eh, size, m') /\
    (forall ph a, ph ∈ phs -> in_seg ph a -> rd m' a = seg_byte m ph a) /\
    (forall a, (forall ph, ph ∈ phs -> ~ in_seg ph a) -> rd m' a = rd m a) /\
    (forall ph ph', ph ∈ phs -> ph' ∈ phs -> p_type ph = 1 -> p_type ph' = 1 -> p_vaddr ph + p_memsz ph <= p_vaddr ph' + size).
Proof.
  intros eh phs H64 Hlen H0 Hph Hok Hap Hex. unfold load_kernel_elf. fold eh. assert (Hbase : 0 < elf_base) by done.
  rewrite chk_u_ret by lia. cbn [obind].
  destruct (load_phdrs_ret len m Hlen (Z.to_nat (e_phnum eh)) (elf_base + e_phoff eh) (2 ^ 64 - 1) 0 m) as (m' & -> & Hin & Hout);
    [done | lia | lia | done | done |]. cbn [obind]. fold phs in Hin, Hout |- *.
  destruct (lowest_le phs (2 ^ 64 - 1)) as [_ Hlo]. destruct (highest_ge phs 0) as [_ Hhi].
  apply Exists_exists in Hex as (p & Hp & Ht). rewrite Forall_forall in Hok. pose proof (Hlo p Hp Ht). pose proof (Hhi p Hp Ht). destruct (Hok p Hp Ht) as [Hsz _ _ _].
  unfold sub_u. rewrite (proj2 (Z.ltb_ge _ _)) by lia. cbn [obind]. eexists _, m'. split; [| split; [done |]; split; [done |]].
  - do 3 f_equal. unfold read_ehdr. cbn. apply rd_le_ext. intros i Hi. apply Hout. intros ph Hq Hs.
    apply (seg_outside_file len ph i (Hok ph Hq (proj1 Hs))); [lia | done].
  - intros ph ph' Hq Hq' Ht1 Ht2. pose proof (Hlo ph' Hq' Ht2). pose proof (Hhi ph Hq Ht1). lia.
Qed.

(** ** Mappings *)
Record Mapping := { m_page : Z; m_frame : Z; m_size : Z }.

(** Frames of the x86_64 crate, by their size: the frame of an address and an
    inclusive range of frames. *)
Class BootFrames := { frame_at : Z -> Z -> Z; frames_inclusive : Z -> Z -> Z -> list Z }.
Class BootFramesLaws (BF : BootFrames) : Prop := {
  frame_at_law size a : 0 < size -> 0 <= a -> frame_at size a = a - a mod size;
  frames_law size a b : 0 < size -> a mod size = 0 -> b mod size = 0 ->
    frames_inclusive size a b = (fun i => a + size * i) <$> seqZ 0 ((b - a) / size + 1)
}.

Definition phys_mem_offset : Z := 0xFFFF800000000000.
Definition kernel_base_phys : Z := 0x100000.
Definition stack_start : Z := 0xFFFFFFFF82000000.
Definition kernel_stack_pages : Z := 512.

Section Maps.
Context {BF : BootFrames}.

Definition identity_map (size frame : Z) : Mapping := {| m_page := frame; m_frame := frame; m_size := size |}.
Fixpoint map_at (size offset : Z) (frames : list Z) : outcome (list Mapping) :=
  match frames with
  | [] => Ret []
  | f :: frames =>
      let! page := chk_u 64 (f + offset) in
      let! l := map_at size offset frames in
      Ret ({| m_page := page; m_frame := f; m_size := size |} :: l)
  end.

Definition framebuffer_maps (framebuffer bytes_per_line height : Z) : outcome (list Mapping) :=
  let! n := chk_u 32 (bytes_per_line * height) in
  let start_frame := frame_at 4096 framebuffer in
  let end_frame := frame_at 4096 (framebuffer + n) in
  Ret (identity_map 4096 <$> frames_inclusive 4096 start_frame end_frame).

Definition kernel_maps (kernel_size_bytes : Z) : outcome (list Mapping) :=
  let! e := chk_u 64 (kernel_base_phys + kernel_size_bytes) in
  let! e := chk_u 64 (e - 1) in
  map_at 0x200000 KERNEL_BASE_ADDR (frames_inclusive 0x200000 (frame_at 0x200000 kernel_base_phys) (frame_at 0x200000 e)).

(** The stack's pages get the frames the allocator returns for them. *)
Definition stack_maps (frames : list Z) : list Mapping :=
  zip_with (fun i f => {| m_page := stack_start + 4096 * i; m_frame := f; m_size := 4096 |}) (seqZ 0 kernel_stack_pages) frames.

(** [filter_map] to the ends of the usable regions, and the last of them. *)
Fixpoint usable_ends (map : list MemoryMapEntry) : outcome (list Z) :=
  match map with
  | [] => Ret []
  | r :: map =>
      let! e := if mem_type r =? 1 then let! e := end_addr r in Ret [e] else Ret [] in
      let! l := usable_ends map in
      Ret (e ++ l)
  end.
Definition physical_maps (map : list MemoryMapEntry) : outcome (list Mapping) :=
  let! ends := usable_ends map in
  let! last_address := unwrap (last ends) in
  map_at 0x200000 phys_mem_offset (frames_inclusive 0x200000 (frame_at 0x200000 0) (frame_at 0x200000 last_address)).

Definition lower_maps : list Mapping :=
  identity_map 0x200000 <$> frames_inclusive 0x200000 (frame_at 0x200000 0) (frame_at 0x200000 (LOWER_MEMORY_END_PAGE - 1)).

Definition boot_maps (framebuffer bytes_per_line height kernel_size_bytes : Z) (map : list MemoryMapEntry) (stack_frames : list Z)
  : outcome (list Mapping) :=
  let! fb := framebuffer_maps framebuffer bytes_per_line height in
  let! kernel := kernel_maps kernel_size_bytes in
  let! phys := physical_maps map in
  Ret (fb ++ kernel ++ stack_maps stack_frames ++ phys ++ lower_maps).
End Maps.

(** ** No page twice *)
Definition apart (x y : Mapping) : Prop := m_page x + m_size x <= m_page y \/ m_page y + m_size y <= m_page x.
Definition within (lo hi : Z) (l : list Mapping) : Prop := Forall (fun x => lo <= m_page x /\ m_page x + m_size x <= hi) l.

(** Pages of one size at an offset from a run of frames. *)
Definition run (size offset a n : Z) : list Mapping :=
  (fun i => {| m_page := a + size * i + offset; m_frame := a + size * i; m_size := size |}) <$> seqZ 0 n.

Lemma map_at_ret size offset a n :
  0 < size -> 0 <= a + offset -> a + offset + size * Z.max 0 n <= 2 ^ 64 ->
  map_at size offset ((fun i => a + size * i) <$> seqZ 0 n) = Ret (run size offset a n).
Proof.
  intros Hs Ha Hn. unfold run. assert (H : forall i, i ∈ seqZ 0 n -> 0 <= a + size * i + offset < 2 ^ 64).
  { intros i Hi%elem_of_seqZ. nia. }
  induction (seqZ 0 n) as [|i l IH]; [done |]. rewrite !fmap_cons. cbn [map_at]. rewrite chk_u_ret by (apply H; set_solver). cbn [obind].
  rewrite IH by (intros j Hj; apply H; set_solver). done.
Qed.

Lemma run_apart size offset a n : 0 < size -> StronglySorted apart (run size offset a n).
Proof.
  intros Hs. unfold run. generalize 0. intros k. destruct (decide (0 <= n)) as [Hn|]; [| rewrite seqZ_nil by lia; constructor].
  rewrite <- (Z2Nat.id n Hn). clear Hn. revert k. induction (Z.to_nat n) as [|m IH]; intros k; [constructor |].
  rewrite seqZ_cons, fmap_cons by lia. constructor; [replace (Z.pred (Z.of_nat (S m))) with (Z.of_nat m) by lia; apply IH |].
  apply Forall_fmap, Forall_forall. intros i Hi%elem_of_seqZ. left. cbn. nia.
Qed.

Lemma run_within size offset a n lo hi : 0 < size -> lo <= a + offset -> a + offset + size * Z.max 0 n <= hi -> within lo hi (run size offset a n).
Proof. intros Hs H1 H2. apply Forall_fmap, Forall_forall. intros i Hi%elem_of_seqZ. cbn. nia. Qed.

(** No mapping of one list meets one of the other. *)
Definition cross (l1 l2 : list Mapping) : Prop := forall x y, x ∈ l1 -> y ∈ l2 -> apart x y.

Lemma cross_within l1 l2 lo1 hi1 lo2 hi2 : within lo1 hi1 l1 -> within lo2 hi2 l2 -> hi1 <= lo2 \/ hi2 <= lo1 -> cross l1 l2.
Proof. intros W1 W2 Hd x y Hx Hy. unfold within in *. rewrite Forall_forall in W1, W2. specialize (W1 x Hx). specialize (W2 y Hy). unfold apart. lia. Qed.
Lemma cross_app l l1 l2 : cross l l1 -> cross l l2 -> cross l (l1 ++ l2).
Proof. intros H1 H2 x y Hx [Hy | Hy]%elem_of_app; [by apply H1 | by apply H2]. Qed.

Lemma apart_app l1 l2 : StronglySorted apart l1 -> StronglySorted apart l2 -> cross l1 l2 -> StronglySorted apart (l1 ++ l2).
Proof.
  intros H1 H2 Hc. induction l1 as [|x l1 IH]; [done |]. apply StronglySorted_inv in H1 as [H1 Hx].
  cbn. constructor; [apply IH; [done | intros a b Ha; apply Hc; set_solver] |]. apply Forall_app. split; [done |].
  apply Forall_forall. intros y Hy. apply Hc; [set_solver | done].
Qed.

Lemma stack_apart frames : forall k n,
  let l := zip_with (fun i f => {| m_page := stack_start + 4096 * i; m_frame := f; m_size := 4096 |}) (seqZ k n) frames in
  StronglySorted apart l /\ within (stack_start + 4096 * k) (stack_start + 4096 * (k + Z.max 0 n)) l.
Proof.
  induction frames as [|f frames IH]; intros k n; [destruct (seqZ k n); split; constructor |].
  destruct (decide (0 < n)) as [Hn|]; [| rewrite seqZ_nil by lia; split; constructor]. rewrite seqZ_cons by lia.
  destruct (IH (Z.succ k) (Z.pred n)) as [Hs Hw]. cbn [zip_with]. split; constructor; [done | | cbn; lia |].
  - eapply Forall_impl; [exact Hw |]. intros x [Hx _]. left. cbn. lia.
  - eapply Forall_impl; [exact Hw |]. intros x Hx. cbn in *. lia.
Qed.

(** Page addresses less than a page apart. *)
Lemma page_gap size a b : 0 < size -> a mod size = 0 -> b mod size = 0 -> a < b + size -> a <= b.
Proof.
  intros Hs Ha Hb H. apply Z.mod_divide in Ha as [x ->]; [| lia]. apply Z.mod_divide in Hb as [y ->]; [| lia].
  apply Z.mul_le_mono_nonneg_r; [lia |]. apply Z.lt_succ_r, (Z.mul_lt_mono_pos_r size); lia.
Qed.

Lemma run_covers size offset a n p :
  0 < size -> a <= p < a + size * n -> exists x, x ∈ run size offset a n /\ m_page x <= p + offset < m_page x + m_size x /\ m_frame x + (p + offset - m_page x) = p.
Proof.
  intros Hs Hp. pose proof (Z.div_mod (p - a) size ltac:(lia)). pose proof (Z.mod_pos_bound (p - a) size Hs).
  exists {| m_page := a + size * ((p - a) / size) + offset; m_frame := a + size * ((p - a) / size); m_size := size |}. cbn. split; [| lia].
  apply list_elem_of_fmap. exists ((p - a) / size). split; [done |]. apply elem_of_seqZ. rewrite Z.add_0_l. split; [apply Z.div_pos; lia | apply Z.div_lt_upper_bound; lia].
Qed.

Section MapsOk.
Context {BF : BootFrames} {BL : BootFramesLaws BF}.

Lemma page_of_mod size a : 0 < size -> (a - a mod size) mod size = 0.
Proof. intros Hs. by rewrite Zminus_mod_idemp_r, Z.sub_diag, Z.mod_0_l by lia. Qed.

(** The frames from that of [a] to that of [b]. *)
Lemma frames_between size a b :
  0 < size -> 0 <= a <= b ->
  exists c n, frames_inclusive size (frame_at size a) (frame_at size b) = (fun i => c + size * i) <$> seqZ 0 n /\
    a - size < c <= a /\ 0 <= c /\ c mod size = 0 /\ b < c + size * n <= b + size /\ 0 < n.
Proof.
  intros Hs Hab. rewrite !frame_at_law by lia. rewrite frames_law by (apply page_of_mod || done; lia).
  exists (a - a mod size), ((b - b mod size - (a - a mod size)) / size + 1). split; [done |].
  pose proof (Z.mod_pos_bound a size Hs). pose proof (Z.mod_pos_bound b size Hs). pose proof (Z.mod_le a size ltac:(lia) Hs).
  assert (Hle : a - a mod size <= b - b mod size).
  { pose proof (Z.div_mod a size ltac:(lia)). pose proof (Z.div_mod b size ltac:(lia)). pose proof (Z.div_le_mono a b size Hs ltac:(lia)). nia. }
  assert (Hq : size * ((b - b mod size - (a - a mod size)) / size) = b - b mod size - (a - a mod size)).
  { symmetry. apply Z_div_exact_full_2; [lia |]. by rewrite Zminus_mod, !page_of_mod, Z.mod_0_l by lia. }
  assert (0 <= (b - b mod size - (a - a mod size)) / size) by (apply Z.div_pos; lia).
  split; [lia |]. split; [lia |]. split; [by apply page_of_mod |]. lia.
Qed.

(** [C33] The boot loader maps no page twice: with a frame buffer above 2 MiB, a
    kernel below its stack and physical memory of at most 64 TiB, the mappings
    of [_start] are pairwise disjoint, so none of them is refused; every
    physical address up to the end of usable memory is mapped at the kernel's
    offset, and the kernel's image at its base. *)
Theorem boot_maps_disjoint fb bytes_per_line height ksize map ends last_ stack_frames :
  0x200000 <= fb < 2 ^ 32 -> 0 <= bytes_per_line * height < 2 ^ 32 -> 1 <= ksize <= 0x1F00000 ->
  usable_ends map = Ret ends -> last ends = Some last_ -> 0 <= last_ < 2 ^ 46 -> Z.of_nat (length stack_frames) = kernel_stack_pages ->
  exists l, boot_maps fb bytes_per_line height ksize map stack_frames = Ret l /\ StronglySorted apart l /\
    (forall p, 0 <= p <= last_ -> exists x, x ∈ l /\ m_page x <= phys_mem_offset + p < m_page x + m_size x /\ m_frame x + (phys_mem_offset + p - m_page x) = p) /\
    (forall p, kernel_base_phys <= p < kernel_base_phys + ksize ->
       exists x, x ∈ l /\ m_page x <= KERNEL_BASE_ADDR + p < m_page x + m_size x /\ m_frame x + (KERNEL_BASE_ADDR + p - m_page x) = p).
Proof.
  intros Hfb Hsz Hk Ee El Hl Hst. unfold boot_maps, framebuffer_maps, kernel_maps, physical_maps, lower_maps.
  rewrite chk_u_ret by lia. cbn [obind]. rewrite chk_u_ret by (unfold kernel_base_phys; lia). cbn [obind].
  rewrite chk_u_ret by (unfold kernel_base_phys; lia). cbn [obind]. rewrite Ee. cbn [obind]. rewrite El. cbn [unwrap obind].
  destruct (frames_between 4096 fb (fb + bytes_per_line * height)) as (c1 & n1 & -> & Hc1 & H01 & Hm1 & Hn1 & Hp1); [lia | lia |].
  destruct (frames_between 0x200000 kernel_base_phys (kernel_base_phys + ksize - 1)) as (c2 & n2 & -> & Hc2 & H02 & Hm2 & Hn2 & Hp2); [lia | unfold kernel_base_phys; lia |].
  destruct (frames_between 0x200000 0 last_) as (c3 & n3 & -> & Hc3 & H03 & Hm3 & Hn3 & Hp3); [lia | lia |].
  destruct (frames_between 0x200000 0 (LOWER_MEMORY_END_PAGE - 1)) as (c4 & n4 & -> & Hc4 & H04 & Hm4 & Hn4 & Hp4); [lia | unfold LOWER_MEMORY_END_PAGE; lia |].
  unfold kernel_base_phys, KERNEL_BASE_ADDR, phys_mem_offset, LOWER_MEMORY_END_PAGE in *.
  rewrite map_at_ret by lia. cbn [obind]. rewrite map_at_ret by lia. cbn [obind].
  assert (Eid : forall size c n, identity_map size <$> ((fun i => c + size * i) <$> seqZ 0 n) = run size 0 c n).
  { intros size c n. unfold run. rewrite <- list_fmap_compose. apply list_fmap_ext. intros i x _. unfold identity_map. cbn. f_equal; lia. }
  rewrite !Eid. eexists. split; [reflexivity |]. split.
  - unfold kernel_stack_pages, stack_start in *.
    assert (Hmul : forall size c n, 0 < size -> c mod size = 0 -> (c + size * n) mod size = 0) by (intros; by rewrite Z.mul_comm, Z.mod_add by lia).
    assert (W1 : within 0x200000 0x300000000 (run 4096 0 c1 n1)).
    { apply run_within; [lia | rewrite Z.add_0_r; apply (page_gap 4096); (done || lia) | lia]. }
    assert (W2 : within 0xFFFFFFFF80000000 0xFFFFFFFF82000000 (run 0x200000 0xFFFFFFFF80000000 c2 n2)).
    { apply run_within; [lia | lia |]. assert (c2 + 0x200000 * n2 <= 0x2000000); [| lia].
      apply (page_gap 0x200000); [lia | by apply Hmul | done | lia]. }
    assert (W3 : within 0xFFFF800000000000 0xFFFFC10000000000 (run 0x200000 0xFFFF800000000000 c3 n3)) by (apply run_within; lia).
    assert (W4 : within 0 0x200000 (run 0x200000 0 c4 n4)).
    { apply run_within; [lia | lia |]. assert (c4 + 0x200000 * n4 <= 0x200000); [| lia]. apply (page_gap 0x200000); [lia | by apply Hmul | done | lia]. }
    assert (S5 : StronglySorted apart (stack_maps stack_frames)) by apply (stack_apart stack_frames 0 512).
    assert (W5 : within 0xFFFFFFFF82000000 0xFFFFFFFF82200000 (stack_maps stack_frames)) by apply (stack_apart stack_frames 0 512).
    apply apart_app; [by apply run_apart | | repeat apply cross_app; eapply cross_within; (eassumption || lia)].
    apply apart_app; [by apply run_apart | | repeat apply cross_app; eapply cross_within; (eassumption || lia)].
    apply apart_app; [exact S5 | | repeat apply cross_app; eapply cross_within; (eassumption || lia)].
    apply apart_app; [by apply run_apart | | eapply cross_within; (eassumption || lia)].
    by apply run_apart.
  - split; intros p Hp.
    + destruct (run_covers 0x200000 0xFFFF800000000000 c3 n3 p) as (x & Hx & H1 & H2); [lia | lia |]. exists x. split; [| lia].
      rewrite !elem_of_app. tauto.
    + destruct (run_covers 0x200000 0xFFFFFFFF80000000 c2 n2 p) as (x & Hx & H1 & H2); [lia | lia |]. exists x. split; [| lia].
      rewrite !elem_of_app. tauto.
Qed.
End MapsOk.

(** ** A small kernel and a small machine *)
Module BootLoadWitness.
Definition phdr_bytes (t off vaddr filesz memsz : Z) : list Z :=
  le_bytes 4 t ++ le_bytes 4 5 ++ le_bytes 8 off ++ le_bytes 8 vaddr ++ le_bytes 8 vaddr ++ le_bytes 8 filesz ++ le_bytes 8 memsz ++ le_bytes 8 4096.
Definition file : list Z :=
  replicate 24 0 ++ le_bytes 8 (KERNEL_BASE_ADDR + 0x100010) ++ le_bytes 8 64 ++ replicate 16 0 ++ le_bytes 2 3 ++ replicate 6 0 ++
  phdr_bytes 1 232 (KERNEL_BASE_ADDR + 0x100000) 4 8 ++ phdr_bytes 4 0 0 0 0 ++ phdr_bytes 1 236 (KERNEL_BASE_ADDR + 0x101000) 2 2 ++
  [11; 12; 13; 14; 21; 22].
Definition memory : gmap Z Z := list_to_map (zip (seqZ elf_base (Z.of_nat (length file))) file).
Definition phs : list Elf64Phdr := headers memory (elf_base + e_phoff (read_ehdr memory elf_base)) (Z.to_nat (e_phnum (read_ehdr memory elf_base))).

Lemma phs_eq : phs =
  [ {| p_type := 1; p_offset := 232; p_vaddr := KERNEL_BASE_ADDR + 0x100000; p_filesz := 4; p_memsz := 8 |};
    {| p_type := 4; p_offset := 0; p_vaddr := 0; p_filesz := 0; p_memsz := 0 |};
    {| p_type := 1; p_offset := 236; p_vaddr := KERNEL_BASE_ADDR + 0x101000; p_filesz := 2; p_memsz := 2 |} ].
Proof. vm_compute. reflexivity. Qed.

Lemma kernel_loaded_witness :
  exists size m', load_kernel_elf memory = Ret (e_entry (read_ehdr memory elf_base), size, m') /\
    (forall ph a, ph ∈ phs -> in_seg ph a -> rd m' a = seg_byte memory ph a) /\
    (forall a, (forall ph, ph ∈ phs -> ~ in_seg ph a) -> rd m' a = rd memory a) /\
    (forall ph ph', ph ∈ phs -> ph' ∈ phs -> p_type ph = 1 -> p_type ph' = 1 -> p_vaddr ph + p_memsz ph <= p_vaddr ph' + size).
Proof.
  apply (kernel_loaded memory 238); [lia | by vm_compute | by vm_compute | by vm_compute | | |]; fold phs; rewrite phs_eq.
  - repeat constructor; cbn; intros Ht; try done; unfold KERNEL_BASE_ADDR, elf_base in *; cbn; lia.
  - repeat constructor; intros a [H1 H2] [H3 H4]; cbn in *; unfold KERNEL_BASE_ADDR in *; lia.
  - by constructor.
Defined.

(** Eight bytes, four of them zero, and two more a page further on. *)
Example kernel_bytes :
  match load_kernel_elf memory with
  | Ret (entry, size, m) =>
      (entry, size, rd m <$> seqZ (KERNEL_BASE_ADDR + 0x100000) 8, rd m <$> seqZ (KERNEL_BASE_ADDR + 0x101000) 2) =
      (KERNEL_BASE_ADDR + 0x100010, 0x1002, [11; 12; 13; 14; 0; 0; 0; 0], [21; 22])
  | _ => False
  end.
Proof. vm_compute. reflexivity. Qed.

#[local] Instance aligned_frames : BootFrames :=
  {| frame_at := fun size a => a - a mod size; frames_inclusive := fun size a b => (fun i => a + size * i) <$> seqZ 0 ((b - a) / size + 1) |}.
#[local] Instance aligned_frames_laws : BootFramesLaws aligned_frames.
Proof. by split. Qed.
Definition ram : list MemoryMapEntry :=
  [ {| base_address := 0; length_ := 0x9FC00; mem_type := 1; acpi_flags := 1 |};
    {| base_address := 0xF0000; length_ := 0x10000; mem_type := 2; acpi_flags := 1 |};
    {| base_address := 0x100000; length_ := 0x7EE0000; mem_type := 1; acpi_flags := 1 |} ].

Lemma boot_maps_disjoint_witness :
  exists l, boot_maps 0xFD000000 2560 1024 0x500000 ram (seqZ 0x600000 512) = Ret l /\ StronglySorted apart l /\
    (forall p, 0 <= p <= 0x7FDFFFF -> exists x, x ∈ l /\ m_page x <= phys_mem_offset + p < m_page x + m_size x /\ m_frame x + (phys_mem_offset + p - m_page x) = p) /\
    (forall p, kernel_base_phys <= p < kernel_base_phys + 0x500000 ->
       exists x, x ∈ l /\ m_page x <= KERNEL_BASE_ADDR + p < m_page x + m_size x /\ m_frame x + (KERNEL_BASE_ADDR + p - m_page x) = p).
Proof.
  apply (boot_maps_disjoint 0xFD000000 2560 1024 0x500000 ram [0x9FBFF; 0x7FDFFFF] 0x7FDFFFF (seqZ 0x600000 512)); try lia; done.
Defined.
End BootLoadWitness.
