(* ===== verification/BootMap.v ===== *)
(** * The memory map at boot

    [get_mem_map] of [bootloader/src/memory.rs] and the first steps of [_start]
    in [bootloader/src/main.rs]: the BIOS's list of regions is read, sorted by
    address, and given to the frame allocator, whose first frame is the root
    table.  The laws of [Boot] ask for a sorted map; this file derives them from
    regions in any order. *)
From Stdlib Require Import Sorted.
From stdpp Require Import sorting.
From S2P Require Import Prelude Slices Memory Boot BootLoad.

Definition kernel_phys : Z := 0x100000.

(** An entry takes 24 bytes. *)
Definition boot_entry (m : gmap Z Z) (a : Z) : MemoryMapEntry :=
  {| base_address := rd_le m a 8; length_ := rd_le m (a + 8) 8; mem_type := rd_le m (a + 16) 4; acpi_flags := rd_le m (a + 20) 4 |}.
Definition get_mem_map (m : gmap Z Z) : list MemoryMapEntry :=
  let num_entries := rd_le m 0x1004 4 in
  (fun i => boot_entry m (0x1008 + 24 * i)) <$> seqZ 0 num_entries.

(** [sort_unstable_by_key(|reg| reg.base_address)]; where two regions start at
    the same address the order is any. *)
Definition by_base (r r' : MemoryMapEntry) : Prop := base_address r <= base_address r'.
#[global] Instance by_base_dec : RelDecision by_base.
Proof. intros r r'. unfold by_base. apply _. Defined.
Definition sorted_map (l : list MemoryMapEntry) : list MemoryMapEntry := merge_sort by_base l.

(** The frame allocator, and the frame of the root table. *)
Definition boot_tables {F : FrameApi} (m : gmap Z Z) (kernel_size_bytes : Z) : outcome (Z * BootInfoFrameAllocator) :=
  let mem_map := sorted_map (get_mem_map m) in
  let! frame_allocator := boot_starts_at LOWER_MEMORY_END_PAGE mem_map {| start_address := kernel_phys; size := kernel_size_bytes |} in
  let! '(frame, frame_allocator) := boot_allocate_frame frame_allocator in
  let! frame := unwrap frame in
  Ret (frame, frame_allocator).

(** ** Regions in any order *)
#[global] Instance by_base_total : Total by_base.
Proof. intros r r'. unfold by_base. lia. Qed.
#[global] Instance by_base_trans : Transitive by_base.
Proof. intros r r' r''. unfold by_base. lia. Qed.

Definition apart (r r' : MemoryMapEntry) : Prop := after_region r r' \/ after_region r' r.

Lemma pairs_perm {T} (R : T -> T -> Prop) : (forall x y, R x y -> R y x) ->
  forall l l', l ≡ₚ l' -> StronglySorted R l -> StronglySorted R l'.
Proof.
  intros Hs l l' Hp. induction Hp as [| x l l' Hp IH | x y l | l1 l2 l3 _ IH1 _ IH2]; intros H; auto.
  - apply StronglySorted_inv in H as [H1 H2]. constructor; [auto |]. by rewrite <- Hp.
  - apply StronglySorted_inv in H as [H1 Hy]. apply StronglySorted_inv in H1 as [H1 Hx]. apply Forall_cons in Hy as [Hyx Hy].
    repeat constructor; auto.
Qed.

(** Two orders of the same list, one of the other. *)
Lemma sorted_both {T} (R1 R2 R : T -> T -> Prop) (l : list T) : (forall x y, x ∈ l -> y ∈ l -> R1 x y -> R2 x y -> R x y) ->
  StronglySorted R1 l -> StronglySorted R2 l -> StronglySorted R l.
Proof.
  induction l as [|x l IH]; intros H H1 H2; [constructor |]. apply StronglySorted_inv in H1 as [H1 Hx1], H2 as [H2 Hx2]. constructor.
  - apply IH; [intros; apply H; set_solver | done | done].
  - rewrite Forall_forall in Hx1, Hx2 |- *. intros y Hy. apply H; [set_solver | set_solver | auto | auto].
Qed.

(** Regions that do not overlap, in whatever order the BIOS lists them, are a
    map the allocators can work with once they are sorted. *)
Theorem sorted_map_ok l :
  Forall entry_ok l -> Forall (fun r => mem_type r = 1 -> base_address r mod 4096 = 0) l -> StronglySorted apart l ->
  map_ok (sorted_map l) /\ sorted_map l ≡ₚ l.
Proof.
  intros He Ha Hs. pose proof (merge_sort_Permutation by_base l) as Hp. fold (sorted_map l) in Hp. split; [| done]. split_and!; [by rewrite Hp | by rewrite Hp |].
  apply (sorted_both by_base apart).
  - intros r r' Hr Hr' Hb [? | Hab]; [done |]. rewrite Hp in Hr'. rewrite Forall_forall in He. destruct (He r' Hr') as (_ & ? & _).
    unfold by_base, after_region in *. lia.
  - apply StronglySorted_merge_sort; apply _.
  - apply (pairs_perm apart) with l; [unfold apart; tauto | by symmetry | done].
Qed.

(** The root table is a usable frame outside the kernel's image. *)
Theorem root_table_free {F : FrameApi} {FL : FrameApiLaws F} m n f s :
  Forall entry_ok (get_mem_map m) -> Forall (fun r => mem_type r = 1 -> base_address r mod 4096 = 0) (get_mem_map m) ->
  StronglySorted apart (get_mem_map m) -> 1 <= n -> kernel_phys + n <= 2 ^ 52 - 16384 -> boot_tables m n = Ret (f, s) ->
  f mod 4096 = 0 /\ LOWER_MEMORY_END_PAGE <= f /\ kernel_phys + n <= f.
Proof.
  intros He Ha Hs Hn Hm E. destruct (sorted_map_ok _ He Ha Hs) as [Hok _]. unfold boot_tables in E. run_inv E. rename v into s0. rename E0 into E0'.
  run_inv E. destruct v as [o s1]. run_inv E. destruct o as [f'|]; [| done]. injection E1 as ->. injection E as <- <-.
  unfold boot_starts_at in E0'. rewrite !containing_address_ok in E0' by (cbn; unfold kernel_phys in *; lia). cbn [obind start_address size] in E0'.
  rewrite !chk_u_ret in E0' by (unfold kernel_phys in *; lia). cbn [obind] in E0'. rewrite !chk_u_ret in E0' by (unfold kernel_phys in *; lia). cbn [obind] in E0'.
  rewrite !containing_address_ok in E0' by (unfold kernel_phys in *; lia). injection E0' as <-.
  set (s0 := {| bi_memory_map := _ |}) in *. destruct (usable_frames_ret s0) as (l & El & _ & Hg); [done |].
  unfold boot_allocate_frame in E0. rewrite El in E0. cbn [obind] in E0. run_inv E0. injection E0 as E0 _.
  rewrite Forall_lookup in Hg. destruct (Hg _ _ E0) as (Hf & Hlo & Hout). split; [done |]. cbn in Hlo, Hout. split; [exact Hlo |].
  unfold LOWER_MEMORY_END_PAGE, kernel_phys in *. Z.to_euclidean_division_equations. lia.
Qed.

Module BootMapWitness.
#[local] Existing Instance align_down_frames.
#[local] Existing Instance align_down_frames_laws.
(** Three regions, the last listed first. *)
Definition le (n : nat) (v : Z) : list Z := le_bytes n v.
Definition bios_bytes : list Z :=
  le 4 3 ++ (le 8 0x100000 ++ le 8 0x8000 ++ le 4 1 ++ le 4 1) ++ (le 8 0 ++ le 8 0x9F000 ++ le 4 1 ++ le 4 1) ++
  (le 8 0x9F000 ++ le 8 0x1000 ++ le 4 2 ++ le 4 1).
Definition bios : gmap Z Z := list_to_map (zip (seqZ 0x1004 76) bios_bytes).

Example bios_bases : base_address <$> sorted_map (get_mem_map bios) = [0; 0x9F000; 0x100000].
Proof. vm_compute. reflexivity. Qed.

Lemma bios_ok : Forall entry_ok (get_mem_map bios) /\ Forall (fun r => mem_type r = 1 -> base_address r mod 4096 = 0) (get_mem_map bios) /\
  StronglySorted apart (get_mem_map bios).
Proof.
  assert (E : get_mem_map bios = [ {| base_address := 0x100000; length_ := 0x8000; mem_type := 1; acpi_flags := 1 |};
    {| base_address := 0; length_ := 0x9F000; mem_type := 1; acpi_flags := 1 |};
    {| base_address := 0x9F000; length_ := 0x1000; mem_type := 2; acpi_flags := 1 |}]) by (vm_compute; reflexivity).
  rewrite E. split; [| split].
  - rewrite !Forall_cons. unfold entry_ok. cbn [base_address length_]. split_and!; lia || constructor.
  - rewrite !Forall_cons. split_and!; try constructor; intros _; reflexivity.
  - repeat apply SSorted_cons; try apply SSorted_nil; unfold apart, after_region; cbn [base_address length_]; repeat (apply Forall_cons_2; [cbn [base_address length_]; lia |]);
      apply Forall_nil_2.
Qed.

Lemma root_table_free_witness : exists s, boot_tables bios 0x3000 = Ret (0x103000, s) /\
  0x103000 mod 4096 = 0 /\ LOWER_MEMORY_END_PAGE <= 0x103000 /\ kernel_phys + 0x3000 <= 0x103000.
Proof.
  eexists. split; [vm_compute; reflexivity |]. destruct bios_ok as (H1 & H2 & H3).
  eapply (root_table_free bios 0x3000 0x103000); [exact H1 | exact H2 | exact H3 | lia | unfold kernel_phys; lia | vm_compute; reflexivity].
Defined.
End BootMapWitness.
