(* ===== verification/Paging.v ===== *)
(** * Address spaces and page tables

    [AddressSpace] of [kernel/src/task/proc.rs]: [new_page_table],
    [copy_frame_data] and [clone_for_fork], the copy that [fork] makes of the
    parent's memory.

    Physical memory is a map from the address of a 4 KiB frame to its 512
    words; the kernel sees it through the fixed offset [PHYS_MEM_OFFSET].  A
    page is named by its four table indices.  The frame allocator and the
    [x86_64] crate are interfaces with laws; [Memory] discharges the first and
    [PagingMap] gives a concrete second. *)
From S2P Require Import Prelude.

Abbreviation PMem := (gmap Z (list Z)) (only parsing).
Abbreviation page := (list nat) (only parsing).

Definition frame_ok (f : Z) : Prop := f mod 4096 = 0 /\ 0 <= f < 2 ^ 52.

(** [FrameAllocator::allocate_frame] *)
Class FrameAllocator (A : Type) := { next_free : A -> outcome (option Z * A) }.

(** What clients rely on: a frame is handed out once.  [taken a f] says that
    [f] will not be handed out by [a] any more. *)
Class FrameAllocatorLaws (A : Type) {FA : FrameAllocator A} := {
  alloc_wf : A -> Prop;
  taken : A -> Z -> Prop;
  next_free_law a f a' :
    alloc_wf a -> next_free a = Ret (Some f, a') ->
    alloc_wf a' /\ ~ taken a f /\ taken a' f /\ frame_ok f /\ (forall g, taken a g -> taken a' g)
}.

(** The allocator has [n] more frames. *)
Fixpoint avail {A : Type} {FA : FrameAllocator A} (n : nat) (a : A) : Prop :=
  match n with
  | O => True
  | S n => exists f a', next_free a = Ret (Some f, a') /\ avail n a'
  end.

Fixpoint can_allocate {A : Type} {FA : FrameAllocator A} (n : nat) (a : A) : bool :=
  match n with
  | O => true
  | S n => match next_free a with Ret (Some _, a') => can_allocate n a' | _ => false end
  end.

Lemma can_allocate_avail {A : Type} {FA : FrameAllocator A} n a : can_allocate n a = true -> avail n a.
Proof.
  revert a; induction n as [|n IH]; intros a; simpl; [done |].
  destruct (next_free a) as [[[f|] a']| |]; intros H; try done. exists f, a'. auto.
Qed.

(** The result of [Mapper::map_to]; the other errors ([FrameAllocationFailed],
    [ParentEntryHugePage]) are not told apart by the kernel. *)
Inductive MapResult := Mapped | PageAlreadyMapped | MapFailed.

(** Page-table entries and [Mapper::map_to] of the [x86_64] crate.
    [entry_frame] is [None] for the two errors of [PageTableEntry::frame];
    [map_to] returns its result, the memory and the allocator. *)
Class PageApi (A : Type) := {
  entry_new : Z;
  is_unused : Z -> bool;
  entry_addr : Z -> Z;
  entry_frame : Z -> option Z;
  entry_flags : Z -> Z;
  map_to : PMem -> A -> Z -> page -> Z -> Z -> outcome (MapResult * PMem * A)
}.

Record AddressSpace := {
  cr3 : Z;
  heap_start : Z;
  heap_end : Z;
  program_start : Z;
  backbuffer_frames : option (list Z);
  program_end : Z;
  stack_top : Z
}.

(** [for i in l { .. }] *)
Fixpoint for_each {S : Type} (body : nat -> S -> outcome S) (l : list nat) (s : S) : outcome S :=
  match l with
  | [] => Ret s
  | i :: l => let! s := body i s in for_each body l s
  end.

(** Paths whose first index is in [U]. *)
Definition path_in (U : nat -> Prop) (p : list nat) : Prop :=
  Forall (fun i => (i < 512)%nat) p /\ match p with i :: _ => U i | [] => True end.

(** The lower half of the address space. *)
Abbreviation user_path := (path_in (fun i => i < 256)%nat) (only parsing).
Definition user_page (q : page) : Prop := user_path q /\ length q = 4%nat.

Section Spaces.
Context {A : Type} {FA : FrameAllocator A} {PA : PageApi A}.
Implicit Types (m : PMem) (a : A) (w : PMem * A).

(** [allocate_frame().unwrap()] *)
Definition take_frame a : outcome (Z * A) :=
  let! '(f, a) := next_free a in
  let! f := unwrap f in
  Ret (f, a).

Definition slot m (t : Z) (i : nat) : option Z := m !! t ≫= fun es => es !! i.

(** [table[i]] through the physical-memory window *)
Definition read_entry m (t : Z) (i : nat) : outcome Z := unwrap (slot m t i).

Definition new_page_table (kernel_table : Z) w : outcome (Z * (PMem * A)) :=
  let '(m, a) := w in
  let! '(cr3, a) := take_frame a in
  let! active_l4 := unwrap (m !! kernel_table) in
  let page_table := imap (fun i e => if (i <? 256)%nat then entry_new else e) active_l4 in
  Ret (cr3, (<[cr3 := page_table]> m, a)).

Definition copy_frame_data (og_frame new_frame : Z) m : outcome PMem :=
  let! data := unwrap (m !! og_frame) in
  Ret (<[new_frame := data]> m).

(** The loop over [0..frames.len()]. *)
Fixpoint clone_backbuffer (n : nat) (new_frames : list Z) a : outcome (list Z * A) :=
  match n with
  | O => Ret (new_frames, a)
  | S n => let! '(f, a) := take_frame a in clone_backbuffer n (new_frames ++ [f]) a
  end.

(** The body of the innermost loop; the result of [map_to] is not looked at. *)
Definition clone_page (child : Z) (i4 i3 i2 : nat) (t1 : Z) (i1 : nat) w : outcome (PMem * A) :=
  let '(m, a) := w in
  let! entry := read_entry m t1 i1 in
  if is_unused entry then Ret (m, a) else
  let! og_frame := unwrap (entry_frame entry) in
  let! '(new_frame, a) := take_frame a in
  let! m := copy_frame_data og_frame new_frame m in
  let! '(_, m, a) := map_to m a child [i4; i3; i2; i1] new_frame (entry_flags entry) in
  Ret (m, a).

(** [for (i, entry) in Self::next_table(entry).iter().enumerate()] under a
    table [t], for an entry that is in use. *)
Definition descend (body : nat -> Z -> nat -> PMem * A -> outcome (PMem * A)) (t : Z) (i : nat) w
  : outcome (PMem * A) :=
  let! entry := read_entry (fst w) t i in
  if is_unused entry then Ret w else for_each (body i (entry_addr entry)) (seq 0 512) w.

Definition clone_level2 (child : Z) (i4 i3 : nat) : Z -> nat -> PMem * A -> outcome (PMem * A) :=
  descend (fun i2 => clone_page child i4 i3 i2).
Definition clone_level3 (child : Z) (i4 : nat) : Z -> nat -> PMem * A -> outcome (PMem * A) :=
  descend (fun i3 => clone_level2 child i4 i3).

(** [mapper.level_4_table()[i4] = entry.clone()] *)
Definition write_entry m (t : Z) (i : nat) (e : Z) : outcome PMem :=
  let! es := unwrap (m !! t) in
  let! es := upd es (Z.of_nat i) e in
  Ret (<[t := es]> m).

Definition clone_level4 (parent child : Z) (i4 : nat) w : outcome (PMem * A) :=
  if (256 <=? i4)%nat then
    let! entry := read_entry (fst w) parent i4 in
    let! m := write_entry (fst w) child i4 entry in Ret (m, snd w)
  else descend (fun i4 => clone_level3 child i4) parent i4 w.

Definition clone_for_fork (kernel_table : Z) (self : AddressSpace) w
  : outcome (AddressSpace * (PMem * A)) :=
  let! '(child, (m, a)) := new_page_table kernel_table w in
  let! '(new_frames, a) :=
    match backbuffer_frames self with
    | Some frames => clone_backbuffer (length frames) [] a
    | None => Ret ([], a)
    end in
  let backbuffer_frames := match new_frames with [] => None | _ => Some new_frames end in
  let! w := for_each (clone_level4 (cr3 self) child) (seq 0 512) (m, a) in
  Ret ({| cr3 := child; heap_start := heap_start self; heap_end := heap_end self;
          program_start := program_start self; backbuffer_frames := backbuffer_frames;
          program_end := program_end self; stack_top := stack_top self |}, w).

(** ** What the processor sees

    [table_at m t p]: the table reached from [t] along the indices [p];
    [pte m t p]: the entry in use at the end of the path. *)
Definition used m (t : Z) (i : nat) : option Z :=
  e ← slot m t i; if is_unused e then None else Some e.

Fixpoint table_at m (t : Z) (p : list nat) : option Z :=
  match p with
  | [] => Some t
  | i :: p => e ← used m t i; table_at m (entry_addr e) p
  end.

Fixpoint pte m (t : Z) (p : list nat) : option Z :=
  match p with
  | [] => None
  | [i] => used m t i
  | i :: p => e ← used m t i; pte m (entry_addr e) p
  end.

(** The pages below a table with [d] levels of tables under it. *)
Fixpoint mapped_below (d : nat) m (t : Z) : list (list nat) :=
  match d with
  | O => (fun i => [i]) <$> filter (fun i => is_Some (used m t i)) (seq 0 512)
  | S d => seq 0 512 ≫= fun i => match used m t i with
                                 | Some e => cons i <$> mapped_below d m (entry_addr e)
                                 | None => []
                                 end
  end.
Definition mapped_pages m (l4 : Z) : list (list nat) := mapped_below 3 m l4.

(** The tables at most [d] levels below [t]. *)
Definition in_tree (U : nat -> Prop) (d : nat) m (t u : Z) : Prop :=
  exists p, path_in U p /\ (length p <= d)%nat /\ table_at m t p = Some u.

(** They are a tree of tables of 512 entries, none of them shared, and the
    entries that lead from one to the next are present. *)
Record tree_ok (U : nat -> Prop) (d : nat) m (t : Z) : Prop := {
  pt_table u : in_tree U d m t u -> exists es, m !! u = Some es /\ length es = 512%nat;
  pt_inj p p' u : path_in U p -> path_in U p' -> (length p <= d)%nat -> (length p' <= d)%nat ->
    table_at m t p = Some u -> table_at m t p' = Some u -> p = p';
  pt_entry p i u e : path_in U (p ++ [i]) -> (length p < d)%nat ->
    table_at m t p = Some u -> used m u i = Some e -> entry_frame e = Some (entry_addr e)
}.

(** Flags of an entry that maps a 4 KiB frame. *)
Definition flags_ok (flags : Z) : Prop :=
  exists e f, entry_frame e = Some f /\ entry_flags e = flags.

End Spaces.

(** The user half of an address space: four levels of tables. *)
Abbreviation is_table := (in_tree (fun i => i < 256)%nat 3) (only parsing).
Abbreviation pt_ok := (tree_ok (fun i => i < 256)%nat 3) (only parsing).

(** Every frame has its 512 words. *)
Definition mem_sized (m : gmap Z (list Z)) : Prop := forall f ws, m !! f = Some ws -> length ws = 512%nat.

Lemma mem_sized_insert m f ws : mem_sized m -> length ws = 512%nat -> mem_sized (<[f := ws]> m).
Proof. intros Hm Hl g vs. rewrite lookup_insert. case_decide; [by intros [= <-] | apply Hm]. Qed.

(** The documented behaviour of [map_to] on a page of the lower half that is
    not mapped: it maps that page and no other, writes only the tables of this
    address space, and takes at most three frames for new ones.  A page that is
    mapped is refused. *)
Class PageLaws (A : Type) {FA : FrameAllocator A} {FL : FrameAllocatorLaws A} (PA : PageApi A)
  : Prop := {
  entry_new_unused : is_unused entry_new = true;
  entry_frame_ok e f : entry_frame e = Some f -> frame_ok f;
  map_to_law m a l4 q frame flags n :
    alloc_wf a -> pt_ok m l4 -> (forall t, is_table m l4 t -> taken a t) ->
    user_page q -> pte m l4 q = None -> frame_ok frame -> flags_ok flags -> avail (3 + n) a ->
    exists m' a', map_to m a l4 q frame flags = Ret (Mapped, m', a') /\
      pt_ok m' l4 /\
      (exists e, pte m' l4 q = Some e /\ entry_frame e = Some frame /\ entry_flags e = flags) /\
      (forall q', user_page q' -> q' <> q -> pte m' l4 q' = pte m l4 q') /\
      (forall i, (256 <= i)%nat -> slot m' l4 i = slot m l4 i) /\
      (forall f, taken a f -> ~ is_table m l4 f -> m' !! f = m !! f) /\
      (forall t, is_table m' l4 t -> is_table m l4 t \/ ~ taken a t /\ taken a' t) /\
      alloc_wf a' /\ (forall f, taken a f -> taken a' f) /\ avail n a' /\ (mem_sized m -> mem_sized m');
  map_to_mapped m a l4 q e frame flags :
    pt_ok m l4 -> user_page q -> pte m l4 q = Some e ->
    exists m' a', map_to m a l4 q frame flags = Ret (PageAlreadyMapped, m', a')
}.

(** ** Paths *)
Section Paths.
Context {A : Type} {PA : PageApi A}.
Implicit Types (m : gmap Z (list Z)).

Lemma used_slot m t i e : used m t i = Some e <-> slot m t i = Some e /\ is_unused e = false.
Proof.
  unfold used. destruct (slot m t i) as [e'|]; simpl; [| by split; [| intros []]].
  destruct (is_unused e') eqn:E; split; [done | | |]; intros H; try (by injection H as ->);
    destruct H as [[= ->] ?]; congruence.
Qed.

Lemma table_at_app m t p p' :
  table_at m t (p ++ p') = table_at m t p ≫= fun t' => table_at m t' p'.
Proof. revert t; induction p as [|i p IH]; intros t; simpl; [done |]. destruct (used m t i); simpl; auto. Qed.

Lemma pte_app m t p i : pte m t (p ++ [i]) = table_at m t p ≫= fun t' => used m t' i.
Proof.
  revert t; induction p as [|j p IH]; intros t; [done |].
  destruct p as [|j' p]; simpl.
  - by destruct (used m t j).
  - destruct (used m t j); simpl; [apply IH | done].
Qed.

Lemma mapped_below_complete d : forall m t q,
  Forall (fun i => (i < 512)%nat) q -> length q = S d -> pte m t q <> None -> q ∈ mapped_below d m t.
Proof.
  induction d as [|d IH]; intros m t q Hq Hl Hp.
  - destruct q as [|i [|j q]]; [done | | done]. apply Forall_cons in Hq as [Hi _]. cbn [mapped_below].
    apply list_elem_of_fmap. exists i. split; [done |]. apply list_elem_of_filter. split; [| apply elem_of_seq; lia].
    cbn [pte] in Hp. destruct (used m t i); [done | congruence].
  - destruct q as [|i [|j q]]; [done | done |]. apply Forall_cons in Hq as [Hi Hq]. cbn [mapped_below].
    apply list_elem_of_bind. exists i. split; [| apply elem_of_seq; lia].
    change (pte m t (i :: j :: q)) with (e ← used m t i; pte m (entry_addr e) (j :: q)) in Hp.
    destruct (used m t i) as [e|]; [| done]. apply list_elem_of_fmap. exists (j :: q). split; [done |].
    apply IH; [done | | done]. simpl in *. lia.
Qed.

Lemma mapped_pages_complete m l4 q : user_page q -> pte m l4 q <> None -> q ∈ mapped_pages m l4.
Proof. intros [[Hq _] Hl]. by apply mapped_below_complete. Qed.

(** A page below a table that is not there is not mapped. *)
Lemma pte_none m t p q : table_at m t p = None -> p `prefix_of` q -> (length p < length q)%nat -> pte m t q = None.
Proof.
  intros Hp [r ->] Hlen. destruct r as [|i r] using rev_ind; [rewrite app_nil_r in Hlen; lia |].
  clear IHr. rewrite app_assoc, pte_app, table_at_app, Hp. done.
Qed.

Lemma user_path_app p i : user_path (p ++ [i]) -> user_path p.
Proof.
  intros [H1 H2]. apply Forall_app in H1 as [? _]. split; [done |].
  by destruct p.
Qed.

(** Reading a path depends only on the tables along it. *)
Lemma table_at_frame m m' l4 p :
  (length p <= 3)%nat -> user_path p ->
  (forall t, is_table m l4 t -> t <> l4 -> m' !! t = m !! t) ->
  (forall i, (i < 256)%nat -> slot m' l4 i = slot m l4 i) ->
  (forall p, user_path p -> (length p <= 3)%nat -> table_at m l4 p = Some l4 -> p = []) ->
  table_at m' l4 p = table_at m l4 p.
Proof.
  intros Hlen Hu Hm Hroot Hself. induction p as [|i p IH] using rev_ind; [done |].
  rewrite length_app in Hlen. simpl in Hlen.
  pose proof (user_path_app _ _ Hu) as Hu'.
  rewrite !table_at_app, IH by (done || lia).
  destruct (table_at m l4 p) as [t|] eqn:Ht; [| done]. cbn.
  assert (slot m' t i = slot m t i) as Hs.
  { destruct (decide (t = l4)) as [-> |].
    - apply Hroot. assert (p = []) as -> by (apply Hself; [done | lia | done]). apply Hu.
    - unfold slot. rewrite Hm; [done | | done]. exists p. split; [done |]. split; [lia | done]. }
  unfold used. by rewrite Hs.
Qed.

Lemma pte_frame m m' l4 q :
  user_page q ->
  (forall t, is_table m l4 t -> t <> l4 -> m' !! t = m !! t) ->
  (forall i, (i < 256)%nat -> slot m' l4 i = slot m l4 i) ->
  (forall p, user_path p -> (length p <= 3)%nat -> table_at m l4 p = Some l4 -> p = []) ->
  pte m' l4 q = pte m l4 q.
Proof.
  intros [Hu Hlen] Hm Hroot Hself.
  destruct q as [|i q _] using rev_ind; [done |]. rewrite length_app in Hlen. simpl in Hlen.
  pose proof (user_path_app _ _ Hu) as Hu'.
  rewrite !pte_app, (table_at_frame m m' l4 q) by (done || lia).
  destruct (table_at m l4 q) as [t|] eqn:Ht; [| done]. cbn. unfold used, slot.
  rewrite Hm; [done | |].
  - exists q. split; [done |]. split; [lia | done].
  - intros ->. assert (q = []) as -> by (apply Hself; [done | lia | done]). simpl in Hlen. lia.
Qed.

Lemma is_table_root m l4 : is_table m l4 l4.
Proof. exists []. split; [by split; [constructor |] |]. split; [simpl; lia | done]. Qed.

Lemma is_table_frame m m' l4 t :
  (forall t, is_table m l4 t -> t <> l4 -> m' !! t = m !! t) ->
  (forall i, (i < 256)%nat -> slot m' l4 i = slot m l4 i) ->
  (forall p, user_path p -> (length p <= 3)%nat -> table_at m l4 p = Some l4 -> p = []) ->
  is_table m' l4 t <-> is_table m l4 t.
Proof.
  intros Hm Hroot Hself. split; intros (p & Hu & Hl & Hp); exists p; split_and!; try done;
    revert Hp; by rewrite (table_at_frame m m' l4 p).
Qed.

Lemma root_once m l4 p :
  pt_ok m l4 -> user_path p -> (length p <= 3)%nat -> table_at m l4 p = Some l4 -> p = [].
Proof. intros Hok Hu Hl Hp. by eapply (pt_inj _ _ _ _ Hok p [] l4); [| split; [constructor |] | | simpl; lia | |]. Qed.

Lemma pt_ok_frame m m' l4 es' :
  pt_ok m l4 ->
  (forall t, is_table m l4 t -> t <> l4 -> m' !! t = m !! t) ->
  (forall i, (i < 256)%nat -> slot m' l4 i = slot m l4 i) ->
  m' !! l4 = Some es' -> length es' = 512%nat -> pt_ok m' l4.
Proof.
  intros Hok Hm Hroot He Hlen.
  pose proof (fun p => root_once m l4 p Hok) as Hself. split.
  - intros t Ht. apply (is_table_frame m m' l4 t Hm Hroot Hself) in Ht.
    destruct (decide (t = l4)) as [-> |]; [eauto |]. rewrite Hm by done. by apply (pt_table _ _ _ _ Hok).
  - intros p p' t Hu Hu' Hl Hl'. rewrite !(table_at_frame m m' l4) by done.
    by apply (pt_inj _ _ _ _ Hok).
  - intros p i t e Hu Hl. pose proof (user_path_app _ _ Hu) as Hu'.
    rewrite (table_at_frame m m' l4) by (done || lia). intros Ht Hue.
    assert (used m t i = Some e) as Hem; [| eapply (pt_entry _ _ _ _ Hok p i t e); try done; lia].
    revert Hue. unfold used. cut (slot m' t i = slot m t i); [by intros -> |].
    destruct (decide (t = l4)) as [-> |].
    + apply Hroot. rewrite (Hself p) in Hu by (done || lia). apply Hu.
    + unfold slot. rewrite Hm; [done | | done]. exists p. split; [done |]. split; [lia | done].
Qed.

End Paths.

(** Writing a frame that is no table of an address space changes nothing of
    what it maps. *)
Section Agree.
Context {A : Type} {PA : PageApi A}.
Variables (m m' : gmap Z (list Z)) (l4 : Z).
Hypotheses (Hok : pt_ok m l4) (Hm : forall t, is_table m l4 t -> m' !! t = m !! t).

Lemma agree_slot i : slot m' l4 i = slot m l4 i.
Proof. unfold slot. by rewrite (Hm l4 (is_table_root m l4)). Qed.

Lemma agree_pt_ok : pt_ok m' l4.
Proof.
  destruct (pt_table _ _ _ _ Hok l4 (is_table_root m l4)) as (es & He & ?).
  apply (pt_ok_frame m m' l4 es); auto using agree_slot.
  by rewrite (Hm l4 (is_table_root m l4)).
Qed.

Lemma agree_is_table t : is_table m' l4 t <-> is_table m l4 t.
Proof. apply is_table_frame; auto using agree_slot. intros p. by apply root_once. Qed.

Lemma agree_pte q : user_page q -> pte m' l4 q = pte m l4 q.
Proof. intros Hq. apply pte_frame; auto using agree_slot. intros p. by apply root_once. Qed.
End Agree.

(** ** The copy loop *)
Section Cloning.
Context {A : Type} {FA : FrameAllocator A} {FL : FrameAllocatorLaws A} {PA : PageApi A} {PL : PageLaws A PA}.

Lemma take_frame_avail n a :
  alloc_wf a -> avail (S n) a ->
  exists f a', take_frame a = Ret (f, a') /\ avail n a' /\
    alloc_wf a' /\ ~ taken a f /\ taken a' f /\ frame_ok f /\ (forall g, taken a g -> taken a' g).
Proof.
  intros Hwf (f & a' & E & Hav). exists f, a'. unfold take_frame. rewrite E. simpl.
  split; [done |]. split; [done |]. by eapply next_free_law.
Qed.

Lemma avail_le n n' a : (n <= n')%nat -> avail n' a -> avail n a.
Proof.
  revert n' a; induction n as [|n IH]; intros n' a Hle H; [done |].
  destruct n' as [|n']; [lia |]. destruct H as (f & a' & ? & ?). exists f, a'. split; [done |].
  apply (IH n'); [lia | done].
Qed.

(** The memory and the allocator when the loop starts, the root tables. *)
Variables (m1 : gmap Z (list Z)) (a1 : A) (parent child : Z).

(** What the parent's pages need: tables and frames exist and are in use. *)
Record parent_ok : Prop := {
  po_pt : pt_ok m1 parent;
  po_tables t : is_table m1 parent t -> taken a1 t /\ t <> child;
  po_frames q e : user_page q -> pte m1 parent q = Some e ->
    exists f d, entry_frame e = Some f /\ m1 !! f = Some d /\ taken a1 f /\ f <> child
}.

(** The child has a copy of the frame that entry [e] of the parent maps: same
    flags, same contents, in a frame of its own. *)
Definition copied (m : gmap Z (list Z)) (a : A) (q : list nat) (e : Z) : Prop :=
  exists e' f f', pte m child q = Some e' /\ entry_frame e = Some f /\ entry_frame e' = Some f' /\
    entry_flags e' = entry_flags e /\ m !! f' = m1 !! f /\
    ~ taken a1 f' /\ taken a f' /\ ~ is_table m child f'.

Record cloning (P : list nat -> Prop) (w : gmap Z (list Z) * A) : Prop := {
  cl_pt : pt_ok (fst w) child;
  cl_wf : alloc_wf (snd w);
  cl_mono f : taken a1 f -> taken (snd w) f;
  cl_tables t : is_table (fst w) child t -> taken (snd w) t /\ (t = child \/ ~ taken a1 t);
  cl_old f : taken a1 f -> f <> child -> fst w !! f = m1 !! f;
  cl_done q : user_page q -> P q ->
    match pte m1 parent q with
    | Some e => copied (fst w) (snd w) q e
    | None => pte (fst w) child q = None
    end;
  cl_todo q : user_page q -> ~ P q -> pte (fst w) child q = None;
  cl_inj q q' e e' f : user_page q -> user_page q' ->
    pte (fst w) child q = Some e -> pte (fst w) child q' = Some e' ->
    entry_frame e = Some f -> entry_frame e' = Some f -> q = q';
  cl_taken q e f : user_page q -> pte (fst w) child q = Some e -> entry_frame e = Some f ->
    taken (snd w) f;
  cl_rest : exists rest, (forall q, user_page q -> ~ P q -> pte m1 parent q <> None -> q ∈ rest) /\
    avail (4 * length rest) (snd w);
  cl_sized : mem_sized m1 -> mem_sized (fst w)
}.

(** Nothing to do: the pages of [E] are not mapped by the parent. *)
Lemma cloning_skip P E w :
  cloning P w -> (forall q, user_page q -> E q -> ~ P q) ->
  (forall q, user_page q -> E q -> pte m1 parent q = None) ->
  cloning (fun q => P q \/ E q) w.
Proof.
  intros [] HEP HE. split; try done.
  - intros q Hq [HP | HEq]; [by apply cl_done0 |]. rewrite HE by done. auto.
  - intros q Hq Hn. apply cl_todo0; tauto.
  - destruct cl_rest0 as (rest & Hr & ?). exists rest. split; [| done].
    intros q Hq Hn. apply Hr; tauto.
Qed.

Lemma cloning_iff P P' w : (forall q, user_page q -> P q <-> P' q) -> cloning P w -> cloning P' w.
Proof.
  intros HP []. split; try done.
  - intros q Hq H. apply cl_done0; [done |]. by apply HP.
  - intros q Hq H. apply cl_todo0; [done |]. by rewrite HP.
  - destruct cl_rest0 as (rest & Hr & ?). exists rest. split; [| done].
    intros q Hq Hn. apply Hr; [done | by rewrite HP].
Qed.

(** A mapping of the copy that is already there stays a copy. *)
Lemma copied_step m a m' a' q e :
  copied m a q e -> user_page q -> pte m' child q = pte m child q ->
  (forall f, taken a f -> ~ is_table m child f -> m' !! f = m !! f) ->
  (forall t, is_table m' child t -> is_table m child t \/ ~ taken a t) ->
  (forall f, taken a f -> taken a' f) -> copied m' a' q e.
Proof.
  intros (e' & f & f' & Hp & ? & ? & ? & Hd & ? & Ht & Hn) Hq Heq Hm Htab Hmono.
  exists e', f, f'. rewrite Heq, Hm by done. split_and!; try done; [by apply Hmono |].
  intros Hc. apply Htab in Hc as [? | ?]; tauto.
Qed.

Lemma remove_rest (rest : list (list nat)) q :
  q ∈ rest -> exists rest', length rest = S (length rest') /\ forall q', q' ∈ rest -> q' <> q -> q' ∈ rest'.
Proof.
  intros (l1 & l2 & ->)%list_elem_of_split. exists (l1 ++ l2). split; [rewrite !length_app; simpl; lia |].
  intros q' Hin Hne. apply elem_of_app. apply elem_of_app in Hin as [? | Hin]; [by left |].
  apply elem_of_cons in Hin as [-> | ?]; [done | by right].
Qed.

Lemma cloning_map P m a q e :
  parent_ok -> cloning P (m, a) -> user_page q -> ~ P q -> pte m1 parent q = Some e ->
  exists og d new a' m2 a2, entry_frame e = Some og /\ m !! og = Some d /\
    take_frame a = Ret (new, a') /\
    map_to (<[new := d]> m) a' child q new (entry_flags e) = Ret (Mapped, m2, a2) /\
    cloning (fun q' => P q' \/ q' = q) (m2, a2).
Proof.
  intros [_ _ Hfr] [Hpt Hwf Hmono Htab Hold Hdone Htodo Hinj Htk (rest & Hrest & Hav) Hsz] Hq HnP He. simpl in *.
  destruct (Hfr q e Hq He) as (og & d & Hog & Hd & Hogt & Hogc).
  destruct (remove_rest rest q) as (rest' & Hlen & Hrest'); [apply Hrest; [done | done | by rewrite He] |].
  destruct (take_frame_avail (3 + 4 * length rest') a Hwf) as (new & a' & Htake & Hav' & Hwf' & Hnew & Hnew' & Hfok & Hmono').
  { eapply avail_le; [| exact Hav]. lia. }
  assert (Hag : forall t, is_table m child t -> <[new := d]> m !! t = m !! t).
  { intros t Ht. apply lookup_insert_ne. intros ->. by apply Hnew, Htab. }
  destruct (map_to_law (<[new := d]> m) a' child q new (entry_flags e) (4 * length rest'))
    as (m2 & a2 & Hmap & Hpt2 & (e' & He' & Hf' & Hfl) & Hother & _ & Hm2 & Htab2 & Hwf2 & Hmono2 & Hav2 & Hsz2); try done.
  { by apply (agree_pt_ok m). }
  { intros t Ht. apply (agree_is_table m) in Ht; [| done | done]. apply Hmono', Htab, Ht. }
  { rewrite (agree_pte m) by done. auto. }
  { by exists e, og. }
  exists og, d, new, a', m2, a2. split; [done |]. split; [by rewrite Hold |].
  split; [done |]. split; [done |].
  assert (Hist : forall t, is_table (<[new := d]> m) child t <-> is_table m child t)
    by (intros t; by apply agree_is_table).
  setoid_rewrite Hist in Hm2. setoid_rewrite Hist in Htab2.
  assert (Hpte : forall q', user_page q' -> q' <> q -> pte m2 child q' = pte m child q').
  { intros q' Hq' Hne. rewrite Hother by done. by apply agree_pte. }
  assert (Hkeep : forall f, taken a f -> ~ is_table m child f -> m2 !! f = m !! f).
  { intros f Hf Hnt. rewrite Hm2 by auto. apply lookup_insert_ne. by intros ->. }
  assert (Hnt : ~ is_table m child new) by (intros Ht; by apply Hnew, Htab).
  split; simpl.
  - done.
  - done.
  - auto.
  - intros t [Ht | [Ht Ht2]]%Htab2; [by destruct (Htab t Ht); auto |].
    split; [done |]. right. intros ?. apply Ht. auto.
  - intros f Hf Hfc. rewrite <- Hold by done. apply Hkeep; [auto |].
    intros Ht. apply Htab in Ht as [_ [? | ?]]; done.
  - intros q' Hq' [HP | ->].
    + assert (q' <> q) by congruence. specialize (Hdone q' Hq' HP).
      destruct (pte m1 parent q') as [e0|]; [| by rewrite Hpte].
      apply (copied_step m a); auto. intros t Ht. apply Htab2 in Ht as [? | [? _]]; auto.
    + rewrite He. exists e', og, new. split_and!; try done.
      * rewrite Hm2, lookup_insert_eq by done. done.
      * auto.
      * auto.
      * intros Ht. apply Htab2 in Ht as [? | [? _]]; tauto.
  - intros q' Hq' HnP'. rewrite Hpte by tauto. apply Htodo; tauto.
  - assert (Hdis : forall q' e0 f, user_page q' -> q' <> q -> pte m2 child q' = Some e0 ->
      entry_frame e0 = Some f -> f <> new).
    { intros q' e0 f Hq' Hne. rewrite Hpte by done. intros Hp Hf ->. eapply Hnew, (Htk q'); eauto. }
    intros q1 q2 e1 e2 f H1 H2 Hp1 Hp2 Hf1 Hf2.
    destruct (decide (q1 = q)) as [-> | N1], (decide (q2 = q)) as [-> | N2]; [done | | |].
    + rewrite He' in Hp1. injection Hp1 as <-. exfalso. eapply (Hdis q2); eauto. congruence.
    + rewrite He' in Hp2. injection Hp2 as <-. exfalso. eapply (Hdis q1); eauto. congruence.
    + rewrite Hpte in Hp1, Hp2 by done. eauto.
  - intros q' e0 f Hq' Hp Hf. destruct (decide (q' = q)) as [-> | Hne].
    + rewrite He' in Hp. injection Hp as <-. rewrite Hf' in Hf. injection Hf as <-. auto.
    + rewrite Hpte in Hp by done. eauto.
  - exists rest'. split; [| done]. intros q' Hq' HnP' Hm'. apply Hrest'; [apply Hrest; tauto | tauto].
  - intros Hs1. apply Hsz2, mem_sized_insert; [auto |]. by apply (Hs1 og).
Qed.

(** [body i] copies the pages below [p ++ [i]] and nothing else. *)
Definition steps (p : list nat) (body : nat -> gmap Z (list Z) * A -> outcome (gmap Z (list Z) * A)) : Prop :=
  forall P w i, user_path (p ++ [i]) ->
    (forall q, user_page q -> p ++ [i] `prefix_of` q -> ~ P q) -> cloning P w ->
    exists w', body i w = Ret w' /\ cloning (fun q => P q \/ p ++ [i] `prefix_of` q) w'.

Lemma prefix_snoc_inj (p q : list nat) i j : p ++ [i] `prefix_of` q -> p ++ [j] `prefix_of` q -> i = j.
Proof.
  intros [r ->] [r' H]. rewrite <- !app_assoc in H. apply app_inv_head in H. simpl in H. congruence.
Qed.

Lemma loop_steps p body l P w :
  steps p body -> NoDup l -> Forall (fun i => user_path (p ++ [i])) l ->
  (forall i q, i ∈ l -> user_page q -> p ++ [i] `prefix_of` q -> ~ P q) -> cloning P w ->
  exists w', for_each body l w = Ret w' /\
    cloning (fun q => P q \/ exists i, i ∈ l /\ p ++ [i] `prefix_of` q) w'.
Proof.
  intros Hb. revert P w. induction l as [|i l IH]; intros P w Hnd Hall Hdis Hcl.
  - exists w. split; [done |]. eapply cloning_iff; [| exact Hcl]. intros q _. split; [tauto |].
    intros [? | (i & Hi & _)]; [done |]. by apply elem_of_nil in Hi.
  - apply NoDup_cons in Hnd as [Hni Hnd]. apply Forall_cons in Hall as [Hi Hall].
    destruct (Hb P w i Hi) as (w1 & E1 & H1); [| done |].
    { intros q. apply Hdis. apply list_elem_of_here. }
    destruct (IH (fun q => P q \/ p ++ [i] `prefix_of` q) w1) as (w2 & E2 & H2); [done | done | | done |].
    { intros j q Hj Hq Hpre [HP | Hpre'].
      - eapply (Hdis j q); eauto. by apply list_elem_of_further.
      - by rewrite (prefix_snoc_inj p q j i) in Hj. }
    exists w2. split; [simpl; by rewrite E1 |]. eapply cloning_iff; [| exact H2].
    intros q _. setoid_rewrite elem_of_cons. split; [intros [[? | ?] | (j & ? & ?)]; eauto 6 |].
    intros [? | (j & [-> | ?] & ?)]; eauto 6.
Qed.

Lemma user_path_snoc p i j : user_path (p ++ [i]) -> (j < 512)%nat -> user_path ((p ++ [i]) ++ [j]).
Proof.
  intros [H1 H2] Hj. split; [apply Forall_app; split; [done | by constructor] |].
  by destruct p.
Qed.

Lemma seq_prefix p q :
  user_page q -> (length p <= 3)%nat ->
  (exists i, i ∈ seq 0 512 /\ p ++ [i] `prefix_of` q) <-> p `prefix_of` q.
Proof.
  intros [[Hu _] Hlen] Hp. split.
  - intros (i & _ & [r ->]). rewrite <- app_assoc. by eexists.
  - intros [[|i r] ->]; [rewrite app_nil_r in Hlen; lia |].
    exists i. split; [| exists r; by rewrite <- app_assoc].
    apply Forall_app in Hu as [_ Hu]. apply Forall_cons in Hu as [? _]. apply elem_of_seq. lia.
Qed.

Lemma parent_slot P w p t i :
  parent_ok -> cloning P w -> user_path (p ++ [i]) -> (length p <= 3)%nat ->
  table_at m1 parent p = Some t ->
  exists e, slot m1 t i = Some e /\ read_entry (fst w) t i = Ret e.
Proof.
  intros [Hpt Htab _] Hcl Hu Hl Ht.
  assert (Hi : is_table m1 parent t) by (exists p; eauto using user_path_app).
  destruct (Htab t Hi) as [Htk Hne]. destruct (pt_table _ _ _ _ Hpt t Hi) as (es & He & Hlen).
  destruct Hu as [Hu _]. apply Forall_app in Hu as [_ Hu]. apply Forall_cons in Hu as [Hlt _].
  destruct (lookup_lt_is_Some_2 es i) as [e Hei]; [lia |].
  exists e. unfold read_entry, slot. rewrite (cl_old _ _ Hcl) by done. rewrite He. simpl. by rewrite Hei.
Qed.

Lemma descend_steps p t body :
  parent_ok -> (length p <= 2)%nat -> table_at m1 parent p = Some t ->
  (forall i t', user_path (p ++ [i]) -> table_at m1 parent (p ++ [i]) = Some t' -> steps (p ++ [i]) (body i t')) ->
  steps p (descend body t).
Proof.
  intros Hpo Hl Ht Hb P w i Hu Hdis Hcl.
  destruct (parent_slot P w p t i) as (e & He & Hr); try done; [lia |].
  unfold descend. rewrite Hr. simpl.
  assert (Hat : table_at m1 parent (p ++ [i]) = if is_unused e then None else Some (entry_addr e)).
  { rewrite table_at_app, Ht. simpl. unfold used. rewrite He. simpl. by destruct (is_unused e). }
  destruct (is_unused e) eqn:Hun.
  - exists w. split; [done |]. apply cloning_skip; [done | by auto |].
    intros q [Hq Hlq] Hpre. eapply pte_none; [done | done |]. rewrite length_app. simpl. lia.
  - destruct (loop_steps (p ++ [i]) (body i (entry_addr e)) (seq 0 512) P w) as (w' & E & H); try done.
    + by apply Hb.
    + apply NoDup_seq.
    + apply Forall_forall. intros j Hj. apply elem_of_seq in Hj. apply user_path_snoc; [done | lia].
    + intros j q _ Hq [r ->]. apply Hdis; [done |]. rewrite <- app_assoc. by eexists.
    + exists w'. split; [done |]. eapply cloning_iff; [| exact H]. intros q Hq. cbv beta.
      rewrite seq_prefix; [done | done |]. rewrite length_app. simpl. lia.
Qed.

Lemma page_prefix (q q' : list nat) : user_page q -> user_page q' -> q `prefix_of` q' <-> q' = q.
Proof.
  intros [_ H] [_ H']. split; [| by intros ->].
  intros [[|i r] ->]; [by rewrite app_nil_r |]. rewrite length_app in H'. simpl in H'. lia.
Qed.

Lemma clone_page_steps i4 i3 i2 t1 :
  parent_ok -> table_at m1 parent [i4; i3; i2] = Some t1 ->
  steps [i4; i3; i2] (clone_page child i4 i3 i2 t1).
Proof.
  intros Hpo Ht P w i1 Hu Hdis Hcl.
  destruct (parent_slot P w [i4; i3; i2] t1 i1) as (e & He & Hr); [done | done | done | simpl; lia | done |].
  assert (Hq : user_page [i4; i3; i2; i1]) by by split.
  destruct w as [m a]. unfold clone_page. simpl fst in Hr. rewrite Hr. simpl obind.
  assert (Hpte : pte m1 parent [i4; i3; i2; i1] = if is_unused e then None else Some e).
  { change [i4; i3; i2; i1] with ([i4; i3; i2] ++ [i1]). rewrite pte_app, Ht. simpl.
    unfold used. rewrite He. done. }
  destruct (is_unused e).
  - exists (m, a). split; [done |]. apply cloning_skip; [done | by auto |].
    intros q Hq'. simpl app. rewrite page_prefix by done. by intros ->.
  - destruct (cloning_map P m a [i4; i3; i2; i1] e) as (og & d & new & a' & m2 & a2 & -> & Hd & Htk & Hmap & H2);
      try done; [by apply (Hdis _ Hq) |].
    simpl. rewrite Htk. simpl. unfold copy_frame_data. rewrite Hd. simpl. rewrite Hmap. simpl.
    exists (m2, a2). split; [done |]. eapply cloning_iff; [| exact H2].
    intros q Hq'. simpl app. by rewrite page_prefix.
Qed.

Lemma clone_user_steps : parent_ok -> steps [] (clone_level4 parent child).
Proof.
  intros Hpo P w i4 Hu Hdis Hcl.
  assert ((i4 < 256)%nat) by apply Hu. unfold clone_level4.
  rewrite (proj2 (Nat.leb_gt 256 i4)) by lia.
  revert P w i4 Hu Hdis Hcl H. cut (steps [] (descend (fun i4 => clone_level3 child i4) parent)); [eauto |].
  apply descend_steps; [done | simpl; lia | done |]. intros i4 t3 _ H3.
  apply descend_steps; [done | simpl; lia | done |]. intros i3 t2 _ H2.
  apply descend_steps; [done | simpl; lia | done |]. intros i2 t1 _ H1.
  by apply clone_page_steps.
Qed.

(** ** The kernel half *)
Lemma cloning_kernel P m a i e :
  cloning P (m, a) -> (256 <= i < 512)%nat ->
  exists m', write_entry m child i e = Ret m' /\ cloning P (m', a) /\
    slot m' child i = Some e /\ forall j, j <> i -> slot m' child j = slot m child j.
Proof.
  intros [Hpt Hwf Hmono Htab Hold Hdone Htodo Hinj Htk Hrest Hsz] Hi. simpl in *.
  destruct (pt_table _ _ _ _ Hpt child (is_table_root m child)) as (es & He & Hlen).
  exists (<[child := <[i := e]> es]> m). unfold write_entry. rewrite He. simpl.
  rewrite upd_ret by lia. simpl. rewrite Nat2Z.id.
  split; [done |].
  assert (Hs : forall j, slot (<[child := <[i := e]> es]> m) child j = <[i := e]> es !! j)
    by (intros j; unfold slot; by rewrite lookup_insert_eq).
  assert (Hne : forall j, j <> i -> slot (<[child := <[i := e]> es]> m) child j = slot m child j).
  { intros j Hj. rewrite Hs, list_lookup_insert_ne by done. unfold slot. by rewrite He. }
  split; [| split; [rewrite Hs; apply list_lookup_insert_eq; lia | done]].
  assert (Hu : forall j, (j < 256)%nat -> slot (<[child := <[i := e]> es]> m) child j = slot m child j)
    by (intros j ?; apply Hne; lia).
  assert (Hm : forall t, t <> child -> <[child := <[i := e]> es]> m !! t = m !! t)
    by (intros t ?; by apply lookup_insert_ne).
  assert (Hself : forall p, user_path p -> (length p <= 3)%nat -> table_at m child p = Some child -> p = [])
    by (intros p; by apply root_once).
  assert (Hit : forall t, is_table (<[child := <[i := e]> es]> m) child t <-> is_table m child t)
    by (intros t; apply is_table_frame; auto).
  assert (Hpte : forall q, user_page q -> pte (<[child := <[i := e]> es]> m) child q = pte m child q)
    by (intros q ?; apply pte_frame; auto).
  split; simpl; try done.
  - apply (pt_ok_frame m _ child (<[i := e]> es)); auto; [apply lookup_insert_eq | by rewrite length_insert].
  - intros t Ht. apply Htab. by apply Hit.
  - intros f ? ?. rewrite Hm by done. auto.
  - intros q Hq HP. specialize (Hdone q Hq HP). destruct (pte m1 parent q) as [e0|]; [| by rewrite Hpte].
    destruct Hdone as (e' & f & f' & ? & ? & ? & ? & ? & ? & ? & Hn). exists e', f, f'.
    rewrite Hpte, Hit, Hm; [done | | done]. intros ->. apply Hn, is_table_root.
  - intros q Hq HP. rewrite Hpte by done. auto.
  - intros q q' e1 e2 f Hq Hq'. rewrite !Hpte by done. eauto.
  - intros q e1 f Hq. rewrite Hpte by done. eauto.
  - intros Hs1. apply mem_sized_insert; [auto | by rewrite length_insert].
Qed.

Lemma kernel_steps P l w :
  parent_ok -> cloning P w -> Forall (fun i => (256 <= i < 512)%nat) l ->
  exists w', for_each (clone_level4 parent child) l w = Ret w' /\ cloning P w' /\
    (forall i, i ∈ l -> slot (fst w') child i = slot m1 parent i) /\
    (forall i, i ∉ l -> slot (fst w') child i = slot (fst w) child i).
Proof.
  intros Hpo. revert w. induction l as [|i l IH]; intros w Hcl Hall.
  - exists w. split; [done |]. split; [done |]. split; [| done]. intros i Hi. by apply elem_of_nil in Hi.
  - apply Forall_cons in Hall as [Hi Hall]. destruct w as [m a].
    assert (Hroot : is_table m1 parent parent) by apply is_table_root.
    destruct (po_tables Hpo parent Hroot) as [Htk Hne].
    destruct (pt_table _ _ _ _ (po_pt Hpo) parent Hroot) as (es & He & Hlen).
    destruct (lookup_lt_is_Some_2 es i) as [e Hei]; [lia |].
    destruct (cloning_kernel P m a i e Hcl Hi) as (m' & Hw & Hcl' & Hs & Hs').
    destruct (IH (m', a) Hcl' Hall) as (w' & E & Hclw & Hin & Hout).
    exists w'. simpl. unfold clone_level4 at 1. rewrite (proj2 (Nat.leb_le 256 i)) by lia.
    pose proof (cl_old _ _ Hcl parent Htk Hne) as Hold. simpl in Hold.
    assert (slot m1 parent i = Some e) as Hpe by (unfold slot; by rewrite He).
    simpl fst. assert (read_entry m parent i = Ret e) as -> by (unfold read_entry, slot; rewrite Hold, He; simpl; by rewrite Hei).
    simpl. rewrite Hw. simpl. split; [done |]. split; [done |]. split.
    + intros j Hj. destruct (decide (j ∈ l)); [auto |].
      apply elem_of_cons in Hj as [-> | ?]; [| contradiction]. rewrite Hout, Hpe by done. done.
    + intros j Hj. apply not_elem_of_cons in Hj as [? ?]. rewrite Hout by done. simpl. auto.
Qed.

Lemma for_each_split {S} (body : nat -> S -> outcome S) l l' s s1 s2 :
  for_each body l s = Ret s1 -> for_each body l' s1 = Ret s2 -> for_each body (l ++ l') s = Ret s2.
Proof.
  revert s; induction l as [|i l IH]; intros s; simpl; [by intros [= ->] |].
  destruct (body i s); simpl; auto; done.
Qed.

Lemma seq_halves : seq 0 512 = seq 0 256 ++ seq 256 256.
Proof. vm_compute. reflexivity. Qed.

(** The whole loop. *)
Lemma clone_loop w :
  parent_ok -> cloning (fun _ => False) w ->
  exists w', for_each (clone_level4 parent child) (seq 0 512) w = Ret w' /\ cloning (fun _ => True) w' /\
    forall i, (256 <= i < 512)%nat -> slot (fst w') child i = slot m1 parent i.
Proof.
  intros Hpo Hcl. rewrite seq_halves.
  destruct (loop_steps [] (clone_level4 parent child) (seq 0 256) (fun _ => False) w)
    as (w1 & E1 & H1); auto using clone_user_steps, NoDup_seq.
  { apply Forall_forall. intros i Hi. apply elem_of_seq in Hi. split; [constructor; [lia | constructor] | simpl; lia]. }
  assert (Hcl1 : cloning (fun _ => True) w1).
  { eapply cloning_iff; [| exact H1]. intros q [[Hq Hlt] Hlen]. split; [done |]. intros _. right.
    destruct q as [|i q]; [done |]. exists i. split; [apply elem_of_seq; lia | by exists q]. }
  destruct (kernel_steps (fun _ => True) (seq 256 256) w1 Hpo Hcl1) as (w2 & E2 & H2 & Hk & _).
  { apply Forall_forall. intros i Hi. apply elem_of_seq in Hi. lia. }
  exists w2. split; [exact (for_each_split _ _ _ _ _ _ E1 E2) |]. split; [exact H2 |].
  intros i Hi. apply Hk, elem_of_seq. lia.
Qed.

End Cloning.

(** ** Fork copies the address space *)
Section ForkCopy.
Context {A : Type} {FA : FrameAllocator A} {FL : FrameAllocatorLaws A} {PA : PageApi A} {PL : PageLaws A PA}.
Implicit Types (m : gmap Z (list Z)) (a : A).

(** An address space in use: its tables and the frames of its user pages
    exist and belong to it; a frame is mapped once and is no table. *)
Record space_ok m a (s : AddressSpace) : Prop := {
  so_pt : pt_ok m (cr3 s);
  so_tables t : is_table m (cr3 s) t -> taken a t;
  so_frames q e : user_page q -> pte m (cr3 s) q = Some e ->
    exists f d, entry_frame e = Some f /\ m !! f = Some d /\ taken a f;
  so_data q e f : user_page q -> pte m (cr3 s) q = Some e -> entry_frame e = Some f ->
    ~ is_table m (cr3 s) f;
  so_once q q' e e' f : user_page q -> user_page q' ->
    pte m (cr3 s) q = Some e -> pte m (cr3 s) q' = Some e' ->
    entry_frame e = Some f -> entry_frame e' = Some f -> q = q'
}.

(** The frames of an address space: its tables and the frames of its pages. *)
Definition owns m (l4 f : Z) : Prop :=
  is_table m l4 f \/ exists q e, user_page q /\ pte m l4 q = Some e /\ entry_frame e = Some f.

Lemma space_ok_owns m a s f : space_ok m a s -> owns m (cr3 s) f -> taken a f.
Proof.
  intros Hok [Ht | (q & e & Hq & He & Hf)]; [by apply (so_tables _ _ _ Hok) |].
  destruct (so_frames _ _ _ Hok q e Hq He) as (f' & d & Hf' & _ & ?). by replace f with f' by congruence.
Qed.

(** The upper half of the table at [l4] is that of the kernel's table [k] in [m]. *)
Definition kernel_half (k : Z) m (l4 : Z) m' : Prop :=
  forall i, (256 <= i < 512)%nat -> slot m' l4 i = slot m k i.

(** [s] is a new address space: built from frames that were free, and no frame
    in use before is written. *)
Record new_space m a (s : AddressSpace) m' a' : Prop := {
  ns_ok : space_ok m' a' s;
  ns_wf : alloc_wf a';
  ns_mono f : taken a f -> taken a' f;
  ns_mem f : taken a f -> m' !! f = m !! f;
  ns_fresh f : owns m' (cr3 s) f -> ~ taken a f;
  ns_sized : mem_sized m -> mem_sized m'
}.

(** [s'] is a private copy of [s]. *)
Record forked_space m a (s s' : AddressSpace) m' a' : Prop := {
  fs_fields : heap_start s' = heap_start s /\ heap_end s' = heap_end s /\
    program_start s' = program_start s /\ program_end s' = program_end s /\ stack_top s' = stack_top s;
  fs_parent f : taken a f -> m' !! f = m !! f;
  fs_page q : user_page q ->
    match pte m (cr3 s) q with
    | None => pte m' (cr3 s') q = None
    | Some e => exists e' f f', pte m' (cr3 s') q = Some e' /\
        entry_frame e = Some f /\ entry_frame e' = Some f' /\ entry_flags e' = entry_flags e /\
        m' !! f' = m !! f /\ ~ taken a f'
    end;
  fs_kernel i : (256 <= i < 512)%nat -> slot m' (cr3 s') i = slot m (cr3 s) i;
  fs_ok : space_ok m' a' s'
}.

Definition backbuffer_len (s : AddressSpace) : nat := length (default [] (backbuffer_frames s)).

(** The new frames are taken; [Q] is any property that holds of them all. *)
Lemma clone_backbuffer_ok k n acc a :
  alloc_wf a -> avail (n + k) a -> Forall (taken a) acc ->
  exists fs a', clone_backbuffer n acc a = Ret (fs, a') /\ length fs = (length acc + n)%nat /\
    Forall (taken a') fs /\ alloc_wf a' /\ (forall g, taken a g -> taken a' g) /\ avail k a'.
Proof.
  revert acc a; induction n as [|n IH]; intros acc a Hwf Hav Hacc; simpl clone_backbuffer.
  - exists acc, a. split_and!; solve [auto | lia].
  - destruct (take_frame_avail (n + k) a Hwf Hav) as (f & a1 & E & Hav1 & Hwf1 & _ & Hf & _ & Hmono).
    rewrite E. simpl obind.
    destruct (IH (acc ++ [f]) a1 Hwf1 Hav1) as (fs & a' & E' & Hlen & Hall & Hwf' & Hmono' & Hav').
    { apply Forall_app. split; [| by constructor]. eapply Forall_impl; [exact Hacc |]. auto. }
    exists fs, a'. rewrite length_app in Hlen. simpl in Hlen. split_and!; solve [auto | lia].
Qed.

(** The table that [new_page_table] makes maps no user page. *)
Lemma new_table_empty m child active :
  let m' := <[child := imap (fun i e => if (i <? 256)%nat then entry_new else e) active]> m in
  (forall p, user_path p -> p <> [] -> table_at m' child p = None) /\
  (forall q, user_page q -> pte m' child q = None).
Proof.
  intros m'. assert (Hun : forall i, (i < 256)%nat -> used m' child i = None).
  { intros i Hi. unfold used, slot, m'. rewrite lookup_insert_eq. simpl. rewrite list_lookup_imap.
    destruct (active !! i); [| done]. simpl. rewrite (proj2 (Nat.ltb_lt i 256)) by lia.
    by rewrite entry_new_unused. }
  split.
  - intros [|i p] [_ Hi] Hne; [done |]. simpl. by rewrite Hun.
  - intros [|i [|j q]] [[_ Hi] Hl]; [done | done |]. cbn [pte]. by rewrite Hun.
Qed.

Lemma new_table_ok m child active :
  length active = 512%nat ->
  let m' := <[child := imap (fun i e => if (i <? 256)%nat then entry_new else e) active]> m in
  pt_ok m' child /\ forall t, is_table m' child t -> t = child.
Proof.
  intros Hlen m'. destruct (new_table_empty m child active) as [Hnone _]. fold m' in Hnone.
  assert (Hp : forall p t, user_path p -> table_at m' child p = Some t -> p = [] /\ t = child).
  { intros p t Hu Ht. destruct (decide (p = [])) as [-> |]; [split; [done |]; by injection Ht |].
    by rewrite Hnone in Ht. }
  assert (Htab : forall t, is_table m' child t -> t = child).
  { intros t (p & Hu & _ & Ht). by apply (Hp p). }
  split; [| done]. split.
  - intros t Ht. rewrite (Htab t Ht). eexists. split; [apply lookup_insert_eq | by rewrite length_imap].
  - intros p p' t Hu Hu' _ _ Ht Ht'. destruct (Hp p t Hu Ht), (Hp p' t Hu' Ht'). congruence.
  - intros p i t e Hu _ Ht He. assert (table_at m' child (p ++ [i]) = Some (entry_addr e)) as Hpi.
    { rewrite table_at_app, Ht. simpl. by rewrite He. }
    apply Hp in Hpi as [Hpi _]; [by destruct p | done].
Qed.

(** Everything about [clone_for_fork] at once. *)
Lemma clone_for_fork_spec kernel_table active mapped m a s :
  space_ok m a s -> alloc_wf a ->
  m !! kernel_table = Some active -> length active = 512%nat ->
  (forall q, user_page q -> pte m (cr3 s) q <> None -> q ∈ mapped) ->
  avail (1 + backbuffer_len s + 4 * length mapped) a ->
  exists s' m' a', clone_for_fork kernel_table s (m, a) = Ret (s', (m', a')) /\
    forked_space m a s s' m' a' /\ new_space m a s' m' a' /\ backbuffer_len s' = backbuffer_len s /\
    forall f, f ∈ default [] (backbuffer_frames s') ->
      forall q e, user_page q -> pte m' (cr3 s') q = Some e -> entry_frame e <> Some f.
Proof.
  intros [Hpt Htab Hfr _ _] Hwf Hk Hlen Hmapped Hav.
  destruct (take_frame_avail (backbuffer_len s + 4 * length mapped) a Hwf Hav)
    as (child & a0 & E0 & Hav0 & Hwf0 & Hnew & Hnew0 & _ & Hmono0).
  destruct (clone_backbuffer_ok (4 * length mapped) (backbuffer_len s) [] a0 Hwf0 Hav0)
    as (fs & a1 & Ebb & Hbl & Hbt & Hwf1 & Hmono1 & Hav1); [constructor |].
  set (m1 := <[child := imap (fun i e => if (i <? 256)%nat then entry_new else e) active]> m).
  destruct (new_table_ok m child active Hlen) as [Hcpt Hctab].
  destruct (new_table_empty m child active) as [_ Hcpte]. fold m1 in Hcpt, Hctab, Hcpte.
  assert (Hag : forall f, taken a f -> m1 !! f = m !! f).
  { intros f Hf. apply lookup_insert_ne. by intros ->. }
  assert (Hagt : forall t, is_table m (cr3 s) t -> m1 !! t = m !! t) by auto.
  assert (Hppte : forall q, user_page q -> pte m1 (cr3 s) q = pte m (cr3 s) q) by (intros; by apply agree_pte).
  assert (Hpo : parent_ok m1 a1 (cr3 s) child).
  { split; [by apply (agree_pt_ok m) | |].
    - intros t Ht. apply (agree_is_table m) in Ht; [| done | done].
      split; [auto |]. intros ->. by apply Hnew, Htab.
    - intros q e Hq. rewrite Hppte by done. intros He. destruct (Hfr q e Hq He) as (f & d & ? & ? & ?).
      exists f, d. rewrite Hag by done. split_and!; auto. by intros ->. }
  assert (Hcl : cloning m1 a1 (cr3 s) child (fun _ => False) (m1, a1)).
  { split; simpl; auto; try done.
    - intros t Ht. rewrite (Hctab t Ht). auto.
    - intros q q' e e' f Hq. by rewrite Hcpte.
    - intros q e f Hq. by rewrite Hcpte.
    - exists mapped. split; [| done]. intros q Hq _. rewrite Hppte by done. by apply Hmapped. }
  destruct (clone_loop m1 a1 (cr3 s) child (m1, a1) Hpo Hcl) as ([m2 a2] & Eloop & Hcl2 & Hkern).
  set (s' := {| cr3 := child; heap_start := heap_start s; heap_end := heap_end s;
                program_start := program_start s;
                backbuffer_frames := match fs with [] => None | _ => Some fs end;
                program_end := program_end s; stack_top := stack_top s |}).
  exists s', m2, a2. split.
  { unfold clone_for_fork, new_page_table. rewrite E0. cbn [obind]. rewrite Hk. cbn [unwrap obind].
    fold m1. unfold backbuffer_len in Ebb. destruct (backbuffer_frames s) as [bb|]; simpl in Ebb.
    - rewrite Ebb. cbn [obind]. rewrite Eloop. reflexivity.
    - injection Ebb as <- <-. cbn [obind]. rewrite Eloop. reflexivity. }
  destruct Hcl2 as [Hpt2 Hwf2 Hmono2 Htab2 Hold2 Hdone2 _ Hinj2 Htk2 _ Hsz2].
  simpl in Hpt2, Hwf2, Hmono2, Htab2, Hold2, Hdone2, Hinj2, Htk2, Hsz2, Hkern.
  assert (Hbb : default [] (backbuffer_frames s') = fs) by (unfold s'; cbn; by destruct fs).
  assert (Hpages : forall q, user_page q -> match pte m (cr3 s) q with
    | Some e => copied m1 a1 child m2 a2 q e | None => pte m2 child q = None end).
  { intros q Hq. rewrite <- Hppte by done. by apply Hdone2. }
  assert (Hkeep : forall f, taken a f -> m2 !! f = m !! f).
  { intros f Hf. rewrite <- Hag by done. apply Hold2; [auto |]. by intros ->. }
  assert (Hok' : space_ok m2 a2 s').
  { split; [done | apply Htab2 | | | apply Hinj2].
    2:{ intros q e' f0 Hq Hp Hf0. specialize (Hpages q Hq). change (cr3 s') with child in Hp |- *.
        destruct (pte m (cr3 s) q) as [e|]; [| congruence].
        destruct Hpages as (e2 & f & f' & ? & ? & ? & ? & ? & ? & ? & Hn). by replace f0 with f' by congruence. }
    intros q e' Hq Hp. specialize (Hpages q Hq).
    destruct (pte m (cr3 s) q) as [e|] eqn:He; [| simpl in Hp; congruence].
    destruct Hpages as (e2 & f & f' & Hp2 & Hf & Hf' & ? & Hd & _ & ? & ?). simpl in Hp.
    destruct (Hfr q e Hq He) as (f0 & d & Hf0 & Hd0 & ?).
    exists f', d. split; [congruence |]. split; [| done]. rewrite Hd, Hag; congruence. }
  split; [split | split; [split | split]]; try done.
  - intros q Hq. specialize (Hpages q Hq). destruct (pte m (cr3 s) q) as [e|] eqn:He; [| done].
    destruct Hpages as (e' & f & f' & ? & Hf & ? & ? & Hd & Hn & ? & ?). exists e', f, f'. split_and!; auto.
    destruct (Hfr q e Hq He) as (f0 & d & Hf0 & ? & ?). rewrite Hd. apply Hag. congruence.
  - intros i Hi. change (cr3 s') with child. rewrite (Hkern i Hi). unfold slot.
    by rewrite Hagt by apply is_table_root.
  - auto.
  - change (cr3 s') with child. intros f [[_ [-> | Ht]]%Htab2 | (q & e' & Hq & He' & Hf)] Htk; [done | auto |].
    specialize (Hpages q Hq). destruct (pte m (cr3 s) q) as [e|]; [| congruence].
    destruct Hpages as (e2 & f0 & f' & ? & _ & ? & _ & _ & Hn & _). apply Hn. replace f' with f by congruence. auto.
  - intros Hs. apply Hsz2. apply mem_sized_insert; [done | by rewrite length_imap].
  - unfold backbuffer_len at 1. rewrite Hbb. done.
  - rewrite Hbb. intros f Hf q e' Hq Hp Hfe. specialize (Hpages q Hq). simpl in Hp.
    destruct (pte m (cr3 s) q) as [e|]; [| congruence].
    destruct Hpages as (e2 & f0 & f' & Hp2 & _ & Hf' & _ & _ & Hn & _). apply Hn.
    rewrite Forall_forall in Hbt. replace f' with f by congruence. auto.
Qed.

(** [C9] [clone_for_fork] gives the child a private copy of the parent's
    memory: it returns when the allocator has enough frames (one for the root,
    one per back-buffer frame, four per mapped page), the child maps exactly the
    parent's user pages, each with the same flags and the same 4 KiB of contents,
    in frames that were free before and are pairwise distinct; the kernel half is
    shared, no frame in use before is written, and the child's space can itself
    be forked. *)
Theorem clone_for_fork_copies kernel_table active m a s :
  space_ok m a s -> alloc_wf a ->
  m !! kernel_table = Some active -> length active = 512%nat ->
  avail (1 + backbuffer_len s + 4 * length (mapped_pages m (cr3 s))) a ->
  exists s' m' a', clone_for_fork kernel_table s (m, a) = Ret (s', (m', a')) /\
    forked_space m a s s' m' a'.
Proof.
  intros H1 H2 H3 H4 H5.
  destruct (clone_for_fork_spec kernel_table active _ m a s H1 H2 H3 H4 (fun q => mapped_pages_complete m (cr3 s) q) H5) as (s' & m' & a' & ? & ? & _).
  by exists s', m', a'.
Qed.

(** The back buffer of a forked process is not the one it draws to: the
    frames recorded for the compositor are as many as the parent's, but the child
    has no page that maps any of them. *)
Theorem fork_backbuffer_unmapped kernel_table active m a s :
  space_ok m a s -> alloc_wf a ->
  m !! kernel_table = Some active -> length active = 512%nat ->
  avail (1 + backbuffer_len s + 4 * length (mapped_pages m (cr3 s))) a ->
  exists s' m' a', clone_for_fork kernel_table s (m, a) = Ret (s', (m', a')) /\
    backbuffer_len s' = backbuffer_len s /\
    forall f, f ∈ default [] (backbuffer_frames s') ->
      forall q e, user_page q -> pte m' (cr3 s') q = Some e -> entry_frame e <> Some f.
Proof.
  intros H1 H2 H3 H4 H5.
  destruct (clone_for_fork_spec kernel_table active _ m a s H1 H2 H3 H4 (fun q => mapped_pages_complete m (cr3 s) q) H5) as (s' & m' & a' & ? & _ & _ & ? & ?).
  by exists s', m', a'.
Qed.

End ForkCopy.
