(* ===== verification/PagingMap.v ===== *)
(** * A concrete page-table interface

    x86-64 page-table entries and a walk that adds missing tables, with the
    proof that they satisfy [PageLaws], and the frame allocator of [Memory] as
    an instance of [FrameAllocatorLaws].  The theorems of [Paging] are
    instantiated with both. *)
From S2P Require Import Prelude Memory Paging.

(** ** The allocator *)
Section Bump.
Context {F : FrameApi} {FrameL : FrameApiLaws F}.

#[export] Instance bump_allocator : FrameAllocator BumpAllocator := {| next_free := allocate_frame |}.

#[export] Program Instance bump_allocator_laws : FrameAllocatorLaws BumpAllocator := {|
  alloc_wf := alloc_ok;
  taken a f := f < next_phys_addr a
|}.
Next Obligation.
  intros a f a' Hok E.
  destruct (allocate_frame_spec a Hok) as (r & a2 & E2 & Hadv & Hr). simpl in E. rewrite E2 in E.
  injection E as -> ->. destruct Hr as ((Hal & _) & Hle & Hn).
  pose proof (adv_ok _ _ Hadv) as Hok'. pose proof (ok_next _ Hok'). pose proof (ok_next _ Hok).
  split; [done |]. split; [lia |]. split; [lia |]. split; [split; [done | lia] |]. intros g ?. lia.
Qed.
End Bump.

(** ** Entries *)
Definition ADDR_MASK : Z := 0x000ffffffffff000.
Definition FLAG_MASK : Z := 0xfff0000000000fff.
Definition PARENT_FLAGS : Z := 7.  (** present, writable, user accessible *)

Definition x86_addr (e : Z) : Z := Z.land e ADDR_MASK.
Definition x86_flags (e : Z) : Z := Z.land e FLAG_MASK.
Definition x86_frame (e : Z) : option Z :=
  if Z.testbit e 0 && negb (Z.testbit e 7) then Some (x86_addr e) else None.

Section Walk.
Context {A : Type} {FA : FrameAllocator A}.

(** Walk from table [t]; a missing table is allocated and cleared, the flags
    of an entry on the way are widened. *)
Fixpoint map_walk (m : gmap Z (list Z)) (a : A) (t : Z) (p : list nat) (frame flags : Z)
  : outcome (MapResult * gmap Z (list Z) * A) :=
  match p with
  | [] => Ret (MapFailed, m, a)
  | [i] =>
      let! e := read_entry m t i in
      if e =? 0 then let! m := write_entry m t i (Z.lor frame flags) in Ret (Mapped, m, a)
      else Ret (PageAlreadyMapped, m, a)
  | i :: p =>
      let! e := read_entry m t i in
      if e =? 0 then
        let! '(f, a) := next_free a in
        match f with
        | None => Ret (MapFailed, m, a)
        | Some f =>
            let! m := write_entry m t i (Z.lor f (Z.land flags PARENT_FLAGS)) in
            map_walk (<[f := replicate 512 0]> m) a f p frame flags
        end
      else
        match x86_frame e with
        | None => Ret (MapFailed, m, a)
        | Some t' =>
            let! m := write_entry m t i (Z.lor e (Z.land flags PARENT_FLAGS)) in
            map_walk m a t' p frame flags
        end
  end.
End Walk.

#[export] Instance x86_api {A} {FA : FrameAllocator A} : PageApi A := {|
  entry_new := 0;
  is_unused e := e =? 0;
  entry_addr := x86_addr;
  entry_frame := x86_frame;
  entry_flags := x86_flags;
  map_to := map_walk
|}.

(** ** Bits of entries *)
Lemma frame_bits f i : frame_ok f -> 0 <= i < 12 \/ 52 <= i -> Z.testbit f i = false.
Proof.
  intros [Hm Hr] [Hi | Hi].
  - replace f with (f / 4096 * 2 ^ 12); [apply Z.mul_pow2_bits_low; lia |].
    pose proof (Z.div_mod f 4096 ltac:(lia)). change (2 ^ 12) with 4096. lia.
  - apply (testbit_high f 52); lia.
Qed.

Lemma addr_mask_bits i : 0 <= i -> Z.testbit ADDR_MASK i = (12 <=? i) && (i <? 52).
Proof.
  intros Hi. change ADDR_MASK with (Z.shiftl (Z.ones 40) 12).
  rewrite Z.shiftl_spec by done. destruct (Z.leb_spec 12 i); simpl.
  - rewrite Z.testbit_ones_nonneg by lia. destruct (Z.ltb_spec (i - 12) 40), (Z.ltb_spec i 52); lia.
  - apply Z.testbit_neg_r. lia.
Qed.

Lemma flag_mask_bits i : 0 <= i -> Z.testbit FLAG_MASK i = (i <? 12) || (52 <=? i) && (i <? 64).
Proof.
  intros Hi. change FLAG_MASK with (Z.lor (Z.ones 12) (Z.shiftl (Z.ones 12) 52)).
  rewrite Z.lor_spec, Z.testbit_ones_nonneg, Z.shiftl_spec by lia.
  destruct (Z.ltb_spec i 12); simpl; [done |]. destruct (Z.leb_spec 52 i); simpl.
  - rewrite Z.testbit_ones_nonneg by lia. destruct (Z.ltb_spec (i - 52) 12), (Z.ltb_spec i 64); lia.
  - apply Z.testbit_neg_r. lia.
Qed.

Lemma x86_addr_bits e i : 0 <= i -> Z.testbit (x86_addr e) i = Z.testbit e i && ((12 <=? i) && (i <? 52)).
Proof. intros. unfold x86_addr. by rewrite Z.land_spec, addr_mask_bits. Qed.
Lemma x86_flags_bits e i :
  0 <= i -> Z.testbit (x86_flags e) i = Z.testbit e i && ((i <? 12) || (52 <=? i) && (i <? 64)).
Proof. intros. unfold x86_flags. by rewrite Z.land_spec, flag_mask_bits. Qed.

Lemma x86_frame_ok e f : x86_frame e = Some f -> frame_ok f.
Proof.
  unfold x86_frame. case_match; [| done]. intros [= <-].
  assert (E : x86_addr e = Z.shiftl (Z.land (Z.shiftr e 12) (Z.ones 40)) 12).
  { apply Z.bits_inj'. intros i Hi. rewrite x86_addr_bits, Z.shiftl_spec by done.
    destruct (Z.leb_spec 12 i) as [Hle | Hlt].
    - rewrite Z.land_spec, Z.shiftr_spec, Z.testbit_ones_nonneg by lia.
      replace (i - 12 + 12) with i by lia. f_equal. destruct (Z.ltb_spec i 52), (Z.ltb_spec (i - 12) 40); (done || lia).
    - rewrite andb_false_r. symmetry. apply Z.testbit_neg_r. lia. }
  rewrite Z.land_ones, Z.shiftl_mul_pow2 in E by lia. rewrite E.
  pose proof (Z.mod_pos_bound (Z.shiftr e 12) (2 ^ 40) ltac:(lia)).
  split; [apply Z.mod_mul; lia | lia].
Qed.

(** Flags of an entry that maps a frame: present, not huge, no address bits. *)
Lemma flags_of_frame e f flags :
  x86_frame e = Some f -> x86_flags e = flags ->
  Z.testbit flags 0 = true /\ Z.testbit flags 7 = false /\
  (forall i, 12 <= i < 52 -> Z.testbit flags i = false) /\
  (forall i, 0 <= i -> Z.testbit flags i = Z.testbit flags i && ((i <? 12) || (52 <=? i) && (i <? 64))).
Proof.
  intros Hf <-. unfold x86_frame in Hf. destruct (_ && _) eqn:E; [| done].
  apply andb_prop in E as [E1 E2]. apply negb_true_iff in E2.
  split; [by rewrite x86_flags_bits, E1 by lia |]. split; [by rewrite x86_flags_bits, E2 by lia |].
  split; intros i Hi; rewrite x86_flags_bits by lia.
  - destruct (Z.ltb_spec i 12), (Z.leb_spec 52 i); (lia || by rewrite andb_false_r).
  - by rewrite <- andb_assoc, andb_diag.
Qed.

Section Entries.
Variables (f flags : Z).
Hypotheses (Hf : frame_ok f) (H0 : Z.testbit flags 0 = true) (H7 : Z.testbit flags 7 = false).

Lemma entry_nonzero e : Z.testbit e 0 = true -> (e =? 0) = false.
Proof. intros H. apply Z.eqb_neq. intros ->. by rewrite Z.bits_0 in H. Qed.

Lemma leaf_addr : (forall i, 12 <= i < 52 -> Z.testbit flags i = false) -> x86_addr (Z.lor f flags) = f.
Proof.
  intros H. apply Z.bits_inj'. intros i Hi. rewrite x86_addr_bits, Z.lor_spec by done.
  destruct (Z.leb_spec 12 i), (Z.ltb_spec i 52); simpl; rewrite ?andb_true_r, ?andb_false_r;
    try (symmetry; apply frame_bits; [done | lia]).
  rewrite H by lia. apply orb_false_r.
Qed.

Lemma leaf_frame : (forall i, 12 <= i < 52 -> Z.testbit flags i = false) -> x86_frame (Z.lor f flags) = Some f.
Proof.
  intros H. unfold x86_frame. rewrite !Z.lor_spec, H0, H7, !(frame_bits f) by (done || lia).
  simpl. by rewrite leaf_addr.
Qed.

Lemma leaf_flags :
  (forall i, 12 <= i < 52 -> Z.testbit flags i = false) ->
  (forall i, 0 <= i -> Z.testbit flags i = Z.testbit flags i && ((i <? 12) || (52 <=? i) && (i <? 64))) ->
  x86_flags (Z.lor f flags) = flags.
Proof.
  intros H1 H2. apply Z.bits_inj'. intros i Hi. rewrite x86_flags_bits, Z.lor_spec by done.
  rewrite (H2 i Hi). destruct (decide (0 <= i < 12 \/ 52 <= i)) as [Hd | Hd].
  - rewrite (frame_bits f i Hf Hd). simpl. by rewrite <- andb_assoc, andb_diag.
  - destruct (Z.ltb_spec i 12), (Z.leb_spec 52 i); (lia || by rewrite !andb_false_r).
Qed.

Lemma parent_flag_bits i : 0 <= i ->
  Z.testbit (Z.land flags PARENT_FLAGS) i = Z.testbit flags i && (i <? 3).
Proof.
  intros Hi. rewrite Z.land_spec. f_equal. change PARENT_FLAGS with (Z.ones 3).
  by apply Z.testbit_ones_nonneg.
Qed.

Lemma parent_frame e : x86_frame e = Some (x86_addr e) ->
  x86_frame (Z.lor e (Z.land flags PARENT_FLAGS)) = Some (x86_addr e) /\
  x86_addr (Z.lor e (Z.land flags PARENT_FLAGS)) = x86_addr e /\
  Z.testbit (Z.lor e (Z.land flags PARENT_FLAGS)) 0 = true.
Proof.
  unfold x86_frame at 1. destruct (_ && _) eqn:E; [| done]. intros _.
  apply andb_prop in E as [E1 E2]. apply negb_true_iff in E2.
  assert (Ha : x86_addr (Z.lor e (Z.land flags PARENT_FLAGS)) = x86_addr e).
  { apply Z.bits_inj'. intros i Hi. rewrite !x86_addr_bits, Z.lor_spec, parent_flag_bits by done.
    destruct (Z.ltb_spec i 3), (Z.leb_spec 12 i); simpl; rewrite ?andb_false_r, ?orb_false_r; try lia; done. }
  split; [| split; [done | by rewrite Z.lor_spec, E1]].
  unfold x86_frame. rewrite Ha, !Z.lor_spec, E1, E2, !parent_flag_bits by lia. simpl. by rewrite andb_false_r.
Qed.

Lemma new_table_entry :
  x86_frame (Z.lor f (Z.land flags PARENT_FLAGS)) = Some f /\
  x86_addr (Z.lor f (Z.land flags PARENT_FLAGS)) = f /\
  Z.testbit (Z.lor f (Z.land flags PARENT_FLAGS)) 0 = true.
Proof.
  assert (Ha : x86_addr (Z.lor f (Z.land flags PARENT_FLAGS)) = f).
  { apply Z.bits_inj'. intros i Hi. rewrite x86_addr_bits, Z.lor_spec, parent_flag_bits by done.
    destruct (Z.leb_spec 12 i), (Z.ltb_spec i 52), (Z.ltb_spec i 3); simpl;
      rewrite ?andb_true_r, ?andb_false_r, ?orb_false_r; try lia; try done;
      symmetry; apply frame_bits; (done || lia). }
  assert (Hb : Z.testbit (Z.lor f (Z.land flags PARENT_FLAGS)) 0 = true).
  { rewrite Z.lor_spec, parent_flag_bits, H0 by lia. apply orb_true_r. }
  split; [| done]. unfold x86_frame. rewrite Hb, Ha, Z.lor_spec, parent_flag_bits, (frame_bits f 7) by (done || lia).
  by rewrite H7.
Qed.
End Entries.

(** ** Trees of tables *)
Abbreviation anyp := (fun _ : nat => True) (only parsing).

Section Graft.
Context {A : Type} {PA : PageApi A}.
Implicit Types (m : gmap Z (list Z)).

Lemma path_any_app p p' : path_in anyp (p ++ p') <-> path_in anyp p /\ path_in anyp p'.
Proof. unfold path_in. rewrite Forall_app. destruct p, p'; simpl; tauto. Qed.
Lemma path_in_cons U i p : path_in U (i :: p) <-> path_in U [i] /\ path_in anyp p.
Proof.
  unfold path_in. rewrite !Forall_cons, Forall_nil. destruct p; simpl; tauto.
Qed.

Lemma in_tree_root U d m t : in_tree U d m t t.
Proof. exists []. split; [by split; [constructor |] |]. split; [simpl; lia | done]. Qed.

(** Memory that agrees on the tables of a tree has the same tree there. *)
Lemma tree_agree d m m' t :
  (forall u, in_tree anyp d m t u -> m' !! u = m !! u) ->
  (forall p, path_in anyp p -> (length p <= S d)%nat -> table_at m' t p = table_at m t p) /\
  (forall q, path_in anyp q -> (length q <= S d)%nat -> pte m' t q = pte m t q).
Proof.
  intros Hm.
  assert (Hslot : forall p u i, path_in anyp p -> (length p <= d)%nat -> table_at m t p = Some u ->
    used m' u i = used m u i).
  { intros p u i Hp Hl Hu. unfold used, slot. rewrite Hm; [done |]. by exists p. }
  assert (Htab : forall p, path_in anyp p -> (length p <= S d)%nat -> table_at m' t p = table_at m t p).
  { intros p. induction p as [|i p IH] using rev_ind; intros Hp Hl; [done |].
    rewrite length_app in Hl. simpl in Hl. apply path_any_app in Hp as [Hp _].
    rewrite !table_at_app, IH by (done || lia). destruct (table_at m t p) as [u|] eqn:Hu; [| done].
    simpl. rewrite (Hslot p u i) by (done || lia). done. }
  split; [done |]. intros q Hq Hl.
  destruct q as [|i q _] using rev_ind; [done |]. rewrite length_app in Hl. simpl in Hl.
  apply path_any_app in Hq as [Hq _]. rewrite !pte_app, Htab by (done || lia).
  destruct (table_at m t q) as [u|] eqn:Hu; [| done]. simpl. apply (Hslot q); (done || lia).
Qed.

Lemma pte_cons m t i e p : used m t i = Some e -> p <> [] -> pte m t (i :: p) = pte m (entry_addr e) p.
Proof. intros He Hp. destruct p; [done |]. cbn [pte]. by rewrite He. Qed.
Lemma table_at_cons m t i e p : used m t i = Some e -> table_at m t (i :: p) = table_at m (entry_addr e) p.
Proof. intros He. simpl. by rewrite He. Qed.

Lemma subtree_ok U d m t i e :
  tree_ok U (S d) m t -> path_in U [i] -> used m t i = Some e -> tree_ok anyp d m (entry_addr e).
Proof.
  intros [Htab Hinj Hent] Hi He. split.
  - intros u (p & Hp & Hl & Hu). apply Htab. exists (i :: p). rewrite (path_in_cons U i p), (table_at_cons _ _ _ e) by done.
    split; [done |]. split; [simpl; lia | done].
  - intros p p' u Hp Hp' Hl Hl' Hu Hu'. cut (i :: p = i :: p'); [by intros [= ->] |].
    apply (Hinj _ _ u); [by apply path_in_cons | by apply path_in_cons | simpl; lia | simpl; lia | |];
      by rewrite (table_at_cons _ _ _ e).
  - intros p j u e' Hp Hl Hu Hj. apply (Hent (i :: p) j u e'); [| simpl; lia | by rewrite (table_at_cons _ _ _ e) | done].
    simpl. by apply path_in_cons.
Qed.

(** The tables reached through entry [j] of [t]. *)
Definition via (U : nat -> Prop) (d : nat) m (t : Z) (j : nat) (u : Z) : Prop :=
  exists e, path_in U [j] /\ used m t j = Some e /\ in_tree anyp d m (entry_addr e) u.

Lemma in_tree_cases U d m t u :
  in_tree U (S d) m t u <-> u = t \/ exists j, via U d m t j u.
Proof.
  split.
  - intros ([|j p] & Hp & Hl & Hu); [left; simpl in Hu; congruence | right]. exists j.
    apply path_in_cons in Hp as [Hj Hp]. simpl in Hu. destruct (used m t j) as [e|] eqn:He; [| done].
    exists e. split; [done |]. split; [done |]. exists p. simpl in Hl. split; [done |]. split; [lia | done].
  - intros [-> | (j & e & Hj & He & p & Hp & Hl & Hu)]; [apply in_tree_root |].
    exists (j :: p). rewrite (path_in_cons U j p), (table_at_cons _ _ _ e) by done.
    split; [done |]. split; [simpl; lia | done].
Qed.

(** The tables that are not there on the way to a page. *)
Fixpoint missing m (t : Z) (p : list nat) : nat :=
  match p with
  | [] | [_] => 0
  | i :: p => match used m t i with None => length p | Some e => missing m (entry_addr e) p end
  end.

Lemma missing_le m p : forall t, (missing m t p <= length p - 1)%nat.
Proof.
  induction p as [|i p IH]; intros t; [done |]. destruct p as [|j p]; [done |]. cbn [missing].
  destruct (used m t i) as [e|]; [| simpl; lia]. specialize (IH (entry_addr e)). simpl in *. lia.
Qed.

Lemma missing_agree m m' p : forall d t,
  (forall u, in_tree anyp d m t u -> m' !! u = m !! u) -> path_in anyp p -> (length p <= S d)%nat ->
  missing m' t p = missing m t p.
Proof.
  induction p as [|i p IH]; intros d t Hm Hp Hl; [done |]. destruct p as [|j p]; [done |]. destruct d as [|d]; [simpl in Hl; lia |].
  assert (used m' t i = used m t i) as E by (unfold used, slot; by rewrite Hm by apply in_tree_root).
  cbn [missing]. rewrite E. destruct (used m t i) as [e|] eqn:He; [| done]. apply path_in_cons in Hp as [Hi Hp].
  apply (IH d); [| done | simpl in *; lia]. intros u Hu. apply Hm, in_tree_cases. right. exists i. by exists e.
Qed.

Lemma missing_cons m t i e p : used m t i = Some e -> p <> [] -> missing m t (i :: p) = missing m (entry_addr e) p.
Proof. intros He Hp. destruct p; [done |]. cbn [missing]. by rewrite He. Qed.

(** A page that shares its first tables with one that is mapped needs none of them. *)
Lemma missing_shared m p r r' : forall t,
  pte m t (p ++ r) <> None -> r <> [] -> r' <> [] -> (missing m t (p ++ r') <= length r' - 1)%nat.
Proof.
  induction p as [|i p IH]; intros t Hp Hr Hr'; [apply missing_le |].
  assert (Hne : forall x : list nat, x <> [] -> p ++ x <> []) by (intros x Hx [_ ->]%app_eq_nil; done).
  rewrite <- !app_comm_cons in *. destruct (used m t i) as [e|] eqn:He.
  - rewrite (missing_cons m t i e) by auto. rewrite (pte_cons m t i e) in Hp by auto. by apply IH.
  - exfalso. apply Hp. destruct (p ++ r) eqn:E; [by destruct (Hne r Hr) |]. cbn [pte]. by rewrite He.
Qed.

(** Entry [i] of [t] is replaced by one that leads to a tree of its own. *)
Section Replace.
Variables (U : nat -> Prop) (d : nat) (m m' : gmap Z (list Z)) (t : Z) (i : nat) (e' : Z) (es' : list Z).
Hypotheses (Hok : tree_ok U (S d) m t) (Hi : path_in U [i])
  (He' : used m' t i = Some e') (Hfr : entry_frame e' = Some (entry_addr e'))
  (Hsub : tree_ok anyp d m' (entry_addr e'))
  (Hes : m' !! t = Some es') (Hlen : length es' = 512%nat)
  (Hslot : forall j, j <> i -> slot m' t j = slot m t j)
  (Hother : forall j u, j <> i -> via U d m t j u -> m' !! u = m !! u)
  (Hdis : forall u, in_tree anyp d m' (entry_addr e') u -> u <> t /\ forall j, j <> i -> ~ via U d m t j u).

Lemma replace_used j : j <> i -> used m' t j = used m t j.
Proof. intros Hj. unfold used. by rewrite Hslot. Qed.

Lemma replace_other j e : j <> i -> path_in U [j] -> used m t j = Some e ->
  (forall p, path_in anyp p -> (length p <= S d)%nat -> table_at m' (entry_addr e) p = table_at m (entry_addr e) p) /\
  (forall q, path_in anyp q -> (length q <= S d)%nat -> pte m' (entry_addr e) q = pte m (entry_addr e) q).
Proof. intros Hj Hu He. apply tree_agree. intros u Hin. apply (Hother j); [done |]. by exists e. Qed.

Lemma replace_pte j q :
  j <> i -> path_in U (j :: q) -> q <> [] -> (length q <= S d)%nat -> pte m' t (j :: q) = pte m t (j :: q).
Proof.
  intros Hj Hp Hq Hl. apply path_in_cons in Hp as [Hu Hp].
  pose proof (replace_used j Hj) as Hus. destruct (used m t j) as [e|] eqn:He.
  - rewrite (pte_cons m' t j e), (pte_cons m t j e) by done. by apply (replace_other j e).
  - destruct q; [done |]. cbn [pte]. by rewrite Hus, He.
Qed.

Lemma replace_via u : in_tree U (S d) m' t u <->
  u = t \/ in_tree anyp d m' (entry_addr e') u \/ exists j, j <> i /\ via U d m t j u.
Proof.
  clear Hok Hfr Hsub Hdis Hlen Hes.
  assert (Hv : forall j e, j <> i -> path_in U [j] -> used m t j = Some e ->
    in_tree anyp d m' (entry_addr e) u <-> in_tree anyp d m (entry_addr e) u).
  { intros j e Hj Hp He. unfold in_tree. split; intros (p & Hp' & Hl & Hu); exists p; split_and!; try done;
      revert Hu; rewrite (proj1 (replace_other j e Hj Hp He)); (done || lia). }
  rewrite in_tree_cases. split.
  - intros [-> | (j & e & Hp & He & Hu)]; [by left |]. right. destruct (decide (j = i)) as [-> | Hj].
    + left. rewrite He' in He. by injection He as ->.
    + right. exists j. split; [done |]. rewrite replace_used in He by done. exists e. by rewrite <- (Hv j).
  - intros [-> | [Hu | (j & Hj & e & Hp & He & Hu)]]; [by left | |]; right.
    + exists i, e'. done.
    + exists j, e. rewrite replace_used by done. by rewrite (Hv j).
Qed.

Lemma replace_path_cases p u : path_in U p -> (length p <= S d)%nat -> table_at m' t p = Some u ->
  (p = [] /\ u = t) \/
  (exists q, p = i :: q /\ path_in anyp q /\ (length q <= d)%nat /\ table_at m' (entry_addr e') q = Some u) \/
  (exists j q e, p = j :: q /\ j <> i /\ path_in U [j] /\ path_in anyp q /\ (length q <= d)%nat /\
    used m t j = Some e /\ table_at m (entry_addr e) q = Some u).
Proof.
  intros Hp Hl Hu. destruct p as [|j q]; [left; simpl in Hu; split; congruence | right].
  apply path_in_cons in Hp as [Hj Hq]. simpl in Hl, Hu. destruct (decide (j = i)) as [-> | Hne].
  - left. rewrite He' in Hu. exists q. split_and!; (done || lia).
  - right. rewrite replace_used in Hu by done. destruct (used m t j) as [e|] eqn:He; [| done].
    exists j, q, e. simpl in Hu. rewrite (proj1 (replace_other j e Hne Hj He)) in Hu by (done || lia).
    split_and!; (done || lia).
Qed.

Lemma replace_root_out j u : via U d m t j u -> u <> t.
Proof.
  clear - Hok.
  intros (e & Hj & He & p & Hp & Hl & Hu) ->.
  enough (j :: p = []) by done. apply (pt_inj _ _ _ _ Hok _ _ t).
  - by apply path_in_cons.
  - by split; [constructor |].
  - simpl; lia.
  - simpl; lia.
  - by rewrite (table_at_cons _ _ _ e).
  - done.
Qed.

Lemma replace_ok : tree_ok U (S d) m' t.
Proof.
  assert (Hin : forall q u, path_in anyp q -> (length q <= d)%nat -> table_at m' (entry_addr e') q = Some u ->
    in_tree anyp d m' (entry_addr e') u) by (intros q u ? ? ?; by exists q).
  assert (Hvia : forall j q e u, path_in U [j] -> path_in anyp q -> (length q <= d)%nat -> used m t j = Some e ->
    table_at m (entry_addr e) q = Some u -> via U d m t j u).
  { intros j q e u ? ? ? ? ?. exists e. split; [done |]. split; [done |]. by exists q. }
  split.
  - intros u Hu. apply replace_via in Hu as [-> | [Hu | (j & Hj & Hu)]]; [eauto | by apply (pt_table _ _ _ _ Hsub) |].
    rewrite (Hother j) by done. apply (pt_table _ _ _ _ Hok), in_tree_cases. eauto.
  - intros p p' u Hp Hp' Hl Hl' Hu Hu'.
    apply replace_path_cases in Hu as [[-> ->] | [(q & -> & Hq & Hlq & Hu) | (j & q & e & -> & Hj & Hjp & Hq & Hlq & He & Hu)]];
      [| | | done | done];
    apply replace_path_cases in Hu' as [[-> E'] | [(q' & -> & Hq' & Hlq' & Hu') | (j' & q' & e2 & -> & Hj' & Hjp' & Hq' & Hlq' & He2 & Hu')]];
      try done; try subst u.
    + destruct (Hdis t) as [? _]; [eauto | done].
    + by destruct (replace_root_out j' t); eauto.
    + destruct (Hdis t) as [? _]; [eauto | done].
    + f_equal. by apply (pt_inj _ _ _ _ Hsub q q' u).
    + destruct (Hdis u) as [_ Hd]; [eauto |]. destruct (Hd j'); eauto.
    + by destruct (replace_root_out j t); eauto.
    + destruct (Hdis u) as [_ Hd]; [eauto |]. destruct (Hd j); eauto.
    + apply (pt_inj _ _ _ _ Hok _ _ u); [by apply path_in_cons | by apply path_in_cons | simpl; lia | simpl; lia | |];
        [by rewrite (table_at_cons _ _ _ e) | by rewrite (table_at_cons _ _ _ e2)].
  - intros p j u e Hp Hl Hu He.
    assert (Hp0 : path_in U p).
    { destruct p; [by split; [constructor |] |]. destruct Hp as [H1 H2]. apply Forall_app in H1 as [? _]. by split. }
    apply replace_path_cases in Hu as [[-> ->] | [(q & -> & Hq & Hlq & Hu) | (k & q & ek & -> & Hk & Hkp & Hq & Hlq & Hek & Hu)]];
      [| | | done | lia].
    + destruct (decide (j = i)) as [-> | Hj]; [rewrite He' in He; by injection He as -> |].
      rewrite replace_used in He by done. by apply (pt_entry _ _ _ _ Hok [] j t e).
    + simpl in Hp, Hl. apply path_in_cons in Hp as [_ Hp].
      apply (pt_entry _ _ _ _ Hsub q j u e); (done || lia).
    + apply (pt_entry _ _ _ _ Hok (k :: q) j u e); [done | simpl in Hl; simpl; lia | by rewrite (table_at_cons _ _ _ ek) |].
      revert He. unfold used, slot. rewrite (Hother k); [done | done |]. eauto.
Qed.
End Replace.
End Graft.

Section Agreement.
Context {A : Type} {PA : PageApi A}.

Lemma tree_ok_agree d (m m' : gmap Z (list Z)) t :
  tree_ok anyp d m t -> (forall u, in_tree anyp d m t u -> m' !! u = m !! u) ->
  tree_ok anyp d m' t /\ forall u, in_tree anyp d m' t u <-> in_tree anyp d m t u.
Proof.
  intros [Htab Hinj Hent] Hm. destruct (tree_agree d m m' t Hm) as [Hat _].
  assert (Hin : forall u, in_tree anyp d m' t u <-> in_tree anyp d m t u).
  { intros u. unfold in_tree. split; intros (p & Hp & Hl & Hu); exists p; split_and!; try done;
      revert Hu; rewrite Hat; (done || lia). }
  split; [| done]. split.
  - intros u Hu. apply Hin in Hu. rewrite Hm by done. auto.
  - intros p p' u Hp Hp' Hl Hl'. rewrite !Hat by (done || lia). by apply Hinj.
  - intros p i u e Hp Hl. pose proof (proj1 (proj1 (path_any_app _ _) Hp)) as Hp'.
    rewrite Hat by (done || lia). intros Hu He. apply (Hent p i u e); try done.
    revert He. unfold used, slot. rewrite Hm; [done |]. exists p. split; [done |]. split; [lia | done].
Qed.

(** A table without entries in use. *)
Lemma empty_tree U d (m : gmap Z (list Z)) t es :
  m !! t = Some es -> length es = 512%nat -> (forall i, used m t i = None) ->
  tree_ok U d m t /\ (forall u, in_tree U d m t u -> u = t) /\ (forall q, pte m t q = None).
Proof.
  intros He Hlen Hun.
  assert (Hp : forall p u, table_at m t p = Some u -> p = [] /\ u = t).
  { intros [|i p] u; simpl; [by intros [= ->] |]. by rewrite Hun. }
  split; [split | split].
  - intros u (p & _ & _ & Hu). apply Hp in Hu as [_ ->]. eauto.
  - intros p p' u _ _ _ _ Hu Hu'. apply Hp in Hu as [-> _]. by apply Hp in Hu' as [-> _].
  - intros p i u e _ _ Hu He'. apply Hp in Hu as [_ ->]. by rewrite Hun in He'.
  - intros u (p & _ & _ & Hu). by apply Hp in Hu as [_ ?].
  - intros [|i [|j q]]; [done | apply Hun | cbn [pte]; by rewrite Hun].
Qed.

Lemma write_entry_ok (m : gmap Z (list Z)) t es i e :
  m !! t = Some es -> length es = 512%nat -> (i < 512)%nat ->
  write_entry m t i e = Ret (<[t := <[i := e]> es]> m).
Proof. intros He Hl Hi. unfold write_entry. rewrite He. simpl. rewrite upd_ret by lia. simpl. by rewrite Nat2Z.id. Qed.
End Agreement.

Section WalkLaw.
Context {A : Type} {FA : FrameAllocator A} {FL : FrameAllocatorLaws A}.
Implicit Types (m : gmap Z (list Z)) (a : A).

(** What a walk that maps [p] below table [t] does. *)
Record mapped U d m a (t : Z) (p : list nat) (leaf : Z) m' a' (n : nat) : Prop := {
  mp_ok : tree_ok U d m' t;
  mp_here : pte m' t p = Some leaf;
  mp_other q : path_in U q -> length q = S d -> q <> p -> pte m' t q = pte m t q;
  mp_slots j : head p <> Some j -> slot m' t j = slot m t j;
  mp_mem f : taken a f -> ~ in_tree U d m t f -> m' !! f = m !! f;
  mp_tables u : in_tree U d m' t u -> in_tree U d m t u \/ ~ taken a u /\ taken a' u;
  mp_wf : alloc_wf a';
  mp_mono f : taken a f -> taken a' f;
  mp_avail : avail n a';
  mp_sized : mem_sized m -> mem_sized m'
}.

Lemma map_leaf U m a t i leaf n :
  tree_ok U 0 m t -> alloc_wf a -> path_in U [i] -> used m t i = None -> (leaf =? 0) = false -> avail n a ->
  exists m', read_entry m t i = Ret 0 /\ write_entry m t i leaf = Ret m' /\ mapped U 0 m a t [i] leaf m' a n.
Proof.
  intros Hok Hwf Hi Hun Hleaf Hav.
  destruct (pt_table _ _ _ _ Hok t (in_tree_root U 0 m t)) as (es & He & Hlen).
  assert (Hi' : (i < 512)%nat) by (destruct Hi as [Hi _]; by apply Forall_cons in Hi as [? _]).
  assert (Hz : slot m t i = Some 0).
  { destruct (lookup_lt_is_Some_2 es i) as [e Hei]; [lia |]. unfold used, slot in *.
    rewrite He in *. simpl in *. rewrite Hei in *. simpl in *. destruct (Z.eqb_spec e 0); [congruence | done]. }
  set (m' := <[t := <[i := leaf]> es]> m).
  exists m'. unfold read_entry. rewrite Hz. split; [done |]. split; [by apply write_entry_ok |].
  assert (Hs : forall j, slot m' t j = <[i := leaf]> es !! j) by (intros j; unfold slot, m'; by rewrite lookup_insert_eq).
  assert (Hne : forall j, j <> i -> slot m' t j = slot m t j).
  { intros j Hj. rewrite Hs, list_lookup_insert_ne by done. unfold slot. by rewrite He. }
  assert (Hin : forall m0 u, in_tree U 0 m0 t u <-> u = t).
  { intros m0 u. split; [| intros ->; apply in_tree_root]. intros ([|j p] & _ & Hl & Hu); simpl in *; [congruence | lia]. }
  split; try done.
  - split.
    + intros u ->%Hin. unfold m'. rewrite lookup_insert_eq. eexists. split; [done |]. by rewrite length_insert.
    + intros [|] [|] u _ _ Hl Hl' _ _; simpl in *; (done || lia).
    + intros p j u e _ Hl. lia.
  - simpl. unfold used. rewrite Hs, list_lookup_insert_eq by lia. simpl. by rewrite Hleaf.
  - intros [|j [|]] _ Hl Hq; [done | | done]. simpl. unfold used. rewrite Hne; [done | congruence].
  - intros j Hj. apply Hne. simpl in Hj. congruence.
  - intros f _ Hf. apply lookup_insert_ne. intros ->. apply Hf. by apply Hin.
  - intros u ->%Hin. left. by apply Hin.
  - intros Hsz. apply mem_sized_insert; [done | by rewrite length_insert].
Qed.

Lemma walk_finish U d m a t i es e' m1 a1 m2 a2 rest n leaf :
  tree_ok U (S d) m t -> (forall u, in_tree U (S d) m t u -> taken a u) -> path_in U [i] ->
  m !! t = Some es -> length es = 512%nat ->
  (e' =? 0) = false -> x86_frame e' = Some (x86_addr e') ->
  m1 !! t = Some (<[i := e']> es) -> (forall u, u <> t -> taken a u -> m1 !! u = m !! u) ->
  (forall u, in_tree anyp d m1 (x86_addr e') u ->
    u <> t /\ (forall j, j <> i -> ~ via U d m t j u) /\ (via U d m t i u \/ ~ taken a u /\ taken a1 u)) ->
  (forall f, taken a f -> taken a1 f) -> rest <> [] -> (mem_sized m -> mem_sized m1) ->
  (forall q, path_in anyp q -> length q = S d -> pte m1 (x86_addr e') q = pte m t (i :: q)) ->
  mapped anyp d m1 a1 (x86_addr e') rest leaf m2 a2 n ->
  mapped U (S d) m a t (i :: rest) leaf m2 a2 n.
Proof.
  intros Hok Htk Hi Hes Hlen Hnz Hfr Hm1t Hm1 Hsub Hmono Hrest Hsz Hold [Mok Mhere Mother Mslots Mmem Mtab Mwf Mmono Mav Msz].
  assert (Hi' : (i < 512)%nat) by (destruct Hi as [Hi _]; by apply Forall_cons in Hi as [? _]).
  assert (Ht : taken a t) by apply Htk, in_tree_root.
  assert (Hkeep : forall u, taken a u -> ~ in_tree anyp d m1 (x86_addr e') u -> m2 !! u = m1 !! u).
  { intros u Hu Hn. apply Mmem; [by apply Hmono | done]. }
  assert (Hm2t : m2 !! t = Some (<[i := e']> es)).
  { rewrite Hkeep; [done | done |]. intros Hin. by destruct (Hsub t Hin). }
  assert (Hs : forall j, slot m2 t j = <[i := e']> es !! j) by (intros j; unfold slot; by rewrite Hm2t).
  assert (Hue : used m2 t i = Some e').
  { unfold used. rewrite Hs, list_lookup_insert_eq by lia. simpl. by rewrite Hnz. }
  assert (Hne : forall j, j <> i -> slot m2 t j = slot m t j).
  { intros j Hj. rewrite Hs, list_lookup_insert_ne by done. unfold slot. by rewrite Hes. }
  assert (Hvtk : forall j u, via U d m t j u -> taken a u).
  { intros j u Hv. apply Htk, in_tree_cases. eauto. }
  assert (Hother : forall j u, j <> i -> via U d m t j u -> m2 !! u = m !! u).
  { intros j u Hj Hv. rewrite Hkeep; [apply Hm1 | by eapply Hvtk |]; eauto using replace_root_out.
    intros Hin. by apply (proj1 (proj2 (Hsub u Hin)) j). }
  assert (Hdis : forall u, in_tree anyp d m2 (x86_addr e') u -> u <> t /\ forall j, j <> i -> ~ via U d m t j u).
  { intros u Hin. destruct (Mtab u Hin) as [Hin1 | [Hn _]]; [by destruct (Hsub u Hin1) as (? & ? & _) |].
    split; [intros ->; auto |]. intros j _ Hv. apply Hn, Hmono. eauto. }
  assert (Hlen' : length (<[i := e']> es) = 512%nat) by by rewrite length_insert.
  pose proof (replace_via U d m m2 t i e' Hi Hue Hne Hother) as Hv2.
  split.
  - by eapply (replace_ok U d m m2 t i e' (<[i := e']> es)).
  - by rewrite (pte_cons m2 t i e').
  - intros [|j q] Hq Hl Hqne; [done |]. simpl in Hl. destruct (decide (j = i)) as [-> | Hj].
    + assert (q <> rest) by congruence. apply path_in_cons in Hq as [_ Hq].
      assert (q <> []) by (intros ->; done).
      rewrite (pte_cons m2 t i e') by done. rewrite <- Hold by (done || lia). apply Mother; (done || lia).
    + apply (replace_pte U d m m2 t i Hne Hother); [done | done | by intros -> | lia].
  - intros j Hj. apply Hne. simpl in Hj. congruence.
  - intros f Hf Hn. rewrite Hkeep; [apply Hm1; [| done] | done |].
    + intros ->. apply Hn, in_tree_root.
    + intros Hin. destruct (Hsub f Hin) as (_ & _ & [Hv | [? _]]); [| done].
      apply Hn, in_tree_cases. eauto.
  - intros u Hu. apply Hv2 in Hu as [-> | [Hu | (j & _ & Hu)]].
    + left. apply in_tree_root.
    + destruct (Mtab u Hu) as [Hu1 | [Hn Hu2]].
      * destruct (Hsub u Hu1) as (_ & _ & [Hv | [Hn Hu2]]); [left; apply in_tree_cases; eauto | right; auto].
      * right. auto.
    + left. apply in_tree_cases. eauto.
  - done.
  - auto.
  - done.
  - auto.
Qed.

Section Walking.
Variables (frame flags : Z).
Hypotheses (H0 : Z.testbit flags 0 = true) (H7 : Z.testbit flags 7 = false).

(** A frame is taken for each table that is missing, and no more. *)
Lemma map_walk_uses rest : forall U m a t i n,
  tree_ok U (length rest) m t -> alloc_wf a -> (forall u, in_tree U (length rest) m t u -> taken a u) ->
  path_in U (i :: rest) -> pte m t (i :: rest) = None -> avail (missing m t (i :: rest) + n) a ->
  exists m' a', map_walk m a t (i :: rest) frame flags = Ret (Mapped, m', a') /\
    mapped U (length rest) m a t (i :: rest) (Z.lor frame flags) m' a' n.
Proof.
  induction rest as [|k rest IH]; intros U m a t i n Hok Hwf Htk Hp Hpte Hav.
  { destruct (map_leaf U m a t i (Z.lor frame flags) n) as (m' & Hr & Hw & Hm); try done.
    { apply entry_nonzero. by rewrite Z.lor_spec, H0, orb_true_r. }
    exists m', a. cbn [map_walk]. rewrite Hr. simpl. by rewrite Hw. }
  apply path_in_cons in Hp as [Hi Hp]. simpl length in *.
  assert (Hi' : (i < 512)%nat) by (destruct Hi as [Hi _]; by apply Forall_cons in Hi as [? _]).
  destruct (pt_table _ _ _ _ Hok t (in_tree_root U _ m t)) as (es & He & Hlen).
  destruct (lookup_lt_is_Some_2 es i) as [e Hei]; [lia |].
  assert (Hslot : slot m t i = Some e) by (unfold slot; by rewrite He).
  assert (Hread : read_entry m t i = Ret e) by (unfold read_entry; by rewrite Hslot).
  assert (Hused : used m t i = if e =? 0 then None else Some e).
  { unfold used. rewrite Hslot. done. }
  assert (Ht : taken a t) by apply Htk, in_tree_root.
  change (map_walk m a t (i :: k :: rest) frame flags) with
    (let! e := read_entry m t i in
     if e =? 0 then
       let! '(f, a) := next_free a in
       match f with
       | None => Ret (MapFailed, m, a)
       | Some f =>
           let! m := write_entry m t i (Z.lor f (Z.land flags PARENT_FLAGS)) in
           map_walk (<[f := replicate 512 0]> m) a f (k :: rest) frame flags
       end
     else
       match x86_frame e with
       | None => Ret (MapFailed, m, a)
       | Some t' =>
           let! m := write_entry m t i (Z.lor e (Z.land flags PARENT_FLAGS)) in
           map_walk m a t' (k :: rest) frame flags
       end).
  cbn [missing] in Hav. rewrite Hused in Hav. rewrite Hread. cbn [obind]. destruct (e =? 0) eqn:Hz.
  - destruct Hav as (f & a1 & Hnext & Hav). fold (avail (A := A)) in Hav. rewrite Hnext. cbn [obind].
    destruct (next_free_law a f a1 Hwf Hnext) as (Hwf1 & Hnf & Hf1 & Hfok & Hmono1).
    rewrite (write_entry_ok m t es) by done. cbn [obind].
    destruct (new_table_entry f flags Hfok H0 H7) as (Hef & Hea & Heb).
    set (e' := Z.lor f (Z.land flags PARENT_FLAGS)) in *.
    set (m1 := <[f := replicate 512 0]> (<[t := <[i := e']> es]> m)).
    assert (Htf : t <> f) by (intros ->; done).
    destruct (empty_tree anyp (length rest) m1 f (replicate 512 0)) as (Hok1 & Hin1 & Hnone1).
    { apply lookup_insert_eq. } { apply length_replicate. }
    { intros j. unfold used. destruct (slot m1 f j) as [z|] eqn:Hzj; [| done].
      unfold slot, m1 in Hzj. rewrite lookup_insert_eq in Hzj. cbn [mbind option_bind] in Hzj.
      by apply lookup_replicate in Hzj as [-> _]. }
    destruct (IH anyp m1 a1 f k n) as (m2 & a2 & Hw & Hm2); try done.
    { intros u ->%Hin1. done. }
    { eapply avail_le; [| exact Hav]. pose proof (missing_le m1 (k :: rest) f). simpl in *. lia. }
    exists m2, a2. split; [done |].
    apply (walk_finish U (length rest) m a t i es e' m1 a1); try done.
    + by apply entry_nonzero.
    + by rewrite Hea.
    + unfold m1. by rewrite lookup_insert_ne, lookup_insert_eq.
    + intros u Hu Hut. unfold m1. rewrite !lookup_insert_ne; [done | done | by intros ->].
    + rewrite Hea. intros u ->%Hin1. split; [done |]. split; [| by right].
      intros j _ Hv. apply Hnf, Htk, in_tree_cases. eauto.
    + intros Hsz. apply mem_sized_insert; [apply mem_sized_insert; [done | by rewrite length_insert] | apply length_replicate].
    + intros q Hq Hl. rewrite Hea, Hnone1. destruct q; [done |]. cbn [pte]. by rewrite Hused.
    + by rewrite Hea.
  - assert (Hent : x86_frame e = Some (x86_addr e)).
    { apply (pt_entry _ _ _ _ Hok [] i t e); [done | simpl; lia | done | by rewrite Hused]. }
    rewrite Hent, (write_entry_ok m t es) by done. cbn [obind].
    destruct (parent_frame flags e Hent) as (Hef & Hea & Heb).
    set (e' := Z.lor e (Z.land flags PARENT_FLAGS)) in *. set (m1 := <[t := <[i := e']> es]> m).
    pose proof (subtree_ok U (length rest) m t i e Hok Hi Hused) as Hsub0.
    assert (Hvia : forall u, in_tree anyp (length rest) m (x86_addr e) u -> via U (length rest) m t i u).
    { intros u Hu. by exists e. }
    destruct (tree_ok_agree (length rest) m m1 (x86_addr e) Hsub0) as [Hok1 Hin1].
    { intros u Hu. apply lookup_insert_ne. intros <-. by apply (replace_root_out U (length rest) m t Hok i t (Hvia t Hu)). }
    assert (Hpt1 : forall q, path_in anyp q -> length q = S (length rest) ->
      pte m1 (x86_addr e) q = pte m t (i :: q)).
    { intros q Hq Hl. rewrite (pte_cons m t i e) by (done || (intros ->; done)).
      apply (tree_agree (length rest)); [| done | lia].
      intros u Hu. apply lookup_insert_ne. intros <-. by apply (replace_root_out U (length rest) m t Hok i t (Hvia t Hu)). }
    destruct (IH anyp m1 a (x86_addr e) k n) as (m2 & a2 & Hw & Hm2); try done.
    { intros u Hu. apply Htk, in_tree_cases. right. exists i. by apply Hvia, Hin1. }
    { rewrite Hpt1; [done | done | done]. }
    { rewrite (missing_agree m m1 (k :: rest) (length rest)); [done | | done | done].
      intros u Hu. apply lookup_insert_ne. intros <-. by apply (replace_root_out U (length rest) m t Hok i t (Hvia t Hu)). }
    exists m2, a2. split; [done |].
    apply (walk_finish U (length rest) m a t i es e' m1 a); rewrite ?Hea; try done.
    + by apply entry_nonzero.
    + apply lookup_insert_eq.
    + intros u Hu _. by apply lookup_insert_ne.
    + intros u Hu%Hin1%Hvia. split; [exact (replace_root_out U (length rest) m t Hok i u Hu) |].
      split; [| by left]. intros j Hj (ej & Hjp & Hej & pj & Hpj & Hlj & Huj).
      destruct Hu as (e0 & _ & He0 & p0 & Hp0 & Hl0 & Hu0).
      enough (j :: pj = i :: p0) by congruence. apply (pt_inj _ _ _ _ Hok _ _ u);
        [by apply path_in_cons | by apply path_in_cons | simpl; lia | simpl; lia | |];
        [by rewrite (table_at_cons _ _ _ ej) | by rewrite (table_at_cons _ _ _ e0)].
    + intros Hsz. apply mem_sized_insert; [done | by rewrite length_insert].
Qed.

Lemma map_walk_spec rest U m a t i n :
  tree_ok U (length rest) m t -> alloc_wf a -> (forall u, in_tree U (length rest) m t u -> taken a u) ->
  path_in U (i :: rest) -> pte m t (i :: rest) = None -> avail (length rest + n) a ->
  exists m' a', map_walk m a t (i :: rest) frame flags = Ret (Mapped, m', a') /\
    mapped U (length rest) m a t (i :: rest) (Z.lor frame flags) m' a' n.
Proof.
  intros Hok Hwf Htk Hp Hpte Hav. apply map_walk_uses; try done. eapply avail_le; [| exact Hav].
  pose proof (missing_le m (i :: rest) t). simpl in *. lia.
Qed.
End Walking.

Lemma map_walk_mapped frame flags rest : forall U m a t i e,
  tree_ok U (length rest) m t -> path_in U (i :: rest) -> pte m t (i :: rest) = Some e ->
  exists m' a', map_walk m a t (i :: rest) frame flags = Ret (PageAlreadyMapped, m', a').
Proof.
  induction rest as [|k rest IH]; intros U m a t i e Hok Hp Hpte.
  - cbn [pte] in Hpte. apply used_slot in Hpte as [Hs Hu]. cbn [map_walk]. unfold read_entry. rewrite Hs.
    cbn [unwrap obind]. change (is_unused e) with (e =? 0) in Hu. rewrite Hu. eauto.
  - apply path_in_cons in Hp as [Hi Hp]. simpl length in *.
    assert (Hi' : (i < 512)%nat) by (destruct Hi as [Hi _]; by apply Forall_cons in Hi as [? _]).
    destruct (used m t i) as [e0|] eqn:He0; [| cbn [pte] in Hpte; by rewrite He0 in Hpte].
    rewrite (pte_cons m t i e0) in Hpte by done.
    destruct (pt_table _ _ _ _ Hok t (in_tree_root U _ m t)) as (es & He & Hlen).
    assert (Hent : x86_frame e0 = Some (x86_addr e0))
      by (apply (pt_entry _ _ _ _ Hok [] i t e0); (done || simpl; lia)).
    pose proof (subtree_ok U (length rest) m t i e0 Hok Hi He0) as Hsub0.
    destruct (proj1 (used_slot _ _ _ _) He0) as [Hs Hu]. change (is_unused e0) with (e0 =? 0) in Hu.
    set (m1 := <[t := <[i := Z.lor e0 (Z.land flags PARENT_FLAGS)]> es]> m).
    assert (Hag : forall u, in_tree anyp (length rest) m (x86_addr e0) u -> m1 !! u = m !! u).
    { intros u Hin. apply lookup_insert_ne. intros <-.
      apply (replace_root_out U (length rest) m t Hok i t); [by exists e0 | done]. }
    destruct (IH anyp m1 a (x86_addr e0) k e) as (m' & a' & E).
    { by apply (tree_ok_agree (length rest) m). }
    { done. }
    { rewrite (proj2 (tree_agree (length rest) m m1 (x86_addr e0) Hag)); (done || simpl; lia). }
    exists m', a'. cbn [map_walk]. unfold read_entry. rewrite Hs. cbn [unwrap obind]. rewrite Hu, Hent.
    rewrite (write_entry_ok m t es) by done. exact E.
Qed.

#[export] Instance x86_laws : PageLaws A x86_api.
Proof.
  split; [done | intros e f; apply x86_frame_ok | |].
  2:{ intros m a l4 q e frame flags Hok [Hq Hl] He. destruct q as [|i rest]; [done |]. simpl in Hl. injection Hl as Hl.
      eapply (map_walk_mapped frame flags rest); rewrite ?Hl; eauto. }
  intros m a l4 q frame flags n Hwf Hok Htk [Hq Hl] Hnone Hf (e & f & Hef & Hefl) Hav.
  destruct (flags_of_frame e f flags Hef Hefl) as (H0 & H7 & Hmid & Hhigh).
  destruct q as [|i rest]; [done |]. simpl in Hl. injection Hl as Hl.
  destruct (map_walk_spec frame flags H0 H7 rest (fun i => i < 256)%nat m a l4 i n) as (m' & a' & Hw & []);
    rewrite ?Hl; try done.
  rewrite Hl in *. exists m', a'. split; [done |]. split; [done |].
  split; [exists (Z.lor frame flags); split_and!; [done | by apply leaf_frame | by apply leaf_flags] |].
  split; [by intros q' [? ?]; auto |].
  split; [| by auto]. intros j Hj. apply mp_slots0. simpl. intros [= ->]. destruct Hq as [_ Hq]. lia.
Qed.

End WalkLaw.

(** ** One mapped page, evaluated *)
Module PagingWitness.
#[local] Existing Instance align_down_frames.
#[local] Existing Instance align_down_frames_laws.
Import Memory.MemoryWitness.

(** The root table at 4096, a frame of data at 8192 mapped at page [0;1;2;3]. *)
Definition m0 : gmap Z (list Z) := <[8192 := replicate 512 42]> (<[4096 := replicate 512 0]> ∅).
Definition page1 : list nat := [0; 1; 2; 3]%nat.
Definition built : outcome (MapResult * gmap Z (list Z) * BumpAllocator) := map_to m0 pc 4096 page1 8192 7.
Definition m1 : gmap Z (list Z) := match built with Ret (_, m, _) => m | _ => m0 end.
Definition a1 : BumpAllocator := match built with Ret (_, _, a) => a | _ => pc end.
Definition space1 : AddressSpace :=
  {| cr3 := 4096; heap_start := 0; heap_end := 0; program_start := 0;
     backbuffer_frames := Some [12288]; program_end := 0; stack_top := 0 |}.

Lemma avail6 : avail 6 a1.
Proof. repeat (eexists _, _; split; [vm_compute; reflexivity |]). exact I. Qed.

Lemma root_table : exists active, m1 !! 4096 = Some active /\ length active = 512%nat.
Proof. eexists. split; [vm_compute; reflexivity | vm_compute; reflexivity]. Qed.

Lemma built_ok : mapped (fun i => i < 256)%nat 3 m0 pc 4096 page1 (Z.lor 8192 7) m1 a1 0.
Proof.
  destruct (empty_tree (fun i => i < 256)%nat 3 m0 4096 (replicate 512 0)) as (Hok & Hin & Hnone).
  { vm_compute. reflexivity. } { vm_compute. reflexivity. }
  { intros i. unfold used. destruct (slot m0 4096 i) as [z|] eqn:E; [| done].
    change (replicate 512 0 !! i = Some z) in E. by apply lookup_replicate in E as [-> _]. }
  destruct (map_walk_spec 8192 7 eq_refl eq_refl [1; 2; 3]%nat (fun i => i < 256)%nat m0 pc 4096 0%nat 0%nat)
    as (m' & a' & Hw & Hm).
  { exact Hok. }
  { exact pc_ok. }
  { intros u ->%Hin. vm_compute. reflexivity. }
  { split; [repeat (constructor; [lia |]); constructor | lia]. }
  { apply Hnone. }
  { repeat (eexists _, _; split; [vm_compute; reflexivity |]). exact I. }
  assert (built = Ret (Mapped, m', a')) as E by exact Hw.
  unfold m1, a1. rewrite E. exact Hm.
Qed.

Lemma page1_only q : user_page q -> pte m1 4096 q <> None -> q ∈ [page1].
Proof.
  intros [Hq Hl] Hp. apply list_elem_of_singleton. destruct (decide (q = page1)) as [| Hne]; [done |].
  rewrite (mp_other _ _ _ _ _ _ _ _ _ _ built_ok q Hq Hl Hne) in Hp. exfalso. apply Hp.
  destruct q as [|i [|j q]]; [done | done |]. cbn [pte]. unfold used.
  destruct (slot m0 4096 i) as [z|] eqn:E; [| done].
  change (replicate 512 0 !! i = Some z) in E. by apply lookup_replicate in E as [-> _].
Qed.

Lemma table1 t : is_table m1 4096 t -> t = 4096 \/ 1048576 <= t /\ taken a1 t.
Proof.
  intros Ht. destruct (mp_tables _ _ _ _ _ _ _ _ _ _ built_ok t Ht) as [([|i p] & _ & _ & Hu) | [Hn ?]].
  - injection Hu as <-. by left.
  - simpl in Hu. unfold used in Hu. destruct (slot m0 4096 i) as [z|] eqn:E; [| done].
    change (replicate 512 0 !! i = Some z) in E. by apply lookup_replicate in E as [-> _].
  - right. split; [| done]. change (~ t < 1048576) in Hn. lia.
Qed.

Lemma page1_frame q e : user_page q -> pte m1 4096 q = Some e -> q = page1 /\ e = Z.lor 8192 7.
Proof.
  intros Hq He. assert (q = page1) as ->.
  { apply list_elem_of_singleton, page1_only; [done | by rewrite He]. }
  rewrite (mp_here _ _ _ _ _ _ _ _ _ _ built_ok) in He. by injection He as <-.
Qed.

Lemma space1_ok : space_ok m1 a1 space1.
Proof.
  split.
  - exact (mp_ok _ _ _ _ _ _ _ _ _ _ built_ok).
  - intros t [-> | [_ ?]]%table1; [vm_compute; reflexivity | done].
  - intros q e Hq [-> ->]%page1_frame; [| done].
    eexists 8192, _. split; [reflexivity |]. split; [vm_compute; reflexivity | vm_compute; reflexivity].
  - intros q e f Hq [-> ->]%page1_frame [= <-]; [| done]. intros [E | [E _]]%table1; vm_compute in E; congruence.
  - intros q q' e e' f Hq Hq' [-> _]%page1_frame [-> _]%page1_frame; done.
Qed.

Lemma a1_ok : alloc_wf a1.
Proof. exact (mp_wf _ _ _ _ _ _ _ _ _ _ built_ok). Qed.

Lemma avail_fork : avail (1 + backbuffer_len space1 + 4 * length (mapped_pages m1 4096)) a1.
Proof. apply can_allocate_avail. vm_compute. reflexivity. Qed.

Lemma clone_for_fork_copies_witness :
  exists s' m' a', clone_for_fork 4096 space1 (m1, a1) = Ret (s', (m', a')) /\
    forked_space m1 a1 space1 s' m' a'.
Proof.
  destruct root_table as (active & Hr & Hl).
  exact (clone_for_fork_copies 4096 active m1 a1 space1 space1_ok a1_ok Hr Hl avail_fork).
Defined.

Lemma fork_backbuffer_unmapped_witness :
  exists s' m' a', clone_for_fork 4096 space1 (m1, a1) = Ret (s', (m', a')) /\
    backbuffer_len s' = backbuffer_len space1 /\
    forall f, f ∈ default [] (backbuffer_frames s') ->
      forall q e, user_page q -> pte m' (cr3 s') q = Some e -> entry_frame e <> Some f.
Proof.
  destruct root_table as (active & Hr & Hl).
  exact (fork_backbuffer_unmapped 4096 active m1 a1 space1 space1_ok a1_ok Hr Hl avail_fork).
Defined.

(** The child reads its parent's data through its own tables. *)
Example forked_page_reads_42 :
  match clone_for_fork 4096 space1 (m1, a1) with
  | Ret (s', (m', _)) =>
      match pte m' (cr3 s') page1 with
      | Some e => (entry_flags e, slot m' (x86_addr e) 5)
      | None => (0, None)
      end
  | _ => (0, None)
  end = (7, Some 42).
Proof. vm_compute. reflexivity. Qed.
End PagingWitness.
