(* ===== verification/UserMem.v ===== *)
(** * User memory: stacks, heaps and back buffers

    [AddressSpace::map_stack] of [kernel/src/task/proc.rs], [sys_alloc] and
    the mapping loop of [sys_alloc_back_buffer] of [kernel/src/syscall.rs]:
    code that adds fresh frames to an address space, over the page tables of
    [Paging].  Virtual addresses of the lower half are below [2 ^ 47]. *)
From S2P Require Import Prelude Memory Paging PagingMap.

(** Virtual addresses of the [x86_64] crate: [VirtAddr::new] (which panics on
    an address that is not canonical), [align_up], [Translate::translate_addr] and
    [Mapper::translate_page] on a page number. *)
Class AddrApi := {
  va_new : Z -> outcome Z;
  va_align_up : Z -> Z -> outcome Z;
  translate_addr : gmap Z (list Z) -> Z -> Z -> option Z;
  translate_page : gmap Z (list Z) -> Z -> Z -> option Z
}.

Definition user_addr (a : Z) : Prop := 0 <= a < 2 ^ 47.

(** The table indices of a page number. *)
Definition page_of (n : Z) : list nat :=
  [Z.to_nat (n / 134217728 mod 512); Z.to_nat (n / 262144 mod 512);
   Z.to_nat (n / 512 mod 512); Z.to_nat (n mod 512)].

(** [WRITABLE | PRESENT | USER_ACCESSIBLE] *)
Definition USER_FLAGS : Z := 7.

Class AddrLaws {A : Type} (PA : PageApi A) (AA : AddrApi) : Prop := {
  user_flags_ok : flags_ok USER_FLAGS;
  va_new_user a : user_addr a -> va_new a = Ret a;
  va_new_panics a : a < 0 -> va_new a = Panic;
  va_align_up_ok a : user_addr (a + 4095) -> user_addr a ->
    va_align_up a 4096 = Ret ((a + 4095) / 4096 * 4096);
  translate_addr_ok m l4 a : pt_ok m l4 -> user_addr a ->
    translate_addr m l4 a =
      (e ← pte m l4 (page_of (a / 4096)); f ← entry_frame e; Some (f + a mod 4096));
  translate_page_ok m l4 n : pt_ok m l4 -> user_page (page_of n) ->
    translate_page m l4 n = pte m l4 (page_of n) ≫= entry_frame
}.

Definition MMAP_BASE : Z := 0x0000400000000000.
Definition STACK_TOP : Z := 0x00007FFFFFFF0000.
Definition USER_STACK_SIZE : Z := 64 * 1024.

(** Pages [n], [n + 1], .., [n + k - 1]. *)
Definition page_range (n : Z) (k : nat) : list Z := (fun i => n + Z.of_nat i) <$> seq 0 k.

Section Mapping.
Context {A : Type} {FA : FrameAllocator A} {PA : PageApi A} {AA : AddrApi}.
Implicit Types (m : gmap Z (list Z)) (a : A) (w : gmap Z (list Z) * A).

(** [allocate_frame().expect(..)], [write_bytes(frame_ptr, 0, 4096)] when
    [clear], [map_to(..).expect(..)].  A frame that was never written reads as
    zeros. *)
Definition map_fresh (clear : bool) (l4 : Z) (n : Z) w : outcome (Z * (gmap Z (list Z) * A)) :=
  let '(m, a) := w in
  let! '(frame, a) := take_frame a in
  let m := <[frame := if clear then replicate 512 0 else default (replicate 512 0) (m !! frame)]> m in
  let! '(r, m, a) := map_to m a l4 (page_of n) frame USER_FLAGS in
  match r with Mapped => Ret (frame, (m, a)) | _ => Panic end.

(** The loops over pages, with the frames in order. *)
Fixpoint map_all (clear : bool) (l4 : Z) (pages : list Z) w : outcome (list Z * (gmap Z (list Z) * A)) :=
  match pages with
  | [] => Ret ([], w)
  | n :: pages =>
      let! '(f, w) := map_fresh clear l4 n w in
      let! '(fs, w) := map_all clear l4 pages w in
      Ret (f :: fs, w)
  end.

(** [map_stack]: page [i] lies [i + 1] pages below the top. *)
Definition map_stack (l4 : Z) w : outcome (Z * (gmap Z (list Z) * A)) :=
  let! stack_top := va_new STACK_TOP in
  let stack_pages := Z.to_nat (USER_STACK_SIZE / 4096) in
  let! '(_, w) := map_all false l4
    ((fun i => (stack_top - (Z.of_nat i + 1) * 4096) / 4096) <$> seq 0 stack_pages) w in
  Ret (stack_top, w).

Definition set_heap_end (e : Z) (s : AddressSpace) : AddressSpace :=
  {| cr3 := cr3 s; heap_start := heap_start s; heap_end := e; program_start := program_start s;
     backbuffer_frames := backbuffer_frames s; program_end := program_end s; stack_top := stack_top s |}.
Definition set_backbuffer (b : option (list Z)) (s : AddressSpace) : AddressSpace :=
  {| cr3 := cr3 s; heap_start := heap_start s; heap_end := heap_end s; program_start := program_start s;
     backbuffer_frames := b; program_end := program_end s; stack_top := stack_top s |}.

(** [sys_alloc]: the old end of the heap and the address space after. *)
Definition sys_alloc (size : Z) (s : AddressSpace) w : outcome (Z * AddressSpace * (gmap Z (list Z) * A)) :=
  let old_heap_end := heap_end s in
  let! sum := chk_u 64 (old_heap_end + size) in
  let! new_heap_end := va_new sum in
  let! old_mapped_end := va_align_up old_heap_end 4096 in
  let! new_mapped_end := va_align_up new_heap_end 4096 in
  let! w :=
    if new_mapped_end >? old_mapped_end then
      let start_page := old_mapped_end / 4096 in
      let end_page := (new_mapped_end - 1) / 4096 in
      let! '(_, w) := map_all true (cr3 s)
        (page_range start_page (Z.to_nat (end_page + 1 - start_page))) w in
      Ret w
    else Ret w in
  Ret (old_heap_end, set_heap_end new_heap_end s, w).

(** The parts of the screen that [sys_alloc_back_buffer] reads, and the
    [UserWindow] it fills in. *)
Record ScreenSize := { width : Z; height : Z; bytes_per_pixel : Z; bytes_per_line : Z }.
Record UserWindow := {
  base_addr : Z; uw_width : Z; uw_height : Z; uw_bytes_per_pixel : Z; uw_bytes_per_line : Z
}.

Definition sys_alloc_back_buffer (screen : ScreenSize) (s : AddressSpace) w
  : outcome (UserWindow * AddressSpace * (gmap Z (list Z) * A)) :=
  let! buffer_num_bytes := chk_u 32 (bytes_per_line screen * height screen) in
  let num_frames := div_ceil buffer_num_bytes 4096 in
  let start_page := MMAP_BASE / 4096 in
  let! '(frames, w) := map_all true (cr3 s) (page_range start_page (Z.to_nat num_frames)) w in
  Ret ({| base_addr := MMAP_BASE; uw_width := width screen; uw_height := height screen;
          uw_bytes_per_pixel := bytes_per_pixel screen; uw_bytes_per_line := bytes_per_line screen |},
       set_backbuffer (Some frames) s, w).

End Mapping.

(** ** Page numbers *)
Definition user_pagenum (n : Z) : Prop := 0 <= n < 2 ^ 35.

Lemma page_of_user n : user_pagenum n -> user_page (page_of n).
Proof.
  intros [H0 H1]. pose proof (Z.mod_pos_bound (n / 134217728) 512 ltac:(lia)).
  pose proof (Z.mod_pos_bound (n / 262144) 512 ltac:(lia)).
  pose proof (Z.mod_pos_bound (n / 512) 512 ltac:(lia)). pose proof (Z.mod_pos_bound n 512 ltac:(lia)).
  split; [| done]. split.
  - repeat (constructor; [lia |]). constructor.
  - assert (0 <= n / 134217728 < 256).
    { split; [apply Z.div_pos; lia | apply Z.div_lt_upper_bound; lia]. }
    change (Z.to_nat (n / 134217728 mod 512) < 256)%nat. rewrite Z.mod_small by lia. lia.
Qed.

Lemma page_of_inj n n' : user_pagenum n -> user_pagenum n' -> page_of n = page_of n' -> n = n'.
Proof.
  unfold page_of, user_pagenum. intros H H' E. injection E as E1 E2 E3 E4.
  apply Z2Nat.inj in E1, E2, E3, E4; try (apply Z.mod_pos_bound; lia).
  Z.to_euclidean_division_equations. lia.
Qed.

Lemma page_of_ne n n' : user_pagenum n -> user_pagenum n' -> n <> n' -> page_of n <> page_of n'.
Proof. intros H H' Hne E. by apply Hne, page_of_inj. Qed.

(** ** Mapping fresh frames *)
Section Fresh.
Context {A : Type} {FA : FrameAllocator A} {FL : FrameAllocatorLaws A} {PA : PageApi A} {PL : PageLaws A PA}
  {AA : AddrApi} {AL : AddrLaws PA AA}.
Implicit Types (m : gmap Z (list Z)) (a : A) (s : AddressSpace).

(** Page [n] of the space maps frame [f] for user reads and writes. *)
Definition user_maps m (l4 n f : Z) : Prop :=
  exists e, pte m l4 (page_of n) = Some e /\ entry_frame e = Some f /\ entry_flags e = USER_FLAGS.
Definition unmapped m (l4 n : Z) : Prop := pte m l4 (page_of n) = None.

(** [s] in [m'] is [s] in [m] with the pages [ns] added: frames in use keep
    their contents, the other pages and the kernel half their entries. *)
Record grown m a s (ns : list Z) m' a' : Prop := {
  gr_ok : space_ok m' a' s;
  gr_wf : alloc_wf a';
  gr_other q : user_page q -> (forall n, n ∈ ns -> q <> page_of n) -> pte m' (cr3 s) q = pte m (cr3 s) q;
  gr_mem f : taken a f -> ~ is_table m (cr3 s) f -> m' !! f = m !! f;
  gr_tables t : is_table m' (cr3 s) t -> is_table m (cr3 s) t \/ ~ taken a t;
  gr_kernel i : (256 <= i)%nat -> slot m' (cr3 s) i = slot m (cr3 s) i;
  gr_mono f : taken a f -> taken a' f;
  gr_frames q e f : user_page q -> pte m' (cr3 s) q = Some e -> entry_frame e = Some f ->
    pte m (cr3 s) q = Some e \/ ~ taken a f;
  gr_sized : mem_sized m -> mem_sized m'
}.

(** What growing means for the rest of the machine: frames of others stay as
    they are, and new frames come from the free ones. *)
Record extends m a (l4 : Z) m' a' : Prop := {
  ex_mono f : taken a f -> taken a' f;
  ex_mem f : taken a f -> ~ owns m l4 f -> m' !! f = m !! f;
  ex_owns f : owns m' l4 f -> owns m l4 f \/ ~ taken a f;
  ex_sized : mem_sized m -> mem_sized m';
  ex_kernel i : (256 <= i)%nat -> slot m' l4 i = slot m l4 i
}.

Lemma extends_refl m a l4 : extends m a l4 m a.
Proof. split; auto. Qed.

Lemma extends_trans m a l4 m1 a1 m2 a2 :
  extends m a l4 m1 a1 -> extends m1 a1 l4 m2 a2 -> extends m a l4 m2 a2.
Proof.
  intros [M1 E1 O1 S1 K1] [M2 E2 O2 S2 K2]. split; auto.
  - intros f Hf Hn. rewrite E2, E1; auto. intros [? | ?]%O1; auto.
  - intros f [? | ?]%O2; auto.
  - intros i Hi. by rewrite K2, K1.
Qed.

Lemma grown_extends m a s ns m' a' : grown m a s ns m' a' -> extends m a (cr3 s) m' a'.
Proof.
  intros [_ _ _ Hm Ht Hk Hmono Hf Hsz]. split; auto.
  - intros f Hfa Hn. apply Hm; [done |]. intros ?. apply Hn. by left.
  - intros f [[? | ?]%Ht | (q & e & Hq & He & Hef)]; [left; by left | by right |].
    destruct (Hf q e f Hq He Hef); [| by right]. left. right. by exists q, e.
Qed.

Lemma new_space_extends m a s m1 a1 m2 a2 :
  new_space m a s m1 a1 -> extends m1 a1 (cr3 s) m2 a2 -> space_ok m2 a2 s -> alloc_wf a2 -> new_space m a s m2 a2.
Proof.
  intros [_ _ Hmono Hmem Hfr Hsz] [Em Ee Eo Es _] Hok Hwf. split; auto.
  - intros f Hf. rewrite Ee; [auto | auto |]. intros Ho. by apply (Hfr f).
  - intros f [Ho | Hn]%Eo; [auto |]. auto.
Qed.

Lemma map_new_ok s n m a k :
  space_ok m a s -> alloc_wf a -> user_pagenum n -> unmapped m (cr3 s) n -> avail (4 + k) a ->
  exists f a1, take_frame a = Ret (f, a1) /\ ~ taken a f /\ frame_ok f /\
    forall d, length d = 512%nat -> exists m' a', map_to (<[f := d]> m) a1 (cr3 s) (page_of n) f USER_FLAGS = Ret (Mapped, m', a') /\
      grown m a s [n] m' a' /\ user_maps m' (cr3 s) n f /\ taken a' f /\ m' !! f = Some d /\ avail k a'.
Proof.
  intros [Hpt Htab Hfr Hda Honce] Hwf Hn Hun Hav.
  destruct (take_frame_avail (3 + k) a Hwf Hav) as (f & a1 & Etk & Hav1 & Hwf1 & Hnf & Hf1 & Hfok & Hmono1).
  exists f, a1. split; [done |]. split; [done |]. split; [done |]. intros d Hdl.
  assert (Hag : forall t, is_table m (cr3 s) t -> <[f := d]> m !! t = m !! t).
  { intros t Ht. apply lookup_insert_ne. intros ->. by apply Hnf, Htab. }
  assert (Hist : forall t, is_table (<[f := d]> m) (cr3 s) t <-> is_table m (cr3 s) t)
    by (intros t; by apply agree_is_table).
  destruct (map_to_law (<[f := d]> m) a1 (cr3 s) (page_of n) f USER_FLAGS k)
    as (m2 & a2 & Emap & Hpt2 & (e & He & Hef & Hefl) & Hoth & Hker & Hmem & Htab2 & Hwf2 & Hmono2 & Hav2 & Hsz2);
    [done | by apply (agree_pt_ok m) | by intros t Ht%Hist; auto | by apply page_of_user | | done
    | apply user_flags_ok | done |].
  { rewrite (agree_pte m); auto using page_of_user. }
  setoid_rewrite Hist in Hmem. setoid_rewrite Hist in Htab2.
  assert (Hpte : forall q, user_page q -> q <> page_of n -> pte m2 (cr3 s) q = pte m (cr3 s) q).
  { intros q Hq Hne. rewrite Hoth by done. by apply agree_pte. }
  assert (Hft : ~ is_table m (cr3 s) f) by (intros Ht; by apply Hnf, Htab).
  assert (Hkeep : forall g, taken a g -> ~ is_table m (cr3 s) g -> m2 !! g = m !! g).
  { intros g Hg Hnt. rewrite Hmem by auto. apply lookup_insert_ne. by intros ->. }
  assert (Hd : m2 !! f = Some d) by (rewrite Hmem by done; apply lookup_insert_eq).
  assert (Hold : forall q e0 f0, user_page q -> q <> page_of n -> pte m2 (cr3 s) q = Some e0 ->
    entry_frame e0 = Some f0 -> taken a f0 /\ ~ is_table m (cr3 s) f0).
  { intros q e0 f0 Hq Hne. rewrite Hpte by done. intros He0 Hf0. split; [| eauto].
    destruct (Hfr q e0 Hq He0) as (f1 & d1 & Hf1' & _ & ?). by replace f0 with f1 by congruence. }
  exists m2, a2. split; [done |].
  split; [| split; [by exists e |]; split; [auto |]; split; [done | done]].
  split; [split | ..]; auto.
  - intros t [Ht | [_ ?]]%Htab2; auto.
  - intros q e0 Hq. destruct (decide (q = page_of n)) as [-> | Hne].
    + rewrite He. intros [= <-]. exists f, d. auto.
    + rewrite Hpte by done. intros He0. destruct (Hfr q e0 Hq He0) as (f0 & d0 & Hf0 & Hd0 & Ht0).
      exists f0, d0. split; [done |]. split; [| by auto]. rewrite Hkeep; [done | done | eauto].
  - intros q e0 f0 Hq He0 Hf0. destruct (decide (q = page_of n)) as [-> | Hne].
    + rewrite He in He0. injection He0 as <-. rewrite Hef in Hf0. injection Hf0 as <-.
      intros [Ht | [Ht _]]%Htab2; auto.
    + destruct (Hold q e0 f0 Hq Hne He0 Hf0) as [? ?]. intros [Ht | [Ht _]]%Htab2; auto.
  - intros q q' e1 e2 f0 Hq Hq' H1 H2 F1 F2.
    destruct (decide (q = page_of n)) as [-> | N1], (decide (q' = page_of n)) as [-> | N2]; [done | | |].
    + rewrite He in H1. injection H1 as <-. destruct (Hold q' e2 f0 Hq' N2 H2 F2). congruence.
    + rewrite He in H2. injection H2 as <-. destruct (Hold q e1 f0 Hq N1 H1 F1). congruence.
    + rewrite Hpte in H1, H2 by done. eauto.
  - intros q Hq Hne. apply Hpte; [done |]. apply Hne. by apply list_elem_of_singleton.
  - intros t [Ht | [Ht _]]%Htab2; [by left | right; auto].
  - intros i Hi. rewrite Hker by done. by apply agree_slot.
  - intros q e0 f0 Hq He0 Hf0. destruct (decide (q = page_of n)) as [-> | Hne]; [| left; by rewrite <- Hpte].
    right. rewrite He in He0. injection He0 as <-. rewrite Hef in Hf0. by injection Hf0 as <-.
  - intros Hsz. by apply Hsz2, mem_sized_insert.
Qed.

Lemma map_fresh_ok clear s n m a k :
  space_ok m a s -> alloc_wf a -> user_pagenum n -> unmapped m (cr3 s) n -> (clear = false -> mem_sized m) -> avail (4 + k) a ->
  exists f m' a', map_fresh clear (cr3 s) n (m, a) = Ret (f, (m', a')) /\
    grown m a s [n] m' a' /\ user_maps m' (cr3 s) n f /\ ~ taken a f /\ taken a' f /\
    (clear = true -> m' !! f = Some (replicate 512 0)) /\ avail k a'.
Proof.
  intros Hok Hwf Hn Hun Hsz Hav.
  destruct (map_new_ok s n m a k Hok Hwf Hn Hun Hav) as (f & a1 & Etk & Hnf & _ & Hmap).
  destruct (Hmap (if clear then replicate 512 0 else default (replicate 512 0) (m !! f)))
    as (m' & a' & E & Hg & Hum & Ht & Hd & Hav').
  { destruct clear; [apply length_replicate |]. destruct (m !! f) as [ws|] eqn:Ef.
    - exact (Hsz eq_refl f ws Ef).
    - apply length_replicate. }
  exists f, m', a'. unfold map_fresh. rewrite Etk. cbn [obind]. rewrite E.
  split; [done |]. split; [done |]. split; [done |]. split; [done |]. split; [done |]. split; [by intros -> | done].
Qed.

Lemma grown_nil m a s : space_ok m a s -> alloc_wf a -> grown m a s [] m a.
Proof. intros. split; auto. Qed.

Lemma grown_trans m a s ns m1 a1 ns' m2 a2 :
  grown m a s ns m1 a1 -> grown m1 a1 s ns' m2 a2 -> grown m a s (ns ++ ns') m2 a2.
Proof.
  intros [] []. split; auto.
  - intros q Hq Hne. rewrite gr_other1, gr_other0; auto; intros n Hin; apply Hne, elem_of_app; auto.
  - intros f Hf Hnt. rewrite gr_mem1, gr_mem0; auto. intros [? | ?]%gr_tables0; auto.
  - intros t [Ht | Ht]%gr_tables1; auto.
  - intros i Hi. by rewrite gr_kernel1, gr_kernel0.
  - intros q e f Hq He Hf. destruct (gr_frames1 q e f Hq He Hf); [| right; auto]. eauto.
Qed.

(** A page mapped before stays as it was. *)
Lemma grown_maps m a s ns m' a' n f :
  grown m a s ns m' a' -> user_pagenum n -> Forall user_pagenum ns -> n ∉ ns ->
  user_maps m (cr3 s) n f -> user_maps m' (cr3 s) n f.
Proof.
  intros Hg Hn Hns Hni (e & He & ?). exists e. split; [| done].
  rewrite (gr_other _ _ _ _ _ _ Hg); [done | by apply page_of_user |].
  intros n' Hin. apply page_of_ne; [done | | by intros ->]. rewrite Forall_forall in Hns. auto.
Qed.

Lemma map_all_ok clear s ns : forall m a k,
  space_ok m a s -> alloc_wf a -> NoDup ns -> Forall user_pagenum ns ->
  Forall (unmapped m (cr3 s)) ns -> (clear = false -> mem_sized m) -> avail (4 * length ns + k) a ->
  exists fs m' a', map_all clear (cr3 s) ns (m, a) = Ret (fs, (m', a')) /\
    grown m a s ns m' a' /\ Forall2 (user_maps m' (cr3 s)) ns fs /\ NoDup fs /\
    Forall (fun f => ~ taken a f /\ (clear = true -> m' !! f = Some (replicate 512 0))) fs /\ avail k a'.
Proof.
  induction ns as [|n ns IH]; intros m a k Hok Hwf Hnd Hu Hun Hsz Hav.
  { exists [], m, a. split; [done |]. split; [by apply grown_nil |]. repeat split; try constructor; done. }
  apply NoDup_cons in Hnd as [Hni Hnd]. apply Forall_cons in Hu as [Hn Hu]. apply Forall_cons in Hun as [Hn0 Hun].
  destruct (map_fresh_ok clear s n m a (4 * length ns + k) Hok Hwf Hn Hn0 Hsz)
    as (f & m1 & a1 & E1 & Hg1 & Hm1 & Hf & Hf1 & Hz & Hav1).
  { eapply avail_le; [| exact Hav]. simpl. lia. }
  destruct (IH m1 a1 k (gr_ok _ _ _ _ _ _ Hg1) (gr_wf _ _ _ _ _ _ Hg1) Hnd Hu) as (fs & m2 & a2 & E2 & Hg2 & Hm2 & Hndf & Hfs & Hav2).
  { apply Forall_forall. intros n' Hn'. rewrite Forall_forall in Hun, Hu. unfold unmapped.
    rewrite (gr_other _ _ _ _ _ _ Hg1); [by apply Hun | by apply page_of_user, Hu |].
    intros n0 ->%list_elem_of_singleton. apply page_of_ne; [by apply Hu | done | by intros ->]. }
  { intros Hc. by apply (gr_sized _ _ _ _ _ _ Hg1), Hsz. }
  { done. }
  exists (f :: fs), m2, a2. cbn [map_all]. rewrite E1. cbn [obind]. rewrite E2. split; [done |].
  split; [exact (grown_trans _ _ _ _ _ _ _ _ _ Hg1 Hg2) |].
  split; [constructor; [by eapply grown_maps | done] |].
  assert (Hfs1 : f ∉ fs).
  { intros Hin. rewrite Forall_forall in Hfs. by apply (Hfs f Hin). }
  split; [by apply NoDup_cons |]. split; [| done]. constructor.
  - split; [done |]. intros Hc. rewrite (gr_mem _ _ _ _ _ _ Hg2); [by apply Hz | done |].
    destruct Hm1 as (e & He & Hef & _). eapply (so_data _ _ _ (gr_ok _ _ _ _ _ _ Hg1)); eauto using page_of_user.
  - eapply Forall_impl; [exact Hfs |]. intros g [Hg ?]. split; [| done]. intros Hg'. by apply Hg, (gr_mono _ _ _ _ _ _ Hg1).
Qed.

Lemma elem_of_page_range n k x : x ∈ page_range n k <-> n <= x < n + Z.of_nat k.
Proof.
  unfold page_range. rewrite list_elem_of_fmap. setoid_rewrite elem_of_seq. split.
  - intros (i & -> & ?). lia.
  - intros ?. exists (Z.to_nat (x - n)). lia.
Qed.

Lemma NoDup_page_range n k : NoDup (page_range n k).
Proof. apply NoDup_fmap_2; [intros i j ?; lia | apply NoDup_seq]. Qed.

Lemma length_page_range n k : length (page_range n k) = k.
Proof. unfold page_range. by rewrite length_fmap, length_seq. Qed.

(** ** The heap *)
Definition pages_to (x : Z) : Z := (x + 4095) / 4096.

(** Pages from the start of the heap to its end are mapped, those from there to
    [limit] are free. *)
Record heap_ok m s (limit : Z) : Prop := {
  hp_start : 0 <= heap_start s <= heap_end s /\ heap_start s mod 4096 = 0;
  hp_limit : heap_end s <= limit /\ limit mod 4096 = 0 /\ limit <= 2 ^ 46;
  hp_mapped n : heap_start s / 4096 <= n < pages_to (heap_end s) -> exists f, user_maps m (cr3 s) n f;
  hp_free n : pages_to (heap_end s) <= n < limit / 4096 -> unmapped m (cr3 s) n
}.

Lemma pages_to_le x y : x <= y -> pages_to x <= pages_to y.
Proof. intros. unfold pages_to. apply Z.div_le_mono; lia. Qed.

Lemma pages_to_limit x limit : x <= limit -> limit mod 4096 = 0 -> pages_to x <= limit / 4096.
Proof.
  intros Hx Hl. unfold pages_to. pose proof (Z.div_mod limit 4096 ltac:(lia)).
  apply Z.lt_succ_r, Z.div_lt_upper_bound; lia.
Qed.

(** The pages that [sys_alloc] maps. *)
Definition new_pages s (size : Z) : list Z :=
  page_range (pages_to (heap_end s)) (Z.to_nat (pages_to (heap_end s + size) - pages_to (heap_end s))).

Lemma sys_alloc_unfold size s w limit :
  0 <= size -> 0 <= heap_end s -> heap_end s + size <= limit -> limit <= 2 ^ 46 ->
  sys_alloc size s w =
    let! '(_, w) := map_all true (cr3 s) (new_pages s size) w in
    Ret (heap_end s, set_heap_end (heap_end s + size) s, w).
Proof.
  intros Hs H0 Hl Hlim.
  unfold sys_alloc. rewrite chk_u_ret by lia. cbn [obind]. rewrite va_new_user by (unfold user_addr; lia). cbn [obind].
  rewrite !va_align_up_ok by (unfold user_addr; lia). cbn [obind].
  fold (pages_to (heap_end s + size)) (pages_to (heap_end s)).
  pose proof (pages_to_le (heap_end s) (heap_end s + size) ltac:(lia)) as Hle.
  unfold new_pages. destruct (Z.gtb_spec (pages_to (heap_end s + size) * 4096) (pages_to (heap_end s) * 4096)).
  - rewrite Z.div_mul by lia.
    replace ((pages_to (heap_end s + size) * 4096 - 1) / 4096) with (pages_to (heap_end s + size) - 1)
      by (Z.to_euclidean_division_equations; lia).
    replace (pages_to (heap_end s + size) - 1 + 1 - pages_to (heap_end s))
      with (pages_to (heap_end s + size) - pages_to (heap_end s)) by lia.
    destruct (map_all _ _ _ w) as [[fs w']| |]; done.
  - replace (pages_to (heap_end s + size) - pages_to (heap_end s)) with 0 by lia. done.
Qed.

Lemma sys_alloc_spec size s m a limit :
  space_ok m a s -> alloc_wf a -> heap_ok m s limit ->
  0 <= size -> heap_end s + size <= limit ->
  avail (4 * Z.to_nat (pages_to (heap_end s + size) - pages_to (heap_end s))) a ->
  exists m' a', let s' := set_heap_end (heap_end s + size) s in
    sys_alloc size s (m, a) = Ret (heap_end s, s', (m', a')) /\
    space_ok m' a' s' /\ alloc_wf a' /\ heap_ok m' s' limit /\
    (forall n, pages_to (heap_end s) <= n < pages_to (heap_end s + size) ->
      exists f, user_maps m' (cr3 s) n f /\ ~ taken a f /\ m' !! f = Some (replicate 512 0)) /\
    (forall n f, user_pagenum n -> user_maps m (cr3 s) n f ->
      user_maps m' (cr3 s) n f /\ m' !! f = m !! f) /\
    extends m a (cr3 s) m' a'.
Proof.
  intros Hok Hwf [Hst Hlim Hmap Hfree] Hs Hl Hav. simpl.
  set (ns := new_pages s size).
  assert (Hin : forall n, n ∈ ns <-> pages_to (heap_end s) <= n < pages_to (heap_end s + size)).
  { intros n. unfold ns, new_pages. rewrite elem_of_page_range.
    pose proof (pages_to_le (heap_end s) (heap_end s + size)). lia. }
  pose proof (pages_to_limit (heap_end s + size) limit Hl ltac:(tauto)) as Hpl.
  assert (Hp0 : 0 <= pages_to (heap_end s)) by (apply Z.div_pos; lia).
  assert (Hlp : limit / 4096 <= 2 ^ 34) by (apply (Z.div_le_mono limit (2 ^ 46)); lia).
  assert (Hus : Forall user_pagenum ns).
  { apply Forall_forall. intros n Hn%Hin. unfold user_pagenum. lia. }
  destruct (map_all_ok true s ns m a 0 Hok Hwf (NoDup_page_range _ _) Hus)
    as (fs & m' & a' & E & Hg & Hmaps & _ & Hfs & _).
  { apply Forall_forall. intros n Hn%Hin. apply Hfree. lia. }
  { done. }
  { unfold ns, new_pages. by rewrite length_page_range, Nat.add_0_r. }
  assert (Hnew : forall n, n ∈ ns -> exists f, user_maps m' (cr3 s) n f /\ ~ taken a f /\ m' !! f = Some (replicate 512 0)).
  { intros n [i Hi]%list_elem_of_lookup_1. destruct (Forall2_lookup_l _ _ _ _ _ Hmaps Hi) as (f & Hf & Hm).
    exists f. split; [done |]. rewrite Forall_lookup in Hfs. destruct (Hfs i f Hf); auto. }
  assert (Hkeep : forall n f, user_pagenum n -> user_maps m (cr3 s) n f -> user_maps m' (cr3 s) n f /\ m' !! f = m !! f).
  { intros n f Hn Hm. assert (n ∉ ns) as Hni.
    { intros Hi%Hin. destruct Hm as (e & He & _). unfold unmapped in Hfree. rewrite Hfree in He by lia. done. }
    split; [by eapply grown_maps |]. destruct Hm as (e & He & Hef & _).
    apply (gr_mem _ _ _ _ _ _ Hg); [| eapply (so_data _ _ _ Hok); eauto using page_of_user].
    destruct (so_frames _ _ _ Hok _ _ (page_of_user n Hn) He) as (f0 & ? & ? & _ & ?). by replace f with f0 by congruence. }
  exists m', a'. rewrite (sys_alloc_unfold size s (m, a) limit) by lia. fold ns. rewrite E. cbn [obind].
  split; [done |]. pose proof (grown_extends _ _ _ _ _ _ Hg) as Hext. destruct Hg as [Hgok Hgwf Hgo _ _ _ _ _ _].
  split; [by destruct Hgok; split |]. split; [done |].
  split; [split; simpl; [lia | lia | |] | split; [intros n Hn; by apply Hnew, Hin | by split]].
  - intros n Hn. destruct (decide (n < pages_to (heap_end s))) as [Hlt | Hge].
    + destruct (Hmap n ltac:(lia)) as [f Hf]. exists f. apply Hkeep; [| done].
      assert (0 <= heap_start s / 4096) by (apply Z.div_pos; lia). unfold user_pagenum. lia.
    + destruct (Hnew n) as (f & ? & _); [apply Hin; lia | eauto].
  - intros n Hn. pose proof (pages_to_le (heap_end s) (heap_end s + size) ltac:(lia)).
    unfold unmapped. rewrite Hgo; [apply Hfree | apply page_of_user; unfold user_pagenum; lia |].
    + lia.
    + intros n' Hn'. pose proof Hn' as Hn2%Hin. apply page_of_ne; unfold user_pagenum; lia.
Qed.

(** [sys_alloc] grows the heap by exactly the bytes asked for: it returns
    the old end, every page the new bytes touch is mapped for the user to a
    fresh frame of zeros, the bytes that were mapped keep their frames and
    contents, the pages above the new end stay free, and the address space
    stays well formed. *)
Theorem sys_alloc_grows size s m a limit :
  space_ok m a s -> alloc_wf a -> heap_ok m s limit ->
  0 <= size -> heap_end s + size <= limit ->
  avail (4 * Z.to_nat (pages_to (heap_end s + size) - pages_to (heap_end s))) a ->
  exists m' a', let s' := set_heap_end (heap_end s + size) s in
    sys_alloc size s (m, a) = Ret (heap_end s, s', (m', a')) /\
    space_ok m' a' s' /\ alloc_wf a' /\ heap_ok m' s' limit /\
    (forall n, pages_to (heap_end s) <= n < pages_to (heap_end s + size) ->
      exists f, user_maps m' (cr3 s) n f /\ ~ taken a f /\ m' !! f = Some (replicate 512 0)) /\
    (forall n f, user_pagenum n -> user_maps m (cr3 s) n f ->
      user_maps m' (cr3 s) n f /\ m' !! f = m !! f).
Proof.
  intros H1 H2 H3 H4 H5 H6.
  destruct (sys_alloc_spec size s m a limit H1 H2 H3 H4 H5 H6) as (m' & a' & E & ? & ? & ? & ? & ? & _).
  exists m', a'. by split_and!.
Qed.

(** ** Back buffers *)
Lemma back_pages_ok screen :
  0 <= bytes_per_line screen * height screen <= 2 ^ 46 ->
  let ns := page_range (MMAP_BASE / 4096) (Z.to_nat (div_ceil (bytes_per_line screen * height screen) 4096)) in
  Forall user_pagenum ns.
Proof.
  intros H ns. apply Forall_forall. intros n Hn. apply elem_of_page_range in Hn. unfold user_pagenum, div_ceil in *.
  change (MMAP_BASE / 4096) with (2 ^ 34) in Hn.
  assert (0 <= (bytes_per_line screen * height screen + 4096 - 1) / 4096 <= 2 ^ 34).
  { split; [apply Z.div_pos; lia |]. apply Z.lt_succ_r, Z.div_lt_upper_bound; lia. }
  lia.
Qed.

Lemma back_buffer_spec screen s m a :
  space_ok m a s -> alloc_wf a ->
  0 <= bytes_per_line screen * height screen < 2 ^ 32 ->
  let k := Z.to_nat (div_ceil (bytes_per_line screen * height screen) 4096) in
  Forall (unmapped m (cr3 s)) (page_range (MMAP_BASE / 4096) k) -> avail (4 * k) a ->
  exists win fs m' a', sys_alloc_back_buffer screen s (m, a) = Ret (win, set_backbuffer (Some fs) s, (m', a')) /\
    base_addr win = MMAP_BASE /\ space_ok m' a' (set_backbuffer (Some fs) s) /\ alloc_wf a' /\
    extends m a (cr3 s) m' a' /\ length fs = k /\ NoDup fs /\
    forall i f, fs !! i = Some f ->
      user_maps m' (cr3 s) (MMAP_BASE / 4096 + Z.of_nat i) f /\ m' !! f = Some (replicate 512 0).
Proof.
  intros Hok Hwf Hr k Hun Hav.
  destruct (map_all_ok true s (page_range (MMAP_BASE / 4096) k) m a 0 Hok Hwf (NoDup_page_range _ _))
    as (fs & m' & a' & E & Hg & Hmaps & Hnd & Hfs & _); [apply back_pages_ok; lia | done | done | |].
  { by rewrite length_page_range, Nat.add_0_r. }
  eexists _, fs, m', a'. unfold sys_alloc_back_buffer. rewrite chk_u_ret by lia. cbn [obind]. fold k.
  rewrite E. cbn [obind]. split; [done |]. split; [done |].
  split; [by destruct (gr_ok _ _ _ _ _ _ Hg); split |]. split; [apply (gr_wf _ _ _ _ _ _ Hg) |].
  split; [by eapply grown_extends |]. pose proof (Forall2_length _ _ _ Hmaps) as Hlen. rewrite length_page_range in Hlen.
  split; [done |]. split; [done |]. intros i f Hi.
  assert (Hpi : page_range (MMAP_BASE / 4096) k !! i = Some (MMAP_BASE / 4096 + Z.of_nat i)).
  { unfold page_range. rewrite list_lookup_fmap, lookup_seq_lt; [done |].
    apply lookup_lt_Some in Hi. lia. }
  split; [exact (Forall2_lookup_lr _ _ _ _ _ _ Hmaps Hpi Hi) |].
  rewrite Forall_lookup in Hfs. by apply (Hfs i f Hi).
Qed.

(** [sys_alloc_back_buffer] maps one fresh zeroed frame per 4 KiB of the
    screen from [MMAP_BASE] up and records exactly those frames, in order, as
    the process's back buffer. *)
Theorem back_buffer_mapped screen s m a :
  space_ok m a s -> alloc_wf a ->
  0 <= bytes_per_line screen * height screen < 2 ^ 32 ->
  let k := Z.to_nat (div_ceil (bytes_per_line screen * height screen) 4096) in
  Forall (unmapped m (cr3 s)) (page_range (MMAP_BASE / 4096) k) -> avail (4 * k) a ->
  exists win fs m' a', sys_alloc_back_buffer screen s (m, a) = Ret (win, set_backbuffer (Some fs) s, (m', a')) /\
    base_addr win = MMAP_BASE /\ space_ok m' a' (set_backbuffer (Some fs) s) /\
    length fs = k /\ NoDup fs /\
    forall i f, fs !! i = Some f ->
      user_maps m' (cr3 s) (MMAP_BASE / 4096 + Z.of_nat i) f /\ m' !! f = Some (replicate 512 0).
Proof.
  intros Hok Hwf Hr k Hun Hav.
  destruct (back_buffer_spec screen s m a Hok Hwf Hr Hun Hav) as (win & fs & m' & a' & ? & ? & ? & _ & _ & ?).
  by exists win, fs, m', a'.
Qed.

(** A process that already has a back buffer, such as the child of one
    that drew, panics the kernel when it asks for one. *)
Theorem second_back_buffer_panics screen s m a f :
  space_ok m a s -> alloc_wf a -> avail 1 a ->
  0 < bytes_per_line screen * height screen < 2 ^ 32 ->
  user_maps m (cr3 s) (MMAP_BASE / 4096) f ->
  sys_alloc_back_buffer screen s (m, a) = Panic.
Proof.
  intros Hok Hwf Hav Hr (e & He & _).
  unfold sys_alloc_back_buffer. rewrite chk_u_ret by lia. cbn [obind].
  assert (1 <= div_ceil (bytes_per_line screen * height screen) 4096) as Hc
    by (unfold div_ceil; apply Z.div_le_lower_bound; lia).
  destruct (Z.to_nat (div_ceil _ 4096)) as [|k] eqn:Ek; [lia |].
  unfold page_range. cbn [seq fmap list_fmap map_all]. rewrite Z.add_0_r.
  destruct (take_frame_avail 0 a Hwf Hav) as (fr & a1 & Etk & _ & _ & Hn & _).
  unfold map_fresh. rewrite Etk. cbn [obind].
  destruct (map_to_mapped (<[fr := replicate 512 0]> m) a1 (cr3 s) (page_of (MMAP_BASE / 4096)) e fr USER_FLAGS)
    as (m' & a' & E).
  - apply (agree_pt_ok m); [apply (so_pt _ _ _ Hok) |]. intros t Ht. apply lookup_insert_ne. intros ->.
    by apply Hn, (so_tables _ _ _ Hok).
  - apply page_of_user. vm_compute. split; [intros ? | reflexivity]; discriminate.
  - rewrite (agree_pte m); [done | apply (so_pt _ _ _ Hok) | |].
    + intros t Ht. apply lookup_insert_ne. intros ->. by apply Hn, (so_tables _ _ _ Hok).
    + apply page_of_user. vm_compute. split; [intros ? | reflexivity]; discriminate.
  - rewrite E. done.
Qed.

End Fresh.

(** ** Addresses, concretely *)
Section Addresses.
Context {A : Type} {PA : PageApi A}.

Definition page_api : AddrApi := {|
  va_new a := if in_u 47 a || (2 ^ 64 - 2 ^ 47 <=? a) && (a <? 2 ^ 64) then Ret a else Panic;
  va_align_up a n := Ret ((a + (n - 1)) / n * n);
  translate_addr m l4 a := e ← pte m l4 (page_of (a / 4096)); f ← entry_frame e; Some (f + a mod 4096);
  translate_page m l4 n := pte m l4 (page_of n) ≫= entry_frame
|}.

Lemma page_api_laws : flags_ok USER_FLAGS -> AddrLaws PA page_api.
Proof.
  intros Hf. split; [done | | | done | done | done]; intros a Ha; simpl.
  - by rewrite (proj2 (in_u_spec 47 a)).
  - unfold in_u. destruct (Z.leb_spec 0 a); [lia |]. by destruct (Z.leb_spec (2 ^ 64 - 2 ^ 47) a); [lia |].
Qed.
End Addresses.

Module UserMemWitness.
#[local] Existing Instance align_down_frames.
#[local] Existing Instance align_down_frames_laws.
Import PagingMap.PagingWitness.
#[local] Existing Instance page_api.

#[local] Instance addr_laws : AddrLaws (A := BumpAllocator) x86_api page_api.
Proof. apply page_api_laws. exists 7, 0. done. Qed.

Definition space2 : AddressSpace :=
  {| cr3 := 4096; heap_start := 1048576; heap_end := 1048576; program_start := 0;
     backbuffer_frames := None; program_end := 0; stack_top := 0 |}.

Lemma space2_ok : space_ok m1 a1 space2.
Proof. by destruct space1_ok; split. Qed.

Lemma page1_elsewhere n : user_pagenum n -> page_of n <> page1 -> unmapped m1 4096 n.
Proof.
  intros Hn Hne. unfold unmapped. destruct (pte m1 4096 (page_of n)) as [e|] eqn:E; [| done].
  by apply (page1_frame (page_of n) e) in E as [? _]; [| apply page_of_user].
Qed.

Lemma heap2_ok : heap_ok m1 space2 2097152.
Proof.
  split; [done | done | |].
  - intros n Hn. change (256 <= n < 256) in Hn. lia.
  - intros n Hn. change (256 <= n < 512) in Hn. apply page1_elsewhere; [unfold user_pagenum; lia |].
    intros E. injection E as E1 E2 E3 E4. Z.to_euclidean_division_equations. lia.
Qed.

Lemma sys_alloc_grows_witness :
  exists m' a', let s' := set_heap_end (1048576 + 100) space2 in
    sys_alloc 100 space2 (m1, a1) = Ret (1048576, s', (m', a')) /\
    space_ok m' a' s' /\ alloc_wf a' /\ heap_ok m' s' 2097152 /\
    (forall n, pages_to 1048576 <= n < pages_to (1048576 + 100) ->
      exists f, user_maps m' 4096 n f /\ ~ taken a1 f /\ m' !! f = Some (replicate 512 0)) /\
    (forall n f, user_pagenum n -> user_maps m1 4096 n f ->
      user_maps m' 4096 n f /\ m' !! f = m1 !! f).
Proof.
  apply (sys_alloc_grows 100 space2 m1 a1 2097152 space2_ok a1_ok heap2_ok); [lia | simpl; lia |].
  apply (avail_le _ 6); [vm_compute; lia | exact avail6].
Defined.

Definition tiny_screen : ScreenSize := {| width := 4; height := 8; bytes_per_pixel := 4; bytes_per_line := 16 |}.

Lemma back_buffer_mapped_witness :
  exists win fs m' a', sys_alloc_back_buffer tiny_screen space2 (m1, a1)
      = Ret (win, set_backbuffer (Some fs) space2, (m', a')) /\
    base_addr win = MMAP_BASE /\ space_ok m' a' (set_backbuffer (Some fs) space2) /\
    length fs = 1%nat /\ NoDup fs /\
    forall i f, fs !! i = Some f ->
      user_maps m' 4096 (MMAP_BASE / 4096 + Z.of_nat i) f /\ m' !! f = Some (replicate 512 0).
Proof.
  apply (back_buffer_mapped tiny_screen space2 m1 a1 space2_ok a1_ok).
  - vm_compute. split; [discriminate | reflexivity].
  - constructor; [| constructor]. apply page1_elsewhere.
    + vm_compute. split; [discriminate | reflexivity].
    + vm_compute. discriminate.
  - apply (avail_le _ 6); [vm_compute; lia | exact avail6].
Defined.

(** The process after one call. *)
Definition after_one : outcome (UserWindow * AddressSpace * (gmap Z (list Z) * BumpAllocator)) :=
  sys_alloc_back_buffer tiny_screen space2 (m1, a1).
Definition m2 : gmap Z (list Z) := match after_one with Ret (_, _, (m, _)) => m | _ => m1 end.
Definition a2 : BumpAllocator := match after_one with Ret (_, _, (_, a)) => a | _ => a1 end.

Lemma after_one_ok : space_ok m2 a2 space2 /\ alloc_wf a2 /\ exists f, user_maps m2 4096 (MMAP_BASE / 4096) f.
Proof.
  destruct (back_buffer_spec tiny_screen space2 m1 a1 space2_ok a1_ok)
    as (win & fs & m' & a' & E & _ & Hok & Hwf & _ & Hl & _ & Hm).
  - vm_compute. split; [discriminate | reflexivity].
  - constructor; [| constructor]. apply page1_elsewhere.
    + vm_compute. split; [discriminate | reflexivity].
    + vm_compute. discriminate.
  - apply (avail_le _ 6); [vm_compute; lia | exact avail6].
  - change (after_one = Ret (win, set_backbuffer (Some fs) space2, (m', a'))) in E.
    unfold m2, a2. rewrite E. clear E. split; [destruct Hok; split; assumption |]. split; [exact Hwf |].
    destruct fs as [|f fs]; [discriminate Hl |]. exists f. exact (proj1 (Hm 0%nat f eq_refl)).
Qed.

Lemma second_back_buffer_panics_witness : sys_alloc_back_buffer tiny_screen space2 (m2, a2) = Panic.
Proof.
  destruct after_one_ok as (Hok & Hwf & f & Hf).
  apply (second_back_buffer_panics tiny_screen space2 m2 a2 f Hok Hwf).
  - eexists _, _. split; [vm_compute; reflexivity | exact I].
  - vm_compute. split; reflexivity.
  - exact Hf.
Defined.
End UserMemWitness.
