(* ===== verification/KernelMap.v ===== *)
(** * The kernel's own mappings

    [init_heap] of [kernel/src/mem/allocator.rs] and the mappings of the sound
    driver ([map_hdi_mmio], [BufferDescriptorList::new], [create_bdpl] and
    [translate] of [driver/sound/hda.rs]).  All of them add pages of the upper
    half to the kernel's page table, the heap in entry 320 of the root and the
    sound controller in entry 416, so that the page tables of processes, which
    copy the upper entries of the root, share them. *)
From S2P Require Import Prelude Memory Paging PagingMap UserMem.

Definition HEAP_START : Z := 0xFFFFA00000000000.
Definition HEAP_SIZE : Z := 1024 * 1024 * 100.
Definition MMIO_VIRT_BASE : Z := 0xFFFFD00000000000.
Definition PCA_BUFFER_VIRT_START : Z := MMIO_VIRT_BASE + 1024 * 16.

(** [PRESENT | WRITABLE], and with [NO_CACHE] *)
Definition KERNEL_FLAGS : Z := 3.
Definition IO_FLAGS : Z := 19.

(** An entry of the buffer descriptor list, and the controller's region. *)
Record BDLEntry := { bdl_address : Z; bdl_length : Z; bdl_flags : Z }.
Record HdaPci := { hda_base : Z; mmio_region_size : Z }.

Section Mappings.
Context {A : Type} {FA : FrameAllocator A} {PA : PageApi A} {AA : AddrApi} {F : FrameApi}.
Implicit Types (m : gmap Z (list Z)) (a : A) (w : gmap Z (list Z) * A).

(** The loop of [init_heap]; the two uses of [?] leave it with the error. *)
Fixpoint heap_loop (l4 : Z) (pages : list Z) w : outcome (MapResult * (gmap Z (list Z) * A)) :=
  match pages with
  | [] => Ret (Mapped, w)
  | page :: pages =>
      let '(m, a) := w in
      let! '(frame, a) := next_free a in
      match frame with
      | None => Ret (MapFailed, (m, a))
      | Some frame =>
          let! '(r, m, a) := map_to m a l4 (page_of page) frame KERNEL_FLAGS in
          match r with Mapped => heap_loop l4 pages (m, a) | _ => Ret (r, (m, a)) end
      end
  end.

(** The region that the global allocator is given comes second. *)
Definition init_heap (l4 : Z) w : outcome (MapResult * option (Z * Z) * (gmap Z (list Z) * A)) :=
  let! heap_start := va_new HEAP_START in
  let! heap_end := va_new (heap_start + HEAP_SIZE) in
  let! heap_end := va_new (heap_end - 1) in
  let heap_start_page := heap_start / 4096 in
  let heap_end_page := heap_end / 4096 in
  let! '(r, w) := heap_loop l4 (page_range heap_start_page (Z.to_nat (heap_end_page + 1 - heap_start_page))) w in
  Ret (r, match r with Mapped => Some (HEAP_START, HEAP_SIZE) | _ => None end, w).

Fixpoint mmio_loop (l4 : Z) (frames : list Z) w : outcome (gmap Z (list Z) * A) :=
  match frames with
  | [] => Ret w
  | frame :: frames =>
      let '(m, a) := w in
      let! virt_addr := chk_u 64 (frame + MMIO_VIRT_BASE) in
      let! virt_addr := va_new virt_addr in
      let! '(r, m, a) := map_to m a l4 (page_of (virt_addr / 4096)) frame IO_FLAGS in
      match r with Mapped => mmio_loop l4 frames (m, a) | _ => Panic end
  end.

(** [PhysFrame::range_inclusive] *)
Definition frames_from (first : Z) (k : nat) : list Z := (fun i => first + 4096 * Z.of_nat i) <$> seq 0 k.
Definition frame_range (first last : Z) : list Z := frames_from first (Z.to_nat ((last - first) / 4096 + 1)).

Definition map_hdi_mmio (page_table_address : Z) (self : HdaPci) w : outcome (gmap Z (list Z) * A) :=
  let! start_frame := containing_address (hda_base self) in
  let! e := chk_u 64 (hda_base self + mmio_region_size self) in
  let! end_frame := containing_address e in
  mmio_loop page_table_address (frame_range start_frame end_frame) w.

(** The closure of [BufferDescriptorList::new] *)
Definition get_page (l4 : Z) (idx : Z) w : outcome (BDLEntry * (gmap Z (list Z) * A)) :=
  let '(m, a) := w in
  let! va := va_new PCA_BUFFER_VIRT_START in
  let page := va / 4096 + idx in
  let! '(frame, a) := take_frame a in
  let! '(r, m, a) := map_to m a l4 (page_of page) frame IO_FLAGS in
  match r with
  | Mapped => Ret ({| bdl_address := frame; bdl_length := 4096; bdl_flags := 1 |}, (m, a))
  | _ => Panic
  end.

Definition bdl_new (l4 : Z) w : outcome (list BDLEntry * (gmap Z (list Z) * A)) :=
  let! '(e0, w) := get_page l4 0 w in
  let! '(e1, w) := get_page l4 1 w in
  let! '(e2, w) := get_page l4 2 w in
  let! '(e3, w) := get_page l4 3 w in
  Ret ([e0; e1; e2; e3], w).

(** [create_bdpl] locks the allocator and takes the kernel's page table. *)
Definition create_bdpl (page_table_address : Z) w : outcome (list BDLEntry * (gmap Z (list Z) * A)) :=
  bdl_new page_table_address w.

Definition translate (page_table_address : Z) m (ptr : Z) : outcome Z :=
  let! virt_addr := va_new ptr in
  unwrap (translate_addr m page_table_address virt_addr).

End Mappings.

(** ** What the mappings rely on *)
Definition kernel_addr (x : Z) : Prop := 2 ^ 64 - 2 ^ 47 <= x < 2 ^ 64.

(** The documented behaviour of the [x86_64] crate on the upper half, for one
    entry [j] of the root: [map_to] maps that page and no other below the entry,
    leaves the other entries of the root and the frames that are not its tables,
    and takes a frame for each table that is missing. *)
Class KernelLaws (A : Type) {FA : FrameAllocator A} {FL : FrameAllocatorLaws A} (PA : PageApi A) (AA : AddrApi)
  : Prop := {
  kernel_flags_ok : flags_ok KERNEL_FLAGS;
  io_flags_ok : flags_ok IO_FLAGS;
  va_new_kernel x : kernel_addr x -> va_new x = Ret x;
  map_region_law m a l4 j q frame flags n :
    alloc_wf a -> tree_ok (eq j) 3 m l4 -> (forall t, in_tree (eq j) 3 m l4 t -> taken a t) ->
    path_in (eq j) q -> length q = 4%nat -> pte m l4 q = None -> frame_ok frame -> flags_ok flags ->
    avail (missing m l4 q + n) a ->
    exists m' a', map_to m a l4 q frame flags = Ret (Mapped, m', a') /\
      tree_ok (eq j) 3 m' l4 /\
      (exists e, pte m' l4 q = Some e /\ entry_frame e = Some frame /\ entry_flags e = flags) /\
      (forall q', path_in (eq j) q' -> length q' = 4%nat -> q' <> q -> pte m' l4 q' = pte m l4 q') /\
      (forall i, i <> j -> slot m' l4 i = slot m l4 i) /\
      (forall f, taken a f -> ~ in_tree (eq j) 3 m l4 f -> m' !! f = m !! f) /\
      (forall t, in_tree (eq j) 3 m' l4 t -> in_tree (eq j) 3 m l4 t \/ ~ taken a t /\ taken a' t) /\
      alloc_wf a' /\ (forall f, taken a f -> taken a' f) /\ avail n a' /\ (mem_sized m -> mem_sized m');
  translate_kernel m l4 j x :
    tree_ok (eq j) 3 m l4 -> kernel_addr x -> path_in (eq j) (page_of (x / 4096)) ->
    translate_addr m l4 x = (e ← pte m l4 (page_of (x / 4096)); f ← entry_frame e; Some (f + x mod 4096))
}.

(** ** Pages below one entry of the root *)
Section Region.
Context {A : Type} {FA : FrameAllocator A} {FL : FrameAllocatorLaws A} {PA : PageApi A} {AA : AddrApi}
  {KL : KernelLaws A PA AA}.
Implicit Types (m : gmap Z (list Z)) (a : A).

(** The pages whose addresses agree above bit 39. *)
Definition in_region (r n : Z) : Prop := n / 134217728 = r.
Definition root_index (r : Z) : nat := Z.to_nat (r mod 512).

Lemma region_path r n : in_region r n -> path_in (eq (root_index r)) (page_of n).
Proof.
  unfold in_region. intros <-. pose proof (Z.mod_pos_bound (n / 134217728) 512 ltac:(lia)).
  pose proof (Z.mod_pos_bound (n / 262144) 512 ltac:(lia)).
  pose proof (Z.mod_pos_bound (n / 512) 512 ltac:(lia)). pose proof (Z.mod_pos_bound n 512 ltac:(lia)).
  split; [| done]. repeat (constructor; [lia |]). constructor.
Qed.

Lemma region_page_inj r n n' : in_region r n -> in_region r n' -> page_of n = page_of n' -> n = n'.
Proof.
  unfold in_region, page_of. intros H H' E. injection E as _ E2 E3 E4.
  apply Z2Nat.inj in E2, E3, E4; try (apply Z.mod_pos_bound; lia). Z.to_euclidean_division_equations. lia.
Qed.

(** Tables that page [n] needs when page [n - 1] is mapped. *)
Definition fresh_tables (n : Z) : nat :=
  if n mod 512 =? 0 then if n mod 262144 =? 0 then 2 else 1 else 0.

Lemma div_step n d : 0 < d -> (n + 1) mod d <> 0 -> (n + 1) / d = n / d.
Proof. intros Hd H. Z.to_euclidean_division_equations. nia. Qed.

Lemma missing_next m l4 r n :
  in_region r n -> in_region r (n + 1) -> pte m l4 (page_of n) <> None ->
  (missing m l4 (page_of (n + 1)) <= fresh_tables (n + 1))%nat.
Proof.
  unfold in_region. intros H H' Hp. unfold fresh_tables, page_of in *. rewrite H in Hp. rewrite H'.
  set (i4 := Z.to_nat (r mod 512)) in *.
  destruct (Z.eqb_spec ((n + 1) mod 512) 0) as [E1 | E1].
  - destruct (Z.eqb_spec ((n + 1) mod 262144) 0) as [E2 | E2].
    + by apply (missing_shared m [i4] _ [_; _; _] l4 Hp).
    + rewrite (div_step n 262144) by lia. by apply (missing_shared m [i4; _] _ [_; _] l4 Hp).
  - rewrite (div_step n 512) by lia. assert ((n + 1) mod 262144 <> 0) by (Z.to_euclidean_division_equations; lia).
    rewrite (div_step n 262144) by lia. by apply (missing_shared m [i4; _; _] _ [_] l4 Hp).
Qed.

(** Page [n] maps frame [f] with these flags. *)
Definition kernel_maps m (l4 flags n f : Z) : Prop :=
  exists e, pte m l4 (page_of n) = Some e /\ entry_frame e = Some f /\ entry_flags e = flags.

(** The tables below entry [j] of the root at [l4]. *)
Record region_ok (j : nat) (l4 : Z) m a : Prop := {
  rk_tree : tree_ok (eq j) 3 m l4;
  rk_taken t : in_tree (eq j) 3 m l4 t -> taken a t;
  rk_wf : alloc_wf a
}.

(** [m'] is [m] with the pages [ns] added below entry [j]. *)
Record region_grown (j : nat) (l4 : Z) m a (ns : list Z) m' a' : Prop := {
  rg_ok : region_ok j l4 m' a';
  rg_other q : path_in (eq j) q -> length q = 4%nat -> (forall n, n ∈ ns -> q <> page_of n) -> pte m' l4 q = pte m l4 q;
  rg_slots i : i <> j -> slot m' l4 i = slot m l4 i;
  rg_mem f : taken a f -> ~ in_tree (eq j) 3 m l4 f -> m' !! f = m !! f;
  rg_tables t : in_tree (eq j) 3 m' l4 t -> in_tree (eq j) 3 m l4 t \/ ~ taken a t;
  rg_mono f : taken a f -> taken a' f;
  rg_sized : mem_sized m -> mem_sized m'
}.

Lemma region_nil j l4 m a : region_ok j l4 m a -> region_grown j l4 m a [] m a.
Proof. intros. split; auto. Qed.

Lemma region_trans j l4 m a ns m1 a1 ns' m2 a2 :
  region_grown j l4 m a ns m1 a1 -> region_grown j l4 m1 a1 ns' m2 a2 -> region_grown j l4 m a (ns ++ ns') m2 a2.
Proof.
  intros [] []. split; auto.
  - intros q Hq Hl Hne. rewrite rg_other1, rg_other0; auto; intros n Hin; apply Hne, elem_of_app; auto.
  - intros i Hi. by rewrite rg_slots1, rg_slots0.
  - intros f Hf Hnt. rewrite rg_mem1, rg_mem0; auto. intros [? | ?]%rg_tables0; auto.
  - intros t [Ht | Ht]%rg_tables1; auto.
Qed.

Lemma region_maps j r l4 m a ns m' a' flags n f :
  region_grown j l4 m a ns m' a' -> j = root_index r -> in_region r n -> Forall (in_region r) ns -> n ∉ ns ->
  kernel_maps m l4 flags n f -> kernel_maps m' l4 flags n f.
Proof.
  intros Hg -> Hn Hns Hni (e & He & ?). exists e. split; [| done].
  rewrite (rg_other _ _ _ _ _ _ _ Hg); [done | by apply region_path | done |].
  intros n' Hin E. rewrite Forall_forall in Hns. apply (region_page_inj r) in E; [| done | auto]. by subst.
Qed.

(** One page. *)
Lemma region_map_ok r l4 m a n frame flags k :
  region_ok (root_index r) l4 m a -> in_region r n -> pte m l4 (page_of n) = None -> frame_ok frame -> flags_ok flags ->
  avail (missing m l4 (page_of n) + k) a ->
  exists m' a', map_to m a l4 (page_of n) frame flags = Ret (Mapped, m', a') /\
    region_grown (root_index r) l4 m a [n] m' a' /\ kernel_maps m' l4 flags n frame /\ avail k a'.
Proof.
  intros [Hok Htk Hwf] Hn Hun Hf Hfl Hav.
  destruct (map_region_law m a l4 (root_index r) (page_of n) frame flags k Hwf Hok Htk (region_path r n Hn) eq_refl Hun Hf Hfl Hav)
    as (m' & a' & E & Hok' & He & Hoth & Hsl & Hmem & Htab & Hwf' & Hmono & Hav' & Hsz).
  exists m', a'. split; [done |]. split; [| done]. split; try done.
  - split; [done | | done]. intros t [? | [_ ?]]%Htab; auto.
  - intros q Hq Hl Hne. apply Hoth; [done | done |]. apply Hne, list_elem_of_here.
  - intros t [? | [? _]]%Htab; auto.
Qed.

(** An entry of the root that is not in use. *)
Lemma unused_region j l4 m a es :
  m !! l4 = Some es -> length es = 512%nat -> taken a l4 -> alloc_wf a -> used m l4 j = None ->
  region_ok j l4 m a /\ (forall t, in_tree (eq j) 3 m l4 t -> t = l4) /\
  (forall q, path_in (eq j) q -> pte m l4 q = None).
Proof.
  intros He Hl Ht Hwf Hun.
  assert (Hp : forall p u, path_in (eq j) p -> table_at m l4 p = Some u -> p = [] /\ u = l4).
  { intros [|i p] u [_ Hi]; [by intros [= ->] |]. simpl in Hi. subst i. simpl. by rewrite Hun. }
  assert (Hin : forall t, in_tree (eq j) 3 m l4 t -> t = l4).
  { intros t (p & Hpi & _ & Ht'). by apply (Hp p t Hpi) in Ht' as [_ ->]. }
  split; [split; [split | by intros t ->%Hin | done] | split; [done |]].
  - intros u ->%Hin. eauto.
  - intros p p' u Hq Hq' _ _ Hu Hu'. apply Hp in Hu as [-> _]; [| done]. by apply Hp in Hu' as [-> _].
  - intros p i u e Hq _ Hu Hi. destruct p as [|i' p]; [| apply Hp in Hu as [? _]; [done |]].
    + destruct Hq as [_ Hq]. simpl in Hq, Hu. subst i. injection Hu as <-. congruence.
    + destruct Hq as [[Hq1 _]%Forall_app Hq2]. by split.
  - intros q [_ Hq]. destruct q as [|i q]; [done |]. simpl in Hq. subst i. destruct q; cbn [pte]; by rewrite Hun.
Qed.

(** ** Runs of pages *)

(** The frames that [k] pages from [n] take when page [n] needs [c] tables. *)
Fixpoint tables_run (c : nat) (n : Z) (k : nat) : nat :=
  match k with O => 0 | S k => c + tables_run (fresh_tables (n + 1)) (n + 1) k end.

Lemma page_range_S n k : page_range n (S k) = n :: page_range (n + 1) k.
Proof.
  unfold page_range. cbn [seq fmap list_fmap]. f_equal; [lia |]. rewrite <- fmap_S_seq, <- list_fmap_compose.
  apply list_fmap_ext. intros i x _. simpl. lia.
Qed.

(** A run of pages below an entry of the root, from a state where the first
    needs [c] tables. *)
Record run_ready (r l4 : Z) m a (n : Z) (k c : nat) : Prop := {
  rr_ok : region_ok (root_index r) l4 m a;
  rr_pages : Forall (in_region r) (page_range n k);
  rr_free : Forall (fun n => pte m l4 (page_of n) = None) (page_range n k);
  rr_first : k <> 0%nat -> (missing m l4 (page_of n) <= c)%nat
}.

Lemma run_next r l4 m a n k c m1 a1 flags f :
  run_ready r l4 m a n (S k) c -> region_grown (root_index r) l4 m a [n] m1 a1 -> kernel_maps m1 l4 flags n f ->
  run_ready r l4 m1 a1 (n + 1) k (fresh_tables (n + 1)).
Proof.
  intros [Hok Hpg Hfr _] Hg (e & He & _). rewrite page_range_S in Hpg, Hfr.
  apply Forall_cons in Hpg as [Hn Hpg], Hfr as [_ Hfr]. split; [apply Hg | done | |].
  - rewrite Forall_forall in Hpg, Hfr |- *. intros n' Hn'.
    rewrite (rg_other _ _ _ _ _ _ _ Hg); [by apply Hfr | by apply region_path, Hpg | done |].
    intros n0 ->%list_elem_of_singleton E. apply (region_page_inj r) in E; [| by apply Hpg | done].
    subst n'. apply elem_of_page_range in Hn'. lia.
  - intros Hk. apply (missing_next m1 l4 r n); [done | | by rewrite He].
    destruct k; [done |]. rewrite page_range_S in Hpg. by apply Forall_cons in Hpg as [? _].
Qed.

Lemma run_keeps r l4 m a n k c m' a' flags f m1 a1 :
  run_ready r l4 m a n (S k) c -> region_grown (root_index r) l4 m1 a1 (page_range (n + 1) k) m' a' ->
  kernel_maps m1 l4 flags n f -> kernel_maps m' l4 flags n f.
Proof.
  intros [_ Hpg _ _] Hg Hm. rewrite page_range_S in Hpg. apply Forall_cons in Hpg as [Hn Hpg].
  eapply (region_maps _ r); try done. rewrite elem_of_page_range. lia.
Qed.

(** The next page of a run, with a frame from the allocator. *)
Lemma run_fresh r l4 m a n k c flags rest :
  run_ready r l4 m a n (S k) c -> flags_ok flags -> avail (S k + tables_run c n (S k) + rest) a ->
  exists f a1 m1 a2, next_free a = Ret (Some f, a1) /\ map_to m a1 l4 (page_of n) f flags = Ret (Mapped, m1, a2) /\
    region_grown (root_index r) l4 m a [n] m1 a2 /\ kernel_maps m1 l4 flags n f /\
    run_ready r l4 m1 a2 (n + 1) k (fresh_tables (n + 1)) /\
    (~ taken a f /\ taken a2 f /\ frame_ok f) /\ avail (k + tables_run (fresh_tables (n + 1)) (n + 1) k + rest) a2.
Proof.
  intros Hr Hfl Hav. pose proof Hr as [Hok Hpg Hfr Hfirst]. rewrite page_range_S in Hpg, Hfr.
  apply Forall_cons in Hpg as [Hn Hpg], Hfr as [Hun Hfr]. cbn [tables_run] in Hav.
  destruct Hav as (f & a1 & Enext & Hav). fold (avail (A := A)) in Hav.
  destruct (next_free_law a f a1 (rk_wf _ _ _ _ Hok) Enext) as (Hwf1 & Hnf & Hf1 & Hfok & Hmono1).
  assert (Hok1 : region_ok (root_index r) l4 m a1) by (destruct Hok; split; auto).
  destruct (region_map_ok r l4 m a1 n f flags (k + tables_run (fresh_tables (n + 1)) (n + 1) k + rest) Hok1 Hn Hun Hfok Hfl)
    as (m1 & a2 & Emap & Hg1 & Hm1 & Hav2).
  { eapply avail_le; [| exact Hav]. specialize (Hfirst ltac:(done)). lia. }
  assert (Hg0 : region_grown (root_index r) l4 m a [n] m1 a2).
  { destruct Hg1. split; auto. intros t [? | Ht]%rg_tables0; auto. }
  exists f, a1, m1, a2. split_and!; try done; [by eapply run_next |]. by apply (rg_mono _ _ _ _ _ _ _ Hg1).
Qed.

(** The frames of a run: mapped in order, all different, none in use before. *)
Definition run_frames (l4 : Z) m a (flags : Z) (ns fs : list Z) m' a' : Prop :=
  Forall2 (kernel_maps m' l4 flags) ns fs /\ NoDup fs /\ Forall (fun f => ~ taken a f /\ taken a' f /\ frame_ok f) fs.

Lemma run_frames_cons r l4 m a n k c flags f fs m1 a1 m' a' :
  run_ready r l4 m a n (S k) c -> region_grown (root_index r) l4 m a [n] m1 a1 -> kernel_maps m1 l4 flags n f ->
  ~ taken a f /\ taken a1 f /\ frame_ok f ->
  region_grown (root_index r) l4 m1 a1 (page_range (n + 1) k) m' a' ->
  run_frames l4 m1 a1 flags (page_range (n + 1) k) fs m' a' ->
  region_grown (root_index r) l4 m a (page_range n (S k)) m' a' /\ run_frames l4 m a flags (page_range n (S k)) (f :: fs) m' a'.
Proof.
  intros Hr Hg1 Hm1 (Hnf & Hf1 & Hfok) Hg2 (Hm2 & Hnd & Hfs). rewrite page_range_S.
  split; [exact (region_trans _ _ _ _ _ _ _ _ _ _ Hg1 Hg2) |].
  split; [constructor; [by eapply run_keeps | done] |]. split.
  - apply NoDup_cons. split; [| done]. intros Hin. rewrite Forall_forall in Hfs. by destruct (Hfs f Hin).
  - constructor; [split_and!; [done | by apply (rg_mono _ _ _ _ _ _ _ Hg2) | done] |].
    eapply Forall_impl; [exact Hfs |]. intros g (Hg & ? & ?). split_and!; try done.
    intros Hga. by apply Hg, (rg_mono _ _ _ _ _ _ _ Hg1).
Qed.

Lemma heap_loop_ok r l4 k : forall n c m a rest,
  run_ready r l4 m a n k c -> avail (k + tables_run c n k + rest) a ->
  exists fs m' a', heap_loop l4 (page_range n k) (m, a) = Ret (Mapped, (m', a')) /\
    region_grown (root_index r) l4 m a (page_range n k) m' a' /\
    run_frames l4 m a KERNEL_FLAGS (page_range n k) fs m' a' /\ avail rest a'.
Proof.
  induction k as [|k IH]; intros n c m a rest Hr Hav.
  { exists [], m, a. split; [done |]. split; [apply region_nil, Hr |]. repeat split; try constructor; done. }
  destruct (run_fresh r l4 m a n k c KERNEL_FLAGS rest Hr kernel_flags_ok Hav)
    as (f & a1 & m1 & a2 & Enext & Emap & Hg & Hm & Hr1 & Hf & Hav1).
  destruct (IH (n + 1) (fresh_tables (n + 1)) m1 a2 rest Hr1 Hav1) as (fs & m2 & a3 & E2 & Hg2 & Hfs & Hav2).
  exists (f :: fs), m2, a3. split; [rewrite page_range_S; cbn [heap_loop]; by rewrite Enext; cbn [obind]; rewrite Emap |].
  destruct (run_frames_cons r l4 m a n k c KERNEL_FLAGS f fs m1 a2 m2 a3); try done.
Qed.

Lemma frames_from_S f k : frames_from f (S k) = f :: frames_from (f + 4096) k.
Proof.
  unfold frames_from. cbn [seq fmap list_fmap]. f_equal; [lia |]. rewrite <- fmap_S_seq, <- list_fmap_compose.
  apply list_fmap_ext. intros i x _. simpl. lia.
Qed.

(** Physical addresses that the sound driver's window reaches: [2 ^ 39] bytes. *)
Lemma mmio_loop_ok l4 k : forall f c m a rest,
  let r := MMIO_VIRT_BASE / 549755813888 in let n := (f + MMIO_VIRT_BASE) / 4096 in
  f mod 4096 = 0 -> 0 <= f -> f + 4096 * Z.of_nat k <= 2 ^ 39 ->
  run_ready r l4 m a n k c -> avail (tables_run c n k + rest) a ->
  exists m' a', mmio_loop l4 (frames_from f k) (m, a) = Ret (m', a') /\
    region_grown (root_index r) l4 m a (page_range n k) m' a' /\
    Forall2 (kernel_maps m' l4 IO_FLAGS) (page_range n k) (frames_from f k) /\ avail rest a'.
Proof.
  induction k as [|k IH]; intros f c m a rest r n Hal H0 Hf Hr Hav.
  { exists m, a. split; [done |]. split; [apply region_nil, Hr |]. split; [constructor | done]. }
  pose proof Hr as [Hok Hpg Hfr Hfirst]. rewrite page_range_S in Hpg, Hfr.
  apply Forall_cons in Hpg as [Hn _], Hfr as [Hun _]. cbn [tables_run] in Hav.
  destruct (region_map_ok r l4 m a n f IO_FLAGS (tables_run (fresh_tables (n + 1)) (n + 1) k + rest) Hok Hn Hun)
    as (m1 & a1 & Emap & Hg1 & Hm1 & Hav1).
  { split; [done | lia]. } { exact io_flags_ok. }
  { eapply avail_le; [| exact Hav]. specialize (Hfirst ltac:(done)). lia. }
  pose proof (run_next r l4 m a n k c m1 a1 IO_FLAGS f Hr Hg1 Hm1) as Hr1.
  assert (En : n + 1 = (f + 4096 + MMIO_VIRT_BASE) / 4096).
  { unfold n. rewrite <- (Z.div_add _ 1 4096) by lia. f_equal. lia. }
  rewrite En in *.
  destruct (IH (f + 4096) (fresh_tables ((f + 4096 + MMIO_VIRT_BASE) / 4096)) m1 a1 rest) as (m2 & a2 & E2 & Hg2 & Hm2 & Hav2); try done.
  { rewrite Z.add_mod, Hal by lia. done. } { lia. } { lia. }
  exists m2, a2. split.
  - rewrite frames_from_S. cbn [mmio_loop]. unfold MMIO_VIRT_BASE in *. rewrite chk_u_ret by lia. cbn [obind].
    rewrite va_new_kernel by (unfold kernel_addr; lia). cbn [obind]. fold n. by rewrite Emap.
  - rewrite page_range_S, frames_from_S, En. split; [exact (region_trans _ _ _ _ _ _ _ _ _ _ Hg1 Hg2) |].
    split; [| done]. constructor; [| done]. eapply run_keeps; [exact Hr | by rewrite En | done].
Qed.

Lemma maps_translate r l4 m a flags n f x :
  region_ok (root_index r) l4 m a -> in_region r n -> kernel_maps m l4 flags n f -> kernel_addr x -> x / 4096 = n ->
  translate_addr m l4 x = Some (f + x mod 4096).
Proof.
  intros Hok Hn (e & He & Hf & _) Hx <-.
  rewrite (translate_kernel m l4 (root_index r)); [| apply Hok | done | by apply region_path]. by rewrite He; simpl; rewrite Hf.
Qed.

(** ** The heap *)
Definition heap_region : Z := HEAP_START / 549755813888.
Definition heap_page : Z := HEAP_START / 4096.
Definition heap_pages : nat := Z.to_nat ((HEAP_START + HEAP_SIZE - 1) / 4096 + 1 - HEAP_START / 4096).

(** One frame per page, and 52 tables. *)
Definition heap_frames : nat := Z.to_nat (25600 + 52).

Lemma heap_frames_run : (heap_pages + tables_run 3 heap_page heap_pages)%nat = heap_frames.
Proof. apply Nat.eqb_eq. vm_compute. reflexivity. Qed.

Lemma heap_pages_Z : Z.of_nat heap_pages = 25600.
Proof. unfold heap_pages. rewrite Z2Nat.id; vm_compute; [reflexivity | discriminate]. Qed.

Lemma heap_frames_Z : Z.of_nat heap_frames = 25652.
Proof. unfold heap_frames. by rewrite Z2Nat.id. Qed.

Lemma heap_range :
  page_range (HEAP_START / 4096) (Z.to_nat ((HEAP_START + HEAP_SIZE - 1) / 4096 + 1 - HEAP_START / 4096))
  = page_range heap_page heap_pages.
Proof. unfold heap_page, heap_pages. reflexivity. Qed.

#[global] Opaque heap_pages heap_frames.

(** A root table with an entry of the upper half that is not in use. *)
Record root_free (j : nat) (l4 : Z) m a : Prop := {
  rf_root : exists es, m !! l4 = Some es /\ length es = 512%nat;
  rf_taken : taken a l4;
  rf_wf : alloc_wf a;
  rf_unused : used m l4 j = None
}.

Lemma run_unused r l4 m a n k :
  root_free (root_index r) l4 m a -> Forall (in_region r) (page_range n k) -> run_ready r l4 m a n k 3.
Proof.
  intros [(es & He & Hl) Ht Hwf Hun] Hpg. destruct (unused_region _ l4 m a es He Hl Ht Hwf Hun) as (Hok & _ & Hnone).
  split; [done | done | |].
  - eapply Forall_impl; [exact Hpg |]. intros n' Hn'. by apply Hnone, region_path.
  - intros _. apply (missing_le m (page_of n) l4).
Qed.

(** What a mapping made at start-up leaves alone. *)
Record root_kept (j : nat) (l4 : Z) m a m' a' : Prop := {
  rt_ok : region_ok j l4 m' a';
  rt_slots i : i <> j -> slot m' l4 i = slot m l4 i;
  rt_mem f : taken a f -> f <> l4 -> m' !! f = m !! f;
  rt_mono f : taken a f -> taken a' f;
  rt_sized : mem_sized m -> mem_sized m'
}.

Lemma unused_kept j l4 m a ns m' a' :
  root_free j l4 m a -> region_grown j l4 m a ns m' a' -> root_kept j l4 m a m' a'.
Proof.
  intros [(es & He & Hl) Ht Hwf Hun] Hg. destruct (unused_region j l4 m a es He Hl Ht Hwf Hun) as (_ & Hin & _).
  destruct Hg. split; auto.
Qed.

Lemma run_lookup l4 m a flags n k fs m' a' i :
  run_frames l4 m a flags (page_range n k) fs m' a' -> 0 <= i < Z.of_nat k ->
  exists f, fs !! Z.to_nat i = Some f /\ kernel_maps m' l4 flags (n + i) f.
Proof.
  intros (Hm & _) Hi. assert (Hl : page_range n k !! Z.to_nat i = Some (n + i)).
  { unfold page_range. rewrite list_lookup_fmap, lookup_seq_lt by lia. simpl. f_equal. lia. }
  destruct (Forall2_lookup_l _ _ _ _ _ Hm Hl) as (f & Hf & ?). eauto.
Qed.

Lemma in_run r n k : n / 134217728 = r -> (n + Z.of_nat k - 1) / 134217728 = r -> Forall (in_region r) (page_range n k).
Proof.
  intros H1 H2. apply Forall_forall. intros x Hx%elem_of_page_range. unfold in_region.
  pose proof (Z.div_le_mono n x 134217728 ltac:(lia) ltac:(lia)).
  pose proof (Z.div_le_mono x (n + Z.of_nat k - 1) 134217728 ltac:(lia) ltac:(lia)). lia.
Qed.

Lemma init_heap_ok l4 m a rest :
  root_free 320 l4 m a -> avail (heap_frames + rest) a ->
  exists fs m' a', init_heap l4 (m, a) = Ret (Mapped, Some (HEAP_START, HEAP_SIZE), (m', a')) /\
    root_kept 320 l4 m a m' a' /\ run_frames l4 m a KERNEL_FLAGS (page_range heap_page heap_pages) fs m' a' /\ avail rest a'.
Proof.
  intros Hfree Hav.
  assert (Hr : run_ready heap_region l4 m a heap_page heap_pages 3) by (apply run_unused; [done | by apply in_run; rewrite ?heap_pages_Z]).
  destruct (heap_loop_ok heap_region l4 heap_pages heap_page 3 m a rest Hr) as (fs & m' & a' & E & Hg & Hfs & Hav').
  { by rewrite heap_frames_run. }
  exists fs, m', a'. unfold init_heap.
  do 3 (rewrite va_new_kernel by (unfold kernel_addr, HEAP_START, HEAP_SIZE; lia); cbn [obind]).
  rewrite heap_range, E. split; [done |]. split; [by eapply unused_kept | done].
Qed.

(** [C11] The kernel heap is real memory: [init_heap] maps every byte of the
    100 MiB at [HEAP_START] to a byte of physical memory of its own, in frames
    that were free before, through entries whose flags are exactly PRESENT (1)
    and WRITABLE (2), so that user code has no access; it needs no more than the
    frames of the heap and 52 page tables; no other entry of the root table and
    no frame in use changes, and only then is the allocator given the region. *)
Theorem heap_backed l4 m a rest :
  root_free 320 l4 m a -> avail (heap_frames + rest) a ->
  exists m' a', init_heap l4 (m, a) = Ret (Mapped, Some (HEAP_START, HEAP_SIZE), (m', a')) /\
    (forall x, HEAP_START <= x < HEAP_START + HEAP_SIZE ->
      exists f, translate_addr m' l4 x = Some (f + x mod 4096) /\ kernel_maps m' l4 (Z.lor 1 2) (x / 4096) f /\
        frame_ok f /\ ~ taken a f /\ taken a' f) /\
    (forall x y, HEAP_START <= x < HEAP_START + HEAP_SIZE -> HEAP_START <= y < HEAP_START + HEAP_SIZE ->
      translate_addr m' l4 x = translate_addr m' l4 y -> x = y) /\
    root_kept 320 l4 m a m' a' /\ avail rest a'.
Proof.
  intros Hfree Hav. destruct (init_heap_ok l4 m a rest Hfree Hav) as (fs & m' & a' & E & Hk & Hfs & Hav').
  assert (Ht : forall x, HEAP_START <= x < HEAP_START + HEAP_SIZE ->
    exists f, fs !! Z.to_nat (x / 4096 - heap_page) = Some f /\ kernel_maps m' l4 KERNEL_FLAGS (x / 4096) f /\
      translate_addr m' l4 x = Some (f + x mod 4096)).
  { intros x Hx. assert (Hi : 0 <= x / 4096 - heap_page < Z.of_nat heap_pages).
    { change heap_page with (HEAP_START / 4096). rewrite heap_pages_Z. unfold HEAP_START, HEAP_SIZE in *.
      Z.to_euclidean_division_equations. lia. }
    destruct (run_lookup _ _ _ _ _ _ _ _ _ _ Hfs Hi) as (f & Hf & Hm). exists f. split; [done |].
    split; [by replace (x / 4096) with (heap_page + (x / 4096 - heap_page)) by lia |].
    apply (maps_translate heap_region l4 m' a' KERNEL_FLAGS (heap_page + (x / 4096 - heap_page))); [apply Hk | | done | | lia].
    - unfold in_region. replace (heap_page + (x / 4096 - heap_page)) with (x / 4096) by lia. rewrite Z.div_div by lia.
      unfold HEAP_START, HEAP_SIZE in *. symmetry. apply (Z.div_unique x (4096 * 134217728) heap_region (x - HEAP_START)).
      + left. unfold HEAP_START. lia.
      + change heap_region with 33554240. unfold HEAP_START. lia.
    - unfold kernel_addr, HEAP_START, HEAP_SIZE in *. lia. }
  exists m', a'. split; [done |]. split; [| split; [| done]].
  - intros x Hx. destruct (Ht x Hx) as (f & Hf & Hm & Ex). exists f. split; [done |]. split; [exact Hm |]. destruct Hfs as (_ & _ & Hall).
    rewrite Forall_lookup in Hall. destruct (Hall _ f Hf) as (? & ? & ?). done.
  - intros x y Hx Hy Exy. destruct (Ht x Hx) as (f & Hf & _ & Ex), (Ht y Hy) as (g & Hg & _ & Ey).
    rewrite Ex, Ey in Exy. injection Exy as Exy. destruct Hfs as (_ & Hnd & Hall). rewrite Forall_lookup in Hall.
    destruct (Hall _ f Hf) as (_ & _ & Hf1 & _), (Hall _ g Hg) as (_ & _ & Hg1 & _).
    assert (f = g /\ x mod 4096 = y mod 4096) as [-> Em] by (Z.to_euclidean_division_equations; lia).
    assert (Z.to_nat (x / 4096 - heap_page) = Z.to_nat (y / 4096 - heap_page)) as Ei by (by eapply NoDup_lookup).
    change heap_page with (HEAP_START / 4096) in Ei. unfold HEAP_START, HEAP_SIZE in *.
    Z.to_euclidean_division_equations. lia.
Qed.

(** ** The sound controller *)
Definition mmio_region : Z := MMIO_VIRT_BASE / 549755813888.
Definition pca_page : Z := PCA_BUFFER_VIRT_START / 4096.
Definition bdl_entry (f : Z) : BDLEntry := {| bdl_address := f; bdl_length := 4096; bdl_flags := 1 |}.

(** [get_page] for consecutive indices. *)
Fixpoint get_pages (l4 : Z) (idxs : list Z) (w : gmap Z (list Z) * A) : outcome (list BDLEntry * (gmap Z (list Z) * A)) :=
  match idxs with
  | [] => Ret ([], w)
  | i :: idxs => let! '(e, w) := get_page l4 i w in let! '(es, w) := get_pages l4 idxs w in Ret (e :: es, w)
  end.

Lemma bdl_new_pages l4 w : bdl_new l4 w = get_pages l4 [0; 1; 2; 3] w.
Proof.
  unfold bdl_new. cbn [get_pages]. destruct (get_page l4 0 w) as [[e0 w0]| |]; [| done | done]. cbn [obind].
  destruct (get_page l4 1 w0) as [[e1 w1]| |]; [| done | done]. cbn [obind].
  destruct (get_page l4 2 w1) as [[e2 w2]| |]; [| done | done]. cbn [obind].
  by destruct (get_page l4 3 w2) as [[e3 w3]| |].
Qed.

Lemma get_pages_ok l4 k : forall i c m a rest, let n := pca_page + i in
  run_ready mmio_region l4 m a n k c -> avail (k + tables_run c n k + rest) a ->
  exists fs m' a', get_pages l4 (page_range i k) (m, a) = Ret (bdl_entry <$> fs, (m', a')) /\
    region_grown (root_index mmio_region) l4 m a (page_range n k) m' a' /\
    run_frames l4 m a IO_FLAGS (page_range n k) fs m' a' /\ avail rest a'.
Proof.
  induction k as [|k IH]; intros i c m a rest n Hr Hav.
  { exists [], m, a. split; [done |]. split; [apply region_nil, Hr |]. repeat split; try constructor; done. }
  destruct (run_fresh mmio_region l4 m a n k c IO_FLAGS rest Hr io_flags_ok Hav)
    as (f & a1 & m1 & a2 & Enext & Emap & Hg & Hm & Hr1 & Hf & Hav1).
  destruct (IH (i + 1) (fresh_tables (n + 1)) m1 a2 rest) as (fs & m2 & a3 & E2 & Hg2 & Hfs & Hav2).
  { unfold n in *. by rewrite Z.add_assoc. } { unfold n in *. by rewrite Z.add_assoc. }
  rewrite Z.add_assoc in Hg2, Hfs. fold n in Hg2, Hfs.
  exists (f :: fs), m2, a3. split.
  - rewrite page_range_S. cbn [get_pages]. unfold get_page at 1.
    rewrite va_new_kernel by (unfold kernel_addr, PCA_BUFFER_VIRT_START, MMIO_VIRT_BASE; lia). cbn [obind].
    unfold take_frame. rewrite Enext. cbn [obind unwrap]. change (PCA_BUFFER_VIRT_START / 4096) with pca_page. fold n.
    rewrite Emap. cbn [obind]. by rewrite E2.
  - destruct (run_frames_cons mmio_region l4 m a n k c IO_FLAGS f fs m1 a2 m2 a3); try done.
Qed.

Context {F : FrameApi} {FrL : FrameApiLaws F}.

(** The pages of the controller's registers; the last one lies behind them. *)
Definition mmio_pages (self : HdaPci) : nat := Z.to_nat (mmio_region_size self / 4096 + 1).
Definition mmio_page (self : HdaPci) : Z := (hda_base self + MMIO_VIRT_BASE) / 4096.

Record hda_at (self : HdaPci) : Prop := {
  ha_base : hda_base self mod 4096 = 0 /\ 32768 <= hda_base self;
  ha_size : mmio_region_size self mod 4096 = 0 /\ 0 < mmio_region_size self;
  ha_end : hda_base self + mmio_region_size self + 4096 <= 2 ^ 39
}.

Lemma mmio_page_eq self : hda_at self -> mmio_page self = hda_base self / 4096 + MMIO_VIRT_BASE / 4096.
Proof. intros [[Hb _] _ _]. unfold mmio_page, MMIO_VIRT_BASE. Z.to_euclidean_division_equations. lia. Qed.

Lemma pcm_window_page x : 0 <= x < 2 ^ 39 -> in_region mmio_region ((x + MMIO_VIRT_BASE) / 4096).
Proof.
  intros Hx. unfold in_region. rewrite Z.div_div by lia.
  symmetry. apply (Z.div_unique _ _ mmio_region x); [left; lia |].
  change (4096 * 134217728 * mmio_region) with MMIO_VIRT_BASE. lia.
Qed.

Lemma mmio_run self : hda_at self -> Forall (in_region mmio_region) (page_range (mmio_page self) (mmio_pages self)).
Proof.
  intros Ha. pose proof Ha as [[Hb1 Hb2] [Hs1 Hs2] He]. apply Forall_forall. intros n Hn%elem_of_page_range.
  unfold mmio_pages in Hn. rewrite Z2Nat.id in Hn by (apply Z.add_nonneg_nonneg; [apply Z.div_pos; lia | lia]).
  rewrite mmio_page_eq in Hn by done.
  replace n with (((n - MMIO_VIRT_BASE / 4096) * 4096 + MMIO_VIRT_BASE) / 4096).
  - apply pcm_window_page. unfold MMIO_VIRT_BASE in *. Z.to_euclidean_division_equations. lia.
  - unfold MMIO_VIRT_BASE. Z.to_euclidean_division_equations. lia.
Qed.

Lemma map_hdi_mmio_ok l4 self m a rest :
  root_free 416 l4 m a -> hda_at self -> avail (tables_run 3 (mmio_page self) (mmio_pages self) + rest) a ->
  exists m' a', map_hdi_mmio l4 self (m, a) = Ret (m', a') /\
    region_grown 416 l4 m a (page_range (mmio_page self) (mmio_pages self)) m' a' /\
    Forall2 (kernel_maps m' l4 IO_FLAGS) (page_range (mmio_page self) (mmio_pages self))
      (frames_from (hda_base self) (mmio_pages self)) /\ avail rest a'.
Proof.
  intros Hfree Ha Hav. pose proof Ha as [[Hb1 Hb2] [Hs1 Hs2] He].
  assert (Hr : run_ready mmio_region l4 m a (mmio_page self) (mmio_pages self) 3) by (by apply run_unused, mmio_run).
  destruct (mmio_loop_ok l4 (mmio_pages self) (hda_base self) 3 m a rest) as (m' & a' & E & ?); try done; [lia | |].
  { unfold mmio_pages. rewrite Z2Nat.id; Z.to_euclidean_division_equations; lia. }
  exists m', a'. split; [| done]. unfold map_hdi_mmio. rewrite containing_address_ok by lia. cbn [obind].
  rewrite chk_u_ret by lia. cbn [obind]. rewrite containing_address_ok by lia. cbn [obind].
  rewrite <- E. unfold frame_range. f_equal. unfold mmio_pages. f_equal; [lia |]. f_equal. f_equal.
  f_equal. rewrite Hb1, Z.add_mod, Hb1, Hs1 by lia. simpl. rewrite Zmod_0_l. lia.
Qed.

(** The frames that [setup] takes for its mappings. *)
Definition hda_frames (self : HdaPci) : nat := tables_run 3 (mmio_page self) (mmio_pages self) + 7.

(** The sound driver's two windows: after [map_hdi_mmio] and [create_bdpl], as
    [setup] calls them, the address at which the driver reads and writes a
    register is that register of the controller, and the 16 KiB sample buffer
    is, byte for byte, the memory that the descriptor list tells the controller
    to play: four different frames that were free before.  Nothing else that was
    in use changes. *)
Theorem sound_windows l4 self m a rest :
  root_free 416 l4 m a -> hda_at self -> avail (hda_frames self + rest) a ->
  exists bdl m1 a1 m' a', map_hdi_mmio l4 self (m, a) = Ret (m1, a1) /\ create_bdpl l4 (m1, a1) = Ret (bdl, (m', a')) /\
    (forall reg, 0 <= reg < mmio_region_size self ->
      translate l4 m' (hda_base self + reg + MMIO_VIRT_BASE) = Ret (hda_base self + reg)) /\
    (forall i, 0 <= i < 16384 -> exists e, bdl !! Z.to_nat (i / 4096) = Some e /\
      bdl_length e = 4096 /\ bdl_flags e = 1 /\ ~ taken a (bdl_address e) /\
      translate l4 m' (PCA_BUFFER_VIRT_START + i) = Ret (bdl_address e + i mod 4096)) /\
    length bdl = 4%nat /\ NoDup (bdl_address <$> bdl) /\ root_kept 416 l4 m a m1 a1 /\ root_kept 416 l4 m a m' a' /\ avail rest a'.
Proof.
  intros Hfree Ha Hav. pose proof Ha as [[Hb1 Hb2] [Hs1 Hs2] He].
  destruct (map_hdi_mmio_ok l4 self m a (7 + rest) Hfree Ha) as (m1 & a1 & E1 & Hg1 & Hm1 & Hav1).
  { unfold hda_frames in Hav. by rewrite Nat.add_assoc. }
  pose proof (mmio_run self Ha) as Hrun.
  assert (Hpca : Forall (in_region mmio_region) (page_range (pca_page + 0) 4)) by (by apply in_run).
  assert (Hfar : forall n, n ∈ page_range (pca_page + 0) 4 -> n ∉ page_range (mmio_page self) (mmio_pages self)).
  { intros n. rewrite !elem_of_page_range, mmio_page_eq by done. change (pca_page + 0) with (MMIO_VIRT_BASE / 4096 + 4).
    unfold MMIO_VIRT_BASE. Z.to_euclidean_division_equations. lia. }
  assert (Hr1 : run_ready mmio_region l4 m1 a1 (pca_page + 0) 4 3).
  { split; [apply Hg1 | done | | intros _; apply (missing_le m1 (page_of _) l4)].
    pose proof (run_unused mmio_region l4 m a (pca_page + 0) 4 Hfree Hpca) as [_ _ Hnone _].
    rewrite Forall_forall in Hnone, Hpca, Hrun |- *. intros n Hn.
    rewrite (rg_other _ _ _ _ _ _ _ Hg1); [by apply Hnone | by apply (region_path mmio_region), Hpca | done |].
    intros n' Hn' E. apply (region_page_inj mmio_region) in E; [| auto | auto]. subst n'. by apply (Hfar n). }
  destruct (get_pages_ok l4 4 0 3 m1 a1 rest Hr1) as (fs & m2 & a2 & E2 & Hg2 & Hfs & Hav2).
  { change (tables_run 3 (pca_page + 0) 4) with 3%nat. done. }
  pose proof (region_trans _ _ _ _ _ _ _ _ _ _ Hg1 Hg2) as Hg.
  exists (bdl_entry <$> fs), m1, a1, m2, a2. split; [done |]. split; [unfold create_bdpl; by rewrite bdl_new_pages |].
  assert (Htr : forall n f x, in_region mmio_region n -> kernel_maps m2 l4 IO_FLAGS n f -> kernel_addr x -> x / 4096 = n ->
    translate l4 m2 x = Ret (f + x mod 4096)).
  { intros n f x Hn Hm Hx Ex. unfold translate. rewrite va_new_kernel by done. cbn [obind].
    by rewrite (maps_translate mmio_region l4 m2 a2 IO_FLAGS n f x (rg_ok _ _ _ _ _ _ _ Hg2) Hn Hm Hx Ex). }
  pose proof (Forall2_length _ _ _ (proj1 Hfs)) as Hlen. rewrite length_page_range in Hlen.
  split_and!; [| | by rewrite length_fmap | | by eapply unused_kept | by eapply unused_kept | done].
  - intros reg Hreg. set (i := reg / 4096).
    assert (Hi : page_range (mmio_page self) (mmio_pages self) !! Z.to_nat i = Some (mmio_page self + i) /\
      frames_from (hda_base self) (mmio_pages self) !! Z.to_nat i = Some (hda_base self + 4096 * i)).
    { assert (0 <= i < mmio_region_size self / 4096 + 1) by (unfold i; Z.to_euclidean_division_equations; lia).
      unfold page_range, frames_from. rewrite !list_lookup_fmap, lookup_seq_lt by (unfold mmio_pages; lia). simpl.
      rewrite !Z2Nat.id by lia. done. }
    destruct Hi as [Hi1 Hi2]. pose proof (Forall2_lookup_lr _ _ _ _ _ _ Hm1 Hi1 Hi2) as Hm.
    assert (Hin : mmio_page self + i ∈ page_range (mmio_page self) (mmio_pages self)) by (by eapply list_elem_of_lookup_2).
    rewrite Forall_forall in Hrun. rewrite (Htr (mmio_page self + i) (hda_base self + 4096 * i)).
    + f_equal. unfold i. unfold MMIO_VIRT_BASE. Z.to_euclidean_division_equations. lia.
    + by apply Hrun.
    + apply (region_maps 416 mmio_region l4 m1 a1 (page_range (pca_page + 0) 4) m2 a2); try done; [by apply Hrun |].
      intros Hp. by apply (Hfar _ Hp).
    + unfold kernel_addr, MMIO_VIRT_BASE. lia.
    + rewrite mmio_page_eq by done. unfold i, MMIO_VIRT_BASE. Z.to_euclidean_division_equations. lia.
  - intros i Hi. assert (Hi4 : 0 <= i / 4096 < Z.of_nat 4) by (Z.to_euclidean_division_equations; lia).
    destruct (run_lookup _ _ _ _ _ _ _ _ _ _ Hfs Hi4) as (f & Hf & Hm). exists (bdl_entry f).
    rewrite list_lookup_fmap, Hf. destruct Hfs as (_ & _ & Hall). rewrite Forall_lookup in Hall.
    destruct (Hall _ f Hf) as (Hnf & _). split_and!; [done | done | done | |].
    + intros Ht. by apply Hnf, (rg_mono _ _ _ _ _ _ _ Hg1).
    + rewrite (Htr (pca_page + 0 + i / 4096) f); [| | done | |].
      * simpl. f_equal. f_equal. unfold PCA_BUFFER_VIRT_START, MMIO_VIRT_BASE. Z.to_euclidean_division_equations. lia.
      * rewrite Forall_forall in Hpca. apply Hpca, elem_of_page_range. lia.
      * unfold kernel_addr, PCA_BUFFER_VIRT_START, MMIO_VIRT_BASE. lia.
      * change (pca_page + 0) with (PCA_BUFFER_VIRT_START / 4096). unfold PCA_BUFFER_VIRT_START, MMIO_VIRT_BASE.
        Z.to_euclidean_division_equations. lia.
  - rewrite <- list_fmap_compose. replace (bdl_address ∘ bdl_entry <$> fs) with fs; [apply Hfs |].
    symmetry. apply list_fmap_id.
Qed.

(** ** Two entries of one root *)

(** What is below entry [j] stays when the root grows below another entry. *)
Lemma region_kept j j' l4 m a m' a' :
  root_kept j' l4 m a m' a' -> j <> j' -> region_ok j l4 m a ->
  region_ok j l4 m' a' /\ (forall q, path_in (eq j) q -> (length q <= 4)%nat -> pte m' l4 q = pte m l4 q).
Proof.
  intros [[Hok' _ Hwf'] Hsl Hmem Hmono _] Hne [Hok Htk Hwf].
  assert (Hu : used m' l4 j = used m l4 j) by (unfold used; by rewrite Hsl).
  assert (Hsub : forall e, path_in (eq j) [j] -> used m l4 j = Some e -> forall u, in_tree anyp 2 m (entry_addr e) u -> m' !! u = m !! u).
  { intros e Hj He u Hin. assert (Hv : via (eq j) 2 m l4 j u) by (by exists e). apply Hmem.
    - apply Htk, in_tree_cases. eauto.
    - exact (replace_root_out (eq j) 2 m l4 Hok j u Hv). }
  assert (Htab : forall p, path_in (eq j) p -> (length p <= 4)%nat -> table_at m' l4 p = table_at m l4 p).
  { intros [|i p] Hp Hl; [done |]. pose proof Hp as [_ Hi]. simpl in Hi. subst i. apply path_in_cons in Hp as [Hj Hp].
    simpl. rewrite Hu. destruct (used m l4 j) as [e|] eqn:He; [| done]. simpl.
    apply (tree_agree 2 m m' (entry_addr e) (Hsub e Hj eq_refl)); [done | simpl in Hl; lia]. }
  assert (Hin : forall u, in_tree (eq j) 3 m' l4 u -> in_tree (eq j) 3 m l4 u).
  { intros u (p & Hp & Hl & Hu'). exists p. rewrite <- Htab by (done || lia). done. }
  assert (Hkeep : forall u, in_tree (eq j) 3 m l4 u -> u <> l4 -> m' !! u = m !! u) by (intros u Hu' Hn; apply Hmem; auto).
  split; [split; [split | |] |]; [| | | by auto | done |].
  - intros u Hu'. destruct (decide (u = l4)) as [-> | Hn].
    + apply (pt_table _ _ _ _ Hok' l4 (in_tree_root _ _ _ _)).
    + rewrite Hkeep by auto. apply (pt_table _ _ _ _ Hok). auto.
  - intros p p' u Hp Hp' Hl Hl'. rewrite !Htab by (done || lia). by apply (pt_inj _ _ _ _ Hok).
  - intros p i u e Hp Hl Hu' He.
    assert (Hp0 : path_in (eq j) p) by (destruct Hp as [[Hp _]%Forall_app Hh]; split; [done | by destruct p]).
    rewrite Htab in Hu' by (done || lia). apply (pt_entry _ _ _ _ Hok p i u e); [done | done | done |].
    destruct (decide (u = l4)) as [-> | Hn].
    + assert (p = []) as -> by (apply (pt_inj _ _ _ _ Hok p [] l4); (done || simpl; lia)).
      destruct Hp as [_ Hh]. simpl in Hh. subst i. congruence.
    + unfold used, slot in *. rewrite Hkeep in He; [done | | done]. exists p. split; [done |]. split; [lia | done].
  - intros q Hq Hl. destruct q as [|i [|i2 q]]; [done | |]; pose proof Hq as [_ Hi]; simpl in Hi; subst i; [done |].
    apply path_in_cons in Hq as [Hj Hq]. destruct (used m l4 j) as [e|] eqn:He; [| cbn [pte]; by rewrite Hu, He].
    rewrite (pte_cons m' l4 j e), (pte_cons m l4 j e) by done.
    apply (tree_agree 2 m m' (entry_addr e) (Hsub e Hj eq_refl)); [done | simpl in *; lia].
Qed.

(** ** Processes see the kernel's mappings *)

(** A page table made for a process maps what the kernel's root maps below an
    entry of the upper half, through the same tables. *)
Theorem new_table_shares_kernel kernel j m a child m' a' :
  region_ok j kernel m a -> (256 <= j)%nat -> new_page_table kernel (m, a) = Ret (child, (m', a')) ->
  forall q, path_in (eq j) q -> length q = 4%nat -> pte m' child q = pte m kernel q.
Proof.
  intros [Hok Htk Hwf] Hj E q Hq Hl. unfold new_page_table, take_frame in E. run_inv E. destruct v as [f a1]. run_inv E0.
  destruct v as [o a2]. run_inv E0. destruct o as [fr|]; [| done]. injection E2 as <-. injection E0 as <- <-. run_inv E.
  destruct (m !! kernel) as [es|] eqn:Hes; [| done]. injection E0 as <-. injection E as <- <- <-.
  destruct (next_free_law a fr a2 Hwf E1) as (_ & Hnf & _).
  destruct q as [|i [|i2 q]]; [done | done |]. pose proof Hq as [_ Hi]. simpl in Hi. subst i.
  set (m' := <[fr := _]> m). assert (Hu : used m' fr j = used m kernel j).
  { unfold used, slot, m'. rewrite lookup_insert_eq, Hes. cbn [mbind option_bind]. rewrite list_lookup_imap.
    destruct (es !! j) as [e|]; [| done]. simpl. by destruct (Nat.ltb_spec j 256); [lia |]. }
  destruct (used m kernel j) as [e|] eqn:He; [| cbn [pte]; by rewrite Hu, He].
  rewrite (pte_cons m' fr j e), (pte_cons m kernel j e) by done. apply path_in_cons in Hq as [Hj0 Hq].
  apply (tree_agree 2); [| done | simpl in *; lia]. intros u Hin. apply lookup_insert_ne. intros <-.
  apply Hnf, Htk, in_tree_cases. right. exists j. by exists e.
Qed.
End Region.

(** ** The tables of the processor *)
#[export] Instance x86_kernel_laws {A : Type} {FA : FrameAllocator A} {FL : FrameAllocatorLaws A} :
  KernelLaws A x86_api page_api.
Proof.
  split; [by exists 3, 0 | by exists 19, 0 | | | done].
  - intros x Hx. unfold va_new. simpl. unfold kernel_addr in Hx.
    rewrite (proj2 (Z.leb_le _ _)), (proj2 (Z.ltb_lt _ _)), orb_true_r by lia. done.
  - intros m a l4 j q frame flags n Hwf Hok Htk Hq Hl Hnone Hf (e & f & Hef & Hefl) Hav.
    destruct (flags_of_frame e f flags Hef Hefl) as (H0 & H7 & Hmid & Hhigh).
    destruct q as [|i rest]; [done |]. simpl in Hl. injection Hl as Hl.
    destruct (map_walk_uses frame flags H0 H7 rest (eq j) m a l4 i n) as (m' & a' & Hw & Hm); rewrite ?Hl; try done.
    rewrite Hl in Hm. destruct Hm as [Mok Mhere Moth Mslots Mmem Mtab Mwf Mmono Mav Msz]. exists m', a'. split; [done |]. split; [done |].
    split; [exists (Z.lor frame flags); split_and!; [done | by apply leaf_frame | by apply leaf_flags] |].
    split; [done |]. split; [| by auto]. intros k Hk. apply Mslots. simpl. intros [= ->]. by destruct Hq as [_ <-].
Qed.

(** ** Enough memory *)
Section Enough.
Context {F : FrameApi} {FrL : FrameApiLaws F}.

(** A region of [k] frames and a byte above the bump pointer, behind the
    kernel image, gives [k] frames. *)
Lemma avail_within k : forall (s : BumpAllocator) e,
  memory_map s !! Z.to_nat (current_region_index s) = Some e -> mem_type e = 1 -> entry_ok e ->
  base_address e <= next_phys_addr s -> next_phys_addr s mod 4096 = 0 -> 0 <= used_end s -> used_end s + 4096 <= next_phys_addr s ->
  next_phys_addr s + 4096 * Z.of_nat k < base_address e + length_ e -> avail k s.
Proof.
  induction k as [|k IH]; intros s e He Hty Hok Hb Hal Hu Hue Hend; [done |]. pose proof Hok as (? & ? & ?).
  exists (next_phys_addr s), (with_next s (next_phys_addr s + 4096)). split.
  - change (allocate_frame s = Ret (Some (next_phys_addr s), with_next s (next_phys_addr s + 4096))).
    unfold allocate_frame, next_frame, alloc_fuel. rewrite Nat.add_comm. cbn [Nat.add next_frame_loop].
    unfold next_frame_body. rewrite He. unfold start_addr.
    destruct (Z.gtb_spec (base_address e) (next_phys_addr s)); [lia |]. rewrite Hty. cbn [Z.eqb Pos.eqb negb].
    rewrite (chk_u_ret 64 (used_end s + 4096)), (chk_u_ret 64 (next_phys_addr s + 4096)), (end_addr_ok e Hok) by lia. cbn [obind].
    destruct (Z.ltb_spec (next_phys_addr s) (used_end s + 4096)); [lia |].
    replace (if _ >=? _ then Ret false else Ret false) with (Ret false) by (by destruct (_ >=? _)). cbn [obind].
    destruct (Z.ltb_spec (base_address e + length_ e - 1) (next_phys_addr s + 4096)); [lia |].
    rewrite Hal. cbn [Z.eqb negb]. destruct (Z.gtb_spec (next_phys_addr s + 4096) (base_address e + length_ e - 1)); [lia |].
    cbn [obind]. rewrite containing_address_ok, Hal, Z.sub_0_r by lia. cbn [obind]. by rewrite chk_u_ret by lia.
  - apply (IH _ e); simpl; try done; try lia. rewrite Z.add_mod, Hal by lia. done.
Qed.
End Enough.

Module KernelMapWitness.
#[local] Existing Instance align_down_frames.
#[local] Existing Instance align_down_frames_laws.
#[local] Existing Instance page_api.

(** 128 MiB of memory, the kernel in the first MiB above 1 MiB, its root table
    at [0x1000] with the physical-memory window in entry 256. *)
Definition ram128 : list MemoryMapEntry :=
  [ {| base_address := 0; length_ := 654336; mem_type := 1; acpi_flags := 0 |};
    {| base_address := 1048576; length_ := 133169152; mem_type := 1; acpi_flags := 0 |} ].
Definition alloc128 : BumpAllocator :=
  {| memory_map := ram128; used_start := 1048576; used_end := 2093056; current_region_index := 1; next_phys_addr := 2097152 |}.
Definition root : list Z := <[256%nat := 8195]> (replicate 512 0).
Definition mem128 : gmap Z (list Z) := <[4096 := root]> ∅.

Lemma alloc128_ok : alloc_ok alloc128.
Proof. split; simpl; repeat constructor; simpl; lia. Qed.

Lemma root128_free j : (256 < j < 512)%nat -> root_free j 4096 mem128 alloc128.
Proof.
  intros Hj. assert (Hm : mem128 !! 4096 = Some root) by (vm_compute; reflexivity). split.
  - exists root. split; [done |]. vm_compute. reflexivity.
  - vm_compute. reflexivity.
  - exact alloc128_ok.
  - unfold used, slot. rewrite Hm. cbn [mbind option_bind]. unfold root.
    rewrite list_lookup_insert_ne, lookup_replicate_2 by lia. done.
Qed.

Lemma avail128 : avail (heap_frames + 0) alloc128.
Proof.
  eapply avail_within; [vm_compute; reflexivity | vm_compute; reflexivity | ..]; [by repeat split | | done | done | |].
  all: rewrite ?Nat.add_0_r, ?heap_frames_Z; simpl; lia.
Qed.

Lemma heap_backed_witness :
  exists m' a', init_heap 4096 (mem128, alloc128) = Ret (Mapped, Some (HEAP_START, HEAP_SIZE), (m', a')) /\
    (forall x, HEAP_START <= x < HEAP_START + HEAP_SIZE ->
      exists f, translate_addr m' 4096 x = Some (f + x mod 4096) /\ kernel_maps m' 4096 (Z.lor 1 2) (x / 4096) f /\
        frame_ok f /\ ~ taken alloc128 f /\ taken a' f) /\
    (forall x y, HEAP_START <= x < HEAP_START + HEAP_SIZE -> HEAP_START <= y < HEAP_START + HEAP_SIZE ->
      translate_addr m' 4096 x = translate_addr m' 4096 y -> x = y) /\
    root_kept 320 4096 mem128 alloc128 m' a' /\ avail 0 a'.
Proof. exact (heap_backed 4096 mem128 alloc128 0 (root128_free 320 ltac:(lia)) avail128). Defined.

(** The controller as QEMU places it. *)
Definition qemu_hda : HdaPci := {| hda_base := 0xFEBF0000; mmio_region_size := 16384 |}.

Lemma qemu_hda_at : hda_at qemu_hda.
Proof. split; vm_compute; repeat split; discriminate. Qed.

Lemma sound_windows_witness :
  exists bdl m1 a1 m' a', map_hdi_mmio 4096 qemu_hda (mem128, alloc128) = Ret (m1, a1) /\ create_bdpl 4096 (m1, a1) = Ret (bdl, (m', a')) /\
    (forall reg, 0 <= reg < 16384 ->
      translate 4096 m' (hda_base qemu_hda + reg + MMIO_VIRT_BASE) = Ret (hda_base qemu_hda + reg)) /\
    (forall i, 0 <= i < 16384 -> exists e, bdl !! Z.to_nat (i / 4096) = Some e /\
      bdl_length e = 4096 /\ bdl_flags e = 1 /\ ~ taken alloc128 (bdl_address e) /\
      translate 4096 m' (PCA_BUFFER_VIRT_START + i) = Ret (bdl_address e + i mod 4096)) /\
    length bdl = 4%nat /\ NoDup (bdl_address <$> bdl) /\ root_kept 416 4096 mem128 alloc128 m1 a1 /\ root_kept 416 4096 mem128 alloc128 m' a' /\ avail 0 a'.
Proof.
  apply (sound_windows 4096 qemu_hda mem128 alloc128 0 (root128_free 416 ltac:(lia)) qemu_hda_at).
  apply can_allocate_avail. vm_compute. reflexivity.
Defined.

(** Neighbouring pages of the heap are not neighbouring frames: the tables of
    the first page come between its frame and the next one's. *)
Example heap_not_contiguous :
  match heap_loop 4096 (page_range heap_page 2) (mem128, alloc128) with
  | Ret (Mapped, (m, _)) => (translate_addr m 4096 (HEAP_START + 4095), translate_addr m 4096 (HEAP_START + 4096))
  | _ => (None, None)
  end = (Some (2097152 + 4095), Some (2097152 + 4 * 4096)).
Proof. vm_compute. reflexivity. Qed.

(** The page behind the controller's registers is mapped too. *)
Example mmio_one_page_more :
  match map_hdi_mmio 4096 qemu_hda (mem128, alloc128) with
  | Ret (m, _) => translate_addr m 4096 (0xFEBF0000 + 16384 + MMIO_VIRT_BASE)
  | _ => None
  end = Some (0xFEBF0000 + 16384).
Proof. vm_compute. reflexivity. Qed.
End KernelMapWitness.
