(* ===== verification/UserStack.v ===== *)
(** * The arguments on a new program's stack

    [AddressSpace::copy_args_to_stack] of [kernel/src/task/proc.rs]: the
    strings, the array of pointers and the count that a program finds on its
    stack.  The kernel writes through the physical-memory window, so physical
    memory is read and written here byte by byte: a word of a frame is eight
    bytes, lowest first. *)
From S2P Require Import Prelude Text Memory Paging PagingMap UserMem.

(** ** Bytes of physical memory *)
Definition frame_at (p : Z) : Z := p - p mod 4096.

Definition read_byte (m : gmap Z (list Z)) (p : Z) : option Z :=
  ws ← m !! frame_at p; w ← ws !! Z.to_nat (p mod 4096 / 8); le_bytes 8 w !! Z.to_nat (p mod 8).

Definition write_byte (m : gmap Z (list Z)) (p b : Z) : outcome (gmap Z (list Z)) :=
  let! ws := unwrap (m !! frame_at p) in
  let! w := unwrap (ws !! Z.to_nat (p mod 4096 / 8)) in
  let w := le_num (<[Z.to_nat (p mod 8) := b]> (le_bytes 8 w)) in
  Ret (<[frame_at p := <[Z.to_nat (p mod 4096 / 8) := w]> ws]> m).

(** [copy_nonoverlapping(src, p, len)] *)
Fixpoint write_at (m : gmap Z (list Z)) (p : Z) (bs : list Z) : outcome (gmap Z (list Z)) :=
  match bs with
  | [] => Ret m
  | b :: bs => let! m := write_byte m p b in write_at m (p + 1) bs
  end.

Section Args.
Context {A : Type} {FA : FrameAllocator A} {PA : PageApi A} {AA : AddrApi}.
Implicit Types (m : gmap Z (list Z)).

(** [rsp - n] on [VirtAddr] *)
Definition va_sub (rsp n : Z) : outcome Z := let! a := sub_u rsp n in va_new a.

(** [rsp -= len; write(translate_addr(rsp).unwrap() + PHYS_MEM_OFFSET, bytes)] *)
Definition push_bytes (l4 : Z) (bs : list Z) (st : Z * gmap Z (list Z)) : outcome (Z * gmap Z (list Z)) :=
  let '(rsp, m) := st in
  let! rsp := va_sub rsp (Z.of_nat (length bs)) in
  let! p := unwrap (translate_addr m l4 rsp) in
  let! m := write_at m p bs in
  Ret (rsp, m).

(** The loop over the arguments; [arg_ptrs] grows at its end. *)
Fixpoint push_args (l4 : Z) (args : list (list Z)) (arg_ptrs : list Z) (st : Z * gmap Z (list Z))
  : outcome (list Z * (Z * gmap Z (list Z))) :=
  match args with
  | [] => Ret (arg_ptrs, st)
  | arg :: args =>
      let! st := push_bytes l4 (arg ++ [0]) st in
      push_args l4 args (arg_ptrs ++ [fst st]) st
  end.

(** [for i in (0..(argc + 1)).rev()] *)
Fixpoint push_ptrs (l4 : Z) (arg_ptrs : list Z) (n : nat) (st : Z * gmap Z (list Z))
  : outcome (Z * gmap Z (list Z)) :=
  match n with
  | O => Ret st
  | S i =>
      let! arg_ptr := idx arg_ptrs (Z.of_nat i) in
      let! st := push_bytes l4 (le_bytes 8 arg_ptr) st in
      push_ptrs l4 arg_ptrs i st
  end.

(** Arguments are C strings, without their final zero; the result is [argv],
    the new stack pointer and the memory. *)
Definition copy_args_to_stack (s : AddressSpace) (args : list (list Z)) (program : list Z) m
  : outcome (list (list Z) * Z * gmap Z (list Z)) :=
  let l4 := cr3 s in
  let argc := length args in
  let! st := push_bytes l4 (program ++ [0]) (stack_top s, m) in
  let! '(arg_ptrs, (rsp, m)) := push_args l4 args [fst st] st in
  let rsp := rsp - rsp mod 16 in
  let! st := push_bytes l4 (le_bytes 8 0) (rsp, m) in
  let! st := push_ptrs l4 arg_ptrs (argc + 1) st in
  let! '(rsp, m) := push_bytes l4 (le_bytes 8 (Z.of_nat (argc + 1))) st in
  let! _ := ensure (forallb utf8_valid args) in
  Ret (args, rsp, m).
End Args.

(** ** Reading what was written *)
Definition frame_full (m : gmap Z (list Z)) (f : Z) : Prop := exists ws, m !! f = Some ws /\ length ws = 512%nat.

Lemma le_bytes_insert w k b :
  (k < 8)%nat -> is_byte b ->
  le_bytes 8 (le_num (<[k := b]> (le_bytes 8 w))) = <[k := b]> (le_bytes 8 w).
Proof.
  intros Hk Hb. replace 8%nat with (length (<[k := b]> (le_bytes 8 w))) at 1
    by by rewrite length_insert, le_bytes_length.
  apply le_bytes_num. apply Forall_insert; [apply le_bytes_byte | done].
Qed.

(** A write, of whatever value, changes one frame and no frame's size. *)
Lemma write_byte_frame m p b m' :
  write_byte m p b = Ret m' ->
  (forall f, f <> frame_at p -> m' !! f = m !! f) /\ (forall f, frame_full m f -> frame_full m' f).
Proof.
  unfold write_byte. intros H. run_inv H. run_inv H. injection H as <-.
  destruct (m !! frame_at p) as [ws|] eqn:Hws; [| done]. injection E as <-. split.
  - intros f Hf. by apply lookup_insert_ne.
  - intros f Hf. destruct (decide (f = frame_at p)) as [-> | Hne].
    + destruct Hf as (ws' & ? & ?). eexists. split; [apply lookup_insert_eq |]. rewrite length_insert. congruence.
    + destruct Hf as (ws' & ? & ?). exists ws'. by rewrite lookup_insert_ne.
Qed.

Lemma write_byte_ok m p b :
  0 <= p -> frame_full m (frame_at p) -> is_byte b ->
  exists m', write_byte m p b = Ret m' /\
    (forall p', 0 <= p' -> read_byte m' p' = if decide (p' = p) then Some b else read_byte m p') /\
    (forall f, f <> frame_at p -> m' !! f = m !! f) /\ (forall f, frame_full m f -> frame_full m' f).
Proof.
  intros Hp (ws & Hws & Hlen) Hb.
  assert (Hi : (Z.to_nat (p mod 4096 / 8) < 512)%nat).
  { pose proof (Z.mod_pos_bound p 4096 ltac:(lia)).
    assert (p mod 4096 / 8 < 512) by (apply Z.div_lt_upper_bound; lia). lia. }
  destruct (lookup_lt_is_Some_2 ws (Z.to_nat (p mod 4096 / 8))) as [w Hw]; [lia |].
  eexists. unfold write_byte. rewrite Hws. cbn [unwrap obind]. rewrite Hw. cbn [unwrap obind].
  split; [done |]. split; [| eapply (write_byte_frame m p b); unfold write_byte; rewrite Hws; cbn [unwrap obind]; by rewrite Hw].
  - intros p' Hp'. unfold read_byte. destruct (decide (frame_at p' = frame_at p)) as [Ef | Nf].
    2:{ rewrite lookup_insert_ne by done. case_decide; [congruence | done]. }
    rewrite Ef, lookup_insert_eq, Hws. cbn [mbind option_bind].
    pose proof (Z.mod_pos_bound p 4096 ltac:(lia)). pose proof (Z.mod_pos_bound p' 4096 ltac:(lia)).
    pose proof (Z.mod_pos_bound p 8 ltac:(lia)). pose proof (Z.mod_pos_bound p' 8 ltac:(lia)).
    assert (0 <= p' mod 4096 / 8) by (apply Z.div_pos; lia). assert (0 <= p mod 4096 / 8) by (apply Z.div_pos; lia).
    destruct (decide (p' mod 4096 / 8 = p mod 4096 / 8)) as [Ei | Ni].
    2:{ rewrite list_lookup_insert_ne by lia. case_decide; [subst; done | done]. }
    rewrite Ei, list_lookup_insert_eq, Hw by lia. cbn [mbind option_bind].
    rewrite le_bytes_insert by (done || lia).
    destruct (decide (p' mod 8 = p mod 8)) as [Ek | Nk].
    + rewrite Ek, list_lookup_insert_eq by (rewrite le_bytes_length; lia).
      rewrite decide_True; [done |]. unfold frame_at in Ef.
      Z.to_euclidean_division_equations. lia.
    + rewrite list_lookup_insert_ne by lia. rewrite decide_False; [done |]. by intros ->.
Qed.

Lemma write_at_ok bs : forall m p,
  0 <= p -> (forall i, 0 <= i < Z.of_nat (length bs) -> frame_full m (frame_at (p + i))) -> Forall is_byte bs ->
  exists m', write_at m p bs = Ret m' /\
    (forall p', 0 <= p' ->
      read_byte m' p' = if decide (p <= p' < p + Z.of_nat (length bs)) then bs !! Z.to_nat (p' - p) else read_byte m p') /\
    (forall f, (forall i, 0 <= i < Z.of_nat (length bs) -> f <> frame_at (p + i)) -> m' !! f = m !! f) /\
    (forall f, frame_full m f -> frame_full m' f).
Proof.
  induction bs as [|b bs IH]; intros m p Hp Hfull Hbs.
  - exists m. split; [done |]. split; [| done]. intros p' Hp'. rewrite decide_False; [done | simpl; lia].
  - apply Forall_cons in Hbs as [Hb Hbs]. simpl length in *.
    destruct (write_byte_ok m p b Hp) as (m1 & E1 & Hr1 & Hf1 & Hfull1); [| done |].
    { replace p with (p + 0) by lia. apply Hfull. lia. }
    destruct (IH m1 (p + 1)) as (m2 & E2 & Hr2 & Hf2 & Hfull2); [lia | | done |].
    { intros i Hi. apply Hfull1. replace (p + 1 + i) with (p + (i + 1)) by lia. apply Hfull. lia. }
    exists m2. cbn [write_at]. rewrite E1. cbn [obind]. split; [done |]. split; [| split; [| by auto]].
    + intros p' Hp'. rewrite Hr2, Hr1 by done.
      destruct (decide (p' = p)) as [-> | Hne].
      * rewrite decide_False, decide_True by lia. by rewrite Z.sub_diag.
      * destruct (decide (p + 1 <= p' < p + 1 + Z.of_nat (length bs))).
        -- rewrite decide_True by lia. replace (Z.to_nat (p' - p)) with (S (Z.to_nat (p' - (p + 1)))) by lia. done.
        -- rewrite decide_False by lia. done.
    + intros f Hf. rewrite Hf2, Hf1; [done | |].
      * replace p with (p + 0) by lia. apply Hf. lia.
      * intros i Hi. replace (p + 1 + i) with (p + (i + 1)) by lia. apply Hf. lia.
Qed.

(** ** The image of the stack *)
Section Image.
Context {A : Type} {FA : FrameAllocator A} {FL : FrameAllocatorLaws A} {PA : PageApi A} {PL : PageLaws A PA}
  {AA : AddrApi} {AL : AddrLaws PA AA}.

(** What the program reads at a virtual address. *)
Definition user_byte (m : gmap Z (list Z)) (l4 va : Z) : option Z := p ← translate_addr m l4 va; read_byte m p.

(** The page below the top of the stack is mapped to a frame of data. *)
Variables (s : AddressSpace) (m0 : gmap Z (list Z)) (e f : Z).
Abbreviation top := (stack_top s) (only parsing).
Abbreviation l4 := (cr3 s) (only parsing).

Record stack_page : Prop := {
  sp_top : 4096 <= top < 2 ^ 47 /\ top mod 4096 = 0;
  sp_pt : pt_ok m0 l4;
  sp_pte : pte m0 l4 (page_of (top / 4096 - 1)) = Some e;
  sp_frame : entry_frame e = Some f;
  sp_data : ~ is_table m0 l4 f;
  sp_full : frame_full m0 f
}.
Hypothesis Hsp : stack_page.

(** Memory that differs from the start only in the stack's frame. *)
Definition only_stack (m : gmap Z (list Z)) : Prop :=
  (forall g, g <> f -> m !! g = m0 !! g) /\ frame_full m f.

(** [img] is what lies between [rsp] and the top. *)
Definition image (m : gmap Z (list Z)) (rsp : Z) (img : list Z) : Prop :=
  Z.of_nat (length img) = top - rsp /\ top - 4096 <= rsp /\
  forall i b, img !! i = Some b -> read_byte m (f + (rsp + Z.of_nat i - (top - 4096))) = Some b.

Lemma stack_translate m va :
  only_stack m -> top - 4096 <= va < top -> translate_addr m l4 va = Some (f + (va - (top - 4096))).
Proof.
  destruct Hsp as [[Ht Ha] Hpt Hpte Hfr Hda _]. intros [Hm _] Hva.
  assert (Hag : forall t, is_table m0 l4 t -> m !! t = m0 !! t) by (intros t ?; apply Hm; by intros ->).
  assert (Hpg : va / 4096 = top / 4096 - 1 /\ va mod 4096 = va - (top - 4096)).
  { pose proof (Z.div_mod top 4096 ltac:(lia)).
    assert (Eq : va / 4096 = top / 4096 - 1) by (symmetry; apply (Z.div_unique va 4096 _ (va - (top - 4096))); lia).
    split; [done |]. pose proof (Z.div_mod va 4096 ltac:(lia)). lia. }
  destruct Hpg as [Hd E].
  rewrite translate_addr_ok by (unfold user_addr; (by apply (agree_pt_ok m0)) || lia).
  rewrite Hd, (agree_pte m0), Hpte; [| done | done | apply page_of_user].
  - cbn [mbind option_bind]. rewrite Hfr. cbn [mbind option_bind]. by rewrite E.
  - unfold user_pagenum. split.
    + apply Z.le_add_le_sub_r. apply Z.div_le_lower_bound; lia.
    + assert (top / 4096 < 2 ^ 35) by (apply Z.div_lt_upper_bound; lia). lia.
Qed.

Lemma image_byte m rsp img i b :
  only_stack m -> image m rsp img -> img !! i = Some b -> user_byte m l4 (rsp + Z.of_nat i) = Some b.
Proof.
  intros Hm (Hl & Hr & Hi) Hb. pose proof (lookup_lt_Some _ _ _ Hb).
  unfold user_byte. rewrite stack_translate by (done || lia). cbn [mbind option_bind]. by apply Hi.
Qed.

Lemma stack_frame_at x : 0 <= x < 4096 -> frame_at (f + x) = f /\ 0 <= f + x.
Proof.
  intros Hx. destruct (entry_frame_ok e f (sp_frame Hsp)) as [Hm Hr]. unfold frame_at.
  assert ((f + x) mod 4096 = x); [| lia].
  rewrite Z.add_mod, Hm, Z.add_0_l, Z.mod_mod by lia. apply Z.mod_small. lia.
Qed.

Lemma push_bytes_ok bs m rsp img :
  bs <> [] -> Forall is_byte bs -> only_stack m -> image m rsp img ->
  top - 4096 <= rsp - Z.of_nat (length bs) ->
  exists m', push_bytes l4 bs (rsp, m) = Ret (rsp - Z.of_nat (length bs), m') /\
    only_stack m' /\ image m' (rsp - Z.of_nat (length bs)) (bs ++ img).
Proof.
  intros Hne Hbs Hm (Hl & Hr & Hi) Hroom. destruct (sp_top Hsp) as [Ht Ha].
  assert (0 < Z.of_nat (length bs)) by (destruct bs; [done | simpl; lia]).
  set (rsp' := rsp - Z.of_nat (length bs)) in *.
  assert (Hfa : forall i, 0 <= i < Z.of_nat (length bs) -> frame_at (f + (rsp' - (top - 4096)) + i) = f).
  { intros i Hi'. replace (f + (rsp' - (top - 4096)) + i) with (f + (rsp' - (top - 4096) + i)) by lia.
    apply stack_frame_at. lia. }
  destruct (write_at_ok bs m (f + (rsp' - (top - 4096)))) as (m' & E & Hrd & Hoth & Hfull).
  { apply stack_frame_at. lia. }
  { intros i Hi'. rewrite Hfa by done. apply Hm. }
  { done. }
  exists m'. unfold push_bytes, va_sub. rewrite sub_u_ret by lia. cbn [obind]. fold rsp'.
  rewrite va_new_user by (unfold user_addr; lia). cbn [obind].
  rewrite stack_translate by (done || lia). cbn [unwrap obind]. rewrite E. cbn [obind].
  split; [done |]. split.
  - split; [| apply Hfull, Hm]. intros g Hg. rewrite Hoth; [by apply Hm |]. intros i Hi'. by rewrite Hfa.
  - split; [rewrite length_app; lia |]. split; [done |]. intros i b Hb.
    pose proof (lookup_lt_Some _ _ _ Hb) as Hlt. rewrite length_app in Hlt.
    rewrite Hrd by (destruct (stack_frame_at (rsp' + Z.of_nat i - (top - 4096)) ltac:(lia)); lia).
    destruct (decide (i < length bs)%nat).
    + rewrite lookup_app_l in Hb by done. rewrite decide_True by lia.
      by replace (Z.to_nat _) with i by lia.
    + rewrite lookup_app_r in Hb by lia. rewrite decide_False by lia.
      specialize (Hi _ _ Hb). rewrite <- Hi. f_equal. lia.
Qed.

(** The strings, last one lowest, and where each starts. *)
Fixpoint strings_image (strs : list (list Z)) : list Z :=
  match strs with
  | [] => []
  | x :: strs => strings_image strs ++ x ++ [0]
  end.
Fixpoint string_ptrs (rsp : Z) (strs : list (list Z)) : list Z :=
  match strs with
  | [] => []
  | x :: strs => let p := rsp - Z.of_nat (length x + 1) in p :: string_ptrs p strs
  end.

Lemma push_args_ok strs : forall m rsp img ptrs,
  Forall (Forall is_byte) strs -> only_stack m -> image m rsp img ->
  top - 4096 <= rsp - Z.of_nat (length (strings_image strs)) ->
  exists m', push_args l4 strs ptrs (rsp, m)
      = Ret (ptrs ++ string_ptrs rsp strs, (rsp - Z.of_nat (length (strings_image strs)), m')) /\
    only_stack m' /\ image m' (rsp - Z.of_nat (length (strings_image strs))) (strings_image strs ++ img).
Proof.
  induction strs as [|x strs IH]; intros m rsp img ptrs Hb Hm Himg Hroom.
  - exists m. simpl. by rewrite app_nil_r, Z.sub_0_r.
  - apply Forall_cons in Hb as [Hx Hb]. simpl strings_image in *. rewrite !length_app in Hroom. simpl in Hroom.
    destruct (push_bytes_ok (x ++ [0]) m rsp img) as (m1 & E1 & Hm1 & Himg1); auto.
    { by destruct x. }
    { apply Forall_app. split; [done | repeat constructor; lia]. }
    { rewrite length_app. simpl. lia. }
    rewrite length_app in E1, Himg1. simpl length in E1, Himg1.
    destruct (IH m1 (rsp - Z.of_nat (length x + 1)) ((x ++ [0]) ++ img) (ptrs ++ [rsp - Z.of_nat (length x + 1)]))
      as (m2 & E2 & Hm2 & Himg2); auto; [lia |].
    exists m2. cbn [push_args]. rewrite E1. cbn [obind fst]. rewrite E2, !length_app. simpl length.
    replace (rsp - Z.of_nat (length (strings_image strs) + (length x + 1)))
      with (rsp - Z.of_nat (length x + 1) - Z.of_nat (length (strings_image strs))) by lia.
    split; [by rewrite <- app_assoc |]. split; [done |]. by rewrite <- app_assoc.
Qed.

Lemma push_ptrs_ok ptrs n : forall m rsp img,
  (n <= length ptrs)%nat -> only_stack m -> image m rsp img ->
  top - 4096 <= rsp - 8 * Z.of_nat n ->
  exists m', push_ptrs l4 ptrs n (rsp, m) = Ret (rsp - 8 * Z.of_nat n, m') /\
    only_stack m' /\ image m' (rsp - 8 * Z.of_nat n) (concat (le_bytes 8 <$> take n ptrs) ++ img).
Proof.
  induction n as [|n IH]; intros m rsp img Hn Hm Himg Hroom.
  - exists m. simpl. by rewrite Z.sub_0_r.
  - destruct (lookup_lt_is_Some_2 ptrs n) as [p Hp]; [lia |].
    destruct (push_bytes_ok (le_bytes 8 p) m rsp img) as (m1 & E1 & Hm1 & Himg1);
      [discriminate | apply le_bytes_byte | done | done | rewrite le_bytes_length; lia |].
    rewrite le_bytes_length in E1, Himg1.
    destruct (IH m1 (rsp - Z.of_nat 8) (le_bytes 8 p ++ img)) as (m2 & E2 & Hm2 & Himg2); auto; [lia | lia |].
    exists m2. cbn [push_ptrs]. rewrite (idx_ret ptrs (Z.of_nat n) p) by (rewrite ?Nat2Z.id; (done || lia)).
    cbn [obind]. rewrite E1. cbn [obind]. rewrite E2.
    replace (rsp - 8 * Z.of_nat (S n)) with (rsp - Z.of_nat 8 - 8 * Z.of_nat n) by lia.
    split; [done |]. split; [done |].
    rewrite (take_S_r _ _ p) by done. rewrite fmap_app, concat_app. cbn [fmap list_fmap concat].
    by rewrite app_nil_r, <- app_assoc.
Qed.

Lemma string_ptrs_length rsp strs : length (string_ptrs rsp strs) = length strs.
Proof. revert rsp; induction strs; intros; simpl; auto. Qed.

Lemma string_ptrs_range strs : forall rsp,
  Forall (fun p => rsp - Z.of_nat (length (strings_image strs)) <= p < rsp) (string_ptrs rsp strs).
Proof.
  induction strs as [|x strs IH]; intros rsp; simpl; [constructor |]. rewrite !length_app. simpl. constructor; [lia |].
  eapply Forall_impl; [apply IH |]. simpl. lia.
Qed.

(** Pointer [k] is where string [k] lies in the image. *)
Lemma string_ptr_at strs : forall rsp k x p,
  strs !! k = Some x -> string_ptrs rsp strs !! k = Some p ->
  exists lo hi, strings_image strs = lo ++ (x ++ [0]) ++ hi /\ rsp - p = Z.of_nat (length (x ++ [0]) + length hi).
Proof.
  induction strs as [|y strs IH]; intros rsp k x p Hx Hp; [done |].
  destruct k as [|k]; simpl in *.
  - injection Hx as ->. injection Hp as <-. exists (strings_image strs), [].
    rewrite app_nil_r, length_app. simpl. split; [done | lia].
  - destruct (IH _ _ _ _ Hx Hp) as (lo & hi & E & Hd). exists lo, (hi ++ y ++ [0]). split.
    + rewrite E. by rewrite <- !app_assoc.
    + rewrite !length_app in *. simpl in *. lia.
Qed.

(** The bytes from the stack pointer up: the count, the pointers, a null
    pointer, some padding, the strings. *)
Definition stack_image (strs : list (list Z)) (pad : list Z) : list Z :=
  le_bytes 8 (Z.of_nat (length strs)) ++ concat (le_bytes 8 <$> string_ptrs top strs) ++
  le_bytes 8 0 ++ pad ++ strings_image strs.

Definition stack_need (strs : list (list Z)) : Z :=
  Z.of_nat (length (strings_image strs)) + 15 + 8 * (Z.of_nat (length strs) + 2).

(** Going down to a multiple of 16 skips bytes that are already there. *)
Lemma image_align m rsp img :
  only_stack m -> image m rsp img -> top - 4096 <= rsp - rsp mod 16 -> rsp <= top ->
  exists pad, (length pad < 16)%nat /\ image m (rsp - rsp mod 16) (pad ++ img).
Proof.
  intros [_ (ws & Hws & Hlen)] (Hl & Hr & Hi) Hlo Hhi.
  pose proof (Z.mod_pos_bound rsp 16 ltac:(lia)). destruct (sp_top Hsp) as [? _].
  set (k := Z.to_nat (rsp mod 16)). set (r' := rsp - rsp mod 16) in *.
  assert (Hsome : forall x, 0 <= x < 4096 -> is_Some (read_byte m (f + x))).
  { intros x Hx. destruct (stack_frame_at x Hx) as [E ?]. unfold read_byte. rewrite E, Hws. cbn [mbind option_bind].
    assert (Em : (f + x) mod 4096 = x) by (unfold frame_at in E; lia). rewrite Em.
    destruct (lookup_lt_is_Some_2 ws (Z.to_nat (x / 8))) as [w Hw].
    { assert (x / 8 < 512) by (apply Z.div_lt_upper_bound; lia). pose proof (Z.div_pos x 8). lia. }
    rewrite Hw. cbn [mbind option_bind]. apply lookup_lt_is_Some_2. rewrite le_bytes_length.
    pose proof (Z.mod_pos_bound (f + x) 8). lia. }
  exists ((fun i => default 0 (read_byte m (f + (r' + Z.of_nat i - (top - 4096))))) <$> seq 0 k).
  rewrite length_fmap, length_seq. split; [lia |].
  split; [rewrite length_app, length_fmap, length_seq; lia |]. split; [done |].
  intros i b Hb. pose proof (lookup_lt_Some _ _ _ Hb) as Hlt. rewrite length_app, length_fmap, length_seq in Hlt.
  destruct (decide (i < k)%nat).
  - rewrite lookup_app_l in Hb by (rewrite length_fmap, length_seq; done).
    rewrite list_lookup_fmap, lookup_seq_lt in Hb by done. simpl in Hb.
    destruct (Hsome (r' + Z.of_nat i - (top - 4096))) as [c Hc]; [lia |]. rewrite Hc in *. simpl in Hb. congruence.
  - rewrite lookup_app_r in Hb by (rewrite length_fmap, length_seq; lia).
    rewrite length_fmap, length_seq in Hb. rewrite <- (Hi _ _ Hb). f_equal. lia.
Qed.

Lemma copy_args_image args program :
  let strs := program :: args in
  Forall (Forall is_byte) strs -> Forall (fun x => utf8_valid x = true) args -> stack_need strs <= 4096 ->
  exists rsp m' pad, copy_args_to_stack s args program m0 = Ret (args, rsp, m') /\
    only_stack m' /\ image m' rsp (stack_image strs pad) /\ (length pad < 16)%nat /\
    rsp mod 8 = 0 /\ top - 4096 <= rsp.
Proof.
  intros strs Hb Hu Hneed. unfold stack_need in Hneed. destruct (sp_top Hsp) as [Ht Ha].
  assert (Hls : length strs = S (length args)) by reflexivity.
  assert (Hm0 : only_stack m0) by (split; [done | exact (sp_full Hsp)]).
  assert (Himg0 : image m0 top []) by (split; [simpl; lia | split; [lia | done]]).
  destruct (push_args_ok strs m0 top [] []) as (m1 & E1 & Hm1 & Himg1); auto; [lia |].
  set (r1 := top - Z.of_nat (length (strings_image strs))) in *. rewrite app_nil_r in Himg1.
  pose proof (Z.mod_pos_bound r1 16 ltac:(lia)).
  destruct (image_align m1 r1 (strings_image strs) Hm1 Himg1) as (pad & Hpad & Himg2); [lia | lia |].
  destruct (push_bytes_ok (le_bytes 8 0) m1 (r1 - r1 mod 16) (pad ++ strings_image strs))
    as (m3 & E3 & Hm3 & Himg3); [discriminate | apply le_bytes_byte | done | done | rewrite le_bytes_length; lia |].
  rewrite le_bytes_length in E3, Himg3.
  destruct (push_ptrs_ok (string_ptrs top strs) (length args + 1) m3 (r1 - r1 mod 16 - Z.of_nat 8)
    (le_bytes 8 0 ++ pad ++ strings_image strs)) as (m4 & E4 & Hm4 & Himg4); auto.
  { rewrite string_ptrs_length. lia. } { lia. }
  set (r4 := r1 - r1 mod 16 - Z.of_nat 8 - 8 * Z.of_nat (length args + 1)) in *.
  rewrite (take_ge (string_ptrs top strs)) in Himg4 by (rewrite string_ptrs_length; lia).
  destruct (push_bytes_ok (le_bytes 8 (Z.of_nat (length args + 1))) m4 r4
    (concat (le_bytes 8 <$> string_ptrs top strs) ++ le_bytes 8 0 ++ pad ++ strings_image strs))
    as (m5 & E5 & Hm5 & Himg5);
    [discriminate | apply le_bytes_byte | done | done | rewrite le_bytes_length; lia |].
  rewrite le_bytes_length in E5, Himg5.
  exists (r4 - Z.of_nat 8), m5, pad. split; [| split; [done |]; split; [| split; [done |]; split]].
  - unfold copy_args_to_stack. unfold strs at 1 in E1. cbn [push_args] in E1.
    destruct (push_bytes l4 (program ++ [0]) (top, m0)) as [[rp mp]| |]; [| discriminate E1 | discriminate E1].
    cbn [obind fst app] in E1 |- *. rewrite E1. cbn [obind]. rewrite E3. cbn [obind]. rewrite E4. cbn [obind]. rewrite E5. cbn [obind].
    assert (forallb utf8_valid args = true) as ->; [| done].
    apply forallb_forall. intros x Hx. rewrite Forall_forall in Hu. by apply Hu, list_elem_of_In.
  - unfold stack_image. replace (length strs) with (length args + 1)%nat by lia. done.
  - assert ((r1 - r1 mod 16) mod 16 = 0).
    { rewrite Zminus_mod_idemp_r, Z.sub_diag. done. }
    unfold r4. Z.to_euclidean_division_equations. lia.
  - destruct Himg5 as (_ & ? & _). done.
Qed.

(** What the program finds from its stack pointer up. *)
Lemma args_on_stack_spec args program :
  let strs := program :: args in
  Forall (Forall is_byte) strs -> Forall (fun x => utf8_valid x = true) args -> stack_need strs <= 4096 ->
  exists rsp m' ptrs, copy_args_to_stack s args program m0 = Ret (args, rsp, m') /\
    rsp mod 8 = 0 /\ length ptrs = length strs /\ Forall (fun p => 0 <= p < 2 ^ 47) ptrs /\
    (forall i b, (le_bytes 8 (Z.of_nat (length strs)) ++ concat (le_bytes 8 <$> ptrs) ++ le_bytes 8 0) !! i = Some b ->
      user_byte m' l4 (rsp + Z.of_nat i) = Some b) /\
    (forall k x p, strs !! k = Some x -> ptrs !! k = Some p ->
      forall i b, (x ++ [0]) !! i = Some b -> user_byte m' l4 (p + Z.of_nat i) = Some b) /\
    (forall g, g <> f -> m' !! g = m0 !! g) /\ frame_full m' f.
Proof.
  intros strs Hb Hu Hneed.
  destruct (copy_args_image args program Hb Hu Hneed) as (rsp & m' & pad & E & Hm & Himg & Hpad & H8 & Hlo).
  fold strs in Himg. exists rsp, m', (string_ptrs top strs).
  split; [done |]. split; [done |]. split; [apply string_ptrs_length |]. split; [| split; [| split; [| apply Hm]]].
  - eapply Forall_impl; [apply string_ptrs_range |]. cbn beta. unfold stack_need in Hneed. destruct (sp_top Hsp) as [? _]. lia.
  - intros i bt Hi. eapply image_byte; [done | exact Himg |]. unfold stack_image.
    rewrite (app_assoc (concat _) (le_bytes 8 0)), (app_assoc (le_bytes 8 (Z.of_nat _))).
    by apply lookup_app_l_Some.
  - intros k x p Hx Hp i bt Hi. destruct (string_ptr_at strs top k x p Hx Hp) as (lo & hi & Es & Hd).
    pose proof (lookup_lt_Some _ _ _ Hi) as Hlt. pose proof Himg as (Hl & _).
    set (front := le_bytes 8 (Z.of_nat (length strs)) ++ concat (le_bytes 8 <$> string_ptrs top strs) ++
      le_bytes 8 0 ++ pad ++ lo).
    assert (Eimg : stack_image strs pad = front ++ (x ++ [0]) ++ hi).
    { unfold stack_image, front. by rewrite Es, <- !app_assoc. }
    clearbody front.
    rewrite Eimg in Hl. rewrite !length_app in Hl. rewrite length_app in Hd, Hlt.
    replace (p + Z.of_nat i) with (rsp + Z.of_nat (length front + i)) by lia.
    eapply image_byte; [done | exact Himg |]. rewrite Eimg.
    rewrite lookup_app_r by lia. replace (length front + i - length front)%nat with i by lia.
    by apply lookup_app_l_Some.
Qed.

(** A new program finds its arguments: when everything fits in the top
    page of the stack, [copy_args_to_stack] returns a stack pointer from which the
    program reads, in its own address space, the number of strings, one pointer
    per string and a null pointer; each pointer leads to the bytes of its
    string (the program's name first) and a zero; nothing but the stack's
    frame is written. *)
Theorem args_on_stack args program :
  let strs := program :: args in
  Forall (Forall is_byte) strs -> Forall (fun x => utf8_valid x = true) args -> stack_need strs <= 4096 ->
  exists rsp m' ptrs, copy_args_to_stack s args program m0 = Ret (args, rsp, m') /\
    rsp mod 8 = 0 /\ length ptrs = length strs /\
    (forall i b, (le_bytes 8 (Z.of_nat (length strs)) ++ concat (le_bytes 8 <$> ptrs) ++ le_bytes 8 0) !! i = Some b ->
      user_byte m' l4 (rsp + Z.of_nat i) = Some b) /\
    (forall k x p, strs !! k = Some x -> ptrs !! k = Some p ->
      forall i b, (x ++ [0]) !! i = Some b -> user_byte m' l4 (p + Z.of_nat i) = Some b) /\
    (forall g, g <> f -> m' !! g = m0 !! g).
Proof.
  intros strs H1 H2 H3. destruct (args_on_stack_spec args program H1 H2 H3) as (rsp & m' & ptrs & ? & ? & ? & _ & ? & ? & ? & _).
  by exists rsp, m', ptrs.
Qed.

End Image.

Module UserStackWitness.
#[local] Existing Instance align_down_frames.
#[local] Existing Instance align_down_frames_laws.
Import Memory.MemoryWitness PagingMap.PagingWitness.
#[local] Existing Instance page_api.
#[local] Existing Instance UserMem.UserMemWitness.addr_laws.

(** The mapped page of [space1] as the top page of a stack. *)
Definition space3 : AddressSpace :=
  {| cr3 := 4096; heap_start := 0; heap_end := 0; program_start := 0;
     backbuffer_frames := None; program_end := 0; stack_top := 263172 * 4096 |}.

Lemma space3_page : stack_page (A := BumpAllocator) space3 m1 (Z.lor 8192 7) 8192.
Proof.
  split.
  - vm_compute. split; [split; [discriminate | reflexivity] | reflexivity].
  - exact (so_pt _ _ _ space1_ok).
  - exact (mp_here _ _ _ _ _ _ _ _ _ _ built_ok).
  - reflexivity.
  - apply (so_data _ _ _ space1_ok page1 (Z.lor 8192 7)); [| | reflexivity].
    + split; [split; [repeat (constructor; [lia |]); constructor | simpl; lia] | done].
    + exact (mp_here _ _ _ _ _ _ _ _ _ _ built_ok).
  - eexists. split; [vm_compute; reflexivity | reflexivity].
Qed.

Definition sh : list Z := [115; 104].
Definition ab : list Z := [97; 98].

Lemma args_on_stack_witness :
  let strs := [sh; ab] in
  exists rsp m' ptrs, copy_args_to_stack space3 [ab] sh m1 = Ret ([ab], rsp, m') /\
    rsp mod 8 = 0 /\ length ptrs = length strs /\
    (forall i b, (le_bytes 8 (Z.of_nat (length strs)) ++ concat (le_bytes 8 <$> ptrs) ++ le_bytes 8 0) !! i = Some b ->
      user_byte m' 4096 (rsp + Z.of_nat i) = Some b) /\
    (forall k x p, strs !! k = Some x -> ptrs !! k = Some p ->
      forall i b, (x ++ [0]) !! i = Some b -> user_byte m' 4096 (p + Z.of_nat i) = Some b) /\
    (forall g, g <> 8192 -> m' !! g = m1 !! g).
Proof.
  apply (args_on_stack (A := BumpAllocator) space3 m1 (Z.lor 8192 7) 8192 space3_page [ab] sh).
  - repeat constructor; lia.
  - repeat constructor.
  - vm_compute. discriminate.
Defined.

(** A real stack has 16 pages in frames that go up as the pages go down, and
    the kernel writes a string as one run of physical memory: a string that
    crosses a page boundary goes astray.  With one argument of 5000 bytes the
    program reads zero where byte 1000 of its argument should be. *)
Definition stack16 : outcome (Z * (gmap Z (list Z) * BumpAllocator)) :=
  map_stack 4096 (<[4096 := replicate 512 0]> ∅, pc).
Definition space16 : AddressSpace :=
  {| cr3 := 4096; heap_start := 0; heap_end := 0; program_start := 0;
     backbuffer_frames := None; program_end := 0; stack_top := STACK_TOP |}.
Definition long_arg : list Z := replicate 5000 65.

Example long_argument_lost :
  match stack16 with
  | Ret (_, (m, _)) =>
      match copy_args_to_stack space16 [long_arg] sh m with
      | Ret (_, _, m') => (user_byte m' 4096 (STACK_TOP - 5004), user_byte m' 4096 (STACK_TOP - 5004 + 1000))
      | _ => (None, None)
      end
  | _ => (None, None)
  end = (Some 65, Some 0).
Proof. vm_compute. reflexivity. Qed.
End UserStackWitness.
