(* ===== verification/Elf.v ===== *)
(** * Loading programs

    [AddressSpace::load_elf] and [AddressSpace::from_elf] of
    [kernel/src/task/proc.rs].  The [elf] crate reads the headers: its result,
    the entry point and the segments with their data, is the input here. *)
From S2P Require Import Prelude Text Memory Paging PagingMap UserMem UserStack.

(** A program header and [segment_data]. *)
Record Segment := { p_type : Z; p_vaddr : Z; p_memsz : Z; p_filesz : Z; p_data : list Z }.
Record ElfFile := { e_entry : Z; segments : list Segment }.

Definition PT_LOAD : Z := 1.

Section Load.
Context {A : Type} {FA : FrameAllocator A} {PA : PageApi A} {AA : AddrApi}.
Implicit Types (m : gmap Z (list Z)) (w : gmap Z (list Z) * A).

(** The part of the segment that lies in its page [i], copied to [frame]; the
    same code serves pages that are mapped and pages that are not. *)
Definition copy_segment_page (seg : Segment) (i : Z) (frame : Z) m : outcome (gmap Z (list Z)) :=
  let start_offset := p_vaddr seg mod 4096 in
  let offset_within_frame := if i =? 0 then start_offset else 0 in
  let offset_within_code := Z.max 0 (i * 4096 - start_offset) in
  let remaining_file_bytes := Z.max 0 (p_filesz seg - offset_within_code) in
  let! mem_left := sub_u (p_memsz seg) offset_within_code in
  let bytes_to_copy := Z.min (4096 - offset_within_frame) mem_left in
  let bytes_from_file := Z.min bytes_to_copy remaining_file_bytes in
  if bytes_from_file >? 0 then
    write_at m (frame + offset_within_frame)
      (take (Z.to_nat bytes_from_file) (drop (Z.to_nat offset_within_code) (p_data seg)))
  else Ret m.

(** The body of the loop over the pages of a segment. *)
Definition load_page (l4 : Z) (seg : Segment) (start_page : Z) (i : nat) w : outcome (gmap Z (list Z) * A) :=
  let '(m, a) := w in
  let page := start_page + Z.of_nat i in
  match translate_page m l4 page with
  | Some frame => let! m := copy_segment_page seg (Z.of_nat i) frame m in Ret (m, a)
  | None =>
      let! '(frame, a) := take_frame a in
      let m := <[frame := replicate 512 0]> m in
      let! m := copy_segment_page seg (Z.of_nat i) frame m in
      let! '(r, m, a) := map_to m a l4 (page_of page) frame USER_FLAGS in
      match r with MapFailed => Panic | _ => Ret (m, a) end
  end.

(** One iteration over the segments; the first component is [program_end]. *)
Definition load_segment (l4 : Z) (seg : Segment) (st : Z * (gmap Z (list Z) * A))
  : outcome (Z * (gmap Z (list Z) * A)) :=
  let '(program_end, w) := st in
  if p_type seg =? PT_LOAD then
    let start_offset := p_vaddr seg mod 4096 in
    let! start := va_new (p_vaddr seg) in
    let start_page := start / 4096 in
    let! span := chk_u 64 (p_memsz seg + start_offset) in
    let num_pages := div_ceil span 4096 in
    let! seg_end := chk_u 64 (p_vaddr seg + p_memsz seg) in
    let! _ := va_new ((start_page + num_pages) * 4096) in
    let! w := for_each (load_page l4 seg start_page) (seq 0 (Z.to_nat num_pages)) w in
    Ret (Z.max program_end seg_end, w)
  else Ret (program_end, w).

Fixpoint load_segments (l4 : Z) (segs : list Segment) (st : Z * (gmap Z (list Z) * A))
  : outcome (Z * (gmap Z (list Z) * A)) :=
  match segs with
  | [] => Ret st
  | seg :: segs => let! st := load_segment l4 seg st in load_segments l4 segs st
  end.

Definition load_elf (file : ElfFile) (l4 : Z) w : outcome (Z * Z * (gmap Z (list Z) * A)) :=
  let! program_start := va_new (e_entry file) in
  let! '(program_end, w) := load_segments l4 (segments file) (program_start, w) in
  Ret (program_start, program_end, w).

Definition from_elf (kernel_table : Z) (file : ElfFile) w : outcome (AddressSpace * (gmap Z (list Z) * A)) :=
  let! '(cr3, w) := new_page_table kernel_table w in
  let! '(stack_top, w) := map_stack cr3 w in
  let! '(program_start, program_end, w) := load_elf file cr3 w in
  let! after := chk_u 64 (program_end + 1) in
  let! after := va_new after in
  let! heap_start := va_align_up after 4096 in
  Ret ({| cr3 := cr3; heap_start := heap_start; heap_end := heap_start; program_start := program_start;
          backbuffer_frames := None; program_end := program_end; stack_top := stack_top |}, w).
End Load.

(** ** What a loaded segment is *)

(** The byte of the file at a virtual address. *)
Definition file_byte (seg : Segment) (va : Z) : option Z :=
  if decide (p_vaddr seg <= va < p_vaddr seg + p_filesz seg) then p_data seg !! Z.to_nat (va - p_vaddr seg) else None.

Definition seg_pages (seg : Segment) : Z := div_ceil (p_memsz seg + p_vaddr seg mod 4096) 4096.

Record seg_ok (seg : Segment) : Prop := {
  sg_addr : 0 <= p_vaddr seg /\ p_vaddr seg + p_memsz seg <= 2 ^ 46;
  sg_size : 0 <= p_filesz seg <= p_memsz seg;
  sg_data : Z.of_nat (length (p_data seg)) = p_filesz seg /\ Forall is_byte (p_data seg)
}.

Lemma in_frame f x : frame_ok f -> 0 <= x < 4096 -> frame_at (f + x) = f /\ 0 <= f + x.
Proof.
  intros [Hm Hr] Hx. unfold frame_at. assert ((f + x) mod 4096 = x); [| lia].
  rewrite Z.add_mod, Hm, Z.add_0_l, Z.mod_mod by lia. apply Z.mod_small. lia.
Qed.

(** Writing inside one frame. *)
Lemma write_in_frame m f o bs :
  frame_ok f -> frame_full m f -> Forall is_byte bs -> 0 <= o -> o + Z.of_nat (length bs) <= 4096 ->
  exists m', write_at m (f + o) bs = Ret m' /\ frame_full m' f /\
    (forall g, g <> f -> m' !! g = m !! g) /\
    (forall x, 0 <= x < 4096 -> read_byte m' (f + x) =
      if decide (o <= x < o + Z.of_nat (length bs)) then bs !! Z.to_nat (x - o) else read_byte m (f + x)).
Proof.
  intros Hf Hfull Hbs Ho Hlen.
  assert (Hfa : forall i, 0 <= i < Z.of_nat (length bs) -> frame_at (f + o + i) = f).
  { intros i Hi. replace (f + o + i) with (f + (o + i)) by lia. apply in_frame; [done | lia]. }
  destruct (write_at_ok bs m (f + o)) as (m' & E & Hr & Hoth & Hfl); [destruct Hf; lia | | done |].
  { intros i Hi. by rewrite Hfa. }
  exists m'. split; [done |]. split; [auto |]. split.
  - intros g Hg. apply Hoth. intros i Hi. by rewrite Hfa.
  - intros x Hx. rewrite Hr by (destruct Hf; lia).
    destruct (decide (o <= x < o + Z.of_nat (length bs))).
    + rewrite decide_True by lia. f_equal. lia.
    + rewrite decide_False by lia. done.
Qed.

Lemma copy_segment_page_ok seg i f m :
  seg_ok seg -> 0 <= i < seg_pages seg -> frame_ok f -> frame_full m f ->
  exists m', copy_segment_page seg i f m = Ret m' /\ frame_full m' f /\
    (forall g, g <> f -> m' !! g = m !! g) /\
    (forall x, 0 <= x < 4096 -> read_byte m' (f + x) =
      match file_byte seg ((p_vaddr seg / 4096 + i) * 4096 + x) with
      | Some b => Some b
      | None => read_byte m (f + x)
      end).
Proof.
  intros [Ha Hs [Hd Hb]] Hi Hf Hfull. unfold seg_pages, div_ceil in Hi.
  pose proof (Z.mod_pos_bound (p_vaddr seg) 4096 ltac:(lia)) as Hso.
  pose proof (Z.div_mod (p_vaddr seg) 4096 ltac:(lia)) as Hdm.
  set (so := p_vaddr seg mod 4096) in *. set (vp := p_vaddr seg / 4096) in *.
  assert (Him : i * 4096 < p_memsz seg + so).
  { destruct Hi as [_ Hi]. assert (i + 1 <= (p_memsz seg + so + 4096 - 1) / 4096) as H1 by lia.
    pose proof (Z.mul_div_le (p_memsz seg + so + 4096 - 1) 4096 ltac:(lia)). lia. }
  unfold copy_segment_page. fold so.
  set (of_ := if i =? 0 then so else 0). set (oc := Z.max 0 (i * 4096 - so)).
  assert (Hoc : i * 4096 - so + of_ = oc) by (unfold of_, oc; destruct (Z.eqb_spec i 0); lia).
  assert (Hof : 0 <= of_ < 4096) by (unfold of_; destruct (i =? 0); lia).
  assert (Hmem : oc <= p_memsz seg) by lia.
  rewrite sub_u_ret by lia. cbn [obind].
  set (cnt := Z.min (Z.min (4096 - of_) (p_memsz seg - oc)) (Z.max 0 (p_filesz seg - oc))).
  assert (Hfb : forall x, 0 <= x < 4096 -> file_byte seg ((vp + i) * 4096 + x) =
    if decide (of_ <= x < of_ + cnt) then p_data seg !! Z.to_nat (oc + (x - of_)) else None).
  { intros x Hx. unfold file_byte. assert (p_vaddr seg <= (vp + i) * 4096 + x <-> of_ <= x \/ i <> 0 /\ of_ <= x) as Hlo.
    { unfold of_, oc in *. destruct (Z.eqb_spec i 0); lia. }
    destruct (decide (of_ <= x < of_ + cnt)).
    - rewrite decide_True by lia. f_equal. lia.
    - rewrite decide_False; [done |]. unfold cnt, of_, oc in *. destruct (Z.eqb_spec i 0); lia. }
  destruct (Z.gtb_spec cnt 0) as [Hpos | Hzero].
  - set (bs := take (Z.to_nat cnt) (drop (Z.to_nat oc) (p_data seg))).
    assert (Hbl : Z.of_nat (length bs) = cnt) by (unfold bs; rewrite length_take, length_drop; lia).
    destruct (write_in_frame m f of_ bs Hf Hfull) as (m' & E & Hfl & Hoth & Hr); [| lia | lia |].
    { unfold bs. by apply Forall_take, Forall_drop. }
    exists m'. split; [done |]. split; [done |]. split; [done |]. intros x Hx. rewrite Hr, Hfb by done. rewrite Hbl.
    destruct (decide (of_ <= x < of_ + cnt)) as [Hin |]; [| done].
    unfold bs. rewrite lookup_take_lt by lia. rewrite lookup_drop.
    replace (Z.to_nat oc + Z.to_nat (x - of_))%nat with (Z.to_nat (oc + (x - of_))) by lia.
    destruct (p_data seg !! Z.to_nat (oc + (x - of_))) as [b|] eqn:E2; [done |].
    apply lookup_ge_None in E2. lia.
  - exists m. split; [done |]. split; [done |]. split; [done |]. intros x Hx. rewrite Hfb by done.
    rewrite decide_False by lia. done.
Qed.

Lemma read_byte_frame (m m' : gmap Z (list Z)) f x :
  frame_ok f -> 0 <= x < 4096 -> m' !! f = m !! f -> read_byte m' (f + x) = read_byte m (f + x).
Proof. intros Hf Hx E. unfold read_byte. by rewrite (proj1 (in_frame f x Hf Hx)), E. Qed.

Lemma read_zero_frame (m : gmap Z (list Z)) f x :
  frame_ok f -> 0 <= x < 4096 -> m !! f = Some (replicate 512 0) -> read_byte m (f + x) = Some 0.
Proof.
  intros Hf Hx E. unfold read_byte. destruct (in_frame f x Hf Hx) as [Ef ?]. rewrite Ef, E. cbn [mbind option_bind].
  pose proof (Z.mod_pos_bound (f + x) 4096 ltac:(lia)). pose proof (Z.mod_pos_bound (f + x) 8 ltac:(lia)).
  assert (0 <= (f + x) mod 4096 / 8 < 512) by (split; [apply Z.div_pos; lia | apply Z.div_lt_upper_bound; lia]).
  assert (replicate 512 0 !! Z.to_nat ((f + x) mod 4096 / 8) = Some 0) as -> by (apply lookup_replicate; split; [reflexivity | lia]).
  cbn [mbind option_bind]. change (le_bytes 8 0) with (replicate 8 0). apply lookup_replicate. split; [reflexivity | lia].
Qed.

Section Loading.
Context {A : Type} {FA : FrameAllocator A} {FL : FrameAllocatorLaws A} {PA : PageApi A} {PL : PageLaws A PA}
  {AA : AddrApi} {AL : AddrLaws PA AA}.
Implicit Types (m : gmap Z (list Z)) (a : A).

(** Writing to the frame of a mapped page keeps the address space. *)
Lemma data_write_ok m m' a s n f :
  space_ok m a s -> user_pagenum n -> user_maps m (cr3 s) n f ->
  (forall g, g <> f -> m' !! g = m !! g) -> frame_full m' f ->
  space_ok m' a s /\ forall q, user_page q -> pte m' (cr3 s) q = pte m (cr3 s) q.
Proof.
  intros [Hpt Htab Hfr Hda Honce] Hn (e & He & Hef & _) Hoth (ws & Hws & _).
  assert (Hft : ~ is_table m (cr3 s) f) by (eapply Hda; eauto using page_of_user).
  assert (Hag : forall t, is_table m (cr3 s) t -> m' !! t = m !! t) by (intros t ?; apply Hoth; by intros ->).
  assert (Hpte : forall q, user_page q -> pte m' (cr3 s) q = pte m (cr3 s) q) by (intros; by apply agree_pte).
  split; [| done]. split.
  - by apply (agree_pt_ok m).
  - intros t Ht. apply Htab. by apply (agree_is_table m m').
  - intros q e0 Hq. rewrite Hpte by done. intros He0. destruct (Hfr q e0 Hq He0) as (f0 & d & Hf0 & Hd & Ht0).
    destruct (decide (f0 = f)) as [-> | Hne]; [by exists f, ws |]. exists f0, d. by rewrite Hoth.
  - intros q e0 f0 Hq. rewrite Hpte by done. intros He0 Hf0 Ht. eapply (Hda q e0 f0); eauto.
    by apply (agree_is_table m m').
  - intros q q' e1 e2 f0 Hq Hq'. rewrite !Hpte by done. by apply Honce.
Qed.

Lemma data_write_extends m m' a s n f :
  space_ok m a s -> user_pagenum n -> user_maps m (cr3 s) n f ->
  (forall g, g <> f -> m' !! g = m !! g) -> frame_full m' f -> extends m a (cr3 s) m' a.
Proof.
  intros Hok Hn Hf Hoth Hfull. destruct (data_write_ok m m' a s n f Hok Hn Hf Hoth Hfull) as [_ Hpte].
  destruct Hf as (e & He & Hef & _).
  assert (Hft : ~ is_table m (cr3 s) f) by (eapply (so_data _ _ _ Hok); eauto using page_of_user).
  split; [done | | | |].
  - intros g _ Hg. apply Hoth. intros ->. apply Hg. right. exists (page_of n), e. auto using page_of_user.
  - intros g [Ht | (q & e' & Hq & He' & Hg)]; left.
    + left. apply (agree_is_table m m'); [apply Hok | | done]. intros t ?. apply Hoth. by intros ->.
    + right. exists q, e'. by rewrite <- Hpte.
  - intros Hs g ws. destruct (decide (g = f)) as [-> | Hne]; [| rewrite Hoth by done; apply Hs].
    destruct Hfull as (ws' & -> & ?). congruence.
  - intros i _. unfold slot. rewrite Hoth; [done |]. intros <-. apply Hft, is_table_root.
Qed.

Variables (s : AddressSpace) (R : Z -> Prop) (m0 : gmap Z (list Z)) (a0 : A).
Hypothesis HR : forall n, R n -> user_pagenum n.

(** The state of the loader: [C] are the bytes copied so far, [D] the pages
    seen.  A page of the program is not mapped yet, or holds the bytes copied
    to it and zeros elsewhere; pages outside are as they were. *)
Record loading (C : Z -> option Z) (D : Z -> Prop) m a : Prop := {
  ld_ok : space_ok m a s;
  ld_wf : alloc_wf a;
  ld_sized : mem_sized m;
  ld_page n : R n ->
    (unmapped m (cr3 s) n /\ ~ D n /\ forall x, 0 <= x < 4096 -> C (n * 4096 + x) = None) \/
    (exists f, user_maps m (cr3 s) n f /\ frame_full m f /\
      forall x, 0 <= x < 4096 -> read_byte m (f + x) = Some (default 0 (C (n * 4096 + x))));
  ld_out n : user_pagenum n -> ~ R n ->
    pte m (cr3 s) (page_of n) = pte m0 (cr3 s) (page_of n) /\
    forall f, user_maps m0 (cr3 s) n f -> m !! f = m0 !! f;
  ld_ext : extends m0 a0 (cr3 s) m a
}.

(** The bytes after page [n] of the segment is copied. *)
Definition wrote (seg : Segment) (n : Z) (C : Z -> option Z) (va : Z) : option Z :=
  if decide (va / 4096 = n) then match file_byte seg va with Some b => Some b | None => C va end else C va.

Lemma page_split n x : 0 <= x < 4096 -> (n * 4096 + x) / 4096 = n.
Proof. intros. rewrite Z.div_add_l by lia. rewrite Z.div_small by lia. lia. Qed.

Lemma maps_frame_ok m n f : user_maps m (cr3 s) n f -> frame_ok f.
Proof. intros (e & _ & He & _). by eapply entry_frame_ok. Qed.

Lemma maps_taken m a n f : space_ok m a s -> user_pagenum n -> user_maps m (cr3 s) n f ->
  taken a f /\ ~ is_table m (cr3 s) f.
Proof.
  intros Hok Hn (e & He & Hf & _). split; [| by eapply (so_data _ _ _ Hok); eauto using page_of_user].
  destruct (so_frames _ _ _ Hok _ _ (page_of_user n Hn) He) as (f0 & ? & ? & _ & ?). by replace f with f0 by congruence.
Qed.

Lemma maps_distinct m a n n' f f' :
  space_ok m a s -> user_pagenum n -> user_pagenum n' -> n <> n' ->
  user_maps m (cr3 s) n f -> user_maps m (cr3 s) n' f' -> f <> f'.
Proof.
  intros Hok Hn Hn' Hne (e & He & Hf & _) (e' & He' & Hf' & _) ->.
  apply Hne, page_of_inj; [done | done |]. by eapply (so_once _ _ _ Hok); eauto using page_of_user.
Qed.

(** The page just loaded, against the invariant. *)
Lemma loading_step seg n C D m a m' a' f :
  loading C D m a -> R n -> space_ok m' a' s -> alloc_wf a' -> mem_sized m' ->
  (forall n', user_pagenum n' -> n' <> n -> pte m' (cr3 s) (page_of n') = pte m (cr3 s) (page_of n')) ->
  (forall n' f', user_pagenum n' -> n' <> n -> user_maps m (cr3 s) n' f' -> m' !! f' = m !! f') ->
  user_maps m' (cr3 s) n f -> frame_full m' f ->
  (forall x, 0 <= x < 4096 -> read_byte m' (f + x) =
    Some (default 0 (match file_byte seg (n * 4096 + x) with Some b => Some b | None => C (n * 4096 + x) end))) ->
  extends m a (cr3 s) m' a' ->
  loading (wrote seg n C) (fun x => D x \/ x = n) m' a'.
Proof.
  intros [Hok Hwf _ Hpg Hout Hext] Hn Hok' Hwf' Hsz' Hpte Hmem Hf Hfull Hrd Hext'.
  assert (Hmaps : forall n' f', user_pagenum n' -> n' <> n -> user_maps m (cr3 s) n' f' -> user_maps m' (cr3 s) n' f').
  { intros n' f' ? ? (e & ? & ?). exists e. by rewrite Hpte. }
  split; [done | done | done | | | by eapply extends_trans].
  - intros n' Hn'. destruct (decide (n' = n)) as [-> | Hne].
    + right. exists f. split; [done |]. split; [done |]. intros x Hx. rewrite Hrd by done.
      unfold wrote. by rewrite page_split, decide_True.
    + assert (Hw : forall x, 0 <= x < 4096 -> wrote seg n C (n' * 4096 + x) = C (n' * 4096 + x)).
      { intros x Hx. unfold wrote. by rewrite page_split, decide_False. }
      destruct (Hpg n' Hn') as [(Hu & HnD & Hc) | (f' & Hm' & (ws & Hws & Hl) & Hr)].
      * left. split; [unfold unmapped; by rewrite Hpte by auto |]. split; [intros [? | ?]; auto |].
        intros x Hx. rewrite Hw by done. auto.
      * right. exists f'. assert (m' !! f' = m !! f') as E by eauto.
        split; [by apply Hmaps; auto |]. split; [exists ws; by rewrite E |].
        intros x Hx. rewrite Hw by done. rewrite (read_byte_frame m m') by eauto using maps_frame_ok. auto.
  - intros n' Hn' HnR. assert (n' <> n) by congruence. destruct (Hout n' Hn' HnR) as [Hp Hc].
    rewrite Hpte by done. split; [done |]. intros f' Hf'. rewrite <- Hc by done. apply (Hmem n'); [done | done |].
    destruct Hf' as (e & ? & ?). exists e. by rewrite Hp.
Qed.

Lemma load_page_ok seg i C D m a k :
  seg_ok seg -> Z.of_nat i < seg_pages seg -> R (p_vaddr seg / 4096 + Z.of_nat i) ->
  loading C D m a -> avail (4 + k) a ->
  let n := p_vaddr seg / 4096 + Z.of_nat i in
  exists m' a', load_page (cr3 s) seg (p_vaddr seg / 4096) i (m, a) = Ret (m', a') /\
    loading (wrote seg n C) (fun x => D x \/ x = n) m' a' /\ avail k a'.
Proof.
  intros Hseg Hi HRn Hld Hav n. fold n in HRn. pose proof (HR n HRn) as Hn. pose proof Hld as [Hok Hwf Hsz Hpg _ _].
  unfold load_page. fold n.
  rewrite translate_page_ok by (apply Hok || by apply page_of_user).
  destruct (Hpg n HRn) as [(Hu & HnD & Hc) | (f & Hm & Hfull & Hr)].
  - unfold unmapped in Hu. rewrite Hu. cbn [mbind option_bind].
    destruct (map_new_ok s n m a k Hok Hwf Hn Hu Hav) as (f & a1 & Etk & Hnf & Hfok & Hmap).
    rewrite Etk. cbn [obind]. set (mz := <[f := replicate 512 0]> m).
    assert (Hmz : mz !! f = Some (replicate 512 0)) by apply lookup_insert_eq.
    destruct (copy_segment_page_ok seg (Z.of_nat i) f mz Hseg) as (mw & Ew & (d & Hd & Hdl) & Hoth & Hr); [lia | done | |].
    { exists (replicate 512 0). split; [done | apply length_replicate]. }
    rewrite Ew. cbn [obind]. assert (mw = <[f := d]> m) as ->.
    { apply map_eq. intros g. destruct (decide (g = f)) as [-> | Hne]; [by rewrite Hd, lookup_insert_eq |].
      rewrite Hoth, lookup_insert_ne by done. by apply lookup_insert_ne. }
    destruct (Hmap d Hdl) as (m' & a' & E & Hg & Hum & Hta & Hd' & Hav'). rewrite E. cbn [obind].
    exists m', a'. split; [done |]. split; [| done].
    apply (loading_step seg n C D m a m' a' f);
      [done | done | exact (gr_ok _ _ _ _ _ _ Hg) | exact (gr_wf _ _ _ _ _ _ Hg)
      | exact (gr_sized _ _ _ _ _ _ Hg Hsz) | | | done | | | by eapply grown_extends].
    + intros n' Hn' Hne. apply (gr_other _ _ _ _ _ _ Hg); [by apply page_of_user |].
      intros n0 ->%list_elem_of_singleton. by apply page_of_ne.
    + intros n' f' Hn' Hne Hm'. destruct (maps_taken m a n' f' Hok Hn' Hm'). by apply (gr_mem _ _ _ _ _ _ Hg).
    + by exists d.
    + intros x Hx. rewrite (read_byte_frame (<[f := d]> m) m') by (done || by rewrite Hd').
      rewrite Hr by done. fold n. rewrite Hc, (read_zero_frame mz) by done. by destruct (file_byte seg _).
  - destruct Hm as (e & He & Hef & Hfl). rewrite He. cbn [mbind option_bind]. rewrite Hef.
    assert (Hm : user_maps m (cr3 s) n f) by by exists e.
    destruct (copy_segment_page_ok seg (Z.of_nat i) f m Hseg) as (m' & Ew & Hfull' & Hoth & Hr');
      [lia | by eapply maps_frame_ok | done |].
    rewrite Ew. cbn [obind]. exists m', a. split; [done |]. split; [| eapply avail_le; [| exact Hav]; lia].
    destruct (data_write_ok m m' a s n f Hok Hn Hm Hoth Hfull') as [Hok' Hpte'].
    apply (loading_step seg n C D m a m' a f); [done | done | done | done | | | | | done | |].
    + by apply (ex_sized _ _ _ _ _ (data_write_extends m m' a s n f Hok Hn Hm Hoth Hfull')).
    + intros n' Hn' _. by apply Hpte', page_of_user.
    + intros n' f' Hn' Hne Hm'. apply Hoth. intros ->. by eapply (maps_distinct m a n' n f f).
    + exists e. rewrite Hpte' by by apply page_of_user. done.
    + intros x Hx. rewrite Hr' by done. fold n. rewrite Hr by done. by destruct (file_byte seg _).
    + by apply (data_write_extends m m' a s n f).
Qed.

Lemma loading_ext C C' D D' m a :
  (forall va, C va = C' va) -> (forall n, D' n -> D n) -> loading C D m a -> loading C' D' m a.
Proof.
  intros HC HD [Hok Hwf Hsz Hpg Hout Hext]. split; [done | done | done | | done | done].
  intros n Hn. destruct (Hpg n Hn) as [(? & ? & Hc) | (f & ? & ? & Hr)].
  - left. split; [done |]. split; [by auto |]. intros x Hx. rewrite <- HC. auto.
  - right. exists f. split; [done |]. split; [done |]. intros x Hx. rewrite <- HC. auto.
Qed.

Definition overlay (seg : Segment) (C : Z -> option Z) (va : Z) : option Z :=
  match file_byte seg va with Some b => Some b | None => C va end.

Lemma load_pages_ok seg l : forall C D m a k,
  seg_ok seg -> Forall (fun i => Z.of_nat i < seg_pages seg) l ->
  (forall i, i ∈ l -> R (p_vaddr seg / 4096 + Z.of_nat i)) ->
  loading C D m a -> avail (4 * length l + k) a ->
  exists m' a', for_each (load_page (cr3 s) seg (p_vaddr seg / 4096)) l (m, a) = Ret (m', a') /\
    loading (fun va => if decide (va / 4096 ∈ (fun i => p_vaddr seg / 4096 + Z.of_nat i) <$> l)
                       then overlay seg C va else C va)
      (fun x => D x \/ x ∈ (fun i => p_vaddr seg / 4096 + Z.of_nat i) <$> l) m' a' /\ avail k a'.
Proof.
  induction l as [|i l IH]; intros C D m a k Hseg Hl HRl Hld Hav.
  - exists m, a. split; [done |]. split; [| done]. eapply loading_ext; [| | exact Hld]; [done |].
    intros n [? | Hn]; [done | by apply elem_of_nil in Hn].
  - apply Forall_cons in Hl as [Hi Hl].
    destruct (load_page_ok seg i C D m a (4 * length l + k) Hseg Hi) as (m1 & a1 & E1 & Hld1 & Hav1); [| done | |].
    { apply HRl, list_elem_of_here. } { eapply avail_le; [| exact Hav]. simpl. lia. }
    destruct (IH (wrote seg (p_vaddr seg / 4096 + Z.of_nat i) C) (fun x => D x \/ x = p_vaddr seg / 4096 + Z.of_nat i) m1 a1 k Hseg Hl)
      as (m2 & a2 & E2 & Hld2 & Hav2); [| done | done |].
    { intros j Hj. apply HRl. by apply list_elem_of_further. }
    exists m2, a2. cbn [for_each]. rewrite E1. cbn [obind]. split; [done |]. split; [| done].
    eapply loading_ext; [| | exact Hld2].
    + intros va. cbn [fmap list_fmap]. unfold overlay, wrote.
      destruct (decide (va / 4096 ∈ _ <$> l)) as [Hin | Hni], (decide (va / 4096 = p_vaddr seg / 4096 + Z.of_nat i)) as [He | He].
      * rewrite decide_True by (by apply list_elem_of_further). by destruct (file_byte seg va).
      * rewrite decide_True by (by apply list_elem_of_further). done.
      * rewrite decide_True by (rewrite He; apply list_elem_of_here). done.
      * rewrite decide_False; [done |]. rewrite elem_of_cons. tauto.
    + intros n. cbn [fmap list_fmap]. rewrite elem_of_cons. tauto.
Qed.

(** The pages that a list of segments covers. *)
Definition covers (seg : Segment) (n : Z) : Prop :=
  p_type seg = PT_LOAD /\ p_vaddr seg / 4096 <= n < p_vaddr seg / 4096 + seg_pages seg.

Lemma seg_pages_bound seg : seg_ok seg -> 0 <= seg_pages seg /\ p_vaddr seg / 4096 + seg_pages seg <= 2 ^ 34 + 1.
Proof.
  intros [Ha Hs _]. unfold seg_pages, div_ceil.
  pose proof (Z.mod_pos_bound (p_vaddr seg) 4096 ltac:(lia)). pose proof (Z.div_mod (p_vaddr seg) 4096 ltac:(lia)).
  split; [apply Z.div_pos; lia |].
  rewrite <- Z.div_add_l by lia. apply Z.lt_succ_r, Z.div_lt_upper_bound; lia.
Qed.

(** The page of a byte of the segment. *)
Lemma seg_page_of seg va :
  seg_ok seg -> p_vaddr seg <= va < p_vaddr seg + p_memsz seg ->
  p_vaddr seg / 4096 <= va / 4096 < p_vaddr seg / 4096 + seg_pages seg.
Proof.
  intros [Ha Hs _] Hva. unfold seg_pages, div_ceil. split; [apply Z.div_le_mono; lia |].
  pose proof (Z.div_mod (p_vaddr seg) 4096 ltac:(lia)). rewrite <- Z.div_add_l by lia.
  apply Z.div_lt_upper_bound; [lia |].
  pose proof (Z.mul_succ_div_gt (p_vaddr seg / 4096 * 4096 + (p_memsz seg + p_vaddr seg mod 4096 + 4096 - 1)) 4096 ltac:(lia)).
  lia.
Qed.

Definition load_pages_needed (segs : list Segment) : nat :=
  sum_list_with (fun seg => if p_type seg =? PT_LOAD then Z.to_nat (seg_pages seg) else 0%nat) segs.

Lemma load_segment_ok seg pe C D m a k :
  (p_type seg = PT_LOAD -> seg_ok seg) -> (forall n, covers seg n -> R n) ->
  loading C D m a -> avail (4 * load_pages_needed [seg] + k) a ->
  exists m' a', load_segment (cr3 s) seg (pe, (m, a))
      = Ret (if p_type seg =? PT_LOAD then Z.max pe (p_vaddr seg + p_memsz seg) else pe, (m', a')) /\
    loading (if p_type seg =? PT_LOAD then overlay seg C else C) (fun x => D x \/ covers seg x) m' a' /\ avail k a'.
Proof.
  intros Hseg HRs Hld Hav. unfold load_segment, load_pages_needed, covers in *. simpl in Hav.
  destruct (Z.eqb_spec (p_type seg) PT_LOAD) as [Hty | Hty].
  2:{ exists m, a. split; [done |]. split; [| eapply avail_le; [| exact Hav]; lia].
      eapply loading_ext; [done | | exact Hld]. tauto. }
  specialize (Hseg Hty). pose proof Hseg as [Ha Hs _]. destruct (seg_pages_bound seg Hseg) as [Hp0 Hp1].
  pose proof (Z.mod_pos_bound (p_vaddr seg) 4096 ltac:(lia)).
  assert (0 <= p_vaddr seg / 4096) by (apply Z.div_pos; lia).
  rewrite va_new_user by (unfold user_addr; lia). cbn [obind]. rewrite chk_u_ret by lia. cbn [obind].
  rewrite chk_u_ret by lia. cbn [obind]. fold (seg_pages seg).
  rewrite va_new_user by (unfold user_addr; lia). cbn [obind].
  destruct (load_pages_ok seg (seq 0 (Z.to_nat (seg_pages seg))) C D m a k Hseg) as (m' & a' & E & Hld' & Hav').
  - apply Forall_forall. intros i Hi. apply elem_of_seq in Hi. lia.
  - intros i Hi. apply elem_of_seq in Hi. apply HRs. split; [done | lia].
  - done.
  - rewrite length_seq. eapply avail_le; [| exact Hav]. lia.
  - rewrite E. cbn [obind]. exists m', a'. split; [done |]. split; [| done].
    assert (Hin : forall n, n ∈ (fun i => p_vaddr seg / 4096 + Z.of_nat i) <$> seq 0 (Z.to_nat (seg_pages seg)) <->
      p_vaddr seg / 4096 <= n < p_vaddr seg / 4096 + seg_pages seg).
    { intros n. rewrite list_elem_of_fmap. setoid_rewrite elem_of_seq. split; [intros (i & -> & ?); lia |].
      intros ?. exists (Z.to_nat (n - p_vaddr seg / 4096)). lia. }
    eapply loading_ext; [| | exact Hld'].
    + intros va. cbv beta. destruct (decide _) as [| Hni]; [done |]. unfold overlay, file_byte.
      destruct (decide _) as [Hva |]; [| done]. exfalso. apply Hni, Hin, seg_page_of; [done | lia].
    + intros n [? | [_ ?]]; [by left | right; by apply Hin].
Qed.

Definition overlay_all (segs : list Segment) (C : Z -> option Z) : Z -> option Z :=
  foldl (fun C seg => if p_type seg =? PT_LOAD then overlay seg C else C) C segs.
Definition end_all (segs : list Segment) (pe : Z) : Z :=
  foldl (fun pe seg => if p_type seg =? PT_LOAD then Z.max pe (p_vaddr seg + p_memsz seg) else pe) pe segs.

Lemma load_segments_ok segs : forall pe C D m a k,
  (forall seg, seg ∈ segs -> p_type seg = PT_LOAD -> seg_ok seg) ->
  (forall seg n, seg ∈ segs -> covers seg n -> R n) ->
  loading C D m a -> avail (4 * load_pages_needed segs + k) a ->
  exists m' a', load_segments (cr3 s) segs (pe, (m, a)) = Ret (end_all segs pe, (m', a')) /\
    loading (overlay_all segs C) (fun x => D x \/ exists seg, seg ∈ segs /\ covers seg x) m' a' /\ avail k a'.
Proof.
  induction segs as [|seg segs IH]; intros pe C D m a k Hok HRs Hld Hav.
  - exists m, a. split; [done |]. split; [| done]. eapply loading_ext; [done | | exact Hld].
    intros n [? | (seg & Hin & _)]; [done | by apply elem_of_nil in Hin].
  - destruct (load_segment_ok seg pe C D m a (4 * load_pages_needed segs + k)) as (m1 & a1 & E1 & Hld1 & Hav1).
    { apply Hok, list_elem_of_here. } { intros n. apply HRs, list_elem_of_here. } { done. }
    { eapply avail_le; [| exact Hav]. unfold load_pages_needed. simpl. lia. }
    eapply IH in Hld1 as (m2 & a2 & E2 & Hld2 & Hav2); [| | | exact Hav1].
    + exists m2, a2. cbn [load_segments]. rewrite E1. cbn [obind]. rewrite E2. split; [done |]. split; [| done].
      eapply loading_ext; [done | | exact Hld2]. intros n [? | (sg & Hin & Hc)]; [by left; left |].
      apply elem_of_cons in Hin as [-> | Hin]; [by left; right |]. right. eauto.
    + intros sg Hin. apply Hok. by apply list_elem_of_further.
    + intros sg n Hin. apply HRs. by apply list_elem_of_further.
Qed.

End Loading.

(** ** The program in memory *)
Section Program.
Context {A : Type} {FA : FrameAllocator A} {FL : FrameAllocatorLaws A} {PA : PageApi A} {PL : PageLaws A PA}
  {AA : AddrApi} {AL : AddrLaws PA AA}.
Implicit Types (m : gmap Z (list Z)) (a : A).

Definition seg_disjoint (x y : Segment) : Prop :=
  p_vaddr x + p_memsz x <= p_vaddr y \/ p_vaddr y + p_memsz y <= p_vaddr x.

(** A file the loader can load: segments of the lower half that do not overlap. *)
Record elf_ok (file : ElfFile) : Prop := {
  eo_entry : 0 <= e_entry file <= 2 ^ 46;
  eo_segs seg : seg ∈ segments file -> p_type seg = PT_LOAD -> seg_ok seg;
  eo_disjoint i j x y : segments file !! i = Some x -> segments file !! j = Some y -> i <> j ->
    p_type x = PT_LOAD -> p_type y = PT_LOAD -> seg_disjoint x y
}.

Definition program_page (file : ElfFile) (n : Z) : Prop := exists seg, seg ∈ segments file /\ covers seg n.

(** [seg] is in memory: the bytes of the file, then zeros. *)
Definition seg_loaded m (l4 : Z) (seg : Segment) : Prop :=
  forall va, p_vaddr seg <= va < p_vaddr seg + p_memsz seg ->
    user_byte m l4 va = Some (default 0 (file_byte seg va)).

Lemma overlay_all_none segs C va :
  (forall seg, seg ∈ segs -> p_type seg = PT_LOAD -> file_byte seg va = None) -> overlay_all segs C va = C va.
Proof.
  unfold overlay_all. revert C. induction segs as [|x segs IH]; intros C Hn; simpl; [done |].
  rewrite IH by (intros seg ?; apply Hn; by apply list_elem_of_further).
  destruct (Z.eqb_spec (p_type x) PT_LOAD); [| done]. unfold overlay. by rewrite Hn by (done || apply list_elem_of_here).
Qed.

Lemma overlay_all_app l1 x l2 C :
  overlay_all (l1 ++ x :: l2) C
  = overlay_all l2 (if p_type x =? PT_LOAD then overlay x (overlay_all l1 C) else overlay_all l1 C).
Proof. unfold overlay_all. by rewrite foldl_app. Qed.

Lemma overlay_all_one file i seg va :
  elf_ok file -> segments file !! i = Some seg -> p_type seg = PT_LOAD ->
  p_vaddr seg <= va < p_vaddr seg + p_memsz seg ->
  overlay_all (segments file) (fun _ => None) va = file_byte seg va.
Proof.
  intros [_ Hok Hdis] Hi Hty Hva.
  assert (Hother : forall j x, segments file !! j = Some x -> j <> i -> p_type x = PT_LOAD -> file_byte x va = None).
  { intros j x Hj Hne Hx. unfold file_byte. apply decide_False. intros ?.
    destruct (Hok x) as [? ? _]; [by eapply list_elem_of_lookup_2 | done |].
    destruct (Hdis j i x seg Hj Hi Hne Hx Hty); lia. }
  pose proof (take_drop_middle _ _ _ Hi) as Esplit.
  pose proof (lookup_lt_Some _ _ _ Hi) as Hlt. rewrite <- Esplit at 1.
  rewrite overlay_all_app, Hty, Z.eqb_refl. rewrite overlay_all_none.
  - unfold overlay. destruct (file_byte seg va); [done |]. apply overlay_all_none.
    intros x [j Hj]%list_elem_of_lookup_1 Hx. apply lookup_take_Some in Hj as [Hj ?].
    eapply (Hother j); eauto. lia.
  - intros x [j Hj]%list_elem_of_lookup_1 Hx. rewrite lookup_drop in Hj. eapply (Hother (S i + j)%nat); eauto. lia.
Qed.

Lemma covers_bound file n :
  elf_ok file -> program_page file n -> 0 <= n < 2 ^ 34 + 1.
Proof.
  intros Hok (seg & Hin & Hty & Hn). pose proof (eo_segs _ Hok seg Hin Hty) as Hs.
  destruct (seg_pages_bound seg Hs). destruct Hs as [? _ _].
  assert (0 <= p_vaddr seg / 4096) by (apply Z.div_pos; lia). lia.
Qed.

Lemma user_byte_maps m a s n f va :
  space_ok m a s -> user_maps m (cr3 s) n f -> va / 4096 = n -> user_addr va ->
  user_byte m (cr3 s) va = read_byte m (f + va mod 4096).
Proof.
  intros Hok (e & He & Hf & _) <- Hva. unfold user_byte. rewrite translate_addr_ok by (done || apply Hok).
  rewrite He. cbn [mbind option_bind]. by rewrite Hf.
Qed.

(** Everything about [load_elf] at once. *)
Lemma load_elf_spec file s m a k :
  elf_ok file -> space_ok m a s -> alloc_wf a -> mem_sized m ->
  (forall n, program_page file n -> unmapped m (cr3 s) n) ->
  avail (4 * load_pages_needed (segments file) + k) a ->
  exists m' a', load_elf file (cr3 s) (m, a)
      = Ret (e_entry file, end_all (segments file) (e_entry file), (m', a')) /\
    space_ok m' a' s /\ alloc_wf a' /\ mem_sized m' /\ avail k a' /\
    (forall seg, seg ∈ segments file -> p_type seg = PT_LOAD -> seg_loaded m' (cr3 s) seg) /\
    (forall n, user_pagenum n -> ~ program_page file n ->
      pte m' (cr3 s) (page_of n) = pte m (cr3 s) (page_of n) /\
      forall f, user_maps m (cr3 s) n f -> m' !! f = m !! f) /\
    extends m a (cr3 s) m' a'.
Proof.
  intros Hfile Hok Hwf Hsz Hun Hav.
  assert (HR : forall n, program_page file n -> user_pagenum n).
  { intros n Hn. pose proof (covers_bound file n Hfile Hn). unfold user_pagenum. lia. }
  assert (Hld : loading s (program_page file) m a (fun _ => None) (fun _ => False) m a).
  { split; [done | done | done | | done | apply extends_refl]. intros n Hn. left. split; [auto |]. split; [tauto | done]. }
  destruct (load_segments_ok s (program_page file) m a HR (segments file) (e_entry file) (fun _ => None) (fun _ => False)
    m a k (eo_segs _ Hfile)) as (m' & a' & E & [Hok' Hwf' Hsz' Hpg Hout Hext] & Hav'); [| done | done |].
  { intros seg n Hin Hc. by exists seg. }
  exists m', a'. unfold load_elf. pose proof (eo_entry _ Hfile). rewrite va_new_user by (unfold user_addr; lia).
  cbn [obind]. rewrite E. cbn [obind]. split; [done |]. do 4 (split; [done |]). split; [| by split].
  intros seg Hin Hty va Hva. pose proof Hin as [i Hi]%list_elem_of_lookup_1.
  pose proof (eo_segs _ Hfile seg Hin Hty) as Hseg. pose proof (seg_page_of seg va Hseg Hva) as Hpage.
  assert (Hpp : program_page file (va / 4096)) by (exists seg; by split).
  destruct (Hpg (va / 4096) Hpp) as [(_ & HnD & _) | (f & Hf & _ & Hr)].
  { exfalso. apply HnD. right. exists seg. by split. }
  destruct Hseg as [? _ _]. rewrite (user_byte_maps m' a' s (va / 4096) f) by (done || unfold user_addr; lia).
  rewrite Hr by (apply Z.mod_pos_bound; lia).
  replace (va / 4096 * 4096 + va mod 4096) with va by (pose proof (Z.div_mod va 4096); lia).
  by rewrite (overlay_all_one file i seg).
Qed.

(** [load_elf] puts the program in memory: for a file whose segments do
    not overlap, from an address space that maps none of their pages, it
    returns the entry point and the end of the highest segment, and the program
    reads at every address of every loadable segment the byte of the file, or
    zero beyond the file's part, even where segments share a page; pages outside
    the program keep their frames and contents. *)
Theorem load_elf_image file s m a :
  elf_ok file -> space_ok m a s -> alloc_wf a -> mem_sized m ->
  (forall n, program_page file n -> unmapped m (cr3 s) n) ->
  avail (4 * load_pages_needed (segments file)) a ->
  exists m' a', load_elf file (cr3 s) (m, a)
      = Ret (e_entry file, end_all (segments file) (e_entry file), (m', a')) /\
    space_ok m' a' s /\
    (forall seg, seg ∈ segments file -> p_type seg = PT_LOAD -> seg_loaded m' (cr3 s) seg) /\
    (forall n f, user_pagenum n -> ~ program_page file n -> user_maps m (cr3 s) n f ->
      user_maps m' (cr3 s) n f /\ m' !! f = m !! f).
Proof.
  intros H1 H2 H3 H4 H5 H6. destruct (load_elf_spec file s m a 0 H1 H2 H3 H4 H5) as (m' & a' & E & Hok & _ & _ & _ & Hl & Hout & _).
  { by rewrite Nat.add_0_r. }
  exists m', a'. split; [done |]. split; [done |]. split; [done |].
  intros n f Hn Hnp Hf. destruct (Hout n Hn Hnp) as [Hp Hc]. split; [| auto].
  destruct Hf as (e & ? & ?). exists e. by rewrite Hp.
Qed.

(** ** A new address space *)
Definition stack_page_list : list Z := (fun i => (STACK_TOP - (Z.of_nat i + 1) * 4096) / 4096) <$> seq 0 16.

Lemma stack_page_list_spec n : n ∈ stack_page_list <-> STACK_TOP / 4096 - 16 <= n < STACK_TOP / 4096.
Proof.
  unfold stack_page_list. rewrite list_elem_of_fmap. setoid_rewrite elem_of_seq.
  assert (forall i, (STACK_TOP - (i + 1) * 4096) / 4096 = STACK_TOP / 4096 - (i + 1)) as Hi.
  { intros i. replace (STACK_TOP - (i + 1) * 4096) with (STACK_TOP + - (i + 1) * 4096) by lia.
    rewrite Z.div_add by lia. lia. }
  setoid_rewrite Hi. split.
  - intros (i & -> & ?). lia.
  - intros ?. exists (Z.to_nat (STACK_TOP / 4096 - 1 - n)). lia.
Qed.

Lemma stack_page_list_nodup : NoDup stack_page_list.
Proof. apply (bool_decide_unpack _). vm_compute. exact I. Qed.

Lemma stack_page_user n : STACK_TOP / 4096 - 16 <= n < STACK_TOP / 4096 -> user_pagenum n /\ 2 ^ 34 + 1 <= n.
Proof. change (STACK_TOP / 4096) with 34359738352. unfold user_pagenum. lia. Qed.

Definition bare (l4 : Z) : AddressSpace :=
  {| cr3 := l4; heap_start := 0; heap_end := 0; program_start := 0;
     backbuffer_frames := None; program_end := 0; stack_top := 0 |}.

Lemma new_page_table_ok kernel_table active m a k :
  alloc_wf a -> mem_sized m -> m !! kernel_table = Some active -> avail (1 + k) a ->
  exists l4 m' a', new_page_table kernel_table (m, a) = Ret (l4, (m', a')) /\
    new_space m a (bare l4) m' a' /\ avail k a' /\
    (forall q, user_page q -> pte m' l4 q = None) /\ kernel_half kernel_table m l4 m'.
Proof.
  intros Hwf Hsz Hk Hav.
  destruct (take_frame_avail k a Hwf Hav) as (l4 & a' & E & Hav' & Hwf' & Hnt & Ht & _ & Hmono).
  pose proof (Hsz _ _ Hk) as Hlen.
  destruct (new_table_ok m l4 active Hlen) as [Hpt Htab]. destruct (new_table_empty m l4 active) as [_ Hpte].
  eexists l4, _, a'. unfold new_page_table. rewrite E. cbn [obind]. rewrite Hk. cbn [unwrap obind].
  assert (Hhalf : kernel_half kernel_table m l4 (<[l4 := imap (fun i e => if (i <? 256)%nat then entry_new else e) active]> m)).
  { intros i Hi. unfold slot. rewrite lookup_insert_eq, Hk. cbn [mbind option_bind]. rewrite list_lookup_imap.
    destruct (active !! i) as [e|]; [| done]. simpl. by destruct (Nat.ltb_spec i 256); [lia |]. }
  split; [done |]. split; [| by split_and!]. split; [| done | done | | |].
  - split; simpl cr3; [done | | | |].
    + intros t Hin. by rewrite (Htab t Hin).
    + intros q e Hq. by rewrite Hpte.
    + intros q e f Hq. by rewrite Hpte.
    + intros q q' e e' f Hq _. by rewrite Hpte.
  - intros f Hf. apply lookup_insert_ne. by intros ->.
  - intros f [->%Htab | (q & e & Hq & He & _)]; [done |]. simpl cr3 in He. by rewrite Hpte in He.
  - intros _. apply mem_sized_insert; [done | by rewrite length_imap].
Qed.

Lemma map_stack_ok l4 m a k :
  space_ok m a (bare l4) -> alloc_wf a -> mem_sized m -> (forall q, user_page q -> pte m l4 q = None) ->
  avail (64 + k) a ->
  exists m' a', map_stack l4 (m, a) = Ret (STACK_TOP, (m', a')) /\
    space_ok m' a' (bare l4) /\ alloc_wf a' /\ extends m a l4 m' a' /\ avail k a' /\
    (forall n, STACK_TOP / 4096 - 16 <= n < STACK_TOP / 4096 -> exists f, user_maps m' l4 n f) /\
    (forall n, user_pagenum n -> ~ STACK_TOP / 4096 - 16 <= n < STACK_TOP / 4096 -> unmapped m' l4 n).
Proof.
  intros Hok Hwf Hsz Hempty Hav.
  assert (Hus : Forall user_pagenum stack_page_list).
  { apply Forall_forall. intros n Hn%stack_page_list_spec. by apply stack_page_user. }
  destruct (map_all_ok false (bare l4) stack_page_list m a k Hok Hwf stack_page_list_nodup Hus)
    as (fs & m' & a' & E & Hg & Hmaps & _ & _ & Hav'); [| done | done |].
  { apply Forall_forall. intros n Hn. rewrite Forall_forall in Hus. by apply Hempty, page_of_user, Hus. }
  exists m', a'. unfold map_stack. rewrite va_new_user by (vm_compute; split; [discriminate | reflexivity]).
  cbn [obind]. change (Z.to_nat (USER_STACK_SIZE / 4096)) with 16%nat. fold stack_page_list.
  change (cr3 (bare l4)) with l4 in E. rewrite E. cbn [obind].
  split; [done |]. split; [exact (gr_ok _ _ _ _ _ _ Hg) |]. split; [exact (gr_wf _ _ _ _ _ _ Hg) |].
  split; [by apply (grown_extends _ _ _ _ _ _ Hg) |]. split; [done |]. split.
  - intros n [i Hi]%stack_page_list_spec%list_elem_of_lookup_1.
    destruct (Forall2_lookup_l _ _ _ _ _ Hmaps Hi) as (f & _ & ?). by exists f.
  - intros n Hn Hni. unfold unmapped. pose proof (gr_other _ _ _ _ _ _ Hg (page_of n)) as Ho. change (cr3 (bare l4)) with l4 in Ho.
    rewrite Ho; [by apply Hempty, page_of_user | by apply page_of_user |].
    intros n' Hn'. apply page_of_ne; [done | rewrite Forall_forall in Hus; auto |]. intros ->. by apply Hni, stack_page_list_spec.
Qed.

Lemma end_all_ge segs pe : pe <= end_all segs pe /\
  forall seg, seg ∈ segs -> p_type seg = PT_LOAD -> p_vaddr seg + p_memsz seg <= end_all segs pe.
Proof.
  unfold end_all. revert pe. induction segs as [|x segs IH]; intros pe; simpl.
  - split; [lia |]. intros seg Hin. by apply elem_of_nil in Hin.
  - set (pe' := if p_type x =? PT_LOAD then Z.max pe (p_vaddr x + p_memsz x) else pe).
    destruct (IH pe') as [H1 H2]. assert (pe <= pe') by (unfold pe'; case_match; lia). split; [lia |].
    intros seg [-> | Hin]%elem_of_cons Hty; [| by apply H2].
    assert (p_vaddr x + p_memsz x <= pe'); [| lia]. unfold pe'. rewrite Hty. simpl. lia.
Qed.

(** No page of the program reaches past the aligned end of the program. *)
Lemma program_page_below file n :
  elf_ok file -> program_page file n -> n < pages_to (end_all (segments file) (e_entry file) + 1).
Proof.
  intros Hok (seg & Hin & Hty & _ & Hn). pose proof (eo_segs _ Hok seg Hin Hty) as [Ha Hs _].
  pose proof (proj2 (end_all_ge (segments file) (e_entry file)) seg Hin Hty) as He.
  unfold seg_pages, div_ceil in Hn. pose proof (Z.div_mod (p_vaddr seg) 4096 ltac:(lia)).
  rewrite <- Z.div_add_l in Hn by lia. eapply Z.lt_le_trans; [exact Hn |].
  unfold pages_to. apply Z.div_le_mono; lia.
Qed.

Lemma from_elf_spec kernel_table active file limit m a k :
  elf_ok file -> alloc_wf a -> mem_sized m -> m !! kernel_table = Some active ->
  end_all (segments file) (e_entry file) + 4097 <= limit -> limit mod 4096 = 0 -> limit <= 2 ^ 46 ->
  avail (65 + 4 * load_pages_needed (segments file) + k) a ->
  exists s m' a', from_elf kernel_table file (m, a) = Ret (s, (m', a')) /\
    new_space m a s m' a' /\ avail k a' /\ program_start s = e_entry file /\ stack_top s = STACK_TOP /\
    (forall seg, seg ∈ segments file -> p_type seg = PT_LOAD -> seg_loaded m' (cr3 s) seg) /\
    (forall n, STACK_TOP / 4096 - 16 <= n < STACK_TOP / 4096 ->
      exists f, user_maps m' (cr3 s) n f /\ frame_full m' f) /\
    heap_end s = heap_start s /\ heap_ok m' s limit /\ kernel_half kernel_table m (cr3 s) m'.
Proof.
  intros Hfile Hwf Hsz Hk Hl1 Hl2 Hl3 Hav.
  destruct (new_page_table_ok kernel_table active m a (64 + 4 * load_pages_needed (segments file) + k) Hwf Hsz Hk Hav)
    as (l4 & m1 & a1 & E1 & Hns1 & Hav1 & Hempty & Hhalf1).
  pose proof Hns1 as [Hok1 Hwf1 _ _ _ Hsz1]. specialize (Hsz1 Hsz).
  destruct (map_stack_ok l4 m1 a1 (4 * load_pages_needed (segments file) + k) Hok1 Hwf1 Hsz1 Hempty Hav1)
    as (m2 & a2 & E2 & Hok2 & Hwf2 & Hx2 & Hav2 & Hst2 & Hfree2).
  pose proof (ex_sized _ _ _ _ _ Hx2 Hsz1) as Hsz2.
  assert (Hpst : forall n, program_page file n -> user_pagenum n /\ ~ STACK_TOP / 4096 - 16 <= n < STACK_TOP / 4096).
  { intros n Hn. pose proof (covers_bound file n Hfile Hn). split; [unfold user_pagenum; lia |].
    intros [_ ?]%stack_page_user. lia. }
  destruct (load_elf_spec file (bare l4) m2 a2 k Hfile Hok2 Hwf2 Hsz2) as (m3 & a3 & E3 & Hok3 & Hwf3 & Hsz3 & Hav3 & Hseg & Hout & Hx3).
  { intros n Hn. destruct (Hpst n Hn). by apply Hfree2. } { done. }
  set (pe := end_all (segments file) (e_entry file)) in *.
  pose proof (eo_entry _ Hfile). pose proof (proj1 (end_all_ge (segments file) (e_entry file))) as Hpe. fold pe in Hpe.
  change (cr3 (bare l4)) with l4 in *.
  unfold from_elf. rewrite E1. cbn [obind]. rewrite E2. cbn [obind]. rewrite E3. cbn [obind].
  rewrite chk_u_ret by lia. cbn [obind]. rewrite va_new_user by (unfold user_addr; lia). cbn [obind].
  rewrite va_align_up_ok by (unfold user_addr; lia). cbn [obind].
  eexists _, m3, a3. split; [reflexivity |]. cbn [cr3 program_start stack_top heap_start heap_end].
  split.
  { assert (Hn3 : new_space m a (bare l4) m3 a3).
    { eapply new_space_extends; [exact Hns1 | by eapply extends_trans | done | done]. }
    destruct Hn3 as [[] ? ? ? ? ?]. split; [split | ..]; assumption. }
  split; [done |]. split; [done |]. split; [done |]. split; [done |].
  fold (pages_to (pe + 1)). assert (Hpt : pages_to (pages_to (pe + 1) * 4096) = pages_to (pe + 1)).
  { unfold pages_to at 1. rewrite Z.div_add_l by lia. change (4095 / 4096) with 0. lia. }
  assert (Hhs : pe + 1 <= pages_to (pe + 1) * 4096 < pe + 1 + 4096).
  { unfold pages_to. pose proof (Z.div_mod (pe + 1 + 4095) 4096 ltac:(lia)).
    pose proof (Z.mod_pos_bound (pe + 1 + 4095) 4096 ltac:(lia)). lia. }
  split; [| split; [done | split]].
  - intros n Hn. destruct (Hst2 n Hn) as [f Hf]. destruct (stack_page_user n Hn) as [Hu Hhi].
    destruct (Hout n Hu) as [Hp _]; [intros Hpp; by apply (Hpst n Hpp) |].
    assert (Hf3 : user_maps m3 l4 n f) by (destruct Hf as (e & ? & ?); exists e; by rewrite Hp).
    exists f. split; [done |]. destruct Hf3 as (e & He & Hef & _).
    destruct (so_frames _ _ _ Hok3 _ _ (page_of_user n Hu) He) as (f0 & d & Hf0 & Hd & _).
    replace f with f0 by congruence. exists d. split; [done | by eapply Hsz3].
  - split; cbn [cr3 heap_start heap_end].
    + split; [lia | apply Z.mod_mul; lia].
    + split; [lia | done].
    + rewrite Hpt, Z.div_mul by lia. intros n Hn. lia.
    + rewrite Hpt. intros n Hn.
      assert (limit / 4096 <= 2 ^ 34) by (apply (Z.div_le_mono limit (2 ^ 46)); lia).
      assert (0 <= pages_to (pe + 1)) by (apply Z.div_pos; lia).
      assert (Hu : user_pagenum n) by (unfold user_pagenum; lia).
      destruct (Hout n Hu) as [Hp _].
      { intros Hpp%program_page_below; [fold pe in Hpp; lia | done]. }
      unfold unmapped. rewrite Hp. apply Hfree2; [done |]. intros [_ ?]%stack_page_user. lia.
  - intros i Hi. rewrite (ex_kernel _ _ _ _ _ Hx3), (ex_kernel _ _ _ _ _ Hx2) by lia. by apply Hhalf1.
Qed.

(** [C10] [from_elf] builds the address space of a program: with enough frames it
    returns a well-formed space with the program's segments in memory, the 16
    pages of the stack mapped below [STACK_TOP], an empty heap on the first
    page boundary after the program with free pages above it, and the kernel's
    upper half. *)
Theorem from_elf_builds kernel_table active file limit m a :
  elf_ok file -> alloc_wf a -> mem_sized m -> m !! kernel_table = Some active ->
  end_all (segments file) (e_entry file) + 4097 <= limit -> limit mod 4096 = 0 -> limit <= 2 ^ 46 ->
  avail (65 + 4 * load_pages_needed (segments file)) a ->
  exists s m' a', from_elf kernel_table file (m, a) = Ret (s, (m', a')) /\
    space_ok m' a' s /\ alloc_wf a' /\ program_start s = e_entry file /\ stack_top s = STACK_TOP /\
    (forall seg, seg ∈ segments file -> p_type seg = PT_LOAD -> seg_loaded m' (cr3 s) seg) /\
    (forall n, STACK_TOP / 4096 - 16 <= n < STACK_TOP / 4096 ->
      exists f, user_maps m' (cr3 s) n f /\ frame_full m' f) /\
    heap_end s = heap_start s /\ heap_ok m' s limit /\ kernel_half kernel_table m (cr3 s) m'.
Proof.
  intros H1 H2 H3 H4 H5 H6 H7 H8.
  destruct (from_elf_spec kernel_table active file limit m a 0 H1 H2 H3 H4 H5 H6 H7) as (s & m' & a' & E & [Hok Hwf _ _ _ _] & _ & H).
  { by rewrite Nat.add_0_r. }
  by exists s, m', a'.
Qed.


(** ** A program ready to run: [from_elf] followed by [copy_args_to_stack] *)
Definition args_at m (l4 rsp : Z) (strs : list (list Z)) : Prop :=
  rsp mod 8 = 0 /\ exists ptrs, length ptrs = length strs /\ Forall (fun p => 0 <= p < 2 ^ 47) ptrs /\
    (forall i b, (le_bytes 8 (Z.of_nat (length strs)) ++ concat (le_bytes 8 <$> ptrs) ++ le_bytes 8 0) !! i = Some b ->
      user_byte m l4 (rsp + Z.of_nat i) = Some b) /\
    (forall k x p, strs !! k = Some x -> ptrs !! k = Some p ->
      forall i b, (x ++ [0]) !! i = Some b -> user_byte m l4 (p + Z.of_nat i) = Some b).

Record ready_program m a (file : ElfFile) (strs : list (list Z)) (limit : Z) (s : AddressSpace) (rsp : Z) m' a' : Prop := {
  rp_space : new_space m a s m' a';
  rp_entry : program_start s = e_entry file;
  rp_segments seg : seg ∈ segments file -> p_type seg = PT_LOAD -> seg_loaded m' (cr3 s) seg;
  rp_args : args_at m' (cr3 s) rsp strs;
  rp_heap : heap_end s = heap_start s /\ heap_ok m' s limit
}.

(** Writing to the frame of one page leaves what other pages show. *)
Lemma other_page_byte m m' a s n f va :
  space_ok m a s -> user_pagenum n -> user_maps m (cr3 s) n f ->
  (forall g, g <> f -> m' !! g = m !! g) -> frame_full m' f -> user_addr va -> va / 4096 <> n ->
  user_byte m' (cr3 s) va = user_byte m (cr3 s) va.
Proof.
  intros Hok Hn Hf Hoth Hfull Hva Hne. destruct (data_write_ok m m' a s n f Hok Hn Hf Hoth Hfull) as [Hok' Hpte].
  assert (Hu : user_pagenum (va / 4096)).
  { unfold user_pagenum, user_addr in *. split; [apply Z.div_pos; lia | apply Z.div_lt_upper_bound; lia]. }
  unfold user_byte. rewrite !translate_addr_ok by (done || apply Hok || apply Hok').
  rewrite Hpte by by apply page_of_user. destruct (pte m (cr3 s) (page_of (va / 4096))) as [e|] eqn:He; [| done].
  cbn [mbind option_bind]. destruct (entry_frame e) as [g|] eqn:Hg; [| done]. cbn [mbind option_bind].
  apply read_byte_frame; [by eapply entry_frame_ok | apply Z.mod_pos_bound; lia |]. apply Hoth. intros ->.
  destruct Hf as (e' & He' & Hf' & _). apply Hne, page_of_inj; [done | done |].
  by eapply (so_once _ _ _ Hok); eauto using page_of_user.
Qed.

Lemma heap_ok_pte m m' s limit :
  (forall q, user_page q -> pte m' (cr3 s) q = pte m (cr3 s) q) -> heap_ok m s limit -> heap_ok m' s limit.
Proof.
  intros Hpte [H1 H2 H3 H4]. assert (Hl : limit / 4096 <= 2 ^ 34) by (apply (Z.div_le_mono limit (2 ^ 46)); lia).
  assert (Hh : heap_end s <= limit) by lia. pose proof (pages_to_limit (heap_end s) limit Hh ltac:(tauto)).
  assert (0 <= heap_start s / 4096) by (apply Z.div_pos; lia).
  assert (0 <= pages_to (heap_end s)) by (apply Z.div_pos; lia).
  split; [done | done | |].
  - intros n Hn. destruct (H3 n Hn) as (f & e & He & ?). exists f, e. rewrite Hpte; [done |].
    apply page_of_user. unfold user_pagenum. lia.
  - intros n Hn. unfold unmapped. rewrite Hpte; [by apply H4 |]. apply page_of_user. unfold user_pagenum. lia.
Qed.

Lemma program_spec kernel_table active file limit m a args program :
  let strs := program :: args in
  elf_ok file -> alloc_wf a -> mem_sized m -> m !! kernel_table = Some active ->
  end_all (segments file) (e_entry file) + 4097 <= limit -> limit mod 4096 = 0 -> limit <= 2 ^ 46 ->
  avail (65 + 4 * load_pages_needed (segments file)) a ->
  Forall (Forall is_byte) strs -> Forall (fun x => utf8_valid x = true) args -> stack_need strs <= 4096 ->
  exists s m1 a' rsp m', from_elf kernel_table file (m, a) = Ret (s, (m1, a')) /\
    copy_args_to_stack s args program m1 = Ret (args, rsp, m') /\
    ready_program m a file strs limit s rsp m' a' /\ kernel_half kernel_table m (cr3 s) m'.
Proof.
  intros strs Hfile Hwf Hsz Hk Hl1 Hl2 Hl3 Hav Hb Hu Hneed.
  destruct (from_elf_spec kernel_table active file limit m a 0 Hfile Hwf Hsz Hk Hl1 Hl2 Hl3)
    as (s & m1 & a' & E1 & Hns & _ & Hst & Htop & Hseg & Hstk & Hhe & Hhp & Hhalf); [by rewrite Nat.add_0_r |].
  set (n := STACK_TOP / 4096 - 1).
  assert (Hn : STACK_TOP / 4096 - 16 <= n < STACK_TOP / 4096) by (unfold n; lia).
  destruct (Hstk n Hn) as (f & Hf & Hfull). destruct (stack_page_user n Hn) as [Hun Hhi].
  pose proof (ns_ok _ _ _ _ _ Hns) as Hok. pose proof Hf as (e & He & Hef & _).
  assert (Hsp : stack_page s m1 e f).
  { split; rewrite ?Htop; [vm_compute; split; [split; [discriminate | reflexivity] | reflexivity]
      | apply Hok | exact He | done | | done].
    eapply (so_data _ _ _ Hok); eauto using page_of_user. }
  destruct (args_on_stack_spec s m1 e f Hsp args program Hb Hu Hneed) as (rsp & m' & ptrs & E2 & H8 & Hlp & Hpr & Hp1 & Hp2 & Hoth & Hfull').
  destruct (data_write_ok m1 m' a' s n f Hok Hun Hf Hoth Hfull') as [Hok' Hpte].
  exists s, m1, a', rsp, m'. split; [done |]. split; [done |]. split.
  2:{ intros i Hi. rewrite (ex_kernel _ _ _ _ _ (data_write_extends m1 m' a' s n f Hok Hun Hf Hoth Hfull')) by lia. by apply Hhalf. }
  split; [| done | | | split; [done | by apply (heap_ok_pte m1)]].
  - apply (new_space_extends m a s m1 a'); [done | by apply (data_write_extends m1 m' a' s n f) | done | apply Hns].
  - intros seg Hin Hty va Hva. pose proof (eo_segs _ Hfile seg Hin Hty) as [Ha Hs _].
    rewrite (other_page_byte m1 m' a' s n f); [by apply Hseg | done | done | done | done | done | unfold user_addr; lia |].
    assert (va / 4096 <= 2 ^ 46 / 4096) by (apply Z.div_le_mono; lia). change (2 ^ 46 / 4096) with (2 ^ 34) in *. lia.
  - split; [done |]. by exists ptrs.
Qed.

End Program.

Module ElfWitness.
#[local] Existing Instance align_down_frames.
#[local] Existing Instance align_down_frames_laws.
Import Memory.MemoryWitness PagingMap.PagingWitness.
#[local] Existing Instance page_api.
#[local] Existing Instance UserMem.UserMemWitness.addr_laws.

(** Two segments that share a page, and one that is not loaded. *)
Definition text : Segment :=
  {| p_type := 1; p_vaddr := 4194304; p_memsz := 8; p_filesz := 3; p_data := [1; 2; 3] |}.
Definition data : Segment :=
  {| p_type := 1; p_vaddr := 4194320; p_memsz := 100; p_filesz := 2; p_data := [7; 8] |}.
Definition note : Segment :=
  {| p_type := 4; p_vaddr := 0; p_memsz := 0; p_filesz := 0; p_data := [] |}.
Definition tiny : ElfFile := {| e_entry := 4194305; segments := [text; note; data] |}.
Definition mem0 : gmap Z (list Z) := {[ 4096 := replicate 512 0 ]}.

Lemma tiny_ok : elf_ok tiny.
Proof.
  assert (Ht : seg_ok text) by (split; simpl; [lia | lia | split; [reflexivity | repeat constructor; lia]]).
  assert (Hd : seg_ok data) by (split; simpl; [lia | lia | split; [reflexivity | repeat constructor; lia]]).
  split.
  - simpl. lia.
  - intros seg Hin Hty. simpl in Hin. rewrite !elem_of_cons, elem_of_nil in Hin.
    destruct Hin as [-> | [-> | [-> | []]]]; [done | discriminate Hty | done].
  - intros [|[|[|i]]] [|[|[|j]]] x y [= <-] [= <-] Hne Hx Hy; try done; try discriminate; unfold seg_disjoint; simpl; lia.
Qed.

Lemma mem0_sized : mem_sized mem0.
Proof. intros f ws. unfold mem0. rewrite lookup_singleton_Some. intros [_ <-]. reflexivity. Qed.

Lemma pc_wf : alloc_wf pc.
Proof. exact pc_ok. Qed.

Lemma load_elf_image_witness :
  exists m' a', load_elf tiny 4096 (m1, a1) = Ret (4194305, 4194420, (m', a')) /\
    space_ok m' a' space1 /\
    (forall seg, seg ∈ segments tiny -> p_type seg = PT_LOAD -> seg_loaded m' 4096 seg) /\
    (forall n f, user_pagenum n -> ~ program_page tiny n -> user_maps m1 4096 n f ->
      user_maps m' 4096 n f /\ m' !! f = m1 !! f).
Proof.
  apply (load_elf_image tiny space1 m1 a1 tiny_ok space1_ok a1_ok).
  - apply (mp_sized _ _ _ _ _ _ _ _ _ _ built_ok). unfold m0.
    apply mem_sized_insert; [apply mem_sized_insert; [| reflexivity] | reflexivity]. intros f ws. by rewrite lookup_empty.
  - intros n Hn. pose proof (covers_bound tiny n tiny_ok Hn). destruct Hn as (seg & Hin & Hty & _ & Hlt).
    apply UserMem.UserMemWitness.page1_elsewhere; [unfold user_pagenum; lia |].
    assert (n < 2048).
    { simpl in Hin. rewrite !elem_of_cons, elem_of_nil in Hin.
      destruct Hin as [-> | [-> | [-> | []]]]; [change (n < 1025) in Hlt; lia | discriminate Hty | change (n < 1025) in Hlt; lia]. }
    intros E. injection E as E1 E2 E3 E4. Z.to_euclidean_division_equations. lia.
  - apply can_allocate_avail. vm_compute. reflexivity.
Defined.

Lemma from_elf_builds_witness :
  exists s m' a', from_elf 4096 tiny (mem0, pc) = Ret (s, (m', a')) /\
    space_ok m' a' s /\ alloc_wf a' /\ program_start s = e_entry tiny /\ stack_top s = STACK_TOP /\
    (forall seg, seg ∈ segments tiny -> p_type seg = PT_LOAD -> seg_loaded m' (cr3 s) seg) /\
    (forall n, STACK_TOP / 4096 - 16 <= n < STACK_TOP / 4096 ->
      exists f, user_maps m' (cr3 s) n f /\ frame_full m' f) /\
    heap_end s = heap_start s /\ heap_ok m' s 8388608 /\ kernel_half 4096 mem0 (cr3 s) m'.
Proof.
  apply (from_elf_builds 4096 (replicate 512 0) tiny 8388608 mem0 pc tiny_ok pc_wf mem0_sized).
  - reflexivity.
  - vm_compute. discriminate.
  - reflexivity.
  - vm_compute. discriminate.
  - apply can_allocate_avail. vm_compute. reflexivity.
Defined.

(** The bytes at the two segments, evaluated. *)
Example tiny_bytes :
  match from_elf 4096 tiny (mem0, pc) with
  | Ret (s, (m, _)) => (heap_start s, (fun va => user_byte m (cr3 s) va) <$> [4194304; 4194306; 4194307; 4194320; 4194321; 4194322])
  | _ => (0, [])
  end = (4198400, [Some 1; Some 3; Some 0; Some 7; Some 8; Some 0]).
Proof. vm_compute. reflexivity. Qed.
End ElfWitness.
