(* ===== verification/Isolation.v ===== *)
(** * Address spaces of several processes

    Processes do not share frames: a table or a page of one is no table and no
    page of another, nor the kernel's root table.  Building an address space
    and growing one keep this, and leave what the other processes see as it
    was. *)
From S2P Require Import Prelude Memory Paging PagingMap UserMem UserStack Elf.

Section Isolation.
Context {A : Type} {FA : FrameAllocator A} {FL : FrameAllocatorLaws A} {PA : PageApi A} {PL : PageLaws A PA}
  {AA : AddrApi} {AL : AddrLaws PA AA}.
Implicit Types (m : gmap Z (list Z)) (a : A) (s : AddressSpace).

(** The frames of an address space are as they were. *)
Definition same_view m m' (l4 : Z) : Prop := forall f, owns m l4 f -> m' !! f = m !! f.

Lemma same_view_refl m l4 : same_view m m l4.
Proof. done. Qed.

Section View.
Context (m m' : gmap Z (list Z)) (a a' : A) (s : AddressSpace).
Context (Hok : space_ok m a s) (Hv : same_view m m' (cr3 s)).

Lemma view_tables t : is_table m (cr3 s) t -> m' !! t = m !! t.
Proof. intros Ht. apply Hv. by left. Qed.

Lemma view_pte q : user_page q -> pte m' (cr3 s) q = pte m (cr3 s) q.
Proof. apply agree_pte; [apply Hok | apply view_tables]. Qed.

Lemma view_owns f : owns m' (cr3 s) f <-> owns m (cr3 s) f.
Proof.
  unfold owns. rewrite (agree_is_table m m') by (apply Hok || apply view_tables).
  split; intros [? | (q & e & Hq & He & Hf)]; [by left | right | by left | right]; exists q, e; rewrite view_pte in * by done; done.
Qed.

Lemma view_space_ok : (forall f, taken a f -> taken a' f) -> space_ok m' a' s.
Proof.
  intros Hmono. pose proof Hok as [Hpt Htab Hfr Hda Honce].
  assert (Hit : forall t, is_table m' (cr3 s) t <-> is_table m (cr3 s) t)
    by (intros t; apply agree_is_table; [done | apply view_tables]).
  split.
  - apply (agree_pt_ok m); [done | apply view_tables].
  - intros t Ht%Hit. auto.
  - intros q e Hq. rewrite view_pte by done. intros He. destruct (Hfr q e Hq He) as (f & d & Hf & Hd & Ht).
    exists f, d. split; [done |]. split; [| auto]. rewrite Hv; [done |]. right. by exists q, e.
  - intros q e f Hq. rewrite view_pte, Hit by done. by apply Hda.
  - intros q q' e e' f Hq Hq'. rewrite !view_pte by done. by apply Honce.
Qed.

(** The process reads what it read. *)
Lemma view_user_byte va : user_addr va -> user_byte m' (cr3 s) va = user_byte m (cr3 s) va.
Proof.
  intros Hva. unfold user_byte.
  assert (Hpt' : pt_ok m' (cr3 s)) by (apply (agree_pt_ok m); [apply Hok | apply view_tables]).
  rewrite !translate_addr_ok by (done || apply Hok).
  assert (Hq : user_page (page_of (va / 4096))).
  { apply page_of_user. unfold user_pagenum, user_addr in *. split; [apply Z.div_pos; lia | apply Z.div_lt_upper_bound; lia]. }
  rewrite view_pte by done. destruct (pte m (cr3 s) (page_of (va / 4096))) as [e|] eqn:He; [| done].
  cbn [mbind option_bind]. destruct (entry_frame e) as [f|] eqn:Hf; [| done]. cbn [mbind option_bind].
  apply read_byte_frame; [by eapply entry_frame_ok | apply Z.mod_pos_bound; lia |].
  apply Hv. right. by exists (page_of (va / 4096)), e.
Qed.
End View.

Variable kernel_table : Z.

(** [live] gives the address space of each process. *)
Record isolated m a (live : Z -> option AddressSpace) : Prop := {
  is_wf : alloc_wf a;
  is_sized : mem_sized m;
  is_kernel : is_Some (m !! kernel_table);
  is_ktaken : taken a kernel_table;
  is_space x s : live x = Some s -> space_ok m a s /\ ~ owns m (cr3 s) kernel_table;
  is_disj x y s s' f : live x = Some s -> live y = Some s' -> x <> y ->
    owns m (cr3 s) f -> ~ owns m (cr3 s') f;
  is_half x s : live x = Some s -> kernel_half kernel_table m (cr3 s) m
}.

Lemma isolated_mono m a live live' :
  isolated m a live -> (forall x s, live' x = Some s -> live x = Some s) -> isolated m a live'.
Proof. intros [] Hl. split; eauto. Qed.

(** Process [n] gets the space [s'], made of frames of its old one and of free
    frames. *)
Lemma isolated_update m a live n s' m' a' live' :
  isolated m a live ->
  (forall x s0, live' x = Some s0 -> (x = n /\ s0 = s') \/ (x <> n /\ live x = Some s0)) ->
  space_ok m' a' s' -> alloc_wf a' -> (mem_sized m -> mem_sized m') -> (forall f, taken a f -> taken a' f) ->
  let old f := exists s, live n = Some s /\ owns m (cr3 s) f in
  (forall f, taken a f -> ~ old f -> m' !! f = m !! f) ->
  (forall f, owns m' (cr3 s') f -> old f \/ ~ taken a f) -> kernel_half kernel_table m (cr3 s') m' ->
  isolated m' a' live' /\ (forall x s, x <> n -> live x = Some s -> same_view m m' (cr3 s)).
Proof.
  intros [Hwf Hsz Hk Hkt Hsp Hdj Hhalf] Hlive Hok' Hwf' Hsz' Hmono old Hmem Hown Hhalf'.
  assert (Hview : forall x s, x <> n -> live x = Some s -> same_view m m' (cr3 s)).
  { intros x s Hne Hx f Hf. apply Hmem; [by eapply space_ok_owns; [apply (Hsp x) |] |].
    intros (s0 & Hn & Hf'). by apply (Hdj x n s s0 f). }
  assert (Hoth : forall x s f, x <> n -> live x = Some s -> owns m' (cr3 s) f <-> owns m (cr3 s) f).
  { intros x s f Hne Hx. apply (view_owns m m' a s); [by apply (Hsp x) | by apply (Hview x)]. }
  assert (Hnk : ~ old kernel_table) by (intros (s & Hn & Ho); by apply (Hsp n s Hn)).
  assert (Hcross : forall x s f, x <> n -> live x = Some s -> owns m (cr3 s) f -> ~ owns m' (cr3 s') f).
  { intros x s f Hne Hx Hf [(s0 & Hn & Hf') | Hnt]%Hown; [by apply (Hdj x n s s0 f) |].
    apply Hnt. eapply space_ok_owns; [by apply (Hsp x s Hx) | done]. }
  split; [| done]. split; auto.
  - by rewrite Hmem.
  - intros x s [[-> ->] | [Hne Hx]]%Hlive.
    + split; [done |]. intros [? | ?]%Hown; auto.
    + destruct (Hsp x s Hx) as [Hok Hnk']. split; [| by rewrite (Hoth x)].
      apply (view_space_ok m m' a); [done | by apply (Hview x) | done].
  - intros x y s s0 f [[-> ->] | [Hne Hx]]%Hlive [[-> ->] | [Hne' Hy]]%Hlive Hxy Hf.
    + done.
    + rewrite (Hoth y) by done. intros Hf'. by apply (Hcross y s0 f).
    + rewrite (Hoth x) in Hf by done. by apply (Hcross x s f).
    + rewrite (Hoth x) in Hf by done. rewrite (Hoth y s0 f Hne' Hy). by apply (Hdj x y s s0 f).
  - assert (Hks : forall i, slot m' kernel_table i = slot m kernel_table i) by (intros i; unfold slot; by rewrite Hmem).
    intros x s [[-> ->] | [Hne Hx]]%Hlive i Hi; rewrite Hks; [by apply Hhalf' |]. rewrite <- (Hhalf x s Hx i Hi).
    unfold slot. rewrite (Hview x s Hne Hx); [done |]. left. apply is_table_root.
Qed.

Lemma isolated_new m a live n s m' a' live' :
  isolated m a live -> new_space m a s m' a' -> kernel_half kernel_table m (cr3 s) m' ->
  (forall x s0, live' x = Some s0 -> (x = n /\ s0 = s) \/ (x <> n /\ live x = Some s0)) ->
  isolated m' a' live' /\ (forall x s0, x <> n -> live x = Some s0 -> same_view m m' (cr3 s0)).
Proof.
  intros Hi [Hok Hwf Hmono Hmem Hfr Hsz] Hhalf Hl. apply (isolated_update m a live n s); auto.
Qed.

Lemma isolated_extends m a live n s s' m' a' live' :
  isolated m a live -> live n = Some s -> extends m a (cr3 s) m' a' -> space_ok m' a' s' -> cr3 s' = cr3 s -> alloc_wf a' ->
  (forall x s0, live' x = Some s0 -> (x = n /\ s0 = s') \/ (x <> n /\ live x = Some s0)) ->
  isolated m' a' live' /\ (forall x s0, x <> n -> live x = Some s0 -> same_view m m' (cr3 s0)).
Proof.
  intros Hi Hn [Hmono Hmem Hown Hsz Hker] Hok Hc Hwf Hl.
  apply (isolated_update m a live n s'); auto.
  - intros f Hf Ho. apply Hmem; [done |]. intros ?. apply Ho. by exists s.
  - rewrite Hc. intros f [? | ?]%Hown; [left; by exists s | by right].
  - rewrite Hc. intros i Hi'. rewrite Hker by lia. by apply (is_half _ _ _ Hi n).
Qed.

(** A forked process reads what its parent reads. *)
Lemma forked_user_byte m a s s' m' a' va :
  space_ok m a s -> forked_space m a s s' m' a' -> user_addr va ->
  user_byte m' (cr3 s') va = user_byte m (cr3 s) va.
Proof.
  intros Hok [_ _ Hpage _ Hok'] Hva. unfold user_byte.
  rewrite !translate_addr_ok by (done || apply Hok || apply Hok').
  assert (Hq : user_page (page_of (va / 4096))).
  { apply page_of_user. unfold user_pagenum, user_addr in *. split; [apply Z.div_pos; lia | apply Z.div_lt_upper_bound; lia]. }
  specialize (Hpage _ Hq). destruct (pte m (cr3 s) (page_of (va / 4096))) as [e|] eqn:He; [| by rewrite Hpage].
  destruct Hpage as (e' & f & f' & -> & Hf & Hf' & _ & Hd & _). cbn [mbind option_bind]. rewrite Hf, Hf'. cbn [mbind option_bind].
  pose proof (Z.mod_pos_bound va 4096 ltac:(lia)) as Hx.
  unfold read_byte. pose proof (entry_frame_ok _ _ Hf) as Hfo. pose proof (entry_frame_ok _ _ Hf') as Hfo'.
  rewrite (proj1 (in_frame f _ Hfo Hx)), (proj1 (in_frame f' _ Hfo' Hx)), Hd.
  assert (Hmod : forall g, frame_ok g -> (g + va mod 4096) mod 4096 = va mod 4096 /\ (g + va mod 4096) mod 8 = va mod 4096 mod 8).
  { intros g [Hg _]. split.
    - rewrite Z.add_mod, Hg, Z.add_0_l, !Z.mod_mod by lia. done.
    - replace g with (g / 512 / 8 * 512 * 8) by (Z.to_euclidean_division_equations; lia).
      rewrite Z.add_comm, Z.mod_add by lia. done. }
  destruct (Hmod f Hfo) as [-> ->], (Hmod f' Hfo') as [-> ->]. done.
Qed.

(** A store of the program at a virtual address of its own. *)
Definition user_store (l4 va b : Z) m : outcome (gmap Z (list Z)) :=
  let! p := unwrap (translate_addr m l4 va) in write_byte m p b.

Lemma user_store_extends m a s va b m' :
  space_ok m a s -> mem_sized m -> user_addr va -> user_store (cr3 s) va b m = Ret m' ->
  extends m a (cr3 s) m' a /\ space_ok m' a s /\ (is_byte b -> user_byte m' (cr3 s) va = Some b).
Proof.
  intros Hok Hsz Hva H. unfold user_store in H. rewrite translate_addr_ok in H by (done || apply Hok).
  set (n := va / 4096) in *. assert (Hn : user_pagenum n).
  { unfold n, user_pagenum, user_addr in *. split; [apply Z.div_pos; lia | apply Z.div_lt_upper_bound; lia]. }
  destruct (pte m (cr3 s) (page_of n)) as [e|] eqn:He; [| done]. cbn [mbind option_bind] in H.
  destruct (entry_frame e) as [f|] eqn:Hf; [| done]. cbn [mbind option_bind unwrap obind] in H.
  assert (Hfok : frame_ok f) by by eapply entry_frame_ok.
  pose proof (Z.mod_pos_bound va 4096 ltac:(lia)) as Hx. destruct (in_frame f (va mod 4096) Hfok Hx) as [Hfa H0].
  destruct (so_frames _ _ _ Hok _ _ (page_of_user n Hn) He) as (f0 & d & Hf0 & Hd & Ht).
  assert (f0 = f) as -> by congruence.
  destruct (write_byte_frame m (f + va mod 4096) b m' H) as [Hoth Hfull]. rewrite Hfa in Hoth.
  assert (Hag : forall t, is_table m (cr3 s) t -> m' !! t = m !! t).
  { intros t Hit. apply Hoth. intros ->. by eapply (so_data _ _ _ Hok); eauto using page_of_user. }
  assert (Hpte : forall q, user_page q -> pte m' (cr3 s) q = pte m (cr3 s) q)
    by (intros q Hq; apply agree_pte; [apply Hok | done | done]).
  assert (Hit : forall t, is_table m' (cr3 s) t <-> is_table m (cr3 s) t)
    by (intros t; apply agree_is_table; [apply Hok | done]).
  split; [| split].
  - split; [done | | | | intros i _; unfold slot; by rewrite Hag by apply is_table_root].
    + intros g _ Hg. apply Hoth. intros ->. apply Hg. right. exists (page_of n), e. auto using page_of_user.
    + intros g [Hg | (q & e0 & Hq & He0 & Hg)]; left; [left; by apply Hit | right]. exists q, e0. by rewrite <- Hpte.
    + intros _ g ws Hg. destruct (decide (g = f)) as [-> | Hne]; [| rewrite Hoth in Hg by done; eauto].
      destruct (Hfull f) as (ws' & Hws' & ?); [exists d; eauto |]. congruence.
  - destruct Hok as [Hpt Htab Hfr Hda Honce]. split.
    + by apply (agree_pt_ok m).
    + intros t Ht'%Hit. auto.
    + intros q e0 Hq. rewrite Hpte by done. intros He0. destruct (Hfr q e0 Hq He0) as (g & dg & Hg & Hdg & Htg).
      destruct (decide (g = f)) as [-> | Hne].
      * destruct (Hfull f) as (ws' & Hws' & ?); [exists d; eauto |]. by exists f, ws'.
      * exists g, dg. by rewrite Hoth.
    + intros q e0 g Hq. rewrite Hpte, Hit by done. by apply Hda.
    + intros q q' e1 e2 g Hq Hq'. rewrite !Hpte by done. by apply Honce.
  - intros Hb.
    destruct (write_byte_ok m (f + va mod 4096) b H0) as (m1 & E & Hr & _); [rewrite Hfa; exists d; eauto | done |].
    assert (m1 = m') as -> by congruence.
    assert (Hpt' : pt_ok m' (cr3 s)) by (apply (agree_pt_ok m); [apply Hok | done]).
    unfold user_byte. rewrite translate_addr_ok by done. fold n.
    rewrite Hpte, He by by apply page_of_user. cbn [mbind option_bind]. rewrite Hf. cbn [mbind option_bind].
    rewrite Hr by done. by rewrite decide_True.
Qed.
End Isolation.
