(* ===== verification/Slab.v ===== *)
(** * Slabs

    The descriptor tables of processes are [slab::Slab]s: an interface with the
    behaviour the crate documents, and a table of optional slots that has it. *)
From S2P Require Import Prelude.

(** [slab_set] is assignment through [IndexMut], [slab_at] is [Index]. *)
Class Slab (S : Type) := {
  slab_new : S;
  slab_get : nat -> S -> option Z;
  slab_vacant_key : S -> nat;
  slab_insert : Z -> S -> nat * S;
  slab_remove : nat -> S -> outcome S;
  slab_set : nat -> Z -> S -> outcome S
}.

Section Ops.
Context {S : Type} {SL : Slab S}.
Definition slab_at (k : nat) (s : S) : outcome Z := unwrap (slab_get k s).
Definition slab_contains (k : nat) (s : S) : bool := bool_decide (is_Some (slab_get k s)).
Definition slab_of (vs : list Z) : S := foldl (fun s v => snd (slab_insert v s)) slab_new vs.
End Ops.

Class SlabLaws (S : Type) {SL : Slab S} : Prop := {
  slab_new_get k : slab_get k slab_new = None;
  slab_vacant s : slab_get (slab_vacant_key s) s = None;
  slab_insert_key v s : fst (slab_insert v s) = slab_vacant_key s;
  slab_insert_get v s k :
    slab_get k (snd (slab_insert v s)) = if decide (k = slab_vacant_key s) then Some v else slab_get k s;
  slab_remove_none k s : slab_get k s = None -> slab_remove k s = Panic;
  slab_remove_some k v s : slab_get k s = Some v ->
    exists s', slab_remove k s = Ret s' /\ forall j, slab_get j s' = if decide (j = k) then None else slab_get j s;
  slab_set_none k v s : slab_get k s = None -> slab_set k v s = Panic;
  slab_set_some k v w s : slab_get k s = Some w ->
    exists s', slab_set k v s = Ret s' /\ forall j, slab_get j s' = if decide (j = k) then Some v else slab_get j s;
  (** a slab from which nothing was removed uses the keys in order *)
  slab_fill vs : slab_vacant_key (slab_of vs) = length vs
}.

Section Laws.
Context {S : Type} {SL : Slab S} {SLL : SlabLaws S}.

Lemma slab_of_snoc vs v : slab_of (vs ++ [v]) = snd (slab_insert v (slab_of vs)).
Proof. unfold slab_of. by rewrite foldl_app. Qed.

(** The keys are the positions. *)
Lemma slab_of_get vs k : slab_get k (slab_of vs) = vs !! k.
Proof.
  induction vs as [|v vs IH] using rev_ind; [apply slab_new_get |].
  rewrite slab_of_snoc, slab_insert_get, slab_fill, IH. case_decide as E.
  - subst. by rewrite list_lookup_middle.
  - destruct (decide (k < length vs)%nat).
    + by rewrite lookup_app_l.
    + rewrite !lookup_ge_None_2; [done | rewrite length_app; simpl; lia | lia].
Qed.
End Laws.

(** ** A table of slots: the lowest free one is vacant *)
Section Table.
Fixpoint first_none (l : list (option Z)) : nat :=
  match l with
  | Some _ :: l => Datatypes.S (first_none l)
  | _ => 0%nat
  end.
Definition put (k : nat) (v : option Z) (l : list (option Z)) : list (option Z) :=
  if (k <? length l)%nat then <[k := v]> l else l ++ [v].

#[local] Instance table_slab : Slab (list (option Z)) := {
  slab_new := [];
  slab_get k l := mjoin (l !! k);
  slab_vacant_key := first_none;
  slab_insert v l := (first_none l, put (first_none l) (Some v) l);
  slab_remove k l := match mjoin (l !! k) with Some _ => Ret (<[k := None]> l) | None => Panic end;
  slab_set k v l := match mjoin (l !! k) with Some _ => Ret (<[k := Some v]> l) | None => Panic end
}.

Lemma first_none_get l : mjoin (l !! first_none l) = None.
Proof. induction l as [|[v|] l IH]; [done | done | done]. Qed.
Lemma first_none_le l : (first_none l <= length l)%nat.
Proof. induction l as [|[v|] l IH]; simpl; lia. Qed.

Lemma table_put_get k v l j : (k <= length l)%nat ->
  mjoin (put k (Some v) l !! j) = if decide (j = k) then Some v else mjoin (l !! j).
Proof.
  intros Hk. unfold put. destruct (Nat.ltb_spec k (length l)).
  - case_decide; [subst; by rewrite list_lookup_insert_eq | by rewrite list_lookup_insert_ne].
  - assert (k = length l) as -> by lia. case_decide as E; [subst; by rewrite list_lookup_middle |].
    destruct (decide (j < length l)%nat); [by rewrite lookup_app_l |].
    rewrite !lookup_ge_None_2; [done | lia | rewrite length_app; simpl; lia].
Qed.

Lemma set_get (k : nat) v w (l : list (option Z)) (j : nat) : mjoin (l !! k) = Some w ->
  mjoin (<[k := v]> l !! j) = if decide (j = k) then v else mjoin (l !! j).
Proof.
  intros Hk. assert (k < length l)%nat.
  { apply lookup_lt_is_Some. destruct (l !! k); [by eexists | done]. }
  case_decide; [subst; by rewrite list_lookup_insert_eq | by rewrite list_lookup_insert_ne].
Qed.

Lemma first_none_full (vs : list Z) : first_none (Some <$> vs) = length vs.
Proof. induction vs as [|v vs IH]; [done |]. cbn [fmap list_fmap first_none length]. by f_equal. Qed.

Lemma table_slab_of vs : slab_of vs = Some <$> vs.
Proof.
  induction vs as [|v vs IH] using rev_ind; [done |]. rewrite slab_of_snoc, IH. simpl.
  unfold put. rewrite first_none_full, length_fmap, Nat.ltb_irrefl. by rewrite fmap_app.
Qed.

#[local] Instance table_slab_laws : SlabLaws (list (option Z)).
Proof.
  split; simpl.
  - done.
  - apply first_none_get.
  - done.
  - intros v l k. apply table_put_get, first_none_le.
  - by intros k l ->.
  - intros k v l H. rewrite H. eexists. split; [done |]. intros j. by eapply set_get.
  - by intros k v l ->.
  - intros k v w l H. rewrite H. eexists. split; [done |]. intros j. by eapply set_get.
  - intros vs. rewrite table_slab_of. apply first_none_full.
Qed.
End Table.
