(* ===== verification/Lock.v ===== *)
(** * The interrupt-disabling lock of the scheduler

    [kernel/src/task/lock.rs]: [SimpleIrqLock::lock] and the [Drop] of its
    guard.  The state is the CPU's interrupt flag and the two globals. *)
From S2P Require Import Prelude.

Record IrqState := {
  interrupts : bool;           (** the IF flag: [interrupts::are_enabled()] *)
  IRQ_DISABLE_COUNTER : Z;
  WAS_IRQ_ENABLED : bool
}.

(** [fetch_add]/[fetch_sub] wrap at the width of [usize]. *)
Definition lock (s : IrqState) : IrqState :=
  let was_interrupt_enabled := interrupts s in
  let prev := IRQ_DISABLE_COUNTER s in
  {| interrupts := false;
     IRQ_DISABLE_COUNTER := wrap_u 64 (prev + 1);
     WAS_IRQ_ENABLED := if prev =? 0 then was_interrupt_enabled else WAS_IRQ_ENABLED s |}.

Definition unlock (s : IrqState) : IrqState :=
  let prev := IRQ_DISABLE_COUNTER s in
  {| interrupts := if (prev =? 1) && WAS_IRQ_ENABLED s then true else interrupts s;
     IRQ_DISABLE_COUNTER := wrap_u 64 (prev - 1);
     WAS_IRQ_ENABLED := WAS_IRQ_ENABLED s |}.

Inductive lock_op := Lock | Unlock.

Definition run_op (s : IrqState) (o : lock_op) : IrqState :=
  match o with Lock => lock s | Unlock => unlock s end.

Definition run_ops (s : IrqState) (os : list lock_op) : IrqState := foldl run_op s os.

(** Depth after a run of operations, [None] when a guard is dropped that was
    never taken.  Guards may be dropped in any order: only the depth counts. *)
Fixpoint depth (d : nat) (os : list lock_op) : option nat :=
  match os with
  | [] => Some d
  | Lock :: os => depth (S d) os
  | Unlock :: os => match d with O => None | S d => depth d os end
  end.

(** The state [d] nested locks leave, taken with interrupts as in [b]. *)
Definition held (b : bool) (d : nat) (s : IrqState) : Prop :=
  IRQ_DISABLE_COUNTER s = Z.of_nat d /\
  match d with
  | O => interrupts s = b
  | S _ => interrupts s = false /\ WAS_IRQ_ENABLED s = b
  end.

Lemma held_lock b d s : Z.of_nat d + 1 < 2 ^ 64 -> held b d s -> held b (S d) (lock s).
Proof.
  intros Hd [Hc Hs]. unfold held, lock; simpl. rewrite Hc.
  rewrite wrap_u_small by lia. split; [lia |]. destruct d as [|d]; [done |].
  destruct Hs as [_ Hw]. rewrite Hw. destruct (Z.eqb_spec (Z.of_nat (S d)) 0); [lia | done].
Qed.

Lemma held_unlock b d s : Z.of_nat d + 1 < 2 ^ 64 -> held b (S d) s -> held b d (unlock s).
Proof.
  intros Hd [Hc [Hi Hw]]. unfold held, unlock; simpl. rewrite Hc, Hi, Hw.
  rewrite wrap_u_small by lia.
  replace (Z.of_nat (S d) - 1) with (Z.of_nat d) by lia. split; [done |].
  destruct d as [|d]; [by destruct b |].
  destruct (Z.eqb_spec (Z.of_nat (S (S d))) 1); [lia | done].
Qed.

Lemma held_run b os d d' s :
  Z.of_nat d + Z.of_nat (length os) < 2 ^ 64 ->
  depth d os = Some d' -> held b d s -> held b d' (run_ops s os).
Proof.
  revert d s; induction os as [|[] os IH]; intros d s Hl Hd Hs; simpl in *.
  - congruence.
  - eapply IH; [| exact Hd | apply held_lock; [lia | done]]. lia.
  - destruct d as [|d]; [done |].
    eapply IH; [| exact Hd | apply held_unlock; [lia | done]]. lia.
Qed.

Definition idle (b : bool) : IrqState :=
  {| interrupts := b; IRQ_DISABLE_COUNTER := 0; WAS_IRQ_ENABLED := false |}.

(** Nesting: after any sequence of lock and drop operations started with
    no lock held, the counter is the number of guards alive; while a guard is
    alive interrupts are off, and when the last one is gone they are exactly
    as they were before the first lock. *)
Theorem irq_lock_restores s os d :
  IRQ_DISABLE_COUNTER s = 0 -> depth 0 os = Some d -> Z.of_nat (length os) < 2 ^ 64 ->
  IRQ_DISABLE_COUNTER (run_ops s os) = Z.of_nat d /\
  interrupts (run_ops s os) = match d with O => interrupts s | S _ => false end.
Proof.
  intros Hc Hd Hl.
  destruct (held_run (interrupts s) os 0 d s ltac:(lia) Hd) as [H1 H2]; [by split |].
  split; [done |]. destruct d; [done | by destruct H2].
Qed.

Lemma irq_lock_restores_witness :
  IRQ_DISABLE_COUNTER (run_ops (idle true) [Lock; Lock; Unlock; Unlock]) = 0 /\
  interrupts (run_ops (idle true) [Lock; Lock; Unlock; Unlock]) = true.
Proof.
  exact (irq_lock_restores (idle true) [Lock; Lock; Unlock; Unlock] 0
           eq_refl eq_refl ltac:(simpl; lia)).
Defined.

(** A critical section leaves the lock free, and the flag as it was. *)
Lemma lock_unlock_idle s :
  IRQ_DISABLE_COUNTER s = 0 ->
  IRQ_DISABLE_COUNTER (unlock (lock s)) = 0 /\ interrupts (unlock (lock s)) = interrupts s.
Proof.
  intros Hc. destruct (held_unlock (interrupts s) 0 (lock s)) as [H1 H2]; [lia | | done].
  apply held_lock; [lia | by split].
Qed.
