(* ===== verification/Thread.v ===== *)
(** * Threads and the scheduler

    [kernel/src/task/thread.rs], the timer interrupt of
    [kernel/src/interrupts.rs], the cleaner of [kernel/src/main.rs] and the
    stack switch of [kernel/src/switch.s].

    Thread control blocks are shared ([Arc<Mutex<..>>] in the thread list, raw
    pointers in [CURR_THREAD_PTR] and [MAIN_THREAD]), so they live in a store
    indexed by address and every reference is an address. *)
From S2P Require Import Prelude Lock.

Inductive BlockReason :=
| Paused
| Sleep (expiry : Z)
| Terminated (status : Z)
| CompositorWait
| WaitPipeRead (pipe : Z)
| WaitPipeWrite (pipe : Z)
| WaitThread (tid : Z)
| WaitStdin (tty : Z)
| TtyRenderWait
| AsyncExecutorWait
| WaitMouse (mouse : Z).

Inductive ThreadState := Ready | Running | Blocked (r : BlockReason).

#[global] Instance BlockReason_eq : EqDecision BlockReason.
Proof. solve_decision. Defined.
#[global] Instance ThreadState_eq : EqDecision ThreadState.
Proof. solve_decision. Defined.

Definition TIME_SLICE : Z := 100 * 1000000.
Definition TIME_BETWEEN_TICKS : Z := 1 * 1000000.
Definition KERNEL_STACK_SIZE : Z := 1 * 2097152.

Record ThreadControlBlock := {
  rsp : Z;
  rsp0 : Z;
  cr3 : Z;
  state : ThreadState;
  id : Z;
  stack : list Z;
  time_slice_remaining : Z;
  pcb : option Z               (** address of the process control block *)
}.

Definition set_state (s : ThreadState) (t : ThreadControlBlock) : ThreadControlBlock :=
  {| rsp := rsp t; rsp0 := rsp0 t; cr3 := cr3 t; state := s; id := id t; stack := stack t;
     time_slice_remaining := time_slice_remaining t; pcb := pcb t |}.
Definition set_slice (n : Z) (t : ThreadControlBlock) : ThreadControlBlock :=
  {| rsp := rsp t; rsp0 := rsp0 t; cr3 := cr3 t; state := state t; id := id t; stack := stack t;
     time_slice_remaining := n; pcb := pcb t |}.

(** Addresses the linker and the heap choose: the start-up hook, and where the
    stack of a new thread is allocated. *)
Record NewThread := {
  stack_base : Z;
  task_startup_hook : Z;
  active_cr3 : Z               (** [mov {}, cr3] *)
}.

Definition max_stack_len : Z := KERNEL_STACK_SIZE / 8.

(** [ThreadControlBlock::new]: the words of the first context switch, from
    [max_stack_len - 9] up: r15, r14, r13, r12, rbp, rbx, rflags, return. *)
Definition new_stack (return_address hook : Z) (rip rsp : option Z) : list Z :=
  replicate (Z.to_nat (max_stack_len - 9)) 0 ++
  [0; default 0 rsp; default 0 rip; return_address; 0; 0; 514; hook; 0].

Definition tcb_new (n : NewThread) (tid return_address : Z) (cr3 rip rsp : option Z)
  : ThreadControlBlock :=
  {| stack := new_stack return_address (task_startup_hook n) rip rsp;
     rsp := stack_base n + 8 * (max_stack_len - 9);
     rsp0 := stack_base n + 8 * (max_stack_len - 1);
     cr3 := default (active_cr3 n) cr3;
     state := Ready;
     time_slice_remaining := TIME_SLICE;
     id := tid;
     pcb := None |}.

(** [ThreadControlBlock::kmain]: the boot thread, on its own stack. *)
Definition tcb_kmain (cur_rsp cur_cr3 : Z) : ThreadControlBlock :=
  {| stack := []; pcb := None; rsp := cur_rsp; rsp0 := cur_rsp; cr3 := cur_cr3;
     state := Running; time_slice_remaining := TIME_SLICE; id := 1 |}.

(** The globals of the scheduler. *)
Record Kernel := {
  store : gmap Z ThreadControlBlock;
  threads : list Z;
  ready_queue : list Z;
  CURR_THREAD_PTR : Z;
  MAIN_THREAD : Z;
  NEEDS_RESCHEDULE : bool;
  ELAPSED : Z;
  irq : IrqState
}.

Definition set_store (m : gmap Z ThreadControlBlock) (k : Kernel) : Kernel :=
  {| store := m; threads := threads k; ready_queue := ready_queue k;
     CURR_THREAD_PTR := CURR_THREAD_PTR k; MAIN_THREAD := MAIN_THREAD k;
     NEEDS_RESCHEDULE := NEEDS_RESCHEDULE k; ELAPSED := ELAPSED k; irq := irq k |}.
Definition set_threads (l : list Z) (k : Kernel) : Kernel :=
  {| store := store k; threads := l; ready_queue := ready_queue k;
     CURR_THREAD_PTR := CURR_THREAD_PTR k; MAIN_THREAD := MAIN_THREAD k;
     NEEDS_RESCHEDULE := NEEDS_RESCHEDULE k; ELAPSED := ELAPSED k; irq := irq k |}.
Definition set_queue (q : list Z) (k : Kernel) : Kernel :=
  {| store := store k; threads := threads k; ready_queue := q;
     CURR_THREAD_PTR := CURR_THREAD_PTR k; MAIN_THREAD := MAIN_THREAD k;
     NEEDS_RESCHEDULE := NEEDS_RESCHEDULE k; ELAPSED := ELAPSED k; irq := irq k |}.
Definition set_curr (a : Z) (k : Kernel) : Kernel :=
  {| store := store k; threads := threads k; ready_queue := ready_queue k;
     CURR_THREAD_PTR := a; MAIN_THREAD := MAIN_THREAD k;
     NEEDS_RESCHEDULE := NEEDS_RESCHEDULE k; ELAPSED := ELAPSED k; irq := irq k |}.
Definition set_needs (b : bool) (k : Kernel) : Kernel :=
  {| store := store k; threads := threads k; ready_queue := ready_queue k;
     CURR_THREAD_PTR := CURR_THREAD_PTR k; MAIN_THREAD := MAIN_THREAD k;
     NEEDS_RESCHEDULE := b; ELAPSED := ELAPSED k; irq := irq k |}.
Definition set_elapsed (e : Z) (k : Kernel) : Kernel :=
  {| store := store k; threads := threads k; ready_queue := ready_queue k;
     CURR_THREAD_PTR := CURR_THREAD_PTR k; MAIN_THREAD := MAIN_THREAD k;
     NEEDS_RESCHEDULE := NEEDS_RESCHEDULE k; ELAPSED := e; irq := irq k |}.
Definition set_irq (i : IrqState) (k : Kernel) : Kernel :=
  {| store := store k; threads := threads k; ready_queue := ready_queue k;
     CURR_THREAD_PTR := CURR_THREAD_PTR k; MAIN_THREAD := MAIN_THREAD k;
     NEEDS_RESCHEDULE := NEEDS_RESCHEDULE k; ELAPSED := ELAPSED k; irq := i |}.

(** [SCHEDULER.lock()] and the drop of its guard. *)
Definition sched_lock (k : Kernel) : Kernel := set_irq (lock (irq k)) k.
Definition sched_unlock (k : Kernel) : Kernel := set_irq (unlock (irq k)) k.

(** [ready_queue.push_back] *)
Definition push_back (i : Z) (k : Kernel) : Kernel := set_queue (ready_queue k ++ [i]) k.

(** Write through a pointer to a thread control block. *)
Definition write_tcb (a : Z) (f : ThreadControlBlock -> ThreadControlBlock) (k : Kernel) : Kernel :=
  set_store (alter f a (store k)) k.

(** Read through a pointer; a dangling pointer is outside the language. *)
Definition read_tcb (k : Kernel) (a : Z) : outcome ThreadControlBlock := unwrap (store k !! a).

Definition has_id (k : Kernel) (i : Z) (a : Z) : bool :=
  match store k !! a with Some t => id t =? i | None => false end.

(** [threads.iter().find(|t| t.lock().id == id)] *)
Definition find_in (k : Kernel) (i : Z) : list Z -> option Z :=
  fix find (l : list Z) : option Z :=
    match l with
    | [] => None
    | a :: l => if has_id k i a then Some a else find l
    end.
Definition find_thread (k : Kernel) (i : Z) : option Z := find_in k i (threads k).

Definition pick_next_thread (k : Kernel) : outcome (Z * Kernel) :=
  match ready_queue k with
  | next_id :: q =>
      let k := set_queue q k in
      let! a := unwrap (find_thread k next_id) in
      Ret (a, write_tcb a (set_state Running) k)
  | [] => Ret (MAIN_THREAD k, write_tcb (MAIN_THREAD k) (set_state Running) k)
  end.

(** [Scheduler::spawn]; [addr] is where the new block is allocated. *)
Definition spawn (n : NewThread) (addr tid return_addr : Z) (k : Kernel) : Kernel :=
  let k := set_store (<[addr := tcb_new n tid return_addr None None None]> (store k)) k in
  let k := set_threads (threads k ++ [addr]) k in
  if tid >? 2 then push_back tid k else k.

(** [Arc::new(Mutex::new(tcb))]: a thread control block that is in no list yet. *)
Definition alloc_tcb (addr : Z) (t : ThreadControlBlock) (k : Kernel) : Kernel :=
  set_store (<[addr := t]> (store k)) k.

(** How [spawn_proc] and [fork] hand a new main thread to the scheduler. *)
Definition list_thread (addr tid : Z) (k : Kernel) : Kernel :=
  let k := sched_lock k in
  let k := set_threads (threads k ++ [addr]) k in
  let k := push_back tid k in
  sched_unlock k.

Definition enlist (addr : Z) (t : ThreadControlBlock) (k : Kernel) : Kernel :=
  list_thread addr (id t) (alloc_tcb addr t k).

Definition unblock_task (i : Z) (k : Kernel) : Kernel :=
  match find_thread k i with
  | Some a =>
      match store k !! a with
      | Some t =>
          match state t with
          | Blocked _ => set_needs true (push_back i (write_tcb a (set_state Ready) k))
          | _ => k
          end
      | None => k
      end
  | None => k
  end.

(** [switch_to_task]: the old stack pointer is saved by the assembly in the
    old block; what the scheduler sees is the new [CURR_THREAD_PTR]. *)
Definition switch_to_task (next : Z) (k : Kernel) : Kernel := set_curr next k.

(** [switch_if_needed] up to the end of the block that holds the scheduler's
    lock: the thread to switch to.  The drop of the guard enables interrupts
    again, so a timer interrupt may fall before [switch_to_task]. *)
Definition switch_pick (k : Kernel) : outcome (option Z * Kernel) :=
  if negb (NEEDS_RESCHEDULE k) then Ret (None, k) else
  if IRQ_DISABLE_COUNTER (irq k) >? 0 then Panic else
  let k := set_needs false k in
  let k := sched_lock k in
  let! curr := read_tcb k (CURR_THREAD_PTR k) in
  let k := if bool_decide (state curr = Running) && negb (id curr =? 1)
           then push_back (id curr)
                  (write_tcb (CURR_THREAD_PTR k) (fun t => set_slice TIME_SLICE (set_state Ready t)) k)
           else k in
  let! '(next, k) := pick_next_thread k in
  Ret (Some next, sched_unlock k).

Definition switch_if_needed (k : Kernel) : outcome Kernel :=
  let! '(next, k) := switch_pick k in
  Ret (match next with Some a => switch_to_task a k | None => k end).

(** The critical sections that take the running thread off the CPU.  Each is
    followed by [switch_if_needed]; an interrupt may fall in between. *)
Definition block_enter (reason : BlockReason) (k : Kernel) : Kernel :=
  let k := sched_lock k in
  let k := write_tcb (CURR_THREAD_PTR k)
             (fun t => set_slice TIME_SLICE (set_state (Blocked reason) t)) k in
  let k := set_needs true k in
  sched_unlock k.

Definition block_task (reason : BlockReason) (k : Kernel) : outcome Kernel :=
  switch_if_needed (block_enter reason k).

(** The lock that it drops under the scheduler's is not part of this state. *)
Definition block_task_drop_lock (reason : BlockReason) (k : Kernel) : outcome Kernel :=
  switch_if_needed (block_enter reason k).

Definition yield_enter (k : Kernel) : outcome Kernel :=
  let k := sched_lock k in
  let! curr := read_tcb k (CURR_THREAD_PTR k) in
  let k := write_tcb (CURR_THREAD_PTR k) (fun t => set_slice TIME_SLICE (set_state Ready t)) k in
  let k := push_back (id curr) k in
  let k := set_needs true k in
  Ret (sched_unlock k).

Definition yield_sched (k : Kernel) : outcome Kernel :=
  let! k := yield_enter k in switch_if_needed k.

(** [{ let mut s = SCHEDULER.lock(); s.unblock_task(id); }]: how interrupt
    handlers, pipes, terminals and system calls wake a thread. *)
Definition locked_unblock (i : Z) (k : Kernel) : Kernel :=
  sched_unlock (unblock_task i (sched_lock k)).

Definition terminate_enter (status : Z) (k : Kernel) : Kernel :=
  block_enter (Terminated status) (locked_unblock 2 k).

Definition terminate_task (status : Z) (k : Kernel) : outcome Kernel :=
  switch_if_needed (terminate_enter status k).

Definition get_time_since_boot (k : Kernel) : outcome Z := chk_u 64 (ELAPSED k * 1000000).

Definition nano_sleep_until (abs_time : Z) (k : Kernel) : outcome Kernel :=
  let! now := get_time_since_boot k in
  if abs_time <=? now then Ret k else block_task (Sleep abs_time) k.

Definition nano_sleep (nano_sec : Z) (k : Kernel) : outcome Kernel :=
  let! now := get_time_since_boot k in
  let! abs_time := chk_u 64 (now + nano_sec) in
  nano_sleep_until abs_time k.

(** [sys_sleep] of [syscall.rs]. *)
Definition sys_sleep (ms : Z) (k : Kernel) : outcome Kernel :=
  let! ns := chk_u 64 (ms * 1000000) in nano_sleep ns k.

(** The expired sleepers, in thread order. *)
Definition expired (now : Z) (k : Kernel) : list Z :=
  omap (fun a => match store k !! a with
                 | Some t => match state t with
                             | Blocked (Sleep e) => if e <=? now then Some (id t) else None
                             | _ => None
                             end
                 | None => None
                 end) (threads k).

Definition tick_account (k : Kernel) : outcome Kernel :=
  let! curr := read_tcb k (CURR_THREAD_PTR k) in
  if negb (id curr =? 1) then
    if time_slice_remaining curr <=? TIME_BETWEEN_TICKS then
      let k := write_tcb (CURR_THREAD_PTR k)
                 (fun t => set_state Ready (set_slice TIME_SLICE t)) k in
      Ret (set_needs true (push_back (id curr) k))
    else
      let! left := sub_u (time_slice_remaining curr) TIME_BETWEEN_TICKS in
      Ret (write_tcb (CURR_THREAD_PTR k) (set_slice left) k)
  else
    if negb (bool_decide (ready_queue k = [])) then Ret (set_needs true k) else Ret k.

(** The critical section of [timer_interrupt_handler]: [to_wake] is an array
    of 15 entries, and writing a sixteenth panics. *)
Definition tick_enter (k : Kernel) : outcome Kernel :=
  let prev := ELAPSED k in
  let k := set_elapsed (wrap_u 64 (prev + 1)) k in
  let! curr_time := chk_u 64 (prev + 1) in
  let! curr_time_ns := chk_u 64 (curr_time * 1000000) in
  let k := sched_lock k in
  let to_wake := expired curr_time_ns k in
  let! _ := ensure (length to_wake <=? 15)%nat in
  let k := foldl (fun k i => unblock_task i k) k to_wake in
  let! k := tick_account k in
  Ret (sched_unlock k).

Definition timer_interrupt_handler (k : Kernel) : outcome Kernel :=
  let! k := tick_enter k in switch_if_needed k.

Definition is_terminated (k : Kernel) (a : Z) : bool :=
  match store k !! a with
  | Some t => match state t with Blocked (Terminated _) => true | _ => false end
  | None => false
  end.

(** [Vec::remove] of the first match of [position]. *)
Fixpoint remove_first (p : Z -> bool) (l : list Z) : option (Z * list Z) :=
  match l with
  | [] => None
  | a :: l => if p a then Some (a, l)
              else match remove_first p l with
                   | Some (b, l') => Some (b, a :: l')
                   | None => None
                   end
  end.

(** One turn of [cleaner_task]; the removed block is freed at its end. *)
Definition cleaner_turn (k : Kernel) : outcome Kernel :=
  let k := sched_lock k in
  let r := remove_first (is_terminated k) (threads k) in
  let k1 := match r with Some (_, l) => set_threads l k | None => k end in
  let k1 := sched_unlock k1 in
  match r with
  | Some (a, _) => Ret (set_store (delete a (store k1)) k1)
  | None => block_task Paused k1
  end.
