(* ===== verification/ThreadInv.v ===== *)
(** * The scheduler's invariant

    The run queue holds exactly the threads that are ready (the cleaner,
    thread 2, apart), each once; the current thread is the boot thread or a
    listed one; no scheduler lock is held between the critical sections.
    Every operation of [Thread] preserves it, wherever the interrupts fall,
    and none of the panics of the scheduler can be reached. *)
From S2P Require Import Prelude Lock Thread.

Abbreviation tstore := (gmap Z ThreadControlBlock).

Record core (m : tstore) (ts q : list Z) (main : Z) : Prop := {
  core_main : exists t, m !! main = Some t /\ id t = 1;
  core_main_out : main ∉ ts;
  core_live a : a ∈ ts -> exists t, m !! a = Some t /\ id t <> 1;
  core_uniq a b ta tb : a ∈ ts -> b ∈ ts -> m !! a = Some ta -> m !! b = Some tb ->
    id ta = id tb -> a = b;
  core_nodup : NoDup ts;
  core_queue_nodup : NoDup q;
  core_queue i : i ∈ q -> exists a t, a ∈ ts /\ m !! a = Some t /\ id t = i /\ state t = Ready;
  core_ready a t : a ∈ ts -> m !! a = Some t -> state t = Ready -> id t <> 2 -> id t ∈ q
}.

Definition core_of (k : Kernel) : Prop :=
  core (store k) (threads k) (ready_queue k) (MAIN_THREAD k).

Definition knows (k : Kernel) (c : Z) : Prop := c = MAIN_THREAD k \/ c ∈ threads k.

Record sched_inv (k : Kernel) : Prop := {
  inv_core : core_of k;
  inv_curr : knows k (CURR_THREAD_PTR k);
  inv_irq : IRQ_DISABLE_COUNTER (irq k) = 0
}.

(** ** Lookups *)
Lemma find_in_spec k i l a :
  find_in k i l = Some a -> a ∈ l /\ exists t, store k !! a = Some t /\ id t = i.
Proof.
  induction l as [|b l IH]; simpl; [done |].
  destruct (has_id k i b) eqn:E; intros H.
  - injection H as ->. split; [apply list_elem_of_here |].
    unfold has_id in E. destruct (store k !! a) as [t|]; [|done]. exists t. split; [done | lia].
  - destruct (IH H) as [? ?]. split; [by apply list_elem_of_further | done].
Qed.

Lemma find_in_complete k i l a t :
  a ∈ l -> store k !! a = Some t -> id t = i -> is_Some (find_in k i l).
Proof.
  intros Ha Ht Hi. induction l as [|b l IH]; [by apply elem_of_nil in Ha |]. simpl.
  destruct (has_id k i b) eqn:E; [done |].
  apply elem_of_cons in Ha as [-> | Ha]; [| auto].
  unfold has_id in E. rewrite Ht in E. lia.
Qed.

Lemma find_thread_unique k i a t :
  core_of k -> a ∈ threads k -> store k !! a = Some t -> id t = i -> find_thread k i = Some a.
Proof.
  intros Hc Ha Ht Hi. destruct (find_in_complete k i _ a t Ha Ht Hi) as [b Hb].
  unfold find_thread. rewrite Hb. destruct (find_in_spec _ _ _ _ Hb) as (? & tb & ? & ?).
  f_equal. eapply (core_uniq _ _ _ _ Hc); eauto. congruence.
Qed.

(** Thread records after a write through a pointer. *)
Lemma lookup_write (m : tstore) a f b t :
  alter f a m !! b = Some t ->
  exists t0, m !! b = Some t0 /\ t = if decide (a = b) then f t0 else t0.
Proof.
  rewrite lookup_alter. case_decide as E; [| eauto].
  subst. destruct (m !! b) as [t0|]; simpl; [intros [= <-]; eauto | done].
Qed.

Lemma lookup_write_some (m : tstore) a f b t :
  m !! b = Some t -> alter f a m !! b = Some (if decide (a = b) then f t else t).
Proof. intros H. rewrite lookup_alter. case_decide as E; subst; by rewrite H. Qed.

(** Writes keep thread numbers. *)
Definition keeps_id (f : ThreadControlBlock -> ThreadControlBlock) : Prop :=
  forall t, id (f t) = id t.

Lemma keeps_id_state s : keeps_id (set_state s).
Proof. done. Qed.
Lemma keeps_id_slice n : keeps_id (set_slice n).
Proof. done. Qed.
Lemma keeps_id_comp f g : keeps_id f -> keeps_id g -> keeps_id (fun t => f (g t)).
Proof. intros Hf Hg t. by rewrite Hf, Hg. Qed.

Create HintDb sched.
#[export] Hint Resolve keeps_id_state keeps_id_slice keeps_id_comp : sched.

(** ** Preservation of the core by the primitive writes *)
Section Core.
Context (m : tstore) (ts q : list Z) (main a : Z) (f : ThreadControlBlock -> ThreadControlBlock).
Context (Hc : core m ts q main) (Hf : keeps_id f).

(** What the write leaves alone, whatever it does to states and queue. *)
Lemma core_write_frame (q' : list Z) :
  NoDup q' ->
  (forall i, i ∈ q' -> exists b t, b ∈ ts /\ alter f a m !! b = Some t /\ id t = i /\ state t = Ready) ->
  (forall b t, b ∈ ts -> alter f a m !! b = Some t -> state t = Ready -> id t <> 2 -> id t ∈ q') ->
  core (alter f a m) ts q' main.
Proof.
  intros Hnd Hq Hr. destruct Hc as [[tm [Hm Hi]] Hout Hlive Huniq Hts _ _ _].
  split; [ | done | | | done | done | done | done].
  - eexists. split; [by apply lookup_write_some |]. case_decide; [by rewrite Hf | done].
  - intros b Hb. destruct (Hlive b Hb) as (t & Ht & ?). eexists.
    split; [by apply lookup_write_some |]. case_decide; [by rewrite Hf | done].
  - intros b c tb tc Hb Hcc Htb Htc Heq.
    apply lookup_write in Htb as (tb0 & ? & ->). apply lookup_write in Htc as (tc0 & ? & ->).
    eapply Huniq; eauto. repeat case_decide; rewrite ?Hf in Heq; done.
Qed.

Lemma core_write_other (ta : ThreadControlBlock) :
  m !! a = Some ta -> (a ∈ ts -> state ta <> Ready /\ state (f ta) <> Ready) ->
  core (alter f a m) ts q main.
Proof.
  intros Ha Hst. apply core_write_frame; [apply Hc | |].
  - intros i Hi. destruct (core_queue _ _ _ _ Hc i Hi) as (b & t & Hb & Ht & Hid & Hr).
    exists b, t. split; [done |]. split; [| done]. rewrite lookup_alter_ne; [done |].
    intros ->. simplify_eq. by apply (proj1 (Hst Hb)).
  - intros b t Hb Ht Hr Hn. apply lookup_write in Ht as (t0 & Ht0 & ->).
    case_decide; subst; [simplify_eq; by apply (proj2 (Hst Hb)) in Hr |].
    eapply (core_ready _ _ _ _ Hc); eauto.
Qed.

Lemma core_make_ready (ta : ThreadControlBlock) :
  a ∈ ts -> m !! a = Some ta -> state ta <> Ready -> state (f ta) = Ready ->
  core (alter f a m) ts (q ++ [id ta]) main.
Proof.
  intros Hin Ha Hst Hst'.
  assert (id ta ∉ q) as Hnq.
  { intros Hi. destruct (core_queue _ _ _ _ Hc _ Hi) as (b & t & Hb & Ht & Hid & Hr).
    assert (b = a) as -> by (eapply (core_uniq _ _ _ _ Hc); eauto). by simplify_eq. }
  apply core_write_frame.
  - apply NoDup_app. split; [apply Hc |]. split; [| apply NoDup_singleton].
    intros i Hi ->%list_elem_of_singleton. done.
  - intros i [Hi | ->%list_elem_of_singleton]%elem_of_app.
    + destruct (core_queue _ _ _ _ Hc _ Hi) as (b & t & Hb & Ht & Hid & Hr).
      exists b, t. split; [done |]. split; [| done]. rewrite lookup_alter_ne; [done |].
      intros ->. by simplify_eq.
    + exists a, (f ta). split; [done |]. split; [| by rewrite Hf].
      erewrite lookup_write_some by done. by case_decide.
  - intros b t Hb Ht Hr Hn. apply lookup_write in Ht as (t0 & Ht0 & ->). apply elem_of_app.
    case_decide; subst.
    + right. simplify_eq. rewrite Hf. by apply list_elem_of_singleton.
    + left. eapply (core_ready _ _ _ _ Hc); eauto.
Qed.

Lemma core_dequeue (i : Z) (q0 : list Z) (ta : ThreadControlBlock) :
  q = i :: q0 -> a ∈ ts -> m !! a = Some ta -> id ta = i -> state (f ta) <> Ready ->
  core (alter f a m) ts q0 main.
Proof.
  intros Hq Hin Ha Hid Hst.
  pose proof (core_queue_nodup _ _ _ _ Hc) as Hqn. rewrite Hq in Hqn.
  apply NoDup_cons in Hqn as [Hni Hnd].
  apply core_write_frame; [done | |].
  - intros j Hj.
    destruct (core_queue _ _ _ _ Hc j) as (b & t & Hb & Ht & Hid' & Hr);
      [rewrite Hq; by apply list_elem_of_further |].
    exists b, t. split; [done |]. split; [| done]. rewrite lookup_alter_ne; [done |].
    intros ->. simplify_eq.
  - intros b t Hb Ht Hr Hn. apply lookup_write in Ht as (t0 & Ht0 & ->).
    case_decide as Eab; [subst b; by simplify_eq |].
    pose proof (core_ready _ _ _ _ Hc b t0 Hb Ht0 Hr Hn) as Hin'. rewrite Hq in Hin'.
    apply elem_of_cons in Hin' as [E | ?]; [| done].
    exfalso. apply Eab. eapply (core_uniq _ _ _ _ Hc); eauto. congruence.
Qed.
End Core.

(** ** The operations *)
Lemma unblock_task_irq i k : irq (unblock_task i k) = irq k.
Proof. unfold unblock_task. repeat case_match; reflexivity. Qed.

Lemma unblock_task_frame i k :
  threads (unblock_task i k) = threads k /\ MAIN_THREAD (unblock_task i k) = MAIN_THREAD k /\
  CURR_THREAD_PTR (unblock_task i k) = CURR_THREAD_PTR k.
Proof. unfold unblock_task. by repeat case_match. Qed.

Lemma unblock_task_core i k : core_of k -> core_of (unblock_task i k).
Proof.
  intros Hc. unfold unblock_task. destruct (find_thread k i) as [a|] eqn:Hf; [| done].
  destruct (find_in_spec _ _ _ _ Hf) as (Hin & t & Ht & <-).
  rewrite Ht. destruct (state t) as [| | r] eqn:Hst; [done | done |].
  unfold core_of; simpl. apply core_make_ready; [done | done | done | done | congruence | done].
Qed.

Lemma unblock_fold_core l k :
  core_of k -> core_of (foldl (fun k i => unblock_task i k) k l) /\
    irq (foldl (fun k i => unblock_task i k) k l) = irq k /\
    threads (foldl (fun k i => unblock_task i k) k l) = threads k /\
    MAIN_THREAD (foldl (fun k i => unblock_task i k) k l) = MAIN_THREAD k /\
    CURR_THREAD_PTR (foldl (fun k i => unblock_task i k) k l) = CURR_THREAD_PTR k.
Proof.
  revert k; induction l as [|i l IH]; intros k Hk; simpl; [done |].
  destruct (IH (unblock_task i k) (unblock_task_core i k Hk)) as (? & -> & -> & -> & ->).
  rewrite unblock_task_irq. by destruct (unblock_task_frame i k) as (-> & -> & ->).
Qed.

(** The thread that is picked is running. *)
Definition runs (k : Kernel) (a : Z) : Prop :=
  a = MAIN_THREAD k \/ exists t, a ∈ threads k /\ store k !! a = Some t /\ state t = Running.

Lemma runs_knows k a : runs k a -> knows k a.
Proof. intros [? | (t & ? & _)]; [by left | by right]. Qed.

Lemma pick_next_thread_inv k :
  core_of k ->
  exists next k', pick_next_thread k = Ret (next, k') /\ core_of k' /\ runs k' next /\
    irq k' = irq k /\ threads k' = threads k /\ MAIN_THREAD k' = MAIN_THREAD k /\
    CURR_THREAD_PTR k' = CURR_THREAD_PTR k /\ NEEDS_RESCHEDULE k' = NEEDS_RESCHEDULE k /\
    match ready_queue k with
    | i :: q => find_thread k i = Some next /\ ready_queue k' = q
    | [] => next = MAIN_THREAD k /\ ready_queue k' = []
    end.
Proof.
  intros Hc. unfold pick_next_thread. destruct (ready_queue k) as [|i q] eqn:Hrq.
  - destruct (core_main _ _ _ _ Hc) as (tm & Htm & Hid).
    pose proof (core_main_out _ _ _ _ Hc) as Hout.
    eexists _, _. split; [done |]. unfold core_of; simpl. split; [| split; [by left | done]].
    eapply core_write_other; eauto with sched.
  - destruct (core_queue _ _ _ _ Hc i) as (a & t & Ha & Ht & Hid & Hst).
    { rewrite Hrq. apply list_elem_of_here. }
    pose proof (find_thread_unique k i a t Hc Ha Ht Hid) as Hf.
    change (find_thread (set_queue q k) i) with (find_thread k i). rewrite Hf. simpl.
    eexists _, _. split; [done |]. unfold core_of; simpl. split; [| split; [| done]].
    + eapply core_dequeue; eauto with sched.
    + right. exists (set_state Running t). split; [done |]. split; [| done]. simpl.
      erewrite lookup_write_some by done. by rewrite decide_True.
Qed.

(** The current thread, unless it is the boot thread, is running: the state in
    which it can call into the scheduler. *)
Definition may_call (k : Kernel) : Prop :=
  forall t, CURR_THREAD_PTR k ∈ threads k -> store k !! CURR_THREAD_PTR k = Some t -> state t = Running.

Lemma curr_live k : core_of k -> forall c,
  knows k c -> exists t, store k !! c = Some t /\ (id t = 1 <-> c = MAIN_THREAD k).
Proof.
  intros Hc c [-> | Hin].
  - destruct (core_main _ _ _ _ Hc) as (t & ? & ?). by exists t.
  - destruct (core_live _ _ _ _ Hc c Hin) as (t & ? & ?). exists t. split; [done |].
    split; [done |]. intros ->. by destruct (core_main_out _ _ _ _ Hc).
Qed.

(** Putting the running thread back in the queue. *)
Lemma requeue_core f k t :
  core_of k -> CURR_THREAD_PTR k ∈ threads k -> store k !! CURR_THREAD_PTR k = Some t ->
  state t = Running -> keeps_id f -> state (f t) = Ready ->
  core_of (push_back (id t) (write_tcb (CURR_THREAD_PTR k) f k)).
Proof.
  intros Hc Hin Ht Hst Hf Hst'. unfold core_of; simpl.
  apply core_make_ready; [done | done | done | done | congruence | done].
Qed.

Lemma sched_unlock_counter k :
  IRQ_DISABLE_COUNTER (irq k) = 1 -> IRQ_DISABLE_COUNTER (irq (sched_unlock k)) = 0.
Proof. intros H. simpl. rewrite H. reflexivity. Qed.

Lemma sched_lock_counter k :
  IRQ_DISABLE_COUNTER (irq k) = 0 -> IRQ_DISABLE_COUNTER (irq (sched_lock k)) = 1.
Proof. intros H. simpl. rewrite H. reflexivity. Qed.

(** The critical section of [switch_if_needed]. *)
Lemma switch_pick_inv k :
  sched_inv k ->
  exists next k', switch_pick k = Ret (next, k') /\ sched_inv k' /\ threads k' = threads k /\
    MAIN_THREAD k' = MAIN_THREAD k /\ CURR_THREAD_PTR k' = CURR_THREAD_PTR k /\ NEEDS_RESCHEDULE k' = false /\
    match next with
    | Some a => runs k' a /\ NEEDS_RESCHEDULE k = true
    | None => k' = k /\ NEEDS_RESCHEDULE k = false
    end.
Proof.
  intros Hi. pose proof Hi as [Hc Hkn Hirq]. unfold switch_pick.
  destruct (NEEDS_RESCHEDULE k) eqn:Hneeds; simpl; [| by exists None, k].
  rewrite Hirq. simpl. unfold read_tcb. simpl.
  destruct (curr_live k Hc _ Hkn) as (t & Ht & Hid). rewrite Ht. simpl obind.
  set (k1 := sched_lock (set_needs false k)). set (k2 := if _ && _ then _ else k1).
  assert (core_of k2 /\ irq k2 = irq k1 /\ threads k2 = threads k /\ MAIN_THREAD k2 = MAIN_THREAD k /\
    CURR_THREAD_PTR k2 = CURR_THREAD_PTR k /\ NEEDS_RESCHEDULE k2 = false) as (Hc2 & Hi2 & Ht2 & Hm2 & Hcu2 & Hn2).
  { unfold k2. case_bool_decide as Hst; [destruct (Z.eqb_spec (id t) 1) as [Eid | Eid] |]; simpl andb; cbv iota;
      [done | | done].
    split; [| done]. apply (requeue_core _ k1 t); try done.
    destruct Hkn as [E | ?]; [by destruct Eid; apply Hid | done]. }
  destruct (pick_next_thread_inv k2 Hc2) as (next & k3 & Hp & Hc3 & Hr3 & Hi3 & Ht3 & Hm3 & Hcu3 & Hn3 & _).
  rewrite Hp. simpl obind. exists (Some next), (sched_unlock k3). split; [done |].
  split; [| simpl; split_and!; congruence || done]. split.
  - done.
  - unfold knows. simpl. by rewrite Hcu3, Hcu2, Hm3, Hm2, Ht3, Ht2.
  - apply sched_unlock_counter. rewrite Hi3, Hi2. by apply sched_lock_counter.
Qed.

Lemma switch_to_inv next k : sched_inv k -> knows k next -> sched_inv (switch_to_task next k).
Proof. intros [Hc _ Hirq] Hn. by split. Qed.

Lemma runs_may_call next k : core_of k -> runs k next -> may_call (switch_to_task next k).
Proof.
  intros Hc [-> | (t & ? & Ht & ?)] t' Hin Ht'; simpl in *; [by destruct (core_main_out _ _ _ _ Hc) | congruence].
Qed.

Lemma switch_if_needed_inv k :
  sched_inv k ->
  exists k', switch_if_needed k = Ret k' /\ sched_inv k' /\ threads k' = threads k /\
    NEEDS_RESCHEDULE k' = false /\ (NEEDS_RESCHEDULE k = true -> may_call k').
Proof.
  intros Hi. destruct (switch_pick_inv k Hi) as (next & k1 & E & Hi1 & Ht & Hm & Hcu & Hn & Hnext).
  unfold switch_if_needed. rewrite E. simpl obind. destruct next as [a|].
  - destruct Hnext as [Hr _]. eexists. split; [done |]. split; [by apply switch_to_inv, runs_knows |].
    split; [done |]. split; [done |]. intros _. apply runs_may_call; [apply Hi1 | done].
  - destruct Hnext as [-> Hf]. exists k. split; [done |]. split; [done |]. split; [done |]. split; [done |]. congruence.
Qed.

Lemma block_enter_inv r k :
  sched_inv k -> may_call k -> sched_inv (block_enter r k) /\ threads (block_enter r k) = threads k.
Proof.
  intros [Hc Hkn Hirq] Hmay. split; [| done].
  destruct (curr_live k Hc _ Hkn) as (t & Ht & _). split; [| done | simpl; by rewrite Hirq].
  unfold core_of; simpl. eapply core_write_other; [done | auto with sched | done |].
  intros Hin. rewrite (Hmay t Hin Ht). done.
Qed.

(** Waking any number of threads in one critical section. *)
Lemma locked_fold_inv l k :
  sched_inv k -> sched_inv (sched_unlock (foldl (fun k i => unblock_task i k) (sched_lock k) l)).
Proof.
  intros [Hc Hkn Hirq]. destruct (unblock_fold_core l (sched_lock k) Hc) as (Hc2 & Hi2 & Ht2 & Hm2 & Hcu2).
  split; [done | unfold knows; simpl; by rewrite Hcu2, Hm2, Ht2 |].
  apply sched_unlock_counter. rewrite Hi2. by apply sched_lock_counter.
Qed.

Lemma locked_unblock_inv i k :
  sched_inv k -> sched_inv (locked_unblock i k) /\ threads (locked_unblock i k) = threads k.
Proof.
  intros [Hc Hkn Hirq]. unfold locked_unblock. destruct (unblock_task_frame i (sched_lock k)) as (Hth & Hm & Hcu).
  split; [| done]. split.
  - by apply (unblock_task_core i (sched_lock k)).
  - unfold knows. simpl. by rewrite Hcu, Hm, Hth.
  - apply sched_unlock_counter. rewrite unblock_task_irq. by apply sched_lock_counter.
Qed.

(** Waking a thread does not stop the current one. *)
Lemma unblock_task_may_call i k : may_call k -> may_call (unblock_task i k).
Proof.
  intros Hm. unfold unblock_task.
  destruct (find_thread k i) as [a|] eqn:Hf; [| done].
  destruct (store k !! a) as [t|] eqn:Ht; [| done].
  destruct (state t) as [| | r] eqn:Hst; [done | done |].
  intros tc Hin Htc. simpl in *. apply lookup_write in Htc as (t0 & Ht0 & ->).
  case_decide; [| by apply Hm]. subst. simplify_eq. by rewrite (Hm t) in Hst.
Qed.

Lemma terminate_enter_inv st k :
  sched_inv k -> may_call k ->
  sched_inv (terminate_enter st k) /\ threads (terminate_enter st k) = threads k.
Proof.
  intros Hi Hm. unfold terminate_enter. destruct (locked_unblock_inv 2 k Hi) as [H1 H2].
  destruct (block_enter_inv (Terminated st) (locked_unblock 2 k) H1) as [? ?]; [| by rewrite H2 in *].
  by apply (unblock_task_may_call 2 (sched_lock k)).
Qed.

Lemma yield_enter_inv k :
  sched_inv k -> may_call k -> CURR_THREAD_PTR k ∈ threads k ->
  exists k', yield_enter k = Ret k' /\ sched_inv k' /\ threads k' = threads k.
Proof.
  intros [Hc Hkn Hirq] Hmay Hin.
  destruct (core_live _ _ _ _ Hc _ Hin) as (t & Ht & _).
  unfold yield_enter, read_tcb. simpl. rewrite Ht. simpl.
  eexists. split; [done |]. split; [| done]. split; [| done | simpl; by rewrite Hirq].
  apply (requeue_core _ (sched_lock k) t); try done; by apply Hmay.
Qed.

(** A current thread that has stopped (it is between the critical section that
    takes it off the CPU and the switch) has more than a tick left of the
    slice it was given there: fewer than a hundred ticks fall in between. *)
Definition tick_ok (k : Kernel) : Prop :=
  forall t, CURR_THREAD_PTR k ∈ threads k -> store k !! CURR_THREAD_PTR k = Some t ->
    state t <> Running -> TIME_BETWEEN_TICKS < time_slice_remaining t.

Lemma unblock_task_tick_ok i k : tick_ok k -> tick_ok (unblock_task i k).
Proof.
  intros Hm. unfold unblock_task.
  destruct (find_thread k i) as [a|] eqn:Hf; [| done].
  destruct (store k !! a) as [t|] eqn:Ht; [| done].
  destruct (state t) as [| | r] eqn:Hst; [done | done |].
  intros tc Hin Htc Hns. simpl in *. apply lookup_write in Htc as (t0 & Ht0 & ->).
  case_decide; [| by apply Hm]. subst. simplify_eq. simpl. apply (Hm t); [done | done | congruence].
Qed.

Lemma unblock_fold_tick_ok l k : tick_ok k -> tick_ok (foldl (fun k i => unblock_task i k) k l).
Proof. revert k; induction l as [|i l IH]; intros k Hk; simpl; [done |]. by apply IH, unblock_task_tick_ok. Qed.

(** What the switch needs so as not to panic. *)
Record switchable (k : Kernel) : Prop := {
  sw_queue i : i ∈ ready_queue k -> is_Some (find_thread k i);
  sw_curr : exists t, store k !! CURR_THREAD_PTR k = Some t /\ (id t <> 1 -> CURR_THREAD_PTR k ∈ threads k);
  sw_irq : IRQ_DISABLE_COUNTER (irq k) = 0
}.

Lemma find_thread_same k k' i :
  threads k' = threads k -> (forall a, id <$> store k' !! a = id <$> store k !! a) -> find_thread k' i = find_thread k i.
Proof.
  intros Et Es. unfold find_thread. rewrite Et. clear Et. induction (threads k) as [|a l IH]; simpl; [done |].
  rewrite IH. unfold has_id. specialize (Es a). destruct (store k' !! a) as [t'|], (store k !! a) as [t|]; try done.
  simpl in Es. injection Es as ->. done.
Qed.

Lemma write_ids a f (m : tstore) b : keeps_id f -> id <$> alter f a m !! b = id <$> m !! b.
Proof.
  intros Hf. rewrite lookup_alter. case_decide; [| done]. subst. destruct (m !! b) as [t|]; simpl; [by rewrite Hf | done].
Qed.

Lemma curr_thread_found k t : store k !! CURR_THREAD_PTR k = Some t -> CURR_THREAD_PTR k ∈ threads k -> is_Some (find_thread k (id t)).
Proof. intros Ht Hin. by eapply find_in_complete. Qed.

Lemma switch_ret k : switchable k -> is_ret (switch_if_needed k).
Proof.
  intros [Hq (t & Ht & Hin) Hirq]. unfold switch_if_needed, switch_pick.
  destruct (NEEDS_RESCHEDULE k); [simpl | by eexists]. rewrite Hirq. simpl. unfold read_tcb. simpl. rewrite Ht. simpl obind.
  set (k2 := if _ && _ then _ else _).
  assert (Hq2 : forall i, i ∈ ready_queue k2 -> is_Some (find_thread k2 i)).
  { assert (Hf : forall i, find_thread k2 i = find_thread k i).
    { intros i. unfold k2. case_match; [| done]. apply find_thread_same; [done |]. intros a. by apply write_ids. }
    intros i. rewrite Hf. unfold k2. case_bool_decide; [destruct (Z.eqb_spec (id t) 1) |]; simpl; auto.
    intros [? | ->%list_elem_of_singleton]%elem_of_app; [auto |]. apply curr_thread_found; auto. }
  unfold pick_next_thread. destruct (ready_queue k2) as [|i q]; [by eexists |].
  change (find_thread (set_queue q k2) i) with (find_thread k2 i).
  destruct (Hq2 i) as [a ->]; [apply list_elem_of_here |]. by eexists.
Qed.

Lemma core_switchable k : sched_inv k -> switchable k.
Proof.
  intros [Hc Hkn Hirq]. split; [| | done].
  - intros i Hi. destruct (core_queue _ _ _ _ Hc i Hi) as (a & t & Ha & Ht & Hid & _). by eapply find_in_complete.
  - destruct (curr_live k Hc _ Hkn) as (t & Ht & Hid). exists t. split; [done |]. destruct Hkn; [tauto | done].
Qed.

(** Charging the tick panics in no case. *)
Lemma tick_account_ret k :
  core_of k -> knows k (CURR_THREAD_PTR k) ->
  exists k', tick_account k = Ret k' /\ irq k' = irq k /\ threads k' = threads k /\
    MAIN_THREAD k' = MAIN_THREAD k /\ CURR_THREAD_PTR k' = CURR_THREAD_PTR k /\ (tick_ok k -> core_of k') /\
    (forall i, i ∈ ready_queue k' -> is_Some (find_thread k' i)) /\
    (exists t, store k' !! CURR_THREAD_PTR k = Some t /\ (id t <> 1 -> CURR_THREAD_PTR k ∈ threads k)).
Proof.
  intros Hc Hkn. unfold tick_account, read_tcb. destruct (curr_live k Hc _ Hkn) as (t & Ht & Hid).
  assert (Hfd : forall i, i ∈ ready_queue k -> is_Some (find_thread k i)).
  { intros i Hi. destruct (core_queue _ _ _ _ Hc i Hi) as (a & u & ? & ? & ? & _). by eapply find_in_complete. }
  assert (Hin : id t <> 1 -> CURR_THREAD_PTR k ∈ threads k) by (destruct Hkn; [tauto | done]).
  rewrite Ht. simpl obind. destruct (Z.eqb_spec (id t) 1) as [E1 | E1]; simpl negb; cbv iota.
  - case_bool_decide as Hq; simpl negb; cbv iota; [exists k | eexists]; split_and!; eauto.
  - specialize (Hin E1).
    destruct (Z.leb_spec (time_slice_remaining t) TIME_BETWEEN_TICKS) as [Hle | Hgt].
    + eexists; split; [done |]. split_and!; [done.. | | |].
      * intros Hok. apply (requeue_core _ k t); try done.
        destruct (decide (state t = Running)) as [|Hn]; [done |]. specialize (Hok t Hin Ht Hn). lia.
      * intros i. rewrite (find_thread_same k); [| done | intros a; by apply write_ids].
        intros [? | ->%list_elem_of_singleton]%elem_of_app; [auto |]. by apply curr_thread_found.
      * eexists. split; [by apply lookup_write_some | done].
    + rewrite sub_u_ret by lia. simpl obind. eexists; split; [done |]. split_and!; [done.. | | |].
      * intros _. unfold core_of; simpl. eapply core_write_frame; [exact Hc | auto with sched | apply Hc | |].
        -- intros i Hq. destruct (core_queue _ _ _ _ Hc i Hq) as (b & tb & ? & Htb & ? & ?).
           eexists b, _. split; [done |]. split; [by apply lookup_write_some |]. by case_decide.
        -- intros b tb Hb Htb Hr Hn. apply lookup_write in Htb as (t0 & ? & ->).
           assert (id t0 ∈ ready_queue k) by (eapply (core_ready _ _ _ _ Hc); eauto; by case_decide). by case_decide.
      * intros i. rewrite (find_thread_same k); [auto | done | intros a; by apply write_ids].
      * eexists. split; [by apply lookup_write_some | done].
Qed.

(** A new thread: an unused number. *)
Definition fresh_id (k : Kernel) (tid : Z) : Prop :=
  tid <> 1 /\ forall a t, a ∈ threads k -> store k !! a = Some t -> id t <> tid.
Definition fresh (k : Kernel) (addr tid : Z) : Prop := store k !! addr = None /\ fresh_id k tid.

(** A block that no list mentions yet. *)
Lemma core_alloc m ts q main addr t :
  core m ts q main -> m !! addr = None -> core (<[addr := t]> m) ts q main.
Proof.
  intros [[tm [Hm Hmi]] Hout Hlive Huniq Hnd Hqn Hq Hr] Hno.
  assert (Hne : forall a, a ∈ ts -> <[addr := t]> m !! a = m !! a).
  { intros a Ha. apply lookup_insert_ne. intros ->. destruct (Hlive a Ha) as (? & ? & _). congruence. }
  split; [| done | | | done | done | |].
  - exists tm. rewrite lookup_insert_ne by congruence. done.
  - intros a Ha. rewrite Hne by done. eauto.
  - intros a b ta tb Ha Hb. rewrite !Hne by done. eauto.
  - intros i Hi. destruct (Hq i Hi) as (a & ta & Ha & ?). exists a, ta. rewrite Hne by done. auto.
  - intros a ta Ha. rewrite Hne by done. eauto.
Qed.

Lemma core_list m ts q q' main addr t :
  core m ts q main -> m !! addr = Some t -> addr ∉ ts -> addr <> main -> id t <> 1 ->
  (forall a ta, a ∈ ts -> m !! a = Some ta -> id ta <> id t) ->
  state t = Ready -> (q' = q ++ [id t] \/ q' = q /\ id t = 2) ->
  core m (ts ++ [addr]) q' main.
Proof.
  intros Hc Ht Hno Hne H1 Huse Hst Hq'. pose proof Hc as [Hmain Hout Hlive Huniq Hnd Hqn Hq Hr].
  assert (Hnq : id t ∉ q).
  { intros Hi. destruct (Hq _ Hi) as (b & tb & Hb & Htb & E & _). by apply (Huse b tb Hb Htb). }
  split; [done | | | | | | |].
  - intros [? | ?%list_elem_of_singleton]%elem_of_app; congruence.
  - intros a [Ha | ->%list_elem_of_singleton]%elem_of_app; [eauto | by exists t].
  - intros a b ta tb [Ha | ->%list_elem_of_singleton]%elem_of_app [Hb | ->%list_elem_of_singleton]%elem_of_app Hta Htb E;
      [eauto | | | done]; simplify_eq; [by destruct (Huse a ta) | by destruct (Huse b tb)].
  - apply NoDup_app. split; [done |]. split; [| apply NoDup_singleton]. by intros a Ha ->%list_elem_of_singleton.
  - destruct Hq' as [-> | [-> _]]; [| done]. apply NoDup_app. split; [done |].
    split; [| apply NoDup_singleton]. by intros i Hi ->%list_elem_of_singleton.
  - intros i Hi. assert (i ∈ q \/ i = id t) as [Hi' | ->].
    { destruct Hq' as [-> | [-> _]]; [| by left]. apply elem_of_app in Hi as [? | ?%list_elem_of_singleton]; auto. }
    + destruct (Hq i Hi') as (a & ta & Ha & ?). exists a, ta. split; [apply elem_of_app; by left | done].
    + exists addr, t. split; [apply elem_of_app; right; by apply list_elem_of_singleton | done].
  - intros a ta [Ha | ->%list_elem_of_singleton]%elem_of_app Hta Hs Hn2.
    + assert (id ta ∈ q) by eauto. destruct Hq' as [-> | [-> _]]; [apply elem_of_app; by left | done].
    + simplify_eq. destruct Hq' as [-> | [-> ?]]; [| done]. apply elem_of_app. right. by apply list_elem_of_singleton.
Qed.

Lemma alloc_tcb_inv addr t k : sched_inv k -> store k !! addr = None -> sched_inv (alloc_tcb addr t k).
Proof. intros [Hc Hkn Hirq] Hno. split; [by apply core_alloc | done | done]. Qed.

(** The thread at [addr] is entered in the list and, unless it is the cleaner,
    in the queue. *)
Lemma add_thread_inv k k' addr t :
  sched_inv k -> store k !! addr = Some t -> addr ∉ threads k -> addr <> MAIN_THREAD k -> fresh_id k (id t) ->
  state t = Ready -> store k' = store k -> threads k' = threads k ++ [addr] ->
  (ready_queue k' = ready_queue k ++ [id t] \/ ready_queue k' = ready_queue k /\ id t = 2) ->
  CURR_THREAD_PTR k' = CURR_THREAD_PTR k -> MAIN_THREAD k' = MAIN_THREAD k -> IRQ_DISABLE_COUNTER (irq k') = 0 ->
  sched_inv k'.
Proof.
  intros [Hc Hkn Hirq] Ht Hno Hm [H1 Huse] Hst Es Et Eq Ec Em Ei.
  split; unfold core_of, knows; rewrite ?Es, ?Et, ?Ec, ?Em; [by eapply core_list | | done].
  destruct Hkn; [by left | right; apply elem_of_app; by left].
Qed.

Lemma list_thread_inv addr t k :
  sched_inv k -> store k !! addr = Some t -> addr ∉ threads k -> addr <> MAIN_THREAD k -> fresh_id k (id t) ->
  state t = Ready -> sched_inv (list_thread addr (id t) k).
Proof.
  intros Hi Ht Hno Hm Hfr Hst. apply (add_thread_inv k _ addr t); try done; [by left |].
  simpl. by rewrite (inv_irq _ Hi).
Qed.

Lemma fresh_alloc k addr t :
  sched_inv k -> fresh k addr (id t) ->
  let k1 := alloc_tcb addr t k in
  sched_inv k1 /\ store k1 !! addr = Some t /\ (addr ∉ threads k1) /\ addr <> MAIN_THREAD k1 /\ fresh_id k1 (id t).
Proof.
  intros Hi (Hno & H1 & Huse). pose proof (inv_core _ Hi) as Hc. split; [by apply alloc_tcb_inv |].
  split; [apply lookup_insert_eq |]. split; [| split; [| split; [done |]]]; simpl.
  - intros Ha. destruct (core_live _ _ _ _ Hc addr Ha) as (? & ? & _). congruence.
  - intros ->. destruct (core_main _ _ _ _ Hc) as (? & ? & _). congruence.
  - intros a ta Ha. rewrite lookup_insert_ne; [by apply Huse |].
    intros ->. destruct (core_live _ _ _ _ Hc a Ha) as (? & ? & _). congruence.
Qed.

Lemma enlist_inv addr t k :
  sched_inv k -> fresh k addr (id t) -> state t = Ready -> sched_inv (enlist addr t k).
Proof.
  intros Hi Hfr Hst. destruct (fresh_alloc k addr t Hi Hfr) as (H1 & H2 & H3 & H4 & H5). by apply list_thread_inv.
Qed.

Lemma spawn_inv n addr tid ra k :
  sched_inv k -> fresh k addr tid -> 2 <= tid ->
  sched_inv (sched_unlock (spawn n addr tid ra (sched_lock k))).
Proof.
  intros Hi Hfr Htid. set (t := tcb_new n tid ra None None None).
  destruct (fresh_alloc k addr t Hi Hfr) as (H1 & H2 & H3 & H4 & H5).
  apply (add_thread_inv (alloc_tcb addr t k) _ addr t); try done; unfold spawn; destruct (Z.gtb_spec tid 2); simpl; try done.
  - by left.
  - right. split; [done | unfold t; simpl; lia].
  - by rewrite (inv_irq _ Hi).
  - by rewrite (inv_irq _ Hi).
Qed.

Lemma tick_enter_ret k :
  sched_inv k -> 0 <= ELAPSED k -> (ELAPSED k + 1) * 1000000 < 2 ^ 64 ->
  (length (expired ((ELAPSED k + 1) * 1000000) k) <= 15)%nat ->
  exists k', tick_enter k = Ret k' /\ switchable k' /\ threads k' = threads k /\ (tick_ok k -> sched_inv k').
Proof.
  intros Hi H0 H1 H15. unfold tick_enter. rewrite !chk_u_ret by lia. simpl obind.
  rewrite chk_u_ret by lia. simpl obind.
  set (k1 := sched_lock _).
  change (expired ((ELAPSED k + 1) * 1000000) k1) with (expired ((ELAPSED k + 1) * 1000000) k).
  rewrite (proj2 (Nat.leb_le _ _) H15). simpl obind.
  set (l := expired _ k).
  destruct (unblock_fold_core l k1) as (Hc2 & Hirq2 & Ht2 & Hm2 & Hcu2); [apply Hi |].
  pose proof (unblock_fold_tick_ok l k1) as Htk. set (k2 := foldl _ k1 l) in *.
  assert (Hkn : knows k2 (CURR_THREAD_PTR k2)) by (unfold knows; rewrite Hcu2, Hm2, Ht2; apply Hi).
  destruct (tick_account_ret k2 Hc2 Hkn) as (k3 & -> & Hirq3 & Ht3 & Hm3 & Hcu3 & Hc3 & Hq3 & Hl3). simpl obind.
  assert (Hirq : IRQ_DISABLE_COUNTER (irq (sched_unlock k3)) = 0).
  { apply sched_unlock_counter. rewrite Hirq3, Hirq2. apply sched_lock_counter, Hi. }
  eexists; split; [done |]. split_and!.
  - split; [done | | done]. simpl. rewrite Hcu3. destruct Hl3 as (t & ? & ?). exists t. rewrite Ht3. done.
  - simpl. by rewrite Ht3, Ht2.
  - intros Hok. split; [by apply Hc3, Htk | | done]. unfold knows in *. simpl. by rewrite Hcu3, Hm3, Ht3.
Qed.

(** Removing a terminated thread other than the current one. *)
Lemma remove_first_spec p l a l' :
  remove_first p l = Some (a, l') ->
  p a = true /\ exists l1 l2, l = l1 ++ a :: l2 /\ l' = l1 ++ l2.
Proof.
  revert l'; induction l as [|b l IH]; intros l'; simpl; [done |].
  destruct (p b) eqn:E; [intros [= -> ->]; split; [done | by exists [], l'] |].
  destruct (remove_first p l) as [[c l0]|] eqn:E2; [| done]. intros [= -> <-].
  destruct (IH l0 eq_refl) as (? & l1 & l2 & -> & ->). split; [done |]. by exists (b :: l1), l2.
Qed.
