(* ===== verification/Sched.v ===== *)
(** * The scheduler as a transition system

    Every way the kernel changes the scheduler's globals is a step.  Thread
    code runs with interrupts enabled outside the scheduler's critical
    sections, so each critical section is a step of its own: the one that
    blocks or yields, the one in which [switch_if_needed] picks the next
    thread, and the switch to a thread that was picked.  Timer interrupts,
    other threads and other switches fall anywhere in between.  The theorems
    hold of every reachable state. *)
From S2P Require Import Prelude Lock Thread ThreadInv.

Inductive sched_step : Kernel -> Kernel -> Prop :=
| st_spawn n addr tid ra k :
    fresh k addr tid -> 2 <= tid ->
    sched_step k (sched_unlock (spawn n addr tid ra (sched_lock k)))
| st_alloc addr t k : store k !! addr = None -> sched_step k (alloc_tcb addr t k)
| st_list addr t k :
    store k !! addr = Some t -> addr ∉ threads k -> addr <> MAIN_THREAD k -> fresh_id k (id t) ->
    state t = Ready -> 65536 <= id t -> sched_step k (list_thread addr (id t) k)
| st_block r k : may_call k -> sched_step k (block_enter r k)
| st_yield k k' :
    may_call k -> CURR_THREAD_PTR k ∈ threads k -> yield_enter k = Ret k' -> sched_step k k'
| st_terminate st k : may_call k -> sched_step k (terminate_enter st k)
| st_unblock i k : sched_step k (locked_unblock i k)
| st_pick next k k' : switch_pick k = Ret (next, k') -> sched_step k k'
(** [switch_to_task] of a thread that was picked; it is running since then,
    whatever happened in between. *)
| st_switch next k : runs k next -> sched_step k (switch_to_task next k)
| st_tick k k' : 0 <= ELAPSED k -> tick_ok k -> tick_enter k = Ret k' -> sched_step k k'
| st_cleaner k k' t :
    may_call k -> CURR_THREAD_PTR k ∈ threads k ->
    store k !! CURR_THREAD_PTR k = Some t -> id t = 2 ->
    cleaner_turn k = Ret k' -> sched_step k k'.

(** [_start] before any thread is spawned. *)
Definition boot (main cur_rsp cur_cr3 : Z) : Kernel :=
  {| store := {[ main := tcb_kmain cur_rsp cur_cr3 ]};
     threads := []; ready_queue := [];
     CURR_THREAD_PTR := main; MAIN_THREAD := main;
     NEEDS_RESCHEDULE := false; ELAPSED := 0;
     irq := idle false |}.

Lemma boot_inv main r c : sched_inv (boot main r c).
Proof.
  split; [| by left | done]. split; unfold boot; simpl.
  - exists (tcb_kmain r c). by rewrite lookup_singleton_eq.
  - apply not_elem_of_nil.
  - intros a Ha. by apply elem_of_nil in Ha.
  - intros a b ta tb Ha. by apply elem_of_nil in Ha.
  - constructor.
  - constructor.
  - intros i Hi. by apply elem_of_nil in Hi.
  - intros a t Ha. by apply elem_of_nil in Ha.
Qed.

Lemma cleaner_turn_inv k :
  sched_inv k -> may_call k -> CURR_THREAD_PTR k ∈ threads k ->
  exists k', cleaner_turn k = Ret k' /\ sched_inv k'.
Proof.
  intros Hi Hm Hin. unfold cleaner_turn. simpl.
  change (is_terminated (sched_lock k)) with (is_terminated k).
  pose proof Hi as [Hc Hkn Hirq].
  destruct (remove_first (is_terminated k) (threads k)) as [[a l']|] eqn:Hr.
  - destruct (remove_first_spec _ _ _ _ Hr) as (Hterm & l1 & l2 & Hl & ->).
    eexists; split; [done |]. simpl.
    assert (Ha : a ∈ threads k) by (rewrite Hl; apply elem_of_app; right; apply list_elem_of_here).
    destruct (core_live _ _ _ _ Hc a Ha) as (ta & Hta & _).
    unfold is_terminated in Hterm. rewrite Hta in Hterm.
    destruct (state ta) as [| |r] eqn:Hsta; [done | done |].
    destruct (core_live _ _ _ _ Hc _ Hin) as (tc & Htc & _).
    assert (Hac : a <> CURR_THREAD_PTR k).
    { intros ->. rewrite (Hm ta Hin Hta) in Hsta. done. }
    pose proof (core_nodup _ _ _ _ Hc) as Hnd.
    assert (Hsub : forall b, b ∈ l1 ++ l2 -> b ∈ threads k /\ b <> a).
    { intros b Hb. rewrite Hl in Hnd |- *. apply NoDup_app in Hnd as (_ & Hd & Hnd2).
      apply NoDup_cons in Hnd2 as [Hna _].
      apply elem_of_app in Hb as [Hb | Hb]; (split; [apply elem_of_app; rewrite elem_of_cons; tauto |]);
        intros ->; [by apply (Hd a Hb), list_elem_of_here | done]. }
    assert (Hkeep : forall b, b ∈ threads k -> b <> a -> b ∈ l1 ++ l2).
    { intros b Hb Hne. rewrite Hl in Hb. apply elem_of_app in Hb as [Hb | Hb].
      - apply elem_of_app; by left.
      - apply elem_of_cons in Hb as [-> | Hb]; [done | apply elem_of_app; by right]. }
    split.
    + destruct Hc as [(tm & Hm1 & Hm2) Hout Hlive Huniq _ Hqn Hq Hrd]. split; simpl.
      * exists tm. rewrite lookup_delete_ne by congruence. done.
      * intros Hb%Hsub. tauto.
      * intros b [Hb Hne]%Hsub. rewrite lookup_delete_ne by done. eauto.
      * intros b c tb tc' [Hb Hne]%Hsub [Hc' Hne']%Hsub. rewrite !lookup_delete_ne by done. eauto.
      * rewrite Hl in Hnd. apply NoDup_app in Hnd as (? & Hd & [? ?]%NoDup_cons).
        apply NoDup_app. split; [done |]. split; [| done]. intros b Hb Hb2.
        by apply (Hd b Hb), list_elem_of_further.
      * done.
      * intros i Hiq. destruct (Hq i Hiq) as (b & tb & Hb & Htb & ? & Hs).
        assert (b <> a) by (intros ->; simplify_eq; congruence). exists b, tb.
        rewrite lookup_delete_ne by done. auto.
      * intros b tb [Hb Hne]%Hsub. rewrite lookup_delete_ne by done. eauto.
    + destruct Hkn; [by left | right; by apply Hkeep].
    + simpl. by rewrite Hirq.
  - unfold block_task.
    destruct (block_enter_inv Paused (sched_unlock (sched_lock k))) as [Hb _]; [| done |].
    { split; [done | done | simpl; by rewrite Hirq]. }
    destruct (switch_if_needed_inv _ Hb) as (k' & -> & ? & _). eauto.
Qed.

Lemma tick_ret k k' :
  tick_enter k = Ret k' ->
  (ELAPSED k + 1) * 1000000 < 2 ^ 64 /\
  (length (expired ((ELAPSED k + 1) * 1000000) k) <= 15)%nat.
Proof.
  unfold tick_enter. intros H. do 4 run_inv H.
  apply chk_u_inv in E as [-> ?]. apply chk_u_inv in E0 as [-> ?]. split; [lia |].
  unfold ensure in E1. destruct (_ <=? _)%nat eqn:E' in E1; [| done].
  apply Nat.leb_le in E'. exact E'.
Qed.

Lemma tick_enter_inv k k' : sched_inv k -> tick_ok k -> 0 <= ELAPSED k -> tick_enter k = Ret k' -> sched_inv k'.
Proof.
  intros Hi Hok H0 H. destruct (tick_ret k k' H) as [Ht H15].
  destruct (tick_enter_ret k Hi H0 Ht H15) as (k1 & E1 & _ & _ & Hk1). ret_det. auto.
Qed.

Lemma sched_step_inv k k' : sched_step k k' -> sched_inv k -> sched_inv k'.
Proof.
  intros Hs Hi. destruct Hs.
  - by apply spawn_inv.
  - by apply alloc_tcb_inv.
  - by apply list_thread_inv.
  - by apply block_enter_inv.
  - destruct (yield_enter_inv k) as (k1 & E & ? & _); [done..|]. by ret_det.
  - by apply terminate_enter_inv.
  - by apply locked_unblock_inv.
  - destruct (switch_pick_inv k Hi) as (next1 & k1 & E & ? & _). rewrite H in E. by simplify_eq.
  - by apply switch_to_inv, runs_knows.
  - by eapply tick_enter_inv.
  - destruct (cleaner_turn_inv k) as (k1 & E & ?); [done..|]. by ret_det.
Qed.

Lemma reachable_inv k0 k : sched_inv k0 -> rtc sched_step k0 k -> sched_inv k.
Proof. intros H0 Hr. induction Hr; [done |]. eauto using sched_step_inv. Qed.

(** That the current thread may call, by evaluation. *)
Definition curr_runs (k : Kernel) : bool :=
  match store k !! CURR_THREAD_PTR k with Some t => bool_decide (state t = Running) | None => true end.
Lemma curr_runs_may_call k : curr_runs k = true -> may_call k.
Proof. unfold curr_runs. intros H t _ Ht. rewrite Ht in H. by apply bool_decide_eq_true in H. Qed.

(** ** Round robin *)

(** A forced reschedule: what the timer does when a slice runs out. *)
Definition preempt (k : Kernel) : outcome Kernel := switch_if_needed (set_needs true k).

Fixpoint preempts (n : nat) (k : Kernel) : outcome Kernel :=
  match n with
  | O => Ret k
  | S n => let! k := preempt k in preempts n k
  end.

Definition current_id (k : Kernel) : option Z := id <$> store k !! CURR_THREAD_PTR k.

Lemma set_needs_inv k b : sched_inv k -> sched_inv (set_needs b k).
Proof. by intros [Hc Hkn Hirq]. Qed.

Lemma current_id_write a f k k' :
  keeps_id f -> store k' = alter f a (store k) -> CURR_THREAD_PTR k' = a ->
  current_id k' = id <$> store k !! a.
Proof.
  intros Hf E1 E2. unfold current_id. rewrite E1, E2, lookup_alter, decide_True by done.
  destruct (store k !! a) as [t|]; simpl; [by rewrite Hf | done].
Qed.

Lemma switch_picks_head x q k k' :
  NEEDS_RESCHEDULE k = true -> ready_queue k = x :: q -> switch_if_needed k = Ret k' ->
  current_id k' = Some x /\ exists suf, ready_queue k' = q ++ suf.
Proof.
  intros Hn Hq. unfold switch_if_needed, switch_pick. rewrite Hn. simpl. case_match; [done |].
  intros H1. run_inv H1. destruct v as [next0 k0]. injection H1 as <-. rename E into H1. run_inv H1. rename v into t.
  set (k2 := if _ && _ then _ else _) in H1.
  assert (exists suf, ready_queue k2 = x :: q ++ suf) as [suf Hq2].
  { unfold k2. case_match; simpl; rewrite Hq; [by eexists | exists []; by rewrite app_nil_r]. }
  unfold pick_next_thread in H1. rewrite Hq2 in H1. run_inv H1. destruct v as [next k3].
  run_inv E0. injection E0 as <- <-. injection H1 as <- <-.
  destruct (find_thread _ x) as [a|] eqn:Hf in E1; [| done]. injection E1 as ->.
  destruct (find_in_spec _ _ _ _ Hf) as (_ & tx & Htx & Hid). simpl in Htx.
  split; [| simpl; eauto].
  erewrite (current_id_write _ (set_state Running) k2); [| auto with sched | done | done].
  by rewrite Htx; simpl; rewrite Hid.
Qed.

Lemma preempts_reach n k i :
  sched_inv k -> may_call k -> ready_queue k !! n = Some i ->
  exists k', preempts (S n) k = Ret k' /\ sched_inv k' /\ current_id k' = Some i.
Proof.
  revert k; induction n as [|n IH]; intros k Hi Hm Hq.
  all: destruct (ready_queue k) as [|x q] eqn:Hrq; [done |].
  all: destruct (switch_if_needed_inv _ (set_needs_inv k true Hi)) as (k1 & E1 & Hi1 & _ & _ & Hm1).
  all: destruct (switch_picks_head x q (set_needs true k) k1 eq_refl Hrq E1) as [Hcur [suf Hq1]].
  - exists k1. simpl. unfold preempt. rewrite E1. simpl. simpl in Hq. split; [done |].
    split; [done |]. congruence.
  - destruct (IH k1 Hi1 (Hm1 eq_refl)) as (k' & E' & Hi' & Hc').
    { rewrite Hq1. simpl in Hq. by apply lookup_app_l_Some. }
    exists k'. split; [| done]. change (preempts (S (S n)) k) with (let! k := preempt k in preempts (S n) k).
    unfold preempt. rewrite E1. exact E'.
Qed.

(** ** The cleaner thread

    [spawn] leaves thread 2 ready but not queued, and [unblock_task] only
    queues blocked threads. *)
Definition cleaner_idle (a : Z) (k : Kernel) : Prop :=
  a ∈ threads k /\ (exists t, store k !! a = Some t /\ id t = 2 /\ state t = Ready) /\
  CURR_THREAD_PTR k <> a /\ 2 ∉ ready_queue k.

Lemma cleaner_idle_write a b f k k' :
  cleaner_idle a k -> b <> a ->
  threads k' = threads k -> store k' = alter f b (store k) ->
  CURR_THREAD_PTR k' = CURR_THREAD_PTR k -> 2 ∉ ready_queue k' -> cleaner_idle a k'.
Proof.
  intros (Hin & (t & Ht & ?) & Hc & Hq) Hb Et Es Ec Hq'.
  unfold cleaner_idle. rewrite Et, Es, Ec, lookup_alter_ne by done.
  split; [done |]. split; [by exists t | done].
Qed.

Lemma cleaner_idle_unblock a i k :
  core_of k -> cleaner_idle a k -> cleaner_idle a (unblock_task i k).
Proof.
  intros Hc Hi. unfold unblock_task.
  destruct (find_thread k i) as [b|] eqn:Hf; [| done].
  destruct (find_in_spec _ _ _ _ Hf) as (Hb & tb & Htb & Hid). rewrite Htb.
  destruct (state tb) as [| |r] eqn:Hst; [done | done |].
  pose proof Hi as (Hin & (t & Ht & H2 & Hr) & Hcur & Hq).
  assert (b <> a) by (intros ->; simplify_eq; congruence).
  eapply (cleaner_idle_write a b (set_state Ready)); eauto. simpl.
  intros [? | E%list_elem_of_singleton]%elem_of_app; [done |].
  apply H. eapply (core_uniq _ _ _ _ Hc); eauto. congruence.
Qed.

Lemma cleaner_idle_pick a k next k' :
  core_of k -> cleaner_idle a k -> MAIN_THREAD k <> a -> pick_next_thread k = Ret (next, k') ->
  cleaner_idle a k' /\ next <> a.
Proof.
  intros Hc Hi Hm. pose proof Hi as (Hin & (t & Ht & H2 & Hr) & Hcur & Hq).
  unfold pick_next_thread. destruct (ready_queue k) as [|x q] eqn:Hrq.
  - intros [= <- <-]. split; [| done]. eapply (cleaner_idle_write a (MAIN_THREAD k)); eauto.
    simpl. by rewrite Hrq.
  - intros H. run_inv H. injection H as <- <-.
    destruct (find_thread _ x) as [b|] eqn:Hf in E; [| done]. injection E as ->.
    destruct (find_in_spec _ _ _ _ Hf) as (_ & tx & Htx & Hid). simpl in Htx.
    assert (x <> 2) by (intros ->; apply Hq, list_elem_of_here).
    assert (v <> a) by (intros ->; simplify_eq).
    split; [| done]. eapply (cleaner_idle_write a v); eauto.
    simpl. intros Hx. apply Hq. by apply list_elem_of_further.
Qed.

Lemma core_main_ne k a : core_of k -> a ∈ threads k -> MAIN_THREAD k <> a.
Proof. intros Hc Ha <-. by destruct (core_main_out _ _ _ _ Hc). Qed.

(** The current thread is not the cleaner, so its number is not 2. *)
Lemma cleaner_idle_curr a k t :
  core_of k -> cleaner_idle a k -> CURR_THREAD_PTR k ∈ threads k ->
  store k !! CURR_THREAD_PTR k = Some t -> id t <> 2.
Proof.
  intros Hc (Hin & (t2 & Ht2 & H2 & _) & Hcur & _) Hcin Ht E.
  apply Hcur. eapply (core_uniq _ _ _ _ Hc); eauto. congruence.
Qed.

Lemma push_not_two q i : 2 ∉ q -> i <> 2 -> 2 ∉ q ++ [i].
Proof. intros Hq Hi [? | ?%list_elem_of_singleton]%elem_of_app; congruence. Qed.

Lemma cleaner_idle_requeue a f k t :
  core_of k -> cleaner_idle a k -> CURR_THREAD_PTR k ∈ threads k ->
  store k !! CURR_THREAD_PTR k = Some t ->
  cleaner_idle a (push_back (id t) (write_tcb (CURR_THREAD_PTR k) f k)).
Proof.
  intros Hc Hi Hin Ht. pose proof Hi as (_ & _ & Hcur & Hq).
  eapply (cleaner_idle_write a (CURR_THREAD_PTR k) f); eauto. simpl.
  apply push_not_two; [done |]. by eapply cleaner_idle_curr.
Qed.

Lemma cleaner_idle_switch a next k k' :
  sched_inv k -> cleaner_idle a k -> switch_pick k = Ret (next, k') -> cleaner_idle a k'.
Proof.
  intros [Hc Hkn Hirq] Hi. unfold switch_pick.
  destruct (NEEDS_RESCHEDULE k); simpl; [| by intros [= <- <-]].
  rewrite Hirq. simpl. intros H. run_inv H.
  unfold read_tcb in E. simpl in E. destruct (store k !! CURR_THREAD_PTR k) as [t|] eqn:Ht; [| done].
  injection E as <-. run_inv H. destruct v as [next1 k3]. injection H as <- <-.
  assert (Hid : id t <> 1 -> CURR_THREAD_PTR k ∈ threads k).
  { destruct (curr_live k Hc _ Hkn) as (t' & Ht' & Hid). simplify_eq. intros Hne.
    destruct Hkn as [E' | ?]; [by destruct Hne; apply Hid | done]. }
  pose proof Hi as (Hin & _ & _ & _).
  set (k2 := if _ && _ then _ else _) in E.
  assert (core_of k2 /\ cleaner_idle a k2 /\ MAIN_THREAD k2 = MAIN_THREAD k) as (Hc2 & Hi2 & Hm2).
  { unfold k2. case_bool_decide as Hst; [destruct (Z.eqb_spec (id t) 1) |]; simpl andb; cbv iota; [done | | done].
    split; [| split; [apply (cleaner_idle_requeue a _ k t Hc Hi); auto | done]].
    eapply (core_make_ready _ _ _ _ (CURR_THREAD_PTR k)); eauto with sched; congruence. }
  destruct (cleaner_idle_pick a k2 next1 k3) as [? _]; [done | done | | done | done].
  rewrite Hm2. by apply core_main_ne.
Qed.

Lemma cleaner_idle_locked_unblock a i k :
  core_of k -> cleaner_idle a k -> cleaner_idle a (locked_unblock i k).
Proof. intros. by apply (cleaner_idle_unblock a i (sched_lock k)). Qed.

Lemma cleaner_idle_block a r k : cleaner_idle a k -> cleaner_idle a (block_enter r k).
Proof.
  intros Hi. pose proof Hi as (_ & _ & Hcur & Hq).
  eapply (cleaner_idle_write a (CURR_THREAD_PTR k)); eauto.
Qed.

Lemma cleaner_idle_tick a k k' :
  sched_inv k -> cleaner_idle a k -> tick_enter k = Ret k' -> cleaner_idle a k'.
Proof.
  intros Hi Hcl H. unfold tick_enter in H. do 3 run_inv H.
  set (k1 := sched_lock _) in H. set (l := expired _ _) in H.
  assert (core_of k1 /\ cleaner_idle a k1 /\ knows k1 (CURR_THREAD_PTR k1)) as (Hi1 & Hcl1 & Hkn1) by (destruct Hi; by split_and!).
  clearbody l. clearbody k1. destruct (unblock_fold_core l k1 Hi1) as (Hc2 & _ & Ht2 & Hm2 & Hcu2).
  assert (cleaner_idle a (foldl (fun k i => unblock_task i k) k1 l)) as Hcl2.
  { clear H Hkn1 Hc2 Ht2 Hm2 Hcu2. revert k1 Hi1 Hcl1. induction l as [|i l IH]; intros k1 ? ?; simpl; [done |].
    apply IH; [by apply unblock_task_core | by apply cleaner_idle_unblock]. }
  set (k2 := foldl _ k1 l) in *. clearbody k2. run_inv H. injection H as <-.
  assert (Hkn2 : knows k2 (CURR_THREAD_PTR k2)) by (unfold knows; by rewrite Hcu2, Hm2, Ht2).
  enough (cleaner_idle a v2) by done.
  unfold tick_account, read_tcb in E2. destruct (curr_live k2 Hc2 _ Hkn2) as (t & Ht & Hid).
  rewrite Ht in E2. simpl in E2.
  pose proof Hcl2 as (_ & _ & Hcur & Hq).
  destruct (Z.eqb_spec (id t) 1) as [|Hne]; simpl in E2.
  { case_bool_decide; simpl in E2; by injection E2 as <-. }
  assert (CURR_THREAD_PTR k2 ∈ threads k2).
  { destruct Hkn2 as [E' | ?]; [by destruct Hne; apply Hid | done]. }
  case_match.
  - injection E2 as <-. by apply (cleaner_idle_requeue a _ k2 t).
  - run_inv E2. injection E2 as <-. by eapply (cleaner_idle_write a (CURR_THREAD_PTR k2)).
Qed.

Lemma cleaner_idle_add a k k' addr t :
  cleaner_idle a k -> fresh k addr (id t) -> id t <> 2 ->
  store k' = <[addr := t]> (store k) -> threads k' = threads k ++ [addr] ->
  ready_queue k' = ready_queue k ++ [id t] -> CURR_THREAD_PTR k' = CURR_THREAD_PTR k ->
  cleaner_idle a k'.
Proof.
  intros (Hin & (t2 & Ht2 & ?) & Hcur & Hq) (Hno & _ & _) H2 Es Et Eq Ec.
  unfold cleaner_idle. rewrite Es, Et, Eq, Ec. split; [apply elem_of_app; by left |].
  split; [exists t2; rewrite lookup_insert_ne by congruence; done |].
  split; [done | by apply push_not_two].
Qed.

Lemma cleaner_idle_step a k k' :
  sched_inv k -> sched_step k k' -> cleaner_idle a k -> cleaner_idle a k'.
Proof.
  intros Hi Hs Hcl. pose proof Hi as [Hc Hkn _]. destruct Hs.
  - pose proof Hcl as (Hin & (t2 & Ht2 & H2 & _) & _).
    assert (tid <> 2) by (destruct H as (_ & _ & Hu); intros ->; by apply (Hu a t2)).
    apply (cleaner_idle_add a k _ addr (tcb_new n tid ra None None None)); try done;
      unfold spawn; (destruct (Z.gtb_spec tid 2); [done | lia]).
  - pose proof Hcl as (Hin & (t2 & Ht2 & ?) & Hcur & Hq). split; [done |]. split; [| done].
    exists t2. simpl. rewrite lookup_insert_ne by congruence. done.
  - pose proof Hcl as (Hin & (t2 & Ht2 & ?) & Hcur & Hq). split; [apply elem_of_app; by left |].
    split; [by exists t2 |]. split; [done |]. apply push_not_two; [done | lia].
  - by apply cleaner_idle_block.
  - unfold yield_enter, read_tcb in H1. simpl in H1.
    destruct (store k !! CURR_THREAD_PTR k) as [t|] eqn:Ht; [| done]. simpl in H1.
    injection H1 as <-. by apply (cleaner_idle_requeue a _ k t Hc).
  - by apply cleaner_idle_block, cleaner_idle_locked_unblock.
  - by apply cleaner_idle_locked_unblock.
  - by eapply cleaner_idle_switch.
  - pose proof Hcl as (Hin & (t2 & Ht2 & ? & Hrd) & Hcur & Hq). split; [done |]. split; [by exists t2 |]. split; [| done].
    simpl. intros ->. destruct H as [E | (t & ? & ? & ?)]; [| simplify_eq; congruence]. by apply (core_main_ne k a Hc Hin).
  - by eapply cleaner_idle_tick.
  - by destruct (cleaner_idle_curr a k t).
Qed.

(** ** Sleeping threads *)
Lemma unblock_task_other j k a t :
  store k !! a = Some t -> id t <> j -> store (unblock_task j k) !! a = Some t.
Proof.
  intros Ht Hne. unfold unblock_task.
  destruct (find_thread k j) as [b|] eqn:Hf; [| done].
  destruct (find_in_spec _ _ _ _ Hf) as (_ & tb & Htb & Hid). rewrite Htb.
  destruct (state tb); [done | done |]. simpl. rewrite lookup_alter_ne; [done |].
  intros ->. congruence.
Qed.

Lemma unblock_task_self k a t r :
  core_of k -> a ∈ threads k -> store k !! a = Some t -> state t = Blocked r ->
  store (unblock_task (id t) k) !! a = Some (set_state Ready t) /\
  ready_queue (unblock_task (id t) k) = ready_queue k ++ [id t].
Proof.
  intros Hc Ha Ht Hst. unfold unblock_task.
  rewrite (find_thread_unique k (id t) a t Hc Ha Ht eq_refl), Ht, Hst. simpl.
  split; [| done]. by rewrite lookup_alter, decide_True, Ht.
Qed.

Definition unblock_all (l : list Z) (k : Kernel) : Kernel := foldl (fun k i => unblock_task i k) k l.

Lemma unblock_all_other l k a t :
  store k !! a = Some t -> id t ∉ l -> store (unblock_all l k) !! a = Some t.
Proof.
  revert k; induction l as [|j l IH]; intros k Ht Hl; simpl; [done |].
  apply not_elem_of_cons in Hl as [? ?]. apply IH; [| done]. by apply unblock_task_other.
Qed.

Lemma unblock_task_awake j k a t :
  store k !! a = Some t -> state t = Ready -> id t ∈ ready_queue k ->
  store (unblock_task j k) !! a = Some t /\ id t ∈ ready_queue (unblock_task j k).
Proof.
  intros Ht Hst Hq. unfold unblock_task.
  destruct (find_thread k j) as [b|] eqn:Hf; [| done].
  destruct (store k !! b) as [tb|] eqn:Htb; [| done].
  destruct (state tb) eqn:Hsb; [done | done |]. simpl. split; [| apply elem_of_app; by left].
  rewrite lookup_alter_ne; [done |]. intros ->. congruence.
Qed.

Lemma unblock_all_awake l k a t :
  store k !! a = Some t -> state t = Ready -> id t ∈ ready_queue k ->
  store (unblock_all l k) !! a = Some t /\ id t ∈ ready_queue (unblock_all l k).
Proof.
  revert k; induction l as [|j l IH]; intros k Ht Hst Hq; simpl; [done |].
  destruct (unblock_task_awake j k a t Ht Hst Hq). by apply IH.
Qed.

Lemma unblock_all_wakes l k a t r :
  core_of k -> a ∈ threads k -> store k !! a = Some t -> state t = Blocked r -> id t ∈ l ->
  store (unblock_all l k) !! a = Some (set_state Ready t) /\ id t ∈ ready_queue (unblock_all l k).
Proof.
  revert k; induction l as [|j l IH]; intros k Hi Ha Ht Hst Hl; [by apply elem_of_nil in Hl |].
  simpl. destruct (decide (id t = j)) as [<- | Hne].
  - destruct (unblock_task_self k a t r Hi Ha Ht Hst) as [H1 H2].
    apply (unblock_all_awake l _ a (set_state Ready t)); [done | done |].
    rewrite H2. apply elem_of_app. right. by apply list_elem_of_singleton.
  - apply elem_of_cons in Hl as [? | Hl]; [done |]. apply IH; try done.
    + by apply unblock_task_core.
    + unfold unblock_task. repeat case_match; done.
    + by apply unblock_task_other.
Qed.

Lemma elem_of_expired now k i :
  i ∈ expired now k <-> exists a t e, a ∈ threads k /\ store k !! a = Some t /\
    state t = Blocked (Sleep e) /\ e <= now /\ id t = i.
Proof.
  unfold expired. rewrite list_elem_of_omap. split.
  - intros (a & Ha & H). destruct (store k !! a) as [t|] eqn:Ht; [| done].
    destruct (state t) as [| |r] eqn:Hst; [done | done |]. destruct r as [|e| | | | | | | | |]; try done.
    destruct (Z.leb_spec e now); [| done]. injection H as <-. by exists a, t, e.
  - intros (a & t & e & Ha & Ht & Hst & Hle & <-). exists a. split; [done |].
    rewrite Ht, Hst. destruct (Z.leb_spec e now); [done | lia].
Qed.

(** Accounting for the tick touches only the current thread. *)
Lemma tick_account_other k k' a :
  a <> CURR_THREAD_PTR k -> tick_account k = Ret k' ->
  store k' !! a = store k !! a /\ exists suf, ready_queue k' = ready_queue k ++ suf.
Proof.
  intros Ha H. unfold tick_account in H. run_inv H. case_match; [case_match |].
  - injection H as <-. simpl. rewrite lookup_alter_ne by done. eauto.
  - run_inv H. injection H as <-. simpl. rewrite lookup_alter_ne by done.
    split; [done |]. exists []. by rewrite app_nil_r.
  - case_match; injection H as <-; simpl; (split; [done | exists []; by rewrite app_nil_r]).
Qed.

Lemma unblock_all_curr l k : CURR_THREAD_PTR (unblock_all l k) = CURR_THREAD_PTR k.
Proof.
  revert k; induction l as [|j l IH]; intros k; simpl; [done |]. rewrite IH.
  unfold unblock_task. repeat case_match; done.
Qed.

(** The timer keeps the sleepers to wake in an array of 15 entries: when
    more than 15 expire at one tick, the interrupt handler panics. *)
Lemma sixteen_sleepers k :
  0 <= ELAPSED k -> (ELAPSED k + 1) * 1000000 < 2 ^ 64 ->
  (15 < length (expired ((ELAPSED k + 1) * 1000000) k))%nat ->
  timer_interrupt_handler k = Panic.
Proof.
  intros H0 H1 H. unfold timer_interrupt_handler, tick_enter.
  rewrite !chk_u_ret by lia. simpl obind. rewrite chk_u_ret by lia. simpl obind.
  change (expired _ (sched_lock _)) with (expired ((ELAPSED k + 1) * 1000000) k).
  unfold ensure. destruct (_ <=? _)%nat eqn:E; [| done]. apply Nat.leb_le in E. lia.
Qed.

(** ** Properties *)

(** [C15] Every state the kernel can reach from boot, wherever timer
    interrupts and other threads fall between the critical sections of blocking,
    picking the next thread and switching to it, satisfies the scheduler's
    invariant: the run queue lists ready threads, each once and each present in
    the thread list; every ready thread but the cleaner is queued; the current
    thread is the boot thread or a listed one; no scheduler lock is held.  And a
    switch that is called for and not itself interrupted leaves the CPU to a
    thread in state [Running]. *)
Theorem scheduler_invariant main r c k :
  rtc sched_step (boot main r c) k ->
  sched_inv k /\
  forall k', NEEDS_RESCHEDULE k = true -> switch_if_needed k = Ret k' -> sched_inv k' /\ may_call k'.
Proof.
  intros Hr. pose proof (reachable_inv _ _ (boot_inv main r c) Hr) as Hi. split; [done |]. intros k' Hn E.
  destruct (switch_if_needed_inv k Hi) as (k1 & E1 & Hi1 & _ & _ & Hm). ret_det. auto.
Qed.

(** [C16] In every reachable state the operations of the scheduler return: the
    panics for a queued thread that is not in the list and for scheduling
    with the lock held cannot happen.  The timer interrupt returns when its
    clock does not overflow and at most 15 sleepers expire at the tick; with
    more it panics. *)
Theorem scheduler_never_panics main r c k :
  rtc sched_step (boot main r c) k ->
  is_ret (switch_if_needed k) /\
  (may_call k ->
     (forall reason, is_ret (block_task reason k)) /\
     (forall status, is_ret (terminate_task status k)) /\
     (CURR_THREAD_PTR k ∈ threads k -> is_ret (yield_sched k) /\ is_ret (cleaner_turn k))) /\
  (0 <= ELAPSED k -> (ELAPSED k + 1) * 1000000 < 2 ^ 64 ->
   if (length (expired ((ELAPSED k + 1) * 1000000) k) <=? 15)%nat
   then is_ret (timer_interrupt_handler k)
   else timer_interrupt_handler k = Panic).
Proof.
  intros Hr. pose proof (reachable_inv _ _ (boot_inv main r c) Hr) as Hi.
  assert (Hsw : forall k, sched_inv k -> is_ret (switch_if_needed k)).
  { intros k0 Hw. by apply switch_ret, core_switchable. }
  split; [by apply Hsw |]. split.
  - intros Hm. split; [| split; [| intros Hin; split]].
    + intros reason. by apply Hsw, block_enter_inv.
    + intros status. by apply Hsw, terminate_enter_inv.
    + destruct (yield_enter_inv k Hi Hm Hin) as (k1 & E & Hi1 & _).
      unfold yield_sched. rewrite E. by apply Hsw.
    + destruct (cleaner_turn_inv k Hi Hm Hin) as (k1 & ? & _). by exists k1.
  - intros H0 Ht. destruct (Nat.leb_spec (length (expired ((ELAPSED k + 1) * 1000000) k)) 15) as [H15 | H15].
    + destruct (tick_enter_ret k Hi H0 Ht H15) as (k1 & E & Hw & _).
      unfold timer_interrupt_handler. rewrite E. by apply switch_ret.
    + by apply sixteen_sleepers.
Qed.

(** [C17] Bounded waiting: a thread at position [n] of the run queue is the
    current thread after [n + 1] reschedules. *)
Theorem round_robin n main r c k i :
  rtc sched_step (boot main r c) k -> may_call k -> ready_queue k !! n = Some i ->
  exists k', preempts (S n) k = Ret k' /\ current_id k' = Some i.
Proof.
  intros Hr Hm Hq. pose proof (reachable_inv _ _ (boot_inv main r c) Hr) as Hi.
  destruct (preempts_reach n k i Hi Hm Hq) as (k' & ? & _ & ?). eauto.
Qed.

(** Sleep: the timer leaves a sleeping thread alone until its expiry, and
    at the first tick at or after it makes the thread ready and queues it. *)
Theorem sleeper_wakes_on_time k k' a t e :
  sched_inv k -> a ∈ threads k -> a <> CURR_THREAD_PTR k ->
  store k !! a = Some t -> state t = Blocked (Sleep e) ->
  tick_enter k = Ret k' ->
  let now := (ELAPSED k + 1) * 1000000 in
  if e <=? now
  then store k' !! a = Some (set_state Ready t) /\ id t ∈ ready_queue k'
  else store k' !! a = Some t.
Proof.
  intros Hi Ha Hac Ht Hst H now. unfold tick_enter in H. do 4 run_inv H. injection H as <-.
  apply chk_u_inv in E as [-> _]. apply chk_u_inv in E0 as [-> _]. fold now in E2.
  set (k1 := sched_lock _) in E2. set (l := expired _ _) in E2. fold (unblock_all l k1) in E2.
  assert (Hac' : a <> CURR_THREAD_PTR (unblock_all l k1)) by (rewrite unblock_all_curr; exact Hac).
  destruct (tick_account_other _ _ a Hac' E2) as [Hs [suf Hq]].
  assert (core_of k1) as Hi1 by apply Hi.
  change (store (sched_unlock v2)) with (store v2).
  change (ready_queue (sched_unlock v2)) with (ready_queue v2). rewrite Hs, Hq.
  destruct (Z.leb_spec e now) as [Hle | Hgt].
  - destruct (unblock_all_wakes l k1 a t (Sleep e)) as [-> Hin]; try done.
    + apply elem_of_expired. by exists a, t, e.
    + split; [done | apply elem_of_app; by left].
  - apply unblock_all_other; [done |]. intros Hin. unfold l in Hin.
    apply elem_of_expired in Hin as (b & tb & e' & Hb & Htb & Hsb & Hle & Hid).
    assert (b = a) as -> by (eapply (core_uniq _ _ _ _ (inv_core _ Hi)); eauto).
    change (store k1) with (store k) in Htb. simplify_eq.
    assert (e' = e) by congruence. subst e'. lia.
Qed.

(** The cleaner never runs: [spawn] makes thread 2 ready without queueing
    it and [unblock_task] ignores threads that are not blocked, so from the
    moment it is spawned it is never queued and never current, whatever
    terminates. *)
Theorem cleaner_never_scheduled k0 k n addr ra :
  sched_inv k0 -> fresh k0 addr 2 ->
  rtc sched_step (sched_unlock (spawn n addr 2 ra (sched_lock k0))) k ->
  (2 ∉ ready_queue k) /\ CURR_THREAD_PTR k <> addr /\ addr ∈ threads k.
Proof.
  intros Hi Hfr Hr. pose proof (spawn_inv n addr 2 ra k0 Hi Hfr ltac:(lia)) as Hi1.
  enough (cleaner_idle addr k) as (? & _ & ? & ?) by done.
  assert (Hcl : cleaner_idle addr (sched_unlock (spawn n addr 2 ra (sched_lock k0)))).
  { destruct Hfr as (Hno & _ & Hu). unfold cleaner_idle, spawn. simpl.
    split; [apply elem_of_app; right; by apply list_elem_of_singleton |].
    split; [eexists; by rewrite lookup_insert_eq |]. split.
    - destruct Hi as [Hc Hkn _]. destruct (curr_live k0 Hc _ Hkn) as (t & ? & _). congruence.
    - intros Hq. destruct (core_queue _ _ _ _ (inv_core _ Hi) 2 Hq) as (b & tb & Hb & Htb & E & _).
      by apply (Hu b tb). }
  clear Hi Hfr. revert Hi1 Hcl. induction Hr; [done |]. intros Hi1 Hcl.
  apply IHHr; [by eapply sched_step_inv | by eapply cleaner_idle_step].
Qed.

(** ** Witnesses: a kernel with two spawned threads, the first of them running. *)
Module SchedWitness.
Definition nt : NewThread := {| stack_base := 4096; task_startup_hook := 77; active_cr3 := 8192 |}.
Definition spawned (addr tid : Z) (k : Kernel) : Kernel :=
  sched_unlock (spawn nt addr tid 55 (sched_lock k)).
Definition k0 : Kernel := boot 100 0 0.
Definition k1 : Kernel := spawned 200 3 k0.
Definition k2 : Kernel := spawned 300 4 k1.
(** 16 sleepers that expire at the first tick. *)
Definition sleeper (i : Z) : ThreadControlBlock :=
  set_state (Blocked (Sleep 5)) (tcb_new nt i 55 None None None).
Definition k16 : Kernel :=
  foldl (fun k i => set_threads (threads k ++ [i]) (set_store (<[i := sleeper i]> (store k)) k))
    k0 (seqZ 200 16).
(** A process with an empty kernel stack, listed, scheduled, then asleep until
    5 ns; the boot thread is current. *)
Definition small : ThreadControlBlock :=
  {| rsp := 0; rsp0 := 0; cr3 := 0; state := Ready; id := 65536; stack := [];
     time_slice_remaining := TIME_SLICE; pcb := None |}.
Definition kp : Kernel := enlist 200 small k0.
Definition k_sleep : Kernel :=
  match (let! k := switch_if_needed (set_needs true kp) in block_task (Sleep 5) k) with
  | Ret k => k
  | _ => k0
  end.

Lemma k1_step : sched_step k0 k1.
Proof.
  apply st_spawn; [| lia]. split; [reflexivity |]. split; [done |].
  intros a t Ha. by apply elem_of_nil in Ha.
Qed.

Lemma k2_step : sched_step k1 k2.
Proof.
  apply st_spawn; [| lia]. split; [reflexivity |]. split; [done |].
  intros a t Ha. apply list_elem_of_singleton in Ha as ->. intros [= <-]. done.
Qed.

Lemma k2_reach : rtc sched_step k0 k2.
Proof. eapply rtc_l; [apply k1_step |]. by eapply rtc_once, k2_step. Qed.

Lemma k2_may_call : may_call k2.
Proof.
  intros t Hin _. change (CURR_THREAD_PTR k2) with 100 in Hin.
  change (threads k2) with [200; 300] in Hin.
  apply elem_of_cons in Hin as [? | Hin]; [done |]. by apply list_elem_of_singleton in Hin.
Qed.

Lemma scheduler_invariant_witness : sched_inv k2.
Proof. exact (proj1 (scheduler_invariant 100 0 0 k2 k2_reach)). Defined.

Lemma scheduler_never_panics_witness :
  is_ret (switch_if_needed k2) /\ is_ret (block_task (Sleep 9) k2) /\
  is_ret (timer_interrupt_handler k2).
Proof.
  destruct (scheduler_never_panics 100 0 0 k2 k2_reach) as (H1 & H2 & H3).
  split; [exact H1 |]. destruct (H2 k2_may_call) as (Hb & _). split; [exact (Hb (Sleep 9)) |].
  apply H3; vm_compute; [congruence | reflexivity].
Defined.

Lemma round_robin_witness : exists k', preempts 2 k2 = Ret k' /\ current_id k' = Some 4.
Proof. exact (round_robin 1 100 0 0 k2 4 k2_reach k2_may_call eq_refl). Defined.

Lemma sixteen_sleepers_witness : timer_interrupt_handler k16 = Panic.
Proof. apply sixteen_sleepers; vm_compute; [congruence | reflexivity | lia]. Defined.

Lemma kp_inv : sched_inv kp.
Proof.
  apply enlist_inv; [apply boot_inv | | done].
  split; [reflexivity |]. split; [done |]. intros a t Ha. by apply elem_of_nil in Ha.
Qed.

Lemma k_sleep_inv : sched_inv k_sleep.
Proof.
  unfold k_sleep. destruct (switch_if_needed_inv _ (set_needs_inv kp true kp_inv)) as (k & E & Hi & _ & _ & Hm).
  rewrite E. simpl. unfold block_task.
  destruct (switch_if_needed_inv _ (proj1 (block_enter_inv (Sleep 5) k Hi (Hm eq_refl)))) as (k' & E' & ? & _).
  by rewrite E'.
Qed.

Lemma sleeper_wakes_on_time_witness :
  exists t k', state t = Blocked (Sleep 5) /\ tick_enter k_sleep = Ret k' /\
    store k' !! 200 = Some (set_state Ready t) /\ id t ∈ ready_queue k'.
Proof.
  assert (E : exists k', tick_enter k_sleep = Ret k') by (eexists; vm_compute; reflexivity).
  destruct E as [k' E]. exists (set_state (Blocked (Sleep 5)) small), k'.
  split; [reflexivity |]. split; [exact E |].
  apply (sleeper_wakes_on_time k_sleep k' 200 _ 5 k_sleep_inv); try (vm_compute; reflexivity).
  - vm_compute. by apply list_elem_of_singleton.
  - vm_compute. done.
  - exact E.
Defined.

Lemma cleaner_never_scheduled_witness :
  (2 ∉ ready_queue (spawned 150 2 k0)) /\ CURR_THREAD_PTR (spawned 150 2 k0) <> 150 /\
  150 ∈ threads (spawned 150 2 k0).
Proof.
  apply (cleaner_never_scheduled k0 (spawned 150 2 k0) nt 150 55); [apply boot_inv | | apply rtc_refl].
  split; [reflexivity |]. split; [done |]. intros a t Ha. by apply elem_of_nil in Ha.
Defined.

(** ** A tick between the choice of the next thread and the switch to it

    The running thread yields and [switch_if_needed] picks the next one; the
    drop of the scheduler's guard enables interrupts, and a tick that wakes a
    sleeper switches before the handler returns; the thread goes on to switch
    to the thread it had picked. *)
Definition tick_in_switch (k : Kernel) : outcome Kernel :=
  let! k := yield_enter k in
  let! '(next, k) := switch_pick k in
  let! k := timer_interrupt_handler k in
  Ret (match next with Some a => switch_to_task a k | None => k end).

Definition small_as (i : Z) : ThreadControlBlock :=
  {| rsp := 0; rsp0 := 0; cr3 := 0; state := Ready; id := i; stack := [];
     time_slice_remaining := TIME_SLICE; pcb := None |}.

(** Thread 65536 sleeps until 3 ms; 65537 runs and 65538 is queued. *)
Definition before_yield : outcome Kernel :=
  let! k := timer_interrupt_handler (enlist 200 (small_as 65536) k0) in
  let! k := block_task (Sleep 3000000) k in
  let! k := timer_interrupt_handler (enlist 300 (small_as 65537) k) in
  Ret (enlist 400 (small_as 65538) k).

(** The thread that yielded is then neither current nor in the queue, and its
    state is [Running], so nothing wakes it. *)
Example yielded_thread_lost :
  match before_yield with
  | Ret k => current_id k = Some 65537 /\
      match tick_in_switch k with
      | Ret k' => current_id k' = Some 65538 /\ state <$> store k' !! 300 = Some Running /\ ready_queue k' = [65536]
      | _ => False
      end
  | _ => False
  end.
Proof. vm_compute. done. Qed.
End SchedWitness.
