(* ===== verification/ThreadKeep.v ===== *)
(** * What the scheduler leaves alone

    Scheduling changes states, time slices and the run queue; it keeps the
    list of threads and, in every control block, the number, the process and
    the page table, and it wakes no thread that waits for another thread or has
    terminated. *)
From S2P Require Import Prelude Lock Thread ThreadInv Sched.

Definition static (t t' : ThreadControlBlock) : Prop := id t' = id t /\ pcb t' = pcb t /\ cr3 t' = cr3 t.
Definition ended (st : ThreadState) : Prop := exists n, st = Blocked (Terminated n).
Definition terminated (t : ThreadControlBlock) : Prop := ended (state t).

(** States that the scheduler by itself does not leave: blocked, and not until
    a point in time. *)
Class Held (P : ThreadState -> Prop) : Prop := {
  held_blocked st : P st -> exists r, st = Blocked r /\ forall e, r <> Sleep e;
  held_ended st : ended st -> P st
}.

#[global] Instance held_terminated : Held ended.
Proof. split; [| done]. intros st [n ->]. by eexists. Qed.

(** Also the threads that wait for thread [c]. *)
Definition ended_or_waiting (c : Z) (st : ThreadState) : Prop := ended st \/ st = Blocked (WaitThread c).
#[global] Instance held_waiting c : Held (ended_or_waiting c).
Proof. split; [| by left]. intros st [[n ->] | ->]; by eexists. Qed.

Record stays (P : ThreadState -> Prop) (k k' : Kernel) : Prop := {
  ev_threads : threads k' = threads k;
  ev_main : MAIN_THREAD k' = MAIN_THREAD k;
  ev_tcb a t : store k !! a = Some t ->
    exists t', store k' !! a = Some t' /\ static t t' /\
      (a ∈ threads k -> P (state t) -> state t' = state t) /\ (a ∈ threads k -> terminated t' -> terminated t) /\
      (a ∉ threads k -> a <> MAIN_THREAD k -> t' = t);
  ev_dom a : store k !! a = None -> store k' !! a = None
}.
Arguments ev_threads {P k k'}.
Arguments ev_main {P k k'}.
Arguments ev_tcb {P k k'}.
Arguments ev_dom {P k k'}.

Abbreviation evolves := (stays ended).

Lemma held_not_running P `{!Held P} t : state t = Running -> ~ P (state t).
Proof. intros H HP. destruct (held_blocked _ HP) as (r & E & _). congruence. Qed.
Lemma held_not_ready P `{!Held P} t : state t = Ready -> ~ P (state t).
Proof. intros H HP. destruct (held_blocked _ HP) as (r & E & _). congruence. Qed.
Lemma running_not_terminated t : state t = Running -> ~ terminated t.
Proof. apply (held_not_running ended). Qed.
Lemma ready_not_terminated t : state t = Ready -> ~ terminated t.
Proof. apply (held_not_ready ended). Qed.

Create HintDb evolves.
#[export] Hint Resolve held_not_running held_not_ready running_not_terminated ready_not_terminated : evolves.

Section Stays.
Context {P : ThreadState -> Prop} `{!Held P}.

Lemma stays_store k k' :
  threads k' = threads k -> MAIN_THREAD k' = MAIN_THREAD k -> store k' = store k -> stays P k k'.
Proof.
  intros H1 H2 H3. split; [done | done | | intros a; by rewrite H3]. intros a t Ht. exists t. by rewrite H3.
Qed.

#[global] Instance stays_refl : Reflexive (stays P).
Proof. intros k. by apply stays_store. Qed.

#[global] Instance stays_trans : Transitive (stays P).
Proof.
  intros k1 k2 k3 [T1 M1 H1 D1] [T2 M2 H2 D2]. split; [congruence | congruence | | auto]. intros a t Ht.
  destruct (H1 a t Ht) as (t1 & Ht1 & (S1 & S2 & S3) & K1 & L1 & U1).
  destruct (H2 a t1 Ht1) as (t2 & Ht2 & (S4 & S5 & S6) & K2 & L2 & U2).
  exists t2. split; [done |]. split; [split_and!; congruence |]. rewrite T1 in K2, L2, U2. rewrite M1 in U2.
  split; [| split; [auto |]]; [| intros Ha Hm; rewrite <- (U1 Ha Hm); auto].
  intros Ha HP. rewrite <- (K1 Ha HP). apply K2; [done |]. by rewrite (K1 Ha HP).
Qed.

Lemma stays_write k a f :
  knows k a ->
  (forall t, store k !! a = Some t -> static t (f t) /\ (a ∈ threads k -> ~ P (state t) /\ ~ terminated (f t))) ->
  stays P k (write_tcb a f k).
Proof.
  intros Hkn Hf. split; [done | done | |].
  - intros b t Ht. eexists. split; [by apply lookup_write_some |].
    case_decide; [| done]. subst. destruct (Hf t Ht) as [? Hn]. split; [done |].
    split; [| split; [| by destruct Hkn]]; intros Ha; destruct (Hn Ha); done.
  - intros b Hb. simpl. rewrite lookup_alter. case_decide; subst; by rewrite Hb.
Qed.

#[local] Hint Extern 1 (stays _ _ _) => (apply stays_store; reflexivity) : evolves.

(** Thread [i], if there is one, is not held. *)
Definition not_held (k : Kernel) (i : Z) : Prop :=
  forall a t, a ∈ threads k -> store k !! a = Some t -> id t = i -> ~ P (state t).

Lemma unblock_stays i k : not_held k i -> stays P k (unblock_task i k).
Proof.
  intros Hn. unfold unblock_task. destruct (find_thread k i) as [a|] eqn:Hf; [| done].
  destruct (find_in_spec _ _ _ _ Hf) as (Hin & t & Ht & Hid). rewrite Ht.
  destruct (state t); [done | done |].
  transitivity (write_tcb a (set_state Ready) k); [| auto with evolves].
  apply stays_write; [by right |]. intros t' Ht'. split; [done |]. intros _. split; [apply (Hn a); congruence | auto with evolves].
Qed.

Lemma unblock_not_held i j k : not_held k j -> not_held (unblock_task i k) j.
Proof.
  intros Hn. unfold unblock_task. destruct (find_thread k i) as [a|]; [| done].
  destruct (store k !! a) as [t0|]; [| done]. destruct (state t0); [done | done |].
  intros b t Hb Ht Hid. simpl in *. apply lookup_write in Ht as (t1 & Ht1 & ->).
  case_decide; [by apply held_not_ready |]. by apply (Hn b t1).
Qed.

Lemma unblock_all_stays l : forall k,
  Forall (not_held k) l -> stays P k (foldl (fun k i => unblock_task i k) k l).
Proof.
  induction l as [|i l IH]; intros k Hl; simpl; [done |]. apply Forall_cons in Hl as [Hi Hl].
  etransitivity; [by apply unblock_stays |]. apply IH.
  eapply Forall_impl; [exact Hl |]. intros j. apply unblock_not_held.
Qed.

Lemma locked_unblock_stays i k : not_held k i -> stays P k (locked_unblock i k).
Proof.
  intros Hn. transitivity (sched_lock k); [auto with evolves |].
  transitivity (unblock_task i (sched_lock k)); [by apply unblock_stays | auto with evolves].
Qed.

Lemma block_stays r k : knows k (CURR_THREAD_PTR k) -> may_call k -> (forall st, r <> Terminated st) -> stays P k (block_enter r k).
Proof.
  intros Hkn Hm Hr. unfold block_enter. transitivity (write_tcb (CURR_THREAD_PTR k)
    (fun t => set_slice TIME_SLICE (set_state (Blocked r) t)) (sched_lock k)); [| auto with evolves].
  transitivity (sched_lock k); [auto with evolves |]. apply stays_write; [done |]. intros t Ht. split; [done |].
  intros Hin. split; [by apply held_not_running, Hm |]. intros [st [= E]]. by apply (Hr st).
Qed.

Lemma requeue_stays f i k :
  knows k (CURR_THREAD_PTR k) -> may_call k -> (forall t, static t (f t) /\ state (f t) = Ready) ->
  stays P k (push_back i (write_tcb (CURR_THREAD_PTR k) f k)).
Proof.
  intros Hkn Hm Hf. transitivity (write_tcb (CURR_THREAD_PTR k) f k); [| auto with evolves].
  apply stays_write; [done |]. intros t Ht. split; [apply Hf |]. intros Hin. split; [by apply held_not_running, Hm |].
  apply ready_not_terminated, Hf.
Qed.

Lemma yield_stays k k' : knows k (CURR_THREAD_PTR k) -> may_call k -> yield_enter k = Ret k' -> stays P k k'.
Proof.
  intros Hkn Hm H. unfold yield_enter in H. run_inv H. injection H as <-.
  transitivity (sched_lock k); [auto with evolves |].
  etransitivity; [apply (requeue_stays (fun t => set_slice TIME_SLICE (set_state Ready t)) (id v)); done |].
  auto with evolves.
Qed.

Lemma pick_stays k next k' : core_of k -> pick_next_thread k = Ret (next, k') -> stays P k k'.
Proof.
  intros Hc. unfold pick_next_thread. destruct (ready_queue k) as [|i q] eqn:Hq.
  - intros [= <- <-]. apply stays_write; [by left |]. intros t _. split; [done |]. intros Hin. by destruct (core_main_out _ _ _ _ Hc).
  - destruct (core_queue _ _ _ _ Hc i) as (a & t & Ha & Ht & Hid & Hst); [rewrite Hq; apply list_elem_of_here |].
    change (find_thread (set_queue q k) i) with (find_thread k i).
    rewrite (find_thread_unique k i a t) by done. simpl. intros [= <- <-].
    transitivity (set_queue q k); [auto with evolves |]. apply stays_write; [by right |]. intros t' Ht'. split; [done |]. intros _.
    simpl in Ht'. split; [| auto with evolves]. assert (t' = t) as -> by congruence. auto with evolves.
Qed.

Lemma switch_pick_stays k next k' : sched_inv k -> switch_pick k = Ret (next, k') -> stays P k k'.
Proof.
  intros [Hc Hkn Hirq]. unfold switch_pick. destruct (NEEDS_RESCHEDULE k); [| by intros [= <- <-]]. simpl negb. cbv iota.
  destruct (_ >? 0); [done |]. intros H. run_inv H. set (k1 := sched_lock (set_needs false k)) in *.
  set (k2 := if _ && _ then _ else k1) in *.
  assert (core_of k2 /\ stays P k k2) as [Hc2 Hev].
  { unfold k2. unfold read_tcb in E. simpl in E.
    destruct (store k !! CURR_THREAD_PTR k) as [tc|] eqn:Htc; [| done]. injection E as <-.
    case_bool_decide as Hst; [destruct (Z.eqb_spec (id tc) 1) as [Eid | Eid] |]; simpl; try (split; [done | auto with evolves]).
    destruct (curr_live k Hc _ Hkn) as (t' & Ht' & Hid). assert (t' = tc) as -> by congruence.
    assert (Hin : CURR_THREAD_PTR k ∈ threads k) by (destruct Hkn as [? | ?]; [tauto | done]).
    split; [by apply (requeue_core _ k1 tc) |].
    transitivity k1; [auto with evolves |].
    apply (requeue_stays (fun t => set_slice TIME_SLICE (set_state Ready t)) (id tc) k1); [done | | done].
    intros t0 _ Ht0. simpl in Ht0. congruence. }
  run_inv H. destruct v0 as [next1 k3]. injection H as <- <-.
  transitivity k2; [done |]. transitivity k3; [by eapply pick_stays | auto with evolves].
Qed.

Lemma switch_to_stays a k : stays P k (switch_to_task a k).
Proof. auto with evolves. Qed.

Lemma switch_stays k k' : sched_inv k -> switch_if_needed k = Ret k' -> stays P k k'.
Proof.
  intros Hi H. unfold switch_if_needed in H. run_inv H. destruct v as [next k1]. injection H as <-.
  transitivity k1; [by eapply switch_pick_stays |]. destruct next; auto with evolves.
Qed.

Lemma tick_account_stays k k' :
  core_of k -> knows k (CURR_THREAD_PTR k) -> tick_ok k -> tick_account k = Ret k' -> stays P k k'.
Proof.
  intros Hc Hkn Hok H. unfold tick_account in H. run_inv H. unfold read_tcb in E.
  destruct (store k !! CURR_THREAD_PTR k) as [t|] eqn:Ht; [| done]. injection E as <-.
  destruct (Z.eqb_spec (id t) 1) as [E1 | E1]; simpl negb in H; cbv iota in H.
  - destruct (negb _) in H; injection H as <-; auto with evolves.
  - destruct (curr_live k Hc _ Hkn) as (t' & Ht' & Hid). assert (t' = t) as -> by congruence.
    assert (Hin : CURR_THREAD_PTR k ∈ threads k) by (destruct Hkn; [tauto | done]).
    destruct (Z.leb_spec (time_slice_remaining t) TIME_BETWEEN_TICKS) as [Hle |].
    + injection H as <-.
      etransitivity; [apply (requeue_stays (fun t => set_state Ready (set_slice TIME_SLICE t)) (id t)); [done | | done]
        | auto with evolves].
      intros t0 _ Ht0. replace t0 with t by congruence. destruct (decide (state t = Running)) as [|Hn]; [done |].
      specialize (Hok t Hin Ht Hn). lia.
    + run_inv H. injection H as <-. split; [done | done | |].
      * intros b tb Hb. eexists. split; [by apply lookup_write_some |]. case_decide; [subst |]; done.
      * intros b Hb. simpl. rewrite lookup_alter. case_decide; subst; by rewrite Hb.
Qed.

Lemma expired_not_held now k : core_of k -> Forall (not_held k) (expired now k).
Proof.
  intros Hc. apply Forall_forall. intros i Hi a t Ha Ht Hid HP. unfold expired in Hi.
  apply list_elem_of_omap in Hi as (b & Hb & Hm). destruct (store k !! b) as [tb|] eqn:Htb; [| done].
  assert (id tb = i /\ exists e, state tb = Blocked (Sleep e)) as [Hib [e He]].
  { destruct (state tb) as [| | []] eqn:Es; try done. destruct (_ <=? _); [| done]. injection Hm as <-. eauto. }
  assert (a = b) as -> by (eapply (core_uniq _ _ _ _ Hc); eauto; congruence).
  destruct (held_blocked _ HP) as (r & Er & Hr). apply (Hr e). congruence.
Qed.

Lemma tick_stays k k' : sched_inv k -> tick_ok k -> tick_enter k = Ret k' -> stays P k k'.
Proof.
  intros Hi Hok E1. unfold tick_enter in E1. run_inv E1. run_inv E1. run_inv E1. run_inv E1. injection E1 as <-.
  set (k0 := sched_lock (set_elapsed (wrap_u 64 (ELAPSED k + 1)) k)) in *.
  assert (Hi0 : core_of k0) by apply Hi. set (l := expired v0 k0) in *.
  destruct (unblock_fold_core l k0 Hi0) as (Hc2 & _ & Ht2 & Hm2 & Hcu2).
  transitivity k0; [auto with evolves |].
  etransitivity; [apply (unblock_all_stays l), expired_not_held, Hi0 |].
  etransitivity; [apply (tick_account_stays _ v2); [done | | by apply unblock_fold_tick_ok | done] | auto with evolves].
  unfold knows. rewrite Hcu2, Hm2, Ht2. apply Hi.
Qed.
End Stays.
Arguments not_held P k i : clear implicits.

#[export] Hint Extern 1 (stays _ _ _) => (apply stays_store; reflexivity) : evolves.

(** With termination: what is kept when the current thread exits. *)
Record keeps (k k' : Kernel) : Prop := {
  kp_threads : threads k' = threads k;
  kp_main : MAIN_THREAD k' = MAIN_THREAD k;
  kp_tcb a t : store k !! a = Some t ->
    exists t', store k' !! a = Some t' /\ static t t' /\ (a ∈ threads k -> terminated t -> terminated t') /\
      (a ∉ threads k -> a <> MAIN_THREAD k -> t' = t);
  kp_dom a : store k !! a = None -> store k' !! a = None
}.

Lemma evolves_keeps k k' : evolves k k' -> keeps k k'.
Proof.
  intros [H1 H2 H3 H4]. split; [done | done | | done]. intros a t Ht.
  destruct (H3 a t Ht) as (t' & ? & ? & Hi & _ & Hu). exists t'.
  split; [done |]. split; [done |]. split; [| done]. intros Ha Hte. unfold terminated. by rewrite (Hi Ha Hte).
Qed.

Lemma evolves_alive k k' a t' :
  evolves k k' -> core_of k -> a ∈ threads k -> store k' !! a = Some t' -> terminated t' ->
  exists t, store k !! a = Some t /\ terminated t.
Proof.
  intros Hev Hc Ha Ht' Hte. destruct (core_live _ _ _ _ Hc a Ha) as (t & Ht & _).
  destruct (ev_tcb Hev a t Ht) as (t1 & ? & _ & _ & Hi & _). assert (t1 = t') as -> by congruence.
  exists t. split; [done |]. by apply Hi.
Qed.

Lemma block_keeps r k : knows k (CURR_THREAD_PTR k) -> may_call k -> keeps k (block_enter r k).
Proof.
  intros Hkn Hm. split; [done | done | |].
  - intros a t Ht. eexists. split; [by apply lookup_write_some |].
    cbn [CURR_THREAD_PTR]. case_decide as E; [| done]. split; [done |]. split.
    + intros Ha Hte. subst. by destruct (running_not_terminated t (Hm t Ha Ht)).
    + intros Hna Hnm. subst. by destruct Hkn.
  - intros a Ha. simpl. rewrite lookup_alter. case_decide; subst; by rewrite Ha.
Qed.

Lemma keeps_trans k1 k2 k3 : keeps k1 k2 -> keeps k2 k3 -> keeps k1 k3.
Proof.
  intros [T1 M1 H1 D1] [T2 M2 H2 D2]. split; [congruence | congruence | | auto]. intros a t Ht.
  destruct (H1 a t Ht) as (t1 & Ht1 & (S1 & S2 & S3) & K1 & U1). destruct (H2 a t1 Ht1) as (t2 & Ht2 & (S4 & S5 & S6) & K2 & U2).
  rewrite T1 in K2, U2. rewrite M1 in U2.
  exists t2. split; [done |]. split; [split_and!; congruence |]. split; [auto |]. intros Ha Hm. rewrite <- (U1 Ha Hm). auto.
Qed.
