(* ===== verification/Queue.v ===== *)
(** * Bounded queues

    [crossbeam_queue::ArrayQueue], a third-party queue of fixed capacity that
    pipes, terminals, the keyboard and the mouse use: its operations as a
    class, its documented behaviour as laws on the list of its elements, and a
    queue of lists that satisfies them. *)
From S2P Require Import Prelude.

Class ArrayQueue (A Q : Type) := {
  aq_new : Z -> Q;
  aq_push : A -> Q -> Q * bool;         (** [true] for [Ok], [false] for [Err] *)
  aq_force_push : A -> Q -> Q;
  aq_pop : Q -> option A * Q;
  aq_len : Q -> Z;
  aq_capacity : Q -> Z;
  aq_is_empty : Q -> bool
}.

Class ArrayQueueLaws (A Q : Type) (AQ : ArrayQueue A Q) := {
  aq_list : Q -> list A;
  aq_ok : Q -> Prop;
  aq_new_law : forall c, 1 <= c -> aq_ok (aq_new c) /\ aq_list (aq_new c) = [] /\ aq_capacity (aq_new c) = c;
  aq_len_law : forall q, aq_ok q -> aq_len q = Z.of_nat (length (aq_list q)) /\ aq_len q <= aq_capacity q;
  aq_empty_law : forall q, aq_ok q -> aq_is_empty q = bool_decide (aq_list q = []);
  aq_push_law : forall x q, aq_ok q ->
    let '(q', ok) := aq_push x q in
    aq_ok q' /\ aq_capacity q' = aq_capacity q /\
    if aq_len q <? aq_capacity q then ok = true /\ aq_list q' = aq_list q ++ [x]
    else ok = false /\ aq_list q' = aq_list q;
  aq_force_law : forall x q, aq_ok q ->
    aq_ok (aq_force_push x q) /\ aq_capacity (aq_force_push x q) = aq_capacity q /\
    aq_list (aq_force_push x q) =
      (if aq_len q <? aq_capacity q then aq_list q else tail (aq_list q)) ++ [x];
  aq_pop_law : forall q, aq_ok q ->
    let '(o, q') := aq_pop q in
    aq_ok q' /\ aq_capacity q' = aq_capacity q /\
    match aq_list q with
    | [] => o = None /\ aq_list q' = []
    | x :: l => o = Some x /\ aq_list q' = l
    end
}.

(** ** Loops over a queue that pipes and terminals share *)
Section Loops.
Context {Q : Type} {AQ : ArrayQueue Z Q} {AL : ArrayQueueLaws Z Q AQ}.

(** [while let Some(b) = q.pop() { if i >= buffer.len() { break } buffer[i] = b; i += 1 }]:
    the fuel is the length of the queue and one more. *)
Fixpoint drain_loop (fuel : nat) (q : Q) (buffer : list Z) (i : Z) : outcome (Q * list Z * Z) :=
  match fuel with
  | O => NoFuel
  | S fuel =>
      match aq_pop q with
      | (None, q) => Ret (q, buffer, i)
      | (Some b, q) =>
          if Z.of_nat (length buffer) <=? i then Ret (q, buffer, i) else
          let! buffer := upd buffer i b in
          drain_loop fuel q buffer (i + 1)
      end
  end.

Definition drain (q : Q) (buffer : list Z) : outcome (Q * list Z * Z) :=
  drain_loop (S (Z.to_nat (aq_len q))) q buffer 0.

(** Push the bytes one by one, dropping each result. *)
Definition push_all (l : list Z) (q : Q) : Q := foldl (fun q b => fst (aq_push b q)) q l.

(** The elements copied, and the elements the loop takes out of the queue: one
    more when the buffer fills up first. *)
Definition copied (room : nat) (l : list Z) : list Z := take room l.
Definition left_over (room : nat) (l : list Z) : list Z := drop (S room) l.

Lemma drain_loop_spec fuel : forall q buffer i,
  aq_ok q -> (length (aq_list q) < fuel)%nat -> 0 <= i <= Z.of_nat (length buffer) ->
  let room := (length buffer - Z.to_nat i)%nat in
  exists q', drain_loop fuel q buffer i =
      Ret (q', take (Z.to_nat i) buffer ++ copied room (aq_list q) ++
               drop (Z.to_nat i + length (copied room (aq_list q))) buffer,
           i + Z.of_nat (length (copied room (aq_list q)))) /\
    aq_ok q' /\ aq_capacity q' = aq_capacity q /\ aq_list q' = left_over room (aq_list q).
Proof.
  induction fuel as [|fuel IH]; intros q buffer i Hq Hfu Hi; [lia |]. cbn [drain_loop].
  pose proof (aq_pop_law q Hq) as Hp. destruct (aq_pop q) as [o q1]. destruct Hp as (Hq1 & Hc1 & Hp).
  destruct (aq_list q) as [|x l] eqn:El.
  - destruct Hp as [-> Hl]. exists q1. unfold copied. rewrite take_nil. simpl.
    rewrite Z.add_0_r, Nat.add_0_r, take_drop. split; [done |]. by rewrite Hl.
  - destruct Hp as [-> Hl]. destruct (Z.leb_spec (Z.of_nat (length buffer)) i) as [Hge | Hlt].
    + exists q1. replace (length buffer - Z.to_nat i)%nat with O by lia. simpl.
      rewrite Z.add_0_r, Nat.add_0_r, take_drop. unfold left_over. simpl. by rewrite drop_0.
    + rewrite upd_ret by lia. cbn [obind].
      assert (Hlb : length (<[Z.to_nat i := x]> buffer) = length buffer) by apply length_insert.
      destruct (IH q1 (<[Z.to_nat i := x]> buffer) (i + 1)) as (q' & E & Hq' & Hc' & Hl');
        [done | rewrite Hl; simpl in Hfu; lia | lia |].
      rewrite Hlb, Hl in *. set (r := (length buffer - Z.to_nat (i + 1))%nat) in *.
      replace (length buffer - Z.to_nat i)%nat with (S r) by lia.
      exists q'. split; [| split; [done | split; [congruence | done]]].
      rewrite E. f_equal. f_equal; [f_equal |].
      * replace (Z.to_nat (i + 1)) with (S (Z.to_nat i)) by lia.
        erewrite take_S_r by (apply list_lookup_insert_eq; lia).
        rewrite take_insert_ge by lia. rewrite <- app_assoc. simpl. do 3 f_equal.
        rewrite drop_insert_lt by lia. f_equal. lia.
      * unfold copied. simpl. lia.
Qed.

Lemma drain_spec q buffer :
  aq_ok q ->
  let n := Nat.min (length buffer) (length (aq_list q)) in
  exists q', drain q buffer = Ret (q', take n (aq_list q) ++ drop n buffer, Z.of_nat n) /\
    aq_ok q' /\ aq_capacity q' = aq_capacity q /\ aq_list q' = drop (S (length buffer)) (aq_list q).
Proof.
  intros Hq n. unfold drain. pose proof (aq_len_law q Hq) as [-> _].
  destruct (drain_loop_spec (S (Z.to_nat (Z.of_nat (length (aq_list q))))) q buffer 0 Hq)
    as (q' & E & Hq' & Hc & Hl); [lia | lia |].
  change (Z.to_nat 0) with O in *. rewrite Nat.sub_0_r in *.
  exists q'. split; [| done]. rewrite E. unfold copied. rewrite length_take, !Nat.add_0_l, Z.add_0_l. fold n. simpl.
  do 3 f_equal. unfold n. destruct (Nat.min_spec (length buffer) (length (aq_list q))) as [[? ->] | [? ->]]; [done |].
  rewrite !take_ge by lia. done.
Qed.

Lemma push_all_spec l q :
  aq_ok q -> Z.of_nat (length l) + aq_len q <= aq_capacity q ->
  aq_ok (push_all l q) /\ aq_list (push_all l q) = aq_list q ++ l /\
  aq_capacity (push_all l q) = aq_capacity q.
Proof.
  revert q; induction l as [|x l IH]; intros q Hq Hlen; simpl; [by rewrite app_nil_r |].
  pose proof (aq_push_law x q Hq) as Hp. destruct (aq_push x q) as [q1 ok]. simpl.
  destruct Hp as (Hq1 & Hc & Hp). simpl length in Hlen.
  rewrite (proj2 (Z.ltb_lt (aq_len q) (aq_capacity q))) in Hp by lia. destruct Hp as [_ Hl].
  pose proof (aq_len_law q Hq) as [E _]. pose proof (aq_len_law q1 Hq1) as [E1 _].
  rewrite Hl, length_app in E1. simpl in E1.
  destruct (IH q1 Hq1) as (? & -> & ->); [lia |]. rewrite Hl, <- app_assoc. done.
Qed.
End Loops.

(** ** A queue of lists *)
Module ListQueue.
Section Lists.
Context {A : Type}.
Definition lq_len (q : Z * list A) : Z := Z.of_nat (length q.2).
Definition lq_push (x : A) (q : Z * list A) : (Z * list A) * bool :=
  if lq_len q <? q.1 then ((q.1, q.2 ++ [x]), true) else (q, false).
Definition lq_force (x : A) (q : Z * list A) : Z * list A :=
  (q.1, (if lq_len q <? q.1 then q.2 else tail q.2) ++ [x]).
Definition lq_pop (q : Z * list A) : option A * (Z * list A) := (head q.2, (q.1, tail q.2)).

#[export] Instance list_queue : ArrayQueue A (Z * list A) :=
  {| aq_new := fun c => (c, []); aq_push := lq_push; aq_force_push := lq_force; aq_pop := lq_pop;
     aq_len := lq_len; aq_capacity := fst; aq_is_empty := fun q => match q.2 with [] => true | _ => false end |}.

#[export] Instance list_queue_laws : ArrayQueueLaws A (Z * list A) list_queue.
Proof.
  refine {| aq_list := snd; aq_ok := fun q => 1 <= q.1 /\ lq_len q <= q.1 |}.
  - intros c Hc. simpl. unfold lq_len. simpl. split; [lia | done].
  - intros q [H1 H2]. by split.
  - intros [c [|x l]] _; symmetry; [by apply bool_decide_eq_true_2 | by apply bool_decide_eq_false_2].
  - intros x [c l] [H1 H2]. unfold aq_push, aq_capacity, aq_len. simpl. unfold lq_push, lq_len in *.
    cbn [fst snd] in *. destruct (Z.ltb_spec (Z.of_nat (length l)) c); cbn [fst snd]; [| done].
    rewrite length_app. simpl. split; [lia | done].
  - intros x [c l] [H1 H2]. simpl. unfold lq_force, lq_len in *. cbn [fst snd] in *. split; [| done]. split; [done |].
    rewrite length_app. simpl. destruct (Z.ltb_spec (Z.of_nat (length l)) c); [lia |].
    destruct l; simpl in *; lia.
  - intros [c [|x l]] [H1 H2]; simpl; [done |]. unfold lq_len in *. simpl in *. split; [lia | done].
Defined.
End Lists.
End ListQueue.
