(* ===== verification/Pipe.v ===== *)
(** * Pipes

    [kernel/src/fs/vfs/pipe.rs].  Reading and writing are loops that block and
    retry; one turn of a loop, from taking the pipe's lock to returning or
    blocking, is one definition, which returns [None] for "blocked: try again
    when woken".  [procs] is the process table, by process number: a process
    and its main thread have the same number. *)
From S2P Require Import Prelude Lock Thread ThreadInv Sched Queue.

Definition PIPE_BUF : nat := 1024.

Inductive Direction := Read | Write.

(** [buffer.chunks(n)] *)
Fixpoint chunks_of (fuel n : nat) (l : list Z) : list (list Z) :=
  match fuel, l with
  | S fuel, _ :: _ => take n l :: chunks_of fuel n (drop n l)
  | _, _ => []
  end.
Definition chunks (n : nat) (l : list Z) : list (list Z) := chunks_of (length l) n l.

(** ** Waking the processes that wait on a pipe *)
Definition waits_on (dir : Direction) (pipe_id : Z) (s : ThreadState) : bool :=
  match dir, s with
  | Read, Blocked (WaitPipeRead w) | Write, Blocked (WaitPipeWrite w) => w =? pipe_id
  | _, _ => false
  end.

(** [thread_for_proc(pid).unwrap()], and whether that thread is to be woken. *)
Fixpoint sleepers (k : Kernel) (waiting : ThreadState -> bool) (procs : list Z) : outcome (list Z) :=
  match procs with
  | [] => Ret []
  | pid :: procs =>
      let! a := unwrap (find_thread k pid) in
      let! t := read_tcb k a in
      let! more := sleepers k waiting procs in
      Ret (if waiting (state t) then id t :: more else more)
  end.

Definition wake_pipe_sleepers (procs : list Z) (pipe_id : Z) (dir : Direction) (k : Kernel) : outcome Kernel :=
  let! to_wake := sleepers k (waits_on dir pipe_id) procs in
  let k := sched_lock k in
  let k := foldl (fun k i => unblock_task i k) k to_wake in
  Ret (sched_unlock k).

Section Pipes.
Context {Q : Type} {AQ : ArrayQueue Z Q}.

Record Pipe := { pipe_buffer : Q; readers : Z; writers : Z }.

Definition set_buffer (q : Q) (p : Pipe) : Pipe :=
  {| pipe_buffer := q; readers := readers p; writers := writers p |}.

(** The system call that makes a pipe. *)
Definition pipe_new : Pipe := {| pipe_buffer := aq_new 4096; readers := 1; writers := 1 |}.

(** *** Reading *)
Definition pipe_read_turn (procs : list Z) (pipe_id : Z) (k : Kernel) (p : Pipe) (buffer : list Z)
  : outcome (Kernel * Pipe * list Z * option Z) :=
  if negb (aq_is_empty (pipe_buffer p)) then
    let! '(q, buffer, bytes_read) := drain (pipe_buffer p) buffer in
    let! k := if 0 <? bytes_read then wake_pipe_sleepers procs pipe_id Write k else Ret k in
    Ret (k, set_buffer q p, buffer, Some bytes_read)
  else if writers p =? 0 then Ret (k, p, buffer, Some 0)
  else
    let! k := block_task_drop_lock (WaitPipeRead pipe_id) k in
    Ret (k, p, buffer, None).

(** *** Writing: one chunk at a time *)
Record WriteCall := { todo : list (list Z); bytes_write : Z }.

Definition write_call (buffer : list Z) : WriteCall := {| todo := chunks PIPE_BUF buffer; bytes_write := 0 |}.

(** Push the chunk if all of it fits. *)
Definition try_write (p : Pipe) (chunk : list Z) : option Pipe :=
  if aq_capacity (pipe_buffer p) <? Z.of_nat (length chunk) + aq_len (pipe_buffer p) then None
  else Some (set_buffer (push_all chunk (pipe_buffer p)) p).

Definition pipe_write_turn (procs : list Z) (pipe_id : Z) (k : Kernel) (p : Pipe) (w : WriteCall)
  : outcome (Kernel * Pipe * WriteCall * option Z) :=
  match todo w with
  | [] => Ret (k, p, w, Some (bytes_write w))
  | chunk :: rest =>
      match try_write p chunk with
      | None =>
          if readers p =? 0 then Ret (k, p, w, Some (bytes_write w)) else
          let! k := block_task_drop_lock (WaitPipeWrite pipe_id) k in
          Ret (k, p, w, None)
      | Some p =>
          let! k := wake_pipe_sleepers procs pipe_id Read k in
          Ret (k, p, {| todo := rest; bytes_write := bytes_write w + Z.of_nat (length chunk) |}, None)
      end
  end.
End Pipes.
Arguments Pipe : clear implicits.

(** ** Lemmas *)
Lemma chunks_of_spec fuel n l :
  (0 < n)%nat -> (length l <= fuel)%nat ->
  concat (chunks_of fuel n l) = l /\ Forall (fun c => (0 < length c <= n)%nat) (chunks_of fuel n l).
Proof.
  revert l; induction fuel as [|fuel IH]; intros l Hn Hl.
  - destruct l; [| simpl in Hl; lia]. by split; [| constructor].
  - destruct l as [|x l]; [by split; [| constructor] |]. set (m := x :: l) in *.
    change (chunks_of (S fuel) n m) with (take n m :: chunks_of fuel n (drop n m)).
    destruct (IH (drop n m) Hn) as [E F]; [rewrite length_drop; simpl in *; lia |].
    split; [simpl; rewrite E; apply take_drop |]. constructor; [| done].
    rewrite length_take. simpl. lia.
Qed.

Lemma sleepers_spec k waiting procs :
  core_of k -> Forall (fun pid => exists a, find_thread k pid = Some a) procs ->
  exists l, sleepers k waiting procs = Ret l /\
    forall i, i ∈ l <-> exists a t, i ∈ procs /\ a ∈ threads k /\ store k !! a = Some t /\ id t = i /\
                                   waiting (state t) = true.
Proof.
  intros Hc. induction 1 as [|pid procs (a & Ha) _ (l & E & Hl)]; cbn [sleepers].
  - exists []. split; [done |]. intros i. split; [by intros ?%elem_of_nil |].
    intros (a & t & Hi & _). by apply elem_of_nil in Hi.
  - destruct (find_in_spec _ _ _ _ Ha) as (Hin & t & Ht & Hid). rewrite Ha. cbn [unwrap obind].
    unfold read_tcb. rewrite Ht. cbn [unwrap obind]. rewrite E. cbn [obind].
    eexists. split; [done |]. intros i. split.
    + intros Hi. assert (waiting (state t) = true /\ i = pid \/ i ∈ l) as [[Hw ->] | Hi'].
      { destruct (waiting (state t)); [| by right]. apply elem_of_cons in Hi as [-> | Hi]; [left | right]; auto. }
      * exists a, t. split; [apply list_elem_of_here | done].
      * apply Hl in Hi' as (b & tb & ? & ?). exists b, tb. split; [by apply list_elem_of_further | done].
    + intros (b & tb & Hi & Hb & Htb & Hidb & Hw). apply elem_of_cons in Hi as [-> | Hi].
      * assert (b = a) as -> by (eapply (core_uniq _ _ _ _ Hc); eauto; congruence).
        simplify_eq. rewrite Hw. apply list_elem_of_here.
      * assert (i ∈ l) by (apply Hl; by exists b, tb).
        destruct (waiting (state t)); [by apply list_elem_of_further | done].
Qed.

(** Waking a set of threads under the scheduler's lock. *)
Lemma wake_spec k waiting procs :
  sched_inv k -> Forall (fun pid => exists a, find_thread k pid = Some a) procs ->
  (forall s, waiting s = true -> exists r, s = Blocked r) ->
  exists l k', sleepers k waiting procs = Ret l /\
    k' = sched_unlock (unblock_all l (sched_lock k)) /\ sched_inv k' /\
    forall a t, a ∈ threads k -> store k !! a = Some t ->
      if bool_decide (id t ∈ procs) && waiting (state t)
      then store k' !! a = Some (set_state Ready t) /\ id t ∈ ready_queue k'
      else store k' !! a = Some t.
Proof.
  intros Hi Hp Hb. destruct (sleepers_spec k waiting procs (inv_core _ Hi) Hp) as (l & E & Hl).
  exists l. eexists. split; [done |]. split; [done |].
  split.
  - by apply locked_fold_inv.
  - intros a t Ha Ht. change (store (sched_unlock ?x)) with (store x).
    change (ready_queue (sched_unlock ?x)) with (ready_queue x).
    destruct (bool_decide (id t ∈ procs) && waiting (state t)) eqn:Ec.
    + apply andb_true_iff in Ec as [Hin%bool_decide_eq_true Hw]. destruct (Hb _ Hw) as [r Hr].
      apply (unblock_all_wakes l (sched_lock k) a t r); try done; [apply Hi |]. apply Hl. by exists a, t.
    + apply unblock_all_other; [done |]. intros Hin. apply Hl in Hin as (b & tb & Hb1 & Hb2 & Hb3 & Hb4 & Hb5).
      assert (b = a) as -> by (eapply (core_uniq _ _ _ _ (inv_core _ Hi)); eauto).
      simplify_eq. rewrite Hb5, bool_decide_eq_true_2 in Ec by done. done.
Qed.

Lemma waits_on_blocked dir pid s : waits_on dir pid s = true -> exists r, s = Blocked r.
Proof. destruct dir, s; try done; eauto. Qed.

Lemma wake_pipe_spec procs pipe_id dir k :
  sched_inv k -> Forall (fun pid => exists a, find_thread k pid = Some a) procs ->
  exists k', wake_pipe_sleepers procs pipe_id dir k = Ret k' /\ sched_inv k' /\
    forall a t, a ∈ threads k -> store k !! a = Some t ->
      if bool_decide (id t ∈ procs) && waits_on dir pipe_id (state t)
      then store k' !! a = Some (set_state Ready t) /\ id t ∈ ready_queue k'
      else store k' !! a = Some t.
Proof.
  intros Hi Hp. destruct (wake_spec k (waits_on dir pipe_id) procs Hi Hp (waits_on_blocked dir pipe_id))
    as (l & k' & E & -> & Hi' & H).
  unfold wake_pipe_sleepers. rewrite E. cbn [obind]. eexists. split; [reflexivity |]. done.
Qed.

Section PipeProps.
Context {Q : Type} {AQ : ArrayQueue Z Q} {AL : ArrayQueueLaws Z Q AQ}.

Definition pipe_data (p : Pipe Q) : list Z := aq_list (pipe_buffer p).

(** ** The bytes that pass through a pipe

    Readers and writers interleave: a step is one successful write of a chunk
    or one read of a pipe that holds data.  [sent] and [received] are the bytes
    all writers pushed and all readers were given. *)
Record Traffic := { tr_pipe : Pipe Q; sent : list Z; received : list Z }.

Inductive traffic_step (size_ok : nat -> Prop) : Traffic -> Traffic -> Prop :=
| tr_write p p' s r chunk :
    (length chunk <= PIPE_BUF)%nat -> try_write p chunk = Some p' ->
    traffic_step size_ok {| tr_pipe := p; sent := s; received := r |}
                         {| tr_pipe := p'; sent := s ++ chunk; received := r |}
| tr_read p s r buffer q buffer' n :
    size_ok (length buffer) -> drain (pipe_buffer p) buffer = Ret (q, buffer', n) ->
    traffic_step size_ok {| tr_pipe := p; sent := s; received := r |}
                         {| tr_pipe := set_buffer q p; sent := s; received := r ++ take (Z.to_nat n) buffer' |}.

Definition no_traffic : Traffic := {| tr_pipe := pipe_new; sent := []; received := [] |}.

(** [consumed] is what readers took out, the bytes they dropped included. *)
Definition traffic_inv (t : Traffic) : Prop :=
  aq_ok (pipe_buffer (tr_pipe t)) /\ aq_capacity (pipe_buffer (tr_pipe t)) = 4096 /\
  exists consumed, consumed ++ pipe_data (tr_pipe t) = sent t /\ received t `sublist_of` consumed.

Lemma try_write_spec (p : Pipe Q) chunk p' :
  aq_ok (pipe_buffer p) -> try_write p chunk = Some p' ->
  aq_ok (pipe_buffer p') /\ pipe_data p' = pipe_data p ++ chunk /\
  aq_capacity (pipe_buffer p') = aq_capacity (pipe_buffer p).
Proof.
  intros Hq. unfold try_write. destruct (Z.ltb_spec (aq_capacity (pipe_buffer p))
    (Z.of_nat (length chunk) + aq_len (pipe_buffer p))); [done |]. intros [= <-].
  destruct (push_all_spec chunk (pipe_buffer p) Hq) as (H1 & H2 & H3); [lia |]. done.
Qed.

Lemma drain_take (q q' : Q) buffer buffer' n :
  aq_ok q -> drain q buffer = Ret (q', buffer', n) ->
  take (Z.to_nat n) buffer' = take (length buffer) (aq_list q) /\ aq_ok q' /\
  aq_capacity q' = aq_capacity q /\ aq_list q' = drop (S (length buffer)) (aq_list q).
Proof.
  intros Hq H. destruct (drain_spec q buffer Hq) as (q1 & E & ? & ? & ?). rewrite E in H.
  injection H as <- <- <-. split; [| done]. rewrite Nat2Z.id, take_app_le by (rewrite length_take; lia).
  rewrite take_take. destruct (Nat.min_spec (length buffer) (length (aq_list q))) as [[? ->] | [? ->]];
    [by rewrite Nat.min_id | rewrite Nat.min_id, !take_ge by lia; done].
Qed.

Lemma new_pipe_data : aq_ok (pipe_buffer (@pipe_new Q AQ)) /\ pipe_data pipe_new = [] /\
  aq_capacity (pipe_buffer (@pipe_new Q AQ)) = 4096.
Proof. apply (aq_new_law 4096). lia. Qed.

Lemma no_traffic_inv : traffic_inv no_traffic.
Proof.
  destruct new_pipe_data as (H1 & H2 & H3). split; [done |]. split; [done |].
  exists []. split; [done | constructor].
Qed.

Lemma traffic_step_inv ok t t' : traffic_step ok t t' -> traffic_inv t -> traffic_inv t'.
Proof.
  intros [p p' s r chunk Hl Hw | p s r buffer q buffer' n Hok Hd] (Hq & Hc & cons & Hs & Hr);
    unfold traffic_inv, pipe_data in *; simpl in *.
  - destruct (try_write_spec p chunk p' Hq Hw) as (Hq' & Hd' & Hc').
    split; [done |]. split; [congruence |]. exists cons. split; [| done].
    unfold pipe_data in Hd'. rewrite Hd', app_assoc. congruence.
  - destruct (drain_take _ _ _ _ _ Hq Hd) as (Ht & Hq' & Hc' & Hl').
    split; [done |]. split; [congruence |]. rewrite Ht, Hl'. set (l := aq_list (pipe_buffer p)) in *.
    exists (cons ++ take (S (length buffer)) l). split.
    + rewrite <- app_assoc, take_drop. done.
    + apply sublist_app; [done |].
      replace (take (length buffer) l) with (take (length buffer) (take (S (length buffer)) l))
        by (rewrite take_take; f_equal; lia).
      apply sublist_take.
Qed.

(** ** Properties *)

(** Waking: [wake_pipe_sleepers] returns, makes ready and queues every
    process that waits on this end of this pipe, leaves every other thread as
    it was, and keeps the scheduler's invariant. *)
Theorem pipe_wake_complete procs pipe_id dir k :
  sched_inv k -> Forall (fun pid => exists a, find_thread k pid = Some a) procs ->
  exists k', wake_pipe_sleepers procs pipe_id dir k = Ret k' /\ sched_inv k' /\
    forall a t, a ∈ threads k -> store k !! a = Some t ->
      if bool_decide (id t ∈ procs) && waits_on dir pipe_id (state t)
      then store k' !! a = Some (set_state Ready t) /\ id t ∈ ready_queue k'
      else store k' !! a = Some t.
Proof. apply wake_pipe_spec. Qed.

(** Reading a pipe that holds data returns at once with the oldest bytes,
    in order, as many as the buffer takes.  What stays in the pipe is what
    follows, less one byte when the buffer filled up first: the loop pops a byte
    before it looks for room. *)
Theorem pipe_read_exact procs pipe_id k p buffer :
  sched_inv k -> Forall (fun pid => exists a, find_thread k pid = Some a) procs ->
  aq_ok (pipe_buffer p) -> pipe_data p <> [] ->
  let n := Nat.min (length buffer) (length (pipe_data p)) in
  exists k' p', pipe_read_turn procs pipe_id k p buffer =
      Ret (k', p', take n (pipe_data p) ++ drop n buffer, Some (Z.of_nat n)) /\
    aq_ok (pipe_buffer p') /\ sched_inv k' /\ pipe_data p' = drop (S (length buffer)) (pipe_data p).
Proof.
  intros Hi Hp Hq Hne n. unfold pipe_read_turn. rewrite aq_empty_law by done.
  rewrite bool_decide_eq_false_2 by done. cbn [negb].
  destruct (drain_spec (pipe_buffer p) buffer Hq) as (q & E & Hq' & _ & Hl). rewrite E. cbn [obind].
  change (aq_list (pipe_buffer p)) with (pipe_data p) in *. fold n.
  destruct (wake_pipe_spec procs pipe_id Write k Hi Hp) as (k' & Ek & Hk & _).
  destruct (0 <? Z.of_nat n).
  - rewrite Ek. cbn [obind]. by exists k', (set_buffer q p).
  - cbn [obind]. by exists k, (set_buffer q p).
Qed.

(** [C28] First in, first out: whatever the interleaving of readers and writers,
    what readers have been given is, in order, part of what they took out, and
    what they took out followed by what the pipe holds is exactly what was
    written; the pipe never holds more than its 4096 bytes. *)
Theorem pipe_fifo ok t :
  rtc (traffic_step ok) no_traffic t ->
  Z.of_nat (length (pipe_data (tr_pipe t))) <= 4096 /\
  exists consumed, consumed ++ pipe_data (tr_pipe t) = sent t /\ received t `sublist_of` consumed.
Proof.
  intros Hr. pose proof (rtc_preserve _ traffic_inv _ _ (traffic_step_inv ok) Hr no_traffic_inv) as Hi.
  destruct Hi as (Hq & Hc & H). split; [| done].
  destruct (aq_len_law _ Hq) as [E1 E2]. unfold pipe_data. lia.
Qed.

(** No byte is lost when every reader's buffer is at least as large as the
    pipe: what was received followed by what the pipe holds is what was written. *)
Theorem pipe_lossless t :
  rtc (traffic_step (fun n => (4096 <= n)%nat)) no_traffic t ->
  received t ++ pipe_data (tr_pipe t) = sent t.
Proof.
  intros Hr.
  eapply (rtc_preserve _ (fun t => traffic_inv t /\ received t ++ pipe_data (tr_pipe t) = sent t)) in Hr;
    [by destruct Hr | | split; [apply no_traffic_inv | apply new_pipe_data]].
  clear. intros x y Hs [Hi He].
  split; [by eapply traffic_step_inv |]. destruct Hi as (Hq & Hc & _).
  destruct Hs as [p p' s r chunk Hl Hw | p s r buffer q buffer' n Hok Hd]; simpl in *.
  - destruct (try_write_spec p chunk p' Hq Hw) as (_ & -> & _). by rewrite app_assoc, He.
  - destruct (drain_take _ _ _ _ _ Hq Hd) as (-> & _ & _ & Hl'). unfold pipe_data in *. simpl. rewrite Hl'.
    destruct (aq_len_law _ Hq) as [E1 E2]. rewrite take_ge, drop_ge by lia. by rewrite app_nil_r.
Qed.

(** The calls split a buffer into chunks of at most 1024 bytes that cover
    it in order, so a chunk fits as soon as the pipe has been drained. *)
Theorem write_call_covers buffer :
  concat (todo (write_call buffer)) = buffer /\
  Forall (fun c => (0 < length c <= PIPE_BUF)%nat) (todo (write_call buffer)).
Proof. apply chunks_of_spec; unfold PIPE_BUF; lia. Qed.
End PipeProps.

(** ** Witnesses *)
Module PipeWitness.
Import ListQueue SchedWitness.
Definition pipe1 : Pipe (Z * list Z) := set_buffer (4096, [10; 11; 12]) pipe_new.

Lemma k_sleep_procs : Forall (fun pid => exists a, find_thread k_sleep pid = Some a) [65536].
Proof. apply Forall_cons. split; [| done]. eexists. vm_compute. reflexivity. Qed.

Lemma pipe_wake_complete_witness :
  exists k', wake_pipe_sleepers [65536] 7 Read k_sleep = Ret k' /\ sched_inv k'.
Proof.
  destruct (pipe_wake_complete [65536] 7 Read k_sleep k_sleep_inv k_sleep_procs) as (k' & E & H & _).
  exists k'. split; [exact E | exact H].
Defined.

(** A buffer of one byte: the second byte of the pipe is lost. *)
Lemma pipe_read_exact_witness :
  exists k' p', pipe_read_turn [65536] 7 k_sleep pipe1 [0] = Ret (k', p', [10], Some 1) /\
    aq_ok (pipe_buffer p') /\ sched_inv k' /\ pipe_data p' = [12].
Proof.
  assert (Hq : aq_ok (pipe_buffer pipe1)) by (vm_compute; intuition congruence).
  assert (Hne : pipe_data pipe1 <> []) by done.
  exact (pipe_read_exact [65536] 7 k_sleep pipe1 [0] k_sleep_inv k_sleep_procs Hq Hne).
Defined.

Definition traffic1 : Traffic :=
  {| tr_pipe := set_buffer (4096, [1; 2]) (@pipe_new (Z * list Z) list_queue); sent := [1; 2]; received := [] |}.

Lemma traffic1_reach ok : rtc (traffic_step ok) no_traffic traffic1.
Proof. apply rtc_once. apply (tr_write ok pipe_new (tr_pipe traffic1) [] [] [1; 2]); [unfold PIPE_BUF; simpl; lia | reflexivity]. Qed.

Lemma pipe_fifo_witness :
  Z.of_nat (length (pipe_data (tr_pipe traffic1))) <= 4096 /\
  exists consumed, consumed ++ pipe_data (tr_pipe traffic1) = sent traffic1 /\
    received traffic1 `sublist_of` consumed.
Proof. exact (pipe_fifo (fun _ => True) traffic1 (traffic1_reach _)). Defined.

Lemma pipe_lossless_witness : received traffic1 ++ pipe_data (tr_pipe traffic1) = sent traffic1.
Proof. exact (pipe_lossless traffic1 (traffic1_reach _)). Defined.
End PipeWitness.
