(* ===== verification/Proc.v ===== *)
(** * Processes

    [kernel/src/task/proc.rs] and [sys_exit] of [kernel/src/syscall.rs]: the
    process table, [spawn_proc], [fork], [exec], [wait_pid] and exit, over the
    scheduler of [Thread] and the address spaces of [Paging], [UserMem],
    [UserStack] and [Elf].

    Process control blocks are shared ([Arc<Mutex<..>>] in the process table
    and in the thread), so they live in a store and are named by addresses; the
    addresses of new blocks and stacks, which the heap chooses, are inputs.  A
    descriptor table maps descriptors to addresses of open files. *)
From S2P Require Import Prelude Text Memory Paging PagingMap UserMem UserStack Elf Slab Lock Thread ThreadInv.

Record ProcessControlBlock (S : Type) := mkPCB {
  pid : Z;
  pname : list Z;
  argv : list (list Z);
  cwd : Z;
  fd : S;
  adsp : AddressSpace;
  parent : option Z;
  children : list Z
}.
Arguments mkPCB {S}.
Arguments pid {S}.
Arguments pname {S}.
Arguments argv {S}.
Arguments cwd {S}.
Arguments fd {S}.
Arguments adsp {S}.
Arguments parent {S}.
Arguments children {S}.

(** The globals: scheduler, processes, physical memory, and the register that
    selects the page table. *)
Record System (A S : Type) := mkSystem {
  kern : Kernel;
  pcbs : gmap Z (ProcessControlBlock S);
  PROC : list Z;
  PID : Z;
  ram : gmap Z (list Z);
  ALLOC : A;
  CR3 : Z
}.
Arguments mkSystem {A S}.
Arguments kern {A S}.
Arguments pcbs {A S}.
Arguments PROC {A S}.
Arguments PID {A S}.
Arguments ram {A S}.
Arguments ALLOC {A S}.
Arguments CR3 {A S}.

(** ** Trap frames *)

(** The registers that [syscall_entry] pushes (the last pushed first), then
    those the processor pushed. *)
Record TrapFrame := {
  tf_r15 : Z; tf_r14 : Z; tf_r13 : Z; tf_r12 : Z; tf_r11 : Z; tf_r10 : Z; tf_r9 : Z; tf_r8 : Z;
  tf_rbp : Z; tf_rdi : Z; tf_rsi : Z; tf_rdx : Z; tf_rcx : Z; tf_rbx : Z; tf_rax : Z;
  tf_rip : Z; tf_cs : Z; tf_rflags : Z; tf_rsp : Z; tf_ss : Z
}.

Definition zero_out : TrapFrame :=
  {| tf_r15 := 0; tf_r14 := 0; tf_r13 := 0; tf_r12 := 0; tf_r11 := 0; tf_r10 := 0; tf_r9 := 0; tf_r8 := 0;
     tf_rbp := 0; tf_rdi := 0; tf_rsi := 0; tf_rdx := 0; tf_rcx := 0; tf_rbx := 0; tf_rax := 0;
     tf_rip := 0; tf_cs := 0; tf_rflags := 0; tf_rsp := 0; tf_ss := 0 |}.

Definition set_rax (v : Z) (t : TrapFrame) : TrapFrame :=
  {| tf_r15 := tf_r15 t; tf_r14 := tf_r14 t; tf_r13 := tf_r13 t; tf_r12 := tf_r12 t; tf_r11 := tf_r11 t;
     tf_r10 := tf_r10 t; tf_r9 := tf_r9 t; tf_r8 := tf_r8 t; tf_rbp := tf_rbp t; tf_rdi := tf_rdi t;
     tf_rsi := tf_rsi t; tf_rdx := tf_rdx t; tf_rcx := tf_rcx t; tf_rbx := tf_rbx t; tf_rax := v;
     tf_rip := tf_rip t; tf_cs := tf_cs t; tf_rflags := tf_rflags t; tf_rsp := tf_rsp t; tf_ss := tf_ss t |}.

(** The frame in memory, lowest address first ([repr(C)]). *)
Definition trap_words (t : TrapFrame) : list Z :=
  [tf_r15 t; tf_r14 t; tf_r13 t; tf_r12 t; tf_r11 t; tf_r10 t; tf_r9 t; tf_r8 t;
   tf_rbp t; tf_rdi t; tf_rsi t; tf_rdx t; tf_rcx t; tf_rbx t; tf_rax t;
   tf_rip t; tf_cs t; tf_rflags t; tf_rsp t; tf_ss t].

(** [fork_start_hook], and the second half of [syscall_entry]: the registers
    after the pops and [iretq]. *)
Definition fork_start_hook (st : list Z) : option TrapFrame :=
  match st with
  | [r15; r14; r13; r12; r11; r10; r9; r8; rbp; rdi; rsi; rdx; rcx; rbx; rax; rip; cs; rflags; rsp; ss] =>
      Some {| tf_r15 := r15; tf_r14 := r14; tf_r13 := r13; tf_r12 := r12; tf_r11 := r11; tf_r10 := r10;
              tf_r9 := r9; tf_r8 := r8; tf_rbp := rbp; tf_rdi := rdi; tf_rsi := rsi; tf_rdx := rdx;
              tf_rcx := rcx; tf_rbx := rbx; tf_rax := rax;
              tf_rip := rip; tf_cs := cs; tf_rflags := rflags; tf_rsp := rsp; tf_ss := ss |}
  | _ => None
  end.

(** The first half of [syscall_entry] pushes the registers in this order on the
    five words of the processor. *)
Definition syscall_entry (regs : TrapFrame) : list Z :=
  foldl (fun st r => r :: st) [tf_rip regs; tf_cs regs; tf_rflags regs; tf_rsp regs; tf_ss regs]
    [tf_rax regs; tf_rbx regs; tf_rcx regs; tf_rdx regs; tf_rsi regs; tf_rdi regs; tf_rbp regs;
     tf_r8 regs; tf_r9 regs; tf_r10 regs; tf_r11 regs; tf_r12 regs; tf_r13 regs; tf_r14 regs; tf_r15 regs].

(** What is pushed is the frame that the handler gets a reference to, and the
    pops return it. *)
Lemma syscall_entry_frame regs : syscall_entry regs = trap_words regs /\ fork_start_hook (syscall_entry regs) = Some regs.
Proof. by destruct regs. Qed.

(** The end of [switch_to_task]: the registers of a thread that is switched to,
    the address it returns to and the rest of its stack. *)
Record Resumed := {
  rs_r15 : Z; rs_r14 : Z; rs_r13 : Z; rs_r12 : Z; rs_rbp : Z; rs_rbx : Z; rs_rflags : Z;
  rs_return : Z; rs_stack : list Z
}.
Definition switch_pops (st : list Z) : option Resumed :=
  match st with
  | r15 :: r14 :: r13 :: r12 :: rbp :: rbx :: rflags :: ret :: st =>
      Some {| rs_r15 := r15; rs_r14 := r14; rs_r13 := r13; rs_r12 := r12; rs_rbp := rbp; rs_rbx := rbx;
              rs_rflags := rflags; rs_return := ret; rs_stack := st |}
  | _ => None
  end.

(** [user_process_hook]: what it pushes and [iretq] pops. *)
Definition user_process_hook (r : Resumed) : list Z :=
  [rs_r13 r; Z.lor (Z.shiftl 5 3) 3; Z.lor (Z.shiftl 1 9) (Z.shiftl 1 1); rs_r14 r; Z.lor (Z.shiftl 6 3) 3].

(** The words of a thread's stack from its stack pointer up, for a stack
    allocated at [base]. *)
Definition stack_from (base : Z) (t : ThreadControlBlock) : list Z :=
  drop (Z.to_nat ((rsp t - base) / 8)) (stack t).

Record ForkAddrs := { child_pcb : Z; child_tcb : Z; child_stack : Z; fork_hook : Z }.

Definition fork_stack (hook : Z) (tf : TrapFrame) : list Z :=
  let start := max_stack_len - 20 in
  let ctx_start := start - 8 in
  replicate (Z.to_nat ctx_start) 0 ++ [0; 0; 0; 0; 0; 0; 514; hook] ++ trap_words tf.

Definition set_tcb_cr3 (c : Z) (t : ThreadControlBlock) : ThreadControlBlock :=
  {| rsp := rsp t; rsp0 := rsp0 t; Thread.cr3 := c; state := state t; id := id t; stack := stack t;
     time_slice_remaining := time_slice_remaining t; pcb := pcb t |}.
Definition set_tcb_pcb (p : option Z) (t : ThreadControlBlock) : ThreadControlBlock :=
  {| rsp := rsp t; rsp0 := rsp0 t; Thread.cr3 := Thread.cr3 t; state := state t; id := id t; stack := stack t;
     time_slice_remaining := time_slice_remaining t; pcb := p |}.

(** The names of the embedded programs. *)
Definition name_shell : list Z := [115; 104; 101; 108; 108].
Definition name_xiangqi : list Z := [120; 105; 97; 110; 103; 113; 105].
Definition name_printmousemovement : list Z := [112; 114; 105; 110; 116; 109; 111; 117; 115; 101; 109; 111; 118; 101; 109; 101; 110; 116].

Section Proc.
Context {A : Type} {FA : FrameAllocator A} {PA : PageApi A} {AA : AddrApi} {S : Type} {SL : Slab S}.
Abbreviation Sys := (System A S) (only parsing).
Abbreviation Pcb := (ProcessControlBlock S) (only parsing).

(** [KERNEL_CONFIG.page_table_address], the embedded programs as the [elf]
    crate reads them, and the selectors of the descriptor table. *)
Record Config := {
  page_table_address : Z;
  SHELL_ELF : ElfFile; XIANGQI_ELF : ElfFile; PRINTMOUSEMOVEMENT_ELF : ElfFile;
  user_code_selector : Z; user_data_selector : Z
}.
Variable cfg : Config.

Definition set_kern (k : Kernel) (s : Sys) : Sys :=
  mkSystem k (pcbs s) (PROC s) (PID s) (ram s) (ALLOC s) (CR3 s).
Definition set_pcbs (m : gmap Z Pcb) (s : Sys) : Sys :=
  mkSystem (kern s) m (PROC s) (PID s) (ram s) (ALLOC s) (CR3 s).
Definition set_proc (l : list Z) (s : Sys) : Sys :=
  mkSystem (kern s) (pcbs s) l (PID s) (ram s) (ALLOC s) (CR3 s).
Definition set_pid (n : Z) (s : Sys) : Sys :=
  mkSystem (kern s) (pcbs s) (PROC s) n (ram s) (ALLOC s) (CR3 s).
Definition set_mem (m : gmap Z (list Z)) (a : A) (s : Sys) : Sys :=
  mkSystem (kern s) (pcbs s) (PROC s) (PID s) m a (CR3 s).
Definition set_CR3 (c : Z) (s : Sys) : Sys :=
  mkSystem (kern s) (pcbs s) (PROC s) (PID s) (ram s) (ALLOC s) c.

Definition set_children (l : list Z) (p : Pcb) : Pcb :=
  mkPCB (pid p) (pname p) (argv p) (cwd p) (fd p) (adsp p) (parent p) l.
Definition set_adsp (d : AddressSpace) (p : Pcb) : Pcb :=
  mkPCB (pid p) (pname p) (argv p) (cwd p) (fd p) d (parent p) (children p).
Definition set_fd (f : S) (p : Pcb) : Pcb :=
  mkPCB (pid p) (pname p) (argv p) (cwd p) f (adsp p) (parent p) (children p).
Definition set_cwd (d : Z) (p : Pcb) : Pcb :=
  mkPCB (pid p) (pname p) (argv p) d (fd p) (adsp p) (parent p) (children p).

(** Write through a locked process control block. *)
Definition write_pcb (a : Z) (f : Pcb -> Pcb) (s : Sys) : Sys := set_pcbs (alter f a (pcbs s)) s.

(** ** The current thread and process *)
Definition curr_thread (s : Sys) : outcome ThreadControlBlock := read_tcb (kern s) (CURR_THREAD_PTR (kern s)).
Definition curr_proc (s : Sys) : outcome (Z * Pcb) :=
  let! t := curr_thread s in
  let! a := unwrap (pcb t) in
  let! p := unwrap (pcbs s !! a) in
  Ret (a, p).

(** [switch_to_task], with the page table that it loads. *)
Definition switch_space_to (next : Z) (s : Sys) : outcome Sys :=
  let! t := read_tcb (kern s) next in
  Ret (set_kern (switch_to_task next (kern s)) (set_CR3 (Thread.cr3 t) s)).

(** [switch_if_needed] *)
Definition switch_space (s : Sys) : outcome Sys :=
  let! '(next, k) := switch_pick (kern s) in
  match next with
  | Some a => switch_space_to a (set_kern k s)
  | None => Ret (set_kern k s)
  end.

Definition get_program_binary (program : list Z) : outcome ElfFile :=
  if bool_decide (program = name_shell) then Ret (SHELL_ELF cfg)
  else if bool_decide (program = name_xiangqi) then Ret (XIANGQI_ELF cfg)
  else if bool_decide (program = name_printmousemovement) then Ret (PRINTMOUSEMOVEMENT_ELF cfg)
  else Panic.

(** ** New processes *)
Record SpawnAddrs := { new_pcb : Z; new_tcb : Z; new_thread : NewThread; process_hook : Z }.

(** [ProcessControlBlock::from_bytes]; [fds] is the table [setup_fd] makes. *)
Definition from_bytes (n : SpawnAddrs) (args : list (list Z)) (file : ElfFile) (program : list Z)
  (directory : Z) (par : option Z) (fds : S) (s : Sys) : outcome (Pcb * ThreadControlBlock * Sys) :=
  let new_pid := PID s in
  let s := set_pid (wrap_u 64 (PID s + 1)) s in
  let! '(addr_space, (m, a)) := from_elf (page_table_address cfg) file (ram s, ALLOC s) in
  let! '(args, rsp, m) := copy_args_to_stack addr_space args program m in
  let tcb := tcb_new (new_thread n) new_pid (process_hook n) (Some (Paging.cr3 addr_space))
               (Some (program_start addr_space)) (Some rsp) in
  Ret (mkPCB new_pid program args directory fds addr_space par [], tcb, set_mem m a s).

(** [spawn_proc] up to the push to [PROC]: the process is in the table, its
    thread in no list yet.  Interrupts are enabled between this and the
    scheduler's critical section. *)
Definition spawn_enter (n : SpawnAddrs) (program : list Z) (args : list (list Z)) (root : Z) (fds : S) (s : Sys)
  : outcome (Z * Sys) :=
  let! file := get_program_binary program in
  let! '(proc, main_thread, s) := from_bytes n args file program root None fds s in
  let pid := pid proc in
  let s := set_pcbs (<[new_pcb n := proc]> (pcbs s)) s in
  let main_thread := set_tcb_pcb (Some (new_pcb n)) main_thread in
  let s := set_kern (alloc_tcb (new_tcb n) main_thread (kern s)) s in
  Ret (pid, set_proc (PROC s ++ [new_pcb n]) s).

Definition spawn_proc (n : SpawnAddrs) (program : list Z) (args : list (list Z)) (root : Z) (fds : S) (s : Sys)
  : outcome Sys :=
  let! '(pid, s) := spawn_enter n program args root fds s in
  Ret (set_kern (list_thread (new_tcb n) pid (kern s)) s).

(** ** Fork *)
(** [fork] up to the push to [PROC]. *)
Definition fork_enter (n : ForkAddrs) (tf : TrapFrame) (s : Sys) : outcome (Z * Sys) :=
  let child_pid := PID s in
  let s := set_pid (wrap_u 64 (PID s + 1)) s in
  let! '(og, og_proc) := curr_proc s in
  let new_tf := set_rax 0 tf in
  let! '(new_address_space, (m, a)) := clone_for_fork (page_table_address cfg) (adsp og_proc) (ram s, ALLOC s) in
  let s := set_mem m a s in
  let child_proc := mkPCB child_pid (pname og_proc) (argv og_proc) (cwd og_proc) (fd og_proc)
                      new_address_space (Some (pid og_proc)) [] in
  let tcb := {| rsp := child_stack n + 8 * (max_stack_len - 28);
                rsp0 := child_stack n + 8 * max_stack_len;
                Thread.cr3 := Paging.cr3 new_address_space;
                state := Ready;
                id := child_pid;
                stack := fork_stack (fork_hook n) new_tf;
                time_slice_remaining := TIME_SLICE;
                pcb := Some (child_pcb n) |} in
  let s := set_pcbs (<[child_pcb n := child_proc]> (pcbs s)) s in
  let s := set_kern (alloc_tcb (child_tcb n) tcb (kern s)) s in
  let s := write_pcb og (set_children (children og_proc ++ [child_pid])) s in
  Ret (child_pid, set_proc (PROC s ++ [child_pcb n]) s).

Definition fork (n : ForkAddrs) (tf : TrapFrame) (s : Sys) : outcome (Z * Sys) :=
  let! '(child_pid, s) := fork_enter n tf s in
  Ret (child_pid, set_kern (list_thread (child_tcb n) child_pid (kern s)) s).

(** ** Exec *)
Definition exec_frame (rip rsp : Z) : TrapFrame :=
  {| tf_r15 := tf_r15 zero_out; tf_r14 := tf_r14 zero_out; tf_r13 := tf_r13 zero_out; tf_r12 := tf_r12 zero_out;
     tf_r11 := tf_r11 zero_out; tf_r10 := tf_r10 zero_out; tf_r9 := tf_r9 zero_out; tf_r8 := tf_r8 zero_out;
     tf_rbp := tf_rbp zero_out; tf_rdi := tf_rdi zero_out; tf_rsi := tf_rsi zero_out; tf_rdx := tf_rdx zero_out;
     tf_rcx := tf_rcx zero_out; tf_rbx := tf_rbx zero_out; tf_rax := tf_rax zero_out;
     tf_rip := rip; tf_cs := user_code_selector cfg; tf_rflags := 514; tf_rsp := rsp;
     tf_ss := user_data_selector cfg |}.

Definition exec (program : list Z) (args : list (list Z)) (s : Sys) : outcome (TrapFrame * Sys) :=
  let! file := get_program_binary program in
  let! '(addr_space, (m, a)) := from_elf (page_table_address cfg) file (ram s, ALLOC s) in
  let! '(args, rsp, m) := copy_args_to_stack addr_space args program m in
  let s := set_mem m a s in
  let! '(p, proc) := curr_proc s in
  let s := write_pcb p (fun q => mkPCB (pid q) program args (cwd q) (fd q) addr_space (parent q) (children q)) s in
  let s := set_kern (write_tcb (CURR_THREAD_PTR (kern s)) (set_tcb_cr3 (Paging.cr3 addr_space)) (kern s)) s in
  Ret (exec_frame (program_start addr_space) rsp, set_CR3 (Paging.cr3 addr_space) s).

(** ** Waiting and exit *)
(** The test of [wait_pid] and its [block_task] are separate: a timer
    interrupt, and with it the exit of the child, may fall in between. *)
Definition is_child (child : Z) (s : Sys) : outcome bool :=
  let! '(_, p) := curr_proc s in Ret (bool_decide (child ∈ children p)).
Definition wait_block (child : Z) (s : Sys) : Sys :=
  set_kern (block_enter (WaitThread child) (kern s)) s.

Definition wait_pid (child : Z) (s : Sys) : outcome Sys :=
  let! c := is_child child s in
  if negb c then Ret s else switch_space (wait_block child s).

Definition has_pid (s : Sys) (i : Z) (a : Z) : bool :=
  match pcbs s !! a with Some p => pid p =? i | None => false end.

(** The state of the parent's thread decides whether it is woken. *)
Definition notify_parent (parent_id me : Z) (k : Kernel) : outcome Kernel :=
  let k := sched_lock k in
  let! a := unwrap (find_thread k parent_id) in
  let! t := read_tcb k a in
  let waits := match state t with Blocked (WaitThread child_pid) => child_pid =? me | _ => false end in
  let k := sched_unlock k in
  Ret (if waits then locked_unblock parent_id k else k).

(** Up to the critical section of [terminate_task]. *)
Definition exit_enter (status : Z) (s : Sys) : outcome Sys :=
  let! t := curr_thread s in
  let! '(a, procs) := unwrap (remove_first (has_pid s (id t)) (PROC s)) in
  let! p := unwrap (pcbs s !! a) in
  let s := set_proc procs s in
  let! k := match parent p with
            | Some parent_id => notify_parent parent_id (id t) (kern s)
            | None => Ret (kern s)
            end in
  Ret (set_kern (terminate_enter (wrap_u 8 status) k) s).

Definition sys_exit (status : Z) (s : Sys) : outcome Sys :=
  let! s := exit_enter status s in switch_space s.

(** ** Memory of the current process *)
Definition proc_alloc (size : Z) (s : Sys) : outcome (Z * Sys) :=
  let! '(a, p) := curr_proc s in
  let! '(r, d, (m, al)) := sys_alloc size (adsp p) (ram s, ALLOC s) in
  Ret (r, write_pcb a (set_adsp d) (set_mem m al s)).

Definition proc_back_buffer (screen : ScreenSize) (s : Sys) : outcome (UserWindow * Sys) :=
  let! '(a, p) := curr_proc s in
  let! '(win, d, (m, al)) := sys_alloc_back_buffer screen (adsp p) (ram s, ALLOC s) in
  Ret (win, write_pcb a (set_adsp d) (set_mem m al s)).

Definition sys_get_pid (s : Sys) : outcome Z := let! '(_, p) := curr_proc s in Ret (pid p).
End Proc.
