(* ===== verification/ProcInv.v ===== *)
(** * The process table's invariant

    Every process has a thread of its own, which the scheduler lists or [fork]
    or [spawn_proc] is about to list, and an address space of its own;
    frames are not shared; the page table in use is the current thread's.
    Every operation on processes preserves it, and what one process does
    leaves the memory of every other as it was. *)
From S2P Require Import Prelude Text Memory Paging PagingMap UserMem UserStack Elf Isolation Slab Lock Thread ThreadInv Sched ThreadKeep Proc.

Section ProcInv.
Context {A : Type} {FA : FrameAllocator A} {FL : FrameAllocatorLaws A} {PA : PageApi A} {PL : PageLaws A PA}
  {AA : AddrApi} {AL : AddrLaws PA AA} {S : Type} {SL : Slab S}.
Variable cfg : Config.
Implicit Types (s : System A S) (p : ProcessControlBlock S).

Definition live_space s (x : Z) : option AddressSpace :=
  if decide (x ∈ PROC s) then adsp <$> pcbs s !! x else None.

(** Thread [t] at [a] is listed. *)
Definition listed (k : Kernel) (a : Z) (t : ThreadControlBlock) : Prop := a ∈ threads k /\ store k !! a = Some t.

Record proc_inv s : Prop := {
  pi_sched : sched_inv (kern s);
  pi_mem : isolated (page_table_address cfg) (ram s) (ALLOC s) (live_space s);
  pi_nodup : NoDup (PROC s);
  pi_main t : store (kern s) !! MAIN_THREAD (kern s) = Some t -> pcb t = None;
  pi_proc x : x ∈ PROC s -> exists p a t, pcbs s !! x = Some p /\ store (kern s) !! a = Some t /\
    id t = pid p /\ pcb t = Some x /\ Thread.cr3 t = Paging.cr3 (adsp p) /\ ~ terminated t /\
    (a ∉ threads (kern s) -> state t = Ready);
  pi_thread a t x : store (kern s) !! a = Some t -> pcb t = Some x ->
    exists p, pcbs s !! x = Some p /\ id t = pid p /\ (x ∈ PROC s \/ terminated t);
  pi_uniq a b ta tb x y : store (kern s) !! a = Some ta -> store (kern s) !! b = Some tb ->
    pcb ta = Some x -> pcb tb = Some y -> id ta = id tb -> a = b;
  pi_pid a t x : store (kern s) !! a = Some t -> pcb t = Some x -> 65536 <= id t < PID s;
  pi_low a t : listed (kern s) a t -> pcb t = None -> id t < 65536;
  pi_parent x p i : x ∈ PROC s -> pcbs s !! x = Some p -> parent p = Some i ->
    65536 <= i /\ exists a t, listed (kern s) a t /\ id t = i;
  pi_range : 65536 <= PID s;
  pi_kthread a t : listed (kern s) a t -> terminated t -> pcb t <> None;
  pi_cr3 t : store (kern s) !! CURR_THREAD_PTR (kern s) = Some t -> CR3 s = Thread.cr3 t
}.

Lemma live_space_Some s x d : live_space s x = Some d <-> x ∈ PROC s /\ exists p, pcbs s !! x = Some p /\ adsp p = d.
Proof.
  unfold live_space. case_decide; [| split; [done | tauto]].
  destruct (pcbs s !! x) as [p|]; simpl; split; [intros [= <-]; eauto | | done |].
  - intros (_ & q & [= <-] & <-). done.
  - intros (_ & q & ? & _). done.
Qed.

(** ** The caller *)
Record caller s (x : Z) p (t : ThreadControlBlock) : Prop := {
  ca_in : x ∈ PROC s;
  ca_pcb : pcbs s !! x = Some p;
  ca_thread : listed (kern s) (CURR_THREAD_PTR (kern s)) t;
  ca_of : pcb t = Some x;
  ca_id : id t = pid p;
  ca_cr3 : Thread.cr3 t = Paging.cr3 (adsp p);
  ca_CR3 : CR3 s = Paging.cr3 (adsp p);
  ca_run : state t = Running
}.

(** A thread of a live process is the only one. *)
Lemma proc_thread_unique s x a t :
  proc_inv s -> x ∈ PROC s -> store (kern s) !! a = Some t -> pcb t = Some x ->
  exists p, pcbs s !! x = Some p /\ id t = pid p /\ Thread.cr3 t = Paging.cr3 (adsp p) /\ ~ terminated t.
Proof.
  intros Hi Hx Ht Hp. destruct (pi_proc s Hi x Hx) as (p & b & tb & Hpx & Htb & Hid & Hpb & Hc & Hn & _).
  destruct (pi_thread s Hi a t x Ht Hp) as (q & Hq & Hidt & _). assert (q = p) as -> by congruence.
  assert (a = b) as -> by (apply (pi_uniq s Hi a b t tb x x); congruence).
  assert (tb = t) as -> by congruence. by exists p.
Qed.

(** The number of a process's thread is no other listed thread's. *)
Lemma proc_thread_id s a b ta tb x :
  proc_inv s -> store (kern s) !! a = Some ta -> pcb ta = Some x -> listed (kern s) b tb -> id ta = id tb -> a = b.
Proof.
  intros Hi Hta Hx [Hb Htb] E. destruct (pcb tb) as [y|] eqn:Hy; [by apply (pi_uniq s Hi a b ta tb x y) |].
  pose proof (pi_low s Hi b tb (conj Hb Htb) Hy). pose proof (pi_pid s Hi a ta x Hta Hx). lia.
Qed.

Lemma curr_proc_caller s x p :
  proc_inv s -> may_call (kern s) -> curr_proc s = Ret (x, p) -> exists t, caller s x p t.
Proof.
  intros Hi Hm H. unfold curr_proc, curr_thread, read_tcb in H.
  destruct (store (kern s) !! CURR_THREAD_PTR (kern s)) as [t|] eqn:Ht; [| done]. cbn [unwrap obind] in H.
  destruct (pcb t) as [y|] eqn:Hy; [| done]. cbn [unwrap obind] in H.
  destruct (pcbs s !! y) as [q|] eqn:Hq; [| done]. injection H as -> ->.
  assert (Hin : CURR_THREAD_PTR (kern s) ∈ threads (kern s)).
  { destruct (inv_curr _ (pi_sched s Hi)) as [E | ?]; [| done].
    rewrite E in Ht. rewrite (pi_main s Hi t Ht) in Hy. done. }
  pose proof (Hm t Hin Ht) as Hrun.
  destruct (pi_thread s Hi _ t x Ht Hy) as (q & Hq' & Hid & [Hx | Hte]);
    [| by destruct (running_not_terminated t Hrun)].
  destruct (proc_thread_unique s x _ t Hi Hx Ht Hy) as (q' & ? & _ & Hc & _).
  assert (q' = p) as -> by congruence. assert (q = p) as -> by congruence.
  exists t. split; try done. rewrite (pi_cr3 s Hi t Ht). done.
Qed.

(** ** Scheduling *)
Lemma keeps_listed k k' a t :
  keeps k k' -> listed k a t -> exists t', listed k' a t' /\ static t t' /\ (terminated t -> terminated t').
Proof.
  intros [Ht _ Htcb _] [Ha Hs]. destruct (Htcb a t Hs) as (t' & ? & ? & ? & _). exists t'.
  split; [split; [by rewrite Ht | done] |]. split; auto.
Qed.

Lemma keeps_stored_inv k k' a t' :
  keeps k k' -> store k' !! a = Some t' ->
  exists t, store k !! a = Some t /\ static t t' /\ (a ∈ threads k -> terminated t -> terminated t') /\
    (a ∉ threads k -> a <> MAIN_THREAD k -> t' = t).
Proof.
  intros Hev Hs. destruct (store k !! a) as [t|] eqn:Ht; [| pose proof (kp_dom _ _ Hev a Ht); congruence].
  destruct (kp_tcb _ _ Hev a t Ht) as (t1 & ? & ? & ? & ?). assert (t1 = t') as -> by congruence. by exists t.
Qed.

Lemma keeps_listed_inv k k' a t' :
  keeps k k' -> listed k' a t' -> exists t, listed k a t /\ static t t' /\ (terminated t -> terminated t').
Proof.
  intros Hev [Ha Hs]. rewrite (kp_threads _ _ Hev) in Ha.
  destruct (keeps_stored_inv k k' a t' Hev Hs) as (t & Ht & ? & ? & _). exists t. by split_and!; auto.
Qed.

(** The kernel's state changes and processes leave the table: their threads
    are terminated, those of the others are not. *)
Lemma kern_change_inv s k c l :
  proc_inv s -> sched_inv k -> keeps (kern s) k ->
  NoDup l -> (forall x, x ∈ l -> x ∈ PROC s) ->
  (forall x a t, x ∈ l -> listed k a t -> pcb t = Some x -> ~ terminated t) ->
  (forall x a t, x ∈ PROC s -> x ∉ l -> store k !! a = Some t -> pcb t = Some x -> terminated t) ->
  (forall a t, listed k a t -> terminated t -> pcb t <> None) ->
  (forall t, store k !! CURR_THREAD_PTR k = Some t -> c = Thread.cr3 t) ->
  proc_inv (set_CR3 c (set_kern k (set_proc l s))).
Proof.
  intros [Hs Hmem Hnd Hmain Hproc Hthr Huniq Hpid Hlow Hpar Hr Hkt Hc] Hk Hev Hndl Hsub Hlive Hdead Hkt' Hcur. pose proof (inv_core _ Hs) as Hco.
  assert (Hnm : forall a t x, store (kern s) !! a = Some t -> pcb t = Some x -> a <> MAIN_THREAD (kern s)).
  { intros a t x Ht Hx ->. rewrite (Hmain t Ht) in Hx. done. }
  split; cbn [kern PROC pcbs PID ram ALLOC CR3 set_CR3 set_kern set_proc]; try done.
  - eapply isolated_mono; [exact Hmem |]. intros x d [Hx ?]%live_space_Some. apply live_space_Some. split; [by apply Hsub | done].
  - intros t Ht. rewrite (kp_main _ _ Hev) in Ht. destruct (keeps_stored_inv _ _ _ _ Hev Ht) as (t0 & Ht0 & (_ & -> & _) & _). by apply Hmain.
  - intros x Hx. destruct (Hproc x (Hsub x Hx)) as (p & a & t & Hp & Hl & Hid & Hpc & Hcr & Hnt & Hrd).
    destruct (kp_tcb _ _ Hev a t Hl) as (t' & Hl' & (E1 & E2 & E3) & _ & Hun).
    exists p, a, t'. rewrite E1, E2, E3. do 5 (split; [done |]). rewrite (kp_threads _ _ Hev).
    destruct (decide (a ∈ threads (kern s))) as [Hin | Hin].
    + split; [| done]. apply (Hlive x a); [done | split; [by rewrite (kp_threads _ _ Hev) | done] | congruence].
    + rewrite (Hun Hin (Hnm a t x Hl Hpc)). auto.
  - intros a t x Hl Hp. destruct (keeps_stored_inv _ _ a t Hev Hl) as (t0 & Hl0 & (E1 & E2 & E3) & Ht & Hun).
    assert (Hp0 : pcb t0 = Some x) by congruence.
    destruct (Hthr a t0 x Hl0 Hp0) as (q & ? & ? & Hor); exists q; rewrite E1; (split; [done |]); (split; [done |]).
    destruct (decide (x ∈ l)); [by left | right]. destruct Hor as [Hx | Hte]; [by apply (Hdead x a) |].
    destruct (decide (a ∈ threads (kern s))) as [Hin | Hin]; [by apply Ht |]. by rewrite (Hun Hin (Hnm a t0 x Hl0 Hp0)).
  - intros a b ta tb x y Ha Hb. destruct (keeps_stored_inv _ _ a ta Hev Ha) as (ta0 & Ha0 & (-> & -> & _) & _).
    destruct (keeps_stored_inv _ _ b tb Hev Hb) as (tb0 & Hb0 & (-> & -> & _) & _). by apply (Huniq a b ta0 tb0 x y).
  - intros a t x Hl. destruct (keeps_stored_inv _ _ a t Hev Hl) as (t0 & Hl0 & (-> & -> & _) & _). by apply (Hpid a t0 x).
  - intros a t Hl. destruct (keeps_listed_inv _ _ a t Hev Hl) as (t0 & Hl0 & (-> & -> & _) & _). by apply (Hlow a t0).
  - intros x p i Hx Hp Hi. destruct (Hpar x p i (Hsub x Hx) Hp Hi) as (H6 & a & t & Hl & Hid). split; [done |].
    destruct (keeps_listed _ _ a t Hev Hl) as (t' & Hl' & (E1 & _) & _). exists a, t'. by rewrite E1.
Qed.

(** Steps of the scheduler that terminate no thread. *)
Lemma kern_keep_inv s k c :
  proc_inv s -> sched_inv k -> evolves (kern s) k ->
  (forall t, store k !! CURR_THREAD_PTR k = Some t -> c = Thread.cr3 t) ->
  proc_inv (set_CR3 c (set_kern k s)).
Proof.
  intros Hi Hk Hev Hc. pose proof (inv_core _ (pi_sched s Hi)) as Hco.
  assert (Hold : forall a t, listed k a t -> terminated t -> exists t0, listed (kern s) a t0 /\ terminated t0 /\ pcb t = pcb t0).
  { intros a t Hl Hte. destruct (keeps_listed_inv _ _ a t (evolves_keeps _ _ Hev) Hl) as (t0 & Hl0 & (_ & E & _) & _).
    destruct (evolves_alive _ _ a t Hev Hco (proj1 Hl0) (proj2 Hl) Hte) as (t1 & ? & Hte1).
    exists t0. assert (t1 = t0) as -> by (destruct Hl0; congruence). done. }
  apply (kern_change_inv s k c (PROC s)); [done | done | by apply evolves_keeps | apply Hi | done | | done | | done].
  - intros x a t Hx Hl Hp Hte. destruct (Hold a t Hl Hte) as (t0 & Hl0 & Hte0 & E).
    destruct (proc_thread_unique s x a t0 Hi Hx (proj2 Hl0)) as (_ & _ & _ & _ & Hn); [congruence | done].
  - intros a t Hl Hte. destruct (Hold a t Hl Hte) as (t0 & Hl0 & Hte0 & ->). by apply (pi_kthread s Hi a).
Qed.

(** ** A new process *)

(** What an operation may change in the blocks of other processes. *)
Definition pcb_same (q q' : ProcessControlBlock S) : Prop := pid q' = pid q /\ adsp q' = adsp q /\ parent q' = parent q.

Lemma list_thread_listed addr tid t k b tb :
  store k !! addr = Some t -> listed (list_thread addr tid k) b tb <-> (listed k b tb \/ b = addr /\ tb = t).
Proof.
  intros Ht. unfold listed. cbn [list_thread sched_unlock set_irq push_back set_queue set_threads sched_lock threads store].
  rewrite elem_of_app, list_elem_of_singleton. split.
  - intros [[Hb | ->] ?]; [by left | right]. split; [done | congruence].
  - intros [[Hb ?] | [-> ->]]; auto.
Qed.

Lemma alloc_tcb_listed addr t k b tb :
  store k !! addr = None -> core_of k -> listed (alloc_tcb addr t k) b tb <-> listed k b tb.
Proof.
  intros Hn Hc. unfold listed. cbn [alloc_tcb set_store threads store].
  destruct (decide (b = addr)) as [-> | Hne]; [| by rewrite lookup_insert_ne].
  split; intros [Hb _]; destruct (core_live _ _ _ _ Hc addr Hb) as (? & ? & _); congruence.
Qed.

Lemma enlist_listed addr t k b tb :
  store k !! addr = None -> core_of k ->
  listed (enlist addr t k) b tb <-> (listed k b tb \/ b = addr /\ tb = t).
Proof.
  intros Hn Hc. unfold enlist. rewrite (list_thread_listed _ _ t) by apply lookup_insert_eq. by rewrite alloc_tcb_listed.
Qed.

(** A new process whose thread no list mentions yet. *)
Lemma add_process_inv s s' x p tcb addr :
  proc_inv s ->
  kern s' = alloc_tcb addr tcb (kern s) -> PROC s' = PROC s ++ [x] -> PID s' = PID s + 1 -> CR3 s' = CR3 s ->
  pcbs s !! x = None -> pcbs s' !! x = Some p ->
  (forall y q, pcbs s !! y = Some q -> exists q', pcbs s' !! y = Some q' /\ pcb_same q q') ->
  new_space (ram s) (ALLOC s) (adsp p) (ram s') (ALLOC s') ->
  kernel_half (page_table_address cfg) (ram s) (Paging.cr3 (adsp p)) (ram s') ->
  store (kern s) !! addr = None -> state tcb = Ready -> id tcb = PID s -> pid p = PID s ->
  pcb tcb = Some x -> Thread.cr3 tcb = Paging.cr3 (adsp p) ->
  (forall i, parent p = Some i -> 65536 <= i /\ exists a t, listed (kern s) a t /\ id t = i) ->
  proc_inv s' /\
  forall y q, y ∈ PROC s -> pcbs s !! y = Some q -> same_view (ram s) (ram s') (Paging.cr3 (adsp q)).
Proof.
  intros Hi Hk HP HPID HC Hx Hpx Hold Hns Hhalf Haddr Hst Hidt Hpid Hpc Hcr Hpar.
  pose proof Hi as [Hs Hmem Hnd Hmain Hproc Hthr Huniq Hlt Hlow Hpa Hr Hkt Hc]. pose proof (inv_core _ Hs) as Hco.
  assert (Hxin : x ∉ PROC s) by (intros Hin; destruct (Hproc x Hin) as (q & ? & ? & ? & _); congruence).
  assert (HinP : forall y, y ∈ PROC s' <-> y ∈ PROC s \/ y = x).
  { intros y. by rewrite HP, elem_of_app, list_elem_of_singleton. }
  assert (Holdp : forall y q', y ∈ PROC s -> pcbs s' !! y = Some q' -> exists q, pcbs s !! y = Some q /\ pcb_same q q').
  { intros y q' Hy Hq'. destruct (Hproc y Hy) as (q & _ & _ & Hq & _). exists q. split; [done |].
    destruct (Hold y q Hq) as (q1 & ? & ?). by replace q' with q1 by congruence. }
  assert (Hli : forall b tb, listed (kern s') b tb <-> listed (kern s) b tb).
  { intros b tb. rewrite Hk. by apply alloc_tcb_listed. }
  assert (Hsto : forall b tb, store (kern s') !! b = Some tb <-> store (kern s) !! b = Some tb \/ b = addr /\ tb = tcb).
  { intros b tb. rewrite Hk. cbn [alloc_tcb set_store store]. rewrite lookup_insert_Some.
    split; [intros [[? ?] | [? ?]]; auto | intros [? | [-> ->]]; [right; split; congruence | auto]]. }
  destruct (isolated_new (page_table_address cfg) (ram s) (ALLOC s) (live_space s) x (adsp p) (ram s') (ALLOC s') (live_space s'))
    as [Hmem' Hview]; [done | done | done | |].
  { intros y d [[Hy | ->]%HinP (q' & Hq' & <-)]%live_space_Some.
    - right. split; [by intros -> |]. destruct (Holdp y q' Hy Hq') as (q & Hq & _ & -> & _).
      apply live_space_Some. split; [done |]. by exists q.
    - left. split; [done |]. congruence. }
  assert (Haddrt : addr ∉ threads (kern s)).
  { intros Ha. destruct (core_live _ _ _ _ Hco addr Ha) as (? & ? & _). congruence. }
  assert (Ethr : threads (kern s') = threads (kern s)) by by rewrite Hk.
  split.
  - split.
    + rewrite Hk. by apply alloc_tcb_inv.
    + done.
    + rewrite HP. apply NoDup_app. split; [done |]. split; [| apply NoDup_singleton].
      intros y Hy ->%list_elem_of_singleton. done.
    + assert (MAIN_THREAD (kern s') = MAIN_THREAD (kern s)) as -> by by rewrite Hk.
      intros t [? | [E ->]]%Hsto; [by apply Hmain |]. destruct (core_main _ _ _ _ Hco) as (tm & Htm & _). congruence.
    + intros y [Hy | ->]%HinP.
      * destruct (Hproc y Hy) as (q & a & t & Hq & Hl & Hid & Hpt & Hct & Hnt & Hrd).
        destruct (Hold y q Hq) as (q' & Hq' & E1 & E2 & _). exists q', a, t. rewrite E1, E2, Ethr.
        split; [done |]. split; [apply Hsto; by left | done].
      * exists p, addr, tcb. split; [done |]. split; [apply Hsto; by right |]. split; [congruence |].
        split; [done |]. split; [done |]. split; [by apply ready_not_terminated | done].
    + intros a t y [Hl | [-> ->]]%Hsto Hy.
      * destruct (Hthr a t y Hl Hy) as (q & Hq & Hid & Hor). destruct (Hold y q Hq) as (q' & ? & E1 & _).
        exists q'. rewrite E1. split; [done |]. split; [done |]. rewrite HinP. tauto.
      * assert (y = x) as -> by congruence. exists p. split; [done |]. split; [congruence |]. left. apply HinP. by right.
    + intros a b ta tb y z [Ha | [-> ->]]%Hsto [Hb | [-> ->]]%Hsto Hy Hz E; [by apply (Huniq a b ta tb y z) | | | done].
      * pose proof (Hlt a ta y Ha Hy). lia.
      * pose proof (Hlt b tb z Hb Hz). lia.
    + intros a t y [Hl | [-> ->]]%Hsto Hy; [pose proof (Hlt a t y Hl Hy); lia | lia].
    + intros a t Hl%Hli. by apply (Hlow a).
    + intros y q' i [Hy | ->]%HinP Hq' Hpq.
      * destruct (Holdp y q' Hy Hq') as (q & Hq & _ & _ & E). rewrite E in Hpq.
        destruct (Hpa y q i Hy Hq Hpq) as (? & a & t & ? & ?). split; [done |]. exists a, t. by rewrite Hli.
      * assert (q' = p) as -> by congruence. destruct (Hpar i Hpq) as (? & a & t & ? & ?). split; [done |].
        exists a, t. by rewrite Hli.
    + lia.
    + intros a t Hl%Hli Hte. eauto.
    + assert (CURR_THREAD_PTR (kern s') = CURR_THREAD_PTR (kern s)) as -> by by rewrite Hk.
      intros t [? | [E ->]]%Hsto; [rewrite HC; by apply Hc |].
      destruct (curr_live _ Hco _ (inv_curr _ Hs)) as (tc & Htc & _). congruence.
  - intros y q Hy Hq. apply (Hview y); [by intros -> |]. apply live_space_Some. split; [done |]. by exists q.
Qed.

(** No [fork] or [spawn_proc] is between its two writes: the thread of every
    process is in the scheduler's list. *)
Definition all_listed s : Prop :=
  forall x a t, x ∈ PROC s -> store (kern s) !! a = Some t -> pcb t = Some x -> a ∈ threads (kern s).

Lemma all_listed_intro s :
  proc_inv s -> Forall (fun x => exists a t, listed (kern s) a t /\ pcb t = Some x) (PROC s) -> all_listed s.
Proof.
  intros Hi H x a t Hx Ht Hp. rewrite Forall_forall in H. destruct (H x Hx) as (b & tb & [Hb Htb] & Hpb).
  destruct (pi_thread s Hi a t x Ht Hp) as (q & Hq & Hid & _). destruct (pi_thread s Hi b tb x Htb Hpb) as (q' & Hq' & Hid' & _).
  by rewrite (pi_uniq s Hi a b t tb x x) by congruence.
Qed.

(** The scheduler is handed the thread of a new process. *)
Definition unlisted s (a : Z) (t : ThreadControlBlock) : Prop :=
  store (kern s) !! a = Some t /\ (a ∉ threads (kern s)) /\ exists x, x ∈ PROC s /\ pcb t = Some x.

Lemma unlisted_ready s a t : proc_inv s -> unlisted s a t -> state t = Ready.
Proof.
  intros Hi (Ht & Hn & x & Hx & Hp). destruct (pi_proc s Hi x Hx) as (p & b & tb & Hpx & Htb & Hid & Hpb & _ & _ & Hrd).
  destruct (pi_thread s Hi a t x Ht Hp) as (q & Hq & Hidt & _).
  assert (a = b) as -> by (apply (pi_uniq s Hi a b t tb x x); congruence). replace t with tb by congruence. auto.
Qed.

Lemma list_step_inv s a t :
  proc_inv s -> unlisted s a t -> proc_inv (set_kern (list_thread a (id t) (kern s)) s).
Proof.
  intros Hi Hu. pose proof (unlisted_ready s a t Hi Hu) as Hrd. destruct Hu as (Ht & Hn & x & Hx & Hp).
  pose proof Hi as [Hs Hmem Hnd Hmain Hproc Hthr Huniq Hlt Hlow Hpa Hr Hkt Hc].
  assert (Hli : forall b tb, listed (list_thread a (id t) (kern s)) b tb <-> (listed (kern s) b tb \/ b = a /\ tb = t)).
  { intros b tb. by apply list_thread_listed. }
  split; cbn [kern PROC pcbs PID ram ALLOC CR3 set_kern]; try done.
  - apply list_thread_inv; try done.
    + intros ->. rewrite (Hmain t Ht) in Hp. done.
    + split; [pose proof (Hlt a t x Ht Hp); lia |]. intros b tb Hb Htb E. apply Hn.
      by rewrite (proc_thread_id s a b t tb x Hi Ht Hp (conj Hb Htb)).
  - intros y Hy. destruct (Hproc y Hy) as (q & b & tb & Hq & Hb & Hid & Hpb & Hcb & Hnt & Hrdb).
    exists q, b, tb. do 6 (split; [done |]). intros Hnb. apply Hrdb. intros Hin. apply Hnb. cbn.
    apply elem_of_app. by left.
  - intros b tb [Hb | [-> ->]]%Hli; [by apply (Hlow b) | congruence].
  - intros y q i Hy Hq Hqi. destruct (Hpa y q i Hy Hq Hqi) as (? & b & tb & ? & ?). split; [done |]. exists b, tb.
    rewrite Hli. auto.
  - intros b tb [Hb | [-> ->]]%Hli Hte; [eauto | congruence].
Qed.

(** ** Fork *)
Lemma fork_stack_resumes n tf t :
  rsp t = child_stack n + 8 * (max_stack_len - 28) -> stack t = fork_stack (fork_hook n) tf ->
  exists r, switch_pops (stack_from (child_stack n) t) = Some r /\ rs_return r = fork_hook n /\ rs_rflags r = 514 /\
    fork_start_hook (rs_stack r) = Some tf.
Proof.
  intros Hr Hs. unfold stack_from. rewrite Hr, Hs.
  replace (child_stack n + 8 * (max_stack_len - 28) - child_stack n) with ((max_stack_len - 28) * 8) by lia.
  rewrite Z.div_mul by lia.
  unfold fork_stack. replace (max_stack_len - 20 - 8) with (max_stack_len - 28) by lia.
  rewrite drop_app_length' by by rewrite length_replicate.
  destruct tf. eexists. split; [reflexivity |]. split; [reflexivity |]. split; reflexivity.
Qed.

(** Enough frames for a copy of the caller's memory. *)
Definition can_fork s p : Prop :=
  avail (1 + backbuffer_len (adsp p) + 4 * length (mapped_pages (ram s) (Paging.cr3 (adsp p)))) (ALLOC s).

Record fork_fresh s (n : ForkAddrs) : Prop := {
  ff_pid : PID s + 1 < 2 ^ 64;
  ff_pcb : pcbs s !! child_pcb n = None;
  ff_tcb : store (kern s) !! child_tcb n = None
}.

(** The child: its block, its thread and its memory; [hand] says how far the
    thread is known to the scheduler. *)
Record forked (hand : Z -> ThreadControlBlock -> Kernel -> Kernel) s (n : ForkAddrs) (tf : TrapFrame) p s' : Prop := {
  fk_block : exists c, pcbs s' !! child_pcb n = Some c /\ pid c = PID s /\ parent c = Some (pid p) /\ children c = [] /\
    fd c = fd p /\ cwd c = cwd p /\ pname c = pname p /\ argv c = argv p /\
    forked_space (ram s) (ALLOC s) (adsp p) (adsp c) (ram s') (ALLOC s') /\
    exists t r, store (kern s') !! child_tcb n = Some t /\ id t = PID s /\ Thread.cr3 t = Paging.cr3 (adsp c) /\
      switch_pops (stack_from (child_stack n) t) = Some r /\ rs_return r = fork_hook n /\
      fork_start_hook (rs_stack r) = Some (set_rax 0 tf);
  fk_kern : exists t, kern s' = hand (child_tcb n) t (kern s) /\ id t = PID s /\ pcb t = Some (child_pcb n);
  fk_table : PROC s' = PROC s ++ [child_pcb n];
  fk_pid : PID s' = PID s + 1
}.

Lemma fork_enter_spec s n tf x p :
  proc_inv s -> may_call (kern s) -> curr_proc s = Ret (x, p) -> can_fork s p -> fork_fresh s n ->
  exists s', fork_enter cfg n tf s = Ret (PID s, s') /\ proc_inv s' /\ forked alloc_tcb s n tf p s' /\
    pcbs s' !! x = Some (set_children (children p ++ [PID s]) p) /\
    (forall y, y <> x -> y <> child_pcb n -> pcbs s' !! y = pcbs s !! y) /\
    forall y q, y ∈ PROC s -> pcbs s !! y = Some q -> same_view (ram s) (ram s') (Paging.cr3 (adsp q)).
Proof.
  intros Hi Hm Hcur Hav [Hpid Hpcb Htcb].
  destruct (curr_proc_caller s x p Hi Hm Hcur) as (t & [Hx Hp Ht Hof Hid Hcr _ _]).
  pose proof (pi_mem s Hi) as Hmem. pose proof (pi_range s Hi) as Hrg.
  assert (Hlive : live_space s x = Some (adsp p)) by (apply live_space_Some; split; [done |]; by exists p).
  destruct (is_space _ _ _ _ Hmem x _ Hlive) as [Hok _]. destruct (is_kernel _ _ _ _ Hmem) as [active Hk].
  destruct (clone_for_fork_spec (page_table_address cfg) active (mapped_pages (ram s) (Paging.cr3 (adsp p)))
    (ram s) (ALLOC s) (adsp p)) as (d & m' & a' & E & Hf & Hns & _); [done | apply (is_wf _ _ _ _ Hmem) | done
    | by apply (is_sized _ _ _ _ Hmem _ _ Hk) | intros q; apply mapped_pages_complete | done |].
  assert (Hxc : x <> child_pcb n) by congruence.
  unfold fork_enter. change (curr_proc (set_pid (wrap_u 64 (PID s + 1)) s)) with (curr_proc s). rewrite Hcur. cbn [obind].
  cbn [ram ALLOC set_pid]. rewrite E. cbn [obind]. eexists. split; [reflexivity |].
  match goal with |- proc_inv ?s' /\ _ => set (s1 := s') end.
  set (c := mkPCB (PID s) (pname p) (argv p) (cwd p) (fd p) d (Some (pid p)) []).
  assert (Hchild : pcbs s1 !! child_pcb n = Some c).
  { unfold s1. cbn. rewrite lookup_alter_ne by done. apply lookup_insert_eq. }
  assert (Hpar : pcbs s1 !! x = Some (set_children (children p ++ [PID s]) p)).
  { unfold s1. cbn. rewrite lookup_alter_eq, lookup_insert_ne by done. by rewrite Hp. }
  assert (Hoth : forall y, y <> x -> y <> child_pcb n -> pcbs s1 !! y = pcbs s !! y).
  { intros y H1 H2. unfold s1. cbn. rewrite lookup_alter_ne by done. by rewrite lookup_insert_ne. }
  match goal with H := context [alloc_tcb _ ?tc _] |- _ => set (tcb := tc) in * end.
  destruct (add_process_inv s s1 (child_pcb n) c tcb (child_tcb n)) as [Hinv Hview]; try done.
  - unfold s1. cbn. apply wrap_u_small. lia.
  - intros y q Hq. destruct (decide (y = x)) as [-> | Hne].
    + eexists. split; [exact Hpar |]. assert (q = p) as -> by congruence. done.
    + exists q. rewrite Hoth; [done | done |]. intros ->. congruence.
  - intros i Hr. change (ram s1) with m'. change (Paging.cr3 (adsp c)) with (Paging.cr3 d). rewrite (fs_kernel _ _ _ _ _ _ Hf) by done.
    apply (is_half _ _ _ _ Hmem x); [apply live_space_Some; split; [done |]; by exists p | done].
  - intros i [= <-]. split; [rewrite <- Hid; apply (pi_pid s Hi (CURR_THREAD_PTR (kern s)) t x (proj2 Ht) Hof) |]. by exists (CURR_THREAD_PTR (kern s)), t.
  - split; [done |]. split; [split; [| by exists tcb | done | apply wrap_u_small; lia] | by split_and!].
    exists c. do 8 (split; [done |]). split; [exact Hf |]. destruct (fork_stack_resumes n (set_rax 0 tf) tcb eq_refl eq_refl)
      as (r & Hr1 & Hr2 & _ & Hr3). exists tcb, r. split; [apply lookup_insert_eq |]. done.
Qed.

Lemma fork_spec s n tf x p :
  proc_inv s -> may_call (kern s) -> curr_proc s = Ret (x, p) -> can_fork s p -> fork_fresh s n ->
  exists s', fork cfg n tf s = Ret (PID s, s') /\ proc_inv s' /\ forked enlist s n tf p s' /\
    pcbs s' !! x = Some (set_children (children p ++ [PID s]) p) /\
    (forall y, y <> x -> y <> child_pcb n -> pcbs s' !! y = pcbs s !! y) /\
    forall y q, y ∈ PROC s -> pcbs s !! y = Some q -> same_view (ram s) (ram s') (Paging.cr3 (adsp q)).
Proof.
  intros Hi Hm Hcur Hav Hfr. destruct (fork_enter_spec s n tf x p Hi Hm Hcur Hav Hfr) as (s1 & E & Hi1 & Hf & Hx & Ho & Hv).
  destruct Hf as [(c & Hc & Hpid & Hblock) (t & Hk & Hid & Hpt) HP HPID].
  unfold fork. rewrite E. cbn [obind]. eexists. split; [reflexivity |].
  assert (Hu : unlisted s1 (child_tcb n) t).
  { split; [rewrite Hk; apply lookup_insert_eq |]. split.
    - rewrite Hk. intros Ha. destruct (core_live _ _ _ _ (inv_core _ (pi_sched s Hi)) _ Ha) as (? & ? & _).
      pose proof (ff_tcb _ _ Hfr). congruence.
    - exists (child_pcb n). rewrite HP. split; [apply elem_of_app; right; apply list_elem_of_here | done]. }
  split; [rewrite <- Hid; by apply list_step_inv |]. split; [| done]. split; [| | done | done].
  - exists c. split; [done |]. split; [done |]. exact Hblock.
  - exists t. split; [| done]. cbn [kern set_kern]. unfold enlist. by rewrite Hk, Hid.
Qed.

(** ** Changing the address space of the caller *)
Lemma write_cr3_inv a c k : sched_inv k -> sched_inv (write_tcb a (set_tcb_cr3 c) k).
Proof.
  intros [Hc Hkn Hirq]. split; [| done | done]. unfold core_of; simpl.
  eapply core_write_frame; [exact Hc | done | apply Hc | |].
  - intros i Hq. destruct (core_queue _ _ _ _ Hc i Hq) as (b & tb & ? & Htb & ? & ?).
    eexists b, _. split; [done |]. split; [by apply lookup_write_some |]. by case_decide.
  - intros b tb Hb Htb Hr Hn. apply lookup_write in Htb as (t0 & ? & ->).
    assert (id t0 ∈ ready_queue k) by (eapply (core_ready _ _ _ _ Hc); eauto; by case_decide). by case_decide.
Qed.

Lemma write_cr3_same k a t : store k !! a = Some t -> write_tcb a (set_tcb_cr3 (Thread.cr3 t)) k = k.
Proof.
  intros Ht. unfold write_tcb. assert (alter (set_tcb_cr3 (Thread.cr3 t)) a (store k) = store k) as ->; [| by destruct k].
  apply map_eq. intros b. rewrite lookup_alter. case_decide; [| done]. subst. rewrite Ht. by destruct t.
Qed.

Lemma change_space_inv s s' x p p' t :
  proc_inv s -> caller s x p t ->
  pcbs s' = <[x := p']> (pcbs s) -> PROC s' = PROC s -> PID s' = PID s ->
  pid p' = pid p -> parent p' = parent p ->
  kern s' = write_tcb (CURR_THREAD_PTR (kern s)) (set_tcb_cr3 (Paging.cr3 (adsp p'))) (kern s) ->
  CR3 s' = Paging.cr3 (adsp p') ->
  isolated (page_table_address cfg) (ram s') (ALLOC s') (live_space s') ->
  proc_inv s'.
Proof.
  intros Hi [Hx Hp [Hcin Hct] Hof Hid _ _ Hrun] Hpcbs HP HPID E1 E2 Hk HC Hmem.
  pose proof Hi as [Hs _ Hnd Hmain Hproc Hthr Huniq Hlt Hlow Hpa Hr Hkt _]. pose proof (inv_core _ Hs) as Hco.
  set (c := CURR_THREAD_PTR (kern s)) in *. set (f := set_tcb_cr3 (Paging.cr3 (adsp p'))) in *.
  assert (Hsto : forall a ta, store (kern s') !! a = Some ta <->
    exists t0, store (kern s) !! a = Some t0 /\ ta = if decide (a = c) then f t0 else t0).
  { intros a ta. rewrite Hk. cbn [write_tcb set_store store]. split.
    - intros Hta. apply lookup_write in Hta as (t0 & ? & ->). exists t0. split; [done |]. repeat case_decide; congruence.
    - intros (t0 & Ht0 & ->). rewrite (lookup_write_some _ _ _ _ _ Ht0). repeat case_decide; congruence. }
  assert (Ethr : threads (kern s') = threads (kern s)) by by rewrite Hk.
  assert (Hli : forall a ta, listed (kern s') a ta <-> exists t0, listed (kern s) a t0 /\ ta = if decide (a = c) then f t0 else t0).
  { intros a ta. unfold listed. rewrite Hsto, Ethr. split; [intros [? (t0 & ? & ?)] | intros (t0 & [? ?] & ?)]; eauto. }
  assert (Hstat : forall a t0, let ta := if decide (a = c) then f t0 else t0 in
    id ta = id t0 /\ pcb ta = pcb t0 /\ state ta = state t0) by (intros a t0; simpl; by case_decide).
  assert (Hpc : forall y q, pcbs s !! y = Some q -> exists q', pcbs s' !! y = Some q' /\ pid q' = pid q /\ parent q' = parent q /\
    (y <> x -> q' = q) /\ (y = x -> q' = p')).
  { intros y q Hq. rewrite Hpcbs. destruct (decide (y = x)) as [-> | Hne].
    - exists p'. rewrite lookup_insert_eq. assert (q = p) as -> by congruence. done.
    - exists q. by rewrite lookup_insert_ne. }
  split; rewrite ?HP, ?HPID.
  - rewrite Hk. by apply write_cr3_inv.
  - done.
  - done.
  - assert (MAIN_THREAD (kern s') = MAIN_THREAD (kern s)) as -> by by rewrite Hk.
    intros t0 (t1 & Ht1 & ->)%Hsto. destruct (Hstat (MAIN_THREAD (kern s)) t1) as (_ & -> & _). by apply Hmain.
  - intros y Hy. destruct (Hproc y Hy) as (q & a & ta & Hq & Hl & Hida & Hpa' & Hca & Hnt & Hrd).
    destruct (Hpc y q Hq) as (q' & Hq' & F1 & _ & F3 & F4). exists q', a, (if decide (a = c) then f ta else ta).
    destruct (Hstat a ta) as (G1 & G2 & G3). unfold terminated. rewrite Ethr, G1, G2, G3.
    split; [done |]. split; [apply Hsto; by exists ta |].
    split; [congruence |]. split; [congruence |]. split; [| done].
    destruct (decide (y = x)) as [-> | Hne].
    + assert (a = c) as -> by (apply (Huniq a c ta t x x); congruence).
      rewrite decide_True by done. by rewrite F4.
    + rewrite F3 by done. case_decide as Eac; [| done]. subst a. exfalso.
      assert (ta = t) as -> by congruence. congruence.
  - intros a ta y (t0 & Hl & ->)%Hsto. destruct (Hstat a t0) as (G1 & G2 & G3). unfold terminated. rewrite G1, G2, G3. intros Hy.
    destruct (Hthr a t0 y Hl Hy) as (q & Hq & Hidq & Hor). destruct (Hpc y q Hq) as (q' & ? & F1 & _).
    exists q'. rewrite F1. done.
  - intros a b ta tb y z (t0 & Ha & ->)%Hsto (t1 & Hb & ->)%Hsto.
    destruct (Hstat a t0) as (-> & -> & _). destruct (Hstat b t1) as (-> & -> & _). by apply (Huniq a b t0 t1 y z).
  - intros a ta y (t0 & Hl & ->)%Hsto. destruct (Hstat a t0) as (-> & -> & _). by apply (Hlt a t0 y).
  - intros a ta (t0 & Hl & ->)%Hli. destruct (Hstat a t0) as (-> & -> & _). by apply (Hlow a).
  - intros y q' i Hy Hq' Hpq. destruct (Hproc y Hy) as (q & _ & _ & Hq & _).
    destruct (Hpc y q Hq) as (q1 & ? & _ & F2 & _). assert (q1 = q') as -> by congruence.
    destruct (Hpa y q i Hy Hq) as (H6 & a & ta & Hl & <-); [congruence |]. split; [done |]. eexists a, _. split; [apply Hli; by exists ta |]. apply Hstat.
  - done.
  - intros a ta (t0 & Hl & ->)%Hli. destruct (Hstat a t0) as (_ & G2 & G3). unfold terminated. rewrite G2, G3. by apply (Hkt a).
  - assert (CURR_THREAD_PTR (kern s') = c) as -> by by rewrite Hk.
    intros t0 (t1 & Ht1 & ->)%Hsto. rewrite decide_True by done. done.
Qed.

(** The memory of the caller grows or is written. *)
Lemma grow_space_inv s x p t d m' a' :
  proc_inv s -> caller s x p t ->
  extends (ram s) (ALLOC s) (Paging.cr3 (adsp p)) m' a' -> Paging.cr3 d = Paging.cr3 (adsp p) ->
  space_ok m' a' d -> alloc_wf a' ->
  proc_inv (set_pcbs (<[x := set_adsp d p]> (pcbs s)) (set_mem m' a' s)) /\
  forall y q, y ∈ PROC s -> y <> x -> pcbs s !! y = Some q -> same_view (ram s) m' (Paging.cr3 (adsp q)).
Proof.
  intros Hi Hca Hext Hd Hok Hwf. pose proof Hca as [Hx Hp [Hcin Hct] _ _ Hcr HCR _].
  set (s' := set_pcbs _ _).
  destruct (isolated_extends (page_table_address cfg) (ram s) (ALLOC s) (live_space s) x (adsp p) d m' a' (live_space s'))
    as [Hmem Hview]; [apply Hi | | done | done | done | done | |].
  { apply live_space_Some. split; [done |]. by exists p. }
  { intros y e. intros [Hy (q & Hq & <-)]%live_space_Some. cbn [pcbs PROC set_pcbs set_mem s'] in Hy, Hq.
    destruct (decide (y = x)) as [-> | Hne]; [left; rewrite lookup_insert_eq in Hq; by injection Hq as <- |].
    right. rewrite lookup_insert_ne in Hq by done. split; [done |]. apply live_space_Some. split; [done |]. by exists q. }
  split.
  - apply (change_space_inv s s' x p (set_adsp d p) t); try done.
    + cbn [adsp set_adsp kern set_pcbs set_mem s']. rewrite Hd, <- Hcr. symmetry. by apply write_cr3_same.
    + cbn. by rewrite Hd.
  - intros y q Hy Hne Hq. apply (Hview y); [done |]. apply live_space_Some. split; [done |]. by exists q.
Qed.
End ProcInv.
