(* ===== verification/ProcOps.v ===== *)
(** * The life of processes

    Each operation of [Proc] on a machine that satisfies the invariant: it
    returns, keeps the invariant and does what it is for. *)
From S2P Require Import Prelude Text Memory Paging PagingMap UserMem UserStack Elf Isolation Slab Lock Thread ThreadInv Sched ThreadKeep Proc ProcInv.

Lemma alter_insert_eq {V : Type} (m : gmap Z V) x v (f : V -> V) : m !! x = Some v -> alter f x m = <[x := f v]> m.
Proof.
  intros H. apply map_eq. intros y. rewrite lookup_alter. destruct (decide (x = y)) as [<- | Hne].
  - rewrite lookup_insert_eq. by rewrite H.
  - by rewrite lookup_insert_ne.
Qed.

Lemma remove_first_only (q : Z -> bool) l x :
  NoDup l -> x ∈ l -> q x = true -> (forall y, y ∈ l -> q y = true -> y = x) ->
  exists l', remove_first q l = Some (x, l') /\ NoDup l' /\ forall y, y ∈ l' <-> y ∈ l /\ y <> x.
Proof.
  induction l as [|z l IH]; intros Hnd Hx Hqx Hu; [by apply elem_of_nil in Hx |].
  apply NoDup_cons in Hnd as [Hz Hnd]. simpl. destruct (q z) eqn:Hq.
  - assert (z = x) as -> by (apply Hu; [apply list_elem_of_here | done]). exists l. split; [done |]. split; [done |].
    intros y. rewrite elem_of_cons. split; [intros Hy; split; [by right | by intros ->] | intros [[? | ?] ?]; done].
  - apply elem_of_cons in Hx as [-> | Hx]; [congruence |].
    destruct (IH Hnd Hx Hqx) as (l' & E & Hnd' & Hl').
    { intros y Hy. apply Hu. by apply list_elem_of_further. }
    rewrite E. exists (z :: l'). split; [done |]. split.
    + apply NoDup_cons. split; [| done]. intros [? _]%Hl'. done.
    + intros y. rewrite !elem_of_cons, Hl'. split; [intros [-> | ?]; [split; [by left |] | tauto] | tauto].
      intros ->. done.
Qed.

(** [SCHEDULER.lock()] and its release change nothing else. *)
Lemma lock_unlock_inv k : sched_inv k -> sched_inv (sched_unlock (sched_lock k)).
Proof. intros [Hc Hcu Hirq]. split; [done | done |]. simpl. by rewrite Hirq. Qed.

Lemma locked_unblock_curr i k : CURR_THREAD_PTR (locked_unblock i k) = CURR_THREAD_PTR k.
Proof. unfold locked_unblock, unblock_task. by repeat case_match. Qed.

Lemma locked_unblock_may_call i k : sched_inv k -> may_call k -> may_call (locked_unblock i k).
Proof. intros _ Hm. by apply (unblock_task_may_call i (sched_lock k)). Qed.

Lemma locked_unblock_wakes i k a t r :
  core_of k -> listed k a t -> id t = i -> state t = Blocked r ->
  store (locked_unblock i k) !! a = Some (set_state Ready t) /\ i ∈ ready_queue (locked_unblock i k).
Proof.
  intros Hc [Ha Ht] Hid Hst. unfold locked_unblock, unblock_task.
  rewrite (find_thread_unique (sched_lock k) i a t) by done. change (store (sched_lock k)) with (store k).
  rewrite Ht, Hst. cbn. rewrite lookup_alter_eq, Ht. split; [done |]. apply elem_of_app. right. apply list_elem_of_here.
Qed.

(** Waking another thread leaves the rest. *)
Lemma locked_unblock_other i k b t :
  core_of k -> listed k b t -> id t <> i -> store (locked_unblock i k) !! b = Some t.
Proof.
  intros Hc [Hb Ht] Hid. unfold locked_unblock, unblock_task.
  destruct (find_thread (sched_lock k) i) as [a|] eqn:Hf; [| done].
  destruct (find_in_spec _ _ _ _ Hf) as (Ha & ta & Hta & Hida). change (store (sched_lock k)) with (store k) in *.
  rewrite Hta. destruct (state ta); [done | done |]. cbn. rewrite lookup_alter_ne; [done |]. intros ->. congruence.
Qed.

(** The parent is woken when it waits for this child, and only then. *)
Lemma notify_parent_spec i me k a t :
  sched_inv k -> may_call k -> listed k a t -> id t = i ->
  exists k', notify_parent i me k = Ret k' /\ sched_inv k' /\ may_call k' /\ evolves k k' /\
    CURR_THREAD_PTR k' = CURR_THREAD_PTR k /\
    (state t = Blocked (WaitThread me) -> store k' !! a = Some (set_state Ready t) /\ i ∈ ready_queue k') /\
    (state t <> Blocked (WaitThread me) -> store k' = store k /\ ready_queue k' = ready_queue k) /\
    (forall b tb, listed k b tb -> id tb <> i -> store k' !! b = Some tb).
Proof.
  intros Hi Hm [Ha Ht] Hid. pose proof (inv_core _ Hi) as Hc. unfold notify_parent, read_tcb.
  rewrite (find_thread_unique (sched_lock k) i a t) by done. cbn [unwrap obind].
  change (store (sched_lock k)) with (store k). rewrite Ht. cbn [unwrap obind].
  set (k1 := sched_unlock (sched_lock k)). pose proof (lock_unlock_inv k Hi) as Hi1. fold k1 in Hi1.
  assert (Hm1 : may_call k1) by done. assert (He1 : evolves k k1) by (apply stays_store; reflexivity).
  set (waits := match state t with Blocked (WaitThread c) => c =? me | _ => false end).
  assert (Hw : waits = true <-> state t = Blocked (WaitThread me)).
  { unfold waits. destruct (state t) as [| | []]; split; try done.
    - intros ->%Z.eqb_eq. done.
    - intros [= ->]. apply Z.eqb_refl. }
  clearbody waits. destruct waits; eexists; (split; [reflexivity |]).
  - assert (Hst : state t = Blocked (WaitThread me)) by by apply Hw.
    split; [by apply locked_unblock_inv |]. split; [by apply locked_unblock_may_call |].
    split; [etransitivity; [exact He1 |]; apply locked_unblock_stays |].
    + intros b tb Hb Htb Hidb. assert (b = a) as -> by (eapply (core_uniq _ _ _ _ Hc b a tb t); eauto; congruence).
      intros [st E]. change (store k1) with (store k) in Htb. congruence.
    + split; [exact (locked_unblock_curr i k1) |]. split; [| split; [done |]].
      * intros _. by apply (locked_unblock_wakes i k1 a t (WaitThread me)).
      * intros b tb Hb Hne. by apply locked_unblock_other.
  - assert (Hst : state t <> Blocked (WaitThread me)) by (intros ?%Hw; done).
    split; [done |]. split; [done |]. split; [done |]. split; [done |]. split; [done |]. split; [done |].
    by intros b tb [_ ?] _.
Qed.

Section ProcOps.
Context {A : Type} {FA : FrameAllocator A} {FL : FrameAllocatorLaws A} {PA : PageApi A} {PL : PageLaws A PA}
  {AA : AddrApi} {AL : AddrLaws PA AA} {S : Type} {SL : Slab S}.
Variable cfg : Config.
Implicit Types (s : System A S) (p : ProcessControlBlock S).

(** The other processes see what they saw. *)
Definition others_same s s' (x : Z) : Prop :=
  forall y q, y ∈ PROC s -> y <> x -> pcbs s !! y = Some q ->
    pcbs s' !! y = Some q /\ same_view (ram s) (ram s') (Paging.cr3 (adsp q)).

(** ** Exec *)

(** Room for the program, its stack and its arguments. *)
Record can_exec s (program : list Z) (args : list (list Z)) (file : ElfFile) (limit : Z) : Prop := {
  ce_file : get_program_binary cfg program = Ret file;
  ce_elf : elf_ok file;
  ce_end : end_all (segments file) (e_entry file) + 4097 <= limit;
  ce_limit : limit mod 4096 = 0 /\ limit <= 2 ^ 46;
  ce_avail : avail (65 + 4 * load_pages_needed (segments file)) (ALLOC s);
  ce_bytes : Forall (Forall is_byte) (program :: args);
  ce_utf8 : Forall (fun x => utf8_valid x = true) args;
  ce_stack : stack_need (program :: args) <= 4096
}.

Lemma exec_program s program args file limit :
  isolated (page_table_address cfg) (ram s) (ALLOC s) (live_space s) -> can_exec s program args file limit ->
  exists d m1 a' rsp m', from_elf (page_table_address cfg) file (ram s, ALLOC s) = Ret (d, (m1, a')) /\
    copy_args_to_stack d args program m1 = Ret (args, rsp, m') /\
    ready_program (ram s) (ALLOC s) file (program :: args) limit d rsp m' a' /\
    kernel_half (page_table_address cfg) (ram s) (Paging.cr3 d) m'.
Proof.
  intros Hmem [_ Hf He [Hl1 Hl2] Hav Hb Hu Hst]. destruct (is_kernel _ _ _ _ Hmem) as [active Hk].
  by apply (program_spec (page_table_address cfg) active); try done; apply Hmem.
Qed.

Lemma exec_spec s x p program args file limit :
  proc_inv cfg s -> may_call (kern s) -> curr_proc s = Ret (x, p) -> can_exec s program args file limit ->
  exists tf p' s', exec cfg program args s = Ret (tf, s') /\ proc_inv cfg s' /\ others_same s s' x /\
    pcbs s' !! x = Some p' /\ PROC s' = PROC s /\ PID s' = PID s /\ CR3 s' = Paging.cr3 (adsp p') /\
    kern s' = write_tcb (CURR_THREAD_PTR (kern s)) (set_tcb_cr3 (Paging.cr3 (adsp p'))) (kern s) /\
    (pid p', pname p', argv p', cwd p', fd p', parent p', children p') =
      (pid p, program, args, cwd p, fd p, parent p, children p) /\
    (tf_rip tf, tf_cs tf, tf_rflags tf, tf_ss tf) = (e_entry file, user_code_selector cfg, 514, user_data_selector cfg) /\
    ready_program (ram s) (ALLOC s) file (program :: args) limit (adsp p') (tf_rsp tf) (ram s') (ALLOC s').
Proof.
  intros Hi Hm Hcur Hce. destruct (curr_proc_caller cfg s x p Hi Hm Hcur) as (t & Hca). pose proof Hca as [Hx Hp _ _ _ _ _ _].
  destruct (exec_program s program args file limit (pi_mem _ s Hi) Hce) as (d & m1 & a' & rsp & m' & E1 & E2 & Hrp & Hhalf).
  unfold exec. rewrite (ce_file _ _ _ _ _ Hce). cbn [obind]. rewrite E1. cbn [obind]. rewrite E2. cbn [obind].
  change (curr_proc (set_mem m' a' s)) with (let! t := curr_thread s in let! a := unwrap (pcb t) in
    let! p := unwrap (pcbs s !! a) in Ret (a, p)). fold (curr_proc s). rewrite Hcur. cbn [obind].
  set (p' := mkPCB (pid p) program args (cwd p) (fd p) d (parent p) (children p)).
  eexists _, p', _. split; [reflexivity |].
  match goal with |- proc_inv _ ?s' /\ _ => set (s1 := s') end.
  assert (Hpcbs : pcbs s1 = <[x := p']> (pcbs s)).
  { unfold s1. cbn. rewrite (alter_insert_eq _ _ p) by done. done. }
  assert (Hx1 : pcbs s1 !! x = Some p') by (rewrite Hpcbs; apply lookup_insert_eq).
  destruct (isolated_new (page_table_address cfg) (ram s) (ALLOC s) (live_space s) x d m' a' (live_space s1))
    as [Hmem Hview]; [apply Hi | apply Hrp | done | |].
  { intros y e [Hy (q & Hq & <-)]%live_space_Some. destruct (decide (y = x)) as [-> | Hne].
    - left. rewrite Hx1 in Hq. by injection Hq as <-.
    - right. rewrite Hpcbs, lookup_insert_ne in Hq by done. split; [done |]. apply live_space_Some. split; [done |]. by exists q. }
  split.
  { apply (change_space_inv cfg s s1 x p p' t); done. }
  split; [| split; [done |]; split; [done |]; split; [done |]; split; [done |]; split; [done |]; split; [done |]; split;
    [pose proof Hrp as [_ Hent _ _ _]; cbn; by rewrite Hent | exact Hrp]].
  intros y q Hy Hne Hq. split; [by rewrite Hpcbs, lookup_insert_ne |]. apply (Hview y); [done |].
  apply live_space_Some. split; [done |]. by exists q.
Qed.

(** ** Memory *)
Lemma alloc_spec s x p size limit :
  proc_inv cfg s -> may_call (kern s) -> curr_proc s = Ret (x, p) ->
  heap_ok (ram s) (adsp p) limit -> 0 <= size -> heap_end (adsp p) + size <= limit ->
  avail (4 * Z.to_nat (pages_to (heap_end (adsp p) + size) - pages_to (heap_end (adsp p)))) (ALLOC s) ->
  exists p' s', proc_alloc size s = Ret (heap_end (adsp p), s') /\ proc_inv cfg s' /\ others_same s s' x /\
    pcbs s' !! x = Some p' /\ p' = set_adsp (set_heap_end (heap_end (adsp p) + size) (adsp p)) p /\
    heap_ok (ram s') (adsp p') limit /\
    kern s' = kern s /\ PROC s' = PROC s /\ PID s' = PID s.
Proof.
  intros Hi Hm Hcur Hh Hs Hl Hav. destruct (curr_proc_caller cfg s x p Hi Hm Hcur) as (t & Hca). pose proof Hca as [Hx Hp _ _ _ _ _ _].
  assert (Hlive : live_space s x = Some (adsp p)) by (apply live_space_Some; split; [done |]; by exists p).
  destruct (is_space _ _ _ _ (pi_mem _ s Hi) x _ Hlive) as [Hok _].
  destruct (sys_alloc_spec size (adsp p) (ram s) (ALLOC s) limit Hok (is_wf _ _ _ _ (pi_mem _ s Hi)) Hh Hs Hl Hav)
    as (m' & a' & E & Hok' & Hwf' & Hh' & _ & _ & Hext).
  unfold proc_alloc. rewrite Hcur. cbn [obind]. rewrite E. cbn [obind].
  set (d := set_heap_end (heap_end (adsp p) + size) (adsp p)) in *.
  destruct (grow_space_inv cfg s x p t d m' a' Hi Hca Hext eq_refl Hok' Hwf') as [Hinv Hview].
  exists (set_adsp d p). unfold write_pcb. change (pcbs (set_mem m' a' s)) with (pcbs s). rewrite (alter_insert_eq _ _ p) by done.
  eexists. split; [reflexivity |]. split; [exact Hinv |]. split; [| split; [apply lookup_insert_eq | done]].
  intros y q Hy Hne Hq. split; [cbn; by rewrite lookup_insert_ne | by apply (Hview y)].
Qed.

Lemma back_buffer_proc_spec s x p screen :
  proc_inv cfg s -> may_call (kern s) -> curr_proc s = Ret (x, p) ->
  0 <= bytes_per_line screen * height screen < 2 ^ 32 ->
  let k := Z.to_nat (div_ceil (bytes_per_line screen * height screen) 4096) in
  Forall (unmapped (ram s) (Paging.cr3 (adsp p))) (page_range (MMAP_BASE / 4096) k) -> avail (4 * k) (ALLOC s) ->
  exists win fs s', proc_back_buffer screen s = Ret (win, s') /\ proc_inv cfg s' /\ others_same s s' x /\
    pcbs s' !! x = Some (set_adsp (set_backbuffer (Some fs) (adsp p)) p) /\ length fs = k /\ NoDup fs /\
    (forall i f, fs !! i = Some f -> user_maps (ram s') (Paging.cr3 (adsp p)) (MMAP_BASE / 4096 + Z.of_nat i) f) /\
    kern s' = kern s /\ PROC s' = PROC s /\ PID s' = PID s.
Proof.
  intros Hi Hm Hcur Hr k Hun Hav. destruct (curr_proc_caller cfg s x p Hi Hm Hcur) as (t & Hca). pose proof Hca as [Hx Hp _ _ _ _ _ _].
  assert (Hlive : live_space s x = Some (adsp p)) by (apply live_space_Some; split; [done |]; by exists p).
  destruct (is_space _ _ _ _ (pi_mem _ s Hi) x _ Hlive) as [Hok _].
  destruct (back_buffer_spec screen (adsp p) (ram s) (ALLOC s) Hok (is_wf _ _ _ _ (pi_mem _ s Hi)) Hr Hun Hav)
    as (win & fs & m' & a' & E & _ & Hok' & Hwf' & Hext & Hlen & Hnd & Hfs).
  unfold proc_back_buffer. rewrite Hcur. cbn [obind]. rewrite E. cbn [obind].
  set (d := set_backbuffer (Some fs) (adsp p)) in *.
  destruct (grow_space_inv cfg s x p t d m' a' Hi Hca Hext eq_refl Hok' Hwf') as [Hinv Hview].
  unfold write_pcb. change (pcbs (set_mem m' a' s)) with (pcbs s). rewrite (alter_insert_eq _ _ p) by done.
  exists win, fs. eexists. split; [reflexivity |]. split; [exact Hinv |].
  split; [| split; [apply lookup_insert_eq |]; split; [done |]; split; [done |];
    split; [intros i f Hf; by apply Hfs | done]].
  intros y q Hy Hne Hq. split; [cbn; by rewrite lookup_insert_ne | by apply (Hview y)].
Qed.

Lemma set_adsp_same p : set_adsp (adsp p) p = p.
Proof. by destruct p. Qed.

Lemma store_spec s x p va b m' :
  proc_inv cfg s -> may_call (kern s) -> curr_proc s = Ret (x, p) ->
  user_addr va -> user_store (CR3 s) va b (ram s) = Ret m' ->
  proc_inv cfg (set_mem m' (ALLOC s) s) /\ others_same s (set_mem m' (ALLOC s) s) x.
Proof.
  intros Hi Hm Hcur Hva E. destruct (curr_proc_caller cfg s x p Hi Hm Hcur) as (t & Hca). pose proof Hca as [Hx Hp _ _ _ _ HCR _].
  assert (Hlive : live_space s x = Some (adsp p)) by (apply live_space_Some; split; [done |]; by exists p).
  pose proof (pi_mem _ s Hi) as Hmem. destruct (is_space _ _ _ _ Hmem x _ Hlive) as [Hok _].
  rewrite HCR in E. destruct (user_store_extends (ram s) (ALLOC s) (adsp p) va b m' Hok (is_sized _ _ _ _ Hmem) Hva E)
    as (Hext & Hok' & _).
  destruct (grow_space_inv cfg s x p t (adsp p) m' (ALLOC s) Hi Hca Hext eq_refl Hok' (is_wf _ _ _ _ Hmem)) as [Hinv Hview].
  rewrite set_adsp_same, insert_id in Hinv by done. split; [by destruct s |].
  intros y q Hy Hne Hq. split; [done | by apply (Hview y)].
Qed.

(** ** Exit and wait *)
Lemma terminate_curr st k :
  CURR_THREAD_PTR (terminate_enter st k) = CURR_THREAD_PTR k /\ NEEDS_RESCHEDULE (terminate_enter st k) = true.
Proof. split; [| done]. unfold terminate_enter. cbn. apply (locked_unblock_curr 2 k). Qed.

Lemma cleaner_alive s : proc_inv cfg s -> not_held ended (kern s) 2.
Proof.
  intros Hi a t Ha Ht Hid Hte. destruct (pcb t) as [x|] eqn:Hp; [| by apply (pi_kthread _ s Hi a t (conj Ha Ht) Hte)].
  pose proof (pi_pid _ s Hi a t x Ht Hp). lia.
Qed.

(** Another process's thread after the exit of process number [me]: the parent
    is woken when it waits for [me]; nothing else changes. *)
Definition thread_after (par : option Z) (me : Z) (k : Kernel) (a : Z) (t : ThreadControlBlock) : Prop :=
  if decide (par = Some (id t) /\ state t = Blocked (WaitThread me))
  then store k !! a = Some (set_state Ready t) /\ id t ∈ ready_queue k
  else store k !! a = Some t.

Lemma exit_notify s x p :
  proc_inv cfg s -> may_call (kern s) -> x ∈ PROC s -> pcbs s !! x = Some p ->
  exists k, match parent p with Some i => notify_parent i (pid p) (kern s) | None => Ret (kern s) end = Ret k /\
    sched_inv k /\ may_call k /\ evolves (kern s) k /\ CURR_THREAD_PTR k = CURR_THREAD_PTR (kern s) /\
    forall a t, listed (kern s) a t -> thread_after (parent p) (pid p) k a t.
Proof.
  intros Hi Hm Hx Hp. pose proof (pi_sched _ s Hi) as Hs. unfold thread_after. destruct (parent p) as [i|] eqn:Hpar.
  - destruct (pi_parent _ s Hi x p i Hx Hp Hpar) as (_ & a & t & Hl & Hid).
    destruct (notify_parent_spec i (pid p) (kern s) a t Hs Hm Hl Hid)
      as (k & E & Hik & Hmk & Hev & Hcu & Hw & Hnw & Hoth).
    exists k. split_and!; try done. intros b tb Hlb. case_decide as Hd.
    + destruct Hd as [[= Hib] Hst]. assert (b = a) as ->.
      { destruct Hl, Hlb. eapply (core_uniq _ _ _ _ (inv_core _ Hs) b a tb t); try done; congruence. }
      assert (tb = t) as -> by (destruct Hl, Hlb; congruence). rewrite Hid. by apply Hw.
    + destruct (decide (id tb = i)) as [Hib | Hib]; [| by apply Hoth]. assert (b = a) as ->.
      { destruct Hl, Hlb. eapply (core_uniq _ _ _ _ (inv_core _ Hs) b a tb t); try done; congruence. }
      assert (tb = t) as -> by (destruct Hl, Hlb; congruence). destruct Hnw as [-> _]; [| apply Hl].
      intros Hst. apply Hd. split; [congruence | done].
  - exists (kern s). split_and!; try done. intros a t [_ Ht]. rewrite decide_False; [done |]. by intros [? _].
Qed.

(** Termination after the parent was told. *)
Lemma exit_terminate s x p t k st l :
  proc_inv cfg s -> caller s x p t -> sched_inv k -> may_call k -> evolves (kern s) k ->
  CURR_THREAD_PTR k = CURR_THREAD_PTR (kern s) ->
  NoDup l -> (forall y, y ∈ l <-> y ∈ PROC s /\ y <> x) ->
  let k' := terminate_enter st k in
  proc_inv cfg (set_kern k' (set_proc l s)) /\
  exists t', store k' !! CURR_THREAD_PTR k = Some t' /\ static t t' /\ state t' = Blocked (Terminated st).
Proof.
  intros Hi Hca Hik Hmk Hev Hcu Hnd Hl k'. pose proof Hca as [Hx Hp [Hcin Hct] Hof Hid Hcr HCR Hrun].
  pose proof (inv_core _ (pi_sched _ s Hi)) as Hco.
  assert (Hev2 : evolves (kern s) (locked_unblock 2 k)).
  { etransitivity; [exact Hev |]. apply locked_unblock_stays. intros a ta Ha Hta Hida Hte.
    rewrite (ev_threads Hev) in Ha. destruct (evolves_alive _ _ a ta Hev Hco Ha Hta Hte) as (t0 & Ht0 & Hte0).
    apply (cleaner_alive s Hi a t0 Ha Ht0); [| done].
    destruct (ev_tcb Hev a t0 Ht0) as (t1 & ? & (? & _) & _). congruence. }
  assert (Hm2 : may_call (locked_unblock 2 k)) by by apply locked_unblock_may_call.
  set (k2 := locked_unblock 2 k) in *. assert (Hc2 : CURR_THREAD_PTR k2 = CURR_THREAD_PTR k) by apply locked_unblock_curr.
  assert (Hkp : keeps (kern s) k').
  { eapply keeps_trans; [apply evolves_keeps, Hev2 |]. apply block_keeps; [| done]. apply locked_unblock_inv, Hik. }
  assert (Hstore : forall a ta, store k' !! a = Some ta -> exists t0, store k2 !! a = Some t0 /\
    ta = if decide (CURR_THREAD_PTR k2 = a) then set_slice TIME_SLICE (set_state (Blocked (Terminated st)) t0) else t0).
  { intros a ta Hta. by apply lookup_write in Hta. }
  destruct (ev_tcb Hev2 _ _ Hct) as (tc & Htc & Hstat & _).
  assert (Hcur' : store k' !! CURR_THREAD_PTR k = Some (set_slice TIME_SLICE (set_state (Blocked (Terminated st)) tc))).
  { rewrite <- Hcu in Htc. 
    change (store k') with (alter (fun t => set_slice TIME_SLICE (set_state (Blocked (Terminated st)) t)) (CURR_THREAD_PTR k2) (store k2)).
    rewrite Hc2, lookup_alter_eq. by rewrite Htc. }
  split; [| eexists; split; [exact Hcur' | done]].
  change (set_kern k' (set_proc l s)) with (set_CR3 (CR3 s) (set_kern k' (set_proc l s))).
  assert (Hold : forall a ta, listed k' a ta -> terminated ta -> a <> CURR_THREAD_PTR k ->
    exists t0, listed (kern s) a t0 /\ terminated t0 /\ pcb ta = pcb t0).
  { intros a ta [Ha Hta] Hte Hne. rewrite (kp_threads _ _ Hkp) in Ha. destruct (Hstore a ta Hta) as (t0 & Ht0 & E).
    rewrite decide_False in E by congruence. subst t0.
    destruct (evolves_alive _ _ a ta Hev2 Hco Ha Ht0 Hte) as (t1 & Ht1 & Hte1). exists t1. split; [done |]. split; [done |].
    destruct (ev_tcb Hev2 a t1 Ht1) as (t2 & ? & (_ & ? & _) & _). congruence. }
  assert (Hself : forall ta, store k' !! CURR_THREAD_PTR k = Some ta -> pcb ta = Some x /\ terminated ta).
  { intros ta Hta. rewrite Hcur' in Hta. injection Hta as <-. destruct Hstat as (_ & E & _).
    split; [cbn; congruence |]. by exists st. }
  apply kern_change_inv; [done | by apply terminate_enter_inv | done | done | by intros y [? _]%Hl | | | |].
  - intros y a ta [Hy Hne]%Hl Hla Hpy Hte. destruct (decide (a = CURR_THREAD_PTR k)) as [-> | Hna].
    + destruct (Hself ta (proj2 Hla)) as [? _]. congruence.
    + destruct (Hold a ta Hla Hte Hna) as (t0 & Hl0 & Hte0 & E).
      destruct (proc_thread_unique cfg s y a t0 Hi Hy (proj2 Hl0)) as (_ & _ & _ & _ & Hn); [congruence | done].
  - intros y a ta Hy Hny Hla Hpy. assert (y = x) as ->.
    { destruct (decide (y = x)); [done |]. by destruct Hny; apply Hl. }
    assert (a = CURR_THREAD_PTR k) as ->; [| by apply Hself].
    destruct (keeps_stored_inv _ _ a ta Hkp Hla) as (t0 & Hl0 & (E1 & E2 & _) & _).
    rewrite Hcu. destruct (pi_thread _ s Hi a t0 x Hl0) as (q & Hq & Hidq & _); [congruence |].
    apply (pi_uniq _ s Hi a _ t0 t x x); congruence.
  - intros a ta Hla Hte. destruct (decide (a = CURR_THREAD_PTR k)) as [-> | Hna].
    + destruct (Hself ta (proj2 Hla)) as [-> _]. done.
    + destruct (Hold a ta Hla Hte Hna) as (t0 & Hl0 & Hte0 & ->). by apply (pi_kthread _ s Hi a).
  - change (CURR_THREAD_PTR k') with (CURR_THREAD_PTR k2). rewrite Hc2. intros ta Hta. rewrite Hcur' in Hta. injection Hta as <-. cbn.
    destruct Hstat as (_ & _ & ->). rewrite HCR. done.
Qed.

Lemma exit_spec s x p st :
  proc_inv cfg s -> may_call (kern s) -> curr_proc s = Ret (x, p) ->
  exists s', exit_enter st s = Ret s' /\ proc_inv cfg s' /\ pcbs s' = pcbs s /\ ram s' = ram s /\ PID s' = PID s /\
    threads (kern s') = threads (kern s) /\
    (forall y, y ∈ PROC s' <-> y ∈ PROC s /\ y <> x) /\
    NEEDS_RESCHEDULE (kern s') = true /\
    (exists t, store (kern s') !! CURR_THREAD_PTR (kern s) = Some t /\ state t = Blocked (Terminated (wrap_u 8 st))) /\
    (forall a t, listed (kern s) a t -> 65536 <= id t -> a <> CURR_THREAD_PTR (kern s) ->
      thread_after (parent p) (pid p) (kern s') a t).
Proof.
  intros Hi Hm Hcur. destruct (curr_proc_caller cfg s x p Hi Hm Hcur) as (t & Hca).
  pose proof Hca as [Hx Hp [Hcin Hct] Hof Hid _ _ Hrun]. pose proof (inv_core _ (pi_sched _ s Hi)) as Hco.
  destruct (remove_first_only (has_pid s (id t)) (PROC s) x (pi_nodup _ s Hi) Hx) as (l & El & Hnd & Hl).
  { unfold has_pid. rewrite Hp, Hid. apply Z.eqb_refl. }
  { intros y Hy Hq. unfold has_pid in Hq. destruct (pi_proc _ s Hi y Hy) as (q & b & tb & Hqy & Htb & Hidb & Hpb & _).
    rewrite Hqy in Hq. apply Z.eqb_eq in Hq.
    assert (b = CURR_THREAD_PTR (kern s)) as -> by (apply (pi_uniq _ s Hi b _ tb t y x); congruence). congruence. }
  unfold exit_enter, curr_thread, read_tcb. rewrite Hct. cbn [unwrap obind]. rewrite El. cbn [unwrap obind].
  rewrite Hp. cbn [unwrap obind]. change (kern (set_proc l s)) with (kern s).
  destruct (exit_notify s x p Hi Hm Hx Hp) as (k & E & Hik & Hmk & Hev & Hcu & Hpa). rewrite Hid, E.
  cbn [obind]. eexists. split; [reflexivity |].
  destruct (exit_terminate s x p t k (wrap_u 8 st) l Hi Hca Hik Hmk Hev Hcu Hnd Hl) as [Hinv (t' & Ht' & _ & Hst')].
  split; [exact Hinv |]. split; [done |]. split; [done |]. split; [done |].
  split; [cbn [kern set_kern]; rewrite (proj2 (terminate_enter_inv (wrap_u 8 st) k Hik Hmk)); apply (ev_threads Hev) |].
  split; [done |]. split; [done |]. split.
  { exists t'. split; [by rewrite <- Hcu | done]. }
  intros a ta Hla H6 Hna. specialize (Hpa a ta Hla). revert Hpa. unfold thread_after.
  assert (Hkeep : forall tb, store k !! a = Some tb -> id tb = id ta -> store (terminate_enter (wrap_u 8 st) k) !! a = Some tb).
  { intros tb Htb Hidb. assert (store (locked_unblock 2 k) !! a = Some tb) as E2.
    { apply locked_unblock_other; [apply Hik | | lia]. split; [| done]. rewrite (ev_threads Hev). apply Hla. }
    change (store (terminate_enter (wrap_u 8 st) k)) with
      (alter (fun t => set_slice TIME_SLICE (set_state (Blocked (Terminated (wrap_u 8 st))) t)) (CURR_THREAD_PTR (locked_unblock 2 k))
         (store (locked_unblock 2 k))).
    rewrite locked_unblock_curr, lookup_alter_ne; [done | congruence]. }
  cbn [kern set_kern]. case_decide.
  - intros [Hs Hq]. split; [by apply Hkeep |]. unfold terminate_enter, locked_unblock. cbn.
    unfold unblock_task. repeat case_match; cbn; rewrite ?elem_of_app; auto.
  - intros Hs. by apply Hkeep.
Qed.

(** ** Spawn *)
Record spawn_fresh s (n : SpawnAddrs) : Prop := {
  sf_pid : PID s + 1 < 2 ^ 64;
  sf_pcb : pcbs s !! new_pcb n = None;
  sf_tcb : store (kern s) !! new_tcb n = None
}.

(** The first switch to a new process's thread leads, through the startup hook
    and [user_process_hook], to the program. *)
Lemma new_stack_resumes n tid c rip rsp :
  exists r, switch_pops (stack_from (stack_base (new_thread n))
      (tcb_new (new_thread n) tid (process_hook n) (Some c) (Some rip) (Some rsp))) = Some r /\
    rs_return r = task_startup_hook (new_thread n) /\ rs_r12 r = process_hook n /\
    user_process_hook r = [rip; 43; 514; rsp; 51].
Proof.
  unfold stack_from. cbn [Thread.rsp stack tcb_new].
  replace (stack_base (new_thread n) + 8 * (max_stack_len - 9) - stack_base (new_thread n)) with ((max_stack_len - 9) * 8) by lia.
  rewrite Z.div_mul by lia. unfold new_stack. rewrite drop_app_length' by by rewrite length_replicate.
  eexists. split; [reflexivity |]. split; [reflexivity |]. split; reflexivity.
Qed.

Lemma spawn_enter_spec s n program args root fds file limit :
  proc_inv cfg s -> can_exec s program args file limit -> spawn_fresh s n ->
  exists p t r s', spawn_enter cfg n program args root fds s = Ret (PID s, s') /\ proc_inv cfg s' /\
    (forall y q, y ∈ PROC s -> pcbs s !! y = Some q ->
      pcbs s' !! y = Some q /\ same_view (ram s) (ram s') (Paging.cr3 (adsp q))) /\
    PROC s' = PROC s ++ [new_pcb n] /\
    PID s' = PID s + 1 /\ kern s' = alloc_tcb (new_tcb n) t (kern s) /\ pcb t = Some (new_pcb n) /\
    pcbs s' !! new_pcb n = Some p /\
    (pid p, pname p, argv p, cwd p, parent p, children p) = (PID s, program, args, root, None, []) /\ fd p = fds /\
    store (kern s') !! new_tcb n = Some t /\ id t = PID s /\ Thread.cr3 t = Paging.cr3 (adsp p) /\
    switch_pops (stack_from (stack_base (new_thread n)) t) = Some r /\
    rs_return r = task_startup_hook (new_thread n) /\ rs_r12 r = process_hook n /\
    exists rsp, user_process_hook r = [e_entry file; 43; 514; rsp; 51] /\
      ready_program (ram s) (ALLOC s) file (program :: args) limit (adsp p) rsp (ram s') (ALLOC s').
Proof.
  intros Hi Hce [Hpid Hpcb Htcb]. pose proof (pi_range _ s Hi) as Hrg.
  destruct (exec_program s program args file limit (pi_mem _ s Hi) Hce) as (d & m1 & a' & rsp & m' & E1 & E2 & Hrp & Hhalf).
  destruct (new_stack_resumes n (PID s) (Paging.cr3 d) (program_start d) rsp) as (r & Hr1 & Hr2 & Hr3 & Hr4).
  set (t := set_tcb_pcb (Some (new_pcb n))
    (tcb_new (new_thread n) (PID s) (process_hook n) (Some (Paging.cr3 d)) (Some (program_start d)) (Some rsp))).
  set (p := mkPCB (PID s) program args root fds d None []).
  exists p, t, r. unfold spawn_enter. rewrite (ce_file _ _ _ _ _ Hce). cbn [obind].
  unfold from_bytes. cbn [ram ALLOC set_pid]. rewrite E1. cbn [obind]. rewrite E2. cbn [obind].
  eexists. split; [reflexivity |]. match goal with |- proc_inv _ ?s' /\ _ => set (s1 := s') end.
  assert (Hp1 : pcbs s1 !! new_pcb n = Some p) by apply lookup_insert_eq.
  assert (HPID : PID s1 = PID s + 1) by (apply wrap_u_small; lia).
  assert (Hold : forall y q, pcbs s !! y = Some q -> pcbs s1 !! y = Some q).
  { intros y q Hq. unfold s1. cbn. rewrite lookup_insert_ne; [done |]. intros <-. congruence. }
  destruct (add_process_inv cfg s s1 (new_pcb n) p t (new_tcb n)) as [Hinv Hview]; try done.
  - intros y q Hq. exists q. split; [by apply Hold | done].
  - apply Hrp.
  - split; [done |]. split; [intros y q Hy Hq; split; [by apply Hold | by apply (Hview y)] |].
    pose proof Hrp as [_ Hent _ _ _]. rewrite Hent in Hr4.
    do 2 (split; [done |]). split; [done |]. do 4 (split; [done |]).
    split; [apply lookup_insert_eq |]. do 5 (split; [done |]). by exists rsp.
Qed.

Lemma spawn_proc_spec s n program args root fds file limit :
  proc_inv cfg s -> can_exec s program args file limit -> spawn_fresh s n ->
  exists p t r s', spawn_proc cfg n program args root fds s = Ret s' /\ proc_inv cfg s' /\
    (forall y q, y ∈ PROC s -> pcbs s !! y = Some q ->
      pcbs s' !! y = Some q /\ same_view (ram s) (ram s') (Paging.cr3 (adsp q))) /\
    PROC s' = PROC s ++ [new_pcb n] /\ ready_queue (kern s') = ready_queue (kern s) ++ [PID s] /\
    PID s' = PID s + 1 /\ kern s' = enlist (new_tcb n) t (kern s) /\
    pcbs s' !! new_pcb n = Some p /\
    (pid p, pname p, argv p, cwd p, parent p, children p) = (PID s, program, args, root, None, []) /\ fd p = fds /\
    store (kern s') !! new_tcb n = Some t /\ id t = PID s /\ Thread.cr3 t = Paging.cr3 (adsp p) /\
    switch_pops (stack_from (stack_base (new_thread n)) t) = Some r /\
    rs_return r = task_startup_hook (new_thread n) /\ rs_r12 r = process_hook n /\
    exists rsp, user_process_hook r = [e_entry file; 43; 514; rsp; 51] /\
      ready_program (ram s) (ALLOC s) file (program :: args) limit (adsp p) rsp (ram s') (ALLOC s').
Proof.
  intros Hi Hce Hfr.
  destruct (spawn_enter_spec s n program args root fds file limit Hi Hce Hfr)
    as (p & t & r & s1 & E & Hi1 & Ho & HP & HPID & Hk & Hpt & Hx & Hp & Hfd & Ht & Hid & Hrest).
  exists p, t, r. unfold spawn_proc. rewrite E. cbn [obind]. eexists. split; [reflexivity |].
  assert (Hu : unlisted s1 (new_tcb n) t).
  { split; [done |]. split.
    - rewrite Hk. intros Ha. destruct (core_live _ _ _ _ (inv_core _ (pi_sched _ s Hi)) _ Ha) as (? & ? & _).
      pose proof (sf_tcb _ _ Hfr). congruence.
    - exists (new_pcb n). rewrite HP. split; [apply elem_of_app; right; apply list_elem_of_here | done]. }
  split; [rewrite <- Hid; by apply list_step_inv |]. split; [done |]. split; [done |].
  split; [cbn; by rewrite Hk |]. split; [done |]. split; [cbn [kern set_kern]; unfold enlist; by rewrite Hk, Hid |]. done.
Qed.

(** ** Switching *)
Lemma switch_space_to_spec s next :
  proc_inv cfg s -> runs (kern s) next -> exists s', switch_space_to next s = Ret s' /\ proc_inv cfg s' /\
    pcbs s' = pcbs s /\ PROC s' = PROC s /\ ram s' = ram s /\ ALLOC s' = ALLOC s /\ PID s' = PID s /\
    kern s' = switch_to_task next (kern s).
Proof.
  intros Hi Hr. pose proof (pi_sched _ s Hi) as Hs.
  destruct (curr_live _ (inv_core _ Hs) _ (runs_knows _ _ Hr)) as (t & Ht & _).
  unfold switch_space_to, read_tcb. rewrite Ht. cbn [unwrap obind]. eexists. split; [reflexivity |]. split; [| done].
  change (set_kern (switch_to_task next (kern s)) (set_CR3 (cr3 t) s)) with (set_CR3 (cr3 t) (set_kern (switch_to_task next (kern s)) s)).
  apply kern_keep_inv; [done | by apply switch_to_inv, runs_knows | apply switch_to_stays |].
  intros t' Ht'. cbn in Ht'. congruence.
Qed.

Lemma kern_curr_inv s k :
  proc_inv cfg s -> sched_inv k -> evolves (kern s) k -> CURR_THREAD_PTR k = CURR_THREAD_PTR (kern s) ->
  proc_inv cfg (set_kern k s).
Proof.
  intros Hi Hk Hev Hcu. change (set_kern k s) with (set_CR3 (CR3 s) (set_kern k s)). apply kern_keep_inv; try done.
  rewrite Hcu. intros t Ht.
  destruct (curr_live _ (inv_core _ (pi_sched _ s Hi)) _ (inv_curr _ (pi_sched _ s Hi))) as (t0 & Ht0 & _).
  destruct (ev_tcb Hev _ _ Ht0) as (t1 & ? & (_ & _ & E) & _). rewrite (pi_cr3 _ s Hi t0 Ht0). congruence.
Qed.

Lemma pick_space_spec s next k :
  proc_inv cfg s -> switch_pick (kern s) = Ret (next, k) -> proc_inv cfg (set_kern k s).
Proof.
  intros Hi E. destruct (switch_pick_inv (kern s) (pi_sched _ s Hi)) as (next1 & k1 & E1 & Hk & _ & _ & Hcu & _).
  rewrite E in E1. injection E1 as <- <-. apply kern_curr_inv; [done | done | | done].
  eapply switch_pick_stays; [apply Hi | done].
Qed.

Lemma switch_space_spec s :
  proc_inv cfg s -> exists s', switch_space s = Ret s' /\ proc_inv cfg s' /\
    pcbs s' = pcbs s /\ PROC s' = PROC s /\ ram s' = ram s /\ PID s' = PID s /\
    (NEEDS_RESCHEDULE (kern s) = true -> may_call (kern s')) /\ switch_if_needed (kern s) = Ret (kern s').
Proof.
  intros Hi. destruct (switch_pick_inv (kern s) (pi_sched _ s Hi)) as (next & k & E & Hk & _ & _ & Hcu & _ & Hnext).
  pose proof (pick_space_spec s next k Hi E) as Hi1. unfold switch_space, switch_if_needed. rewrite E. cbn [obind].
  destruct next as [a|].
  - destruct Hnext as [Hr _].
    destruct (switch_space_to_spec (set_kern k s) a Hi1 Hr) as (s' & E' & Hi' & E1 & E2 & E3 & _ & E4 & E5).
    exists s'. rewrite E5. split_and!; try done. intros _. apply runs_may_call; [apply Hk | done].
  - destruct Hnext as [-> Hn]. eexists. split; [reflexivity |]. split_and!; try done. congruence.
Qed.

(** The critical section of [wait_pid]. *)
Lemma wait_block_spec s x p t child :
  proc_inv cfg s -> may_call (kern s) -> caller s x p t ->
  proc_inv cfg (wait_block child s) /\ (forall c, stays (ended_or_waiting c) (kern s) (kern (wait_block child s))) /\
  exists t', listed (kern (wait_block child s)) (CURR_THREAD_PTR (kern s)) t' /\ state t' = Blocked (WaitThread child) /\ static t t'.
Proof.
  intros Hi Hm [Hx Hp [Hcin Hct] Hof Hid _ HCR Hrun]. pose proof (inv_curr _ (pi_sched _ s Hi)) as Hkn. split; [| split].
  - apply kern_curr_inv; [done | apply block_enter_inv; [apply Hi | done] | by apply block_stays | done].
  - intros c. by apply block_stays.
  - exists (set_slice TIME_SLICE (set_state (Blocked (WaitThread child)) t)). split; [| done]. split; [done |].
    unfold wait_block, block_enter. cbn. rewrite lookup_alter_eq. by rewrite Hct.
Qed.

(** [wait_pid] for a child blocks the caller, for any other number it returns
    at once. *)
Lemma wait_spec s x p t child :
  proc_inv cfg s -> may_call (kern s) -> curr_proc s = Ret (x, p) -> caller s x p t ->
  if decide (child ∈ children p)
  then exists s', wait_pid child s = Ret s' /\ proc_inv cfg s' /\ PROC s' = PROC s /\ pcbs s' = pcbs s /\ ram s' = ram s /\ PID s' = PID s /\
    (forall c, stays (ended_or_waiting c) (kern s) (kern s')) /\
    exists t', listed (kern s') (CURR_THREAD_PTR (kern s)) t' /\ state t' = Blocked (WaitThread child) /\ static t t'
  else wait_pid child s = Ret s.
Proof.
  intros Hi Hm Hcur Hca. unfold wait_pid, is_child. rewrite Hcur. cbn [obind].
  case_decide as Hc; [| by rewrite bool_decide_eq_false_2]. rewrite bool_decide_eq_true_2 by done. cbn [negb].
  destruct (wait_block_spec s x p t child Hi Hm Hca) as (Hi1 & Hst1 & t1 & Hl1 & Hs1 & Hstat1).
  destruct (switch_space_spec _ Hi1) as (s' & E & Hi' & E1 & E2 & E3 & E4 & _ & Esw).
  exists s'. split; [done |]. split; [done |]. split; [by rewrite E2 |]. split; [by rewrite E1 |].
  split; [by rewrite E3 |]. split; [by rewrite E4 |].
  assert (Hsw : forall c, stays (ended_or_waiting c) (kern (wait_block child s)) (kern s')).
  { intros c. apply switch_stays; [apply Hi1 | done]. }
  split; [intros c; transitivity (kern (wait_block child s)); auto |].
  destruct (ev_tcb (Hsw child) _ _ (proj2 Hl1)) as (t' & Ht' & (S1 & S2 & S3) & Hkeep & _). exists t'.
  split; [split; [rewrite (ev_threads (Hsw child)); apply Hl1 | done] |].
  split; [rewrite Hkeep; [done | apply Hl1 | by right] |]. destruct Hstat1 as (F1 & F2 & F3). split_and!; congruence.
Qed.
End ProcOps.
