(* ===== verification/ProcSys.v ===== *)
(** * Processes as a transition system

    What processes, the scheduler and interrupts do to the machine, as steps
    labelled with the process that makes them.  Interrupts are enabled during
    system calls, so a call is several steps with any steps of others in
    between: the process table and the thread list are written in separate
    steps of [fork] and [spawn_proc], the test of [wait_pid] and its blocking
    are separate, and so are the choice of the next thread and the switch to
    it.  A store step is a store of the program or one byte that the kernel
    copies to a buffer of the caller; its address is in the lower half, which is
    where the pointers that programs pass to system calls have to lie, as the
    kernel does not check them.

    What is one step although interrupts are enabled in it: building or copying
    an address space up to the push to the process table, [exec], the growth of
    the heap, the back buffer, an exit up to its last critical section, one
    update of the caller's own control block, the choice and the wake-up of a
    pipe's sleepers (under the lock of the process table, which every other
    waker of them takes), and the assembly of [switch_to_task].  The theorems
    hold of every reachable state; that the system calls are sequences of these
    steps is proved in [CallSteps]. *)
From S2P Require Import Prelude Text Memory Paging PagingMap UserMem UserStack Elf Isolation Slab Lock Thread ThreadInv Sched ThreadKeep Proc ProcInv ProcOps.

Section ProcSys.
Context {A : Type} {FA : FrameAllocator A} {FL : FrameAllocatorLaws A} {PA : PageApi A} {PL : PageLaws A PA}
  {AA : AddrApi} {AL : AddrLaws PA AA} {S : Type} {SL : Slab S}.
Variable cfg : Config.
Implicit Types (s : System A S) (p : ProcessControlBlock S).

(** Threads that only an exit wakes, or nothing. *)
Definition ended_or_joining (st : ThreadState) : Prop := ended st \/ exists c, st = Blocked (WaitThread c).

(** Threads woken in one critical section. *)
Definition locked_unblock_all (l : list Z) (k : Kernel) : Kernel := sched_unlock (unblock_all l (sched_lock k)).

(** What the file calls change in the caller's control block. *)
Definition own_change (f : ProcessControlBlock S -> ProcessControlBlock S) p : Prop :=
  (pid (f p), adsp (f p), parent (f p), children (f p)) = (pid p, adsp p, parent p, children p).

Inductive proc_step : option Z -> System A S -> System A S -> Prop :=
| ps_spawn n program args root fds file limit r s s' :
    can_exec cfg s program args file limit -> spawn_fresh s n ->
    spawn_enter cfg n program args root fds s = Ret (r, s') -> proc_step None s s'
| ps_fork x p n tf r s s' :
    may_call (kern s) -> curr_proc s = Ret (x, p) -> can_fork s p -> fork_fresh s n ->
    fork_enter cfg n tf s = Ret (r, s') -> proc_step (Some x) s s'
| ps_list a t s : unlisted s a t -> proc_step None s (set_kern (list_thread a (id t) (kern s)) s)
| ps_exec x p program args file limit tf s s' :
    may_call (kern s) -> curr_proc s = Ret (x, p) -> can_exec cfg s program args file limit ->
    exec cfg program args s = Ret (tf, s') -> proc_step (Some x) s s'
| ps_alloc x p size limit r s s' :
    may_call (kern s) -> curr_proc s = Ret (x, p) ->
    heap_ok (ram s) (adsp p) limit -> 0 <= size -> heap_end (adsp p) + size <= limit ->
    avail (4 * Z.to_nat (pages_to (heap_end (adsp p) + size) - pages_to (heap_end (adsp p)))) (ALLOC s) ->
    proc_alloc size s = Ret (r, s') -> proc_step (Some x) s s'
| ps_back x p screen win s s' :
    may_call (kern s) -> curr_proc s = Ret (x, p) -> 0 <= bytes_per_line screen * height screen < 2 ^ 32 ->
    let k := Z.to_nat (div_ceil (bytes_per_line screen * height screen) 4096) in
    Forall (unmapped (ram s) (Paging.cr3 (adsp p))) (page_range (MMAP_BASE / 4096) k) -> avail (4 * k) (ALLOC s) ->
    proc_back_buffer screen s = Ret (win, s') -> proc_step (Some x) s s'
| ps_store x p va b m' s :
    may_call (kern s) -> curr_proc s = Ret (x, p) -> user_addr va ->
    user_store (CR3 s) va b (ram s) = Ret m' -> proc_step (Some x) s (set_mem m' (ALLOC s) s)
| ps_own x p f s :
    may_call (kern s) -> curr_proc s = Ret (x, p) -> own_change f p -> proc_step (Some x) s (write_pcb x f s)
| ps_exit x p st s s' :
    may_call (kern s) -> curr_proc s = Ret (x, p) -> exit_enter st s = Ret s' -> proc_step (Some x) s s'
| ps_block r s : may_call (kern s) -> (forall st, r <> Terminated st) ->
    proc_step None s (set_kern (block_enter r (kern s)) s)
| ps_yield k s : may_call (kern s) -> CURR_THREAD_PTR (kern s) ∈ threads (kern s) -> yield_enter (kern s) = Ret k ->
    proc_step None s (set_kern k s)
| ps_wake l s : Forall (fun i => i < 65536 \/ not_held ended_or_joining (kern s) i) l ->
    proc_step None s (set_kern (locked_unblock_all l (kern s)) s)
| ps_pick next k s : switch_pick (kern s) = Ret (next, k) -> proc_step None s (set_kern k s)
| ps_switch next s s' : runs (kern s) next -> switch_space_to next s = Ret s' -> proc_step None s s'
| ps_tick k s : 0 <= ELAPSED (kern s) -> tick_ok (kern s) -> tick_enter (kern s) = Ret k ->
    proc_step None s (set_kern k s).

Definition any_step s s' : Prop := exists x, proc_step x s s'.

(** ** Preservation *)
Lemma tick_enter_curr k k' : tick_enter k = Ret k' -> CURR_THREAD_PTR k' = CURR_THREAD_PTR k.
Proof.
  intros H. unfold tick_enter in H. run_inv H. run_inv H. run_inv H. run_inv H. injection H as <-. cbn.
  assert (Hf : forall l k, CURR_THREAD_PTR (foldl (fun k i => unblock_task i k) k l) = CURR_THREAD_PTR k).
  { induction l as [|i l IH]; intros k1; [done |]. cbn [foldl]. rewrite IH. unfold unblock_task. by repeat case_match. }
  unfold tick_account in E2. run_inv E2. repeat case_match; try (run_inv E2); injection E2 as <-; cbn;
    rewrite Hf; reflexivity.
Qed.

Lemma others_same_refl s s' x : pcbs s' = pcbs s -> ram s' = ram s -> others_same s s' x.
Proof. intros E1 E2 y q _ _ Hq. rewrite E1, E2. done. Qed.

Lemma kthread_alive s i : proc_inv cfg s -> i < 65536 -> not_held ended (kern s) i.
Proof.
  intros Hi Hlt a t Ha Ht Hid Hte. destruct (pcb t) as [x|] eqn:Hp; [| by apply (pi_kthread _ s Hi a t (conj Ha Ht) Hte)].
  pose proof (pi_pid _ s Hi a t x Ht Hp). lia.
Qed.

Lemma wake_allowed s i :
  proc_inv cfg s -> i < 65536 \/ not_held ended_or_joining (kern s) i -> not_held ended (kern s) i.
Proof.
  intros Hi [Hlt | H]; [by apply kthread_alive |]. intros a t Ha Ht Hid Hte. apply (H a t Ha Ht Hid). by left.
Qed.

Lemma locked_unblock_all_stays s l :
  proc_inv cfg s -> Forall (fun i => i < 65536 \/ not_held ended_or_joining (kern s) i) l ->
  evolves (kern s) (locked_unblock_all l (kern s)).
Proof.
  intros Hi Hl. transitivity (sched_lock (kern s)); [auto with evolves |].
  transitivity (unblock_all l (sched_lock (kern s))); [| auto with evolves]. apply unblock_all_stays.
  eapply Forall_impl; [exact Hl |]. intros i. apply (wake_allowed s i Hi).
Qed.

(** The caller's control block changes, not what the others are. *)
Lemma own_spec s x p f :
  proc_inv cfg s -> may_call (kern s) -> curr_proc s = Ret (x, p) -> own_change f p ->
  proc_inv cfg (write_pcb x f s) /\ pcbs (write_pcb x f s) = <[x := f p]> (pcbs s).
Proof.
  intros Hi Hm Hcur [= E1 E2 E3 _]. destruct (curr_proc_caller cfg s x p Hi Hm Hcur) as (t & Hca).
  pose proof Hca as [Hx Hp [_ Hct] _ _ Hcr HCR _].
  assert (Epc : pcbs (write_pcb x f s) = <[x := f p]> (pcbs s)) by (cbn; by apply alter_insert_eq).
  split; [| done]. apply (change_space_inv cfg s _ x p (f p) t); try done.
  - rewrite E2, <- Hcr. symmetry. by apply write_cr3_same.
  - by rewrite E2.
  - eapply isolated_mono; [apply Hi |]. intros y d [Hy (q & Hq & <-)]%live_space_Some. apply live_space_Some. split; [done |].
    rewrite Epc in Hq. destruct (decide (y = x)) as [-> | Hne].
    + rewrite lookup_insert_eq in Hq. injection Hq as <-. by exists p.
    + rewrite lookup_insert_ne in Hq by done. by exists q.
Qed.

(** Every step keeps the invariant and what the processes other than the actor
    are and see. *)
Lemma proc_step_inv x s s' :
  proc_step x s s' -> proc_inv cfg s ->
  proc_inv cfg s' /\ forall y q, y ∈ PROC s -> pcbs s !! y = Some q -> x <> Some y ->
    pcbs s' !! y = Some q /\ same_view (ram s) (ram s') (Paging.cr3 (adsp q)).
Proof.
  intros Hs Hi. pose proof (pi_sched _ s Hi) as Hk. destruct Hs.
  - destruct (spawn_enter_spec cfg s n program args root fds file limit Hi) as (p & t & r1 & s1 & E & Hi' & Ho & _); [done | done |].
    assert (s1 = s') as -> by congruence. split; [done |]. intros y q Hy Hq _. by apply Ho.
  - destruct (fork_enter_spec cfg s n tf x p Hi) as (s1 & E & Hi' & _ & _ & Ho & Hv); try done.
    assert (s1 = s') as -> by congruence. split; [done |]. intros y q Hy Hq Hne. split; [| by apply (Hv y)].
    rewrite Ho; [done | congruence |]. intros ->. pose proof (ff_pcb _ _ H2). congruence.
  - split; [by apply list_step_inv | by intros].
  - destruct (exec_spec cfg s x p program args file limit Hi) as (tf1 & p1 & s1 & E & Hi' & Ho & _); try done.
    assert (s1 = s') as -> by congruence. split; [done |]. intros y q Hy Hq Hne. apply Ho; [done | congruence | done].
  - destruct (alloc_spec cfg s x p size limit Hi) as (p1 & s1 & E & Hi' & Ho & _); try done.
    assert (s1 = s') as -> by congruence. split; [done |]. intros y q Hy Hq Hne. apply Ho; [done | congruence | done].
  - destruct (back_buffer_proc_spec cfg s x p screen Hi) as (win1 & fs & s1 & E & Hi' & Ho & _); try done.
    assert (s1 = s') as -> by congruence. split; [done |]. intros y q Hy Hq Hne. apply Ho; [done | congruence | done].
  - destruct (store_spec cfg s x p va b m' Hi) as [Hi' Ho]; try done.
    split; [done |]. intros y q Hy Hq Hne. apply Ho; [done | congruence | done].
  - destruct (own_spec s x p f Hi) as [Hi' Epc]; try done. split; [done |]. intros y q Hy Hq Hne.
    rewrite Epc, lookup_insert_ne by congruence. done.
  - destruct (exit_spec cfg s x p st Hi) as (s1 & E & Hi' & E1 & E2 & _); try done.
    assert (s1 = s') as -> by congruence. split; [done |]. intros y q Hy Hq Hne. by rewrite E1, E2.
  - split; [| by intros]. apply kern_curr_inv; [done | by apply block_enter_inv | by apply block_stays; [apply Hk | |] | done].
  - destruct (yield_enter_inv (kern s) Hk H H0) as (k1 & E & Hk1 & _). assert (k1 = k) as -> by congruence.
    split; [| by intros]. apply kern_curr_inv; [done | done | by apply yield_stays; [apply Hk | |] |].
    unfold yield_enter in E. run_inv E. by injection E as <-.
  - split; [| by intros]. apply kern_curr_inv; [done | by apply locked_fold_inv | | exact (unblock_all_curr l (sched_lock (kern s)))].
    by apply locked_unblock_all_stays.
  - split; [by eapply pick_space_spec | by intros].
  - destruct (switch_space_to_spec cfg s next Hi H) as (s1 & E & Hi' & E1 & _ & E2 & _). assert (s1 = s') as -> by congruence.
    split; [done |]. intros y q Hy Hq _. by rewrite E1, E2.
  - split; [| by intros]. apply kern_curr_inv; [done | by eapply tick_enter_inv | by apply tick_stays | by apply tick_enter_curr].
Qed.

Lemma steps_inv s s' : rtc any_step s s' -> proc_inv cfg s -> proc_inv cfg s'.
Proof. induction 1 as [|s s1 s' [x Hx] _ IH]; [done |]. intros Hi. apply IH. by eapply proc_step_inv. Qed.

(** ** Calls as sequences of steps *)

(** A step of process [x], or one that no process makes. *)
Definition step_by (x : Z) s s' : Prop := proc_step (Some x) s s' \/ proc_step None s s'.

Lemma by_steps x s s' : rtc (step_by x) s s' -> rtc any_step s s'.
Proof. apply rtc_subrel. intros s1 s2 [H | H]; by eexists. Qed.

Lemma spawn_steps x s n program args root fds file limit s' :
  proc_inv cfg s -> can_exec cfg s program args file limit -> spawn_fresh s n ->
  spawn_proc cfg n program args root fds s = Ret s' -> rtc (step_by x) s s'.
Proof.
  intros Hi Hce Hfr E.
  destruct (spawn_enter_spec cfg s n program args root fds file limit Hi Hce Hfr)
    as (p & t & r & s1 & E1 & Hi1 & _ & HP & _ & Hk & Hpt & _ & _ & _ & Ht & Hid & _).
  unfold spawn_proc in E. rewrite E1 in E. cbn [obind] in E. injection E as <-.
  eapply rtc_l; [right; by eapply ps_spawn |]. apply rtc_once. right. rewrite <- Hid. apply ps_list.
  split; [done |]. split.
  - rewrite Hk. intros Ha. destruct (core_live _ _ _ _ (inv_core _ (pi_sched _ s Hi)) _ Ha) as (? & ? & _).
    pose proof (sf_tcb _ _ Hfr). congruence.
  - exists (new_pcb n). rewrite HP. split; [apply elem_of_app; right; apply list_elem_of_here | done].
Qed.

Lemma fork_steps s n tf x p r s' :
  proc_inv cfg s -> may_call (kern s) -> curr_proc s = Ret (x, p) -> can_fork s p -> fork_fresh s n ->
  fork cfg n tf s = Ret (r, s') -> rtc (step_by x) s s'.
Proof.
  intros Hi Hm Hcur Hcf Hfr E. destruct (fork_enter_spec cfg s n tf x p Hi Hm Hcur Hcf Hfr)
    as (s1 & E1 & Hi1 & [_ (t & Hk & Hid & Hpt) HP _] & _).
  unfold fork in E. rewrite E1 in E. cbn [obind] in E. injection E as <- <-.
  eapply rtc_l; [left; by eapply ps_fork |]. apply rtc_once. right. rewrite <- Hid. apply ps_list.
  split; [rewrite Hk; apply lookup_insert_eq |]. split.
  - rewrite Hk. intros Ha. destruct (core_live _ _ _ _ (inv_core _ (pi_sched _ s Hi)) _ Ha) as (? & ? & _).
    pose proof (ff_tcb _ _ Hfr). congruence.
  - exists (child_pcb n). rewrite HP. split; [apply elem_of_app; right; apply list_elem_of_here | done].
Qed.

Lemma switch_steps x s s' : proc_inv cfg s -> switch_space s = Ret s' -> rtc (step_by x) s s'.
Proof.
  intros Hi E. unfold switch_space in E. run_inv E. destruct v as [next k].
  destruct (switch_pick_inv (kern s) (pi_sched _ s Hi)) as (next1 & k1 & E1 & _ & _ & _ & _ & _ & Hnext).
  rewrite E0 in E1. injection E1 as <- <-.
  eapply rtc_l; [right; by eapply ps_pick |]. destruct next as [a|]; [| injection E as <-; apply rtc_refl].
  apply rtc_once. right. eapply ps_switch; [apply Hnext | done].
Qed.

(** Blocking: the critical section, then the switch. *)
Lemma block_steps x r s s' :
  proc_inv cfg s -> may_call (kern s) -> (forall st, r <> Terminated st) ->
  switch_space (set_kern (block_enter r (kern s)) s) = Ret s' -> rtc (step_by x) s s'.
Proof.
  intros Hi Hm Hr E. assert (Hs : proc_step None s (set_kern (block_enter r (kern s)) s)) by by apply ps_block.
  eapply rtc_l; [right; exact Hs |]. apply (switch_steps x); [| done]. by apply (proc_step_inv None s).
Qed.

(** ** Waiting for a process that is gone *)
Definition waits_for s (a c z : Z) : Prop :=
  exists t, listed (kern s) a t /\ state t = Blocked (WaitThread c) /\ pcb t = Some z.

(** No process has the number [c], and none will get it. *)
Definition gone s (c : Z) : Prop :=
  c < PID s /\ forall y q, y ∈ PROC s -> pcbs s !! y = Some q -> pid q <> c.

Lemma stays_waits c s s' a z : stays (ended_or_waiting c) (kern s) (kern s') -> waits_for s a c z -> waits_for s' a c z.
Proof.
  intros Hst (t & [Ha Ht] & Hs & Hp). destruct (ev_tcb Hst a t Ht) as (t' & Ht' & (_ & E & _) & Hk & _).
  exists t'. split; [split; [by rewrite (ev_threads Hst) | done] |]. split; [| congruence]. rewrite Hk; [done | done | by right].
Qed.

Lemma alloc_waits s s' addr t a c z :
  proc_inv cfg s -> kern s' = alloc_tcb addr t (kern s) -> store (kern s) !! addr = None -> waits_for s a c z -> waits_for s' a c z.
Proof.
  intros Hi Hk Hn (t0 & Hl & Hw). exists t0. split; [| done]. rewrite Hk. apply alloc_tcb_listed; [done | apply Hi | done].
Qed.

Lemma gone_keep s s' c :
  gone s c -> PID s <= PID s' -> (forall y, y ∈ PROC s' -> y ∈ PROC s) ->
  (forall y q', y ∈ PROC s -> pcbs s' !! y = Some q' -> exists q, pcbs s !! y = Some q /\ pid q' = pid q) -> gone s' c.
Proof.
  intros [Hc Hg] HP Hsub Hpc. split; [lia |]. intros y q' Hy Hq'. destruct (Hpc y q' (Hsub y Hy) Hq') as (q & Hq & ->).
  apply (Hg y q); auto.
Qed.

Lemma gone_same s s' c : gone s c -> PID s' = PID s -> PROC s' = PROC s -> pcbs s' = pcbs s -> gone s' c.
Proof. intros [Hc Hg] E1 E2 E3. split; rewrite ?E1, ?E2, ?E3; done. Qed.

Lemma gone_add s s' c x p :
  gone s c -> PID s' = PID s + 1 -> PROC s' = PROC s ++ [x] -> pcbs s' !! x = Some p -> pid p = PID s ->
  (forall y q', y ∈ PROC s -> pcbs s' !! y = Some q' -> exists q, pcbs s !! y = Some q /\ pid q' = pid q) -> gone s' c.
Proof.
  intros [Hc Hg] HPID HP Hx Hp Hpc. split; [lia |]. intros y q'. rewrite HP, elem_of_app, list_elem_of_singleton.
  intros [Hy | ->] Hq'; [destruct (Hpc y q' Hy Hq') as (q & Hq & ->); eauto |]. assert (q' = p) as -> by congruence. lia.
Qed.

(** Blocks of the other processes do not change, the caller's number neither. *)
Lemma pids_same s s' x p p' :
  proc_inv cfg s -> others_same s s' x -> pcbs s !! x = Some p -> pcbs s' !! x = Some p' -> pid p' = pid p ->
  forall y q', y ∈ PROC s -> pcbs s' !! y = Some q' -> exists q, pcbs s !! y = Some q /\ pid q' = pid q.
Proof.
  intros Hi Ho Hp Hp' Hpid y q' Hy Hq'. destruct (decide (y = x)) as [-> | Hne].
  - exists p. split; [done |]. congruence.
  - destruct (pi_proc _ s Hi y Hy) as (q & _ & _ & Hq & _). destruct (Ho y q Hy Hne Hq) as [Hq2 _].
    exists q. split; [done |]. congruence.
Qed.

(** A thread that waits for process [c] goes on waiting unless the step takes
    that process out of the table. *)
Lemma step_keeps_waiting x s s' a c z :
  proc_step x s s' -> proc_inv cfg s ->
  (forall y q, x = Some y -> y ∈ PROC s -> pcbs s !! y = Some q -> pid q = c -> y ∈ PROC s') ->
  waits_for s a c z -> waits_for s' a c z.
Proof.
  intros Hs Hi Hkeep Hw. pose proof (pi_sched _ s Hi) as Hks. pose proof (inv_curr _ Hks) as Hkn. destruct Hs; try done.
  - destruct (spawn_enter_spec cfg s n program args root fds file limit Hi) as (p & t & r1 & s1 & E & _ & _ & _ & _ & Hk & _); [done | done |].
    assert (s1 = s') as -> by congruence. apply (alloc_waits s s' (new_tcb n) t); try done; apply H0.
  - destruct (fork_enter_spec cfg s n tf x p Hi) as (s1 & E & _ & [_ (t & Hk & _) _ _] & _); try done.
    assert (s1 = s') as -> by congruence. apply (alloc_waits s s' (child_tcb n) t); try done; apply H2.
  - destruct Hw as (t0 & Hl & Hw). exists t0. split; [| done]. apply (list_thread_listed a0 (id t) t); [apply H | by left].
  - destruct (exec_spec cfg s x p program args file limit Hi) as (tf1 & p1 & s1 & E & _ & _ & _ & _ & _ & _ & Hk & _); try done.
    assert (s1 = s') as -> by congruence. destruct Hw as (t & [Ha Ht] & Hst & Hz). exists t. split; [| done]. rewrite Hk.
    split; [done |]. cbn. rewrite lookup_alter_ne; [done |]. intros <-. rewrite (H t Ha Ht) in Hst. done.
  - destruct (alloc_spec cfg s x p size limit Hi) as (p1 & s1 & E & _ & _ & _ & _ & _ & Hk & _); try done.
    assert (s1 = s') as -> by congruence. unfold waits_for. by rewrite Hk.
  - destruct (back_buffer_proc_spec cfg s x p screen Hi) as (win1 & fs & s1 & E & _ & _ & _ & _ & _ & _ & Hk & _); try done.
    assert (s1 = s') as -> by congruence. unfold waits_for. by rewrite Hk.
  - destruct (exit_spec cfg s x p st Hi) as (s1 & E & _ & _ & _ & _ & Hth & HP & _ & _ & Hafter); try done.
    assert (s1 = s') as -> by congruence. destruct (curr_proc_caller cfg s x p Hi H H0) as (t0 & Hca).
    destruct Hw as (t & [Ha Ht] & Hst & Hz). exists t. split; [| done]. split; [by rewrite Hth |].
    specialize (Hafter a t (conj Ha Ht)). unfold thread_after in Hafter. rewrite decide_False in Hafter.
    + apply Hafter; [by apply (pi_pid _ s Hi a t z) |]. intros ->. rewrite (H t Ha Ht) in Hst. done.
    + intros [_ E2]. assert (Hx : x ∈ PROC s') by (apply (Hkeep x p); [done | apply Hca | apply Hca | congruence]).
      apply HP in Hx. by destruct Hx.
  - apply (stays_waits c s); [by apply block_stays | done].
  - apply (stays_waits c s); [by apply yield_stays | done].
  - destruct Hw as (t & [Ha Ht] & Hst & Hz). exists t. split; [| done]. split.
    + cbn [kern set_kern]. by rewrite (ev_threads (locked_unblock_all_stays s l Hi H)).
    + apply (unblock_all_other l (sched_lock (kern s))); [done |]. intros Hin. rewrite Forall_forall in H.
      destruct (H (id t) Hin) as [Hlt | Hn]; [pose proof (pi_pid _ s Hi a t z Ht Hz); lia |].
      apply (Hn a t Ha Ht eq_refl). right. eauto.
  - apply (stays_waits c s); [| done]. by eapply switch_pick_stays.
  - destruct (switch_space_to_spec cfg s next Hi H) as (s1 & E & _ & _ & _ & _ & _ & _ & Hk). assert (s1 = s') as -> by congruence.
    apply (stays_waits c s); [| done]. rewrite Hk. apply switch_to_stays.
  - apply (stays_waits c s); [| done]. by apply tick_stays.
Qed.

Lemma step_gone x s s' c : proc_step x s s' -> proc_inv cfg s -> gone s c -> gone s' c.
Proof.
  intros Hs Hi Hg. destruct Hs; try done.
  - destruct (spawn_enter_spec cfg s n program args root fds file limit Hi) as (p & t & r1 & s1 & E & _ & Ho & HP & HPID & _ & _ & Hx & Hpp & _); [done | done |].
    assert (s1 = s') as -> by congruence. apply (gone_add s s' c (new_pcb n) p); try done; [congruence |].
    intros y q' Hy Hq'. destruct (pi_proc _ s Hi y Hy) as (q & _ & _ & Hq & _). destruct (Ho y q Hy Hq) as [? _]. exists q. split; [done | congruence].
  - destruct (fork_enter_spec cfg s n tf x p Hi) as (s1 & E & _ & [(c0 & Hc0 & Hpid & _) _ HP HPID] & Hx & Ho & _); try done.
    assert (s1 = s') as -> by congruence. apply (gone_add s s' c (child_pcb n) c0); try done. intros y q' Hy Hq'.
    destruct (curr_proc_caller cfg s x p Hi H H0) as (t0 & Hca). destruct (decide (y = x)) as [-> | Hne].
    + exists p. split; [apply Hca |]. assert (q' = set_children (children p ++ [PID s]) p) as -> by congruence. done.
    + exists q'. split; [| done]. rewrite <- Ho; [done | done |]. intros ->.
      destruct (pi_proc _ s Hi _ Hy) as (q & _ & _ & Hq & _). pose proof (ff_pcb _ _ H2). congruence.
  - destruct (exec_spec cfg s x p program args file limit Hi) as (tf1 & p1 & s1 & E & _ & Ho & Hx & HP & HPID & _ & _ & Hf & _); try done.
    assert (s1 = s') as -> by congruence. destruct (curr_proc_caller cfg s x p Hi H H0) as (t0 & Hca).
    apply (gone_keep s); [done | lia | by rewrite HP |]. apply (pids_same s s' x p p1); try done; [apply Hca | congruence].
  - destruct (alloc_spec cfg s x p size limit Hi) as (p1 & s1 & E & _ & Ho & Hx & Hp1 & _ & _ & HP & HPID); try done.
    assert (s1 = s') as -> by congruence. destruct (curr_proc_caller cfg s x p Hi H H0) as (t0 & Hca).
    apply (gone_keep s); [done | lia | by rewrite HP |]. apply (pids_same s s' x p p1); try done; [apply Hca | by subst p1].
  - destruct (back_buffer_proc_spec cfg s x p screen Hi) as (win1 & fs & s1 & E & _ & Ho & Hx & _ & _ & _ & _ & HP & HPID); try done.
    assert (s1 = s') as -> by congruence. destruct (curr_proc_caller cfg s x p Hi H H0) as (t0 & Hca).
    apply (gone_keep s); [done | lia | by rewrite HP |]. eapply (pids_same s s' x p); try done. apply Hca.
  - destruct (own_spec s x p f Hi) as [_ Epc]; try done. destruct (curr_proc_caller cfg s x p Hi H H0) as (t0 & Hca).
    apply (gone_keep s); [done | done | done |]. intros y q' Hy. rewrite Epc. destruct (decide (y = x)) as [-> | Hne].
    + rewrite lookup_insert_eq. intros [= <-]. exists p. split; [apply Hca |]. by injection H1 as ->.
    + rewrite lookup_insert_ne by done. intros Hq'. by exists q'.
  - destruct (exit_spec cfg s x p st Hi) as (s1 & E & _ & E1 & _ & HPID & _ & HP & _); try done.
    assert (s1 = s') as -> by congruence. apply (gone_keep s); [done | lia | by intros y [? _]%HP |]. rewrite E1. intros y q' _ Hq'. by exists q'.
  - destruct (switch_space_to_spec cfg s next Hi H) as (s1 & E & _ & E1 & E2 & _ & _ & E3 & _). assert (s1 = s') as -> by congruence. by apply (gone_same s).
Qed.

Lemma step_waits x s s' a c z :
  proc_step x s s' -> proc_inv cfg s -> gone s c -> waits_for s a c z -> gone s' c /\ waits_for s' a c z.
Proof.
  intros Hs Hi Hg Hw. split; [by eapply step_gone |]. apply (step_keeps_waiting x s); try done.
  intros y q _ Hy Hq Hc. by destruct (proj2 Hg y q Hy Hq).
Qed.

(** A thread that waits for a process that is gone waits for ever. *)
Lemma gone_waits s a c z :
  proc_inv cfg s -> gone s c -> waits_for s a c z ->
  forall s'', rtc any_step s s'' -> exists t, listed (kern s'') a t /\ state t = Blocked (WaitThread c).
Proof.
  intros Hi Hg Hw s'' Hr. induction Hr as [s1 | s1 s2 s3 [y Hy] _ IH].
  - destruct Hw as (t1 & ? & ? & _). eauto.
  - destruct (step_waits y s1 s2 _ _ _ Hy Hi Hg Hw). apply IH; [by eapply proc_step_inv | done | done].
Qed.

(** ** The theorems *)

(** The machine before the first process. *)
Record proc_boot s : Prop := {
  pb_sched : sched_inv (kern s);
  pb_procs : PROC s = [] /\ PID s = 65536;
  pb_threads a t : store (kern s) !! a = Some t -> pcb t = None /\ id t < 65536 /\ ~ terminated t;
  pb_mem : alloc_wf (ALLOC s) /\ mem_sized (ram s) /\ is_Some (ram s !! page_table_address cfg) /\
    taken (ALLOC s) (page_table_address cfg);
  pb_cr3 t : store (kern s) !! CURR_THREAD_PTR (kern s) = Some t -> CR3 s = Thread.cr3 t
}.

Lemma proc_boot_inv s : proc_boot s -> proc_inv cfg s.
Proof.
  intros [Hs [HP HPID] Ht (Hwf & Hsz & Hk & Hkt) Hc].
  assert (Hno : forall x, x ∉ PROC s) by (intros x; rewrite HP; apply not_elem_of_nil).
  split; [done | | rewrite HP; constructor | | | | | | | | lia | | done].
  - split; try done.
    + intros x d [Hx _]%live_space_Some. by destruct (Hno x).
    + intros x y d d' f [Hx _]%live_space_Some. by destruct (Hno x).
    + intros x d [Hx _]%live_space_Some. by destruct (Hno x).
  - intros t Hm. by apply (Ht _ t Hm).
  - intros x Hx. by destruct (Hno x).
  - intros a t x Ha Hp. destruct (Ht a t Ha). congruence.
  - intros a b ta tb x y Ha _ Hp. destruct (Ht a ta Ha). congruence.
  - intros a t x Ha Hp. destruct (Ht a t Ha). congruence.
  - intros a t [_ Ha] _. by destruct (Ht a t Ha) as (_ & ? & _).
  - intros x p i Hx. by destruct (Hno x).
  - intros a t [_ Ha] Hte. by destruct (Ht a t Ha) as (_ & _ & ?).
Qed.

Lemma reachable_proc_inv s0 s : proc_boot s0 -> rtc any_step s0 s -> proc_inv cfg s.
Proof. intros Hb Hr. by apply (steps_inv s0), proc_boot_inv. Qed.


(** [C5] [fork] returns the child's number to the parent and leaves a child
    that is its copy: a new process at the end of the table, child of the
    caller, with its name, arguments, directory and the same open files, whose
    thread is queued and, when first switched to, returns through
    [fork_start_hook] with the parent's registers and 0 in [rax]; it reads at
    every address what the parent reads, in frames of its own, and the parent
    reads what it read. *)
Theorem fork_duplicates s n tf x p :
  proc_inv cfg s -> may_call (kern s) -> curr_proc s = Ret (x, p) -> can_fork s p -> fork_fresh s n ->
  exists c t r s', fork cfg n tf s = Ret (PID s, s') /\ proc_inv cfg s' /\
    PROC s' = PROC s ++ [child_pcb n] /\ pcbs s' !! child_pcb n = Some c /\
    (pid c, parent c, children c, fd c, cwd c, pname c, argv c) = (PID s, Some (pid p), [], fd p, cwd p, pname p, argv p) /\
    pcbs s' !! x = Some (set_children (children p ++ [PID s]) p) /\
    store (kern s') !! child_tcb n = Some t /\ ready_queue (kern s') = ready_queue (kern s) ++ [PID s] /\
    switch_pops (stack_from (child_stack n) t) = Some r /\ rs_return r = fork_hook n /\
    fork_start_hook (rs_stack r) = Some (set_rax 0 tf) /\
    (forall va, user_addr va ->
      user_byte (ram s') (Paging.cr3 (adsp c)) va = user_byte (ram s) (Paging.cr3 (adsp p)) va /\
      user_byte (ram s') (Paging.cr3 (adsp p)) va = user_byte (ram s) (Paging.cr3 (adsp p)) va) /\
    (forall f, owns (ram s') (Paging.cr3 (adsp c)) f -> ~ owns (ram s') (Paging.cr3 (adsp p)) f).
Proof.
  intros Hi Hm Hcur Hav Hfr. destruct (curr_proc_caller cfg s x p Hi Hm Hcur) as (t0 & Hca).
  destruct (fork_spec cfg s n tf x p Hi Hm Hcur Hav Hfr)
    as (s' & E & Hi' & [(c & Hc & H1 & H2 & H3 & H4 & H5 & H6 & H7 & Hfs & t & r & Ht & _ & _ & Hr1 & Hr2 & Hr3)
         (tk & Hk & Hidk & _) HP HPID] & Hx & Ho & Hv).
  exists c, t, r, s'. assert (Hok : space_ok (ram s) (ALLOC s) (adsp p)).
  { apply (is_space _ _ _ _ (pi_mem _ s Hi) x). apply live_space_Some. split; [apply Hca |]. exists p. split; [apply Hca | done]. }
  split_and!; try done; [congruence | rewrite Hk; cbn; by rewrite Hidk | |].
  - intros va Hva. split; [by eapply forked_user_byte |].
    apply (view_user_byte _ _ (ALLOC s)); [done | | done]. apply (Hv x p); apply Hca.
  - intros f. apply (is_disj _ _ _ _ (pi_mem _ s' Hi') (child_pcb n) x (adsp c) (adsp p) f).
    + apply live_space_Some. rewrite HP. split; [apply elem_of_app; right; apply list_elem_of_here | by exists c].
    + apply live_space_Some. rewrite HP. split; [apply elem_of_app; left; apply Hca | by eexists].
    + intros <-. pose proof (ff_pcb _ _ Hfr). pose proof (ca_pcb _ _ _ _ Hca). congruence.
Qed.

(** [exec] replaces the program and keeps the process: the process keeps
    its number, parent, children, directory and open files; the page table in use
    is that of a new address space with every byte of the program's segments in
    place, a heap behind it and the arguments on the stack; the trap frame
    enters user mode at the entry point with that stack. *)
Theorem exec_runs_program s x p program args file limit :
  proc_inv cfg s -> may_call (kern s) -> curr_proc s = Ret (x, p) -> can_exec cfg s program args file limit ->
  exists tf p' s', exec cfg program args s = Ret (tf, s') /\ proc_inv cfg s' /\
    pcbs s' !! x = Some p' /\ PROC s' = PROC s /\
    (pid p', pname p', argv p', cwd p', fd p', parent p', children p') =
      (pid p, program, args, cwd p, fd p, parent p, children p) /\
    (tf_rip tf, tf_cs tf, tf_rflags tf, tf_ss tf) = (e_entry file, user_code_selector cfg, 514, user_data_selector cfg) /\
    CR3 s' = Paging.cr3 (adsp p') /\
    (forall seg, seg ∈ segments file -> p_type seg = PT_LOAD -> seg_loaded (ram s') (CR3 s') seg) /\
    args_at (ram s') (CR3 s') (tf_rsp tf) (program :: args) /\
    heap_ok (ram s') (adsp p') limit.
Proof.
  intros Hi Hm Hcur Hce.
  destruct (exec_spec cfg s x p program args file limit Hi Hm Hcur Hce)
    as (tf & p' & s' & E & Hi' & _ & Hx & HP & _ & HC & _ & Hp & Htf & [_ _ Hseg Hargs [_ Hheap]]).
  exists tf, p', s'. rewrite HC. by split_and!.
Qed.

(** [sys_exit] takes the process out of the table and stops its thread for
    good; the thread of the parent is made ready and queued exactly when it waits
    for this child; no thread of another process changes. *)
Theorem exit_wakes_parent s x p st :
  proc_inv cfg s -> may_call (kern s) -> curr_proc s = Ret (x, p) ->
  exists s', exit_enter st s = Ret s' /\ proc_inv cfg s' /\
    (forall y, y ∈ PROC s' <-> y ∈ PROC s /\ y <> x) /\
    (exists t, store (kern s') !! CURR_THREAD_PTR (kern s) = Some t /\ state t = Blocked (Terminated (wrap_u 8 st))) /\
    (forall a t, listed (kern s) a t -> 65536 <= id t -> a <> CURR_THREAD_PTR (kern s) ->
      thread_after (parent p) (pid p) (kern s') a t) /\
    exists s'', sys_exit st s = Ret s'' /\ proc_inv cfg s'' /\ may_call (kern s'').
Proof.
  intros Hi Hm Hcur. destruct (exit_spec cfg s x p st Hi Hm Hcur) as (s' & E & Hi' & _ & _ & _ & _ & HP & Hneed & Ht & Ha).
  exists s'. split_and!; try done. destruct (switch_space_spec cfg s' Hi') as (s'' & E2 & Hi2 & _ & _ & _ & _ & Hmc & _).
  exists s''. unfold sys_exit. rewrite E. cbn [obind]. split; [done |]. split; [done |]. by apply Hmc.
Qed.

(** [C8] A process that waits for a child that has exited waits for ever: the
    number stays in [children], so [wait_pid] blocks, and in no state reached
    from there is the waiting thread anything but blocked. *)
Theorem wait_for_dead_child s x p child s' :
  proc_inv cfg s -> may_call (kern s) -> curr_proc s = Ret (x, p) ->
  child ∈ children p -> gone s child -> wait_pid child s = Ret s' ->
  forall s'', rtc any_step s' s'' ->
    exists t, listed (kern s'') (CURR_THREAD_PTR (kern s)) t /\ state t = Blocked (WaitThread child).
Proof.
  intros Hi Hm Hcur Hc Hg E. destruct (curr_proc_caller cfg s x p Hi Hm Hcur) as (t & Hca).
  pose proof (wait_spec cfg s x p t child Hi Hm Hcur Hca) as Hw. rewrite decide_True in Hw by done.
  destruct Hw as (s1 & E1 & Hi1 & HP & Hpc & _ & HPID & _ & t' & Hl & Hst & (_ & Hpt & _)). assert (s1 = s') as -> by congruence.
  apply (gone_waits s' _ child x); [done | by apply (gone_same s) |].
  exists t'. split; [done |]. split; [done |]. rewrite Hpt. apply Hca.
Qed.
End ProcSys.

(** ** Witnesses: the kernel boots, spawns a program, and its main thread
    sleeps, so that the program's thread runs. *)
Module ProcWitness.
#[local] Existing Instance align_down_frames.
#[local] Existing Instance align_down_frames_laws.
Import Memory.MemoryWitness PagingMap.PagingWitness Elf.ElfWitness.
#[local] Existing Instance page_api.
#[local] Existing Instance UserMem.UserMemWitness.addr_laws.
#[local] Existing Instance table_slab.

Abbreviation Sys := (System BumpAllocator (list (option Z))) (only parsing).

Definition cfg0 : Config :=
  {| page_table_address := 4096; SHELL_ELF := tiny; XIANGQI_ELF := tiny; PRINTMOUSEMOVEMENT_ELF := tiny;
     user_code_selector := 43; user_data_selector := 51 |}.
Definition s0 : Sys := mkSystem (boot 100 0 4096) ∅ [] 65536 mem0 pc 4096.
Definition spawn0 : SpawnAddrs :=
  {| new_pcb := 1000; new_tcb := 2000;
     new_thread := {| stack_base := 10000000; task_startup_hook := 7; active_cr3 := 4096 |}; process_hook := 8 |}.
Definition fork0 : ForkAddrs := {| child_pcb := 1001; child_tcb := 2001; child_stack := 20000000; fork_hook := 9 |}.
Definition arg0 : list (list Z) := [[45; 97]].

Definition ret_or {T : Type} (d : T) (o : outcome T) : T := match o with Ret v => v | _ => d end.

(** The program with its descriptor table [fds] is spawned, the main thread
    blocks, the program runs. *)
Definition spawned (fds : list (option Z)) : Sys := ret_or s0 (spawn_proc cfg0 spawn0 name_shell arg0 500 fds s0).
Definition blocked (fds : list (option Z)) : Sys := set_kern (block_enter Paused (kern (spawned fds))) (spawned fds).
Definition running (fds : list (option Z)) : Sys := ret_or (blocked fds) (switch_space (blocked fds)).

Lemma s0_boot : proc_boot cfg0 s0.
Proof.
  split; [apply boot_inv | done | | |].
  - intros a t Ht. cbn in Ht. apply lookup_singleton_Some in Ht as [<- <-]. split; [done |]. split; [cbn; lia |].
    by intros [st [=]].
  - split; [exact pc_wf |]. split; [exact mem0_sized |]. split; [by eexists |]. vm_compute. reflexivity.
  - intros t Ht. cbn in Ht. apply lookup_singleton_Some in Ht as [_ <-]. done.
Qed.

Lemma tiny_can_exec (s : Sys) args :
  avail (65 + 4 * load_pages_needed (segments tiny)) (ALLOC s) -> stack_need (name_shell :: args) <= 4096 ->
  Forall (Forall is_byte) args -> Forall (fun x => utf8_valid x = true) args ->
  can_exec cfg0 s name_shell args tiny 8388608.
Proof.
  intros Ha Hn Hb Hu. split; [done | exact tiny_ok | vm_compute; congruence | split; vm_compute; congruence | done | | done | done].
  constructor; [| done]. repeat (constructor; [split; vm_compute; congruence |]). constructor.
Qed.

Lemma arg0_bytes : Forall (Forall is_byte) arg0.
Proof. repeat (constructor; [repeat (constructor; [split; vm_compute; congruence |]); constructor |]). constructor. Qed.

Lemma s0_can_exec : can_exec cfg0 s0 name_shell arg0 tiny 8388608.
Proof.
  apply tiny_can_exec; [apply can_allocate_avail; vm_compute; reflexivity | vm_compute; discriminate | exact arg0_bytes |].
  repeat constructor.
Qed.

Lemma spawned_steps fds : rtc (any_step cfg0) s0 (spawned fds).
Proof.
  assert (Hf : spawn_fresh s0 spawn0) by (split; [cbn; lia | done | done]).
  destruct (spawn_proc_spec cfg0 s0 spawn0 name_shell arg0 500 fds tiny 8388608 (proc_boot_inv _ _ s0_boot) s0_can_exec Hf)
    as (_ & _ & _ & s' & E & _).
  unfold spawned. rewrite E. exact (by_steps cfg0 0 s0 s' (spawn_steps cfg0 0 s0 spawn0 name_shell arg0 500 fds tiny 8388608 s'
    (proc_boot_inv _ _ s0_boot) s0_can_exec Hf E)).
Qed.

Lemma blocked_step fds : any_step cfg0 (spawned fds) (blocked fds).
Proof.
  exists None. unfold blocked. refine (ps_block cfg0 Paused (spawned fds) _ _); [| intros st Es; discriminate Es]. intros t Hin.
  assert (E : CURR_THREAD_PTR (kern (spawned fds)) = 100) by (vm_compute; reflexivity). rewrite E in Hin.
  assert (E2 : threads (kern (spawned fds)) = [2000]) by (vm_compute; reflexivity). rewrite E2 in Hin.
  apply list_elem_of_singleton in Hin. discriminate Hin.
Qed.

Lemma blocked_reached fds : rtc (any_step cfg0) s0 (blocked fds).
Proof. exact (rtc_r _ _ _ (spawned_steps fds) (blocked_step fds)). Qed.

Lemma running_reached fds : rtc (any_step cfg0) s0 (running fds).
Proof.
  etransitivity; [exact (blocked_reached fds) |].
  pose proof (reachable_proc_inv _ _ _ s0_boot (blocked_reached fds)) as Hi.
  destruct (switch_space_spec cfg0 (blocked fds) Hi) as (s' & E & _).
  unfold running. rewrite E. exact (by_steps cfg0 0 _ _ (switch_steps cfg0 0 (blocked fds) s' Hi E)).
Qed.

Lemma running_inv fds : proc_inv cfg0 (running fds).
Proof. exact (reachable_proc_inv _ _ _ s0_boot (running_reached fds)). Qed.

Lemma running_may_call fds : may_call (kern (running fds)).
Proof. apply curr_runs_may_call. vm_compute. reflexivity. Qed.

Definition s3 : Sys := running [].
Lemma s3_reached : rtc (any_step cfg0) s0 s3.
Proof. exact (running_reached []). Qed.
Lemma s3_inv : proc_inv cfg0 s3.
Proof. exact (running_inv []). Qed.
Lemma s3_may_call : may_call (kern s3).
Proof. exact (running_may_call []). Qed.

(** The caller in a state, read off by evaluation. *)
Definition pcb_or (s : Sys) : ProcessControlBlock (list (option Z)) :=
  match curr_proc s with Ret (_, p) => p | _ => mkPCB 0 [] [] 0 [] space1 None [] end.
Definition p3 : ProcessControlBlock (list (option Z)) := pcb_or s3.

Lemma s3_proc : curr_proc s3 = Ret (1000, p3).
Proof. vm_compute. reflexivity. Qed.
Lemma s3_can_fork : can_fork s3 p3.
Proof. apply can_allocate_avail. vm_compute. reflexivity. Qed.
Lemma s3_fork_fresh : fork_fresh s3 fork0.
Proof. split; vm_compute; reflexivity. Qed.


Lemma fork_duplicates_witness :
  exists c t r s', fork cfg0 fork0 zero_out s3 = Ret (PID s3, s') /\ proc_inv cfg0 s' /\
    PROC s' = PROC s3 ++ [1001] /\ pcbs s' !! 1001 = Some c /\
    (pid c, parent c, children c, fd c, cwd c, pname c, argv c) =
      (PID s3, Some (pid p3), [], fd p3, cwd p3, pname p3, argv p3) /\
    pcbs s' !! 1000 = Some (set_children (children p3 ++ [PID s3]) p3) /\
    store (kern s') !! 2001 = Some t /\ ready_queue (kern s') = ready_queue (kern s3) ++ [PID s3] /\
    switch_pops (stack_from 20000000 t) = Some r /\ rs_return r = 9 /\
    fork_start_hook (rs_stack r) = Some (set_rax 0 zero_out) /\
    (forall va, user_addr va ->
      user_byte (ram s') (Paging.cr3 (adsp c)) va = user_byte (ram s3) (Paging.cr3 (adsp p3)) va /\
      user_byte (ram s') (Paging.cr3 (adsp p3)) va = user_byte (ram s3) (Paging.cr3 (adsp p3)) va) /\
    (forall f, owns (ram s') (Paging.cr3 (adsp c)) f -> ~ owns (ram s') (Paging.cr3 (adsp p3)) f).
Proof.
  exact (fork_duplicates cfg0 s3 fork0 zero_out 1000 p3 s3_inv s3_may_call s3_proc s3_can_fork s3_fork_fresh).
Defined.

Lemma s3_can_exec : can_exec cfg0 s3 name_shell arg0 tiny 8388608.
Proof.
  apply tiny_can_exec; [apply can_allocate_avail; vm_compute; reflexivity | vm_compute; discriminate | exact arg0_bytes |].
  repeat constructor.
Qed.

Lemma exec_runs_program_witness :
  exists tf p' s', exec cfg0 name_shell arg0 s3 = Ret (tf, s') /\ proc_inv cfg0 s' /\
    pcbs s' !! 1000 = Some p' /\ PROC s' = PROC s3 /\
    (pid p', pname p', argv p', cwd p', fd p', parent p', children p') =
      (pid p3, name_shell, arg0, cwd p3, fd p3, parent p3, children p3) /\
    (tf_rip tf, tf_cs tf, tf_rflags tf, tf_ss tf) = (4194305, 43, 514, 51) /\
    CR3 s' = Paging.cr3 (adsp p') /\
    (forall seg, seg ∈ segments tiny -> p_type seg = PT_LOAD -> seg_loaded (ram s') (CR3 s') seg) /\
    args_at (ram s') (CR3 s') (tf_rsp tf) (name_shell :: arg0) /\
    heap_ok (ram s') (adsp p') 8388608.
Proof.
  exact (exec_runs_program cfg0 s3 1000 p3 name_shell arg0 tiny 8388608 s3_inv s3_may_call s3_proc s3_can_exec).
Defined.

(** The child of the process runs. *)
Definition s4 : Sys := ret_or s3 (let! '(_, s) := fork cfg0 fork0 zero_out s3 in Ret s).
Definition s5 : Sys := set_kern (ret_or (kern s4) (yield_enter (kern s4))) s4.
Definition s6 : Sys := ret_or s5 (switch_space s5).

Lemma s4_inv : fork cfg0 fork0 zero_out s3 = Ret (PID s3, s4) /\ proc_inv cfg0 s4.
Proof.
  destruct (fork_spec cfg0 s3 fork0 zero_out 1000 p3 s3_inv s3_may_call s3_proc s3_can_fork s3_fork_fresh)
    as (s' & E & Hi & _). unfold s4. rewrite E. split; [reflexivity | exact Hi].
Qed.
Lemma s4_reached : rtc (any_step cfg0) s0 s4.
Proof.
  etransitivity; [exact s3_reached |].
  exact (by_steps cfg0 1000 _ _ (fork_steps cfg0 s3 fork0 zero_out 1000 p3 (PID s3) s4 s3_inv s3_may_call s3_proc s3_can_fork
    s3_fork_fresh (proj1 s4_inv))).
Qed.
Lemma s4_curr : CURR_THREAD_PTR (kern s4) ∈ threads (kern s4).
Proof. apply (bool_decide_unpack _). vm_compute. exact I. Qed.
Lemma s4_may_call : may_call (kern s4).
Proof. apply curr_runs_may_call. vm_compute. reflexivity. Qed.

Lemma s5_step : any_step cfg0 s4 s5.
Proof.
  destruct (yield_enter_inv (kern s4) (pi_sched _ _ (proj2 s4_inv)) s4_may_call s4_curr) as (k & E & _).
  exists None. unfold s5. rewrite E. apply ps_yield; [exact s4_may_call | exact s4_curr | exact E].
Qed.
Lemma s5_reached : rtc (any_step cfg0) s0 s5.
Proof. eapply rtc_r; [exact s4_reached | exact s5_step]. Qed.
Lemma s6_from_s5 : rtc (any_step cfg0) s5 s6.
Proof.
  pose proof (reachable_proc_inv _ _ _ s0_boot s5_reached) as Hi.
  destruct (switch_space_spec cfg0 s5 Hi) as (s' & E & _).
  unfold s6. rewrite E. exact (by_steps cfg0 0 _ _ (switch_steps cfg0 0 s5 s' Hi E)).
Qed.
Lemma s6_reached : rtc (any_step cfg0) s0 s6.
Proof. etransitivity; [exact s5_reached | exact s6_from_s5]. Qed.
Lemma s6_inv : proc_inv cfg0 s6.
Proof. exact (reachable_proc_inv _ _ _ s0_boot s6_reached). Qed.
Lemma s6_may_call : may_call (kern s6).
Proof. apply curr_runs_may_call. vm_compute. reflexivity. Qed.
Definition p6 : ProcessControlBlock (list (option Z)) := pcb_or s6.
Lemma s6_proc : curr_proc s6 = Ret (1001, p6).
Proof. vm_compute. reflexivity. Qed.

Lemma exit_wakes_parent_witness :
  exists s', exit_enter 3 s6 = Ret s' /\ proc_inv cfg0 s' /\
    (forall y, y ∈ PROC s' <-> y ∈ PROC s6 /\ y <> 1001) /\
    (exists t, store (kern s') !! CURR_THREAD_PTR (kern s6) = Some t /\ state t = Blocked (Terminated (wrap_u 8 3))) /\
    (forall a t, listed (kern s6) a t -> 65536 <= id t -> a <> CURR_THREAD_PTR (kern s6) ->
      thread_after (parent p6) (pid p6) (kern s') a t) /\
    exists s'', sys_exit 3 s6 = Ret s'' /\ proc_inv cfg0 s'' /\ may_call (kern s'').
Proof. exact (exit_wakes_parent cfg0 s6 1001 p6 3 s6_inv s6_may_call s6_proc). Defined.

(** The child has exited and the parent runs. *)
Definition s7 : Sys := ret_or s6 (exit_enter 0 s6).
Definition s8 : Sys := ret_or s7 (switch_space s7).

Lemma s7_inv : proc_inv cfg0 s7.
Proof.
  destruct (exit_spec cfg0 s6 1001 p6 0 s6_inv s6_may_call s6_proc) as (s' & E & Hi & _). unfold s7. rewrite E. exact Hi.
Qed.
Lemma s8_inv : proc_inv cfg0 s8.
Proof. destruct (switch_space_spec cfg0 s7 s7_inv) as (s' & E & Hi & _). unfold s8. rewrite E. exact Hi. Qed.
Lemma s8_from_s4 : rtc (any_step cfg0) s4 s8.
Proof.
  eapply rtc_l; [exact s5_step |]. etransitivity; [exact s6_from_s5 |].
  destruct (exit_spec cfg0 s6 1001 p6 0 s6_inv s6_may_call s6_proc) as (s' & E & _).
  assert (Hs : any_step cfg0 s6 s7).
  { exists (Some 1001). unfold s7. rewrite E. exact (ps_exit cfg0 1001 p6 0 s6 s' s6_may_call s6_proc E). }
  eapply rtc_l; [exact Hs |]. destruct (switch_space_spec cfg0 s7 s7_inv) as (s'' & E2 & _).
  unfold s8. rewrite E2. exact (by_steps cfg0 0 _ _ (switch_steps cfg0 0 s7 s'' s7_inv E2)).
Qed.
Lemma s8_may_call : may_call (kern s8).
Proof. apply curr_runs_may_call. vm_compute. reflexivity. Qed.
Definition p8 : ProcessControlBlock (list (option Z)) := pcb_or s8.
Lemma s8_proc : curr_proc s8 = Ret (1000, p8).
Proof. vm_compute. reflexivity. Qed.

Lemma s8_gone : gone s8 65537.
Proof.
  split; [vm_compute; reflexivity |]. assert (E : PROC s8 = [1000]) by (vm_compute; reflexivity).
  intros y q Hy Hq. rewrite E in Hy. apply list_elem_of_singleton in Hy as ->.
  assert (E2 : pid <$> pcbs s8 !! 1000 = Some 65536) by (vm_compute; reflexivity). rewrite Hq in E2.
  injection E2 as ->. discriminate.
Qed.

Lemma wait_for_dead_child_witness :
  exists s', wait_pid 65537 s8 = Ret s' /\ forall s'', rtc (any_step cfg0) s' s'' ->
    exists t, listed (kern s'') (CURR_THREAD_PTR (kern s8)) t /\ state t = Blocked (WaitThread 65537).
Proof.
  assert (Hc : 65537 ∈ children p8) by (apply (bool_decide_unpack _); vm_compute; exact I).
  destruct (curr_proc_caller cfg0 s8 1000 p8 s8_inv s8_may_call s8_proc) as (t & Hca).
  pose proof (wait_spec cfg0 s8 1000 p8 t 65537 s8_inv s8_may_call s8_proc Hca) as Hw.
  rewrite decide_True in Hw by exact Hc. destruct Hw as (s' & E & _). exists s'. split; [exact E |].
  exact (wait_for_dead_child cfg0 s8 1000 p8 65537 s' s8_inv s8_may_call s8_proc Hc s8_gone E).
Defined.
End ProcWitness.
