(* ===== verification/KernelHalf.v ===== *)
(** * The kernel's memory and the processes

    The frames that the kernel holds before the first process (its image, its
    page tables, its heap) are never part of a process, and every process has
    the kernel's half of the address space, mapped as the kernel left it: the
    kernel goes on running, with the same memory, in whatever address space it
    is called. *)
From S2P Require Import Prelude Text Memory Paging PagingMap UserMem UserStack Elf Isolation Slab Lock Thread ThreadInv Sched ThreadKeep Proc ProcInv ProcOps ProcSys.

(** ** Reading a path through some tables *)
Section Through.
Context {A : Type} {PA : PageApi A}.
Implicit Types (m : gmap Z (list Z)).

(** The tables on the way to the last index of [q]. *)
Definition on_path m (t : Z) (q : list nat) (u : Z) : Prop :=
  exists p, p `prefix_of` q /\ (length p < length q)%nat /\ table_at m t p = Some u.

Lemma pte_on_path m m' q : forall t, (forall u, on_path m t q u -> m' !! u = m !! u) -> pte m' t q = pte m t q.
Proof.
  induction q as [|i q IH]; intros t Hm; [done |].
  assert (Hu : used m' t i = used m t i).
  { unfold used, slot. rewrite Hm; [done |]. exists []. split; [apply prefix_nil |]. split; [simpl; lia | done]. }
  destruct q as [|j q]; [done |].
  change (pte m' t (i :: j :: q)) with (e ← used m' t i; pte m' (entry_addr e) (j :: q)).
  change (pte m t (i :: j :: q)) with (e ← used m t i; pte m (entry_addr e) (j :: q)).
  rewrite Hu. destruct (used m t i) as [e|] eqn:He; [| done]. cbn [mbind option_bind]. apply IH.
  intros u (p & Hp & Hl & Ht). apply Hm. exists (i :: p). split; [by apply prefix_cons |]. split; [simpl in *; lia |].
  simpl. by rewrite He.
Qed.
End Through.

Section KernelHalf.
Context {A : Type} {FA : FrameAllocator A} {FL : FrameAllocatorLaws A} {PA : PageApi A} {PL : PageLaws A PA}
  {AA : AddrApi} {AL : AddrLaws PA AA} {S : Type} {SL : Slab S}.
Variable cfg : Config.
Implicit Types (s : System A S) (p : ProcessControlBlock S).

(** ** Frames that no process has *)
Definition kernel_frame s (f : Z) : Prop :=
  taken (ALLOC s) f /\ forall x d, live_space s x = Some d -> ~ owns (ram s) (Paging.cr3 d) f.
Definition kept s s' : Prop := forall f, kernel_frame s f -> kernel_frame s' f /\ ram s' !! f = ram s !! f.

(** Every process of [s'] has a page table that a process of [s] has. *)
Definition live_from s s' (x : Z) (d : AddressSpace) : Prop :=
  exists d0, live_space s x = Some d0 /\ Paging.cr3 d = Paging.cr3 d0.

Lemma kept_same s s' :
  ram s' = ram s -> ALLOC s' = ALLOC s -> (forall x d, live_space s' x = Some d -> live_from s s' x d) -> kept s s'.
Proof.
  intros Em Ea Hl f [Ht Hn]. unfold kernel_frame. rewrite Em, Ea. split; [| done]. split; [done |].
  intros x d (d0 & Hd0 & ->)%Hl. by apply (Hn x).
Qed.

Lemma kept_new s s' d0 :
  proc_inv cfg s -> new_space (ram s) (ALLOC s) d0 (ram s') (ALLOC s') ->
  (forall x d, live_space s' x = Some d -> Paging.cr3 d = Paging.cr3 d0 \/ live_from s s' x d) -> kept s s'.
Proof.
  intros Hi [_ _ Hmono Hmem Hfr _] Hl f [Ht Hn]. split; [| by apply Hmem]. split; [by apply Hmono |].
  intros x d [-> | (d1 & Hd1 & ->)]%Hl; [intros Ho; by apply (Hfr f) |].
  destruct (is_space _ _ _ _ (pi_mem _ s Hi) x d1 Hd1) as [Hok _].
  rewrite (view_owns (ram s) (ram s') (ALLOC s) d1); [by apply (Hn x) | done |].
  intros g Hg. apply Hmem. by eapply space_ok_owns.
Qed.

Lemma kept_extends s s' y d0 :
  proc_inv cfg s -> live_space s y = Some d0 -> extends (ram s) (ALLOC s) (Paging.cr3 d0) (ram s') (ALLOC s') ->
  (forall x d, live_space s' x = Some d -> live_from s s' x d) -> kept s s'.
Proof.
  intros Hi Hy [Hmono Hmem Hown _ _] Hl f [Ht Hn]. split; [| apply Hmem; [done | by apply (Hn y)]]. split; [by apply Hmono |].
  intros x d (d1 & Hd1 & ->)%Hl. destruct (decide (x = y)) as [-> | Hne].
  - assert (d1 = d0) as -> by congruence. intros [? | ?]%Hown; [by apply (Hn y d0 Hy) | done].
  - destruct (is_space _ _ _ _ (pi_mem _ s Hi) x d1 Hd1) as [Hok _].
    rewrite (view_owns (ram s) (ram s') (ALLOC s) d1); [by apply (Hn x) | done |].
    intros g Hg. apply Hmem; [by eapply space_ok_owns |]. by apply (is_disj _ _ _ _ (pi_mem _ s Hi) x y d1 d0).
Qed.

(** Processes with the page tables they had. *)
Lemma live_keep s s' :
  (forall x, x ∈ PROC s' -> x ∈ PROC s) ->
  (forall x q', x ∈ PROC s -> pcbs s' !! x = Some q' -> exists q, pcbs s !! x = Some q /\ Paging.cr3 (adsp q') = Paging.cr3 (adsp q)) ->
  forall x d, live_space s' x = Some d -> live_from s s' x d.
Proof.
  intros HP Hq x d [Hx (q' & Hq' & <-)]%live_space_Some. destruct (Hq x q' (HP x Hx) Hq') as (q & Hqq & E).
  exists (adsp q). split; [| done]. apply live_space_Some. split; [by apply HP |]. by exists q.
Qed.

Lemma live_others s s' x p' :
  proc_inv cfg s -> others_same s s' x -> (forall y, y ∈ PROC s' -> y ∈ PROC s) -> pcbs s' !! x = Some p' ->
  forall y d, live_space s' y = Some d -> y = x /\ d = adsp p' \/ live_from s s' y d.
Proof.
  intros Hi Ho HP Hx y d [Hy (q' & Hq' & <-)]%live_space_Some. destruct (decide (y = x)) as [-> | Hne].
  - left. split; [done |]. congruence.
  - right. destruct (pi_proc _ s Hi y (HP y Hy)) as (q & _ & _ & Hq & _). destruct (Ho y q (HP y Hy) Hne Hq) as [Hq2 _].
    exists (adsp q). split; [apply live_space_Some; split; [by apply HP |]; by exists q | congruence].
Qed.

(** ** Steps keep them *)
Lemma alloc_kept s x p size limit r s' :
  proc_inv cfg s -> may_call (kern s) -> curr_proc s = Ret (x, p) ->
  heap_ok (ram s) (adsp p) limit -> 0 <= size -> heap_end (adsp p) + size <= limit ->
  avail (4 * Z.to_nat (pages_to (heap_end (adsp p) + size) - pages_to (heap_end (adsp p)))) (ALLOC s) ->
  proc_alloc size s = Ret (r, s') -> kept s s'.
Proof.
  intros Hi Hm Hcur Hh Hs Hl Hav E. destruct (curr_proc_caller cfg s x p Hi Hm Hcur) as (t & Hca). pose proof Hca as [Hx Hp _ _ _ _ _ _].
  assert (Hlive : live_space s x = Some (adsp p)) by (apply live_space_Some; split; [done |]; by exists p).
  destruct (is_space _ _ _ _ (pi_mem _ s Hi) x _ Hlive) as [Hok _].
  destruct (sys_alloc_spec size (adsp p) (ram s) (ALLOC s) limit Hok (is_wf _ _ _ _ (pi_mem _ s Hi)) Hh Hs Hl Hav)
    as (m' & a' & E1 & _ & _ & _ & _ & _ & Hext).
  unfold proc_alloc in E. rewrite Hcur in E. cbn [obind] in E. rewrite E1 in E. cbn [obind] in E. injection E as _ <-.
  apply (kept_extends s _ x (adsp p)); [done | done | done |]. apply live_keep; [done |]. intros y q' Hy. cbn. intros Hq'.
  apply lookup_alter_Some in Hq' as [(-> & q & Hq & ->) | [_ Hq]]; [| eauto]. exists q. split; [done |]. by replace q with p by congruence.
Qed.

Lemma back_buffer_kept s x p screen win s' :
  proc_inv cfg s -> may_call (kern s) -> curr_proc s = Ret (x, p) -> 0 <= bytes_per_line screen * height screen < 2 ^ 32 ->
  let k := Z.to_nat (div_ceil (bytes_per_line screen * height screen) 4096) in
  Forall (unmapped (ram s) (Paging.cr3 (adsp p))) (page_range (MMAP_BASE / 4096) k) -> avail (4 * k) (ALLOC s) ->
  proc_back_buffer screen s = Ret (win, s') -> kept s s'.
Proof.
  intros Hi Hm Hcur Hr k Hun Hav E. destruct (curr_proc_caller cfg s x p Hi Hm Hcur) as (t & Hca). pose proof Hca as [Hx Hp _ _ _ _ _ _].
  assert (Hlive : live_space s x = Some (adsp p)) by (apply live_space_Some; split; [done |]; by exists p).
  destruct (is_space _ _ _ _ (pi_mem _ s Hi) x _ Hlive) as [Hok _].
  destruct (back_buffer_spec screen (adsp p) (ram s) (ALLOC s) Hok (is_wf _ _ _ _ (pi_mem _ s Hi)) Hr Hun Hav)
    as (win1 & fs & m' & a' & E1 & _ & _ & _ & Hext & _).
  unfold proc_back_buffer in E. rewrite Hcur in E. cbn [obind] in E. rewrite E1 in E. cbn [obind] in E. injection E as _ <-.
  apply (kept_extends s _ x (adsp p)); [done | done | done |]. apply live_keep; [done |]. intros y q' Hy. cbn. intros Hq'.
  apply lookup_alter_Some in Hq' as [(-> & q & Hq & ->) | [_ Hq]]; [| eauto]. exists q. split; [done |]. by replace q with p by congruence.
Qed.

Lemma store_kept s x p va b m' :
  proc_inv cfg s -> may_call (kern s) -> curr_proc s = Ret (x, p) -> user_addr va ->
  user_store (CR3 s) va b (ram s) = Ret m' -> kept s (set_mem m' (ALLOC s) s).
Proof.
  intros Hi Hm Hcur Hva E. destruct (curr_proc_caller cfg s x p Hi Hm Hcur) as (t & Hca). pose proof Hca as [Hx Hp _ _ _ _ HCR _].
  assert (Hlive : live_space s x = Some (adsp p)) by (apply live_space_Some; split; [done |]; by exists p).
  pose proof (pi_mem _ s Hi) as Hmem. destruct (is_space _ _ _ _ Hmem x _ Hlive) as [Hok _].
  rewrite HCR in E. destruct (user_store_extends (ram s) (ALLOC s) (adsp p) va b m' Hok (is_sized _ _ _ _ Hmem) Hva E) as (Hext & _ & _).
  apply (kept_extends s _ x (adsp p)); [done | done | done |]. apply live_keep; [done |]. intros y q' _ Hq. by exists q'.
Qed.

(** Steps that leave memory and the process table, or only take a process out. *)
Lemma exit_alloc st s s' : exit_enter st s = Ret s' -> ALLOC s' = ALLOC s.
Proof. intros E. unfold exit_enter in E. run_inv E. run_inv E. destruct v0 as [a procs]. run_inv E. run_inv E. by injection E as <-. Qed.
Lemma kept_quiet s s' :
  ram s' = ram s -> ALLOC s' = ALLOC s -> (forall x, x ∈ PROC s' -> x ∈ PROC s) -> pcbs s' = pcbs s -> kept s s'.
Proof. intros E1 E2 HP E3. apply kept_same; [done | done |]. apply live_keep; [done |]. intros x q' _. rewrite E3. intros ?. by exists q'. Qed.

Lemma spawn_kept s n program args root fds file limit r s' :
  proc_inv cfg s -> can_exec cfg s program args file limit -> spawn_fresh s n ->
  spawn_enter cfg n program args root fds s = Ret (r, s') -> kept s s'.
Proof.
  intros Hi Hce Hfr E.
  destruct (spawn_enter_spec cfg s n program args root fds file limit Hi Hce Hfr)
    as (p & t & r1 & s1 & E1 & _ & Ho & HP & _ & _ & _ & Hx & _ & _ & _ & _ & _ & _ & _ & _ & rsp & _ & Hrp).
  assert (s1 = s') as -> by congruence.
  apply (kept_new s s' (adsp p)); [done | apply Hrp |]. intros y d [Hy (q' & Hq' & <-)]%live_space_Some.
  rewrite HP, elem_of_app, list_elem_of_singleton in Hy. destruct Hy as [Hy | ->]; [right | left; congruence].
  destruct (pi_proc _ s Hi y Hy) as (q & _ & _ & Hq & _). destruct (Ho y q Hy Hq) as [Hq2 _].
  exists (adsp q). split; [apply live_space_Some; split; [done |]; by exists q | congruence].
Qed.

Lemma exec_kept s x p program args file limit tf s' :
  proc_inv cfg s -> may_call (kern s) -> curr_proc s = Ret (x, p) -> can_exec cfg s program args file limit ->
  exec cfg program args s = Ret (tf, s') -> kept s s'.
Proof.
  intros Hi Hm Hcur Hce E.
  destruct (exec_spec cfg s x p program args file limit Hi Hm Hcur Hce) as (tf1 & p1 & s1 & E1 & _ & Ho & Hx & HP & _ & _ & _ & _ & _ & Hrp).
  assert (s1 = s') as -> by congruence. apply (kept_new s s' (adsp p1)); [done | apply Hrp |].
  intros y d Hd. destruct (live_others s s' x p1 Hi Ho ltac:(by rewrite HP) Hx y d Hd) as [[_ ->] | ?]; [by left | by right].
Qed.

Lemma fork_kept s x p n tf r s' :
  proc_inv cfg s -> may_call (kern s) -> curr_proc s = Ret (x, p) -> can_fork s p -> fork_fresh s n ->
  fork_enter cfg n tf s = Ret (r, s') -> kept s s'.
Proof.
  intros Hi Hm Hcur Hcf Hfr E. destruct (curr_proc_caller cfg s x p Hi Hm Hcur) as (t & Hca). pose proof Hca as [Hx Hp _ _ _ _ _ _].
  assert (Hlive : live_space s x = Some (adsp p)) by (apply live_space_Some; split; [done |]; by exists p).
  pose proof (pi_mem _ s Hi) as Hmem. destruct (is_space _ _ _ _ Hmem x _ Hlive) as [Hok _]. destruct (is_kernel _ _ _ _ Hmem) as [active Hk].
  destruct (clone_for_fork_spec (page_table_address cfg) active (mapped_pages (ram s) (Paging.cr3 (adsp p)))
    (ram s) (ALLOC s) (adsp p)) as (d & m' & a' & E1 & _ & Hns & _); [done | apply (is_wf _ _ _ _ Hmem) | done
    | by apply (is_sized _ _ _ _ Hmem _ _ Hk) | intros q; apply mapped_pages_complete | done |].
  unfold fork_enter in E. change (curr_proc (set_pid (wrap_u 64 (PID s + 1)) s)) with (curr_proc s) in E. rewrite Hcur in E. cbn [obind] in E.
  cbn [ram ALLOC set_pid] in E. rewrite E1 in E. cbn [obind] in E. injection E as _ <-.
  apply (kept_new s _ d); [done | done |]. intros y e [Hy (q' & Hq' & <-)]%live_space_Some. cbn in Hy, Hq'.
  rewrite elem_of_app, list_elem_of_singleton in Hy. pose proof (ff_pcb _ _ Hfr) as Hnew.
  assert (Hxc : x <> child_pcb n) by congruence.
  destruct (decide (y = child_pcb n)) as [-> | Hne].
  - left. rewrite lookup_alter_ne, lookup_insert_eq in Hq' by done. by injection Hq' as <-.
  - right. destruct Hy as [Hy | ?]; [| done].
    assert (exists q, pcbs s !! y = Some q /\ adsp q' = adsp q) as (q & Hq & ->).
    { apply lookup_alter_Some in Hq' as [(<- & q & Hq & ->) | [_ Hq]]; rewrite lookup_insert_ne in Hq by done; [| eauto].
      exists q. split; [done |]. by replace q with p by congruence. }
    exists (adsp q). split; [| done]. apply live_space_Some. split; [done |]. by exists q.
Qed.

Lemma step_kept x s s' : proc_step cfg x s s' -> proc_inv cfg s -> kept s s'.
Proof.
  intros Hs Hi. destruct Hs.
  - by eapply spawn_kept.
  - by eapply fork_kept.
  - by apply kept_quiet.
  - by eapply exec_kept.
  - by eapply alloc_kept.
  - by eapply back_buffer_kept.
  - by eapply store_kept.
  - destruct (own_spec cfg s x p f Hi) as [_ Epc]; try done. destruct (curr_proc_caller cfg s x p Hi H H0) as (t & Hca).
    apply kept_same; [done | done |]. apply live_keep; [done |]. intros y q' _. rewrite Epc. destruct (decide (y = x)) as [-> | Hne].
    + rewrite lookup_insert_eq. intros [= <-]. exists p. split; [apply Hca |]. by injection H1 as _ -> _.
    + rewrite lookup_insert_ne by done. intros Hq'. by exists q'.
  - destruct (exit_spec cfg s x p st Hi) as (s1 & E & _ & E1 & E2 & _ & _ & HP & _); try done. assert (s1 = s') as -> by congruence.
    apply kept_quiet; [done | by eapply exit_alloc | by intros y [? _]%HP | done].
  - by apply kept_quiet.
  - by apply kept_quiet.
  - by apply kept_quiet.
  - by apply kept_quiet.
  - destruct (switch_space_to_spec cfg s next Hi H) as (s1 & E & _ & E1 & E2 & E3 & E4 & _). assert (s1 = s') as -> by congruence.
    apply kept_quiet; [done | done | by rewrite E2 | done].
  - by apply kept_quiet.
Qed.

Lemma steps_kept s s' : rtc (any_step cfg) s s' -> proc_inv cfg s -> kept s s'.
Proof.
  induction 1 as [s|s s1 s' [x Hx] _ IH]; intros Hi; [by intros f ? |]. intros f Hf.
  destruct (step_kept x s s1 Hx Hi f Hf) as [Hf1 E1]. destruct (IH (proj1 (proc_step_inv cfg x s s1 Hx Hi)) f Hf1) as [Hf2 E2].
  split; [done | congruence].
Qed.

Lemma boot_frames_kept s0 s f :
  proc_boot cfg s0 -> rtc (any_step cfg) s0 s -> taken (ALLOC s0) f -> kernel_frame s f /\ ram s !! f = ram s0 !! f.
Proof.
  intros Hb Hr Hf. apply (steps_kept s0 s Hr (proc_boot_inv cfg s0 Hb)). split; [done |]. intros x d [Hx _]%live_space_Some.
  rewrite (proj1 (pb_procs _ _ Hb)) in Hx. by apply elem_of_nil in Hx.
Qed.

Lemma kernel_half_seen s0 s :
  proc_boot cfg s0 -> rtc (any_step cfg) s0 s -> forall x p i q, x ∈ PROC s -> pcbs s !! x = Some p -> (256 <= i < 512)%nat ->
  (forall t, on_path (ram s0) (page_table_address cfg) (i :: q) t -> taken (ALLOC s0) t) ->
  pte (ram s) (Paging.cr3 (adsp p)) (i :: q) = pte (ram s0) (page_table_address cfg) (i :: q).
Proof.
  intros Hb Hr x p i q Hx Hp Hir Hpath. pose proof (reachable_proc_inv cfg s0 s Hb Hr) as Hi.
  assert (Hs : used (ram s) (Paging.cr3 (adsp p)) i = used (ram s0) (page_table_address cfg) i).
  { unfold used. rewrite (is_half _ _ _ _ (pi_mem _ s Hi) x (adsp p)); [| apply live_space_Some; split; [done |]; by exists p | done].
    unfold slot. destruct (pb_mem _ _ Hb) as (_ & _ & _ & Hkt). by rewrite (proj2 (boot_frames_kept s0 s _ Hb Hr Hkt)). }
  destruct q as [|j q]; [done |].
  change (pte ?m ?t (i :: j :: q)) with (e ← used m t i; pte m (entry_addr e) (j :: q)).
  rewrite Hs. destruct (used (ram s0) (page_table_address cfg) i) as [e|] eqn:He; [| done]. cbn [mbind option_bind].
  apply pte_on_path. intros u (pre & Hpre & Hl & Hu). apply (boot_frames_kept s0 s _ Hb Hr), Hpath. exists (i :: pre).
  split; [by apply prefix_cons |]. split; [simpl in *; lia |]. simpl. by rewrite He.
Qed.

End KernelHalf.

Module KernelHalfWitness.
#[local] Existing Instance align_down_frames.
#[local] Existing Instance align_down_frames_laws.
#[local] Existing Instance page_api.
#[local] Existing Instance UserMem.UserMemWitness.addr_laws.
#[local] Existing Instance table_slab.
Import ProcSys.ProcWitness.

End KernelHalfWitness.
