(* ===== verification/ProcWait.v ===== *)
(** * Waiting for a child

    From the moment a process is blocked on a child that is in the table until
    the child exits its thread is blocked, whatever the other threads do, and
    the exit makes it ready: a wait ends with the exit of the child and not
    before.  A child that exits between the test of [wait_pid] and its blocking
    wakes nobody, and the wait never ends. *)
From S2P Require Import Prelude Text Memory Paging PagingMap UserMem UserStack Elf Isolation Slab Lock Thread ThreadInv Sched ThreadKeep Proc ProcInv ProcOps ProcSys.

Section ProcWait.
Context {A : Type} {FA : FrameAllocator A} {FL : FrameAllocatorLaws A} {PA : PageApi A} {PL : PageLaws A PA}
  {AA : AddrApi} {AL : AddrLaws PA AA} {S : Type} {SL : Slab S}.
Variable cfg : Config.
Implicit Types (s : System A S) (p q : ProcessControlBlock S).

(** The process at [y] has the number [c] and the parent [i]. *)
Definition process_is s (y c : Z) (i : option Z) : Prop :=
  y ∈ PROC s /\ exists q, pcbs s !! y = Some q /\ pid q = c /\ parent q = i.

(** A process changes neither its number nor its parent. *)
Lemma actor_child s s' y c i :
  proc_step cfg (Some y) s s' -> proc_inv cfg s -> process_is s y c i -> y ∈ PROC s' -> process_is s' y c i.
Proof.
  intros Hs Hi (_ & q & Hq & Hc & Hp) Hin. split; [done |]. inversion Hs; subst.
  all: match goal with H : may_call _, E : curr_proc _ = _ |- _ => destruct (curr_proc_caller cfg s y _ Hi H E) as (t & Hca) end.
  all: pose proof (ca_pcb _ _ _ _ Hca) as Hq'; rewrite Hq in Hq'; injection Hq' as <-.
  - destruct (fork_enter_spec cfg s n tf y q Hi) as (s1 & E & _ & _ & Hx & _); try done. assert (s1 = s') as -> by congruence. by eexists.
  - destruct (exec_spec cfg s y q program args file limit Hi) as (tf1 & p1 & s1 & E & _ & _ & Hx & _ & _ & _ & _ & Hf & _); try done.
    assert (s1 = s') as -> by congruence. exists p1. split; [done |]. split; congruence.
  - destruct (alloc_spec cfg s y q size limit Hi) as (p1 & s1 & E & _ & _ & Hx & -> & _); try done.
    assert (s1 = s') as -> by congruence. by eexists.
  - destruct (back_buffer_proc_spec cfg s y q screen Hi) as (win1 & fs & s1 & E & _ & _ & Hx & _); try done.
    assert (s1 = s') as -> by congruence. by eexists.
  - by exists q.
  - destruct (own_spec cfg s y q f Hi) as [_ Epc]; try done. rewrite Epc. exists (f q). split; [apply lookup_insert_eq |].
    match goal with H : own_change _ _ |- _ => by injection H as -> _ -> _ end.
  - destruct (exit_spec cfg s y q st Hi) as (s1 & E & _ & E1 & _); try done. assert (s1 = s') as -> by congruence. rewrite E1. by exists q.
Qed.

Lemma step_child x s s' y c i :
  proc_step cfg x s s' -> proc_inv cfg s -> process_is s y c i -> y ∈ PROC s' -> process_is s' y c i.
Proof.
  intros Hs Hi Hch Hin. destruct (decide (x = Some y)) as [-> | Hne]; [by apply (actor_child s) |].
  destruct Hch as (Hy & q & Hq & Hc & Hp). split; [done |]. exists q. split; [| done]. by apply (proc_step_inv cfg x s s' Hs Hi).
Qed.

(** Only its exit takes a process out of the table. *)
Lemma step_removes x s s' y :
  proc_step cfg x s s' -> proc_inv cfg s -> y ∈ PROC s -> y ∉ PROC s' ->
  exists p st, x = Some y /\ may_call (kern s) /\ curr_proc s = Ret (y, p) /\ exit_enter st s = Ret s'.
Proof.
  intros Hs Hi Hy Hn. destruct Hs; try done.
  - destruct (spawn_enter_spec cfg s n program args root fds file limit Hi) as (p & t & r1 & s1 & E & _ & _ & HP & _); [done | done |].
    assert (s1 = s') as -> by congruence. rewrite HP in Hn. set_solver.
  - destruct (fork_enter_spec cfg s n tf x p Hi) as (s1 & E & _ & [_ _ HP _] & _); try done.
    assert (s1 = s') as -> by congruence. rewrite HP in Hn. set_solver.
  - destruct (exec_spec cfg s x p program args file limit Hi) as (tf1 & p1 & s1 & E & _ & _ & _ & HP & _); try done.
    assert (s1 = s') as -> by congruence. congruence.
  - destruct (alloc_spec cfg s x p size limit Hi) as (p1 & s1 & E & _ & _ & _ & _ & _ & _ & HP & _); try done.
    assert (s1 = s') as -> by congruence. congruence.
  - destruct (back_buffer_proc_spec cfg s x p screen Hi) as (win1 & fs & s1 & E & _ & _ & _ & _ & _ & _ & _ & HP & _); try done.
    assert (s1 = s') as -> by congruence. congruence.
  - destruct (exit_spec cfg s x p st Hi) as (s1 & E & _ & _ & _ & _ & _ & HP & _); try done. assert (s1 = s') as -> by congruence.
    assert (y = x) as ->; [| by exists p, st]. destruct (decide (y = x)); [done |]. by destruct Hn; apply HP.
  - destruct (switch_space_to_spec cfg s next Hi H) as (s1 & E & _ & _ & HP & _). assert (s1 = s') as -> by congruence. congruence.
Qed.

(** Two threads of one number are one. *)
Lemma thread_unique s a b t u : proc_inv cfg s -> listed (kern s) a t -> listed (kern s) b u -> id t = id u -> a = b /\ t = u.
Proof.
  intros Hi [Ha Ht] [Hb Hu] Hid.
  assert (a = b) as -> by exact (core_uniq _ _ _ _ (inv_core _ (pi_sched _ s Hi)) a b t u Ha Hb Ht Hu Hid). split; [done | congruence].
Qed.

Lemma pid_unique s y y' c i i' : proc_inv cfg s -> process_is s y c i -> process_is s y' c i' -> y = y'.
Proof.
  intros Hi (Hy & q & Hq & Hc & _) (Hy' & q' & Hq' & Hc' & _).
  destruct (pi_proc _ s Hi y Hy) as (q1 & a1 & t1 & Hq1 & Hl1 & Hid1 & Hp1 & _).
  destruct (pi_proc _ s Hi y' Hy') as (q2 & a2 & t2 & Hq2 & Hl2 & Hid2 & Hp2 & _).
  assert (a1 = a2) as -> by (apply (pi_uniq _ s Hi a1 a2 t1 t2 y y'); congruence). congruence.
Qed.

(** A process whose thread waits does not exit. *)
Lemma waiting_stays x s s' a c z i j :
  proc_step cfg x s s' -> proc_inv cfg s -> waits_for s a c z -> process_is s z i j -> z ∈ PROC s'.
Proof.
  intros Hs Hi (t & Hl & Hst & Hz) (Hin & q & Hq & _). destruct (decide (z ∈ PROC s')) as [|Hn]; [done |].
  destruct (step_removes x s s' z Hs Hi Hin Hn) as (p & st & _ & Hm & Hcur & _).
  destruct (curr_proc_caller cfg s z p Hi Hm Hcur) as (u & Hca).
  destruct (pi_thread _ s Hi a t z (proj2 Hl) Hz) as (q' & Hq' & Hid & _).
  destruct (thread_unique s a (CURR_THREAD_PTR (kern s)) t u Hi Hl (ca_thread _ _ _ _ Hca)) as [_ <-].
  - rewrite (ca_id _ _ _ _ Hca). pose proof (ca_pcb _ _ _ _ Hca). congruence.
  - pose proof (ca_run _ _ _ _ Hca). congruence.
Qed.

(** Steps after which the process at [y] is still there. *)
Definition step_with (y : Z) s s' : Prop := any_step cfg s s' /\ y ∈ PROC s'.

Lemma steps_with s s' y a c i z n j :
  rtc (step_with y) s s' -> proc_inv cfg s -> process_is s y c i -> process_is s z n j -> waits_for s a c z ->
  proc_inv cfg s' /\ process_is s' y c i /\ process_is s' z n j /\ waits_for s' a c z.
Proof.
  induction 1 as [|s s1 s' [[x Hx] Hin] _ IH]; [done |]. intros Hi Hch Hz Hw.
  apply IH; [by eapply proc_step_inv | by eapply step_child | |].
  - apply (step_child x s); try done. by eapply waiting_stays.
  - apply (step_keeps_waiting cfg x s); try done. intros y' q' -> Hy' Hq' Hc'.
    assert (y' = y) as -> by (apply (pid_unique s y' y c (parent q') i); [done | by split; eauto | done]). done.
Qed.

Lemma switch_steps_with s y :
  proc_inv cfg s -> y ∈ PROC s -> exists s', switch_space s = Ret s' /\ rtc (step_with y) s s'.
Proof.
  intros Hi Hy. destruct (switch_pick_inv (kern s) (pi_sched _ s Hi)) as (next & k & E & _ & _ & _ & _ & _ & Hnext).
  pose proof (pick_space_spec cfg s next k Hi E) as Hi1. unfold switch_space. rewrite E. cbn [obind].
  assert (H1 : step_with y s (set_kern k s)) by (split; [exists None; by eapply ps_pick | done]).
  destruct next as [a|]; [| eexists; split; [done | by apply rtc_once]].
  destruct (switch_space_to_spec cfg (set_kern k s) a Hi1) as (s' & E' & _ & _ & HP & _); [apply Hnext |].
  exists s'. split; [done |]. eapply rtc_l; [exact H1 |]. apply rtc_once. split; [| by rewrite HP].
  exists None. eapply ps_switch; [apply Hnext | done].
Qed.

(** [C7] A wait ends with the exit of the child and not before.  From the
    critical section in which [wait_pid] blocks the caller, with the child in the
    process table at that moment, in every state reached while the child is in
    the table the caller's thread is blocked, and the step that takes the child
    out of the table makes that thread ready and puts it in the run queue.  A
    call of [wait_pid] that nothing interrupts goes through that section. *)
Theorem wait_until_exit s x p y child :
  proc_inv cfg s -> may_call (kern s) -> curr_proc s = Ret (x, p) ->
  process_is s y child (Some (pid p)) ->
  (child ∈ children p -> exists s', wait_pid child s = Ret s' /\ rtc (step_with y) (wait_block child s) s') /\
  forall s1, rtc (step_with y) (wait_block child s) s1 ->
    (exists t, listed (kern s1) (CURR_THREAD_PTR (kern s)) t /\ state t = Blocked (WaitThread child)) /\
    forall s2, any_step cfg s1 s2 -> y ∉ PROC s2 ->
      exists t, listed (kern s2) (CURR_THREAD_PTR (kern s)) t /\ state t = Ready /\ id t = pid p /\ pid p ∈ ready_queue (kern s2).
Proof.
  intros Hi Hm Hcur Hch. destruct (curr_proc_caller cfg s x p Hi Hm Hcur) as (t & Hca).
  destruct (wait_block_spec cfg s x p t child Hi Hm Hca) as (Hi1 & _ & t' & Hl & Hst & (_ & Hpt & _)). split.
  { intros Hc. unfold wait_pid, is_child. rewrite Hcur. cbn [obind]. rewrite bool_decide_eq_true_2 by done. cbn [negb].
    by apply switch_steps_with; [| apply Hch]. }
  intros s1 Hr.
  destruct (steps_with (wait_block child s) s1 y (CURR_THREAD_PTR (kern s)) child (Some (pid p)) x (pid p) (parent p) Hr Hi1) as (Hi2 & Hch2 & Hx2 & u & Hlu & Hsu & Hpu).
  - done.
  - split; [apply Hca |]. exists p. split; [apply Hca | done].
  - exists t'. split; [done |]. split; [done |]. rewrite Hpt. apply Hca.
  - split; [by exists u |]. intros s2 [z Hs] Hn. destruct Hch2 as (Hy & q & Hq & Hpid & Hpar).
    destruct (step_removes z s1 s2 y Hs Hi2 Hy Hn) as (q' & st & _ & Hm2 & Hcur2 & Ex).
    destruct (curr_proc_caller cfg s1 y q' Hi2 Hm2 Hcur2) as (v & Hcv). pose proof (ca_pcb _ _ _ _ Hcv). assert (q' = q) as -> by congruence.
    destruct (exit_spec cfg s1 y q st Hi2 Hm2 Hcur2) as (s3 & E3 & _ & _ & _ & _ & Hth & _ & _ & _ & Hafter). assert (s3 = s2) as -> by congruence.
    assert (Hid : id u = pid p).
    { destruct (pi_thread _ s1 Hi2 _ u x (proj2 Hlu) Hpu) as (px & Hpx & -> & _). destruct Hx2 as (_ & px' & Hpx' & <- & _). congruence. }
    specialize (Hafter _ u Hlu (proj1 (pi_pid _ s1 Hi2 _ u x (proj2 Hlu) Hpu))). unfold thread_after in Hafter. rewrite decide_True in Hafter by (split; congruence).
    destruct Hafter as [Hsu' Hq'].
    { intros Ec. destruct Hlu as [Hin Hu]. rewrite Ec in Hin, Hu. rewrite (Hm2 u Hin Hu) in Hsu. done. }
    exists (set_state Ready u). split; [split; [rewrite Hth; apply Hlu | done] |]. split; [done |]. split; [done |]. by rewrite <- Hid.
Qed.

(** A child that is gone when the caller blocks: the wait never ends.  The
    test of [wait_pid] does not exclude it, since the child may exit after the
    test. *)
Theorem wait_after_exit s x p child :
  proc_inv cfg s -> may_call (kern s) -> curr_proc s = Ret (x, p) -> gone s child ->
  forall s'', rtc (any_step cfg) (wait_block child s) s'' ->
    exists t, listed (kern s'') (CURR_THREAD_PTR (kern s)) t /\ state t = Blocked (WaitThread child).
Proof.
  intros Hi Hm Hcur Hg. destruct (curr_proc_caller cfg s x p Hi Hm Hcur) as (t & Hca).
  destruct (wait_block_spec cfg s x p t child Hi Hm Hca) as (Hi1 & _ & t' & Hl & Hst & (_ & Hpt & _)).
  apply (gone_waits cfg _ _ child x); [done | done |]. exists t'. split; [done |]. split; [done |]. rewrite Hpt. apply Hca.
Qed.
End ProcWait.

(** ** A child that is waited for, and exits *)
Module WaitWitness.
#[local] Existing Instance align_down_frames.
#[local] Existing Instance align_down_frames_laws.
Import Memory.MemoryWitness PagingMap.PagingWitness Elf.ElfWitness ProcWitness.
#[local] Existing Instance page_api.
#[local] Existing Instance UserMem.UserMemWitness.addr_laws.
#[local] Existing Instance table_slab.

Definition p4 : ProcessControlBlock (list (option Z)) := pcb_or s4.
Definition waiting : Sys := ret_or s4 (wait_pid 65537 s4).
Definition child_pcb : ProcessControlBlock (list (option Z)) := pcb_or waiting.

Lemma s4_proc : curr_proc s4 = Ret (1000, p4).
Proof. vm_compute. reflexivity. Qed.
Lemma s4_child : 65537 ∈ children p4.
Proof. apply (bool_decide_unpack _). vm_compute. exact I. Qed.
Lemma s4_child_is : process_is s4 1001 65537 (Some (pid p4)).
Proof.
  assert (Ep : pid p4 = 65536) by (vm_compute; reflexivity). rewrite Ep. clear Ep.
  split; [apply (bool_decide_unpack _); vm_compute; exact I |].
  assert (H : (fun q => (pid q, parent q)) <$> (pcbs s4 !! 1001) = Some (65537, Some 65536)) by (vm_compute; reflexivity).
  apply fmap_Some in H as (q & Hq & E). exists q. split; [exact Hq |].
  split; [exact (eq_sym (f_equal fst E)) | exact (eq_sym (f_equal snd E))].
Qed.
Lemma waiting_ok : wait_pid 65537 s4 = Ret waiting /\ proc_inv cfg0 waiting.
Proof.
  destruct (curr_proc_caller cfg0 s4 1000 p4 (proj2 s4_inv) s4_may_call s4_proc) as (t & Hca).
  pose proof (wait_spec cfg0 s4 1000 p4 t 65537 (proj2 s4_inv) s4_may_call s4_proc Hca) as Hw. rewrite decide_True in Hw by exact s4_child.
  destruct Hw as (s' & E & Hi & _). unfold waiting. rewrite E. split; [reflexivity | exact Hi].
Qed.
Lemma waiting_may_call : may_call (kern waiting).
Proof. apply curr_runs_may_call. vm_compute. reflexivity. Qed.
Lemma waiting_proc : curr_proc waiting = Ret (1001, child_pcb).
Proof. vm_compute. reflexivity. Qed.

Lemma wait_until_exit_witness :
  exists s2, exit_enter 0 waiting = Ret s2 /\
    (exists t, listed (kern waiting) 2000 t /\ state t = Blocked (WaitThread 65537)) /\
    exists t, listed (kern s2) 2000 t /\ state t = Ready /\ id t = 65536 /\ 65536 ∈ ready_queue (kern s2).
Proof.
  destruct (exit_spec cfg0 waiting 1001 child_pcb 0 (proj2 waiting_ok) waiting_may_call waiting_proc) as (s2 & E & _ & _ & _ & _ & _ & HP & _).
  destruct (wait_until_exit cfg0 s4 1000 p4 1001 65537 (proj2 s4_inv) s4_may_call s4_proc s4_child_is) as [H0 H3].
  destruct (H0 s4_child) as (w & Ew & Hr). assert (Eq : w = waiting) by (pose proof (proj1 waiting_ok); congruence). subst w.
  destruct (H3 waiting Hr) as [H1 H2].
  assert (Ea : CURR_THREAD_PTR (kern s4) = 2000) by (vm_compute; reflexivity). rewrite Ea in H1, H2.
  assert (Ep : pid p4 = 65536) by (vm_compute; reflexivity). rewrite Ep in H2.
  exists s2. split; [exact E |]. split; [exact H1 |]. apply H2.
  - exists (Some 1001). exact (ps_exit cfg0 1001 child_pcb 0 waiting s2 waiting_may_call waiting_proc E).
  - intros Hin. apply HP in Hin. exact (proj2 Hin eq_refl).
Defined.

(** The child exits between the test and the blocking: the test has found it
    among the children, and the parent waits for ever. *)
Lemma wait_after_exit_witness :
  is_child 65537 s4 = Ret true /\ rtc (any_step cfg0) s4 s8 /\
  forall s'', rtc (any_step cfg0) (wait_block 65537 s8) s'' ->
    exists t, listed (kern s'') (CURR_THREAD_PTR (kern s8)) t /\ state t = Blocked (WaitThread 65537).
Proof.
  split; [vm_compute; reflexivity |]. split; [exact s8_from_s4 |].
  exact (wait_after_exit cfg0 s8 1000 p8 65537 s8_inv s8_may_call s8_proc s8_gone).
Defined.
End WaitWitness.
