(* ===== verification/Disk.v ===== *)
(** * Block devices

    The trait [BlockDevice] of [kernel/src/fs/fat.rs], through which the FAT
    driver sees a disk: a class of operations, a class of the laws a client
    may rely on, and a disk in memory that satisfies them.

    The laws see a disk as its image, one list of bytes: reading is a slice of
    the image and writing replaces one. *)
From S2P Require Import Prelude Slices.

(** ** The trait *)

(** [AtaError], a set of bits of one byte. *)
Definition AtaError : Type := Z.

(** [read] fills the caller's buffer, whatever it returns, and leaves the
    stored data alone; [write] changes it. *)
Class BlockDevice (D : Type) := {
  bd_id : D -> Z;
  bd_read : D -> Z -> Z -> list Z -> outcome (list Z * (AtaError + Z));
  bd_write : D -> Z -> list Z -> outcome (D * (AtaError + unit))
}.

(** What a client of the trait may rely on: a device in order answers reads
    and writes of whole sectors within its image. *)
Class BlockDeviceLaws (D : Type) (BD : BlockDevice D) := {
  image : D -> list Z;
  dev_ok : D -> Prop;
  image_bytes : forall d, dev_ok d -> Forall is_byte (image d);
  read_ok : forall d lba n buf, dev_ok d ->
    0 <= lba -> 1 <= n <= 255 -> 512 * (lba + n) <= Z.of_nat (length (image d)) ->
    Z.of_nat (length buf) = 512 * n ->
    bd_read d lba n buf = Ret (get (image d) (Z.to_nat (512 * lba)) (Z.to_nat (512 * n)), inr (512 * n));
  write_ok : forall d lba n data, dev_ok d ->
    0 <= lba -> 1 <= n <= 255 -> 512 * (lba + n) <= Z.of_nat (length (image d)) ->
    Z.of_nat (length data) = 512 * n -> Forall is_byte data ->
    exists d', bd_write d lba data = Ret (d', inr tt) /\ dev_ok d' /\
      image d' = put (image d) (Z.to_nat (512 * lba)) data
}.

(** ** A disk in memory *)
Module RamDisk.
Definition ram_read (d : list Z) (lba n : Z) (buf : list Z) : outcome (list Z * (AtaError + Z)) :=
  if (0 <=? lba) && (Z.of_nat (length buf) =? 512 * n) && (512 * (lba + n) <=? Z.of_nat (length d))
  then Ret (get d (Z.to_nat (512 * lba)) (Z.to_nat (512 * n)), inr (512 * n))
  else Ret (buf, inl 16).
Definition ram_write (d : list Z) (lba : Z) (data : list Z) : outcome (list Z * (AtaError + unit)) :=
  if (0 <=? lba) && (512 * lba + Z.of_nat (length data) <=? Z.of_nat (length d))
  then Ret (put d (Z.to_nat (512 * lba)) data, inr tt)
  else Ret (d, inl 16).

#[export] Instance ram_disk : BlockDevice (list Z) :=
  {| bd_id := fun _ => 0; bd_read := ram_read; bd_write := ram_write |}.

#[export] Instance ram_disk_laws : BlockDeviceLaws (list Z) ram_disk.
Proof.
  refine {| image := fun d => d; dev_ok := Forall is_byte |}.
  - done.
  - intros d lba n buf _ H1 H2 H3 H4. simpl. unfold ram_read.
    destruct (_ && _) eqn:E; [done | lia].
  - intros d lba n data Hd H1 H2 H3 H4 Hb. simpl. unfold ram_write.
    destruct (_ && _) eqn:E; [| lia]. eexists. split; [done |]. split; [by apply Forall_put | done].
Defined.
End RamDisk.
