(* ===== verification/Time.v ===== *)
(** * Wall-clock time

    [kernel/src/driver/cmos.rs]: reading the real-time clock and the Unix time,
    and [get_fat_timedate] of [kernel/src/fs/fat.rs], the packed date and time
    of a directory entry.  The clock chip is a class: reading a register may
    advance it. *)
From S2P Require Import Prelude.

(** ** The clock *)
Inductive CmosTimeRegister := Seconds | Minutes | Hours | Day | Month | Year | RegB.

Definition as_u8 (r : CmosTimeRegister) : Z :=
  match r with
  | Seconds => 0 | Minutes => 2 | Hours => 4 | Day => 7 | Month => 8 | Year => 9 | RegB => 11
  end.

(** The chip behind ports 0x70 and 0x71: select a register, then read it. *)
Class Cmos (H : Type) := { cmos_select : H -> Z -> H; cmos_data : H -> Z * H }.

Definition bcd_to_decimal (bcd : Z) : outcome Z :=
  let high_nibble := Z.shiftr (Z.land bcd 240) 4 in
  let low_nibble := Z.land bcd 15 in
  let! h := chk_u 8 (high_nibble * 10) in
  chk_u 8 (h + low_nibble).

Record RTCTime := {
  year : Z; month : Z; day : Z; hours : Z; minutes : Z; second : Z
}.

#[global] Instance RTCTime_eq : EqDecision RTCTime.
Proof. solve_decision. Defined.

Definition is_leap_year (y : Z) : bool :=
  (y mod 4 =? 0) && (negb (y mod 100 =? 0) || (y mod 400 =? 0)).

Definition DAYS_IN_MONTH : list Z := [31; 28; 31; 30; 31; 30; 31; 31; 30; 31; 30; 31].

(** [for i in 1970..self.year] *)
Fixpoint year_days (n : nat) (i days : Z) : outcome Z :=
  match n with
  | O => Ret days
  | S n => let! days := chk_u 64 (days + if is_leap_year i then 366 else 365) in
           year_days n (i + 1) days
  end.

(** [for i in 1..self.month] *)
Fixpoint month_days (n : nat) (y i days : Z) : outcome Z :=
  match n with
  | O => Ret days
  | S n => let! dm := idx DAYS_IN_MONTH (i - 1) in
           let! days := chk_u 64 (days + dm) in
           let! days := if is_leap_year y && (i =? 2) then chk_u 64 (days + 1) else Ret days in
           month_days n y (i + 1) days
  end.

Definition as_unix_timestamp (t : RTCTime) : outcome Z :=
  let! days := year_days (Z.to_nat (year t - 1970)) 1970 0 in
  let! days := month_days (Z.to_nat (month t - 1)) (year t) 1 days in
  let! d := sub_u (day t) 1 in
  let! days := chk_u 64 (days + d) in
  let! h := chk_u 64 (days * 24) in
  let! s := chk_u 64 (h * 3600) in
  chk_u 64 (s + (hours t * 3600 + minutes t * 60 + second t)).

Section Clock.
Context {H : Type} {C : Cmos H}.

Definition read_reg (h : H) (r : CmosTimeRegister) : Z * H :=
  cmos_data (cmos_select h (Z.lor (as_u8 r) 128)).

(** [_get_time]: the registers in the order they are read, then the format. *)
Definition get_time (h : H) : outcome (RTCTime * H) :=
  let '(reg_b, h) := read_reg h RegB in
  let is_bcd := Z.land reg_b 4 =? 0 in
  let is_24_hr := negb (Z.land reg_b 2 =? 0) in
  let '(sec, h) := read_reg h Seconds in
  let '(min, h) := read_reg h Minutes in
  let '(hrs, h) := read_reg h Hours in
  let '(d, h) := read_reg h Day in
  let '(mon, h) := read_reg h Month in
  let '(y, h) := read_reg h Year in
  let pm := negb (Z.land hrs 128 =? 0) in
  let hrs := Z.land hrs 127 in
  let conv x := if is_bcd then bcd_to_decimal x else Ret x in
  let! sec := conv sec in
  let! min := conv min in
  let! hrs := conv hrs in
  let! d := conv d in
  let! mon := conv mon in
  let! y := conv y in
  let! hrs :=
    if negb is_24_hr then
      let! hrs := if pm && negb (hrs =? 12) then chk_u 8 (hrs + 12) else Ret hrs in
      Ret (if negb pm && (hrs =? 12) then 0 else hrs)
    else Ret hrs in
  let full_year := if 90 <=? y then 1900 + y else 2000 + y in
  Ret ({| second := sec; minutes := min; hours := hrs; day := d; month := mon; year := full_year |}, h).

(** Read twice until both readings agree. *)
Fixpoint get_rtc_time (fuel : nat) (h : H) : outcome (RTCTime * H) :=
  match fuel with
  | O => NoFuel
  | S fuel =>
      let! '(time_a, h) := get_time h in
      let! '(time_b, h) := get_time h in
      if bool_decide (time_a = time_b) then Ret (time_a, h) else get_rtc_time fuel h
  end.
End Clock.

(** [ELAPSED] counts milliseconds since [BOOT_RTC] was read. *)
Definition get_unix_time (ELAPSED : Z) (BOOT_RTC : option RTCTime) : outcome Z :=
  let elapsed_sec := div_ceil ELAPSED 1000 in
  let! rtc := unwrap BOOT_RTC in
  let! boot_unix := as_unix_timestamp rtc in
  chk_u 64 (elapsed_sec + boot_unix).

(** ** FAT dates *)
Definition fat_time_of (unix_time : Z) : Z :=
  let seconds_in_day := unix_time mod 86400 in
  let hour := seconds_in_day / 3600 in
  let minute := (seconds_in_day mod 3600) / 60 in
  let sec := seconds_in_day mod 60 in
  Z.lor (Z.lor (wrap_u 16 (Z.shiftl hour 11)) (wrap_u 16 (Z.shiftl minute 5))) (sec / 2).

(** Year, month and day of a count of days since 1970-01-01. *)
Definition civil_from_days (days_since_epoch : Z) : outcome (Z * Z * Z) :=
  let! z := chk_i 32 (days_since_epoch + 719468) in
  let! n := if 0 <=? z then Ret z else chk_i 32 (z - 146096) in
  let era := Z.quot n 146097 in
  let! em := chk_i 32 (era * 146097) in
  let! df := chk_i 32 (z - em) in
  let doe := wrap_u 32 df in
  let! a := sub_u doe (doe / 1460) in
  let! a := chk_u 32 (a + doe / 36524) in
  let! a := sub_u a (doe / 146096) in
  let yoe := a / 365 in
  let! e4 := chk_i 32 (era * 400) in
  let! y := chk_i 32 (wrap_i 32 yoe + e4) in
  let! b := chk_u 32 (365 * yoe) in
  let! b := chk_u 32 (b + yoe / 4) in
  let! b := sub_u b (yoe / 100) in
  let! doy := sub_u doe b in
  let! c := chk_u 32 (5 * doy) in
  let! c := chk_u 32 (c + 2) in
  let mp := c / 153 in
  let! c := chk_u 32 (153 * mp) in
  let! c := chk_u 32 (c + 2) in
  let! d := sub_u doy (c / 5) in
  let! d := chk_u 32 (d + 1) in
  let! m := if mp <? 10 then chk_u 32 (mp + 3) else sub_u mp 9 in
  let! year := if m <=? 2 then chk_i 32 (y + 1) else Ret y in
  Ret (year, m, d).

Definition get_fat_timedate (unix_time : Z) : outcome (Z * Z) :=
  let fat_time := fat_time_of unix_time in
  let! '(year, m, d) := civil_from_days (wrap_i 32 (unix_time / 86400)) in
  let fat_year := if 1980 <=? year then wrap_u 16 (year - 1980) else 0 in
  let fat_date := Z.lor (Z.lor (wrap_u 16 (Z.shiftl fat_year 9)) (wrap_u 16 (Z.shiftl (wrap_u 16 m) 5)))
                        (wrap_u 16 d) in
  Ret (fat_time, fat_date).

(** ** Specification: the Gregorian calendar *)
Definition days_in_month (y m : Z) : Z :=
  if m =? 2 then (if is_leap_year y then 29 else 28)
  else if (m =? 4) || (m =? 6) || (m =? 9) || (m =? 11) then 30 else 31.

Definition valid_time (t : RTCTime) : Prop :=
  1970 <= year t <= 65535 /\ 1 <= month t <= 12 /\ 1 <= day t <= days_in_month (year t) (month t) /\
  0 <= hours t < 24 /\ 0 <= minutes t < 60 /\ 0 <= second t < 60.

(** Days from 1970-01-01 to the first of January of [y], and from there to the
    first of month [m]. *)
Definition days_to_year (y : Z) : Z :=
  365 * (y - 1970) + (y - 1969) / 4 - (y - 1901) / 100 + (y - 1601) / 400.
Definition days_to_month (y m : Z) : Z :=
  default 0 ([0; 31; 59; 90; 120; 151; 181; 212; 243; 273; 304; 334] !! Z.to_nat (m - 1)) +
  (if is_leap_year y && (2 <? m) then 1 else 0).
Definition day_number (y m d : Z) : Z := days_to_year y + days_to_month y m + (d - 1).

(** The fields of the packed words of a directory entry. *)
Definition decode_date (w : Z) : Z * Z * Z :=
  (1980 + Z.shiftr w 9, Z.land (Z.shiftr w 5) 15, Z.land w 31).
Definition decode_time (w : Z) : Z * Z * Z :=
  (Z.shiftr w 11, Z.land (Z.shiftr w 5) 63, 2 * Z.land w 31).

(** ** Lemmas *)
Lemma days_to_year_succ y :
  days_to_year (y + 1) = days_to_year y + (if is_leap_year y then 366 else 365).
Proof.
  unfold days_to_year, is_leap_year.
  destruct (Z.eqb_spec (y mod 4) 0), (Z.eqb_spec (y mod 100) 0), (Z.eqb_spec (y mod 400) 0);
    simpl; Z.to_euclidean_division_equations; lia.
Qed.

Lemma days_to_year_bound y : 1970 <= y <= 65536 -> 0 <= days_to_year y <= 2 ^ 25.
Proof. intros. unfold days_to_year. Z.to_euclidean_division_equations. lia. Qed.

Lemma year_days_spec n y :
  1970 <= y -> y + Z.of_nat n <= 65536 ->
  year_days n y (days_to_year y) = Ret (days_to_year (y + Z.of_nat n)).
Proof.
  revert y; induction n as [|n IH]; intros y H1 H2; simpl year_days.
  - by rewrite Z.add_0_r.
  - rewrite <- days_to_year_succ.
    pose proof (days_to_year_bound (y + 1) ltac:(lia)).
    rewrite chk_u_ret by lia. simpl obind. rewrite IH by lia. do 2 f_equal. lia.
Qed.

Lemma month_days_spec y m :
  1970 <= y <= 65535 -> 1 <= m <= 12 ->
  month_days (Z.to_nat (m - 1)) y 1 (days_to_year y) = Ret (days_to_year y + days_to_month y m).
Proof.
  intros Hy Hm. pose proof (days_to_year_bound y ltac:(lia)) as Hb.
  assert (m = 1 \/ m = 2 \/ m = 3 \/ m = 4 \/ m = 5 \/ m = 6 \/ m = 7 \/ m = 8 \/ m = 9 \/
          m = 10 \/ m = 11 \/ m = 12) as Hc by lia.
  unfold days_to_month. generalize dependent (days_to_year y). intros a Ha.
  destruct_or! Hc; subst m; simpl; destruct (is_leap_year y); simpl;
    repeat (rewrite chk_u_ret by lia; simpl); f_equal; lia.
Qed.

Lemma as_unix_timestamp_spec t :
  valid_time t ->
  as_unix_timestamp t =
    Ret (86400 * day_number (year t) (month t) (day t) + (3600 * hours t + 60 * minutes t + second t)).
Proof.
  intros (Hy & Hm & Hd & Hh & Hmi & Hs). unfold as_unix_timestamp.
  change (year_days _ 1970 0) with (year_days (Z.to_nat (year t - 1970)) 1970 (days_to_year 1970)).
  rewrite year_days_spec by lia. simpl obind.
  replace (1970 + Z.of_nat (Z.to_nat (year t - 1970))) with (year t) by lia.
  rewrite month_days_spec by lia. simpl obind.
  pose proof (days_to_year_bound (year t) ltac:(lia)).
  assert (0 <= days_to_month (year t) (month t) <= 400).
  { unfold days_to_month. destruct (_ !! _) eqn:E; simpl; [| by case_match].
    apply list_elem_of_lookup_2 in E. repeat (apply elem_of_cons in E as [-> | E]; [case_match; lia |]).
    by apply elem_of_nil in E. }
  assert (day t <= 31) by (unfold days_in_month in Hd; repeat case_match; lia).
  rewrite sub_u_ret by lia. simpl obind. unfold day_number.
  repeat (rewrite chk_u_ret by lia; simpl obind). f_equal. lia.
Qed.

(** The year of a day of a 400-year era that starts on the first of March. *)
Lemma year_of_era yoe doy :
  0 <= yoe <= 399 -> 0 <= doy <= 365 ->
  (doy = 365 -> yoe mod 4 = 3 /\ (yoe mod 100 <> 99 \/ yoe = 399)) ->
  let doe := 365 * yoe + yoe / 4 - yoe / 100 + doy in
  (doe - doe / 1460 + doe / 36524 - doe / 146096) / 365 = yoe.
Proof. intros H1 H2 H3 doe. unfold doe. Z.to_euclidean_division_equations. lia. Qed.

(** A date counted from the first of March of year 0. *)
Definition march_year (y m : Z) : Z := if m <=? 2 then y - 1 else y.
Definition march_month (m : Z) : Z := if m <=? 2 then m + 9 else m - 3.

Lemma day_number_march y m d :
  1970 <= y -> 1 <= m <= 12 ->
  day_number y m d + 719468 =
    365 * march_year y m + march_year y m / 4 - march_year y m / 100 + march_year y m / 400 +
    ((153 * march_month m + 2) / 5 + d - 1).
Proof.
  intros Hy Hm.
  assert (m = 1 \/ m = 2 \/ m = 3 \/ m = 4 \/ m = 5 \/ m = 6 \/ m = 7 \/ m = 8 \/ m = 9 \/
          m = 10 \/ m = 11 \/ m = 12) as Hc by lia.
  unfold day_number, days_to_year, days_to_month, march_year, march_month, is_leap_year.
  destruct_or! Hc; subst m; cbn -[Z.div Z.modulo Z.mul Z.add Z.sub];
    rewrite ?andb_false_r, ?andb_true_r;
    destruct (Z.eqb_spec (y mod 4) 0), (Z.eqb_spec (y mod 100) 0), (Z.eqb_spec (y mod 400) 0);
    simpl; Z.to_euclidean_division_equations; lia.
Qed.

Definition valid_date (y m d : Z) : Prop :=
  1970 <= y <= 65535 /\ 1 <= m <= 12 /\ 1 <= d <= days_in_month y m.

(** The day of the year that starts in March, and the days that fit in it. *)
Lemma march_day_range y m d :
  valid_date y m d ->
  let doy := (153 * march_month m + 2) / 5 + d - 1 in
  let yoe := march_year y m mod 400 in
  0 <= doy <= 365 /\ (doy = 365 -> yoe mod 4 = 3 /\ (yoe mod 100 <> 99 \/ yoe = 399)) /\
  (5 * doy + 2) / 153 = march_month m.
Proof.
  intros (Hy & Hm & Hd).
  assert (m = 1 \/ m = 2 \/ m = 3 \/ m = 4 \/ m = 5 \/ m = 6 \/ m = 7 \/ m = 8 \/ m = 9 \/
          m = 10 \/ m = 11 \/ m = 12) as Hc by lia.
  unfold days_in_month, march_year, march_month, is_leap_year in *.
  destruct_or! Hc; subst m; cbn -[Z.div Z.modulo Z.mul Z.add Z.sub] in *;
    repeat split; try (Z.to_euclidean_division_equations; lia).
  all: try match goal with |- _ -> _ => intros E end; destruct (Z.eqb_spec (y mod 4) 0), (Z.eqb_spec (y mod 100) 0), (Z.eqb_spec (y mod 400) 0);
    simpl in Hd; Z.to_euclidean_division_equations; lia.
Qed.

Lemma civil_from_days_number y m d :
  valid_date y m d -> civil_from_days (day_number y m d) = Ret (y, m, d).
Proof.
  intros Hv. destruct (march_day_range y m d Hv) as (Hdoy & Hleap & Hmp).
  destruct Hv as (Hy & Hm & Hd).
  pose proof (day_number_march y m d ltac:(lia) Hm) as Hz.
  set (doy := (153 * march_month m + 2) / 5 + d - 1) in *.
  set (y' := march_year y m) in *. set (yoe := y' mod 400) in *. set (era := y' / 400).
  assert (Hy' : 1969 <= y' <= 65535) by (unfold y', march_year; case_match; lia).
  assert (Hyoe : 0 <= yoe <= 399) by (unfold yoe; pose proof (Z.mod_pos_bound y' 400); lia).
  set (doe := 365 * yoe + yoe / 4 - yoe / 100 + doy) in *.
  assert (Hera : y' = 400 * era + yoe) by apply Z.div_mod, (ltac:(done) : 400 <> 0).
  assert (Hdec : day_number y m d + 719468 = era * 146097 + doe /\ 0 <= doe < 146097 /\ 0 <= era <= 163).
  { rewrite Hz. unfold doe. clearbody yoe era y' doy. subst y'. clear Hz Hmp.
    Z.to_euclidean_division_equations. lia. }
  destruct Hdec as (Hdec & Hdoe & Hera').
  pose proof (year_of_era yoe doy Hyoe Hdoy Hleap) as Hyear. fold doe in Hyear. cbv zeta in Hyear.
  assert (Hb : 0 <= yoe / 4 <= 99 /\ 0 <= yoe / 100 <= 3 /\ yoe / 100 <= yoe) by (Z.to_euclidean_division_equations; lia).
  assert (Hc : 0 <= doe / 1460 <= doe /\ 0 <= doe / 36524 <= 4 /\ 0 <= doe / 146096 <= doe - doe / 1460)
    by (clear -Hdoe; Z.to_euclidean_division_equations; lia).
  unfold civil_from_days. rewrite Hdec.
  rewrite chk_i_ret by lia. cbn [obind]. rewrite (proj2 (Z.leb_le _ _)) by lia. cbn [obind].
  replace (Z.quot (era * 146097 + doe) 146097) with era
    by (clear -Hdoe Hera'; Z.to_euclidean_division_equations; lia).
  rewrite chk_i_ret by lia. cbn [obind]. rewrite chk_i_ret by lia. cbn [obind].
  replace (era * 146097 + doe - era * 146097) with doe by lia.
  rewrite wrap_u_small by lia.
  rewrite sub_u_ret by lia. cbn [obind]. rewrite chk_u_ret by lia. cbn [obind].
  rewrite sub_u_ret by lia. cbn [obind]. rewrite Hyear.
  rewrite chk_i_ret by lia. cbn [obind].
  replace (wrap_i 32 yoe) with yoe by (rewrite wrap_i_small; lia).
  rewrite chk_i_ret by lia. cbn [obind].
  do 2 (rewrite chk_u_ret by lia; cbn [obind]). rewrite sub_u_ret by lia. cbn [obind].
  rewrite sub_u_ret by (unfold doe; lia). cbn [obind].
  replace (doe - (365 * yoe + yoe / 4 - yoe / 100)) with doy by (unfold doe; lia).
  do 2 (rewrite chk_u_ret by lia; cbn [obind]). rewrite Hmp.
  assert (d <= 31) by (unfold days_in_month in Hd; repeat case_match; lia).
  assert (0 <= march_month m <= 11) by (unfold march_month; case_match; lia).
  do 2 (rewrite chk_u_ret by lia; cbn [obind]).
  rewrite sub_u_ret by (unfold doy; lia). cbn [obind]. rewrite chk_u_ret by (unfold doy; lia). cbn [obind].
  replace (doy - (153 * march_month m + 2) / 5 + 1) with d by (unfold doy; lia).
  unfold march_month. replace (yoe + era * 400) with y' by lia. unfold y', march_year.
  destruct (Z.leb_spec m 2).
  - rewrite (proj2 (Z.ltb_ge _ _)), sub_u_ret by lia. cbn [obind].
    rewrite (proj2 (Z.leb_le _ _)), chk_i_ret by lia. cbn [obind]. repeat f_equal; lia.
  - rewrite (proj2 (Z.ltb_lt _ _)), chk_u_ret by lia. cbn [obind].
    rewrite (proj2 (Z.leb_gt _ _)) by lia. cbn [obind]. repeat f_equal; lia.
Qed.

Lemma decode_date_fields y m d :
  0 <= y < 128 -> 0 <= m < 16 -> 0 <= d < 32 ->
  decode_date (Z.lor (Z.lor (wrap_u 16 (Z.shiftl y 9)) (wrap_u 16 (Z.shiftl (wrap_u 16 m) 5)))
                     (wrap_u 16 d)) = (1980 + y, m, d).
Proof.
  intros Hy Hm Hd. rewrite (wrap_u_small 16 m), (wrap_u_small 16 d) by lia.
  rewrite !wrap_u_small by (rewrite Z.shiftl_mul_pow2 by lia; lia).
  change (Z.shiftl y 9) with (Z.shiftl y (5 + 4)). rewrite (lor_fields y m d 5 4) by lia. unfold decode_date.
  change 15 with (2 ^ 4 - 1). change 31 with (2 ^ 5 - 1).
  rewrite !land_ones_mod, !Z.shiftr_div_pow2 by lia.
  repeat f_equal; Z.to_euclidean_division_equations; lia.
Qed.

Lemma decode_time_fields h m s :
  0 <= h < 24 -> 0 <= m < 60 -> 0 <= s < 60 ->
  decode_time (fat_time_of (3600 * h + 60 * m + s)) = (h, m, 2 * (s / 2)).
Proof.
  intros Hh Hm Hs. unfold fat_time_of. rewrite (Z.mod_small _ 86400) by lia.
  replace ((3600 * h + 60 * m + s) / 3600) with h by (Z.to_euclidean_division_equations; lia).
  replace ((3600 * h + 60 * m + s) mod 3600 / 60) with m by (Z.to_euclidean_division_equations; lia).
  replace ((3600 * h + 60 * m + s) mod 60) with s by (Z.to_euclidean_division_equations; lia).
  rewrite !wrap_u_small by (rewrite Z.shiftl_mul_pow2 by lia; lia).
  assert (0 <= s / 2 < 32) by (Z.to_euclidean_division_equations; lia).
  change (Z.shiftl h 11) with (Z.shiftl h (5 + 6)). rewrite (lor_fields h m (s / 2) 5 6) by lia. unfold decode_time.
  change 63 with (2 ^ 6 - 1). change 31 with (2 ^ 5 - 1).
  rewrite !land_ones_mod, !Z.shiftr_div_pow2 by lia.
  repeat f_equal; Z.to_euclidean_division_equations; lia.
Qed.

Lemma day_number_range y m d : valid_date y m d -> 0 <= day_number y m d < 2 ^ 26.
Proof.
  intros (Hy & Hm & Hd). pose proof (days_to_year_bound y ltac:(lia)).
  assert (0 <= days_to_month y m <= 400).
  { unfold days_to_month. destruct (_ !! _) eqn:E; simpl; [| by case_match].
    apply list_elem_of_lookup_2 in E. repeat (apply elem_of_cons in E as [-> | E]; [case_match; lia |]).
    by apply elem_of_nil in E. }
  assert (d <= 31) by (unfold days_in_month in Hd; repeat case_match; lia).
  unfold day_number. lia.
Qed.

(** ** Properties *)

(** The clock to the file system: for every valid date and time from 1980
    to 2107, converting the clock's reading to Unix time and then to the packed
    words of a directory entry gives words that decode to the same date and
    time, the seconds rounded down to an even number.  Neither conversion
    overflows. *)
Theorem rtc_fat_roundtrip t :
  valid_time t -> 1980 <= year t <= 2107 ->
  exists u ft fd, as_unix_timestamp t = Ret u /\ get_fat_timedate u = Ret (ft, fd) /\
    decode_date fd = (year t, month t, day t) /\
    decode_time ft = (hours t, minutes t, 2 * (second t / 2)).
Proof.
  intros Hv Hy. rewrite as_unix_timestamp_spec by done. destruct Hv as (Hy' & Hm & Hd & Hh & Hmi & Hs).
  assert (Hvd : valid_date (year t) (month t) (day t)) by done.
  pose proof (day_number_range _ _ _ Hvd). set (n := day_number _ _ _) in *.
  set (s := 3600 * hours t + 60 * minutes t + second t).
  assert (0 <= s < 86400) by (unfold s; lia).
  assert (day t <= 31) by (unfold days_in_month in Hd; repeat case_match; lia).
  eexists _, _, _. split; [done |]. unfold get_fat_timedate.
  replace ((86400 * n + s) / 86400) with n by (Z.to_euclidean_division_equations; lia).
  rewrite wrap_i_small by lia. unfold n. rewrite civil_from_days_number by done. cbn [obind].
  rewrite (proj2 (Z.leb_le _ _)) by lia. rewrite (wrap_u_small 16 (year t - 1980)) by lia.
  split; [done |]. rewrite decode_date_fields by lia. split; [repeat f_equal; lia |].
  unfold fat_time_of at 1. fold n. replace ((86400 * n + s) mod 86400) with (s mod 86400)
    by (rewrite Z.add_comm, (Z.mul_comm 86400), Z.mod_add; lia).
  by apply decode_time_fields.
Qed.

(** The Unix time of the clock is 86400 for each day since 1970-01-01 plus
    the second of the day, for every valid date. *)
Theorem unix_timestamp_correct t :
  valid_time t ->
  as_unix_timestamp t =
    Ret (86400 * day_number (year t) (month t) (day t) + (3600 * hours t + 60 * minutes t + second t)).
Proof. apply as_unix_timestamp_spec. Qed.

Definition leap_day : RTCTime :=
  {| year := 2024; month := 2; day := 29; hours := 23; minutes := 59; second := 59 |}.

Lemma leap_day_valid : valid_time leap_day.
Proof. unfold valid_time. vm_compute. intuition congruence. Qed.

Lemma rtc_fat_roundtrip_witness :
  exists u ft fd, as_unix_timestamp leap_day = Ret u /\ get_fat_timedate u = Ret (ft, fd) /\
    decode_date fd = (2024, 2, 29) /\ decode_time ft = (23, 59, 58).
Proof. apply (rtc_fat_roundtrip leap_day leap_day_valid). simpl. lia. Defined.

Lemma unix_timestamp_correct_witness : as_unix_timestamp leap_day = Ret 1709251199.
Proof. exact (unix_timestamp_correct leap_day leap_day_valid). Defined.
