(* ===== verification/Fat.v ===== *)
(** * The FAT32 driver

    [kernel/src/fs/fat.rs], operation by operation, over any [BlockDevice].
    [&self] methods that write the disk return the driver with the new disk.
    A loop along a cluster chain takes fuel, one unit for each cluster: chains
    on a damaged disk can be cyclic, and then the code does not return.
    Results of [read] and [write] are dropped where the code drops them. *)
From S2P Require Import Prelude Slices Text Disk Time.

Definition EOC : Z := 268435455.

(** The boot sector, [BPB], a packed structure of 512 bytes. *)
Record BPB := {
  jmp_bytes : list Z;
  oem_identifier : list Z;
  bytes_per_sector : Z;
  sectors_per_cluster : Z;
  reserved_sector_count : Z;
  num_fats : Z;
  root_entry_count : Z;
  total_sectors_16 : Z;
  media : Z;
  fat_size_16 : Z;
  sectors_per_track : Z;
  num_heads : Z;
  hidden_sectors : Z;
  total_sectors_32 : Z;
  fat_size_32 : Z;
  ext_flags : Z;
  fs_ver : Z;
  root_cluster : Z;
  fs_info_sector : Z;
  backup_boot_sector : Z;
  bpb_reserved : list Z;
  drive_num : Z;
  reserved_1 : Z;
  boot_signature : Z;
  volume_id : Z;
  volume_label : list Z;
  filesys_type : list Z;
  boot_code : list Z;
  boot_sector_signature : Z
}.

Record FSInfo := {
  lead_signature : Z;
  fsi_reserved_1 : list Z;
  struct_signature : Z;
  free_count : Z;
  next_free : Z;
  fsi_reserved2 : list Z;
  trail_signature : Z
}.

(** ** Directory entries *)
Record DirEntry := {
  name : list Z;
  ext : list Z;
  attr : Z;
  nt_reserved : Z;
  creation_time_tenth : Z;
  creation_time : Z;
  creation_date : Z;
  last_access_date : Z;
  first_cluster_high : Z;
  write_time : Z;
  write_date : Z;
  first_cluster_low : Z;
  file_size : Z
}.

Record ClusterOffset := { co_cluster : Z; co_offset : Z }.
Record SectorOffset := { so_sector : Z; so_offset : Z }.
Record DirEntryWithLoc := { entry : DirEntry; loc : ClusterOffset }.

Definition DOT : list Z := [46; 32; 32; 32; 32; 32; 32; 32].
Definition DOT_DOT : list Z := [46; 46; 32; 32; 32; 32; 32; 32].
Definition FAT_ATTR_DIRECTORY : Z := 16.
Definition FAT_ATTR_ARCHIVE : Z := 32.

Definition first_cluster (e : DirEntry) : Z :=
  Z.lor (Z.shiftl (first_cluster_high e) 16) (first_cluster_low e).

Definition set_first_cluster (first_new : Z) (e : DirEntry) : DirEntry :=
  {| name := name e; ext := ext e; attr := attr e; nt_reserved := nt_reserved e;
     creation_time_tenth := creation_time_tenth e; creation_time := creation_time e;
     creation_date := creation_date e; last_access_date := last_access_date e;
     first_cluster_high := wrap_u 16 (Z.shiftr first_new 16);
     write_time := write_time e; write_date := write_date e;
     first_cluster_low := wrap_u 16 first_new; file_size := file_size e |}.

Definition set_file_size (n : Z) (e : DirEntry) : DirEntry :=
  {| name := name e; ext := ext e; attr := attr e; nt_reserved := nt_reserved e;
     creation_time_tenth := creation_time_tenth e; creation_time := creation_time e;
     creation_date := creation_date e; last_access_date := last_access_date e;
     first_cluster_high := first_cluster_high e;
     write_time := write_time e; write_date := write_date e;
     first_cluster_low := first_cluster_low e; file_size := n |}.

Definition set_name (nm ex : list Z) (e : DirEntry) : DirEntry :=
  {| name := nm; ext := ex; attr := attr e; nt_reserved := nt_reserved e;
     creation_time_tenth := creation_time_tenth e; creation_time := creation_time e;
     creation_date := creation_date e; last_access_date := last_access_date e;
     first_cluster_high := first_cluster_high e;
     write_time := write_time e; write_date := write_date e;
     first_cluster_low := first_cluster_low e; file_size := file_size e |}.

Definition is_dot (e : DirEntry) : bool :=
  bool_decide (name e = DOT) || bool_decide (name e = DOT_DOT).

(** The 32 bytes of the packed structure, both ways. *)
Definition encode_dirent (e : DirEntry) : list Z :=
  name e ++ ext e ++ [attr e; nt_reserved e; creation_time_tenth e] ++
  le_bytes 2 (creation_time e) ++ le_bytes 2 (creation_date e) ++ le_bytes 2 (last_access_date e) ++
  le_bytes 2 (first_cluster_high e) ++ le_bytes 2 (write_time e) ++ le_bytes 2 (write_date e) ++
  le_bytes 2 (first_cluster_low e) ++ le_bytes 4 (file_size e).

Definition byte_at (l : list Z) (i : nat) : Z := default 0 (l !! i).
Definition num_at (l : list Z) (i n : nat) : Z := le_num (get l i n).

Definition decode_dirent (l : list Z) : DirEntry :=
  {| name := get l 0 8; ext := get l 8 3; attr := byte_at l 11; nt_reserved := byte_at l 12;
     creation_time_tenth := byte_at l 13;
     creation_time := num_at l 14 2; creation_date := num_at l 16 2;
     last_access_date := num_at l 18 2; first_cluster_high := num_at l 20 2;
     write_time := num_at l 22 2; write_date := num_at l 24 2;
     first_cluster_low := num_at l 26 2; file_size := num_at l 28 4 |}.

Definition is_eoc (val : Z) : bool := 268435448 <=? val.
Definition is_free (val : Z) : bool := val =? 0.
Definition is_bad (val : Z) : bool := val =? 268435447.
Definition is_valid_next (val : Z) : bool := (2 <=? val) && (val <=? 268435439).

(** ** Names

    A string is the list of its characters, as code points. *)
Definition to_ascii_uppercase (c : Z) : Z := if (97 <=? c) && (c <=? 122) then c - 32 else c.

(** The tables behind [str::to_uppercase], which matter outside ASCII. *)
Class UnicodeTable := { unicode_upper : Z -> list Z }.

Definition utf8 (c : Z) : list Z :=
  if c <? 128 then [c]
  else if c <? 2048 then [192 + c / 64; 128 + c mod 64]
  else if c <? 65536 then [224 + c / 4096; 128 + c / 64 mod 64; 128 + c mod 64]
  else [240 + c / 262144; 128 + c / 4096 mod 64; 128 + c / 64 mod 64; 128 + c mod 64].

Definition to_uppercase `{UnicodeTable} (s : list Z) : list Z :=
  s ≫= fun c => if c <? 128 then [to_ascii_uppercase c] else unicode_upper c.
Definition as_bytes (s : list Z) : list Z := s ≫= utf8.

(** [bytes.iter().rposition(|&b| b != 0x20).map_or(0, |i| i + 1)] *)
Fixpoint fat_len (bytes : list Z) : nat :=
  match bytes with
  | [] => O
  | b :: l => match fat_len l with
              | O => if b =? 32 then O else 1%nat
              | S n => S (S n)
              end
  end.

(** [for (i, c) in s.chars().take(8).enumerate() { buf[i] = .. }] *)
Fixpoint fill_chars (s : list Z) (i : Z) (buf : list Z) : outcome (list Z) :=
  match s with
  | [] => Ret buf
  | c :: s => let! buf := upd buf i (wrap_u 8 (to_ascii_uppercase c)) in fill_chars s (i + 1) buf
  end.
Definition fill (s : list Z) (buf : list Z) : outcome (list Z) := fill_chars (take 8 s) 0 buf.

Definition name_fields (s : list Z) : outcome (list Z * list Z) :=
  let '(name_str, ext_str) := match rsplit_once 46 s with Some (n, e) => (n, e) | None => (s, []) end in
  let! nm := fill name_str (replicate 8 32) in
  let! ex := fill ext_str (replicate 3 32) in
  Ret (nm, ex).

(** ** The driver *)
Record Fat32 (D : Type) := mkFat {
  bpb : BPB;
  fs_info : FSInfo;
  disk : D;
  fat_start : Z;
  data_start : Z
}.
Arguments mkFat {D}.
Arguments bpb {D}.
Arguments fs_info {D}.
Arguments disk {D}.
Arguments fat_start {D}.
Arguments data_start {D}.

Definition with_disk {D} (d : D) (f : Fat32 D) : Fat32 D :=
  mkFat (bpb f) (fs_info f) d (fat_start f) (data_start f).

Section Driver.
Context {D : Type} {BD : BlockDevice D}.
Implicit Types f : Fat32 D.

(** [Fat32::new] *)
Definition fat_new (b : BPB) (i : FSInfo) (d : D) : outcome (Fat32 D) :=
  let fs := reserved_sector_count b in
  let! n := chk_u 32 (num_fats b * fat_size_32 b) in
  let! ds := chk_u 32 (fs + n) in
  Ret (mkFat b i d fs ds).

(** [self.disk.read(..)] and [self.disk.write(..)] with the result dropped. *)
Definition read_sectors f (lba n : Z) (buf : list Z) : outcome (list Z) :=
  let! '(buf, _) := bd_read (disk f) lba n buf in Ret buf.
Definition write_sectors f (lba : Z) (data : list Z) : outcome (Fat32 D) :=
  let! '(d, _) := bd_write (disk f) lba data in Ret (with_disk d f).

Definition zeros (n : Z) : list Z := replicate (Z.to_nat n) 0.

Definition cluster_to_lba f (cluster : Z) : outcome Z :=
  let! c := sub_u cluster 2 in
  let! s := chk_u 32 (c * sectors_per_cluster (bpb f)) in
  chk_u 32 (data_start f + s).

Definition cluster_to_fat_entry f (cluster : Z) : outcome SectorOffset :=
  let! fat_offset := chk_u 32 (cluster * 4) in
  let! _ := ensure (negb (bytes_per_sector (bpb f) =? 0)) in
  let! fat_sector := chk_u 32 (fat_start f + fat_offset / bytes_per_sector (bpb f)) in
  Ret {| so_sector := fat_sector; so_offset := fat_offset mod bytes_per_sector (bpb f) |}.

Definition get_next_cluster f (cluster : Z) : outcome Z :=
  let! start := cluster_to_fat_entry f cluster in
  let! buffer := read_sectors f (so_sector start) 1 (zeros 512) in
  let! bytes := slice buffer (so_offset start) (so_offset start + 4) in
  Ret (Z.land (le_num bytes) 268435455).

Definition link_clusters f (from_cluster to_cluster : Z) : outcome (Fat32 D) :=
  let! start := cluster_to_fat_entry f from_cluster in
  let! buffer := read_sectors f (so_sector start) 1 (zeros 512) in
  let! e := chk_u 32 (so_offset start + 4) in
  let! bytes := slice buffer (so_offset start) e in
  let old_value := le_num bytes in
  let new_value := Z.lor (Z.land to_cluster 268435455) (Z.land old_value 4026531840) in
  let! buffer := splice buffer (so_offset start) (le_bytes 4 new_value) in
  write_sectors f (so_sector start) buffer.

(** [for i in start..total_num_clusters] *)
Fixpoint find_free f (n : nat) (i : Z) : outcome (option Z) :=
  match n with
  | O => Ret None
  | S n => let! v := get_next_cluster f i in
           if v =? 0 then Ret (Some i) else find_free f n (i + 1)
  end.

Definition get_free_cluster f : outcome (option Z) :=
  let! start := chk_u 32 (root_cluster (bpb f) + 1) in
  let! s := sub_u (total_sectors_32 (bpb f)) (data_start f) in
  let! _ := ensure (negb (sectors_per_cluster (bpb f) =? 0)) in
  let total_num_clusters := s / sectors_per_cluster (bpb f) in
  find_free f (Z.to_nat (total_num_clusters - start)) start.

(** [for _ in 1..n] *)
Fixpoint alloc_more f (n : nat) (curr : Z) : outcome (Z * Fat32 D) :=
  match n with
  | O => Ret (curr, f)
  | S n =>
      let! fr := get_free_cluster f in
      let! new_cluster := unwrap fr in
      let! f := link_clusters f curr new_cluster in
      let! f := link_clusters f new_cluster EOC in
      alloc_more f n new_cluster
  end.

Definition alloc_clusters f (n : Z) : outcome (option Z * Fat32 D) :=
  if n =? 0 then Ret (None, f) else
  let! fr := get_free_cluster f in
  let! start := unwrap fr in
  let! f := link_clusters f start EOC in
  let! '(curr, f) := alloc_more f (Z.to_nat (n - 1)) start in
  let! f := link_clusters f curr EOC in
  Ret (Some start, f).

Fixpoint free_clusters (fuel : nat) f (curr : Z) : outcome (Fat32 D) :=
  match fuel with
  | O => NoFuel
  | S fuel =>
      if is_eoc curr then Ret f else
      let! next := get_next_cluster f curr in
      let! f := link_clusters f curr 0 in
      free_clusters fuel f next
  end.

Definition cluster_offset_to_lba f (cluster pos : Z) : outcome Z :=
  let! start_lba := cluster_to_lba f cluster in
  chk_u 64 (start_lba + pos / 512).

(** [&buffer[n..]] *)
Definition slice_from {A} (l : list A) (a : Z) : outcome (list A) := slice l a (Z.of_nat (length l)).

(** The read, modify and write of the first sector; returns the bytes used. *)
Definition write_head f (lba cluster_offset : Z) (buffer : list Z) : outcome (Fat32 D * Z) :=
  let! temp_sector := read_sectors f lba 1 (zeros 512) in
  let head_bytes_written := Z.min (Z.of_nat (length buffer)) (512 - cluster_offset mod 512) in
  let! src := slice buffer 0 head_bytes_written in
  let! temp_sector := splice temp_sector (cluster_offset mod 512) src in
  let! f := write_sectors f lba temp_sector in
  Ret (f, head_bytes_written).

(** The sectors written whole. *)
Definition write_middle f (lba has_head cluster_offset start middle_end : Z) (buffer : list Z)
  : outcome (Fat32 D) :=
  if start + cluster_offset <? middle_end then
    let! middle_lba := chk_u 64 (lba + has_head) in
    let! e := sub_u middle_end cluster_offset in
    let! data := slice buffer start e in
    write_sectors f middle_lba data
  else Ret f.

(** The read, modify and write of the last sector. *)
Definition write_tail f (cluster cluster_offset end_pos middle_end : Z) (buffer : list Z)
  : outcome (Fat32 D) :=
  if negb (end_pos mod 512 =? 0) then
    let! end_lba := cluster_offset_to_lba f cluster end_pos in
    let! temp_sector := read_sectors f end_lba 1 (zeros 512) in
    let! s := sub_u middle_end cluster_offset in
    let! src := slice_from buffer s in
    let! _ := ensure (Z.of_nat (length src) =? end_pos mod 512) in
    let! temp_sector := splice temp_sector 0 src in
    write_sectors f end_lba temp_sector
  else Ret f.

Definition write_cluster f (cluster cluster_offset : Z) (buffer : list Z) : outcome (Fat32 D) :=
  let total_write_bytes := Z.of_nat (length buffer) in
  let! end_pos := chk_u 64 (cluster_offset + total_write_bytes) in
  let! lba := cluster_offset_to_lba f cluster cluster_offset in
  let! '(f, buffer_cursor) :=
    if negb (cluster_offset mod 512 =? 0) || (total_write_bytes <=? 512)
    then write_head f lba cluster_offset buffer
    else Ret (f, 0) in
  if buffer_cursor =? total_write_bytes then Ret f else
  let has_head := if 0 <? buffer_cursor then 1 else 0 in
  let cluster_middle_end := end_pos - end_pos mod 512 in
  let! f := write_middle f lba has_head cluster_offset buffer_cursor cluster_middle_end buffer in
  write_tail f cluster cluster_offset end_pos cluster_middle_end buffer.

Definition update_dir f (dirloc : DirEntryWithLoc) : outcome (Fat32 D) :=
  write_cluster f (co_cluster (loc dirloc)) (co_offset (loc dirloc)) (encode_dirent (entry dirloc)).

Definition cluster_bytes f : Z := sectors_per_cluster (bpb f) * 512.

(** *** Reading a file: from its first byte, whatever the position *)
Fixpoint read_loop (fuel : nat) f (target cluster bytes_read : Z) (buffer : list Z)
  : outcome (Z * list Z) :=
  match fuel with
  | O => NoFuel
  | S fuel =>
      if (bytes_read <? Z.of_nat (length buffer)) && negb (is_eoc cluster) then
        let! lba := cluster_to_lba f cluster in
        let! remaining_to_read := sub_u target bytes_read in
        let bytes_to_copy := Z.min (cluster_bytes f) remaining_to_read in
        let! temp := read_sectors f lba (sectors_per_cluster (bpb f)) (zeros (cluster_bytes f)) in
        let! src := slice temp 0 bytes_to_copy in
        let! buffer := splice buffer bytes_read src in
        let! next := get_next_cluster f cluster in
        read_loop fuel f target next (bytes_read + bytes_to_copy) buffer
      else Ret (bytes_read, buffer)
  end.

Definition read_buffer (fuel : nat) f (dir : DirEntryWithLoc) (buffer : list Z) : outcome (Z * list Z) :=
  let target_read_bytes := Z.min (Z.of_nat (length buffer)) (file_size (entry dir)) in
  if target_read_bytes =? 0 then Ret (0, buffer) else
  read_loop fuel f target_read_bytes (first_cluster (entry dir)) 0 buffer.

(** *** Writing a file *)

(** Both walks of [write_buffer] to the cluster of the offset: the first stops
    at the end of the chain, the second does not. *)
Fixpoint walk_chain (n : nat) f (stop : bool) (prev curr i : Z) : outcome (Z * Z * Z) :=
  match n with
  | O => Ret (prev, curr, i)
  | S n => if stop && (is_eoc curr || (curr =? 0)) then Ret (prev, curr, i) else
           let! next := get_next_cluster f curr in
           walk_chain n f stop curr next (i + 1)
  end.

(** The loop that finds the last cluster of the existing chain. *)
Fixpoint find_end (fuel : nat) f (last : Z) : outcome Z :=
  match fuel with
  | O => NoFuel
  | S fuel => let! next := get_next_cluster f last in
              if is_eoc next then Ret last else find_end fuel f next
  end.

(** The clusters after the first one written. *)
Fixpoint write_rest (fuel : nat) f (curr i bytes_written : Z) (buffer : list Z)
  : outcome (Fat32 D * Z) :=
  match fuel with
  | O => NoFuel
  | S fuel =>
      if i <? Z.of_nat (length buffer) then
        let! curr := get_next_cluster f curr in
        let! data := slice buffer i (Z.min (i + cluster_bytes f) (Z.of_nat (length buffer))) in
        let! f := write_cluster f curr 0 data in
        write_rest fuel f curr (i + cluster_bytes f) (bytes_written + Z.of_nat (length data)) buffer
      else Ret (f, bytes_written)
  end.

(** Extend the chain by [new_clusters] and give the entry its first cluster. *)
Definition extend_chain (fuel : nat) f (dir : DirEntryWithLoc) (prev curr new_clusters : Z)
  : outcome (Fat32 D * DirEntryWithLoc * Z) :=
  let! '(r, f) := alloc_clusters f new_clusters in
  let! first_new := unwrap r in
  let! '(f, dir) :=
    if negb (prev =? 0) then
      let! last := find_end fuel f prev in
      let! f := link_clusters f last first_new in
      Ret (f, dir)
    else
      let dir := {| entry := set_first_cluster first_new (entry dir); loc := loc dir |} in
      let! f := update_dir f dir in
      Ret (f, dir) in
  Ret (f, dir, if (curr =? 0) || is_eoc curr then first_new else curr).

Definition write_buffer (fuel : nat) f (dir : DirEntryWithLoc) (offset : Z) (buffer : list Z)
  : outcome (Fat32 D * DirEntryWithLoc * Z) :=
  let cb := cluster_bytes f in
  let! required_size := chk_u 64 (offset + Z.of_nat (length buffer)) in
  let! _ := ensure (negb (cb =? 0)) in
  let required_clusters := div_ceil required_size cb in
  let curr_num_clusters := div_ceil (file_size (entry dir)) cb in
  let cluster_index := offset / cb in
  let cluster_offset := offset mod cb in
  let first := first_cluster (entry dir) in
  let! '(prev, curr, i) := walk_chain (Z.to_nat cluster_index) f true first first 0 in
  let! '(f, dir, curr) :=
    if curr_num_clusters <? required_clusters
    then extend_chain fuel f dir prev curr (required_clusters - curr_num_clusters)
    else Ret (f, dir, curr) in
  let! '(_, curr, _) := walk_chain (Z.to_nat (cluster_index - i)) f false prev curr i in
  let n := Z.min (cb - cluster_offset) (Z.of_nat (length buffer)) in
  let! data := slice buffer 0 n in
  let! f := write_cluster f curr cluster_offset data in
  let! '(f, bytes_written) := write_rest fuel f curr n (n + 1) buffer in
  if file_size (entry dir) <? required_size then
    let dir := {| entry := set_file_size (wrap_u 32 required_size) (entry dir); loc := loc dir |} in
    let! f := update_dir f dir in
    Ret (f, dir, bytes_written)
  else Ret (f, dir, bytes_written).

(** *** Directories *)

(** The entries of one cluster: a zero byte ends them, 0xE5 marks a deleted
    one.  [buffer] is the part of the cluster from entry [i] on. *)
Fixpoint parse_entries (n : nat) (cluster i : Z) (buffer : list Z) : list DirEntryWithLoc :=
  match n with
  | O => []
  | S n =>
      let bytes := take 32 buffer in
      let rest := parse_entries n cluster (i + 1) (drop 32 buffer) in
      if byte_at bytes 0 =? 0 then []
      else if byte_at bytes 0 =? 229 then rest
      else {| entry := decode_dirent bytes;
              loc := {| co_cluster := cluster; co_offset := wrap_u 32 (i * 32) |} |} :: rest
  end.

Definition read_cluster f (cluster : Z) : outcome (list Z) :=
  let! lba := cluster_to_lba f cluster in
  read_sectors f lba (sectors_per_cluster (bpb f)) (zeros (cluster_bytes f)).

Fixpoint read_dir_from_cluster (fuel : nat) f (cluster : Z) : outcome (list DirEntryWithLoc) :=
  match fuel with
  | O => NoFuel
  | S fuel =>
      if is_valid_next cluster then
        let! buffer := read_cluster f cluster in
        let entries := parse_entries (Z.to_nat (cluster_bytes f / 32)) cluster 0 buffer in
        let! next := get_next_cluster f cluster in
        let! more := read_dir_from_cluster fuel f next in
        Ret (entries ++ more)
      else Ret []
  end.

Section Names.
Context {U : UnicodeTable}.

Definition compare_string_bytes (s bytes : list Z) : bool :=
  let target_bytes := as_bytes (to_uppercase s) in
  (length target_bytes =? fat_len bytes)%nat && bool_decide (target_bytes = take (fat_len bytes) bytes).

Definition compare_dirent (segment : list Z) (dir : DirEntry) : bool :=
  match split_once 46 segment with
  | Some (filename, ex) => compare_string_bytes filename (name dir) && compare_string_bytes ex (ext dir)
  | None => compare_string_bytes segment (name dir) && forallb (fun x => x =? 32) (ext dir)
  end.

Definition find_entry (nm : list Z) (l : list DirEntryWithLoc) : option DirEntryWithLoc :=
  snd <$> list_find (fun d => compare_dirent nm (entry d) = true) l.

Definition find (fuel : nat) f (parent_cluster : Z) (nm : list Z) : outcome (option DirEntryWithLoc) :=
  let! l := read_dir_from_cluster fuel f parent_cluster in
  Ret (find_entry nm l).
End Names.

(** The first free slot of one cluster. *)
Fixpoint free_slot (n : nat) (i : Z) (buffer : list Z) : option Z :=
  match n with
  | O => None
  | S n => let b := byte_at (take 32 buffer) 0 in
           if (b =? 0) || (b =? 229) then Some (wrap_u 32 (i * 32))
           else free_slot n (i + 1) (drop 32 buffer)
  end.

Fixpoint get_free_dirent_pos (fuel : nat) f (cluster : Z) : outcome (option ClusterOffset) :=
  match fuel with
  | O => NoFuel
  | S fuel =>
      if is_eoc cluster then Ret None else
      let! buffer := read_cluster f cluster in
      match free_slot (Z.to_nat (cluster_bytes f / 32)) 0 buffer with
      | Some o => Ret (Some {| co_cluster := cluster; co_offset := o |})
      | None => let! next := get_next_cluster f cluster in get_free_dirent_pos fuel f next
      end
  end.

(** A new entry, as [create_file] and [create_dir] fill it in. *)
Definition new_entry (nm ex : list Z) (attr fat_time fat_date : Z) : DirEntry :=
  {| name := nm; ext := ex; nt_reserved := 0; attr := attr; creation_time_tenth := 0;
     creation_time := fat_time; creation_date := fat_date; last_access_date := fat_date;
     first_cluster_low := 0; first_cluster_high := 0; write_time := fat_time;
     write_date := fat_date; file_size := 0 |}.

Definition create_dir (fuel : nat) (unix_time : Z) f (parent : DirEntryWithLoc) (dir_name : list Z)
  : outcome (Fat32 D) :=
  let! p := get_free_dirent_pos fuel f (first_cluster (entry parent)) in
  let! free_position := unwrap p in
  let! nm := fill dir_name (replicate 8 32) in
  let ex := replicate 3 32 in
  let! '(fat_time, fat_date) := get_fat_timedate unix_time in
  let! '(r, f) := alloc_clusters f 1 in
  let! new_cluster := unwrap r in
  let! lba := cluster_to_lba f new_cluster in
  let! f := write_sectors f lba (zeros (cluster_bytes f)) in
  let dot := set_first_cluster (co_cluster free_position)
               (new_entry DOT [0; 0; 0] FAT_ATTR_DIRECTORY fat_time fat_date) in
  let parent_cluster := if co_cluster (loc parent) =? root_cluster (bpb f) then 0
                        else co_cluster (loc parent) in
  let dotdot := set_first_cluster parent_cluster
                  (new_entry DOT_DOT [0; 0; 0] FAT_ATTR_DIRECTORY fat_time fat_date) in
  let! f := update_dir f {| entry := dot; loc := {| co_cluster := new_cluster; co_offset := 0 |} |} in
  let! f := update_dir f {| entry := dotdot; loc := {| co_cluster := new_cluster; co_offset := 32 |} |} in
  let new_dir := set_first_cluster new_cluster (new_entry nm ex FAT_ATTR_DIRECTORY fat_time fat_date) in
  update_dir f {| entry := new_dir; loc := free_position |}.

Definition create_file (fuel : nat) (unix_time : Z) f (parent_cluster : Z) (file_name : list Z)
  : outcome (Fat32 D) :=
  let! p := get_free_dirent_pos fuel f parent_cluster in
  let! free_position := unwrap p in
  let! '(nm, ex) := name_fields file_name in
  let! '(fat_time, fat_date) := get_fat_timedate unix_time in
  update_dir f {| entry := new_entry nm ex FAT_ATTR_ARCHIVE fat_time fat_date; loc := free_position |}.

Definition mv f (dirent : DirEntryWithLoc) (to : list Z) : outcome (Fat32 D * DirEntryWithLoc) :=
  let! '(nm, ex) := name_fields to in
  let dirent := {| entry := set_name nm ex (entry dirent); loc := loc dirent |} in
  let! f := update_dir f dirent in
  Ret (f, dirent).

(** [dirent.entry.name[0] = 0xE5] *)
Definition mark_deleted (d : DirEntryWithLoc) : outcome DirEntryWithLoc :=
  let! nm := upd (name (entry d)) 0 229 in
  Ret {| entry := set_name nm (ext (entry d)) (entry d); loc := loc d |}.

Definition delete_file (fuel : nat) f (dirent : DirEntryWithLoc) : outcome (Fat32 D * DirEntryWithLoc) :=
  let! dirent := mark_deleted dirent in
  let! f := free_clusters fuel f (first_cluster (entry dirent)) in
  let! f := update_dir f dirent in
  Ret (f, dirent).

Definition delete_dir (fuel : nat) f (dirent : DirEntryWithLoc) : outcome (Fat32 D * DirEntryWithLoc) :=
  let! children := read_dir_from_cluster fuel f (first_cluster (entry dirent)) in
  let is_safe_to_del := forallb (fun c => is_dot (entry c)) children in
  if is_safe_to_del then delete_file fuel f dirent else Ret (f, dirent).

(** [get_root_inode]: the entry that stands for the root directory. *)
Definition root_direntry f : DirEntryWithLoc :=
  let r := root_cluster (bpb f) in
  {| entry := {| name := replicate 8 0; ext := replicate 3 0; attr := FAT_ATTR_DIRECTORY;
                 nt_reserved := 0; creation_time_tenth := 0; creation_time := 0; creation_date := 0;
                 last_access_date := 0; first_cluster_high := wrap_u 16 (Z.shiftr r 16);
                 write_time := 0; write_date := 0; first_cluster_low := Z.land r 65535;
                 file_size := 0 |};
     loc := {| co_cluster := r; co_offset := 0 |} |}.

(** The inode number [lookup] gives an entry: the byte address of the entry. *)
Definition inode_number f (d : DirEntryWithLoc) : outcome Z :=
  let bytes_per_cluster := cluster_bytes f in
  let data_start_bytes := data_start f * 512 in
  let! c := sub_u (co_cluster (loc d)) 2 in
  let! m := chk_u 64 (c * bytes_per_cluster) in
  let! a := chk_u 64 (data_start_bytes + m) in
  chk_u 64 (a + co_offset (loc d)).

(** [lookup]: the directory searched is the one at cluster [parent.inum]. *)
Definition lookup_inode `{UnicodeTable} (fuel : nat) f (parent_inum : Z) (nm : list Z)
  : outcome (option (Z * DirEntryWithLoc)) :=
  let! r := find fuel f (wrap_u 32 parent_inum) nm in
  match r with
  | Some d => let! inum := inode_number f d in Ret (Some (inum, d))
  | None => Ret None
  end.

Definition get_dir_entry f (inum : Z) : outcome DirEntryWithLoc :=
  let offset := Z.land inum 511 in
  let! '(buffer, r) := bd_read (disk f) (Z.shiftr inum 9) 1 (zeros 512) in
  let! _ := ensure (match r with inr _ => true | inl _ => false end) in
  let! entry_bytes := slice buffer offset (offset + 32) in
  let bytes_per_cluster := cluster_bytes f in
  let data_start_bytes := data_start f * 512 in
  if inum <? data_start_bytes then Panic else
  let relative_bytes := inum - data_start_bytes in
  let! _ := ensure (negb (bytes_per_cluster =? 0)) in
  let! cluster := chk_u 32 (wrap_u 32 (relative_bytes / bytes_per_cluster) + 2) in
  let offset := wrap_u 32 (relative_bytes mod bytes_per_cluster) in
  Ret {| entry := decode_dirent entry_bytes;
         loc := {| co_cluster := cluster; co_offset := offset |} |}.
End Driver.
