(* ===== verification/FatTable.v ===== *)
(** * The file allocation table

    Cluster chains, and what reading, linking, allocating and freeing clusters
    do to the table. *)
From S2P Require Import Prelude Slices Disk Time Fat.

Section Table.
Context {D : Type} {BD : BlockDevice D} {BL : BlockDeviceLaws D BD}.
Implicit Types f g : Fat32 D.

Definition img f : list Z := image (disk f).

(** Clusters are numbered from 2. *)
Definition data_clusters f : Z := (total_sectors_32 (bpb f) - data_start f) / sectors_per_cluster (bpb f).
Definition max_cluster f : Z := data_clusters f + 2.

(** A mounted volume: 512-byte sectors, a table that covers every cluster and
    ends before the data, and data that lies on the disk. *)
Record fat_ok f : Prop := {
  ok_dev : dev_ok (disk f);
  ok_sector : bytes_per_sector (bpb f) = 512;
  ok_spc : 1 <= sectors_per_cluster (bpb f) <= 255;
  ok_start : 0 <= fat_start f;
  ok_size : 0 <= fat_size_32 (bpb f);
  ok_data : fat_start f + fat_size_32 (bpb f) <= data_start f;
  ok_covers : 4 * max_cluster f <= 512 * fat_size_32 (bpb f);
  ok_total : data_start f <= total_sectors_32 (bpb f) < 2 ^ 32;
  ok_image : 512 * total_sectors_32 (bpb f) <= Z.of_nat (length (img f));
  ok_max : max_cluster f <= 268435440;
  ok_root : 2 <= root_cluster (bpb f) < max_cluster f
}.

Definition entry_pos f (c : Z) : nat := Z.to_nat (512 * fat_start f + 4 * c).

(** The value of a table entry: its low 28 bits. *)
Definition next f (c : Z) : Z := Z.land (le_num (get (img f) (entry_pos f c) 4)) 268435455.

(** [g] is [f] after changes to the table only. *)
Record table_step f g : Prop := {
  ts_geom : g = with_disk (disk g) f;
  ts_ok : fat_ok g;
  ts_len : length (img g) = length (img f);
  ts_out : forall i, (Z.of_nat i < 512 * fat_start f \/
                      512 * (fat_start f + fat_size_32 (bpb f)) <= Z.of_nat i) ->
                     img g !! i = img f !! i
}.

Lemma table_step_refl f : fat_ok f -> table_step f f.
Proof. intros. split; try done. by destruct f. Qed.

Lemma table_step_trans f g h : table_step f g -> table_step g h -> table_step f h.
Proof.
  intros [G1 O1 L1 P1] [G2 O2 L2 P2]. split; [| done | congruence |].
  - rewrite G2, G1. done.
  - intros i Hi. rewrite P2; [by apply P1 |]. rewrite G1. exact Hi.
Qed.

Lemma data_clusters_nonneg f : fat_ok f -> 0 <= data_clusters f.
Proof. intros []. apply Z.div_pos; lia. Qed.

Lemma fat_entry_spec f c :
  fat_ok f -> 0 <= c < max_cluster f ->
  cluster_to_fat_entry f c =
    Ret {| so_sector := fat_start f + 4 * c / 512; so_offset := (4 * c) mod 512 |} /\
  0 <= (4 * c) mod 512 <= 508 /\ 0 <= 4 * c / 512 < fat_size_32 (bpb f) /\
  512 * (fat_start f + 4 * c / 512) + (4 * c) mod 512 = 512 * fat_start f + 4 * c.
Proof.
  intros Hf Hc. destruct Hf. unfold cluster_to_fat_entry. rewrite ok_sector0.
  rewrite (Z.mul_comm c 4).
  assert (0 <= 4 * c / 512 < fat_size_32 (bpb f)) by (Z.to_euclidean_division_equations; lia).
  assert (0 <= (4 * c) mod 512 <= 508) by (Z.to_euclidean_division_equations; lia).
  rewrite chk_u_ret by lia. simpl obind. rewrite chk_u_ret by lia. simpl obind.
  split; [done |]. split; [done |]. split; [done |]. Z.to_euclidean_division_equations; lia.
Qed.

Lemma zeros_length n : 0 <= n -> Z.of_nat (length (zeros n)) = n.
Proof. intros. unfold zeros. rewrite length_replicate. lia. Qed.

Lemma read_sectors_ok f lba n :
  dev_ok (disk f) -> 0 <= lba -> 1 <= n <= 255 -> 512 * (lba + n) <= Z.of_nat (length (img f)) ->
  read_sectors f lba n (zeros (512 * n)) = Ret (get (img f) (Z.to_nat (512 * lba)) (Z.to_nat (512 * n))).
Proof.
  intros. unfold read_sectors. rewrite read_ok; [done | done | done | done | done |].
  apply zeros_length. lia.
Qed.

Lemma with_disk_ok f d :
  fat_ok f -> dev_ok d -> length (image d) = length (img f) -> fat_ok (with_disk d f).
Proof. intros [] Hd Hl. split; try done. unfold img. simpl. by rewrite Hl. Qed.

Lemma write_sectors_ok f lba n data :
  fat_ok f -> 0 <= lba -> 1 <= n <= 255 -> 512 * (lba + n) <= Z.of_nat (length (img f)) ->
  Z.of_nat (length data) = 512 * n -> Forall is_byte data ->
  exists g, write_sectors f lba data = Ret g /\ g = with_disk (disk g) f /\ fat_ok g /\
    img g = put (img f) (Z.to_nat (512 * lba)) data.
Proof.
  intros Hf Hl Hn Hb Hlen Hby. unfold write_sectors.
  destruct (write_ok (disk f) lba n data) as (d & -> & Hd & Hi); try done; [apply Hf |].
  simpl. eexists. split; [done |]. split; [done |]. split; [| done].
  apply with_disk_ok; [done | done |]. rewrite Hi. unfold img in *. apply length_put. lia.
Qed.

Lemma table_on_disk f :
  fat_ok f -> 512 * (fat_start f + fat_size_32 (bpb f)) <= Z.of_nat (length (img f)).
Proof. intros []. lia. Qed.

(** The sector of an entry, and the entry in its sector. *)
Lemma entry_sector f c :
  fat_ok f -> 0 <= c < max_cluster f ->
  get (get (img f) (Z.to_nat (512 * (fat_start f + 4 * c / 512))) 512)
      (Z.to_nat ((4 * c) mod 512)) 4 = get (img f) (entry_pos f c) 4.
Proof.
  intros Hf Hc. destruct (fat_entry_spec f c Hf Hc) as (_ & Ho & Hs & He).
  pose proof (table_on_disk f Hf). destruct Hf.
  apply get_eq.
  - rewrite length_get; lia.
  - unfold entry_pos. lia.
  - intros i Hi. rewrite lookup_get by lia. f_equal. unfold entry_pos. lia.
Qed.

Lemma get_next_cluster_spec f c :
  fat_ok f -> 0 <= c < max_cluster f -> get_next_cluster f c = Ret (next f c).
Proof.
  intros Hf Hc. destruct (fat_entry_spec f c Hf Hc) as (E & Ho & Hs & He).
  pose proof (table_on_disk f Hf) as Ht. pose proof Hf as [].
  unfold get_next_cluster. rewrite E. cbn [obind so_sector so_offset].
  change (zeros 512) with (zeros (512 * 1)). rewrite read_sectors_ok by (try done; lia).
  cbn [obind]. change (Z.to_nat (512 * 1)) with 512%nat.
  rewrite slice_get by (rewrite ?length_get; lia). cbn [obind].
  replace ((4 * c) mod 512 + 4 - (4 * c) mod 512) with 4 by lia.
  change (Z.to_nat 4) with 4%nat. by rewrite entry_sector.
Qed.

Lemma next_range f c : fat_ok f -> 0 <= c < max_cluster f -> 0 <= next f c < 2 ^ 28.
Proof.
  intros Hf Hc. unfold next. change 268435455 with (2 ^ 28 - 1). rewrite land_ones_mod by lia.
  apply Z.mod_pos_bound. lia.
Qed.

Definition new_word f (c v : Z) : Z :=
  Z.lor (Z.land v 268435455) (Z.land (le_num (get (img f) (entry_pos f c) 4)) 4026531840).

Lemma new_word_low f c v : 0 <= v < 2 ^ 28 -> Z.land (new_word f c v) 268435455 = v.
Proof.
  intros Hv. unfold new_word. rewrite Z.land_lor_distr_l, <- !Z.land_assoc.
  change (Z.land 4026531840 268435455) with 0. rewrite Z.land_0_r, Z.lor_0_r, Z.land_diag.
  change 268435455 with (2 ^ 28 - 1). rewrite land_ones_mod by lia. apply Z.mod_small. lia.
Qed.

Lemma new_word_range f c v : fat_ok f -> 0 <= v < 2 ^ 28 -> 0 <= new_word f c v < 2 ^ 32.
Proof.
  intros Hf Hv. unfold new_word. change 268435455 with (2 ^ 28 - 1).
  rewrite land_ones_mod, Z.mod_small by lia.
  set (w := Z.land _ 4026531840). assert (Hw : 0 <= w < 2 ^ 32).
  { unfold w. change 4026531840 with (Z.shiftl 15 28). split.
    - apply Z.land_nonneg. right. done.
    - apply Z.le_lt_trans with (Z.shiftl 15 28); [| done]. rewrite Z.land_comm. 
      apply Z.ldiff_le; [done |]. apply Z.bits_inj'. intros i Hi.
      rewrite Z.ldiff_spec, Z.land_spec, Z.bits_0. by destruct (Z.testbit (Z.shiftl 15 28) i), (Z.testbit _ i). }
  split; [apply Z.lor_nonneg; lia |].
  rewrite <- (Z.mod_small v (2 ^ 32)), <- (Z.mod_small w (2 ^ 32)) by lia.
  rewrite <- !Z.land_ones by lia. rewrite <- Z.land_lor_distr_l, Z.land_ones by lia.
  apply Z.mod_pos_bound. lia.
Qed.

Lemma link_clusters_spec f c v :
  fat_ok f -> 0 <= c < max_cluster f -> 0 <= v < 2 ^ 28 ->
  exists g, link_clusters f c v = Ret g /\ g = with_disk (disk g) f /\ fat_ok g /\
    img g = put (img f) (entry_pos f c) (le_bytes 4 (new_word f c v)).
Proof.
  intros Hf Hc Hv. destruct (fat_entry_spec f c Hf Hc) as (E & Ho & Hs & He).
  pose proof (table_on_disk f Hf) as Ht. pose proof Hf as [].
  unfold link_clusters. rewrite E. cbn [obind so_sector so_offset].
  change (zeros 512) with (zeros (512 * 1)). rewrite read_sectors_ok by (try done; lia).
  cbn [obind]. change (Z.to_nat (512 * 1)) with 512%nat.
  rewrite chk_u_ret by lia. cbn [obind].
  set (a := Z.to_nat (512 * (fat_start f + 4 * c / 512))).
  assert (Hla : length (get (img f) a 512) = 512%nat) by (apply length_get; lia).
  rewrite slice_get by (rewrite ?Hla; lia). cbn [obind].
  replace ((4 * c) mod 512 + 4 - (4 * c) mod 512) with 4 by lia.
  change (Z.to_nat 4) with 4%nat. unfold a. rewrite entry_sector by done. fold a. fold (new_word f c v).
  rewrite splice_put by (rewrite ?Hla, ?le_bytes_length; lia). cbn [obind].
  assert (Hp : length (put (get (img f) a 512) (Z.to_nat ((4 * c) mod 512))
                 (le_bytes 4 (new_word f c v))) = 512%nat)
    by (rewrite length_put; rewrite Hla, ?le_bytes_length; lia).
  destruct (write_sectors_ok f (fat_start f + 4 * c / 512) 1
              (put (get (img f) a 512) (Z.to_nat ((4 * c) mod 512)) (le_bytes 4 (new_word f c v))))
    as (g & -> & Hg & Hok & Hi); [done | lia | lia | lia | rewrite Hp; lia | |].
  { apply Forall_put; [| apply le_bytes_byte]. apply Forall_get. by apply image_bytes. }
  exists g. split; [done |]. split; [done |]. split; [done |]. rewrite Hi. fold a.
  replace (Z.to_nat ((4 * c) mod 512)) with (entry_pos f c - a)%nat by (unfold entry_pos, a; lia).
  apply put_within; rewrite ?le_bytes_length; unfold entry_pos, a; lia.
Qed.

(** ** Changing one entry *)
Lemma entry_pos_range f c :
  fat_ok f -> 0 <= c < max_cluster f ->
  512 * fat_start f <= Z.of_nat (entry_pos f c) /\
  Z.of_nat (entry_pos f c) + 4 <= 512 * (fat_start f + fat_size_32 (bpb f)).
Proof. intros [] Hc. unfold entry_pos. lia. Qed.

Lemma next_geom f g c : g = with_disk (disk g) f -> entry_pos g c = entry_pos f c.
Proof. intros ->. done. Qed.

Lemma link_clusters_next f c v :
  fat_ok f -> 0 <= c < max_cluster f -> 0 <= v < 2 ^ 28 ->
  exists g, link_clusters f c v = Ret g /\ table_step f g /\
    forall c', 0 <= c' < max_cluster f -> next g c' = if decide (c' = c) then v else next f c'.
Proof.
  intros Hf Hc Hv. destruct (link_clusters_spec f c v Hf Hc Hv) as (g & E & Hg & Hok & Hi).
  pose proof (entry_pos_range f c Hf Hc) as Hr. pose proof (table_on_disk f Hf).
  pose proof (new_word_range f c v Hf Hv).
  assert (Hb : (entry_pos f c + length (le_bytes 4 (new_word f c v)) <= length (img f))%nat)
    by (rewrite le_bytes_length; lia).
  exists g. split; [done |]. split.
  - split; [done | done | rewrite Hi; by apply length_put |].
    intros i Hout. rewrite Hi. apply lookup_put_out; [done |]. rewrite le_bytes_length. lia.
  - intros c' Hc'. unfold next. rewrite (next_geom f g c' Hg), Hi.
    pose proof (entry_pos_range f c' Hf Hc').
    destruct (decide (c' = c)) as [-> | Hne].
    + rewrite get_put_in by (try done; rewrite ?le_bytes_length; lia). rewrite Nat.sub_diag.
      change 4%nat with (length (le_bytes 4 (new_word f c v))) at 2. rewrite get_all, le_num_bytes.
      change (256 ^ Z.of_nat 4) with (2 ^ 32). rewrite Z.mod_small by lia. by apply new_word_low.
    + rewrite get_put_out; [done | done | lia |].
      rewrite le_bytes_length. destruct Hf. unfold entry_pos. lia.
Qed.

Lemma table_step_max f g : table_step f g -> max_cluster g = max_cluster f.
Proof. intros [Hg _ _ _]. by rewrite Hg. Qed.

(** ** Chains *)

(** The chain from [c] lists the clusters [l] and then ends. *)
Fixpoint linked f (c : Z) (l : list Z) : Prop :=
  match l with
  | [] => is_eoc c = true
  | x :: l => c = x /\ 2 <= x < max_cluster f /\ linked f (next f x) l
  end.

Lemma linked_det f c l l' : fat_ok f -> linked f c l -> linked f c l' -> l = l'.
Proof.
  intros Hf. revert c l'; induction l as [|x l IH]; intros c [|y l'] H1 H2; simpl in *; try done.
  - destruct H2 as (-> & ? & _), Hf. unfold is_eoc in H1. lia.
  - destruct H1 as (-> & ? & _), Hf. unfold is_eoc in H2. lia.
  - destruct H1 as (-> & _ & H1), H2 as (-> & _ & H2). f_equal. by eapply IH.
Qed.

Lemma linked_app f c l l' :
  linked f c (l ++ l') -> exists c', linked f c' l'.
Proof.
  revert c; induction l as [|x l IH]; intros c H; simpl in *; [by exists c |].
  destruct H as (_ & _ & H). by apply IH in H.
Qed.

(** A chain that ends visits no cluster twice. *)
Lemma linked_nodup f c l : fat_ok f -> linked f c l -> NoDup l.
Proof.
  intros Hf. revert c; induction l as [|x l IH]; intros c H; [constructor |].
  pose proof H as (-> & Hx & Hl). constructor; [| by eapply IH].
  intros (a & b & E)%list_elem_of_split. subst l.
  destruct (linked_app _ _ _ _ Hl) as (c' & Hc'). pose proof Hc' as (-> & _ & _).
  pose proof (linked_det f x _ _ Hf H Hc') as E.
  apply (f_equal length) in E. simpl in E. rewrite length_app in E. simpl in E. lia.
Qed.

Lemma linked_valid f c l x : linked f c l -> x ∈ l -> 2 <= x < max_cluster f.
Proof.
  revert c; induction l as [|y l IH]; intros c H Hx; [by apply elem_of_nil in Hx |].
  destruct H as (-> & Hy & Hl). apply elem_of_cons in Hx as [-> | Hx]; [done | by eapply IH].
Qed.

(** A chain depends only on the entries of its own clusters. *)
Lemma linked_frame f g c l :
  max_cluster g = max_cluster f -> (forall x, x ∈ l -> next g x = next f x) ->
  linked f c l -> linked g c l.
Proof.
  intros Hm. revert c; induction l as [|x l IH]; intros c Hn H; simpl in *; [done |].
  destruct H as (-> & Hx & Hl). rewrite Hm, Hn by apply list_elem_of_here.
  split; [done |]. split; [done |]. apply IH; [| done]. intros y Hy. apply Hn. by apply list_elem_of_further.
Qed.

(** ** Freeing a chain *)
Lemma free_clusters_chain fuel f c l :
  fat_ok f -> linked f c l -> (length l < fuel)%nat ->
  exists g, free_clusters fuel f c = Ret g /\ table_step f g /\
    forall x, 0 <= x < max_cluster f -> next g x = if decide (x ∈ l) then 0 else next f x.
Proof.
  revert f c l; induction fuel as [|fuel IH]; intros f c l Hf Hl Hlen; [lia |].
  destruct l as [|y l]; simpl in Hl; cbn [free_clusters].
  - rewrite Hl. exists f. split; [done |]. split; [by apply table_step_refl |].
    intros x Hx. rewrite decide_False; [done | apply not_elem_of_nil].
  - pose proof (linked_nodup f c (y :: l) Hf Hl) as Hnd. apply NoDup_cons in Hnd as [Hny Hnd].
    destruct Hl as (-> & Hy & Hl).
    assert (is_eoc y = false) as -> by (destruct Hf; unfold is_eoc; lia).
    rewrite get_next_cluster_spec by (try done; lia). cbn [obind].
    destruct (link_clusters_next f y 0) as (g & -> & Hts & Hn); [done | lia | lia |]. cbn [obind].
    pose proof (table_step_max f g Hts) as Hm.
    destruct (IH g (next f y) l) as (h & E & Hts' & Hn').
    + apply Hts.
    + apply (linked_frame f); [done | | done]. intros x Hx.
      rewrite Hn by (pose proof (linked_valid f _ l x Hl Hx); lia). rewrite decide_False; [done | congruence].
    + simpl in Hlen. lia.
    + exists h. split; [done |]. split; [by eapply table_step_trans |].
      intros x Hx. rewrite Hn' by lia. destruct (decide (x ∈ l)).
      * rewrite decide_True; [done | by apply list_elem_of_further].
      * rewrite Hn by done. destruct (decide (x = y)) as [-> |].
        -- by rewrite decide_True by apply list_elem_of_here.
        -- rewrite decide_False; [done |]. intros [? | ?]%elem_of_cons; done.
Qed.

(** ** Allocating a chain *)
Definition usable f (c : Z) : Prop := root_cluster (bpb f) < c < data_clusters f.

Lemma usable_valid f c : fat_ok f -> usable f c -> 2 <= c < max_cluster f.
Proof. intros [] Hu. unfold usable, max_cluster in *. lia. Qed.

Lemma find_free_spec f n i :
  fat_ok f -> 0 <= i -> i + Z.of_nat n <= max_cluster f ->
  exists r, find_free f n i = Ret r /\
    match r with
    | Some c => i <= c < i + Z.of_nat n /\ next f c = 0
    | None => forall c, i <= c < i + Z.of_nat n -> next f c <> 0
    end.
Proof.
  intros Hf. revert i; induction n as [|n IH]; intros i Hi Hb; cbn [find_free].
  - exists None. split; [done |]. intros c Hc. lia.
  - rewrite get_next_cluster_spec by (try done; lia). cbn [obind].
    destruct (Z.eqb_spec (next f i) 0) as [E | E].
    + exists (Some i). split; [done |]. split; [lia | done].
    + destruct (IH (i + 1)) as (r & -> & Hr); [lia | lia |]. exists r. split; [done |].
      destruct r as [c|]; [destruct Hr; split; [lia | done] |].
      intros c Hc. destruct (decide (c = i)) as [-> |]; [done | apply Hr; lia].
Qed.

Lemma get_free_cluster_spec f :
  fat_ok f ->
  exists r, get_free_cluster f = Ret r /\
    match r with
    | Some c => usable f c /\ next f c = 0
    | None => forall c, usable f c -> next f c <> 0
    end.
Proof.
  intros Hf. pose proof Hf as []. pose proof (data_clusters_nonneg f Hf).
  unfold get_free_cluster. rewrite chk_u_ret by lia. cbn [obind].
  rewrite sub_u_ret by lia. cbn [obind].
  assert (ensure (negb (sectors_per_cluster (bpb f) =? 0)) = Ret tt) as ->.
  { destruct (Z.eqb_spec (sectors_per_cluster (bpb f)) 0); [lia | done]. }
  cbn [obind]. fold (data_clusters f).
  destruct (decide (root_cluster (bpb f) + 1 <= data_clusters f)) as [Hle | Hgt].
  - destruct (find_free_spec f (Z.to_nat (data_clusters f - (root_cluster (bpb f) + 1)))
                (root_cluster (bpb f) + 1)) as (r & -> & Hr); [done | lia | unfold max_cluster; lia |].
    exists r. split; [done |]. destruct r as [c|].
    + destruct Hr. split; [unfold usable; lia | done].
    + intros c Hc. apply Hr. unfold usable in Hc. lia.
  - replace (Z.to_nat _) with O by lia. exists None. split; [done |].
    intros c Hc. unfold usable in Hc. lia.
Qed.

(** Free clusters there are to allocate. *)
Definition free_list f (fl : list Z) : Prop :=
  NoDup fl /\ Forall (fun c => usable f c /\ next f c = 0) fl.

(** [g] is [f] with the clusters [l] taken: each was free, and no other entry
    of the table changed. *)
Definition takes f g (l : list Z) : Prop :=
  table_step f g /\ Forall (fun c => usable f c /\ next f c = 0) l /\
  forall x, 0 <= x < max_cluster f -> x ∉ l -> next g x = next f x.

Lemma usable_step f g c : table_step f g -> usable g c <-> usable f c.
Proof. intros [Hg _ _ _]. by rewrite Hg. Qed.

Lemma get_free_some f fl :
  fat_ok f -> free_list f fl -> fl <> [] ->
  exists c, get_free_cluster f = Ret (Some c) /\ usable f c /\ next f c = 0.
Proof.
  intros Hf [_ Hfl] Hne. destruct (get_free_cluster_spec f Hf) as ([c|] & E & H).
  - exists c. by destruct H.
  - destruct fl as [|x fl]; [done |]. apply Forall_cons in Hfl as [[Hu Hx] _]. by destruct (H x).
Qed.

(** Taking one cluster leaves the others free. *)
Lemma free_list_take f g fl new :
  fat_ok f -> free_list f fl -> table_step f g ->
  (forall x, 0 <= x < max_cluster f -> x <> new -> next f x = 0 -> next g x = 0) ->
  exists fl', free_list g fl' /\ (length fl <= S (length fl'))%nat.
Proof.
  intros Hf [Hnd Hfl] Hts Hn. exists (filter (fun x => x <> new) fl). split.
  - split; [by apply NoDup_filter |]. apply Forall_forall. intros x [Hx Hin]%list_elem_of_filter.
    rewrite Forall_forall in Hfl. destruct (Hfl x Hin) as [Hu H0].
    split; [by apply (usable_step f g) |]. apply Hn; [| done | done].
    pose proof (usable_valid f x Hf Hu). lia.
  - clear -Hnd. induction Hnd as [|y l Hy Hnd IH]; [simpl; lia |].
    rewrite filter_cons. destruct (decide (y <> new)) as [|Heq]; simpl; [lia |].
    assert (y = new) as -> by (destruct (decide (y = new)); [done | done]).
    assert (filter (fun x => x <> new) l = l) as ->; [| lia].
    clear -Hy. induction l as [|z l IH]; [done |]. apply not_elem_of_cons in Hy as [Hz Hy].
    rewrite filter_cons, decide_True by congruence. by rewrite IH.
Qed.

Lemma linked_last f c l x : linked f c (l ++ [x]) -> is_eoc (next f x) = true.
Proof. revert c; induction l as [|y l IH]; intros c (_ & _ & H); [done | by apply IH in H]. Qed.

(** Relinking the last cluster of a chain to a free one that ends it. *)
Lemma linked_snoc f g c l x new :
  max_cluster g = max_cluster f -> 2 <= new < max_cluster f ->
  linked f c (l ++ [x]) -> x ∉ l ->
  (forall y, y ∈ l -> next g y = next f y) -> next g x = new -> is_eoc (next g new) = true ->
  linked g c ((l ++ [x]) ++ [new]).
Proof.
  intros Hm Hnew. revert c; induction l as [|y l IH]; intros c Hl Hx Hn Hgx He; simpl in *.
  - destruct Hl as (-> & Hv & _). rewrite Hm, Hgx. auto.
  - destruct Hl as (-> & Hv & Hl). apply not_elem_of_cons in Hx as [Hxy Hx].
    rewrite Hm, Hn by apply list_elem_of_here. split; [done |]. split; [done |].
    apply IH; try done. intros z Hz. apply Hn. by apply list_elem_of_further.
Qed.

Lemma linked_set_last f g c l x :
  max_cluster g = max_cluster f -> linked f c (l ++ [x]) -> x ∉ l ->
  (forall y, y ∈ l -> next g y = next f y) -> is_eoc (next g x) = true ->
  linked g c (l ++ [x]).
Proof.
  intros Hm. revert c; induction l as [|y l IH]; intros c Hl Hx Hn He; simpl in *.
  - destruct Hl as (-> & Hv & _). rewrite Hm. auto.
  - destruct Hl as (-> & Hv & Hl). apply not_elem_of_cons in Hx as [Hxy Hx].
    rewrite Hm, Hn by apply list_elem_of_here. split; [done |]. split; [done |].
    apply IH; try done. intros z Hz. apply Hn. by apply list_elem_of_further.
Qed.

Lemma linked_nonzero f c l x : linked f c l -> x ∈ l -> next f x <> 0.
Proof.
  revert c; induction l as [|y l IH]; intros c H Hx; [by apply elem_of_nil in Hx |].
  destruct H as (-> & Hy & Hl). apply elem_of_cons in Hx as [-> | Hx]; [| by eapply IH].
  intros E. rewrite E in Hl. destruct l; simpl in Hl; [done | lia].
Qed.

Lemma takes_snoc f g h l new :
  fat_ok f -> takes f g l -> table_step g h -> usable g new -> next g new = 0 -> new ∉ l ->
  (forall y, 0 <= y < max_cluster g -> y ∉ l ++ [new] -> next h y = next g y) ->
  takes f h (l ++ [new]).
Proof.
  intros Hf (Hts & Hl & Hn) Hts' Hu H0 Hnl Hn'. split; [by eapply table_step_trans |].
  apply (usable_step f g new Hts) in Hu. pose proof (usable_valid f new Hf Hu).
  split.
  - apply Forall_app. split; [done |]. apply Forall_cons. split; [| done]. split; [done |].
    rewrite <- Hn; [done | lia | done].
  - intros x Hx Hxl. rewrite Hn' by (try done; by rewrite (table_step_max f g)).
    apply Hn; [done |]. intros ?. apply Hxl, elem_of_app. by left.
Qed.

(** One round of the loop of [alloc_clusters]. *)
Lemma alloc_round f start l curr new :
  fat_ok f -> linked f start (l ++ [curr]) -> usable f new -> next f new = 0 ->
  exists g h, link_clusters f curr new = Ret g /\ link_clusters g new EOC = Ret h /\
    table_step f h /\ linked h start ((l ++ [curr]) ++ [new]) /\ (new ∉ l ++ [curr]) /\
    forall y, 0 <= y < max_cluster f -> y <> curr -> y <> new -> next h y = next f y.
Proof.
  intros Hf Hl Hu H0. pose proof (usable_valid f new Hf Hu) as Hv.
  pose proof (linked_nodup f _ _ Hf Hl) as Hnd.
  assert (Hcur : 2 <= curr < max_cluster f).
  { eapply linked_valid; [done |]. apply elem_of_app. right. apply list_elem_of_here. }
  assert (Hnew : new ∉ l ++ [curr]) by (intros Hin; by apply (linked_nonzero f _ _ _ Hl Hin)).
  assert (curr <> new) by (intros ->; apply Hnew, elem_of_app; right; apply list_elem_of_here).
  pose proof Hf as [].
  destruct (link_clusters_next f curr new) as (g & E1 & Hts1 & Hn1); [done | lia | lia |].
  pose proof (table_step_max f g Hts1) as Hm1.
  destruct (link_clusters_next g new EOC) as (h & E2 & Hts2 & Hn2); [apply Hts1 | lia | done |].
  pose proof (table_step_max g h Hts2) as Hm2. rewrite Hm1 in *.
  exists g, h. split; [done |]. split; [done |]. split; [by eapply table_step_trans |].
  apply NoDup_app in Hnd as (_ & Hd & _).
  assert (Hcl : curr ∉ l) by (intros Hin; by apply (Hd curr Hin), list_elem_of_here).
  split; [| split; [done |]].
  - eapply linked_snoc; try done.
    + intros y Hy. assert (y <> curr) by congruence.
      assert (y <> new) by (intros ->; apply Hnew, elem_of_app; by left).
      pose proof (linked_valid f start (l ++ [curr]) y Hl ltac:(apply elem_of_app; by left)).
      rewrite Hn2, decide_False, Hn1, decide_False by (try done; lia). done.
    + rewrite Hn2, decide_False, Hn1, decide_True by (try done; lia). done.
    + rewrite Hn2, decide_True by (try done; lia). done.
  - intros y Hy Hyc Hyn. rewrite Hn2, decide_False, Hn1, decide_False by (try done; lia). done.
Qed.

Lemma alloc_more_spec n : forall f0 f fl start l curr,
  fat_ok f0 -> takes f0 f (l ++ [curr]) -> linked f start (l ++ [curr]) ->
  free_list f fl -> (n <= length fl)%nat ->
  exists g l' lst, alloc_more f n curr = Ret (lst, g) /\ linked g start (l' ++ [lst]) /\
    length l' = (length l + n)%nat /\ takes f0 g (l' ++ [lst]).
Proof.
  induction n as [|n IH]; intros f0 f fl start l curr Hf0 Ht Hl Hfl Hn; cbn [alloc_more].
  - exists f, l, curr. rewrite Nat.add_0_r. done.
  - assert (Hf : fat_ok f) by apply Ht.
    destruct (get_free_some f fl Hf Hfl) as (new & -> & Hu & H0); [by destruct fl; [simpl in Hn; lia |] |].
    cbn [obind unwrap].
    destruct (alloc_round f start l curr new Hf Hl Hu H0) as (g & h & E1 & E2 & Hts & Hlk & Hnew & Hnx).
    rewrite E1. cbn [obind]. rewrite E2. cbn [obind].
    assert (Ht' : takes f0 h ((l ++ [curr]) ++ [new])).
    { apply (takes_snoc f0 f h); try done. intros y Hy Hyl. apply Hnx; [done | |]; intros ->;
        apply Hyl; rewrite !elem_of_app, !list_elem_of_singleton; tauto. }
    destruct (free_list_take f h fl new) as (fl' & Hfl' & Hlen); try done.
    { intros x Hx Hxn Hx0. rewrite Hnx; try done. intros ->. revert Hx0.
      eapply linked_nonzero; [done |]. apply elem_of_app. right. apply list_elem_of_here. }
    destruct (IH f0 h fl' start (l ++ [curr]) new) as (g' & l' & lst & E & Hlk' & Hll & Ht'');
      try done; [lia |].
    exists g', l', lst. split; [done |]. split; [done |]. split; [| done].
    rewrite Hll, length_app. simpl. lia.
Qed.

(** What [alloc_clusters] promises to its callers. *)
Lemma alloc_clusters_spec f n fl :
  fat_ok f -> 1 <= n -> free_list f fl -> n <= Z.of_nat (length fl) ->
  exists g start l, alloc_clusters f n = Ret (Some start, g) /\ Z.of_nat (length l) = n /\
    linked g start l /\ takes f g l.
Proof.
  intros Hf Hn Hfl Hlen. unfold alloc_clusters.
  destruct (Z.eqb_spec n 0); [lia |].
  destruct (get_free_some f fl Hf Hfl) as (start & -> & Hu & H0); [by destruct fl; [simpl in Hlen; lia |] |].
  cbn [obind unwrap]. pose proof (usable_valid f start Hf Hu) as Hv.
  destruct (link_clusters_next f start EOC) as (g & -> & Hts & Hnx); [done | lia | done |]. cbn [obind].
  pose proof (table_step_max f g Hts) as Hm.
  assert (Ht : takes f g ([] ++ [start])).
  { split; [done |]. split; [by apply Forall_cons |]. intros x Hx Hxl. rewrite Hnx by done.
    rewrite decide_False; [done |]. intros ->. by apply Hxl, list_elem_of_here. }
  assert (Hlk : linked g start ([] ++ [start])).
  { simpl. rewrite Hnx, decide_True by (try done; lia). split; [done |]. split; [lia | done]. }
  destruct (free_list_take f g fl start) as (fl' & Hfl' & Hlen'); try done.
  { intros x Hx Hxn Hx0. rewrite Hnx by done. by rewrite decide_False. }
  destruct (alloc_more_spec (Z.to_nat (n - 1)) f g fl' start [] start)
    as (h & l & lst & -> & Hlk' & Hll & Ht'); try done; [lia |]. cbn [obind].
  assert (Hh : fat_ok h) by apply Ht'. pose proof Ht' as (Hts' & Hfr & Hnx').
  pose proof (table_step_max f h Hts') as Hm'.
  assert (Hlst : 2 <= lst < max_cluster h).
  { eapply linked_valid; [done |]. apply elem_of_app. right. apply list_elem_of_here. }
  destruct (link_clusters_next h lst EOC) as (k & -> & Hts2 & Hnx2); [done | lia | done |]. cbn [obind].
  exists k, start, (l ++ [lst]). split; [done |]. split; [rewrite length_app; simpl in *; lia |].
  pose proof (linked_nodup h _ _ Hh Hlk') as Hnd. apply NoDup_app in Hnd as (_ & Hd & _).
  split.
  - apply (linked_set_last h); try done.
    + by apply table_step_max.
    + intros Hin. by apply (Hd lst Hin), list_elem_of_here.
    + intros y Hy. pose proof (linked_valid h start (l ++ [lst]) y Hlk' ltac:(apply elem_of_app; by left)).
      rewrite Hnx2, decide_False by (try lia; intros ->; by apply (Hd lst Hy), list_elem_of_here). done.
    + by rewrite Hnx2, decide_True by (try done; lia).
  - split; [by eapply table_step_trans |]. split; [done |]. intros x Hx Hxl.
    rewrite Hnx2, decide_False; [by apply Hnx' | | lia].
    intros ->. apply Hxl, elem_of_app. right. apply list_elem_of_here.
Qed.
End Table.
