(* ===== verification/FatData.v ===== *)
(** * Cluster data: [write_cluster] writes exactly the bytes it is given

    The five cases of [write_cluster] (an unaligned head, whole sectors in the
    middle, an unaligned tail) amount to replacing one slice of the disk. *)
From S2P Require Import Prelude Slices Disk Time Fat FatTable.

Section Data.
Context {D : Type} {BD : BlockDevice D} {BL : BlockDeviceLaws D BD}.
Implicit Types f g h : Fat32 D.

(** The byte address of a cluster on the disk. *)
Definition cluster_lba f (c : Z) : Z := data_start f + (c - 2) * sectors_per_cluster (bpb f).
Definition cluster_pos f (c : Z) : Z := 512 * cluster_lba f c.

Definition valid_cluster f (c : Z) : Prop := 2 <= c < max_cluster f.

(** [g] is [f] with the bytes [src] written at address [a]. *)
Definition wrote f g (a : Z) (src : list Z) : Prop :=
  g = with_disk (disk g) f /\ fat_ok g /\ img g = put (img f) (Z.to_nat a) src.

Lemma wrote_nil f a : fat_ok f -> wrote f f a [].
Proof. intros. split; [by destruct f |]. split; [done |]. by rewrite put_nil. Qed.

Lemma wrote_app f g h a x y :
  0 <= a -> a + Z.of_nat (length x + length y) <= Z.of_nat (length (img f)) ->
  wrote f g a x -> wrote g h (a + Z.of_nat (length x)) y -> wrote f h a (x ++ y).
Proof.
  intros Ha Hb (G1 & _ & E1) (G2 & Ok & E2). split; [by rewrite G2, G1 |]. split; [done |].
  rewrite E2, E1. rewrite <- put_put_app by lia. do 2 f_equal. lia.
Qed.

Lemma wrote_length f g a src :
  0 <= a -> a + Z.of_nat (length src) <= Z.of_nat (length (img f)) ->
  wrote f g a src -> length (img g) = length (img f).
Proof. intros ? ? (_ & _ & ->). apply length_put. lia. Qed.

Lemma cluster_bounds f c :
  fat_ok f -> valid_cluster f c ->
  0 <= cluster_lba f c /\ cluster_lba f c + sectors_per_cluster (bpb f) <= total_sectors_32 (bpb f) /\
  512 * (fat_start f + fat_size_32 (bpb f)) <= cluster_pos f c.
Proof.
  intros [] Hc. unfold valid_cluster, max_cluster, data_clusters, cluster_pos, cluster_lba in *.
  set (spc := sectors_per_cluster (bpb f)) in *. set (n := total_sectors_32 (bpb f) - data_start f) in *.
  assert (spc * (n / spc) <= n) by (apply Z.mul_div_le; lia). nia.
Qed.

Lemma cluster_to_lba_spec f c :
  fat_ok f -> valid_cluster f c -> cluster_to_lba f c = Ret (cluster_lba f c).
Proof.
  intros Hf Hc. pose proof (cluster_bounds f c Hf Hc) as (H1 & H2 & _). pose proof Hf as [].
  unfold valid_cluster, cluster_to_lba, cluster_lba in *.
  rewrite sub_u_ret by lia. cbn [obind]. rewrite chk_u_ret by nia. cbn [obind].
  apply chk_u_ret. lia.
Qed.

Lemma cluster_offset_to_lba_spec f c pos :
  fat_ok f -> valid_cluster f c -> 0 <= pos <= cluster_bytes f ->
  cluster_offset_to_lba f c pos = Ret (cluster_lba f c + pos / 512).
Proof.
  intros Hf Hc Hp. pose proof (cluster_bounds f c Hf Hc) as (H1 & H2 & _). pose proof Hf as [].
  unfold cluster_offset_to_lba. rewrite cluster_to_lba_spec by done. cbn [obind].
  unfold cluster_bytes in Hp. apply chk_u_ret.
  assert (0 <= pos / 512 <= 255) by (Z.to_euclidean_division_equations; lia). lia.
Qed.

(** Changing a part of one sector. *)
Lemma modify_sector f lba o src :
  fat_ok f -> 0 <= lba -> 512 * (lba + 1) <= Z.of_nat (length (img f)) ->
  0 <= o -> o + Z.of_nat (length src) <= 512 -> Forall is_byte src ->
  exists sec g, read_sectors f lba 1 (zeros 512) = Ret (get (img f) (Z.to_nat (512 * lba)) 512) /\
    splice (get (img f) (Z.to_nat (512 * lba)) 512) o src = Ret sec /\
    write_sectors f lba sec = Ret g /\ wrote f g (512 * lba + o) src.
Proof.
  intros Hf Hl Hb Ho Hs Hby.
  assert (Hg : length (get (img f) (Z.to_nat (512 * lba)) 512) = 512%nat) by (apply length_get; lia).
  assert (E : read_sectors f lba 1 (zeros 512) = Ret (get (img f) (Z.to_nat (512 * lba)) 512)).
  { change (zeros 512) with (zeros (512 * 1)). apply read_sectors_ok; [apply Hf | lia..]. }
  set (sec := put (get (img f) (Z.to_nat (512 * lba)) 512) (Z.to_nat o) src).
  assert (Hsec : length sec = 512%nat) by (unfold sec; rewrite length_put; lia).
  destruct (write_sectors_ok f lba 1 sec) as (g & E2 & Hg2 & Hok & Hi); [done | lia | lia | lia | lia | |].
  { apply Forall_put; [| done]. apply Forall_get. apply image_bytes, Hf. }
  exists sec, g. split; [done |]. split; [apply splice_put; lia |]. split; [done |].
  split; [done |]. split; [done |]. rewrite Hi. unfold sec.
  replace (Z.to_nat o) with (Z.to_nat (512 * lba + o) - Z.to_nat (512 * lba))%nat by lia.
  apply put_within; lia.
Qed.

Section Write.
Variables (f0 : Fat32 D) (c off : Z) (buffer : list Z).
Hypothesis Hf0 : fat_ok f0.
Hypothesis Hc : valid_cluster f0 c.
Hypothesis Hoff : 0 <= off < cluster_bytes f0.
Hypothesis Hlen : off + Z.of_nat (length buffer) <= cluster_bytes f0.
Hypothesis Hby : Forall is_byte buffer.

Let base := cluster_lba f0 c.
Let spc := sectors_per_cluster (bpb f0).

(** Same volume, same size of disk. *)
Definition same_volume f : Prop :=
  f = with_disk (disk f) f0 /\ fat_ok f /\ length (img f) = length (img f0).

Lemma volume_bounds : 0 <= base /\ 512 * (base + spc) <= Z.of_nat (length (img f0)) /\
  1 <= spc <= 255 /\ cluster_bytes f0 = 512 * spc.
Proof.
  pose proof (cluster_bounds f0 c Hf0 Hc) as (H1 & H2 & _). destruct Hf0.
  unfold base, spc, cluster_bytes in *. lia.
Qed.

Lemma write_head_spec f :
  same_volume f ->
  let n := Z.min (Z.of_nat (length buffer)) (512 - off mod 512) in
  exists g, write_head f (base + off / 512) off buffer = Ret (g, n) /\
    wrote f g (512 * base + off) (take (Z.to_nat n) buffer).
Proof.
  intros (_ & Hf & Hl) n. pose proof volume_bounds as (B1 & B2 & B3 & B4).
  assert (Hm : 0 <= off mod 512 < 512) by (apply Z.mod_pos_bound; lia).
  assert (Hd : 512 * (off / 512) + off mod 512 = off) by (symmetry; apply Z.div_mod; lia).
  assert (Hn : 0 <= n <= Z.of_nat (length buffer) /\ n <= 512 - off mod 512) by (unfold n; lia).
  destruct (modify_sector f (base + off / 512) (off mod 512) (take (Z.to_nat n) buffer))
    as (sec & g & E1 & E2 & E3 & Hw); [done | lia | | lia | rewrite length_take; lia | by apply Forall_take |].
  { rewrite Hl. assert (off / 512 + 1 <= spc) by (Z.to_euclidean_division_equations; lia). lia. }
  exists g. unfold write_head. rewrite E1. cbn [obind]. fold n.
  rewrite slice_get by lia. cbn [obind]. change (Z.to_nat 0) with O.
  replace (n - 0) with n by lia. change (get buffer 0 (Z.to_nat n)) with (take (Z.to_nat n) buffer).
  rewrite E2. cbn [obind]. rewrite E3. cbn [obind].
  split; [done |].
  replace (512 * base + off) with (512 * (base + off / 512) + off mod 512) by lia. done.
Qed.

(** Whole sectors from [start] to [e], both counted in the buffer. *)
Lemma write_middle_spec f start has_head :
  same_volume f -> 0 <= start ->
  let m := off + Z.of_nat (length buffer) - (off + Z.of_nat (length buffer)) mod 512 in
  start + off <= m -> (start + off) mod 512 = 0 -> off / 512 + has_head = (start + off) / 512 ->
  exists g, write_middle f (base + off / 512) has_head off start m buffer = Ret g /\
    wrote f g (512 * base + off + start) (get buffer (Z.to_nat start) (Z.to_nat (m - off - start))).
Proof.
  intros (_ & Hf & Hl) Hs m Hsm Hal Hhh. pose proof volume_bounds as (B1 & B2 & B3 & B4).
  assert (Hm : 0 <= m <= 512 * spc /\ m <= off + Z.of_nat (length buffer) /\ m mod 512 = 0).
  { unfold m. Z.to_euclidean_division_equations. lia. }
  unfold write_middle. destruct (Z.ltb_spec (start + off) m) as [Hlt | Hge].
  - assert (Hq : exists q, m - (start + off) = 512 * q /\ 1 <= q <= 255 /\ (start + off) / 512 + q <= spc).
    { exists ((m - (start + off)) / 512). clear -Hlt Hm Hal Hs Hoff B3. Z.to_euclidean_division_equations. lia. }
    destruct Hq as (q & Hq & Hq1 & Hq2).
    assert (Hdd : 512 * ((start + off) / 512) = start + off) by (Z.to_euclidean_division_equations; lia).
    assert (Hg : Z.of_nat (length (get buffer (Z.to_nat start) (Z.to_nat (m - off - start)))) = 512 * q)
      by (rewrite length_get; lia).
    assert (512 * total_sectors_32 (bpb f0) < 2 ^ 63) by (destruct Hf0; lia).
    assert (base + spc <= total_sectors_32 (bpb f0)) by apply (cluster_bounds f0 c Hf0 Hc).
    rewrite chk_u_ret by (destruct Hf0; lia). cbn [obind]. rewrite sub_u_ret by lia. cbn [obind].
    rewrite slice_get by lia. cbn [obind].
    destruct (write_sectors_ok f (base + off / 512 + has_head) q
                (get buffer (Z.to_nat start) (Z.to_nat (m - off - start)))) as (g & E & Hg2 & Hok & Hi);
      [done | lia | lia | lia | done | by apply Forall_get |].
    exists g. rewrite E. split; [done |]. split; [done |]. split; [done |]. rewrite Hi. do 2 f_equal. lia.
  - exists f. split; [done |]. replace (m - off - start) with 0 by lia.
    apply wrote_nil. done.
Qed.

Lemma write_tail_spec f :
  same_volume f ->
  let e := off + Z.of_nat (length buffer) in
  let m := e - e mod 512 in
  off <= m ->
  exists g, write_tail f c off e m buffer = Ret g /\
    wrote f g (512 * base + m) (drop (Z.to_nat (m - off)) buffer).
Proof.
  intros (Hgeo & Hf & Hl) e m Hm. pose proof volume_bounds as (B1 & B2 & B3 & B4).
  assert (He : 0 <= e mod 512 < 512 /\ 512 * (e / 512) = m).
  { unfold m. Z.to_euclidean_division_equations. lia. }
  unfold write_tail. destruct (Z.eqb_spec (e mod 512) 0) as [E0 | E0]; simpl negb; cbn match.
  - exists f. split; [done |]. rewrite drop_ge; [by apply wrote_nil |]. unfold m, e in *. lia.
  - assert (Hsrc : Z.of_nat (length (drop (Z.to_nat (m - off)) buffer)) = e mod 512).
    { rewrite length_drop. unfold m, e in *. lia. }
    assert (Hlt : e / 512 < spc) by (Z.to_euclidean_division_equations; lia).
    rewrite cluster_offset_to_lba_spec by
      (try done; rewrite Hgeo; unfold valid_cluster, max_cluster, data_clusters, cluster_bytes in *;
       simpl; try done; unfold e; lia).
    cbn [obind]. replace (cluster_lba f c) with base by (unfold base; rewrite Hgeo; done).
    destruct (modify_sector f (base + e / 512) 0 (drop (Z.to_nat (m - off)) buffer))
      as (sec & g & E1 & E2 & E3 & Hw); [done | lia | lia | lia | lia | by apply Forall_drop |].
    rewrite E1. cbn [obind]. rewrite sub_u_ret by lia. cbn [obind].
    unfold slice_from. rewrite slice_get by (unfold m, e in *; lia). cbn [obind].
    assert (get buffer (Z.to_nat (m - off)) (Z.to_nat (Z.of_nat (length buffer) - (m - off)))
            = drop (Z.to_nat (m - off)) buffer) as ->.
    { unfold get. apply take_ge. rewrite length_drop. lia. }
    unfold ensure. rewrite (proj2 (Z.eqb_eq _ _) Hsrc). cbn [obind]. rewrite E2. cbn [obind].
    exists g. split; [done |]. replace (512 * base + m) with (512 * (base + e / 512) + 0) by lia. done.
Qed.

Lemma wrote_same f g a src :
  same_volume f -> 0 <= a -> a + Z.of_nat (length src) <= Z.of_nat (length (img f)) ->
  wrote f g a src -> same_volume g.
Proof.
  intros (G & Ok & L) Ha Hb Hw. pose proof (wrote_length f g a src Ha Hb Hw). destruct Hw as (G2 & Ok2 & _).
  split; [by rewrite G2, G |]. split; [done | congruence].
Qed.

(** From an aligned position [n] of the buffer on. *)
Lemma write_body_spec f n has_head :
  same_volume f -> 0 <= n <= Z.of_nat (length buffer) ->
  let e := off + Z.of_nat (length buffer) in
  let m := e - e mod 512 in
  (n + off) mod 512 = 0 -> off / 512 + has_head = (n + off) / 512 ->
  exists g h, write_middle f (base + off / 512) has_head off n m buffer = Ret g /\
    write_tail g c off e m buffer = Ret h /\
    wrote f h (512 * base + off + n) (drop (Z.to_nat n) buffer).
Proof.
  intros Hsv Hn e m Hal Hhh. pose proof volume_bounds as (B1 & B2 & B3 & B4).
  assert (Hm : n + off <= m <= e) by (unfold m, e; Z.to_euclidean_division_equations; lia).
  destruct (write_middle_spec f n has_head) as (g & E1 & W1); try done; [lia | apply Hm |].
  fold e m in E1, W1.
  assert (Hlg : length (get buffer (Z.to_nat n) (Z.to_nat (m - off - n))) = Z.to_nat (m - off - n))
    by (apply length_get; unfold e in Hm; lia).
  assert (Hl : length (img f) = length (img f0)) by apply Hsv.
  assert (Hsv' : same_volume g).
  { eapply (wrote_same f g); [done | | | exact W1]; rewrite ?Hlg; unfold e in *; lia. }
  destruct (write_tail_spec g Hsv') as (h & E2 & W2); [fold e; fold m; lia |]. fold e m in E2, W2.
  exists g, h. split; [done |]. split; [done |].
  replace (drop (Z.to_nat n) buffer) with
    (get buffer (Z.to_nat n) (Z.to_nat (m - off - n)) ++ drop (Z.to_nat (m - off)) buffer).
  - eapply wrote_app; [lia | | exact W1 |].
    + rewrite Hlg, length_drop. unfold e in Hm. lia.
    + rewrite Hlg. replace (512 * base + off + n + Z.of_nat (Z.to_nat (m - off - n))) with (512 * base + m) by lia.
      done.
  - unfold get. replace (Z.to_nat (m - off)) with (Z.to_nat n + Z.to_nat (m - off - n))%nat by lia.
    rewrite <- drop_drop. apply take_drop.
Qed.

Lemma write_cluster_spec :
  exists g, write_cluster f0 c off buffer = Ret g /\ wrote f0 g (cluster_pos f0 c + off) buffer.
Proof.
  pose proof volume_bounds as (B1 & B2 & B3 & B4). unfold cluster_pos. fold base.
  assert (Hsv : same_volume f0) by (split; [by destruct f0 | done]).
  unfold write_cluster. rewrite chk_u_ret by lia. cbn [obind].
  rewrite cluster_offset_to_lba_spec by (try done; lia). cbn [obind]. fold base.
  destruct (negb (off mod 512 =? 0) || (Z.of_nat (length buffer) <=? 512)) eqn:Hhead.
  - destruct (write_head_spec f0 Hsv) as (g & E & W). rewrite E. cbn [obind].
    set (n := Z.min (Z.of_nat (length buffer)) (512 - off mod 512)) in *.
    assert (Hmod : 0 <= off mod 512 < 512) by (apply Z.mod_pos_bound; lia).
    destruct (Z.eqb_spec n (Z.of_nat (length buffer))) as [En | En].
    + exists g. split; [done |]. rewrite En, take_ge in W by lia. done.
    + assert (Hn : n = 512 - off mod 512 /\ 0 < n < Z.of_nat (length buffer)) by (unfold n in *; lia).
      rewrite (proj2 (Z.ltb_lt 0 n)) by lia.
      assert (Hlt : length (take (Z.to_nat n) buffer) = Z.to_nat n) by (rewrite length_take; lia).
      destruct (write_body_spec g n 1) as (g1 & h & E1 & E2 & W2).
      * eapply (wrote_same f0 g); [done | | | exact W]; rewrite ?Hlt; lia.
      * lia.
      * clear -Hn Hoff. Z.to_euclidean_division_equations; lia.
      * clear -Hn Hoff. Z.to_euclidean_division_equations; lia.
      * rewrite E1. cbn [obind]. rewrite E2. exists h. split; [done |].
        rewrite <- (take_drop (Z.to_nat n) buffer). eapply wrote_app; [lia | | exact W |].
        -- rewrite <- length_app, take_drop. lia.
        -- rewrite Hlt. replace (Z.of_nat (Z.to_nat n)) with n by lia. done.
  - apply orb_false_iff in Hhead as [Ha Hb]. apply negb_false_iff, Z.eqb_eq in Ha. apply Z.leb_gt in Hb.
    cbn [obind]. destruct (Z.eqb_spec 0 (Z.of_nat (length buffer))); [lia |]. change (0 <? 0) with false.
    destruct (write_body_spec f0 0 0) as (g1 & h & E1 & E2 & W2); [done | lia | done | |].
    { rewrite Z.add_0_l. lia. }
    rewrite E1. cbn [obind]. rewrite E2. exists h. split; [done |].
    rewrite Z.add_0_r in W2. done.
Qed.
End Write.
End Data.
