(* ===== verification/FatFile.v ===== *)
(** * Files: the bytes of a chain, [read_buffer] and [write_buffer]

    A file is the concatenation of the data of its clusters.  Reading copies a
    prefix of it; writing replaces a slice, after extending the chain. *)
From S2P Require Import Prelude Slices Disk Time Fat FatTable FatData.

Section Files.
Context {D : Type} {BD : BlockDevice D} {BL : BlockDeviceLaws D BD}.
Implicit Types f g h : Fat32 D.

Definition cbytes f : nat := Z.to_nat (cluster_bytes f).
Definition cluster_data f (c : Z) : list Z := get (img f) (Z.to_nat (cluster_pos f c)) (cbytes f).
Definition content f (l : list Z) : list Z := concat (map (cluster_data f) l).

(** [g] is [f] on a disk of the same size. *)
Definition same_vol f g : Prop :=
  g = with_disk (disk g) f /\ fat_ok g /\ length (img g) = length (img f).

Lemma same_vol_trans f g h : same_vol f g -> same_vol g h -> same_vol f h.
Proof. intros (G1 & _ & L1) (G2 & O & L2). split; [by rewrite G2, G1 |]. split; [done | congruence]. Qed.

Lemma same_vol_geom f g :
  same_vol f g -> max_cluster g = max_cluster f /\ cluster_bytes g = cluster_bytes f /\
  cbytes g = cbytes f /\ (forall c, cluster_pos g c = cluster_pos f c) /\ (forall c, entry_pos g c = entry_pos f c) /\
  (forall c, valid_cluster g c <-> valid_cluster f c).
Proof. intros (-> & _). done. Qed.

Lemma table_step_vol f g : table_step f g -> same_vol f g.
Proof. intros []. done. Qed.

Lemma cluster_bytes_pos f : fat_ok f -> 512 <= cluster_bytes f <= 130560.
Proof. intros []. unfold cluster_bytes. lia. Qed.

Lemma cluster_on_disk f c :
  fat_ok f -> valid_cluster f c ->
  0 <= cluster_pos f c /\ cluster_pos f c + cluster_bytes f <= Z.of_nat (length (img f)).
Proof.
  intros Hf Hc. pose proof (cluster_bounds f c Hf Hc) as (H1 & H2 & _). destruct Hf.
  unfold cluster_pos, cluster_bytes. lia.
Qed.

Lemma cluster_data_length f c : fat_ok f -> valid_cluster f c -> length (cluster_data f c) = cbytes f.
Proof.
  intros Hf Hc. pose proof (cluster_on_disk f c Hf Hc). pose proof (cluster_bytes_pos f Hf).
  apply length_get. unfold cbytes. lia.
Qed.

Lemma cluster_apart f c c' :
  fat_ok f -> c <> c' ->
  cluster_pos f c + cluster_bytes f <= cluster_pos f c' \/ cluster_pos f c' + cluster_bytes f <= cluster_pos f c.
Proof.
  intros [] Hne. unfold cluster_pos, cluster_lba, cluster_bytes.
  assert (c < c' \/ c' < c) as [? | ?] by lia; [left | right]; nia.
Qed.

(** *** Changes of the table leave the data alone *)
Lemma table_step_data f g c :
  fat_ok f -> table_step f g -> valid_cluster f c -> cluster_data g c = cluster_data f c.
Proof.
  intros Hf Hts Hc. destruct (same_vol_geom f g (table_step_vol f g Hts)) as (_ & _ & E1 & E2 & _ & _).
  unfold cluster_data. rewrite E1, E2. pose proof (cluster_on_disk f c Hf Hc).
  pose proof (cluster_bounds f c Hf Hc) as (_ & _ & Hlow). pose proof (cluster_bytes_pos f Hf).
  destruct Hts as [_ _ Hl Hout]. apply get_eq; unfold cbytes; [lia.. |].
  intros i Hi. apply Hout. right. lia.
Qed.

(** *** Writes to a cluster leave the table and the other clusters alone *)
Section Wrote.
Variables (f g : Fat32 D) (c o : Z) (src : list Z).
Hypothesis Hf : fat_ok f.
Hypothesis Hc : valid_cluster f c.
Hypothesis Ho : 0 <= o.
Hypothesis Hs : o + Z.of_nat (length src) <= cluster_bytes f.
Hypothesis Hw : wrote f g (cluster_pos f c + o) src.

Lemma wrote_bound : (Z.to_nat (cluster_pos f c + o) + length src <= length (img f))%nat.
Proof. pose proof (cluster_on_disk f c Hf Hc). lia. Qed.

Lemma wrote_vol : same_vol f g.
Proof.
  destruct Hw as (G & Ok & E). split; [done |]. split; [done |]. rewrite E. apply length_put, wrote_bound.
Qed.

Lemma wrote_next x : 0 <= x < max_cluster f -> next g x = next f x.
Proof.
  intros Hx. destruct (same_vol_geom f g wrote_vol) as (_ & _ & _ & _ & E & _).
  unfold next. rewrite E. destruct Hw as (_ & _ & ->). pose proof (entry_pos_range f x Hf Hx).
  pose proof (cluster_bounds f c Hf Hc) as (_ & _ & ?). pose proof wrote_bound.
  rewrite get_put_out; [done | done | lia |]. left. lia.
Qed.

Lemma wrote_other c' : valid_cluster f c' -> c' <> c -> cluster_data g c' = cluster_data f c'.
Proof.
  intros Hc' Hne. destruct (same_vol_geom f g wrote_vol) as (_ & _ & E1 & E2 & _ & _).
  unfold cluster_data. rewrite E1, E2. destruct Hw as (_ & _ & ->).
  pose proof (cluster_on_disk f c' Hf Hc'). pose proof (cluster_on_disk f c Hf Hc).
  pose proof wrote_bound. pose proof (cluster_bytes_pos f Hf).
  apply get_put_out; unfold cbytes in *; [lia | lia |].
  destruct (cluster_apart f c c' Hf ltac:(done)); lia.
Qed.

Lemma wrote_same_cluster : cluster_data g c = put (cluster_data f c) (Z.to_nat o) src.
Proof.
  destruct (same_vol_geom f g wrote_vol) as (_ & _ & E1 & E2 & _ & _).
  unfold cluster_data. rewrite E1, E2. destruct Hw as (_ & _ & ->).
  pose proof (cluster_on_disk f c Hf Hc). pose proof (cluster_bytes_pos f Hf).
  rewrite get_put_around by (unfold cbytes in *; lia). f_equal. lia.
Qed.

Lemma wrote_linked x l : linked f x l -> linked g x l.
Proof.
  intros Hl. apply (linked_frame f); [apply (same_vol_geom f g wrote_vol) | | done].
  intros y Hy. apply wrote_next. pose proof (linked_valid f x l y Hl Hy). lia.
Qed.
End Wrote.

Lemma content_length f l :
  fat_ok f -> Forall (valid_cluster f) l -> length (content f l) = (length l * cbytes f)%nat.
Proof.
  intros Hf. induction 1 as [|c l Hc _ IH]; [done |]. unfold content in *. simpl.
  rewrite length_app, IH, cluster_data_length by done. lia.
Qed.

Lemma content_app f l l' : content f (l ++ l') = content f l ++ content f l'.
Proof. unfold content. by rewrite map_app, concat_app. Qed.

Lemma content_frame f g l :
  (forall c, c ∈ l -> cluster_data g c = cluster_data f c) -> content g l = content f l.
Proof.
  induction l as [|c l IH]; intros H; [done |]. unfold content in *. simpl.
  rewrite H by apply list_elem_of_here. f_equal. apply IH. intros x Hx. apply H. by apply list_elem_of_further.
Qed.

Lemma linked_valids f c l : linked f c l -> Forall (valid_cluster f) l.
Proof. intros Hl. apply Forall_forall. intros x Hx. by apply (linked_valid f c l). Qed.

(** ** Reading *)
Lemma read_cluster_data f c :
  fat_ok f -> valid_cluster f c ->
  read_sectors f (cluster_lba f c) (sectors_per_cluster (bpb f)) (zeros (cluster_bytes f))
    = Ret (cluster_data f c).
Proof.
  intros Hf Hc. pose proof (cluster_bounds f c Hf Hc) as (H1 & H2 & _). pose proof Hf as [].
  unfold cluster_bytes. rewrite (Z.mul_comm _ 512). rewrite read_sectors_ok by (try done; lia).
  unfold cluster_data, cluster_pos, cbytes, cluster_bytes. do 2 f_equal. lia.
Qed.

Lemma read_loop_spec fuel f : forall target c br buffer l,
  fat_ok f -> linked f c l -> (length l < fuel)%nat ->
  0 <= br <= target -> target <= Z.of_nat (length buffer) ->
  target - br <= Z.of_nat (length (content f l)) ->
  read_loop fuel f target c br buffer =
    Ret (target, put buffer (Z.to_nat br) (take (Z.to_nat (target - br)) (content f l))).
Proof.
  induction fuel as [|fuel IH]; intros target c br buffer l Hf Hl Hfu Hbr Ht Hc; [lia |].
  cbn [read_loop]. destruct (Z.ltb_spec br (Z.of_nat (length buffer))) as [Hlt | Hge]; cbn [andb].
  2: { replace target with br by lia. rewrite Z.sub_diag. change (Z.to_nat 0) with O.
       by rewrite firstn_O, put_nil. }
  destruct l as [|x l].
  - simpl in Hl. rewrite Hl. cbn [negb]. change (content f []) with (@nil Z) in *. simpl in Hc.
    replace target with br by lia. rewrite take_nil, put_nil. done.
  - pose proof (linked_valids f c _ Hl) as Hv. apply Forall_cons in Hv as [Hvx Hv].
    destruct Hl as (-> & Hx & Hl).
    assert (is_eoc x = false) as -> by (destruct Hf; unfold is_eoc; lia). cbn [negb].
    rewrite cluster_to_lba_spec by done. cbn [obind]. rewrite sub_u_ret by lia. cbn [obind].
    pose proof (cluster_bytes_pos f Hf). pose proof (cluster_data_length f x Hf Hvx) as Hdl. unfold cbytes in Hdl.
    rewrite read_cluster_data by done. cbn [obind].
    set (n := Z.min (cluster_bytes f) (target - br)).
    rewrite slice_get by lia. cbn [obind]. rewrite Z.sub_0_r.
    change (get (cluster_data f x) (Z.to_nat 0) (Z.to_nat n)) with (take (Z.to_nat n) (cluster_data f x)).
    assert (Hln : length (take (Z.to_nat n) (cluster_data f x)) = Z.to_nat n) by (rewrite length_take; lia).
    rewrite splice_put by lia. cbn [obind].
    rewrite get_next_cluster_spec by (try done; unfold valid_cluster in Hvx; lia). cbn [obind].
    change (content f (x :: l)) with (cluster_data f x ++ content f l) in *. rewrite length_app in Hc.
    assert (Hlb : length (put buffer (Z.to_nat br) (take (Z.to_nat n) (cluster_data f x))) = length buffer)
      by (apply length_put; lia).
    rewrite (IH target (next f x) (br + n) _ l); [| done | done | simpl in Hfu; lia | lia | lia | lia].
    do 2 f_equal.
    replace (Z.to_nat (br + n)) with (Z.to_nat br + length (take (Z.to_nat n) (cluster_data f x)))%nat by lia.
    rewrite put_put_app.
    + f_equal. rewrite take_app. f_equal.
      * unfold n. destruct (Z.min_spec (cluster_bytes f) (target - br)) as [[? ->] | [? ->]]; [| done].
        rewrite !take_ge by lia. done.
      * rewrite Hdl. f_equal. unfold n. lia.
    + rewrite Hln, length_take. lia.
Qed.

(** ** Walking a chain *)

(** The chain of a file: an empty file has no cluster and cluster number 0. *)
Definition file_chain f (c : Z) (l : list Z) : Prop := (c = 0 /\ l = []) \/ (l <> [] /\ linked f c l).

(** The cluster at index [k], or what the walk finds at the end. *)
Definition chain_at f (c : Z) (l : list Z) (k : nat) (x : Z) : Prop :=
  match l !! k with Some y => x = y | None => k = length l /\ ((x = 0 /\ l = []) \/ is_eoc x = true) end.

Lemma linked_drop f c l k :
  linked f c l -> (k <= length l)%nat -> exists x, linked f x (drop k l) /\ chain_at f c l k x.
Proof.
  revert c k; induction l as [|y l IH]; intros c k Hl Hk.
  - simpl in Hk. assert (k = O) as -> by lia. exists c. split; [done |]. unfold chain_at. simpl. auto.
  - destruct k as [|k]; [exists c; split; [done |]; destruct Hl as (-> & _); done |].
    destruct Hl as (-> & Hy & Hl). destruct (IH _ k Hl) as (x & Hx & Hat); [simpl in Hk; lia |].
    exists x. split; [done |]. unfold chain_at in *. simpl. destruct (l !! k); [done |].
    destruct Hat as [-> [[_ ->] | ?]]; [| auto]. simpl in *. auto.
Qed.

(** Walking [n] steps with no stop, from a cluster with at least [n] after it. *)
Lemma walk_free n f : forall prev c i l y,
  fat_ok f -> linked f c l -> l !! n = Some y ->
  exists p, walk_chain n f false prev c i = Ret (p, y, i + Z.of_nat n).
Proof.
  induction n as [|n IH]; intros prev c i l y Hf Hl Hy; cbn [walk_chain].
  - destruct l as [|x l]; [done |]. destruct Hl as (-> & _). injection Hy as ->.
    exists prev. by rewrite Z.add_0_r.
  - destruct l as [|x l]; [done |]. destruct Hl as (-> & Hx & Hl). cbn [andb].
    rewrite get_next_cluster_spec by (try done; lia). cbn [obind].
    destruct (IH x (next f x) (i + 1) l y) as (p & ->); [done | done | done |].
    exists p. do 2 f_equal. lia.
Qed.

Lemma walk_stop n f : forall prev c i l,
  fat_ok f -> linked f c l ->
  let k := Nat.min n (length l) in
  exists x, walk_chain n f true prev c i =
    Ret (match k with O => prev | S k' => default prev (l !! k') end, x, i + Z.of_nat k) /\
    linked f x (drop k l).
Proof.
  induction n as [|n IH]; intros prev c i l Hf Hl; cbn [walk_chain].
  - exists c. rewrite Nat.min_0_l. by rewrite Z.add_0_r.
  - destruct l as [|y l].
    + simpl in Hl. rewrite Hl. cbn [andb orb]. exists c. rewrite Z.add_0_r. done.
    + destruct Hl as (-> & Hy & Hl).
      assert (is_eoc y = false) as -> by (destruct Hf; unfold is_eoc; lia).
      destruct (Z.eqb_spec y 0); [lia |]. cbn [andb orb].
      rewrite get_next_cluster_spec by (try done; lia). cbn [obind].
      destruct (IH y (next f y) (i + 1) l Hf Hl) as (x & -> & Hx).
      exists x. simpl. split; [| done]. f_equal. f_equal; [f_equal | lia].
      destruct (Nat.min n (length l)) as [|k'] eqn:E; simpl; [done |].
      destruct (l !! k') as [z|] eqn:Ez; [done |]. apply lookup_ge_None in Ez. lia.
Qed.

Lemma find_end_spec fuel f : forall c l lst,
  fat_ok f -> linked f c (l ++ [lst]) -> (length l < fuel)%nat -> find_end fuel f c = Ret lst.
Proof.
  induction fuel as [|fuel IH]; intros c l lst Hf Hl Hfu; [lia |]. cbn [find_end].
  destruct l as [|y l]; simpl in Hl.
  - destruct Hl as (-> & Hx & He). rewrite get_next_cluster_spec by (try done; lia). cbn [obind]. by rewrite He.
  - destruct Hl as (-> & Hx & Hl). rewrite get_next_cluster_spec by (try done; lia). cbn [obind].
    assert (is_eoc (next f y) = false) as ->.
    { destruct Hf. destruct l; simpl in Hl; destruct Hl as (-> & ? & _); unfold is_eoc; lia. }
    apply (IH _ l); [done | done |]. simpl in Hfu. lia.
Qed.

(** ** Writing *)

(** What a write inside one cluster does, for the caller. *)
Lemma write_cluster_data f c o src :
  fat_ok f -> valid_cluster f c -> 0 <= o < cluster_bytes f ->
  o + Z.of_nat (length src) <= cluster_bytes f -> Forall is_byte src ->
  exists g, write_cluster f c o src = Ret g /\ same_vol f g /\
    cluster_data g c = put (cluster_data f c) (Z.to_nat o) src /\
    (forall x, valid_cluster f x -> x <> c -> cluster_data g x = cluster_data f x) /\
    (forall x, 0 <= x < max_cluster f -> next g x = next f x) /\
    wrote f g (cluster_pos f c + o) src.
Proof.
  intros Hf Hc Ho Hs Hb. destruct (write_cluster_spec f c o src Hf Hc Ho Hs Hb) as (g & E & Hw).
  exists g. split; [done |]. split; [eapply wrote_vol; eauto; lia |].
  split; [eapply wrote_same_cluster; eauto; lia |].
  split; [intros; eapply (wrote_other f g c o src); eauto; lia |].
  split; [intros; eapply (wrote_next f g c o src); eauto; lia | done].
Qed.

Lemma linked_same f g x l :
  same_vol f g -> (forall x, 0 <= x < max_cluster f -> next g x = next f x) -> linked f x l -> linked g x l.
Proof.
  intros Hv Hn Hl. apply (linked_frame f); [apply (same_vol_geom f g Hv) | | done].
  intros y Hy. apply Hn. pose proof (linked_valid f x l y Hl Hy). lia.
Qed.

Lemma write_rest_spec fuel : forall f curr i bw buffer l,
  fat_ok f -> valid_cluster f curr -> linked f (next f curr) l -> (length l < fuel)%nat ->
  0 <= i -> Z.of_nat (length buffer) - i <= Z.of_nat (length l) * cluster_bytes f ->
  Forall is_byte buffer ->
  exists g, write_rest fuel f curr i bw buffer = Ret (g, bw + Z.max 0 (Z.of_nat (length buffer) - i)) /\
    same_vol f g /\ content g l = put (content f l) 0 (drop (Z.to_nat i) buffer) /\
    (forall x, valid_cluster f x -> x ∉ l -> cluster_data g x = cluster_data f x) /\
    (forall x, 0 <= x < max_cluster f -> next g x = next f x).
Proof.
  induction fuel as [|fuel IH]; intros f curr i bw buffer l Hf Hcv Hl Hfu Hi Hlen Hby; [lia |].
  cbn [write_rest]. pose proof (cluster_bytes_pos f Hf) as Hcb.
  destruct (Z.ltb_spec i (Z.of_nat (length buffer))) as [Hlt | Hge].
  2: { exists f. rewrite Z.max_l, Z.add_0_r by lia. rewrite drop_ge, put_nil by lia.
       split; [done |]. split; [split; [by destruct f | done] |]. auto. }
  destruct l as [|c l]; [simpl in Hlen; lia |].
  pose proof (linked_valids f _ _ Hl) as Hv. apply Forall_cons in Hv as [Hvc Hv].
  pose proof (linked_nodup f _ _ Hf Hl) as Hnd. apply NoDup_cons in Hnd as [Hnc Hnd].
  destruct Hl as (Ec & Hc & Hl).
  rewrite get_next_cluster_spec by (try done; unfold valid_cluster in Hcv; lia). cbn [obind]. rewrite Ec.
  set (e := Z.min (i + cluster_bytes f) (Z.of_nat (length buffer))).
  rewrite slice_get by lia. cbn [obind].
  set (data := get buffer (Z.to_nat i) (Z.to_nat (e - i))).
  assert (Hld : length data = Z.to_nat (e - i)) by (apply length_get; lia).
  destruct (write_cluster_data f c 0 data) as (g & -> & Hvol & Hself & Hoth & Hnx & _);
    [done | done | lia | lia | by apply Forall_get |]. cbn [obind].
  destruct (same_vol_geom f g Hvol) as (Em & Ecb & Ecn & _ & _ & Evc).
  assert (Hg : fat_ok g) by apply Hvol.
  destruct (IH g c (i + cluster_bytes f) (bw + Z.of_nat (length data)) buffer l)
    as (h & E & Hvol2 & Hcont & Hoth2 & Hnx2); try done.
  - by apply Evc.
  - rewrite Hnx by lia. by apply (linked_same f).
  - simpl in Hfu. lia.
  - lia.
  - rewrite Ecb. simpl length in Hlen. lia.
  - exists h. rewrite Ecb, E. split; [do 2 f_equal; lia |]. split; [by eapply same_vol_trans |].
    assert (Hdata : cluster_data h c = put (cluster_data f c) 0 data)
      by (rewrite Hoth2; [done | by apply Evc | done]).
    split; [| split].
    + change (content h (c :: l)) with (cluster_data h c ++ content h l).
      change (content f (c :: l)) with (cluster_data f c ++ content f l).
      assert (Hfr : content g l = content f l).
      { apply content_frame. intros x Hx. apply Hoth; [by rewrite Forall_forall in Hv; apply Hv | congruence]. }
      rewrite Hdata, Hcont, Hfr. pose proof (cluster_data_length f c Hf Hvc) as Hdl. unfold cbytes in Hdl.
      destruct (Z.le_gt_cases (i + cluster_bytes f) (Z.of_nat (length buffer))) as [Hle | Hgt].
      * rewrite put_across; [| lia | rewrite length_drop, (content_length f l) by done; unfold cbytes; simpl length in Hlen; lia].
        f_equal. unfold data, get, e. rewrite Z.min_l by lia.
        replace (Z.to_nat (i + cluster_bytes f - i)) with (Z.to_nat (cluster_bytes f)) by lia.
        replace (Z.to_nat (i + cluster_bytes f)) with (Z.to_nat i + Z.to_nat (cluster_bytes f))%nat by lia.
        rewrite <- drop_drop. apply take_drop.
      * rewrite drop_ge, put_nil by lia. rewrite put_app_l by (rewrite length_drop; lia).
        f_equal. f_equal. unfold data, get, e. apply take_ge. rewrite length_drop. lia.
    + intros x Hx Hxl. apply not_elem_of_cons in Hxl as [? ?].
      rewrite Hoth2; [by apply Hoth | by apply Evc | done].
    + intros x Hx. rewrite Hnx2 by lia. by apply Hnx.
Qed.

(** ** Directory entries on the disk *)
Definition is_u (w z : Z) : Prop := 0 <= z < 2 ^ w.

Record entry_wf (e : DirEntry) : Prop := {
  ew_name : length (name e) = 8%nat /\ Forall is_byte (name e);
  ew_ext : length (ext e) = 3%nat /\ Forall is_byte (ext e);
  ew_bytes : is_byte (attr e) /\ is_byte (nt_reserved e) /\ is_byte (creation_time_tenth e);
  ew_times : is_u 16 (creation_time e) /\ is_u 16 (creation_date e) /\ is_u 16 (last_access_date e) /\
             is_u 16 (write_time e) /\ is_u 16 (write_date e);
  ew_first : is_u 16 (first_cluster_high e) /\ is_u 16 (first_cluster_low e);
  ew_size : is_u 32 (file_size e)
}.

Lemma encode_length e : entry_wf e -> length (encode_dirent e) = 32%nat.
Proof.
  intros [[Hn _] [Hx _] _ _ _ _]. unfold encode_dirent.
  rewrite !length_app, Hn, Hx, !le_bytes_length. done.
Qed.

Lemma encode_bytes e : entry_wf e -> Forall is_byte (encode_dirent e).
Proof.
  intros [[_ Hn] [_ Hx] (H1 & H2 & H3) _ _ _]. unfold encode_dirent.
  repeat (apply Forall_app; split); auto with machine.
Qed.

Lemma first_cluster_set c e : 0 <= c < 2 ^ 32 -> first_cluster (set_first_cluster c e) = c.
Proof.
  intros Hc. unfold first_cluster, set_first_cluster. simpl.
  rewrite Z.shiftr_div_pow2, Z.shiftl_mul_pow2 by lia.
  assert (0 <= c / 2 ^ 16 < 2 ^ 16) by (Z.to_euclidean_division_equations; lia).
  rewrite (wrap_u_small 16 (c / 2 ^ 16)) by lia. unfold wrap_u.
  rewrite lor_low by (try lia; apply Z.mod_pos_bound; lia).
  Z.to_euclidean_division_equations; lia.
Qed.

Lemma set_first_wf c e : 0 <= c < 2 ^ 32 -> entry_wf e -> entry_wf (set_first_cluster c e).
Proof.
  intros Hc [H1 H2 H3 H4 H5 H6]. split; try done. unfold is_u; simpl. split; apply wrap_u_range; lia.
Qed.

Lemma set_size_wf n e : is_u 32 n -> entry_wf e -> entry_wf (set_file_size n e).
Proof. intros Hn [H1 H2 H3 H4 H5 H6]. by split. Qed.

(** Where an entry is stored, and what is stored there. *)
Definition loc_ok f (p : ClusterOffset) : Prop :=
  valid_cluster f (co_cluster p) /\ 0 <= co_offset p /\ co_offset p + 32 <= cluster_bytes f.
Definition dirslot f (p : ClusterOffset) : list Z :=
  get (cluster_data f (co_cluster p)) (Z.to_nat (co_offset p)) 32.

Lemma update_dir_spec f dir :
  fat_ok f -> entry_wf (entry dir) -> loc_ok f (loc dir) ->
  exists g, update_dir f dir = Ret g /\ same_vol f g /\
    dirslot g (loc dir) = encode_dirent (entry dir) /\
    (forall x, valid_cluster f x -> x <> co_cluster (loc dir) -> cluster_data g x = cluster_data f x) /\
    (forall x, 0 <= x < max_cluster f -> next g x = next f x).
Proof.
  intros Hf Hw (Hv & Ho & Hb). pose proof (encode_length _ Hw) as Hl. unfold update_dir.
  destruct (write_cluster_data f (co_cluster (loc dir)) (co_offset (loc dir)) (encode_dirent (entry dir)))
    as (g & E & Hvol & Hself & Hoth & Hnx & _); [done | done | lia | lia | by apply encode_bytes |].
  exists g. split; [done |]. split; [done |]. split; [| done].
  unfold dirslot. rewrite Hself. pose proof (cluster_data_length f _ Hf Hv) as Hd. unfold cbytes in Hd.
  pose proof (cluster_bytes_pos f Hf).
  rewrite get_put_in by lia. rewrite Nat.sub_diag, <- Hl. apply get_all.
Qed.

(** A file: its chain, its size, and its entry in a directory. *)
Record file_ok f (dir : DirEntryWithLoc) (l : list Z) : Prop := {
  fo_chain : file_chain f (first_cluster (entry dir)) l;
  fo_len : Z.of_nat (length l) = div_ceil (file_size (entry dir)) (cluster_bytes f);
  fo_loc : loc_ok f (loc dir);
  fo_apart : co_cluster (loc dir) ∉ l;
  fo_used : next f (co_cluster (loc dir)) <> 0;
  fo_wf : entry_wf (entry dir);
  fo_disk : dirslot f (loc dir) = encode_dirent (entry dir)
}.

Lemma file_chain_valids f c l : file_chain f c l -> Forall (valid_cluster f) l.
Proof. intros [[_ ->] | [_ H]]; [done | by eapply linked_valids]. Qed.

Lemma linked_concat f g c s l x l' :
  max_cluster g = max_cluster f -> linked f c (l ++ [x]) -> linked f s l' -> x ∉ l -> x ∉ l' ->
  (forall y, y ∈ l ++ l' -> next g y = next f y) -> next g x = s ->
  linked g c ((l ++ [x]) ++ l').
Proof.
  intros Hm Hl Hl' Hx Hx' Hn Hs. revert c Hl; induction l as [|y l IH]; intros c Hl; simpl in *.
  - destruct Hl as (-> & Hv & _). rewrite Hm, Hs. split; [done |]. split; [done |].
    apply (linked_frame f); done.
  - destruct Hl as (-> & Hv & Hl). apply not_elem_of_cons in Hx as [Hxy Hx].
    rewrite Hm, Hn by apply list_elem_of_here. split; [done |]. split; [done |].
    apply IH; try done. intros z Hz. apply Hn. by apply list_elem_of_further.
Qed.

Lemma takes_apart f g c l l' :
  fat_ok f -> takes f g l' -> linked f c l -> forall x, x ∈ l -> x ∉ l'.
Proof.
  intros Hf (_ & Hfr & _) Hl x Hx Hx'. rewrite Forall_forall in Hfr.
  destruct (Hfr x Hx') as [_ H0]. by apply (linked_nonzero f c l x Hl Hx).
Qed.

(** Joining the new clusters to an existing chain. *)
Lemma join_chain fuel f g c l0 lst s ln j prev :
  fat_ok f -> linked f c (l0 ++ [lst]) -> takes f g ln -> linked g s ln -> ln <> [] ->
  (l0 ++ [lst]) !! j = Some prev -> (length l0 < fuel)%nat ->
  exists h, find_end fuel g prev = Ret lst /\ link_clusters g lst s = Ret h /\
    table_step f h /\ linked h c ((l0 ++ [lst]) ++ ln) /\
    (forall x, 0 <= x < max_cluster f -> x ∉ ln -> x <> lst -> next h x = next f x).
Proof.
  intros Hf Hl Ht Hln Hne Hj Hfu. pose proof Ht as (Hts & _ & Hnx).
  pose proof (takes_apart f g c _ _ Hf Ht Hl) as Hap.
  pose proof (table_step_max f g Hts) as Hm. assert (Hg : fat_ok g) by apply Hts.
  assert (Hlg : linked g c (l0 ++ [lst])).
  { apply (linked_frame f); [done | | done]. intros x Hx. pose proof (linked_valid f c _ x Hl Hx).
    apply Hnx; [lia | by apply Hap]. }
  pose proof (lookup_lt_Some _ _ _ Hj) as Hjl. rewrite length_app in Hjl. simpl in Hjl.
  destruct (linked_drop g c _ j Hlg) as (x & Hx & Hat); [rewrite length_app; simpl; lia |].
  unfold chain_at in Hat. rewrite Hj in Hat. subst x. rewrite drop_app_le in Hx by lia.
  assert (Hs : 2 <= s < max_cluster g) by (destruct ln; [done | by destruct Hln as (-> & ? & _)]).
  assert (Hlst : 2 <= lst < max_cluster g).
  { eapply linked_valid; [apply Hlg |]. apply elem_of_app. right. apply list_elem_of_here. }
  destruct (link_clusters_next g lst s) as (h & E & Hts2 & Hnx2); [done | lia | destruct Hg; lia |].
  pose proof (table_step_max g h Hts2).
  exists h. split; [apply (find_end_spec _ _ _ (drop j l0)); [done | done | rewrite length_drop; lia] |].
  split; [done |]. split; [by eapply table_step_trans |].
  pose proof (linked_nodup g _ _ Hg Hlg) as Hnd. apply NoDup_app in Hnd as (_ & Hd & _).
  assert (Hlst' : lst ∉ ln) by (apply Hap, elem_of_app; right; apply list_elem_of_here).
  assert (Hlst0 : lst ∉ l0) by (intros Hin; by apply (Hd lst Hin), list_elem_of_here).
  split.
  - apply (linked_concat g h c s); try done.
    + intros y Hy. assert (0 <= y < max_cluster g).
      { apply elem_of_app in Hy as [Hy | Hy];
          [pose proof (linked_valid g c _ y Hlg ltac:(apply elem_of_app; by left)); lia
          | pose proof (linked_valid g s _ y Hln Hy); lia]. }
      rewrite Hnx2, decide_False; [done | | done]. intros ->. by apply elem_of_app in Hy as [? | ?].
    + by rewrite Hnx2, decide_True by (try done; lia).
  - intros y Hy Hyl Hyn. rewrite Hnx2, decide_False by (try done; lia). by apply Hnx.
Qed.

(** What extending a file does, apart from the size. *)
Record extended f (dir : DirEntryWithLoc) (l : list Z) g (dir' : DirEntryWithLoc) (ln : list Z) : Prop := {
  ex_vol : same_vol f g;
  ex_chain : linked g (first_cluster (entry dir')) (l ++ ln);
  ex_size : file_size (entry dir') = file_size (entry dir);
  ex_loc : loc dir' = loc dir;
  ex_apart : co_cluster (loc dir) ∉ l ++ ln;
  ex_used : next g (co_cluster (loc dir)) <> 0;
  ex_wf : entry_wf (entry dir');
  ex_disk : dirslot g (loc dir') = encode_dirent (entry dir');
  ex_data : content g (l ++ ln) = content f (l ++ ln)
}.

Lemma extend_chain_spec fuel f dir l fl prev curr n :
  fat_ok f -> file_ok f dir l -> free_list f fl -> 1 <= n <= Z.of_nat (length fl) ->
  (length l < fuel)%nat ->
  (l = [] /\ prev = 0 \/ exists j, l !! j = Some prev) ->
  exists g dir' ln s, extend_chain fuel f dir prev curr n =
    Ret (g, dir', if (curr =? 0) || is_eoc curr then s else curr) /\
    Z.of_nat (length ln) = n /\ ln !! O = Some s /\ extended f dir l g dir' ln.
Proof.
  intros Hf [Hch Hlen Hloc Hap Hus Hwf Hdisk] Hfl Hn Hfu Hprev.
  destruct (alloc_clusters_spec f n fl) as (g & s & ln & E & Hln & Hlk & Ht); try done; [lia | lia |].
  unfold extend_chain. rewrite E. cbn [obind unwrap].
  pose proof Ht as (Hts & Hfree & Hnx). assert (Hg : fat_ok g) by apply Hts.
  pose proof (table_step_max f g Hts) as Hm.
  destruct ln as [|s' ln']; [simpl in Hln; lia |]. set (ln := s' :: ln') in *.
  assert (s' = s) as -> by (symmetry; apply Hlk).
  assert (Hdl : co_cluster (loc dir) ∉ ln).
  { intros Hin. rewrite Forall_forall in Hfree. by destruct (Hfree _ Hin). }
  pose proof Hloc as (Hvl & Ho1 & Ho2). unfold valid_cluster in Hvl.
  assert (Hvln : Forall (valid_cluster f) ln).
  { apply Forall_forall. intros x Hx. rewrite Forall_forall in Hfree.
    by apply usable_valid; [| apply Hfree]. }
  assert (Hin_s : 2 <= s < max_cluster f) by (apply Forall_cons in Hvln as [? _]; done).
  pose proof (file_chain_valids f _ l Hch) as Hvl'.
  assert (Hall : Forall (valid_cluster f) (l ++ ln)) by (by apply Forall_app).
  destruct Hch as [[H0 ->] | [Hne Hl]].
  - assert (prev = 0) as -> by (destruct Hprev as [[_ ?] | (j & ?)]; done). cbn [Z.eqb negb].
    set (dir1 := {| entry := set_first_cluster s (entry dir); loc := loc dir |}).
    destruct (same_vol_geom f g (table_step_vol f g Hts)) as (_ & Ecb & _ & _ & _ & Evc).
    destruct (update_dir_spec g dir1) as (h & Eu & Hvol & Hslot & Hoth & Hnx2); [done | | |].
    { apply set_first_wf; [destruct Hf; lia | done]. }
    { unfold loc_ok. rewrite Ecb. split; [by apply Evc | done]. }
    rewrite Eu. cbn [obind]. exists h, dir1, ln, s. split; [done |]. split; [done |]. split; [done |].
    split; try done; simpl.
    + eapply same_vol_trans; [by apply table_step_vol | done].
    + rewrite first_cluster_set by (destruct Hf; lia). exact (linked_same g h s ln Hvol Hnx2 Hlk).
    + rewrite Hnx2 by lia. rewrite Hnx; [done | lia | done].
    + apply set_first_wf; [destruct Hf; lia | done].
    + apply content_frame. intros x Hx. assert (Hvx : valid_cluster f x) by (rewrite Forall_forall in Hvln; auto).
      rewrite Hoth; [by apply table_step_data | by apply Evc |]. intros ->. done.
  - destruct Hprev as [[? _] | (j & Hj)]; [done |].
    destruct (Z.eqb_spec prev 0) as [-> | Hp0].
    { apply list_elem_of_lookup_2 in Hj. rewrite Forall_forall in Hvl'. apply Hvl' in Hj.
      unfold valid_cluster in Hj. lia. }
    cbn [negb]. destruct (exists_last Hne) as (l0 & lst & ->).
    destruct (join_chain fuel f g (first_cluster (entry dir)) l0 lst s ln j prev)
      as (h & E1 & E2 & Hts2 & Hlk2 & Hnx2); try done; [rewrite length_app in Hfu; simpl in Hfu; lia |].
    rewrite E1. cbn [obind]. rewrite E2. cbn [obind]. exists h, dir, ln, s.
    split; [done |]. split; [done |]. split; [done |].
    destruct (same_vol_geom f h (table_step_vol f h Hts2)) as (_ & Ecb & _ & _ & _ & Evc).
    split; try done.
    + by apply table_step_vol.
    + intros [? | ?]%elem_of_app; done.
    + rewrite Hnx2; [done | lia | done |]. intros <-. apply Hap, elem_of_app. right. apply list_elem_of_here.
    + unfold dirslot. rewrite table_step_data with (f := f); [apply Hdisk | done | done | done].
    + apply content_frame. intros x Hx. apply table_step_data; [done | done |]. rewrite Forall_forall in Hall. auto.
Qed.

Lemma div_ceil_mono a b c : 0 < c -> a <= b -> div_ceil a c <= div_ceil b c.
Proof. intros. apply Z.div_le_mono; lia. Qed.

Lemma div_ceil_gt a b c : 0 < c -> 0 <= a -> 1 <= b -> a / c < div_ceil (a + b) c.
Proof.
  intros Hc Ha Hb. unfold div_ceil. apply Z.lt_le_trans with ((a + c) / c); [| apply Z.div_le_mono; lia].
  replace (a + c) with (a + 1 * c) by lia. rewrite Z.div_add by lia. lia.
Qed.

(** The bytes written, once the chain [l1 ++ c :: r] is long enough. *)
Lemma write_span_spec fuel f first l1 c r off buffer :
  fat_ok f -> linked f first (l1 ++ c :: r) -> (length r < fuel)%nat ->
  0 <= off < cluster_bytes f -> (0 < length buffer)%nat -> Forall is_byte buffer ->
  off + Z.of_nat (length buffer) <= Z.of_nat (S (length r)) * cluster_bytes f ->
  let n := Z.min (cluster_bytes f - off) (Z.of_nat (length buffer)) in
  exists g h, write_cluster f c off (take (Z.to_nat n) buffer) = Ret g /\
    write_rest fuel g c n (n + 1) buffer = Ret (h, Z.of_nat (length buffer) + 1) /\
    same_vol f h /\
    content h (l1 ++ c :: r) =
      put (content f (l1 ++ c :: r)) (length l1 * cbytes f + Z.to_nat off) buffer /\
    (forall x, valid_cluster f x -> x ∉ l1 ++ c :: r -> cluster_data h x = cluster_data f x) /\
    (forall x, 0 <= x < max_cluster f -> next h x = next f x).
Proof.
  intros Hf Hl Hfu Hoff Hb0 Hby Hlen n. pose proof (linked_valids f _ _ Hl) as Hv.
  rewrite Nat2Z.inj_succ, Z.mul_succ_l in Hlen.
  assert (Hprod : Z.of_nat (length r * Z.to_nat (cluster_bytes f)) = Z.of_nat (length r) * cluster_bytes f)
    by (rewrite Nat2Z.inj_mul, Z2Nat.id; lia).
  pose proof (linked_nodup f _ _ Hf Hl) as Hnd.
  apply Forall_app in Hv as [Hv1 Hv2]. apply Forall_cons in Hv2 as [Hvc Hvr].
  apply NoDup_app in Hnd as (_ & Hd & [Hcr Hnr]%NoDup_cons).
  assert (Hcl1 : c ∉ l1) by (intros Hin; by apply (Hd c Hin), list_elem_of_here).
  destruct (linked_app f _ l1 _ Hl) as (c' & Hc'). destruct Hc' as (-> & Hcm & Hlr).
  assert (Hn : length (take (Z.to_nat n) buffer) = Z.to_nat n) by (rewrite length_take; lia).
  destruct (write_cluster_data f c off (take (Z.to_nat n) buffer))
    as (g & E & Hvol & Hself & Hoth & Hnx & _); [done | done | lia | lia | by apply Forall_take |].
  destruct (same_vol_geom f g Hvol) as (Em & Ecb & Ecn & _ & _ & Evc). assert (Hg : fat_ok g) by apply Hvol.
  destruct (write_rest_spec fuel g c n (n + 1) buffer r) as (h & E2 & Hvol2 & Hcont & Hoth2 & Hnx2); try done.
  { by apply Evc. }
  { rewrite Hnx by lia. by apply (linked_same f). }
  { lia. }
  { rewrite Ecb. lia. }
  exists g, h. split; [done |]. split; [rewrite E2; do 2 f_equal; lia |].
  split; [by eapply same_vol_trans |].
  pose proof (cluster_data_length f c Hf Hvc) as Hdl. pose proof (content_length f r Hf Hvr) as Hrl.
  pose proof (content_length f l1 Hf Hv1) as Hl1. unfold cbytes in *.
  split; [| split].
  - rewrite !content_app. change (content h (c :: r)) with (cluster_data h c ++ content h r).
    change (content f (c :: r)) with (cluster_data f c ++ content f r).
    rewrite <- Hl1, put_app_r. f_equal.
    { apply content_frame. intros x Hx. assert (valid_cluster f x) by (rewrite Forall_forall in Hv1; auto).
      rewrite Hoth2; [apply Hoth; [done | congruence] | by apply Evc |].
      intros Hr. by apply (Hd x Hx), list_elem_of_further. }
    rewrite Hoth2, Hself, Hcont by (try done; by apply Evc).
    assert (content g r = content f r) as ->.
    { apply content_frame. intros x Hx. apply Hoth; [rewrite Forall_forall in Hvr; auto | congruence]. }
    destruct (Z.le_gt_cases (Z.of_nat (length buffer)) (cluster_bytes f - off)) as [Hle | Hgt].
    + rewrite drop_ge, put_nil, take_ge by lia. rewrite put_app_l by lia. done.
    + rewrite put_across by (rewrite ?length_drop; lia). by rewrite take_drop.
  - intros x Hx Hxl. rewrite Hoth2; [apply Hoth; [done |] | by apply Evc |].
    + intros ->. apply Hxl, elem_of_app. right. apply list_elem_of_here.
    + intros Hr. apply Hxl, elem_of_app. right. by apply list_elem_of_further.
  - intros x Hx. rewrite Hnx2 by lia. by apply Hnx.
Qed.

(** The first walk of [write_buffer], on an empty file and on a chain. *)
Lemma first_walk f c l ci :
  fat_ok f -> file_chain f c l ->
  let k := Nat.min ci (length l) in
  exists prev curr, walk_chain ci f true c c 0 = Ret (prev, curr, Z.of_nat k) /\
    (l = [] /\ prev = 0 \/ exists j, l !! j = Some prev) /\
    (l !! k = Some curr \/ k = length l /\ (curr =? 0) || is_eoc curr = true).
Proof.
  intros Hf [[-> ->] | [Hne Hl]] k.
  - exists 0, 0. unfold k. rewrite Nat.min_0_r. split; [by destruct ci |]. split; [by left | by right].
  - destruct (walk_stop ci f c c 0 l Hf Hl) as (x & E & Hx). fold k in E, Hx.
    eexists _, x. split; [exact E |]. split.
    + right. destruct k as [|k'] eqn:Ek.
      * exists O. destruct l as [|y l]; [done |]. by destruct Hl as (-> & _).
      * assert (k' < length l)%nat as [z Hz]%lookup_lt_is_Some by lia. exists k'. by rewrite Hz.
    + destruct (drop k l) as [|y r] eqn:Hd.
      * right. simpl in Hx. apply (f_equal length) in Hd. rewrite length_drop in Hd. simpl in Hd.
        split; [lia |]. rewrite Hx. by destruct (x =? 0).
      * left. destruct Hx as (-> & _). rewrite <- (Nat.add_0_r k), <- lookup_drop, Hd. done.
Qed.

Lemma valid_live f c : fat_ok f -> valid_cluster f c -> (c =? 0) || is_eoc c = false.
Proof. intros [] Hc. unfold valid_cluster, is_eoc in *. lia. Qed.

(** The chain a write works on: the file's own, or the extended one. *)
Lemma prepare_chain fuel f dir l fl prev curr k req :
  fat_ok f -> file_ok f dir l -> free_list f fl ->
  req - Z.of_nat (length l) <= Z.of_nat (length fl) -> (length l < fuel)%nat ->
  (k <= length l)%nat -> Z.of_nat k < req ->
  (l = [] /\ prev = 0 \/ exists j, l !! j = Some prev) ->
  (l !! k = Some curr \/ k = length l /\ (curr =? 0) || is_eoc curr = true) ->
  exists g dir' ln c',
    (if Z.of_nat (length l) <? req then extend_chain fuel f dir prev curr (req - Z.of_nat (length l))
     else Ret (f, dir, curr)) = Ret (g, dir', c') /\
    extended f dir l g dir' ln /\ (l ++ ln) !! k = Some c' /\
    Z.of_nat (length (l ++ ln)) = Z.max (Z.of_nat (length l)) req.
Proof.
  intros Hf Hok Hfl Hfree Hfu Hk Hkr Hp Hc. pose proof (file_chain_valids f _ l (fo_chain _ _ _ Hok)) as Hv.
  destruct (Z.ltb_spec (Z.of_nat (length l)) req) as [Hlt | Hge].
  - destruct (extend_chain_spec fuel f dir l fl prev curr (req - Z.of_nat (length l)))
      as (g & dir' & ln & s & E & Hln & Hs & Hex); try done; [lia |].
    rewrite E. eexists g, dir', ln, _. split; [done |]. split; [done |].
    split; [| rewrite length_app; lia].
    destruct Hc as [Hc | [-> Hend]].
    + assert (valid_cluster f curr) as Hvc by (rewrite Forall_forall in Hv; by eapply Hv, list_elem_of_lookup_2).
      rewrite (valid_live f curr Hf Hvc). by apply lookup_app_l_Some.
    + rewrite Hend. rewrite lookup_app_r, Nat.sub_diag by lia. done.
  - exists f, dir, [], curr. rewrite app_nil_r. split; [done |].
    destruct Hc as [Hc | [-> _]]; [| lia]. split; [| split; [done | lia]].
    destruct Hok as [[[? ->] | [? Hl]] ? ? ? ? ? ?]; [done |].
    split; rewrite ?app_nil_r; try done. split; [by destruct f | done].
Qed.

(** From a cluster of the chain to the one of the offset, and the write. *)
Lemma write_at fuel f first l prev c1 k offset buffer :
  fat_ok f -> linked f first l -> l !! k = Some c1 -> (length l < fuel)%nat ->
  0 <= offset -> Z.of_nat k <= offset / cluster_bytes f ->
  (0 < length buffer)%nat -> Forall is_byte buffer ->
  offset + Z.of_nat (length buffer) <= Z.of_nat (length l) * cluster_bytes f ->
  let cb := cluster_bytes f in
  let n := Z.min (cb - offset mod cb) (Z.of_nat (length buffer)) in
  exists p c i g h,
    walk_chain (Z.to_nat (offset / cb - Z.of_nat k)) f false prev c1 (Z.of_nat k) = Ret (p, c, i) /\
    write_cluster f c (offset mod cb) (take (Z.to_nat n) buffer) = Ret g /\
    write_rest fuel g c n (n + 1) buffer = Ret (h, Z.of_nat (length buffer) + 1) /\
    same_vol f h /\ content h l = put (content f l) (Z.to_nat offset) buffer /\
    (forall x, valid_cluster f x -> x ∉ l -> cluster_data h x = cluster_data f x) /\
    (forall x, 0 <= x < max_cluster f -> next h x = next f x).
Proof.
  intros Hf Hl Hc1 Hfu Ho Hk Hb0 Hby Hlen cb n. pose proof (cluster_bytes_pos f Hf) as Hcb. fold cb in Hcb, Hlen, Hk.
  assert (Hom : 0 <= offset mod cb < cb) by (apply Z.mod_pos_bound; lia).
  assert (Hod : offset = cb * (offset / cb) + offset mod cb) by (apply Z.div_mod; lia).
  assert (Hci : 0 <= offset / cb < Z.of_nat (length l)) by (split; [apply Z.div_pos |]; nia).
  set (ci := Z.to_nat (offset / cb)).
  assert (exists c, l !! ci = Some c) as [c Hcc] by (apply lookup_lt_is_Some; lia).
  pose proof (lookup_lt_Some _ _ _ Hc1) as Hkl.
  destruct (linked_drop f _ l k Hl) as (x & Hx & Hat); [lia |].
  unfold chain_at in Hat. rewrite Hc1 in Hat. subst x.
  destruct (walk_free (Z.to_nat (offset / cb - Z.of_nat k)) f prev c1 (Z.of_nat k) (drop k l) c)
    as (p & E2); [done | done | rewrite lookup_drop, <- Hcc; f_equal; lia |].
  assert (Hsplit : l = take ci l ++ c :: drop (S ci) l) by (symmetry; by apply take_drop_middle).
  set (l1 := take ci l) in *. set (r := drop (S ci) l) in *.
  assert (Hl1 : length l1 = ci) by (unfold l1; rewrite length_take; lia).
  assert (Hlr : (length l1 + S (length r) = length l)%nat) by (pose proof (f_equal length Hsplit) as E; rewrite length_app in E; simpl in E; lia).
  assert (Hoc : (length l1 * cbytes f + Z.to_nat (offset mod cb))%nat = Z.to_nat offset).
  { unfold cbytes. fold cb. rewrite Hl1. unfold ci. rewrite <- Z2Nat.inj_mul, <- Z2Nat.inj_add by nia.
    f_equal. lia. }
  rewrite Hsplit in Hl. 
  destruct (write_span_spec fuel f first l1 c r (offset mod cb) buffer Hf Hl)
    as (g & h & E3 & E4 & Hvol & Hcont & Hoth & Hnx); [lia | done | done | done | fold cb; nia |].
  rewrite <- Hsplit, Hoc in Hcont. rewrite <- Hsplit in Hoth.
  eexists p, c, _, g, h. done.
Qed.

(** The entry of the file is brought up to date. *)
Lemma finish_write f g dir l l' dir1 required (b : Z) :
  extended f dir l g dir1 l' -> fat_ok f -> 0 <= required < 2 ^ 32 ->
  Z.of_nat (length (l ++ l')) = div_ceil (Z.max (file_size (entry dir)) required) (cluster_bytes f) ->
  l ++ l' <> [] -> loc_ok f (loc dir) ->
  exists h dir', (if file_size (entry dir1) <? required
     then let dir := {| entry := set_file_size (wrap_u 32 required) (entry dir1); loc := loc dir1 |} in
          let! f := update_dir g dir in Ret (f, dir, b)
     else Ret (g, dir1, b)) = Ret (h, dir', b) /\
    same_vol g h /\ file_ok h dir' (l ++ l') /\
    file_size (entry dir') = Z.max (file_size (entry dir)) required /\
    content h (l ++ l') = content g (l ++ l').
Proof.
  intros [Hvol Hlk Hsz Hloc Hap Hus Hwf Hdisk Hdata] Hf Hr Hlen Hne Hl. assert (Hg : fat_ok g) by apply Hvol.
  destruct (same_vol_geom f g Hvol) as (Em & Ecb & Ecn & _ & _ & Evc).
  assert (Hlg : loc_ok g (loc dir1)).
  { rewrite Hloc. unfold loc_ok in *. rewrite Ecb. by rewrite Evc. }
  pose proof (ew_size _ Hwf) as Hsz1. unfold is_u in Hsz1. rewrite Hsz in Hsz1.
  destruct (Z.ltb_spec (file_size (entry dir1)) required) as [Hlt | Hge]; cbv zeta.
  - rewrite wrap_u_small by lia.
    set (dir2 := {| entry := set_file_size required (entry dir1); loc := loc dir1 |}).
    assert (Hwf2 : entry_wf (entry dir2)) by (by apply set_size_wf).
    destruct (update_dir_spec g dir2 Hg Hwf2 Hlg) as (h & E & Hvol2 & Hslot & Hoth & Hnx).
    rewrite E. cbn [obind]. exists h, dir2. split; [done |]. split; [done |].
    destruct (same_vol_geom g h Hvol2) as (Em2 & Ecb2 & _ & _ & _ & Evc2).
    split; [| split; [simpl; lia |]].
    + split; try done; simpl.
      * right. split; [done |]. exact (linked_same g h _ _ Hvol2 Hnx Hlk).
      * rewrite Ecb2, Ecb, Hlen. f_equal. lia.
      * unfold loc_ok in *. rewrite Ecb2. by rewrite Evc2.
      * by rewrite Hloc.
      * rewrite Hnx, Hloc; [done |]. destruct Hlg as ([? ?] & _). simpl. lia.
    + apply content_frame. intros x Hx. apply Hoth; [by apply (linked_valid g _ _ _ Hlk) |].
      simpl. rewrite Hloc. by intros ->.
  - exists g, dir1. split; [done |]. split; [split; [by destruct g | done] |].
    split; [| split; [lia | done]].
    split; try done; [by right | rewrite Ecb, Hlen; f_equal; lia | by rewrite Hloc | by rewrite Hloc].
Qed.

Lemma extended_after f dir l g dir1 ln h :
  extended f dir l g dir1 ln -> fat_ok f -> valid_cluster f (co_cluster (loc dir)) -> same_vol g h ->
  (forall x, valid_cluster g x -> x ∉ l ++ ln -> cluster_data h x = cluster_data g x) ->
  (forall x, 0 <= x < max_cluster g -> next h x = next g x) ->
  extended h dir l h dir1 ln.
Proof.
  intros [Hvol Hlk Hsz Hloc Hap Hus Hwf Hdisk Hdata] Hf Hv Hvol2 Hoth Hnx.
  destruct (same_vol_geom f g Hvol) as (Em & _ & _ & _ & _ & Evc). unfold valid_cluster in Hv.
  split; try done.
  - split; [by destruct h |]. split; [apply Hvol2 | done].
  - exact (linked_same g h _ _ Hvol2 Hnx Hlk).
  - rewrite Hnx; [done | lia].
  - unfold dirslot. rewrite Hloc. rewrite Hoth; [| by apply Evc | done]. rewrite <- Hloc. exact Hdisk.
Qed.

Lemma div_ceil_cover a c : 0 < c -> a <= div_ceil a c * c.
Proof.
  intros Hc. unfold div_ceil. pose proof (Z.div_mod (a + c - 1) c).
  pose proof (Z.mod_pos_bound (a + c - 1) c). lia.
Qed.

(** The write itself: the chain grows by what is needed, the slice is replaced
    and nothing else of the file changes; the count returned is one more than
    the bytes written. *)
Lemma write_buffer_spec fuel f dir l fl offset buffer :
  fat_ok f -> file_ok f dir l -> free_list f fl ->
  0 <= offset -> (0 < length buffer)%nat -> Forall is_byte buffer ->
  let required := offset + Z.of_nat (length buffer) in
  required < 2 ^ 32 ->
  div_ceil required (cluster_bytes f) - Z.of_nat (length l) <= Z.of_nat (length fl) ->
  Z.of_nat (length l) + div_ceil required (cluster_bytes f) < Z.of_nat fuel ->
  exists g dir' ln, write_buffer fuel f dir offset buffer = Ret (g, dir', Z.of_nat (length buffer) + 1) /\
    same_vol f g /\ file_ok g dir' (l ++ ln) /\
    file_size (entry dir') = Z.max (file_size (entry dir)) required /\
    content g (l ++ ln) = put (content f (l ++ ln)) (Z.to_nat offset) buffer.
Proof.
  intros Hf Hok Hfl Ho Hb0 Hby required Hreq Hfree Hfu. pose proof (cluster_bytes_pos f Hf) as Hcb.
  set (cb := cluster_bytes f) in *. set (req := div_ceil required cb) in *.
  pose proof (ew_size _ (fo_wf _ _ _ Hok)) as Hsz. unfold is_u in Hsz.
  assert (Hci : 0 <= offset / cb < req) by (split; [apply Z.div_pos; lia | apply div_ceil_gt; lia]).
  pose proof (div_ceil_cover required cb ltac:(lia)) as Hrq. fold req in Hrq.
  pose proof (fo_len _ _ _ Hok) as Hlen. fold cb in Hlen.
  unfold write_buffer. fold cb. rewrite chk_u_ret by (unfold required in *; lia). cbn [obind]. fold required.
  rewrite (proj2 (Z.eqb_neq cb 0)) by lia. cbn [negb ensure obind]. fold req. rewrite <- Hlen.
  destruct (first_walk f _ l (Z.to_nat (offset / cb)) Hf (fo_chain _ _ _ Hok)) as (prev & curr & E & Hp & Hc).
  rewrite E. cbn [obind]. set (k := Nat.min (Z.to_nat (offset / cb)) (length l)) in *.
  destruct (prepare_chain fuel f dir l fl prev curr k req) as (g & dir1 & ln & c1 & E1 & Hex & Hc1 & Hlen1);
    try done; [lia.. |].
  rewrite E1. cbn [obind]. clear E E1. assert (Hg : fat_ok g) by apply (ex_vol _ _ _ _ _ _ Hex).
  destruct (same_vol_geom f g (ex_vol _ _ _ _ _ _ Hex)) as (Em & Ecb & Ecn & _ & _ & Evc).
  destruct (write_at fuel g _ (l ++ ln) prev c1 k offset buffer Hg (ex_chain _ _ _ _ _ _ Hex))
    as (p & c & i & h1 & h & E2 & E3 & E4 & Hvol2 & Hcont & Hoth & Hnx);
    rewrite ?Ecb; fold cb; try done; [lia | lia | fold required; nia |].
  rewrite Ecb in E2, E3, E4. fold cb in E2, E3, E4. rewrite E2. cbn [obind].
  set (n := Z.min (cb - offset mod cb) (Z.of_nat (length buffer))) in *.
  assert (0 <= offset mod cb < cb) by (apply Z.mod_pos_bound; lia).
  rewrite slice_get by lia. cbn [obind]. rewrite Z.sub_0_r.
  change (get buffer (Z.to_nat 0) (Z.to_nat n)) with (take (Z.to_nat n) buffer).
  rewrite E3. cbn [obind]. rewrite E4. cbn [obind].
  pose proof (fo_loc _ _ _ Hok) as Hloc.
  pose proof (extended_after f dir l g dir1 ln h Hex Hf (proj1 Hloc) Hvol2 Hoth Hnx) as Hex2.
  pose proof (same_vol_trans _ _ _ (ex_vol _ _ _ _ _ _ Hex) Hvol2) as Hvol3.
  destruct (same_vol_geom f h Hvol3) as (_ & Ecb3 & _ & _ & _ & Evc3). assert (Hh : fat_ok h) by apply Hvol2.
  destruct (finish_write h h dir l ln dir1 required (Z.of_nat (length buffer) + 1))
    as (h2 & dir2 & E5 & Hvol4 & Hfo & Hsize & Hc2); try done.
  - unfold required in *. lia.
  - rewrite Ecb3. fold cb. rewrite Hlen1, Hlen. unfold req.
    pose proof (div_ceil_mono (file_size (entry dir)) required cb).
    pose proof (div_ceil_mono required (file_size (entry dir)) cb).
    destruct (Z.max_spec (file_size (entry dir)) required) as [[? ->] | [? ->]]; lia.
  - intros En. rewrite En in Hlen1. simpl in Hlen1. lia.
  - unfold loc_ok in *. rewrite Ecb3. fold cb. by rewrite Evc3.
  - exists h2, dir2, ln. split; [exact E5 |]. split; [by eapply same_vol_trans |]. split; [done |].
    split; [done |]. rewrite Hc2, Hcont. f_equal. apply (ex_data _ _ _ _ _ _ Hex).
Qed.
End Files.
