(* ===== verification/FatProps.v ===== *)
(** * What the FAT driver promises: allocation, files, and their errors *)
From S2P Require Import Prelude Slices Disk Time Fat FatTable FatData FatFile.

Section Props.
Context {D : Type} {BD : BlockDevice D} {BL : BlockDeviceLaws D BD}.
Implicit Types f g : Fat32 D.

(** Allocation: when enough clusters are free, [alloc_clusters] returns the
    head of a chain of exactly [n] distinct clusters, each of which was free;
    no other entry of the table and no byte outside the table changes. *)
Theorem alloc_clusters_correct f n fl :
  fat_ok f -> 1 <= n -> free_list f fl -> n <= Z.of_nat (length fl) ->
  exists g start l, alloc_clusters f n = Ret (Some start, g) /\
    Z.of_nat (length l) = n /\ NoDup l /\ linked g start l /\
    Forall (fun c => usable f c /\ next f c = 0) l /\
    (forall x, 0 <= x < max_cluster f -> x ∉ l -> next g x = next f x) /\
    table_step f g.
Proof.
  intros Hf Hn Hfl Hlen.
  destruct (alloc_clusters_spec f n fl Hf Hn Hfl Hlen) as (g & s & l & E & Hl & Hlk & Hts & Hfr & Hnx).
  exists g, s, l. split; [done |]. split; [done |]. split; [| done].
  eapply linked_nodup; [apply Hts | done].
Qed.

(** Freeing: on a chain that ends, [free_clusters] returns; every cluster of
    the chain is free afterwards, every other entry of the table is as it was,
    and no byte outside the table changes. *)
Theorem free_clusters_correct fuel f c l :
  fat_ok f -> linked f c l -> (length l < fuel)%nat ->
  exists g, free_clusters fuel f c = Ret g /\ table_step f g /\
    forall x, 0 <= x < max_cluster f -> next g x = if decide (x ∈ l) then 0 else next f x.
Proof. apply free_clusters_chain. Qed.

(** Freeing a chain just allocated gives back the table entries. *)
Theorem alloc_free_roundtrip fuel f n fl :
  fat_ok f -> 1 <= n -> free_list f fl -> n <= Z.of_nat (length fl) -> n < Z.of_nat fuel ->
  exists g start h, alloc_clusters f n = Ret (Some start, g) /\ free_clusters fuel g start = Ret h /\
    table_step f h /\ forall x, 0 <= x < max_cluster f -> next h x = next f x.
Proof.
  intros Hf Hn Hfl Hlen Hfu.
  destruct (alloc_clusters_spec f n fl Hf Hn Hfl Hlen) as (g & s & l & E & Hl & Hlk & Hts & Hfr & Hnx).
  destruct (free_clusters_chain fuel g s l) as (h & E2 & Hts2 & Hnx2); [apply Hts | done | lia |].
  exists g, s, h. split; [done |]. split; [done |]. split; [by eapply table_step_trans |].
  intros x Hx. rewrite Hnx2 by (rewrite (table_step_max f g Hts); lia). destruct (decide (x ∈ l)) as [Hin | Hin].
  - rewrite Forall_forall in Hfr. by destruct (Hfr x Hin) as [_ ->].
  - by apply Hnx.
Qed.

(** Out of space: when no cluster is free, [alloc_clusters] panics. *)
Theorem alloc_full_panics f n :
  fat_ok f -> 1 <= n -> (forall c, usable f c -> next f c <> 0) -> alloc_clusters f n = Panic.
Proof.
  intros Hf Hn Hfull. unfold alloc_clusters. destruct (Z.eqb_spec n 0); [lia |].
  destruct (get_free_cluster_spec f Hf) as ([c|] & -> & H); [| done].
  destruct H as [Hu H0]. by destruct (Hfull c Hu).
Qed.

(** [write_cluster] is the reference write: whatever the alignment of the
    head and the tail, it replaces exactly the bytes from the offset on by the
    buffer and changes no other byte of the disk. *)
Theorem write_cluster_correct f c off buffer :
  fat_ok f -> valid_cluster f c -> 0 <= off < cluster_bytes f ->
  off + Z.of_nat (length buffer) <= cluster_bytes f -> Forall is_byte buffer ->
  exists g, write_cluster f c off buffer = Ret g /\ g = with_disk (disk g) f /\ fat_ok g /\
    img g = put (img f) (Z.to_nat (cluster_pos f c + off)) buffer.
Proof. intros. by apply write_cluster_spec. Qed.

(** [C18] Writing a file, with the chain extended as needed: the data of the
    chain is the old data with the slice at the offset replaced by the buffer,
    the size grows to cover it, the chain and the entry on the disk stay
    consistent, and the driver returns (it returns one more than the number of
    bytes it wrote). *)
Theorem write_buffer_correct fuel f dir l fl offset buffer :
  fat_ok f -> file_ok f dir l -> free_list f fl ->
  0 <= offset -> (0 < length buffer)%nat -> Forall is_byte buffer ->
  offset + Z.of_nat (length buffer) < 2 ^ 32 ->
  div_ceil (offset + Z.of_nat (length buffer)) (cluster_bytes f) - Z.of_nat (length l)
    <= Z.of_nat (length fl) ->
  Z.of_nat (length l) + div_ceil (offset + Z.of_nat (length buffer)) (cluster_bytes f) < Z.of_nat fuel ->
  exists g dir' ln, write_buffer fuel f dir offset buffer = Ret (g, dir', Z.of_nat (length buffer) + 1) /\
    file_ok g dir' (l ++ ln) /\
    file_size (entry dir') = Z.max (file_size (entry dir)) (offset + Z.of_nat (length buffer)) /\
    content g (l ++ ln) = put (content f (l ++ ln)) (Z.to_nat offset) buffer.
Proof.
  intros Hf Hok Hfl Ho Hb Hby Hr Hfr Hfu.
  destruct (write_buffer_spec fuel f dir l fl offset buffer Hf Hok Hfl Ho Hb Hby Hr Hfr Hfu)
    as (g & dir' & ln & E & _ & H). eauto.
Qed.

Lemma content_covers f dir l :
  fat_ok f -> file_ok f dir l -> file_size (entry dir) <= Z.of_nat (length (content f l)).
Proof.
  intros Hf Hok. rewrite content_length by (try done; eapply file_chain_valids, Hok).
  pose proof (cluster_bytes_pos f Hf). rewrite Nat2Z.inj_mul, (fo_len _ _ _ Hok). unfold cbytes.
  rewrite Z2Nat.id by lia. apply div_ceil_cover. lia.
Qed.

Lemma read_buffer_spec fuel f dir l buffer :
  fat_ok f -> file_ok f dir l -> (length l < fuel)%nat ->
  let n := Z.min (Z.of_nat (length buffer)) (file_size (entry dir)) in
  read_buffer fuel f dir buffer = Ret (n, put buffer 0 (take (Z.to_nat n) (content f l))).
Proof.
  intros Hf Hok Hfu n. pose proof (content_covers f dir l Hf Hok) as Hc.
  pose proof (ew_size _ (fo_wf _ _ _ Hok)) as Hs. unfold is_u in Hs.
  unfold read_buffer. fold n. destruct (Z.eqb_spec n 0) as [E | E].
  - rewrite E. change (Z.to_nat 0) with O. by rewrite firstn_O, put_nil.
  - destruct (fo_chain _ _ _ Hok) as [[_ ->] | [_ Hl]]; [simpl in Hc; lia |].
    rewrite (read_loop_spec fuel f n _ 0 buffer l) by (try done; lia). by rewrite Z.sub_0_r.
Qed.

(** Reading a file, from its start: the driver returns the smaller of the
    buffer's length and the file's size, having copied that many bytes of the
    file to the front of the buffer and left the rest of the buffer alone. *)
Theorem read_buffer_correct fuel f dir l buffer :
  fat_ok f -> file_ok f dir l -> (length l < fuel)%nat ->
  let n := Z.min (Z.of_nat (length buffer)) (file_size (entry dir)) in
  read_buffer fuel f dir buffer = Ret (n, put buffer 0 (take (Z.to_nat n) (content f l))).
Proof. apply read_buffer_spec. Qed.

(** Write, then read back: reading the whole file after a write finds the
    written bytes at the offset. *)
Theorem write_read_roundtrip fuel f dir l fl offset data :
  fat_ok f -> file_ok f dir l -> free_list f fl ->
  0 <= offset -> (0 < length data)%nat -> Forall is_byte data ->
  offset + Z.of_nat (length data) < 2 ^ 32 ->
  div_ceil (offset + Z.of_nat (length data)) (cluster_bytes f) - Z.of_nat (length l)
    <= Z.of_nat (length fl) ->
  Z.of_nat (length l) + div_ceil (offset + Z.of_nat (length data)) (cluster_bytes f) < Z.of_nat fuel ->
  exists g dir' w, write_buffer fuel f dir offset data = Ret (g, dir', w) /\
    forall fuel' buffer, (fuel <= fuel')%nat -> Z.of_nat (length buffer) = file_size (entry dir') ->
      exists buffer', read_buffer fuel' g dir' buffer = Ret (file_size (entry dir'), buffer') /\
        get buffer' (Z.to_nat offset) (length data) = data.
Proof.
  intros Hf Hok Hfl Ho Hb Hby Hr Hfr Hfu.
  destruct (write_buffer_spec fuel f dir l fl offset data Hf Hok Hfl Ho Hb Hby Hr Hfr Hfu)
    as (g & dir' & ln & E & Hvol & Hok' & Hsz & Hcont).
  exists g, dir', (Z.of_nat (length data) + 1). split; [done |]. intros fuel' buffer Hfu' Hlb.
  assert (Hg : fat_ok g) by apply Hvol. pose proof (content_covers g dir' _ Hg Hok') as Hcov.
  pose proof (same_vol_geom f g Hvol) as (_ & Ecb & Ecn & _ & _ & Evc).
  assert (Hlc : length (content g (l ++ ln)) = length (content f (l ++ ln))).
  { pose proof (file_chain_valids g _ _ (fo_chain _ _ _ Hok')) as Hv.
    rewrite (content_length g), (content_length f), Ecn; try done.
    eapply Forall_impl; [exact Hv |]. intros x. by rewrite Evc. }
  assert (Hlen : (length (l ++ ln) < fuel')%nat).
  { pose proof (fo_len _ _ _ Hok') as Hl. rewrite Ecb, Hsz in Hl.
    pose proof (fo_len _ _ _ Hok). pose proof (cluster_bytes_pos f Hf).
    pose proof (ew_size _ (fo_wf _ _ _ Hok)) as Hs0. unfold is_u in Hs0.
    pose proof (div_ceil_mono 0 (file_size (entry dir)) (cluster_bytes f) ltac:(lia) ltac:(lia)).
    pose proof (div_ceil_mono 0 (offset + Z.of_nat (length data)) (cluster_bytes f) ltac:(lia) ltac:(lia)).
    assert (div_ceil 0 (cluster_bytes f) = 0) by (unfold div_ceil; apply Z.div_small; lia).
    destruct (Z.max_spec (file_size (entry dir)) (offset + Z.of_nat (length data))) as [[? E'] | [? E']];
      rewrite E' in Hl; lia. }
  rewrite (read_buffer_spec fuel' g dir' (l ++ ln) buffer) by done.
  rewrite Hlb, Z.min_id. eexists. split; [done |].
  remember (Z.to_nat (file_size (entry dir'))) as n eqn:Hn.
  assert (Hln : length (take n (content g (l ++ ln))) = n) by (rewrite length_take; lia).
  rewrite get_put_in by lia. rewrite Nat.sub_0_r.
  rewrite <- (get_all data) at 2. apply get_eq; [lia | lia |]. intros i Hi.
  rewrite lookup_take_lt by lia. rewrite Hcont, lookup_put_in by lia. f_equal. lia.
Qed.

(** Deleting an empty file damages the table: its first cluster is 0, so
    [free_clusters] starts at entry 0 of the table, which holds the media byte,
    and clears it. *)
Theorem free_empty_file_clears_entry_zero fuel f :
  fat_ok f -> is_eoc (next f 0) = true -> (2 <= fuel)%nat ->
  exists g, free_clusters fuel f 0 = Ret g /\ next g 0 = 0.
Proof.
  intros Hf He Hfu. destruct fuel as [|[|fuel]]; [lia | lia |]. cbn [free_clusters].
  change (is_eoc 0) with false. cbn match. pose proof Hf as [].
  rewrite get_next_cluster_spec by (try done; lia). cbn [obind].
  destruct (link_clusters_next f 0 0) as (g & -> & _ & Hn); [done | lia | lia |]. cbn [obind].
  rewrite He. exists g. split; [done |]. by rewrite Hn, decide_True by (try done; lia).
Qed.

(** A write of no bytes to an empty file panics: no cluster is allocated
    and the driver computes the address of cluster 0. *)
Theorem empty_write_panics fuel f dir :
  fat_ok f -> first_cluster (entry dir) = 0 -> file_size (entry dir) = 0 ->
  write_buffer fuel f dir 0 [] = Panic.
Proof.
  intros Hf H0 Hs. pose proof (cluster_bytes_pos f Hf) as Hcb. unfold write_buffer.
  rewrite H0, Hs. cbn [length Z.of_nat Z.add]. rewrite chk_u_ret by lia. cbn [obind].
  rewrite (proj2 (Z.eqb_neq (cluster_bytes f) 0)) by lia. cbn [negb ensure obind].
  rewrite Z.div_0_l, Z.mod_0_l by lia. cbn [Z.to_nat walk_chain obind]. rewrite Z.ltb_irrefl. cbn [obind].
  cbn [Z.to_nat Z.sub Z.opp Z.add walk_chain obind]. rewrite Z.min_r by lia.
  done.
Qed.
End Props.

(** ** Witnesses: a volume of ten one-sector clusters in memory

    Sector 0 is reserved, sector 1 is the table, the root directory is cluster
    2 and lists one empty file. *)
Module FatWitness.
Export RamDisk.
Definition bpb0 : BPB :=
  {| jmp_bytes := []; oem_identifier := []; bytes_per_sector := 512; sectors_per_cluster := 1;
     reserved_sector_count := 1; num_fats := 1; root_entry_count := 0; total_sectors_16 := 0;
     media := 248; fat_size_16 := 0; sectors_per_track := 0; num_heads := 0; hidden_sectors := 0;
     total_sectors_32 := 12; fat_size_32 := 1; ext_flags := 0; fs_ver := 0; root_cluster := 2;
     fs_info_sector := 0; backup_boot_sector := 0; bpb_reserved := []; drive_num := 128;
     reserved_1 := 0; boot_signature := 41; volume_id := 0; volume_label := []; filesys_type := [];
     boot_code := []; boot_sector_signature := 43605 |}.
Definition fsi0 : FSInfo :=
  {| lead_signature := 0; fsi_reserved_1 := []; struct_signature := 0; free_count := 0;
     next_free := 0; fsi_reserved2 := []; trail_signature := 0 |}.

(** "A.TXT", empty. *)
Definition entry0 : DirEntry :=
  new_entry ([65] ++ replicate 7 32) [84; 88; 84] FAT_ATTR_ARCHIVE 0 33.
Definition dir0 : DirEntryWithLoc :=
  {| entry := entry0; loc := {| co_cluster := 2; co_offset := 0 |} |}.

Definition disk0 : list Z :=
  replicate 512 0 ++
  (le_bytes 4 268435448 ++ le_bytes 4 EOC ++ le_bytes 4 EOC ++ replicate 500 0) ++
  (encode_dirent entry0 ++ replicate 480 0) ++ replicate 4608 0.
Definition vol : Fat32 (list Z) := mkFat bpb0 fsi0 disk0 1 2.

Definition bytesb (l : list Z) : bool := forallb (fun b => (0 <=? b) && (b <? 256)) l.
Lemma bytesb_spec l : bytesb l = true -> Forall is_byte l.
Proof.
  intros H. apply Forall_forall. intros x Hx. unfold bytesb in H. rewrite forallb_forall in H.
  apply list_elem_of_In, H in Hx. unfold is_byte. lia.
Qed.

Lemma vol_ok : fat_ok vol.
Proof. split; try (vm_compute; intuition congruence). apply bytesb_spec. vm_compute. reflexivity. Qed.

Lemma vol_free : free_list vol [3; 4; 5; 6].
Proof.
  split; [apply (bool_decide_unpack _); vm_compute; reflexivity |].
  repeat (apply Forall_cons; split; [split; [vm_compute; intuition congruence | vm_compute; reflexivity] |]).
  apply Forall_nil. done.
Qed.

Lemma dir0_ok : file_ok vol dir0 [].
Proof.
  split.
  - left. split; vm_compute; reflexivity.
  - vm_compute. reflexivity.
  - vm_compute. intuition congruence.
  - apply not_elem_of_nil.
  - vm_compute. congruence.
  - split; try (vm_compute; intuition congruence); (split; [reflexivity |]; apply bytesb_spec; reflexivity).
  - vm_compute. reflexivity.
Qed.

(** A chain of two clusters in the table. *)
Definition vol2 : Fat32 (list Z) :=
  match alloc_clusters vol 2 with Ret (_, g) => g | _ => vol end.
Lemma vol2_ok : fat_ok vol2.
Proof. split; try (vm_compute; intuition congruence). apply bytesb_spec. vm_compute. reflexivity. Qed.
Lemma vol2_chain : linked vol2 3 [3; 4].
Proof. repeat split; try (vm_compute; congruence). Qed.

(** A table with no free entry. *)
Definition vol_full : Fat32 (list Z) := with_disk (put disk0 512 (concat (replicate 128 (le_bytes 4 EOC)))) vol.
Lemma vol_full_ok : fat_ok vol_full.
Proof. split; try (vm_compute; intuition congruence). apply bytesb_spec. vm_compute. reflexivity. Qed.

Lemma alloc_clusters_correct_witness :
  exists g start l, alloc_clusters vol 2 = Ret (Some start, g) /\
    Z.of_nat (length l) = 2 /\ NoDup l /\ linked g start l /\
    Forall (fun c => usable vol c /\ next vol c = 0) l /\
    (forall x, 0 <= x < max_cluster vol -> x ∉ l -> next g x = next vol x) /\
    table_step vol g.
Proof. apply (alloc_clusters_correct vol 2 [3; 4; 5; 6]); [apply vol_ok | lia | apply vol_free | simpl; lia]. Defined.

Lemma free_clusters_correct_witness :
  exists g, free_clusters 3 vol2 3 = Ret g /\ table_step vol2 g /\
    forall x, 0 <= x < max_cluster vol2 -> next g x = if decide (x ∈ [3; 4]) then 0 else next vol2 x.
Proof. apply (free_clusters_correct 3 vol2 3 [3; 4]); [apply vol2_ok | apply vol2_chain | simpl; lia]. Defined.

Lemma alloc_free_roundtrip_witness :
  exists g start h, alloc_clusters vol 3 = Ret (Some start, g) /\ free_clusters 4 g start = Ret h /\
    table_step vol h /\ forall x, 0 <= x < max_cluster vol -> next h x = next vol x.
Proof.
  apply (alloc_free_roundtrip 4 vol 3 [3; 4; 5; 6]); [apply vol_ok | lia | apply vol_free | simpl; lia | lia].
Defined.

Lemma alloc_full_panics_witness : alloc_clusters vol_full 1 = Panic.
Proof.
  apply alloc_full_panics; [apply vol_full_ok | lia |]. intros c [H1 H2].
  change (2 < c) in H1. change (c < 10) in H2.
  assert (c = 3 \/ c = 4 \/ c = 5 \/ c = 6 \/ c = 7 \/ c = 8 \/ c = 9) as Hc by lia.
  destruct_or! Hc; subst c; vm_compute; congruence.
Defined.

Lemma write_cluster_correct_witness :
  exists g, write_cluster vol 5 100 (replicate 300 9) = Ret g /\ g = with_disk (disk g) vol /\ fat_ok g /\
    img g = put (img vol) (Z.to_nat (cluster_pos vol 5 + 100)) (replicate 300 9).
Proof.
  apply (write_cluster_correct vol 5 100 (replicate 300 9)); [apply vol_ok | | | |].
  - vm_compute. intuition congruence.
  - vm_compute. intuition congruence.
  - vm_compute. congruence.
  - apply bytesb_spec. reflexivity.
Defined.

Lemma write_buffer_correct_witness :
  exists g dir' ln, write_buffer 10 vol dir0 100 (replicate 900 9) = Ret (g, dir', 901) /\
    file_ok g dir' ln /\ file_size (entry dir') = 1000 /\
    content g ln = put (content vol ln) 100 (replicate 900 9).
Proof.
  apply (write_buffer_correct 10 vol dir0 [] [3; 4; 5; 6] 100 (replicate 900 9));
    [apply vol_ok | apply dir0_ok | apply vol_free | lia | simpl; lia | apply bytesb_spec; reflexivity
    | vm_compute; reflexivity | vm_compute; congruence | vm_compute; reflexivity].
Defined.

Lemma read_buffer_correct_witness : read_buffer 1 vol dir0 [1; 2; 3] = Ret (0, [1; 2; 3]).
Proof. apply (read_buffer_correct 1 vol dir0 []); [apply vol_ok | apply dir0_ok | simpl; lia]. Defined.

Lemma write_read_roundtrip_witness :
  exists g dir' w, write_buffer 10 vol dir0 0 (replicate 600 7) = Ret (g, dir', w) /\
    forall fuel' buffer, (10 <= fuel')%nat -> Z.of_nat (length buffer) = file_size (entry dir') ->
      exists buffer', read_buffer fuel' g dir' buffer = Ret (file_size (entry dir'), buffer') /\
        get buffer' 0 600 = replicate 600 7.
Proof.
  apply (write_read_roundtrip 10 vol dir0 [] [3; 4; 5; 6] 0 (replicate 600 7));
    [apply vol_ok | apply dir0_ok | apply vol_free | lia | simpl; lia | apply bytesb_spec; reflexivity
    | vm_compute; reflexivity | vm_compute; congruence | vm_compute; reflexivity].
Defined.

Lemma free_empty_file_clears_entry_zero_witness :
  exists g, free_clusters 2 vol (first_cluster entry0) = Ret g /\ next g 0 = 0.
Proof.
  apply (free_empty_file_clears_entry_zero 2 vol); [apply vol_ok | vm_compute; reflexivity | lia].
Defined.

Lemma empty_write_panics_witness : write_buffer 10 vol dir0 0 [] = Panic.
Proof. apply empty_write_panics; [apply vol_ok | vm_compute; reflexivity | reflexivity]. Defined.
End FatWitness.
