(* ===== verification/FatDir.v ===== *)
(** * Directories: entries, names, creation and lookup *)
From S2P Require Import Prelude Slices Text Disk Time Fat FatTable FatData FatFile FatProps.

(** ** The packed entry *)
Lemma le_num_u w n x : w = 8 * Z.of_nat n -> is_u w x -> le_num (le_bytes n x) = x.
Proof.
  intros -> Hx. rewrite le_num_bytes. unfold is_u in Hx. apply Z.mod_small.
  change 256 with (2 ^ 8). rewrite <- Z.pow_mul_r by lia. exact Hx.
Qed.

Lemma decode_encode e : entry_wf e -> decode_dirent (encode_dirent e) = e.
Proof.
  destruct e as [nm ex a nt ct ctime cdate adate fch wt wd fcl sz].
  intros [[Hn _] [Hx _] _ (T1 & T2 & T3 & T4 & T5) (F1 & F2) S]. simpl in *.
  destruct nm as [|? [|? [|? [|? [|? [|? [|? [|? [|]]]]]]]]]; try done.
  destruct ex as [|? [|? [|? [|]]]]; try done.
  unfold decode_dirent, encode_dirent, num_at, byte_at, get. cbn [app take drop name ext attr nt_reserved
    creation_time_tenth creation_time creation_date last_access_date first_cluster_high write_time
    write_date first_cluster_low file_size le_bytes lookup list_lookup default from_option id].
  f_equal; try done; [by apply (le_num_u 16 2).. | by apply (le_num_u 32 4)].
Qed.

Lemma encode_decode l :
  length l = 32%nat -> Forall is_byte l -> encode_dirent (decode_dirent l) = l.
Proof.
  intros Hl Hb. unfold encode_dirent, decode_dirent, num_at. cbn [name ext attr nt_reserved
    creation_time_tenth creation_time creation_date last_access_date first_cluster_high write_time
    write_date first_cluster_low file_size].
  assert (He : forall i n, (i + n <= 32)%nat -> le_bytes n (le_num (get l i n)) = get l i n).
  { intros i n Hi. rewrite <- (length_get l i n) at 1 by lia. apply le_bytes_num. by apply Forall_get. }
  rewrite !He by lia.
  do 32 (destruct l as [|? l]; [done |]). destruct l; done.
Qed.

(** ** Names *)

(** Characters a short name is made of: ASCII, no NUL, no dot, no space. *)
Definition name_char (c : Z) : Prop := 1 <= c < 128 /\ c <> 46 /\ c <> 32.
Definition upcase (s : list Z) : list Z := map to_ascii_uppercase s.

Lemma upper_char c : name_char c -> 1 <= to_ascii_uppercase c < 128 /\ to_ascii_uppercase c <> 32.
Proof. intros (H1 & H2 & H3). unfold to_ascii_uppercase. case_match; lia. Qed.

Definition ascii (c : Z) : Prop := 0 <= c < 128.
Lemma name_ascii s : Forall name_char s -> Forall ascii s.
Proof. intros H. eapply Forall_impl; [exact H |]. intros c (Hc & _). unfold ascii. lia. Qed.

Lemma fill_chars_spec s pre post :
  Forall ascii s -> (length s <= length post)%nat ->
  fill_chars s (Z.of_nat (length pre)) (pre ++ post) = Ret (pre ++ upcase s ++ drop (length s) post).
Proof.
  intros Hs. revert pre post; induction Hs as [|c s Hc _ IH]; intros pre post Hl; [done |].
  cbn [fill_chars]. destruct post as [|y post]; [simpl in Hl; lia |].
  rewrite upd_ret by (rewrite length_app; simpl; lia). cbn [obind].
  rewrite Nat2Z.id, insert_app_r_alt, Nat.sub_diag by lia. simpl insert.
  replace (pre ++ wrap_u 8 (to_ascii_uppercase c) :: post) with
    ((pre ++ [to_ascii_uppercase c]) ++ post).
  - replace (Z.of_nat (length pre) + 1) with (Z.of_nat (length (pre ++ [to_ascii_uppercase c])))
      by (rewrite length_app; simpl; lia).
    rewrite IH by (simpl in Hl; lia). by rewrite <- app_assoc.
  - rewrite <- app_assoc. simpl. rewrite wrap_u_small; [done |].
    unfold ascii, to_ascii_uppercase in *. case_match; lia.
Qed.

Lemma fill_spec s n :
  Forall ascii s -> (length s <= 8)%nat -> (length s <= n)%nat ->
  fill s (replicate n 32) = Ret (upcase s ++ replicate (n - length s) 32).
Proof.
  intros Hs H8 Hn. unfold fill. rewrite take_ge by done.
  change (fill_chars s 0 (replicate n 32)) with
    (fill_chars s (Z.of_nat (length (@nil Z))) ([] ++ replicate n 32)).
  rewrite fill_chars_spec by (by rewrite ?length_replicate). by rewrite drop_replicate.
Qed.

Lemma fat_len_spaces n : fat_len (replicate n 32) = O.
Proof. induction n as [|n IH]; simpl; [done |]. by rewrite IH. Qed.

Lemma fat_len_fill s n : Forall (fun c => c <> 32) s -> fat_len (s ++ replicate n 32) = length s.
Proof.
  induction 1 as [|c s Hc _ IH]; simpl; [apply fat_len_spaces |]. rewrite IH.
  destruct (length s) eqn:E; [| done]. by rewrite (proj2 (Z.eqb_neq c 32)).
Qed.

Section Names.
Context {U : UnicodeTable}.

Lemma upcase_bytes s : Forall name_char s -> as_bytes (to_uppercase s) = upcase s.
Proof.
  induction 1 as [|c s (Hr & _) _ IH]; [done |].
  assert (Hu : to_ascii_uppercase c < 128) by (unfold to_ascii_uppercase; case_match; lia).
  change (to_uppercase (c :: s)) with
    ((if c <? 128 then [to_ascii_uppercase c] else unicode_upper c) ++ to_uppercase s).
  rewrite (proj2 (Z.ltb_lt c 128)) by lia.
  change (as_bytes ([to_ascii_uppercase c] ++ to_uppercase s)) with
    (utf8 (to_ascii_uppercase c) ++ as_bytes (to_uppercase s)).
  rewrite IH. unfold utf8. by rewrite (proj2 (Z.ltb_lt _ 128)).
Qed.

Lemma upcase_nospace s : Forall name_char s -> Forall (fun c => c <> 32) (upcase s).
Proof. intros H. apply Forall_map. eapply Forall_impl; [exact H |]. intros c Hc. by apply upper_char. Qed.

(** A stored field matches a string exactly when they are equal in upper case. *)
Lemma compare_field s t n :
  Forall name_char s -> Forall (fun c => c <> 32) t ->
  compare_string_bytes s (t ++ replicate n 32) = bool_decide (upcase s = t).
Proof.
  intros Hs Ht. unfold compare_string_bytes. rewrite upcase_bytes, fat_len_fill by done.
  rewrite take_app_length. destruct (decide (upcase s = t)) as [<- | Hne].
  - by rewrite Nat.eqb_refl, bool_decide_eq_true_2.
  - rewrite (bool_decide_eq_false_2 _ Hne). by rewrite andb_false_r.
Qed.

Lemma split_once_none s : Forall name_char s -> split_once 46 s = None.
Proof.
  induction 1 as [|c s (_ & Hc & _) _ IH]; [done |]. simpl. by rewrite (proj2 (Z.eqb_neq c 46)), IH.
Qed.

Lemma split_once_dot s t : Forall name_char s -> split_once 46 (s ++ 46 :: t) = Some (s, t).
Proof.
  induction 1 as [|c s (_ & Hc & _) _ IH]; [done |]. simpl. by rewrite (proj2 (Z.eqb_neq c 46)), IH.
Qed.

Lemma name_no_dot s : Forall name_char s -> Forall (fun c => c <> 46) s.
Proof. intros H. eapply Forall_impl; [exact H |]. by intros c (_ & Hc & _). Qed.

Lemma rsplit_once_none s : Forall name_char s -> rsplit_once 46 s = None.
Proof. intros Hs. by apply rsplit_none, name_no_dot. Qed.

Lemma rsplit_once_dot s t : Forall name_char t -> rsplit_once 46 (s ++ 46 :: t) = Some (s, t).
Proof. intros Ht. by apply rsplit_last, name_no_dot. Qed.

(** A first byte that does not mark a free slot. *)
Definition live_byte (b : Z) : bool := negb ((b =? 0) || (b =? 229)).

Lemma fill_live s n : Forall name_char s -> (0 < n)%nat -> live_byte (byte_at (upcase s ++ replicate n 32) 0) = true.
Proof.
  intros Hs Hn. destruct Hs as [|c s Hc _]; simpl.
  - destruct n; [lia | done].
  - pose proof (upper_char c Hc). unfold live_byte, byte_at. simpl. lia.
Qed.

(** A short name: a base of at most 8 characters and an extension of at most 3. *)
Inductive short_name : list Z -> Prop :=
| short_plain b : Forall name_char b -> (length b <= 8)%nat -> short_name b
| short_dotted b x : Forall name_char b -> (length b <= 8)%nat -> Forall name_char x ->
    (length x <= 3)%nat -> short_name (b ++ 46 :: x).

Lemma base_live s :
  Forall name_char s -> (length s <= 8)%nat -> live_byte (byte_at (upcase s ++ replicate (8 - length s) 32) 0) = true.
Proof.
  intros Hs Hl. destruct (decide (length s < 8)%nat); [apply fill_live; [done | lia] |].
  destruct Hs as [|c s Hc _]; [simpl in *; lia |].
  pose proof (upper_char c Hc). unfold live_byte, byte_at. simpl. lia.
Qed.

Lemma short_name_matches nm :
  short_name nm ->
  exists n x, name_fields nm = Ret (n, x) /\ length n = 8%nat /\ Forall is_byte n /\
    length x = 3%nat /\ Forall is_byte x /\ live_byte (byte_at n 0) = true /\
    forall e, name e = n -> ext e = x -> compare_dirent nm e = true.
Proof.
  assert (Hby : forall s n, Forall name_char s -> Forall is_byte (upcase s ++ replicate n 32)).
  { intros s n Hs. apply Forall_app. split; [| by apply Forall_replicate].
    apply Forall_map. eapply Forall_impl; [exact Hs |]. intros c Hc. pose proof (upper_char c Hc).
    unfold is_byte, compose. lia. }
  intros [b Hb Hl | b x Hb Hl Hx Hlx].
  - exists (upcase b ++ replicate (8 - length b) 32), (replicate 3 32).
    unfold name_fields. rewrite rsplit_once_none by done. rewrite fill_spec by (try done; by apply name_ascii). cbn [obind].
    split; [done |]. split; [unfold upcase; rewrite length_app, length_map, length_replicate; lia |].
    split; [by apply Hby |]. split; [done |]. split; [by apply Forall_replicate |].
    split; [by apply base_live |].
    intros e Hn He. unfold compare_dirent. rewrite split_once_none, Hn, He by done.
    rewrite compare_field by (try done; by apply upcase_nospace). by rewrite bool_decide_eq_true_2.
  - exists (upcase b ++ replicate (8 - length b) 32), (upcase x ++ replicate (3 - length x) 32).
    unfold name_fields. rewrite rsplit_once_dot by done.
    rewrite !fill_spec by (try done; try lia; by apply name_ascii). cbn [obind].
    split; [done |]. split; [unfold upcase; rewrite length_app, length_map, length_replicate; lia |].
    split; [by apply Hby |].
    split; [unfold upcase; rewrite length_app, length_map, length_replicate; lia |].
    split; [by apply Hby |]. split; [by apply base_live |].
    intros e Hn He. unfold compare_dirent. rewrite split_once_dot, Hn, He by done.
    rewrite !compare_field by (try done; by apply upcase_nospace). by rewrite !bool_decide_eq_true_2.
Qed.
End Names.

(** ** Slots of a directory cluster *)
Lemma take_put_later {A} (l : list A) n a src : (n <= a)%nat -> (a <= length l)%nat -> take n (put l a src) = take n l.
Proof. intros H1 H2. unfold put. rewrite take_app_le by (rewrite length_take; lia). rewrite take_take. f_equal. lia. Qed.

Lemma drop_put_later {A} (l : list A) n a src :
  (n + a <= length l)%nat -> drop n (put l (n + a) src) = put (drop n l) a src.
Proof.
  intros H. unfold put. rewrite drop_app_le by (rewrite length_take; lia).
  rewrite take_drop_commute, drop_drop. f_equal. f_equal. f_equal. lia.
Qed.

Lemma byte_at_take l n : (0 < n)%nat -> byte_at (take n l) 0 = byte_at l 0.
Proof. intros. unfold byte_at. by rewrite lookup_take_lt. Qed.

(** Filling the first free slot puts the entry after the live ones before it. *)
Lemma parse_fill n : forall c i buf o enc,
  (32 * n <= length buf)%nat -> length enc = 32%nat -> live_byte (byte_at enc 0) = true ->
  0 <= i -> (i + Z.of_nat n) * 32 < 2 ^ 32 ->
  free_slot n i buf = Some o ->
  exists j P Q Q', o = (i + Z.of_nat j) * 32 /\ (j < n)%nat /\
    parse_entries n c i buf = P ++ Q' /\
    parse_entries n c i (put buf (32 * j) enc) =
      P ++ {| entry := decode_dirent enc; loc := {| co_cluster := c; co_offset := o |} |} :: Q.
Proof.
  induction n as [|n IH]; intros c i buf o enc Hl He Hb Hi Hw Hs; [done |].
  cbn [free_slot] in Hs. destruct ((byte_at (take 32 buf) 0 =? 0) || (byte_at (take 32 buf) 0 =? 229)) eqn:Eb.
  - injection Hs as <-. rewrite wrap_u_small by lia.
    eexists O, [], _, (parse_entries (S n) c i buf). split; [lia |]. split; [lia |]. split; [done |].
    cbn [parse_entries]. change (32 * 0)%nat with 0%nat.
    assert (take 32 (put buf 0 enc) = enc) as ->.
    { unfold put. simpl. rewrite take_app_le by lia. apply take_ge. lia. }
    unfold live_byte in Hb. apply negb_true_iff, orb_false_iff in Hb as [-> ->].
    rewrite wrap_u_small by lia. simpl. done.
  - destruct (IH c (i + 1) (drop 32 buf) o enc) as (j & P & Q & Q' & Ho & Hj & E1 & E2);
      [rewrite length_drop; lia | done | done | lia | lia | done |].
    apply orb_false_iff in Eb as [Eb1 Eb2].
    exists (S j), ({| entry := decode_dirent (take 32 buf);
                      loc := {| co_cluster := c; co_offset := wrap_u 32 (i * 32) |} |} :: P), Q, Q'.
    split; [lia |]. split; [lia |]. split.
    + cbn [parse_entries]. by rewrite Eb1, Eb2, E1.
    + cbn [parse_entries]. rewrite take_put_later by lia. rewrite Eb1, Eb2.
      replace (32 * S j)%nat with (32 + 32 * j)%nat by lia. rewrite drop_put_later by lia. by rewrite E2.
Qed.

Section Dir.
Context {D : Type} {BD : BlockDevice D} {BL : BlockDeviceLaws D BD} {U : UnicodeTable}.
Implicit Types f g : Fat32 D.

Definition slots f : nat := Z.to_nat (cluster_bytes f / 32).
Definition cluster_entries f (c : Z) : list DirEntryWithLoc := parse_entries (slots f) c 0 (cluster_data f c).

Lemma read_cluster_spec f c : fat_ok f -> valid_cluster f c -> read_cluster f c = Ret (cluster_data f c).
Proof.
  intros Hf Hc. unfold read_cluster. rewrite cluster_to_lba_spec by done. cbn [obind].
  by apply read_cluster_data.
Qed.

Lemma read_dir_spec fuel f : forall c l,
  fat_ok f -> linked f c l -> (length l < fuel)%nat ->
  read_dir_from_cluster fuel f c = Ret (l ≫= cluster_entries f).
Proof.
  induction fuel as [|fuel IH]; intros c l Hf Hl Hfu; [lia |]. cbn [read_dir_from_cluster].
  destruct l as [|x l]; simpl in Hl.
  - assert (is_valid_next c = false) as -> by (unfold is_valid_next, is_eoc in *; lia). done.
  - destruct Hl as (-> & Hx & Hl).
    assert (is_valid_next x = true) as -> by (destruct Hf; unfold is_valid_next; lia).
    rewrite read_cluster_spec by done. cbn [obind].
    rewrite get_next_cluster_spec by (try done; lia). cbn [obind].
    rewrite (IH _ l) by (try done; simpl in Hfu; lia). done.
Qed.

(** The slot found: in the first cluster of the chain that has one. *)
Lemma free_pos_spec fuel f : forall c l pos,
  fat_ok f -> linked f c l -> get_free_dirent_pos fuel f c = Ret (Some pos) ->
  exists l1 l2, l = l1 ++ co_cluster pos :: l2 /\
    free_slot (slots f) 0 (cluster_data f (co_cluster pos)) = Some (co_offset pos).
Proof.
  induction fuel as [|fuel IH]; intros c l pos Hf Hl E; [done |]. cbn [get_free_dirent_pos] in E.
  destruct l as [|x l]; simpl in Hl; [by rewrite Hl in E |]. destruct Hl as (-> & Hx & Hl).
  assert (Hne : is_eoc x = false) by (destruct Hf; unfold is_eoc; lia). rewrite Hne in E.
  rewrite read_cluster_spec in E by done. cbn [obind] in E.
  change (free_slot (Z.to_nat (cluster_bytes f / 32)) 0 (cluster_data f x)) with
    (free_slot (slots f) 0 (cluster_data f x)) in E.
  destruct (free_slot (slots f) 0 (cluster_data f x)) as [o|] eqn:Es.
  - injection E as <-. by exists [], l.
  - rewrite get_next_cluster_spec in E by (try done; lia). cbn [obind] in E.
    destruct (IH _ l pos Hf Hl E) as (l1 & l2 & -> & Hs). by exists (x :: l1), l2.
Qed.

Lemma find_entry_first nm P d Q :
  Forall (fun x => compare_dirent nm (entry x) = false) P -> compare_dirent nm (entry d) = true ->
  find_entry nm (P ++ d :: Q) = Some d.
Proof.
  intros HP Hd. unfold find_entry. induction HP as [|x P Hx _ IH]; simpl.
  - by rewrite decide_True.
  - rewrite decide_False by congruence. destruct (list_find _ (P ++ d :: Q)) as [[i y]|]; [| done].
    simpl in *. done.
Qed.

Lemma find_entry_none nm l :
  find_entry nm l = None -> Forall (fun x => compare_dirent nm (entry x) = false) l.
Proof.
  unfold find_entry. intros H. destruct (list_find _ l) as [[i y]|] eqn:E; [done |].
  apply list_find_None in E. eapply Forall_impl; [exact E |]. intros x Hx. destruct (compare_dirent nm (entry x)) eqn:Ec; [by destruct Hx | done].
Qed.

Lemma timedate_range u ft fd :
  0 <= u -> get_fat_timedate u = Ret (ft, fd) -> is_u 16 ft /\ is_u 16 fd.
Proof.
  intros Hu H. unfold get_fat_timedate in H. run_inv H. destruct v as [[y m] d]. injection H as <- <-.
  assert (Hor : forall a b, is_u 16 a -> is_u 16 b -> is_u 16 (Z.lor a b)).
  { intros a b Ha Hb. unfold is_u in *.
    rewrite <- (Z.mod_small a (2 ^ 16)), <- (Z.mod_small b (2 ^ 16)), <- !Z.land_ones by lia.
    rewrite <- Z.land_lor_distr_l, Z.land_ones by lia. apply Z.mod_pos_bound. lia. }
  assert (Hw : forall z, is_u 16 (wrap_u 16 z)) by (intros z; apply wrap_u_range; lia).
  split; [unfold fat_time_of |]; repeat apply Hor; auto.
  unfold is_u. Z.to_euclidean_division_equations; lia.
Qed.

Lemma new_entry_wf n x a ft fd :
  length n = 8%nat -> Forall is_byte n -> length x = 3%nat -> Forall is_byte x -> is_byte a ->
  is_u 16 ft -> is_u 16 fd -> entry_wf (new_entry n x a ft fd).
Proof. intros. split; simpl; unfold is_byte, is_u in *; repeat split; try done; lia. Qed.

Lemma bind_frame f g l :
  cluster_bytes g = cluster_bytes f -> (forall c, c ∈ l -> cluster_data g c = cluster_data f c) ->
  l ≫= cluster_entries g = l ≫= cluster_entries f.
Proof.
  intros Hs. induction l as [|x l IH]; intros H; [done |]. rewrite !bind_cons. f_equal.
  - unfold cluster_entries, slots. by rewrite Hs, H by apply list_elem_of_here.
  - apply IH. intros c Hc. apply H. by apply list_elem_of_further.
Qed.

Lemma slots_bytes f : fat_ok f -> (32 * slots f = cbytes f)%nat /\ Z.of_nat (slots f) * 32 < 2 ^ 32.
Proof.
  intros [Hd _ Hs _ _ _ _ _ _ _ _]. unfold slots, cbytes, cluster_bytes.
  replace (sectors_per_cluster (bpb f) * 512) with (sectors_per_cluster (bpb f) * 16 * 32) by lia.
  rewrite Z.div_mul by lia. lia.
Qed.

(** Writing a live entry in the free slot found: lookup now finds it. *)
Lemma fill_then_find fuel f c l pos nm e :
  fat_ok f -> linked f c l -> (length l < fuel)%nat ->
  get_free_dirent_pos fuel f c = Ret (Some pos) -> find fuel f c nm = Ret None ->
  entry_wf e -> live_byte (byte_at (name e) 0) = true -> compare_dirent nm e = true ->
  exists g, update_dir f {| entry := e; loc := pos |} = Ret g /\ same_vol f g /\
    find fuel g c nm = Ret (Some {| entry := e; loc := pos |}) /\
    (forall x, 0 <= x < max_cluster f -> next g x = next f x) /\
    (forall x, valid_cluster f x -> x <> co_cluster pos -> cluster_data g x = cluster_data f x) /\
    cluster_data g (co_cluster pos) = put (cluster_data f (co_cluster pos)) (Z.to_nat (co_offset pos)) (encode_dirent e).
Proof.
  intros Hf Hl Hfu Hpos Hnone Hwf Hlive Hcmp.
  destruct (free_pos_spec fuel f c l pos Hf Hl Hpos) as (l1 & l2 & -> & Hslot).
  pose proof (linked_valids f c _ Hl) as Hv. pose proof (linked_nodup f c _ Hf Hl) as Hnd.
  apply Forall_app in Hv as [Hv1 Hv2]. apply Forall_cons in Hv2 as [Hvc Hv2].
  apply NoDup_app in Hnd as (_ & Hd & [Hc2 _]%NoDup_cons).
  pose proof (slots_bytes f Hf) as [Hsl Hsm]. pose proof (cluster_data_length f _ Hf Hvc) as Hdl.
  pose proof (encode_length e Hwf) as Hel.
  assert (Hb0 : byte_at (encode_dirent e) 0 = byte_at (name e) 0).
  { unfold byte_at, encode_dirent. rewrite lookup_app_l; [done |]. destruct (ew_name e Hwf) as [-> _]. lia. }
  destruct (parse_fill (slots f) (co_cluster pos) 0 (cluster_data f (co_cluster pos)) (co_offset pos)
              (encode_dirent e)) as (j & P & Q & Q' & Ho & Hj & E1 & E2);
    [lia | done | by rewrite Hb0 | lia | lia | done |].
  assert (Hcb : cluster_bytes f = Z.of_nat (32 * slots f)).
  { rewrite Hsl. unfold cbytes. pose proof (cluster_bytes_pos f Hf). lia. }
  unfold update_dir. cbn [loc entry].
  destruct (write_cluster_data f (co_cluster pos) (co_offset pos) (encode_dirent e))
    as (g & E & Hvol & Hself & Hoth & Hnx & _); [done | done | lia | lia | by apply encode_bytes |].
  exists g. split; [done |]. split; [done |]. split; [| done].
  destruct (same_vol_geom f g Hvol) as (Em & Ecb & _ & _ & _ & _). assert (Hg : fat_ok g) by apply Hvol.
  unfold find in *. rewrite (read_dir_spec fuel f c _ Hf Hl Hfu) in Hnone. cbn [obind] in Hnone.
  injection Hnone as Hnone. apply find_entry_none in Hnone.
  rewrite (read_dir_spec fuel g c _ Hg (linked_same f g c _ Hvol Hnx Hl) Hfu). cbn [obind]. f_equal.
  rewrite bind_app, bind_cons in Hnone |- *.
  apply Forall_app in Hnone as [HN1 HN2]. apply Forall_app in HN2 as [HN2 _].
  unfold cluster_entries at 1 in HN2. rewrite E1 in HN2. apply Forall_app in HN2 as [HN2 _].
  rewrite (bind_frame f g l1 Ecb).
  2: { intros x Hx. apply Hoth; [rewrite Forall_forall in Hv1; auto |]. intros ->.
       by apply (Hd _ Hx), list_elem_of_here. }
  assert (cluster_entries g (co_cluster pos) = P ++ {| entry := e; loc := pos |} :: Q) as ->.
  { unfold cluster_entries, slots. rewrite Ecb. fold (slots f). rewrite Hself.
    replace (Z.to_nat (co_offset pos)) with (32 * j)%nat by lia. rewrite E2, decode_encode by done.
    by destruct pos. }
  rewrite <- app_assoc, app_assoc. simpl. rewrite find_entry_first; [done | by apply Forall_app | done].
Qed.

(** ** Properties *)

(** Directory entries survive the disk: decoding the 32 bytes of a
    well-formed entry gives the entry back, and encoding what 32 bytes decode
    to gives the bytes back. *)
Theorem dirent_roundtrip e bytes :
  (entry_wf e -> decode_dirent (encode_dirent e) = e) /\
  (length bytes = 32%nat -> Forall is_byte bytes -> encode_dirent (decode_dirent bytes) = bytes).
Proof. split; [apply decode_encode | apply encode_decode]. Qed.

(** [C21] Create, then look up: creating a file with a short name in a directory
    that has a free slot and no such file returns, and looking the name up
    afterwards finds the new, empty entry in the slot; the allocation table and
    every other cluster are untouched, and of the directory's cluster exactly
    the 32 bytes of the slot change. *)
Theorem create_file_then_find fuel unix f c l pos nm ft fd :
  fat_ok f -> linked f c l -> (length l < fuel)%nat -> short_name nm ->
  0 <= unix -> get_fat_timedate unix = Ret (ft, fd) ->
  get_free_dirent_pos fuel f c = Ret (Some pos) -> find fuel f c nm = Ret None ->
  exists g d, create_file fuel unix f c nm = Ret g /\ find fuel g c nm = Ret (Some d) /\
    loc d = pos /\ file_size (entry d) = 0 /\ first_cluster (entry d) = 0 /\
    creation_date (entry d) = fd /\ creation_time (entry d) = ft /\
    (forall x, 0 <= x < max_cluster f -> next g x = next f x) /\
    (forall x, valid_cluster f x -> x <> co_cluster pos -> cluster_data g x = cluster_data f x) /\
    cluster_data g (co_cluster pos) = put (cluster_data f (co_cluster pos)) (Z.to_nat (co_offset pos)) (encode_dirent (entry d)) /\
    length (encode_dirent (entry d)) = 32%nat.
Proof.
  intros Hf Hl Hfu Hnm Hu Htd Hpos Hnone.
  destruct (short_name_matches nm Hnm) as (n & x & En & Hn1 & Hn2 & Hx1 & Hx2 & Hlive & Hcmp).
  destruct (timedate_range unix ft fd Hu Htd) as [Hft Hfd].
  pose proof (new_entry_wf n x FAT_ATTR_ARCHIVE ft fd Hn1 Hn2 Hx1 Hx2 ltac:(done) Hft Hfd) as Hwf.
  destruct (fill_then_find fuel f c l pos nm _ Hf Hl Hfu Hpos Hnone Hwf Hlive (Hcmp (new_entry n x FAT_ATTR_ARCHIVE ft fd) eq_refl eq_refl))
    as (g & E & _ & Hfind & Hnx & Hoth & Hself).
  exists g. eexists. unfold create_file. rewrite Hpos. cbn [obind unwrap]. rewrite En. cbn [obind].
  rewrite Htd. cbn [obind]. split; [exact E |]. split; [exact Hfind |].
  do 7 (split; [done |]). split; [exact Hself | by apply encode_length].
Qed.

(** Two dots lose the file: [create_file] splits a name at its last dot and
    lookup at its first, so a name with two dots is stored in fields that the
    same name does not match. *)
Theorem two_dots_not_found a b x :
  Forall name_char a -> Forall name_char b -> Forall name_char x ->
  (length a + length b <= 7)%nat -> (length x <= 3)%nat ->
  exists n ex, name_fields (a ++ 46 :: b ++ 46 :: x) = Ret (n, ex) /\
    forall e, name e = n -> compare_dirent (a ++ 46 :: b ++ 46 :: x) e = false.
Proof.
  intros Ha Hb Hx Hab Hlx.
  replace (a ++ 46 :: b ++ 46 :: x) with ((a ++ 46 :: b) ++ 46 :: x) by (by rewrite <- app_assoc).
  assert (Has : Forall ascii (a ++ 46 :: b)).
  { apply Forall_app. split; [by apply name_ascii |]. apply Forall_cons. split; [done | by apply name_ascii]. }
  unfold name_fields. rewrite rsplit_once_dot by done.
  rewrite fill_spec by (try done; rewrite length_app; simpl; lia). cbn [obind].
  rewrite fill_spec by (try lia; by apply name_ascii). cbn [obind].
  eexists _, _. split; [done |]. intros e Hn. rewrite <- app_assoc. simpl app. unfold compare_dirent.
  rewrite split_once_dot by done. rewrite Hn, compare_field; [| done |].
  - rewrite bool_decide_eq_false_2; [done |]. intros E%(f_equal length). unfold upcase in E.
    rewrite !length_map, length_app in E. simpl in E. lia.
  - unfold upcase. rewrite map_app. apply Forall_app. split; [by apply upcase_nospace |].
    apply Forall_cons. split; [done | by apply upcase_nospace].
Qed.

(** An extension of more than three characters panics: [create_file] and
    [mv] copy up to eight characters into the three bytes of the field. *)
Theorem long_extension_panics b x :
  Forall name_char b -> (length b <= 8)%nat -> Forall name_char x -> (3 < length x)%nat ->
  name_fields (b ++ 46 :: x) = Panic.
Proof.
  intros Hb Hl Hx Hlx. unfold name_fields. rewrite rsplit_once_dot by done.
  rewrite fill_spec by (try lia; by apply name_ascii). cbn [obind].
  destruct x as [|x0 [|x1 [|x2 [|x3 x]]]]; try (simpl in Hlx; lia). done.
Qed.
End Dir.

(** ** Witnesses: the volume of [FatProps], with its one file *)
Module FatDirWitness.
Import FatWitness.
#[export] Instance no_unicode : UnicodeTable := {| unicode_upper := fun c => [c] |}.

(** "b.c" and "long.html" *)
Definition bc : list Z := [98; 46; 99].

Lemma root_chain : linked vol 2 [2].
Proof. repeat split; vm_compute; congruence. Qed.

Lemma bc_short : short_name bc.
Proof.
  apply (short_dotted [98] [99]); try (simpl; lia); apply Forall_cons; (split; [vm_compute; intuition congruence | done]).
Qed.

Lemma create_file_then_find_witness :
  exists g d, create_file 3 1709251199 vol 2 bc = Ret g /\ find 3 g 2 bc = Ret (Some d) /\
    loc d = {| co_cluster := 2; co_offset := 32 |} /\ file_size (entry d) = 0 /\
    first_cluster (entry d) = 0 /\
    creation_date (entry d) = 22621 /\ creation_time (entry d) = 49021 /\
    (forall x, 0 <= x < max_cluster vol -> next g x = next vol x) /\
    (forall x, valid_cluster vol x -> x <> 2 -> cluster_data g x = cluster_data vol x) /\
    cluster_data g 2 = put (cluster_data vol 2) 32 (encode_dirent (entry d)) /\ length (encode_dirent (entry d)) = 32%nat.
Proof.
  apply (create_file_then_find 3 1709251199 vol 2 [2] {| co_cluster := 2; co_offset := 32 |} bc 49021 22621);
    [apply vol_ok | apply root_chain | simpl; lia | apply bc_short | lia | vm_compute; reflexivity..].
Defined.

Lemma two_dots_not_found_witness :
  exists n ex, name_fields [97; 46; 98; 46; 99] = Ret (n, ex) /\
    forall e, name e = n -> compare_dirent [97; 46; 98; 46; 99] e = false.
Proof.
  apply (two_dots_not_found [97] [98] [99]); try (simpl; lia);
    apply Forall_cons; (split; [vm_compute; intuition congruence | done]).
Defined.

Lemma long_extension_panics_witness : name_fields [97; 46; 104; 116; 109; 108] = Panic.
Proof.
  apply (long_extension_panics [97] [104; 116; 109; 108]); try (simpl; lia);
    repeat (apply Forall_cons; split; [vm_compute; intuition congruence |]); done.
Defined.

Lemma dirent_roundtrip_witness : decode_dirent (encode_dirent entry0) = entry0.
Proof. apply (dirent_roundtrip entry0 []). apply (fo_wf _ _ _ dir0_ok). Defined.
End FatDirWitness.
