(* ===== verification/Console.v ===== *)
(** * The text console

    [kernel/src/console.rs]: the virtual terminal (a grid of characters, a
    cursor, dirty rows) and the renderer that brings the screen up to date.
    The screen is seen as what each of its text rows shows: scrolling it by the
    height of a text row moves every row up by one. *)
From S2P Require Import Prelude Slices.

Definition BUFFER_HEIGHT : Z := 40.
Definition BUFFER_WIDTH : Z := 150.

Inductive Color :=
| Black | Blue | Green | Cyan | Red | Magenta | Brown | LightGray | DarkGray | LightBlue
| LightGreen | LightCyan | LightRed | Pink | Yellow | White.

Definition color_num (c : Color) : Z :=
  match c with
  | Black => 0 | Blue => 1 | Green => 2 | Cyan => 3 | Red => 4 | Magenta => 5 | Brown => 6
  | LightGray => 7 | DarkGray => 8 | LightBlue => 9 | LightGreen => 10 | LightCyan => 11
  | LightRed => 12 | Pink => 13 | Yellow => 14 | White => 15
  end.

(** [ColorCode::new] *)
Definition color_code_new (foreground background : Color) : Z :=
  Z.lor (wrap_u 8 (Z.shiftl (color_num background) 4)) (color_num foreground).

Record ScreenChar := { ascii_character : Z; color_code : Z }.

Definition blank : ScreenChar := {| ascii_character := 32; color_code := color_code_new Black Black |}.

Record VirtualTerminal := {
  buffer : list (list ScreenChar);
  dirty_row : list bool;
  column_position : Z;
  row_position : Z;
  needs_scroll : bool
}.

Definition vt_new : VirtualTerminal :=
  {| buffer := replicate 40 (replicate 150 blank); dirty_row := replicate 40 false;
     needs_scroll := false; column_position := 0; row_position := 0 |}.

Definition set_buf (b : list (list ScreenChar)) (v : VirtualTerminal) : VirtualTerminal :=
  {| buffer := b; dirty_row := dirty_row v; column_position := column_position v;
     row_position := row_position v; needs_scroll := needs_scroll v |}.
Definition set_dirty (d : list bool) (v : VirtualTerminal) : VirtualTerminal :=
  {| buffer := buffer v; dirty_row := d; column_position := column_position v;
     row_position := row_position v; needs_scroll := needs_scroll v |}.
Definition set_col (c : Z) (v : VirtualTerminal) : VirtualTerminal :=
  {| buffer := buffer v; dirty_row := dirty_row v; column_position := c;
     row_position := row_position v; needs_scroll := needs_scroll v |}.
Definition set_row (r : Z) (v : VirtualTerminal) : VirtualTerminal :=
  {| buffer := buffer v; dirty_row := dirty_row v; column_position := column_position v;
     row_position := r; needs_scroll := needs_scroll v |}.
Definition set_scroll (b : bool) (v : VirtualTerminal) : VirtualTerminal :=
  {| buffer := buffer v; dirty_row := dirty_row v; column_position := column_position v;
     row_position := row_position v; needs_scroll := b |}.

Definition mark_dirty (row : Z) (v : VirtualTerminal) : outcome VirtualTerminal :=
  let! d := upd (dirty_row v) row true in Ret (set_dirty d v).

(** [self.buffer[row][col] = ch] *)
Definition put_cell (b : list (list ScreenChar)) (row col : Z) (ch : ScreenChar)
  : outcome (list (list ScreenChar)) :=
  let! r := idx b row in
  let! r := upd r col ch in
  upd b row r.

(** The two loops of the scroll: every cell of row [row] to the row above it. *)
Fixpoint copy_cols (n : nat) (row col : Z) (b : list (list ScreenChar)) : outcome (list (list ScreenChar)) :=
  match n with
  | O => Ret b
  | S n => let! r := idx b row in
           let! character := idx r col in
           let! b := put_cell b (row - 1) col character in
           copy_cols n row (col + 1) b
  end.
Fixpoint copy_rows (n : nat) (row : Z) (b : list (list ScreenChar)) : outcome (list (list ScreenChar)) :=
  match n with
  | O => Ret b
  | S n => let! b := copy_cols (Z.to_nat BUFFER_WIDTH) row 0 b in copy_rows n (row + 1) b
  end.

Fixpoint clear_cols (n : nat) (row col : Z) (b : list (list ScreenChar)) : outcome (list (list ScreenChar)) :=
  match n with
  | O => Ret b
  | S n => let! b := put_cell b row col blank in clear_cols n row (col + 1) b
  end.
Definition clear_row (row : Z) (v : VirtualTerminal) : outcome VirtualTerminal :=
  let! v := mark_dirty row v in
  let! b := clear_cols (Z.to_nat BUFFER_WIDTH) row 0 (buffer v) in
  Ret (set_buf b v).

Definition new_line (v : VirtualTerminal) : outcome VirtualTerminal :=
  let! v := mark_dirty (row_position v) v in
  let! v :=
    if row_position v =? BUFFER_HEIGHT - 1 then
      let! b := copy_rows (Z.to_nat (BUFFER_HEIGHT - 1)) 1 (buffer v) in
      let! v := clear_row (BUFFER_HEIGHT - 1) (set_buf b v) in
      mark_dirty (BUFFER_HEIGHT - 2) (set_scroll true v)
    else Ret (set_row (row_position v + 1) v) in
  Ret (set_col 0 v).

Definition write_byte (byte : Z) (v : VirtualTerminal) : outcome VirtualTerminal :=
  if byte =? 10 then new_line v
  else if byte =? 8 then
    let! v := mark_dirty (row_position v) v in
    Ret (set_col (Z.max 0 (column_position v - 1)) v)
  else
    let! v := if BUFFER_WIDTH <=? column_position v then new_line v else Ret v in
    let row := row_position v in
    let col := column_position v in
    let default_color := color_code_new Green Black in
    let! b := put_cell (buffer v) row col {| ascii_character := byte; color_code := default_color |} in
    mark_dirty row (set_col (column_position v + 1) (set_buf b v)).

(** [tty.write]: every byte in turn. *)
Fixpoint write_bytes (s : list Z) (v : VirtualTerminal) : outcome VirtualTerminal :=
  match s with
  | [] => Ret v
  | b :: s => let! v := write_byte b v in write_bytes s v
  end.

(** ** The renderer *)

(** What the text rows of the screen show, and what lies below the last one. *)
Record Display := { shown : list (list ScreenChar); below : list ScreenChar }.

(** [screen.scroll] by the height of a text row. *)
Definition scroll_display (d : Display) : Display :=
  {| shown := tail (shown d) ++ [below d]; below := below d |}.

(** The cells of a row, painted one by one. *)
Fixpoint paint_cols (n : nat) (row col : Z) (v : VirtualTerminal) (s : list (list ScreenChar))
  : outcome (list (list ScreenChar)) :=
  match n with
  | O => Ret s
  | S n => let! r := idx (buffer v) row in
           let! character := idx r col in
           let! s := put_cell s row col character in
           paint_cols n row (col + 1) v s
  end.

Fixpoint paint_rows (n : nat) (row : Z) (v : VirtualTerminal) (s : list (list ScreenChar))
  : outcome (VirtualTerminal * list (list ScreenChar)) :=
  match n with
  | O => Ret (v, s)
  | S n =>
      let! dirty := idx (dirty_row v) row in
      if dirty then
        let! s := paint_cols (Z.to_nat BUFFER_WIDTH) row 0 v s in
        let! d := upd (dirty_row v) row false in
        paint_rows n (row + 1) (set_dirty d v) s
      else paint_rows n (row + 1) v s
  end.

Definition paint_dirty (v : VirtualTerminal) (d : Display) : outcome (VirtualTerminal * Display) :=
  let '(v, d) := if needs_scroll v then (set_scroll false v, scroll_display d) else (v, d) in
  let! '(v, s) := paint_rows (Z.to_nat BUFFER_HEIGHT) 0 v (shown d) in
  Ret (v, {| shown := s; below := below d |}).

(** ** Lemmas *)
Record vt_ok (v : VirtualTerminal) : Prop := {
  vo_rows : length (buffer v) = 40%nat;
  vo_cols : Forall (fun r => length r = 150%nat) (buffer v);
  vo_dirty : length (dirty_row v) = 40%nat;
  vo_col : 0 <= column_position v <= 150;
  vo_row : 0 <= row_position v < 40
}.

Lemma put_cell_ret b row col ch r :
  0 <= row -> b !! Z.to_nat row = Some r -> 0 <= col < Z.of_nat (length r) ->
  put_cell b row col ch = Ret (<[Z.to_nat row := put r (Z.to_nat col) [ch]]> b).
Proof.
  intros Hr Hb Hc. pose proof (lookup_lt_Some _ _ _ Hb). unfold put_cell.
  rewrite (idx_ret _ _ r) by done. cbn [obind]. rewrite upd_ret by lia. cbn [obind].
  rewrite upd_ret by lia. f_equal. f_equal. rewrite insert_take_drop by lia. unfold put. simpl.
  by rewrite Nat.add_1_r.
Qed.

(** Copying [n] cells of [src] from column [col] on, cell by cell. *)
Lemma put_step {A} (p src : list A) col n ch :
  src !! col = Some ch -> (col + S n <= length p)%nat -> (col + S n <= length src)%nat ->
  put (put p col [ch]) (S col) (get src (S col) n) = put p col (get src col (S n)).
Proof.
  intros Hc Hp Hs. replace (S col) with (col + length [ch])%nat by (simpl; lia).
  assert (Hg : length (get src (col + length [ch]) n) = n) by (apply length_get; simpl; lia).
  rewrite put_put_app by (rewrite Hg; simpl; lia).
  f_equal. unfold get. simpl length. rewrite Nat.add_1_r. by rewrite (drop_S src ch col Hc).
Qed.

Lemma copy_cols_spec n : forall row col b r p,
  1 <= row -> 0 <= col -> b !! Z.to_nat row = Some r -> b !! Z.to_nat (row - 1) = Some p ->
  length p = length r -> (Z.to_nat col + n <= length r)%nat ->
  copy_cols n row col b =
    Ret (<[Z.to_nat (row - 1) := put p (Z.to_nat col) (get r (Z.to_nat col) n)]> b).
Proof.
  induction n as [|n IH]; intros row col b r p Hrow Hcol Hr Hp Hl Hn; cbn [copy_cols].
  - unfold get. rewrite firstn_O, put_nil. by rewrite list_insert_id.
  - rewrite (idx_ret _ _ r) by (try done; lia). cbn [obind].
    assert (exists ch, r !! Z.to_nat col = Some ch) as [ch Hch] by (apply lookup_lt_is_Some; lia).
    rewrite (idx_ret _ _ ch) by done. cbn [obind].
    rewrite (put_cell_ret _ _ _ _ p) by (try done; lia). cbn [obind].
    assert (Hne : Z.to_nat (row - 1) <> Z.to_nat row) by lia.
    pose proof (lookup_lt_Some _ _ _ Hp).
    rewrite (IH row (col + 1) _ r (put p (Z.to_nat col) [ch])).
    + rewrite list_insert_insert_eq. replace (Z.to_nat (col + 1)) with (S (Z.to_nat col)) by lia.
      by rewrite put_step by (try done; lia).
    + done.
    + lia.
    + by rewrite list_lookup_insert_ne.
    + rewrite list_lookup_insert_eq; [done | lia].
    + rewrite length_put; simpl; lia.
    + lia.
Qed.

Lemma put_whole {A} (p src : list A) n : length p = n -> length src = n -> put p 0 (get src 0 n) = src.
Proof.
  intros Hp Hs. unfold put, get. rewrite drop_0, (take_ge src) by lia. simpl. rewrite Hs, drop_ge by lia.
  by rewrite app_nil_r.
Qed.

Lemma copy_row_spec row b r p :
  1 <= row -> b !! Z.to_nat row = Some r -> b !! Z.to_nat (row - 1) = Some p ->
  length r = 150%nat -> length p = 150%nat ->
  copy_cols (Z.to_nat BUFFER_WIDTH) row 0 b = Ret (<[Z.to_nat (row - 1) := r]> b).
Proof.
  intros H1 Hr Hp Hlr Hlp. rewrite (copy_cols_spec _ row 0 b r p) by (try done; try congruence; change (Z.to_nat BUFFER_WIDTH) with 150%nat; simpl; lia).
  by rewrite put_whole.
Qed.

Lemma last_default {A} (l : list A) : forall a d d', List.last (a :: l) d = List.last (a :: l) d'.
Proof. induction l as [|b l IH]; intros a d d'; [done |]. exact (IH b d d'). Qed.

(** Copying every row to the one above it, from row [S (length pre)] on. *)
Lemma copy_rows_spec rest : forall pre x,
  Forall (fun r => length r = 150%nat) (x :: rest) ->
  copy_rows (length rest) (Z.of_nat (S (length pre))) (pre ++ x :: rest) =
    Ret (pre ++ rest ++ [List.last rest x]).
Proof.
  induction rest as [|y rest IH]; intros pre x HF; cbn [copy_rows length]; [done |].
  apply Forall_cons in HF as [Hx HF]. apply Forall_cons in HF as [Hy HF].
  rewrite (copy_row_spec _ _ y x); try done; [| lia | |].
  - cbn [obind]. replace (Z.to_nat (Z.of_nat (S (length pre)) - 1)) with (length pre + 0)%nat by lia.
    rewrite insert_app_r. simpl insert.
    replace (pre ++ y :: y :: rest) with ((pre ++ [y]) ++ y :: rest) by (by rewrite <- app_assoc).
    replace (Z.of_nat (S (length pre)) + 1) with (Z.of_nat (S (length (pre ++ [y]))))
      by (rewrite length_app; simpl; lia).
    rewrite IH by (by constructor). rewrite <- app_assoc.
    assert (List.last (y :: rest) x = List.last rest y) as ->; [| done].
    destruct rest as [|z rest]; [done |]. exact (last_default rest z x y).
  - rewrite Nat2Z.id, lookup_app_r by lia. by replace (S (length pre) - length pre)%nat with 1%nat by lia.
  - replace (Z.to_nat (Z.of_nat (S (length pre)) - 1)) with (length pre) by lia.
    by rewrite lookup_app_r, Nat.sub_diag by lia.
Qed.

Definition blank_row : list ScreenChar := replicate 150 blank.

Lemma clear_cols_spec n : forall row col b r,
  0 <= row -> 0 <= col -> b !! Z.to_nat row = Some r -> (Z.to_nat col + n <= length r)%nat ->
  clear_cols n row col b = Ret (<[Z.to_nat row := put r (Z.to_nat col) (replicate n blank)]> b).
Proof.
  induction n as [|n IH]; intros row col b r Hrow Hcol Hr Hn; cbn [clear_cols].
  - simpl. rewrite put_nil. by rewrite list_insert_id.
  - rewrite (put_cell_ret _ _ _ _ r) by (try done; lia). cbn [obind]. pose proof (lookup_lt_Some _ _ _ Hr).
    rewrite (IH row (col + 1) _ (put r (Z.to_nat col) [blank])); [| lia | lia | |].
    + rewrite list_insert_insert_eq. replace (Z.to_nat (col + 1)) with (Z.to_nat col + length [blank])%nat by (simpl; lia).
      rewrite put_put_app by (rewrite length_replicate; simpl; lia). done.
    + rewrite list_lookup_insert_eq; [done | lia].
    + rewrite length_put; simpl; lia.
Qed.

(** ** The terminal, abstractly: what each byte does to the grid *)
Definition scrolled (b : list (list ScreenChar)) : list (list ScreenChar) := tail b ++ [blank_row].
Definition dirtied (row : Z) (d : list bool) : list bool := <[Z.to_nat row := true]> d.

Definition spec_new_line (v : VirtualTerminal) : VirtualTerminal :=
  if row_position v =? 39 then
    {| buffer := scrolled (buffer v); dirty_row := dirtied 38 (dirtied 39 (dirtied 39 (dirty_row v)));
       column_position := 0; row_position := 39; needs_scroll := true |}
  else
    {| buffer := buffer v; dirty_row := dirtied (row_position v) (dirty_row v);
       column_position := 0; row_position := row_position v + 1; needs_scroll := needs_scroll v |}.

Definition glyph (byte : Z) : ScreenChar :=
  {| ascii_character := byte; color_code := color_code_new Green Black |}.

(** The cell under the cursor, and the cursor one cell on. *)
Definition spec_put (byte : Z) (v : VirtualTerminal) : VirtualTerminal :=
  {| buffer := alter (fun r => <[Z.to_nat (column_position v) := glyph byte]> r)
                     (Z.to_nat (row_position v)) (buffer v);
     dirty_row := dirtied (row_position v) (dirty_row v);
     column_position := column_position v + 1; row_position := row_position v;
     needs_scroll := needs_scroll v |}.

Definition spec_write (byte : Z) (v : VirtualTerminal) : VirtualTerminal :=
  if byte =? 10 then spec_new_line v
  else if byte =? 8 then
    {| buffer := buffer v; dirty_row := dirtied (row_position v) (dirty_row v);
       column_position := Z.max 0 (column_position v - 1); row_position := row_position v;
       needs_scroll := needs_scroll v |}
  else spec_put byte (if 150 <=? column_position v then spec_new_line v else v).

Lemma mark_dirty_ret row v :
  length (dirty_row v) = 40%nat -> 0 <= row < 40 ->
  mark_dirty row v = Ret (set_dirty (dirtied row (dirty_row v)) v).
Proof. intros Hd Hr. unfold mark_dirty. rewrite upd_ret by lia. done. Qed.

Lemma new_line_spec v : vt_ok v -> new_line v = Ret (spec_new_line v) /\ vt_ok (spec_new_line v).
Proof.
  intros [Hrows Hcols Hd Hc Hr]. unfold new_line, spec_new_line.
  rewrite mark_dirty_ret by done. cbn [obind]. change (row_position (set_dirty _ v)) with (row_position v).
  change (BUFFER_HEIGHT - 1) with 39. change (BUFFER_HEIGHT - 2) with 38.
  destruct (Z.eqb_spec (row_position v) 39) as [E | E].
  - rewrite E. change (buffer (set_dirty _ v)) with (buffer v).
    destruct (buffer v) as [|x rest] eqn:Eb; [done |].
    assert (Hrest : length rest = 39%nat) by (simpl in Hrows; lia).
    pose proof (copy_rows_spec rest [] x Hcols) as Ecp. simpl app in Ecp. rewrite Hrest in Ecp.
    change (Z.to_nat 39) with 39%nat. change (Z.of_nat (S (length (@nil (list ScreenChar))))) with 1 in Ecp.
    rewrite Ecp. cbn [obind]. unfold clear_row. rewrite mark_dirty_ret by (simpl; unfold dirtied; rewrite ?length_insert; done || lia).
    cbn [obind]. set (last := List.last rest x).
    change (Z.to_nat BUFFER_WIDTH) with 150%nat.
    change (buffer (set_dirty _ (set_buf ?b _))) with b.
    assert (Hlast : length last = 150%nat).
    { apply Forall_cons in Hcols as [Hx Hcols]. unfold last. clear -Hx Hcols. revert x Hx.
      induction Hcols as [|y l Hy _ IH]; intros x Hx; [done |]. destruct l; [done |].
      exact (IH x Hx). }
    rewrite (clear_cols_spec 150 39 0 (rest ++ [last]) last); [| lia | lia | | simpl; lia].
    2: { change (Z.to_nat 39) with 39%nat. rewrite lookup_app_r by lia. by rewrite Hrest. }
    cbn [obind]. change (Z.to_nat 39) with 39%nat. change (Z.to_nat 0) with 0%nat.
    assert (put last 0 (replicate 150 blank) = blank_row) as ->.
    { unfold put. rewrite drop_ge by (rewrite length_replicate; lia). by rewrite app_nil_r. }
    replace 39%nat with (length rest + 0)%nat at 1 by lia. rewrite insert_app_r. simpl insert.
    rewrite mark_dirty_ret by (simpl; unfold dirtied; rewrite ?length_insert; done || lia). cbn [obind].
    split; [unfold set_col, set_dirty, set_buf, set_scroll; simpl; by rewrite E |].
    apply Forall_cons in Hcols as [_ Hcols].
    split; simpl; unfold scrolled, dirtied; rewrite ?length_insert, ?length_app; simpl; try lia.
    apply Forall_app. split; [done |]. by constructor.
  - cbn [obind]. split; [done |]. split; simpl; unfold dirtied; rewrite ?length_insert; try done; lia.
Qed.

Lemma spec_put_ok byte v : vt_ok v -> column_position v < 150 -> vt_ok (spec_put byte v).
Proof.
  intros [Hrows Hcols Hd Hc Hr] Hlt. split; simpl; unfold dirtied; rewrite ?length_insert, ?length_alter; try done; [| lia].
  apply Forall_alter; [done |]. intros r _ Hr'. by rewrite length_insert.
Qed.

Lemma alter_insert {A} (f : A -> A) (l : list A) i x : l !! i = Some x -> alter f i l = <[i := f x]> l.
Proof.
  revert i; induction l as [|y l IH]; intros [|i] H; try done; simpl in *.
  - by injection H as ->.
  - f_equal. by apply IH.
Qed.

Lemma put_glyph_spec byte v :
  vt_ok v -> column_position v < 150 ->
  (let! b := put_cell (buffer v) (row_position v) (column_position v) (glyph byte) in
   mark_dirty (row_position v) (set_col (column_position v + 1) (set_buf b v))) = Ret (spec_put byte v).
Proof.
  intros [Hrows Hcols Hd Hc Hr] Hlt.
  assert (exists r, buffer v !! Z.to_nat (row_position v) = Some r) as [r Hb] by (apply lookup_lt_is_Some; lia).
  pose proof (proj1 (Forall_lookup _ _) Hcols _ _ Hb) as Hl. simpl in Hl.
  rewrite (put_cell_ret _ _ _ _ r) by (try done; lia). cbn [obind].
  rewrite mark_dirty_ret by done. unfold spec_put, set_dirty, set_col, set_buf. simpl. do 2 f_equal.
  rewrite (alter_insert _ _ _ r) by done.
  f_equal. rewrite insert_take_drop by lia. unfold put. simpl. by rewrite Nat.add_1_r.
Qed.

Lemma write_byte_spec byte v :
  vt_ok v -> write_byte byte v = Ret (spec_write byte v) /\ vt_ok (spec_write byte v).
Proof.
  intros Hv. unfold write_byte, spec_write. destruct (byte =? 10); [by apply new_line_spec |].
  destruct (byte =? 8).
  { pose proof Hv as [Hrows Hcols Hd Hc Hr]. rewrite mark_dirty_ret by done. cbn [obind].
    split; [done |]. split; simpl; unfold dirtied; rewrite ?length_insert; try done; lia. }
  change BUFFER_WIDTH with 150. change {| ascii_character := byte; color_code := color_code_new Green Black |} with (glyph byte).
  destruct (Z.leb_spec 150 (column_position v)).
  - destruct (new_line_spec v Hv) as [-> Hv']. cbn [obind].
    assert (column_position (spec_new_line v) < 150) by (unfold spec_new_line; case_match; simpl; lia).
    split; [by apply put_glyph_spec | by apply spec_put_ok].
  - cbn [obind]. split; [by apply put_glyph_spec | by apply spec_put_ok].
Qed.

(** ** Painting *)
Definition grid (s : list (list ScreenChar)) : Prop :=
  length s = 40%nat /\ Forall (fun r => length r = 150%nat) s.

Lemma paint_cols_spec n : forall row col v s r p,
  0 <= row -> 0 <= col -> buffer v !! Z.to_nat row = Some r -> s !! Z.to_nat row = Some p ->
  length p = length r -> (Z.to_nat col + n <= length r)%nat ->
  paint_cols n row col v s = Ret (<[Z.to_nat row := put p (Z.to_nat col) (get r (Z.to_nat col) n)]> s).
Proof.
  induction n as [|n IH]; intros row col v s r p Hrow Hcol Hr Hp Hl Hn; cbn [paint_cols].
  - unfold get. rewrite firstn_O, put_nil. by rewrite list_insert_id.
  - rewrite (idx_ret _ _ r) by (try done; lia). cbn [obind].
    assert (exists ch, r !! Z.to_nat col = Some ch) as [ch Hch] by (apply lookup_lt_is_Some; lia).
    rewrite (idx_ret _ _ ch) by done. cbn [obind].
    rewrite (put_cell_ret _ _ _ _ p) by (try done; lia). cbn [obind]. pose proof (lookup_lt_Some _ _ _ Hp).
    rewrite (IH row (col + 1) v _ r (put p (Z.to_nat col) [ch])); try done; [| lia | | |lia].
    + rewrite list_insert_insert_eq. replace (Z.to_nat (col + 1)) with (S (Z.to_nat col)) by lia.
      by rewrite put_step by (try done; lia).
    + rewrite list_lookup_insert_eq; [done | lia].
    + rewrite length_put; simpl; lia.
Qed.

Lemma paint_rows_spec n : forall row v s,
  grid (buffer v) -> grid s -> length (dirty_row v) = 40%nat -> 0 <= row -> row + Z.of_nat n = 40 ->
  exists dirty' s', paint_rows n row v s = Ret (set_dirty dirty' v, s') /\ grid s' /\
    length dirty' = 40%nat /\
    (forall i, Z.of_nat i < row -> s' !! i = s !! i /\ dirty' !! i = dirty_row v !! i) /\
    (forall i, row <= Z.of_nat i < 40 -> dirty' !! i = Some false /\
       s' !! i = if bool_decide (dirty_row v !! i = Some true) then buffer v !! i else s !! i).
Proof.
  induction n as [|n IH]; intros row v s [Hb1 Hb2] [Hs1 Hs2] Hd Hrow Hn; cbn [paint_rows].
  - exists (dirty_row v), s. split; [by destruct v |]. split; [done |]. split; [done |].
    split; [done |]. intros i Hi. lia.
  - assert (Hlt : (Z.to_nat row < 40)%nat) by lia.
    assert (exists b, dirty_row v !! Z.to_nat row = Some b) as [b Hdb] by (apply lookup_lt_is_Some; lia).
    assert (exists r, buffer v !! Z.to_nat row = Some r) as [r Hr] by (apply lookup_lt_is_Some; lia).
    assert (exists p, s !! Z.to_nat row = Some p) as [p Hp] by (apply lookup_lt_is_Some; lia).
    pose proof (proj1 (Forall_lookup _ _) Hb2 _ _ Hr) as Hlr. pose proof (proj1 (Forall_lookup _ _) Hs2 _ _ Hp) as Hlp.
    simpl in Hlr, Hlp. rewrite (idx_ret _ _ b) by done. cbn [obind]. destruct b.
    + rewrite (paint_cols_spec _ row 0 v s r p); try done; [| congruence | simpl; change (Z.to_nat BUFFER_WIDTH) with 150%nat; lia].
      change (Z.to_nat BUFFER_WIDTH) with 150%nat. change (Z.to_nat 0) with 0%nat.
      rewrite put_whole by done. cbn [obind]. rewrite upd_ret by lia. cbn [obind].
      destruct (IH (row + 1) (set_dirty (<[Z.to_nat row := false]> (dirty_row v)) v) (<[Z.to_nat row := r]> s))
        as (dirty' & s' & E & Hg & Hl & Hlow & Hhigh); try done; try lia;
        try (by (simpl; rewrite length_insert)); try (split; [by rewrite length_insert | apply Forall_insert; [exact Hs2 | exact Hlr]]).
      exists dirty', s'. split; [exact E |]. split; [done |]. split; [done |]. split.
      * intros i Hi. destruct (Hlow i) as [-> ->]; [lia |]. simpl.
        by rewrite !list_lookup_insert_ne by lia.
      * intros i Hi. destruct (decide (Z.of_nat i = row)) as [Ei | Ei].
        -- destruct (Hlow i) as [-> ->]; [lia |]. assert (i = Z.to_nat row) as -> by lia. simpl.
           rewrite !list_lookup_insert_eq by lia. by rewrite Hdb, Hr.
        -- destruct (Hhigh i) as [-> ->]; [lia |]. simpl. by rewrite !list_lookup_insert_ne by lia.
    + destruct (IH (row + 1) v s) as (dirty' & s' & E & Hg & Hl & Hlow & Hhigh); try done; try lia.
      exists dirty', s'. split; [exact E |]. split; [done |]. split; [done |]. split.
      * intros i Hi. apply Hlow. lia.
      * intros i Hi. destruct (decide (Z.of_nat i = row)) as [Ei | Ei]; [| apply Hhigh; lia].
        destruct (Hlow i) as [-> ->]; [lia |]. assert (i = Z.to_nat row) as -> by lia. by rewrite Hdb.
Qed.

(** The screen shows the terminal, with nothing left to paint. *)
Definition synced (v : VirtualTerminal) (d : Display) : Prop :=
  vt_ok v /\ shown d = buffer v /\ dirty_row v = replicate 40 false /\ needs_scroll v = false /\
  length (below d) = 150%nat.

(** Painting suffices when every row that differs from the screen, after its
    scroll, is dirty. *)
Lemma paint_dirty_spec v d :
  vt_ok v -> grid (shown d) -> length (below d) = 150%nat ->
  exists v' d', paint_dirty v d = Ret (v', d') /\ buffer v' = buffer v /\ vt_ok v' /\
    dirty_row v' = replicate 40 false /\ needs_scroll v' = false /\ length (below d') = 150%nat /\
    length (shown d') = 40%nat /\
    forall i, (i < 40)%nat -> shown d' !! i =
      if bool_decide (dirty_row v !! i = Some true) then buffer v !! i
      else shown (if needs_scroll v then scroll_display d else d) !! i.
Proof.
  intros [Hrows Hcols Hd Hc Hr] [Hg1 Hg2] Hbl. unfold paint_dirty.
  set (v1 := if needs_scroll v then set_scroll false v else v).
  set (d1 := if needs_scroll v then scroll_display d else d).
  assert ((if needs_scroll v then (set_scroll false v, scroll_display d) else (v, d)) = (v1, d1)) as ->
    by (unfold v1, d1; by destruct (needs_scroll v)).
  assert (Hv1 : buffer v1 = buffer v /\ dirty_row v1 = dirty_row v /\ needs_scroll v1 = false /\
                column_position v1 = column_position v /\ row_position v1 = row_position v).
  { unfold v1. destruct (needs_scroll v) eqn:E; done. }
  destruct Hv1 as (E1 & E2 & E3 & E4 & E5).
  assert (Hg : grid (shown d1) /\ length (below d1) = 150%nat).
  { unfold d1. destruct (needs_scroll v); [| done]. split; [| done]. unfold scroll_display. simpl.
    destruct (shown d) as [|x l]; [done |]. apply Forall_cons in Hg2 as [_ Hg2]. split.
    - rewrite length_app. simpl in *. lia.
    - simpl. apply Forall_app. split; [done | by constructor]. }
  destruct Hg as [Hg Hb1]. change (Z.to_nat BUFFER_HEIGHT) with 40%nat.
  destruct (paint_rows_spec 40 0 v1 (shown d1)) as (dirty' & s' & E & [Hs1 Hs2] & Hl & _ & Hhigh);
    [by rewrite E1 | done | by rewrite E2 | lia | lia |].
  rewrite E. cbn [obind]. eexists _, _. split; [done |].
  cbn [buffer set_dirty dirty_row needs_scroll shown below]. split; [done |].
  split; [split; simpl; rewrite ?E1, ?E4, ?E5; done |].
  split.
  { apply list_eq_same_length with 40%nat; [done | done |]. intros i x y Hi Hx Hy.
    destruct (Hhigh i) as [Hf _]; [lia |]. rewrite lookup_replicate_2 in Hy by lia. congruence. }
  split; [done |]. split; [done |]. split; [done |].
  intros i Hi. destruct (Hhigh i) as [_ ->]; [lia |]. by rewrite E1, E2.
Qed.

Lemma dirtied_lookup row d i :
  length d = 40%nat -> 0 <= row < 40 -> dirtied row d !! i = if decide (i = Z.to_nat row) then Some true else d !! i.
Proof.
  intros Hl Hr. unfold dirtied. destruct (decide (i = Z.to_nat row)) as [-> |].
  - apply list_lookup_insert_eq. lia.
  - by apply list_lookup_insert_ne.
Qed.

Lemma tail_lookup {A} (l : list A) i : tail l !! i = l !! S i.
Proof. by destruct l. Qed.

(** Rows a byte leaves clean are rows the screen, once scrolled, shows. *)
Lemma write_clean_rows byte v d i :
  synced v d -> (i < 40)%nat -> dirty_row (spec_write byte v) !! i <> Some true ->
  shown (if needs_scroll (spec_write byte v) then scroll_display d else d) !! i
    = buffer (spec_write byte v) !! i.
Proof.
  intros ([Hrows Hcols Hd Hc Hr] & Hsh & Hdi & Hns & Hbl) Hi.
  assert (Hnl : dirty_row (spec_new_line v) !! i <> Some true ->
    shown (if needs_scroll (spec_new_line v) then scroll_display d else d) !! i = buffer (spec_new_line v) !! i).
  { unfold spec_new_line. destruct (row_position v =? 39); simpl; [| by rewrite Hns, Hsh].
    rewrite !dirtied_lookup by (unfold dirtied; rewrite ?length_insert; try done; lia).
    intros Hn. rewrite Hsh. unfold scrolled.
    assert (i < 38)%nat by (repeat case_decide; simpl in *; try done; lia).
    rewrite !lookup_app_l; [done | |]; destruct (buffer v); simpl in *; lia. }
  unfold spec_write. destruct (byte =? 10); [exact Hnl |].
  destruct (byte =? 8); [simpl; by rewrite Hns, Hsh |].
  assert (Hv' : vt_ok (if 150 <=? column_position v then spec_new_line v else v)).
  { destruct (150 <=? column_position v); [apply new_line_spec |]; by split. }
  assert (Hcl : dirty_row (if 150 <=? column_position v then spec_new_line v else v) !! i <> Some true ->
    shown (if needs_scroll (if 150 <=? column_position v then spec_new_line v else v) then scroll_display d else d) !! i
      = buffer (if 150 <=? column_position v then spec_new_line v else v) !! i).
  { destruct (150 <=? column_position v); [exact Hnl |]. intros _. by rewrite Hns, Hsh. }
  set (v' := if 150 <=? column_position v then spec_new_line v else v) in *. clearbody v'.
  destruct Hv' as [_ _ Hd' _ Hr']. simpl. rewrite dirtied_lookup by done.
  destruct (decide (i = Z.to_nat (row_position v'))) as [-> | Hne]; [done |]. intros Hn.
  rewrite list_lookup_alter_ne by done. by apply Hcl.
Qed.

(** ** Properties *)

(** The terminal never panics and implements its grid: on a well-formed
    terminal every byte, whatever it is, is written; the loops that scroll and
    clear the rows amount to dropping the first row and appending a blank one;
    the cursor stays inside the grid. *)
Theorem terminal_refines_grid byte v :
  vt_ok v -> write_byte byte v = Ret (spec_write byte v) /\ vt_ok (spec_write byte v).
Proof. apply write_byte_spec. Qed.

(** The screen follows the terminal: painting after each byte leaves the
    screen showing exactly the terminal's rows. *)
Theorem paint_after_byte byte v d :
  synced v d -> exists v1 v2 d2, write_byte byte v = Ret v1 /\ paint_dirty v1 d = Ret (v2, d2) /\
    buffer v2 = buffer v1 /\ synced v2 d2.
Proof.
  intros Hs. pose proof Hs as (Hv & Hsh & _ & _ & Hbl).
  destruct (write_byte_spec byte v Hv) as [E Hv1]. rewrite E.
  destruct (paint_dirty_spec (spec_write byte v) d Hv1) as (v2 & d2 & E2 & Hb & Hv2 & Hd2 & Hn2 & Hbl2 & Hl2 & Hrow);
    [rewrite Hsh; split; apply Hv | done |].
  exists (spec_write byte v), v2, d2. split; [done |]. split; [done |]. split; [done |].
  split; [done |]. split; [| done]. rewrite Hb.
  apply list_eq_same_length with 40%nat; [apply Hv1 | done |]. intros i x y Hi Hx Hy.
  rewrite (Hrow i Hi) in Hx. case_bool_decide; [congruence |].
  rewrite (write_clean_rows byte v d i Hs Hi) in Hx by done. congruence.
Qed.

(** Two line feeds at the bottom before a paint leave the screen wrong: the
    terminal scrolls twice, the screen once, and only the last two rows are
    repainted, so the first text row shows the row that has scrolled away. *)
Theorem two_scrolls_stale v d :
  synced v d -> row_position v = 39 ->
  exists v1 v2 d2, write_bytes [10; 10] v = Ret v1 /\ paint_dirty v1 d = Ret (v2, d2) /\
    shown d2 !! 0%nat = buffer v !! 1%nat /\ buffer v2 !! 0%nat = buffer v !! 2%nat.
Proof.
  intros (Hv & Hsh & Hdi & Hns & Hbl) H39. cbn [write_bytes].
  destruct (write_byte_spec 10 v Hv) as [-> Hv1]. cbn [obind].
  destruct (write_byte_spec 10 _ Hv1) as [-> Hv2]. cbn [obind].
  assert (Hw : forall x, spec_write 10 x = spec_new_line x) by done. 
  rewrite (Hw (spec_write 10 v)), (Hw v) in Hv2 |- *.
  destruct (paint_dirty_spec _ d Hv2) as (v2 & d2 & E2 & Hb & _ & _ & _ & _ & _ & Hrow);
    [rewrite Hsh; split; apply Hv | done |].
  eexists _, v2, d2. split; [done |]. split; [exact E2 |]. pose proof Hv as [Hrows _ Hd _ _].
  assert (E1 : spec_new_line v = {| buffer := scrolled (buffer v);
    dirty_row := dirtied 38 (dirtied 39 (dirtied 39 (dirty_row v))); column_position := 0;
    row_position := 39; needs_scroll := true |}) by (unfold spec_new_line; by rewrite H39).
  assert (E3 : spec_new_line (spec_new_line v) = {| buffer := scrolled (scrolled (buffer v));
    dirty_row := dirtied 38 (dirtied 39 (dirtied 39 (dirty_row (spec_new_line v)))); column_position := 0;
    row_position := 39; needs_scroll := true |}) by (by rewrite E1).
  rewrite E3, E1 in Hrow. rewrite E3 in Hb. cbn [buffer dirty_row needs_scroll] in Hrow, Hb. split.
  - rewrite (Hrow O) by lia.
    rewrite !dirtied_lookup by (unfold dirtied; rewrite ?length_insert; try done; lia).
    rewrite !decide_False by done. rewrite Hdi. cbn [bool_decide]. simpl. rewrite Hsh.
    by destruct (buffer v) as [|x [|y l]].
  - rewrite Hb. unfold scrolled. destruct (buffer v) as [|x [|y [|z l]]]; done.
Qed.

(** ** Witnesses: a terminal with the cursor on the last row *)
Module ConsoleWitness.
Definition vt39 : VirtualTerminal := set_row 39 vt_new.
Definition disp39 : Display := {| shown := buffer vt39; below := blank_row |}.

Lemma vt39_synced : synced vt39 disp39.
Proof.
  split; [| done]. split; try done.
  apply Forall_replicate. done.
Qed.

Lemma terminal_refines_grid_witness :
  write_byte 65 vt39 = Ret (spec_write 65 vt39) /\ vt_ok (spec_write 65 vt39).
Proof. exact (terminal_refines_grid 65 vt39 (proj1 vt39_synced)). Defined.

Lemma paint_after_byte_witness :
  exists v1 v2 d2, write_byte 10 vt39 = Ret v1 /\ paint_dirty v1 disp39 = Ret (v2, d2) /\
    buffer v2 = buffer v1 /\ synced v2 d2.
Proof. exact (paint_after_byte 10 vt39 disp39 vt39_synced). Defined.

Lemma two_scrolls_stale_witness :
  exists v1 v2 d2, write_bytes [10; 10] vt39 = Ret v1 /\ paint_dirty v1 disp39 = Ret (v2, d2) /\
    shown d2 !! 0%nat = buffer vt39 !! 1%nat /\ buffer v2 !! 0%nat = buffer vt39 !! 2%nat.
Proof. exact (two_scrolls_stale vt39 disp39 vt39_synced eq_refl). Defined.
End ConsoleWitness.
