(* ===== verification/Tty.v ===== *)
(** * The terminal's line discipline

    [kernel/src/tty.rs]: keys are edited into a line, a committed line goes to
    the queue that readers drain, and everything typed is echoed on the virtual
    terminal.  Reading blocks and retries, one turn at a time, as pipes do. *)
From S2P Require Import Prelude Lock Thread ThreadInv Sched Queue Pipe Console.

(** [pc_keyboard]'s decoded key: a character or a key with none. *)
Inductive DecodedKey := Unicode (character : Z) | RawKey (code : Z).

Definition waits_stdin (tty_id : Z) (s : ThreadState) : bool :=
  match s with Blocked (WaitStdin n) => tty_id =? n | _ => false end.

Section Tty.
Context {Q : Type} {AQ : ArrayQueue Z Q}.

Record TTY := {
  tty_id : Z;
  completed_input_queue : Q;
  line_buf : list Z;
  is_eof : bool;
  terminal : VirtualTerminal
}.

Definition tty_new (n : Z) : TTY :=
  {| tty_id := n; completed_input_queue := aq_new (80 * 40); line_buf := []; is_eof := false;
     terminal := vt_new |}.

Definition set_queue_of (q : Q) (t : TTY) : TTY :=
  {| tty_id := tty_id t; completed_input_queue := q; line_buf := line_buf t; is_eof := is_eof t;
     terminal := terminal t |}.
Definition set_line (l : list Z) (t : TTY) : TTY :=
  {| tty_id := tty_id t; completed_input_queue := completed_input_queue t; line_buf := l;
     is_eof := is_eof t; terminal := terminal t |}.
Definition set_eof (b : bool) (t : TTY) : TTY :=
  {| tty_id := tty_id t; completed_input_queue := completed_input_queue t; line_buf := line_buf t;
     is_eof := b; terminal := terminal t |}.
Definition set_terminal (v : VirtualTerminal) (t : TTY) : TTY :=
  {| tty_id := tty_id t; completed_input_queue := completed_input_queue t; line_buf := line_buf t;
     is_eof := is_eof t; terminal := v |}.

Definition input_byte (byte : Z) (t : TTY) : TTY := set_line (line_buf t ++ [byte]) t.

Definition output_byte (byte : Z) (t : TTY) : outcome TTY :=
  let! v := write_byte byte (terminal t) in Ret (set_terminal v t).

(** [TTY::write]: the bytes of the string, and their number. *)
Definition tty_write (s : list Z) (t : TTY) : outcome (TTY * Z) :=
  let! v := write_bytes s (terminal t) in Ret (set_terminal v t, Z.of_nat (length s)).

Definition wakeup_readers (procs : list Z) (t : TTY) (k : Kernel) : outcome Kernel :=
  let! l := sleepers k (waits_stdin (tty_id t)) procs in
  Ret (foldl (fun k i => locked_unblock i k) k l).

Definition force_all (l : list Z) (q : Q) : Q := foldl (fun q b => aq_force_push b q) q l.

Definition commit_line (procs : list Z) (t : TTY) (k : Kernel) : outcome (TTY * Kernel) :=
  let t := set_queue_of (force_all (line_buf t) (completed_input_queue t)) t in
  let t := set_line [] t in
  let! k := wakeup_readers procs t k in
  Ret (t, k).

(** [Vec::pop] *)
Definition vec_pop (l : list Z) : option (list Z) :=
  match l with [] => None | _ => Some (removelast l) end.

Definition handle_key (procs : list Z) (key : DecodedKey) (t : TTY) (k : Kernel)
  : outcome (TTY * Kernel * bool) :=
  match key with
  | Unicode c =>
      if c =? 8 then
        match vec_pop (line_buf t) with
        | Some l => let! '(t, _) := tty_write [8; 32; 8] (set_line l t) in Ret (t, k, true)
        | None => Ret (t, k, false)
        end
      else if c =? 10 then
        let t := input_byte 10 t in
        let! t := output_byte 10 t in
        let! '(t, k) := commit_line procs t k in
        Ret (t, k, true)
      else if c =? 3 then
        let! '(t, _) := tty_write [94; 67] t in Ret (t, k, true)
      else if c =? 4 then
        match line_buf t with
        | [] => Ret (set_eof true t, k, false)
        | _ => let! '(t, k) := commit_line procs t k in Ret (t, k, false)
        end
      else
        let t := input_byte (wrap_u 8 c) t in
        let! t := output_byte (wrap_u 8 c) t in
        Ret (t, k, true)
  | RawKey _ => Ret (t, k, false)
  end.

Fixpoint handle_keys (procs : list Z) (keys : list DecodedKey) (t : TTY) (k : Kernel) : outcome (TTY * Kernel) :=
  match keys with
  | [] => Ret (t, k)
  | key :: keys => let! '(t, k, _) := handle_key procs key t k in handle_keys procs keys t k
  end.

(** One turn of [TTY::read]. *)
Definition tty_read_turn (t : TTY) (k : Kernel) (buf : list Z) : outcome (TTY * Kernel * list Z * option Z) :=
  if negb (aq_is_empty (completed_input_queue t)) then
    let! '(q, buf, i) := drain (completed_input_queue t) buf in
    Ret (set_queue_of q t, k, buf, Some i)
  else if is_eof t then Ret (set_eof false t, k, buf, Some 0)
  else
    let! k := block_task (WaitStdin (tty_id t)) k in
    Ret (t, k, buf, None).
End Tty.
Arguments TTY : clear implicits.

(** ** Specification: the line a sequence of keys leaves *)

(** Keys that neither commit the line nor end the input. *)
Definition editing (key : DecodedKey) : Prop :=
  match key with Unicode c => c <> 10 /\ c <> 4 | RawKey _ => True end.

Definition edit (line : list Z) (key : DecodedKey) : list Z :=
  match key with
  | Unicode c => if c =? 8 then removelast line else if c =? 3 then line else line ++ [wrap_u 8 c]
  | RawKey _ => line
  end.

(** ** Lemmas *)
Section TtyProps.
Context {Q : Type} {AQ : ArrayQueue Z Q} {AL : ArrayQueueLaws Z Q AQ}.

Definition tty_ok (t : TTY Q) : Prop := aq_ok (completed_input_queue t) /\ vt_ok (terminal t).
Definition input_of (t : TTY Q) : list Z := aq_list (completed_input_queue t).

Lemma write_bytes_ok s : forall v, vt_ok v -> exists v', write_bytes s v = Ret v' /\ vt_ok v'.
Proof.
  induction s as [|b s IH]; intros v Hv; cbn [write_bytes]; [by exists v |].
  destruct (write_byte_spec b v Hv) as [-> Hv']. cbn [obind]. by apply IH.
Qed.

Lemma force_all_spec l : forall q,
  aq_ok q -> Z.of_nat (length l) + aq_len q <= aq_capacity q ->
  aq_ok (force_all l q) /\ aq_list (force_all l q) = aq_list q ++ l /\
  aq_capacity (force_all l q) = aq_capacity q.
Proof.
  induction l as [|x l IH]; intros q Hq Hlen; simpl; [by rewrite app_nil_r |].
  destruct (aq_force_law x q Hq) as (Hq1 & Hc & Hl). simpl length in Hlen.
  rewrite (proj2 (Z.ltb_lt (aq_len q) (aq_capacity q))) in Hl by lia.
  pose proof (aq_len_law q Hq) as [E _]. pose proof (aq_len_law _ Hq1) as [E1 _].
  rewrite Hl, length_app in E1. simpl in E1.
  destruct (IH _ Hq1) as (? & -> & ->); [lia |]. rewrite Hl, <- app_assoc. done.
Qed.

Lemma force_all_ok l : forall q, aq_ok q -> aq_ok (force_all l q).
Proof. induction l as [|x l IH]; intros q Hq; simpl; [done |]. by apply IH, aq_force_law. Qed.

Lemma locked_all_inv l : forall k, sched_inv k -> sched_inv (foldl (fun k i => locked_unblock i k) k l).
Proof.
  induction l as [|i l IH]; intros k Hk; simpl; [done |]. apply IH. eapply sched_step_inv; [apply st_unblock | done].
Qed.

Definition known (k : Kernel) (procs : list Z) : Prop :=
  Forall (fun pid => exists a, find_thread k pid = Some a) procs.

Lemma wakeup_spec procs (t : TTY Q) k :
  sched_inv k -> known k procs -> exists k', wakeup_readers procs t k = Ret k' /\ sched_inv k'.
Proof.
  intros Hk Hp. unfold wakeup_readers.
  destruct (sleepers_spec k (waits_stdin (tty_id t)) procs (inv_core _ Hk) Hp) as (l & -> & _). cbn [obind].
  eexists. split; [done |]. by apply locked_all_inv.
Qed.

(** Editing keys change the line and the echo, nothing else. *)
Lemma edit_key_spec procs key (t : TTY Q) k :
  tty_ok t -> editing key ->
  exists t' b, handle_key procs key t k = Ret (t', k, b) /\ tty_ok t' /\
    line_buf t' = edit (line_buf t) key /\ completed_input_queue t' = completed_input_queue t /\
    is_eof t' = is_eof t /\ tty_id t' = tty_id t.
Proof.
  intros [Hq Hv] Hk. destruct key as [c | n]; [| by exists t, false]. destruct Hk as [H10 H4].
  unfold handle_key, edit. rewrite (proj2 (Z.eqb_neq c 10) H10), (proj2 (Z.eqb_neq c 4) H4).
  destruct (c =? 8).
  - unfold vec_pop. destruct (line_buf t) as [|x l] eqn:El; [exists t, false; by rewrite El |].
    unfold tty_write. destruct (write_bytes_ok [8; 32; 8] (terminal t) Hv) as (v & E & Hv').
    change (terminal (set_line _ t)) with (terminal t). rewrite E. cbn [obind].
    eexists _, true. split; [done |]. done.
  - destruct (c =? 3).
    + unfold tty_write. destruct (write_bytes_ok [94; 67] (terminal t) Hv) as (v & E & Hv').
      rewrite E. cbn [obind]. eexists _, true. done.
    + unfold output_byte. change (terminal (input_byte _ t)) with (terminal t).
      destruct (write_byte_spec (wrap_u 8 c) (terminal t) Hv) as [-> Hv']. cbn [obind].
      eexists _, true. done.
Qed.

Lemma edit_keys_spec procs keys : forall (t : TTY Q) k,
  tty_ok t -> Forall editing keys ->
  exists t', handle_keys procs keys t k = Ret (t', k) /\ tty_ok t' /\
    line_buf t' = foldl edit (line_buf t) keys /\ completed_input_queue t' = completed_input_queue t /\
    is_eof t' = is_eof t /\ tty_id t' = tty_id t.
Proof.
  induction keys as [|key keys IH]; intros t k Ht Hk; cbn [handle_keys]; [by exists t |].
  apply Forall_cons in Hk as [Hk Hks].
  destruct (edit_key_spec procs key t k Ht Hk) as (t1 & b & -> & Ht1 & El & Eq & Ee & Ei). cbn [obind].
  destruct (IH t1 k Ht1 Hks) as (t' & E & Ht' & El' & Eq' & Ee' & Ei'). exists t'.
  split; [exact E |]. split; [done |]. simpl. rewrite El', El, Eq', Ee', Ei'. done.
Qed.

Lemma handle_keys_app procs l1 l2 : forall (t : TTY Q) k t1 k1,
  handle_keys procs l1 t k = Ret (t1, k1) ->
  handle_keys procs (l1 ++ l2) t k = handle_keys procs l2 t1 k1.
Proof.
  induction l1 as [|key l1 IH]; intros t k t1 k1 E; cbn [app handle_keys] in *; [by injection E as -> -> |].
  run_inv E. destruct v as [[t0 k0] b]. rewrite E0. cbn [obind]. by apply IH.
Qed.

(** Enter commits the line. *)
Lemma enter_spec procs (t : TTY Q) k :
  tty_ok t -> sched_inv k -> known k procs ->
  Z.of_nat (S (length (line_buf t))) + aq_len (completed_input_queue t) <= aq_capacity (completed_input_queue t) ->
  exists t' k', handle_key procs (Unicode 10) t k = Ret (t', k', true) /\ tty_ok t' /\ sched_inv k' /\
    line_buf t' = [] /\ input_of t' = input_of t ++ line_buf t ++ [10] /\ is_eof t' = is_eof t.
Proof.
  intros [Hq Hv] Hk Hp Hfit. simpl handle_key. unfold output_byte.
  change (terminal (input_byte 10 t)) with (terminal t).
  destruct (write_byte_spec 10 (terminal t) Hv) as [-> Hv']. cbn [obind]. unfold commit_line.
  set (t1 := set_terminal _ (input_byte 10 t)).
  change (line_buf t1) with (line_buf t ++ [10]). change (completed_input_queue t1) with (completed_input_queue t).
  destruct (force_all_spec (line_buf t ++ [10]) (completed_input_queue t) Hq) as (Hq' & Hl & _).
  { rewrite length_app. simpl. lia. }
  set (t2 := set_line [] _). destruct (wakeup_spec procs t2 k Hk Hp) as (k' & -> & Hk'). cbn [obind].
  exists t2, k'. split; [done |]. split; [done |]. split; [done |]. split; [done |]. split; [exact Hl | done].
Qed.

(** ** Properties *)

(** [C30] A typed line is what is read: editing keys (characters, backspaces,
    Ctrl-C, keys with no character) followed by Enter are handled without
    panicking, and the next read with room for it returns exactly the edited
    line and its newline. *)
Theorem typed_line_is_read procs keys t k buf :
  tty_ok t -> sched_inv k -> known k procs -> Forall editing keys ->
  line_buf t = [] -> input_of t = [] ->
  let line := foldl edit [] keys ++ [10] in
  Z.of_nat (length line) <= aq_capacity (completed_input_queue t) -> (length line <= length buf)%nat ->
  exists t1 k1 t2, handle_keys procs (keys ++ [Unicode 10]) t k = Ret (t1, k1) /\
    tty_read_turn t1 k1 buf =
      Ret (t2, k1, line ++ drop (length line) buf, Some (Z.of_nat (length line))) /\
    input_of t2 = [] /\ sched_inv k1.
Proof.
  intros Ht Hk Hp Hkeys Hl0 Hq0 line Hfit Hbuf.
  destruct (edit_keys_spec procs keys t k Ht Hkeys) as (t' & E & Ht' & El & Eq & _ & _).
  rewrite Hl0 in El. assert (Hlen : length line = S (length (line_buf t'))).
  { unfold line. rewrite length_app, El. simpl. lia. }
  destruct Ht as [Hqt Hvt]. destruct (aq_len_law _ Hqt) as [Hlq _]. unfold input_of in Hq0.
  rewrite Hq0 in Hlq. simpl in Hlq.
  destruct (enter_spec procs t' k Ht' Hk Hp) as (t1 & k1 & E1 & Ht1 & Hk1 & _ & Hin & _).
  { rewrite Eq, Hlq. lia. }
  exists t1, k1. unfold input_of in Hin. rewrite Eq, Hq0, El in Hin. simpl app in Hin. fold line in Hin.
  assert (Ek : handle_keys procs (keys ++ [Unicode 10]) t k = Ret (t1, k1)).
  { rewrite (handle_keys_app _ _ _ _ _ _ _ E). cbn [handle_keys]. by rewrite E1. }
  destruct Ht1 as [Hq1 _]. unfold tty_read_turn. rewrite aq_empty_law, Hin by done.
  rewrite bool_decide_eq_false_2 by (unfold line; by destruct (foldl edit [] keys)). cbn [negb].
  destruct (drain_spec (completed_input_queue t1) buf Hq1) as (q & Ed & Hq' & _ & Hl'). rewrite Ed, Hin in *.
  cbn [obind]. rewrite Nat.min_r in * by lia. rewrite firstn_all in *.
  eexists. split; [exact Ek |]. split; [done |]. split; [| done].
  unfold input_of. simpl. rewrite Hl'. apply drop_ge. lia.
Qed.

(** End of file: Ctrl-D on an empty line makes the next read of an empty
    terminal return 0, once. *)
Theorem ctrl_d_is_eof procs t k buf :
  tty_ok t -> line_buf t = [] -> input_of t = [] ->
  exists t1 t2, handle_key procs (Unicode 4) t k = Ret (t1, k, false) /\
    tty_read_turn t1 k buf = Ret (t2, k, buf, Some 0) /\ is_eof t2 = false /\ input_of t2 = [].
Proof.
  intros [Hq _] Hl Hi. simpl handle_key. rewrite Hl. eexists _, _. split; [done |].
  unfold tty_read_turn. change (completed_input_queue (set_eof true t)) with (completed_input_queue t).
  rewrite aq_empty_law by done. unfold input_of in Hi. rewrite Hi. done.
Qed.
End TtyProps.

(** ** Witnesses: "ac", backspace, "b", Enter *)
Module TtyWitness.
Import ListQueue SchedWitness PipeWitness.
Definition tty1 : TTY (Z * list Z) := tty_new 1.
Definition keys1 : list DecodedKey := [Unicode 97; Unicode 99; Unicode 8; Unicode 98].

Lemma tty1_ok : tty_ok tty1.
Proof.
  split; [vm_compute; intuition congruence |]. split; try done.
  apply Forall_replicate. done.
Qed.

Lemma typed_line_is_read_witness :
  exists t1 k1 t2, handle_keys [65536] (keys1 ++ [Unicode 10]) tty1 k_sleep = Ret (t1, k1) /\
    tty_read_turn t1 k1 [0; 0; 0; 0] = Ret (t2, k1, [97; 98; 10; 0], Some 3) /\
    input_of t2 = [] /\ sched_inv k1.
Proof.
  apply (typed_line_is_read [65536] keys1 tty1 k_sleep [0; 0; 0; 0]);
    [apply tty1_ok | apply k_sleep_inv | apply k_sleep_procs | | done | done | vm_compute; congruence | simpl; lia].
  repeat constructor; done.
Defined.

Lemma ctrl_d_is_eof_witness :
  exists t1 t2, handle_key [65536] (Unicode 4) tty1 k_sleep = Ret (t1, k_sleep, false) /\
    tty_read_turn t1 k_sleep [0] = Ret (t2, k_sleep, [0], Some 0) /\ is_eof t2 = false /\ input_of t2 = [].
Proof. apply (ctrl_d_is_eof [65536] tty1 k_sleep [0]); [apply tty1_ok | done | done]. Defined.
End TtyWitness.
