(* ===== verification/Random.v ===== *)
(** * Random numbers

    [kernel/src/random.rs]: the entropy pool and the generator, and the devices
    of [kernel/src/fs/vfs/devfs.rs] that read and feed it.  The time stamp
    counter and the seed instruction are inputs. *)
From S2P Require Import Prelude.

(** [a ^= b << n] and [a ^= b >> n] on 64 bits. *)
Definition shl64 (x n : Z) : Z := wrap_u 64 (Z.shiftl x n).
Definition xorshl (x n : Z) : Z := Z.lxor x (shl64 x n).
Definition xorshr (x n : Z) : Z := Z.lxor x (Z.shiftr x n).

(** [EntropyPool] *)
Definition mix_entropy_pool (pool x : Z) : Z :=
  let p := Z.lxor pool x in
  let p := xorshl p 13 in
  let p := xorshr p 7 in
  xorshl p 17.

Record RandomGenerator := { s0 : Z; s1 : Z }.

Definition seed (pool : Z) : RandomGenerator :=
  {| s0 := pool; s1 := Z.lxor pool 11400714819323198485 |}.

Definition reseed (pool : Z) (g : RandomGenerator) : RandomGenerator :=
  {| s0 := Z.lxor (s0 g) pool; s1 := Z.lxor (s1 g) (shl64 pool 1) |}.

Definition rng_next (g : RandomGenerator) : RandomGenerator * Z :=
  let x := s0 g in
  let y := s1 g in
  let x := xorshl x 23 in
  let x := xorshr x 18 in
  let x := Z.lxor x y in
  let x := Z.lxor x (Z.shiftr y 5) in
  ({| s0 := y; s1 := x |}, wrap_u 64 (x + y)).

(** [init_rand]: three readings of the counter, and the hardware seed if there
    is one. *)
Definition init_rand (t0 t1 t2 : Z) (hw_seed : option Z) : RandomGenerator :=
  let pool := mix_entropy_pool (mix_entropy_pool t0 t1) t2 in
  let pool := match hw_seed with Some s => mix_entropy_pool pool s | None => pool end in
  seed pool.

(** [RAND_GEN] is empty until [init_rand]. *)
Definition mix_entropy_with (val : Z) (g : option RandomGenerator) : option RandomGenerator := reseed val <$> g.

Definition get_random_number (g : option RandomGenerator) : outcome (option RandomGenerator * Z) :=
  let! r := unwrap g in
  let '(r, x) := rng_next r in
  Ret (Some r, x).

Definition get_rand_range (min max : Z) (g : option RandomGenerator) : outcome (option RandomGenerator * Z) :=
  let! '(g, x) := get_random_number g in
  let! d := sub_u max min in
  let! n := chk_u 64 (d + 1) in
  let! r := chk_u 64 (min + x mod n) in
  Ret (g, r).

(** ** Devices *)

(** [/dev/zero] and [/dev/null] *)
Definition zero_read (buffer : list Z) : list Z * Z := (replicate (length buffer) 0, Z.of_nat (length buffer)).
Definition zero_write (buffer : list Z) : Z := Z.of_nat (length buffer).
Definition null_read (buffer : list Z) : list Z * Z := (buffer, 0).
Definition null_write (buffer : list Z) : Z := Z.of_nat (length buffer).

(** [/dev/urandom] *)
Fixpoint urandom_fill (n : nat) (g : option RandomGenerator) : outcome (option RandomGenerator * list Z) :=
  match n with
  | O => Ret (g, [])
  | S n => let! '(g, x) := get_rand_range 0 255 g in
           let! '(g, l) := urandom_fill n g in
           Ret (g, wrap_u 8 x :: l)
  end.
Definition urandom_read (buffer : list Z) (g : option RandomGenerator)
  : outcome (option RandomGenerator * list Z * Z) :=
  let! '(g, l) := urandom_fill (length buffer) g in
  Ret (g, l, Z.of_nat (length buffer)).

(** Big-endian words of the buffer, the last one padded with zeros. *)
Fixpoint be_words (fuel : nat) (l : list Z) : list Z :=
  match fuel, l with
  | S fuel, _ :: _ => le_num (rev (take 8 (l ++ replicate 7 0))) :: be_words fuel (drop 8 l)
  | _, _ => []
  end.
Definition urandom_write (buffer : list Z) (g : option RandomGenerator) : option RandomGenerator * Z :=
  (foldl (fun g w => mix_entropy_with w g) g (be_words (length buffer) buffer), Z.of_nat (length buffer)).

(** ** Lemmas *)
Definition u64 (z : Z) : Prop := 0 <= z < 2 ^ 64.
Definition rng_ok (g : RandomGenerator) : Prop := u64 (s0 g) /\ u64 (s1 g).

Lemma u64_bits x y : u64 x -> u64 y -> (forall i, 0 <= i < 64 -> Z.testbit x i = Z.testbit y i) -> x = y.
Proof.
  intros Hx Hy H. apply Z.bits_inj'. intros i Hi. destruct (Z.lt_ge_cases i 64); [by apply H; lia |].
  rewrite !(testbit_high _ 64) by (try lia; done). done.
Qed.

Lemma u64_of_bits z : 0 <= z -> (forall i, 64 <= i -> Z.testbit z i = false) -> u64 z.
Proof.
  intros Hz H. assert (z = z mod 2 ^ 64) as ->; [| apply Z.mod_pos_bound; lia].
  apply Z.bits_inj'. intros i Hi. destruct (Z.lt_ge_cases i 64).
  - by rewrite Z.mod_pow2_bits_low by lia.
  - by rewrite Z.mod_pow2_bits_high, H by lia.
Qed.

Lemma u64_lxor x y : u64 x -> u64 y -> u64 (Z.lxor x y).
Proof.
  intros Hx Hy. apply u64_of_bits; [apply Z.lxor_nonneg; unfold u64 in *; lia |]. intros i Hi.
  rewrite Z.lxor_spec, !(testbit_high _ 64) by (try lia; done). done.
Qed.

Lemma u64_shiftr x n : u64 x -> 0 <= n -> u64 (Z.shiftr x n).
Proof.
  intros Hx Hn. apply u64_of_bits; [apply Z.shiftr_nonneg; unfold u64 in *; lia |]. intros i Hi.
  rewrite Z.shiftr_spec, (testbit_high _ 64) by (try lia; done). done.
Qed.

Lemma shl64_u64 x n : u64 (shl64 x n).
Proof. apply wrap_u_range. lia. Qed.

Lemma xorshl_bit x n i : 0 <= i < 64 -> Z.testbit (xorshl x n) i = xorb (Z.testbit x i) (Z.testbit x (i - n)).
Proof.
  intros Hi. unfold xorshl, shl64, wrap_u.
  rewrite Z.lxor_spec, Z.mod_pow2_bits_low, Z.shiftl_spec by lia. done.
Qed.

Lemma xorshr_bit x n i : 0 <= i -> Z.testbit (xorshr x n) i = xorb (Z.testbit x i) (Z.testbit x (i + n)).
Proof. intros Hi. unfold xorshr. by rewrite Z.lxor_spec, Z.shiftr_spec by lia. Qed.

Lemma xorb_cancel_r a b c : xorb a c = xorb b c -> a = b.
Proof. by destruct a, b, c. Qed.

(** Shifting left and xoring loses nothing: each bit is fixed by lower ones. *)
Lemma xorshl_inj x y n : 0 < n -> u64 x -> u64 y -> xorshl x n = xorshl y n -> x = y.
Proof.
  intros Hn Hx Hy E. apply u64_bits; [done | done |].
  assert (H : forall m, forall i, 0 <= i < 64 -> i < Z.of_nat m -> Z.testbit x i = Z.testbit y i).
  { induction m as [|m IH]; intros i Hi Hm; [lia |].
    apply (f_equal (fun z => Z.testbit z i)) in E. rewrite !xorshl_bit in E by lia.
    destruct (Z.lt_ge_cases i n) as [Hlt | Hge].
    - rewrite !(Z.testbit_neg_r _ (i - n)) in E by lia. by apply xorb_cancel_r in E.
    - rewrite (IH (i - n)) in E by lia. by apply xorb_cancel_r in E. }
  intros i Hi. apply (H 64%nat); lia.
Qed.

Lemma xorshr_inj x y n : 0 < n -> u64 x -> u64 y -> xorshr x n = xorshr y n -> x = y.
Proof.
  intros Hn Hx Hy E. apply u64_bits; [done | done |].
  assert (H : forall m, forall i, 0 <= i < 64 -> 64 - i <= Z.of_nat m -> Z.testbit x i = Z.testbit y i).
  { induction m as [|m IH]; intros i Hi Hm; [lia |].
    apply (f_equal (fun z => Z.testbit z i)) in E. rewrite !xorshr_bit in E by lia.
    destruct (Z.lt_ge_cases (i + n) 64) as [Hlt | Hge].
    - rewrite (IH (i + n)) in E by lia. by apply xorb_cancel_r in E.
    - rewrite !(testbit_high _ 64 (i + n)) in E by (try lia; done). by apply xorb_cancel_r in E. }
  intros i Hi. apply (H 64%nat); lia.
Qed.

Lemma lxor_cancel_r a b c : Z.lxor a c = Z.lxor b c -> a = b.
Proof.
  intros E. apply (f_equal (fun z => Z.lxor z c)) in E.
  by rewrite !Z.lxor_assoc, Z.lxor_nilpotent, !Z.lxor_0_r in E.
Qed.

Lemma rng_next_ok g : rng_ok g -> rng_ok (rng_next g).1 /\ u64 (rng_next g).2.
Proof.
  intros [H0 H1]. split; [split; [done |] | apply wrap_u_range; lia]. simpl.
  assert (u64 (xorshl (s0 g) 23)) by (apply u64_lxor; [done | apply shl64_u64]).
  apply u64_lxor; [apply u64_lxor; [| done] | by apply u64_shiftr].
  apply u64_lxor; [done | by apply u64_shiftr].
Qed.

Lemma rng_next_inj g h : rng_ok g -> rng_ok h -> (rng_next g).1 = (rng_next h).1 -> g = h.
Proof.
  intros [G0 G1] [H0 H1] E. destruct g as [a b], h as [c d]. simpl in *. injection E as -> E.
  apply lxor_cancel_r, lxor_cancel_r in E.
  assert (Hu : forall z, u64 z -> u64 (xorshl z 23)) by (intros z Hz; apply u64_lxor; [done | apply shl64_u64]).
  apply xorshr_inj in E; [| lia | by apply Hu | by apply Hu].
  apply xorshl_inj in E; [| lia | done | done]. by subst.
Qed.

(** The generator [n] steps on. *)
Fixpoint rng_steps (n : nat) (g : RandomGenerator) : RandomGenerator :=
  match n with O => g | S n => rng_steps n (rng_next g).1 end.

(** ** Properties *)

(** The generator never collapses: on 64-bit states one step loses no
    information, so two different states never lead to the same one. *)
Theorem rng_step_injective g h :
  rng_ok g -> rng_ok h -> (rng_next g).1 = (rng_next h).1 -> g = h.
Proof. apply rng_next_inj. Qed.

(** A seeded generator never reaches the state (0, 0), from which it would
    produce zeros for ever: the seed is not that state and no step leads to it. *)
Theorem rng_never_zero n pool :
  u64 pool -> rng_steps n (seed pool) <> {| s0 := 0; s1 := 0 |}.
Proof.
  intros Hp. assert (Hs : rng_ok (seed pool)).
  { split; [done |]. apply u64_lxor; [done |]. unfold u64. lia. }
  assert (H0 : seed pool <> {| s0 := 0; s1 := 0 |}).
  { unfold seed. intros [= -> E]. done. }
  revert Hs H0. generalize (seed pool). induction n as [|n IH]; intros g Hg H0; [done |]. cbn [rng_steps].
  apply IH; [by apply rng_next_ok |]. intros E. apply H0. apply rng_next_inj; [done | | by rewrite E].
  unfold rng_ok, u64. simpl. lia.
Qed.

(** [get_rand_range] returns a number between its bounds whenever the range
    does not span all of [u64]. *)
Theorem rand_range_in_bounds min max g :
  rng_ok g -> 0 <= min <= max -> max < 2 ^ 64 -> max - min + 1 < 2 ^ 64 ->
  exists g' r, get_rand_range min max (Some g) = Ret (Some g', r) /\ min <= r <= max /\ rng_ok g'.
Proof.
  intros Hg Hm Hmax Hspan. destruct (rng_next_ok g Hg) as [Hg' Hx].
  unfold get_rand_range, get_random_number. cbn [unwrap obind].
  destruct (rng_next g) as [g' x]. simpl in Hg', Hx. cbn [obind].
  rewrite sub_u_ret by lia. cbn [obind]. rewrite chk_u_ret by lia. cbn [obind].
  assert (0 <= x mod (max - min + 1) < max - min + 1) by (apply Z.mod_pos_bound; lia).
  rewrite chk_u_ret by lia. cbn [obind]. exists g', (min + x mod (max - min + 1)).
  split; [done |]. split; [lia | done].
Qed.

Definition gen1 : RandomGenerator := {| s0 := 1; s1 := 2 |}.
Lemma gen1_ok : rng_ok gen1.
Proof. unfold rng_ok, u64. simpl. lia. Qed.

Lemma rng_step_injective_witness : gen1 = gen1.
Proof. apply (rng_step_injective gen1 gen1 gen1_ok gen1_ok). reflexivity. Defined.

Lemma rng_never_zero_witness : rng_steps 3 (seed 5) <> {| s0 := 0; s1 := 0 |}.
Proof. apply (rng_never_zero 3 5). unfold u64. lia. Defined.

Lemma rand_range_in_bounds_witness :
  exists g' r, get_rand_range 10 20 (Some gen1) = Ret (Some g', r) /\ 10 <= r <= 20 /\ rng_ok g'.
Proof. apply (rand_range_in_bounds 10 20 gen1 gen1_ok); lia. Defined.
