(* ===== verification/Ports.v ===== *)
(** * Port input and output

    The x86 [in] and [out] instructions, through which the drivers see their
    hardware.  Reading a port may change the device. *)
From S2P Require Import Prelude.

Class PortIo (P : Type) := {
  inb : Z -> P -> Z * P;
  outb : Z -> Z -> P -> P;
  inw : Z -> P -> Z * P;
  outw : Z -> Z -> P -> P
}.
