(* ===== verification/Interrupts.v ===== *)
(** * Segments, interrupts and the timer chip

    [kernel/src/mem/gdt.rs], the table of [kernel/src/interrupts.rs] with its
    exception handlers, [init] of [lib.rs] and [driver/pit.rs].  The descriptor
    tables ([x86_64]) and the interrupt controllers ([pic8259]) are interfaces
    with laws; the handlers of the devices are modelled with their drivers. *)
From S2P Require Import Prelude Ports Paging Slab Lock Thread Proc.

(** ** Segments *)
Inductive Descriptor := kernel_code_segment | kernel_data_segment | tss_segment | user_code_segment | user_data_segment.

(** [GlobalDescriptorTable::add_entry]: the selector, and the table. *)
Class GdtApi (G : Type) := { gdt_new : G; add_entry : Descriptor -> G -> Z * G }.

Record Selectors := {
  code_selector : Z; data_selector : Z; tss_selector : Z; user_code_selector : Z; user_data_selector : Z
}.
Record SegmentRegisters := { CS : Z; SS : Z; DS : Z; ES : Z; TR : Z }.

Definition DOUBLE_FAULT_IST_INDEX : Z := 0.

Section Gdt.
Context {G : Type} {GA : GdtApi G}.
Definition GDT : G * Selectors :=
  let gdt := gdt_new in
  let '(code_selector, gdt) := add_entry kernel_code_segment gdt in
  let '(data_selector, gdt) := add_entry kernel_data_segment gdt in
  let '(tss_selector, gdt) := add_entry tss_segment gdt in
  let '(user_code_selector, gdt) := add_entry user_code_segment gdt in
  let '(user_data_selector, gdt) := add_entry user_data_segment gdt in
  (gdt, {| code_selector := code_selector; data_selector := data_selector; tss_selector := tss_selector;
           user_code_selector := user_code_selector; user_data_selector := user_data_selector |}).

(** [gdt::init]: the registers after it. *)
Definition gdt_init : SegmentRegisters :=
  let sel := snd GDT in
  {| CS := code_selector sel; SS := data_selector sel; DS := data_selector sel; ES := data_selector sel;
     TR := tss_selector sel |}.
End Gdt.

(** Entry 0 is the null descriptor; a task state segment takes two entries; a
    selector holds the index and the privilege level of its segment. *)
Definition ring (d : Descriptor) : Z := match d with user_code_segment | user_data_segment => 3 | _ => 0 end.
Definition entries (d : Descriptor) : Z := match d with tss_segment => 2 | _ => 1 end.

Class GdtLaws (G : Type) (GA : GdtApi G) := {
  gdt_used : G -> Z;
  gdt_new_used : gdt_used gdt_new = 1;
  add_entry_law d g : gdt_used g + entries d <= 8 ->
    fst (add_entry d g) = 8 * gdt_used g + ring d /\ gdt_used (snd (add_entry d g)) = gdt_used g + entries d
}.

Section GdtProofs.
Context {G : Type} {GA : GdtApi G} {GL : GdtLaws G GA}.

Lemma gdt_selectors : snd GDT =
  {| code_selector := 8; data_selector := 16; tss_selector := 24; user_code_selector := 43; user_data_selector := 51 |}.
Proof.
  unfold GDT. pose proof gdt_new_used as H0.
  destruct (add_entry_law kernel_code_segment gdt_new) as [E1 U1]; [simpl; lia |]. destruct (add_entry kernel_code_segment gdt_new) as [s1 g1]. simpl in E1, U1.
  destruct (add_entry_law kernel_data_segment g1) as [E2 U2]; [simpl; lia |]. destruct (add_entry kernel_data_segment g1) as [s2 g2]. simpl in E2, U2.
  destruct (add_entry_law tss_segment g2) as [E3 U3]; [simpl; lia |]. destruct (add_entry tss_segment g2) as [s3 g3]. simpl in E3, U3.
  destruct (add_entry_law user_code_segment g3) as [E4 U4]; [simpl; lia |]. destruct (add_entry user_code_segment g3) as [s4 g4]. simpl in E4, U4.
  destruct (add_entry_law user_data_segment g4) as [E5 U5]; [simpl; lia |]. destruct (add_entry user_data_segment g4) as [s5 g5]. simpl in E5, U5.
  simpl. f_equal; lia.
Qed.

(** The selectors that [user_process_hook] has as constants are those of the
    table, so a program starts with the same segments whether it was spawned
    or executed. *)
Theorem user_segments_agree (cfg : Config) (r : Resumed) rip rsp :
  Proc.user_code_selector cfg = user_code_selector (snd GDT) -> Proc.user_data_selector cfg = user_data_selector (snd GDT) ->
  user_process_hook r = [rs_r13 r; tf_cs (exec_frame cfg rip rsp); tf_rflags (exec_frame cfg rip rsp); rs_r14 r; tf_ss (exec_frame cfg rip rsp)].
Proof. intros E1 E2. unfold exec_frame. cbn [tf_cs tf_rflags tf_ss]. rewrite E1, E2, gdt_selectors. reflexivity. Qed.
End GdtProofs.

(** ** The interrupt table *)
Inductive InterruptIndex := Timer | Keyboard | PS2 | HdaAudio.
Definition PIC_1_OFFSET : Z := 32.
Definition PIC_2_OFFSET : Z := PIC_1_OFFSET + 8.
Definition as_u8 (i : InterruptIndex) : Z :=
  match i with
  | Timer => PIC_1_OFFSET
  | Keyboard => PIC_1_OFFSET + 1
  | PS2 => PIC_1_OFFSET + 12
  | HdaAudio => PIC_1_OFFSET + 11
  end.

Inductive Handler :=
| breakpoint_handler | double_fault_handler | page_fault_handler | gpf_handler
| timer_interrupt_handler | keyboard_interrupt_handler | mouse_interrupt_handler | hda_interrupt_handler
| syscall_entry.

#[global] Instance Handler_eq : EqDecision Handler.
Proof. solve_decision. Defined.

Record Gate := { handler : Handler; privilege : Z; stack_index : option Z }.

(** [InterruptDescriptorTable]: an entry per vector; [set_handler] is
    [set_handler_fn] and [set_handler_addr]. *)
Class IdtApi (T : Type) := {
  idt_new : T;
  set_handler : Z -> Handler -> T -> T;
  set_stack_index : Z -> Z -> T -> T;
  set_privilege_level : Z -> Z -> T -> T
}.

(** The fields of the table are the vectors of the architecture. *)
Definition breakpoint_vector : Z := 3.
Definition double_fault_vector : Z := 8.
Definition general_protection_fault_vector : Z := 13.
Definition page_fault_vector : Z := 14.

Section Idt.
Context {T : Type} {IA : IdtApi T}.
Definition IDT : T :=
  let idt := idt_new in
  let idt := set_handler breakpoint_vector breakpoint_handler idt in
  let idt := set_stack_index double_fault_vector DOUBLE_FAULT_IST_INDEX (set_handler double_fault_vector double_fault_handler idt) in
  let idt := set_handler (as_u8 Timer) timer_interrupt_handler idt in
  let idt := set_handler (as_u8 Keyboard) keyboard_interrupt_handler idt in
  let idt := set_handler page_fault_vector page_fault_handler idt in
  let idt := set_handler general_protection_fault_vector gpf_handler idt in
  let idt := set_handler (as_u8 PS2) mouse_interrupt_handler idt in
  let idt := set_handler (as_u8 HdaAudio) hda_interrupt_handler idt in
  let idt := set_privilege_level 0x80 3 (set_handler 0x80 syscall_entry idt) in
  idt.
End Idt.

(** Handlers that do not come back: [panic!], and [hlt_loop] with interrupts off. *)
Definition stops (h : Handler) : bool :=
  match h with double_fault_handler | page_fault_handler | gpf_handler => true | _ => false end.

(** The vector a handler passes to [notify_end_of_interrupt]. *)
Definition acknowledges (h : Handler) : option Z :=
  match h with
  | timer_interrupt_handler => Some (as_u8 Timer)
  | hda_interrupt_handler => Some (as_u8 HdaAudio)
  | mouse_interrupt_handler => Some (as_u8 PS2)
  | keyboard_interrupt_handler => Some (as_u8 Keyboard)
  | _ => None
  end.

Class IdtLaws (T : Type) (IA : IdtApi T) := {
  gate : T -> Z -> option Gate;
  gate_new v : gate idt_new v = None;
  gate_set_handler v h t v' : gate (set_handler v h t) v' =
    if v' =? v then Some {| handler := h; privilege := 0; stack_index := None |} else gate t v';
  gate_set_stack v i t v' : gate (set_stack_index v i t) v' =
    if v' =? v then (fun g => {| handler := handler g; privilege := privilege g; stack_index := Some i |}) <$> gate t v else gate t v';
  gate_set_privilege v p t v' : gate (set_privilege_level v p t) v' =
    if v' =? v then (fun g => {| handler := handler g; privilege := p; stack_index := stack_index g |}) <$> gate t v else gate t v'
}.

Section Dispatch.
Context {T : Type} {IA : IdtApi T} {IL : IdtLaws T IA}.

(** What the processor does with vector [v] at privilege level [cpl], after the
    manual's description of [INT n] and of interrupts.  An entry of the table
    that was never set is the crate's [Entry::missing]: an interrupt gate of
    privilege 0 that is not present.  An [int] instruction needs the privilege
    of the gate and raises the general protection fault without it, which is
    tested first; a gate that is not present raises the segment-not-present
    fault. *)
Inductive Fault := GeneralProtection | NotPresent.
Definition fault_vector (f : Fault) : Z := match f with GeneralProtection => general_protection_fault_vector | NotPresent => 11 end.
Definition enter (t : T) (cpl : Z) (software : bool) (v : Z) : Gate + Fault :=
  match gate t v with
  | Some g => if software && (privilege g <? cpl) then inr GeneralProtection else inl g
  | None => if software && (0 <? cpl) then inr GeneralProtection else inr NotPresent
  end.
(** The fault is delivered in turn; both faults are contributory, so a fault
    on the way to its handler is a double fault, and one on the way to that
    resets the machine. *)
Definition dispatch (t : T) (cpl : Z) (software : bool) (v : Z) : option Gate :=
  match enter t cpl software v with
  | inl g => Some g
  | inr f =>
      match enter t cpl false (fault_vector f) with
      | inl g => Some g
      | inr _ => match enter t cpl false double_fault_vector with inl g => Some g | inr _ => None end
      end
  end.

Definition expected (v : Z) : option Gate :=
  let plain h := Some {| handler := h; privilege := 0; stack_index := None |} in
  if v =? 3 then plain breakpoint_handler else
  if v =? 8 then Some {| handler := double_fault_handler; privilege := 0; stack_index := Some 0 |} else
  if v =? 13 then plain gpf_handler else
  if v =? 14 then plain page_fault_handler else
  if v =? 32 then plain timer_interrupt_handler else
  if v =? 33 then plain keyboard_interrupt_handler else
  if v =? 43 then plain hda_interrupt_handler else
  if v =? 44 then plain mouse_interrupt_handler else
  if v =? 128 then Some {| handler := syscall_entry; privilege := 3; stack_index := None |} else None.

Lemma gate_IDT v : gate IDT v = expected v.
Proof.
  unfold IDT. rewrite gate_set_privilege, !gate_set_handler, !gate_set_stack, !gate_set_handler, !gate_new. unfold expected, as_u8, PIC_1_OFFSET,
    breakpoint_vector, double_fault_vector, general_protection_fault_vector, page_fault_vector.
  repeat match goal with |- context [v =? ?n] => destruct (Z.eqb_spec v n); [first [lia | subst v; reflexivity] |] end. reflexivity.
Qed.

Definition handled (t : T) (cpl : Z) (software : bool) (v : Z) : option Handler := handler <$> dispatch t cpl software v.

Lemma handled_expected cpl software v : handled IDT cpl software v =
  Some match expected v with
  | Some g => if software && (privilege g <? cpl) then gpf_handler else handler g
  | None => if software && (0 <? cpl) then gpf_handler else double_fault_handler
  end.
Proof.
  unfold handled, dispatch, enter. rewrite !gate_IDT. destruct (expected v) as [g|].
  - destruct (software && (privilege g <? cpl)); [rewrite gate_IDT |]; reflexivity.
  - destruct (software && (0 <? cpl)); rewrite gate_IDT; reflexivity.
Qed.

(** [C12] A program enters the kernel through one door: of the 256 vectors, an
    [int] instruction in user mode reaches [syscall_entry] at 0x80 and the
    general protection fault at every other; no device's handler can be called.
    The timer, the keyboard, the mouse and the sound controller get their own
    handlers at every privilege level, each of which acknowledges the vector
    it was entered by; every other line of the interrupt controllers has no
    gate and ends in the double fault handler; every exception other than a
    breakpoint ends in a handler that stops the machine; the double fault
    handler has a stack of its own. *)
Theorem interrupt_dispatch :
  (forall v, 0 <= v < 256 -> handled IDT 3 true v = Some (if v =? 0x80 then syscall_entry else gpf_handler)) /\
  (forall i cpl, exists h, handled IDT cpl false (as_u8 i) = Some h /\ stops h = false /\ acknowledges h = Some (as_u8 i)) /\
  (forall n cpl, 0 <= n < 16 -> n ∉ [0; 1; 11; 12] -> handled IDT cpl false (PIC_1_OFFSET + n) = Some double_fault_handler) /\
  (forall v cpl, 0 <= v < 32 -> v <> breakpoint_vector -> exists h, handled IDT cpl false v = Some h /\ stops h = true) /\
  (gate IDT double_fault_vector ≫= stack_index) = Some DOUBLE_FAULT_IST_INDEX.
Proof.
  split; [| split; [| split; [| split]]].
  - intros v Hv. rewrite handled_expected. unfold expected.
    repeat match goal with |- context [v =? ?n] => destruct (Z.eqb_spec v n); [subst v; reflexivity |] end. reflexivity.
  - intros i cpl. rewrite handled_expected. destruct i; eexists; (split; [reflexivity |]); done.
  - intros n cpl Hn Hni. rewrite !not_elem_of_cons in Hni. rewrite handled_expected. unfold expected, PIC_1_OFFSET.
    repeat match goal with |- context [?x =? ?y] => destruct (Z.eqb_spec x y); [lia |] end. done.
  - intros v cpl Hv Hb. unfold breakpoint_vector in Hb. rewrite handled_expected. unfold expected.
    repeat match goal with |- context [v =? ?y] => destruct (Z.eqb_spec v y); [first [lia | eexists; split; [reflexivity | done]] |] end.
    eexists. split; [reflexivity | done].
  - rewrite gate_IDT. reflexivity.
Qed.
End Dispatch.

(** ** The interrupt controllers *)

(** [ChainedPics] of the [pic8259] crate. *)
Class PicApi (P : Type) := {
  pic_initialize : P -> P;
  read_masks : P -> Z * Z;
  write_masks : Z -> Z -> P -> P;
  notify_end_of_interrupt : Z -> P -> P
}.

(** [initialize] keeps the masks; a line is in service from the moment the
    processor takes its vector until it is acknowledged. *)
Class PicLaws (P : Type) (PI : PicApi P) := {
  in_service : P -> Z -> bool;
  take_vector : Z -> P -> P;
  masks_kept p : read_masks (pic_initialize p) = read_masks p;
  masks_written a b p : read_masks (write_masks a b p) = (a, b);
  taken_in_service v p n : 32 <= v < 48 -> in_service (take_vector v p) n = (n =? v) || in_service p n;
  acknowledged v p n : 32 <= v < 48 -> in_service (notify_end_of_interrupt v p) n = negb (n =? v) && in_service p n
}.

Section Pic.
Context {P : Type} {PI : PicApi P}.

(** The block of [init] that unmasks line 11, on the second controller. *)
Definition init_pics (pics : P) : P :=
  let pics := pic_initialize pics in
  let '(m0, m1) := read_masks pics in
  let m1 := Z.land m1 (255 - 2 ^ 3) in
  write_masks m0 m1 pics.

(** The part of a device's handler that the controllers see. *)
Definition serviced (h : Handler) (pics : P) : P :=
  match acknowledges h with Some v => notify_end_of_interrupt v pics | None => pics end.
End Pic.

Section PicProofs.
Context {P : Type} {PI : PicApi P} {PLw : PicLaws P PI} {T : Type} {IA : IdtApi T} {IL : IdtLaws T IA}.

(** Line 11 is unmasked, the others are left as they were. *)
Lemma init_pics_masks pics n : 0 <= n < 8 ->
  fst (read_masks (init_pics pics)) = fst (read_masks pics) /\
  Z.testbit (snd (read_masks (init_pics pics))) n = negb (n =? 3) && Z.testbit (snd (read_masks pics)) n.
Proof.
  intros Hn. unfold init_pics. pose proof (masks_kept pics) as Hk. destruct (read_masks (pic_initialize pics)) as [m0 m1].
  rewrite masks_written, <- Hk. split; [done |]. cbn [snd]. rewrite Z.land_spec, andb_comm. f_equal.
  assert (n = 0 \/ n = 1 \/ n = 2 \/ n = 3 \/ n = 4 \/ n = 5 \/ n = 6 \/ n = 7) as Hc by lia.
  by repeat (destruct Hc as [-> | Hc]; [reflexivity |]); subst.
Qed.

(** An interrupt leaves its line free: after the handler the controllers are
    as they were before it, so the next one is delivered. *)
Theorem interrupt_line_freed i cpl pics h :
  handled IDT cpl false (as_u8 i) = Some h -> in_service pics (as_u8 i) = false ->
  forall n, in_service (serviced h (take_vector (as_u8 i) pics)) n = in_service pics n.
Proof.
  intros Hh Hs n. assert (Ha : acknowledges h = Some (as_u8 i)).
  { rewrite handled_expected in Hh. by destruct i; injection Hh as <-. }
  unfold serviced. rewrite Ha. assert (32 <= as_u8 i < 48) by (by destruct i).
  rewrite acknowledged, taken_in_service by done. destruct (Z.eqb_spec n (as_u8 i)) as [-> | _]; [by rewrite Hs | done].
Qed.
End PicProofs.

(** ** The timer chip *)
Definition INTERNAL_CLOCK_FREQ : Z := 1193182.
Definition DESIRED_FREQUENCY : Z := 1000.
Definition CONTROL_PORT : Z := 0x43.
Definition CHANNEL_0_PORT : Z := 0x40.

Section Pit.
Context {P : Type} {IO : PortIo P}.
Definition init_pit (p : P) : P :=
  let settings_byte := 54 in
  let p := outb CONTROL_PORT settings_byte p in
  let divisor := wrap_u 16 (INTERNAL_CLOCK_FREQ / DESIRED_FREQUENCY) in
  let p := outb CHANNEL_0_PORT (wrap_u 8 divisor) p in
  outb CHANNEL_0_PORT (wrap_u 8 (Z.shiftr divisor 8)) p.
End Pit.

(** Channel 0 in mode 3 takes its period, low byte first. *)
Class PitLaws (P : Type) (IO : PortIo P) := {
  period : P -> Z;
  period_written lo hi p : is_byte lo -> is_byte hi ->
    period (outb 0x40 hi (outb 0x40 lo (outb 0x43 54 p))) = lo + 256 * hi
}.

Section PitProofs.
Context {P : Type} {IO : PortIo P} {TL : PitLaws P IO}.

(** A tick is 1193 periods of the chip's clock, 152 to 153 nanoseconds short
    of the millisecond that the kernel counts for it. *)
Theorem tick_length p :
  period (init_pit p) = 1193 /\
  152 * INTERNAL_CLOCK_FREQ <= TIME_BETWEEN_TICKS * INTERNAL_CLOCK_FREQ - period (init_pit p) * 1000000000 <= 153 * INTERNAL_CLOCK_FREQ.
Proof.
  assert (E : period (init_pit p) = 1193).
  { unfold init_pit. change (wrap_u 16 (INTERNAL_CLOCK_FREQ / DESIRED_FREQUENCY)) with 1193.
    unfold CONTROL_PORT, CHANNEL_0_PORT. rewrite period_written; [reflexivity | by split | by split]. }
  rewrite E. split; [done |]. vm_compute. split; discriminate.
Qed.
End PitProofs.

(** ** The start of [_start] *)
Section Init.
Context {G : Type} {GA : GdtApi G} {T : Type} {IA : IdtApi T} {P : Type} {PI : PicApi P}.
(** [init]: the segment registers, the loaded interrupt table and the
    controllers; the serial line is the [uart_16550] crate's. *)
Definition init (pics : P) : SegmentRegisters * T * P := (gdt_init, IDT, init_pics pics).
End Init.

Module InterruptsWitness.
(** Tables as functions of the vector. *)
#[local] Instance fun_idt : IdtApi (Z -> option Gate) := {|
  idt_new _ := None;
  set_handler v h t v' := if v' =? v then Some {| handler := h; privilege := 0; stack_index := None |} else t v';
  set_stack_index v i t v' :=
    if v' =? v then (fun g => {| handler := handler g; privilege := privilege g; stack_index := Some i |}) <$> t v else t v';
  set_privilege_level v p t v' :=
    if v' =? v then (fun g => {| handler := handler g; privilege := p; stack_index := stack_index g |}) <$> t v else t v'
|}.
#[local] Instance fun_idt_laws : IdtLaws (Z -> option Gate) fun_idt.
Proof. by unshelve econstructor; [intros t; exact t | ..]. Defined.

(** The theorem at this table, and what it says of the keyboard. *)
Lemma interrupt_dispatch_witness :
  (forall v, 0 <= v < 256 -> handled (IDT (T := Z -> option Gate)) 3 true v = Some (if v =? 0x80 then syscall_entry else gpf_handler)) /\
  handled (IDT (T := Z -> option Gate)) 3 false 33 = Some keyboard_interrupt_handler.
Proof. split; [exact (proj1 interrupt_dispatch) | reflexivity]. Defined.

(** The controllers as the set of lines in service and the masks. *)
#[local] Instance fun_pic : PicApi ((Z -> bool) * (Z * Z)) := {|
  pic_initialize p := p;
  read_masks := snd;
  write_masks a b p := (fst p, (a, b));
  notify_end_of_interrupt v p := (fun n => negb (n =? v) && fst p n, snd p)
|}.
#[local] Instance fun_pic_laws : PicLaws ((Z -> bool) * (Z * Z)) fun_pic.
Proof.
  by unshelve econstructor; [exact fst | intros v p; exact (fun n => (n =? v) || fst p n, snd p) | ..].
Defined.

Example mouse_line_freed :
  forall n, in_service (serviced mouse_interrupt_handler (take_vector 44 (fun _ => false, (184, 142)))) n = false.
Proof.
  exact (interrupt_line_freed PS2 0 (fun _ => false, (184, 142)) mouse_interrupt_handler (T := Z -> option Gate) eq_refl eq_refl).
Qed.
End InterruptsWitness.
