(* ===== verification/Mouse.v ===== *)
(** * The PS/2 mouse and keyboard

    [kernel/src/driver/mouse.rs] (packets, the controller's protocol),
    [handle_ps2_byte] and its interrupt handlers in [kernel/src/interrupts.rs],
    and the queues of [kernel/src/task/mouse.rs] and [kernel/src/task/keyboard.rs].
    The wakers of the asynchronous executor are not part of this state. *)
From S2P Require Import Prelude Slices Lock Thread ThreadInv Sched Queue Pipe Ports.

(** ** Packets *)
Definition flag_xs : Z := 16.
Definition flag_ys : Z := 32.

Record GenericPs2Packet := { status : Z; x_mov : Z; y_mov : Z }.

(** [GenericPs2Packet::new]: all eight bits of the status byte are flags, so
    [from_bits] never refuses one. *)
Definition packet_new (b0 b1 b2 : Z) : GenericPs2Packet := {| status := b0; x_mov := b1; y_mov := b2 |}.

Definition sign_extend (flag : bool) (v : Z) : Z := wrap_i 16 (if flag then Z.lor v 65280 else v).
Definition get_x (p : GenericPs2Packet) : Z := sign_extend (negb (Z.land (status p) flag_xs =? 0)) (x_mov p).
Definition get_y (p : GenericPs2Packet) : Z := sign_extend (negb (Z.land (status p) flag_ys =? 0)) (y_mov p).

Definition packet_bytes (p : GenericPs2Packet) : list Z := [status p; x_mov p; y_mov p].

(** ** The packet state machine *)
Inductive MouseDataState :=
| WaitingForByte1
| WaitingForByte2 (first_byte : Z)
| WaitingForByte3 (first_byte second_byte : Z).

Section Ps2.
Context {Q QB : Type} {AQ : ArrayQueue GenericPs2Packet Q} {AB : ArrayQueue Z QB}.

(** The queues are empty cells until they are initialised. *)
Record Ps2 := {
  ps2_mouse_state : MouseDataState;
  PACKET_QUEUE : option Q;
  SCANCODE_QUEUE : option QB
}.

Definition set_mouse_state (m : MouseDataState) (s : Ps2) : Ps2 :=
  {| ps2_mouse_state := m; PACKET_QUEUE := PACKET_QUEUE s; SCANCODE_QUEUE := SCANCODE_QUEUE s |}.

(** [wake_mouse_sleepers], under one lock of the scheduler. *)
Definition mouse_sleepers (k : Kernel) (mouse_id : Z) : list Z :=
  omap (fun a => match store k !! a with
                 | Some t => match state t with
                             | Blocked (WaitMouse w) => if w =? mouse_id then Some (id t) else None
                             | _ => None
                             end
                 | None => None
                 end) (threads k).
Definition wake_mouse_sleepers (mouse_id : Z) (k : Kernel) : Kernel :=
  let k := sched_lock k in
  let k := foldl (fun k i => unblock_task i k) k (mouse_sleepers k mouse_id) in
  sched_unlock k.

Definition add_packet (p : GenericPs2Packet) (s : Ps2) (k : Kernel) : Ps2 * Kernel :=
  match PACKET_QUEUE s with
  | Some q =>
      ({| ps2_mouse_state := ps2_mouse_state s; PACKET_QUEUE := Some (aq_force_push p q);
          SCANCODE_QUEUE := SCANCODE_QUEUE s |}, wake_mouse_sleepers 0 k)
  | None => (s, k)
  end.

Definition add_scancode (scancode : Z) (s : Ps2) : Ps2 :=
  match SCANCODE_QUEUE s with
  | Some q => {| ps2_mouse_state := ps2_mouse_state s; PACKET_QUEUE := PACKET_QUEUE s;
                 SCANCODE_QUEUE := Some (fst (aq_push scancode q)) |}
  | None => s
  end.

Definition handle_ps2_byte (st data : Z) (s : Ps2) (k : Kernel) : Ps2 * Kernel :=
  if negb (Z.land st 32 =? 0) then
    match ps2_mouse_state s with
    | WaitingForByte1 =>
        (if negb (Z.land data 8 =? 0) then set_mouse_state (WaitingForByte2 data) s else s, k)
    | WaitingForByte2 first_byte => (set_mouse_state (WaitingForByte3 first_byte data) s, k)
    | WaitingForByte3 first_byte second_byte =>
        let packet := packet_new first_byte second_byte data in
        let '(s, k) :=
          if negb (Z.land first_byte 128 =? 0) || negb (Z.land first_byte 64 =? 0) then (s, k)
          else add_packet packet s k in
        (set_mouse_state WaitingForByte1 s, k)
    end
  else (add_scancode data s, k).

(** Both interrupt handlers: drain the controller's output buffer. *)
Fixpoint ps2_interrupt {P : Type} `{PortIo P} (fuel : nat) (hw : P) (s : Ps2) (k : Kernel)
  : outcome (P * Ps2 * Kernel) :=
  match fuel with
  | O => NoFuel
  | S fuel =>
      let '(st, hw) := inb 100 hw in
      if negb (Z.land st 1 =? 0) then
        let '(data, hw) := inb 96 hw in
        let '(s, k) := handle_ps2_byte st data s k in
        ps2_interrupt fuel hw s k
      else Ret (hw, s, k)
  end.

(** ** Reading the mouse: one turn of [MouseDeviceHandle::read] *)
Fixpoint mouse_read_loop (fuel : nat) (q : Q) (buffer : list Z) (bytes_written : Z)
  : outcome (Q * list Z * option Z) :=
  match fuel with
  | O => NoFuel
  | S fuel =>
      if Z.of_nat (length buffer) - bytes_written <? 3 then Ret (q, buffer, Some bytes_written) else
      match aq_pop q with
      | (Some packet, q) =>
          let! buffer := upd buffer bytes_written (status packet) in
          let! buffer := upd buffer (bytes_written + 1) (x_mov packet) in
          let! buffer := upd buffer (bytes_written + 2) (y_mov packet) in
          mouse_read_loop fuel q buffer (bytes_written + 3)
      | (None, q) => Ret (q, buffer, if 0 <? bytes_written then Some bytes_written else None)
      end
  end.

Definition mouse_read_turn (s : Ps2) (k : Kernel) (buffer : list Z)
  : outcome (Ps2 * Kernel * list Z * option Z) :=
  let! q := unwrap (PACKET_QUEUE s) in
  let! '(q, buffer, r) := mouse_read_loop (S (Z.to_nat (aq_len q))) q buffer 0 in
  let s := {| ps2_mouse_state := ps2_mouse_state s; PACKET_QUEUE := Some q;
              SCANCODE_QUEUE := SCANCODE_QUEUE s |} in
  match r with
  | Some n => Ret (s, k, buffer, Some n)
  | None => let! k := block_task (WaitMouse 0) k in Ret (s, k, buffer, None)
  end.
End Ps2.
Arguments Ps2 : clear implicits.

(** ** The controller's protocol: every wait gives up after 100000 polls *)
Section Controller.
Context {P : Type} {IO : PortIo P}.

Definition WAIT_LIMIT : nat := Z.to_nat 100000.

Fixpoint wait_status (n : nat) (ready : Z -> bool) (hw : P) : bool * P :=
  match n with
  | O => (false, hw)
  | S n => let '(st, hw) := inb 100 hw in
           if ready st then (true, hw) else wait_status n ready hw
  end.
Definition wait_read_signal (hw : P) : bool * P := wait_status WAIT_LIMIT (fun st => negb (Z.land st 1 =? 0)) hw.
Definition wait_write_signal (hw : P) : bool * P := wait_status WAIT_LIMIT (fun st => Z.land st 2 =? 0) hw.

(** [write] and [read]: [None] for the timeout error. *)
Definition ps2_write (port value : Z) (hw : P) : option unit * P :=
  let '(ok, hw) := wait_write_signal hw in
  if ok then (Some tt, outb port value hw) else (None, hw).
Definition ps2_read (port : Z) (hw : P) : option Z * P :=
  let '(ok, hw) := wait_read_signal hw in
  if ok then let '(v, hw) := inb port hw in (Some v, hw) else (None, hw).

Definition send_cmd (cmd : Z) (hw : P) : bool * P :=
  let '(_, hw) := ps2_write 100 212 hw in
  let '(_, hw) := ps2_write 96 cmd hw in
  let '(ack, hw) := ps2_read 96 hw in
  (default 0 ack =? 250, hw).

Fixpoint flush_output_buffer (fuel : nat) (hw : P) : outcome P :=
  match fuel with
  | O => NoFuel
  | S fuel => let '(st, hw) := inb 100 hw in
              if negb (Z.land st 1 =? 0) then flush_output_buffer fuel (snd (inb 96 hw)) else Ret hw
  end.

(** [init_ps2]: the configuration byte is read, changed and written back. *)
Definition init_ps2 (fuel : nat) (hw : P) : outcome P :=
  let '(_, hw) := ps2_write 100 173 hw in
  let '(_, hw) := ps2_write 100 167 hw in
  let! hw := flush_output_buffer fuel hw in
  let '(_, hw) := ps2_write 100 32 hw in
  let '(r, hw) := ps2_read 96 hw in
  let! conf := unwrap r in
  let data := Z.land (Z.land (Z.land conf 254) 223) 253 in
  let '(_, hw) := ps2_write 100 96 hw in
  let '(_, hw) := ps2_write 96 data hw in
  let '(_, hw) := ps2_write 100 174 hw in
  let '(_, hw) := ps2_write 100 168 hw in
  let '(_, hw) := ps2_write 100 32 hw in
  let '(r, hw) := ps2_read 96 hw in
  let! conf := unwrap r in
  let data := Z.land (Z.lor (Z.lor conf 1) 2) 223 in
  let '(_, hw) := ps2_write 100 96 hw in
  let '(_, hw) := ps2_write 96 data hw in
  Ret hw.

Definition init_ps2_mouse (hw : P) : outcome (Z * P) :=
  let '(_, hw) := send_cmd 255 hw in
  let '(_, hw) := ps2_read 96 hw in
  let '(ok, hw) := wait_read_signal hw in
  let hw := if ok then snd (ps2_read 96 hw) else hw in
  let '(_, hw) := send_cmd 245 hw in
  let '(_, hw) := send_cmd 242 hw in
  let '(r, hw) := ps2_read 96 hw in
  let! mouse_id := unwrap r in
  let '(_, hw) := send_cmd 246 hw in
  let '(_, hw) := send_cmd 244 hw in
  Ret (mouse_id, hw).
End Controller.

(** ** Lemmas *)
Section MouseProps.
Context {Q QB : Type} {AQ : ArrayQueue GenericPs2Packet Q} {AB : ArrayQueue Z QB}
        {AL : ArrayQueueLaws GenericPs2Packet Q AQ}.

(** Bytes from the mouse: the status has bit 5, the auxiliary device, set. *)
Definition feed (bytes : list Z) (s : Ps2 Q QB) (k : Kernel) : Ps2 Q QB * Kernel :=
  foldl (fun sk b => handle_ps2_byte 33 b (fst sk) (snd sk)) (s, k) bytes.

Definition aligned (p : GenericPs2Packet) : Prop := Z.land (status p) 8 <> 0.
Definition overflowed (p : GenericPs2Packet) : bool :=
  negb (Z.land (status p) 128 =? 0) || negb (Z.land (status p) 64 =? 0).

(** The packets kept of those received. *)
Definition kept (ps : list GenericPs2Packet) : list GenericPs2Packet :=
  List.filter (fun p => negb (overflowed p)) ps.

Lemma wake_mouse_inv n k : sched_inv k -> sched_inv (wake_mouse_sleepers n k).
Proof. apply (locked_fold_inv (mouse_sleepers (sched_lock k) n) k). Qed.

Lemma feed_app l1 l2 s k : feed (l1 ++ l2) s k = feed l2 (fst (feed l1 s k)) (snd (feed l1 s k)).
Proof. unfold feed. rewrite foldl_app. by destruct (foldl _ (s, k) l1). Qed.

(** Bytes with bit 3 clear do not start a packet. *)
Lemma feed_noise noise s k :
  Forall (fun b => Z.land b 8 = 0) noise -> ps2_mouse_state s = WaitingForByte1 -> feed noise s k = (s, k).
Proof.
  intros Hn Hs. induction Hn as [|b noise Hb _ IH]; [done |].
  change (b :: noise) with ([b] ++ noise). rewrite feed_app.
  assert (E : feed [b] s k = (s, k)).
  { unfold feed, handle_ps2_byte. simpl. by rewrite Hs, Hb. }
  rewrite E. exact IH.
Qed.

(** Three bytes are one packet. *)
Lemma feed_packet p s k q :
  aligned p -> ps2_mouse_state s = WaitingForByte1 -> PACKET_QUEUE s = Some q ->
  exists s' k' q', feed (packet_bytes p) s k = (s', k') /\ ps2_mouse_state s' = WaitingForByte1 /\
    PACKET_QUEUE s' = Some q' /\ q' = (if overflowed p then q else aq_force_push p q) /\
    k' = (if overflowed p then k else wake_mouse_sleepers 0 k) /\ SCANCODE_QUEUE s' = SCANCODE_QUEUE s.
Proof.
  intros Ha Hs Hq. destruct s as [m pq sq], p as [st x y]. unfold aligned in Ha. simpl in *. subst m pq.
  unfold feed, packet_bytes, overflowed, handle_ps2_byte. simpl. rewrite (proj2 (Z.eqb_neq _ 0) Ha). simpl.
  destruct (negb (Z.land st 128 =? 0) || negb (Z.land st 64 =? 0)) eqn:E; simpl; rewrite ?E; simpl;
    eexists _, _, _; (split; [reflexivity |]); by simpl.
Qed.

Lemma feed_packets ps : forall s k q,
  Forall aligned ps -> ps2_mouse_state s = WaitingForByte1 -> PACKET_QUEUE s = Some q -> aq_ok q ->
  sched_inv k -> aq_len q + Z.of_nat (length (kept ps)) <= aq_capacity q ->
  exists s' k' q', feed (ps ≫= packet_bytes) s k = (s', k') /\ ps2_mouse_state s' = WaitingForByte1 /\
    PACKET_QUEUE s' = Some q' /\ aq_ok q' /\ aq_list q' = aq_list q ++ kept ps /\ sched_inv k' /\
    SCANCODE_QUEUE s' = SCANCODE_QUEUE s.
Proof.
  induction ps as [|p ps IH]; intros s k q Ha Hs Hq Hok Hk Hlen.
  - exists s, k, q. rewrite app_nil_r. done.
  - apply Forall_cons in Ha as [Hp Ha]. rewrite bind_cons, feed_app.
    destruct (feed_packet p s k q Hp Hs Hq) as (s1 & k1 & q1 & -> & Hs1 & Hq1 & Eq & Ek & Esc). simpl.
    unfold kept in *. simpl in *. destruct (overflowed p); simpl in *; subst q1 k1.
    + destruct (IH s1 k q) as (s' & k' & q' & E & H1 & H2 & H3 & H4 & H5 & H6); try done.
      exists s', k', q'. rewrite E. repeat (split; [done |]). congruence.
    + destruct (aq_force_law p q Hok) as (Hok1 & Hc1 & Hl1).
      rewrite (proj2 (Z.ltb_lt (aq_len q) (aq_capacity q))) in Hl1 by lia.
      destruct (aq_len_law q Hok) as [E0 _]. destruct (aq_len_law _ Hok1) as [E1 _].
      rewrite Hl1, length_app in E1. simpl in E1.
      destruct (IH s1 (wake_mouse_sleepers 0 k) (aq_force_push p q))
        as (s' & k' & q' & E & H1 & H2 & H3 & H4 & H5 & H6); try done; [by apply wake_mouse_inv | lia |].
      exists s', k', q'. rewrite E, H4, Hl1, <- app_assoc. repeat (split; [done |]). congruence.
Qed.

Lemma length_packets (l : list GenericPs2Packet) : length (l ≫= packet_bytes) = (3 * length l)%nat.
Proof. induction l as [|p l IH]; [done |]. rewrite bind_cons, length_app, IH. simpl. lia. Qed.

(** The bytes of whole packets, as many as fit. *)
Lemma mouse_read_loop_spec fuel : forall (q : Q) buffer i,
  aq_ok q -> (length (aq_list q) < fuel)%nat -> 0 <= i <= Z.of_nat (length buffer) ->
  let n := Nat.min (Z.to_nat ((Z.of_nat (length buffer) - i) / 3)) (length (aq_list q)) in
  let out := take n (aq_list q) ≫= packet_bytes in
  exists q' r, mouse_read_loop fuel q buffer i = Ret (q', put buffer (Z.to_nat i) out, r) /\
    aq_ok q' /\ aq_list q' = drop n (aq_list q) /\
    (r = Some (i + 3 * Z.of_nat n) \/ r = None /\ i = 0 /\ aq_list q = []).
Proof.
  induction fuel as [|fuel IH]; intros q buffer i Hq Hfu Hi; [lia |]. cbn [mouse_read_loop].
  destruct (Z.ltb_spec (Z.of_nat (length buffer) - i) 3) as [Hlt | Hge].
  - rewrite Z.div_small by lia. simpl. rewrite put_nil, drop_0. exists q, (Some i).
    split; [done |]. split; [done |]. split; [done |]. left. f_equal. lia.
  - pose proof (aq_pop_law q Hq) as Hp. destruct (aq_pop q) as [o q1]. destruct Hp as (Hq1 & _ & Hp).
    destruct (aq_list q) as [|p l] eqn:El.
    + destruct Hp as [-> Hl]. rewrite Nat.min_0_r. simpl. rewrite put_nil. eexists q1, _.
      split; [done |]. split; [done |]. split; [by rewrite Hl |].
      destruct (Z.ltb_spec 0 i); [left; f_equal; lia | right; split; [done | split; [lia | done]]].
    + destruct Hp as [-> Hl]. rewrite upd_ret by lia. cbn [obind].
      rewrite upd_ret by (rewrite length_insert; lia). cbn [obind].
      rewrite upd_ret by (rewrite !length_insert; lia). cbn [obind].
      set (b1 := <[_ := y_mov p]> _). assert (Hb1 : b1 = put buffer (Z.to_nat i) (packet_bytes p)).
      { unfold b1. replace (Z.to_nat (i + 2)) with (S (S (Z.to_nat i))) by lia.
        replace (Z.to_nat (i + 1)) with (S (Z.to_nat i)) by lia.
        apply list_eq. intros j. destruct (decide (Z.to_nat i <= j < Z.to_nat i + 3)%nat) as [Hj | Hj].
        - rewrite lookup_put_in by (simpl; lia).
          assert (j = Z.to_nat i \/ j = S (Z.to_nat i) \/ j = S (S (Z.to_nat i))) as [-> | [-> | ->]] by lia.
          + rewrite !list_lookup_insert_ne, list_lookup_insert_eq, Nat.sub_diag by lia. done.
          + rewrite list_lookup_insert_ne, list_lookup_insert_eq by (rewrite ?length_insert; lia).
            by replace (S (Z.to_nat i) - Z.to_nat i)%nat with 1%nat by lia.
          + rewrite list_lookup_insert_eq by (rewrite !length_insert; lia).
            by replace (S (S (Z.to_nat i)) - Z.to_nat i)%nat with 2%nat by lia.
        - rewrite lookup_put_out by (simpl; lia). by rewrite !list_lookup_insert_ne by lia. }
      assert (Hlb : length b1 = length buffer) by (unfold b1; by rewrite !length_insert).
      destruct (IH q1 b1 (i + 3)) as (q' & r & E & Hq' & Hl' & Hr); [done | rewrite Hl; simpl in Hfu; lia | lia |].
      rewrite Hlb, Hl in *.
      replace (Z.of_nat (length buffer) - i) with ((Z.of_nat (length buffer) - (i + 3)) + 1 * 3) by lia.
      assert (0 <= (Z.of_nat (length buffer) - (i + 3)) / 3) by (apply Z.div_pos; lia).
      rewrite Z.div_add, Z2Nat.inj_add, Nat.add_1_r by lia. simpl.
      set (n := Nat.min _ (length l)) in *.
      assert (Hn : 3 * Z.of_nat n <= Z.of_nat (length buffer) - (i + 3)).
      { pose proof (Z.mul_div_le (Z.of_nat (length buffer) - (i + 3)) 3). unfold n. lia. }
      assert (Hout : length (take n l ≫= packet_bytes) = (3 * n)%nat).
      { rewrite length_packets, length_take. lia. }
      exists q', r. split; [| split; [done | split; [done |]]].
      * rewrite E, Hb1. replace (Z.to_nat (i + 3)) with (Z.to_nat i + length (packet_bytes p))%nat by (simpl; lia).
        rewrite put_put_app by (rewrite Hout; simpl; lia). done.
      * destruct Hr as [-> | (_ & ? & _)]; [left; f_equal; lia | lia].
Qed.

(** Bytes as the interrupt handlers read them, each with the controller's
    status: bit 5 tells the mouse's bytes from the keyboard's. *)
Definition feed_mixed (l : list (Z * Z)) (s : Ps2 Q QB) (k : Kernel) : Ps2 Q QB * Kernel :=
  foldl (fun sk b => handle_ps2_byte b.1 b.2 (fst sk) (snd sk)) (s, k) l.
Definition from_mouse (b : Z * Z) : bool := negb (Z.land b.1 32 =? 0).
Definition mouse_bytes (l : list (Z * Z)) : list Z := map snd (List.filter from_mouse l).

Definition same_mouse (s1 s2 : Ps2 Q QB) : Prop :=
  ps2_mouse_state s1 = ps2_mouse_state s2 /\ PACKET_QUEUE s1 = PACKET_QUEUE s2.

(** One byte of the mouse acts alike on two states that differ in scancodes;
    one byte of the keyboard does not touch the mouse. *)
Lemma handle_mouse_byte st b s1 s2 k :
  from_mouse (st, b) = true -> same_mouse s1 s2 ->
  same_mouse (fst (handle_ps2_byte st b s1 k)) (fst (handle_ps2_byte 33 b s2 k)) /\
  snd (handle_ps2_byte st b s1 k) = snd (handle_ps2_byte 33 b s2 k).
Proof.
  destruct s1 as [m q a1], s2 as [m2 q2 a2]. intros Hm [E1 E2]. simpl in E1, E2. subst m2 q2.
  unfold from_mouse in Hm. simpl in Hm. unfold handle_ps2_byte. rewrite Hm. simpl.
  destruct m as [|f1|f1 f2]; simpl; [by destruct (Z.land b 8 =? 0) | done |].
  destruct (negb (Z.land f1 128 =? 0) || negb (Z.land f1 64 =? 0)); simpl; [done |].
  unfold add_packet. simpl. by destruct q.
Qed.

Lemma handle_key_byte st b s1 k :
  from_mouse (st, b) = false ->
  same_mouse s1 (fst (handle_ps2_byte st b s1 k)) /\ snd (handle_ps2_byte st b s1 k) = k.
Proof.
  unfold from_mouse, handle_ps2_byte. simpl. intros ->. simpl. unfold add_scancode, same_mouse.
  by destruct (SCANCODE_QUEUE s1).
Qed.

Lemma feed_mixed_mouse l : forall s1 s2 k,
  same_mouse s1 s2 ->
  same_mouse (fst (feed_mixed l s1 k)) (fst (feed (mouse_bytes l) s2 k)) /\
  snd (feed_mixed l s1 k) = snd (feed (mouse_bytes l) s2 k).
Proof.
  induction l as [|[st b] l IH]; intros s1 s2 k Hs; [by split |].
  assert (E : forall s k, feed_mixed ((st, b) :: l) s k =
    feed_mixed l (fst (handle_ps2_byte st b s k)) (snd (handle_ps2_byte st b s k))).
  { intros s k'. unfold feed_mixed. simpl. by destruct (handle_ps2_byte st b s k'). }
  rewrite E. clear E. unfold mouse_bytes. cbn [List.filter]. destruct (from_mouse (st, b)) eqn:Em.
  - cbn [map]. change (snd (st, b) :: map snd (List.filter from_mouse l)) with ([b] ++ mouse_bytes l). rewrite feed_app.
    destruct (handle_mouse_byte st b s1 s2 k Em Hs) as [H1 H2]. rewrite H2. by apply IH.
  - destruct (handle_key_byte st b s1 k Em) as [[H1 H1'] H2]. rewrite H2.
    apply IH. destruct Hs as [Hs Hs']. split; congruence.
Qed.

(** ** Properties *)

(** Decoding the mouse's byte stream. However keyboard bytes are mixed in,
    and however many bytes that cannot start a packet come first, every
    packet without an overflow flag is delivered whole and in order, and one
    [read] into a buffer large enough returns exactly those packets' bytes,
    leaving the queue empty. *)
Theorem mouse_stream_read l noise ps s k q buf :
  mouse_bytes l = noise ++ (ps ≫= packet_bytes) ->
  Forall (fun b => Z.land b 8 = 0) noise -> Forall aligned ps ->
  ps2_mouse_state s = WaitingForByte1 -> PACKET_QUEUE s = Some q -> aq_ok q -> aq_list q = [] -> sched_inv k ->
  (0 < length (kept ps))%nat -> Z.of_nat (length (kept ps)) <= aq_capacity q ->
  (3 * length (kept ps) <= length buf)%nat ->
  exists s2 q2,
    let '(s1, k1) := feed_mixed l s k in
    sched_inv k1 /\ ps2_mouse_state s1 = WaitingForByte1 /\
    mouse_read_turn s1 k1 buf =
      Ret (s2, k1, put buf 0 (kept ps ≫= packet_bytes), Some (3 * Z.of_nat (length (kept ps)))) /\
    PACKET_QUEUE s2 = Some q2 /\ aq_list q2 = [].
Proof.
  intros Hb Hn Ha Hs Hq Hok Hl Hk Hpos Hcap Hbuf.
  destruct (aq_len_law q Hok) as [Hlen _]. rewrite Hl in Hlen. simpl in Hlen.
  destruct (feed_packets ps s k q Ha Hs Hq Hok Hk) as (s1 & k1 & q1 & E & H1 & H2 & H3 & H4 & H5 & _); [lia |].
  destruct (feed_mixed_mouse l s s k) as [[M1 M2] M3]; [by split |].
  rewrite Hb, feed_app, (feed_noise noise s k Hn Hs) in M1, M2, M3. cbn [fst snd] in *. rewrite E in *.
  cbn [fst snd] in *. destruct (feed_mixed l s k) as [sm km]. cbn [fst snd] in *. subst km.
  rewrite Hl in H4. simpl in H4. destruct (aq_len_law q1 H3) as [Hl1 _].
  destruct (mouse_read_loop_spec (S (Z.to_nat (aq_len q1))) q1 buf 0) as (q2 & r & Er & Hq2 & Hl2 & Hr); [done | lia | lia |].
  rewrite Z.sub_0_r, H4 in *.
  assert (En : Nat.min (Z.to_nat (Z.of_nat (length buf) / 3)) (length (kept ps)) = length (kept ps)).
  { apply Nat.min_r. apply Nat2Z.inj_le. rewrite Z2Nat.id by (apply Z.div_pos; lia).
    apply Z.div_le_lower_bound; lia. }
  rewrite En, firstn_all in *. rewrite drop_all in Hl2.
  destruct Hr as [-> | (_ & _ & Hz)]; [| rewrite Hz in Hpos; simpl in Hpos; lia].
  eexists _, q2. split; [done |]. split; [congruence |]. split; [| split; [| exact Hl2]].
  - unfold mouse_read_turn. rewrite M2, H2. cbn [unwrap obind]. rewrite Er. cbn [obind]. reflexivity.
  - done.
Qed.
End MouseProps.

Lemma sign_extend_spec f v : 0 <= v < 256 -> sign_extend f v = if f then v - 256 else v.
Proof.
  intros Hv. unfold sign_extend. destruct f.
  - rewrite Z.lor_comm. change 65280 with (255 * 2 ^ 8). rewrite lor_low by lia.
    unfold wrap_i. rewrite <- (Z.mod_add _ (-1)) by lia.
    rewrite Z.mod_small; lia.
  - apply wrap_i_small; lia.
Qed.

(** A packet's movement is the two's-complement value of nine bits: the
    byte, less 256 when its sign flag in the status byte is set. *)
Theorem movement_is_nine_bit p :
  0 <= x_mov p < 256 -> 0 <= y_mov p < 256 ->
  get_x p = x_mov p - 256 * Z.b2z (Z.testbit (status p) 4) /\
  get_y p = y_mov p - 256 * Z.b2z (Z.testbit (status p) 5).
Proof.
  intros Hx Hy. unfold get_x, get_y. rewrite !sign_extend_spec by done.
  change flag_xs with (2 ^ 4). change flag_ys with (2 ^ 5). rewrite !land_flag, !negb_involutive by lia.
  destruct (Z.testbit (status p) 4), (Z.testbit (status p) 5); simpl; lia.
Qed.

(** ** Witnesses: a stray byte, three packets, the second with an overflow, and
    keyboard bytes in between. *)
Module MouseWitness.
Import ListQueue SchedWitness.
Definition pk1 := packet_new 24 250 3.
Definition pk2 := packet_new 72 1 1.
Definition pk3 := packet_new 8 2 4.
Definition ps2_0 : Ps2 (Z * list GenericPs2Packet) (Z * list Z) :=
  {| ps2_mouse_state := WaitingForByte1; PACKET_QUEUE := Some (100, []); SCANCODE_QUEUE := Some (100, []) |}.
Definition stream : list (Z * Z) :=
  [(33, 0); (29, 30); (33, 24); (33, 250); (29, 158); (33, 3); (33, 72); (33, 1); (33, 1);
   (33, 8); (33, 2); (33, 4)].

Lemma mouse_stream_read_witness :
  exists s2 q2,
    let '(s1, k1) := feed_mixed stream ps2_0 k_sleep in
    sched_inv k1 /\ ps2_mouse_state s1 = WaitingForByte1 /\
    mouse_read_turn s1 k1 (replicate 8 0) = Ret (s2, k1, [24; 250; 3; 8; 2; 4; 0; 0], Some 6) /\
    PACKET_QUEUE s2 = Some q2 /\ aq_list q2 = [].
Proof.
  apply (mouse_stream_read stream [0] [pk1; pk2; pk3] ps2_0 k_sleep (100, []) (replicate 8 0));
    [done | by constructor | by repeat constructor | done | done | vm_compute; intuition congruence
     | done | apply k_sleep_inv | vm_compute; lia | vm_compute; congruence | vm_compute; lia].
Defined.

Lemma movement_is_nine_bit_witness : get_x pk1 = -6 /\ get_y pk1 = 3.
Proof. apply (movement_is_nine_bit pk1); vm_compute; intuition congruence. Defined.
End MouseWitness.
