(* ===== verification/Ps2Setup.v ===== *)
(** * Setting up the PS/2 controller

    [init_ps2] and [init_ps2_mouse] of [kernel/src/driver/mouse.rs], which
    [Mouse] models, on a controller and a mouse that follow their protocols. *)
From S2P Require Import Prelude Ports Mouse.

(** ** The controller *)

(** Where the next byte written to the data port goes. *)
Inductive Target := ToKeyboard | ToConfig | ToMouse.

(** What the programs behind the ports hold: the configuration byte, the bytes
    to be read, the number of status reads until they are shown and until the
    next byte can be written, and whether the mouse sends packets. *)
Record Ps2View := {
  conf : Z; out : list Z; hidden : nat; busy : nat; target : Target; streaming : bool
}.

Definition shown (v : Ps2View) : bool := match out v with [] => false | _ => (hidden v =? 0)%nat end.
Definition ticked (v : Ps2View) : Ps2View :=
  {| conf := conf v; out := out v; hidden := pred (hidden v); busy := pred (busy v); target := target v; streaming := streaming v |}.
Definition taken_out (v : Ps2View) : Ps2View :=
  {| conf := conf v; out := tail (out v); hidden := 0; busy := busy v; target := target v; streaming := streaming v |}.

(** What is written changes the view; the times [h] and [b] are the device's. *)
Definition with_view (c : Z) (o : list Z) (t : Target) (s : bool) (h b : nat) : Ps2View :=
  {| conf := c; out := o; hidden := h; busy := b; target := t; streaming := s |}.

(** Commands to the controller: 0xAD, 0xAE and 0xA7, 0xA8 close and open the
    ports, 0x20 and 0x60 read and write the configuration byte, 0xD4 addresses
    the mouse. *)
Definition commanded (cmd : Z) (v : Ps2View) (h b : nat) : Ps2View :=
  if cmd =? 0xAD then with_view (Z.lor (conf v) 16) (out v) (target v) (streaming v) (hidden v) b else
  if cmd =? 0xAE then with_view (Z.ldiff (conf v) 16) (out v) (target v) (streaming v) (hidden v) b else
  if cmd =? 0xA7 then with_view (Z.lor (conf v) 32) (out v) (target v) (streaming v) (hidden v) b else
  if cmd =? 0xA8 then with_view (Z.ldiff (conf v) 32) (out v) (target v) (streaming v) (hidden v) b else
  if cmd =? 0x20 then with_view (conf v) (out v ++ [conf v]) (target v) (streaming v) h b else
  if cmd =? 0x60 then with_view (conf v) (out v) ToConfig (streaming v) (hidden v) b else
  with_view (conf v) (out v) ToMouse (streaming v) (hidden v) b.

(** The mouse acknowledges each command with 0xFA; it answers a reset with its
    self test and its number, and the question for its number. *)
Definition mouse_reply (id cmd : Z) : list Z :=
  if cmd =? 0xFF then [0xFA; 0xAA; id] else if cmd =? 0xF2 then [0xFA; id] else [0xFA].
Definition mouse_streams (cmd : Z) (s : bool) : bool :=
  if cmd =? 0xF4 then true else if cmd =? 0xF2 then s else false.

Definition written (id d : Z) (v : Ps2View) (h b : nat) : Ps2View :=
  match target v with
  | ToConfig => with_view d (out v) ToKeyboard (streaming v) (hidden v) b
  | ToMouse => with_view (conf v) (out v ++ mouse_reply id d) ToKeyboard (mouse_streams d (streaming v)) h b
  | ToKeyboard => v
  end.

(** The protocol: the status tells whether a byte is shown and whether one can
    be written; nothing takes longer than [slow] status reads. *)
Class Ps2Laws (P : Type) (IO : PortIo P) (id : Z) (slow : nat) := {
  ps2_view : P -> Ps2View;
  slow_limit : (slow < WAIT_LIMIT)%nat;
  view_bound hw : (hidden (ps2_view hw) <= slow)%nat /\ (busy (ps2_view hw) <= slow)%nat;
  status_law hw : ps2_view (snd (inb 100 hw)) = ticked (ps2_view hw) /\
    (Z.land (fst (inb 100 hw)) 1 =? 0) = negb (shown (ps2_view hw)) /\
    (Z.land (fst (inb 100 hw)) 2 =? 0) = (busy (ps2_view hw) =? 0)%nat;
  data_law hw : shown (ps2_view hw) = true ->
    head (out (ps2_view hw)) = Some (fst (inb 96 hw)) /\ ps2_view (snd (inb 96 hw)) = taken_out (ps2_view hw);
  command_law hw cmd : busy (ps2_view hw) = 0%nat -> cmd ∈ [0xAD; 0xAE; 0xA7; 0xA8; 0x20; 0x60; 0xD4] ->
    exists h b, ps2_view (outb 100 cmd hw) = commanded cmd (ps2_view hw) h b;
  write_law hw d : busy (ps2_view hw) = 0%nat -> target (ps2_view hw) <> ToKeyboard -> is_byte d ->
    exists h b, ps2_view (outb 96 d hw) = written id d (ps2_view hw) h b
}.

Section Protocol.
Context {P : Type} {IO : PortIo P} {id : Z} {slow : nat} {PL : Ps2Laws P IO id slow}.
Implicit Type hw : P.

(** What the driver's waits leave unchanged. *)
Definition same v (c : Z) (o : list Z) (t : Target) (s : bool) : Prop :=
  conf v = c /\ out v = o /\ target v = t /\ streaming v = s.

Lemma wait_write_ok n : forall hw, (busy (ps2_view hw) < n)%nat ->
  exists hw', wait_status n (fun st => Z.land st 2 =? 0) hw = (true, hw') /\ busy (ps2_view hw') = 0%nat /\
    (hidden (ps2_view hw') <= hidden (ps2_view hw))%nat /\ forall c o t s, same (ps2_view hw) c o t s -> same (ps2_view hw') c o t s.
Proof.
  induction n as [|n IH]; intros hw Hn; [lia |]. cbn [wait_status].
  destruct (status_law hw) as (Hv & _ & Hb). destruct (inb 100 hw) as [st hw1]. cbn [fst snd] in *. rewrite Hb.
  destruct (Nat.eqb_spec (busy (ps2_view hw)) 0) as [E | E].
  - exists hw1. rewrite Hv. split; [done |]. split; [cbn; lia |]. split; [cbn; lia |]. intros ????. done.
  - destruct (IH hw1) as (hw' & -> & Hb' & Hh & Hs); [rewrite Hv; cbn; lia |]. exists hw'. split; [done |]. split; [done |].
    split; [rewrite Hv in Hh; cbn in Hh; lia |].
    intros c o t s H. apply Hs. rewrite Hv. exact H.
Qed.

Lemma wait_read_ok n : forall hw, (hidden (ps2_view hw) < n)%nat -> out (ps2_view hw) <> [] ->
  exists hw', wait_status n (fun st => negb (Z.land st 1 =? 0)) hw = (true, hw') /\ shown (ps2_view hw') = true /\
    forall c o t s, same (ps2_view hw) c o t s -> same (ps2_view hw') c o t s.
Proof.
  induction n as [|n IH]; intros hw Hn Ho; [lia |]. cbn [wait_status].
  destruct (status_law hw) as (Hv & Hs1 & _). destruct (inb 100 hw) as [st hw1]. cbn [fst snd] in *. rewrite Hs1, negb_involutive.
  destruct (shown (ps2_view hw)) eqn:E.
  - exists hw1. rewrite Hv. split; [done |]. split; [| by intros ????].
    unfold shown in *. cbn [out ticked hidden]. destruct (out (ps2_view hw)); [done |]. by apply Nat.eqb_eq in E as ->.
  - unfold shown in E. destruct (out (ps2_view hw)) as [|x o] eqn:Eo; [done |]. apply Nat.eqb_neq in E.
    destruct (IH hw1) as (hw' & -> & Hb' & Hs); [rewrite Hv; cbn; lia | rewrite Hv; cbn; by rewrite Eo |]. exists hw'. split; [done |].
    split; [done |]. intros c o' t s H. apply Hs. rewrite Hv. exact H.
Qed.

(** A command is sent, whatever the controller is doing. *)
Lemma ps2_command_ok cmd hw c o t s : cmd ∈ [0xAD; 0xAE; 0xA7; 0xA8; 0x20; 0x60; 0xD4] -> same (ps2_view hw) c o t s ->
  let v := commanded cmd (with_view c o t s 0 0) 0 0 in
  exists hw', ps2_write 100 cmd hw = (Some tt, hw') /\ same (ps2_view hw') (conf v) (out v) (target v) (streaming v) /\
    (cmd <> 0x20 -> (hidden (ps2_view hw') <= hidden (ps2_view hw))%nat).
Proof.
  intros Hc H v. unfold ps2_write, wait_write_signal. pose proof slow_limit. destruct (view_bound hw) as [_ Hb].
  destruct (wait_write_ok WAIT_LIMIT hw) as (hw1 & -> & Hz & Hh & Hs); [lia |].
  destruct (command_law hw1 cmd Hz Hc) as (h & b & Hv). destruct (Hs _ _ _ _ H) as (E1 & E2 & E3 & E4).
  eexists. split; [done |]. rewrite Hv. unfold v, commanded. rewrite E1, E2, E3, E4.
  repeat match goal with |- context [cmd =? ?n] => destruct (Z.eqb_spec cmd n); [split; [done | cbn; intros; done || lia] |] end.
  split; [done | cbn; intros; lia].
Qed.

Lemma ps2_data_ok d hw c o t s : t <> ToKeyboard -> is_byte d -> same (ps2_view hw) c o t s ->
  let v := written id d (with_view c o t s 0 0) 0 0 in
  exists hw', ps2_write 96 d hw = (Some tt, hw') /\ same (ps2_view hw') (conf v) (out v) (target v) (streaming v).
Proof.
  intros Ht Hd H v. unfold ps2_write, wait_write_signal. pose proof slow_limit. destruct (view_bound hw) as [_ Hb].
  destruct (wait_write_ok WAIT_LIMIT hw) as (hw1 & -> & Hz & _ & Hs); [lia |]. destruct (Hs _ _ _ _ H) as (E1 & E2 & E3 & E4).
  destruct (write_law hw1 d Hz) as (h & b & Hv); [by rewrite E3 | done |]. eexists. split; [done |]. rewrite Hv. unfold v, written.
  rewrite E1, E2, E3, E4. by destruct t.
Qed.

(** The byte that comes out next is read, however long it takes. *)
Lemma ps2_read_ok hw c x o t s : same (ps2_view hw) c (x :: o) t s ->
  exists hw', ps2_read 96 hw = (Some x, hw') /\ same (ps2_view hw') c o t s.
Proof.
  intros H. unfold ps2_read, wait_read_signal. pose proof slow_limit. destruct (view_bound hw) as [Hb _].
  destruct (wait_read_ok WAIT_LIMIT hw) as (hw1 & -> & Hz & Hs); [lia | by destruct H as (_ & -> & _) |].
  destruct (data_law hw1 Hz) as [Hh Hv]. destruct (Hs _ _ _ _ H) as (E1 & E2 & E3 & E4).
  destruct (inb 96 hw1) as [y hw2]. cbn [fst snd] in *. rewrite E2 in Hh. injection Hh as <-. exists hw2. split; [done |].
  rewrite Hv. unfold taken_out. split_and!; cbn; try done. by rewrite E2.
Qed.

(** A command to the mouse: the acknowledgement is read, the rest of the
    answer is next. *)
Lemma send_cmd_ok cmd hw c t s : is_byte cmd -> same (ps2_view hw) c [] t s ->
  exists hw', send_cmd cmd hw = (true, hw') /\ same (ps2_view hw') c (tail (mouse_reply id cmd)) ToKeyboard (mouse_streams cmd s).
Proof.
  intros Hc H. unfold send_cmd. destruct (ps2_command_ok 212 hw c [] t s) as (h1 & -> & H1 & _); [set_solver | done |]. cbn in H1.
  destruct (ps2_data_ok cmd h1 c [] ToMouse s) as (h2 & -> & H2); [done | done | done |]. cbn in H2.
  destruct (ps2_read_ok h2 c 0xFA (tail (mouse_reply id cmd)) ToKeyboard (mouse_streams cmd s)) as (h3 & -> & H3).
  { unfold mouse_reply in *. by destruct (cmd =? 255), (cmd =? 242). }
  exists h3. done.
Qed.

(** [flush_output_buffer] takes all the bytes that are shown. *)
Lemma flush_ok fuel : forall hw c o t s, same (ps2_view hw) c o t s -> hidden (ps2_view hw) = 0%nat -> (length o < fuel)%nat ->
  exists hw', flush_output_buffer fuel hw = Ret hw' /\ same (ps2_view hw') c [] t s.
Proof.
  induction fuel as [|fuel IH]; intros hw c o t s H Hh Hf; [lia |]. cbn [flush_output_buffer].
  destruct (status_law hw) as (Hv & Hs & _). destruct (inb 100 hw) as [st hw1]. cbn [fst snd] in *. rewrite Hs, negb_involutive.
  unfold shown. rewrite Hh. pose proof H as (E1 & E2 & E3 & E4). rewrite E2. destruct o as [|x o].
  - exists hw1. split; [done |]. by rewrite Hv.
  - destruct (data_law hw1) as [_ Hd]; [by unfold shown; rewrite Hv; cbn; rewrite E2, Hh |].
    apply (IH _ c o t s); [| by rewrite Hd | cbn in Hf; lia]. rewrite Hd, Hv. split_and!; cbn; try done. by rewrite E2.
Qed.

(** The two configuration bytes that [init_ps2] writes. *)
Definition closed_conf (c : Z) : Z := Z.land (Z.land (Z.land (Z.lor (Z.lor c 16) 32) 254) 223) 253.
Definition open_conf (c : Z) : Z := Z.land (Z.lor (Z.lor (Z.ldiff (Z.ldiff (closed_conf c) 16) 32) 1) 2) 223.

Lemma confs c : is_byte c -> is_byte (closed_conf c) /\ is_byte (open_conf c) /\ open_conf c = Z.ldiff (Z.lor c 3) 48.
Proof.
  intros Hc. assert (H : forallb (fun c => (0 <=? closed_conf c) && (closed_conf c <? 256) && (0 <=? open_conf c) && (open_conf c <? 256) &&
    (open_conf c =? Z.ldiff (Z.lor c 3) 48)) (seqZ 0 256) = true) by (vm_compute; reflexivity).
  rewrite forallb_forall in H. specialize (H c). rewrite <- list_elem_of_In, elem_of_seqZ in H. unfold is_byte in *.
  specialize (H ltac:(lia)). rewrite !andb_true_iff, !Z.leb_le, !Z.ltb_lt, Z.eqb_eq in H. lia.
Qed.

Lemma init_ps2_ok fuel hw c o t s : same (ps2_view hw) c o t s -> hidden (ps2_view hw) = 0%nat -> (length o < fuel)%nat -> is_byte c ->
  exists hw', init_ps2 fuel hw = Ret hw' /\ same (ps2_view hw') (Z.ldiff (Z.lor c 3) 48) [] ToKeyboard s.
Proof.
  intros H Hh Hf Hc. destruct (confs c Hc) as (B1 & B2 & <-). unfold init_ps2.
  destruct (ps2_command_ok 173 hw c o t s) as (h1 & -> & H1 & L1); [set_solver | done |]. cbn in H1.
  destruct (ps2_command_ok 167 h1 (Z.lor c 16) o t s) as (h2 & -> & H2 & L2); [set_solver | done |]. cbn in H2.
  specialize (L1 ltac:(done)). specialize (L2 ltac:(done)).
  destruct (flush_ok fuel h2 _ _ _ _ H2) as (h3 & -> & H3); [lia | done |]. cbn [obind].
  destruct (ps2_command_ok 32 h3 _ _ _ _ ltac:(set_solver) H3) as (h4 & -> & H4 & _). cbn in H4.
  destruct (ps2_read_ok h4 _ _ _ _ _ H4) as (h5 & -> & H5). cbn [unwrap obind].
  destruct (ps2_command_ok 96 h5 _ _ _ _ ltac:(set_solver) H5) as (h6 & -> & H6 & _). cbn in H6.
  destruct (ps2_data_ok (closed_conf c) h6 _ _ ToConfig _ ltac:(done) B1 H6) as (h7 & E7 & H7). unfold closed_conf in E7. rewrite E7. cbn in H7.
  destruct (ps2_command_ok 174 h7 _ _ _ _ ltac:(set_solver) H7) as (h8 & -> & H8 & _). cbn in H8.
  destruct (ps2_command_ok 168 h8 _ _ _ _ ltac:(set_solver) H8) as (h9 & -> & H9 & _). cbn in H9.
  destruct (ps2_command_ok 32 h9 _ _ _ _ ltac:(set_solver) H9) as (h10 & -> & H10 & _). cbn in H10.
  destruct (ps2_read_ok h10 _ _ _ _ _ H10) as (h11 & -> & H11). cbn [unwrap obind].
  destruct (ps2_command_ok 96 h11 _ _ _ _ ltac:(set_solver) H11) as (h12 & -> & H12 & _). cbn in H12.
  destruct (ps2_data_ok (open_conf c) h12 _ _ ToConfig _ ltac:(done) B2 H12) as (h13 & E13 & H13). unfold open_conf in E13. rewrite E13.
  exists h13. split; [done |]. exact H13.
Qed.

Lemma init_ps2_mouse_ok hw c t s : same (ps2_view hw) c [] t s ->
  exists hw', init_ps2_mouse hw = Ret (id, hw') /\ same (ps2_view hw') c [] ToKeyboard true.
Proof.
  intros H. unfold init_ps2_mouse.
  destruct (send_cmd_ok 255 hw c t s ltac:(done) H) as (h1 & -> & H1). cbn in H1.
  destruct (ps2_read_ok h1 _ _ _ _ _ H1) as (h2 & -> & H2).
  pose proof slow_limit. destruct (view_bound h2) as [Hb _]. unfold wait_read_signal at 1.
  destruct (wait_read_ok WAIT_LIMIT h2) as (h3 & -> & _ & Hs); [lia | by destruct H2 as (_ & -> & _) |].
  destruct (ps2_read_ok h3 _ _ _ _ _ (Hs _ _ _ _ H2)) as (h4 & -> & H4). cbn [snd].
  destruct (send_cmd_ok 245 h4 _ _ _ ltac:(done) H4) as (h5 & -> & H5). cbn in H5.
  destruct (send_cmd_ok 242 h5 _ _ _ ltac:(done) H5) as (h6 & -> & H6). cbn in H6.
  destruct (ps2_read_ok h6 _ _ _ _ _ H6) as (h7 & -> & H7). cbn [unwrap obind].
  destruct (send_cmd_ok 246 h7 _ _ _ ltac:(done) H7) as (h8 & -> & H8). cbn in H8.
  destruct (send_cmd_ok 244 h8 _ _ _ ltac:(done) H8) as (h9 & -> & H9). cbn in H9. eauto.
Qed.

(** The PS/2 devices are set up: on a controller and a mouse that follow
    their protocols, however slow up to the limit of the driver's waits,
    [init_ps2] and [init_ps2_mouse] return; whatever bytes were waiting before
    have been taken away, both ports are open and raise interrupts, the other
    bits of the configuration byte are as they were, every answer of the mouse
    has been read, and the mouse sends its packets. *)
Theorem ps2_ready fuel hw :
  hidden (ps2_view hw) = 0%nat -> (length (out (ps2_view hw)) < fuel)%nat -> is_byte (conf (ps2_view hw)) ->
  exists hw1 hw2, init_ps2 fuel hw = Ret hw1 /\ init_ps2_mouse hw1 = Ret (id, hw2) /\
    conf (ps2_view hw2) = Z.ldiff (Z.lor (conf (ps2_view hw)) 3) 48 /\ out (ps2_view hw2) = [] /\ streaming (ps2_view hw2) = true.
Proof.
  intros Hh Hf Hc. destruct (init_ps2_ok fuel hw _ _ _ _ (conj eq_refl (conj eq_refl (conj eq_refl eq_refl))) Hh Hf Hc) as (hw1 & E1 & H1).
  destruct (init_ps2_mouse_ok hw1 _ _ _ H1) as (hw2 & E2 & H2). exists hw1, hw2. destruct H2 as (? & ? & _ & ?). done.
Qed.
End Protocol.

(** ** A controller in memory, one status read late with everything *)
Module Ps2Witness.
Record Controller := { c_conf : Z; c_out : list Z; late_out : bool; late_in : bool; c_target : Target; c_streaming : bool }.
Definition seen (c : Controller) : Ps2View :=
  with_view (c_conf c) (c_out c) (c_target c) (c_streaming c) (if late_out c then 1 else 0) (if late_in c then 1 else 0).
Definition held (v : Ps2View) : Controller :=
  {| c_conf := conf v; c_out := out v; late_out := negb (hidden v =? 0)%nat; late_in := negb (busy v =? 0)%nat;
     c_target := target v; c_streaming := streaming v |}.
Definition c_status (c : Controller) : Z := (if shown (seen c) then 1 else 0) + (if late_in c then 2 else 0).
Definition c_inb (port : Z) (c : Controller) : Z * Controller :=
  if port =? 100 then (c_status c, held (ticked (seen c))) else (default 0 (head (c_out c)), held (taken_out (seen c))).
Definition c_outb (port v : Z) (c : Controller) : Controller :=
  held (if port =? 100 then commanded v (seen c) 1 1 else written 0 v (seen c) 1 1).
#[local] Instance c_io : PortIo Controller := {| inb := c_inb; outb := c_outb; inw := c_inb; outw := c_outb |}.

#[local] Instance c_laws : Ps2Laws Controller c_io 0 1.
Proof.
  refine {| ps2_view := seen |}; cbn [inb outb c_io].
  - apply Nat2Z.inj_lt. unfold WAIT_LIMIT. rewrite Z2Nat.id by lia. reflexivity.
  - intros [cf o [] [] t s]; cbn; lia.
  - intros [cf [|x o] [] [] t s]; done.
  - intros [cf [|x o] [] [] t s] H; done.
  - intros [cf o lo li t s] cmd Hb Hc. destruct li; [done |]. rewrite !elem_of_cons, elem_of_nil in Hc. exists 1%nat, 1%nat.
    repeat destruct Hc as [-> | Hc]; try done; by destruct lo.
  - intros [cf o lo li t s] d Hb Ht Hd. destruct li; [done |]. exists 1%nat, 1%nat. by destruct t, lo.
Defined.

(** The keyboard interrupt and the translation are on, a byte is waiting. *)
Definition cold : Controller :=
  {| c_conf := 0x61; c_out := [0x1C]; late_out := false; late_in := true; c_target := ToKeyboard; c_streaming := false |}.

Lemma ps2_ready_witness : exists hw1 hw2, init_ps2 2 cold = Ret hw1 /\ init_ps2_mouse hw1 = Ret (0, hw2) /\
  c_conf hw2 = 0x43 /\ c_out hw2 = [] /\ c_streaming hw2 = true.
Proof. exact (ps2_ready (PL := c_laws) 2 cold eq_refl ltac:(cbn; lia) ltac:(by split)). Defined.
End Ps2Witness.
