(* ===== verification/Ata.v ===== *)
(** * The ATA driver

    [kernel/src/driver/ata.rs]: programmed I/O over the task-file registers,
    on any hardware that answers port reads and writes ([PortIo]).  What the
    driver relies on is stated as laws of the hardware ([AtaHardware]), after
    the ATA PIO protocol: a status read reports how long the device stays
    busy, a command starts a transfer of whole sectors, 256 words each.  A
    device in memory satisfies the laws.

    The theorems: the driver's [read] and [write] refine the disk in memory of
    Disk.v, the device the FAT driver's theorems are instantiated with. *)
From S2P Require Import Prelude Slices Disk Ports.

(** ** Registers *)
Inductive BusType := Primary | Secondary.

Definition PRIMARY_BASE_REGISTER : Z := 496.
Definition PRIMARY_CONTROL_REGISTER : Z := 1014.
Definition SECONDARY_BASE_REGISTER : Z := 368.
Definition SECONDARY_CONTROL_REGISTER : Z := 886.

Inductive DataRegister := Data | ErrorStatus | SectorCount | LbaLow | LbaMid | LbaHigh | Drive | Command.
Inductive ControlRegister := AlternateStatus.

Definition data_offset (r : DataRegister) : Z :=
  match r with
  | Data => 0 | ErrorStatus => 1 | SectorCount => 2 | LbaLow => 3
  | LbaMid => 4 | LbaHigh => 5 | Drive => 6 | Command => 7
  end.

Class AtaRegister (R : Type) := absolute : R -> BusType -> Z.
#[export] Instance data_register : AtaRegister DataRegister :=
  fun r b => match b with Primary => PRIMARY_BASE_REGISTER | Secondary => SECONDARY_BASE_REGISTER end + data_offset r.
#[export] Instance control_register : AtaRegister ControlRegister :=
  fun r b => match b with Primary => PRIMARY_CONTROL_REGISTER | Secondary => SECONDARY_CONTROL_REGISTER end + 0.

(** Flags of the status register. *)
Definition Busy (st : Z) : bool := Z.testbit st 7.
Definition DataRequestReady (st : Z) : bool := Z.testbit st 3.
Definition Error (st : Z) : bool := Z.testbit st 0.

Inductive DriveType := Master | Slave.
Definition drive_byte (t : DriveType) : Z := match t with Master => 160 | Slave => 176 end.

Record AtaDriver := { bus_type : BusType; drive : Z }.
Definition ata_new (bus : BusType) (t : DriveType) : AtaDriver := {| bus_type := bus; drive := drive_byte t |}.

Record IdentifyDiskInfo := {
  is_hard_disk : bool; supports_lba48 : bool; num_28_bit_sectors : Z; num_48_bit_sectors : Z
}.
Definition parse_disk_info (buffer : list Z) : outcome IdentifyDiskInfo :=
  let! b0 := idx buffer 0 in let! b83 := idx buffer 83 in
  let! b60 := idx buffer 60 in let! b61 := idx buffer 61 in
  let! b100 := idx buffer 100 in let! b101 := idx buffer 101 in
  let! b102 := idx buffer 102 in let! b103 := idx buffer 103 in
  Ret {| is_hard_disk := Z.land (Z.shiftr b0 15) 1 =? 0;
         supports_lba48 := Z.land (Z.shiftr b83 10) 1 =? 1;
         num_28_bit_sectors := Z.lor (Z.shiftl b61 16) b60;
         num_48_bit_sectors :=
           Z.lor (Z.lor (Z.lor (Z.shiftl b103 48) (Z.shiftl b102 32)) (Z.shiftl b101 16)) b100 |}.

(** ** The driver *)
Section Driver.
Context {P : Type} {IO : PortIo P} (self : AtaDriver).

Definition read_data_reg (hw : P) : Z * P := inw (absolute Data (bus_type self)) hw.
Definition write_data_reg (data : Z) (hw : P) : P := outw (absolute Data (bus_type self)) data hw.
Definition read_u8_reg {R} `{AtaRegister R} (reg : R) (hw : P) : Z * P := inb (absolute reg (bus_type self)) hw.
Definition write_u8_reg {R} `{AtaRegister R} (reg : R) (val : Z) (hw : P) : P :=
  outb (absolute reg (bus_type self)) val hw.
Definition get_status (hw : P) : Z * P := read_u8_reg Command hw.
Definition get_ata_error (hw : P) : Z * P := read_u8_reg ErrorStatus hw.

Fixpoint repeat_alt (n : nat) (hw : P) : P :=
  match n with
  | O => hw
  | S n => repeat_alt n (snd (read_u8_reg AlternateStatus hw))
  end.
Definition io_wait (hw : P) : P := repeat_alt 15 hw.

(** [while self.get_status().contains(Status::Busy) {}] *)
Fixpoint wait_not_busy (fuel : nat) (hw : P) : outcome P :=
  match fuel with
  | O => NoFuel
  | S fuel => let '(st, hw) := get_status hw in if Busy st then wait_not_busy fuel hw else Ret hw
  end.

(** The poll loop before each sector. *)
Fixpoint poll (fuel : nat) (hw : P) : outcome (P * (AtaError + unit)) :=
  match fuel with
  | O => NoFuel
  | S fuel =>
      let '(st, hw) := get_status hw in
      if negb (Busy st) && DataRequestReady st then Ret (hw, inr tt)
      else if Error st then let '(e, hw) := get_ata_error hw in Ret (hw, inl e)
      else poll fuel hw
  end.

(** The poll loop of [availability]. *)
Fixpoint poll_identify (fuel : nat) (hw : P) : outcome (P * (AtaError + unit)) :=
  match fuel with
  | O => NoFuel
  | S fuel =>
      let '(st, hw) := get_status hw in
      if Error st then let '(e, hw) := get_ata_error hw in Ret (hw, inl e)
      else if DataRequestReady st then Ret (hw, inr tt)
      else poll_identify fuel hw
  end.

Fixpoint read_words (n : nat) (hw : P) : list Z * P :=
  match n with
  | O => ([], hw)
  | S n => let '(w, hw) := read_data_reg hw in
           let '(ws, hw) := read_words n hw in (w :: ws, hw)
  end.

Definition availability (fuel : nat) (hw : P) : outcome (P * (AtaError + option IdentifyDiskInfo)) :=
  let hw := write_u8_reg AlternateStatus 2 hw in
  let '(st, hw) := read_u8_reg Command hw in
  if st =? 255 then Ret (hw, inr None) else
  let hw := write_u8_reg Drive (drive self) hw in
  let hw := write_u8_reg SectorCount 0 hw in
  let hw := write_u8_reg LbaLow 0 hw in
  let hw := write_u8_reg LbaMid 0 hw in
  let hw := write_u8_reg LbaHigh 0 hw in
  let hw := write_u8_reg Command 236 hw in
  let hw := io_wait hw in
  let '(status, hw) := read_u8_reg Command hw in
  if status =? 0 then Ret (hw, inr None) else
  let! hw := wait_not_busy fuel hw in
  let '(lba_mid, hw) := read_u8_reg LbaMid hw in
  let '(lba_high, hw) := read_u8_reg LbaHigh hw in
  if (0 <? lba_mid) || (0 <? lba_high) then Ret (hw, inr None) else
  let! '(hw, r) := poll_identify fuel hw in
  match r with
  | inl e => Ret (hw, inl e)
  | inr _ => let '(buffer, hw) := read_words 256 hw in
             let! info := parse_disk_info buffer in Ret (hw, inr (Some info))
  end.

(** [lba.to_le_bytes()], the four bytes the driver sends. *)
Definition lba_byte (lba : Z) (i : Z) : Z := Z.land (Z.shiftr lba (8 * i)) 255.

(** The registers of a transfer, the command last. *)
Definition command (cmd lba sectors : Z) (hw : P) : P :=
  let hw := write_u8_reg SectorCount sectors hw in
  let hw := write_u8_reg LbaLow (lba_byte lba 0) hw in
  let hw := write_u8_reg LbaMid (lba_byte lba 1) hw in
  let hw := write_u8_reg LbaHigh (lba_byte lba 2) hw in
  let hw := write_u8_reg Drive (Z.lor (Z.lor (Z.land (lba_byte lba 3) 15) (drive self)) 64) hw in
  let hw := write_u8_reg Command cmd hw in
  io_wait hw.

(** [for j in 0..256]: [n] words still to read, the next one at [at]. *)
Fixpoint read_sector (n : nat) (pos : Z) (buffer : list Z) (hw : P) : outcome (P * list Z) :=
  match n with
  | O => Ret (hw, buffer)
  | S n =>
      let '(data, hw) := read_data_reg hw in
      let! buffer := upd buffer pos (data mod 256) in
      let! buffer := upd buffer (pos + 1) (data / 256 mod 256) in
      read_sector n (pos + 2) buffer hw
  end.

(** [for i in 0..actual_sectors]: [n] sectors left from sector [i]. *)
Fixpoint read_sectors (fuel n : nat) (i : Z) (buffer : list Z) (hw : P) : outcome (P * list Z * (AtaError + unit)) :=
  match n with
  | O => Ret (hw, buffer, inr tt)
  | S n =>
      let! '(hw, r) := poll fuel hw in
      match r with
      | inl e => Ret (hw, buffer, inl e)
      | inr _ =>
          let! '(hw, buffer) := read_sector 256 (i * 512) buffer hw in
          read_sectors fuel n (i + 1) buffer hw
      end
  end.

Definition ata_read (fuel : nat) (lba sectors : Z) (buffer : list Z) (hw : P)
  : outcome (P * list Z * (AtaError + Z)) :=
  let actual_sectors := if sectors =? 0 then 256 else sectors in
  let sector_capacity := div_ceil (Z.of_nat (length buffer)) 512 in
  let leftover := Z.of_nat (length buffer) mod 512 in
  if (0 <? leftover) || negb (sector_capacity =? actual_sectors) then Ret (hw, buffer, inr 0) else
  let! hw := wait_not_busy fuel hw in
  let hw := command 32 lba sectors hw in
  let! '(hw, buffer, r) := read_sectors fuel (Z.to_nat actual_sectors) 0 buffer hw in
  match r with
  | inl e => Ret (hw, buffer, inl e)
  | inr _ => Ret (hw, buffer, inr (actual_sectors * 512))
  end.

(** [.chunks(2)]: an odd byte at the end is not sent. *)
Fixpoint write_words (l : list Z) (hw : P) : P :=
  match l with
  | b0 :: b1 :: l => write_words l (write_data_reg (Z.lor (Z.shiftl b1 8) b0) hw)
  | _ => hw
  end.

Fixpoint write_sectors (fuel n : nat) (i : Z) (data : list Z) (hw : P) : outcome (P * (AtaError + unit)) :=
  match n with
  | O => Ret (hw, inr tt)
  | S n =>
      let! '(hw, r) := poll fuel hw in
      match r with
      | inl e => Ret (hw, inl e)
      | inr _ =>
          let! chunk := slice data (i * 512) ((i + 1) * 512) in
          write_sectors fuel n (i + 1) data (write_words chunk hw)
      end
  end.

Definition ata_write (fuel : nat) (lba : Z) (data : list Z) (hw : P) : outcome (P * (AtaError + unit)) :=
  let actual_sectors := div_ceil (Z.of_nat (length data)) 512 in
  let leftover := Z.of_nat (length data) mod 512 in
  if (0 <? leftover) || (256 <? actual_sectors) then Ret (hw, inr tt) else
  let num_sectors := if actual_sectors <=? 255 then actual_sectors else 0 in
  let! hw := wait_not_busy fuel hw in
  let hw := command 48 lba num_sectors hw in
  let! '(hw, r) := write_sectors fuel (Z.to_nat actual_sectors) 0 data hw in
  match r with
  | inl e => Ret (hw, inl e)
  | inr _ =>
      let hw := write_u8_reg Command 231 hw in
      let hw := io_wait hw in
      let! hw := wait_not_busy fuel hw in
      Ret (hw, inr tt)
  end.
End Driver.

(** ** The device, as the ATA PIO protocol describes it *)
Inductive Phase :=
| Idle
| DataIn (lba left : Z) (k : nat)              (** word [k] of sector [lba] is next *)
| DataOut (lba left : Z) (buf : list Z)        (** bytes of sector [lba] received so far *)
| Identify (k : nat).                          (** word [k] of the drive's description is next *)

Record TaskFile := { r_count : Z; r_low : Z; r_mid : Z; r_high : Z; r_drive : Z }.
Record Device := { img : list Z; tf : TaskFile; phase : Phase; busy_for : nat }.

Definition with_busy (n : nat) (d : Device) : Device :=
  {| img := img d; tf := tf d; phase := phase d; busy_for := n |}.
Definition with_phase (p : Phase) (d : Device) : Device :=
  {| img := img d; tf := tf d; phase := p; busy_for := busy_for d |}.
Definition with_tf (t : TaskFile) (d : Device) : Device :=
  {| img := img d; tf := t; phase := phase d; busy_for := busy_for d |}.
Definition with_img (i : list Z) (d : Device) : Device :=
  {| img := i; tf := tf d; phase := phase d; busy_for := busy_for d |}.

Definition set_reg (r : DataRegister) (v : Z) (t : TaskFile) : TaskFile :=
  match t with
  | Build_TaskFile c l m h d =>
      match r with
      | SectorCount => Build_TaskFile v l m h d
      | LbaLow => Build_TaskFile c v m h d
      | LbaMid => Build_TaskFile c l v h d
      | LbaHigh => Build_TaskFile c l m v d
      | Drive => Build_TaskFile c l m h v
      | _ => t
      end
  end.

Definition tf_lba (t : TaskFile) : Z :=
  r_low t + 256 * r_mid t + 65536 * r_high t + 16777216 * (r_drive t mod 16).
Definition tf_count (t : TaskFile) : Z := if r_count t =? 0 then 256 else r_count t.

Definition has_data (p : Phase) : bool := match p with Idle => false | _ => true end.

(** After the last word of a sector the next one starts, or the transfer ends. *)
Definition next_in (lba left : Z) : Phase := if left <=? 1 then Idle else DataIn (lba + 1) (left - 1) 0.
Definition next_out (lba left : Z) : Phase := if left <=? 1 then Idle else DataOut (lba + 1) (left - 1) [].

Definition in_word (d : Device) (lba : Z) (k : nat) : Z := le_num (get (img d) (Z.to_nat (512 * lba) + 2 * k) 2).

(** One word read, or written; [n] is how long the device is busy after a
    whole sector. *)
Definition take_word (n : nat) (lba left : Z) (k : nat) (d : Device) : Device :=
  if (S k <? 256)%nat then with_phase (DataIn lba left (S k)) d
  else with_busy n (with_phase (next_in lba left) d).
Definition give_word (n : nat) (lba left : Z) (buf : list Z) (w : Z) (d : Device) : Device :=
  let buf := buf ++ [w mod 256; w / 256 mod 256] in
  if (length buf <? 512)%nat then with_phase (DataOut lba left buf) d
  else with_busy n (with_phase (next_out lba left) (with_img (put (img d) (Z.to_nat (512 * lba)) buf) d)).

Definition next_identify (k : nat) : Phase := if (S k <? 256)%nat then Identify (S k) else Idle.

(** What the driver relies on, for one drive on one bus: [view] is the state
    of the device behind the ports, [max_busy] a bound on how many status
    reads it stays busy.  The driver sends the flush command without waiting
    for the last sector to be stored, so the law of that command covers a
    device that is still busy: it may be ignored. *)
Class AtaHardware (P : Type) (IO : PortIo P) (bus : BusType) (sel : Z) := {
  view : P -> Device;
  max_busy : nat;
  status_law : forall hw, let '(st, hw') := inb (absolute Command bus) hw in
    view hw' = with_busy (pred (busy_for (view hw))) (view hw) /\ Error st = false /\
    Busy st = negb (busy_for (view hw) =? 0)%nat /\
    (busy_for (view hw) = 0%nat -> DataRequestReady st = has_data (phase (view hw)));
  alt_law : forall hw, let '(_, hw') := inb (absolute AlternateStatus bus) hw in
    view hw' = with_busy (pred (busy_for (view hw))) (view hw);
  reg_law : forall r v hw, r ∈ [SectorCount; LbaLow; LbaMid; LbaHigh; Drive] -> is_byte v ->
    busy_for (view hw) = 0%nat -> phase (view hw) = Idle ->
    view (outb (absolute r bus) v hw) = with_tf (set_reg r v (tf (view hw))) (view hw);
  cmd_law : forall cmd hw, busy_for (view hw) = 0%nat -> phase (view hw) = Idle ->
    Z.land (r_drive (tf (view hw))) 240 = Z.lor sel 64 ->
    512 * (tf_lba (tf (view hw)) + tf_count (tf (view hw))) <= Z.of_nat (length (img (view hw))) ->
    cmd = 32 \/ cmd = 48 ->
    exists n, (n <= max_busy)%nat /\ view (outb (absolute Command bus) cmd hw) =
      with_busy n (with_phase (if cmd =? 32 then DataIn (tf_lba (tf (view hw))) (tf_count (tf (view hw))) 0
                               else DataOut (tf_lba (tf (view hw))) (tf_count (tf (view hw))) []) (view hw));
  flush_law : forall hw, phase (view hw) = Idle ->
    exists n, (n <= max_busy)%nat /\ view (outb (absolute Command bus) 231 hw) = with_busy n (view hw);
  in_law : forall hw lba left k, busy_for (view hw) = 0%nat -> phase (view hw) = DataIn lba left k ->
    let '(w, hw') := inw (absolute Data bus) hw in
    w = in_word (view hw) lba k /\ exists n, (n <= max_busy)%nat /\ view hw' = take_word n lba left k (view hw);
  out_law : forall hw lba left buf w, busy_for (view hw) = 0%nat -> phase (view hw) = DataOut lba left buf ->
    0 <= w < 65536 ->
    exists n, (n <= max_busy)%nat /\ view (outw (absolute Data bus) w hw) = give_word n lba left buf w (view hw);
  (** IDENTIFY: the control register only turns interrupts off, the address
      registers read back, and the description is 256 words. *)
  description : list Z;
  description_length : length description = 256%nat;
  control_law : forall hw, view (outb (absolute AlternateStatus bus) 2 hw) = view hw;
  reg_read_law : forall r hw, r = LbaMid \/ r = LbaHigh -> busy_for (view hw) = 0%nat ->
    let '(v, hw') := inb (absolute r bus) hw in
    v = (match r with LbaMid => r_mid | _ => r_high end) (tf (view hw)) /\ view hw' = view hw;
  identify_law : forall hw, busy_for (view hw) = 0%nat -> phase (view hw) = Idle -> r_drive (tf (view hw)) = sel ->
    exists n, (n <= max_busy)%nat /\ view (outb (absolute Command bus) 236 hw) = with_busy n (with_phase (Identify 0) (view hw));
  identify_in_law : forall hw k, (k < 256)%nat -> busy_for (view hw) = 0%nat -> phase (view hw) = Identify k ->
    let '(w, hw') := inw (absolute Data bus) hw in
    description !! k = Some w /\ view hw' = with_phase (next_identify k) (view hw)
}.

(** ** Lemmas *)
Section DriverProps.
Context {P : Type} {IO : PortIo P} (bus : BusType) (sel : Z) {HW : AtaHardware P IO bus sel}.
Let self : AtaDriver := {| bus_type := bus; drive := sel |}.

Lemma wait_not_busy_ok fuel : forall hw, (busy_for (view hw) < fuel)%nat ->
  exists hw', wait_not_busy self fuel hw = Ret hw' /\ view hw' = with_busy 0 (view hw).
Proof.
  induction fuel as [|fuel IH]; intros hw Hf; [lia |]. simpl. unfold get_status, read_u8_reg. simpl.
  pose proof (status_law hw) as Hs. destruct (inb _ hw) as [st hw1]. destruct Hs as (Hv & _ & -> & _).
  destruct (busy_for (view hw)) as [|n] eqn:Eb; simpl.
  - exists hw1. split; [done |]. exact Hv.
  - destruct (IH hw1) as (hw' & E & Hv'); [rewrite Hv; simpl; lia |].
    exists hw'. split; [done |]. rewrite Hv', Hv. done.
Qed.

Lemma poll_ok fuel : forall hw, (busy_for (view hw) < fuel)%nat -> has_data (phase (view hw)) = true ->
  exists hw', poll self fuel hw = Ret (hw', inr tt) /\ view hw' = with_busy 0 (view hw).
Proof.
  induction fuel as [|fuel IH]; intros hw Hf Hd; [lia |]. simpl. unfold get_status, read_u8_reg. simpl.
  pose proof (status_law hw) as Hs. destruct (inb _ hw) as [st hw1]. destruct Hs as (Hv & -> & -> & Hr).
  destruct (busy_for (view hw)) as [|n] eqn:Eb; simpl.
  - rewrite Hr, Hd by done. exists hw1. split; [done |]. exact Hv.
  - destruct (IH hw1) as (hw' & E & Hv'); [rewrite Hv; simpl; lia | by rewrite Hv |].
    exists hw'. split; [done |]. rewrite Hv', Hv. done.
Qed.

Lemma repeat_alt_ok n : forall hw, view (repeat_alt self n hw) = with_busy (busy_for (view hw) - n) (view hw).
Proof.
  induction n as [|n IH]; intros hw; simpl.
  - rewrite Nat.sub_0_r. by destruct (view hw).
  - rewrite IH. unfold read_u8_reg. simpl. pose proof (alt_law hw) as Ha.
    destruct (inb _ hw) as [x hw1]. simpl in *. rewrite Ha. unfold with_busy. simpl. f_equal. lia.
Qed.

Lemma lba_byte_range lba i : is_byte (lba_byte lba i).
Proof. unfold lba_byte. change 255 with (2 ^ 8 - 1). rewrite land_ones_mod by lia. by apply Z.mod_pos_bound. Qed.

Lemma lba_byte_value lba i : 0 <= i -> lba_byte lba i = lba / 256 ^ i mod 256.
Proof.
  intros Hi. unfold lba_byte. change 255 with (2 ^ 8 - 1). rewrite land_ones_mod, Z.shiftr_div_pow2 by lia.
  by rewrite Z.pow_mul_r by lia.
Qed.

(** The drive register: four address bits under the drive's number. *)
Definition drive_sel : Prop := sel = 160 \/ sel = 176.
Lemma drive_reg_value b : drive_sel -> is_byte b ->
  let v := Z.lor (Z.lor (Z.land b 15) sel) 64 in
  is_byte v /\ v mod 16 = b mod 16 /\ Z.land v 240 = Z.lor sel 64.
Proof.
  intros Hs Hb. change 15 with (2 ^ 4 - 1). rewrite land_ones_mod by lia.
  assert (Hm : 0 <= b mod 2 ^ 4 < 2 ^ 4) by (apply Z.mod_pos_bound; lia).
  change (b mod 16) with (b mod 2 ^ 4). set (m := b mod 2 ^ 4) in *.
  assert (E : forall x, 0 <= x < 16 -> Z.lor (Z.lor m (x * 2 ^ 4)) 64 = (Z.lor x 4) * 2 ^ 4 + m).
  { intros x Hx. rewrite <- (lor_low (Z.lor x 4)) by lia. rewrite <- (Z.shiftl_mul_pow2 (Z.lor x 4)) by lia. rewrite Z.shiftl_lor.
    rewrite (Z.shiftl_mul_pow2 x) by lia. change (Z.shiftl 4 4) with 64.
    rewrite (Z.lor_comm m), <- !Z.lor_assoc. f_equal. apply Z.lor_comm. }
  assert (F : forall x, 0 <= x < 16 -> Z.land (x * 2 ^ 4 + m) 240 = x * 2 ^ 4).
  { intros x Hx. rewrite <- lor_low by lia. rewrite Z.land_lor_distr_l.
    assert (Z.land m 240 = 0) as ->.
    { apply Z.bits_inj'. intros i Hi. rewrite Z.land_spec, Z.bits_0. change 240 with (15 * 2 ^ 4).
      destruct (Z.lt_ge_cases i 4); [by rewrite (Z.mul_pow2_bits_low 15), andb_false_r by lia |].
      by rewrite (testbit_high m 4) by lia. }
    rewrite Z.lor_0_r. assert (x = 0 \/ x = 1 \/ x = 2 \/ x = 3 \/ x = 4 \/ x = 5 \/ x = 6 \/ x = 7 \/ x = 8 \/ x = 9
      \/ x = 10 \/ x = 11 \/ x = 12 \/ x = 13 \/ x = 14 \/ x = 15) as Hc by lia.
    repeat destruct Hc as [-> | Hc]; try reflexivity. by subst x. }
  assert (G : forall x, 0 <= x < 16 -> is_byte (x * 2 ^ 4 + m) /\ (x * 2 ^ 4 + m) mod 16 = m).
  { intros x Hx. unfold is_byte. split; [lia |]. rewrite Z.add_comm. change (2 ^ 4) with 16.
    rewrite Z.mod_add by lia. apply Z.mod_small. lia. }
  destruct Hs as [-> | ->]; [change 160 with (10 * 2 ^ 4) | change 176 with (11 * 2 ^ 4)]; cbv zeta;
    rewrite E by lia; [change (Z.lor 10 4) with 14 | change (Z.lor 11 4) with 15];
    (split; [apply G; lia | split; [apply G; lia | by rewrite F by lia]]).
Qed.

(** The task file after the five register writes. *)
Definition tf_of (lba sectors : Z) : TaskFile :=
  {| r_count := sectors; r_low := lba_byte lba 0; r_mid := lba_byte lba 1; r_high := lba_byte lba 2;
     r_drive := Z.lor (Z.lor (Z.land (lba_byte lba 3) 15) sel) 64 |}.

Lemma tf_of_lba lba sectors : drive_sel -> 0 <= lba < 2 ^ 28 -> tf_lba (tf_of lba sectors) = lba.
Proof.
  intros Hs Hl. unfold tf_lba, tf_of. simpl.
  rewrite (proj1 (proj2 (drive_reg_value _ Hs (lba_byte_range lba 3)))), !lba_byte_value by lia.
  change (256 ^ 0) with 1. change (256 ^ 1) with 256. change (256 ^ 2) with 65536. change (256 ^ 3) with 16777216.
  rewrite Z.div_1_r.
  assert (lba / 16777216 < 16) by (apply Z.div_lt_upper_bound; lia).
  assert (0 <= lba / 16777216) by (apply Z.div_pos; lia).
  rewrite (Z.mod_small (lba / 16777216) 256), (Z.mod_small (lba / 16777216) 16) by lia.
  pose proof (Z.div_mod lba 256). pose proof (Z.div_mod (lba / 256) 256). pose proof (Z.div_mod (lba / 65536) 256).
  rewrite !Z.div_div in * by lia. change (256 * 256) with 65536 in *. change (65536 * 256) with 16777216 in *. lia.
Qed.

Ltac in_regs := rewrite !elem_of_cons; tauto.

Lemma command_ok cmd lba sectors hw :
  drive_sel -> 0 <= lba < 2 ^ 28 -> is_byte sectors -> cmd = 32 \/ cmd = 48 ->
  busy_for (view hw) = 0%nat -> phase (view hw) = Idle ->
  512 * (lba + if sectors =? 0 then 256 else sectors) <= Z.of_nat (length (img (view hw))) ->
  exists n, (n <= max_busy)%nat /\
    view (command self cmd lba sectors hw) =
      {| img := img (view hw); tf := tf_of lba sectors; busy_for := n;
         phase := if cmd =? 32 then DataIn lba (if sectors =? 0 then 256 else sectors) 0
                  else DataOut lba (if sectors =? 0 then 256 else sectors) [] |}.
Proof.
  intros Hs Hl Hc Hcmd Hb Hi Hlen. unfold command, write_u8_reg. simpl bus_type. simpl drive.
  destruct (drive_reg_value _ Hs (lba_byte_range lba 3)) as (Hd1 & _ & Hd2).
  set (h1 := outb (absolute SectorCount bus) _ hw). set (h2 := outb (absolute LbaLow bus) _ h1).
  set (h3 := outb (absolute LbaMid bus) _ h2). set (h4 := outb (absolute LbaHigh bus) _ h3).
  set (h5 := outb (absolute Drive bus) _ h4).
  assert (V1 : view h1 = with_tf (set_reg SectorCount sectors (tf (view hw))) (view hw)) by (apply reg_law; [in_regs | done..]).
  assert (V2 : view h2 = with_tf (set_reg LbaLow (lba_byte lba 0) (tf (view h1))) (view h1))
    by (apply reg_law; [in_regs | apply lba_byte_range | by rewrite V1 | by rewrite V1]).
  rewrite V1 in V2. simpl in V2.
  assert (V3 : view h3 = with_tf (set_reg LbaMid (lba_byte lba 1) (tf (view h2))) (view h2))
    by (apply reg_law; [in_regs | apply lba_byte_range | by rewrite V2 | by rewrite V2]).
  rewrite V2 in V3. simpl in V3.
  assert (V4 : view h4 = with_tf (set_reg LbaHigh (lba_byte lba 2) (tf (view h3))) (view h3))
    by (apply reg_law; [in_regs | apply lba_byte_range | by rewrite V3 | by rewrite V3]).
  rewrite V3 in V4. simpl in V4.
  assert (V5 : view h5 = with_tf (set_reg Drive (r_drive (tf_of lba sectors)) (tf (view h4))) (view h4))
    by (apply reg_law; [in_regs | done | by rewrite V4 | by rewrite V4]).
  assert (V5' : view h5 = with_tf (tf_of lba sectors) (view hw)).
  { rewrite V5, V4. unfold with_tf. simpl. by destruct (tf (view hw)). }
  clear V1 V2 V3 V4 V5. 
  destruct (cmd_law cmd h5) as (n & Hn & V6).
  - by rewrite V5'.
  - by rewrite V5'.
  - by rewrite V5'.
  - rewrite V5'. cbn [tf img with_tf]. rewrite tf_of_lba by done. exact Hlen.
  - done.
  - rewrite V5' in V6. cbn [tf with_tf] in V6. rewrite tf_of_lba in V6 by done.
    unfold io_wait. rewrite repeat_alt_ok, V6. exists (n - 15)%nat. split; [lia | done].
Qed.

Lemma le_num_two b0 b1 : is_byte b0 -> is_byte b1 ->
  le_num [b0; b1] mod 256 = b0 /\ le_num [b0; b1] / 256 mod 256 = b1.
Proof.
  unfold is_byte. intros. simpl. rewrite Z.mul_0_r, Z.add_0_r, (Z.mul_comm 256).
  rewrite Z.mod_add, Z.div_add, (Z.div_small b0), Z.add_0_l, !Z.mod_small by lia. done.
Qed.

Lemma get_two {A} (l : list A) a : (a + 2 <= length l)%nat ->
  exists x y, get l a 2 = [x; y] /\ l !! a = Some x /\ l !! S a = Some y.
Proof.
  intros H. destruct (lookup_lt_is_Some_2 l a) as [x Hx]; [lia |].
  destruct (lookup_lt_is_Some_2 l (S a)) as [y Hy]; [lia |]. exists x, y. split; [| done].
  apply list_eq_same_length with 2%nat; [done | by rewrite length_get |].
  intros i u v Hi. rewrite lookup_get by done. destruct i as [|[|i]]; [| | lia]; simpl.
  - rewrite Nat.add_0_r. congruence.
  - rewrite Nat.add_1_r. congruence.
Qed.

Lemma get_none {A} (l : list A) a : get l a 0 = [].
Proof. unfold get. apply take_0. Qed.

Lemma get_split {A} (l : list A) a m n : get l a (m + n) = get l a m ++ get l (a + m) n.
Proof.
  unfold get. rewrite <- drop_drop. generalize (drop a l). clear. induction m as [|m IH]; intros l; [done |].
  destruct l as [|x l]; simpl; [by rewrite take_nil | by rewrite IH].
Qed.

(** The two bytes of one word. *)
Lemma upd_two (buf : list Z) pos x y :
  0 <= pos -> pos + 2 <= Z.of_nat (length buf) ->
  (let! b := upd buf pos x in upd b (pos + 1) y) = Ret (put buf (Z.to_nat pos) [x; y]).
Proof.
  intros Hp Hl. rewrite upd_ret by lia. cbn [obind]. rewrite upd_ret by (rewrite length_insert; lia). f_equal.
  replace (Z.to_nat (pos + 1)) with (S (Z.to_nat pos)) by lia.
  apply list_eq. intros j. destruct (decide (Z.to_nat pos <= j < Z.to_nat pos + 2)%nat) as [Hj | Hj].
  - rewrite lookup_put_in by (simpl; lia).
    assert (j = Z.to_nat pos \/ j = S (Z.to_nat pos)) as [-> | ->] by lia.
    + by rewrite list_lookup_insert_ne, list_lookup_insert_eq, Nat.sub_diag by lia.
    + rewrite list_lookup_insert_eq by (rewrite length_insert; lia).
      by replace (S (Z.to_nat pos) - Z.to_nat pos)%nat with 1%nat by lia.
  - rewrite lookup_put_out by (simpl; lia). by rewrite !list_lookup_insert_ne by lia.
Qed.

Lemma read_sector_ok n : forall k pos buffer hw lba left,
  (k + n = 256)%nat -> (0 < n)%nat -> busy_for (view hw) = 0%nat -> phase (view hw) = DataIn lba left k ->
  Forall is_byte (img (view hw)) -> 0 <= lba -> 512 * (lba + 1) <= Z.of_nat (length (img (view hw))) ->
  0 <= pos -> pos + 2 * Z.of_nat n <= Z.of_nat (length buffer) ->
  exists hw' m, (m <= max_busy)%nat /\
    read_sector self n pos buffer hw =
      Ret (hw', put buffer (Z.to_nat pos) (get (img (view hw)) (Z.to_nat (512 * lba) + 2 * k) (2 * n))) /\
    view hw' = with_busy m (with_phase (next_in lba left) (view hw)).
Proof.
  induction n as [|n IH]; intros k pos buffer hw lba left Hk Hn Hb Hp Hby H0 Hlen Hpos Hbuf; [lia |].
  cbn [read_sector]. unfold read_data_reg. simpl bus_type. pose proof (in_law hw lba left k Hb Hp) as Hin.
  destruct (inw _ hw) as [w hw1]. destruct Hin as (-> & m & Hm & Hv).
  destruct (get_two (img (view hw)) (Z.to_nat (512 * lba) + 2 * k)) as (x & y & Eg & Hx & Hy); [lia |].
  assert (Hbx : is_byte x) by (eapply Forall_lookup_1; [exact Hby | exact Hx]).
  assert (Hyb : is_byte y) by (eapply Forall_lookup_1; [exact Hby | exact Hy]).
  destruct (le_num_two x y Hbx Hyb) as [E1 E2].
  pose proof (upd_two buffer pos x y Hpos ltac:(lia)) as Hu.
  unfold in_word. rewrite Eg, E1, E2. rewrite upd_ret in * by lia. cbn [obind] in *. rewrite Hu. cbn [obind].
  replace (2 * S n)%nat with (2 + 2 * n)%nat by lia. rewrite get_split, Eg.
  unfold take_word in Hv. destruct (Nat.ltb_spec (S k) 256) as [Hlt | Hge].
  - destruct (IH (S k) (pos + 2) (put buffer (Z.to_nat pos) [x; y]) hw1 lba left)
      as (hw' & m' & Hm' & E & Hv'); rewrite ?Hv; try done; try lia.
    { rewrite length_put by (simpl; lia). lia. }
    exists hw', m'. split; [done |]. split; [| by rewrite Hv', Hv].
    rewrite E, Hv. do 2 f_equal. simpl img.
    replace (Z.to_nat (pos + 2)) with (Z.to_nat pos + length [x; y])%nat by (simpl; lia).
    rewrite put_put_app.
    + do 3 f_equal. lia.
    + rewrite length_get by lia. simpl. lia.
  - assert (n = 0%nat) as -> by lia. exists hw1, m. split; [done |]. split; [| done].
    change (2 * 0)%nat with 0%nat. rewrite get_none. done.
Qed.

Lemma ata_sectors_read fuel n : forall i buffer hw lba,
  (max_busy < fuel)%nat -> (busy_for (view hw) <= max_busy)%nat ->
  phase (view hw) = (if n =? 0 then Idle else DataIn lba (Z.of_nat n) 0)%nat ->
  Forall is_byte (img (view hw)) -> 0 <= lba -> 512 * (lba + Z.of_nat n) <= Z.of_nat (length (img (view hw))) ->
  0 <= i -> 512 * (i + Z.of_nat n) <= Z.of_nat (length buffer) ->
  exists hw' m, (m <= max_busy)%nat /\
    read_sectors self fuel n i buffer hw =
      Ret (hw', put buffer (Z.to_nat (512 * i)) (get (img (view hw)) (Z.to_nat (512 * lba)) (512 * n)), inr tt) /\
    view hw' = with_busy m (with_phase Idle (view hw)).
Proof.
  induction n as [|n IH]; intros i buffer hw lba Hf Hb Hp Hby H0 Hlen Hi Hbuf.
  - exists hw, (busy_for (view hw)). split; [done |]. change (512 * 0)%nat with 0%nat.
    rewrite get_none, put_nil. split; [done |]. simpl in Hp. unfold with_busy, with_phase. simpl.
    rewrite <- Hp. by destruct (view hw).
  - change (S n =? 0)%nat with false in Hp. cbv iota in Hp. cbn [read_sectors].
    destruct (poll_ok fuel hw) as (h1 & -> & V1); [lia | by rewrite Hp |]. cbn [obind].
    destruct (read_sector_ok 256 0 (i * 512) buffer h1 lba (Z.of_nat (S n))) as (h2 & m & Hm & E2 & V2);
      rewrite ?V1; cbn [img with_busy phase busy_for]; try done; try lia.
    rewrite E2, V1. cbn [obind]. simpl img.
    set (b1 := put buffer _ _).
    assert (Hlb : length b1 = length buffer).
    { unfold b1. rewrite length_put; [done |]. rewrite length_get by lia. lia. }
    destruct (IH (i + 1) b1 h2 (lba + 1)) as (h3 & m3 & Hm3 & E3 & V3); rewrite ?V2, ?V1;
      cbn [img with_busy with_phase with_img phase busy_for]; try done; try lia.
    { unfold next_in. destruct n as [|n]; [done |]. change (S n =? 0)%nat with false. cbv iota.
      destruct (Z.leb_spec (Z.of_nat (S (S n))) 1); [lia |]. f_equal. lia. }
    exists h3, m3. split; [done |]. split; [| by rewrite V3, V2, V1].
    rewrite E3, V2, V1. cbn [img with_busy with_phase]. unfold b1.
    replace (512 * S n)%nat with (2 * 256 + 512 * n)%nat by lia. rewrite get_split.
    change (2 * 0)%nat with 0%nat. rewrite Nat.add_0_r.
    replace (Z.to_nat (512 * (i + 1))) with
      (Z.to_nat (i * 512) + length (get (img (view hw)) (Z.to_nat (512 * lba)) (2 * 256)))%nat
      by (rewrite length_get by lia; lia).
    rewrite put_put_app by (rewrite !length_get by lia; lia).
    replace (i * 512) with (512 * i) by lia.
    by replace (Z.to_nat (512 * (lba + 1))) with (Z.to_nat (512 * lba) + 2 * 256)%nat by lia.
Qed.

Lemma chunk_word b0 b1 : is_byte b0 -> is_byte b1 ->
  let w := Z.lor (Z.shiftl b1 8) b0 in 0 <= w < 65536 /\ [w mod 256; w / 256 mod 256] = [b0; b1].
Proof.
  unfold is_byte. intros H0 H1. cbv zeta. rewrite Z.shiftl_mul_pow2, lor_low by lia. change (2 ^ 8) with 256.
  split; [lia |]. rewrite (Z.add_comm (b1 * 256)).
  rewrite Z.mod_add, Z.div_add, (Z.div_small b0), Z.add_0_l, !Z.mod_small by lia. done.
Qed.

(** The words of one chunk, the last of which completes the sector. *)
Lemma write_words_ok n : forall l buf hw lba left,
  length l = (2 * n)%nat -> (0 < n)%nat -> (length buf + length l = 512)%nat -> Forall is_byte l ->
  busy_for (view hw) = 0%nat -> phase (view hw) = DataOut lba left buf ->
  exists m, (m <= max_busy)%nat /\ view (write_words self l hw) =
    with_busy m (with_phase (next_out lba left)
      (with_img (put (img (view hw)) (Z.to_nat (512 * lba)) (buf ++ l)) (view hw))).
Proof.
  induction n as [|n IH]; intros l buf hw lba left Hl Hn Hs Hby Hb Hp; [lia |].
  destruct l as [|b0 [|b1 l]]; simpl in Hl; [lia.. |]. simpl in Hs.
  apply Forall_cons in Hby as [Hb0 Hby]. apply Forall_cons in Hby as [Hb1 Hby].
  destruct (chunk_word b0 b1 Hb0 Hb1) as [Hw Ew]. simpl. unfold write_data_reg. simpl.
  destruct (out_law hw lba left buf _ Hb Hp Hw) as (m & Hm & Hv). unfold give_word in Hv.
  rewrite Ew, length_app in Hv. simpl length in Hv.
  destruct (Nat.ltb_spec (length buf + 2) 512) as [Hlt | Hge].
  - destruct (IH l (buf ++ [b0; b1]) (outw (absolute Data bus) (Z.lor (Z.shiftl b1 8) b0) hw) lba left)
      as (m' & Hm' & V); rewrite ?Hv; simpl; rewrite ?length_app; simpl; try done; try lia.
    exists m'. split; [done |]. rewrite V, Hv. unfold with_busy, with_phase, with_img. simpl.
    by rewrite <- app_assoc.
  - destruct l as [|]; simpl in *; [| lia]. exists m. split; [done |]. exact Hv.
Qed.

Lemma ata_sectors_written fuel n : forall i data hw lba,
  (max_busy < fuel)%nat -> (busy_for (view hw) <= max_busy)%nat ->
  phase (view hw) = (if n =? 0 then Idle else DataOut lba (Z.of_nat n) [])%nat ->
  0 <= lba -> 512 * (lba + Z.of_nat n) <= Z.of_nat (length (img (view hw))) -> Forall is_byte data ->
  0 <= i -> 512 * (i + Z.of_nat n) = Z.of_nat (length data) ->
  exists hw' m, (m <= max_busy)%nat /\ write_sectors self fuel n i data hw = Ret (hw', inr tt) /\
    view hw' = with_busy m (with_phase Idle (with_img
      (put (img (view hw)) (Z.to_nat (512 * lba)) (drop (Z.to_nat (512 * i)) data)) (view hw))).
Proof.
  induction n as [|n IH]; intros i data hw lba Hf Hb Hp H0 Hlen Hby Hi Hd.
  - exists hw, (busy_for (view hw)). split; [done |]. split; [done |].
    rewrite drop_ge, put_nil by lia. simpl in Hp. unfold with_busy, with_phase, with_img. simpl.
    rewrite <- Hp. by destruct (view hw).
  - change (S n =? 0)%nat with false in Hp. cbv iota in Hp. cbn [write_sectors].
    destruct (poll_ok fuel hw) as (h1 & -> & V1); [lia | by rewrite Hp |]. cbn [obind].
    rewrite slice_get by lia. cbn [obind]. set (ch := get data _ _).
    assert (Hch : length ch = (2 * 256)%nat) by (unfold ch; rewrite length_get; lia).
    destruct (write_words_ok 256 ch [] h1 lba (Z.of_nat (S n))) as (m & Hm & V2);
      rewrite ?V1; cbn [img with_busy phase busy_for]; try done; try (simpl; lia); [by apply Forall_get |].
    set (h2 := write_words self ch h1) in *.
    destruct (IH (i + 1) data h2 (lba + 1)) as (h3 & m3 & Hm3 & E3 & V3); rewrite ?V2, ?V1;
      cbn [img with_busy with_phase with_img phase busy_for]; try done; try lia.
    { unfold next_out. destruct n as [|n]; [done |]. change (S n =? 0)%nat with false. cbv iota.
      destruct (Z.leb_spec (Z.of_nat (S (S n))) 1); [lia |]. f_equal. lia. }
    { rewrite length_put by (cbn [app]; lia). lia. }
    exists h3, m3. split; [done |]. split; [done |]. rewrite V3, V2, V1.
    unfold with_busy, with_phase, with_img. cbn [img tf phase busy_for]. f_equal.
    replace (Z.to_nat (512 * (lba + 1))) with (Z.to_nat (512 * lba) + length ([] ++ ch))%nat by (simpl; lia).
    rewrite put_put_app by (rewrite length_drop; simpl; lia). f_equal. simpl. unfold ch, get.
    replace (Z.to_nat (512 * (i + 1))) with (Z.to_nat (i * 512) + Z.to_nat ((i + 1) * 512 - i * 512))%nat by lia.
    rewrite <- drop_drop, take_drop. f_equal. lia.
Qed.

Definition ready (hw : P) : Prop :=
  (busy_for (view hw) <= max_busy)%nat /\ phase (view hw) = Idle /\ Forall is_byte (img (view hw)).

Lemma whole_sectors n : 1 <= n -> div_ceil (512 * n) 512 = n /\ 512 * n mod 512 = 0.
Proof.
  intros Hn. unfold div_ceil. replace (512 * n + 512 - 1) with (511 + n * 512) by lia.
  rewrite Z.div_add by lia. rewrite (Z.mul_comm 512), Z.mod_mul by lia. done.
Qed.

Lemma ata_read_ok fuel lba n buffer hw :
  drive_sel -> ready hw -> (max_busy < fuel)%nat ->
  0 <= lba -> lba + n < 2 ^ 28 -> 1 <= n <= 255 -> 512 * (lba + n) <= Z.of_nat (length (img (view hw))) ->
  Z.of_nat (length buffer) = 512 * n ->
  exists hw', ata_read self fuel lba n buffer hw =
      Ret (hw', get (img (view hw)) (Z.to_nat (512 * lba)) (Z.to_nat (512 * n)), inr (512 * n)) /\
    ready hw' /\ img (view hw') = img (view hw).
Proof.
  intros Hs (Hb & Hp & Hby) Hf Hl Hl' Hn Hlen Hbuf. unfold ata_read. rewrite Hbuf.
  destruct (whole_sectors n) as [-> ->]; [lia |]. destruct (Z.eqb_spec n 0); [lia |]. rewrite Z.eqb_refl. simpl negb.
  cbn [Z.ltb Z.compare orb]. destruct (wait_not_busy_ok fuel hw) as (h1 & -> & V1); [lia |]. cbn [obind].
  destruct (command_ok 32 lba n h1) as (m & Hm & V2);
    [done | lia | unfold is_byte; lia | by left | by rewrite V1 | by rewrite V1 | |].
  { rewrite V1, (proj2 (Z.eqb_neq n 0)) by lia. done. }
  rewrite V1 in V2.
  rewrite (proj2 (Z.eqb_neq n 0)) in V2 by done. cbn [Z.eqb Pos.eqb] in V2.
  set (h2 := command self 32 lba n h1) in *.
  destruct (ata_sectors_read fuel (Z.to_nat n) 0 buffer h2 lba) as (h3 & m3 & Hm3 & E3 & V3);
    rewrite ?V2, ?V1; cbn [img with_busy phase busy_for]; try done; try lia.
  { destruct (Nat.eqb_spec (Z.to_nat n) 0); [lia |]. by rewrite Z2Nat.id by lia. }
  rewrite E3, V2. cbn [obind img with_busy]. exists h3. split.
  - replace (512 * Z.to_nat n)%nat with (Z.to_nat (512 * n)) by lia. rewrite (Z.mul_comm n).
    do 3 f_equal. change (Z.to_nat (512 * 0)) with 0%nat. unfold put. rewrite length_get by lia.
    rewrite take_0, drop_ge, app_nil_r by lia. done.
  - unfold ready. rewrite V3, V2. done.
Qed.

Lemma ata_write_ok fuel lba n data hw :
  drive_sel -> ready hw -> (max_busy < fuel)%nat ->
  0 <= lba -> lba + n < 2 ^ 28 -> 1 <= n <= 255 -> 512 * (lba + n) <= Z.of_nat (length (img (view hw))) ->
  Z.of_nat (length data) = 512 * n -> Forall is_byte data ->
  exists hw', ata_write self fuel lba data hw = Ret (hw', inr tt) /\
    ready hw' /\ img (view hw') = put (img (view hw)) (Z.to_nat (512 * lba)) data.
Proof.
  intros Hs (Hb & Hp & Hby) Hf Hl Hl' Hn Hlen Hd Hdb. unfold ata_write. rewrite Hd.
  destruct (whole_sectors n) as [-> ->]; [lia |]. destruct (Z.ltb_spec 256 n); [lia |]. 
  destruct (Z.leb_spec n 255); [| lia]. cbn [Z.ltb Z.compare orb].
  destruct (wait_not_busy_ok fuel hw) as (h1 & -> & V1); [lia |]. cbn [obind].
  destruct (command_ok 48 lba n h1) as (m & Hm & V2);
    [done | lia | unfold is_byte; lia | by right | by rewrite V1 | by rewrite V1 | |].
  { rewrite V1, (proj2 (Z.eqb_neq n 0)) by lia. done. }
  rewrite V1 in V2.
  rewrite (proj2 (Z.eqb_neq n 0)) in V2 by lia. cbn [Z.eqb Pos.eqb] in V2.
  set (h2 := command self 48 lba n h1) in *.
  destruct (ata_sectors_written fuel (Z.to_nat n) 0 data h2 lba) as (h3 & m3 & Hm3 & E3 & V3);
    rewrite ?V2, ?V1; cbn [img with_busy phase busy_for]; try done; try lia.
  { destruct (Nat.eqb_spec (Z.to_nat n) 0); [lia |]. by rewrite Z2Nat.id by lia. }
  rewrite E3. cbn [obind]. unfold write_u8_reg. simpl bus_type.
  destruct (flush_law h3) as (m4 & Hm4 & V4); [by rewrite V3 |].
  set (h4 := outb (absolute Command bus) 231 h3) in *.
  destruct (wait_not_busy_ok fuel (io_wait self h4)) as (h5 & E5 & V5).
  { unfold io_wait. rewrite repeat_alt_ok, V4. cbn [busy_for with_busy]. lia. }
  rewrite E5. cbn [obind]. exists h5. split; [done |]. unfold ready. rewrite V5. unfold io_wait.
  rewrite repeat_alt_ok, V4, V3, V2. cbn [img with_busy with_phase with_img phase busy_for].
  change (Z.to_nat (512 * 0)) with 0%nat. rewrite drop_0. split; [| done]. split; [lia |]. split; [done |].
  by apply Forall_put.
Qed.

(** ** IDENTIFY *)
Lemma poll_identify_ok fuel : forall hw, (busy_for (view hw) < fuel)%nat -> has_data (phase (view hw)) = true ->
  busy_for (view hw) = 0%nat -> exists hw', poll_identify self fuel hw = Ret (hw', inr tt) /\ view hw' = view hw.
Proof.
  intros hw Hf Hd Hb. destruct fuel as [|fuel]; [lia |]. simpl. unfold get_status, read_u8_reg. simpl.
  pose proof (status_law hw) as Hs. destruct (inb _ hw) as [st hw1]. destruct Hs as (Hv & -> & _ & Hr). rewrite Hr, Hd by done.
  exists hw1. split; [done |]. rewrite Hv, Hb. unfold with_busy. cbn. rewrite <- Hb. by destruct (view hw).
Qed.

Lemma read_words_ok n : forall k hw, (k + n = 256)%nat -> busy_for (view hw) = 0%nat ->
  phase (view hw) = (if n =? 0 then Idle else Identify k)%nat ->
  exists hw', read_words self n hw = (drop k description, hw') /\ view hw' = with_phase Idle (view hw).
Proof.
  induction n as [|n IH]; intros k hw Hk Hb Hp.
  - exists hw. simpl. rewrite drop_ge by (rewrite description_length; lia). split; [done |]. simpl in Hp. unfold with_phase. rewrite <- Hp. by destruct (view hw).
  - change (S n =? 0)%nat with false in Hp. cbv iota in Hp. cbn [read_words]. unfold read_data_reg. simpl bus_type.
    pose proof (identify_in_law hw k ltac:(lia) Hb Hp) as Hi. destruct (inw _ hw) as [w h1]. destruct Hi as [Hw Hv].
    destruct (IH (S k) h1) as (h2 & E & Hv2); [lia | by rewrite Hv | |].
    { rewrite Hv. cbn [phase with_phase]. unfold next_identify. destruct n as [|n]; [by destruct (Nat.ltb_spec (S k) 256); [lia |] |].
      destruct (Nat.ltb_spec (S k) 256); [done | lia]. }
    exists h2. rewrite E. split; [f_equal; symmetry; by apply drop_S | by rewrite Hv2, Hv].
Qed.

Lemma reg_step r v hw : r ∈ [SectorCount; LbaLow; LbaMid; LbaHigh; Drive] -> is_byte v ->
  busy_for (view hw) = 0%nat /\ phase (view hw) = Idle ->
  let hw' := write_u8_reg self r v hw in
  (busy_for (view hw') = 0%nat /\ phase (view hw') = Idle) /\ img (view hw') = img (view hw) /\ tf (view hw') = set_reg r v (tf (view hw)).
Proof. intros Hr Hv [Hb Hp]. cbv zeta. unfold write_u8_reg. simpl bus_type. by rewrite (reg_law r v hw Hr Hv Hb Hp). Qed.

Lemma description_parsed : exists info, parse_disk_info description = Ret info.
Proof.
  unfold parse_disk_info. pose proof description_length as Hl. 
  assert (Hi : forall i, 0 <= i < 256 -> exists v, idx description i = Ret v).
  { intros i Hi. destruct (lookup_lt_is_Some_2 description (Z.to_nat i)) as [v Hv]; [lia |]. exists v. by rewrite (idx_ret _ _ v) by (lia || done). }
  repeat match goal with |- context [idx description ?i] => let v := fresh in let E := fresh in destruct (Hi i ltac:(lia)) as [v E]; rewrite E; cbn [obind]; clear E end.
  eauto.
Qed.

(** A drive that is there is recognised, and left ready for commands. *)
Lemma availability_ok fuel hw : drive_sel -> (busy_for (view hw) <= 1)%nat -> phase (view hw) = Idle -> Forall is_byte (img (view hw)) -> (max_busy < fuel)%nat ->
  exists hw' info, availability self fuel hw = Ret (hw', inr (Some info)) /\ parse_disk_info description = Ret info /\
    ready hw' /\ img (view hw') = img (view hw).
Proof.
  intros Hs Hb Hp Hby Hf. unfold availability. assert (Hsel : is_byte sel) by (unfold is_byte; destruct Hs as [-> | ->]; lia). simpl drive.
  set (h0 := write_u8_reg self AlternateStatus 2 hw). assert (V0 : view h0 = view hw) by apply control_law.
  unfold read_u8_reg at 1. simpl bus_type. pose proof (status_law h0) as S0. destruct (inb (absolute Command bus) h0) as [st h1]. destruct S0 as (V1 & Her & _).
  destruct (Z.eqb_spec st 255) as [-> | _]; [done |]. rewrite V0 in V1.
  assert (P1 : busy_for (view h1) = 0%nat /\ phase (view h1) = Idle) by (rewrite V1; cbn; split; [lia | done]).
  assert (I1 : img (view h1) = img (view hw)) by (by rewrite V1). clear V1 V0.
  destruct (reg_step Drive sel h1 ltac:(in_regs) Hsel P1) as (P2 & I2 & T2). set (h2 := write_u8_reg self Drive sel h1) in *.
  destruct (reg_step SectorCount 0 h2 ltac:(in_regs) ltac:(by split) P2) as (P3 & I3 & T3). set (h3 := write_u8_reg self SectorCount 0 h2) in *.
  destruct (reg_step LbaLow 0 h3 ltac:(in_regs) ltac:(by split) P3) as (P4 & I4 & T4). set (h4 := write_u8_reg self LbaLow 0 h3) in *.
  destruct (reg_step LbaMid 0 h4 ltac:(in_regs) ltac:(by split) P4) as (P5 & I5 & T5). set (h5 := write_u8_reg self LbaMid 0 h4) in *.
  destruct (reg_step LbaHigh 0 h5 ltac:(in_regs) ltac:(by split) P5) as (P6 & I6 & T6). set (h6 := write_u8_reg self LbaHigh 0 h5) in *.
  assert (T : tf (view h6) = {| r_count := 0; r_low := 0; r_mid := 0; r_high := 0; r_drive := sel |}).
  { rewrite T6, T5, T4, T3, T2. by destruct (tf (view h1)). }
  assert (I : img (view h6) = img (view hw)) by congruence. clear T2 T3 T4 T5 T6 I1 I2 I3 I4 I5 I6 P1 P2 P3 P4 P5.
  clearbody h6. clear h0 h2 h3 h4 h5 h1 Her st. destruct P6 as [B6 P6]. unfold write_u8_reg. simpl bus_type.
  destruct (identify_law h6 B6 P6) as (n & Hn & V7); [by rewrite T |]. set (h7 := io_wait self (outb (absolute Command bus) 236 h6)).
  assert (V7' : view h7 = with_busy (n - 15) (with_phase (Identify 0) (view h6))) by (unfold h7, io_wait; rewrite repeat_alt_ok, V7; done).
  clearbody h7. clear V7. unfold read_u8_reg at 1. simpl bus_type.
  pose proof (status_law h7) as S7. destruct (inb (absolute Command bus) h7) as [st h8]. destruct S7 as (V8 & _ & Hby8 & Hdrq). rewrite V7' in V8, Hby8, Hdrq. cbn in V8, Hby8, Hdrq.
  destruct (Z.eqb_spec st 0) as [-> | _].
  { exfalso. destruct (n - 15)%nat eqn:E; [| by cbn in Hby8]. specialize (Hdrq eq_refl). by cbn in Hdrq. }
  destruct (wait_not_busy_ok fuel h8) as (h9 & -> & V9); [rewrite V8; cbn; lia |]. cbn [obind]. rewrite V8 in V9. cbn in V9. clear V8 Hby8 Hdrq.
  unfold read_u8_reg at 1. simpl bus_type. pose proof (reg_read_law LbaMid h9 (or_introl eq_refl) ltac:(by rewrite V9)) as R1.
  destruct (inb (absolute LbaMid bus) h9) as [v1 h10]. destruct R1 as [-> V10].
  unfold read_u8_reg at 1. simpl bus_type. pose proof (reg_read_law LbaHigh h10 (or_intror eq_refl) ltac:(by rewrite V10, V9)) as R2.
  destruct (inb (absolute LbaHigh bus) h10) as [v2 h11]. destruct R2 as [-> V11]. rewrite V10 in *. rewrite V9 in *. cbn [tf with_busy with_phase].
  rewrite T. cbn [r_mid r_high Z.ltb Z.compare orb].
  destruct (poll_identify_ok fuel h11) as (h12 & -> & V12); [rewrite V11; cbn; lia | by rewrite V11 | by rewrite V11 |]. cbn [obind].
  destruct (read_words_ok 256 0 h12) as (h13 & -> & V13); [done | by rewrite V12, V11 | by rewrite V12, V11 |].
  destruct description_parsed as [info Ei]. rewrite drop_0, Ei. cbn [obind]. exists h13, info.
  assert (V : img (view h13) = img (view hw) /\ busy_for (view h13) = 0%nat /\ phase (view h13) = Idle) by (rewrite V13, V12, V11; cbn; by rewrite I).
  destruct V as (Vi & Vb & Vp). split; [done |]. split; [done |]. split; [| done]. split; [rewrite Vb; lia |]. split; [done | by rewrite Vi].
Qed.

(** ** Properties *)

(** [C27] The ATA driver refines the disk in memory.  On a drive that obeys the
    ATA protocol, however long it stays busy up to the bound, [read] and
    [write] of whole sectors return, with the results of the disk in memory
    holding the drive's image; a read leaves the image alone, a write leaves
    the drive with exactly the image the disk in memory has, and both leave
    the drive ready for the next command. *)
Theorem ata_refines_disk fuel lba n buf data hw :
  drive_sel -> ready hw -> (max_busy < fuel)%nat ->
  0 <= lba -> lba + n < 2 ^ 28 -> 1 <= n <= 255 -> 512 * (lba + n) <= Z.of_nat (length (img (view hw))) ->
  Z.of_nat (length buf) = 512 * n -> Z.of_nat (length data) = 512 * n -> Forall is_byte data ->
  (exists hw' out r, RamDisk.ram_read (img (view hw)) lba n buf = Ret (out, r) /\
     ata_read self fuel lba n buf hw = Ret (hw', out, r) /\ ready hw' /\ img (view hw') = img (view hw)) /\
  (exists hw' d r, RamDisk.ram_write (img (view hw)) lba data = Ret (d, r) /\
     ata_write self fuel lba data hw = Ret (hw', r) /\ ready hw' /\ img (view hw') = d).
Proof.
  intros Hs Hr Hf Hl Hl' Hn Hlen Hbuf Hd Hdb. pose proof Hr as (_ & _ & Hby). split.
  - destruct (ata_read_ok fuel lba n buf hw) as (hw' & E & Hr' & Hi); try done.
    eexists hw', _, _. split; [apply (read_ok (BlockDeviceLaws := RamDisk.ram_disk_laws)); try done; lia |]. done.
  - destruct (ata_write_ok fuel lba n data hw) as (hw' & E & Hr' & Hi); try done.
    destruct (write_ok (BlockDeviceLaws := RamDisk.ram_disk_laws) (img (view hw)) lba n data) as (d' & E' & _ & Hd');
      try done; try lia.
    eexists hw', d', _. split; [exact E' |]. split; [done |]. split; [done |]. by rewrite Hi.
Qed.

End DriverProps.

(** ** A device in memory, busy for two status reads after each command and
    each sector *)
Module AtaDevice.
Definition dev_status (d : Device) : Z :=
  if (busy_for d =? 0)%nat then (if has_data (phase d) then 88 else 80) else 128.
Definition tick (d : Device) : Device := with_busy (pred (busy_for d)) d.

Definition dev_inb (port : Z) (d : Device) : Z * Device :=
  if (port =? 503) || (port =? 1014) then (dev_status d, tick d)
  else if port =? 500 then (r_mid (tf d), d) else if port =? 501 then (r_high (tf d), d) else (0, d).
(** A hard disk of three sectors. *)
Definition words : list Z := <[60%nat := 3]> (replicate 256 0).
Definition dev_reg (port : Z) : option DataRegister :=
  if port =? 498 then Some SectorCount else if port =? 499 then Some LbaLow else
  if port =? 500 then Some LbaMid else if port =? 501 then Some LbaHigh else
  if port =? 502 then Some Drive else None.
Definition dev_outb (port v : Z) (d : Device) : Device :=
  if port =? 503 then
    if (v =? 32) || (v =? 48) then
      with_busy 2 (with_phase (if v =? 32 then DataIn (tf_lba (tf d)) (tf_count (tf d)) 0
                               else DataOut (tf_lba (tf d)) (tf_count (tf d)) []) d)
    else if v =? 236 then with_busy 2 (with_phase (Identify 0) d)
    else with_busy 2 d
  else match dev_reg port with Some r => with_tf (set_reg r v (tf d)) d | None => d end.
Definition dev_inw (port : Z) (d : Device) : Z * Device :=
  match phase d with
  | DataIn lba c k => (in_word d lba k, take_word 2 lba c k d)
  | Identify k => (default 0 (words !! k), with_phase (next_identify k) d)
  | _ => (0, d)
  end.
Definition dev_outw (port w : Z) (d : Device) : Device :=
  match phase d with DataOut lba c buf => give_word 2 lba c buf w d | _ => d end.

#[export] Instance dev_io : PortIo Device :=
  {| inb := dev_inb; outb := dev_outb; inw := dev_inw; outw := dev_outw |}.

Definition dev_laws (sel : Z) : AtaHardware Device dev_io Primary sel.
Proof.
  refine {| view := fun d => d; max_busy := 2; description := words |}.
  - intros d. simpl. split; [done |]. unfold dev_status.
    destruct (busy_for d) as [|n]; simpl; [destruct (has_data (phase d)) |]; done.
  - intros d. done.
  - intros r v d Hr _ _ _. simpl. rewrite !elem_of_cons, elem_of_nil in Hr.
    destruct Hr as [-> | [-> | [-> | [-> | [-> | []]]]]]; done.
  - intros cmd d _ _ _ _ [-> | ->]; exists 2%nat; (split; [lia | done]).
  - intros d _. exists 2%nat. split; [lia | done].
  - intros d lba left k _ Hp. simpl. unfold dev_inw. rewrite Hp. split; [done |]. exists 2%nat. split; [lia | done].
  - intros d lba left buf w _ Hp _. exists 2%nat. split; [lia |]. simpl. unfold dev_outw. by rewrite Hp.
  - unfold words. by rewrite length_insert, length_replicate.
  - done.
  - intros r d [-> | ->] _; done.
  - intros d _ _ _. exists 2%nat. split; [lia | done].
  - intros d k Hk _ Hp. simpl. unfold dev_inw. rewrite Hp. split; [| done].
    destruct (lookup_lt_is_Some_2 words k) as [w Hw]; [unfold words; by rewrite length_insert, length_replicate | by rewrite Hw].
Defined.
#[export] Instance dev_hardware : AtaHardware Device dev_io Primary 160 := dev_laws 160.

Definition img0 : list Z := replicate 512 1 ++ replicate 512 2 ++ replicate 512 3.
Definition dev0 : Device :=
  {| img := img0; phase := Idle; busy_for := 1;
     tf := {| r_count := 0; r_low := 0; r_mid := 0; r_high := 0; r_drive := 0 |} |}.

Lemma dev0_bytes : Forall is_byte (img dev0).
Proof.
  change (img dev0) with img0. unfold img0, is_byte. repeat apply Forall_app_2; apply Forall_replicate; lia.
Qed.

(** Sectors 1 and 2 are read, then overwritten with 7s. *)
Lemma ata_refines_disk_witness :
  (exists hw' out r, RamDisk.ram_read (img (view dev0)) 1 2 (replicate 1024 0) = Ret (out, r) /\
     ata_read (ata_new Primary Master) 3 1 2 (replicate 1024 0) dev0 = Ret (hw', out, r) /\
     ready Primary 160 hw' /\ img (view hw') = img (view dev0)) /\
  (exists hw' d r, RamDisk.ram_write (img (view dev0)) 1 (replicate 1024 7) = Ret (d, r) /\
     ata_write (ata_new Primary Master) 3 1 (replicate 1024 7) dev0 = Ret (hw', r) /\
     ready Primary 160 hw' /\ img (view hw') = d).
Proof.
  assert (L : length (img dev0) = 1536%nat) 
    by (change (img dev0) with img0; unfold img0; by rewrite !length_app, !length_replicate).
  change (ata_new Primary Master) with {| bus_type := Primary; drive := 160 |}.
  apply (ata_refines_disk Primary 160 3 1 2 (replicate 1024 0) (replicate 1024 7) dev0);
    [by left | | simpl; lia | lia | lia | lia | | by rewrite length_replicate | by rewrite length_replicate |].
  - split; [simpl; lia |]. split; [done | apply dev0_bytes].
  - change (view dev0) with dev0. rewrite L. lia.
  - apply Forall_replicate. unfold is_byte. lia.
Defined.
End AtaDevice.
