(* ===== verification/Ustar.v ===== *)
(** * The USTAR archive reader

    [kernel/src/fs/ustar.rs]: a read-only archive in memory, a sequence of
    512-byte headers each followed by its file's data in whole blocks.  The
    theorems relate the scan of the bytes to a list of entries. *)
From S2P Require Import Prelude Slices Text.

(** ** Headers: the fields of the [repr(C)] struct, at their offsets *)
Definition Header : Type := list Z.
Definition file_name (h : Header) : list Z := get h 0 100.
Definition file_size (h : Header) : list Z := get h 124 12.
Definition checkum (h : Header) : list Z := get h 148 8.
Definition type_flag (h : Header) : list Z := get h 156 1.
Definition filename_prefix (h : Header) : list Z := get h 345 155.

Record TarEntry := { header : Header; data_start : Z; data_end : Z }.

Definition is_zeroed (data : list Z) : bool := forallb (fun b => b =? 0) data.

(** [octascii_to_dec]: [result * 8 + digit] on [usize], after [byte - b'0']. *)
Fixpoint octascii_loop (number : list Z) (result : Z) : outcome Z :=
  match number with
  | [] => Ret result
  | byte :: number =>
      if (byte =? 0) || (byte =? 32) then Ret result else
      let! digit := sub_u byte 48 in
      let! r := chk_u 64 (result * 8) in
      let! r := chk_u 64 (r + digit) in
      octascii_loop number r
  end.
Definition octascii_to_dec (number : list Z) : outcome Z := octascii_loop number 0.

(** [.to_str().unwrap_or("")] *)
Definition parsed (field : list Z) : list Z :=
  let s := default [] (until_nul field) in if utf8_valid s then s else [].

(** [if filename.ends_with('/') { filename.pop(); }] *)
Definition pop_slash (l : list Z) : list Z :=
  match last l with Some b => if b =? 47 then removelast l else l | None => l end.

(** ** The scan *)
Section Archive.
Context (fs_data : list Z).

Definition sum (l : list Z) : Z := foldr Z.add 0 l.

(** One turn of either loop up to the entry's name: the archive's end or a bad
    checksum, a block of zeros, or an entry with its size in whole blocks. *)
Inductive block := Stop | ZeroBlock | Entry (h : Header) (file_size : Z).

Definition read_block (start : Z) : outcome block :=
  if Z.of_nat (length fs_data) <? start + 512 then Ret Stop else
  let! header_bytes := slice fs_data start (start + 512) in
  let! ck := slice header_bytes 148 156 in
  let! d := sub_u (sum header_bytes) (sum ck) in
  let my_checksum := d + 256 in
  let! checksum := octascii_to_dec (checkum header_bytes) in
  if negb (checksum =? my_checksum) then Ret Stop else
  if is_zeroed header_bytes then Ret ZeroBlock else
  let! size := octascii_to_dec (file_size header_bytes) in
  Ret (Entry header_bytes ((size + 511) / 512 * 512)).

(** The name, in [file_lookup] and in [read_dir]. *)
Definition full_name (h : Header) : list Z :=
  if negb (default 0 (filename_prefix h !! 0%nat) =? 0)
  then parsed (filename_prefix h) ++ [47] ++ parsed (file_name h) else parsed (file_name h).
Definition dir_name (h : Header) : list Z := pop_slash (47 :: full_name h).
Definition in_dir (query_path : list Z) (h : Header) : bool :=
  let parent := fst (default ([], []) (rsplit_once 47 (dir_name h))) in
  (bool_decide (parent = []) && bool_decide (query_path = [47])) || bool_decide (parent = query_path).

Fixpoint lookup_loop (fuel : nat) (query : list Z) (start zero_count : Z) : outcome (option TarEntry) :=
  match fuel with
  | O => NoFuel
  | S fuel =>
      if 2 <=? zero_count then Ret None else
      let! b := read_block start in
      match b with
      | Stop => Ret None
      | ZeroBlock => lookup_loop fuel query (start + 512) (zero_count + 1)
      | Entry h size =>
          if bool_decide (full_name h = query)
          then Ret (Some {| header := h; data_start := start + 512; data_end := start + 512 + size |})
          else lookup_loop fuel query (start + 512 + size) 0
      end
  end.

Fixpoint dir_loop (fuel : nat) (query_path : list Z) (start zero_count : Z) (entries : list Header)
  : outcome (list Header) :=
  match fuel with
  | O => NoFuel
  | S fuel =>
      if 2 <=? zero_count then Ret entries else
      let! b := read_block start in
      match b with
      | Stop => Ret entries
      | ZeroBlock => dir_loop fuel query_path (start + 512) (zero_count + 1) entries
      | Entry h size =>
          dir_loop fuel query_path (start + 512 + size) 0
            (if in_dir query_path h then entries ++ [h] else entries)
      end
  end.

(** Every turn moves at least one block on. *)
Definition scan_fuel : nat := S (length fs_data / 512).
Definition file_lookup (query : list Z) : outcome (option TarEntry) := lookup_loop scan_fuel query 0 0.
Definition read_dir (query_path : list Z) : outcome (list Header) := dir_loop scan_fuel query_path 0 0 [].

(** [read]: the offset is not used. *)
Definition tar_read (entry : TarEntry) (buffer : list Z) (offset : Z) : outcome (list Z * Z) :=
  let! file_len := octascii_to_dec (file_size (header entry)) in
  let target_read_bytes := Z.min file_len (Z.of_nat (length buffer)) in
  let! src := slice fs_data (data_start entry) (data_start entry + target_read_bytes) in
  let! buffer := splice buffer 0 src in
  Ret (buffer, target_read_bytes).
End Archive.

(** ** Archives as lists of files *)
Record item := { i_header : Header; i_data : list Z }.

Definition header_ok (it : item) : Prop :=
  length (i_header it) = 512%nat /\ Forall is_byte (i_header it) /\
  octascii_to_dec (checkum (i_header it)) =
    Ret (sum (i_header it) - sum (get (i_header it) 148 8) + 256) /\
  octascii_to_dec (file_size (i_header it)) = Ret (Z.of_nat (length (i_data it))).

Definition padded (n : Z) : Z := (n + 511) / 512 * 512.
Definition blocks (data : list Z) : list Z :=
  data ++ replicate (Z.to_nat (padded (Z.of_nat (length data)) - Z.of_nat (length data))) 0.
Definition item_bytes (it : item) : list Z := i_header it ++ blocks (i_data it).
Definition archive (items : list item) (tail : list Z) : list Z := (items ≫= item_bytes) ++ tail.

(** The archive ends: fewer bytes than a block, or a block of zeros. *)
Definition ends (tail : list Z) : Prop :=
  (length tail < 512)%nat \/ exists rest, tail = replicate 512 0 ++ rest.

Lemma sum_app l1 l2 : sum (l1 ++ l2) = sum l1 + sum l2.
Proof. unfold sum. induction l1 as [|x l1 IH]; simpl in *; lia. Qed.

Lemma sum_nonneg l : Forall is_byte l -> 0 <= sum l.
Proof. unfold is_byte, sum. induction 1; simpl; lia. Qed.

Lemma sum_part l a n : Forall is_byte l -> (a + n <= length l)%nat -> sum (get l a n) <= sum l.
Proof.
  intros Hb Hl. assert (E : sum l = sum (take a l) + (sum (get l a n) + sum (drop n (drop a l)))).
  { unfold get. by rewrite <- !sum_app, !take_drop. }
  pose proof (sum_nonneg _ (Forall_take _ a _ Hb)).
  pose proof (sum_nonneg _ (Forall_drop _ n _ (Forall_drop _ a _ Hb))). lia.
Qed.

Lemma padded_ge n : 0 <= n -> n <= padded n /\ padded n mod 512 = 0.
Proof.
  intros Hn. unfold padded. pose proof (Z.div_mod (n + 511) 512). pose proof (Z.mod_pos_bound (n + 511) 512).
  rewrite Z.mod_mul by lia. lia.
Qed.

Lemma length_blocks data : Z.of_nat (length (blocks data)) = padded (Z.of_nat (length data)).
Proof.
  unfold blocks. rewrite length_app, length_replicate.
  pose proof (padded_ge (Z.of_nat (length data))). lia.
Qed.

(** A header whose checksum holds is not all zeros: that sum would be 256. *)
Lemma zeroed_checksum h : is_zeroed h = true -> length h = 512%nat ->
  octascii_to_dec (checkum h) = Ret 0 /\ sum h = 0 /\ sum (get h 148 8) = 0.
Proof.
  intros Hz Hl. assert (Hall : Forall (eq 0) h).
  { apply Forall_forall. intros x Hx. unfold is_zeroed in Hz. rewrite forallb_forall in Hz.
    specialize (Hz x (proj1 (list_elem_of_In _ _) Hx)). lia. }
  assert (Hs : forall l, Forall (eq 0) l -> sum l = 0).
  { unfold sum. induction 1 as [|x l <- _ IH]; simpl; lia. }
  split; [| split; [by apply Hs | by apply Hs, Forall_get]].
  unfold octascii_to_dec, checkum. pose proof (Forall_get _ _ 148 8 Hall) as Hg.
  assert (Hlen : length (get h 148 8) = 8%nat) by (apply length_get; lia).
  destruct (get h 148 8) as [|x l]; [done |]. apply Forall_cons in Hg as [<- _]. done.
Qed.

Lemma slice_mid {A} (pre h rest : list A) :
  slice (pre ++ h ++ rest) (Z.of_nat (length pre)) (Z.of_nat (length pre) + Z.of_nat (length h)) = Ret h.
Proof.
  rewrite slice_get by (rewrite ?length_app; lia). f_equal. unfold get.
  rewrite Nat2Z.id, drop_app_length. replace (Z.to_nat _) with (length h) by lia. apply take_app_length.
Qed.

Lemma read_block_entry pre it rest :
  header_ok it ->
  read_block (pre ++ i_header it ++ rest) (Z.of_nat (length pre)) =
    Ret (Entry (i_header it) (padded (Z.of_nat (length (i_data it))))).
Proof.
  intros (Hl & Hb & Hc & Hs). unfold read_block. rewrite !length_app, Hl.
  destruct (Z.ltb_spec (Z.of_nat (length pre + (512 + length rest))) (Z.of_nat (length pre) + 512)); [lia |].
  pose proof (slice_mid pre (i_header it) rest) as Hsl. rewrite Hl in Hsl.
  change (Z.of_nat 512) with 512 in Hsl. rewrite Hsl. cbn [obind].
  rewrite slice_get by lia. change (Z.to_nat 148) with 148%nat. change (Z.to_nat (156 - 148)) with 8%nat. cbn [obind].
  rewrite sub_u_ret by (apply sum_part; [done | lia]). cbn [obind]. rewrite Hc. cbn [obind].
  rewrite Z.eqb_refl. cbn [negb]. destruct (is_zeroed (i_header it)) eqn:Ez.
  - destruct (zeroed_checksum _ Ez Hl) as (H0 & H1 & H2). rewrite H0 in Hc. injection Hc. lia.
  - rewrite Hs. done.
Qed.

Lemma read_block_end pre tail : ends tail -> read_block (pre ++ tail) (Z.of_nat (length pre)) = Ret Stop.
Proof.
  intros [Hs | [rest ->]]; unfold read_block.
  - rewrite length_app. destruct (Z.ltb_spec (Z.of_nat (length pre + length tail)) (Z.of_nat (length pre) + 512)); [done | lia].
  - rewrite !length_app, length_replicate.
    destruct (Z.ltb_spec (Z.of_nat (length pre + (512 + length rest))) (Z.of_nat (length pre) + 512)); [lia |].
    pose proof (slice_mid pre (replicate 512 0) rest) as Hsl. rewrite length_replicate in Hsl.
    change (Z.of_nat 512) with 512 in Hsl. rewrite Hsl. vm_compute. done.
Qed.

(** ** The scan follows the list: [pre] is the part already passed. *)
Definition find_item (q : list Z) (items : list item) : option (nat * item) :=
  list_find (fun it => full_name (i_header it) = q) items.
Definition offset (items : list item) (i : nat) : Z := Z.of_nat (length (take i items ≫= item_bytes)).
Definition entry_at (start : Z) (it : item) : TarEntry :=
  {| header := i_header it; data_start := start + 512;
     data_end := start + 512 + padded (Z.of_nat (length (i_data it))) |}.

Lemma length_item it : header_ok it ->
  Z.of_nat (length (item_bytes it)) = 512 + padded (Z.of_nat (length (i_data it))).
Proof. intros (Hl & _). unfold item_bytes. rewrite length_app, Nat2Z.inj_add, length_blocks, Hl. lia. Qed.

Lemma lookup_loop_spec q items : forall fuel pre tail,
  Forall header_ok items -> ends tail -> (length items < fuel)%nat ->
  lookup_loop (pre ++ archive items tail) fuel q (Z.of_nat (length pre)) 0 =
    Ret (match find_item q items with
         | Some (i, it) => Some (entry_at (Z.of_nat (length pre) + offset items i) it)
         | None => None
         end).
Proof.
  unfold find_item, archive. induction items as [|it items IH]; intros [|fuel] pre tail Ho He Hf; simpl in Hf; try lia.
  - cbn [lookup_loop]. simpl. rewrite read_block_end by done. done.
  - apply Forall_cons in Ho as [Hit Ho]. cbn [lookup_loop]. rewrite bind_cons. unfold item_bytes at 1.
    change (2 <=? 0) with false. cbv iota. rewrite <- !app_assoc. rewrite read_block_entry by done. cbn [obind].
    cbn [list_find]. case_bool_decide as Hq; destruct (decide (full_name (i_header it) = q)) as [Hq' | Hq']; try done.
    + unfold entry_at, offset. simpl. by rewrite Z.add_0_r.
    + rewrite (app_assoc pre).
      replace (Z.of_nat (length pre) + 512 + padded (Z.of_nat (length (i_data it)))) with
        (Z.of_nat (length (pre ++ item_bytes it))) by (rewrite length_app, Nat2Z.inj_add, length_item by done; lia).
      rewrite IH by (done || lia). f_equal.
      destruct (list_find _ items) as [[i x]|]; simpl; [| done]. do 2 f_equal.
      unfold offset. rewrite firstn_cons, bind_cons, !length_app. lia.
Qed.

Lemma dir_loop_spec q items : forall fuel pre tail acc,
  Forall header_ok items -> ends tail -> (length items < fuel)%nat ->
  dir_loop (pre ++ archive items tail) fuel q (Z.of_nat (length pre)) 0 acc =
    Ret (acc ++ List.filter (in_dir q) (map i_header items)).
Proof.
  unfold archive. induction items as [|it items IH]; intros [|fuel] pre tail acc Ho He Hf; simpl in Hf; try lia.
  - cbn [dir_loop]. simpl. rewrite read_block_end by done. by rewrite app_nil_r.
  - apply Forall_cons in Ho as [Hit Ho]. cbn [dir_loop]. rewrite bind_cons. unfold item_bytes at 1.
    change (2 <=? 0) with false. cbv iota. rewrite <- !app_assoc. rewrite read_block_entry by done. cbn [obind].
    rewrite (app_assoc pre).
    replace (Z.of_nat (length pre) + 512 + padded (Z.of_nat (length (i_data it)))) with
      (Z.of_nat (length (pre ++ item_bytes it))) by (rewrite length_app, Nat2Z.inj_add, length_item by done; lia).
    rewrite IH by (done || lia). f_equal. cbn [map List.filter].
    destruct (in_dir q (i_header it)); [by rewrite <- app_assoc | done].
Qed.

Lemma archive_fuel items tail : Forall header_ok items -> (length items < scan_fuel (archive items tail))%nat.
Proof.
  intros Ho. unfold scan_fuel, archive. apply Nat.lt_succ_r, Nat.div_le_lower_bound; [lia |].
  rewrite length_app. induction Ho as [|it items Hit _ IH]; [simpl; lia |].
  rewrite bind_cons, length_app. pose proof (length_item it Hit).
  destruct (padded_ge (Z.of_nat (length (i_data it)))) as [H1 _]; [lia |].
  change (length (it :: items)) with (S (length items)). lia.
Qed.

(** The data of the item found, in the archive's bytes. *)
Lemma archive_data items tail i it n :
  Forall header_ok items -> items !! i = Some it -> (n <= length (i_data it))%nat ->
  slice (archive items tail) (offset items i + 512) (offset items i + 512 + Z.of_nat n) = Ret (take n (i_data it)).
Proof.
  intros Ho Hi Hn. pose proof (Forall_lookup_1 _ _ _ _ Ho Hi) as (Hl & _).
  unfold archive. rewrite <- (take_drop_middle items i it Hi) at 1. rewrite bind_app, bind_cons. unfold item_bytes at 2.
  rewrite <- !app_assoc. unfold blocks. rewrite <- (take_drop n (i_data it)) at 1. rewrite <- !app_assoc.
  rewrite (app_assoc _ (i_header it)). set (pre := _ ++ i_header it). set (rest := drop n _ ++ _).
  pose proof (slice_mid pre (take n (i_data it)) rest) as H. rewrite length_take, Nat.min_l in H by done.
  replace (Z.of_nat (length pre)) with (offset items i + 512) in H; [exact H |].
  unfold pre, offset. rewrite length_app, Hl. lia.
Qed.

(** ** Properties *)

(** A lookup in a well-formed archive finds the first file of that name,
    and reading it fills the buffer with the file's first bytes, as many as
    fit; when no file has the name the lookup returns [None].  It always
    returns. *)
Theorem tar_lookup_correct items tail q buf :
  Forall header_ok items -> ends tail ->
  match find_item q items with
  | None => file_lookup (archive items tail) q = Ret None
  | Some (_, it) =>
      exists e, file_lookup (archive items tail) q = Ret (Some e) /\ header e = i_header it /\
        let n := Nat.min (length (i_data it)) (length buf) in
        tar_read (archive items tail) e buf 0 = Ret (put buf 0 (take n (i_data it)), Z.of_nat n)
  end.
Proof.
  intros Ho He. pose proof (lookup_loop_spec q items _ [] tail Ho He (archive_fuel items tail Ho)) as E.
  simpl length in E. change ([] ++ archive items tail) with (archive items tail) in E.
  unfold file_lookup. change (Z.of_nat 0) with 0 in E. rewrite E.
  destruct (find_item q items) as [[i it]|] eqn:Ef; [| done]. unfold find_item in Ef.
  apply list_find_Some in Ef as (Hi & _). eexists. split; [done |]. split; [done |]. cbv zeta.
  pose proof (Forall_lookup_1 _ _ _ _ Ho Hi) as (Hl & _ & _ & Hs).
  unfold tar_read. cbn [header entry_at data_start]. rewrite Hs. cbn [obind]. rewrite Z.add_0_l.
  set (n := Nat.min _ _).
  replace (Z.min _ _) with (Z.of_nat n) by lia.
  rewrite (archive_data items tail i it n) by (done || lia). cbn [obind].
  rewrite splice_put by (rewrite ?length_take; lia). done.
Qed.

(** Listing a directory of a well-formed archive returns exactly the
    headers of the files whose parent it is, in the archive's order. *)
Theorem tar_read_dir_correct items tail q :
  Forall header_ok items -> ends tail ->
  read_dir (archive items tail) q = Ret (List.filter (in_dir q) (map i_header items)).
Proof.
  intros Ho He. exact (dir_loop_spec q items _ [] tail [] Ho He (archive_fuel items tail Ho)).
Qed.

(** Octal digits of a number, most significant first, as [tar] writes them. *)
Fixpoint octal (w : nat) (n : Z) : list Z :=
  match w with O => [] | S w => octal w (n / 8) ++ [48 + n mod 8] end.

Lemma octascii_app l1 l2 r : forall acc,
  Forall (fun b => 48 <= b <= 55) l1 -> octascii_loop l1 acc = Ret r ->
  octascii_loop (l1 ++ l2) acc = octascii_loop l2 r.
Proof.
  induction l1 as [|b l1 IH]; intros acc Hd H; simpl in *; [by injection H as -> |].
  apply Forall_cons in Hd as [Hb Hd]. destruct (Z.eqb_spec b 0), (Z.eqb_spec b 32); try lia. simpl in *.
  run_inv H. rewrite E. cbn [obind]. run_inv H. rewrite E0. cbn [obind]. run_inv H. rewrite E1. cbn [obind]. by apply IH.
Qed.

Lemma octal_digits w : forall n, 0 <= n -> Forall (fun b => 48 <= b <= 55) (octal w n).
Proof.
  induction w as [|w IH]; intros n Hn; simpl; [done |]. apply Forall_app_2; [apply IH, Z.div_pos; lia |].
  pose proof (Z.mod_pos_bound n 8). constructor; [lia | done].
Qed.

Lemma octal_value w : forall n, (w <= 20)%nat -> 0 <= n < 8 ^ Z.of_nat w -> octascii_loop (octal w n) 0 = Ret n.
Proof.
  induction w as [|w IH]; intros n Hw Hn; [simpl in *; f_equal; lia |]. simpl octal.
  rewrite Nat2Z.inj_succ, Z.pow_succ_r in Hn by lia. pose proof (Z.mod_pos_bound n 8). pose proof (Z.div_mod n 8).
  assert (8 ^ Z.of_nat w <= 8 ^ 19) by (apply Z.pow_le_mono_r; lia).
  assert (Hd : 0 <= n / 8 < 8 ^ Z.of_nat w) by (split; [apply Z.div_pos; lia | apply Z.div_lt_upper_bound; lia]).
  rewrite (octascii_app _ _ (n / 8) 0); [| apply octal_digits; lia | apply IH; lia]. simpl octascii_loop.
  destruct (Z.eqb_spec (48 + n mod 8) 0), (Z.eqb_spec (48 + n mod 8) 32); try lia. cbn [orb].
  assert (8 ^ 20 = 8 * 8 ^ 19) by done. assert (8 ^ 20 < 2 ^ 64) by done.
  rewrite sub_u_ret, (chk_u_ret 64 (n / 8 * 8)) by lia. cbn [obind]. rewrite chk_u_ret by lia. cbn [obind].
  f_equal. lia.
Qed.

(** Octal fields round trip: the digits of a number, ended by a NUL or a
    space, are read back as that number, for every field of the header. *)
Theorem octal_field_roundtrip w n e rest :
  (w <= 20)%nat -> 0 <= n < 8 ^ Z.of_nat w -> e = 0 \/ e = 32 ->
  octascii_to_dec (octal w n ++ e :: rest) = Ret n.
Proof.
  intros Hw Hn He. unfold octascii_to_dec.
  rewrite (octascii_app _ _ n 0); [| apply octal_digits; lia | by apply octal_value].
  destruct He as [-> | ->]; done.
Qed.

(** ** Witnesses: an archive of "bin/ls" and "etc" *)
Module UstarWitness.
Definition field (n : nat) (l : list Z) : list Z := l ++ replicate (n - length l) 0.
Definition mk_header (name : list Z) (size : Z) : Header :=
  let pre := field 100 name ++ replicate 24 0 ++ (octal 11 size ++ [0]) ++ replicate 12 0 in
  let post := [48] ++ replicate 355 0 in
  pre ++ field 8 (octal 6 (sum pre + 256 + sum post)) ++ post.
Definition mk (name data : list Z) : item :=
  {| i_header := mk_header name (Z.of_nat (length data)); i_data := data |}.

Definition bin_ls : list Z := [98; 105; 110; 47; 108; 115].
Definition etc : list Z := [101; 116; 99].
Definition items0 : list item := [mk etc [1; 2; 3]; mk bin_ls [9; 8; 7; 6]].

Lemma items0_ok : Forall header_ok items0.
Proof.
  assert (H : forall it, it ∈ items0 -> (length (i_header it) =? 512)%nat && forallb (fun b => (0 <=? b) && (b <? 256)) (i_header it)
     && match octascii_to_dec (checkum (i_header it)), octascii_to_dec (file_size (i_header it)) with
        | Ret a, Ret b => (a =? sum (i_header it) - sum (get (i_header it) 148 8) + 256)
                          && (b =? Z.of_nat (length (i_data it)))
        | _, _ => false end = true).
  { intros it. unfold items0. rewrite !elem_of_cons, elem_of_nil. intros [-> | [-> | []]]; vm_compute; done. }
  apply Forall_forall. intros it Hit. specialize (H it Hit). unfold header_ok.
  destruct (octascii_to_dec (checkum _)) as [a| |]; [| by rewrite andb_false_r in H..].
  destruct (octascii_to_dec (file_size _)) as [b| |]; [| by rewrite andb_false_r in H..].
  rewrite !andb_true_iff, forallb_forall in H. destruct H as [[H1 H2] [H3 H4]].
  split; [by apply Nat.eqb_eq |]. split; [| split; f_equal; lia].
  apply Forall_forall. intros b' Hb. apply list_elem_of_In, H2 in Hb. unfold is_byte. lia.
Qed.

Lemma tail0_ends : ends (replicate 1024 0).
Proof. right. exists (replicate 512 0). done. Qed.

(** The second file is found past the first one and read into five bytes. *)
Lemma tar_lookup_correct_witness :
  exists e, file_lookup (archive items0 (replicate 1024 0)) bin_ls = Ret (Some e) /\
    header e = mk_header bin_ls 4 /\
    tar_read (archive items0 (replicate 1024 0)) e [0; 0; 0; 0; 0] 0 = Ret ([9; 8; 7; 6; 0], 4).
Proof.
  pose proof (tar_lookup_correct items0 (replicate 1024 0) bin_ls [0; 0; 0; 0; 0] items0_ok tail0_ends) as H.
  assert (E : find_item bin_ls items0 = Some (1%nat, mk bin_ls [9; 8; 7; 6])) by (vm_compute; reflexivity).
  rewrite E in H. exact H.
Defined.

Lemma tar_read_dir_correct_witness :
  read_dir (archive items0 (replicate 1024 0)) [47] = Ret [mk_header etc 3].
Proof.
  pose proof (tar_read_dir_correct items0 (replicate 1024 0) [47] items0_ok tail0_ends) as H.
  assert (E : List.filter (in_dir [47]) (map i_header items0) = [mk_header etc 3]) by (vm_compute; reflexivity).
  rewrite E in H. exact H.
Defined.

Lemma octal_field_roundtrip_witness : octascii_to_dec (octal 11 1234 ++ [0]) = Ret 1234.
Proof. apply (octal_field_roundtrip 11 1234 0 []); [lia | vm_compute; intuition congruence | by left]. Defined.
End UstarWitness.
