(* ===== verification/Xiangqi.v ===== *)
(** * The xiangqi engine

    [userland/games/xiangqi-engine/engine/src]: positions, pieces, the board
    and its moves.  Coordinates are [i8], indices [usize]; arithmetic that
    overflows, an index out of range and a full vector panic.

    [heapless::Vec] with the capacity [MAX_MOVES] is third-party code: its
    operations on the list of its elements are a class with laws. *)
From S2P Require Import Prelude.

(** ** [heapless::Vec<_, MAX_MOVES>] *)
Definition MAX_MOVES : Z := 200.

Class HeaplessVec := {
  hv_push : forall {A : Type}, list A -> A -> option (list A);           (** [None] for [Err] *)
  hv_extend : forall {A : Type}, list A -> list A -> option (list A);    (** [extend_from_slice] *)
  hv_pop : forall {A : Type}, list A -> list A
}.
Class HeaplessVecLaws (HV : HeaplessVec) := {
  hv_push_law : forall A (l : list A) x,
    hv_push l x = if Z.of_nat (length l) <? MAX_MOVES then Some (l ++ [x]) else None;
  hv_extend_law : forall A (l l' : list A),
    hv_extend l l' = if Z.of_nat (length l) + Z.of_nat (length l') <=? MAX_MOVES then Some (l ++ l') else None;
  hv_pop_law : forall A (l : list A), hv_pop l = removelast l
}.

(** ** Colours, positions, pieces, moves *)
Inductive Color := Red | Black.
#[export] Instance color_eq : EqDecision Color.
Proof. solve_decision. Defined.
(** The [!] operator. *)
Definition opposite (c : Color) : Color := match c with Red => Black | Black => Red end.

Record Position := mkPos { row : Z; col : Z }.
#[export] Instance position_eq : EqDecision Position.
Proof. solve_decision. Defined.

Inductive PieceType := General | Advisor | Elephant | Horse | Rook | Cannon | Pawn.
#[export] Instance piece_type_eq : EqDecision PieceType.
Proof. solve_decision. Defined.

Record Piece := { piece_type : PieceType; pos : Position; color : Color }.
#[export] Instance piece_eq : EqDecision Piece.
Proof. solve_decision. Defined.

Inductive Move := MovePiece (from to : Position) | Resign.

Definition move_to (p : Piece) (new_pos : Position) : Piece :=
  {| piece_type := piece_type p; pos := new_pos; color := color p |}.

(** ** Positions *)
Definition is_off_board (p : Position) : bool :=
  (row p <? 0) || (9 <? row p) || (col p <? 0) || (8 <? col p).
Definition is_on_board (p : Position) : bool := negb (is_off_board p).

Definition next_right (p : Position) : outcome Position := let! c := chk_i 8 (col p + 1) in Ret (mkPos (row p) c).
Definition next_left (p : Position) : outcome Position := let! c := chk_i 8 (col p - 1) in Ret (mkPos (row p) c).
Definition next_above (p : Position) : outcome Position := let! r := chk_i 8 (row p + 1) in Ret (mkPos r (col p)).
Definition next_below (p : Position) : outcome Position := let! r := chk_i 8 (row p - 1) in Ret (mkPos r (col p)).

Definition is_in_palace (p : Position) (self_color : Color) : bool :=
  match self_color with
  | Red => (3 <=? col p) && (col p <=? 5) && (row p <=? 2)
  | Black => (3 <=? col p) && (col p <=? 5) && (7 <=? row p) && (row p <=? 9)
  end.
Definition pawn_up (p : Position) (ally_color : Color) : outcome Position :=
  match ally_color with Red => next_above p | Black => next_below p end.
Definition pawn_down (p : Position) (ally_color : Color) : outcome Position :=
  match ally_color with Red => next_below p | Black => next_above p end.
Definition is_past_river (p : Position) (self_color : Color) : bool :=
  match self_color with Red => 5 <=? row p | Black => row p <=? 4 end.

Definition is_above (p other : Position) : bool := row other <? row p.
Definition is_below (p other : Position) : bool := row p <? row other.
Definition is_right_of (p other : Position) : bool := col other <? col p.
Definition is_left_of (p other : Position) : bool := col p <? col other.
Definition is_orthogonal_to (p other : Position) : bool := (col p =? col other) || (row p =? row other).

(** [(a - b).abs()] on [i8] *)
Definition abs_diff (a b : Z) : outcome Z := let! d := chk_i 8 (a - b) in chk_i 8 (Z.abs d).

Definition is_diagonal_to (p other : Position) : outcome bool :=
  let! a := abs_diff (col p) (col other) in
  let! b := abs_diff (row p) (row other) in
  Ret (a =? b).
Definition orthogonal_distance (p new_pos : Position) : outcome Z :=
  if is_above p new_pos || is_below p new_pos then abs_diff (row p) (row new_pos)
  else abs_diff (col p) (col new_pos).
Definition diagonal_distance (p new_pos : Position) : outcome Z := abs_diff (col p) (col new_pos).

Definition is_horse_move (p other : Position) : outcome bool :=
  let! a := abs_diff (row p) (row other) in
  let! first := (if a =? 2 then let! b := abs_diff (col p) (col other) in Ret (b =? 1) else Ret false) in
  if first then Ret true else
  let! a := abs_diff (row p) (row other) in
  if a =? 1 then let! b := abs_diff (col p) (col other) in Ret (b =? 2) else Ret false.

(** The steps of [orthogonals_to] and [diagonals_to], one chain of [else if]. *)
Definition steps (p to_pos : Position) : Z * Z :=
  if is_above p to_pos then (-1, 0) else if is_below p to_pos then (1, 0)
  else if is_right_of p to_pos then (0, -1) else if is_left_of p to_pos then (0, 1) else (0, 0).

Section Engine.
Context {HV : HeaplessVec}.

Fixpoint walk (n : nat) (accumulator : Position) (row_step col_step : Z) (result : list Position)
  : outcome (list Position) :=
  match n with
  | O => Ret result
  | S n =>
      let! c := chk_i 8 (col accumulator + col_step) in
      let! r := chk_i 8 (row accumulator + row_step) in
      let accumulator := mkPos r c in
      let! result := unwrap (hv_push result accumulator) in
      walk n accumulator row_step col_step result
  end.

Definition orthogonals_to (p to_pos : Position) : outcome (list Position) :=
  if negb (is_orthogonal_to p to_pos) then Ret [] else
  let '(row_step, col_step) := steps p to_pos in
  let! n := orthogonal_distance p to_pos in
  walk (Z.to_nat n) p row_step col_step [].

Definition diagonals_to (p to_pos : Position) : outcome (list Position) :=
  let! d := is_diagonal_to p to_pos in
  if negb d then Ret [] else
  let '(row_step, col_step) := steps p to_pos in
  let! n := diagonal_distance p to_pos in
  walk (Z.to_nat n) p row_step col_step [].

(** ** The board *)
Record Board := { points : list (option Piece); turn : Color; full_move : Z }.
#[export] Instance board_eq : EqDecision Board.
Proof. solve_decision. Defined.

Inductive GameResult := Continuing (b : Board) | Victory (c : Color) | IllegalMove (m : Move).

Definition set_points (l : list (option Piece)) (b : Board) : Board :=
  {| points := l; turn := turn b; full_move := full_move b |}.
Definition set_turn (b : Board) (c : Color) : Board :=
  {| points := points b; turn := c; full_move := full_move b |}.
Definition set_full_move (b : Board) (fm : Z) : Board :=
  {| points := points b; turn := turn b; full_move := fm |}.

Definition empty : Board := {| points := replicate 90 None; turn := Red; full_move := 1 |}.

(** [(row as usize) * 9 + (col as usize)]: a negative coordinate wraps. *)
Definition pos_to_index (p : Position) : outcome Z :=
  let! r := chk_u 64 (wrap_u 64 (row p) * 9) in chk_u 64 (r + wrap_u 64 (col p)).

Definition set_piece (b : Board) (p : Piece) : outcome Board :=
  let! i := pos_to_index (pos p) in
  let! l := upd (points b) i (Some p) in
  Ret (set_points l b).
Definition get_piece (b : Board) (p : Position) : outcome (option Piece) :=
  let! i := pos_to_index p in idx (points b) i.
Definition has_ally_piece (b : Board) (p : Position) (self_color : Color) : outcome bool :=
  let! o := get_piece b p in
  Ret (match o with Some q => bool_decide (color q = self_color) | None => false end).
Definition has_enemy_piece (b : Board) (p : Position) (self_color : Color) : outcome bool :=
  let! o := get_piece b p in
  Ret (match o with Some q => bool_decide (color q <> self_color) | None => false end).
Definition has_piece (b : Board) (p : Position) : outcome bool :=
  let! o := get_piece b p in Ret (match o with Some _ => true | None => false end).
Definition type_at_pos (b : Board) (p : Position) : outcome PieceType :=
  let! o := get_piece b p in let! q := unwrap o in Ret (piece_type q).
Definition postions_match (pos1 pos2 : Position) : bool := (col pos1 =? col pos2) && (row pos1 =? row pos2).

Definition move_piece (b : Board) (from to : Position) : outcome Board :=
  if is_off_board from || is_off_board to then Ret b else
  let! from_point := pos_to_index from in
  let! to_point := pos_to_index to in
  let! o := get_piece b from in
  let! p := unwrap o in
  let! l := upd (points b) to_point (Some (move_to p to)) in
  let! l := upd l from_point None in
  Ret (set_points l b).

(** ** [Piece::is_legal_move] *)

(** [for point in traveling.iter() { if board.has_piece( *point) { return false } }] *)
Fixpoint all_free (b : Board) (l : list Position) : outcome bool :=
  match l with
  | [] => Ret true
  | p :: l => let! h := has_piece b p in if h then Ret false else all_free b l
  end.
Fixpoint count_jumps (b : Board) (l : list Position) (jmp_count : Z) : outcome Z :=
  match l with
  | [] => Ret jmp_count
  | p :: l => let! h := has_piece b p in
              let! j := (if h then chk_u 8 (jmp_count + 1) else Ret jmp_count) in count_jumps b l j
  end.
(** The first piece on the way is a general. *)
Fixpoint faces_general (b : Board) (l : list Position) : outcome bool :=
  match l with
  | [] => Ret false
  | p :: l => let! h := has_piece b p in
              if h then let! t := type_at_pos b p in Ret (bool_decide (t = General)) else faces_general b l
  end.

Definition general_move (self : Piece) (new_pos : Position) (b : Board) : outcome bool :=
  if negb (is_in_palace new_pos (color self)) then Ret false else
  let! traveling := orthogonals_to new_pos (mkPos (match color self with Red => 9 | Black => 0 end) (col new_pos)) in
  let! f := faces_general b traveling in
  if f then Ret false else
  let! up := pawn_up (pos self) (color self) in
  let! down := pawn_down (pos self) (color self) in
  let! right := next_right (pos self) in
  let! left := next_left (pos self) in
  Ret (postions_match new_pos up || postions_match new_pos down || postions_match new_pos right
       || postions_match new_pos left).

Definition pawn_move (self : Piece) (new_pos : Position) : outcome bool :=
  let! up := pawn_up (pos self) (color self) in
  if is_past_river (pos self) (color self) then
    let! right := next_right (pos self) in
    let! left := next_left (pos self) in
    Ret (postions_match new_pos up || postions_match new_pos left || postions_match new_pos right)
  else Ret (postions_match new_pos up).

Definition cannon_move (self : Piece) (new_pos : Position) (b : Board) : outcome bool :=
  if negb (is_orthogonal_to (pos self) new_pos) then Ret false else
  let! enemy := has_enemy_piece b new_pos (color self) in
  let! traveling := orthogonals_to (pos self) new_pos in
  let traveling := hv_pop traveling in
  if enemy then let! jmp_count := count_jumps b traveling 0 in Ret (jmp_count =? 1)
  else all_free b traveling.

Definition rook_move (self : Piece) (new_pos : Position) (b : Board) : outcome bool :=
  if negb (is_orthogonal_to (pos self) new_pos) then Ret false else
  let! traveling := orthogonals_to (pos self) new_pos in
  all_free b (hv_pop traveling).

Definition horse_move (self : Piece) (new_pos : Position) (b : Board) : outcome bool :=
  let! hm := is_horse_move (pos self) new_pos in
  if negb hm then Ret false else
  let! up := next_above (pos self) in
  let! down := next_below (pos self) in
  let! right := next_right (pos self) in
  let! left := next_left (pos self) in
  let side := let! h := has_piece b (if is_right_of new_pos (pos self) then right else left) in Ret (negb h) in
  if is_above new_pos (pos self) then
    let! d := chk_i 8 (row new_pos - row (pos self)) in
    if 1 <? d then let! h := has_piece b up in Ret (negb h) else side
  else
    let! d := chk_i 8 (row (pos self) - row new_pos) in
    if 1 <? d then let! h := has_piece b down in Ret (negb h) else side.

Definition advisor_move (self : Piece) (new_pos : Position) : outcome bool :=
  let! d := is_diagonal_to new_pos (pos self) in
  if negb d then Ret false else
  if negb (is_in_palace new_pos (color self)) then Ret false else
  let! up := pawn_up new_pos (color self) in
  let! down := pawn_down new_pos (color self) in
  let! uright := next_right up in
  let! uleft := next_left up in
  let! dright := next_right down in
  let! dleft := next_left down in
  Ret (postions_match (pos self) uright || postions_match (pos self) dright
       || postions_match (pos self) dleft || postions_match (pos self) uleft).

Definition elephant_move (self : Piece) (new_pos : Position) (b : Board) : outcome bool :=
  if is_past_river new_pos (color self) then Ret false else
  let! d := is_diagonal_to (pos self) new_pos in
  if negb d then Ret false else
  let! n := diagonal_distance (pos self) new_pos in
  if n <? 2 then Ret false else
  let! traveling := diagonals_to (pos self) new_pos in
  all_free b (hv_pop traveling).

Definition piece_is_legal_move (self : Piece) (new_pos : Position) (b : Board) : outcome bool :=
  if is_off_board new_pos then Ret false else
  let! ally := has_ally_piece b new_pos (color self) in
  if ally then Ret false else
  match piece_type self with
  | General => general_move self new_pos b
  | Pawn => pawn_move self new_pos
  | Cannon => cannon_move self new_pos b
  | Rook => rook_move self new_pos b
  | Horse => horse_move self new_pos b
  | Advisor => advisor_move self new_pos
  | Elephant => elephant_move self new_pos b
  end.

(** ** Check *)
Definition RED_PALACE : list Position :=
  [mkPos 0 3; mkPos 1 3; mkPos 2 3; mkPos 0 4; mkPos 1 4; mkPos 2 4; mkPos 0 5; mkPos 1 5; mkPos 2 5].
Definition BLACK_PALACE : list Position :=
  [mkPos 7 3; mkPos 8 3; mkPos 9 3; mkPos 7 4; mkPos 8 4; mkPos 9 4; mkPos 7 5; mkPos 8 5; mkPos 9 5].

Fixpoint find_general (b : Board) (palace : list Position) : outcome Position :=
  match palace with
  | [] => Panic
  | p :: palace =>
      let! o := get_piece b p in
      match o with
      | Some q => if decide (piece_type q = General) then Ret p else find_general b palace
      | None => find_general b palace
      end
  end.
Definition get_general_pos (b : Board) (c : Color) : outcome Position :=
  find_general b (match c with Red => RED_PALACE | Black => BLACK_PALACE end).

Fixpoint threatened_loop (b : Board) (l : list (option Piece)) (p : Position) (ally_color : Color) : outcome bool :=
  match l with
  | [] => Ret false
  | None :: l => threatened_loop b l p ally_color
  | Some piece :: l =>
      let point_pos := pos piece in
      let! skip :=
        (if is_orthogonal_to point_pos p then Ret false else
         let! d := is_diagonal_to point_pos p in
         if d then Ret false else let! h := is_horse_move point_pos p in Ret (negb h)) in
      if skip then threatened_loop b l p ally_color
      else if decide (color piece = ally_color) then threatened_loop b l p ally_color
      else
        let! legal := piece_is_legal_move piece p b in
        if legal then Ret true else threatened_loop b l p ally_color
  end.
Definition is_threatened (b : Board) (p : Position) (ally_color : Color) : outcome bool :=
  threatened_loop b (points b) p ally_color.
Definition is_in_check (b : Board) (c : Color) : outcome bool :=
  let! g := get_general_pos b c in is_threatened b g c.

(** [Board::is_legal_move] *)
Definition is_legal_move (b : Board) (m : Move) (player_color : Color) : outcome bool :=
  match m with
  | MovePiece from to =>
      let! o := get_piece b from in
      match o with
      | Some piece =>
          let! l := piece_is_legal_move piece to b in
          if negb l then Ret false else
          if negb (bool_decide (color piece = player_color)) then Ret false else
          let! b' := move_piece b from to in
          let! c := is_in_check b' player_color in
          Ret (negb c)
      | None => Ret false
      end
  | Resign => Ret true
  end.

(** ** Moves of a piece and of a player *)
Definition push_move (p : Position) (to : Position) (l : list Move) : outcome (list Move) :=
  unwrap (hv_push l (MovePiece p to)).
Fixpoint push_moves (p : Position) (tos : list Position) (l : list Move) : outcome (list Move) :=
  match tos with
  | [] => Ret l
  | to :: tos => let! l := push_move p to l in push_moves p tos l
  end.

Definition offset (p : Position) (dr dc : Z) : outcome Position :=
  let! r := chk_i 8 (row p + dr) in let! c := chk_i 8 (col p + dc) in Ret (mkPos r c).

(** [p.f().g().h()] *)
Definition then_ (f g : Position -> outcome Position) (p : Position) : outcome Position := let! q := f p in g q.

(** Rooks and cannons: the four rays to the edges. *)
Definition rays (p : Position) : outcome (list Position) :=
  let! t := orthogonals_to p (mkPos (row p) 8) in
  let! u := orthogonals_to p (mkPos (row p) 0) in
  let! t := unwrap (hv_extend t u) in
  let! u := orthogonals_to p (mkPos 0 (col p)) in
  let! t := unwrap (hv_extend t u) in
  let! u := orthogonals_to p (mkPos 9 (col p)) in
  unwrap (hv_extend t u).

(** The targets in the order they are pushed, each computed before its push. *)
Fixpoint push_steps (p : Position) (fs : list (Position -> outcome Position)) (l : list Move) : outcome (list Move) :=
  match fs with
  | [] => Ret l
  | f :: fs => let! to := f p in let! l := push_move p to l in push_steps p fs l
  end.

Definition diagonal_steps (d : Z) : list (Position -> outcome Position) :=
  [(fun p => offset p d d); (fun p => offset p d (-d)); (fun p => offset p (-d) d); (fun p => offset p (-d) (-d))].
Definition horse_steps : list (Position -> outcome Position) :=
  [then_ next_above (then_ next_above next_right); then_ next_above (then_ next_above next_left);
   then_ next_above (then_ next_right next_right); then_ next_above (then_ next_left next_left);
   then_ next_below (then_ next_below next_right); then_ next_below (then_ next_below next_left);
   then_ next_below (then_ next_right next_right); then_ next_below (then_ next_left next_left)].

Definition get_canidates (self : Piece) : outcome (list Move) :=
  let p := pos self in
  match piece_type self with
  | Advisor => push_steps p (diagonal_steps 1) []
  | Elephant => push_steps p (diagonal_steps 2) []
  | Cannon | Rook => let! traveling := rays p in push_moves p traveling []
  | General | Pawn =>
      let! up := pawn_up p (color self) in
      let! down := pawn_down p (color self) in
      let! right := next_right p in
      let! left := next_left p in
      push_moves p [up; down; right; left] []
  | Horse => push_steps p horse_steps []
  end.

(** [.filter(..).collect()]: collecting pushes, and panics when full. *)
Fixpoint filter_collect (f : Move -> outcome bool) (ms : list Move) (acc : list Move) : outcome (list Move) :=
  match ms with
  | [] => Ret acc
  | m :: ms => let! k := f m in
               if k then let! acc := unwrap (hv_push acc m) in filter_collect f ms acc else filter_collect f ms acc
  end.
Definition piece_legal_moves (self : Piece) (b : Board) : outcome (list Move) :=
  let! c := get_canidates self in filter_collect (fun x => is_legal_move b x (color self)) c [].

Fixpoint legal_loop (b : Board) (l : list (option Piece)) (c : Color) (result : list Move) : outcome (list Move) :=
  match l with
  | [] => Ret result
  | Some piece :: l =>
      if decide (color piece = c) then
        let! ms := piece_legal_moves piece b in
        let! result := unwrap (hv_extend result ms) in
        legal_loop b l c result
      else legal_loop b l c result
  | None :: l => legal_loop b l c result
  end.
Definition get_legal_moves (b : Board) : outcome (list Move) := legal_loop b (points b) (turn b) [].

Definition change_turn (b : Board) : Board := set_turn b (opposite (turn b)).
Definition is_checkmate (b : Board) : outcome bool :=
  let! c := is_in_check b (turn b) in
  if c then let! l := get_legal_moves b in Ret (match l with [] => true | _ => false end) else Ret false.
Definition is_stalemate (b : Board) : outcome bool :=
  let! l := get_legal_moves b in
  match l with [] => let! c := is_in_check b (turn b) in Ret (negb c) | _ => Ret false end.

Definition play_move (b : Board) (m : Move) : outcome GameResult :=
  let current_color := turn b in
  match m with
  | MovePiece from to =>
      let! legal := is_legal_move b m current_color in
      if legal then
        let! moved := move_piece b from to in
        let next_turn := change_turn moved in
        let! mate := is_checkmate next_turn in
        if mate then Ret (Victory current_color) else
        let! stale := is_stalemate next_turn in
        if stale then Ret (Victory (opposite current_color)) else Ret (Continuing next_turn)
      else Ret (IllegalMove m)
  | Resign => Ret (Victory (opposite current_color))
  end.

(** [Board::default] *)
Definition back_row : list PieceType := [Rook; Horse; Elephant; Advisor; General; Advisor; Elephant; Horse; Rook].
Definition side_pieces (c : Color) (back cannons pawns : Z) : list Piece :=
  imap (fun i t => {| piece_type := t; pos := mkPos back (Z.of_nat i); color := c |}) back_row ++
  map (fun x => {| piece_type := Cannon; pos := mkPos cannons x; color := c |}) [1; 7] ++
  map (fun x => {| piece_type := Pawn; pos := mkPos pawns x; color := c |}) [0; 2; 4; 6; 8].
Fixpoint set_pieces (l : list Piece) (b : Board) : outcome Board :=
  match l with [] => Ret b | p :: l => let! b := set_piece b p in set_pieces l b end.
Definition default_board : outcome Board :=
  set_pieces (side_pieces Red 0 2 3 ++ side_pieces Black 9 7 6) empty.
End Engine.

(** ** A vector *)
Module ListVec.
#[export] Instance list_vec : HeaplessVec :=
  {| hv_push := fun A l x => if Z.of_nat (length l) <? MAX_MOVES then Some (l ++ [x]) else None;
     hv_extend := fun A l l' =>
       if Z.of_nat (length l) + Z.of_nat (length l') <=? MAX_MOVES then Some (l ++ l') else None;
     hv_pop := fun A l => removelast l |}.
#[export] Instance list_vec_laws : HeaplessVecLaws list_vec.
Proof. by split. Qed.
End ListVec.
