(* ===== verification/XqRules.v ===== *)
(** * The rules the xiangqi engine implements

    A direct statement of how each piece may move, as boolean functions of the
    board, and the proof that [Piece::is_legal_move] of [piece.rs] computes it
    on every board of 90 points without a panic. *)
From S2P Require Import Prelude Xiangqi.

Definition on_board (p : Position) : Prop := 0 <= row p <= 9 /\ 0 <= col p <= 8.

Lemma on_board_spec p : is_off_board p = false <-> on_board p.
Proof. unfold is_off_board, on_board. lia. Qed.

Definition index (p : Position) : nat := Z.to_nat (row p * 9 + col p).
Definition piece_at (b : Board) (p : Position) : option Piece := mjoin (points b !! index p).
Definition occupied (b : Board) (p : Position) : bool := match piece_at b p with Some _ => true | None => false end.
Definition owned (b : Board) (c : Color) (p : Position) : bool :=
  match piece_at b p with Some q => bool_decide (color q = c) | None => false end.

(** Every piece stands on the point its own coordinates name. *)
Record board_ok (b : Board) : Prop := {
  board_size : length (points b) = 90%nat;
  board_pos : forall i q, points b !! i = Some (Some q) -> on_board (pos q) /\ i = index (pos q)
}.

(** ** Squares on a line *)
Definition shift (p : Position) (dr dc k : Z) : Position := mkPos (row p + k * dr) (col p + k * dc).
Definition ray (p : Position) (dr dc : Z) (n : nat) : list Position := map (shift p dr dc) (seqZ 1 (Z.of_nat n)).
(** The squares strictly between two squares of a row or column. *)
Definition between (p q : Position) : list Position :=
  ray p (Z.sgn (row q - row p)) (Z.sgn (col q - col p))
    (Z.to_nat (Z.abs (row q - row p) + Z.abs (col q - col p)) - 1).
Definition pieces_on (b : Board) (l : list Position) : nat := length (List.filter (occupied b) l).

(** ** The rules *)
Definition dist (p q : Position) : Z * Z := (Z.abs (row q - row p), Z.abs (col q - col p)).
Definition on_line (p q : Position) : bool := (row p =? row q) || (col p =? col q).

(** The first piece on the file from [q] towards the other side is a general. *)
Definition facing (b : Board) (c : Color) (q : Position) : bool :=
  let file := match c with
              | Red => ray q 1 0 (Z.to_nat (9 - row q))
              | Black => ray q (-1) 0 (Z.to_nat (row q))
              end in
  match List.find (occupied b) file with
  | Some s => match piece_at b s with Some g => bool_decide (piece_type g = General) | None => false end
  | None => false
  end.

(** The square that blocks a horse. *)
Definition horse_leg (p q : Position) : Position :=
  if Z.abs (row q - row p) =? 2 then mkPos (row p + Z.sgn (row q - row p)) (col p)
  else mkPos (row p) (col p + Z.sgn (col q - col p)).

Definition type_rule (b : Board) (p q : Position) (c : Color) (t : PieceType) : bool :=
  let '(dr, dc) := dist p q in
  match t with
  | General => is_in_palace q c && (dr + dc =? 1) && negb (facing b c q)
  | Advisor => is_in_palace q c && (dr =? 1) && (dc =? 1)
  | Elephant => negb (is_past_river q c) && (dr =? dc) && (2 <=? dr) &&
                (pieces_on b (ray p (Z.sgn (row q - row p)) 0 (Z.to_nat dr - 1)) =? 0)%nat
  | Horse => (((dr =? 2) && (dc =? 1)) || ((dr =? 1) && (dc =? 2))) && negb (occupied b (horse_leg p q))
  | Rook => on_line p q && (pieces_on b (between p q) =? 0)%nat
  | Cannon => on_line p q && (pieces_on b (between p q) =? if occupied b q then 1 else 0)%nat
  | Pawn => let fwd := match c with Red => row q - row p | Black => row p - row q end in
            ((fwd =? 1) && (dc =? 0)) || (is_past_river p c && (dr =? 0) && (dc =? 1))
  end.
Definition rule (b : Board) (self : Piece) (q : Position) : bool :=
  negb (is_off_board q) && negb (owned b (color self) q) && type_rule b (pos self) q (color self) (piece_type self).

(** ** Lemmas *)
Section Rules.
Context {HV : HeaplessVec} {HL : HeaplessVecLaws HV}.

Ltac chk := repeat (rewrite chk_i_ret by lia; cbn [obind]).

Lemma index_ret p : on_board p -> pos_to_index p = Ret (row p * 9 + col p).
Proof.
  intros [H1 H2]. unfold pos_to_index. rewrite !wrap_u_small, chk_u_ret by lia. cbn [obind]. by rewrite chk_u_ret by lia.
Qed.

Lemma index_lt b p : board_ok b -> on_board p -> (index p < length (points b))%nat.
Proof. intros Hb [H1 H2]. rewrite (board_size b Hb). unfold index. lia. Qed.

Lemma index_inj p q : on_board p -> on_board q -> index p = index q -> p = q.
Proof. destruct p, q. unfold on_board, index. simpl. intros H1 H2 E. f_equal; lia. Qed.

Lemma get_piece_ret b p : board_ok b -> on_board p -> get_piece b p = Ret (piece_at b p).
Proof.
  intros Hb Hp. unfold get_piece. rewrite index_ret by done. cbn [obind]. unfold piece_at.
  destruct (lookup_lt_is_Some_2 (points b) (index p) (index_lt b p Hb Hp)) as [x Hx].
  rewrite Hx. apply idx_ret; [destruct Hp; lia | done].
Qed.

Lemma piece_at_pos b p q : board_ok b -> piece_at b p = Some q -> on_board p -> pos q = p.
Proof.
  intros Hb Hq Hp. unfold piece_at in Hq. destruct (points b !! index p) as [o|] eqn:E; [| done].
  simpl in Hq. subst o. destruct (board_pos b Hb _ _ E) as [H1 H2]. by apply index_inj.
Qed.

Lemma has_piece_ret b p : board_ok b -> on_board p -> has_piece b p = Ret (occupied b p).
Proof. intros. unfold has_piece. by rewrite get_piece_ret. Qed.

Lemma abs_diff_ret a b : -60 <= a <= 60 -> -60 <= b <= 60 -> abs_diff a b = Ret (Z.abs (a - b)).
Proof. intros. unfold abs_diff. rewrite chk_i_ret by lia. cbn [obind]. by rewrite chk_i_ret by lia. Qed.

Lemma ray_S p dr dc n : ray p dr dc (S n) = shift p dr dc 1 :: ray (shift p dr dc 1) dr dc n.
Proof.
  unfold ray. rewrite Nat2Z.inj_succ, seqZ_cons by lia. simpl. f_equal. rewrite Z.pred_succ.
  rewrite <- (Z.add_0_l 1) at 1. rewrite <- Z.add_succ_l. 
  change (Z.succ 0 + 1) with (1 + 1). rewrite <- (fmap_add_seqZ 1 1), <- list_fmap_compose.
  apply map_ext. intros k. unfold shift. simpl. f_equal; lia.
Qed.

Lemma length_ray p dr dc n : length (ray p dr dc n) = n.
Proof. unfold ray. rewrite length_map, length_seqZ. lia. Qed.

Lemma walk_ret n : forall p dr dc res,
  -1 <= dr <= 1 -> -1 <= dc <= 1 -> -40 <= row p - Z.of_nat n -> row p + Z.of_nat n <= 40 ->
  -40 <= col p - Z.of_nat n -> col p + Z.of_nat n <= 40 ->
  Z.of_nat (length res) + Z.of_nat n <= 200 ->
  walk n p dr dc res = Ret (res ++ ray p dr dc n).
Proof.
  induction n as [|n IH]; intros p dr dc res Hr Hc H1 H2 H3 H4 Hl; [by rewrite app_nil_r |].
  cbn [walk]. chk. rewrite hv_push_law. unfold MAX_MOVES.
  rewrite (proj2 (Z.ltb_lt _ _)) by lia. cbn [unwrap obind].
  rewrite IH; simpl; rewrite ?length_app; simpl; try lia.
  rewrite ray_S, <- app_assoc. simpl. unfold shift. by rewrite !Z.mul_1_l.
Qed.

Lemma pop_ray p dr dc n : hv_pop (ray p dr dc n) = ray p dr dc (n - 1).
Proof.
  rewrite hv_pop_law. revert p. induction n as [|[|n] IH]; intros p; [done | done |].
  rewrite ray_S. replace (S (S n) - 1)%nat with (S n) by lia. rewrite (ray_S p dr dc n).
  specialize (IH (shift p dr dc 1)). replace (S n - 1)%nat with n in IH by lia. rewrite <- IH.
  by rewrite (ray_S (shift p dr dc 1) dr dc n).
Qed.

Lemma abs_sub x y : Z.abs (x - y) = Z.abs (y - x).
Proof. lia. Qed.

Lemma sgn_range x : -1 <= Z.sgn x <= 1.
Proof. destruct x; simpl; lia. Qed.

(** The steps of the walk are the signs of the differences. *)
Lemma steps_line p q : on_line p q = true -> steps p q = (Z.sgn (row q - row p), Z.sgn (col q - col p)).
Proof.
  unfold on_line, steps, is_above, is_below, is_right_of, is_left_of. intros H.
  repeat case_match; f_equal; lia.
Qed.
Lemma steps_row p q : row p <> row q -> steps p q = (Z.sgn (row q - row p), 0).
Proof. unfold steps, is_above, is_below. intros H. repeat case_match; f_equal; lia. Qed.

Lemma orthogonals_ret p q :
  on_board p -> on_board q -> on_line p q = true ->
  orthogonals_to p q = Ret (ray p (Z.sgn (row q - row p)) (Z.sgn (col q - col p))
    (Z.to_nat (Z.abs (row q - row p) + Z.abs (col q - col p)))).
Proof.
  intros [P1 P2] [Q1 Q2] Hl. unfold orthogonals_to. rewrite steps_line by done.
  assert (is_orthogonal_to p q = true) as -> by (unfold is_orthogonal_to, on_line in *; lia). cbn [negb].
  assert (orthogonal_distance p q = Ret (Z.abs (row q - row p) + Z.abs (col q - col p))) as ->.
  { unfold orthogonal_distance, is_above, is_below, on_line in *.
    destruct ((row q <? row p) || (row p <? row q)) eqn:E; rewrite abs_diff_ret by lia; f_equal; lia. }
  cbn [obind]. apply (walk_ret _ p _ _ []); cbn [length]; try apply sgn_range; lia.
Qed.

(** The squares of a ray from [p] no longer than the way to [q]. *)
Lemma ray_on_board p q n :
  on_board p -> on_board q -> on_line p q = true ->
  (n <= Z.to_nat (Z.abs (row q - row p) + Z.abs (col q - col p)))%nat ->
  Forall on_board (ray p (Z.sgn (row q - row p)) (Z.sgn (col q - col p)) n).
Proof.
  intros [P1 P2] [Q1 Q2] Hl Hn. apply Forall_forall. intros s Hs. apply list_elem_of_In, in_map_iff in Hs.
  destruct Hs as (k & <- & Hk). apply list_elem_of_In, elem_of_seqZ in Hk. unfold on_line in Hl.
  unfold on_board, shift. simpl.
  destruct (Z.eqb_spec (row p) (row q)) as [E | E], (Z.eqb_spec (col p) (col q)) as [F | F]; try done;
    rewrite ?E, ?F, ?Z.sub_diag in *; simpl in *; rewrite ?Z.mul_0_r; lia.
Qed.

Lemma all_free_ret b l : board_ok b -> Forall on_board l -> all_free b l = Ret (pieces_on b l =? 0)%nat.
Proof.
  intros Hb. unfold pieces_on. induction 1 as [|p l Hp _ IH]; [done |]. cbn [all_free List.filter].
  rewrite has_piece_ret by done. cbn [obind]. by destruct (occupied b p).
Qed.

Lemma count_jumps_ret b l : board_ok b -> Forall on_board l -> forall n,
  0 <= n -> n + Z.of_nat (length l) < 256 -> count_jumps b l n = Ret (n + Z.of_nat (pieces_on b l)).
Proof.
  intros Hb. unfold pieces_on. induction 1 as [|p l Hp _ IH]; intros n Hn Hl; [simpl; f_equal; lia |].
  cbn [count_jumps List.filter length] in *. rewrite has_piece_ret by done. cbn [obind].
  destruct (occupied b p); [rewrite chk_u_ret by lia |]; cbn [obind]; rewrite IH by lia; f_equal; simpl length; lia.
Qed.

Lemma faces_ret b l : board_ok b -> Forall on_board l ->
  faces_general b l = Ret (match List.find (occupied b) l with
    | Some s => match piece_at b s with Some g => bool_decide (piece_type g = General) | None => false end
    | None => false end).
Proof.
  intros Hb. induction 1 as [|p l Hp _ IH]; [done |]. cbn [faces_general List.find].
  rewrite has_piece_ret by done. cbn [obind]. destruct (occupied b p) eqn:E; [| done].
  unfold type_at_pos. rewrite get_piece_ret by done. cbn [obind]. unfold occupied in E. by destruct (piece_at b p).
Qed.

(** ** Piece by piece *)
Section Piece.
Context (b : Board) (self : Piece) (q : Position).
Hypothesis Hb : board_ok b.
Hypothesis Hp : on_board (pos self).
Hypothesis Hq : on_board q.

Lemma general_ret : general_move self q b = Ret (type_rule b (pos self) q (color self) General).
Proof.
  unfold general_move, type_rule, dist. destruct (is_in_palace q (color self)) eqn:Epal; [| done]. cbn [negb andb].
  pose proof Hp as [P1 P2]. pose proof Hq as [Q1 Q2].
  set (far := mkPos (match color self with Red => 9 | Black => 0 end) (col q)).
  assert (Hf : on_board far) by (unfold far, on_board; destruct (color self); simpl; lia).
  assert (Hl : on_line q far = true) by (unfold on_line, far; simpl; lia).
  rewrite orthogonals_ret by done. cbn [obind]. rewrite faces_ret by (try done; apply ray_on_board; done). cbn [obind].
  assert (E : ray q (Z.sgn (row far - row q)) (Z.sgn (col far - col q)) (Z.to_nat (Z.abs (row far - row q) + Z.abs (col far - col q)))
    = match color self with Red => ray q 1 0 (Z.to_nat (9 - row q)) | Black => ray q (-1) 0 (Z.to_nat (row q)) end).
  { unfold far. simpl col. rewrite Z.sub_diag. simpl Z.sgn. rewrite Z.add_0_r. unfold is_in_palace in Epal.
    destruct (color self); simpl row; [rewrite Z.sgn_pos, Z.abs_eq by lia | rewrite Z.sgn_neg, Z.abs_neq by lia];
      repeat f_equal; lia. }
  rewrite E. fold (facing b (color self) q). destruct (facing b (color self) q); [by rewrite andb_false_r |].
  rewrite andb_true_r. unfold pawn_up, pawn_down, next_above, next_below, next_right, next_left, postions_match.
  destruct (color self); chk; simpl; f_equal; lia.
Qed.

Lemma pawn_ret : pawn_move self q = Ret (type_rule b (pos self) q (color self) Pawn).
Proof.
  pose proof Hp as [P1 P2]. pose proof Hq as [Q1 Q2].
  unfold pawn_move, type_rule, dist, pawn_up, next_above, next_below, next_right, next_left, postions_match, is_past_river.
  destruct (color self); chk; destruct (_ <=? _) eqn:E; chk; simpl; f_equal; lia.
Qed.

Lemma advisor_ret : advisor_move self q = Ret (type_rule b (pos self) q (color self) Advisor).
Proof.
  pose proof Hp as [P1 P2]. pose proof Hq as [Q1 Q2].
  unfold advisor_move, type_rule, dist, is_diagonal_to. rewrite !abs_diff_ret by lia. cbn [obind].
  destruct (_ =? _) eqn:E; cbn [negb]; [| f_equal; lia].
  destruct (is_in_palace q (color self)); cbn [negb andb]; [| done].
  unfold pawn_up, pawn_down, next_above, next_below, next_right, next_left, postions_match.
  destruct (color self); chk; simpl; chk; simpl; f_equal; lia.
Qed.

Lemma rook_ret : rook_move self q b = Ret (type_rule b (pos self) q (color self) Rook).
Proof.
  unfold rook_move, type_rule, dist.
  assert (is_orthogonal_to (pos self) q = on_line (pos self) q) as ->
    by (unfold is_orthogonal_to, on_line; apply orb_comm).
  destruct (on_line (pos self) q) eqn:El; [| done]. cbn [negb andb].
  rewrite orthogonals_ret by done. cbn [obind]. rewrite pop_ray. apply all_free_ret; [done |].
  apply ray_on_board; try done. lia.
Qed.

Lemma cannon_ret : owned b (color self) q = false ->
  cannon_move self q b = Ret (type_rule b (pos self) q (color self) Cannon).
Proof.
  intros Ho. unfold cannon_move, type_rule, dist.
  assert (is_orthogonal_to (pos self) q = on_line (pos self) q) as ->
    by (unfold is_orthogonal_to, on_line; apply orb_comm).
  destruct (on_line (pos self) q) eqn:El; [| done]. cbn [negb andb].
  unfold has_enemy_piece. rewrite get_piece_ret by done. cbn [obind]. rewrite orthogonals_ret by done. cbn [obind]. rewrite pop_ray.
  fold (between (pos self) q). assert (Hf : Forall on_board (between (pos self) q))
    by (apply ray_on_board; try done; lia).
  unfold owned, occupied in *. destruct (piece_at b q) as [x|].
  - apply bool_decide_eq_false in Ho. rewrite bool_decide_eq_true_2 by done.
    pose proof Hp as [P1 P2]. pose proof Hq as [Q1 Q2].
    rewrite count_jumps_ret by (try done; unfold between; rewrite ?length_ray; lia). cbn [obind].
    rewrite Z.add_0_l. set (n := pieces_on b _). f_equal. by destruct (Nat.eqb_spec n 1), (Z.eqb_spec (Z.of_nat n) 1); try lia.
  - by apply all_free_ret.
Qed.

Lemma horse_ret : horse_move self q b = Ret (type_rule b (pos self) q (color self) Horse).
Proof.
  pose proof Hp as [P1 P2]. pose proof Hq as [Q1 Q2].
  unfold horse_move, type_rule, dist, is_horse_move. rewrite !abs_diff_ret by lia. cbn [obind].
  rewrite (abs_sub (row (pos self))), (abs_sub (col (pos self))).
  set (dr := Z.abs (row q - row (pos self))). set (dc := Z.abs (col q - col (pos self))).
  assert (E : (let! first := (if dr =? 2 then Ret (dc =? 1) else Ret false) in
     if first then Ret true else if dr =? 1 then Ret (dc =? 2) else Ret false) =
    Ret (((dr =? 2) && (dc =? 1)) || ((dr =? 1) && (dc =? 2)))).
  { destruct (dr =? 2), (dc =? 1), (dr =? 1), (dc =? 2); done. }
  rewrite E. cbn [obind]. destruct (_ || _) eqn:Eh; [| done]. cbn [negb andb].
  unfold next_above, next_below, next_right, next_left. chk. unfold is_above, is_right_of, horse_leg.
  fold dr. destruct (Z.eqb_spec dr 2) as [E2 | E2].
  - destruct (Z.ltb_spec (row (pos self)) (row q)); chk;
      rewrite (proj2 (Z.ltb_lt 1 _)), has_piece_ret by (try done; unfold on_board; simpl; lia); cbn [obind];
      do 4 f_equal; lia.
  - destruct (Z.ltb_spec (row (pos self)) (row q)); chk; rewrite (proj2 (Z.ltb_ge 1 _)) by lia;
      destruct (Z.ltb_spec (col (pos self)) (col q));
      rewrite has_piece_ret by (try done; unfold on_board; simpl; lia); cbn [obind]; do 4 f_equal; lia.
Qed.

Lemma elephant_ret : elephant_move self q b = Ret (type_rule b (pos self) q (color self) Elephant).
Proof.
  pose proof Hp as [P1 P2]. pose proof Hq as [Q1 Q2].
  unfold elephant_move, type_rule, dist, diagonals_to, is_diagonal_to, diagonal_distance.
  rewrite !abs_diff_ret by lia. cbn [obind].
  rewrite (abs_sub (row (pos self))), (abs_sub (col (pos self))).
  set (dr := Z.abs (row q - row (pos self))). set (dc := Z.abs (col q - col (pos self))).
  destruct (is_past_river q (color self)); [done |]. cbn [negb andb].
  rewrite (Z.eqb_sym dc dr). destruct (Z.eqb_spec dr dc) as [Ed |]; [| done]. cbn [negb andb]. rewrite <- Ed.
  destruct (Z.ltb_spec dr 2), (Z.leb_spec 2 dr); try lia; [done |]. cbn [andb].
  rewrite steps_row by lia. rewrite walk_ret by (cbn [length]; try apply sgn_range; lia). cbn [obind app].
  rewrite pop_ray. apply all_free_ret; [done |].
  apply Forall_forall. intros s Hs. apply list_elem_of_In, in_map_iff in Hs.
  destruct Hs as (k & <- & Hk). apply list_elem_of_In, elem_of_seqZ in Hk. unfold on_board, shift. simpl.
  rewrite Z.mul_0_r. destruct (Z.sgn_spec (row q - row (pos self))) as [[? ->] | [[? ->] | [? ->]]]; lia.
Qed.
End Piece.

(** The legality test is the rule. *)
Lemma legal_ret b self q : board_ok b -> on_board (pos self) -> piece_is_legal_move self q b = Ret (rule b self q).
Proof.
  intros Hb Hp. unfold piece_is_legal_move, rule. destruct (is_off_board q) eqn:Eo; [done |]. cbn [negb andb].
  apply on_board_spec in Eo. unfold has_ally_piece. rewrite get_piece_ret by done. cbn [obind]. fold (owned b (color self) q).
  destruct (owned b (color self) q) eqn:Eow; [done |]. cbn [negb andb].
  destruct (piece_type self); auto using general_ret, advisor_ret, elephant_ret, horse_ret, rook_ret, cannon_ret, pawn_ret.
Qed.
End Rules.
