(* ===== verification/XqGame.v ===== *)
(** * Playing xiangqi

    The board operations of [board.rs] on top of the rules of XqRules.v:
    check, the generation of moves, and [play_move].  The invariant of a game
    and the theorems that playing preserves it and never panics. *)
From S2P Require Import Prelude Xiangqi XqRules.

(** ** Pure counterparts *)
Definition threat (b : Board) (p : Position) (c : Color) : bool :=
  existsb (fun o => match o with Some q => negb (bool_decide (color q = c)) && rule b q p | None => false end) (points b).

Definition palace (c : Color) : list Position := match c with Red => RED_PALACE | Black => BLACK_PALACE end.
Definition has_general_at (b : Board) (p : Position) : bool :=
  match piece_at b p with Some q => bool_decide (piece_type q = General) | None => false end.
Definition general_of (b : Board) (c : Color) : option Position := List.find (has_general_at b) (palace c).
Definition check (b : Board) (c : Color) : bool :=
  match general_of b c with Some g => threat b g c | None => false end.

Definition moved (b : Board) (from to : Position) (p : Piece) : Board :=
  set_points (<[index from := None]> (<[index to := Some (move_to p to)]> (points b))) b.

Definition legal (b : Board) (from to : Position) (c : Color) : bool :=
  match piece_at b from with
  | Some p => rule b p to && bool_decide (color p = c) && negb (check (moved b from to p) c)
  | None => false
  end.

(** The squares [get_canidates] proposes. *)
Definition diagonal_targets (p : Position) (d : Z) : list Position :=
  [mkPos (row p + d) (col p + d); mkPos (row p + d) (col p - d);
   mkPos (row p - d) (col p + d); mkPos (row p - d) (col p - d)].
Definition step_targets (p : Position) (c : Color) : list Position :=
  let up := mkPos (row p + 1) (col p) in let down := mkPos (row p - 1) (col p) in
  match c with Red => [up; down] | Black => [down; up] end ++ [mkPos (row p) (col p + 1); mkPos (row p) (col p - 1)].
Definition horse_targets (p : Position) : list Position :=
  let at_ r c := mkPos (row p + r) (col p + c) in
  [at_ 2 1; at_ 2 (-1); at_ 1 2; at_ 1 (-2); at_ (-2) 1; at_ (-2) (-1); at_ (-1) 2; at_ (-1) (-2)].
Definition ray_targets (p : Position) : list Position :=
  ((ray p 0 1 (Z.to_nat (8 - col p)) ++ ray p 0 (-1) (Z.to_nat (col p))) ++ ray p (-1) 0 (Z.to_nat (row p))) ++
  ray p 1 0 (Z.to_nat (9 - row p)).
Definition targets (self : Piece) : list Position :=
  match piece_type self with
  | Advisor => diagonal_targets (pos self) 1
  | Elephant => diagonal_targets (pos self) 2
  | Cannon | Rook => ray_targets (pos self)
  | General | Pawn => step_targets (pos self) (color self)
  | Horse => horse_targets (pos self)
  end.

Definition piece_moves (b : Board) (q : Piece) : list Move :=
  map (MovePiece (pos q)) (List.filter (fun to => legal b (pos q) to (color q)) (targets q)).
Definition point_moves (b : Board) (c : Color) (o : option Piece) : list Move :=
  match o with Some q => if decide (color q = c) then piece_moves b q else [] | None => [] end.
Definition legal_moves (b : Board) : list Move := points b ≫= point_moves b (turn b).

(** ** The invariant of a game *)

(** How many moves a piece can have at most. *)
Definition mobility (q : Piece) : Z :=
  match piece_type q with Rook | Cannon => 17 | Horse => 8 | _ => 4 end.
Definition point_mobility (c : Color) (o : option Piece) : Z :=
  match o with Some q => if decide (color q = c) then mobility q else 0 | None => 0 end.
Definition total_mobility (b : Board) (c : Color) : Z := foldr (fun o n => point_mobility c o + n) 0 (points b).

Record game_ok (b : Board) : Prop := {
  g_board : board_ok b;
  g_home : forall i q, points b !! i = Some (Some q) -> piece_type q = General -> is_in_palace (pos q) (color q) = true;
  g_general : forall c, is_Some (general_of b c);
  g_mobility : forall c, total_mobility b c <= 200;
  g_safe : check b (opposite (turn b)) = false
}.

Section Game.
Context {HV : HeaplessVec} {HL : HeaplessVecLaws HV}.

(** ** Threats: the quick filter of [is_threatened] loses nothing *)
Lemma rule_reach b q p :
  rule b q p = true ->
  let '(dr, dc) := dist (pos q) p in on_line (pos q) p || (dr =? dc) || ((dr =? 2) && (dc =? 1) || (dr =? 1) && (dc =? 2)) = true.
Proof.
  unfold rule, type_rule, dist, on_line. destruct (piece_type q); lia.
Qed.

Lemma threatened_ret b p c :
  board_ok b -> on_board p -> is_threatened b p c = Ret (threat b p c).
Proof.
  intros Hb Hp. unfold is_threatened, threat.
  assert (Hall : Forall (fun o => match o with Some q => on_board (pos q) | None => True end) (points b)).
  { apply Forall_lookup. intros i [q|] Hi; [| done]. by destruct (board_pos b Hb i q Hi). }
  induction Hall as [|o l Ho _ IH]; [done |]. cbn [threatened_loop existsb]. destruct o as [q|]; [| exact IH].
  destruct Ho as [Q1 Q2]. pose proof Hp as [P1 P2].
  pose proof (rule_reach b q p) as Hr. unfold dist, on_line in Hr.
  unfold is_orthogonal_to, is_diagonal_to, is_horse_move. rewrite !abs_diff_ret by lia.
  cbn [obind]. rewrite (abs_sub (row (pos q))), (abs_sub (col (pos q))).
  set (dr := Z.abs (row p - row (pos q))) in *. set (dc := Z.abs (col p - col (pos q))) in *.
  rewrite legal_ret by done. 
  destruct (rule b q p) eqn:Er.
  - specialize (Hr eq_refl).
    assert (E : (if (col (pos q) =? col p) || (row (pos q) =? row p) then Ret false else
      if dc =? dr then Ret false else
      let! h := (let! first := (if dr =? 2 then Ret (dc =? 1) else Ret false) in
                 if first then Ret true else if dr =? 1 then Ret (dc =? 2) else Ret false) in Ret (negb h)) = Ret false).
    { destruct ((col (pos q) =? col p) || _) eqn:E1; [done |]. destruct (dc =? dr) eqn:E2; [done |].
      destruct (dr =? 2) eqn:E3, (dc =? 1) eqn:E4, (dr =? 1) eqn:E5, (dc =? 2) eqn:E6; simpl; try done; lia. }
    rewrite E. cbn [obind]. rewrite andb_true_r. destruct (decide (color q = c)) as [Hc | Hc].
    + rewrite bool_decide_eq_true_2 by done. exact IH.
    + rewrite bool_decide_eq_false_2 by done. done.
  - clear Hr. rewrite andb_false_r. cbn [orb]. destruct ((col (pos q) =? col p) || _), (dc =? dr), (dr =? 2),
      (dc =? 1), (dr =? 1), (dc =? 2), (decide (color q = c)); exact IH.
Qed.

Lemma palace_on_board c p : p ∈ palace c -> on_board p /\ is_in_palace p c = true.
Proof.
  unfold on_board. destruct c; unfold palace, RED_PALACE, BLACK_PALACE; rewrite !elem_of_cons, elem_of_nil;
    intros H; repeat destruct H as [-> | H]; try done; simpl; lia.
Qed.

Lemma in_palace p c : on_board p -> is_in_palace p c = true -> p ∈ palace c.
Proof.
  destruct p as [r k]. unfold on_board. simpl. intros [H1 H2] H.
  destruct c; unfold palace, RED_PALACE, BLACK_PALACE; simpl in H.
  - assert (r = 0 \/ r = 1 \/ r = 2) as Hr by lia. assert (k = 3 \/ k = 4 \/ k = 5) as Hk by lia.
    repeat destruct Hr as [-> | Hr]; subst; repeat destruct Hk as [-> | Hk]; subst; rewrite !elem_of_cons; tauto.
  - assert (r = 7 \/ r = 8 \/ r = 9) as Hr by lia. assert (k = 3 \/ k = 4 \/ k = 5) as Hk by lia.
    repeat destruct Hr as [-> | Hr]; subst; repeat destruct Hk as [-> | Hk]; subst; rewrite !elem_of_cons; tauto.
Qed.

Lemma general_pos_ret b c :
  board_ok b -> get_general_pos b c = unwrap (general_of b c).
Proof.
  intros Hb. unfold get_general_pos, general_of. fold (palace c).
  assert (Hall : Forall on_board (palace c)).
  { apply Forall_forall. intros p Hp. by apply palace_on_board in Hp as [? _]. }
  induction Hall as [|p l Hp _ IH]; [done |]. cbn [find_general List.find].
  rewrite get_piece_ret by done. cbn [obind]. unfold has_general_at at 1.
  destruct (piece_at b p) as [q|]; [| exact IH]. case_bool_decide; destruct (decide (piece_type q = General)); done.
Qed.

Lemma general_of_spec b c g : general_of b c = Some g ->
  g ∈ palace c /\ exists q, piece_at b g = Some q /\ piece_type q = General.
Proof.
  intros H. apply List.find_some in H as [Hin Hg]. split; [by apply list_elem_of_In |].
  unfold has_general_at in Hg. destruct (piece_at b g) as [q|]; [| done]. exists q.
  by apply bool_decide_eq_true in Hg.
Qed.

Lemma general_of_exists b c g q :
  g ∈ palace c -> piece_at b g = Some q -> piece_type q = General -> is_Some (general_of b c).
Proof.
  intros Hin Hg Ht. unfold general_of. destruct (List.find (has_general_at b) (palace c)) eqn:E; [done |].
  eapply List.find_none in E; [| by apply list_elem_of_In]. unfold has_general_at in E.
  rewrite Hg, bool_decide_eq_true_2 in E by done. done.
Qed.

Lemma check_ret b c : board_ok b -> is_Some (general_of b c) -> is_in_check b c = Ret (check b c).
Proof.
  intros Hb [g Hg]. unfold is_in_check, check. rewrite general_pos_ret, Hg by done. cbn [unwrap obind].
  apply threatened_ret; [done |]. apply general_of_spec in Hg as [Hin _]. by apply palace_on_board in Hin as [? _].
Qed.

(** ** Moving a piece *)
Lemma rule_target b q p : rule b q p = true -> on_board p /\ owned b (color q) p = false.
Proof. unfold rule. rewrite !andb_true_iff, !negb_true_iff, on_board_spec. tauto. Qed.

Lemma rule_moves b q p : piece_at b (pos q) = Some q -> rule b q p = true -> p <> pos q.
Proof.
  intros Hq Hr ->. destruct (rule_target _ _ _ Hr) as [_ Ho]. unfold owned in Ho. rewrite Hq in Ho.
  by rewrite bool_decide_eq_true_2 in Ho.
Qed.

Lemma move_piece_ret b from to p :
  board_ok b -> on_board from -> on_board to -> piece_at b from = Some p ->
  move_piece b from to = Ret (moved b from to p).
Proof.
  intros Hb Hf Ht Hp. unfold move_piece. rewrite (proj2 (on_board_spec from)), (proj2 (on_board_spec to)) by done.
  cbn [orb]. rewrite !index_ret, get_piece_ret, Hp by done. cbn [obind unwrap].
  pose proof (index_lt b from Hb Hf). pose proof (index_lt b to Hb Ht). unfold index in *.
  destruct Hf, Ht. rewrite upd_ret by lia. cbn [obind]. rewrite upd_ret by (rewrite length_insert; lia). done.
Qed.

(** What stands where after a move. *)
Lemma moved_lookup b from to p i o :
  board_ok b -> on_board from -> on_board to -> from <> to ->
  points (moved b from to p) !! i = Some o <->
    (i = index from /\ o = None) \/ (i = index to /\ o = Some (move_to p to)) \/
    (i <> index from /\ i <> index to /\ points b !! i = Some o).
Proof.
  intros Hb Hf Ht Hne. pose proof (index_lt b from Hb Hf). pose proof (index_lt b to Hb Ht).
  assert (Hi : index from <> index to) by (intros E; by apply index_inj in E).
  simpl. destruct (decide (i = index from)) as [-> |].
  - rewrite list_lookup_insert_eq by (rewrite length_insert; lia).
    split; [intros [= <-]; auto | intros [[_ ->] | [[? _] | (? & _)]]; done].
  - rewrite list_lookup_insert_ne by done. destruct (decide (i = index to)) as [-> |].
    + rewrite list_lookup_insert_eq by lia.
      split; [intros [= <-]; auto | intros [[? _] | [[_ ->] | (_ & ? & _)]]; done].
    + rewrite list_lookup_insert_ne by done.
      split; [auto | intros [[? _] | [[? _] | (_ & _ & ?)]]; done].
Qed.

Lemma moved_at b from to p s :
  board_ok b -> on_board from -> on_board to -> from <> to -> on_board s ->
  piece_at (moved b from to p) s =
    if decide (s = from) then None else if decide (s = to) then Some (move_to p to) else piece_at b s.
Proof.
  intros Hb Hf Ht Hne Hs. pose proof (index_lt b from Hb Hf). pose proof (index_lt b to Hb Ht).
  unfold piece_at. simpl. destruct (decide (s = from)) as [-> | H1].
  - by rewrite list_lookup_insert_eq by (rewrite length_insert; lia).
  - rewrite list_lookup_insert_ne by (intros E; apply H1; symmetry; by apply index_inj).
    destruct (decide (s = to)) as [-> | H2]; [by rewrite list_lookup_insert_eq by lia |].
    by rewrite list_lookup_insert_ne by (intros E; apply H2; symmetry; by apply index_inj).
Qed.

Lemma moved_ok b from to p :
  board_ok b -> on_board from -> on_board to -> from <> to -> board_ok (moved b from to p).
Proof.
  intros Hb Hf Ht Hne. split.
  - simpl. rewrite !length_insert. by apply board_size.
  - intros i q Hi. apply moved_lookup in Hi as [[_ ?] | [[-> [= ->]] | (_ & _ & Hi)]]; try done.
    by apply (board_pos b Hb).
Qed.

(** All generals are at home, before and after a legal move. *)
Definition home (b : Board) : Prop :=
  forall i q, points b !! i = Some (Some q) -> piece_type q = General -> is_in_palace (pos q) (color q) = true.

Lemma rule_general_home b q p : rule b q p = true -> piece_type q = General -> is_in_palace p (color q) = true.
Proof. unfold rule, type_rule. intros H Hg. rewrite Hg in H. destruct (dist _ _). rewrite !andb_true_iff in H. tauto. Qed.

Lemma moved_home b from to p :
  board_ok b -> home b -> on_board from -> on_board to -> from <> to -> rule b p to = true -> home (moved b from to p).
Proof.
  intros Hb Hh Hf Ht Hne Hr i q Hi Hg.
  apply moved_lookup in Hi as [[_ ?] | [[-> [= ->]] | (_ & _ & Hi)]]; try done.
  - simpl in *. by apply (rule_general_home b).
  - by apply (Hh i).
Qed.

Lemma piece_at_lookup b p q : piece_at b p = Some q -> points b !! index p = Some (Some q).
Proof. unfold piece_at. destruct (points b !! index p) as [o|]; simpl; [by intros -> | done]. Qed.

(** The general found in a palace has that palace's colour. *)
Lemma general_color b c g q : board_ok b -> home b -> general_of b c = Some g -> piece_at b g = Some q -> color q = c.
Proof.
  intros Hb Hh Hg Hq. apply general_of_spec in Hg as (Hin & q' & Hq' & Ht). assert (q' = q) as -> by congruence.
  apply palace_on_board in Hin as [Hon Hp]. pose proof (Hh _ _ (piece_at_lookup _ _ _ Hq) Ht) as Hh'.
  rewrite (piece_at_pos b g q Hb Hq Hon) in Hh'. destruct c, (color q); simpl in *; try done; lia.
Qed.

(** A legal move keeps the mover's general. *)
Lemma own_general_stays b from to p :
  board_ok b -> home b -> on_board from -> piece_at b from = Some p -> rule b p to = true ->
  is_Some (general_of b (color p)) -> is_Some (general_of (moved b from to p) (color p)).
Proof.
  intros Hb Hh Hf Hp Hr [g Hg]. pose proof (piece_at_pos b from p Hb Hp Hf) as Epos.
  destruct (rule_target _ _ _ Hr) as [Ht Hown].
  assert (Hne : to <> from) by (rewrite <- Epos; apply (rule_moves b); [by rewrite Epos | done]).
  pose proof (general_of_spec _ _ _ Hg) as (Hin & q & Hq & Htq).
  pose proof (proj1 (palace_on_board _ _ Hin)) as Hong.
  destruct (decide (g = from)) as [-> | Hgf].
  - assert (q = p) as -> by congruence. eapply (general_of_exists _ _ to (move_to p to)).
    + apply in_palace; [done | by apply (rule_general_home b)].
    + rewrite moved_at by done. by rewrite decide_False, decide_True by done.
    + done.
  - assert (Hgt : g <> to).
    { intros ->. unfold owned in Hown. rewrite Hq in Hown.
      rewrite (general_color b _ _ _ Hb Hh Hg Hq), bool_decide_eq_true_2 in Hown; done. }
    eapply general_of_exists; [exact Hin | | exact Htq]. rewrite moved_at by done.
    by rewrite !decide_False by done.
Qed.

(** A player who is not in check does not lose the general to a legal move of
    the other. *)
Lemma other_general_stays b from to p c :
  board_ok b -> home b -> on_board from -> piece_at b from = Some p -> rule b p to = true -> color p <> c ->
  is_Some (general_of b c) -> check b c = false -> is_Some (general_of (moved b from to p) c).
Proof.
  intros Hb Hh Hf Hp Hr Hc [g Hg] Hs. pose proof (piece_at_pos b from p Hb Hp Hf) as Epos.
  destruct (rule_target _ _ _ Hr) as [Ht Hown].
  assert (Hne : to <> from) by (rewrite <- Epos; apply (rule_moves b); [by rewrite Epos | done]).
  pose proof (general_of_spec _ _ _ Hg) as (Hin & q & Hq & Htq).
  pose proof (proj1 (palace_on_board _ _ Hin)) as Hong.
  assert (g <> from).
  { intros ->. assert (q = p) as -> by congruence. by apply Hc, (general_color b c from). }
  assert (g <> to).
  { intros ->. unfold check in Hs. rewrite Hg in Hs. unfold threat in Hs.
    assert (existsb (fun o => match o with Some q => negb (bool_decide (color q = c)) && rule b q to | None => false end)
      (points b) = true) as Hx; [| congruence].
    apply existsb_exists. exists (Some p). split.
    - apply list_elem_of_In, list_elem_of_lookup. exists (index from). by apply piece_at_lookup.
    - rewrite bool_decide_eq_false_2 by done. done. }
  eapply general_of_exists; [exact Hin | | exact Htq]. rewrite moved_at by done. by rewrite !decide_False by done.
Qed.

(** ** Legality *)
Lemma legal_move_ret b from to c :
  board_ok b -> home b -> on_board from -> is_Some (general_of b c) ->
  is_legal_move b (MovePiece from to) c = Ret (legal b from to c).
Proof.
  intros Hb Hh Hf Hg. unfold is_legal_move, legal. rewrite get_piece_ret by done. cbn [obind].
  destruct (piece_at b from) as [p|] eqn:Hp; [| done]. pose proof (piece_at_pos b from p Hb Hp Hf) as Epos.
  rewrite legal_ret by (try done; by rewrite Epos). cbn [obind].
  destruct (rule b p to) eqn:Hr; [| done]. cbn [negb andb]. destruct (rule_target _ _ _ Hr) as [Ht _].
  assert (Hne : to <> from) by (rewrite <- Epos; apply (rule_moves b); [by rewrite Epos | done]).
  case_bool_decide as Hc; [| done]. subst c. cbn [negb andb].
  rewrite (move_piece_ret b from to p) by done. cbn [obind].
  rewrite check_ret by (try (by apply moved_ok); by apply own_general_stays). done.
Qed.

(** ** Candidates *)
Ltac chk := repeat (rewrite chk_i_ret by lia; cbn [obind]).

Lemma push_steps_ret p fs tos : Forall2 (fun f t => f p = Ret t) fs tos -> forall l,
  Z.of_nat (length l) + Z.of_nat (length tos) <= 200 ->
  push_steps p fs l = Ret (l ++ map (MovePiece p) tos).
Proof.
  induction 1 as [|f t fs tos Hf _ IH]; intros l Hl; [by rewrite app_nil_r |]. simpl length in Hl.
  cbn [push_steps]. rewrite Hf. cbn [obind]. unfold push_move. rewrite hv_push_law. unfold MAX_MOVES.
  rewrite (proj2 (Z.ltb_lt _ _)) by lia. cbn [unwrap obind].
  rewrite IH by (rewrite length_app; simpl; lia). by rewrite <- app_assoc.
Qed.

Lemma push_moves_ret p tos : forall l,
  Z.of_nat (length l) + Z.of_nat (length tos) <= 200 ->
  push_moves p tos l = Ret (l ++ map (MovePiece p) tos).
Proof.
  induction tos as [|t tos IH]; intros l Hl; [by rewrite app_nil_r |]. simpl length in Hl.
  cbn [push_moves]. unfold push_move. rewrite hv_push_law. unfold MAX_MOVES.
  rewrite (proj2 (Z.ltb_lt _ _)) by lia. cbn [unwrap obind].
  rewrite IH by (rewrite length_app; simpl; lia). by rewrite <- app_assoc.
Qed.

Lemma extend_ret {A} (l l' : list A) : Z.of_nat (length l) + Z.of_nat (length l') <= 200 -> hv_extend l l' = Some (l ++ l').
Proof. intros H. rewrite hv_extend_law. unfold MAX_MOVES. by rewrite (proj2 (Z.leb_le _ _)) by lia. Qed.

Ltac side E1 E2 E3 := first [unfold on_board, on_line; simpl; lia | simpl; rewrite Z.sub_diag; exact (E1 _)
  | simpl; apply E2; lia | simpl; apply E3; lia].

Lemma rays_ret p : on_board p -> rays p = Ret (ray_targets p).
Proof.
  intros Hp. pose proof Hp as [H1 H2]. unfold rays, ray_targets.
  assert (E : forall q dr dc n, on_board q -> on_line p q = true ->
    Z.sgn (row q - row p) = (if (n =? 0)%nat then 0 else dr) -> Z.sgn (col q - col p) = (if (n =? 0)%nat then 0 else dc) ->
    Z.abs (row q - row p) + Z.abs (col q - col p) = Z.of_nat n -> orthogonals_to p q = Ret (ray p dr dc n)).
  { intros q dr dc n Hq Hl E1 E2 E3. rewrite orthogonals_ret, E1, E2, E3, Nat2Z.id by done. by destruct n. }
  assert (S : forall x, 0 <= x -> Z.sgn x = if (Z.to_nat x =? 0)%nat then 0 else 1).
  { intros x Hx. destruct (Nat.eqb_spec (Z.to_nat x) 0); [assert (x = 0) as -> by lia; done | apply Z.sgn_pos; lia]. }
  assert (S' : forall x, 0 <= x -> Z.sgn (- x) = if (Z.to_nat x =? 0)%nat then 0 else -1).
  { intros x Hx. rewrite Z.sgn_opp, S by done. by destruct (Nat.eqb_spec (Z.to_nat x) 0). }
  assert (Z0 : forall (b : bool), 0 = if b then 0 else 0) by (by intros []).
  rewrite (E (mkPos (row p) 8) 0 1 (Z.to_nat (8 - col p))) by side Z0 S S'.
  cbn [obind]. rewrite (E (mkPos (row p) 0) 0 (-1) (Z.to_nat (col p))) by side Z0 S S'.
  cbn [obind]. rewrite extend_ret by (rewrite !length_ray; lia). cbn [unwrap obind].
  rewrite (E (mkPos 0 (col p)) (-1) 0 (Z.to_nat (row p))) by side Z0 S S'.
  cbn [obind]. rewrite extend_ret by (rewrite length_app, !length_ray; lia). cbn [unwrap obind].
  rewrite (E (mkPos 9 (col p)) 1 0 (Z.to_nat (9 - row p))) by side Z0 S S'.
  cbn [obind]. rewrite extend_ret by (rewrite !length_app, !length_ray; lia). done.
Qed.

Lemma length_targets q : on_board (pos q) -> Z.of_nat (length (targets q)) <= mobility q.
Proof.
  intros [H1 H2]. unfold targets, mobility, ray_targets, step_targets.
  destruct (piece_type q); try (destruct (color q)); simpl; rewrite ?length_app, ?length_ray; lia.
Qed.

Lemma canidates_ret q : on_board (pos q) -> get_canidates q = Ret (map (MovePiece (pos q)) (targets q)).
Proof.
  intros Hp. pose proof (length_targets q Hp) as Hlen. pose proof Hp as [H1 H2]. unfold get_canidates, targets, mobility in *.
  destruct (piece_type q).
  1, 7: unfold pawn_up, pawn_down, step_targets in *; unfold next_above, next_below, next_right, next_left in *;
    destruct (color q); chk; rewrite push_moves_ret by (simpl; lia); done.
  1, 2: erewrite push_steps_ret; [reflexivity | | simpl; lia]; unfold diagonal_targets;
    repeat constructor; unfold offset; chk; done.
  - erewrite push_steps_ret; [reflexivity | | simpl; lia].
    repeat constructor; unfold then_, next_above, next_below, next_right, next_left; cbn [obind row col]; chk;
      cbn [row col]; chk; cbn [row col]; chk; do 2 f_equal; lia.
  - rewrite rays_ret by done. cbn [obind]. rewrite push_moves_ret by (simpl; lia). done.
  - rewrite rays_ret by done. cbn [obind]. rewrite push_moves_ret by (simpl; lia). done.
Qed.

(** Every square a piece may move to is proposed, but for the longer diagonals
    of an elephant. *)
Lemma shift_in_ray p dr dc n k : 1 <= k <= Z.of_nat n -> shift p dr dc k ∈ ray p dr dc n.
Proof.
  intros Hk. unfold ray. apply list_elem_of_In, in_map, list_elem_of_In, elem_of_seqZ. lia.
Qed.

Lemma target_complete b q to :
  on_board (pos q) -> piece_at b (pos q) = Some q -> rule b q to = true ->
  (piece_type q = Elephant -> Z.abs (row to - row (pos q)) = 2) -> to ∈ targets q.
Proof.
  intros [H1 H2] Hq Hr He. pose proof (rule_moves b q to Hq Hr) as Hne. destruct (rule_target _ _ _ Hr) as [[T1 T2] _].
  unfold rule in Hr. rewrite !andb_true_iff in Hr. destruct Hr as [_ Hr]. unfold type_rule, dist in Hr. unfold targets.
  destruct q as [t [r k] c], to as [r' k']. simpl in *.
  assert (Hcase : forall l : list (Z * Z), (exists dr dc, (dr, dc) ∈ l /\ r' = r + dr /\ k' = k + dc) ->
    mkPos r' k' ∈ map (fun d => mkPos (r + fst d) (k + snd d)) l).
  { intros l (dr & dc & Hin & -> & ->). apply list_elem_of_In, in_map_iff. exists (dr, dc). split; [done | by apply list_elem_of_In]. }
  assert (Hline : on_line (mkPos r k) (mkPos r' k') = true -> mkPos r' k' ∈ ray_targets (mkPos r k)).
  { unfold on_line. simpl. intros Hl. unfold ray_targets. simpl. rewrite !elem_of_app.
    destruct (Z.eqb_spec r r') as [<- | Hrne].
    - destruct (Z.lt_total k k') as [Hlt | [-> | Hgt]]; [| done |].
      + left. left. left. replace (mkPos r k') with (shift (mkPos r k) 0 1 (k' - k)) by (unfold shift; simpl; f_equal; lia).
        apply shift_in_ray. lia.
      + left. left. right. replace (mkPos r k') with (shift (mkPos r k) 0 (-1) (k - k')) by (unfold shift; simpl; f_equal; lia).
        apply shift_in_ray. lia.
    - assert (k' = k) as -> by lia. destruct (Z.lt_total r r') as [Hlt | [-> | Hgt]]; [| done |].
      + right. replace (mkPos r' k) with (shift (mkPos r k) 1 0 (r' - r)) by (unfold shift; simpl; f_equal; lia).
        apply shift_in_ray. lia.
      + left. right. replace (mkPos r' k) with (shift (mkPos r k) (-1) 0 (r - r')) by (unfold shift; simpl; f_equal; lia).
        apply shift_in_ray. lia. }
  destruct t; simpl in *; rewrite ?andb_true_iff in Hr.
  - assert (Hd : Z.abs (r' - r) + Z.abs (k' - k) = 1) by lia. unfold step_targets. simpl.
    assert (r' = r + 1 /\ k' = k \/ r' = r - 1 /\ k' = k \/ r' = r /\ k' = k + 1 \/ r' = r /\ k' = k - 1) as Hc by lia.
    destruct c; rewrite ?elem_of_app, !elem_of_cons; destruct Hc as [[-> ->] | [[-> ->] | [[-> ->] | [-> ->]]]]; tauto.
  - unfold diagonal_targets. simpl.
    assert ((r' = r + 1 \/ r' = r - 1) /\ (k' = k + 1 \/ k' = k - 1)) as [[-> | ->] [-> | ->]] by lia; rewrite !elem_of_cons; tauto.
  - specialize (He eq_refl). unfold diagonal_targets. simpl.
    assert ((r' = r + 2 \/ r' = r - 2) /\ (k' = k + 2 \/ k' = k - 2)) as [[-> | ->] [-> | ->]] by lia; rewrite !elem_of_cons; tauto.
  - apply (Hcase [(2, 1); (2, -1); (1, 2); (1, -2); (-2, 1); (-2, -1); (-1, 2); (-1, -2)]).
    exists (r' - r), (k' - k). split; [| lia].
    assert ((r' - r = 2 \/ r' - r = -2) /\ (k' - k = 1 \/ k' - k = -1) \/ (r' - r = 1 \/ r' - r = -1) /\ (k' - k = 2 \/ k' - k = -2))
      as [[[-> | ->] [-> | ->]] | [[-> | ->] [-> | ->]]] by lia; rewrite !elem_of_cons; tauto.
  - apply Hline. tauto.
  - apply Hline. tauto.
  - assert (Hd : Z.abs (r' - r) + Z.abs (k' - k) = 1) by (destruct c; simpl in Hr; lia). unfold step_targets. simpl.
    assert (r' = r + 1 /\ k' = k \/ r' = r - 1 /\ k' = k \/ r' = r /\ k' = k + 1 \/ r' = r /\ k' = k - 1) as Hc by lia.
    destruct c; rewrite ?elem_of_app, !elem_of_cons; destruct Hc as [[-> ->] | [[-> ->] | [[-> ->] | [-> ->]]]]; tauto.
Qed.

(** ** Generating the moves of a player *)
Lemma filter_collect_ret f (g : Move -> bool) ms : (forall m, m ∈ ms -> f m = Ret (g m)) -> forall acc,
  Z.of_nat (length acc) + Z.of_nat (length ms) <= 200 -> filter_collect f ms acc = Ret (acc ++ List.filter g ms).
Proof.
  induction ms as [|m ms IH]; intros Hf acc Hl; [by rewrite app_nil_r |]. cbn [filter_collect List.filter]. simpl length in Hl.
  rewrite Hf by apply list_elem_of_here. cbn [obind]. destruct (g m).
  - rewrite hv_push_law. unfold MAX_MOVES. rewrite (proj2 (Z.ltb_lt _ _)) by lia. cbn [unwrap obind].
    rewrite IH; [by rewrite <- app_assoc | intros x Hx; apply Hf; by apply list_elem_of_further | rewrite length_app; simpl; lia].
  - apply IH; [intros x Hx; apply Hf; by apply list_elem_of_further | lia].
Qed.

Definition to_of (m : Move) : Position := match m with MovePiece _ to => to | Resign => mkPos 0 0 end.

Lemma filter_map_moves (g : Position -> bool) p l :
  List.filter (fun m => g (to_of m)) (map (MovePiece p) l) = map (MovePiece p) (List.filter g l).
Proof. induction l as [|x l IH]; [done |]. simpl. destruct (g x); simpl; by rewrite IH. Qed.

Lemma piece_moves_ret b q :
  board_ok b -> home b -> on_board (pos q) -> is_Some (general_of b (color q)) ->
  piece_legal_moves q b = Ret (piece_moves b q).
Proof.
  intros Hb Hh Hp Hg. unfold piece_legal_moves, piece_moves. rewrite canidates_ret by done. cbn [obind].
  pose proof (length_targets q Hp) as Hlen.
  rewrite (filter_collect_ret _ (fun m => legal b (pos q) (to_of m) (color q))).
  - simpl. by rewrite (filter_map_moves (fun to => legal b (pos q) to (color q))).
  - intros m Hm. apply list_elem_of_In, in_map_iff in Hm as (to & <- & _). by apply legal_move_ret.
  - rewrite length_map. simpl. unfold mobility in Hlen. destruct (piece_type q); lia.
Qed.

Lemma length_piece_moves b q : on_board (pos q) -> Z.of_nat (length (piece_moves b q)) <= mobility q.
Proof.
  intros Hp. unfold piece_moves. rewrite length_map. pose proof (length_targets q Hp).
  pose proof (List.filter_length_le (fun to => legal b (pos q) to (color q)) (targets q)). lia.
Qed.

Lemma legal_loop_ret b c l :
  board_ok b -> home b -> is_Some (general_of b c) ->
  Forall (fun o => match o with Some q => on_board (pos q) | None => True end) l -> forall acc,
  Z.of_nat (length acc) + foldr (fun o n => point_mobility c o + n) 0 l <= 200 ->
  legal_loop b l c acc = Ret (acc ++ (l ≫= point_moves b c)).
Proof.
  intros Hb Hh Hg Hl. assert (Hpos : forall l', 0 <= foldr (fun o n => point_mobility c o + n) 0 l').
  { induction l' as [|[q|] l' IH]; simpl; [lia | | lia]. unfold mobility. destruct (decide _), (piece_type q); lia. }
  induction Hl as [|[q|] l Hq _ IH]; intros acc Hacc; [by rewrite app_nil_r | |].
  - cbn [legal_loop]. rewrite bind_cons. simpl in Hacc |- *. specialize (Hpos l).
    destruct (decide (color q = c)) as [<- |]; [| apply IH; lia].
    rewrite piece_moves_ret by done. cbn [obind]. pose proof (length_piece_moves b q Hq).
    rewrite extend_ret by lia. cbn [unwrap obind]. rewrite IH by (rewrite length_app; lia). by rewrite app_assoc.
  - cbn [legal_loop]. rewrite bind_cons. apply IH. simpl in Hacc. lia.
Qed.

Lemma pieces_on_board b : board_ok b ->
  Forall (fun o => match o with Some q => on_board (pos q) | None => True end) (points b).
Proof. intros Hb. apply Forall_lookup. intros i [q|] Hi; [| done]. by destruct (board_pos b Hb i q Hi). Qed.

Lemma legal_moves_ret b :
  board_ok b -> home b -> is_Some (general_of b (turn b)) -> total_mobility b (turn b) <= 200 ->
  get_legal_moves b = Ret (legal_moves b).
Proof.
  intros Hb Hh Hg Hm. unfold get_legal_moves. rewrite legal_loop_ret; try done. by apply pieces_on_board.
Qed.

Lemma legal_moves_spec b from to :
  board_ok b ->
  MovePiece from to ∈ legal_moves b <->
    exists q, piece_at b from = Some q /\ on_board from /\ to ∈ targets q /\ legal b from to (turn b) = true.
Proof.
  intros Hb. unfold legal_moves. rewrite list_elem_of_bind. split.
  - intros ([q|] & Hm & Hin); [| by apply elem_of_nil in Hm]. simpl in Hm.
    destruct (decide (color q = turn b)) as [E |]; [| by apply elem_of_nil in Hm].
    apply list_elem_of_In, in_map_iff in Hm as (x & [= <- ->] & Hx). apply filter_In in Hx as [Hx Hl].
    apply list_elem_of_lookup in Hin as [i Hi]. destruct (board_pos b Hb i q Hi) as [Hon ->].
    exists q. rewrite E in Hl. unfold piece_at. rewrite Hi. repeat (split; [done |]).
    split; [by apply list_elem_of_In | done].
  - intros (q & Hq & Hon & Hin & Hl). pose proof (piece_at_pos b from q Hb Hq Hon) as Epos.
    exists (Some q). split; [| apply list_elem_of_lookup; exists (index from); by apply piece_at_lookup].
    pose proof Hl as Hl'. unfold legal in Hl'. rewrite Hq, !andb_true_iff in Hl'. destruct Hl' as [[_ Hc] _].
    apply bool_decide_eq_true in Hc. simpl. rewrite decide_True by done. unfold piece_moves. rewrite Epos.
    apply list_elem_of_In, in_map, filter_In. split; [by apply list_elem_of_In | by rewrite Hc].
Qed.

(** ** Playing a move *)
Lemma mobility_nonneg c o : 0 <= point_mobility c o.
Proof. destruct o as [q|]; simpl; [| lia]. destruct (decide _); [| lia]. unfold mobility. destruct (piece_type q); lia. Qed.

Lemma mobility_insert c l i o o' : l !! i = Some o ->
  foldr (fun o n => point_mobility c o + n) 0 (<[i := o']> l) =
  foldr (fun o n => point_mobility c o + n) 0 l - point_mobility c o + point_mobility c o'.
Proof.
  revert i. induction l as [|x l IH]; intros [|i] H; simpl in *; try done; [injection H as ->; lia |].
  rewrite (IH i H). lia.
Qed.

Lemma moved_mobility b from to p c :
  board_ok b -> on_board from -> on_board to -> from <> to -> piece_at b from = Some p ->
  total_mobility (moved b from to p) c <= total_mobility b c.
Proof.
  intros Hb Hf Ht Hne Hp. unfold total_mobility, moved. simpl.
  assert (Hi : index from <> index to) by (intros E; by apply index_inj in E).
  destruct (lookup_lt_is_Some_2 (points b) (index to) (index_lt b to Hb Ht)) as [o Ho].
  pose proof (piece_at_lookup _ _ _ Hp) as Hl.
  rewrite (mobility_insert c _ (index from) (Some p)) by (by rewrite list_lookup_insert_ne).
  rewrite (mobility_insert c _ (index to) o) by done. pose proof (mobility_nonneg c o). simpl.
  unfold mobility. simpl. lia.
Qed.

Lemma opposite_other c c' : c' = c \/ c' = opposite c.
Proof. destruct c, c'; auto. Qed.

(** The pure turn: the board after a legal move is a game position again. *)
Lemma moved_game b from to p :
  game_ok b -> on_board from -> piece_at b from = Some p -> legal b from to (turn b) = true ->
  game_ok (change_turn (moved b from to p)).
Proof.
  intros [Hb Hh Hg Hm Hs] Hf Hp Hl. unfold legal in Hl. rewrite Hp, !andb_true_iff in Hl. destruct Hl as [[Hr Hc] Hsafe].
  apply bool_decide_eq_true in Hc. pose proof (piece_at_pos b from p Hb Hp Hf) as Epos.
  destruct (rule_target _ _ _ Hr) as [Ht _].
  assert (Hne : from <> to) by (intros <-; eapply (rule_moves b p); [by rewrite Epos | exact Hr | done]).
  assert (Hgen : forall c, is_Some (general_of (moved b from to p) c)).
  { intros c. destruct (opposite_other (color p) c) as [-> | ->]; [by apply own_general_stays; try done |].
    apply other_general_stays; try done; [by destruct (color p) | by rewrite Hc]. }
  split.
  - destruct (moved_ok b from to p Hb Hf Ht Hne) as [S1 S2]. by split.
  - exact (moved_home b from to p Hb Hh Hf Ht Hne Hr).
  - exact Hgen.
  - intros c. etransitivity; [| apply (Hm c)]. exact (moved_mobility b from to p c Hb Hf Ht Hne Hp).
  - assert (opposite (turn (change_turn (moved b from to p))) = turn b) as -> by (simpl; by destruct (turn b)).
    apply negb_true_iff in Hsafe. exact Hsafe.
Qed.

Lemma play_legal b from to :
  game_ok b -> on_board from ->
  exists r, play_move b (MovePiece from to) = Ret r /\
    (legal b from to (turn b) = false -> r = IllegalMove (MovePiece from to)) /\
    (legal b from to (turn b) = true -> exists p, piece_at b from = Some p /\
       let b' := change_turn (moved b from to p) in
       game_ok b' /\
       r = match legal_moves b', check b' (turn b') with
           | [], true => Victory (turn b)
           | [], false => Victory (opposite (turn b))
           | _, _ => Continuing b'
           end).
Proof.
  intros Hgo Hf. pose proof Hgo as [Hb Hh Hg Hm Hs]. unfold play_move. rewrite legal_move_ret by done. cbn [obind].
  destruct (legal b from to (turn b)) eqn:Hl; [| by eexists].
  pose proof Hl as Hl'. unfold legal in Hl'. destruct (piece_at b from) as [p|] eqn:Hp; [| done].
  rewrite !andb_true_iff in Hl'. destruct Hl' as [[Hr _] _]. destruct (rule_target _ _ _ Hr) as [Ht _].
  rewrite (move_piece_ret b from to p) by done. cbn [obind].
  pose proof (moved_game b from to p Hgo Hf Hp Hl) as Hgo'. set (b' := change_turn (moved b from to p)) in *.
  destruct Hgo' as [Hb' Hh' Hg' Hm' Hs'] eqn:E. clear E.
  unfold is_checkmate, is_stalemate. rewrite check_ret, legal_moves_ret by done. cbn [obind].
  exists (match legal_moves b', check b' (turn b') with
          | [], true => Victory (turn b) | [], false => Victory (opposite (turn b)) | _, _ => Continuing b' end).
  split; [by destruct (check b' (turn b')), (legal_moves b') |]. split; [done |].
  intros _. exists p. done.
Qed.

(** ** Properties *)

(** [C24] The legality test of a piece is the rule of its type.  On a board of 90
    points, for a piece on the board and any target, [Piece::is_legal_move]
    returns, and returns exactly what the rule says: the reach of the piece,
    free squares between (rooks), exactly one screen to capture and none to
    move (cannons), the free leg (horses), the palace (generals, advisors),
    the river (pawns, elephants), generals not facing each other along a file
    for a general's own move. *)
Theorem legal_move_is_rule b self q :
  board_ok b -> on_board (pos self) -> piece_is_legal_move self q b = Ret (rule b self q).
Proof. apply legal_ret. Qed.

(** [is_threatened] skips the pieces that stand neither on a line, nor on a
    diagonal, nor a horse's move away; the answer is that of asking every
    enemy piece. *)
Theorem threat_filter_exact b p c :
  board_ok b -> on_board p ->
  is_threatened b p c =
    Ret (existsb (fun o => match o with Some q => negb (bool_decide (color q = c)) && rule b q p | None => false end)
           (points b)).
Proof. apply threatened_ret. Qed.

(** One turn of a game that goes on. *)
Inductive game_step : Board -> Board -> Prop :=
| play from to b b' : on_board from -> play_move b (MovePiece from to) = Ret (Continuing b') -> game_step b b'.

Lemma game_step_ok b b' : game_step b b' -> game_ok b -> game_ok b' /\ turn b' = opposite (turn b).
Proof.
  intros [from to b0 b0' Hf E] Hgo. destruct (play_legal b0 from to Hgo Hf) as (r & E' & H1 & H2).
  assert (r = Continuing b0') as -> by congruence. destruct (legal b0 from to (turn b0)); [| by discriminate H1].
  destruct (H2 eq_refl) as (p & _ & Hgo' & Er). clear H1 H2.
  destruct (legal_moves _); [destruct (check _ _) |]; simplify_eq; done.
Qed.

Lemma reachable_game_ok b0 b : rtc game_step b0 b -> game_ok b0 -> game_ok b.
Proof. apply rtc_preserve. intros x y H Hx. by destruct (game_step_ok x y H Hx). Qed.

(** [C23] A game never panics.  Take a position with both generals at home, at
    most 200 moves to generate for each side, and the side that has just
    moved not in check: after any number of moves played from it, playing any
    move from a square of the board returns; the pieces still stand where
    their coordinates say, both generals are still there, and the side that
    has just moved is not in check.  The usual opening is such a position; the
    one built into the program is not, as the side that has just moved is in
    check there. *)
Theorem game_never_panics b0 b from to :
  game_ok b0 -> rtc game_step b0 b -> on_board from ->
  board_ok b /\ (forall c, is_Some (general_of b c)) /\ is_in_check b (opposite (turn b)) = Ret false /\
  exists r, play_move b (MovePiece from to) = Ret r.
Proof.
  intros H0 Hr Hf. pose proof (reachable_game_ok _ _ Hr H0) as Hgo. pose proof Hgo as [Hb _ Hg _ Hs].
  split; [done |]. split; [done |]. split; [by rewrite check_ret, Hs by done |].
  destruct (play_legal b from to Hgo Hf) as (r & E & _). by exists r.
Qed.

(** [C25] The generated moves are the legal ones: in a game position a move is
    generated exactly when [is_legal_move] accepts it, except for an elephant's
    diagonals of other than two squares, which are never generated. *)
Theorem generated_moves_exact b from to :
  game_ok b -> on_board from ->
  exists l, get_legal_moves b = Ret l /\
    (MovePiece from to ∈ l <->
      is_legal_move b (MovePiece from to) (turn b) = Ret true /\
      (forall q, piece_at b from = Some q -> piece_type q = Elephant -> Z.abs (row to - row from) = 2)).
Proof.
  intros [Hb Hh Hg Hm Hs] Hf. exists (legal_moves b). split; [by apply legal_moves_ret |].
  rewrite legal_moves_spec, legal_move_ret by done. split.
  - intros (q & Hq & _ & Hin & Hl). rewrite Hl. split; [done |]. intros q' Hq' He.
    assert (q' = q) as -> by congruence. unfold targets in Hin. rewrite He in Hin.
    rewrite (piece_at_pos b from q Hb Hq Hf) in Hin. unfold diagonal_targets in Hin.
    rewrite !elem_of_cons, elem_of_nil in Hin. destruct Hin as [-> | [-> | [-> | [-> | []]]]]; simpl; lia.
  - intros [Hl He]. injection Hl as Hl. pose proof Hl as Hl'. unfold legal in Hl'.
    destruct (piece_at b from) as [q|] eqn:Hq; [| done]. exists q. split; [done |]. split; [done |]. split; [| done].
    rewrite !andb_true_iff in Hl'. destruct Hl' as [[Hr _] _].
    pose proof (piece_at_pos b from q Hb Hq Hf) as Epos.
    apply (target_complete b); rewrite ?Epos; try done. by apply He.
Qed.

(** How a game ends.  A legal move that leaves the opponent without a legal
    move wins for the mover when the opponent is in check, and for the
    opponent when not (stalemate); any other legal move continues the game
    with the opponent to move, and an illegal one changes nothing. *)
Theorem play_move_result b from to :
  game_ok b -> on_board from ->
  (is_legal_move b (MovePiece from to) (turn b) = Ret false /\
   play_move b (MovePiece from to) = Ret (IllegalMove (MovePiece from to))) \/
  (exists b' l c, is_legal_move b (MovePiece from to) (turn b) = Ret true /\
     turn b' = opposite (turn b) /\ get_legal_moves b' = Ret l /\ is_in_check b' (turn b') = Ret c /\
     play_move b (MovePiece from to) = Ret (match l, c with
       | [], true => Victory (turn b) | [], false => Victory (opposite (turn b)) | _, _ => Continuing b' end)).
Proof.
  intros Hgo Hf. destruct (play_legal b from to Hgo Hf) as (r & E & H1 & H2). pose proof Hgo as [Hb Hh Hg _ _].
  rewrite legal_move_ret by done. rewrite E. destruct (legal b from to (turn b)) eqn:Hl.
  - right. destruct (H2 eq_refl) as (p & Hp & Hgo' & ->). set (b' := change_turn _) in *.
    destruct Hgo' as [Hb' Hh' Hg' Hm' _]. exists b', (legal_moves b'), (check b' (turn b')).
    split; [done |]. split; [done |]. split; [by apply legal_moves_ret |]. split; [by apply check_ret | done].
  - left. rewrite H1 by done. done.
Qed.
End Game.

(** ** Deciding that a position is a game position *)
Definition board_okb (b : Board) : bool :=
  (length (points b) =? 90)%nat &&
  forallb (fun io => match snd io with
                     | Some q => negb (is_off_board (pos q)) && (fst io =? index (pos q))%nat
                     | None => true end) (imap pair (points b)).
Definition homeb (b : Board) : bool :=
  forallb (fun o => match o with
                    | Some q => negb (bool_decide (piece_type q = General)) || is_in_palace (pos q) (color q)
                    | None => true end) (points b).
Definition game_okb (b : Board) : bool :=
  board_okb b && homeb b &&
  match general_of b Red, general_of b Black with Some _, Some _ => true | _, _ => false end &&
  (total_mobility b Red <=? 200) && (total_mobility b Black <=? 200) && negb (check b (opposite (turn b))).

Lemma board_okb_spec b : board_okb b = true -> board_ok b.
Proof.
  unfold board_okb. rewrite andb_true_iff, Nat.eqb_eq, forallb_forall. intros [Hl H]. split; [done |].
  intros i q Hi. specialize (H (i, Some q)). simpl in H. rewrite andb_true_iff, negb_true_iff, Nat.eqb_eq, on_board_spec in H.
  apply H, list_elem_of_In, list_elem_of_lookup. exists i. by rewrite list_lookup_imap, Hi.
Qed.

Lemma game_okb_spec b : game_okb b = true -> game_ok b.
Proof.
  unfold game_okb. rewrite !andb_true_iff, !Z.leb_le, negb_true_iff. intros [[[[[Hb Hh] Hg] H1] H2] Hs].
  split; [by apply board_okb_spec | | | intros []; lia | done].
  - intros i q Hi Ht. unfold homeb in Hh. rewrite forallb_forall in Hh.
    specialize (Hh (Some q)). simpl in Hh. rewrite bool_decide_eq_true_2 in Hh by done.
    apply Hh, list_elem_of_In, list_elem_of_lookup. by exists i.
  - intros []; destruct (general_of b Red), (general_of b Black); done.
Qed.

(** ** Witnesses: the opening position *)
Module XqWitness.
Import ListVec.
Definition start : Board := match default_board with Ret b => b | _ => empty end.
Definition after_cannon : Board :=
  match play_move start (MovePiece (mkPos 2 1) (mkPos 2 4)) with Ret (Continuing b) => b | _ => empty end.

Lemma start_default : default_board = Ret start.
Proof. vm_compute. reflexivity. Qed.

Lemma start_ok : game_ok start.
Proof. apply game_okb_spec. vm_compute. reflexivity. Qed.

Lemma cannon_step : game_step start after_cannon.
Proof. apply (play (mkPos 2 1) (mkPos 2 4)); [by vm_compute | by vm_compute]. Qed.

Definition red_cannon : Piece := {| piece_type := Cannon; pos := mkPos 2 1; color := Red |}.

(** The cannon takes the horse over its screen. *)
Lemma legal_move_is_rule_witness :
  piece_is_legal_move red_cannon (mkPos 9 1) start = Ret (rule start red_cannon (mkPos 9 1)) /\
  rule start red_cannon (mkPos 9 1) = true.
Proof.
  split; [| vm_compute; reflexivity].
  apply (legal_move_is_rule start red_cannon (mkPos 9 1)); [apply (g_board _ start_ok) | split; simpl; lia].
Defined.

Lemma threat_filter_exact_witness :
  is_threatened start (mkPos 9 1) Black =
    Ret (existsb (fun o => match o with
                           | Some q => negb (bool_decide (color q = Black)) && rule start q (mkPos 9 1)
                           | None => false end) (points start)).
Proof. apply (threat_filter_exact start (mkPos 9 1) Black); [apply (g_board _ start_ok) | split; simpl; lia]. Defined.

Lemma game_never_panics_witness :
  board_ok after_cannon /\ (forall c, is_Some (general_of after_cannon c)) /\
  is_in_check after_cannon (opposite (turn after_cannon)) = Ret false /\
  exists r, play_move after_cannon (MovePiece (mkPos 9 1) (mkPos 7 2)) = Ret r.
Proof.
  apply (game_never_panics start after_cannon (mkPos 9 1) (mkPos 7 2));
    [apply start_ok | apply rtc_once, cannon_step | split; simpl; lia].
Defined.

Lemma generated_moves_exact_witness :
  exists l, get_legal_moves start = Ret l /\
    (MovePiece (mkPos 0 1) (mkPos 2 2) ∈ l <->
      is_legal_move start (MovePiece (mkPos 0 1) (mkPos 2 2)) (turn start) = Ret true /\
      (forall q, piece_at start (mkPos 0 1) = Some q -> piece_type q = Elephant -> Z.abs (row (mkPos 2 2) - row (mkPos 0 1)) = 2)).
Proof. apply (generated_moves_exact start (mkPos 0 1) (mkPos 2 2)); [apply start_ok | split; simpl; lia]. Defined.

Lemma play_move_result_witness :
  (is_legal_move start (MovePiece (mkPos 0 1) (mkPos 2 2)) (turn start) = Ret false /\
   play_move start (MovePiece (mkPos 0 1) (mkPos 2 2)) = Ret (IllegalMove (MovePiece (mkPos 0 1) (mkPos 2 2)))) \/
  (exists b' l c, is_legal_move start (MovePiece (mkPos 0 1) (mkPos 2 2)) (turn start) = Ret true /\
     turn b' = opposite (turn start) /\ get_legal_moves b' = Ret l /\ is_in_check b' (turn b') = Ret c /\
     play_move start (MovePiece (mkPos 0 1) (mkPos 2 2)) = Ret (match l, c with
       | [], true => Victory (turn start) | [], false => Victory (opposite (turn start)) | _, _ => Continuing b' end)).
Proof. apply (play_move_result start (mkPos 0 1) (mkPos 2 2)); [apply start_ok | split; simpl; lia]. Defined.

(** ** Where the engine departs from the game's rules *)
Definition kings (l : list Piece) : Board :=
  match set_pieces ({| piece_type := General; pos := mkPos 0 4; color := Red |}
                    :: {| piece_type := General; pos := mkPos 9 4; color := Black |} :: l) empty with
  | Ret b => b | _ => empty end.
Definition red_elephant : Piece := {| piece_type := Elephant; pos := mkPos 0 2; color := Red |}.
Definition red_pawn (r c : Z) : Piece := {| piece_type := Pawn; pos := mkPos r c; color := Red |}.

(** [diagonals_to] steps along the column only: a piece on the elephant's eye
    does not block it, a piece straight ahead does. *)
Example elephant_eye_not_checked :
  is_legal_move (kings [red_elephant; red_pawn 1 3]) (MovePiece (mkPos 0 2) (mkPos 2 4)) Red = Ret true /\
  is_legal_move (kings [red_elephant; red_pawn 1 2]) (MovePiece (mkPos 0 2) (mkPos 2 4)) Red = Ret false.
Proof. split; vm_compute; reflexivity. Qed.

(** An elephant may go four squares, a move that is never generated. *)
Example elephant_long_move :
  is_legal_move (kings [red_elephant]) (MovePiece (mkPos 0 2) (mkPos 4 6)) Red = Ret true.
Proof. vm_compute. reflexivity. Qed.

(** The pawn between the generals may leave the file: no check is seen. *)
Example facing_generals_allowed :
  is_legal_move (kings [red_pawn 5 4]) (MovePiece (mkPos 5 4) (mkPos 5 5)) Red = Ret true.
Proof. vm_compute. reflexivity. Qed.
End XqWitness.
