(* ===== verification/XqFen.v ===== *)
(** * Reading xiangqi positions

    [fen.rs] and [Piece::try_from] of [piece.rs]: a position in FEN notation,
    as a list of Unicode code points, becomes a board.  The theorem is a round
    trip with a printer of boards. *)
From S2P Require Import Prelude Slices Text Xiangqi XqRules XqGame.

Inductive PieceParseError := InvalidChar (c : Z).
Inductive BoardParseError :=
| FenTooShort | MissingSideToMove | MissingFullmoveNumber | InvalidRowLength | InvalidBoardLayout
| InvalidPiece (e : PieceParseError) | InvalidSideToMove | InvalidFullmoveNumber | FullmoveMustBePositive.

(** ** [Piece::try_from] *)
Definition TEMP_POS : Position := mkPos 0 0.
Definition mk_piece (t : PieceType) (c : Color) : Piece := {| piece_type := t; pos := TEMP_POS; color := c |}.
Definition try_from (c : Z) : PieceParseError + Piece :=
  if c =? 80 then inr (mk_piece Pawn Red) else if c =? 78 then inr (mk_piece Horse Red)
  else if c =? 66 then inr (mk_piece Elephant Red) else if c =? 82 then inr (mk_piece Rook Red)
  else if c =? 67 then inr (mk_piece Cannon Red) else if c =? 75 then inr (mk_piece General Red)
  else if c =? 65 then inr (mk_piece Advisor Red)
  else if c =? 112 then inr (mk_piece Pawn Black) else if c =? 110 then inr (mk_piece Horse Black)
  else if c =? 98 then inr (mk_piece Elephant Black) else if c =? 114 then inr (mk_piece Rook Black)
  else if c =? 99 then inr (mk_piece Cannon Black) else if c =? 107 then inr (mk_piece General Black)
  else if c =? 97 then inr (mk_piece Advisor Black)
  else inl (InvalidChar c).

(** ** Standard-library string functions *)

(** [split_whitespace]: the maximal runs of other characters; [word] is the run read so far. *)
Fixpoint split_loop (s : list Z) (word : list Z) : list (list Z) :=
  match s with
  | [] => match word with [] => [] | _ => [word] end
  | c :: s =>
      if is_whitespace c then match word with [] => split_loop s [] | _ => word :: split_loop s [] end
      else split_loop s (word ++ [c])
  end.
Definition split_whitespace (s : list Z) : list (list Z) := split_loop s [].

(** [str::parse::<u8>]: an optional [+], then digits; [None] for an error. *)
Fixpoint parse_digits (s : list Z) (n : Z) : option Z :=
  match s with
  | [] => Some n
  | c :: s =>
      if (48 <=? c) && (c <=? 57) then
        let n := n * 10 + (c - 48) in if 255 <? n then None else parse_digits s n
      else None
  end.
Definition parse_u8 (s : list Z) : option Z :=
  match s with
  | [] => None
  | c :: t => if c =? 43 then match t with [] => None | _ => parse_digits t 0 end else parse_digits s 0
  end.

(** ** [Board::from_str] *)

(** [for _ in '1'..=token { col += 1; count += 1; }] *)
Fixpoint bump (n : nat) (col count : Z) : outcome (Z * Z) :=
  match n with
  | O => Ret (col, count)
  | S n => let! col := chk_i 8 (col + 1) in let! count := chk_i 32 (count + 1) in bump n col count
  end.

Fixpoint fen_loop (tokens : list Z) (row col : Z) (board : Board) (count : Z)
  : outcome (BoardParseError + (Board * Z)) :=
  match tokens with
  | [] => Ret (inr (board, count))
  | token :: tokens =>
      if token =? 47 then
        if negb (count =? 9) then Ret (inl InvalidRowLength) else
        let! row := chk_i 8 (row - 1) in
        fen_loop tokens row 0 board 0
      else if (49 <=? token) && (token <=? 57) then
        let! '(col, count) := bump (Z.to_nat (token - 48)) col count in
        fen_loop tokens row col board count
      else
        match try_from token with
        | inl e => Ret (inl (InvalidPiece e))
        | inr p =>
            let! board := set_piece board (move_to p (mkPos row col)) in
            let! col := chk_i 8 (col + 1) in
            let! count := chk_i 32 (count + 1) in
            fen_loop tokens row col board count
        end
  end.

(** [set_turn] and [set_full_move] return changed copies, which are dropped. *)
Definition from_str (s : list Z) : outcome (BoardParseError + Board) :=
  match split_whitespace s with
  | [] => Ret (inl FenTooShort)
  | [_] => Ret (inl MissingSideToMove)
  | board_str :: side_str :: rest =>
      match rest !! 3%nat with
      | None => Ret (inl MissingFullmoveNumber)
      | Some fullmove_str =>
          let! r := fen_loop board_str 9 0 empty 0 in
          match r with
          | inl e => Ret (inl e)
          | inr (board, count) =>
              if negb (count =? 9) then Ret (inl InvalidBoardLayout) else
              match (if decide (side_str = [119]) then Some Red
                     else if decide (side_str = [98]) then Some Black else None) with
              | None => Ret (inl InvalidSideToMove)
              | Some color_to_move =>
                  let _ := set_turn board color_to_move in
                  match parse_u8 fullmove_str with
                  | None => Ret (inl InvalidFullmoveNumber)
                  | Some fullmove =>
                      if fullmove =? 0 then Ret (inl FullmoveMustBePositive) else
                      let _ := set_full_move board fullmove in
                      Ret (inr board)
                  end
              end
          end
      end
  end.

(** ** A printer *)
Definition piece_char (q : Piece) : Z :=
  (match piece_type q with
   | Pawn => 80 | Horse => 78 | Elephant => 66 | Rook => 82 | Cannon => 67 | General => 75 | Advisor => 65
   end) + (match color q with Red => 0 | Black => 32 end).
Definition print_run (run : nat) : list Z := match run with O => [] | _ => [48 + Z.of_nat run] end.
Fixpoint print_cells (cells : list (option Piece)) (run : nat) : list Z :=
  match cells with
  | [] => print_run run
  | None :: cells => print_cells cells (S run)
  | Some q :: cells => print_run run ++ piece_char q :: print_cells cells 0
  end.
(** Rows [n - 1] down to 0. *)
Fixpoint print_rows (l : list (option Piece)) (n : nat) : list Z :=
  match n with
  | O => []
  | S m => print_cells (get l (9 * m) 9) 0 ++ match m with O => [] | _ => 47 :: print_rows l m end
  end.
Definition print_board (b : Board) : list Z := print_rows (points b) 10.
Definition print_fen (b : Board) (c : Color) (fullmove : list Z) : list Z :=
  print_board b ++ 32 :: (match c with Red => 119 | Black => 98 end) :: [32; 45; 32; 45; 32; 45; 32] ++ fullmove.

(** ** Lemmas *)
Lemma piece_char_parsed q : try_from (piece_char q) = inr (mk_piece (piece_type q) (color q)) /\
  piece_char q <> 47 /\ ((49 <=? piece_char q) && (piece_char q <=? 57)) = false /\ is_whitespace (piece_char q) = false.
Proof. unfold piece_char. destruct (piece_type q), (color q); vm_compute; intuition congruence. Qed.

Lemma bump_ret n : forall col count, 0 <= col -> 0 <= count -> col + Z.of_nat n <= 100 -> count + Z.of_nat n <= 100 ->
  bump n col count = Ret (col + Z.of_nat n, count + Z.of_nat n).
Proof.
  induction n as [|n IH]; intros col count H1 H2 H3 H4; cbn [bump]; [do 2 f_equal; lia |].
  rewrite !chk_i_ret by lia. cbn [obind]. rewrite IH by lia. do 2 f_equal; lia.
Qed.

Definition with_points (l : list (option Piece)) : Board := set_points l empty.

(** A run of empty points. *)
Lemma fen_run run rest r c (b : Board) :
  0 <= c -> (run <= 9)%nat ->  c + Z.of_nat run <= 9 ->
  fen_loop (print_run run ++ rest) r c b c = fen_loop rest r (c + Z.of_nat run) b (c + Z.of_nat run).
Proof.
  intros Hc Hr Hs. destruct run as [|n]; [by rewrite Z.add_0_r |]. unfold print_run. cbn [app].
  remember (48 + Z.of_nat (S n)) as d eqn:Ed. cbn [fen_loop].
  rewrite (proj2 (Z.eqb_neq d 47)), (proj2 (Z.leb_le 49 d)), (proj2 (Z.leb_le d 57)) by lia. cbn [andb].
  replace (Z.to_nat (d - 48)) with (S n) by lia.
  rewrite bump_ret by lia. done.
Qed.

(** One piece, set on an empty point. *)
Lemma fen_piece q rest r c pre post :
  0 <= r <= 9 -> 0 <= c <= 8 -> pos q = mkPos r c -> Z.of_nat (length pre) = r * 9 + c ->
  fen_loop (piece_char q :: rest) r c (with_points (pre ++ None :: post)) c =
  fen_loop rest r (c + 1) (with_points ((pre ++ [Some q]) ++ post)) (c + 1).
Proof.
  intros Hr Hc Hq Hl. cbn [fen_loop]. destruct (piece_char_parsed q) as (Ep & E1 & E2 & _).
  rewrite (proj2 (Z.eqb_neq _ 47)), E2, Ep by done.
  assert (Em : move_to (mk_piece (piece_type q) (color q)) (mkPos r c) = q)
    by (destruct q as [t p k]; simpl in *; by subst p).
  rewrite Em. unfold set_piece. rewrite Hq, index_ret by (split; simpl; lia). cbn [obind row col].
  rewrite upd_ret by (simpl; rewrite length_app; simpl; lia). cbn [obind].
  assert (Ei : <[Z.to_nat (r * 9 + c) := Some q]> (pre ++ None :: post) = (pre ++ [Some q]) ++ post).
  { replace (Z.to_nat (r * 9 + c)) with (length pre + 0)%nat by lia.
    by rewrite insert_app_r, <- app_assoc. }
  rewrite !chk_i_ret by lia. cbn [obind]. unfold with_points, set_points. simpl.
  by rewrite Ei.
Qed.

Definition cells_at (r c : Z) (cells : list (option Piece)) : Prop :=
  forall i q, cells !! i = Some (Some q) -> pos q = mkPos r (c + Z.of_nat i).

Lemma fen_cells cells : forall run rest r c pre post,
  0 <= r <= 9 -> 0 <= c -> c + Z.of_nat run + Z.of_nat (length cells) <= 9 ->
  Z.of_nat (length pre) = r * 9 + c -> cells_at r (c + Z.of_nat run) cells ->
  fen_loop (print_cells cells run ++ rest) r c (with_points (pre ++ replicate (run + length cells) None ++ post)) c =
  fen_loop rest r (c + Z.of_nat run + Z.of_nat (length cells))
    (with_points (pre ++ replicate run None ++ cells ++ post)) (c + Z.of_nat run + Z.of_nat (length cells)).
Proof.
  induction cells as [|o cells IH]; intros run rest r c pre post Hr Hc Hs Hl Hp.
  - simpl length in *. rewrite Z.add_0_r, Nat.add_0_r in *. cbn [print_cells app]. apply fen_run; lia.
  - simpl length in *. destruct o as [q|]; cbn [print_cells].
    + rewrite <- app_assoc, fen_run by lia. cbn [app]. rewrite replicate_add. simpl replicate.
      rewrite <- app_assoc, app_assoc. cbn [app].
      rewrite fen_piece; [| lia | lia | | rewrite length_app, length_replicate; lia].
      2: { rewrite (Hp 0%nat q eq_refl). f_equal. lia. }
      rewrite (IH 0%nat rest r (c + Z.of_nat run + 1)); [| lia | lia | lia | rewrite !length_app, length_replicate; simpl; lia |].
      * f_equal; [lia | | lia]. by rewrite <- !app_assoc.
      * intros i x Hi. rewrite (Hp (S i) x Hi). f_equal. lia.
    + replace (run + S (length cells))%nat with (S run + length cells)%nat by lia.
      rewrite IH; [| lia | lia | lia | lia |].
      * f_equal; [lia | | lia]. f_equal. f_equal. rewrite (replicate_S_end run), <- app_assoc. done.
      * intros i x Hi. rewrite (Hp (S i) x Hi). f_equal. lia.
Qed.

(** Rows [n - 1] to 0, the rows above already set. *)
Lemma fen_rows l n : length l = 90%nat -> (forall i q, l !! i = Some (Some q) -> on_board (pos q) /\ i = index (pos q)) ->
  (1 <= n <= 10)%nat ->
  fen_loop (print_rows l n) (Z.of_nat n - 1) 0 (with_points (replicate (9 * n) None ++ drop (9 * n) l)) 0 =
  Ret (inr (with_points l, 9)).
Proof.
  intros Hl Hp. induction n as [|m IH]; intros Hn; [lia |]. cbn [print_rows].
  replace (Z.of_nat (S m) - 1) with (Z.of_nat m) by lia.
  assert (Hg : length (get l (9 * m) 9) = 9%nat) by (apply length_get; lia).
  assert (Hcells : cells_at (Z.of_nat m) 0 (get l (9 * m) 9)).
  { intros i q Hi. assert (Hi9 : (i < 9)%nat) by (rewrite <- Hg; by apply lookup_lt_Some in Hi).
    rewrite lookup_get in Hi by done. apply Hp in Hi as [[H1 H2] Hi]. unfold index in Hi.
    destruct (pos q) as [r c]. simpl in *. f_equal; lia. }
  pose proof (fen_cells (get l (9 * m) 9) 0 (match m with O => [] | _ => 47 :: print_rows l m end) (Z.of_nat m) 0
    (replicate (9 * m) None) (drop (9 * S m) l)) as E.
  rewrite Hg in E. simpl Z.add in E. change (0 + 9)%nat with 9%nat in E.
  replace (9 * S m)%nat with (9 * m + 9)%nat at 1 by lia. rewrite replicate_add, <- app_assoc.
  rewrite E; [| lia | lia | lia | rewrite length_replicate; lia | exact Hcells]. clear E.
  assert (Er : replicate 0 None ++ get l (9 * m) 9 ++ drop (9 * S m) l = drop (9 * m) l).
  { cbn [replicate app]. unfold get. replace (9 * S m)%nat with (9 * m + 9)%nat by lia.
    rewrite <- (drop_drop l 9 (9 * m)). apply take_drop. }
  rewrite Er. destruct m as [|m].
  - by rewrite drop_0.
  - cbn [fen_loop]. rewrite Z.eqb_refl. cbn [negb]. change (9 =? 9) with true. cbn [negb].
    rewrite chk_i_ret by lia. cbn [obind]. apply IH. lia.
Qed.

(** ** Words *)
Lemma split_word w s : forall acc, Forall (fun c => is_whitespace c = false) w ->
  split_loop (w ++ 32 :: s) acc = match acc ++ w with [] => split_loop s [] | x => x :: split_loop s [] end.
Proof.
  induction w as [|c w IH]; intros acc Hw; simpl.
  - rewrite app_nil_r. by destruct acc.
  - apply Forall_cons in Hw as [Hc Hw]. rewrite Hc, IH by done. by rewrite <- app_assoc.
Qed.

Lemma split_end w : forall acc, Forall (fun c => is_whitespace c = false) w -> acc ++ w <> [] -> split_loop w acc = [acc ++ w].
Proof.
  induction w as [|c w IH]; intros acc Hw Hne; simpl.
  - rewrite app_nil_r in *. by destruct acc.
  - apply Forall_cons in Hw as [Hc Hw]. rewrite Hc, IH; [by rewrite <- app_assoc | done | by destruct acc].
Qed.

Lemma print_run_word n : (n <= 9)%nat -> Forall (fun c => is_whitespace c = false) (print_run n).
Proof. intros Hn. do 10 (destruct n as [|n]; [by repeat constructor |]). lia. Qed.

Lemma print_cells_word cells : forall run, (run + length cells <= 9)%nat ->
  Forall (fun c => is_whitespace c = false) (print_cells cells run).
Proof.
  induction cells as [|[q|] cells IH]; intros run Hr; simpl in *; [apply print_run_word; lia | | apply IH; lia].
  apply Forall_app_2; [apply print_run_word; lia |]. constructor; [apply piece_char_parsed | apply IH; lia].
Qed.

Lemma print_rows_word l n : length l = 90%nat -> (n <= 10)%nat -> Forall (fun c => is_whitespace c = false) (print_rows l n).
Proof.
  intros Hl. induction n as [|n IH]; intros Hn; [done |]. cbn [print_rows]. apply Forall_app_2.
  - apply print_cells_word. rewrite length_get; lia.
  - destruct n; [done |]. constructor; [done | apply IH; lia].
Qed.

Lemma print_cells_nonempty cells run : (0 < run + length cells)%nat -> print_cells cells run <> [].
Proof.
  revert run. induction cells as [|[q|] cells IH]; intros run H; simpl in *.
  - destruct run; [lia | done].
  - destruct (print_run run); done.
  - apply IH. lia.
Qed.

Lemma print_board_nonempty b : length (points b) = 90%nat -> print_board b <> [].
Proof.
  intros Hl H. unfold print_board in H. cbn [print_rows] in H. apply app_eq_nil in H as [H _].
  revert H. apply print_cells_nonempty. rewrite length_get; lia.
Qed.

(** ** The property *)

(** [C26] Reading back a printed position.  For every board whose pieces stand
    where they say, either side to move and any valid move number, reading the
    printed FEN succeeds and returns exactly its pieces; the side to move and
    the move number that the text states are lost: the result always has Red
    to move and move number 1. *)
Theorem fen_roundtrip b c fs fm :
  board_ok b -> Forall (fun x => is_whitespace x = false) fs -> parse_u8 fs = Some fm -> fm <> 0 ->
  from_str (print_fen b c fs) = Ret (inr {| points := points b; turn := Red; full_move := 1 |}).
Proof.
  intros [Hl Hp] Hfs Hparse Hfm. unfold from_str, print_fen, split_whitespace.
  rewrite split_word by (by apply print_rows_word). rewrite app_nil_l.
  pose proof (print_board_nonempty b Hl) as Hne. destruct (print_board b) as [|x w] eqn:Ew; [done |].
  assert (Es : split_loop ((match c with Red => 119 | Black => 98 end) :: [32; 45; 32; 45; 32; 45; 32] ++ fs) [] =
    [[match c with Red => 119 | Black => 98 end]; [45]; [45]; [45]; fs]).
  { assert (Ef : split_loop fs [] = [fs]) by (apply (split_end fs []); [done | intros H; simpl in H; by subst fs]).
    destruct c; simpl; by rewrite Ef. }
  rewrite Es. simpl lookup. rewrite <- Ew.
  pose proof (fen_rows (points b) 10 Hl Hp ltac:(lia)) as E. rewrite drop_ge, app_nil_r in E by lia.
  change (fen_loop (print_rows (points b) 10) (Z.of_nat 10 - 1) 0 (with_points (replicate (9 * 10) None)) 0)
    with (fen_loop (print_board b) 9 0 empty 0) in E. rewrite E. cbn [obind]. change (9 =? 9) with true. cbn [negb].
  destruct c; cbn [decide]; rewrite Hparse, (proj2 (Z.eqb_neq fm 0)) by done; done.
Qed.

(** ** Witnesses *)
Module FenWitness.
Import ListVec XqWitness.

(** The opening position with Black to move, move 12. *)
Lemma fen_roundtrip_witness :
  from_str (print_fen start Black [49; 50]) = Ret (inr {| points := points start; turn := Red; full_move := 1 |}).
Proof.
  apply (fen_roundtrip start Black [49; 50] 12);
    [apply (g_board _ start_ok) | by repeat constructor | vm_compute; reflexivity | lia].
Defined.

(** An eleventh row with a piece panics instead of returning an error: "9/" ten
    times and "P". *)
Example eleventh_row_panics :
  from_str (concat (replicate 10 [57; 47]) ++ [80; 32; 119; 32; 45; 32; 45; 32; 45; 32; 49]) = Panic.
Proof. vm_compute. reflexivity. Qed.

(** "9 w - - - 1": one row is accepted as a whole board. *)
Example one_row_accepted : from_str [57; 32; 119; 32; 45; 32; 45; 32; 45; 32; 49] = Ret (inr empty).
Proof. vm_compute. reflexivity. Qed.

(** The position of the test [test_mate], "1R7/4kc3/9/9/9/9/9/9/4A4/3KC4 w - - - 1":
    the side to move is not mated, the other side would be. *)
Definition mate_fen : list Z :=
  [49; 82; 55; 47; 52; 107; 99; 51; 47; 57; 47; 57; 47; 57; 47; 57; 47; 57; 47; 57; 47; 52; 65; 52; 47; 51; 75; 67; 52;
   32; 119; 32; 45; 32; 45; 32; 45; 32; 49].
Example test_mate_fails :
  exists b, from_str mate_fen = Ret (inr b) /\ is_checkmate b = Ret false /\ is_checkmate (change_turn b) = Ret true.
Proof. eexists. split; [vm_compute; reflexivity |]. split; vm_compute; reflexivity. Qed.
End FenWitness.
