(* ===== verification/Vfs.v ===== *)
(** * The virtual file system: paths, mounts and the dentry cache

    [kernel/src/fs/vfs/mod.rs].  Directory entries are shared, mutable objects
    with a strong link to each cached child and a weak link to their parent, so
    they live in a store and are named by their addresses.  The file systems
    behind them are seen through [INodeOps::lookup] only, a class. *)
From S2P Require Import Prelude Text.

(** A string. *)
Abbreviation name := (list Z).

Class INodeOps (I : Type) := { i_lookup : I -> name -> outcome (option I) }.

Record DEntry (I : Type) := mkDEntry {
  d_name : name;
  d_inode : I;
  d_parent : option Z;
  d_children : gmap name Z
}.
Arguments mkDEntry {I}.
Arguments d_name {I}.
Arguments d_inode {I}.
Arguments d_parent {I}.
Arguments d_children {I}.

Record Mount := { m_root : Z; m_mountpoint : Z }.
Abbreviation MountTable := (gmap name Mount).

Section Vfs.
Context {I : Type} {OPS : INodeOps I}.

Record Vfs := { dents : gmap Z (DEntry I); next_dent : Z; MOUNT_TABLE : MountTable }.

Definition set_dents (m : gmap Z (DEntry I)) (n : Z) (v : Vfs) : Vfs :=
  {| dents := m; next_dent := n; MOUNT_TABLE := MOUNT_TABLE v |}.

(** ** [full_path] *)
Fixpoint path_segments (fuel : nat) (v : Vfs) (curr : Z) (segments : list name) : outcome (list name) :=
  match fuel with
  | O => NoFuel
  | S fuel =>
      let! d := unwrap (dents v !! curr) in
      let segments := segments ++ [d_name d] in
      match d_parent d with
      | Some parent =>
          match dents v !! parent with           (* [upgrade] *)
          | Some _ => path_segments fuel v parent segments
          | None => Ret segments
          end
      | None => Ret segments
      end
  end.
Definition full_path (fuel : nat) (v : Vfs) (dentry : Z) : outcome name :=
  let! segments := path_segments fuel v dentry [] in
  let segments := rev segments in
  Ret (47 :: join [47] (tail segments)).

(** ** Mount points *)
Fixpoint mountpoint_loop (fuel : nat) (table : MountTable) (curr_path : name) : outcome (option (Mount * name)) :=
  match curr_path with
  | [] => Ret None
  | _ =>
      match fuel with
      | O => NoFuel
      | S fuel =>
          let! '(parent, _) := unwrap (rsplit_once 47 curr_path) in
          match table !! parent with
          | Some mp => Ret (Some (mp, parent))
          | None => mountpoint_loop fuel table parent
          end
      end
  end.
Definition find_mountpoint (table : MountTable) (path : name) : outcome (Mount * name) :=
  let! r := mountpoint_loop (length path) table path in
  match r with
  | Some mp => Ret mp
  | None => let! mp := unwrap (table !! [47]) in Ret (mp, [47])
  end.

(** ** [find_dentry] *)

(** One segment: the cached child, or a lookup whose result is cached. *)
Definition walk_segment (v : Vfs) (current : Z) (segment : name) : outcome (Vfs * option Z) :=
  let! d := unwrap (dents v !! current) in
  match d_children d !! segment with
  | Some child => Ret (v, Some child)
  | None =>
      let! disk_lookup := i_lookup (d_inode d) segment in
      match disk_lookup with
      | Some node =>
          let a := next_dent v in
          let dentry := mkDEntry segment node (Some current) ∅ in
          let d' := mkDEntry (d_name d) (d_inode d) (d_parent d) (<[segment := a]> (d_children d)) in
          Ret (set_dents (<[current := d']> (<[a := dentry]> (dents v))) (a + 1) v, Some a)
      | None => Ret (v, None)
      end
  end.
Fixpoint walk_path (v : Vfs) (current : Z) (segments : list name) : outcome (Vfs * option Z) :=
  match segments with
  | [] => Ret (v, Some current)
  | segment :: segments =>
      let! '(v, r) := walk_segment v current segment in
      match r with
      | Some current => walk_path v current segments
      | None => Ret (v, None)
      end
  end.

Definition path_parts (rel_path : name) : list name :=
  List.filter (fun p => match p with [] => false | _ => true end) (split 47 (trim_start_matches 47 rel_path)).

(** [join_path_with_cwd]: [cwd] is the current process's directory. *)
Definition join_path_with_cwd (fuel : nat) (v : Vfs) (cwd : Z) (path : name) : outcome name :=
  let! c := full_path fuel v cwd in
  Ret (if bool_decide (c = [47]) then c ++ path else c ++ [47] ++ path).

Definition find_dentry (fuel : nat) (v : Vfs) (cwd : Z) (path : name) : outcome (Vfs * option Z) :=
  let path := trim path in
  let! path := (if starts_with 47 path then Ret path else join_path_with_cwd fuel v cwd path) in
  let! '(mount, mp_root_path) := find_mountpoint (MOUNT_TABLE v) path in
  let rel_path := if bool_decide (mp_root_path = [47]) then path
                  else default path (strip_prefix mp_root_path path) in
  walk_path v (m_root mount) (path_parts rel_path).

Definition find_parent_dentry (fuel : nat) (v : Vfs) (cwd : Z) (path : name) : outcome (Vfs * option Z) :=
  let! '(parent, _) := unwrap (rsplit_once 47 path) in
  find_dentry fuel v cwd parent.

Definition get_root_dentry (v : Vfs) : outcome Z :=
  let! m := unwrap (MOUNT_TABLE v !! [47]) in Ret (m_root m).

(** A file system's root is mounted on [path], with a fresh root dentry, as
    [mount_fat32] and [mount_devfs] do. *)
Definition mount (path : name) (root_inode : I) (v : Vfs) : Vfs :=
  let a := next_dent v in
  {| dents := <[a := mkDEntry [47] root_inode None ∅]> (dents v); next_dent := a + 1;
     MOUNT_TABLE := <[path := {| m_root := a; m_mountpoint := a |}]> (MOUNT_TABLE v) |}.

(** ** The invariant *)
Definition segment_ok (s : name) : Prop := s <> [] /\ Forall (fun c => c <> 47) s.

Record vfs_ok (v : Vfs) : Prop := {
  v_fresh : forall a d, dents v !! a = Some d -> 0 <= a < next_dent v;
  v_child : forall a d s c, dents v !! a = Some d -> d_children d !! s = Some c ->
    exists dc, dents v !! c = Some dc /\ d_name dc = s /\ d_parent dc = Some a;
  v_parent : forall a d p, dents v !! a = Some d -> d_parent d = Some p ->
    p < a /\ segment_ok (d_name d) /\ exists dp, dents v !! p = Some dp /\ d_children dp !! d_name d = Some a;
  v_next : 0 <= next_dent v;
  v_mount : forall m mp, MOUNT_TABLE v !! m = Some mp ->
    exists d, dents v !! m_root mp = Some d /\ d_parent d = None
}.

(** The cache agrees with what the file systems say now. *)
Definition up_to_date (v : Vfs) : Prop :=
  forall a d s c, dents v !! a = Some d -> d_children d !! s = Some c ->
    exists dc, dents v !! c = Some dc /\ i_lookup (d_inode d) s = Ret (Some (d_inode dc)).

(** What the file systems themselves say of a path: one lookup per segment. *)
Fixpoint resolve (i : I) (segments : list name) : outcome (option I) :=
  match segments with
  | [] => Ret (Some i)
  | s :: segments =>
      let! r := i_lookup i s in
      match r with Some j => resolve j segments | None => Ret None end
  end.

(** What a resolution answers: cached names are believed, from the first one
    that is not cached the file systems are asked. *)
Fixpoint answer (v : Vfs) (cur : Z) (segments : list name) : outcome (option I) :=
  let! d := unwrap (dents v !! cur) in
  match segments with
  | [] => Ret (Some (d_inode d))
  | s :: rest =>
      match d_children d !! s with
      | Some child => answer v child rest
      | None => resolve (d_inode d) segments
      end
  end.

(** The cache only grows. *)
Definition grows (v v' : Vfs) : Prop :=
  MOUNT_TABLE v' = MOUNT_TABLE v /\
  forall a d, dents v !! a = Some d ->
    exists d', dents v' !! a = Some d' /\ d_name d' = d_name d /\ d_inode d' = d_inode d /\ d_parent d' = d_parent d /\
      d_children d ⊆ d_children d'.
End Vfs.
Arguments Vfs : clear implicits.

Section VfsProps.
Context {I : Type} {OPS : INodeOps I}.
Implicit Type v : Vfs I.

Lemma grows_refl v : grows v v.
Proof. split; [done |]. intros a d Hd. by exists d. Qed.

Lemma grows_trans v1 v2 v3 : grows v1 v2 -> grows v2 v3 -> grows v1 v3.
Proof.
  intros [M1 H1] [M2 H2]. split; [congruence |]. intros a d Hd.
  destruct (H1 a d Hd) as (d1 & E1 & N1 & I1 & P1 & C1). destruct (H2 a d1 E1) as (d2 & E2 & N2 & I2 & P2 & C2).
  exists d2. repeat (split; [congruence || done |]). by etransitivity.
Qed.

(** ** One segment *)
Lemma new_dentry_ok v cur d seg j :
  vfs_ok v -> dents v !! cur = Some d -> segment_ok seg -> d_children d !! seg = None ->
  i_lookup (d_inode d) seg = Ret (Some j) ->
  let a := next_dent v in
  let d' := mkDEntry (d_name d) (d_inode d) (d_parent d) (<[seg := a]> (d_children d)) in
  let v' := set_dents (<[cur := d']> (<[a := mkDEntry seg j (Some cur) ∅]> (dents v))) (a + 1) v in
  vfs_ok v' /\ grows v v' /\ dents v' !! a = Some (mkDEntry seg j (Some cur) ∅) /\ (up_to_date v -> up_to_date v').
Proof.
  intros Hv Hd Hs Hc Hl a d' v'. pose proof (v_fresh v Hv cur d Hd) as Hcur.
  assert (Ha : dents v !! a = None).
  { destruct (dents v !! a) eqn:E; [| done]. pose proof (v_fresh v Hv a _ E). unfold a in *. lia. }
  assert (Hne : cur <> a) by (unfold a; lia).
  assert (Hnew : dents v' !! a = Some (mkDEntry seg j (Some cur) ∅))
    by (simpl; rewrite lookup_insert_ne, lookup_insert_eq by done; done).
  assert (Hold : forall b x, dents v' !! b = Some x ->
    (b = cur /\ x = d') \/ (b = a /\ x = mkDEntry seg j (Some cur) ∅) \/ (b <> cur /\ b <> a /\ dents v !! b = Some x)).
  { intros b x Hx. simpl in Hx. destruct (decide (b = cur)) as [-> | H1].
    - rewrite lookup_insert_eq in Hx. injection Hx as <-. auto.
    - rewrite lookup_insert_ne in Hx by done. destruct (decide (b = a)) as [-> | H2].
      + rewrite lookup_insert_eq in Hx. injection Hx as <-. auto.
      + rewrite lookup_insert_ne in Hx by done. auto. }
  assert (Hkeep : forall b x, dents v !! b = Some x -> exists x', dents v' !! b = Some x' /\ d_name x' = d_name x /\
    d_inode x' = d_inode x /\ d_parent x' = d_parent x /\ d_children x ⊆ d_children x').
  { intros b x Hx. destruct (decide (b = cur)) as [-> | H1].
    - assert (x = d) as -> by congruence. exists d'. simpl. rewrite lookup_insert_eq.
      repeat (split; [done |]). by apply insert_subseteq.
    - exists x. simpl. rewrite !lookup_insert_ne by (try done; intros <-; congruence). done. }
  split; [| split; [by split | split; [done |]]].
  2:{ intros Hu b x s c Hx Hch.
      assert (Hc0 : forall b x, dents v !! b = Some x -> d_children x !! s = Some c ->
        exists dc, dents v' !! c = Some dc /\ i_lookup (d_inode x) s = Ret (Some (d_inode dc))).
      { intros b0 x0 Hx0 Hc0. destruct (Hu b0 x0 s c Hx0 Hc0) as (dc & E1 & E2).
        destruct (Hkeep c dc E1) as (dc' & F1 & _ & F3 & _). exists dc'. split; [done | congruence]. }
      destruct (Hold b x Hx) as [[-> ->] | [[-> ->] | (_ & _ & Hx')]].
      - simpl in Hch. destruct (decide (s = seg)) as [-> | Hsn].
        + rewrite lookup_insert_eq in Hch. injection Hch as <-. by eexists.
        + rewrite lookup_insert_ne in Hch by done. by apply (Hc0 cur d).
      - simpl in Hch. by rewrite lookup_empty in Hch.
      - by apply (Hc0 b x). }
  split.
  - intros b x Hx. change (next_dent v') with (a + 1). unfold a in *.
    destruct (Hold b x Hx) as [[-> _] | [[-> _] | (_ & _ & Hx')]]; [lia | pose proof (v_next v Hv); lia |].
    pose proof (v_fresh v Hv b x Hx'). lia.
  - intros b x s c Hx Hch. destruct (Hold b x Hx) as [[-> ->] | [[-> ->] | (_ & _ & Hx')]].
    + simpl in Hch. destruct (decide (s = seg)) as [-> | Hsn].
      * rewrite lookup_insert_eq in Hch. injection Hch as <-. by eexists.
      * rewrite lookup_insert_ne in Hch by done. destruct (v_child v Hv cur d s c Hd Hch) as (dc & E1 & E2 & E3).
        destruct (Hkeep c dc E1) as (dc' & F1 & F2 & F3 & F4 & _). exists dc'. repeat (split; [congruence |]). congruence.
    + simpl in Hch. by rewrite lookup_empty in Hch.
    + destruct (v_child v Hv b x s c Hx' Hch) as (dc & E1 & E2 & E3).
      destruct (Hkeep c dc E1) as (dc' & F1 & F2 & F3 & F4 & _). exists dc'. repeat (split; [congruence |]). congruence.
  - assert (Hpar : forall b x p, dents v !! b = Some x -> d_parent x = Some p ->
      p < b /\ segment_ok (d_name x) /\ exists dp, dents v' !! p = Some dp /\ d_children dp !! d_name x = Some b).
    { intros b x p Hx Hp. destruct (v_parent v Hv b x p Hx Hp) as (H1 & H2 & dp & H3 & H4).
      destruct (Hkeep p dp H3) as (dp' & F1 & _ & _ & _ & F5). split; [done |]. split; [done |].
      exists dp'. split; [done |]. by eapply lookup_weaken. }
    intros b x p Hx Hp. destruct (Hold b x Hx) as [[-> ->] | [[-> ->] | (_ & _ & Hx')]].
    + by apply (Hpar cur d).
    + simpl in Hp. injection Hp as <-. split; [unfold a; lia |]. split; [done |]. exists d'. simpl.
      by rewrite !lookup_insert_eq.
    + by apply (Hpar b x).
  - change (next_dent v') with (a + 1). unfold a. pose proof (v_next v Hv). lia.
  - intros m mp Hm. destruct (v_mount v Hv m mp Hm) as (dr & Hr & Hp).
    destruct (Hkeep _ _ Hr) as (dr' & F1 & _ & _ & F4 & _). exists dr'. split; [done | congruence].
Qed.

(** A segment that is cached, and one that is not. *)
Lemma walk_cached v cur d seg c :
  vfs_ok v -> dents v !! cur = Some d -> d_children d !! seg = Some c ->
  walk_segment v cur seg = Ret (v, Some c) /\
  exists dc, dents v !! c = Some dc /\ d_name dc = seg /\ d_parent dc = Some cur.
Proof.
  intros Hv Hd Ec. unfold walk_segment. rewrite Hd. cbn [unwrap obind]. rewrite Ec. split; [done |]. by apply (v_child v Hv cur d).
Qed.

Lemma walk_missing v cur d seg :
  vfs_ok v -> dents v !! cur = Some d -> segment_ok seg -> d_children d !! seg = None ->
  match i_lookup (d_inode d) seg with
  | Ret (Some j) => exists v' a, walk_segment v cur seg = Ret (v', Some a) /\ vfs_ok v' /\ grows v v' /\
      (up_to_date v -> up_to_date v') /\ dents v' !! a = Some (mkDEntry seg j (Some cur) ∅)
  | Ret None => walk_segment v cur seg = Ret (v, None)
  | Panic => walk_segment v cur seg = Panic
  | NoFuel => walk_segment v cur seg = NoFuel
  end.
Proof.
  intros Hv Hd Hs Ec. unfold walk_segment. rewrite Hd. cbn [unwrap obind]. rewrite Ec.
  destruct (i_lookup (d_inode d) seg) as [[j|]| |] eqn:El; try done. cbn [obind].
  destruct (new_dentry_ok v cur d seg j Hv Hd Hs Ec El) as (H1 & H2 & H3 & H4). eexists _, _. by split_and!.
Qed.

(** ** Paths below a dentry *)
Inductive below v (r : Z) : list name -> Z -> Prop :=
| below_here : below v r [] r
| below_step segs a c dc : below v r segs a -> dents v !! c = Some dc -> d_parent dc = Some a ->
    below v r (segs ++ [d_name dc]) c.

Lemma below_grows v v' r segs a : grows v v' -> below v r segs a -> below v' r segs a.
Proof.
  intros [_ Hg]. induction 1 as [|segs a c dc _ IH Hc Hp]; [constructor |].
  destruct (Hg c dc Hc) as (dc' & E & N & _ & P & _). rewrite <- N. eapply below_step; [exact IH | exact E | congruence].
Qed.

Lemma below_cons v r s segs b a db :
  dents v !! b = Some db -> d_parent db = Some r -> d_name db = s -> below v b segs a -> below v r (s :: segs) a.
Proof.
  intros Hb Hp <-. induction 1 as [|segs a c dc _ IH Hc Hpc].
  - apply (below_step v r [] r b db); [constructor | done | done].
  - rewrite app_comm_cons. by eapply below_step.
Qed.

(** What a walk from [cur] comes to, when the answer is [r]. *)
Definition walk_answers v (cur : Z) (segs : list name) (r : outcome (option I)) (w : outcome (Vfs I * option Z)) : Prop :=
  match r with
  | Ret (Some j) => exists v' a d', w = Ret (v', Some a) /\ vfs_ok v' /\ grows v v' /\ (up_to_date v -> up_to_date v') /\
      dents v' !! a = Some d' /\ d_inode d' = j /\ below v' cur segs a
  | Ret None => exists v', w = Ret (v', None) /\ vfs_ok v' /\ grows v v' /\ (up_to_date v -> up_to_date v')
  | Panic => w = Panic
  | NoFuel => w = NoFuel
  end.

Lemma walk_answers_step v v1 cur s segs a1 d1 r w :
  grows v v1 -> (up_to_date v -> up_to_date v1) ->
  dents v1 !! a1 = Some d1 -> d_name d1 = s -> d_parent d1 = Some cur ->
  walk_answers v1 a1 segs r w -> walk_answers v cur (s :: segs) r w.
Proof.
  intros Hg1 Hu1 Hd1 Hn1 Hp1. destruct r as [[k|]| |]; simpl; [| | done | done].
  - intros (v2 & a2 & d2 & E2 & Hv2 & Hg2 & Hu2 & Hd2 & Hi2 & Hb2). exists v2, a2, d2.
    split; [done |]. split; [done |]. split; [by eapply grows_trans |]. split; [auto |]. split; [done |]. split; [done |].
    destruct Hg2 as [_ Hg2']. destruct (Hg2' a1 d1 Hd1) as (d1' & F1 & F2 & _ & F4 & _).
    eapply below_cons; [exact F1 | congruence | congruence | done].
  - intros (v2 & E2 & Hv2 & Hg2 & Hu2). exists v2. split; [done |]. split; [done |]. split; [by eapply grows_trans | auto].
Qed.

(** Without cached names below it a dentry is resolved by the file systems. *)
Lemma answer_fresh v a d segs : dents v !! a = Some d -> d_children d = ∅ -> answer v a segs = resolve (d_inode d) segs.
Proof.
  intros Hd Hc. destruct segs as [|s segs]; cbn [answer]; rewrite Hd; cbn [unwrap obind]; [done |]. by rewrite Hc, lookup_empty.
Qed.

Lemma walk_path_ok segs : forall v cur d,
  vfs_ok v -> dents v !! cur = Some d -> Forall segment_ok segs -> walk_answers v cur segs (answer v cur segs) (walk_path v cur segs).
Proof.
  induction segs as [|s segs IH]; intros v cur d Hv Hd Hs.
  - cbn [answer]. rewrite Hd. cbn [unwrap obind]. exists v, cur, d. split_and!; try done; [apply grows_refl | constructor].
  - apply Forall_cons in Hs as [Hs Hss]. cbn [answer]. rewrite Hd. cbn [unwrap obind].
    destruct (d_children d !! s) as [c|] eqn:Ec.
    + destruct (walk_cached v cur d s c Hv Hd Ec) as (E & dc & Hdc & Hn & Hp). cbn [walk_path]. rewrite E. cbn [obind].
      apply (walk_answers_step v v cur s segs c dc); try done; [apply grows_refl |]. by apply (IH v c dc).
    + pose proof (walk_missing v cur d s Hv Hd Hs Ec) as H. cbn [resolve walk_path].
      destruct (i_lookup (d_inode d) s) as [[j|]| |]; cbn [obind]; [| | by rewrite H | by rewrite H].
      * destruct H as (v1 & a1 & -> & Hv1 & Hg1 & Hu1 & Hd1). cbn [obind].
        apply (walk_answers_step v v1 cur s segs a1 (mkDEntry s j (Some cur) ∅)); try done.
        specialize (IH v1 a1 _ Hv1 Hd1 Hss). by rewrite (answer_fresh v1 a1 _ segs Hd1) in IH.
      * rewrite H. exists v. split_and!; try done. apply grows_refl.
Qed.

(** An up-to-date cache does not change the answer. *)
Lemma answer_resolve segs : forall v cur d, up_to_date v -> dents v !! cur = Some d -> answer v cur segs = resolve (d_inode d) segs.
Proof.
  induction segs as [|s segs IH]; intros v cur d Hu Hd; cbn [answer]; rewrite Hd; cbn [unwrap obind]; [done |].
  destruct (d_children d !! s) as [c|] eqn:Ec; [| done]. destruct (Hu cur d s c Hd Ec) as (dc & Hc & El).
  cbn [resolve]. rewrite El. cbn [obind]. by apply IH.
Qed.

(** ** Paths as text *)
Lemma split_piece sep w rest : Forall (fun c => c <> sep) w -> forall acc,
  split_acc sep (w ++ rest) acc = split_acc sep rest (acc ++ w).
Proof.
  induction 1 as [|c w Hc _ IH]; intros acc; [by rewrite app_nil_r |]. simpl.
  rewrite (proj2 (Z.eqb_neq c sep)) by done. rewrite IH. by rewrite <- app_assoc.
Qed.

Lemma split_join sep segs : segs <> [] -> Forall (Forall (fun c => c <> sep)) segs ->
  split sep (join [sep] segs) = segs.
Proof.
  unfold split. intros Hne Hs. induction Hs as [|s segs Hs Hss IH]; [done |].
  destruct segs as [|t segs].
  - simpl. rewrite <- (app_nil_r s) at 1. by rewrite split_piece.
  - change (join [sep] (s :: t :: segs)) with (s ++ sep :: join [sep] (t :: segs)).
    rewrite split_piece by done. cbn [split_acc]. rewrite Z.eqb_refl. cbn [app]. by rewrite IH.
Qed.

Lemma join_head segs : segs <> [] -> Forall segment_ok segs -> exists c rest, join [47] segs = c :: rest /\ c <> 47.
Proof.
  intros Hne Hs. destruct Hs as [|s segs [Hs1 Hs2] _]; [done |]. destruct s as [|c s]; [done |].
  apply Forall_cons in Hs2 as [Hc _]. destruct segs; simpl; by eexists _, _.
Qed.

Lemma parts_of_path segs : Forall segment_ok segs -> path_parts (47 :: join [47] segs) = segs.
Proof.
  intros Hs. unfold path_parts. destruct (decide (segs = [])) as [-> | Hne]; [done |].
  destruct (join_head segs Hne Hs) as (c & rest & E & Hc). simpl. rewrite E. cbn [trim_start_matches].
  rewrite (proj2 (Z.eqb_neq c 47)) by done. rewrite <- E. rewrite split_join; [| done |].
  - clear -Hs. induction Hs as [|s segs [Hs _] _ IH]; [done |]. simpl. destruct s; [done |]. by rewrite IH.
  - eapply Forall_impl; [exact Hs |]. by intros s [_ H].
Qed.

Lemma below_segments v r segs a : vfs_ok v -> below v r segs a -> Forall segment_ok segs.
Proof.
  intros Hv. induction 1 as [|segs a c dc _ IH Hc Hp]; [done |]. apply Forall_app_2; [done |].
  constructor; [| done]. by destruct (v_parent v Hv c dc a Hc Hp) as (_ & H & _).
Qed.

(** ** [full_path] *)
Lemma path_segments_ok v r dr segs a :
  vfs_ok v -> dents v !! r = Some dr -> d_parent dr = None -> below v r segs a -> forall fuel acc,
  (Z.to_nat a < fuel)%nat -> path_segments fuel v a acc = Ret (acc ++ rev segs ++ [d_name dr]).
Proof.
  intros Hv Hr Hp. induction 1 as [|segs a c dc Hb IH Hc Hpc]; intros fuel acc Hf; (destruct fuel as [|fuel]; [lia |]).
  - cbn [path_segments]. rewrite Hr. cbn [unwrap obind]. by rewrite Hp.
  - cbn [path_segments]. rewrite Hc. cbn [unwrap obind]. rewrite Hpc.
    destruct (v_parent v Hv c dc a Hc Hpc) as (Hlt & _ & da & Ha & _). rewrite Ha.
    pose proof (v_fresh v Hv a da Ha). pose proof (v_fresh v Hv c dc Hc).
    rewrite IH by lia. rewrite rev_app_distr. simpl. by rewrite <- app_assoc.
Qed.

Lemma full_path_ok v r dr segs a fuel :
  vfs_ok v -> dents v !! r = Some dr -> d_parent dr = None -> below v r segs a -> (Z.to_nat a < fuel)%nat ->
  full_path fuel v a = Ret (47 :: join [47] segs).
Proof.
  intros Hv Hr Hp Hb Hf. unfold full_path. rewrite (path_segments_ok v r dr segs a) by done. cbn [obind].
  rewrite app_nil_l, rev_app_distr, rev_involutive. done.
Qed.

(** Cached paths are walked without a lookup. *)
Lemma walk_path_app v a segs1 segs2 b :
  walk_path v a segs1 = Ret (v, Some b) -> walk_path v a (segs1 ++ segs2) = walk_path v b segs2.
Proof.
  revert a. assert (H : forall segs w a, walk_path w a segs = Ret (v, Some b) ->
    walk_path w a (segs ++ segs2) = walk_path v b segs2).
  { induction segs as [|s segs IH]; intros w a H; simpl in *; [by injection H as -> -> |].
    destruct (walk_segment w a s) as [[w' [c|]]| |]; simpl in *; try done. by apply IH. }
  intros a. apply H.
Qed.

Lemma walk_below v r segs a : vfs_ok v -> below v r segs a -> walk_path v r segs = Ret (v, Some a).
Proof.
  intros Hv. induction 1 as [|segs a c dc Hb IH Hc Hp]; [done |].
  rewrite (walk_path_app v r segs _ a IH). destruct (v_parent v Hv c dc a Hc Hp) as (_ & _ & da & Ha & Hch).
  cbn [walk_path]. unfold walk_segment. rewrite Ha. cbn [unwrap obind]. by rewrite Hch.
Qed.

(** ** Mount points *)
Lemma slash_prefix (p p' q q' : name) :
  p ++ 47 :: q = p' ++ 47 :: q' -> Forall (fun c => c <> 47) q -> p' = p \/ exists r, p = p' ++ 47 :: r.
Proof.
  revert p'. induction p as [|x p IH]; intros p' H Hq.
  - destruct p' as [|y p']; [by left |]. simpl in H. injection H as <- H.
    assert (Hin : 47 ∈ q) by (rewrite H, elem_of_app, elem_of_cons; auto).
    rewrite Forall_forall in Hq. by destruct (Hq 47 Hin).
  - destruct p' as [|y p']; simpl in H; injection H as -> H; [right; by exists p |].
    destruct (IH p' H Hq) as [-> | [r ->]]; [by left | right; by exists r].
Qed.

Lemma mountpoint_loop_ok table fuel : forall curr,
  (length curr <= fuel)%nat -> curr = [] \/ starts_with 47 curr = true ->
  exists r, mountpoint_loop fuel table curr = Ret r /\
    match r with
    | Some (mp, p) => (exists q, curr = p ++ 47 :: q) /\ table !! p = Some mp /\
        forall p' q', curr = p' ++ 47 :: q' -> is_Some (table !! p') -> (length p' <= length p)%nat
    | None => forall p' q', curr = p' ++ 47 :: q' -> table !! p' = None
    end.
Proof.
  induction fuel as [|fuel IH]; intros curr Hf Hs.
  - destruct curr; [| simpl in Hf; lia]. exists None. split; [done |]. by intros [|? ?] q' ?.
  - destruct curr as [|c curr]; [exists None; split; [done |]; by intros [|? ?] q' ? |].
    destruct Hs as [? | Hs]; [done |]. cbn [mountpoint_loop].
    destruct (rsplit_once 47 (c :: curr)) as [[parent last]|] eqn:E.
    2: { apply rsplit_none_inv in E. apply Forall_cons in E as [E _]. simpl in Hs. lia. }
    apply rsplit_inv in E as [E Hlast]. cbn [unwrap obind].
    destruct (table !! parent) as [mp|] eqn:Ep.
    + exists (Some (mp, parent)). split; [done |]. split; [by exists last |]. split; [done |].
      intros p' q' Hpq _. rewrite E in Hpq. destruct (slash_prefix _ _ _ _ Hpq Hlast) as [-> | [r ->]]; [done |].
      rewrite length_app. lia.
    + destruct (IH parent) as (r & Er & Hr).
      { apply (f_equal length) in E. rewrite length_app in E. simpl in *. lia. }
      { destruct parent as [|x parent]; [by left | right]. simpl in *. by injection E as -> _. }
      exists r. split; [done |]. destruct r as [[mp p]|].
      * destruct Hr as ((q & Hq) & Hm & Hmax). split; [| split; [done |]].
        { exists (q ++ 47 :: last). rewrite E, Hq, <- app_assoc. done. }
        intros p' q' Hpq Hin. rewrite E in Hpq. destruct (slash_prefix _ _ _ _ Hpq Hlast) as [-> | [x Hx]].
        { rewrite Ep in Hin. by destruct Hin. }
        by apply (Hmax p' x).
      * intros p' q' Hpq. rewrite E in Hpq. destruct (slash_prefix _ _ _ _ Hpq Hlast) as [-> | [x Hx]]; [done |].
        by apply (Hr p' x).
Qed.

Lemma parts_ok p : Forall segment_ok (path_parts p).
Proof.
  unfold path_parts. apply Forall_forall. intros s Hs. apply list_elem_of_In, filter_In in Hs as [Hin Hne].
  split; [by destruct s |]. pose proof (split_pieces 47 (trim_start_matches 47 p)) as H.
  rewrite Forall_forall in H. by apply H, list_elem_of_In.
Qed.

(** Where an absolute path starts and which segments follow. *)
Definition locate v (path : name) : outcome (Z * list name) :=
  let! '(mount, mp_root_path) := find_mountpoint (MOUNT_TABLE v) path in
  Ret (m_root mount, path_parts (if bool_decide (mp_root_path = [47]) then path
                                 else default path (strip_prefix mp_root_path path))).

Lemma find_dentry_absolute fuel v cwd path :
  trim path = path -> starts_with 47 path = true ->
  find_dentry fuel v cwd path = let! '(r, segs) := locate v path in walk_path v r segs.
Proof.
  intros Ht Hs. unfold find_dentry, locate. rewrite Ht, Hs. cbn [obind].
  by destruct (find_mountpoint (MOUNT_TABLE v) path) as [[m p]| |].
Qed.

Lemma find_mountpoint_ok table path mp0 :
  starts_with 47 path = true -> table !! [47] = Some mp0 ->
  exists mp p, find_mountpoint table path = Ret (mp, p) /\ is_Some (table !! p) /\ table !! p = Some mp /\
    ((exists q, path = p ++ 47 :: q) /\
     (forall p' q', path = p' ++ 47 :: q' -> is_Some (table !! p') -> (length p' <= length p)%nat) \/
     p = [47] /\ forall p' q', path = p' ++ 47 :: q' -> table !! p' = None).
Proof.
  intros Hs H0. destruct (mountpoint_loop_ok table (length path) path) as (r & E & Hr); [lia | by right |].
  unfold find_mountpoint. rewrite E. cbn [obind]. destruct r as [[mp p]|].
  - destruct Hr as (H1 & H2 & H3). exists mp, p. split; [done |]. rewrite H2. split; [done |]. split; [done |]. by left.
  - rewrite H0. cbn [unwrap obind]. exists mp0, [47]. split; [done |]. split; [done |]. split; [done |]. by right.
Qed.

(** ** Properties *)

(** [C22] Resolving an absolute path.  The mount is the one on the longest mounted
    prefix that ends before a slash, else the root mount.  From its root the
    cached names are followed without asking the file systems, and from the
    first name that is not cached one lookup per segment decides, whatever has
    happened to the file systems since the names were cached.  A dentry found
    carries the inode of that answer and lies at the path; every cached entry is
    kept and the cache stays well formed; when a lookup fails the result is
    [None], when it panics, so does the resolution.  While the cache agrees with
    the file systems, the answer is theirs, and the cache goes on agreeing. *)
Theorem find_dentry_resolves fuel v cwd path mp0 :
  vfs_ok v -> trim path = path -> starts_with 47 path = true -> MOUNT_TABLE v !! [47] = Some mp0 ->
  exists mp p segs dr, find_mountpoint (MOUNT_TABLE v) path = Ret (mp, p) /\
    ((exists q, path = p ++ 47 :: q) /\
     (forall p' q', path = p' ++ 47 :: q' -> is_Some (MOUNT_TABLE v !! p') -> (length p' <= length p)%nat) \/
     p = [47] /\ forall p' q', path = p' ++ 47 :: q' -> MOUNT_TABLE v !! p' = None) /\
    locate v path = Ret (m_root mp, segs) /\ dents v !! m_root mp = Some dr /\
    match answer v (m_root mp) segs with
    | Ret (Some j) => exists v' a d', find_dentry fuel v cwd path = Ret (v', Some a) /\ vfs_ok v' /\ grows v v' /\
        (up_to_date v -> up_to_date v') /\ dents v' !! a = Some d' /\ d_inode d' = j /\ below v' (m_root mp) segs a
    | Ret None => exists v', find_dentry fuel v cwd path = Ret (v', None) /\ vfs_ok v' /\ grows v v' /\ (up_to_date v -> up_to_date v')
    | Panic => find_dentry fuel v cwd path = Panic
    | NoFuel => find_dentry fuel v cwd path = NoFuel
    end /\
    (up_to_date v -> answer v (m_root mp) segs = resolve (d_inode dr) segs).
Proof.
  intros Hv Ht Hs H0. destruct (find_mountpoint_ok (MOUNT_TABLE v) path mp0 Hs H0) as (mp & p & E & _ & Hm & Hl).
  destruct (v_mount v Hv p mp Hm) as (dr & Hr & _). rewrite (find_dentry_absolute fuel v cwd path Ht Hs).
  unfold locate. rewrite E. cbn [obind]. set (segs := path_parts _).
  exists mp, p, segs, dr. split; [done |]. split; [done |]. split; [done |]. split; [done |].
  split; [exact (walk_path_ok segs v (m_root mp) dr Hv Hr (parts_ok _)) |]. intros Hu. by apply answer_resolve.
Qed.

(** Paths round trip.  For a dentry reached from the root of the root file
    system, with no other file system mounted on the way, [full_path] returns
    its segments joined by slashes, and resolving that path returns the same
    dentry and changes nothing. *)
Theorem full_path_roundtrip fuel v cwd mp0 segs a :
  vfs_ok v -> MOUNT_TABLE v !! [47] = Some mp0 -> below v (m_root mp0) segs a -> (Z.to_nat a < fuel)%nat ->
  let path := 47 :: join [47] segs in
  trim path = path -> (forall p q, path = p ++ 47 :: q -> MOUNT_TABLE v !! p = None) ->
  full_path fuel v a = Ret path /\ find_dentry fuel v cwd path = Ret (v, Some a).
Proof.
  intros Hv H0 Hb Hf path Ht Hno. destruct (v_mount v Hv _ _ H0) as (dr & Hr & Hp).
  split; [by apply (full_path_ok v (m_root mp0) dr) |].
  rewrite find_dentry_absolute by done. unfold locate.
  destruct (find_mountpoint_ok (MOUNT_TABLE v) path mp0 eq_refl H0) as (mp & p & E & _ & Hm & Hl).
  assert (p = [47]) as ->.
  { destruct Hl as [[(q & Hq) _] | [-> _]]; [| done]. rewrite (Hno p q Hq) in Hm. done. }
  rewrite H0 in Hm. injection Hm as <-. rewrite E. cbn [obind]. rewrite bool_decide_eq_true_2 by done.
  unfold path. rewrite parts_of_path by (by eapply below_segments). by apply walk_below.
Qed.

(** ** Mounting *)
Definition no_vfs : Vfs I := {| dents := ∅; next_dent := 0; MOUNT_TABLE := ∅ |}.

Lemma no_vfs_ok : vfs_ok no_vfs.
Proof. split; simpl; intros *; try rewrite lookup_empty; try done; lia. Qed.

Lemma mount_ok path i v : vfs_ok v -> vfs_ok (mount path i v).
Proof.
  intros Hv. pose proof (v_next v Hv) as Hn.
  assert (Hf : dents v !! next_dent v = None).
  { destruct (dents v !! next_dent v) eqn:E; [| done]. pose proof (v_fresh v Hv _ _ E). lia. }
  assert (Hkeep : forall b x, dents v !! b = Some x -> dents (mount path i v) !! b = Some x).
  { intros b x Hx. simpl. rewrite lookup_insert_ne; [done |]. intros <-. congruence. }
  assert (Hold : forall b x, dents (mount path i v) !! b = Some x ->
    (b = next_dent v /\ x = mkDEntry [47] i None ∅) \/ dents v !! b = Some x).
  { intros b x Hx. simpl in Hx. destruct (decide (b = next_dent v)) as [-> | Hb].
    - rewrite lookup_insert_eq in Hx. injection Hx as <-. by left.
    - rewrite lookup_insert_ne in Hx by done. by right. }
  split.
  - intros b x Hx. simpl next_dent. destruct (Hold b x Hx) as [[-> _] | Hx']; [lia |].
    pose proof (v_fresh v Hv b x Hx'). lia.
  - intros b x s c Hx Hc. destruct (Hold b x Hx) as [[_ ->] | Hx']; [simpl in Hc; by rewrite lookup_empty in Hc |].
    destruct (v_child v Hv b x s c Hx' Hc) as (dc & E1 & E2). exists dc. split; [by apply Hkeep | done].
  - intros b x p Hx Hp. destruct (Hold b x Hx) as [[_ ->] | Hx']; [done |].
    destruct (v_parent v Hv b x p Hx' Hp) as (H1 & H2 & dp & H3 & H4). split; [done |]. split; [done |].
    exists dp. split; [by apply Hkeep | done].
  - simpl. lia.
  - intros m mp Hm. simpl in Hm. destruct (decide (m = path)) as [-> | Hne].
    + rewrite lookup_insert_eq in Hm. injection Hm as <-. simpl. rewrite lookup_insert_eq. by eexists.
    + rewrite lookup_insert_ne in Hm by done. destruct (v_mount v Hv m mp Hm) as (d & Hd & Hp). exists d.
      split; [by apply Hkeep | done].
Qed.
End VfsProps.

(** The cache is never invalidated: a path that was resolved once resolves to
    the same dentry whatever its file system says of the names later, after
    they were deleted too. *)
Theorem cached_path_outlives_file {I : Type} (v : Vfs I) r segs a : vfs_ok v -> below v r segs a ->
  forall later : INodeOps I, walk_path (OPS := later) v r segs = Ret (v, Some a).
Proof. intros Hv Hb later. by apply (walk_below (OPS := later)). Qed.


(** ** Witnesses: a root file system with "bin/ls" and a device file system on
    "/dev" *)
Module VfsWitness.
Inductive tree := Node (id : Z) (entries : list (name * tree)).
Definition tree_lookup (t : tree) (s : name) : outcome (option tree) :=
  match t with Node _ l => Ret (snd <$> List.find (fun e => bool_decide (fst e = s)) l) end.
#[export] Instance tree_ops : INodeOps tree := {| i_lookup := tree_lookup |}.

Definition bin : name := [98; 105; 110].
Definition ls : name := [108; 115].
Definition dev : name := [47; 100; 101; 118].
Definition zero : name := [122; 101; 114; 111].
Definition root_fs : tree := Node 0 [(bin, Node 1 [(ls, Node 2 [])])].
Definition dev_fs : tree := Node 10 [(zero, Node 11 [])].
Definition vfs0 : Vfs tree := mount dev dev_fs (mount [47] root_fs no_vfs).
Definition bin_ls : name := 47 :: bin ++ 47 :: ls.

Lemma vfs0_ok : vfs_ok vfs0.
Proof. by apply mount_ok, mount_ok, no_vfs_ok. Qed.

Lemma find_dentry_resolves_witness :
  exists mp p segs dr, find_mountpoint (MOUNT_TABLE vfs0) bin_ls = Ret (mp, p) /\
    ((exists q, bin_ls = p ++ 47 :: q) /\
     (forall p' q', bin_ls = p' ++ 47 :: q' -> is_Some (MOUNT_TABLE vfs0 !! p') -> (length p' <= length p)%nat) \/
     p = [47] /\ forall p' q', bin_ls = p' ++ 47 :: q' -> MOUNT_TABLE vfs0 !! p' = None) /\
    locate vfs0 bin_ls = Ret (m_root mp, segs) /\ dents vfs0 !! m_root mp = Some dr /\
    match answer vfs0 (m_root mp) segs with
    | Ret (Some j) => exists v' a d', find_dentry 0 vfs0 0 bin_ls = Ret (v', Some a) /\ vfs_ok v' /\ grows vfs0 v' /\
        (up_to_date vfs0 -> up_to_date v') /\ dents v' !! a = Some d' /\ d_inode d' = j /\ below v' (m_root mp) segs a
    | Ret None => exists v', find_dentry 0 vfs0 0 bin_ls = Ret (v', None) /\ vfs_ok v' /\ grows vfs0 v' /\ (up_to_date vfs0 -> up_to_date v')
    | Panic => find_dentry 0 vfs0 0 bin_ls = Panic
    | NoFuel => find_dentry 0 vfs0 0 bin_ls = NoFuel
    end /\
    (up_to_date vfs0 -> answer vfs0 (m_root mp) segs = resolve (d_inode dr) segs).
Proof.
  apply (find_dentry_resolves 0 vfs0 0 bin_ls {| m_root := 0; m_mountpoint := 0 |});
    [apply vfs0_ok | vm_compute; reflexivity | reflexivity | vm_compute; reflexivity].
Defined.

Definition vfs1 : Vfs tree := match find_dentry 0 vfs0 0 bin_ls with Ret (v, _) => v | _ => vfs0 end.

Lemma vfs1_ok : vfs_ok vfs1.
Proof.
  unfold vfs1. rewrite find_dentry_absolute by (vm_compute; reflexivity).
  assert (E : locate vfs0 bin_ls = Ret (0, [bin; ls])) by (vm_compute; reflexivity). rewrite E. cbn [obind].
  pose proof (walk_path_ok [bin; ls] vfs0 0 (mkDEntry [47] root_fs None ∅) vfs0_ok) as H.
  destruct H as (v' & a & d' & -> & Hv & _); [vm_compute; reflexivity | | done].
  apply (parts_ok bin_ls).
Qed.

(** With every file gone "/bin/ls" is still found. *)
Example deleted_name_resolves :
  find_dentry (OPS := {| i_lookup := fun _ _ => Ret None |}) 5 vfs1 0 bin_ls = Ret (vfs1, Some 3).
Proof. vm_compute. reflexivity. Qed.

Lemma no_mount_on_bin_ls p q : bin_ls = p ++ 47 :: q -> MOUNT_TABLE vfs1 !! p = None.
Proof.
  intros H. assert (p = [] \/ p = 47 :: bin) as [-> | ->]; [| vm_compute; reflexivity..].
  do 8 (destruct p as [|? p]; [try (by left); try (by right); vm_compute in H; try (injection H; intros; subst; auto; fail); try discriminate H |]);
    vm_compute in H; injection H; intros; subst; auto; try done.
Qed.

(** "/bin/ls", cached by the first resolution, is found again unchanged. *)
Lemma full_path_roundtrip_witness :
  full_path 5 vfs1 3 = Ret bin_ls /\ find_dentry 5 vfs1 0 bin_ls = Ret (vfs1, Some 3).
Proof.
  apply (full_path_roundtrip 5 vfs1 0 {| m_root := 0; m_mountpoint := 0 |} [bin; ls] 3).
  - apply vfs1_ok.
  - vm_compute. reflexivity.
  - change [bin; ls] with ([bin] ++ [ls]).
    eapply (below_step vfs1 0 [bin] 2 3 (mkDEntry ls _ _ _)); [| vm_compute; reflexivity | reflexivity].
    eapply (below_step vfs1 0 [] 0 2 (mkDEntry bin _ _ _)); [constructor | vm_compute; reflexivity | reflexivity].
  - lia.
  - vm_compute. reflexivity.
  - apply no_mount_on_bin_ls.
Defined.

(** The mount point itself is looked up in the root file system: "/dev" is not
    found although a file system is mounted there, "/dev/" is its root. *)
Example mount_point_not_resolved :
  snd <$> (match find_dentry 0 vfs0 0 dev with Ret x => Some x | _ => None end) = Some None /\
  snd <$> (match find_dentry 0 vfs0 0 (dev ++ [47]) with Ret x => Some x | _ => None end) = Some (Some 1).
Proof. split; vm_compute; reflexivity. Qed.

(** The full path of a device does not name its mount point. *)
Example device_path_loses_mount :
  match find_dentry 0 vfs0 0 (dev ++ 47 :: zero) with
  | Ret (v, Some a) => full_path 5 v a
  | _ => Panic
  end = Ret (47 :: zero).
Proof. vm_compute. reflexivity. Qed.
End VfsWitness.
