(* ===== verification/Files.v ===== *)
(** * Open files and the machine that system calls work on

    [kernel/src/fs/vfs/mod.rs] (flags, files, metadata), [fs/vfs/sys.rs]
    ([sys_open], [sys_read], [sys_write], [sys_close]) and [setup_fd] of
    [task/proc.rs].

    Open files are shared ([Arc<Mutex<File>>]): descriptor tables hold their
    addresses, and a forked child holds the same ones.  The lock of a file is
    held while its driver blocks, so it is part of the file; a call that finds
    it taken spins.  Pipes are concrete; every other file system and device is
    seen through [VfsOps], the traits [INodeOps] and [FileOps] with path
    resolution. *)
From S2P Require Import Prelude Text Memory Paging PagingMap UserMem UserStack Elf Isolation Slab Lock Thread ThreadInv Sched ThreadKeep Proc Queue Pipe.

(** ** Flags, a bit field of two 32-bit halves: access mode and status *)
Definition CREATE : Z := 1.
Definition TRUNCATE : Z := 2.
Definition APPEND : Z := 4.
Definition NONBLOCK : Z := 8.
Definition from_bits_truncate (bits : Z) : Z := Z.land bits (Z.lor (Z.lor CREATE TRUNCATE) (Z.lor APPEND NONBLOCK)).
Definition contains (flags f : Z) : bool := Z.land flags f =? f.

Definition status (flags : Z) : Z := Z.shiftr flags 32.
Definition set_status (flags st : Z) : Z := Z.lor (Z.land flags (Z.ones 32)) (Z.shiftl st 32).

(** ** Metadata *)
Inductive NodeType := NtFile | NtDirectory | NtPipe | NtCharDevice.
Record FsMetadata := { meta_size : Z; mtime : Z; dirty : bool }.
Record Stat := {
  st_dev : Z; st_ino : Z; st_mode : NodeType; st_rdev : Z; st_nlink : Z; st_size : Z;
  st_blksize : Z; st_blocks : Z; st_mtime : Z
}.
Record DEntryMinimal := { de_name : list Z; de_inum : Z; de_filetype : NodeType; de_size : Z }.

(** How the compiler lays out values that are copied to user memory. *)
Class Layout (T : Type) := { size_of : Z; bytes_of : T -> list Z }.
#[global] Arguments size_of T {_}.

(** ** Files *)
Inductive INodeRef := PipeINode (inum : Z) | FsINode (i : Z).
Inductive FileOpsRef (FO : Type) := PipeOps | FsOps (o : FO).
Arguments PipeOps {FO}.
Arguments FsOps {FO}.

Record File (FO : Type) := mkFile {
  f_inode : INodeRef;
  f_pos : Z;
  f_flags : Z;
  f_ops : FileOpsRef FO;
  f_held : bool
}.
Arguments mkFile {FO}.
Arguments f_inode {FO}.
Arguments f_pos {FO}.
Arguments f_flags {FO}.
Arguments f_ops {FO}.
Arguments f_held {FO}.

Definition set_pos {FO : Type} (n : Z) (f : File FO) : File FO := mkFile (f_inode f) n (f_flags f) (f_ops f) (f_held f).
Definition set_flags {FO : Type} (n : Z) (f : File FO) : File FO := mkFile (f_inode f) (f_pos f) n (f_ops f) (f_held f).
Definition set_held {FO : Type} (b : bool) (f : File FO) : File FO := mkFile (f_inode f) (f_pos f) (f_flags f) (f_ops f) b.

(** [File::set_status] *)
Definition file_set_status {FO : Type} (st : Z) (f : File FO) : File FO := set_flags (set_status (f_flags f) st) f.

Record PipeNode (Q : Type) := { pn_pipe : Pipe Q; pn_meta : FsMetadata }.
Arguments pn_pipe {Q}.
Arguments pn_meta {Q}.
Arguments Build_PipeNode {Q}.

(** Path resolution, inode operations and the file operations of drivers.
    Directory entries and inodes are named by addresses.  [f_read] is one turn
    of a read into a buffer of a given length: what it stores at the start of
    the buffer and the number it returns, or [None] when it blocked; [f_write]
    likewise.  The first list is the process table, by process number. *)
Class VfsOps (V FO : Type) := {
  v_find_dentry : Z -> list Z -> V -> outcome (option Z * V);
  v_inode : V -> Z -> outcome Z;
  v_full_path : V -> Z -> outcome (list Z);
  v_root : V -> outcome Z;
  i_open : V -> Z -> Z -> outcome FO;
  i_create_file : Z -> list Z -> V -> outcome V;
  i_mkdir : Z -> list Z -> V -> outcome V;
  i_rename : Z -> list Z -> V -> outcome V;
  i_delete_file : Z -> V -> outcome V;
  i_rmdir : Z -> V -> outcome V;
  i_readdir : V -> Z -> outcome (list DEntryMinimal);
  i_stat : V -> Z -> outcome Stat;
  i_meta : V -> Z -> outcome FsMetadata;
  i_set_meta : Z -> FsMetadata -> V -> outcome V;
  f_read : list Z -> FO -> Z -> Z -> nat -> Kernel * V -> outcome (Kernel * V * list Z * option Z);
  f_write : list Z -> FO -> Z -> Z -> list Z -> Kernel * V -> outcome (Kernel * V * option Z);
  f_ioctl : FO -> Z -> Z -> V -> outcome V
}.

Record Machine (A S Q V FO : Type) := mkMachine {
  sys : System A S;
  files : gmap Z (File FO);
  next_file : Z;
  pipes : gmap Z (PipeNode Q);
  PIPE_ID_COUNT : Z;
  vfs : V
}.
Arguments mkMachine {A S Q V FO}.
Arguments sys {A S Q V FO}.
Arguments files {A S Q V FO}.
Arguments next_file {A S Q V FO}.
Arguments pipes {A S Q V FO}.
Arguments PIPE_ID_COUNT {A S Q V FO}.
Arguments vfs {A S Q V FO}.

(** ** User memory, through the page table in use *)
Section UserAccess.
Context {A : Type} {FA : FrameAllocator A} {PA : PageApi A} {AA : AddrApi} {S : Type}.
Implicit Type s : System A S.

Fixpoint read_user (n : nat) (va : Z) s : outcome (list Z) :=
  match n with
  | O => Ret []
  | Datatypes.S n =>
      let! b := unwrap (user_byte (ram s) (CR3 s) va) in
      let! bs := read_user n (va + 1) s in
      Ret (b :: bs)
  end.

Fixpoint write_user (va : Z) (bs : list Z) s : outcome (System A S) :=
  match bs with
  | [] => Ret s
  | b :: bs =>
      let! m := user_store (CR3 s) va b (ram s) in
      write_user (va + 1) bs (set_mem m (ALLOC s) s)
  end.

(** [CStr::from_ptr]: the bytes up to the first NUL.  A string is no longer than
    the memory it is in. *)
Fixpoint cstr_loop (fuel : nat) (va : Z) s : outcome (list Z) :=
  match fuel with
  | O => NoFuel
  | Datatypes.S fuel =>
      let! b := unwrap (user_byte (ram s) (CR3 s) va) in
      if b =? 0 then Ret [] else let! bs := cstr_loop fuel (va + 1) s in Ret (b :: bs)
  end.
Definition cstr (va : Z) s : outcome (list Z) := cstr_loop (4096 * base.size (ram s)) va s.
(** [.to_str().unwrap()] *)
Definition to_str (bs : list Z) : outcome (list Z) := if utf8_valid bs then Ret bs else Panic.
Definition user_str (va : Z) s : outcome (list Z) := let! bs := cstr va s in to_str bs.

(** [*argv.add(i)] for [i] in [0..argc], and the strings there. *)
Fixpoint read_argv (argc : nat) (argv : Z) s : outcome (list (list Z)) :=
  match argc with
  | O => Ret []
  | Datatypes.S argc =>
      let! ptr := read_user 8 argv s in
      let! arg := cstr (le_num ptr) s in
      let! args := read_argv argc (argv + 8) s in
      Ret (arg :: args)
  end.
End UserAccess.

Section Files.
Context {A : Type} {FA : FrameAllocator A} {PA : PageApi A} {AA : AddrApi} {S : Type} {SL : Slab S}
  {Q : Type} {AQ : ArrayQueue Z Q} {V FO : Type} {VO : VfsOps V FO}.
Abbreviation Mach := (Machine A S Q V FO) (only parsing).
Abbreviation Sys := (System A S) (only parsing).
Implicit Type m : Mach.

Definition set_sys (s : Sys) m : Mach := mkMachine s (files m) (next_file m) (pipes m) (PIPE_ID_COUNT m) (vfs m).
Definition set_files (fs : gmap Z (File FO)) m : Mach := mkMachine (sys m) fs (next_file m) (pipes m) (PIPE_ID_COUNT m) (vfs m).
Definition set_next (n : Z) m : Mach := mkMachine (sys m) (files m) n (pipes m) (PIPE_ID_COUNT m) (vfs m).
Definition set_pipes (ps : gmap Z (PipeNode Q)) m : Mach := mkMachine (sys m) (files m) (next_file m) ps (PIPE_ID_COUNT m) (vfs m).
Definition set_pipe_count (n : Z) m : Mach := mkMachine (sys m) (files m) (next_file m) (pipes m) n (vfs m).
Definition set_vfs (v : V) m : Mach := mkMachine (sys m) (files m) (next_file m) (pipes m) (PIPE_ID_COUNT m) v.

(** [Arc::new(Mutex::new(file))] *)
Definition new_file (f : File FO) m : Z * Mach :=
  (next_file m, set_next (next_file m + 1) (set_files (<[next_file m := f]> (files m)) m)).
(** Write through a locked file. *)
Definition write_file (a : Z) (g : File FO -> File FO) m : Mach := set_files (alter g a (files m)) m.

(** The scheduler's state after a call into it, with the page table of the
    thread that is current then. *)
Definition resume_kern (k : Kernel) (s : Sys) : outcome Sys :=
  let! t := read_tcb k (CURR_THREAD_PTR k) in Ret (set_CR3 (Thread.cr3 t) (set_kern k s)).

(** The numbers of the processes in the table. *)
Fixpoint pids_of (l : list Z) (s : Sys) : outcome (list Z) :=
  match l with
  | [] => Ret []
  | x :: l => let! p := unwrap (pcbs s !! x) in let! more := pids_of l s in Ret (pid p :: more)
  end.
Definition proc_pids (s : Sys) : outcome (list Z) := pids_of (PROC s) s.

(** ** Descriptors *)
Definition curr_fd (d : Z) m : outcome Z :=
  let! '(_, p) := curr_proc (sys m) in unwrap (slab_get (Z.to_nat d) (fd p)).

Definition set_curr_fd (g : S -> outcome S) m : outcome Mach :=
  let! '(x, p) := curr_proc (sys m) in
  let! t := g (fd p) in
  Ret (set_sys (write_pcb x (set_fd t) (sys m)) m).

(** [p.fd.insert(file)] *)
Definition insert_fd (a : Z) m : outcome (Z * Mach) :=
  let! '(x, p) := curr_proc (sys m) in
  let '(key, t) := slab_insert a (fd p) in
  Ret (Z.of_nat key, set_sys (write_pcb x (set_fd t) (sys m)) m).

(** ** Metadata of an inode *)
Definition inode_meta (i : INodeRef) m : outcome FsMetadata :=
  match i with
  | PipeINode n => let! node := unwrap (pipes m !! n) in Ret (pn_meta node)
  | FsINode i => i_meta (vfs m) i
  end.
Definition set_inode_meta (i : INodeRef) (md : FsMetadata) m : outcome Mach :=
  match i with
  | PipeINode n =>
      let! node := unwrap (pipes m !! n) in
      Ret (set_pipes (<[n := Build_PipeNode (pn_pipe node) md]> (pipes m)) m)
  | FsINode i => let! v := i_set_meta i md (vfs m) in Ret (set_vfs v m)
  end.

(** ** Reading

    One turn: [Some n] when the read returned [n], [None] when the thread
    blocked with the file's lock held. *)
Definition read_turn (a : Z) (ptr len : Z) m : outcome (option Z * Mach) :=
  let! file := unwrap (files m !! a) in
  let! procs := proc_pids (sys m) in
  let! '(k, m, data, r) :=
    match f_ops file with
    | PipeOps =>
        match f_inode file with
        | PipeINode n =>
            let! node := unwrap (pipes m !! n) in
            let! '(k, p, buffer, r) := pipe_read_turn procs n (kern (sys m)) (pn_pipe node) (replicate (Z.to_nat len) 0) in
            Ret (k, set_pipes (<[n := Build_PipeNode p (pn_meta node)]> (pipes m)) m,
                 take (Z.to_nat (default 0 r)) buffer, r)
        | FsINode _ => Panic
        end
    | FsOps o =>
        match f_inode file with
        | FsINode i =>
            let! '(k, v, data, r) := f_read procs o i (f_pos file) (Z.to_nat len) (kern (sys m), vfs m) in
            Ret (k, set_vfs v m, data, r)
        | PipeINode _ => Panic
        end
    end in
  let! s := write_user ptr data (sys m) in
  let! s := resume_kern k s in
  let m := set_sys s m in
  match r with
  | None => Ret (None, m)
  | Some n =>
      let! pos := chk_u 64 (f_pos file + n) in
      Ret (Some n, write_file a (fun f => set_held false (set_pos pos f)) m)
  end.

(** ** Writing, a chunk at a time for pipes *)
Inductive Writing := PipeChunks (w : WriteCall) | Bytes (bs : list Z).

Definition write_turn (now : Z) (a : Z) (w : Writing) m : outcome (option Z * Writing * Mach) :=
  let! file := unwrap (files m !! a) in
  let! procs := proc_pids (sys m) in
  let! '(k, m, w, r) :=
    match f_ops file, w with
    | PipeOps, PipeChunks c =>
        match f_inode file with
        | PipeINode n =>
            let! node := unwrap (pipes m !! n) in
            let! '(k, p, c, r) := pipe_write_turn procs n (kern (sys m)) (pn_pipe node) c in
            Ret (k, set_pipes (<[n := Build_PipeNode p (pn_meta node)]> (pipes m)) m, PipeChunks c, r)
        | FsINode _ => Panic
        end
    | FsOps o, Bytes bs =>
        match f_inode file with
        | FsINode i =>
            let! '(k, v, r) := f_write procs o i (f_pos file) bs (kern (sys m), vfs m) in
            Ret (k, set_vfs v m, w, r)
        | PipeINode _ => Panic
        end
    | _, _ => Panic
    end in
  let! s := resume_kern k (sys m) in
  let m := set_sys s m in
  match r with
  | None => Ret (None, w, m)
  | Some n =>
      let! pos := chk_u 64 (f_pos file + n) in
      let! md := inode_meta (f_inode file) m in
      let! m := set_inode_meta (f_inode file) {| meta_size := meta_size md; mtime := now; dirty := true |} m in
      Ret (Some n, w, write_file a (fun f => set_held false (set_pos pos f)) m)
  end.

Definition start_write (file : File FO) (buffer : list Z) : Writing :=
  match f_ops file with PipeOps => PipeChunks (write_call buffer) | FsOps _ => Bytes buffer end.

(** ** Opening and closing *)
Definition open_node (i : INodeRef) (flags : Z) (o : FileOpsRef FO) m : Z * Mach :=
  new_file (mkFile i 0 flags o false) m.

Definition sys_open (path_addr flags : Z) m : outcome (option Z * Mach) :=
  let! path := user_str path_addr (sys m) in
  let! '(_, p) := curr_proc (sys m) in
  let! '(dentry, v) := v_find_dentry (cwd p) path (vfs m) in
  let! v :=
    match dentry with
    | None =>
        if contains (from_bits_truncate (status flags)) CREATE then
          let! '(dir, name) := unwrap (rsplit_once 47 path) in
          let! '(d_parent, v) := v_find_dentry (cwd p) dir v in
          let! d_parent := unwrap d_parent in
          let! i_parent := v_inode v d_parent in
          i_create_file i_parent name v
        else Ret v
    | Some _ => Ret v
    end in
  let m := set_vfs v m in
  match dentry with
  | Some d =>
      let! inode := v_inode v d in
      let! ops := i_open v inode flags in
      let '(file, m) := open_node (FsINode inode) flags (FsOps ops) m in
      let! '(entry, m) := insert_fd file m in
      Ret (Some entry, m)
  | None => Ret (None, m)
  end.

Definition sys_close (d : Z) m : outcome Mach := set_curr_fd (slab_remove (Z.to_nat d)) m.

(** ** The descriptors of a new process: the terminal, three times *)
Definition dev_tty1 : list Z := [47; 100; 101; 118; 47; 116; 116; 121; 49].

Definition setup_fd m : outcome (S * Mach) :=
  let! '(tty, v) := v_find_dentry 0 dev_tty1 (vfs m) in
  let! tty := unwrap tty in
  let! inode := v_inode v tty in
  let! ops1 := i_open v inode 0 in
  let! ops2 := i_open v inode 0 in
  let! ops3 := i_open v inode 0 in
  let m := set_vfs v m in
  let '(stdin_file, m) := open_node (FsINode inode) 0 (FsOps ops1) m in
  let '(stdout_file, m) := open_node (FsINode inode) 0 (FsOps ops2) m in
  let '(stderr_file, m) := open_node (FsINode inode) 0 (FsOps ops3) m in
  Ret (slab_of [stdin_file; stdout_file; stderr_file], m).

Definition spawn_process (cfg : Config) (n : SpawnAddrs) (program : list Z) (args : list (list Z)) m : outcome Mach :=
  let! root := v_root (vfs m) in
  let! '(fds, m) := setup_fd m in
  let! s := spawn_proc cfg n program args root fds (sys m) in
  Ret (set_sys s m).
End Files.
