(* ===== verification/UserCopy.v ===== *)
(** * Copying to and from user memory

    What the kernel writes through the page table in use is what the process
    reads there afterwards, and it changes nothing else that any process
    reads. *)
From S2P Require Import Prelude Text Memory Paging PagingMap UserMem UserStack Elf Isolation Slab Lock Thread ThreadInv Sched ThreadKeep Queue Pipe Proc ProcInv ProcOps ProcSys Files.

Section UserCopy.
Context {A : Type} {FA : FrameAllocator A} {FL : FrameAllocatorLaws A} {PA : PageApi A} {PL : PageLaws A PA}
  {AA : AddrApi} {AL : AddrLaws PA AA} {S : Type} {SL : Slab S}.
Variable cfg : Config.
Implicit Types (s : System A S) (p : ProcessControlBlock S).

(** The address of a byte that is read: page, frame and offset. *)
Lemma user_byte_phys m a d va b :
  space_ok m a d -> mem_sized m -> user_addr va -> user_byte m (Paging.cr3 d) va = Some b ->
  exists e f ws, pte m (Paging.cr3 d) (page_of (va / 4096)) = Some e /\ entry_frame e = Some f /\ frame_ok f /\
    user_page (page_of (va / 4096)) /\ m !! f = Some ws /\ length ws = 512%nat /\
    translate_addr m (Paging.cr3 d) va = Some (f + va mod 4096) /\ read_byte m (f + va mod 4096) = Some b.
Proof.
  intros Hok Hsz Hva H. unfold user_byte in H. rewrite translate_addr_ok in H by (done || apply Hok).
  assert (Hq : user_page (page_of (va / 4096))).
  { apply page_of_user. unfold user_pagenum, user_addr in *. split; [apply Z.div_pos; lia | apply Z.div_lt_upper_bound; lia]. }
  destruct (pte m (Paging.cr3 d) (page_of (va / 4096))) as [e|] eqn:He; [| done]. cbn [mbind option_bind] in H.
  destruct (entry_frame e) as [f|] eqn:Hf; [| done]. cbn [mbind option_bind] in H.
  destruct (so_frames _ _ _ Hok _ _ Hq He) as (f0 & ws & Hf0 & Hws & _). assert (f0 = f) as -> by congruence.
  exists e, f, ws. rewrite translate_addr_ok, He by (done || apply Hok). cbn [mbind option_bind]. rewrite Hf.
  split; [done |]. split; [done |]. split; [by eapply entry_frame_ok |]. split; [done |]. split; [done |]. split; [by eapply Hsz |]. done.
Qed.

(** A store to a mapped byte succeeds and changes that byte only. *)
Lemma user_store_ok m a d va b0 b :
  space_ok m a d -> mem_sized m -> user_addr va -> is_byte b -> user_byte m (Paging.cr3 d) va = Some b0 ->
  exists m', user_store (Paging.cr3 d) va b m = Ret m' /\ extends m a (Paging.cr3 d) m' a /\ space_ok m' a d /\
    forall va', user_addr va' ->
      user_byte m' (Paging.cr3 d) va' = if decide (va' = va) then Some b else user_byte m (Paging.cr3 d) va'.
Proof.
  intros Hok Hsz Hva Hb H0. destruct (user_byte_phys m a d va b0 Hok Hsz Hva H0) as (e & f & ws & He & Hf & Hfo & Hq & Hws & Hlen & Htr & _).
  pose proof (Z.mod_pos_bound va 4096 ltac:(lia)) as Hx. destruct (in_frame f (va mod 4096) Hfo Hx) as [Hfa Hpos].
  destruct (write_byte_ok m (f + va mod 4096) b Hpos) as (m' & E & Hr & Hoth & _); [rewrite Hfa; exists ws; eauto | done |].
  assert (Es : user_store (Paging.cr3 d) va b m = Ret m') by (unfold user_store; rewrite Htr; exact E).
  destruct (user_store_extends m a d va b m' Hok Hsz Hva Es) as (Hext & Hok' & Hself%(fun H => H Hb)).
  exists m'. split; [done |]. split; [done |]. split; [done |]. intros va' Hva'.
  case_decide as Ev; [by subst |]. rewrite Hfa in Hoth.
  assert (Hpte : forall q, user_page q -> pte m' (Paging.cr3 d) q = pte m (Paging.cr3 d) q).
  { intros q Hq'. apply agree_pte; [apply Hok | | done]. intros t Ht. apply Hoth. intros ->.
    exact (so_data _ _ _ Hok _ _ _ Hq He Hf Ht). }
  assert (Hq' : user_page (page_of (va' / 4096))).
  { apply page_of_user. unfold user_pagenum, user_addr in *. split; [apply Z.div_pos; lia | apply Z.div_lt_upper_bound; lia]. }
  unfold user_byte. rewrite !translate_addr_ok by (done || apply Hok || apply Hok').
  rewrite Hpte by done. destruct (pte m (Paging.cr3 d) (page_of (va' / 4096))) as [e'|] eqn:He'; [| done].
  cbn [mbind option_bind]. destruct (entry_frame e') as [f'|] eqn:Hf'; [| done]. cbn [mbind option_bind].
  pose proof (Z.mod_pos_bound va' 4096 ltac:(lia)) as Hx'. assert (Hfo' : frame_ok f') by by eapply entry_frame_ok.
  destruct (in_frame f' (va' mod 4096) Hfo' Hx') as [Hfa' Hpos'].
  rewrite Hr by done. rewrite decide_False; [done |]. intros Ep. assert (f' = f) as -> by congruence.
  pose proof (so_once _ _ _ Hok _ _ _ _ _ Hq' Hq He' He Hf' Hf) as Epg. apply page_of_inj in Epg.
  - apply Ev. rewrite (Z.div_mod va' 4096), (Z.div_mod va 4096) by lia. lia.
  - unfold user_pagenum, user_addr in *. split; [apply Z.div_pos; lia | apply Z.div_lt_upper_bound; lia].
  - unfold user_pagenum, user_addr in *. split; [apply Z.div_pos; lia | apply Z.div_lt_upper_bound; lia].
Qed.

(** ** The caller's memory *)
Definition mapped_bytes s (va n : Z) : Prop :=
  0 <= va /\ va + n <= 2 ^ 47 /\ forall i, 0 <= i < n -> is_Some (user_byte (ram s) (CR3 s) (va + i)).

Lemma caller_space s x p t : proc_inv cfg s -> caller s x p t -> space_ok (ram s) (ALLOC s) (adsp p).
Proof.
  intros Hi Hca. apply (is_space _ _ _ _ (pi_mem _ s Hi) x). apply live_space_Some. split; [apply Hca |].
  exists p. split; [apply Hca | done].
Qed.

(** [curr_proc] does not depend on memory. *)
Lemma write_user_ok bs : forall va s x p,
  proc_inv cfg s -> may_call (kern s) -> curr_proc s = Ret (x, p) ->
  mapped_bytes s va (Z.of_nat (length bs)) -> Forall is_byte bs ->
  exists s', write_user va bs s = Ret s' /\ proc_inv cfg s' /\ others_same s s' x /\
    (kern s', pcbs s', PROC s', PID s', ALLOC s', CR3 s') = (kern s, pcbs s, PROC s, PID s, ALLOC s, CR3 s) /\
    forall va', user_addr va' -> user_byte (ram s') (CR3 s) va' =
      if decide (va <= va' < va + Z.of_nat (length bs)) then bs !! Z.to_nat (va' - va) else user_byte (ram s) (CR3 s) va'.
Proof.
  induction bs as [|b bs IH]; intros va s x p Hi Hm Hc (H0 & Hmax & Hmap) Hbs.
  - exists s. split; [done |]. split; [done |]. split; [done |]. split; [done |].
    intros va' _. rewrite decide_False; [done | simpl; lia].
  - apply Forall_cons in Hbs as [Hb Hbs]. cbn [length] in *. destruct (curr_proc_caller cfg s x p Hi Hm Hc) as (t & Hca).
    assert (HC : CR3 s = Paging.cr3 (adsp p)) by apply Hca. assert (Hva : user_addr va) by (unfold user_addr; lia).
    destruct (Hmap 0) as [b0 Hb0]; [lia |]. rewrite Z.add_0_r, HC in Hb0.
    destruct (user_store_ok (ram s) (ALLOC s) (adsp p) va b0 b (caller_space s x p t Hi Hca)
      (is_sized _ _ _ _ (pi_mem _ s Hi)) Hva Hb Hb0) as (m1 & E & _ & _ & Hr).
    rewrite <- HC in E, Hr. destruct (store_spec cfg s x p va b m1 Hi Hm Hc Hva E) as [Hi1 Ho1].
    set (s1 := set_mem m1 (ALLOC s) s) in *.
    destruct (IH (va + 1) s1 x p Hi1 Hm Hc) as (s' & E' & Hi' & Ho' & Es & Hr'); [| done |].
    { split; [lia |]. split; [lia |]. intros i Hi0. change (CR3 s1) with (CR3 s). change (ram s1) with m1.
      rewrite Hr by (unfold user_addr; lia). rewrite decide_False by lia.
      replace (va + 1 + i) with (va + (i + 1)) by lia. apply Hmap. lia. }
    exists s'. cbn [write_user]. rewrite E. cbn [obind]. split; [exact E' |]. split; [done |]. split; [| split; [exact Es |]].
    + intros y q Hy Hne Hq. destruct (Ho1 y q Hy Hne Hq) as [Hq1 Hv1]. destruct (Ho' y q Hy Hne Hq1) as [Hq2 Hv2].
      split; [done |]. intros f Hf. rewrite Hv2; [by apply Hv1 |].
      apply (view_owns (ram s) (ram s1) (ALLOC s) (adsp q)); [| done | done].
      apply (is_space _ _ _ _ (pi_mem _ s Hi) y). apply live_space_Some. split; [done |]. by exists q.
    + intros va' Hva'. change (CR3 s1) with (CR3 s) in Hr'. change (ram s1) with m1 in Hr'. rewrite Hr' by done.
      destruct (decide (va + 1 <= va' < va + 1 + Z.of_nat (length bs))).
      * rewrite decide_True by lia. replace (Z.to_nat (va' - va)) with (Datatypes.S (Z.to_nat (va' - (va + 1)))) by lia. done.
      * rewrite Hr by done. destruct (decide (va' = va)) as [-> | Hne].
        -- rewrite decide_True by lia. by rewrite Z.sub_diag.
        -- rewrite decide_False by lia. done.
Qed.

Lemma read_user_ok bs : forall va s,
  (forall i b, bs !! i = Some b -> user_byte (ram s) (CR3 s) (va + Z.of_nat i) = Some b) ->
  read_user (length bs) va s = Ret bs.
Proof.
  induction bs as [|b bs IH]; intros va s H; [done |]. cbn [length read_user].
  pose proof (H 0%nat b eq_refl) as H0. rewrite Z.add_0_r in H0. rewrite H0. cbn [unwrap obind]. rewrite IH; [done |].
  intros i c Hc. replace (va + 1 + Z.of_nat i) with (va + Z.of_nat (Datatypes.S i)) by lia. by apply H.
Qed.
End UserCopy.
