(* ===== verification/Syscall.v ===== *)
(** * System calls

    [syscall_handler] of [kernel/src/syscall.rs].  A call runs up to the point
    where it returns to user mode, ends the process, or has to be taken up
    again when the thread runs next: a read or a write of a file that blocked
    with the file's lock held ([take_up] is its next turn), or a call that
    found the lock of a file taken and spins.  A call that blocks and then only
    returns (sleep, wait) has its trap frame ready when it blocks.

    The gate clears the interrupt flag and the handler's first statement sets
    it again, so a call is not atomic: other threads run between its steps.
    [syscall_handler] is what a call does when nothing comes in between;
    [CallSteps] shows it to be a sequence of the steps of [ProcSys], over whose
    interleavings the theorems on reachable states quantify. *)
From S2P Require Import Prelude Text Memory Paging PagingMap UserMem UserStack Elf Isolation Slab Lock Thread ThreadInv Sched ThreadKeep Queue Pipe Proc Files.

Inductive SysCallKind :=
| Open | Close | KRead | KWrite | Lseek
| Chdir | Getcwd | Mkdir | Rmdir | Getdents
| Fstat | Delete | Rename
| Dup | Dup2 | KPipe
| Ioctl | Fcntl
| Fork | Exec | WaitPid
| Yield | Exit | Alloc | GetPid | AllocBackBuffer | GraphicsFrameReady | Sleep | GetUnixTime | Uname.

(** [SysCallKind::from] *)
Definition kind_from (value : Z) : outcome SysCallKind :=
  match value with
  | 0 => Ret Open | 1 => Ret Close | 2 => Ret KRead | 3 => Ret KWrite | 4 => Ret Lseek
  | 5 => Ret Ioctl | 6 => Ret Fcntl
  | 7 => Ret Chdir | 8 => Ret Getcwd | 9 => Ret Mkdir | 10 => Ret Rmdir | 11 => Ret Getdents
  | 12 => Ret Fstat | 13 => Ret Delete | 14 => Ret Rename
  | 15 => Ret Dup | 16 => Ret Dup2 | 17 => Ret KPipe
  | 18 => Ret Fork | 28 => Ret Exec | 29 => Ret WaitPid
  | 19 => Ret Yield | 20 => Ret Exit | 21 => Ret GetPid | 22 => Ret Sleep
  | 23 => Ret Alloc | 24 => Ret AllocBackBuffer | 25 => Ret GraphicsFrameReady
  | 26 => Ret GetUnixTime | 27 => Ret Uname
  | _ => Panic
  end.

Inductive FcntlCommand := SetFlags (flags : Z) | GetFlags.
Definition fcntl_command (arg2 arg3 : Z) : outcome FcntlCommand :=
  match arg2 with
  | 1 => Ret GetFlags
  | 2 => Ret (SetFlags (wrap_u 32 arg3))
  | _ => Panic
  end.

Definition MAX_FD : nat := 100.

(** What a call gets from outside: the addresses of what a fork allocates, the
    clocks, the screen, and the bytes of [UNAME]. *)
Record Inputs := {
  in_fork : ForkAddrs; cmos_now : Z; boot_unix : Z; in_screen : ScreenSize; uname_bytes : list Z
}.

(** What is left of a call. *)
Inductive Rest :=
| ReadMore (file ptr len : Z)
| WriteMore (file : Z) (w : Writing)
| Spinning
| Unreachable.
Inductive CallResult :=
| Returned (tf : TrapFrame)
| Waiting (tf : TrapFrame) (r : Rest)
| Ended.

(** [#[repr(C)]] *)
Definition window_bytes (w : UserWindow) : list Z :=
  le_bytes 8 (base_addr w) ++ le_bytes 4 (uw_width w) ++ le_bytes 4 (uw_height w)
    ++ le_bytes 4 (uw_bytes_per_pixel w) ++ le_bytes 4 (uw_bytes_per_line w).

Section Syscall.
Context {A : Type} {FA : FrameAllocator A} {PA : PageApi A} {AA : AddrApi} {S : Type} {SL : Slab S}
  {Q : Type} {AQ : ArrayQueue Z Q} {V FO : Type} {VO : VfsOps V FO}
  {LD : Layout DEntryMinimal} {LS : Layout Stat}.
Abbreviation Mach := (Machine A S Q V FO) (only parsing).
Implicit Type m : Mach.
Variable cfg : Config.

(** Run with the open file of a descriptor locked; a file whose lock is taken
    makes the caller spin. *)
Definition with_file (d : Z) (m : Mach) (body : Z -> File FO -> outcome (option Z * Mach)) : outcome (option Z * Mach) :=
  let! a := curr_fd d m in
  let! f := unwrap (files m !! a) in
  if f_held f then Ret (None, m) else body a f.

(** ** Descriptors *)
Definition call_dup (oldfd : Z) m : outcome (Z * Mach) :=
  let! '(_, p) := curr_proc (sys m) in
  let! file := unwrap (slab_get (Z.to_nat oldfd) (fd p)) in
  let! lowest_fd := unwrap (find (fun i => slab_contains i (fd p)) (seq 0 MAX_FD)) in
  let! m := set_curr_fd (slab_set lowest_fd file) m in
  Ret (Z.of_nat lowest_fd, m).

Definition call_dup2 (oldfd newfd : Z) m : outcome (Z * Mach) :=
  if oldfd =? newfd then Ret (newfd, m) else
  let! file := curr_fd oldfd m in
  let! m := set_curr_fd (slab_set (Z.to_nat newfd) file) m in
  Ret (newfd, m).

Definition call_pipe (ptr : Z) m : outcome Mach :=
  let n := PIPE_ID_COUNT m in
  let m := set_pipe_count (wrap_u 64 (n + 1)) m in
  let m := set_pipes (<[n := Build_PipeNode pipe_new {| meta_size := 4096; mtime := 0; dirty := false |}]> (pipes m)) m in
  let '(write_file, m) := open_node (PipeINode n) 0 PipeOps m in
  let '(read_file, m) := open_node (PipeINode n) 0 PipeOps m in
  let! '(rfd, m) := insert_fd read_file m in
  let! '(wfd, m) := insert_fd write_file m in
  let! s := write_user ptr (le_bytes 8 rfd) (sys m) in
  let! s := write_user (ptr + 8) (le_bytes 8 wfd) s in
  Ret (set_sys s m).

Definition call_lseek (d offset : Z) m : outcome (option Z * Mach) :=
  with_file d m (fun a f =>
    let! md := inode_meta (f_inode f) m in
    let! sum := chk_u 64 (f_pos f + offset) in
    let new_pos := Z.min (meta_size md) sum in
    Ret (Some 0, write_file a (set_pos new_pos) m)).

Definition call_fcntl (d arg2 arg3 : Z) m : outcome (option Z * Mach) :=
  let! cmd := fcntl_command arg2 arg3 in
  with_file d m (fun a f =>
    match cmd with
    | SetFlags flags => Ret (Some 0, write_file a (file_set_status (from_bits_truncate flags)) m)
    | GetFlags => Ret (Some (f_flags f), m)
    end).

Definition call_ioctl (d request arg : Z) m : outcome (option Z * Mach) :=
  with_file d m (fun a f =>
    match f_ops f with
    | PipeOps => Ret (Some 0, m)
    | FsOps o => let! v := f_ioctl o request arg (vfs m) in Ret (Some 0, set_vfs v m)
    end).

(** ** Reading and writing *)
Definition finish_read (file ptr len : Z) m : outcome (option Z * option Rest * Mach) :=
  let! '(r, m) := read_turn file ptr len m in
  Ret (match r with Some n => (Some n, None, m) | None => (None, Some (ReadMore file ptr len), m) end).

Definition call_read (d ptr len : Z) m : outcome (option Z * option Rest * Mach) :=
  let! a := curr_fd d m in
  let! f := unwrap (files m !! a) in
  if f_held f then Ret (None, Some Spinning, m) else
  finish_read a ptr len (write_file a (set_held true) m).

Definition finish_write (now : Z) (file : Z) (w : Writing) m : outcome (option Z * option Rest * Mach) :=
  let! '(r, w, m) := write_turn now file w m in
  Ret (match r with Some n => (Some n, None, m) | None => (None, Some (WriteMore file w), m) end).

Definition call_write (now : Z) (d ptr len : Z) m : outcome (option Z * option Rest * Mach) :=
  let! a := curr_fd d m in
  let! f := unwrap (files m !! a) in
  if f_held f then Ret (None, Some Spinning, m) else
  let! buffer := read_user (Z.to_nat len) ptr (sys m) in
  finish_write now a (start_write f buffer) (write_file a (set_held true) m).

(** ** Directories *)
Definition find_path (path : list Z) m : outcome (Z * Mach) :=
  let! '(_, p) := curr_proc (sys m) in
  let! '(d, v) := v_find_dentry (cwd p) path (vfs m) in
  let! d := unwrap d in
  Ret (d, set_vfs v m).

Definition call_chdir (arg1 : Z) m : outcome Mach :=
  let! path := user_str arg1 (sys m) in
  let! '(dentry, m) := find_path path m in
  let! '(x, _) := curr_proc (sys m) in
  Ret (set_sys (write_pcb x (set_cwd dentry) (sys m)) m).

Definition call_mkdir (arg1 : Z) m : outcome Mach :=
  let! path := user_str arg1 (sys m) in
  let! '(parent, child) := unwrap (rsplit_once 47 path) in
  let! '(dir, m) := find_path parent m in
  let! i := v_inode (vfs m) dir in
  let! v := i_mkdir i child (vfs m) in
  Ret (set_vfs v m).

(** [rmdir] and [delete_file] of the inode at a path. *)
Definition call_remove (op : Z -> V -> outcome V) (arg1 : Z) m : outcome Mach :=
  let! path := user_str arg1 (sys m) in
  let! '(dir, m) := find_path path m in
  let! i := v_inode (vfs m) dir in
  let! v := op i (vfs m) in
  Ret (set_vfs v m).

(** Both names are read from the first argument. *)
Definition call_rename (arg1 : Z) m : outcome Mach :=
  let! old_path := user_str arg1 (sys m) in
  let! new_filename := user_str arg1 (sys m) in
  let! '(d, m) := find_path old_path m in
  let! i := v_inode (vfs m) d in
  let! v := i_rename i new_filename (vfs m) in
  Ret (set_vfs v m).

Definition call_getcwd (ptr len : Z) m : outcome (Z * Mach) :=
  let! '(_, p) := curr_proc (sys m) in
  let! abs_cwd := v_full_path (vfs m) (cwd p) in
  let copy_len := Z.min len (Z.of_nat (length abs_cwd)) in
  let! s := write_user ptr (take (Z.to_nat copy_len) abs_cwd) (sys m) in
  Ret (copy_len, set_sys s m).

(** The result is written to the address in the first argument. *)
Definition call_fstat (arg1 : Z) m : outcome (option Z * Mach) :=
  with_file arg1 m (fun a f =>
    let! stat :=
      match f_inode f with
      | FsINode i => i_stat (vfs m) i
      | PipeINode n =>
          let! node := unwrap (pipes m !! n) in
          Ret {| st_dev := 0; st_ino := n; st_mode := NtPipe; st_rdev := 0; st_nlink := 1;
                 st_size := aq_len (pipe_buffer (pn_pipe node)); st_blksize := 4096; st_blocks := 0;
                 st_mtime := mtime (pn_meta node) |}
      end in
    let! s := write_user arg1 (bytes_of stat) (sys m) in
    Ret (Some 0, set_sys s m)).

(** The entries from the file's position on, which does not move. *)
Definition call_getdents (d ptr count : Z) m : outcome (option Z * Mach) :=
  with_file d m (fun a f =>
    let! entries := match f_inode f with FsINode i => i_readdir (vfs m) i | PipeINode _ => Ret [] end in
    let written := take (Z.to_nat count) (drop (Z.to_nat (f_pos f)) entries) in
    let! s := write_user ptr (concat (bytes_of <$> written)) (sys m) in
    Ret (Some (Z.of_nat (length written)), set_sys s m)).

(** ** The dispatcher *)
Definition sys_get_unix_time (e : Inputs) m : outcome Z :=
  chk_u 64 (boot_unix e + div_ceil (ELAPSED (kern (sys m))) 1000).

Definition sys_frame_ready m : Mach := set_sys (set_kern (locked_unblock 3 (kern (sys m))) (sys m)) m.

(** A call that blocks the thread and then returns. *)
Definition call_sleep (ms : Z) m : outcome Mach :=
  let! k := sys_sleep ms (kern (sys m)) in
  let! s := resume_kern k (sys m) in
  Ret (set_sys s m).

Definition call_yield m : outcome Mach :=
  let! k := yield_sched (kern (sys m)) in
  let! s := resume_kern k (sys m) in
  Ret (set_sys s m).

Definition call_back_buffer (screen : ScreenSize) (ptr : Z) m : outcome Mach :=
  let! '(win, s) := proc_back_buffer screen (sys m) in
  let! s := write_user ptr (window_bytes win) s in
  Ret (set_sys s m).

Definition call_exec (arg1 arg2 arg3 : Z) m : outcome (TrapFrame * Mach) :=
  let! program := cstr arg1 (sys m) in
  let! args := read_argv (Z.to_nat arg2) arg3 (sys m) in
  let! '(tf, s) := exec cfg program args (sys m) in
  Ret (tf, set_sys s m).

Definition returns (v : Z) (tf : TrapFrame) m : outcome (CallResult * Mach) := Ret (Returned (set_rax v tf), m).
(** A call on a file that may spin on its lock. *)
Definition returns_or_spins (tf : TrapFrame) (r : outcome (option Z * Mach)) : outcome (CallResult * Mach) :=
  let! '(v, m) := r in
  match v with Some v => returns v tf m | None => Ret (Waiting tf Spinning, m) end.
(** A call on a file that may block or spin. *)
Definition returns_or_waits (tf : TrapFrame) (r : outcome (option Z * option Rest * Mach)) : outcome (CallResult * Mach) :=
  let! '(v, rest, m) := r in
  match v, rest with
  | Some v, _ => returns v tf m
  | None, Some rest => Ret (Waiting tf rest, m)
  | None, None => Panic
  end.
(** A call that returns 0. *)
Definition returns_zero (tf : TrapFrame) (r : outcome Mach) : outcome (CallResult * Mach) :=
  let! m := r in returns 0 tf m.
Definition returns_value (tf : TrapFrame) (r : outcome (Z * Mach)) : outcome (CallResult * Mach) :=
  let! '(v, m) := r in returns v tf m.

Definition syscall_handler (e : Inputs) (trap_frame : TrapFrame) m : outcome (CallResult * Mach) :=
  let! kind := kind_from (tf_rax trap_frame) in
  let arg1 := tf_rdi trap_frame in
  let arg2 := tf_rsi trap_frame in
  let arg3 := tf_rdx trap_frame in
  match kind with
  | Fork => let! '(child, s) := fork cfg (in_fork e) trap_frame (sys m) in returns child trap_frame (set_sys s m)
  | Exec => let! '(tf, m) := call_exec arg1 arg2 arg3 m in returns 0 tf m
  | WaitPid => let! s := wait_pid arg1 (sys m) in returns 0 trap_frame (set_sys s m)
  | Open => let! '(r, m) := sys_open arg1 arg2 m in let! d := unwrap r in returns d trap_frame m
  | Close => returns_zero trap_frame (sys_close arg1 m)
  | KRead => returns_or_waits trap_frame (call_read arg1 arg2 arg3 m)
  | KWrite => returns_or_waits trap_frame (call_write (cmos_now e) arg1 arg2 arg3 m)
  | Chdir => returns_zero trap_frame (call_chdir arg1 m)
  | Mkdir => returns_zero trap_frame (call_mkdir arg1 m)
  | Rmdir => returns_zero trap_frame (call_remove i_rmdir arg1 m)
  | Fstat => returns_or_spins trap_frame (call_fstat arg1 m)
  | Delete => returns_zero trap_frame (call_remove i_delete_file arg1 m)
  | Dup => returns_value trap_frame (call_dup arg1 m)
  | Dup2 => returns_value trap_frame (call_dup2 arg1 arg2 m)
  | Yield => let! m := call_yield m in Ret (Waiting trap_frame Unreachable, m)
  | Uname => let! s := write_user arg1 (uname_bytes e) (sys m) in returns 0 trap_frame (set_sys s m)
  | Getcwd => returns_value trap_frame (call_getcwd arg1 arg2 m)
  | Lseek => returns_or_spins trap_frame (call_lseek arg1 arg2 m)
  | Getdents => returns_or_spins trap_frame (call_getdents arg1 arg2 arg3 m)
  | Ioctl => returns_or_spins trap_frame (call_ioctl arg1 arg2 arg3 m)
  | Fcntl => returns_or_spins trap_frame (call_fcntl arg1 arg2 arg3 m)
  | KPipe => returns_zero trap_frame (call_pipe arg1 m)
  | Rename => returns_zero trap_frame (call_rename arg1 m)
  | Exit => let! s := sys_exit arg1 (sys m) in Ret (Ended, set_sys s m)
  | GetPid => let! n := sys_get_pid (sys m) in returns n trap_frame m
  | AllocBackBuffer => returns_zero trap_frame (call_back_buffer (in_screen e) arg1 m)
  | GraphicsFrameReady => returns 0 trap_frame (sys_frame_ready m)
  | Sleep => returns_zero trap_frame (call_sleep arg1 m)
  | Alloc => let! '(v, s) := proc_alloc arg1 (sys m) in returns v trap_frame (set_sys s m)
  | GetUnixTime => let! t := sys_get_unix_time e m in returns t trap_frame m
  end.

(** The next turn of a call, when its thread runs again. *)
Definition take_up (e : Inputs) (tf : TrapFrame) (r : Rest) m : outcome (CallResult * Mach) :=
  match r with
  | ReadMore file ptr len => returns_or_waits tf (finish_read file ptr len m)
  | WriteMore file w => returns_or_waits tf (finish_write (cmos_now e) file w m)
  | Spinning => syscall_handler e tf m
  | Unreachable => Panic
  end.
End Syscall.
