(* ===== verification/FileTypes.v ===== *)
(** * Descriptor tables are well typed

    Every descriptor of every process leads to an open file, and a file that is
    read and written as a pipe has a pipe for its inode.  Every turn of every
    system call keeps this, so the kernel's "expected pipe data" panics and
    dangling files cannot happen. *)
From S2P Require Import Prelude Text Memory Paging PagingMap UserMem UserStack Elf Isolation Slab Lock Thread ThreadInv Sched ThreadKeep Queue Pipe Proc Files Syscall.

Section FileTypes.
Context {A : Type} {FA : FrameAllocator A} {PA : PageApi A} {AA : AddrApi} {S : Type} {SL : Slab S} {SLL : SlabLaws S}
  {Q : Type} {AQ : ArrayQueue Z Q} {V FO : Type} {VO : VfsOps V FO} {LD : Layout DEntryMinimal} {LS : Layout Stat}.
Variable cfg : Config.
Abbreviation Mach := (Machine A S Q V FO) (only parsing).
Implicit Types (m : Mach) (s : System A S) (f : File FO).

(** The operations of a file fit its inode. *)
Definition file_typed m f : Prop :=
  match f_ops f, f_inode f with
  | PipeOps, PipeINode n => is_Some (pipes m !! n)
  | FsOps _, FsINode _ => True
  | _, _ => False
  end.

Record files_typed m : Prop := {
  ft_file a f : files m !! a = Some f -> a < next_file m /\ file_typed m f;
  ft_fd x q k a : pcbs (sys m) !! x = Some q -> slab_get k (fd q) = Some a -> is_Some (files m !! a)
}.

(** The calls on processes only copy descriptor tables. *)
Definition fd_from s s' : Prop :=
  forall x q, pcbs s' !! x = Some q -> exists y q0, pcbs s !! y = Some q0 /\ fd q = fd q0.

#[local] Instance fd_from_refl : Reflexive fd_from.
Proof. intros s x q Hq. by exists x, q. Qed.
#[local] Instance fd_from_trans : Transitive fd_from.
Proof. intros s1 s2 s3 H1 H2 x q Hq. destruct (H2 x q Hq) as (y & q1 & Hy & ->). exact (H1 y q1 Hy). Qed.

Lemma fd_from_same s s' : pcbs s' = pcbs s -> fd_from s s'.
Proof. intros E x q. rewrite E. by exists x, q. Qed.
Hint Resolve fd_from_same : core.

Lemma fd_from_write s x g : (forall q, fd (g q) = fd q) -> fd_from s (write_pcb x g s).
Proof.
  intros Hg y q Hq. cbn in Hq. rewrite lookup_alter in Hq. case_decide; [| by exists y, q].
  destruct (pcbs s !! x) as [q0|] eqn:E; [| done]. injection Hq as <-. by exists x, q0.
Qed.

(** ** The steps that calls are made of *)
Lemma typed_vfs m v : files_typed m -> files_typed (set_vfs v m).
Proof. intros [H1 H2]. by split. Qed.

Lemma typed_sys m s : files_typed m -> fd_from (sys m) s -> files_typed (set_sys s m).
Proof.
  intros [H1 H2] Hs. split; [exact H1 |]. intros x q k a Hq Hk. destruct (Hs x q Hq) as (y & q0 & Hy & E).
  apply (H2 y q0 k a Hy). by rewrite <- E.
Qed.

Lemma typed_write m a g :
  files_typed m -> (forall f, f_ops (g f) = f_ops f /\ f_inode (g f) = f_inode f) -> files_typed (write_file a g m).
Proof.
  intros [H1 H2] Hg. split.
  - intros b f Hf. cbn in Hf. rewrite lookup_alter in Hf. case_decide; [| by apply H1].
    subst. destruct (files m !! b) as [f0|] eqn:E; [| done]. injection Hf as <-.
    destruct (H1 b f0 E) as [? Ht]. split; [done |]. unfold file_typed in *. destruct (Hg f0) as [-> ->]. done.
  - intros x q k b Hq Hk. cbn. rewrite lookup_alter. destruct (H2 x q k b Hq Hk) as [f0 Hf0].
    case_decide; [subst |]; rewrite Hf0; eauto.
Qed.

Lemma typed_pipes m n node : files_typed m -> files_typed (set_pipes (<[n := node]> (pipes m)) m).
Proof.
  intros [H1 H2]. split; [| done]. intros a f Hf. destruct (H1 a f Hf) as [? Ht]. split; [done |].
  unfold file_typed in *. destruct (f_ops f), (f_inode f); try done. cbn. destruct (decide (n = inum)) as [-> | Hne].
  - rewrite lookup_insert_eq. eauto.
  - by rewrite lookup_insert_ne.
Qed.

Lemma typed_open m i flags o a m' :
  files_typed m -> file_typed m (mkFile i 0 flags o false) -> open_node i flags o m = (a, m') ->
  files_typed m' /\ is_Some (files m' !! a) /\ sys m' = sys m /\ pipes m' = pipes m.
Proof.
  intros [H1 H2] Ht [= <- <-]. split; [| split; [eexists; apply lookup_insert_eq | done]]. split.
  - intros b f Hf. cbn in Hf |- *. apply lookup_insert_Some in Hf as [[<- <-] | [Hne Hf]]; [split; [lia | done] |].
    destruct (H1 b f Hf). split; [lia | done].
  - intros x q k b Hq Hk. cbn. destruct (H2 x q k b Hq Hk) as [f Hf].
    destruct (decide (next_file m = b)) as [-> | Hne]; [rewrite lookup_insert_eq | rewrite lookup_insert_ne by done]; eauto.
Qed.

(** The table of the caller changes to one whose files are there. *)
Lemma typed_table m x p t m' :
  files_typed m -> curr_proc (sys m) = Ret (x, p) -> m' = set_sys (write_pcb x (set_fd t) (sys m)) m ->
  (forall k a, slab_get k t = Some a -> is_Some (files m !! a)) -> files_typed m'.
Proof.
  intros [H1 H2] Hc -> Ht. split; [exact H1 |]. intros y q k a Hq Hk. cbn in Hq. rewrite lookup_alter in Hq.
  case_decide; [| by apply (H2 y q k a)]. subst. destruct (pcbs (sys m) !! y) as [q0|]; [| done].
  injection Hq as <-. by apply (Ht k).
Qed.

(** A descriptor of the caller leads to a file. *)
Lemma curr_pcb s x p : curr_proc s = Ret (x, p) -> pcbs s !! x = Some p.
Proof.
  unfold curr_proc. intros H. run_inv H. run_inv H. run_inv H. injection H as <- <-.
  destruct (pcbs s !! v0); [| done]. by injection E1 as ->.
Qed.

Lemma typed_insert m a d m' :
  files_typed m -> is_Some (files m !! a) -> insert_fd a m = Ret (d, m') ->
  files_typed m' /\ files m' = files m /\ pipes m' = pipes m.
Proof.
  intros Hm Ha H. unfold insert_fd in H. run_inv H. destruct v as [x p].
  destruct (slab_insert a (fd p)) as [key t] eqn:Ei. injection H as <- <-. split; [| done].
  eapply (typed_table m x p t); try done. intros k b Hk.
  assert (t = snd (slab_insert a (fd p))) as -> by by rewrite Ei. rewrite slab_insert_get in Hk.
  case_decide; [injection Hk as <-; done |]. apply (ft_fd m Hm x p k b (curr_pcb _ _ _ E) Hk).
Qed.

Lemma typed_set_fd m g m' :
  files_typed m -> set_curr_fd g m = Ret m' ->
  (forall x p t k a, curr_proc (sys m) = Ret (x, p) -> g (fd p) = Ret t -> slab_get k t = Some a -> is_Some (files m !! a)) ->
  files_typed m'.
Proof.
  intros Hm H Hg. unfold set_curr_fd in H. run_inv H. destruct v as [x p]. run_inv H. injection H as <-.
  eapply (typed_table m x p v); try done. intros k a. by apply (Hg x p v).
Qed.

Lemma typed_slab_set m x p k a t :
  files_typed m -> curr_proc (sys m) = Ret (x, p) -> is_Some (files m !! a) -> slab_set k a (fd p) = Ret t ->
  forall j b, slab_get j t = Some b -> is_Some (files m !! b).
Proof.
  intros Hm Hc Ha Ht j b Hb. destruct (slab_get k (fd p)) as [w|] eqn:Hk; [| by rewrite slab_set_none in Ht].
  destruct (slab_set_some k a w (fd p) Hk) as (t' & E & Hg). assert (t' = t) as -> by congruence.
  rewrite Hg in Hb. case_decide; [by injection Hb as <- |]. by eapply ft_fd; [| apply curr_pcb |].
Qed.
(** ** Calls on processes and memory *)
Lemma write_user_from bs : forall va s s', write_user va bs s = Ret s' -> fd_from s s'.
Proof.
  induction bs as [|b bs IH]; intros va s s' H; cbn [write_user] in H; [by injection H as -> |].
  run_inv H. etransitivity; [| by eapply IH]. by apply fd_from_same.
Qed.

Lemma resume_from k s s' : resume_kern k s = Ret s' -> fd_from s s'.
Proof. unfold resume_kern. intros H. run_inv H. injection H as <-. by apply fd_from_same. Qed.

Lemma switch_from s s' : switch_space s = Ret s' -> fd_from s s'.
Proof.
  unfold switch_space, switch_space_to. intros H. run_inv H. destruct v as [[a|] k]; [run_inv H |];
    injection H as <-; by apply fd_from_same.
Qed.

Lemma fork_from n tf s r s' : fork cfg n tf s = Ret (r, s') -> fd_from s s'.
Proof.
  unfold fork, fork_enter. intros H. run_inv H. destruct v as [c s1]. injection H as _ <-. rename E into H.
  run_inv H. destruct v as [og p]. run_inv H. destruct v as [d [m a]]. injection H as _ <-.
  apply curr_pcb in E. cbn in E. intros x q Hq. cbn in Hq. rewrite lookup_alter in Hq.
  assert (Hn : forall q, <[child_pcb n := mkPCB (PID s) (pname p) (argv p) (cwd p) (fd p) d (Some (pid p)) []]> (pcbs s) !! x = Some q ->
    exists y q0, pcbs s !! y = Some q0 /\ fd q = fd q0).
  { intros q0 [[<- <-] | [_ ?]]%lookup_insert_Some; [by exists og, p | by exists x, q0]. }
  case_decide as Eo; [subst x | by apply Hn]. apply fmap_Some in Hq as (q0 & Hq & ->). by apply Hn in Hq.
Qed.

Lemma exec_from program args s tf s' : exec cfg program args s = Ret (tf, s') -> fd_from s s'.
Proof.
  unfold exec. intros H. run_inv H. run_inv H. destruct v0 as [d [m a]]. run_inv H. destruct v0 as [[args' rsp] m'].
  run_inv H. destruct v0 as [x p]. injection H as _ <-. 
  set (s1 := set_mem m' a s) in *. transitivity s1; [by apply fd_from_same |].
  transitivity (write_pcb x (fun q => mkPCB (pid q) program args' (cwd q) (fd q) d (parent q) (children q)) s1);
    [by apply fd_from_write | by apply fd_from_same].
Qed.

Lemma wait_from child s s' : wait_pid child s = Ret s' -> fd_from s s'.
Proof.
  unfold wait_pid. intros H. run_inv H. destruct (negb _); [by injection H as -> |].
  etransitivity; [| by eapply switch_from]. by apply fd_from_same.
Qed.

Lemma exit_from st s s' : sys_exit st s = Ret s' -> fd_from s s'.
Proof.
  unfold sys_exit, exit_enter. intros H. run_inv H. etransitivity; [| by eapply switch_from].
  run_inv E. run_inv E. destruct v1 as [a l]. run_inv E. run_inv E. injection E as <-. by apply fd_from_same.
Qed.

Lemma alloc_from size s r s' : proc_alloc size s = Ret (r, s') -> fd_from s s'.
Proof.
  unfold proc_alloc. intros H. run_inv H. destruct v as [x p]. run_inv H. destruct v as [[r0 d] [m a]]. injection H as _ <-.
  transitivity (set_mem m a s); [by apply fd_from_same | by apply fd_from_write].
Qed.

Lemma back_buffer_from screen s w s' : proc_back_buffer screen s = Ret (w, s') -> fd_from s s'.
Proof.
  unfold proc_back_buffer. intros H. run_inv H. destruct v as [x p]. run_inv H. destruct v as [[r0 d] [m a]]. injection H as _ <-.
  transitivity (set_mem m a s); [by apply fd_from_same | by apply fd_from_write].
Qed.
(** ** Calls on files *)
Lemma typed_user_write m va bs s : files_typed m -> write_user va bs (sys m) = Ret s -> files_typed (set_sys s m).
Proof. intros Hm H. apply typed_sys; [done |]. by eapply write_user_from. Qed.

Lemma typed_read_turn m a ptr len r m' : files_typed m -> read_turn a ptr len m = Ret (r, m') -> files_typed m'.
Proof.
  intros Hm H. unfold read_turn in H. run_inv H. run_inv H. run_inv H. destruct v1 as [[[k m1] data] r1].
  assert (Hm1 : files_typed m1).
  { destruct (f_ops v).
    - destruct (f_inode v) as [n|]; [| done]. run_inv E1. run_inv E1. destruct v2 as [[[k2 p2] b2] r2].
      injection E1 as <- <- <- <-. by apply typed_pipes.
    - destruct (f_inode v) as [|i]; [done |]. run_inv E1. destruct v1 as [[[k2 v2] d2] r2].
      injection E1 as <- <- <- <-. by apply typed_vfs. }
  run_inv H. run_inv H. assert (Hm2 : files_typed (set_sys v2 m1)).
  { apply typed_sys; [done |]. etransitivity; [by eapply write_user_from | by eapply resume_from]. }
  destruct r1; [| by injection H as <- <-]. run_inv H. injection H as <- <-. by apply typed_write.
Qed.

Lemma typed_meta m i md m' : files_typed m -> set_inode_meta i md m = Ret m' -> files_typed m'.
Proof.
  intros Hm H. unfold set_inode_meta in H. destruct i; run_inv H; injection H as <-; [by apply typed_pipes | by apply typed_vfs].
Qed.

Lemma typed_write_turn m now a w r w' m' : files_typed m -> write_turn now a w m = Ret (r, w', m') -> files_typed m'.
Proof.
  intros Hm H. unfold write_turn in H. run_inv H. run_inv H. run_inv H. destruct v1 as [[[k m1] w1] r1].
  assert (Hm1 : files_typed m1).
  { destruct (f_ops v), w as [c|bs]; try done.
    - destruct (f_inode v) as [n|]; [| done]. run_inv E1. run_inv E1. destruct v2 as [[[k2 p2] b2] r2].
      injection E1 as <- <- <- <-. by apply typed_pipes.
    - destruct (f_inode v) as [|i]; [done |]. run_inv E1. destruct v1 as [[k2 v2] d2].
      injection E1 as <- <- <- <-. by apply typed_vfs. }
  run_inv H. assert (Hm2 : files_typed (set_sys v1 m1)) by (apply typed_sys; [done | by eapply resume_from]).
  destruct r1; [| by injection H as <- <- <-]. run_inv H. run_inv H. run_inv H. injection H as <- <- <-.
  apply typed_write; [| done]. by eapply typed_meta.
Qed.

Lemma typed_open_call m addr flags r m' : files_typed m -> sys_open addr flags m = Ret (r, m') -> files_typed m'.
Proof.
  intros Hm H. unfold sys_open in H. run_inv H. run_inv H. destruct v0 as [x p]. run_inv H. destruct v0 as [d v0].
  run_inv H. apply (typed_vfs m v1) in Hm. destruct d as [d|]; [| by injection H as <- <-].
  run_inv H. run_inv H. destruct (open_node _ _ _ _) as [a m1] eqn:Eo.
  destruct (typed_open (set_vfs v1 m) (FsINode v2) flags (FsOps v3) a m1 Hm I Eo) as (Hm1 & Ha & _).
  run_inv H. destruct v4 as [e m2]. injection H as <- <-. by eapply typed_insert.
Qed.

Lemma typed_close m d m' : files_typed m -> sys_close d m = Ret m' -> files_typed m'.
Proof.
  intros Hm H. eapply typed_set_fd; [done | done |]. intros x p t k a Hc Ht Hk.
  destruct (slab_get (Z.to_nat d) (fd p)) as [w|] eqn:Hw; [| by rewrite slab_remove_none in Ht].
  destruct (slab_remove_some _ w (fd p) Hw) as (t' & E & Hg). assert (t' = t) as -> by congruence.
  rewrite Hg in Hk. case_decide; [done |]. by eapply ft_fd; [| apply curr_pcb |].
Qed.

Lemma typed_set m k a m' : files_typed m -> is_Some (files m !! a) -> set_curr_fd (slab_set k a) m = Ret m' -> files_typed m'.
Proof.
  intros Hm Ha H. eapply typed_set_fd; [done | done |]. intros x p t j b Hc Ht Hj. by eapply typed_slab_set.
Qed.

Lemma typed_dup m d r m' : files_typed m -> call_dup d m = Ret (r, m') -> files_typed m'.
Proof.
  intros Hm H. unfold call_dup in H. run_inv H. destruct v as [x p]. run_inv H. run_inv H. run_inv H. injection H as <- <-.
  eapply typed_set; [done | | done]. destruct (slab_get (Z.to_nat d) (fd p)) eqn:Hk; [| done]. injection E0 as ->.
  by eapply ft_fd; [| apply curr_pcb |].
Qed.

Lemma curr_fd_file m d a : files_typed m -> curr_fd d m = Ret a -> is_Some (files m !! a).
Proof.
  intros Hm H. unfold curr_fd in H. run_inv H. destruct v as [x p].
  destruct (slab_get (Z.to_nat d) (fd p)) eqn:Hk; [| done]. injection H as ->. by eapply ft_fd; [| apply curr_pcb |].
Qed.

Lemma typed_dup2 m d n r m' : files_typed m -> call_dup2 d n m = Ret (r, m') -> files_typed m'.
Proof.
  intros Hm H. unfold call_dup2 in H. destruct (d =? n); [by injection H as <- <- |].
  run_inv H. run_inv H. injection H as <- <-. eapply typed_set; [done | | done]. by eapply curr_fd_file.
Qed.

Lemma typed_pipe m ptr m' : files_typed m -> call_pipe ptr m = Ret m' -> files_typed m'.
Proof.
  intros Hm H. unfold call_pipe in H.
  set (n := PIPE_ID_COUNT m) in *. set (node := Build_PipeNode _ _) in *.
  set (m1 := set_pipes _ _) in H.
  assert (Hm1 : files_typed m1) by (destruct Hm; by apply typed_pipes).
  assert (Hp1 : is_Some (pipes m1 !! n)) by (eexists; apply lookup_insert_eq).
  destruct (open_node (PipeINode n) 0 PipeOps m1) as [wf m2] eqn:Ew.
  destruct (typed_open m1 (PipeINode n) 0 PipeOps _ _ Hm1 Hp1 Ew) as (Hm2 & Hw & Es2 & Ep2).
  destruct (open_node (PipeINode n) 0 PipeOps m2) as [rf m3] eqn:Er.
  assert (Hp2 : is_Some (pipes m2 !! n)) by by rewrite Ep2.
  destruct (typed_open m2 (PipeINode n) 0 PipeOps _ _ Hm2 Hp2 Er) as (Hm3 & Hr & Es3 & Ep3).
  run_inv H. destruct v as [rfd m4]. destruct (typed_insert _ _ _ _ Hm3 Hr E) as (Hm4 & Ef4 & _).
  run_inv H. destruct v as [wfd m5]. destruct (typed_insert m4 wf wfd m5 Hm4) as (Hm5 & _); [| exact E0 |].
  { rewrite Ef4. injection Ew as <- <-. injection Er as <- <-. cbn.
    rewrite lookup_insert_ne by lia. rewrite lookup_insert_eq. eauto. }
  run_inv H. run_inv H. injection H as <-. apply typed_sys; [done |].
  etransitivity; by eapply write_user_from.
Qed.

Lemma typed_with_file m d body r m' :
  files_typed m -> with_file d m body = Ret (r, m') ->
  (forall a f r m', body a f = Ret (r, m') -> files_typed m') -> files_typed m'.
Proof.
  intros Hm H Hb. unfold with_file in H. run_inv H. run_inv H. destruct (f_held v0); [by injection H as <- <- |]. eauto.
Qed.

Lemma typed_find_path m path d m' : files_typed m -> find_path path m = Ret (d, m') -> files_typed m'.
Proof.
  intros Hm H. unfold find_path in H. run_inv H. destruct v as [x p]. run_inv H. destruct v as [d0 v]. run_inv H.
  injection H as <- <-. by apply typed_vfs.
Qed.
Lemma typed_remove m op arg m' : files_typed m -> call_remove op arg m = Ret m' -> files_typed m'.
Proof.
  intros Hm H. unfold call_remove in H. run_inv H. run_inv H. destruct v0 as [d m1]. run_inv H. run_inv H. injection H as <-.
  apply typed_vfs. by eapply typed_find_path.
Qed.

Lemma typed_chdir m arg m' : files_typed m -> call_chdir arg m = Ret m' -> files_typed m'.
Proof.
  intros Hm H. unfold call_chdir in H. run_inv H. run_inv H. destruct v0 as [d m1]. run_inv H. destruct v0 as [x p].
  injection H as <-. apply typed_sys; [by eapply typed_find_path | by apply fd_from_write].
Qed.

Lemma typed_mkdir m arg m' : files_typed m -> call_mkdir arg m = Ret m' -> files_typed m'.
Proof.
  intros Hm H. unfold call_mkdir in H. run_inv H. run_inv H. destruct v0 as [d0 c]. run_inv H. destruct v0 as [d m1].
  run_inv H. run_inv H. injection H as <-. apply typed_vfs. by eapply typed_find_path.
Qed.

Lemma typed_rename m arg m' : files_typed m -> call_rename arg m = Ret m' -> files_typed m'.
Proof.
  intros Hm H. unfold call_rename in H. run_inv H. run_inv H. run_inv H. destruct v1 as [d m1]. run_inv H. run_inv H.
  injection H as <-. apply typed_vfs. by eapply typed_find_path.
Qed.

Lemma typed_getcwd m ptr len r m' : files_typed m -> call_getcwd ptr len m = Ret (r, m') -> files_typed m'.
Proof.
  intros Hm H. unfold call_getcwd in H. run_inv H. destruct v as [x p]. run_inv H. run_inv H. injection H as <- <-.
  by eapply typed_user_write.
Qed.

Lemma typed_fstat m d r m' : files_typed m -> call_fstat d m = Ret (r, m') -> files_typed m'.
Proof.
  intros Hm H. eapply typed_with_file; [done | exact H |]. intros a f r1 m1 Hb. cbv beta zeta in Hb. run_inv Hb. run_inv Hb. injection Hb as <- <-.
  by eapply typed_user_write.
Qed.

Lemma typed_getdents m d ptr n r m' : files_typed m -> call_getdents d ptr n m = Ret (r, m') -> files_typed m'.
Proof.
  intros Hm H. eapply typed_with_file; [done | exact H |]. intros a f r1 m1 Hb. cbv beta zeta in Hb. run_inv Hb. run_inv Hb. injection Hb as <- <-.
  by eapply typed_user_write.
Qed.

Lemma typed_lseek m d off r m' : files_typed m -> call_lseek d off m = Ret (r, m') -> files_typed m'.
Proof.
  intros Hm H. eapply typed_with_file; [done | exact H |]. intros a f r1 m1 Hb. cbv beta zeta in Hb. run_inv Hb. run_inv Hb. injection Hb as <- <-.
  by apply typed_write.
Qed.

Lemma typed_fcntl m d x y r m' : files_typed m -> call_fcntl d x y m = Ret (r, m') -> files_typed m'.
Proof.
  intros Hm H. unfold call_fcntl in H. run_inv H. eapply typed_with_file; [done | exact H |]. intros a f r1 m1 Hb. cbv beta zeta in Hb.
  destruct v; injection Hb as <- <-; [by apply typed_write | done].
Qed.

Lemma typed_ioctl m d x y r m' : files_typed m -> call_ioctl d x y m = Ret (r, m') -> files_typed m'.
Proof.
  intros Hm H. eapply typed_with_file; [done | exact H |]. intros a f r1 m1 Hb. cbv beta zeta in Hb.
  destruct (f_ops f); [by injection Hb as <- <- |]. run_inv Hb. injection Hb as <- <-. by apply typed_vfs.
Qed.

Lemma typed_finish_read m a ptr len r rest m' : files_typed m -> finish_read a ptr len m = Ret (r, rest, m') -> files_typed m'.
Proof.
  intros Hm H. unfold finish_read in H. run_inv H. destruct v as [o m1]. apply typed_read_turn in E; [| done].
  by destruct o; injection H as <- <- <-.
Qed.

Lemma typed_call_read m d ptr len r rest m' : files_typed m -> call_read d ptr len m = Ret (r, rest, m') -> files_typed m'.
Proof.
  intros Hm H. unfold call_read in H. run_inv H. run_inv H. destruct (f_held v0); [by injection H as <- <- <- |].
  eapply typed_finish_read; [| exact H]. by apply typed_write.
Qed.

Lemma typed_finish_write m now a w r rest m' : files_typed m -> finish_write now a w m = Ret (r, rest, m') -> files_typed m'.
Proof.
  intros Hm H. unfold finish_write in H. run_inv H. destruct v as [[o w1] m1]. apply typed_write_turn in E; [| done].
  by destruct o; injection H as <- <- <-.
Qed.

Lemma typed_call_write m now d ptr len r rest m' : files_typed m -> call_write now d ptr len m = Ret (r, rest, m') -> files_typed m'.
Proof.
  intros Hm H. unfold call_write in H. run_inv H. run_inv H. destruct (f_held v0); [by injection H as <- <- <- |].
  run_inv H. eapply typed_finish_write; [| exact H]. by apply typed_write.
Qed.

(** ** Results *)
Lemma returns_inv v tf m r m' : returns v tf m = Ret (r, m') -> m' = m.
Proof. by intros [= _ <-]. Qed.

Lemma typed_or_spins tf c r m' :
  returns_or_spins tf c = Ret (r, m') -> (forall v m1, c = Ret (v, m1) -> files_typed m1) -> files_typed m'.
Proof.
  intros H Hc. unfold returns_or_spins in H. run_inv H. destruct v as [v m1]. apply Hc in E.
  destruct v; injection H as <- <-; done.
Qed.
Lemma typed_or_waits tf c r m' :
  returns_or_waits tf c = Ret (r, m') -> (forall v rest m1, c = Ret (v, rest, m1) -> files_typed m1) -> files_typed m'.
Proof.
  intros H Hc. unfold returns_or_waits in H. run_inv H. destruct v as [[v rest] m1]. apply Hc in E.
  destruct v; [injection H as <- <-; done |]. destruct rest; [injection H as <- <-; done | done].
Qed.
Lemma typed_zero tf c r m' : returns_zero tf c = Ret (r, m') -> (forall m1, c = Ret m1 -> files_typed m1) -> files_typed m'.
Proof. intros H Hc. unfold returns_zero in H. run_inv H. apply returns_inv in H as ->. auto. Qed.
Lemma typed_value tf c r m' :
  returns_value tf c = Ret (r, m') -> (forall v m1, c = Ret (v, m1) -> files_typed m1) -> files_typed m'.
Proof. intros H Hc. unfold returns_value in H. run_inv H. destruct v as [v m1]. apply returns_inv in H as ->. eauto. Qed.

(** [wrapped W L]: the result is [W]'s, whose call is covered by [L]. *)
Ltac wrapped H W L := eapply W; [exact H | intros; eapply L; eassumption].

Lemma typed_sys_call m s (H : files_typed m) : fd_from (sys m) s -> forall v tf r m',
  returns v tf (set_sys s m) = Ret (r, m') -> files_typed m'.
Proof. intros Hs v tf r m' ->%returns_inv. by apply typed_sys. Qed.

Lemma typed_back_buffer m screen ptr m' : files_typed m -> call_back_buffer screen ptr m = Ret m' -> files_typed m'.
Proof.
  intros Hm E. unfold call_back_buffer in E. run_inv E. destruct v as [w s]. run_inv E. injection E as <-.
  apply typed_sys; [done |]. etransitivity; [by eapply back_buffer_from | by eapply write_user_from].
Qed.

Lemma typed_sleep m ms m' : files_typed m -> call_sleep ms m = Ret m' -> files_typed m'.
Proof.
  intros Hm E. unfold call_sleep in E. run_inv E. run_inv E. injection E as <-. apply typed_sys; [done | by eapply resume_from].
Qed.

Lemma typed_call e tf m r m' : files_typed m -> syscall_handler cfg e tf m = Ret (r, m') -> files_typed m'.
Proof.
  intros Hm H. unfold syscall_handler in H. run_inv H. destruct v.
  - run_inv H. destruct v as [o m1]. run_inv H. apply returns_inv in H as ->. by eapply typed_open_call.
  - wrapped H typed_zero typed_close.
  - wrapped H typed_or_waits typed_call_read.
  - wrapped H typed_or_waits typed_call_write.
  - wrapped H typed_or_spins typed_lseek.
  - wrapped H typed_zero typed_chdir.
  - wrapped H typed_value typed_getcwd.
  - wrapped H typed_zero typed_mkdir.
  - wrapped H typed_zero typed_remove.
  - wrapped H typed_or_spins typed_getdents.
  - wrapped H typed_or_spins typed_fstat.
  - wrapped H typed_zero typed_remove.
  - wrapped H typed_zero typed_rename.
  - wrapped H typed_value typed_dup.
  - wrapped H typed_value typed_dup2.
  - wrapped H typed_zero typed_pipe.
  - wrapped H typed_or_spins typed_ioctl.
  - wrapped H typed_or_spins typed_fcntl.
  - run_inv H. destruct v as [c s]. eapply typed_sys_call; [exact Hm | by eapply fork_from | exact H].
  - run_inv H. destruct v as [tf1 m1]. unfold call_exec in E0. run_inv E0. run_inv E0. run_inv E0.
    destruct v1 as [tf2 s]. injection E0 as <- <-. eapply typed_sys_call; [exact Hm | by eapply exec_from | exact H].
  - run_inv H. eapply typed_sys_call; [exact Hm | by eapply wait_from | exact H].
  - run_inv H. injection H as _ <-. unfold call_yield in E0. run_inv E0. run_inv E0. injection E0 as <-.
    apply typed_sys; [done | by eapply resume_from].
  - run_inv H. injection H as _ <-. apply typed_sys; [done | by eapply exit_from].
  - run_inv H. destruct v as [x s]. eapply typed_sys_call; [exact Hm | by eapply alloc_from | exact H].
  - run_inv H. by apply returns_inv in H as ->.
  - wrapped H typed_zero typed_back_buffer.
  - apply returns_inv in H as ->. apply typed_sys; [done |]. by apply fd_from_same.
  - wrapped H typed_zero typed_sleep.
  - run_inv H. by apply returns_inv in H as ->.
  - run_inv H. eapply typed_sys_call; [exact Hm | by eapply write_user_from | exact H].
Qed.

Lemma typed_setup m fds m' :
  files_typed m -> setup_fd m = Ret (fds, m') ->
  files_typed m' /\ sys m' = sys m /\ forall k a, slab_get k fds = Some a -> is_Some (files m' !! a).
Proof.
  intros Hm H. unfold setup_fd in H. run_inv H. destruct v as [t v]. run_inv H. run_inv H. run_inv H. run_inv H. run_inv H.
  apply (typed_vfs m v) in Hm. destruct (open_node _ _ _ _) as [a1 m1] eqn:E5 in H.
  destruct (typed_open _ (FsINode v1) 0 (FsOps v2) _ _ Hm I E5) as (Hm1 & Ha1 & Es1 & _).
  destruct (open_node _ _ _ _) as [a2 m2] eqn:E6 in H.
  destruct (typed_open _ (FsINode v1) 0 (FsOps v3) _ _ Hm1 I E6) as (Hm2 & Ha2 & Es2 & _).
  destruct (open_node _ _ _ _) as [a3 m3] eqn:E7 in H.
  destruct (typed_open _ (FsINode v1) 0 (FsOps v4) _ _ Hm2 I E7) as (Hm3 & Ha3 & Es3 & _).
  injection H as <- <-. split; [done |]. split; [by rewrite Es3, Es2, Es1 |]. intros k a Hk. rewrite slab_of_get in Hk.
  injection E5 as <- <-. injection E6 as <- <-. injection E7 as <- <-. cbn in Hk |- *.
  destruct k as [|[|[|k]]]; [| | | done]; injection Hk as <-; rewrite !lookup_insert; repeat case_decide; eauto; lia.
Qed.

Lemma typed_spawn m n program args m' : files_typed m -> spawn_process cfg n program args m = Ret m' -> files_typed m'.
Proof.
  intros Hm H. unfold spawn_process in H. run_inv H. run_inv H. destruct v0 as [fds m1].
  destruct (typed_setup m fds m1 Hm E0) as (Hm1 & Es & Hf). run_inv H. injection H as <-.
  unfold spawn_proc, spawn_enter in E1. run_inv E1.
  match goal with p : Z * System A S |- _ => destruct p as [pd s0] end. injection E1 as <-. rename E2 into E1. run_inv E1. run_inv E1.
  match goal with p : _ * _ * System A S |- _ => destruct p as [[pr th] s2] end. injection E1 as _ <-.
  unfold from_bytes in E3. run_inv E3.
  match goal with p : AddressSpace * _ |- _ => destruct p as [d [m2 a2]] end. run_inv E3.
  match goal with p : _ * _ * gmap _ _ |- _ => destruct p as [[args' rsp] m3] end.
  injection E3 as <- <- <-.
  destruct Hm1 as [H1 H2]. split; [exact H1 |]. intros x q k a Hq Hk. cbn in Hq.
  apply lookup_insert_Some in Hq as [[_ <-] | [_ Hq]]; [by apply (Hf k) | by apply (H2 x q k a)].
Qed.

(** ** Every reachable machine *)
Inductive file_step : Mach -> Mach -> Prop :=
| fs_spawn n program args m m' : spawn_process cfg n program args m = Ret m' -> file_step m m'
| fs_call e tf r m m' : syscall_handler cfg e tf m = Ret (r, m') -> file_step m m'
| fs_more e tf rest r m m' : take_up cfg e tf rest m = Ret (r, m') -> file_step m m'
| fs_other s m : pcbs s = pcbs (sys m) -> file_step m (set_sys s m).

Lemma file_step_typed m m' : file_step m m' -> files_typed m -> files_typed m'.
Proof.
  intros Hs Hm. destruct Hs as [n program args m m' E | e tf r m m' E | e tf rest r m m' E | s m E].
  - by eapply typed_spawn.
  - by eapply typed_call.
  - unfold take_up in E. destruct rest; [| | by eapply typed_call | done].
    + wrapped E typed_or_waits typed_finish_read.
    + wrapped E typed_or_waits typed_finish_write.
  - apply typed_sys; [done | by apply fd_from_same].
Qed.

(** [C14] From a machine without processes and files, through any sequence of
    process creations, system calls, turns of blocked calls, interrupts and user
    code, every descriptor of every process leads to an open file whose
    operations fit its inode: a file with pipe operations has a pipe. *)
Theorem descriptors_typed m0 m :
  files m0 = ∅ -> pcbs (sys m0) = ∅ -> rtc file_step m0 m ->
  forall x q k a, pcbs (sys m) !! x = Some q -> slab_get k (fd q) = Some a ->
    exists f, files m !! a = Some f /\ file_typed m f.
Proof.
  intros Hf Hp Hr. assert (H0 : files_typed m0) by (split; intros *; rewrite ?Hf, ?Hp, lookup_empty; done).
  assert (Hm : files_typed m) by (eapply (rtc_preserve _ files_typed); [apply file_step_typed | exact Hr | exact H0]).
  intros x q k a Hq Hk. destruct (ft_fd m Hm x q k a Hq Hk) as [f Hfa]. exists f. split; [done |]. by apply (ft_file m Hm a f).
Qed.
End FileTypes.
