(* ===== verification/FileCalls.v ===== *)
(** * Calls on descriptors

    What opening, closing, seeking, duplicating and setting flags do to the
    caller's descriptor table and to open files. *)
From S2P Require Import Prelude Text Memory Paging PagingMap UserMem UserStack Elf Isolation Slab Lock Thread ThreadInv Sched ThreadKeep Queue Pipe Proc Files Syscall FileTypes.

(** ** Flags *)
Lemma status_set flags st : 0 <= flags -> 0 <= st < 2 ^ 32 -> status (set_status flags st) = st.
Proof.
  intros Hf Hs. unfold status, set_status. apply Z.bits_inj'. intros i Hi.
  rewrite Z.shiftr_spec, Z.lor_spec, Z.land_spec, Z.shiftl_spec by lia.
  rewrite (Z.ones_spec_high 32 (i + 32)) by lia. rewrite andb_false_r. cbn [orb]. f_equal. lia.
Qed.

Lemma set_status_low flags st : 0 <= flags -> 0 <= st -> set_status flags st mod 2 ^ 32 = flags mod 2 ^ 32.
Proof.
  intros Hf Hs. unfold set_status. rewrite <- !Z.land_ones by lia. apply Z.bits_inj'. intros i Hi.
  rewrite !Z.land_spec, Z.lor_spec, Z.land_spec. destruct (Z.lt_ge_cases i 32).
  - rewrite Z.ones_spec_low, Z.shiftl_spec_low by lia. by rewrite !andb_true_r, orb_false_r.
  - by rewrite Z.ones_spec_high, !andb_false_r by lia.
Qed.

Lemma truncate_bounds bits : 0 <= bits -> 0 <= from_bits_truncate bits < 16.
Proof.
  intros H. unfold from_bits_truncate. change (Z.lor (Z.lor CREATE TRUNCATE) (Z.lor APPEND NONBLOCK)) with (Z.ones 4).
  rewrite Z.land_ones by lia. apply Z.mod_pos_bound. lia.
Qed.

(** ** Call numbers *)
Definition number_of (k : SysCallKind) : Z :=
  match k with
  | Open => 0 | Close => 1 | KRead => 2 | KWrite => 3 | Lseek => 4 | Ioctl => 5 | Fcntl => 6 | Chdir => 7 | Getcwd => 8
  | Mkdir => 9 | Rmdir => 10 | Getdents => 11 | Fstat => 12 | Delete => 13 | Rename => 14 | Dup => 15 | Dup2 => 16 | KPipe => 17
  | Fork => 18 | Yield => 19 | Exit => 20 | GetPid => 21 | Syscall.Sleep => 22 | Alloc => 23 | AllocBackBuffer => 24
  | GraphicsFrameReady => 25 | GetUnixTime => 26 | Uname => 27 | Exec => 28 | WaitPid => 29
  end.

Lemma kind_number k : kind_from (number_of k) = Ret k.
Proof. by destruct k. Qed.

Lemma number_kind n k : kind_from n = Ret k -> n = number_of k.
Proof.
  unfold kind_from. destruct n as [|q|q]; [by intros [= <-] | | done].
  do 5 (destruct q as [q|q|]; try (by intros [= <-]); try done).
Qed.

(** Each call has one number; a number that is none of theirs stops the kernel. *)
Theorem syscall_numbers n : (exists k, n = number_of k /\ kind_from n = Ret k) \/ kind_from n = Panic.
Proof.
  destruct (kind_from n) as [k| |] eqn:E; [left; exists k; split; [by apply number_kind | done] | by right |].
  exfalso. revert E. unfold kind_from. destruct n as [|q|q]; [done | | done].
  do 5 (destruct q as [q|q|]; try done).
Qed.

Section FileCalls.
Context {A : Type} {FA : FrameAllocator A} {PA : PageApi A} {AA : AddrApi} {S : Type} {SL : Slab S} {SLL : SlabLaws S}
  {Q : Type} {AQ : ArrayQueue Z Q} {V FO : Type} {VO : VfsOps V FO} {LD : Layout DEntryMinimal} {LS : Layout Stat}.
Abbreviation Mach := (Machine A S Q V FO) (only parsing).
Implicit Types (m : Mach) (p : ProcessControlBlock S).

(** ** The caller's table after a change *)
Lemma curr_proc_set (s : System A S) x p t : curr_proc s = Ret (x, p) -> curr_proc (write_pcb x (set_fd t) s) = Ret (x, set_fd t p).
Proof.
  intros H. pose proof (curr_pcb s x p H) as Hp. unfold curr_proc, curr_thread in *. run_inv H. run_inv H. run_inv H.
  injection H as <- <-. cbn [kern write_pcb set_pcbs]. rewrite E. cbn [obind]. rewrite E0. cbn [obind]. cbn [pcbs].
  unfold write_pcb. cbn [pcbs set_pcbs]. by rewrite lookup_alter_eq, Hp.
Qed.

Lemma insert_fd_spec m x p a :
  curr_proc (sys m) = Ret (x, p) ->
  exists t, let m' := set_sys (write_pcb x (set_fd t) (sys m)) m in
    insert_fd a m = Ret (Z.of_nat (slab_vacant_key (fd p)), m') /\ curr_proc (sys m') = Ret (x, set_fd t p) /\
    forall k, slab_get k t = if decide (k = slab_vacant_key (fd p)) then Some a else slab_get k (fd p).
Proof.
  intros Hc. exists (snd (slab_insert a (fd p))). cbn zeta. unfold insert_fd. rewrite Hc. cbn [obind].
  rewrite (surjective_pairing (slab_insert a (fd p))), slab_insert_key. split; [done |].
  split; [by apply curr_proc_set |]. apply slab_insert_get.
Qed.

(** Opening a path that resolves returns a descriptor that was not in use
    and makes a new file at position 0 with the flags given; every other
    descriptor and every open file is as it was.  Closing the descriptor puts
    the table back. *)
Theorem open_then_close m x p addr flags path d v i ops :
  curr_proc (sys m) = Ret (x, p) -> user_str addr (sys m) = Ret path ->
  v_find_dentry (cwd p) path (vfs m) = Ret (Some d, v) -> v_inode v d = Ret i -> i_open v i flags = Ret ops ->
  files m !! next_file m = None ->
  exists n m1 m2 p1 p2, sys_open addr flags m = Ret (Some (Z.of_nat n), m1) /\ sys_close (Z.of_nat n) m1 = Ret m2 /\
    slab_get n (fd p) = None /\ curr_proc (sys m1) = Ret (x, p1) /\ curr_proc (sys m2) = Ret (x, p2) /\
    slab_get n (fd p1) = Some (next_file m) /\
    files m1 !! next_file m = Some (mkFile (FsINode i) 0 flags (FsOps ops) false) /\
    (forall k, k <> n -> slab_get k (fd p1) = slab_get k (fd p)) /\
    (forall a f, files m !! a = Some f -> files m1 !! a = Some f) /\
    (forall k, slab_get k (fd p2) = slab_get k (fd p)).
Proof.
  intros Hc Hpath Hfind Hi Ho Hnew. unfold sys_open. rewrite Hpath. cbn [obind]. rewrite Hc. cbn [obind]. rewrite Hfind. cbn [obind].
  rewrite Hi. cbn [obind]. rewrite Ho. cbn [obind open_node new_file].
  set (m0 := set_next _ _). destruct (insert_fd_spec m0 x p (next_file (set_vfs v m)) Hc) as (t & E & Hc1 & Ht).
  rewrite E. cbn [obind]. set (m1 := set_sys _ m0) in *. set (n := slab_vacant_key (fd p)) in *.
  assert (Hn : slab_get n t = Some (next_file m)) by by rewrite Ht, decide_True.
  destruct (slab_remove_some n _ t Hn) as (t2 & E2 & Ht2).
  assert (Ec : sys_close (Z.of_nat n) m1 = Ret (set_sys (write_pcb x (set_fd t2) (sys m1)) m1)).
  { unfold sys_close, set_curr_fd. rewrite Hc1. cbn [obind fd set_fd]. rewrite Nat2Z.id, E2. done. }
  exists n, m1. eexists _, (set_fd t p), (set_fd t2 (set_fd t p)). split; [reflexivity |]. split; [exact Ec |].
  split; [apply slab_vacant |]. split; [done |]. split; [exact (curr_proc_set (sys m1) x _ t2 Hc1) |]. split; [done |].
  split; [apply lookup_insert_eq |]. split; [| split].
  - intros k Hk. cbn [fd set_fd]. by rewrite Ht, decide_False.
  - intros a f Hf. change (<[next_file m := mkFile (FsINode i) 0 flags (FsOps ops) false]> (files m) !! a = Some f).
    rewrite lookup_insert_ne; [done |]. intros <-. congruence.
  - intros k. cbn [fd set_fd]. rewrite Ht2, Ht. repeat case_decide; try done. subst. symmetry. apply slab_vacant.
Qed.

(** ** Positions and flags of a file that is not in use *)
Lemma with_file_free m x p d a f body :
  curr_proc (sys m) = Ret (x, p) -> slab_get (Z.to_nat d) (fd p) = Some a -> files m !! a = Some f -> f_held f = false ->
  with_file d m body = body a f.
Proof.
  intros Hc Hd Hf Hh. unfold with_file, curr_fd. rewrite Hc. cbn [obind]. rewrite Hd. cbn [unwrap obind].
  rewrite Hf. cbn [unwrap obind]. by rewrite Hh.
Qed.

(** Seeking moves the position of the open file forward by the offset, but
    never past the size of the file; nothing else changes.  A sum of position
    and offset that does not fit 64 bits panics. *)
Theorem lseek_bounded m x p d a f md off :
  curr_proc (sys m) = Ret (x, p) -> slab_get (Z.to_nat d) (fd p) = Some a ->
  files m !! a = Some f -> f_held f = false -> inode_meta (f_inode f) m = Ret md -> 0 <= f_pos f -> 0 <= off ->
  if decide (f_pos f + off < 2 ^ 64)
  then exists m' f', call_lseek d off m = Ret (Some 0, m') /\ files m' !! a = Some f' /\
    f_pos f' = Z.min (meta_size md) (f_pos f + off) /\ f_pos f' <= meta_size md /\
    f' = set_pos (f_pos f') f /\ (forall b, b <> a -> files m' !! b = files m !! b) /\ sys m' = sys m
  else call_lseek d off m = Panic.
Proof.
  intros Hc Hd Hf Hh Hmd H0 Hoff. unfold call_lseek. rewrite (with_file_free m x p d a f) by done. cbv beta. rewrite Hmd. cbn [obind].
  case_decide as Hs.
  - rewrite chk_u_ret by lia. cbn [obind]. eexists _, _. split; [reflexivity |].
    cbn [files write_file set_files]. rewrite lookup_alter_eq, Hf. split; [reflexivity |]. cbn.
    split; [done |]. split; [lia |]. split; [done |]. split; [| done]. intros b Hb. by rewrite lookup_alter_ne.
  - unfold chk_u. destruct (in_u 64 (f_pos f + off)) eqn:E; [| done]. apply in_u_spec in E. lia.
Qed.

(** Setting and getting flags: the four status bits are stored, the access mode
    is kept. *)
Theorem fcntl_roundtrip m x p d a f st :
  curr_proc (sys m) = Ret (x, p) -> slab_get (Z.to_nat d) (fd p) = Some a ->
  files m !! a = Some f -> f_held f = false -> 0 <= f_flags f -> 0 <= st ->
  exists m' g, call_fcntl d 2 st m = Ret (Some 0, m') /\ call_fcntl d 1 0 m' = Ret (Some g, m') /\
    status g = from_bits_truncate (wrap_u 32 st) /\ g mod 2 ^ 32 = f_flags f mod 2 ^ 32.
Proof.
  intros Hc Hd Hf Hh H0 Hst. unfold call_fcntl at 1. cbn [fcntl_command obind]. rewrite (with_file_free m x p d a f) by done.
  set (b := from_bits_truncate (wrap_u 32 st)). assert (Hb : 0 <= b < 16) by (apply truncate_bounds, wrap_u_range; lia).
  eexists _, _. split; [reflexivity |]. split.
  - unfold call_fcntl. cbn [fcntl_command obind].
    rewrite (with_file_free _ x p d a (file_set_status b f)); [reflexivity | done | done | | done].
    cbn [files write_file set_files]. by rewrite lookup_alter_eq, Hf.
  - cbn. split; [apply status_set; lia | apply set_status_low; lia].
Qed.

(** ** Duplicating *)
Lemma find_first (P : nat -> bool) n : P 0%nat = true -> find P (seq 0 (Datatypes.S n)) = Some 0%nat.
Proof. intros H. cbn. by rewrite H. Qed.

(** [dup] looks for the first descriptor that is in use: when the standard
    input is open it is the one that is replaced. *)
Theorem dup_replaces_stdin m x p d a b :
  curr_proc (sys m) = Ret (x, p) -> slab_get (Z.to_nat d) (fd p) = Some a -> slab_get 0 (fd p) = Some b ->
  exists m' p', call_dup d m = Ret (0, m') /\ curr_proc (sys m') = Ret (x, p') /\
    slab_get 0 (fd p') = Some a /\ forall k, k <> 0%nat -> slab_get k (fd p') = slab_get k (fd p).
Proof.
  intros Hc Hd H0. unfold call_dup. rewrite Hc. cbn [obind]. rewrite Hd. cbn [unwrap obind]. unfold MAX_FD.
  rewrite find_first by (unfold slab_contains; apply bool_decide_eq_true_2; eauto). cbn [unwrap obind].
  destruct (slab_set_some 0 a b (fd p) H0) as (t & E & Ht). unfold set_curr_fd. rewrite Hc. cbn [obind]. rewrite E. cbn [obind].
  eexists _, (set_fd t p). split; [reflexivity |]. split; [exact (curr_proc_set (sys m) x p t Hc) |].
  cbn [fd set_fd]. split; [by rewrite Ht, decide_True |]. intros k Hk. by rewrite Ht, decide_False.
Qed.
End FileCalls.
