(* ===== verification/PipeCalls.v ===== *)
(** * Pipes through system calls

    A process that writes to one descriptor of a pipe and reads from the other
    finds its bytes, in order, in its own memory: the calls, the descriptor
    table, the open files, the pipe, the wake-ups and the copies through the
    page table together. *)
From S2P Require Import Prelude Text Memory Paging PagingMap UserMem UserStack Elf Isolation Slab Lock Thread ThreadInv Sched ThreadKeep Queue Pipe Proc ProcInv ProcOps ProcSys Files UserCopy Syscall.

Section PipeCalls.
Context {A : Type} {FA : FrameAllocator A} {FL : FrameAllocatorLaws A} {PA : PageApi A} {PL : PageLaws A PA}
  {AA : AddrApi} {AL : AddrLaws PA AA} {S : Type} {SL : Slab S}
  {Q : Type} {AQ : ArrayQueue Z Q} {AQL : ArrayQueueLaws Z Q AQ} {V FO : Type} {VO : VfsOps V FO}
  {LD : Layout DEntryMinimal} {LS : Layout Stat}.
Variable cfg : Config.
Abbreviation Mach := (Machine A S Q V FO) (only parsing).
Implicit Types (s : System A S) (p : ProcessControlBlock S) (m : Mach).

(** ** Waking others does not disturb the caller *)
Record undisturbed s s' : Prop := {
  ud_inv : proc_inv cfg s';
  ud_call : may_call (kern s');
  ud_listed : all_listed s -> all_listed s';
  ud_curr : curr_proc s' = curr_proc s;
  ud_same : (pcbs s', PROC s', PID s', ram s', ALLOC s', CR3 s') = (pcbs s, PROC s, PID s, ram s, ALLOC s, CR3 s)
}.

Lemma undisturbed_trans s1 s2 s3 : undisturbed s1 s2 -> undisturbed s2 s3 -> undisturbed s1 s3.
Proof. intros [? ? ? C1 S1] [? ? ? C2 S2]. split; [done | done | auto | by rewrite C2, C1 | by rewrite S2, S1]. Qed.

Lemma proc_pids_ok s :
  proc_inv cfg s -> exists ids, proc_pids s = Ret ids /\
    (all_listed s -> Forall (fun i => exists a, find_thread (kern s) i = Some a) ids) /\
    forall x p, x ∈ PROC s -> pcbs s !! x = Some p -> pid p ∈ ids.
Proof.
  intros Hi. unfold proc_pids.
  assert (H : forall l, (forall x, x ∈ l -> x ∈ PROC s) -> exists ids, pids_of l s = Ret ids /\
    (all_listed s -> Forall (fun i => exists a, find_thread (kern s) i = Some a) ids) /\
    forall x p, x ∈ l -> pcbs s !! x = Some p -> pid p ∈ ids); [| by apply H].
  induction l as [|x l IH]; intros Hl; [exists []; by split_and!; [| | intros ? ? ?%elem_of_nil] |]. cbn [pids_of].
  destruct (pi_proc _ s Hi x) as (p & a & t & Hp & Ht & Hid & Hpt & _); [apply Hl, list_elem_of_here |].
  rewrite Hp. cbn [unwrap obind]. destruct IH as (ids & E & Hf & Hin); [intros y Hy; by apply Hl, list_elem_of_further |].
  rewrite E. exists (pid p :: ids). split; [done |]. split.
  - intros Hall. constructor; [| auto]. exists a. apply (find_thread_unique (kern s) (pid p) a t); [apply Hi | | done | done].
    apply (Hall x a t); [apply Hl, list_elem_of_here | done | done].
  - intros y q [-> | Hy]%elem_of_cons Hq; [assert (q = p) as -> by congruence; apply list_elem_of_here |].
    apply list_elem_of_further. eauto.
Qed.

(** While a process is in the table and its thread in no list, the wake-up of
    a pipe's sleepers, which looks up the thread of every process, panics. *)
Lemma sleepers_panic k waiting ids i :
  i ∈ ids -> find_thread k i = None -> sleepers k waiting ids = Panic.
Proof.
  intros Hi Hf. induction ids as [|j ids IH]; [by apply elem_of_nil in Hi |]. cbn [sleepers].
  destruct (decide (j = i)) as [-> | Hne]; [by rewrite Hf |].
  apply elem_of_cons in Hi as [? | Hi]; [done |]. destruct (find_thread k j) as [a|]; [| done]. cbn [unwrap obind].
  unfold read_tcb. destruct (store k !! a); [| done]. cbn [unwrap obind]. by rewrite (IH Hi).
Qed.

Theorem unlisted_wake_panics s a t n dir :
  proc_inv cfg s -> unlisted s a t ->
  exists ids, proc_pids s = Ret ids /\ wake_pipe_sleepers ids n dir (kern s) = Panic.
Proof.
  intros Hi (Ht & Hn & x & Hx & Hp). destruct (proc_pids_ok s Hi) as (ids & E & _ & Hids). exists ids. split; [done |].
  destruct (pi_thread _ s Hi a t x Ht Hp) as (p & Hpx & Hid & _).
  unfold wake_pipe_sleepers. rewrite (sleepers_panic _ _ ids (pid p)); [done | by apply (Hids x) |].
  destruct (find_thread (kern s) (pid p)) as [b|] eqn:Hf; [| done].
  destruct (find_in_spec _ _ _ _ Hf) as (Hb & tb & Htb & Hidb). destruct Hn.
  assert (a = b) as -> by (apply (proc_thread_id cfg s a b t tb x Hi Ht Hp (conj Hb Htb)); congruence). done.
Qed.

Lemma curr_proc_kern s k :
  evolves (kern s) k -> CURR_THREAD_PTR k = CURR_THREAD_PTR (kern s) -> proc_inv cfg s ->
  curr_proc (set_kern k s) = curr_proc s /\ resume_kern k s = Ret (set_kern k s).
Proof.
  intros Hev Hc Hi. unfold curr_proc, curr_thread, resume_kern, read_tcb. cbn [kern set_kern pcbs]. rewrite Hc.
  destruct (curr_live _ (inv_core _ (pi_sched _ s Hi)) _ (inv_curr _ (pi_sched _ s Hi))) as (t & Ht & _).
  destruct (ev_tcb Hev _ _ Ht) as (t' & Ht' & (_ & E2 & E3) & _). rewrite Ht, Ht'. cbn [unwrap obind]. rewrite E2, E3.
  split; [done |]. rewrite <- (pi_cr3 _ s Hi t Ht). by destruct s.
Qed.

Lemma wake_undisturbed s ids n dir :
  proc_inv cfg s -> may_call (kern s) -> Forall (fun i => exists a, find_thread (kern s) i = Some a) ids ->
  exists k, wake_pipe_sleepers ids n dir (kern s) = Ret k /\ resume_kern k s = Ret (set_kern k s) /\
    undisturbed s (set_kern k s).
Proof.
  intros Hi Hm Hids. pose proof (pi_sched _ s Hi) as Hs. pose proof (inv_core _ Hs) as Hco.
  destruct (wake_spec (kern s) (waits_on dir n) ids Hs Hids (waits_on_blocked dir n)) as (l & k & E & -> & Hk & Hth).
  unfold wake_pipe_sleepers. rewrite E. cbn [obind]. eexists. split; [reflexivity |].
  change (foldl (fun k i => unblock_task i k) ?x l) with (unblock_all l x).
  set (k := sched_unlock (unblock_all l (sched_lock (kern s)))) in *.
  assert (Hcu : CURR_THREAD_PTR k = CURR_THREAD_PTR (kern s)) by exact (unblock_all_curr l (sched_lock (kern s))).
  assert (Hev : evolves (kern s) k).
  { transitivity (sched_lock (kern s)); [auto with evolves |]. transitivity (unblock_all l (sched_lock (kern s))); [| auto with evolves].
    apply unblock_all_stays. apply Forall_forall. intros i Hl a t Ha Ht Hid [st Est].
    destruct (sleepers_spec (kern s) (waits_on dir n) ids Hco Hids) as (l' & E' & Hl'). assert (l' = l) as -> by congruence.
    apply Hl' in Hl as (b & tb & _ & Hb & Htb & Hidb & Hw).
    assert (a = b) as -> by (eapply (core_uniq _ _ _ _ Hco); eauto; congruence).
    change (store (sched_lock (kern s))) with (store (kern s)) in Ht. assert (tb = t) as -> by congruence.
    rewrite Est in Hw. by destruct dir. }
  destruct (curr_proc_kern s k Hev Hcu Hi) as [Hc Hr]. split; [done |]. split; [| | | done | done].
  - by apply kern_curr_inv.
  - change (kern (set_kern k s)) with k. intros t. rewrite Hcu. intros Hin Ht.
    rewrite (ev_threads Hev) in Hin. destruct (core_live _ _ _ _ Hco _ Hin) as (t0 & Ht0 & _).
    pose proof (Hm t0 Hin Ht0) as Hrun. specialize (Hth _ t0 Hin Ht0). rewrite Hrun in Hth.
    replace (waits_on dir n Running) with false in Hth by by destruct dir. rewrite andb_false_r in Hth. congruence.
  - intros Hall y a t Hy Ht Hpt. cbn [kern set_kern] in *. rewrite (ev_threads Hev).
    destruct (store (kern s) !! a) as [t0|] eqn:Ht0; [| by rewrite (ev_dom Hev a Ht0) in Ht].
    destruct (ev_tcb Hev a t0 Ht0) as (t1 & ? & (_ & E2 & _) & _). apply (Hall y a t0); [done | done | congruence].
Qed.

Lemma resume_idle s : proc_inv cfg s -> may_call (kern s) -> resume_kern (kern s) s = Ret s /\ undisturbed s s.
Proof.
  intros Hi Hm. destruct (curr_proc_kern s (kern s) (reflexivity _) eq_refl Hi) as [_ E].
  split; [| by split]. rewrite E. by destruct s.
Qed.

(** ** Turns on a pipe *)

(** One end of pipe [n]. *)
Record pipe_end (f : File FO) (n : Z) (held : bool) : Prop := {
  pe_ops : f_ops f = PipeOps;
  pe_inode : f_inode f = PipeINode n;
  pe_held : f_held f = held;
  pe_pos : 0 <= f_pos f < 2 ^ 63
}.

(** Pipe [n] holds [data]. *)
Definition pipe_holds m (n : Z) (data : list Z) : Prop :=
  exists node, pipes m !! n = Some node /\ aq_ok (pipe_buffer (pn_pipe node)) /\
    aq_capacity (pipe_buffer (pn_pipe node)) = 4096 /\ pipe_data (pn_pipe node) = data.

(** A call on the file at [a] of pipe [n] is over: the file is released, its
    position moved by [k], the pipe holds [data]. *)
Record call_done m (a n k : Z) (data : list Z) m' : Prop := {
  cd_sys : undisturbed (sys m) (sys m');
  cd_files : exists pos f, files m !! a = Some f /\ pos = f_pos f + k /\
    files m' = <[a := set_held false (set_pos pos f)]> (files m);
  cd_pipe : pipe_holds m' n data
}.

Lemma write_chunk m now a f n data chunk rest w :
  proc_inv cfg (sys m) -> all_listed (sys m) -> may_call (kern (sys m)) ->
  files m !! a = Some f -> pipe_end f n true -> pipe_holds m n data ->
  (length data + length chunk <= 4096)%nat ->
  exists m', write_turn now a (PipeChunks {| todo := chunk :: rest; bytes_write := w |}) m =
      Ret (None, PipeChunks {| todo := rest; bytes_write := w + Z.of_nat (length chunk) |}, m') /\
    undisturbed (sys m) (sys m') /\ files m' = files m /\ pipe_holds m' n (data ++ chunk).
Proof.
  intros Hi Hal Hm Hf [Ho Hin _ _] (node & Hn & Hq & Hcap & Hd) Hfit. unfold write_turn. rewrite Hf. cbn [unwrap obind].
  destruct (proc_pids_ok (sys m) Hi) as (ids & Eids & Hids & _). specialize (Hids Hal). rewrite Eids. cbn [obind]. rewrite Ho, Hin, Hn. cbn [unwrap obind].
  destruct (aq_len_law _ Hq) as [Hlen _]. fold (pipe_data (pn_pipe node)) in Hlen. rewrite Hd in Hlen.
  unfold pipe_write_turn. cbn [todo]. destruct (try_write (pn_pipe node) chunk) as [p'|] eqn:Et.
  2:{ unfold try_write in Et. destruct (Z.ltb_spec (aq_capacity (pipe_buffer (pn_pipe node)))
        (Z.of_nat (length chunk) + aq_len (pipe_buffer (pn_pipe node)))); [lia | done]. }
  destruct (try_write_spec _ _ _ Hq Et) as (Hq' & Hd' & Hc').
  destruct (wake_undisturbed (sys m) ids n Read Hi Hm Hids) as (k & Ek & Er & Hu). rewrite Ek. cbn [obind bytes_write].
  cbn [sys set_pipes]. rewrite Er. cbn [obind]. eexists. split; [reflexivity |]. split; [done |]. split; [done |].
  eexists. split; [apply lookup_insert_eq |]. cbn [pn_pipe]. split; [done |]. split; [congruence |]. by rewrite Hd', Hd.
Qed.

Lemma write_end m now a f n data w :
  proc_inv cfg (sys m) -> all_listed (sys m) -> may_call (kern (sys m)) ->
  files m !! a = Some f -> pipe_end f n true -> pipe_holds m n data -> 0 <= w < 2 ^ 63 ->
  exists m', write_turn now a (PipeChunks {| todo := []; bytes_write := w |}) m =
      Ret (Some w, PipeChunks {| todo := []; bytes_write := w |}, m') /\ call_done m a n w data m'.
Proof.
  intros Hi Hal Hm Hf [Ho Hin _ Hpos] (node & Hn & Hq & Hcap & Hd) Hw. unfold write_turn. rewrite Hf. cbn [unwrap obind].
  destruct (proc_pids_ok (sys m) Hi) as (ids & Eids & Hids & _). specialize (Hids Hal). rewrite Eids. cbn [obind]. rewrite Ho, Hin, Hn. cbn [unwrap obind].
  unfold pipe_write_turn. cbn [todo bytes_write obind sys set_pipes]. destruct (resume_idle (sys m) Hi Hm) as [Er Hu].
  rewrite Er. cbn [obind]. rewrite chk_u_ret by lia. cbn [obind inode_meta set_inode_meta pipes set_sys set_pipes].
  rewrite lookup_insert_eq. cbn [unwrap obind].
  eexists. split; [reflexivity |]. split.
  - done.
  - exists (f_pos f + w), f. split; [done |]. split; [done |]. exact (alter_insert_eq (files m) a f (fun f0 => set_held false (set_pos (f_pos f + w) f0)) Hf).
  - eexists. split; [apply lookup_insert_eq |]. cbn [pn_pipe]. done.
Qed.

(** ** Complete calls

    The thread runs on from turn to turn. *)
Inductive completes (e : Inputs) : CallResult * Mach -> TrapFrame -> Mach -> Prop :=
| call_returned tf m : completes e (Returned tf, m) tf m
| call_goes_on tf rest m r tf' m' :
    take_up cfg e tf rest m = Ret r -> completes e r tf' m' -> completes e (Waiting tf rest, m) tf' m'.

Lemma write_completes e tf a n : forall cs m f data w,
  proc_inv cfg (sys m) -> all_listed (sys m) -> may_call (kern (sys m)) ->
  files m !! a = Some f -> pipe_end f n true -> pipe_holds m n data ->
  (length data + length (concat cs) <= 4096)%nat -> 0 <= w -> w + Z.of_nat (length (concat cs)) < 2 ^ 63 ->
  exists r m', returns_or_waits tf (finish_write (cmos_now e) a (PipeChunks {| todo := cs; bytes_write := w |}) m) = Ret r /\
    completes e r (set_rax (w + Z.of_nat (length (concat cs))) tf) m' /\
    call_done m a n (w + Z.of_nat (length (concat cs))) (data ++ concat cs) m'.
Proof.
  induction cs as [|chunk cs IH]; intros m f data w Hi Hal Hm Hf Hp Hh Hfit Hw Hmax.
  - cbn [concat length] in *. rewrite Z.add_0_r in *. destruct (write_end m (cmos_now e) a f n data w) as (m' & E & Hd); try done.
    unfold finish_write. rewrite E. cbn [obind]. eexists _, m'. split; [reflexivity |]. split; [constructor |]. by rewrite app_nil_r.
  - cbn [concat] in *. rewrite length_app in *.
    destruct (write_chunk m (cmos_now e) a f n data chunk cs w) as (m1 & E & Hu & Ef & Hh1); try done; [lia |].
    destruct (IH m1 f (data ++ chunk) (w + Z.of_nat (length chunk))) as (r & m' & E' & Hc & [Hs Hfs Hpi]);
      [apply Hu | by apply Hu | apply Hu | by rewrite Ef | done | done | rewrite length_app; lia | lia | lia |].
    eexists _, m'. unfold finish_write at 1. rewrite E. cbn [obind]. split; [reflexivity |].
    replace (w + Z.of_nat (length chunk + length (concat cs)))
      with (w + Z.of_nat (length chunk) + Z.of_nat (length (concat cs))) by lia.
    split; [econstructor; [exact E' | done] |]. split; [by eapply undisturbed_trans | by rewrite <- Ef | by rewrite app_assoc].
Qed.

(** ** Reading *)
Lemma mapped_bytes_le s va n k : k <= n -> mapped_bytes s va n -> mapped_bytes s va k.
Proof. intros Hk (H0 & H1 & H2). split; [done |]. split; [lia |]. intros i Hi. apply H2. lia. Qed.

Lemma read_ready m x p a f n data ptr cap :
  proc_inv cfg (sys m) -> all_listed (sys m) -> may_call (kern (sys m)) -> curr_proc (sys m) = Ret (x, p) ->
  files m !! a = Some f -> pipe_end f n true -> pipe_holds m n data ->
  data <> [] -> Forall is_byte data -> Z.of_nat (length data) <= cap -> mapped_bytes (sys m) ptr cap ->
  let k := Z.of_nat (length data) in
  exists m', read_turn a ptr cap m = Ret (Some k, m') /\ proc_inv cfg (sys m') /\
    (exists s1, write_user ptr data (sys m) = Ret s1 /\ undisturbed s1 (sys m')) /\
    files m' = <[a := set_held false (set_pos (f_pos f + k) f)]> (files m) /\ pipe_holds m' n [].
Proof.
  intros Hi Hal Hm Hc Hf [Ho Hin _ Hpos] (node & Hn & Hq & Hcap & Hd) Hne Hb Hfit Hmap k. unfold read_turn. rewrite Hf. cbn [unwrap obind].
  destruct (proc_pids_ok (sys m) Hi) as (ids & Eids & Hids & _). specialize (Hids Hal). rewrite Eids. cbn [obind]. rewrite Ho, Hin, Hn. cbn [unwrap obind].
  unfold pipe_read_turn. rewrite aq_empty_law by done. fold (pipe_data (pn_pipe node)). rewrite Hd, bool_decide_eq_false_2 by done. cbn [negb].
  destruct (aq_len_law _ Hq) as [Hlen Hle]. fold (pipe_data (pn_pipe node)) in Hlen. rewrite Hd in Hlen.
  destruct (drain_spec (pipe_buffer (pn_pipe node)) (replicate (Z.to_nat cap) 0) Hq) as (q & E & Hq' & Hc' & Hl).
  fold (pipe_data (pn_pipe node)) in E, Hl. rewrite Hd, length_replicate in E, Hl. rewrite E. cbn [obind].
  replace (Nat.min (Z.to_nat cap) (length data)) with (length data) by lia. fold k.
  assert (Hk : 0 < k) by (unfold k; destruct data; [done | cbn; lia]).
  destruct (Z.ltb_spec 0 k) as [_|]; [| lia].
  destruct (write_user_ok cfg data ptr (sys m) x p Hi Hm Hc) as (s1 & Ew & Hi1 & _ & Es & _);
    [by apply (mapped_bytes_le _ _ cap) | done |]. injection Es as Ek1 Ep1 EP1 _ _ EC1.
  destruct (wake_undisturbed s1 ids n Write Hi1) as (kk & Ek & Er & Hu); [by rewrite Ek1 | by rewrite Ek1 |].
  rewrite <- Ek1, Ek. cbn [obind]. change (default 0 (Some k)) with k.
  replace (Z.to_nat k) with (length data) by (unfold k; lia). rewrite (take_ge data) by done. rewrite take_app_length.
  cbn [sys set_pipes]. rewrite Ew. cbn [obind]. rewrite Er. cbn [obind].
  rewrite chk_u_ret by (unfold k; lia). cbn [obind]. eexists. split; [reflexivity |]. split; [apply Hu |].
  split; [exists s1; by split |].
  split; [exact (alter_insert_eq (files m) a f (fun f0 => set_held false (set_pos (f_pos f + k) f0)) Hf) |].
  eexists. split; [apply lookup_insert_eq |]. cbn [pn_pipe set_buffer pipe_buffer]. split; [done |]. split; [congruence |].
  unfold pipe_data. cbn [pipe_buffer set_buffer]. rewrite Hl. apply drop_ge. lia.
Qed.

(** The frame of a call. *)
Definition call_frame (number a1 a2 a3 : Z) (tf : TrapFrame) : Prop :=
  tf_rax tf = number /\ tf_rdi tf = a1 /\ tf_rsi tf = a2 /\ tf_rdx tf = a3.

(** The two ends of a pipe among the caller's descriptors, not in use. *)
Record pipe_fds m p (w r aw ar n : Z) : Prop := {
  pf_w : slab_get (Z.to_nat w) (fd p) = Some aw;
  pf_r : slab_get (Z.to_nat r) (fd p) = Some ar;
  pf_ne : aw <> ar;
  pf_wf : exists f, files m !! aw = Some f /\ pipe_end f n false;
  pf_rf : exists f, files m !! ar = Some f /\ pipe_end f n false
}.

Lemma write_call_ok m x p e tf w r aw ar n data src bs :
  proc_inv cfg (sys m) -> all_listed (sys m) -> may_call (kern (sys m)) -> curr_proc (sys m) = Ret (x, p) ->
  pipe_fds m p w r aw ar n -> pipe_holds m n data ->
  (length data + length bs <= 4096)%nat ->
  (forall i b, bs !! i = Some b -> user_byte (ram (sys m)) (CR3 (sys m)) (src + Z.of_nat i) = Some b) ->
  call_frame 3 w src (Z.of_nat (length bs)) tf ->
  exists c m1, syscall_handler cfg e tf m = Ret c /\ completes e c (set_rax (Z.of_nat (length bs)) tf) m1 /\
    undisturbed (sys m) (sys m1) /\ pipe_holds m1 n (data ++ bs) /\ files m1 !! ar = files m !! ar.
Proof.
  intros Hi Hal Hm Hc [Hw Hr Hne (fw & Hfw & Pw) (fr & Hfr & Pr)] Hh Hfit Hsrc (E0 & E1 & E2 & E3).
  unfold syscall_handler. rewrite E0, E1, E2, E3. cbn [kind_from obind]. unfold call_write, curr_fd. rewrite Hc. cbn [obind].
  rewrite Hw. cbn [unwrap obind]. rewrite Hfw. cbn [unwrap obind]. rewrite (pe_held _ _ _ Pw), Nat2Z.id.
  rewrite (read_user_ok bs) by done. cbn [obind]. unfold start_write. rewrite (pe_ops _ _ _ Pw).
  destruct (chunks_of_spec (length bs) PIPE_BUF bs) as [Hcs _]; [unfold PIPE_BUF; lia | done |].
  set (m0 := write_file aw (set_held true) m).
  assert (Hf0 : files m0 = <[aw := set_held true fw]> (files m)) by by apply alter_insert_eq.
  destruct (write_completes e tf aw n (chunks PIPE_BUF bs) m0 (set_held true fw) data 0) as (c & m1 & Ec & Hcm & [Hs (pos & f & Hf & -> & Ef) Hp]);
    try done.
  { by rewrite Hf0, lookup_insert_eq. }
  { destruct Pw. by split. }
  { unfold chunks. rewrite Hcs. lia. }
  { unfold chunks. rewrite Hcs. lia. }
  rewrite Z.add_0_l in *. unfold chunks in Hcm, Ef, Hp. rewrite Hcs in Hcm, Ef, Hp.
  exists c, m1. split; [exact Ec |]. split; [done |]. split; [done |]. split; [done |].
  rewrite Hf0, lookup_insert_eq in Hf. injection Hf as <-. rewrite Hf0, insert_insert_eq in Ef. rewrite Ef. by rewrite lookup_insert_ne.
Qed.

Lemma read_call_ok m x p e tf r ar fr n data dst cap :
  proc_inv cfg (sys m) -> all_listed (sys m) -> may_call (kern (sys m)) -> curr_proc (sys m) = Ret (x, p) ->
  slab_get (Z.to_nat r) (fd p) = Some ar -> files m !! ar = Some fr -> pipe_end fr n false -> pipe_holds m n data ->
  data <> [] -> Forall is_byte data -> Z.of_nat (length data) <= cap -> mapped_bytes (sys m) dst cap ->
  call_frame 2 r dst cap tf ->
  exists c m2, syscall_handler cfg e tf m = Ret c /\ completes e c (set_rax (Z.of_nat (length data)) tf) m2 /\
    proc_inv cfg (sys m2) /\ others_same (sys m) (sys m2) x /\ pipe_holds m2 n [] /\
    forall va, user_addr va -> user_byte (ram (sys m2)) (CR3 (sys m2)) va =
      if decide (dst <= va < dst + Z.of_nat (length data)) then data !! Z.to_nat (va - dst)
      else user_byte (ram (sys m)) (CR3 (sys m)) va.
Proof.
  intros Hi Hal Hm Hc Hr Hfr Pr Hh Hne Hb Hfit Hmap (E0 & E1 & E2 & E3).
  unfold syscall_handler. rewrite E0, E1, E2, E3. cbn [kind_from obind]. unfold call_read, curr_fd. rewrite Hc. cbn [obind].
  rewrite Hr. cbn [unwrap obind]. rewrite Hfr. cbn [unwrap obind]. rewrite (pe_held _ _ _ Pr).
  set (m0 := write_file ar (set_held true) m).
  destruct (read_ready m0 x p ar (set_held true fr) n data dst cap) as (m2 & E & Hi2 & (s1 & Ew & Hu) & _ & Hp); try done.
  { change (files m0) with (alter (set_held true) ar (files m)). by rewrite lookup_alter_eq, Hfr. }
  { destruct Pr. by split. }
  unfold finish_read. rewrite E. cbn [obind]. eexists _, m2. split; [reflexivity |]. split; [constructor |]. split; [done |].
  destruct (write_user_ok cfg data dst (sys m) x p Hi Hm Hc) as (s1' & Ew' & _ & Ho & Es & Hrd);
    [by apply (mapped_bytes_le _ _ cap) | done |]. change (sys m0) with (sys m) in Ew. assert (s1' = s1) as -> by congruence.
  injection Es as _ _ _ _ _ EC. pose proof (ud_same _ _ Hu) as Es2. injection Es2 as Ep2 EP2 _ Er2 _ EC2.
  split; [| split; [done |]].
  - intros y q Hy Hny Hq. destruct (Ho y q Hy Hny Hq) as [? ?]. split; [by rewrite Ep2 | by rewrite Er2].
  - intros va Hva. rewrite Er2, EC2, EC. by apply Hrd.
Qed.

(** [C13] Through the system calls: a process that has both ends of a pipe
    writes the bytes at [src] to one descriptor and then reads the other into a
    buffer at [dst] with room for what the pipe holds.  Both calls return, with
    the number of bytes; the process finds what the pipe held followed by what
    it wrote at [dst], every other byte of its memory is as it was, the pipe is
    empty, and no other process sees a change.  The thread of every process in
    the table is in the scheduler's list: no fork or spawn is between its two
    updates, where the wake-up panics ([unlisted_wake_panics]). *)
Theorem pipe_carries_bytes m x p e tf tf' w r aw ar n data src bs dst cap :
  proc_inv cfg (sys m) -> all_listed (sys m) -> may_call (kern (sys m)) -> curr_proc (sys m) = Ret (x, p) ->
  pipe_fds m p w r aw ar n -> pipe_holds m n data ->
  bs <> [] -> (length data + length bs <= 4096)%nat -> Forall is_byte data -> Forall is_byte bs ->
  (forall i b, bs !! i = Some b -> user_byte (ram (sys m)) (CR3 (sys m)) (src + Z.of_nat i) = Some b) ->
  call_frame 3 w src (Z.of_nat (length bs)) tf ->
  mapped_bytes (sys m) dst cap -> Z.of_nat (length data + length bs) <= cap -> call_frame 2 r dst cap tf' ->
  exists c m1 c' m2,
    syscall_handler cfg e tf m = Ret c /\ completes e c (set_rax (Z.of_nat (length bs)) tf) m1 /\
    syscall_handler cfg e tf' m1 = Ret c' /\
    completes e c' (set_rax (Z.of_nat (length data + length bs)) tf') m2 /\
    proc_inv cfg (sys m2) /\ pipe_holds m2 n [] /\ others_same (sys m) (sys m2) x /\
    forall va, user_addr va -> user_byte (ram (sys m2)) (CR3 (sys m2)) va =
      if decide (dst <= va < dst + Z.of_nat (length data + length bs)) then (data ++ bs) !! Z.to_nat (va - dst)
      else user_byte (ram (sys m)) (CR3 (sys m)) va.
Proof.
  intros Hi Hal Hm Hc Hfd Hh Hne Hfit Hbd Hbb Hsrc Htf Hmap Hcap Htf'.
  destruct (write_call_ok m x p e tf w r aw ar n data src bs Hi Hal Hm Hc Hfd Hh Hfit Hsrc Htf) as (c & m1 & E & Hcm & [Hi1 Hm1 Hl1 Hc1 Hs1] & Hh1 & Hf1).
  injection Hs1 as Ep EP _ Er _ EC. destruct Hfd as [_ Hr _ _ (fr & Hfr & Pr)].
  destruct (read_call_ok m1 x p e tf' r ar fr n (data ++ bs) dst cap) as (c' & m2 & E' & Hcm' & Hi2 & Ho & Hp2 & Hrd);
    try done; [auto | congruence | congruence | by destruct data | by apply Forall_app | by rewrite length_app | |].
  { unfold mapped_bytes. by rewrite Er, EC. }
  rewrite length_app in *. exists c, m1, c', m2. split_and!; try done.
  - intros y q Hy Hny Hq. destruct (Ho y q) as [Hq2 Hv]; [by rewrite EP | done | by rewrite Ep |]. split; [done |]. by rewrite Er in Hv.
  - intros va Hva. rewrite Hrd, Er, EC by done. done.
Qed.
End PipeCalls.
