(* ===== verification/Devfs.v ===== *)
(** * The device file system

    [kernel/src/fs/vfs/devfs.rs] with the device handles of [console.rs] and
    [task/mouse.rs]: the inodes [mount_devfs] makes, the operations of its
    directory, and what each device does when its file is read and written.
    Together with path resolution they are an instance of [VfsOps], over a
    root file system without files. *)
From S2P Require Import Prelude Text Lock Thread ThreadInv Sched Queue Pipe Console Tty Random Ports Mouse Vfs Files.

(** The trait objects behind [Arc<dyn FileOps>]. *)
Inductive DeviceOps := Zero | Null | URandom | TtyDeviceHandle (tty_id : Z) | MouseDeviceHandle | SerialDeviceHandle.

(** A [BTreeMap] with names for keys: a list in the order of its keys. *)
Fixpoint name_le (x y : list Z) : bool :=
  match x, y with
  | [], _ => true
  | _ :: _, [] => false
  | a :: x, b :: y => (a <? b) || (a =? b) && name_le x y
  end.
Fixpoint bt_insert {T : Type} (k : list Z) (v : T) (l : list (list Z * T)) : list (list Z * T) :=
  match l with
  | [] => [(k, v)]
  | (k', v') :: l =>
      if bool_decide (k = k') then (k, v) :: l
      else if name_le k k' then (k, v) :: (k', v') :: l
      else (k', v') :: bt_insert k v l
  end.
Fixpoint bt_get {T : Type} (k : list Z) (l : list (list Z * T)) : option T :=
  match l with
  | [] => None
  | (k', v) :: l => if bool_decide (k = k') then Some v else bt_get k l
  end.

Inductive DevData := Device (major minor : Z) | DevFs (nodes : list (list Z * Z)).
Inductive DevOps := DeviceNode (ops : DeviceOps) | DevFsDir | EmptyRoot.
Record DevINode := { dn_inum : Z; dn_mode : NodeType; dn_data : DevData; dn_meta : FsMetadata; dn_ops : DevOps }.

Definition no_meta : FsMetadata := {| meta_size := 0; mtime := 0; dirty := false |}.
Definition device_node (inum : Z) (ops : DeviceOps) : DevINode :=
  {| dn_inum := inum; dn_mode := NtCharDevice; dn_data := Device inum 0; dn_meta := no_meta; dn_ops := DeviceNode ops |}.

Definition dev_zero : list Z := [122; 101; 114; 111].
Definition dev_null : list Z := [110; 117; 108; 108].
Definition dev_urandom : list Z := [117; 114; 97; 110; 100; 111; 109].
Definition dev_tty : list Z := [116; 116; 121; 49].
Definition dev_mouse : list Z := [109; 111; 117; 115; 101].
Definition dev_serial : list Z := [115; 101; 114; 105; 97; 108].

(** The inodes at the addresses [a] to [a + 6], the root last. *)
Definition devfs_nodes (a : Z) : gmap Z DevINode :=
  let devnode_map := bt_insert dev_zero a [] in
  let devnode_map := bt_insert dev_null (a + 1) devnode_map in
  let devnode_map := bt_insert dev_urandom (a + 2) devnode_map in
  let devnode_map := bt_insert dev_tty (a + 3) devnode_map in
  let devnode_map := bt_insert dev_mouse (a + 4) devnode_map in
  let devnode_map := bt_insert dev_serial (a + 5) devnode_map in
  <[a := device_node 1 Zero]> (<[a + 1 := device_node 2 Null]> (<[a + 2 := device_node 3 URandom]>
  (<[a + 3 := device_node 4 (TtyDeviceHandle 1)]> (<[a + 4 := device_node 5 MouseDeviceHandle]>
  (<[a + 5 := device_node 6 SerialDeviceHandle]>
  {[ a + 6 := {| dn_inum := 0; dn_mode := NtDirectory; dn_data := DevFs devnode_map; dn_meta := no_meta; dn_ops := DevFsDir |} ]}))))).

Section Devfs.
Context {Q : Type} {AQ : ArrayQueue Z Q} {P : Type} {AP : ArrayQueue GenericPs2Packet P}.

Record DevState := {
  dv_vfs : Vfs Z;
  dv_nodes : gmap Z DevINode;
  dv_rng : option RandomGenerator;
  dv_tty : TTY Q;
  dv_ps2 : Ps2 P Q;
  dv_serial : list Z
}.
Implicit Type v : DevState.

Definition set_dv_vfs (x : Vfs Z) v : DevState :=
  {| dv_vfs := x; dv_nodes := dv_nodes v; dv_rng := dv_rng v; dv_tty := dv_tty v; dv_ps2 := dv_ps2 v; dv_serial := dv_serial v |}.
Definition set_dv_nodes (x : gmap Z DevINode) v : DevState :=
  {| dv_vfs := dv_vfs v; dv_nodes := x; dv_rng := dv_rng v; dv_tty := dv_tty v; dv_ps2 := dv_ps2 v; dv_serial := dv_serial v |}.
Definition set_dv_rng (x : option RandomGenerator) v : DevState :=
  {| dv_vfs := dv_vfs v; dv_nodes := dv_nodes v; dv_rng := x; dv_tty := dv_tty v; dv_ps2 := dv_ps2 v; dv_serial := dv_serial v |}.
Definition set_dv_tty (x : TTY Q) v : DevState :=
  {| dv_vfs := dv_vfs v; dv_nodes := dv_nodes v; dv_rng := dv_rng v; dv_tty := x; dv_ps2 := dv_ps2 v; dv_serial := dv_serial v |}.
Definition set_dv_ps2 (x : Ps2 P Q) v : DevState :=
  {| dv_vfs := dv_vfs v; dv_nodes := dv_nodes v; dv_rng := dv_rng v; dv_tty := dv_tty v; dv_ps2 := x; dv_serial := dv_serial v |}.
Definition set_dv_serial (x : list Z) v : DevState :=
  {| dv_vfs := dv_vfs v; dv_nodes := dv_nodes v; dv_rng := dv_rng v; dv_tty := dv_tty v; dv_ps2 := dv_ps2 v; dv_serial := x |}.

(** ** Inode operations *)
Definition dev_lookup (nodes : gmap Z DevINode) (i : Z) (name : list Z) : outcome (option Z) :=
  let! n := unwrap (nodes !! i) in
  match dn_ops n with
  | DevFsDir => match dn_data n with DevFs map => Ret (bt_get name map) | Device _ _ => Panic end
  | DeviceNode _ | EmptyRoot => Ret None
  end.

(** [DEVICE_TABLE] is never initialised. *)
Definition dev_open v (i : Z) (_ : Z) : outcome DeviceOps :=
  let! n := unwrap (dv_nodes v !! i) in
  match dn_ops n with DeviceNode ops => Ret ops | DevFsDir | EmptyRoot => Panic end.

(** [name_buf[..copy_len].copy_from_slice(..)] *)
Definition name_buf (name : list Z) : list Z :=
  let copy_len := Nat.min (length name) 64 in take copy_len name ++ replicate (64 - copy_len) 0.

Fixpoint dev_entries (nodes : gmap Z DevINode) (l : list (list Z * Z)) : outcome (list DEntryMinimal) :=
  match l with
  | [] => Ret []
  | (name, i) :: l =>
      let! n := unwrap (nodes !! i) in
      let! more := dev_entries nodes l in
      Ret ({| de_name := name_buf name; de_inum := dn_inum n; de_filetype := NtCharDevice; de_size := meta_size (dn_meta n) |} :: more)
  end.
Definition dev_readdir v (i : Z) : outcome (list DEntryMinimal) :=
  let! n := unwrap (dv_nodes v !! i) in
  match dn_ops n with
  | DevFsDir => match dn_data n with DevFs map => dev_entries (dv_nodes v) map | Device _ _ => Panic end
  | DeviceNode _ | EmptyRoot => Ret []
  end.

Definition default_stat : Stat :=
  {| st_dev := 0; st_ino := 0; st_mode := NtCharDevice; st_rdev := 0; st_nlink := 0; st_size := 0;
     st_blksize := 0; st_blocks := 0; st_mtime := 0 |}.

(** ** File operations *)
Definition wake_tty_renderer (k : Kernel) : Kernel := locked_unblock 5 k.

Definition dev_read (o : DeviceOps) (len : nat) (k : Kernel) v : outcome (Kernel * DevState * list Z * option Z) :=
  let buffer := replicate len 0 in
  match o with
  | Zero => let '(b, n) := zero_read buffer in Ret (k, v, b, Some n)
  | Null => let '(_, n) := null_read buffer in Ret (k, v, [], Some n)
  | URandom => let! '(g, b, n) := urandom_read buffer (dv_rng v) in Ret (k, set_dv_rng g v, b, Some n)
  | TtyDeviceHandle _ =>
      let! '(t, k, b, r) := tty_read_turn (dv_tty v) k buffer in
      Ret (k, set_dv_tty t v, take (Z.to_nat (default 0 r)) b, r)
  | MouseDeviceHandle =>
      let! '(p, k, b, r) := mouse_read_turn (dv_ps2 v) k buffer in
      Ret (k, set_dv_ps2 p v, take (Z.to_nat (default 0 r)) b, r)
  | SerialDeviceHandle => Ret (k, v, [], Some 0)
  end.

Definition dev_write (o : DeviceOps) (buffer : list Z) (k : Kernel) v : outcome (Kernel * DevState * option Z) :=
  match o with
  | Zero => Ret (k, v, Some (zero_write buffer))
  | Null => Ret (k, v, Some (null_write buffer))
  | URandom => let '(g, n) := urandom_write buffer (dv_rng v) in Ret (k, set_dv_rng g v, Some n)
  | TtyDeviceHandle _ =>
      let string := if utf8_valid buffer then buffer else [] in
      let! '(t, n) := tty_write string (dv_tty v) in
      Ret (wake_tty_renderer k, set_dv_tty t v, Some n)
  | MouseDeviceHandle => Ret (k, v, Some 0)
  | SerialDeviceHandle =>
      if utf8_valid buffer then Ret (k, set_dv_serial (dv_serial v ++ buffer) v, Some (Z.of_nat (length buffer))) else Panic
  end.

(** ** All together *)
#[export] Instance dev_inode_ops (nodes : gmap Z DevINode) : INodeOps Z := {| i_lookup := dev_lookup nodes |}.

Definition dev_find (cwd : Z) (path : list Z) v : outcome (option Z * DevState) :=
  let! '(x, r) := find_dentry (OPS := dev_inode_ops (dv_nodes v)) (Z.to_nat (next_dent (dv_vfs v))) (dv_vfs v) cwd path in
  Ret (r, set_dv_vfs x v).

Definition dev_set_meta (i : Z) (md : FsMetadata) v : outcome DevState :=
  let! n := unwrap (dv_nodes v !! i) in
  Ret (set_dv_nodes (<[i := {| dn_inum := dn_inum n; dn_mode := dn_mode n; dn_data := dn_data n; dn_meta := md; dn_ops := dn_ops n |}]> (dv_nodes v)) v).

#[export] Instance dev_vfs_ops : VfsOps DevState DeviceOps := {|
  v_find_dentry := dev_find;
  v_inode v d := let! e := unwrap (dents (dv_vfs v) !! d) in Ret (d_inode e);
  v_full_path v d := full_path (Z.to_nat (next_dent (dv_vfs v))) (dv_vfs v) d;
  v_root v := get_root_dentry (dv_vfs v);
  i_open := dev_open;
  i_create_file _ _ v := Ret v;
  i_mkdir _ _ v := Ret v;
  i_rename _ _ v := Ret v;
  i_delete_file _ v := Ret v;
  i_rmdir _ v := Ret v;
  i_readdir := dev_readdir;
  i_stat _ _ := Ret default_stat;
  i_meta v i := let! n := unwrap (dv_nodes v !! i) in Ret (dn_meta n);
  i_set_meta := dev_set_meta;
  f_read _ o _ _ len st := dev_read o len (fst st) (snd st);
  f_write _ o _ _ bs st := dev_write o bs (fst st) (snd st);
  f_ioctl _ _ _ v := Ret v
|}.

(** [init_vfs]: the root, then [/dev]. *)
Definition empty_root : DevINode :=
  {| dn_inum := 0; dn_mode := NtDirectory; dn_data := Device 0 0; dn_meta := no_meta; dn_ops := EmptyRoot |}.
Definition dev_path : list Z := [47; 100; 101; 118].
Definition dev_boot (g : option RandomGenerator) (ps2 : Ps2 P Q) : DevState :=
  {| dv_vfs := mount dev_path 7 (mount [47] 0 {| dents := ∅; next_dent := 0; MOUNT_TABLE := ∅ |});
     dv_nodes := <[0 := empty_root]> (devfs_nodes 1);
     dv_rng := g; dv_tty := tty_new 1; dv_ps2 := ps2; dv_serial := [] |}.
End Devfs.
Arguments DevState : clear implicits.

(** ** The map of names *)
Lemma bt_insert_get {T} k k' (v : T) l : bt_get k' (bt_insert k v l) = if bool_decide (k' = k) then Some v else bt_get k' l.
Proof.
  induction l as [|[h w] l IH]; [done |]. cbn [bt_insert bt_get].
  destruct (bool_decide_reflect (k = h)); [| destruct (name_le k h)]; cbn [bt_get]; rewrite ?IH; repeat case_bool_decide; congruence.
Qed.

(** ** The devices at boot *)
Section Boot.
Context {Q : Type} {AQ : ArrayQueue Z Q} {P : Type} {AP : ArrayQueue GenericPs2Packet P}.
Implicit Types (v : DevState Q P).

(** What [find_dentry] and [open] give for a path from the root. *)
Definition open_device (path : list Z) v : outcome (option DeviceOps) :=
  let! '(d, v) := v_find_dentry 0 path v in
  match d with
  | None => Ret None
  | Some d => let! i := v_inode v d in let! o := i_open v i 0 in Ret (Some o)
  end.

Definition device_of (name : list Z) : option DeviceOps :=
  if bool_decide (name = dev_serial) then Some SerialDeviceHandle
  else if bool_decide (name = dev_mouse) then Some MouseDeviceHandle
  else if bool_decide (name = dev_tty) then Some (TtyDeviceHandle 1)
  else if bool_decide (name = dev_urandom) then Some URandom
  else if bool_decide (name = dev_null) then Some Null
  else if bool_decide (name = dev_zero) then Some Zero
  else None.

(** Any name looked up in the directory and opened is the device of that name. *)
Lemma devfs_names g (ps2 : Ps2 P Q) name :
  let v := dev_boot g ps2 in
  (let! i := dev_lookup (dv_nodes v) 7 name in
   match i with None => Ret None | Some i => let! o := dev_open v i 0 in Ret (Some o) end) = Ret (device_of name).
Proof.
  cbn zeta. unfold dev_lookup, device_of. change (dv_nodes (dev_boot g ps2)) with (<[0 := empty_root]> (devfs_nodes 1)).
  change (<[0 := empty_root]> (devfs_nodes 1) !! 7) with (devfs_nodes 1 !! 7).
  replace (devfs_nodes 1 !! 7) with (Some {| dn_inum := 0; dn_mode := NtDirectory; dn_data := DevFs
    (bt_insert dev_serial 6 (bt_insert dev_mouse 5 (bt_insert dev_tty 4 (bt_insert dev_urandom 3 (bt_insert dev_null 2 (bt_insert dev_zero 1 []))))));
    dn_meta := no_meta; dn_ops := DevFsDir |}) by reflexivity.
  cbn [unwrap obind dn_ops dn_data]. rewrite !bt_insert_get. cbn [bt_get].
  repeat case_bool_decide; reflexivity.
Qed.

(** The same by path, and the directory itself, which cannot be opened:
    [DevFsDir::open] takes its inode for a device's. *)
Lemma device_paths g (ps2 : Ps2 P Q) :
  let v := dev_boot g ps2 in
  Forall (fun name => open_device (dev_path ++ [47] ++ name) v = Ret (device_of name))
    [dev_zero; dev_null; dev_urandom; dev_tty; dev_mouse; dev_serial] /\
  open_device (dev_path ++ [47]) v = Panic.
Proof. split; [repeat constructor |]; vm_compute; reflexivity. Qed.
End Boot.
