(* ===== verification/Graphics.v ===== *)
(** * The screen

    [kernel/src/graphics.rs]: the back buffer, setting pixels, filling
    rectangles with one colour or a sequence of colours, scrolling, flushing;
    and the window a process draws in ([common/src/lib.rs]).  The rectangles
    of the embedded_graphics crate are a class with laws.  Filling draws the
    same picture as setting the pixels of the rectangle one by one. *)
From S2P Require Import Prelude Slices UserMem.

(** ** Rectangles *)
Record Point := mkPoint { px : Z; py : Z }.
Record Rectangle := mkRect { top_left : Point; rw : Z; rh : Z }.
#[export] Instance Point_eq_dec : EqDecision Point.
Proof. solve_decision. Defined.
#[export] Instance Rectangle_eq_dec : EqDecision Rectangle.
Proof. solve_decision. Defined.

(** [Rectangle]'s methods; ranges are pairs. *)
Class RectApi := {
  intersection : Rectangle -> Rectangle -> Rectangle;
  rcontains : Rectangle -> Point -> bool;
  points : Rectangle -> list Point;
  rows : Rectangle -> Z * Z;
  columns : Rectangle -> Z * Z
}.

Definition inside (r : Rectangle) (p : Point) : Prop :=
  px (top_left r) <= px p < px (top_left r) + rw r /\ py (top_left r) <= py p < py (top_left r) + rh r.
#[export] Instance inside_dec r p : Decision (inside r p).
Proof. unfold inside. apply _. Defined.

(** The points of a rectangle, row by row. *)
Definition row_points (x : Z) (w : Z) (y : Z) : list Point := (fun x => mkPoint x y) <$> seqZ x w.
Definition all_points (r : Rectangle) : list Point :=
  concat (row_points (px (top_left r)) (rw r) <$> seqZ (py (top_left r)) (rh r)).

(** Rectangles whose corners fit 32 bits. *)
Definition rect_ok (r : Rectangle) : Prop :=
  0 <= rw r /\ 0 <= rh r /\ - 2 ^ 31 <= px (top_left r) /\ px (top_left r) + rw r < 2 ^ 31 /\
  - 2 ^ 31 <= py (top_left r) /\ py (top_left r) + rh r < 2 ^ 31.

Class RectLaws (R : RectApi) : Prop := {
  contains_inside r p : rect_ok r -> rcontains r p = true <-> inside r p;
  points_in_order r : rect_ok r -> points r = all_points r;
  rows_range r : rect_ok r -> rows r = (py (top_left r), py (top_left r) + rh r);
  columns_range r : rect_ok r -> columns r = (px (top_left r), px (top_left r) + rw r);
  intersection_ok a b : rect_ok a -> rect_ok b -> rect_ok (intersection a b);
  intersection_inside a b p : rect_ok a -> rect_ok b -> inside (intersection a b) p <-> inside a p /\ inside b p;
  intersection_empty a b : rect_ok a -> rect_ok b ->
    rw (intersection a b) = 0 /\ rh (intersection a b) = 0 \/ 0 < rw (intersection a b) /\ 0 < rh (intersection a b)
}.

(** ** The screen *)
Record BootScreenInfo := {
  bi_width : Z; bi_height : Z; bi_bpp : Z; bi_bytes_per_pixel : Z; bi_bytes_per_line : Z; bi_screen_size : Z;
  bi_screen_size_dqwords : Z; bi_framebuffer : Z; bi_x : Z; bi_y : Z; bi_x_max : Z; bi_y_max : Z
}.
Record Screen := mkScreen { sc : ScreenSize; vesa_lfb : Z; back_lfb : list Z }.
Definition set_back (b : list Z) (s : Screen) : Screen := mkScreen (sc s) (vesa_lfb s) b.

Definition screen_new (info : BootScreenInfo) : outcome Screen :=
  let! n := chk_u 32 (bi_bytes_per_line info * bi_height info) in
  Ret (mkScreen {| width := bi_width info; height := bi_height info; bytes_per_pixel := bi_bytes_per_pixel info;
                   bytes_per_line := bi_bytes_per_line info |}
         (bi_framebuffer info) (replicate (Z.to_nat n) 0)).

(** [buffer_mut]: the length of the frame buffer. *)
Definition buffer_len (s : Screen) : outcome Z := chk_u 32 (bytes_per_line (sc s) * height (sc s)).

(** [flush]: [lfb] is the memory at [vesa_lfb]. *)
Definition flush (s : Screen) (lfb : list Z) : outcome (list Z) :=
  let! _ := buffer_len s in splice lfb 0 (back_lfb s).

(** Colours are the raw values of [Rgb565]. *)
Definition to_le_bytes (color : Z) : list Z := le_bytes 2 color.

Definition set_pixel_in (s : Screen) (p : Point) (color : Z) : outcome Screen :=
  if (px p <? 0) || (wrap_i 32 (width (sc s)) <=? px p) || (py p <? 0) || (wrap_i 32 (height (sc s)) <=? py p) then Ret s else
  let! line_offset := chk_u 32 (py p * bytes_per_line (sc s)) in
  let! x := chk_u 32 (px p * bytes_per_pixel (sc s)) in
  let! byte_offset := chk_u 32 (line_offset + x) in
  let! _ := ensure (byte_offset <=? Z.of_nat (length (back_lfb s))) in
  let! b0 := idx (to_le_bytes color) 0 in
  let! b1 := idx (to_le_bytes color) 1 in
  let! b := upd (back_lfb s) byte_offset b0 in
  let! b := upd b (byte_offset + 1) b1 in
  Ret (set_back b s).

Fixpoint draw_iter (s : Screen) (pixels : list (Point * Z)) : outcome Screen :=
  match pixels with
  | [] => Ret s
  | (coordinates, color) :: pixels => let! s := set_pixel_in s coordinates color in draw_iter s pixels
  end.

(** [copy_within(start.., 0)] on the buffer as 16-bit words. *)
Definition scroll (h : Z) (s : Screen) : outcome Screen :=
  let len := Z.of_nat (length (back_lfb s)) / 2 in
  let width_num_pixels := bytes_per_line (sc s) / 2 in
  let! start := chk_u 64 (width_num_pixels * h) in
  let! _ := ensure (start <=? len) in
  Ret (set_back (put (back_lfb s) 0 (get (back_lfb s) (Z.to_nat (2 * start)) (Z.to_nat (2 * (len - start))))) s).

(** [bf[offset..offset + width]] of the buffer as 16-bit words, with the first
    of them replaced by [ws]. *)
Definition put_u16s (b : list Z) (offset width : Z) (ws : list Z) : outcome (list Z) :=
  if offset + width <=? Z.of_nat (length b) / 2
  then Ret (put b (Z.to_nat (2 * offset)) (concat (to_le_bytes <$> ws))) else Panic.

Definition row_offset (s : Screen) (x y : Z) : outcome Z :=
  let! line := chk_u 32 (wrap_u 32 y * bytes_per_line (sc s)) in
  let! col := chk_u 32 (wrap_u 32 x * bytes_per_pixel (sc s)) in
  chk_u 32 (line / 2 + col / 2).

(** Filling row by row from a sequence of colours, of which each row takes as
    many as it is wide. *)
Fixpoint fill_rows (s : Screen) (x w : Z) (ys : list Z) (colors : list Z) : outcome Screen :=
  match ys with
  | [] => Ret s
  | y :: ys =>
      let! byte_offset := row_offset s x y in
      let! b := put_u16s (back_lfb s) byte_offset w (take (Z.to_nat w) colors) in
      fill_rows (set_back b s) x w ys (drop (Z.to_nat w) colors)
  end.

Fixpoint solid_rows (s : Screen) (x w : Z) (ys : list Z) (color : Z) : outcome Screen :=
  match ys with
  | [] => Ret s
  | y :: ys =>
      let! byte_offset := row_offset s x y in
      let! b := put_u16s (back_lfb s) byte_offset w (replicate (Z.to_nat w) color) in
      solid_rows (set_back b s) x w ys color
  end.

Section Drawing.
Context {R : RectApi}.

Definition bounding_box (s : Screen) : Rectangle := mkRect (mkPoint 0 0) (width (sc s)) (height (sc s)).
Definition range_list (r : Z * Z) : list Z := seqZ (fst r) (snd r - fst r).

Definition fill_contiguous (s : Screen) (area : Rectangle) (colors : list Z) : outcome Screen :=
  let drawable_area := intersection area (bounding_box s) in
  if bool_decide (rw drawable_area = 0 /\ rh drawable_area = 0) then Ret s else
  let colors_iter :=
    if bool_decide (drawable_area <> area)
    then snd <$> filter (fun pc => rcontains drawable_area (fst pc) = true) (zip (points area) colors)
    else snd <$> zip (points area) colors in
  fill_rows s (fst (columns drawable_area)) (rw drawable_area) (range_list (rows drawable_area)) colors_iter.

Definition fill_solid (s : Screen) (area : Rectangle) (color : Z) : outcome Screen :=
  let drawable_area := intersection area (bounding_box s) in
  if bool_decide (rw drawable_area = 0 /\ rh drawable_area = 0) then Ret s else
  solid_rows s (fst (columns drawable_area)) (rw drawable_area) (range_list (rows drawable_area)) color.
End Drawing.

(** [align_to_mut::<u16>] leaves out the first byte when the buffer starts at
    an odd address. *)
Definition clear (odd : bool) (color : Z) (s : Screen) : Screen :=
  let start := if odd then 1%nat else 0%nat in
  let n := ((length (back_lfb s) - start) / 2)%nat in
  set_back (put (back_lfb s) start (concat (to_le_bytes <$> replicate n color))) s.

(** [UserWindow::set_pixel_in]: the offset of the pixel in the window's memory;
    nothing is clipped, and a negative coordinate becomes a large one. *)
Definition window_offset (w : UserWindow) (p : Point) : outcome Z :=
  let! line_offset := chk_u 32 (wrap_u 32 (py p) * uw_bytes_per_line w) in
  let! x := chk_u 32 (wrap_u 32 (px p) * uw_bytes_per_pixel w) in
  chk_u 32 (line_offset + x).
Definition window_set_pixel (w : UserWindow) (mem : list Z) (p : Point) (color : Z) : outcome (list Z) :=
  let! byte_offset := window_offset w p in
  let! len := chk_u 32 (uw_bytes_per_line w * uw_height w) in
  let! _ := ensure (byte_offset <=? len) in
  let! b0 := idx (to_le_bytes color) 0 in
  let! b1 := idx (to_le_bytes color) 1 in
  let! mem := upd mem byte_offset b0 in
  upd mem (byte_offset + 1) b1.
(** [DrawTarget::draw_iter] for it *)
Fixpoint window_draw_iter (w : UserWindow) (mem : list Z) (pixels : list (Point * Z)) : outcome (list Z) :=
  match pixels with
  | [] => Ret mem
  | (coordinates, color) :: pixels =>
      let! mem := window_set_pixel w mem coordinates color in
      window_draw_iter w mem pixels
  end.

(** ** One pixel *)
Record screen_ok (s : Screen) : Prop := {
  so_width : 0 <= width (sc s) < 2 ^ 31;
  so_height : 0 <= height (sc s) < 2 ^ 31;
  so_pixel : bytes_per_pixel (sc s) = 2;
  so_even : bytes_per_line (sc s) mod 2 = 0;
  so_line : 2 * width (sc s) <= bytes_per_line (sc s);
  so_bytes : bytes_per_line (sc s) * height (sc s) < 2 ^ 32;
  so_len : Z.of_nat (length (back_lfb s)) = bytes_per_line (sc s) * height (sc s)
}.

Definition on_screen (s : Screen) (p : Point) : Prop := 0 <= px p < width (sc s) /\ 0 <= py p < height (sc s).
#[export] Instance on_screen_dec s p : Decision (on_screen s p).
Proof. unfold on_screen. apply _. Defined.

(** The first byte of a pixel, and its colour. *)
Definition at_pixel (s : Screen) (p : Point) : Z := py p * bytes_per_line (sc s) + 2 * px p.
Definition pixel (s : Screen) (p : Point) : Z := le_num (get (back_lfb s) (Z.to_nat (at_pixel s p)) 2).

Lemma at_pixel_bound s p n : screen_ok s -> on_screen s p -> px p + n <= width (sc s) ->
  0 <= at_pixel s p /\ at_pixel s p + 2 * n <= bytes_per_line (sc s) * height (sc s).
Proof. intros [] [Hx Hy] Hn. unfold at_pixel. nia. Qed.

Lemma to_le_bytes_eq c : to_le_bytes c = [c mod 256; c / 256 mod 256].
Proof. reflexivity. Qed.

Lemma put_two (l : list Z) a x y :
  0 <= a -> a + 2 <= Z.of_nat (length l) ->
  (let! l := upd l a x in upd l (a + 1) y) = Ret (put l (Z.to_nat a) [x; y]).
Proof.
  intros H0 H1. rewrite upd_ret by lia. cbn [obind]. rewrite upd_ret by (rewrite length_insert; lia).
  f_equal. replace (Z.to_nat (a + 1)) with (S (Z.to_nat a)) by lia.
  apply list_eq_same_length with (length l); [rewrite length_put; simpl; lia | by rewrite !length_insert |].
  intros i u v Hi. rewrite list_lookup_insert, list_lookup_insert.
  destruct (decide (Z.to_nat a <= i < Z.to_nat a + 2)%nat).
  - rewrite lookup_put_in by (simpl; lia). rewrite length_insert.
    destruct (decide (i = Z.to_nat a)) as [->|]; [| assert (i = S (Z.to_nat a)) as -> by lia].
    + rewrite Nat.sub_diag. rewrite decide_False, decide_True by lia. simpl. congruence.
    + rewrite decide_True by lia. replace (S (Z.to_nat a) - Z.to_nat a)%nat with 1%nat by lia. simpl. congruence.
  - rewrite lookup_put_out by (simpl; lia). rewrite !decide_False by lia. congruence.
Qed.

Lemma set_pixel_on s p c : screen_ok s -> on_screen s p ->
  set_pixel_in s p c = Ret (set_back (put (back_lfb s) (Z.to_nat (at_pixel s p)) (to_le_bytes c)) s).
Proof.
  intros Hs Hp. destruct (at_pixel_bound s p 1 Hs Hp) as [H0 H1]; [destruct Hp; lia |].
  destruct Hs, Hp. unfold set_pixel_in. rewrite !wrap_i_small by lia.
  rewrite (proj2 (Z.ltb_ge (px p) 0)), (proj2 (Z.leb_gt _ (px p))), (proj2 (Z.ltb_ge (py p) 0)), (proj2 (Z.leb_gt _ (py p))) by lia.
  cbn [orb]. rewrite so_pixel0. unfold at_pixel in *.
  rewrite chk_u_ret by nia. cbn [obind]. rewrite chk_u_ret by nia. cbn [obind]. rewrite chk_u_ret by nia. cbn [obind].
  rewrite (proj2 (Z.leb_le _ _)) by lia. cbn [ensure obind idx to_le_bytes]. rewrite to_le_bytes_eq. cbn [idx obind Z.to_nat].
  replace (px p * 2) with (2 * px p) by lia.
  transitivity (let! b := (let! b := upd (back_lfb s) (py p * bytes_per_line (sc s) + 2 * px p) (c mod 256) in
    upd b (py p * bytes_per_line (sc s) + 2 * px p + 1) (c / 256 mod 256)) in Ret (set_back b s)).
  - change (idx [c mod 256; c / 256 mod 256] 0) with (Ret (c mod 256)).
    change (idx [c mod 256; c / 256 mod 256] 1) with (Ret (c / 256 mod 256)). cbn [obind].
    by destruct (upd (back_lfb s) _ _).
  - by rewrite put_two by lia.
Qed.

Lemma set_pixel_off s p c : screen_ok s -> ~ on_screen s p -> set_pixel_in s p c = Ret s.
Proof.
  intros [] Hp. unfold set_pixel_in. rewrite !wrap_i_small by lia.
  destruct (Z.ltb_spec (px p) 0); [done |]. destruct (Z.leb_spec (width (sc s)) (px p)); [done |].
  destruct (Z.ltb_spec (py p) 0); [done |]. destruct (Z.leb_spec (height (sc s)) (py p)); [done |].
  destruct Hp. split; lia.
Qed.

Lemma set_back_ok s b : screen_ok s -> length b = length (back_lfb s) -> screen_ok (set_back b s).
Proof. intros [] H. split; simpl; try done. by rewrite H. Qed.

Lemma set_pixel_ok s p c : screen_ok s -> exists s', set_pixel_in s p c = Ret s' /\ screen_ok s' /\ sc s' = sc s.
Proof.
  intros Hs. destruct (decide (on_screen s p)) as [Hp|Hp].
  - rewrite set_pixel_on by done. eexists. split; [done |]. split; [| done]. apply set_back_ok; [done |].
    apply length_put. destruct (at_pixel_bound s p 1 Hs Hp) as [H0 H1]; [destruct Hp; lia |]. destruct Hs. simpl. lia.
  - rewrite set_pixel_off by done. eauto.
Qed.

(** ** Sequences of pixels *)
Lemma draw_iter_ok l : forall s, screen_ok s -> exists s', draw_iter s l = Ret s' /\ screen_ok s' /\ sc s' = sc s.
Proof.
  induction l as [|[p c] l IH]; intros s Hs; [by exists s |].
  destruct (set_pixel_ok s p c Hs) as (s1 & E & Hs1 & Hc). simpl. rewrite E. cbn [obind].
  destruct (IH s1 Hs1) as (s2 & E2 & Hs2 & Hc2). exists s2. split; [done |]. split; [done |]. congruence.
Qed.

Lemma draw_iter_app l l' s : draw_iter s (l ++ l') = let! s := draw_iter s l in draw_iter s l'.
Proof. revert s. induction l as [|[p c] l IH]; intros s; [done |]. simpl. destruct (set_pixel_in s p c); simpl; auto. Qed.

(** Pixels outside the screen can be left out. *)
Lemma draw_iter_clip l : forall s, screen_ok s -> draw_iter s l = draw_iter s (filter (fun pc => on_screen s (fst pc)) l).
Proof.
  induction l as [|[p c] l IH]; intros s Hs; [done |]. rewrite filter_cons. simpl. case_decide as Hp.
  - destruct (set_pixel_ok s p c Hs) as (s1 & E & Hs1 & Hc). simpl. rewrite E. simpl. rewrite IH by done.
    f_equal. apply list_filter_iff. intros pc. unfold on_screen. by rewrite Hc.
  - rewrite set_pixel_off by done. by apply IH.
Qed.

Lemma length_words ws : length (concat (to_le_bytes <$> ws)) = (2 * length ws)%nat.
Proof. induction ws as [|z l IH]; [done |]. cbn [fmap list_fmap concat]. rewrite length_app, IH. simpl. lia. Qed.

(** Consecutive pixels of a row are one write. *)
Lemma draw_row w : forall s x y cs, screen_ok s -> on_screen s (mkPoint x y) -> (0 < w)%nat -> x + Z.of_nat w <= width (sc s) ->
  draw_iter s (zip (row_points x (Z.of_nat w) y) cs)
  = Ret (set_back (put (back_lfb s) (Z.to_nat (at_pixel s (mkPoint x y))) (concat (to_le_bytes <$> take w cs))) s).
Proof.
  induction w as [|w IH]; intros s x y cs Hs Hp Hw Hx; [lia |].
  destruct cs as [|c cs].
  { rewrite zip_with_nil_r. simpl. rewrite put_nil. by destruct s. }
  unfold row_points. rewrite seqZ_cons by lia. cbn [fmap list_fmap zip zip_with draw_iter].
  rewrite set_pixel_on by done. cbn [obind]. replace (Z.pred (Z.of_nat (S w))) with (Z.of_nat w) by lia.
  destruct (at_pixel_bound s (mkPoint x y) (Z.of_nat (S w)) Hs Hp Hx) as [H0 H1]. pose proof (so_len s Hs) as Hl.
  set (s1 := set_back _ s). assert (Hs1 : screen_ok s1) by (apply set_back_ok; [done | apply length_put; simpl; lia]).
  destruct (decide (w = 0%nat)) as [->|Hw0].
  { reflexivity. }
  change (draw_iter s1 (zip (row_points (Z.succ x) (Z.of_nat w) y) cs) = Ret (set_back (put (back_lfb s)
    (Z.to_nat (at_pixel s (mkPoint x y))) (to_le_bytes c ++ concat (to_le_bytes <$> take w cs))) s)).
  rewrite IH; [| done | unfold on_screen in *; simpl in *; lia | lia | simpl; lia].
  rewrite <- put_put_app.
  - f_equal. unfold set_back. simpl. f_equal. f_equal. change (at_pixel s1 (mkPoint (Z.succ x) y)) with (y * bytes_per_line (sc s) + 2 * Z.succ x).
    unfold at_pixel in *. simpl in *. lia.
  - rewrite length_words, length_take. simpl. lia.
Qed.

(** ** Rectangles inside one another *)
Lemma filter_none {T} (P : T -> Prop) {D : forall x, Decision (P x)} (l : list T) : (forall x, x ∈ l -> ~ P x) -> filter P l = [].
Proof. intros H. induction l as [|x l IH]; [done |]. rewrite filter_cons_False by set_solver. apply IH. set_solver. Qed.
Lemma filter_all {T} (P : T -> Prop) {D : forall x, Decision (P x)} (l : list T) : (forall x, x ∈ l -> P x) -> filter P l = l.
Proof. intros H. induction l as [|x l IH]; [done |]. rewrite filter_cons_True by set_solver. f_equal. apply IH. set_solver. Qed.
Lemma filter_iff_in {T} (P P' : T -> Prop) {D : forall x, Decision (P x)} {D' : forall x, Decision (P' x)} (l : list T) :
  (forall x, x ∈ l -> P x <-> P' x) -> filter P l = filter P' l.
Proof.
  intros H. induction l as [|x l IH]; [done |]. pose proof (H x (list_elem_of_here x l)).
  rewrite !filter_cons, IH by (intros z Hz; apply H, list_elem_of_further, Hz). repeat case_decide; tauto.
Qed.
Lemma filter_concat {T} (P : T -> Prop) {D : forall x, Decision (P x)} (ls : list (list T)) : filter P (concat ls) = concat (filter P <$> ls).
Proof. induction ls as [|l ls IH]; [done |]. simpl. by rewrite filter_app, IH. Qed.
Lemma filter_zip {T U} (P : T -> Prop) {D : forall x, Decision (P x)} (l : list T) : forall (k : list U),
  filter (fun tu => P (fst tu)) (zip l k) = zip (filter P l) (snd <$> filter (fun tu => P (fst tu)) (zip l k)).
Proof.
  induction l as [|x l IH]; intros [|y k]; [done | done | symmetry; apply zip_with_nil_r |].
  cbn [zip zip_with]. rewrite !filter_cons. cbn [fst]. case_decide; [| apply IH]. cbn. f_equal. apply IH.
Qed.

(** A range that contains another, in three parts. *)
Lemma seqZ_split a n b k : a <= b -> 0 <= k -> b + k <= a + n -> seqZ a n = seqZ a (b - a) ++ seqZ b k ++ seqZ (b + k) (a + n - (b + k)).
Proof.
  intros. replace n with ((b - a) + (k + (a + n - (b + k)))) at 1 by lia. rewrite seqZ_app by lia.
  replace (a + (b - a)) with b by lia. by rewrite seqZ_app by lia.
Qed.

Lemma filter_row d x w y :
  x <= px (top_left d) -> 0 <= rw d -> px (top_left d) + rw d <= x + w ->
  filter (inside d) (row_points x w y) =
  if decide (py (top_left d) <= y < py (top_left d) + rh d) then row_points (px (top_left d)) (rw d) y else [].
Proof.
  intros H0 Hk H1. unfold row_points. case_decide as Hy.
  - rewrite (seqZ_split x w (px (top_left d)) (rw d)) by lia. rewrite !fmap_app, !filter_app.
    rewrite (filter_none (inside d) (_ <$> seqZ x _)), (filter_all (inside d)), filter_none; [by rewrite app_nil_r | ..];
      intros p (z & -> & Hz)%list_elem_of_fmap; apply elem_of_seqZ in Hz; unfold inside; simpl; lia.
  - apply filter_none. intros p (z & -> & Hz)%list_elem_of_fmap. unfold inside. simpl. lia.
Qed.

Lemma filter_points a d :
  0 < rw d -> 0 < rh d -> (forall p, inside d p -> inside a p) -> filter (inside d) (all_points a) = all_points d.
Proof.
  intros Hw Hh Hsub.
  pose proof (Hsub (top_left d) ltac:(unfold inside; lia)) as [Hx0 Hy0].
  pose proof (Hsub (mkPoint (px (top_left d) + rw d - 1) (py (top_left d) + rh d - 1)) ltac:(unfold inside; simpl; lia)) as [Hx1 Hy1].
  simpl in *. unfold all_points. rewrite filter_concat.
  rewrite (seqZ_split (py (top_left a)) (rh a) (py (top_left d)) (rh d)) by lia.
  rewrite !fmap_app, !concat_app.
  assert (Hout : forall y0 n, (forall y, y ∈ seqZ y0 n -> ~ py (top_left d) <= y < py (top_left d) + rh d) ->
    concat (filter (inside d) <$> (row_points (px (top_left a)) (rw a) <$> seqZ y0 n)) = []).
  { intros y0 n. induction (seqZ y0 n) as [|y ys IH]; intros Hn; [done |]. cbn [fmap list_fmap concat].
    rewrite filter_row by lia. rewrite decide_False by apply Hn, list_elem_of_here. apply IH. intros z Hz. apply Hn, list_elem_of_further, Hz. }
  rewrite (Hout (py (top_left a))), (Hout (py (top_left d) + rh d)) by (intros y Hy%elem_of_seqZ; lia). rewrite app_nil_r. cbn [app]. f_equal. rewrite <- list_fmap_compose.
  apply list_fmap_ext. intros i y Hy%list_elem_of_lookup_2%elem_of_seqZ. cbn.
  by rewrite filter_row, decide_True by lia.
Qed.

Lemma elem_of_all_points r p : p ∈ all_points r -> inside r p.
Proof.
  rewrite list_elem_of_In. intros (l & Hl & Hp)%in_concat. apply list_elem_of_In, list_elem_of_fmap in Hl as (y & -> & Hy%elem_of_seqZ).
  apply list_elem_of_In, list_elem_of_fmap in Hp as (x & -> & Hx%elem_of_seqZ). unfold inside. simpl. lia.
Qed.

(** ** Filling a rectangle on the screen *)
Lemma row_offset_ret s x y w : screen_ok s -> on_screen s (mkPoint x y) -> 0 < w -> x + w <= width (sc s) ->
  row_offset s x y = Ret (at_pixel s (mkPoint x y) / 2) /\ 2 * (at_pixel s (mkPoint x y) / 2) = at_pixel s (mkPoint x y).
Proof.
  intros Hs Hp Hw Hx. destruct (at_pixel_bound s (mkPoint x y) w Hs Hp Hx) as [H0 H1].
  destruct Hs, Hp as [Hpx Hpy]. unfold row_offset, at_pixel in *. simpl in *. rewrite so_pixel0.
  set (b := bytes_per_line (sc s)) in *. assert (Hb : b = 2 * (b / 2)) by (pose proof (Z.div_mod b 2 ltac:(lia)); lia).
  rewrite !wrap_u_small by lia. rewrite chk_u_ret by nia. cbn [obind]. rewrite chk_u_ret by nia. cbn [obind].
  replace (y * b) with (y * (b / 2) * 2) in * by lia. rewrite !Z.div_mul by lia.
  replace (y * (b / 2) * 2 + 2 * x) with ((y * (b / 2) + x) * 2) in * by lia. rewrite Z.div_mul by lia.
  rewrite chk_u_ret by lia. split; [done | lia].
Qed.

Lemma length_row_points x w y : 0 <= w -> length (row_points x w y) = Z.to_nat w.
Proof. intros. unfold row_points. by rewrite length_fmap, length_seqZ. Qed.

Lemma fill_rows_draw h : forall s x w y cs,
  screen_ok s -> 0 <= x -> 0 < w -> x + w <= width (sc s) -> 0 <= y -> y + Z.of_nat h <= height (sc s) ->
  fill_rows s x w (seqZ y (Z.of_nat h)) cs = draw_iter s (zip (concat (row_points x w <$> seqZ y (Z.of_nat h))) cs).
Proof.
  induction h as [|h IH]; intros s x w y cs Hs Hx Hw Hxw Hy Hyh; [done |].
  rewrite seqZ_cons by lia. replace (Z.pred (Z.of_nat (S h))) with (Z.of_nat h) by lia.
  cbn [fmap list_fmap concat fill_rows]. rewrite zip_with_app_l, draw_iter_app, length_row_points by lia.
  assert (Hp : on_screen s (mkPoint x y)) by (split; simpl; lia).
  destruct (row_offset_ret s x y w Hs Hp Hw Hxw) as [-> E2]. cbn [obind].
  destruct (at_pixel_bound s (mkPoint x y) w Hs Hp Hxw) as [H0 H1]. pose proof (so_len s Hs) as Hl.
  unfold put_u16s. rewrite (proj2 (Z.leb_le _ _)).
  2:{ apply Z.div_le_lower_bound; lia. }
  cbn [obind]. rewrite E2.
  pose proof (draw_row (Z.to_nat w) s x y (take (Z.to_nat w) cs) Hs Hp ltac:(lia) ltac:(lia)) as E.
  rewrite Z2Nat.id in E by lia. rewrite E. cbn [obind]. rewrite take_take, Nat.min_id.
  set (s1 := set_back _ s). assert (Hs1 : screen_ok s1).
  { apply set_back_ok; [done |]. apply length_put. rewrite length_words, length_take. lia. }
  apply IH; try done; simpl; lia.
Qed.

(** Solid rows are rows of one colour. *)
Lemma solid_rows_fill color w ys : forall s x n, 0 <= w -> (length ys * Z.to_nat w <= n)%nat ->
  solid_rows s x w ys color = fill_rows s x w ys (replicate n color).
Proof.
  induction ys as [|y ys IH]; intros s x n Hw Hn; [done |]. cbn in Hn. cbn [solid_rows fill_rows].
  destruct (row_offset s x y); try done. cbn [obind]. rewrite take_replicate, drop_replicate, Nat.min_l by lia.
  destruct (put_u16s _ _ _ _); try done. cbn [obind]. apply IH; lia.
Qed.

Section Filling.
Context {R : RectApi} {RL : RectLaws R}.

Lemma box_ok s : screen_ok s -> rect_ok (bounding_box s).
Proof. intros []. split_and!; simpl; lia. Qed.

Lemma inside_box s p : inside (bounding_box s) p <-> on_screen s p.
Proof. unfold inside, on_screen. simpl. lia. Qed.

(** The part of a rectangle on the screen. *)
Definition clip (s : Screen) (area : Rectangle) : Rectangle := intersection area (bounding_box s).

Lemma clip_inside s area p : screen_ok s -> rect_ok area -> inside (clip s area) p <-> inside area p /\ on_screen s p.
Proof. intros Hs Ha. unfold clip. by rewrite (intersection_inside area (bounding_box s) p Ha (box_ok s Hs)), inside_box. Qed.

Lemma clip_points s area :
  screen_ok s -> rect_ok area -> 0 < rw (clip s area) -> 0 < rh (clip s area) ->
  filter (inside (clip s area)) (points area) = all_points (clip s area).
Proof.
  intros Hs Ha Hw Hh. rewrite (points_in_order area Ha). apply filter_points; [done | done |]. intros p Hp.
  by apply (clip_inside s area p Hs Ha) in Hp as [? _].
Qed.

Lemma fill_clip s area colors : screen_ok s -> rect_ok area -> 0 < rw (clip s area) -> 0 < rh (clip s area) ->
  fill_rows s (fst (columns (clip s area))) (rw (clip s area)) (range_list (rows (clip s area))) colors
  = draw_iter s (zip (filter (inside (clip s area)) (points area)) colors).
Proof.
  intros Hs Ha Hw Hh. rewrite (clip_points s area Hs Ha Hw Hh).
  pose proof (intersection_ok _ _ Ha (box_ok s Hs) : rect_ok (clip s area)) as Hd. rewrite (columns_range (clip s area) Hd), (rows_range (clip s area) Hd).
  unfold range_list. cbn [fst snd]. replace (py (top_left (clip s area)) + rh (clip s area) - py (top_left (clip s area))) with (rh (clip s area)) by lia.
  destruct (proj1 (clip_inside s area (top_left (clip s area)) Hs Ha) ltac:(unfold inside; lia)) as [_ [Hx0 Hy0]].
  destruct (proj1 (clip_inside s area (mkPoint (px (top_left (clip s area)) + rw (clip s area) - 1) (py (top_left (clip s area)) + rh (clip s area) - 1)) Hs Ha)
    ltac:(unfold inside; simpl; lia)) as [_ [Hx1 Hy1]]. simpl in *.
  unfold all_points. rewrite <- (Z2Nat.id (rh (clip s area))) by lia. apply fill_rows_draw; lia || done.
Qed.

(** Drawing a rectangle is drawing the part of it on the screen. *)
Lemma draw_clip s area (l : list (Point * Z)) : screen_ok s -> rect_ok area -> (forall pc, pc ∈ l -> fst pc ∈ points area) ->
  draw_iter s l = draw_iter s (filter (fun pc => inside (clip s area) (fst pc)) l).
Proof.
  intros Hs Ha Hl. rewrite draw_iter_clip by done. f_equal. apply filter_iff_in. intros pc Hpc%Hl.
  rewrite (points_in_order area Ha) in Hpc. apply elem_of_all_points in Hpc. rewrite clip_inside by done. tauto.
Qed.

Lemma clip_cases s area : screen_ok s -> rect_ok area ->
  (rw (clip s area) = 0 /\ rh (clip s area) = 0) /\ (forall p, ~ inside (clip s area) p) \/
  ~ (rw (clip s area) = 0 /\ rh (clip s area) = 0) /\ 0 < rw (clip s area) /\ 0 < rh (clip s area).
Proof.
  intros Hs Ha. destruct (intersection_empty area (bounding_box s) Ha (box_ok s Hs)) as [Hz|[Hw Hh]]; fold (clip s area) in *.
  - left. split; [done |]. intros p. unfold inside. lia.
  - right. lia.
Qed.

Lemma fill_contiguous_draw s area colors :
  screen_ok s -> rect_ok area -> fill_contiguous s area colors = draw_iter s (zip (points area) colors).
Proof.
  intros Hs Ha. pose proof (intersection_ok _ _ Ha (box_ok s Hs)) as Hd. unfold fill_contiguous. fold (clip s area) in *.
  rewrite (draw_clip s area (zip (points area) colors) Hs Ha) by (by intros [p c] ?%elem_of_zip_l).
  destruct (clip_cases s area Hs Ha) as [[Hz Hn]|(Hz & Hw & Hh)].
  - rewrite bool_decide_true by done. rewrite filter_none; [done |]. intros pc _. apply Hn.
  - rewrite bool_decide_false by done. rewrite (filter_zip (inside _)), fill_clip by done. do 2 f_equal. case_bool_decide as He.
    + f_equal. apply filter_iff_in. intros pc _. by apply contains_inside.
    + f_equal. symmetry. apply filter_all. intros [p c] Hpc%elem_of_zip_l. rewrite (points_in_order area Ha) in Hpc.
      rewrite He. by apply elem_of_all_points.
Qed.

Lemma fill_solid_draw s area color :
  screen_ok s -> rect_ok area -> fill_solid s area color = draw_iter s ((fun p => (p, color)) <$> points area).
Proof.
  intros Hs Ha. pose proof (intersection_ok _ _ Ha (box_ok s Hs)) as Hd. unfold fill_solid. fold (clip s area) in *.
  rewrite (draw_clip s area (_ <$> points area) Hs Ha) by (by intros pc (p & -> & Hp)%list_elem_of_fmap).
  destruct (clip_cases s area Hs Ha) as [[Hz Hn]|(Hz & Hw & Hh)].
  - rewrite bool_decide_true by done. rewrite filter_none; [done |]. intros pc _. apply Hn.
  - rewrite bool_decide_false by done.
    rewrite (solid_rows_fill color (rw (clip s area)) _ s _ (length (filter (inside (clip s area)) (points area)))); [| lia |].
    + rewrite fill_clip by done. f_equal. induction (points area) as [|p l IH]; [done |].
      cbn [fmap list_fmap]. rewrite !filter_cons. cbn [fst]. case_decide; [| done]. cbn. by rewrite IH.
    + rewrite (rows_range (clip s area) Hd). unfold range_list. cbn [fst snd]. rewrite length_seqZ.
      rewrite clip_points by done. unfold all_points.
      replace (py (top_left (clip s area)) + rh (clip s area) - py (top_left (clip s area))) with (rh (clip s area)) by lia. rewrite <- (length_seqZ (py (top_left (clip s area))) (rh (clip s area))).
      induction (seqZ (py (top_left (clip s area))) (rh (clip s area))) as [|y ys IH]; [done |].
      cbn [fmap list_fmap concat length]. rewrite length_app, length_row_points by lia. lia.
Qed.
End Filling.

(** ** What is seen *)
Lemma pixels_apart s p q : screen_ok s -> on_screen s p -> on_screen s q -> p <> q ->
  at_pixel s p + 2 <= at_pixel s q \/ at_pixel s q + 2 <= at_pixel s p.
Proof.
  intros [] [Hpx Hpy] [Hqx Hqy] Hne. unfold at_pixel.
  destruct (Z.lt_trichotomy (py p) (py q)) as [H|[H|H]]; [left; nia | | right; nia].
  destruct (Z.lt_trichotomy (px p) (px q)) as [H'|[H'|H']]; [left; nia | | right; nia].
  destruct Hne. destruct p, q. simpl in *. congruence.
Qed.

Lemma pixel_put s p q c : screen_ok s -> on_screen s p -> on_screen s q ->
  pixel (set_back (put (back_lfb s) (Z.to_nat (at_pixel s p)) (to_le_bytes c)) s) q =
  if decide (q = p) then c mod 2 ^ 16 else pixel s q.
Proof.
  intros Hs Hp Hq. pose proof (at_pixel_bound s p 1 Hs Hp ltac:(destruct Hp; lia)) as [Hp0 Hp1].
  pose proof (at_pixel_bound s q 1 Hs Hq ltac:(destruct Hq; lia)) as [Hq0 Hq1]. pose proof (so_len s Hs) as Hl.
  unfold pixel. change (at_pixel (set_back _ s) q) with (at_pixel s q). cbn [back_lfb set_back]. case_decide as E.
  - subst q. rewrite get_put_in, Nat.sub_diag by (simpl; lia).
    change (get (to_le_bytes c) 0 2) with (le_bytes 2 c). by rewrite le_num_bytes.
  - destruct (pixels_apart s p q Hs Hp Hq) as [H|H]; [congruence | |]; rewrite get_put_out by (simpl; lia); done.
Qed.

(** Drawing points in one colour. *)
Lemma draw_solid_pixels color l : forall s s' q,
  screen_ok s -> draw_iter s ((fun p => (p, color)) <$> l) = Ret s' -> on_screen s q ->
  pixel s' q = if decide (q ∈ l) then color mod 2 ^ 16 else pixel s q.
Proof.
  induction l as [|p l IH]; intros s s' q Hs E Hq.
  { injection E as <-. by rewrite decide_False by apply not_elem_of_nil. }
  cbn [fmap list_fmap draw_iter] in E. destruct (set_pixel_ok s p color Hs) as (s1 & E1 & Hs1 & Hc). rewrite E1 in E. cbn [obind] in E.
  assert (Hq1 : on_screen s1 q) by (unfold on_screen; by rewrite Hc).
  rewrite (IH s1 s' q Hs1 E Hq1). destruct (decide (on_screen s p)) as [Hp|Hp].
  - rewrite set_pixel_on in E1 by done. injection E1 as <-. rewrite pixel_put by done. repeat case_decide; set_solver.
  - rewrite set_pixel_off in E1 by done. injection E1 as <-. assert (q <> p) by congruence. repeat case_decide; set_solver.
Qed.

Lemma all_points_elem r p : inside r p -> p ∈ all_points r.
Proof.
  intros [Hx Hy]. unfold all_points. apply list_elem_of_In, in_concat. exists (row_points (px (top_left r)) (rw r) (py p)).
  rewrite <- !list_elem_of_In. split.
  - apply list_elem_of_fmap. exists (py p). split; [done |]. apply elem_of_seqZ. lia.
  - apply list_elem_of_fmap. exists (px p). split; [by destruct p |]. apply elem_of_seqZ. lia.
Qed.

(** Filling a rectangle, on the screen or partly or wholly off it, with a
    sequence of colours or with one, leaves the screen that setting its pixels
    one by one in reading order leaves; it never panics; with one colour the
    pixels of the rectangle have that colour and the others are as before. *)
Theorem fill_draws_pixels {R : RectApi} {RL : RectLaws R} s area color :
  screen_ok s -> rect_ok area ->
  (forall colors, fill_contiguous s area colors = draw_iter s (zip (points area) colors)) /\
  fill_solid s area color = draw_iter s ((fun p => (p, color)) <$> points area) /\
  exists s', fill_solid s area color = Ret s' /\ screen_ok s' /\ sc s' = sc s /\
    forall q, on_screen s q -> pixel s' q = if decide (inside area q) then color mod 2 ^ 16 else pixel s q.
Proof.
  intros Hs Ha. split; [intros; by apply fill_contiguous_draw |]. split; [by apply fill_solid_draw |].
  rewrite fill_solid_draw by done. destruct (draw_iter_ok ((fun p => (p, color)) <$> points area) s Hs) as (s' & E & Hs' & Hc).
  exists s'. split; [done |]. split; [done |]. split; [done |]. intros q Hq. rewrite (draw_solid_pixels _ _ _ _ _ Hs E Hq).
  rewrite points_in_order by done. apply decide_ext. split; [apply elem_of_all_points | apply all_points_elem].
Qed.

(** ** Scrolling and clearing *)
Lemma scroll_pixels s h : screen_ok s -> 0 <= h <= height (sc s) ->
  exists s', scroll h s = Ret s' /\ screen_ok s' /\ sc s' = sc s /\
    forall x y, on_screen s (mkPoint x y) ->
      pixel s' (mkPoint x y) = pixel s (mkPoint x (if decide (y + h < height (sc s)) then y + h else y)).
Proof.
  intros Hs Hh. pose proof (so_len s Hs) as Hl. pose proof (at_pixel_bound s) as Hat. destruct Hs as [Hw0 Hh0 Hp He Hline Hby _].
  set (b := bytes_per_line (sc s)) in *. assert (Hb : b = 2 * (b / 2)) by (pose proof (Z.div_mod b 2 ltac:(lia)); lia).
  unfold scroll. fold b. rewrite Hl. replace (b * height (sc s) / 2) with (b / 2 * height (sc s)).
  2:{ apply Z.div_unique_exact; lia. }
  assert (0 <= b / 2) by lia. assert (Hbh : 0 <= b / 2 * h <= b / 2 * height (sc s)) by nia.
  rewrite chk_u_ret by lia. cbn [obind]. rewrite (proj2 (Z.leb_le _ _)) by lia. cbn [ensure obind].
  set (start := b / 2 * h) in *. assert (Hst : 2 * start = b * h) by lia.
  replace (2 * (b / 2 * height (sc s) - start)) with (b * height (sc s) - b * h) by lia. rewrite Hst.
  assert (Hg : length (get (back_lfb s) (Z.to_nat (b * h)) (Z.to_nat (b * height (sc s) - b * h))) = Z.to_nat (b * height (sc s) - b * h)).
  { apply length_get. lia. }
  eexists. split; [reflexivity |]. split; [apply set_back_ok; [by split | apply length_put; lia] |]. split; [done |].
  intros x y Hxy. destruct (Hat (mkPoint x y) 1 ltac:(by split) Hxy ltac:(destruct Hxy as [Hxx _]; simpl in *; lia)) as [H0 H1].
  destruct Hxy as [Hx Hy]. unfold pixel, at_pixel in *. simpl in *. fold b in H0, H1 |- *. f_equal.
  case_decide as Hd.
  - assert (y * b + 2 * x + 2 <= b * height (sc s) - b * h) by nia. replace ((y + h) * b) with (y * b + b * h) by lia.
    rewrite get_put_in by lia. apply get_eq; [lia | lia |]. intros i Hi. rewrite lookup_get by lia. f_equal. lia.
  - assert (b * height (sc s) - b * h <= y * b) by nia. rewrite get_put_out by lia. done.
Qed.

Lemma clear_pixels s color p : screen_ok s -> on_screen s p -> pixel (clear false color s) p = color mod 2 ^ 16.
Proof.
  intros Hs Hp. destruct (at_pixel_bound s p 1 Hs Hp) as [H0 H1]; [destruct Hp; lia |].
  assert (He : at_pixel s p = 2 * (at_pixel s p / 2)).
  { pose proof (so_even s Hs). unfold at_pixel. pose proof (Z.div_mod (bytes_per_line (sc s)) 2 ltac:(lia)).
    replace (py p * bytes_per_line (sc s) + 2 * px p) with ((py p * (bytes_per_line (sc s) / 2) + px p) * 2) by lia.
    rewrite Z.div_mul by lia. lia. }
  pose proof (so_len s Hs) as Hl. set (n := ((length (back_lfb s) - 0) / 2)%nat).
  assert (Hn : (2 * n <= length (back_lfb s))%nat) by (unfold n; pose proof (Nat.div_mod (length (back_lfb s) - 0) 2 ltac:(lia)); lia).
  assert (Hk : (Z.to_nat (at_pixel s p / 2) < n)%nat) by (unfold n; apply Nat.div_le_lower_bound; lia).
  unfold pixel, clear. cbn [back_lfb set_back]. change (at_pixel (set_back _ s) p) with (at_pixel s p). fold n.
  rewrite get_put_in; rewrite ?length_words, ?length_replicate; [| lia..]. rewrite Nat.sub_0_r.
  transitivity (le_num (le_bytes 2 color)); [| by rewrite le_num_bytes]. f_equal.
  replace (Z.to_nat (at_pixel s p)) with (2 * Z.to_nat (at_pixel s p / 2))%nat by lia. revert Hk.
  generalize (Z.to_nat (at_pixel s p / 2)). clear. intros k. revert k. induction n as [|n IH]; intros k Hk; [lia |].
  destruct k as [|k]; [done |]. cbn [replicate fmap list_fmap concat]. rewrite <- (IH k) by lia.
  replace (2 * S k)%nat with (S (S (2 * k))) by lia. done.
Qed.

(** ** Rectangles by arithmetic, and a screen of four by three pixels *)
Module GraphicsWitness.
#[export] Instance rects : RectApi := {|
  intersection a b :=
    let x0 := Z.max (px (top_left a)) (px (top_left b)) in
    let y0 := Z.max (py (top_left a)) (py (top_left b)) in
    let x1 := Z.min (px (top_left a) + rw a) (px (top_left b) + rw b) in
    let y1 := Z.min (py (top_left a) + rh a) (py (top_left b) + rh b) in
    if bool_decide (x0 < x1 /\ y0 < y1) then mkRect (mkPoint x0 y0) (x1 - x0) (y1 - y0) else mkRect (top_left a) 0 0;
  rcontains r p := bool_decide (inside r p);
  points := all_points;
  rows r := (py (top_left r), py (top_left r) + rh r);
  columns r := (px (top_left r), px (top_left r) + rw r)
|}.

#[export] Instance rects_laws : RectLaws rects.
Proof.
  split; try done.
  - intros r p _. apply bool_decide_eq_true.
  - intros a b Ha Hb. unfold rect_ok in *. simpl. case_bool_decide; simpl; lia.
  - intros a b p Ha Hb. unfold rect_ok, inside in *. simpl. case_bool_decide; simpl; lia.
  - intros a b Ha Hb. simpl. case_bool_decide; simpl; lia.
Qed.

Definition small : Screen :=
  mkScreen {| width := 4; height := 3; bytes_per_pixel := 2; bytes_per_line := 10 |} 0 (replicate 30 0).
Lemma small_ok : screen_ok small.
Proof. by repeat split. Qed.
Definition corner : Rectangle := mkRect (mkPoint (-1) 1) 3 5.

Lemma fill_draws_pixels_witness :
  (forall colors, fill_contiguous small corner colors = draw_iter small (zip (points corner) colors)) /\
  fill_solid small corner 513 = draw_iter small ((fun p => (p, 513)) <$> points corner) /\
  exists s', fill_solid small corner 513 = Ret s' /\ screen_ok s' /\ sc s' = sc small /\
    forall q, on_screen small q -> pixel s' q = if decide (inside corner q) then 513 mod 2 ^ 16 else pixel small q.
Proof. apply (fill_draws_pixels small corner 513 small_ok). split_and!; cbn; lia. Defined.

(** Two rows of two pixels are filled, the padding of the lines is not. *)
Example fill_corner : back_lfb <$> match fill_solid small corner 513 with Ret s => Some s | _ => None end =
  Some [0; 0; 0; 0; 0; 0; 0; 0; 0; 0; 1; 2; 1; 2; 0; 0; 0; 0; 0; 0; 1; 2; 1; 2; 0; 0; 0; 0; 0; 0].
Proof. vm_compute. reflexivity. Qed.
End GraphicsWitness.

(** ** Drawing in a window *)
Record window_ok (w : UserWindow) (mem : list Z) : Prop := {
  wo_width : 0 <= uw_width w < 2 ^ 30;
  wo_height : 0 <= uw_height w < 2 ^ 30;
  wo_pixel : uw_bytes_per_pixel w = 2;
  wo_line : 2 * uw_width w <= uw_bytes_per_line w;
  wo_bytes : uw_bytes_per_line w * uw_height w < 2 ^ 32;
  wo_len : Z.of_nat (length mem) = uw_bytes_per_line w * uw_height w
}.
Definition in_window (w : UserWindow) (p : Point) : Prop := 0 <= px p < uw_width w /\ 0 <= py p < uw_height w.

Lemma window_pixel_ret w mem p c :
  window_ok w mem -> in_window w p -> exists mem', window_set_pixel w mem p c = Ret mem' /\ window_ok w mem'.
Proof.
  intros [Hw Hh Hb Hl Hn Hm] [Hx Hy]. assert (py p * uw_bytes_per_line w + px p * 2 + 2 <= uw_bytes_per_line w * uw_height w) by nia.
  assert (0 <= py p * uw_bytes_per_line w) by nia.
  unfold window_set_pixel, window_offset. rewrite !wrap_u_small by lia. rewrite Hb.
  repeat (rewrite chk_u_ret by lia; cbn [obind]). rewrite (proj2 (Z.leb_le _ _)) by lia. cbn [ensure obind].
  rewrite to_le_bytes_eq. change (idx [c mod 256; c / 256 mod 256] 0) with (Ret (c mod 256)).
  change (idx [c mod 256; c / 256 mod 256] 1) with (Ret (c / 256 mod 256)). cbn [obind].
  rewrite upd_ret by lia. cbn [obind]. rewrite upd_ret by (rewrite length_insert; lia).
  eexists. split; [reflexivity |]. split; try done. by rewrite !length_insert.
Qed.

Lemma window_draw_ret w : forall l mem, window_ok w mem -> Forall (fun q => in_window w (fst q)) l ->
  exists mem', window_draw_iter w mem l = Ret mem' /\ window_ok w mem'.
Proof.
  induction l as [|[p c] l IH]; intros mem Hm Hl; [by exists mem |]. apply Forall_cons in Hl as [Hp Hl]. cbn [window_draw_iter].
  destruct (window_pixel_ret w mem p c Hm Hp) as (mem1 & -> & Hm1). by apply IH.
Qed.

Lemma window_draw_app w l1 l2 : forall mem,
  window_draw_iter w mem (l1 ++ l2) = let! mem := window_draw_iter w mem l1 in window_draw_iter w mem l2.
Proof.
  induction l1 as [|[p c] l1 IH]; intros mem; [done |]. cbn [app window_draw_iter].
  destruct (window_set_pixel w mem p c); cbn [obind]; [apply IH | done | done].
Qed.

(** Drawing anywhere returns or panics. *)
Lemma window_draw_or_panic w : forall l mem, window_ok w mem ->
  window_draw_iter w mem l = Panic \/ exists mem', window_draw_iter w mem l = Ret mem' /\ window_ok w mem'.
Proof.
  induction l as [|[p c] l IH]; intros mem Hm; [right; by exists mem |]. cbn [window_draw_iter].
  assert (window_set_pixel w mem p c = Panic \/ exists mem', window_set_pixel w mem p c = Ret mem' /\ length mem' = length mem)
    as [-> | (mem1 & -> & Hl)]; [| by left | apply IH; destruct Hm; split; congruence].
  unfold window_set_pixel, window_offset, chk_u. rewrite to_le_bytes_eq.
  change (idx [c mod 256; c / 256 mod 256] 0) with (Ret (c mod 256)). change (idx [c mod 256; c / 256 mod 256] 1) with (Ret (c / 256 mod 256)).
  repeat (case_match; cbn [obind]; [| by left]). unfold ensure, upd. case_match; cbn [obind]; [| by left].
  repeat (case_match; cbn [obind]; [| by left]). right. eexists. split; [done |]. by rewrite !length_insert.
Qed.

(** A pixel left of the window is not clipped: the product overflows. *)
Lemma window_left_panics w mem p c : window_ok w mem -> - 2 ^ 31 <= px p < 0 -> 0 <= py p < uw_height w -> window_set_pixel w mem p c = Panic.
Proof.
  intros [Hw Hh Hb Hl Hn Hm] Hx Hy. assert (0 <= py p * uw_bytes_per_line w < 2 ^ 32) by nia.
  unfold window_set_pixel, window_offset. rewrite (wrap_u_small _ (py p)) by lia. rewrite Hb, chk_u_ret by lia. cbn [obind].
  assert (E : wrap_u 32 (px p) = px p + 2 ^ 32) by (unfold wrap_u; symmetry; apply (Z.mod_unique _ _ (-1)); lia).
  rewrite E. unfold chk_u, in_u. rewrite (proj2 (Z.ltb_ge _ _)) by lia. by rewrite andb_false_r.
Qed.
