(* ===== verification/XqUi.v ===== *)
(** * The xiangqi program

    [userland/src/bin/xiangqi.rs]: the loop that reads mouse packets, moves the
    cursor, turns a click into a square, selects a piece or plays a move, and
    draws.  A turn gives the sequence of calls to embedded_graphics, in order;
    the pixels of an image or a circle are that crate's, a class with laws, and
    each pixel is set in the window's memory by [UserWindow::set_pixel_in]
    ([common/src/lib.rs]), which does not clip. *)
From S2P Require Import Prelude UserMem Graphics Xiangqi XqRules XqGame XqFen.

(** ** Drawing *)

(** The images of [PieceImages] that are drawn, and the calls. *)
Inductive Image := BoardImage | RedImage (t : PieceType) | BlackImage (t : PieceType).
Inductive Draw :=
| DrawImage (img : Image) (x y : Z)
| DrawMasked (img : Image) (x y : Z)
| DrawDot (x y diameter : Z)
| DrawCursor (x y diameter : Z)
| ClearBlack
| NotifyFrameUpdate.
#[export] Instance image_eq : EqDecision Image.
Proof. solve_decision. Defined.
#[export] Instance draw_eq : EqDecision Draw.
Proof. solve_decision. Defined.

Definition get_img (piece : Piece) : Image :=
  match piece_type piece with
  | Advisor => match color piece with Red => RedImage Advisor | Black => BlackImage Advisor end
  | Cannon => match color piece with Red => RedImage Cannon | Black => BlackImage Cannon end
  | Elephant => match color piece with Red => RedImage Elephant | Black => BlackImage Elephant end
  | General => match color piece with Red => RedImage General | Black => BlackImage General end
  | Horse => match color piece with Red => RedImage Horse | Black => BlackImage Horse end
  | Pawn => match color piece with Red => RedImage Pawn | Black => BlackImage Pawn end
  | Rook => match color piece with Red => RedImage Rook | Black => BlackImage Rook end
  end.

(** A loop whose turns each draw something. *)
Fixpoint collect {A B} (f : A -> outcome (list B)) (l : list A) : outcome (list B) :=
  match l with
  | [] => Ret []
  | x :: l => let! y := f x in let! ys := collect f l in Ret (y ++ ys)
  end.

Definition draw_square (b : Board) (r c : Z) : outcome (list Draw) :=
  let! r8 := chk_i 8 r in
  let! c8 := chk_i 8 c in
  let! piece := get_piece b (mkPos r8 c8) in
  match piece with
  | Some piece => Ret [DrawMasked (get_img piece) (12 + c * 90) (822 - r * 90)]
  | None => Ret []
  end.
Definition drawboard (b : Board) : outcome (list Draw) :=
  let! l := collect (fun r => collect (draw_square b r) (seqZ 0 9)) (seqZ 0 10) in
  Ret (DrawImage BoardImage 0 0 :: l).

(** The pixels that a call sends to [draw_iter] of a window of that size, and
    the size of the images. *)
Class Painter := {
  image_size : Image -> Z * Z;
  pixels_of : Z -> Z -> Draw -> list (Point * Z)
}.

(** Pixels are in the rectangle of the image or the circle, or, when the window
    is cleared, in the window. *)
Definition in_area {P : Painter} (w h : Z) (d : Draw) (p : Point) : Prop :=
  match d with
  | DrawImage img x y | DrawMasked img x y =>
      x <= px p < x + fst (image_size img) /\ y <= py p < y + snd (image_size img)
  | DrawDot x y n | DrawCursor x y n => x <= px p < x + n /\ y <= py p < y + n
  | ClearBlack => 0 <= px p < w /\ 0 <= py p < h
  | NotifyFrameUpdate => False
  end.
Class PainterLaws (P : Painter) : Prop := pixels_in_area w h d p c : (p, c) ∈ pixels_of w h d -> in_area w h d p.

Section Ui.
Context {HV : HeaplessVec}.

Definition draw_legal_moves (selected_piece : Piece) (b : Board) : outcome (list Draw) :=
  let! l := piece_legal_moves selected_piece b in
  collect (fun m =>
    let! ok := is_legal_move b m (color selected_piece) in
    if ok then
      let '(x, y) := match m with
                     | MovePiece _ to => (38 + col to * 90, 845 - row to * 90)
                     | Resign => (0, 0)
                     end in
      Ret [DrawDot x y 14]
    else Ret []) l.

(** ** The mouse *)

(** One coordinate of a packet: nine bits, the sign in the status byte. *)
Definition decode_delta (status bit mov : Z) : Z :=
  let d := if Z.land status (Z.shiftl 1 bit) =? 0 then mov else Z.lor mov 0xFF00 in
  wrap_i 16 d.

(** [while i + 2 < bytes_read]: at most ten packets in a buffer of thirty
    bytes. *)
Fixpoint packets_loop (fuel : nat) (buffer : list Z) (bytes_read i : Z) (x y : Z) (clicked : bool)
  : outcome (Z * Z * bool) :=
  match fuel with
  | O => NoFuel
  | S fuel =>
      if i + 2 <? bytes_read then
        let! status := idx buffer i in
        let! x_mov := idx buffer (i + 1) in
        let! y_mov := idx buffer (i + 2) in
        let is_left_clicked := negb (Z.land status 1 =? 0) in
        let! x := chk_i 32 (x + decode_delta status 4 x_mov) in
        let! y := chk_i 32 (y - decode_delta status 5 y_mov) in
        packets_loop fuel buffer bytes_read (i + 3) x y is_left_clicked
      else Ret (x, y, clicked)
  end.

(** [i32::clamp], which asserts that its bounds are in order. *)
Definition clamp_i (v lo hi : Z) : outcome Z :=
  let! _ := ensure (lo <=? hi) in Ret (if v <? lo then lo else if hi <? v then hi else v).

(** ** The loop *)
Record Ui := mkUi {
  board : Board; selected : option Piece; redraw : bool; drawlegalmoves : bool;
  mouse_x : Z; mouse_y : Z; was_left_clicked : bool
}.
Inductive UiEnd := Goes (u : Ui) | Ended.

Definition select (s : option Piece) (r d : bool) (u : Ui) : Ui :=
  mkUi (board u) s r d (mouse_x u) (mouse_y u) (was_left_clicked u).
Definition set_clicked (c : bool) (u : Ui) : Ui :=
  mkUi (board u) (selected u) (redraw u) (drawlegalmoves u) (mouse_x u) (mouse_y u) c.

Definition out_of_bounds (x y : Z) : bool :=
  negb (12 <=? x) || negb (x <=? 821) || negb (12 <=? y) || negb (y <=? 911).
Definition square_of (x y : Z) : outcome Position :=
  let! col := chk_i 8 (Z.quot (x - 12) 90) in
  let! row := chk_i 8 (Z.quot (911 - y) 90) in
  Ret (mkPos row col).

(** A click on a square; [None] when the game is over. *)
Definition click (new_pos : Position) (u : Ui) : outcome (option Ui * list Draw) :=
  match selected u with
  | Some piece =>
      let! result := play_move (board u) (MovePiece (pos piece) new_pos) in
      match result with
      | Continuing next_turn =>
          Ret (Some (mkUi next_turn None true (drawlegalmoves u) (mouse_x u) (mouse_y u) (was_left_clicked u)), [ClearBlack])
      | IllegalMove (MovePiece _ to) =>
          let! o := get_piece (board u) to in
          let! p := unwrap o in
          if bool_decide (turn (board u) = color p) then
            let! o := get_piece (board u) to in
            Ret (Some (select o true true u), [])
          else Ret (Some (select None true (drawlegalmoves u) u), [])
      | IllegalMove Resign => Ret (Some u, [])
      | Victory _ => Ret (None, [])
      end
  | None =>
      let! ally := has_ally_piece (board u) new_pos (turn (board u)) in
      if ally then
        let! o := get_piece (board u) new_pos in
        let! p := unwrap o in
        Ret (Some (select (Some p) (redraw u) true u), [])
      else Ret (Some u, [])
  end.

(** The end of a turn: draw if something changed, and reset the flags. *)
Definition draw_turn (u : Ui) : outcome (Ui * list Draw) :=
  let! draws :=
    if redraw u || drawlegalmoves u then
      let! d1 := if redraw u then drawboard (board u) else Ret [] in
      let! d2 := match selected u with Some p => draw_legal_moves p (board u) | None => Ret [] end in
      let! x := chk_i 32 (mouse_x u - 5) in
      let! y := chk_i 32 (mouse_y u - 5) in
      Ret (d1 ++ d2 ++ [DrawCursor x y 10; NotifyFrameUpdate])
    else Ret [] in
  Ret (select (selected u) false false u, draws).

(** One turn of ['Game: loop], on a window of the given size, with what the
    read of the mouse device returned. *)
Definition game_turn (width height : Z) (mouse_buffer : list Z) (bytes_read : Z) (u : Ui) : outcome (UiEnd * list Draw) :=
  if bytes_read >? 0 then
    let! '(x, y, is_left_clicked) := packets_loop (S (Z.to_nat bytes_read)) mouse_buffer bytes_read 0 (mouse_x u) (mouse_y u) false in
    let! w := chk_u 32 (width - 1) in
    let! h := chk_u 32 (height - 1) in
    let! x := clamp_i x 0 (wrap_i 32 w) in
    let! y := clamp_i y 0 (wrap_i 32 h) in
    let redraw := if negb (x =? mouse_x u) || negb (y =? mouse_y u) then true else redraw u in
    let u := mkUi (board u) (selected u) redraw (drawlegalmoves u) x y (was_left_clicked u) in
    if is_left_clicked && negb (was_left_clicked u) && out_of_bounds x y then
      Ret (Goes (set_clicked is_left_clicked u), [])
    else
      let! '(next, d1) :=
        if is_left_clicked && negb (was_left_clicked u) then
          let! new_pos := square_of x y in
          click new_pos u
        else Ret (Some u, []) in
      match next with
      | None => Ret (Ended, d1)
      | Some u =>
          let! '(u, d2) := draw_turn (set_clicked is_left_clicked u) in
          Ret (Goes u, d1 ++ d2)
      end
  else Ret (Goes u, []).

(** What the calls of a turn leave in the window's memory. *)
Definition show {P : Painter} (w : UserWindow) (mem : list Z) (draws : list Draw) : outcome (list Z) :=
  window_draw_iter w mem (draws ≫= pixels_of (uw_width w) (uw_height w)).

(** A turn with its drawing. *)
Definition shown_turn {P : Painter} (w : UserWindow) (mouse_buffer : list Z) (bytes_read : Z) (u : Ui) (mem : list Z)
  : outcome (UiEnd * list Z) :=
  let! '(next, draws) := game_turn (uw_width w) (uw_height w) mouse_buffer bytes_read u in
  let! mem := show w mem draws in
  Ret (next, mem).

(** [main] up to its loop. *)
Definition game_start (width height : Z) (fen_str : list Z) : outcome (Ui * list Draw) :=
  let! r := from_str fen_str in
  let! b := match r with inr b => Ret b | inl _ => Panic end in
  let! d := drawboard b in
  Ret (mkUi b None false false (Z.quot (wrap_i 32 width) 2) (Z.quot (wrap_i 32 height) 2) false, d).
Definition shown_start {P : Painter} (w : UserWindow) (fen_str : list Z) (mem : list Z) : outcome (Ui * list Z) :=
  let! '(u, draws) := game_start (uw_width w) (uw_height w) fen_str in
  let! mem := show w mem draws in
  Ret (u, mem).
End Ui.

(** ** Squares *)
Lemma collect_ret {A B} (f : A -> outcome (list B)) (g : A -> list B) l :
  (forall x, x ∈ l -> f x = Ret (g x)) -> collect f l = Ret (l ≫= g).
Proof.
  induction l as [|x l IH]; intros H; [done |]. cbn [collect]. rewrite H by set_solver. cbn [obind].
  rewrite IH by (intros; apply H; set_solver). done.
Qed.

(** The cell of 90 by 90 pixels of a square, row 0 at the bottom. *)
Definition in_cell (p : Position) (x y : Z) : Prop :=
  12 + col p * 90 <= x < 12 + col p * 90 + 90 /\ 822 - row p * 90 <= y < 822 - row p * 90 + 90.

Lemma click_in_cell p x y :
  on_board p -> in_cell p x y -> out_of_bounds x y = false /\ square_of x y = Ret p.
Proof.
  intros Hp Hc. unfold on_board, in_cell in *. split; [unfold out_of_bounds; lia |]. unfold square_of.
  rewrite !Z.quot_div_nonneg by lia.
  assert ((x - 12) / 90 = col p) as -> by (symmetry; apply (Z.div_unique _ _ _ (x - 12 - 90 * col p)); lia).
  assert ((911 - y) / 90 = row p) as -> by (symmetry; apply (Z.div_unique _ _ _ (911 - y - 90 * row p)); lia).
  rewrite !chk_i_ret by lia. by destruct p.
Qed.

Lemma square_of_on_board x y :
  out_of_bounds x y = false -> exists p, square_of x y = Ret p /\ on_board p /\ in_cell p x y.
Proof.
  intros H. assert (12 <= x <= 821 /\ 12 <= y <= 911) as [Hx Hy] by (unfold out_of_bounds in H; lia).
  pose proof (Z.div_mod (x - 12) 90 ltac:(lia)). pose proof (Z.mod_pos_bound (x - 12) 90 ltac:(lia)).
  pose proof (Z.div_mod (911 - y) 90 ltac:(lia)). pose proof (Z.mod_pos_bound (911 - y) 90 ltac:(lia)).
  unfold square_of. rewrite !Z.quot_div_nonneg by lia. rewrite !chk_i_ret by lia. cbn [obind].
  eexists. split; [reflexivity |]. unfold on_board, in_cell. cbn [row col]. lia.
Qed.

(** What a piece on a square draws. *)
Definition piece_draw (b : Board) (p : Position) : list Draw :=
  match piece_at b p with Some q => [DrawMasked (get_img q) (12 + col p * 90) (822 - row p * 90)] | None => [] end.
Definition board_draws (b : Board) : list Draw :=
  seqZ 0 10 ≫= fun r => seqZ 0 9 ≫= fun c => piece_draw b (mkPos r c).

Lemma draw_square_ret b r c : board_ok b -> on_board (mkPos r c) -> draw_square b r c = Ret (piece_draw b (mkPos r c)).
Proof.
  intros Hb Hp. unfold draw_square, on_board in *. cbn [row col] in Hp. rewrite !chk_i_ret by lia. cbn [obind].
  rewrite get_piece_ret by done. cbn [obind]. unfold piece_draw. by destruct (piece_at b _).
Qed.

Lemma drawboard_ret b : board_ok b -> drawboard b = Ret (DrawImage BoardImage 0 0 :: board_draws b).
Proof.
  intros Hb. unfold drawboard, board_draws.
  rewrite (collect_ret _ (fun r => seqZ 0 9 ≫= fun c => piece_draw b (mkPos r c))); [done |].
  intros r Hr%elem_of_seqZ. apply collect_ret. intros c Hc%elem_of_seqZ. apply draw_square_ret; [done |].
  unfold on_board. cbn. lia.
Qed.

Lemma board_draws_spec b img x y :
  DrawMasked img x y ∈ board_draws b <->
  exists p q, on_board p /\ piece_at b p = Some q /\ img = get_img q /\ x = 12 + col p * 90 /\ y = 822 - row p * 90.
Proof.
  unfold board_draws. setoid_rewrite list_elem_of_bind. setoid_rewrite list_elem_of_bind. split.
  - intros (r & (c & Hd & Hc%elem_of_seqZ) & Hr%elem_of_seqZ). unfold piece_draw in Hd.
    destruct (piece_at b (mkPos r c)) as [q|] eqn:E; [| set_solver]. apply list_elem_of_singleton in Hd. injection Hd as -> -> ->.
    exists (mkPos r c), q. unfold on_board. cbn. split; [lia | done].
  - intros ([r c] & q & Hp & Hq & -> & -> & ->). unfold on_board in Hp. cbn [row col] in *.
    exists r. split; [| apply elem_of_seqZ; lia]. exists c. split; [| apply elem_of_seqZ; lia].
    unfold piece_draw. rewrite Hq. by apply list_elem_of_singleton.
Qed.

(** What is drawn is what is clicked.  [drawboard] returns and draws one
    image per piece, of its type and colour; a click on any point of the cell
    an image is drawn in is a click on the square of that piece, and every
    piece of the board is drawn. *)
Theorem drawn_piece_is_clicked b :
  board_ok b -> exists l, drawboard b = Ret l /\
    (forall img x0 y0 x y, DrawMasked img x0 y0 ∈ l -> x0 <= x < x0 + 90 -> y0 <= y < y0 + 90 ->
       exists q, out_of_bounds x y = false /\ square_of x y = Ret (pos q) /\ get_piece b (pos q) = Ret (Some q) /\ get_img q = img) /\
    (forall p q, on_board p -> get_piece b p = Ret (Some q) ->
       exists x0 y0, DrawMasked (get_img q) x0 y0 ∈ l /\ square_of x0 y0 = Ret p).
Proof.
  intros Hb. exists (DrawImage BoardImage 0 0 :: board_draws b). split; [by apply drawboard_ret |]. split.
  - intros img x0 y0 x y Hin Hx Hy. apply elem_of_cons in Hin as [|Hin]; [done |].
    apply board_draws_spec in Hin as (p & q & Hp & Hq & -> & -> & ->). pose proof (piece_at_pos b p q Hb Hq Hp) as Epos.
    exists q. destruct (click_in_cell p x y Hp) as [-> ->]; [split; lia |]. rewrite Epos, get_piece_ret, Hq by done. done.
  - intros p q Hp Hq. rewrite get_piece_ret in Hq by done. injection Hq as Hq.
    exists (12 + col p * 90), (822 - row p * 90). split.
    + apply list_elem_of_further, board_draws_spec. by exists p, q.
    + apply click_in_cell; [done | unfold in_cell; lia].
Qed.

(** ** The turns of the loop *)
Lemma decode_delta_range status bit mov : -32768 <= decode_delta status bit mov < 32768.
Proof.
  unfold decode_delta. generalize (if Z.land status (Z.shiftl 1 bit) =? 0 then mov else Z.lor mov 0xFF00). intros d. unfold wrap_i.
  pose proof (Z.mod_pos_bound (d + 2 ^ (16 - 1)) (2 ^ 16) ltac:(lia)). lia.
Qed.

Lemma packets_loop_ret buffer n : forall fuel i x y c,
  n <= Z.of_nat (length buffer) -> n <= 30 -> 0 <= i -> Z.max 0 (n - i) < Z.of_nat fuel ->
  Z.abs x + 32768 * Z.max 0 (n - i) < 2 ^ 31 -> Z.abs y + 32768 * Z.max 0 (n - i) < 2 ^ 31 ->
  exists x' y' c', packets_loop fuel buffer n i x y c = Ret (x', y', c').
Proof.
  induction fuel as [|fuel IH]; intros i x y c Hb Hn Hi Hf Hx Hy; [lia |]. cbn [packets_loop]. destruct (Z.ltb_spec (i + 2) n); [| by eauto].
  destruct (lookup_lt_is_Some_2 buffer (Z.to_nat i)) as [s Hs]; [lia |]. rewrite (idx_ret _ _ s) by (done || lia).
  destruct (lookup_lt_is_Some_2 buffer (Z.to_nat (i + 1))) as [xm Hxm]; [lia |]. cbn [obind]. rewrite (idx_ret _ _ xm) by (done || lia).
  destruct (lookup_lt_is_Some_2 buffer (Z.to_nat (i + 2))) as [ym Hym]; [lia |]. cbn [obind]. rewrite (idx_ret _ _ ym) by (done || lia).
  cbn [obind]. pose proof (decode_delta_range s 4 xm). pose proof (decode_delta_range s 5 ym).
  rewrite !chk_i_ret by lia. cbn [obind]. apply IH; lia.
Qed.

Lemma clamp_i_ret v lo hi : lo <= hi -> exists r, clamp_i v lo hi = Ret r /\ lo <= r <= hi.
Proof.
  intros H. unfold clamp_i. rewrite (proj2 (Z.leb_le _ _)) by lia. cbn [ensure obind]. eexists. split; [reflexivity |].
  destruct (Z.ltb_spec v lo); [lia |]. destruct (Z.ltb_spec hi v); lia.
Qed.

Section Turns.
Context {HV : HeaplessVec} {HL : HeaplessVecLaws HV}.

(** The selected piece stands on the board and is of the side to move. *)
Definition selection_ok (b : Board) (s : option Piece) : Prop :=
  match s with Some p => on_board (pos p) /\ piece_at b (pos p) = Some p /\ color p = turn b | None => True end.

Record ui_ok (w h : Z) (u : Ui) : Prop := {
  uo_game : game_ok (board u);
  uo_selected : selection_ok (board u) (selected u);
  uo_x : 0 <= mouse_x u < w;
  uo_y : 0 <= mouse_y u < h
}.

(** The squares of the dots. *)
Definition dot (to : Position) : Draw := DrawDot (38 + col to * 90) (845 - row to * 90) 14.

Lemma draw_legal_moves_ret b p :
  game_ok b -> on_board (pos p) -> exists l, draw_legal_moves p b = Ret l.
Proof.
  intros [Hb Hh Hg _ _] Hp. unfold draw_legal_moves. rewrite piece_moves_ret by done. cbn [obind].
  eexists. apply (collect_ret _ (fun m => if legal b (pos p) (to_of m) (color p) then [dot (to_of m)] else [])).
  intros m Hm. unfold piece_moves in Hm. apply list_elem_of_In, in_map_iff in Hm as (to & <- & _).
  rewrite legal_move_ret by done. cbn [obind to_of]. by destruct (legal b (pos p) to (color p)).
Qed.

Lemma draw_turn_ret w h u :
  w < 2 ^ 31 -> h < 2 ^ 31 -> ui_ok w h u -> exists d, draw_turn u = Ret (select (selected u) false false u, d).
Proof.
  intros Hw Hh [Hg Hs Hx Hy]. unfold draw_turn. destruct (redraw u || drawlegalmoves u); [| by eexists].
  assert (exists d1, (if redraw u then drawboard (board u) else Ret []) = Ret d1) as [d1 ->].
  { destruct (redraw u); [| by eexists]. eexists. apply drawboard_ret, (g_board _ Hg). }
  assert (exists d2, (match selected u with Some p => draw_legal_moves p (board u) | None => Ret [] end) = Ret d2) as [d2 ->].
  { destruct (selected u) as [p|]; [| by eexists]. destruct Hs as (Hp & _ & _). by apply draw_legal_moves_ret. }
  cbn [obind]. rewrite !chk_i_ret by lia. cbn [obind]. by eexists.
Qed.

(** What a click may do. *)
Definition click_result (w h : Z) (to : Position) (u : Ui) (o : outcome (option Ui * list Draw)) : Prop :=
  (exists u' d, o = Ret (Some u', d) /\ ui_ok w h u' /\ (board u' = board u \/ game_step (board u) (board u'))) \/
  (exists p c d, o = Ret (None, d) /\ selected u = Some p /\ play_move (board u) (MovePiece (pos p) to) = Ret (Victory c)) \/
  (exists p, o = Panic /\ selected u = Some p /\ play_move (board u) (MovePiece (pos p) to) = Ret (IllegalMove (MovePiece (pos p) to)) /\
     get_piece (board u) to = Ret None).

Lemma click_spec w h to u : ui_ok w h u -> on_board to -> click_result w h to u (click to u).
Proof.
  intros [Hg Hs Hx Hy] Ht. unfold click, click_result. pose proof (g_board _ Hg) as Hb. destruct (selected u) as [p|] eqn:Es.
  - destruct Hs as (Hp & Hat & Hc). destruct (play_legal (board u) (pos p) to Hg Hp) as (r & Er & H1 & H2). rewrite Er. cbn [obind].
    destruct r as [b' | c | m].
    + left. eexists _, _. split; [reflexivity |]. assert (St : game_step (board u) b') by (by apply (play (pos p) to)).
      split; [| by right]. destruct (game_step_ok _ _ St Hg). by split.
    + right. left. by eexists _, c, _.
    + assert (m = MovePiece (pos p) to) as ->.
      { destruct (legal (board u) (pos p) to (turn (board u))); [| by injection (H1 eq_refl)]. exfalso.
        destruct (H2 eq_refl) as (q & _ & _ & Eq). destruct (legal_moves _); [destruct (check _ _) |]; done. }
      rewrite get_piece_ret by done. cbn [obind]. destruct (piece_at (board u) to) as [q|] eqn:Hq; cbn [unwrap obind].
      * left. destruct (bool_decide_reflect (turn (board u) = color q)) as [Ec|Ec]; eexists _, _; (split; [reflexivity |]);
          (split; [| by left]); split; try done. cbn. pose proof (piece_at_pos _ _ _ Hb Hq Ht) as ->. done.
      * right. right. by exists p.
  - left. unfold has_ally_piece. rewrite get_piece_ret by done. cbn [obind].
    destruct (piece_at (board u) to) as [q|] eqn:Hq; [destruct (bool_decide_reflect (color q = turn (board u))) as [Ec|Ec] |];
      cbn [unwrap obind]; eexists _, _; (split; [reflexivity |]); (split; [| by left]); split; try done; cbn; rewrite ?Es; try done.
    pose proof (piece_at_pos _ _ _ Hb Hq Ht) as ->. done.
Qed.
(** What a turn may do: go on, with the board unchanged or after one move of the
    game; end with a win; or panic, because a piece was selected and the click
    was on an empty square it may not move to. *)
Definition turn_result (w h : Z) (u : Ui) (o : outcome (UiEnd * list Draw)) : Prop :=
  (exists u' d, o = Ret (Goes u', d) /\ ui_ok w h u' /\ (board u' = board u \/ game_step (board u) (board u'))) \/
  (exists p to c d, o = Ret (Ended, d) /\ selected u = Some p /\ play_move (board u) (MovePiece (pos p) to) = Ret (Victory c)) \/
  (exists p to, o = Panic /\ selected u = Some p /\ play_move (board u) (MovePiece (pos p) to) = Ret (IllegalMove (MovePiece (pos p) to)) /\
     get_piece (board u) to = Ret None).

Lemma draw_turn_result w h u0 u d1 :
  w < 2 ^ 31 -> h < 2 ^ 31 -> ui_ok w h u -> board u = board u0 \/ game_step (board u0) (board u) ->
  turn_result w h u0 (let! '(u, d2) := draw_turn u in Ret (Goes u, d1 ++ d2)).
Proof.
  intros Hw Hh Hu Hb. destruct (draw_turn_ret w h u Hw Hh Hu) as [d ->]. cbn [obind].
  left. eexists _, _. split; [reflexivity |]. destruct Hu. by split.
Qed.

Lemma game_turn_result w h buffer n u :
  0 < w < 2 ^ 30 -> 0 < h < 2 ^ 30 -> ui_ok w h u -> length buffer = 30%nat -> 0 <= n <= 30 ->
  turn_result w h u (game_turn w h buffer n u).
Proof.
  intros Hw Hh Hu Hl Hn. pose proof Hu as [Hg Hs Hx Hy]. unfold game_turn. destruct (n >? 0).
  2: { left. eexists _, _. split; [reflexivity |]. split; [done | by left]. }
  destruct (packets_loop_ret buffer n (S (Z.to_nat n)) 0 (mouse_x u) (mouse_y u) false) as (x1 & y1 & c & ->); [lia.. |].
  cbn [obind]. rewrite !chk_u_ret by lia. cbn [obind]. rewrite !wrap_i_small by lia.
  destruct (clamp_i_ret x1 0 (w - 1)) as (x & -> & Hx'); [lia |]. destruct (clamp_i_ret y1 0 (h - 1)) as (y & -> & Hy'); [lia |]. cbn [obind].
  set (u1 := mkUi (board u) (selected u) _ (drawlegalmoves u) x y (was_left_clicked u)).
  assert (Hu1 : ui_ok w h u1) by (split; cbn; done || lia).
  destruct (c && negb (was_left_clicked u1)) eqn:Hc; cbn [andb].
  2: { cbn [obind]. apply draw_turn_result; [lia | lia | by destruct Hu1 | by left]. }
  destruct (out_of_bounds x y) eqn:Eo.
  { left. eexists _, _. split; [reflexivity |]. split; [by destruct Hu1 | by left]. }
  destruct (square_of_on_board x y Eo) as (to & -> & Hto & _). cbn [obind].
  destruct (click_spec w h to u1 Hu1 Hto) as [(u' & d & -> & Hu' & Hb) | [(p & c' & d & -> & Es & Ep) | (p & -> & Es & Ep & Eg)]]; cbn [obind].
  - apply draw_turn_result; [lia | lia | by destruct Hu' | done].
  - right. left. by exists p, to, c', d.
  - right. right. by exists p, to.
Qed.


(** ** Drawing stays in the window, but for the cursor *)
Context {P : Painter} {PL : PainterLaws P}.

(** The window takes the board, a piece on any square and a dot on any. *)
Record fits (w h : Z) : Prop := {
  fi_board : fst (image_size BoardImage) <= w /\ snd (image_size BoardImage) <= h;
  fi_piece q : 732 + fst (image_size (get_img q)) <= w /\ 822 + snd (image_size (get_img q)) <= h;
  fi_dot : 772 <= w /\ 859 <= h
}.

(** The cursor is a disc of diameter 10 around the mouse. *)
Definition near_edge (w h : Z) (u : Ui) : Prop :=
  mouse_x u < 5 \/ mouse_y u < 5 \/ w < mouse_x u + 5 \/ h < mouse_y u + 5.

Definition draw_fits (w h : Z) (d : Draw) : Prop := forall p, in_area w h d p -> 0 <= px p < w /\ 0 <= py p < h.

Lemma board_draws_fit w h b : fits w h -> Forall (draw_fits w h) (DrawImage BoardImage 0 0 :: board_draws b).
Proof.
  intros [[Hb1 Hb2] Hp _]. constructor; [intros p; cbn; lia |]. apply Forall_forall. intros d Hd.
  assert (exists img x y, d = DrawMasked img x y) as (img & x & y & ->).
  { unfold board_draws in Hd. apply list_elem_of_bind in Hd as (r & Hd & _). apply list_elem_of_bind in Hd as (c & Hd & _).
    unfold piece_draw in Hd. destruct (piece_at b _); [| set_solver]. apply list_elem_of_singleton in Hd as ->. eauto. }
  apply board_draws_spec in Hd as ([r c] & q & Hon & _ & -> & -> & ->). destruct (Hp q). unfold on_board in Hon. intros p.
  cbn [in_area row col] in *. lia.
Qed.

Lemma dots_fit w h b p l :
  game_ok b -> on_board (pos p) -> fits w h -> draw_legal_moves p b = Ret l -> Forall (draw_fits w h) l.
Proof.
  intros [Hb Hh Hg _ _] Hp [_ _ [Hd1 Hd2]] E. unfold draw_legal_moves in E. rewrite piece_moves_ret in E by done. cbn [obind] in E.
  rewrite (collect_ret _ (fun m => if legal b (pos p) (to_of m) (color p) then [dot (to_of m)] else [])) in E.
  - injection E as <-. apply Forall_forall. intros d Hd. apply list_elem_of_bind in Hd as (m & Hd & _).
    destruct (legal b (pos p) (to_of m) (color p)) eqn:El; [| set_solver]. apply list_elem_of_singleton in Hd as ->.
    assert (Hto : on_board (to_of m)).
    { unfold legal in El. destruct (piece_at b (pos p)) as [q|]; [| done]. apply andb_true_iff in El as [[Hr _]%andb_true_iff _].
      by destruct (rule_target _ _ _ Hr). }
    unfold on_board in Hto. intros pt. cbn [dot in_area]. lia.
  - intros m Hm. unfold piece_moves in Hm. apply list_elem_of_In, in_map_iff in Hm as (to & <- & _).
    rewrite legal_move_ret by done. cbn [obind to_of]. by destruct (legal b (pos p) to (color p)).
Qed.

Lemma draw_turn_fits w h u u' d :
  ui_ok w h u -> fits w h -> draw_turn u = Ret (u', d) -> near_edge w h u' \/ Forall (draw_fits w h) d.
Proof.
  intros [Hg Hs Hx Hy] Hf E. unfold draw_turn in E. run_inv E. injection E as <- <-.
  destruct (redraw u || drawlegalmoves u); [| injection E0 as <-; by right].
  run_inv E0. run_inv E0. run_inv E0. run_inv E0. injection E0 as <-.
  unfold near_edge. cbn [select mouse_x mouse_y].
  destruct (decide (mouse_x u < 5 \/ mouse_y u < 5 \/ w < mouse_x u + 5 \/ h < mouse_y u + 5)); [by left |]. right.
  unfold chk_i in E2, E3. destruct (in_i 32 (mouse_x u - 5)); [| done]. destruct (in_i 32 (mouse_y u - 5)); [| done]. injection E2 as <-. injection E3 as <-.
  apply Forall_app; split; [| apply Forall_app; split].
  - destruct (redraw u); [| by simplify_eq; constructor]. rewrite drawboard_ret in E by apply Hg. simplify_eq. by apply board_draws_fit.
  - destruct (selected u) as [q|] eqn:Es; [| by simplify_eq; constructor]. eapply dots_fit; [exact Hg | apply Hs | done | done].
  - constructor; [intros pt; cbn [in_area]; lia |]. constructor; [by intros pt | constructor].
Qed.

Lemma click_draws to u v d w h : click to u = Ret (v, d) -> Forall (draw_fits w h) d.
Proof.
  intros E. unfold click in E. destruct (selected u).
  - run_inv E. destruct v0 as [b | c | [f t|]]; simplify_eq; try constructor; [by intros pt | constructor |].
    run_inv E. run_inv E. destruct (bool_decide _); [run_inv E |]; simplify_eq; constructor.
  - run_inv E. destruct v0; [run_inv E; run_inv E |]; simplify_eq; constructor.
Qed.
Lemma game_turn_fits w h buffer n u r d :
  0 < w < 2 ^ 30 -> 0 < h < 2 ^ 30 -> ui_ok w h u -> length buffer = 30%nat -> 0 <= n <= 30 -> fits w h ->
  game_turn w h buffer n u = Ret (r, d) -> (exists u', r = Goes u' /\ near_edge w h u') \/ Forall (draw_fits w h) d.
Proof.
  intros Hw Hh Hu Hl Hn Hf E. pose proof Hu as [Hg Hs Hx Hy]. unfold game_turn in E. destruct (n >? 0); [| simplify_eq; by right].
  destruct (packets_loop_ret buffer n (S (Z.to_nat n)) 0 (mouse_x u) (mouse_y u) false) as (x1 & y1 & c & E1); [lia.. |].
  rewrite E1 in E. cbn [obind] in E. rewrite !chk_u_ret in E by lia. cbn [obind] in E. rewrite !wrap_i_small in E by lia.
  destruct (clamp_i_ret x1 0 (w - 1)) as (x & E2 & Hx'); [lia |]. destruct (clamp_i_ret y1 0 (h - 1)) as (y & E3 & Hy'); [lia |].
  rewrite E2, E3 in E. cbn [obind] in E.
  set (u1 := mkUi (board u) (selected u) _ (drawlegalmoves u) x y (was_left_clicked u)) in E.
  assert (Hu1 : ui_ok w h u1) by (split; cbn; done || lia).
  assert (Hend : forall v d1 d2 v', ui_ok w h v -> Forall (draw_fits w h) d1 -> draw_turn v = Ret (v', d2) ->
    near_edge w h v' \/ Forall (draw_fits w h) (d1 ++ d2)).
  { intros v d1 d2 v' Hv H1 Ev. destruct (draw_turn_fits w h v v' d2 Hv Hf Ev); [by left | right; by apply Forall_app]. }
  destruct (c && negb (was_left_clicked u1)) eqn:Hc; cbn [andb] in E.
  2: { cbn [obind] in E. run_inv E. destruct v as [v d2]. injection E as <- <-.
       destruct (Hend (set_clicked c u1) [] d2 v); [by destruct Hu1 | done | done | left; eauto | by right]. }
  destruct (out_of_bounds x y) eqn:Eo; [simplify_eq; by right |].
  destruct (square_of_on_board x y Eo) as (to & Et & Hto & _). rewrite Et in E. cbn [obind] in E. run_inv E. destruct v as [next d1].
  pose proof (click_draws to u1 next d1 w h E0) as Hd1. destruct next as [v|]; [| simplify_eq; by right].
  destruct (click_spec w h to u1 Hu1 Hto) as [(v1 & d0 & Ec & Hv & _) | [(p & c' & d0 & Ec & _) | (p & Ec & _)]]; [| congruence..].
  rewrite E0 in Ec. injection Ec as <- <-. run_inv E. destruct v0 as [v' d2]. injection E as <- <-.
  destruct (Hend (set_clicked c v) d1 d2 v'); [by destruct Hv | done | done | left; eauto | by right].
Qed.

Lemma show_fits w mem l :
  window_ok w mem -> Forall (draw_fits (uw_width w) (uw_height w)) l -> exists mem', show w mem l = Ret mem' /\ window_ok w mem'.
Proof.
  intros Hm Hl. apply window_draw_ret; [done |]. apply Forall_forall. intros [p c] Hp. apply list_elem_of_bind in Hp as (d & Hd & Hin).
  rewrite Forall_forall in Hl. apply (Hl d Hin p). by eapply pixels_in_area.
Qed.

(** What a turn with its drawing may do: as above, or panic because the mouse
    is less than five pixels from an edge of the window. *)
Definition shown_result (w : UserWindow) buffer n u (o : outcome (UiEnd * list Z)) : Prop :=
  (exists u' mem, o = Ret (Goes u', mem) /\ window_ok w mem /\ ui_ok (uw_width w) (uw_height w) u' /\
     (board u' = board u \/ game_step (board u) (board u'))) \/
  (exists p to c mem, o = Ret (Ended, mem) /\ selected u = Some p /\ play_move (board u) (MovePiece (pos p) to) = Ret (Victory c)) \/
  (exists p to, o = Panic /\ selected u = Some p /\ play_move (board u) (MovePiece (pos p) to) = Ret (IllegalMove (MovePiece (pos p) to)) /\
     get_piece (board u) to = Ret None) \/
  (exists u' d, o = Panic /\ game_turn (uw_width w) (uw_height w) buffer n u = Ret (Goes u', d) /\
     near_edge (uw_width w) (uw_height w) u').

Lemma shown_turn_result w buffer n u mem :
  window_ok w mem -> fits (uw_width w) (uw_height w) -> ui_ok (uw_width w) (uw_height w) u -> length buffer = 30%nat -> 0 <= n <= 30 ->
  shown_result w buffer n u (shown_turn w buffer n u mem).
Proof.
  intros Hm Hf Hu Hl Hn. pose proof (fi_dot _ _ Hf) as [Hd1 Hd2]. pose proof Hm as [Hw Hh _ _ _ _].
  assert (Hw' : 0 < uw_width w < 2 ^ 30) by lia. assert (Hh' : 0 < uw_height w < 2 ^ 30) by lia. unfold shown_turn, shown_result.
  destruct (game_turn_result _ _ buffer n u Hw' Hh' Hu Hl Hn) as [(u' & d & E & Hu' & Hb) | [(p & to & c & d & E & H1 & H2) | (p & to & E & H1)]];
    [pose proof (game_turn_fits _ _ buffer n u _ _ Hw' Hh' Hu Hl Hn Hf E) as Hfit.. |]; rewrite E; cbn [obind].
  - unfold show. destruct (window_draw_or_panic w (d ≫= pixels_of (uw_width w) (uw_height w)) mem Hm) as [Ep | (mem1 & E1 & Hm1)].
    + destruct Hfit as [(v & [= <-] & Hv) | Hfit]; [| destruct (show_fits w mem d Hm Hfit) as (m2 & Es & _); unfold show in Es; congruence].
      rewrite Ep. do 3 right. by exists u', d.
    + rewrite E1. left. by exists u', mem1.
  - destruct Hfit as [(v & Ev & _) | Hfit]; [done |]. destruct (show_fits w mem d Hm Hfit) as (m2 & -> & _).
    right. left. by exists p, to, c, m2.
  - do 2 right. left. by exists p, to.
Qed.

(** The turns of the loop, whatever the mouse sends. *)
Inductive ui_step (w : UserWindow) : Ui * list Z -> Ui * list Z -> Prop :=
| one_turn buffer n u mem u' mem' :
    length buffer = 30%nat -> 0 <= n <= 30 -> shown_turn w buffer n u mem = Ret (Goes u', mem') -> ui_step w (u, mem) (u', mem').

Lemma ui_reachable w s0 s :
  fits (uw_width w) (uw_height w) -> rtc (ui_step w) s0 s -> window_ok w (snd s0) -> ui_ok (uw_width w) (uw_height w) (fst s0) ->
  window_ok w (snd s) /\ ui_ok (uw_width w) (uw_height w) (fst s) /\ rtc game_step (board (fst s0)) (board (fst s)).
Proof.
  intros Hf Hr. induction Hr as [s | s0 s1 s Hs _ IH]; intros Hm Hu; [done |].
  destruct Hs as [buffer n u mem u' mem' Hl Hn E]. cbn [fst snd] in *.
  destruct (shown_turn_result w buffer n u mem Hm Hf Hu Hl Hn)
    as [(v & m1 & E1 & Hm1 & Hv & Hb) | [(p & to & c & m1 & E1 & _) | [(p & to & E1 & _) | (v & d & E1 & _)]]]; [| congruence..].
  assert (Ev : v = u' /\ m1 = mem') by (by rewrite E in E1; injection E1 as -> ->). destruct Ev as [-> ->].
  destruct (IH Hm1 Hv) as (H1 & H2 & H3). split; [done |]. split; [done |].
  destruct Hb as [Hb | Hb]; [by rewrite <- Hb | by eapply rtc_l].
Qed.

Lemma shown_start_ok w fen mem0 u0 mem :
  window_ok w mem0 -> fits (uw_width w) (uw_height w) -> shown_start w fen mem0 = Ret (u0, mem) -> game_ok (board u0) ->
  window_ok w mem /\ ui_ok (uw_width w) (uw_height w) u0.
Proof.
  intros Hm Hf E Hg. pose proof (fi_dot _ _ Hf) as [Hd1 Hd2]. pose proof Hm as [Hw Hh _ _ _ _].
  unfold shown_start in E. run_inv E. destruct v as [u d]. run_inv E. injection E as <- <-. split.
  - destruct (window_draw_or_panic w (d ≫= pixels_of (uw_width w) (uw_height w)) mem0 Hm) as [Ep | (mem1 & E2 & Hm1)]; unfold show in E1; congruence.
  - unfold game_start in E0. run_inv_all. injection E0 as <- _. split; [done | done | |]; cbn [mouse_x mouse_y];
      rewrite wrap_i_small, Z.quot_div_nonneg by lia; (split; [apply Z.div_pos; lia | apply Z.div_lt; lia]) || idtac.
Qed.

(** [C38] The program plays the game by the engine's rules.  When the position
    it starts with is one of the game ([game_ok]: both generals at home, the side
    that moved not in check, and no more moves than the engine's vectors take)
    and the window takes the board, then after any turns with any packets from
    the mouse the board has been reached by moves the engine accepted, the
    selected piece stands on it and is of the side to move, and the mouse is in
    the window.  The next turn goes on in such a state, ends because a move won,
    panics because the click was on an empty square the selected piece may not
    move to, or panics while it draws with the mouse less than five pixels from
    an edge of the window, as nothing clips the cursor; there is no other panic.
    The position that is built in is not one of the game
    ([start_position_panics]). *)
Theorem ui_plays_by_rules w fen mem0 u0 mem1 u mem buffer n :
  window_ok w mem0 -> fits (uw_width w) (uw_height w) -> shown_start w fen mem0 = Ret (u0, mem1) -> game_ok (board u0) ->
  rtc (ui_step w) (u0, mem1) (u, mem) -> length buffer = 30%nat -> 0 <= n <= 30 ->
  ui_ok (uw_width w) (uw_height w) u /\ rtc game_step (board u0) (board u) /\
  shown_result w buffer n u (shown_turn w buffer n u mem).
Proof.
  intros Hm Hf E Hg Hr Hl Hn. destruct (shown_start_ok w fen mem0 u0 mem1 Hm Hf E Hg) as [Hm1 Hu0].
  destruct (ui_reachable w _ _ Hf Hr Hm1 Hu0) as (Hm2 & Hu & Hb). split; [done |]. split; [done |]. by apply shown_turn_result.
Qed.
End Turns.

(** ** Two games *)
Module UiWitness.
Import ListVec XqWitness FenWitness.
Definition pad (l : list Z) : list Z := l ++ replicate (30 - length l) 0.
Definition opening : list Z := print_fen start Red [49].
Definition begun (fen : list Z) : Ui :=
  match game_start 1280 1024 fen with Ret (u, _) => u | _ => mkUi empty None false false 0 0 false end.
Definition after (bytes : list Z) (u : Ui) : Ui :=
  match game_turn 1280 1024 (pad bytes) (Z.of_nat (length bytes)) u with Ret (Goes u, _) => u | _ => u end.

(** Two packets move the cursor to a red cannon and press the button. *)
Definition cannon_selected : Ui := after [48; 11; 171; 49; 11; 171] (begun opening).
Example cannon_is_selected :
  selected cannon_selected = Some red_cannon /\ (mouse_x cannon_selected, mouse_y cannon_selected) = (150, 682).
Proof. vm_compute. done. Qed.

(** A small painter: an image is one pixel, a disc its four corners. *)
#[local] Instance corners : Painter := {|
  image_size _ := (1, 1);
  pixels_of w h d :=
    match d with
    | DrawImage _ x y | DrawMasked _ x y => [(mkPoint x y, 1)]
    | DrawDot x y n | DrawCursor x y n =>
        if 0 <? n then [(mkPoint x y, 2); (mkPoint (x + n - 1) y, 2); (mkPoint x (y + n - 1), 2); (mkPoint (x + n - 1) (y + n - 1), 2)] else []
    | ClearBlack | NotifyFrameUpdate => []
    end
|}.
#[local] Instance corners_laws : PainterLaws corners.
Proof.
  intros w h d p c H. destruct d; cbn [pixels_of corners] in H; try (by apply elem_of_nil in H);
    try (apply list_elem_of_singleton in H; injection H as -> _; cbn; lia);
    (destruct (Z.ltb_spec 0 diameter); [| by apply elem_of_nil in H]);
    repeat (apply elem_of_cons in H as [H | H]; [injection H as -> _; cbn; lia |]); by apply elem_of_nil in H.
Qed.

(** A screen of 1280 by 1024 pixels whose lines take 2560 bytes. *)
Definition window1 : UserWindow :=
  {| base_addr := MMAP_BASE; uw_width := 1280; uw_height := 1024; uw_bytes_per_pixel := 2; uw_bytes_per_line := 2560 |}.
Definition black_window : list Z := replicate (Z.to_nat 2621440) 0.
Lemma blank_ok : window_ok window1 black_window.
Proof.
  split; [cbn; lia | cbn; lia | done | cbn; lia | cbn; lia |]. unfold black_window. rewrite length_replicate, Z2Nat.id by lia. cbn [uw_bytes_per_line uw_height window1]. lia.
Qed.
Lemma window1_fits : fits 1280 1024.
Proof. split; cbn; lia. Qed.

Lemma begun_start : exists mem, shown_start window1 opening black_window = Ret (begun opening, mem) /\ window_ok window1 mem.
Proof.
  assert (exists d, game_start 1280 1024 opening = Ret (begun opening, d) /\ Forall (draw_fits 1280 1024) d) as (d & E & Hd).
  { eexists. split; [vm_compute; reflexivity |]. repeat (constructor; [intros pt; cbn; lia |]). constructor. }
  unfold shown_start. cbn [uw_width uw_height window1]. rewrite E. cbn [obind].
  destruct (show_fits window1 black_window d blank_ok Hd) as (mem & Es & Hm). exists mem. rewrite Es. split; [reflexivity | exact Hm].
Qed.
Lemma begun_ok : game_ok (board (begun opening)).
Proof. apply game_okb_spec. vm_compute. reflexivity. Qed.
Lemma cannon_turn mem : window_ok window1 mem -> exists mem', ui_step window1 (begun opening, mem) (cannon_selected, mem').
Proof.
  intros Hm. assert (exists d, game_turn 1280 1024 (pad [48; 11; 171; 49; 11; 171]) 6 (begun opening) = Ret (Goes cannon_selected, d) /\
    Forall (draw_fits 1280 1024) d) as (d & E & Hd).
  { eexists. split; [vm_compute; reflexivity |]. repeat (constructor; [intros pt; cbn; lia |]). constructor. }
  destruct (show_fits window1 mem d Hm Hd) as (mem' & Es & _). exists mem'.
  apply (one_turn window1 (pad [48; 11; 171; 49; 11; 171]) 6); [done | lia |].
  unfold shown_turn. cbn [uw_width uw_height window1]. rewrite E. cbn [obind]. by rewrite Es.
Qed.

Lemma ui_plays_by_rules_witness :
  exists mem, ui_ok 1280 1024 cannon_selected /\ rtc game_step (board (begun opening)) (board cannon_selected) /\
    shown_result window1 (pad [1; 0; 0]) 3 cannon_selected (shown_turn window1 (pad [1; 0; 0]) 3 cannon_selected mem).
Proof.
  destruct begun_start as (mem1 & E & Hm1). destruct (cannon_turn mem1 Hm1) as (mem & Hs). assert (B : 0 <= 3 <= 30) by lia. exists mem.
  exact (ui_plays_by_rules window1 opening black_window (begun opening) mem1 cannon_selected mem (pad [1; 0; 0]) 3
    blank_ok window1_fits E begun_ok (rtc_once _ _ Hs) eq_refl B).
Defined.

(** With the mouse at the left edge the cursor's pixels are left of the window,
    and drawing them panics. *)
Example cursor_at_edge_panics mem : window_ok window1 mem ->
  exists u d, game_turn 1280 1024 (pad [16; 0; 0; 16; 0; 0; 16; 0; 0]) 9 (begun opening) = Ret (Goes u, d) /\ mouse_x u = 0 /\
    shown_turn window1 (pad [16; 0; 0; 16; 0; 0; 16; 0; 0]) 9 (begun opening) mem = Panic.
Proof.
  intros Hm. assert (exists u d1 y, game_turn 1280 1024 (pad [16; 0; 0; 16; 0; 0; 16; 0; 0]) 9 (begun opening) =
      Ret (Goes u, d1 ++ [DrawCursor (-5) y 10; NotifyFrameUpdate]) /\ mouse_x u = 0 /\ y = 507 /\ Forall (draw_fits 1280 1024) d1)
    as (u & d1 & y & E & Hx & Hy & Hd).
  { eexists _, (_ :: board_draws start), 507. split; [vm_compute; reflexivity |]. split; [done |]. split; [done |].
    apply board_draws_fit, window1_fits. }
  exists u, (d1 ++ [DrawCursor (-5) y 10; NotifyFrameUpdate]). split; [done |]. split; [done |].
  unfold shown_turn. cbn [uw_width uw_height window1]. rewrite E. cbn [obind]. unfold show. rewrite bind_app, window_draw_app.
  destruct (show_fits window1 mem d1 Hm Hd) as (mem1 & Es & Hm1). unfold show in Es. rewrite Es. cbn [obind].
  cbn [mbind list_bind pixels_of corners app window_draw_iter uw_width uw_height window1].
  change (0 <? 10) with true. cbn [app window_draw_iter]. rewrite window_left_panics; [done | done | cbn; lia | cbn; lia].
Qed.

Lemma drawn_piece_is_clicked_witness :
  exists l, drawboard start = Ret l /\
    (forall img x0 y0 x y, DrawMasked img x0 y0 ∈ l -> x0 <= x < x0 + 90 -> y0 <= y < y0 + 90 ->
       exists q, out_of_bounds x y = false /\ square_of x y = Ret (pos q) /\ get_piece start (pos q) = Ret (Some q) /\ get_img q = img) /\
    (forall p q, on_board p -> get_piece start p = Ret (Some q) ->
       exists x0 y0, DrawMasked (get_img q) x0 y0 ∈ l /\ square_of x0 y0 = Ret p).
Proof. apply (drawn_piece_is_clicked start). apply (g_board _ start_ok). Defined.

(** The button is released; a click on an empty square off the cannon's lines
    ends the program. *)
Example click_on_empty_square_panics :
  game_turn 1280 1024 (pad [1; 100; 180]) 3 (after [0; 0; 0] cannon_selected) = Panic.
Proof. vm_compute. done. Qed.

(** The position the program starts with has Black in check and Red to move:
    Red takes the general, and the search for it panics. *)
Example start_position_panics :
  let u := after [0; 0; 0] (after [48; 16; 82; 33; 0; 82] (begun mate_fen)) in
  selected u = Some {| piece_type := Cannon; pos := mkPos 0 4; color := Red |} /\
  game_turn 1280 1024 (pad [0; 0; 236; 0; 0; 237; 1; 0; 237]) 9 u = Panic /\
  play_move (board u) (MovePiece (mkPos 0 4) (mkPos 8 4)) = Panic.
Proof. vm_compute. done. Qed.
End UiWitness.
