(* ===== verification/Render.v ===== *)
(** * The console on the screen

    The renderer of [kernel/src/console.rs], pixel by pixel: painting a
    character, the dirty rows and the cursor in the back buffer, and
    [Console::paint], which copies the back buffer to the frame buffer.
    Drawing a text and a filled rectangle belong to the embedded_graphics
    crate: they are a class with laws.  After a paint the screen shows the
    terminal. *)
From S2P Require Import Prelude Slices Text UserMem Console Graphics.

(** ** The text of embedded_graphics *)

(** The font [FONT_7X14] (its sizes, and the pixels of its characters row by
    row), [Rgb565::new], the drawing of a text whose position is its top left
    corner ([Baseline::Top]) and of a rectangle with a fill colour. *)
Class TextApi := {
  char_width : Z;
  char_height : Z;
  character_spacing : Z;
  font_bits : Z -> list bool;
  rgb565_new : Z -> Z -> Z -> Z;
  text_draw : Screen -> list Z -> Point -> Z -> Z -> outcome Screen;
  styled_rect_draw : Screen -> Rectangle -> Z -> outcome Screen
}.

(** A text of one ASCII character fills its cell with the colours of the
    character and of the background; a filled rectangle is filled. *)
Class TextLaws `{R : RectApi} (T : TextApi) : Prop := {
  font_size : char_width = 7 /\ char_height = 14 /\ character_spacing = 0;
  font_bits_length c : length (font_bits c) = 98%nat;
  rgb565_16 r g b : 0 <= rgb565_new r g b < 2 ^ 16;
  text_draw_char s c p fg bg : 0 <= c < 128 ->
    text_draw s [c] p fg bg = fill_contiguous s (mkRect p 7 14) ((fun b : bool => if b then fg else bg) <$> font_bits c);
  styled_rect_draw_fills s r c : styled_rect_draw s r c = fill_solid s r c
}.

Section Painting.
Context {T : TextApi}.

Definition text_color : Z := rgb565_new 187 187 187.
Definition background_color : Z := rgb565_new 3 6 3.
Definition cursor_color : Z := rgb565_new 22 31 12.

(** The position of a cell: [row * (height + line_height)] and
    [col * (width + spacing)], with a padding of 20 pixels. *)
Definition cell_position (row col : Z) : outcome Point :=
  let line_height := 3 in
  let! h := chk_u 32 (char_height + line_height) in
  let! y := chk_u 64 (row * h) in
  let! w := chk_u 32 (char_width + character_spacing) in
  let! x := chk_u 64 (col * w) in
  let! x := chk_u 64 (x + 20) in
  let! y := chk_u 64 (y + 20) in
  Ret (mkPoint (wrap_i 32 x) (wrap_i 32 y)).

(** [get] *)
Definition vt_get (v : VirtualTerminal) (row col : Z) : outcome ScreenChar :=
  let! r := idx (buffer v) row in idx r col.

(** Control characters, and bytes that are no UTF-8 by themselves, are shown
    as spaces. *)
Definition cell_text (character : ScreenChar) : list Z :=
  let printable_char :=
    if (ascii_character character <? 32) || (ascii_character character =? 127) then 32 else ascii_character character in
  if utf8_valid [printable_char] then [printable_char] else [32].

Definition paint_char (v : VirtualTerminal) (s : Screen) (row col : Z) : outcome Screen :=
  let! p := cell_position row col in
  let! character := vt_get v row col in
  text_draw s (cell_text character) p text_color background_color.

Definition paint_cursor (s : Screen) (row col : Z) : outcome Screen :=
  let! p := cell_position row col in
  styled_rect_draw s (mkRect p char_width char_height) cursor_color.

(** The inner loop of [paint_dirty] over the columns, and the outer one over
    the rows. *)
Fixpoint paint_chars (n : nat) (v : VirtualTerminal) (s : Screen) (row col : Z) : outcome Screen :=
  match n with
  | O => Ret s
  | S n => let! s := paint_char v s row col in paint_chars n v s row (col + 1)
  end.

Fixpoint paint_lines (n : nat) (v : VirtualTerminal) (s : Screen) (row : Z) : outcome (VirtualTerminal * Screen) :=
  match n with
  | O => Ret (v, s)
  | S n =>
      let! dirty := idx (dirty_row v) row in
      if dirty then
        let! s := paint_chars (Z.to_nat BUFFER_WIDTH) v s row 0 in
        let! d := upd (dirty_row v) row false in
        paint_lines n (set_dirty d v) s (row + 1)
      else paint_lines n v s (row + 1)
  end.

Definition paint_screen (v : VirtualTerminal) (s : Screen) : outcome (VirtualTerminal * Screen) :=
  let! '(v, s) :=
    if needs_scroll v then
      let! h := chk_u 64 (char_height + 3) in
      let! s := scroll h s in Ret (set_scroll false v, s)
    else Ret (v, s) in
  paint_lines (Z.to_nat BUFFER_HEIGHT) v s 0.

(** [Console::paint], with the terminal, the screen and the frame buffer; the
    position the cursor was painted at is kept and not used again. *)
Record Console := mkConsole { c_terminal : VirtualTerminal; last_cursor_pos : Z * Z }.

Definition console_new : Console := mkConsole vt_new (0, 0).

Definition paint (c : Console) (s : Screen) (lfb : list Z) : outcome (Console * Screen * list Z) :=
  let! '(v, s) := paint_screen (c_terminal c) s in
  let '(r, c) := (row_position v, column_position v) in
  let! s := paint_cursor s r c in
  let! lfb := flush s lfb in
  Ret (mkConsole v (r, c), s, lfb).
End Painting.

(** ** Drawing distinct points *)
Lemma draw_other_pixel l : forall s s' q,
  screen_ok s -> draw_iter s l = Ret s' -> on_screen s q -> q ∉ l.*1 -> pixel s' q = pixel s q.
Proof.
  induction l as [|[p c] l IH]; intros s s' q Hs E Hq Hn; [by injection E as <- |].
  cbn [draw_iter] in E. destruct (set_pixel_ok s p c Hs) as (s1 & E1 & Hs1 & Hc). rewrite E1 in E. cbn [obind] in E.
  cbn in Hn. apply not_elem_of_cons in Hn as [Hqp Hn].
  rewrite (IH s1 s' q Hs1 E) by (done || (unfold on_screen; by rewrite Hc)).
  destruct (decide (on_screen s p)) as [Hp|Hp].
  - rewrite set_pixel_on in E1 by done. injection E1 as <-. rewrite pixel_put by done. by rewrite decide_False.
  - rewrite set_pixel_off in E1 by done. by injection E1 as <-.
Qed.

Lemma draw_pixel l : forall s s' q c,
  screen_ok s -> draw_iter s l = Ret s' -> on_screen s q -> NoDup l.*1 -> (q, c) ∈ l -> pixel s' q = c mod 2 ^ 16.
Proof.
  induction l as [|[p d] l IH]; intros s s' q c Hs E Hq Hnd Hin; [by apply elem_of_nil in Hin |].
  cbn [draw_iter] in E. destruct (set_pixel_ok s p d Hs) as (s1 & E1 & Hs1 & Hc). rewrite E1 in E. cbn [obind] in E.
  assert (Hq1 : on_screen s1 q) by (unfold on_screen; by rewrite Hc).
  cbn in Hnd. apply NoDup_cons in Hnd as [Hp Hnd]. apply elem_of_cons in Hin as [[= -> ->]|Hin].
  - rewrite (draw_other_pixel l s1 s' p Hs1 E Hq1 Hp). rewrite set_pixel_on in E1 by done. injection E1 as <-.
    rewrite pixel_put by done. by rewrite decide_True.
  - by apply (IH s1).
Qed.

(** The points of a rectangle by their index. *)
Lemma concat_rows_lookup {A} (f : Z -> list A) w ys : forall i j,
  (forall y, length (f y) = w) -> (i < length ys)%nat -> (j < w)%nat ->
  concat (f <$> ys) !! (i * w + j)%nat = ys !! i ≫= fun y => f y !! j.
Proof.
  induction ys as [|y ys IH]; intros i j Hf Hi Hj; simpl in Hi; [lia |]. cbn [fmap list_fmap concat].
  destruct i as [|i].
  - rewrite lookup_app_l by (rewrite Hf; lia). done.
  - rewrite lookup_app_r by (rewrite Hf; lia). rewrite Hf. replace (S i * w + j - w)%nat with (i * w + j)%nat by lia.
    apply IH; [done | lia | done].
Qed.

Lemma all_points_lookup r q : inside r q ->
  all_points r !! Z.to_nat ((py q - py (top_left r)) * rw r + (px q - px (top_left r))) = Some q.
Proof.
  intros [Hx Hy]. unfold all_points.
  replace (Z.to_nat ((py q - py (top_left r)) * rw r + (px q - px (top_left r))))
    with (Z.to_nat (py q - py (top_left r)) * Z.to_nat (rw r) + Z.to_nat (px q - px (top_left r)))%nat by nia.
  rewrite concat_rows_lookup; [| intros; apply length_row_points; lia | rewrite length_seqZ; lia | lia].
  rewrite lookup_seqZ_lt by lia. cbn. unfold row_points. rewrite list_lookup_fmap, lookup_seqZ_lt by lia. cbn.
  f_equal. destruct q. simpl in *. f_equal; lia.
Qed.

Lemma all_points_NoDup r : NoDup (all_points r).
Proof.
  unfold all_points. generalize (NoDup_seqZ (py (top_left r)) (rh r)). induction (seqZ _ (rh r)) as [|y ys IH]; intros Hn.
  { apply NoDup_nil_2. }
  apply NoDup_cons in Hn as [Hy Hn]. cbn [fmap list_fmap concat]. apply NoDup_app. split_and!.
  - apply NoDup_fmap_2; [by intros x x' [=] | apply NoDup_seqZ].
  - intros p (x & -> & _)%list_elem_of_fmap (l & Hl & Hp)%list_elem_of_In%in_concat.
    apply list_elem_of_In, list_elem_of_fmap in Hl as (y' & -> & Hy').
    apply list_elem_of_In, list_elem_of_fmap in Hp as (x' & [= _ <-] & _). done.
  - by apply IH.
Qed.

Lemma length_all_points r : 0 <= rw r -> length (all_points r) = Z.to_nat (rw r * rh r).
Proof.
  intros Hw. unfold all_points.
  transitivity (length (seqZ (py (top_left r)) (rh r)) * Z.to_nat (rw r))%nat; [| rewrite length_seqZ; lia].
  induction (seqZ _ _) as [|y ys IH]; [done |]. cbn [fmap list_fmap concat length].
  rewrite length_app, length_row_points, IH by done. lia.
Qed.

Section Filled.
Context {R : RectApi} {RL : RectLaws R}.

(** Filling a rectangle with as many colours as it has points. *)
Lemma fill_contiguous_pixels s area colors :
  screen_ok s -> rect_ok area -> Z.of_nat (length colors) = rw area * rh area ->
  exists s', fill_contiguous s area colors = Ret s' /\ screen_ok s' /\ sc s' = sc s /\
    forall q, on_screen s q -> pixel s' q =
      if decide (inside area q)
      then default 0 (colors !! Z.to_nat ((py q - py (top_left area)) * rw area + (px q - px (top_left area)))) mod 2 ^ 16
      else pixel s q.
Proof.
  intros Hs Ha Hl. rewrite fill_contiguous_draw, points_in_order by done.
  destruct (draw_iter_ok (zip (all_points area) colors) s Hs) as (s' & E & Hs' & Hc).
  exists s'. split; [done |]. split; [done |]. split; [done |]. intros q Hq. case_decide as Hin.
  - pose proof (all_points_lookup area q Hin) as Hp. set (i := Z.to_nat _) in *.
    assert (exists c, colors !! i = Some c) as [c Hcol].
    { apply lookup_lt_is_Some. destruct Hin. unfold i. nia. }
    rewrite Hcol. cbn. apply (draw_pixel _ s s' q c Hs E Hq).
    + rewrite fst_zip; [apply all_points_NoDup |]. rewrite length_all_points by apply Ha. lia.
    + apply list_elem_of_lookup. exists i. apply lookup_zip_with_Some. eauto.
  - apply (draw_other_pixel _ s s' q Hs E Hq). intros ([p c] & -> & Hpc%elem_of_zip_l)%list_elem_of_fmap.
    by apply elem_of_all_points in Hpc.
Qed.

Lemma fill_solid_pixels s area color :
  screen_ok s -> rect_ok area ->
  exists s', fill_solid s area color = Ret s' /\ screen_ok s' /\ sc s' = sc s /\
    forall q, on_screen s q -> pixel s' q = if decide (inside area q) then color mod 2 ^ 16 else pixel s q.
Proof.
  intros Hs Ha. rewrite fill_solid_draw by done.
  destruct (draw_iter_ok ((fun p => (p, color)) <$> points area) s Hs) as (s' & E & Hs' & Hc).
  exists s'. split; [done |]. split; [done |]. split; [done |]. intros q Hq. rewrite (draw_solid_pixels _ _ _ _ _ Hs E Hq).
  rewrite points_in_order by done. apply decide_ext. split; [apply elem_of_all_points | apply all_points_elem].
Qed.
End Filled.

(** ** Cells *)
Definition cell_rect (row col : Z) : Rectangle := mkRect (mkPoint (20 + 7 * col) (20 + 17 * row)) 7 14.

(** The cell a point lies in; between the lines there are three rows of
    pixels, and the padding is above and on the left. *)
Definition cell_of (q : Point) : option (Z * Z) :=
  if bool_decide (20 <= px q /\ 20 <= py q /\ (py q - 20) mod 17 < 14) then Some ((py q - 20) / 17, (px q - 20) / 7) else None.

Lemma cell_of_inside row col q : 0 <= row -> 0 <= col -> inside (cell_rect row col) q <-> cell_of q = Some (row, col).
Proof.
  intros Hr Hc. unfold inside, cell_of. cbn [top_left cell_rect px py rw rh].
  pose proof (Z.div_mod (py q - 20) 17 ltac:(lia)). pose proof (Z.mod_pos_bound (py q - 20) 17 ltac:(lia)).
  pose proof (Z.div_mod (px q - 20) 7 ltac:(lia)). pose proof (Z.mod_pos_bound (px q - 20) 7 ltac:(lia)).
  case_bool_decide as Hb.
  - split; [intros [Hx Hy]; do 2 f_equal; lia | intros [= <- <-]; lia].
  - split; [intros [Hx Hy] | done]. destruct Hb. assert ((py q - 20) / 17 = row) by lia. lia.
Qed.

Lemma cell_of_nonneg q row col : cell_of q = Some (row, col) -> 0 <= row /\ 0 <= col.
Proof.
  unfold cell_of. case_bool_decide as Hb; [| done]. intros [= <- <-]. split; apply Z.div_pos; lia.
Qed.

Lemma if_cell {A} row col q (a b : A) : 0 <= row -> 0 <= col ->
  (if decide (inside (cell_rect row col) q) then a else b) = if decide (cell_of q = Some (row, col)) then a else b.
Proof. intros Hr Hc. apply decide_ext. by apply cell_of_inside. Qed.

Section Cells.
Context {R : RectApi} {RL : RectLaws R} {T : TextApi} {TL : TextLaws T}.

Lemma cell_position_ret row col : 0 <= row <= 40 -> 0 <= col <= 150 ->
  cell_position row col = Ret (mkPoint (20 + 7 * col) (20 + 17 * row)).
Proof.
  intros Hr Hc. unfold cell_position. destruct font_size as (-> & -> & ->).
  rewrite chk_u_ret by lia. cbn [obind]. rewrite chk_u_ret by lia. cbn [obind]. rewrite chk_u_ret by lia. cbn [obind].
  rewrite chk_u_ret by lia. cbn [obind]. rewrite chk_u_ret by lia. cbn [obind]. rewrite chk_u_ret by lia. cbn [obind].
  rewrite !wrap_i_small by lia. do 2 f_equal; lia.
Qed.

Lemma cell_rect_ok row col : 0 <= row <= 40 -> 0 <= col <= 150 -> rect_ok (cell_rect row col).
Proof. intros. unfold rect_ok. simpl. lia. Qed.

(** The character that is drawn for a cell, and the colour of a point of it. *)
Definition shown_char (ch : ScreenChar) : Z :=
  if bool_decide (32 <= ascii_character ch < 127) then ascii_character ch else 32.

Lemma cell_text_char ch : cell_text ch = [shown_char ch] /\ 0 <= shown_char ch < 128.
Proof.
  unfold cell_text, shown_char. case_bool_decide as Hb.
  - rewrite (proj2 (Z.ltb_ge _ _)), (proj2 (Z.eqb_neq _ _)) by lia. cbn [orb utf8_valid].
    rewrite (proj2 (Z.leb_le _ _)) by lia. split; [done | lia].
  - split; [| lia]. destruct (Z.ltb_spec (ascii_character ch) 32); [done |].
    destruct (Z.eqb_spec (ascii_character ch) 127); [done |]. cbn [orb utf8_valid].
    by rewrite (proj2 (Z.leb_gt _ _)) by lia.
Qed.

Definition cell_color (ch : ScreenChar) (q : Point) : Z :=
  match font_bits (shown_char ch) !! Z.to_nat ((py q - 20) mod 17 * 7 + (px q - 20) mod 7) with
  | Some true => text_color
  | _ => background_color
  end.

(** Painting a character changes the points of its cell only. *)
Lemma paint_char_pixels v s row col ch :
  screen_ok s -> 0 <= row < 40 -> 0 <= col < 150 -> vt_get v row col = Ret ch ->
  exists s', paint_char v s row col = Ret s' /\ screen_ok s' /\ sc s' = sc s /\
    forall q, on_screen s q ->
      pixel s' q = if decide (cell_of q = Some (row, col)) then cell_color ch q else pixel s q.
Proof.
  intros Hs Hr Hc Hch. unfold paint_char. rewrite cell_position_ret by lia. cbn [obind]. rewrite Hch. cbn [obind].
  destruct (cell_text_char ch) as [-> Hb]. rewrite text_draw_char by done.
  destruct (fill_contiguous_pixels s (cell_rect row col)
    ((fun b : bool => if b then text_color else background_color) <$> font_bits (shown_char ch)))
    as (s' & E & Hs' & Hsc & Hp); [done | apply cell_rect_ok; lia | by rewrite length_fmap, font_bits_length |].
  exists s'. split; [exact E |]. split; [done |]. split; [done |]. intros q Hq. rewrite (Hp q Hq).
  rewrite if_cell by lia. case_decide as Hcell; [| done].
  apply (cell_of_inside row col q ltac:(lia) ltac:(lia)) in Hcell. unfold cell_color. rewrite list_lookup_fmap.
  destruct Hcell as [Hx Hy]. cbn [cell_rect top_left px py rw rh] in *.
  assert ((py q - 20) mod 17 = py q - (20 + 17 * row)) as -> by (symmetry; apply Z.mod_unique with row; lia).
  assert ((px q - 20) mod 7 = px q - (20 + 7 * col)) as -> by (symmetry; apply Z.mod_unique with col; lia).
  pose proof (rgb565_16 187 187 187). pose proof (rgb565_16 3 6 3).
  destruct (lookup_lt_is_Some_2 (font_bits (shown_char ch)) (Z.to_nat ((py q - (20 + 17 * row)) * 7 + (px q - (20 + 7 * col))))) as [b ->].
  { rewrite font_bits_length. lia. }
  cbn. destruct b; by rewrite Z.mod_small.
Qed.

Lemma paint_cursor_pixels s row col : screen_ok s -> 0 <= row < 40 -> 0 <= col <= 150 ->
  exists s', paint_cursor s row col = Ret s' /\ screen_ok s' /\ sc s' = sc s /\
    forall q, on_screen s q -> pixel s' q = if decide (cell_of q = Some (row, col)) then cursor_color else pixel s q.
Proof.
  intros Hs Hr Hc. unfold paint_cursor. rewrite cell_position_ret by lia. cbn [obind].
  destruct font_size as (-> & -> & _). rewrite styled_rect_draw_fills.
  destruct (fill_solid_pixels s (cell_rect row col) cursor_color) as (s' & E & Hs' & Hsc & Hp); [done | apply cell_rect_ok; lia |].
  exists s'. split; [exact E |]. split; [done |]. split; [done |]. intros q Hq. rewrite (Hp q Hq).
  rewrite if_cell by lia. pose proof (rgb565_16 22 31 12). case_decide; [| done].
  by rewrite Z.mod_small.
Qed.

(** ** Rows and the whole screen *)
Definition cell (v : VirtualTerminal) (row col : Z) : ScreenChar :=
  default blank (buffer v !! Z.to_nat row ≫= fun r => r !! Z.to_nat col).
Definition dirty (v : VirtualTerminal) (row : Z) : Prop := dirty_row v !! Z.to_nat row = Some true.
#[local] Instance dirty_dec v row : Decision (dirty v row).
Proof. unfold dirty. apply _. Defined.

(** The points of the cells that [P] selects show the terminal, the others
    have the colours [old]. *)
Definition repaint (v : VirtualTerminal) (P : Z -> Z -> bool) (old : Point -> Z) (q : Point) : Z :=
  match cell_of q with
  | Some (row, col) => if P row col then cell_color (cell v row col) q else old q
  | None => old q
  end.

Lemma vt_get_ret v row col : vt_ok v -> 0 <= row < 40 -> 0 <= col < 150 -> vt_get v row col = Ret (cell v row col).
Proof.
  intros Hv Hr Hc. unfold vt_get, cell.
  destruct (lookup_lt_is_Some_2 (buffer v) (Z.to_nat row)) as [r Er]; [rewrite (vo_rows v Hv); lia |].
  pose proof (proj1 (Forall_lookup _ _) (vo_cols v Hv) _ _ Er) as Hl. cbn in Hl.
  destruct (lookup_lt_is_Some_2 r (Z.to_nat col)) as [ch Ech]; [lia |].
  rewrite Er. cbn. rewrite Ech. rewrite (idx_ret _ _ r) by (done || lia). cbn. by rewrite (idx_ret _ _ ch) by (done || lia).
Qed.

Lemma paint_chars_pixels n : forall v s row col,
  screen_ok s -> vt_ok v -> 0 <= row < 40 -> 0 <= col -> col + Z.of_nat n <= 150 ->
  exists s', paint_chars n v s row col = Ret s' /\ screen_ok s' /\ sc s' = sc s /\
    forall q, on_screen s q ->
      pixel s' q = repaint v (fun r c => bool_decide (r = row /\ col <= c < col + Z.of_nat n)) (pixel s) q.
Proof.
  induction n as [|n IH]; intros v s row col Hs Hv Hr Hc Hn; cbn [paint_chars].
  { exists s. split; [done |]. split; [done |]. split; [done |]. intros q _. unfold repaint.
    destruct (cell_of q) as [[r c]|]; [| done]. case_bool_decide; [lia | done]. }
  destruct (paint_char_pixels v s row col (cell v row col)) as (s1 & E1 & Hs1 & Hc1 & Hp1);
    [done | done | lia | apply vt_get_ret; lia || done |].
  destruct (IH v s1 row (col + 1)) as (s2 & E2 & Hs2 & Hc2 & Hp2); [done | done | done | lia | lia |].
  rewrite E1. cbn [obind]. exists s2. split; [done |]. split; [done |]. split; [congruence |]. intros q Hq.
  rewrite Hp2 by (unfold on_screen; by rewrite Hc1). unfold repaint. rewrite (Hp1 q Hq).
  destruct (cell_of q) as [[r c]|]; [| done]. destruct (decide (Some (r, c) = Some (row, col))) as [[= -> ->]|Hne].
  - by rewrite bool_decide_false, bool_decide_true by lia.
  - repeat case_bool_decide; try done; [lia |]. destruct Hne. do 2 f_equal; lia.
Qed.

Lemma if_bool_decide_ext {A} (P Q : Prop) `{Decision P, Decision Q} (a b : A) :
  P <-> Q -> (if bool_decide P then a else b) = if bool_decide Q then a else b.
Proof. intros HPQ. by rewrite (bool_decide_ext P Q). Qed.

Definition dirty_cell (v : VirtualTerminal) (from : Z) (row col : Z) : bool :=
  bool_decide (from <= row < 40 /\ 0 <= col < 150 /\ dirty v row).

Lemma set_dirty_ok v d : vt_ok v -> length d = 40%nat -> vt_ok (set_dirty d v).
Proof. intros [] Hd. by split. Qed.

Lemma paint_lines_pixels n : forall v s row,
  screen_ok s -> vt_ok v -> 0 <= row -> row + Z.of_nat n = 40 ->
  exists d s', paint_lines n v s row = Ret (set_dirty d v, s') /\ screen_ok s' /\ sc s' = sc s /\ length d = 40%nat /\
    (forall i, d !! i = if decide (row <= Z.of_nat i < 40) then Some false else dirty_row v !! i) /\
    forall q, on_screen s q -> pixel s' q = repaint v (dirty_cell v row) (pixel s) q.
Proof.
  induction n as [|n IH]; intros v s row Hs Hv Hr Hn; cbn [paint_lines].
  { exists (dirty_row v), s. split; [by destruct v |]. split; [done |]. split; [done |]. split; [apply Hv |]. split.
    - intros i. case_decide; [lia | done].
    - intros q _. unfold repaint, dirty_cell. destruct (cell_of q) as [[r c]|]; [| done]. case_bool_decide; [lia | done]. }
  destruct (lookup_lt_is_Some_2 (dirty_row v) (Z.to_nat row)) as [b Eb]; [rewrite (vo_dirty v Hv); lia |].
  rewrite (idx_ret _ _ b) by done. cbn [obind]. destruct b.
  - change (Z.to_nat BUFFER_WIDTH) with 150%nat.
    destruct (paint_chars_pixels 150 v s row 0) as (s1 & E1 & Hs1 & Hc1 & Hp1); [done | done | lia | lia | lia |].
    rewrite E1. cbn [obind]. rewrite upd_ret by (rewrite (vo_dirty v Hv); lia). cbn [obind].
    set (v1 := set_dirty _ v). assert (Hv1 : vt_ok v1) by (apply set_dirty_ok; [done | rewrite length_insert; apply Hv]).
    destruct (IH v1 s1 (row + 1)) as (d & s2 & E2 & Hs2 & Hc2 & Hd & Hdi & Hp2); [done | done | lia | lia |].
    exists d, s2. split; [exact E2 |]. split; [done |]. split; [congruence |]. split; [done |]. split.
    + intros i. rewrite Hdi. unfold v1. cbn [dirty_row set_dirty]. destruct (decide (i = Z.to_nat row)) as [->|Hi].
      * rewrite list_lookup_insert_eq by (rewrite (vo_dirty v Hv); lia). repeat case_decide; try done; lia.
      * rewrite list_lookup_insert_ne by done. repeat case_decide; try done; lia.
    + intros q Hq. rewrite Hp2 by (unfold on_screen; by rewrite Hc1). unfold repaint, dirty_cell, dirty. rewrite (Hp1 q Hq).
      unfold repaint. destruct (cell_of q) as [[r c]|] eqn:Ec; [| done]. apply cell_of_nonneg in Ec as [Hr0 Hc0].
      unfold v1. cbn [dirty_row set_dirty]. change (cell (set_dirty _ v) r c) with (cell v r c).
      destruct (decide (r = row)) as [->|Hne].
      * rewrite bool_decide_false by lia. destruct (decide (0 <= c < 150)).
        -- by rewrite !bool_decide_true by (split_and!; done || lia).
        -- by rewrite !bool_decide_false by lia.
      * assert (Hl : <[Z.to_nat row := false]> (dirty_row v) !! Z.to_nat r = dirty_row v !! Z.to_nat r)
          by (apply list_lookup_insert_ne; lia).
        rewrite (bool_decide_false (r = row /\ _)) by lia. apply if_bool_decide_ext. rewrite Hl. split; intros (? & ? & ?); split_and!; done || lia.
  - destruct (IH v s (row + 1)) as (d & s2 & E2 & Hs2 & Hc2 & Hd & Hdi & Hp2); [done | done | lia | lia |].
    exists d, s2. split; [exact E2 |]. split; [done |]. split; [done |]. split; [done |]. split.
    + intros i. rewrite Hdi. repeat case_decide; try done; try lia. assert (i = Z.to_nat row) as -> by lia. done.
    + intros q Hq. rewrite (Hp2 q Hq). unfold repaint, dirty_cell, dirty. destruct (cell_of q) as [[r c]|] eqn:Ec; [| done].
      apply cell_of_nonneg in Ec as [Hr0 Hc0]. apply if_bool_decide_ext.
      split; intros (? & ? & ?); split_and!; try (done || lia). destruct (decide (r = row)) as [->|]; [congruence | lia].
Qed.

(** The colours of the screen once it has been scrolled, when it is due. *)
Definition after_scroll (v : VirtualTerminal) (s : Screen) (q : Point) : Z :=
  if needs_scroll v && bool_decide (py q + 17 < height (sc s)) then pixel s (mkPoint (px q) (py q + 17)) else pixel s q.

Definition vt_clean (v : VirtualTerminal) : VirtualTerminal := set_scroll false (set_dirty (replicate 40 false) v).

Lemma paint_screen_pixels v s : screen_ok s -> 17 <= height (sc s) -> vt_ok v ->
  exists s', paint_screen v s = Ret (vt_clean v, s') /\ screen_ok s' /\ sc s' = sc s /\
    forall q, on_screen s q -> pixel s' q = repaint v (dirty_cell v 0) (after_scroll v s) q.
Proof.
  intros Hs Hh Hv. set (v1 := set_scroll false v).
  assert (Hv1 : vt_ok v1) by (destruct Hv; by split).
  assert (exists s1, (if needs_scroll v then let! h := chk_u 64 (char_height + 3) in let! s := scroll h s in Ret (set_scroll false v, s)
      else Ret (v, s)) = Ret (v1, s1) /\ screen_ok s1 /\ sc s1 = sc s /\
      forall q, on_screen s q -> pixel s1 q = after_scroll v s q) as (s1 & E1 & Hs1 & Hc1 & Hp1).
  { unfold after_scroll, v1. destruct (needs_scroll v) eqn:En.
    - destruct font_size as (_ & -> & _). change (14 + 3) with 17. rewrite chk_u_ret by lia. cbn [obind].
      destruct (scroll_pixels s 17 Hs ltac:(lia)) as (s1 & E & Hs1 & Hc1 & Hp). rewrite E. cbn [obind].
      exists s1. split; [done |]. split; [done |]. split; [done |]. intros [x y] Hq. rewrite (Hp x y Hq). cbn.
      repeat case_decide; repeat case_bool_decide; try done; lia.
    - exists s. split; [by destruct v; cbn in *; subst |]. done. }
  unfold paint_screen. rewrite E1. cbn [obind]. change (Z.to_nat BUFFER_HEIGHT) with 40%nat.
  destruct (paint_lines_pixels 40 v1 s1 0) as (d & s2 & E2 & Hs2 & Hc2 & Hd & Hdi & Hp2); [done | done | lia | lia |].
  exists s2. split; [| split; [done |]; split; [congruence |]].
  - rewrite E2. assert (d = replicate 40 false) as ->; [| done].
    apply list_eq_same_length with 40%nat; [done | done |]. intros i x y Hi Hx Hy.
    rewrite Hdi, decide_True in Hx by lia. rewrite lookup_replicate_2 in Hy by lia. congruence.
  - intros q Hq. rewrite Hp2 by (unfold on_screen; by rewrite Hc1). unfold repaint. rewrite (Hp1 q Hq). done.
Qed.

(** What a paint leaves on the screen, point by point. *)
Definition painted_pixel (v : VirtualTerminal) (s : Screen) (q : Point) : Z :=
  if bool_decide (cell_of q = Some (row_position v, column_position v)) then cursor_color
  else repaint v (dirty_cell v 0) (after_scroll v s) q.

Lemma paint_pixels c s lfb : screen_ok s -> 17 <= height (sc s) -> vt_ok (c_terminal c) ->
  length lfb = length (back_lfb s) ->
  exists c' s', paint c s lfb = Ret (c', s', back_lfb s') /\ screen_ok s' /\ sc s' = sc s /\
    c' = mkConsole (vt_clean (c_terminal c)) (row_position (c_terminal c), column_position (c_terminal c)) /\
    forall q, on_screen s q -> pixel s' q = painted_pixel (c_terminal c) s q.
Proof.
  intros Hs Hh Hv Hl. destruct (paint_screen_pixels (c_terminal c) s Hs Hh Hv) as (s1 & E1 & Hs1 & Hc1 & Hp1).
  pose proof (vo_row _ Hv) as Hrow. pose proof (vo_col _ Hv) as Hcol.
  destruct (paint_cursor_pixels s1 (row_position (c_terminal c)) (column_position (c_terminal c))) as (s2 & E2 & Hs2 & Hc2 & Hp2);
    [done | done | done |].
  unfold paint. rewrite E1. cbn [obind]. change (row_position (vt_clean ?v)) with (row_position v).
  change (column_position (vt_clean ?v)) with (column_position v). rewrite E2. cbn [obind]. unfold flush, buffer_len.
  pose proof (so_len s Hs) as Hls. pose proof (so_len s2 Hs2) as Hl2. assert (Hc : sc s2 = sc s) by congruence.
  rewrite chk_u_ret by (destruct Hs2; lia). cbn [obind].
  assert (splice lfb 0 (back_lfb s2) = Ret (back_lfb s2)) as ->.
  { rewrite Hc in Hl2. rewrite splice_put by lia. f_equal. unfold put. cbn. by rewrite drop_ge, app_nil_r by lia. }
  cbn [obind]. eexists _, s2. split; [reflexivity |]. split; [done |]. split; [done |]. split; [done |]. intros q Hq.
  rewrite Hp2 by (unfold on_screen; by rewrite Hc1). unfold painted_pixel. rewrite (Hp1 q Hq).
  repeat case_decide; repeat case_bool_decide; done.
Qed.

(** ** What a batch of bytes leaves to paint *)

(** A byte scrolls the terminal: a line feed on the last row, or a character
    behind the end of it. *)
Definition scrolls_on (byte : Z) (v : VirtualTerminal) : bool :=
  (row_position v =? 39) && ((byte =? 10) || negb (byte =? 8) && (150 <=? column_position v)).

Fixpoint scroll_count (bs : list Z) (v : VirtualTerminal) : nat :=
  match bs with
  | [] => 0
  | b :: bs => (if scrolls_on b v then 1 else 0) + scroll_count bs (spec_write b v)
  end.

(** The terminal [v] after some bytes from [v0]: every row that is not dirty
    is on the screen already, or will be once it is scrolled; the row of the
    old cursor is dirty, wherever it moves. *)
Definition follows (v0 v : VirtualTerminal) : Prop :=
  if needs_scroll v then
    row_position v0 = 39 /\ row_position v = 39 /\ dirty v 38 /\ dirty v 39 /\
    forall i, 0 <= i < 38 -> buffer v !! Z.to_nat i = buffer v0 !! Z.to_nat (i + 1)
  else
    row_position v0 <= row_position v /\ (forall i, 0 <= i < 40 -> dirty v i -> row_position v0 <= i) /\
    (forall i, row_position v0 <= i < row_position v -> dirty v i) /\
    (forall i, 0 <= i < 40 -> dirty v i \/ buffer v !! Z.to_nat i = buffer v0 !! Z.to_nat i) /\
    (row_position v = row_position v0 /\ column_position v = column_position v0 \/ dirty v (row_position v0)).

Definition settled (v : VirtualTerminal) : Prop :=
  vt_ok v /\ dirty_row v = replicate 40 false /\ needs_scroll v = false.

Lemma vt_clean_settled v : vt_ok v -> settled (vt_clean v).
Proof. intros []. split; [by split | done]. Qed.

Lemma follows_refl v : settled v -> follows v v.
Proof.
  intros (Hv & Hd & Hn). unfold follows, dirty. rewrite Hn, Hd. split_and!; auto; [lia | | intros; lia].
  intros i Hi H%lookup_replicate. lia || by destruct H.
Qed.

(** Rows that become dirty. *)
Lemma dirtied_iff (v v' : VirtualTerminal) row i :
  length (dirty_row v) = 40%nat -> 0 <= row < 40 -> 0 <= i -> dirty_row v' = dirtied row (dirty_row v) ->
  dirty v' i <-> i = row \/ dirty v i.
Proof.
  intros Hl Hr Hi E. unfold dirty. rewrite E, dirtied_lookup by done. case_decide as Hd.
  - split; [intros _; left; lia | done].
  - split; [tauto | intros [->|?]; [done | done]].
Qed.

(** A change of the row of the cursor that makes it dirty. *)
Lemma follows_row v0 v v' :
  vt_ok v0 -> vt_ok v -> follows v0 v -> needs_scroll v' = needs_scroll v -> dirty_row v' = dirtied (row_position v) (dirty_row v) ->
  (forall i, 0 <= i -> i <> row_position v -> buffer v' !! Z.to_nat i = buffer v !! Z.to_nat i) ->
  row_position v <= row_position v' <= Z.min 39 (row_position v + 1) -> follows v0 v'.
Proof.
  intros Hv0 Hv Hf Hn Hd Hb Hr. pose proof (vo_row v Hv) as Hrv. pose proof (vo_row v0 Hv0) as Hrv0. pose proof (vo_dirty v Hv) as Hl.
  assert (Hdi : forall i, 0 <= i -> dirty v' i <-> i = row_position v \/ dirty v i)
    by (intros i Hi; by apply dirtied_iff).
  unfold follows in *. rewrite Hn. destruct (needs_scroll v).
  - destruct Hf as (H0 & H1 & H38 & H39 & Hrows). split_and!; [done | lia | apply Hdi; auto; lia | apply Hdi; auto; lia |].
    intros i Hi. rewrite Hb by lia. by apply Hrows.
  - destruct Hf as (Hle & Hlow & Hmid & Hrows & Hcur). split_and!; [lia | | | |].
    + intros i Hi [->|Hi']%Hdi; [done | by apply Hlow | lia].
    + intros i Hi. apply Hdi; [lia |]. destruct (decide (i = row_position v)); [by left | right; apply Hmid; lia].
    + intros i Hi. destruct (decide (i = row_position v)) as [->|Hne]; [left; apply Hdi; auto; lia |].
      destruct (Hrows i Hi) as [Hdi'|Heq]; [left; apply Hdi; auto; lia | right]. rewrite Hb by lia. done.
    + right. destruct Hcur as [[E _]|Hdv]; apply Hdi; [lia | left; lia | lia | by right].
Qed.

Lemma follows_scroll v0 v :
  vt_ok v0 -> vt_ok v -> follows v0 v -> needs_scroll v = false -> row_position v0 = 39 -> row_position v = 39 ->
  follows v0 (spec_new_line v) /\ needs_scroll (spec_new_line v) = true.
Proof.
  intros Hv0 Hv Hf Hn H0 H39. unfold follows in Hf. rewrite Hn in Hf. destruct Hf as (_ & Hlow & _ & Hrows & _).
  pose proof (vo_dirty v Hv) as Hl. unfold spec_new_line. rewrite H39, Z.eqb_refl. split; [| done].
  unfold follows. cbn [needs_scroll row_position buffer]. split_and!; [done | done | | |].
  - unfold dirty. cbn [dirty_row]. by rewrite !dirtied_lookup by (unfold dirtied; rewrite ?length_insert; done || lia).
  - unfold dirty. cbn [dirty_row]. by rewrite !dirtied_lookup by (unfold dirtied; rewrite ?length_insert; done || lia).
  - intros i Hi. unfold scrolled. rewrite lookup_app_l.
    2:{ pose proof (vo_rows v Hv). destruct (buffer v); simpl in *; lia. }
    rewrite tail_lookup. replace (S (Z.to_nat i)) with (Z.to_nat (i + 1)) by lia.
    destruct (Hrows (i + 1)) as [Hd%Hlow|E]; [lia | lia | lia | done].
Qed.

Lemma follows_write v0 v byte :
  vt_ok v0 -> vt_ok v -> follows v0 v ->
  (scrolls_on byte v = true -> needs_scroll v = false /\ row_position v0 = 39) ->
  follows v0 (spec_write byte v) /\ needs_scroll (spec_write byte v) = needs_scroll v || scrolls_on byte v.
Proof.
  intros Hv0 Hv Hf Hsc. pose proof (vo_row v Hv) as Hr. unfold spec_write, scrolls_on in *.
  assert (Hnl : ((row_position v =? 39) = true -> needs_scroll v = false /\ row_position v0 = 39) ->
    follows v0 (spec_new_line v) /\ needs_scroll (spec_new_line v) = needs_scroll v || (row_position v =? 39)).
  { intros Hs. destruct (Z.eqb_spec (row_position v) 39) as [E|E].
    - destruct (Hs eq_refl) as [Hn H0]. rewrite Hn. by apply follows_scroll.
    - rewrite orb_false_r. unfold spec_new_line. rewrite (proj2 (Z.eqb_neq _ _)) by done. split; [| done].
      apply (follows_row v0 v); try done; cbn; lia. }
  destruct (byte =? 10); cbn [orb] in *; [rewrite andb_true_r in *; by apply Hnl |].
  destruct (byte =? 8); cbn [negb andb] in *.
  { rewrite andb_false_r, orb_false_r. split; [| done]. apply (follows_row v0 v); try done; cbn; lia. }
  destruct (Z.leb_spec 150 (column_position v)); rewrite ?andb_true_r, ?andb_false_r, ?orb_false_r in *.
  - destruct (Hnl Hsc) as [Hf1 Hn1]. destruct (new_line_spec v Hv) as [_ Hv1]. split; [| exact Hn1].
    pose proof (vo_row _ Hv1). apply (follows_row v0 (spec_new_line v)); try done.
    + intros i Hi Hne. cbn [spec_put buffer]. rewrite list_lookup_alter_ne by lia. done.
    + cbn [spec_put row_position]. lia.
  - split; [| done]. apply (follows_row v0 v); try done.
    + intros i Hi Hne. cbn. rewrite list_lookup_alter_ne by lia. done.
    + cbn. lia.
Qed.

(** A batch that scrolls at most once, and only from the last row. *)
Lemma follows_batch bs : forall v0 v,
  vt_ok v0 -> vt_ok v -> follows v0 v ->
  (scroll_count bs v + (if needs_scroll v then 1 else 0) <= if (row_position v0 =? 39)%Z then 1 else 0)%nat ->
  exists v', write_bytes bs v = Ret v' /\ vt_ok v' /\ follows v0 v'.
Proof.
  induction bs as [|b bs IH]; intros v0 v Hv0 Hv Hf Hn; [by exists v |]. cbn [write_bytes scroll_count] in *.
  destruct (write_byte_spec b v Hv) as [-> Hv1]. cbn [obind].
  destruct (follows_write v0 v b Hv0 Hv Hf) as [Hf1 Hn1].
  - intros Hs. rewrite Hs in Hn. destruct (Z.eqb_spec (row_position v0) 39), (needs_scroll v); done || lia.
  - apply IH; try done. rewrite Hn1. destruct (needs_scroll v), (scrolls_on b v); cbn [orb]; lia.
Qed.

(** ** The screen shows the terminal *)

(** The cells that have to show their character: those of the rows above the
    cursor's, and those with text.  (Rows the cursor has not left yet are only
    painted when something is written to them.) *)
Definition due (v : VirtualTerminal) (row col : Z) : Prop :=
  row < row_position v \/ row < 40 /\ cell v row col <> blank.

Definition shows_text (s : Screen) (v : VirtualTerminal) : Prop :=
  forall q row col, on_screen s q -> cell_of q = Some (row, col) -> due v row col -> col < 150 ->
    (row, col) <> (row_position v, column_position v) -> pixel s q = cell_color (cell v row col) q.

Definition shows_cursor (s : Screen) (v : VirtualTerminal) : Prop :=
  forall q, on_screen s q -> cell_of q = Some (row_position v, column_position v) -> pixel s q = cursor_color.

(** A point one line further down lies in the cell below, in the same place. *)
Lemma cell_of_below q row col : cell_of q = Some (row, col) -> cell_of (mkPoint (px q) (py q + 17)) = Some (row + 1, col).
Proof.
  intros Hq. pose proof (cell_of_nonneg q row col Hq) as [Hr Hc]. apply cell_of_inside in Hq as [Hx Hy]; [| lia..].
  apply cell_of_inside; [lia..|]. unfold inside in *. cbn in *. lia.
Qed.

Lemma cell_color_below ch q : cell_color ch (mkPoint (px q) (py q + 17)) = cell_color ch q.
Proof.
  unfold cell_color. cbn [px py]. replace (py q + 17 - 20) with (py q - 20 + 1 * 17) by lia. by rewrite Z.mod_add by lia.
Qed.

(** A point of a clean row has its colour before the paint. *)
Lemma clean_row_shown v0 v s q row col :
  vt_ok v -> follows v0 v -> shows_text s v0 -> 700 <= height (sc s) -> on_screen s q ->
  cell_of q = Some (row, col) -> due v row col -> col < 150 ->
  ~ dirty v row -> (row, col) <> (row_position v, column_position v) ->
  after_scroll v s q = cell_color (cell v row col) q.
Proof.
  intros Hv Hf Hsh Hh Hq Hcell Hdue Hc Hd Hne. pose proof (cell_of_nonneg q row col Hcell) as [Hr0 Hc0].
  pose proof (vo_row v Hv) as Hrv. assert (Hr : row < 40) by (destruct Hdue; lia).
  unfold follows, after_scroll in *. destruct (needs_scroll v).
  - destruct Hf as (H0 & H1 & H38 & H39 & Hrows).
    assert (row < 38) by (destruct (decide (row = 38)) as [->|]; [done |]; destruct (decide (row = 39)) as [->|]; [done | lia]).
    pose proof (proj2 (cell_of_inside row col q Hr0 Hc0) Hcell) as [Hx Hy]. cbn in Hx, Hy. destruct Hq as [Hqx Hqy].
    rewrite bool_decide_true by lia. cbn [andb].
    rewrite (Hsh _ (row + 1) col); [| split; cbn; lia | by apply cell_of_below | left; lia | done | intros [=]; lia].
    rewrite cell_color_below. unfold cell. by rewrite Hrows by lia.
  - cbn [andb]. destruct Hf as (Hle & _ & Hmid & Hrows & Hcur). destruct (Hrows row ltac:(lia)) as [|E]; [done |].
    assert (Ec : cell v row col = cell v0 row col) by (unfold cell; by rewrite E). rewrite Ec. apply Hsh; [done | done | | done |].
    + unfold due in *. rewrite <- Ec. destruct Hdue as [Hlt|Hb]; [left | by right].
      destruct (decide (row < row_position v0)); [done |]. destruct Hd. apply Hmid. lia.
    + intros [= -> ->]. destruct Hcur as [[E1 E2]|]; [by rewrite E1, E2 in Hne | done].
Qed.

Lemma blank_cell v row col : buffer v = replicate 40 (replicate 150 blank) -> cell v row col = blank.
Proof.
  intros E. unfold cell. rewrite E.
  destruct (replicate 40 (replicate 150 blank) !! Z.to_nat row) as [r|] eqn:Er; [| done].
  apply lookup_replicate in Er as [-> _]. cbn [mbind option_bind].
  by destruct (replicate 150 blank !! Z.to_nat col) as [ch|] eqn:Ec; [apply lookup_replicate in Ec as [-> _] |].
Qed.

Lemma vt_new_settled : settled vt_new.
Proof. split; [| done]. split; try done. by apply Forall_replicate. Qed.

(** One batch of bytes and a paint. *)
Lemma paint_shows_step v0 bs pos s lfb :
  screen_ok s -> 700 <= height (sc s) -> length lfb = length (back_lfb s) -> settled v0 -> shows_text s v0 ->
  (scroll_count bs v0 <= if (row_position v0 =? 39)%Z then 1 else 0)%nat ->
  exists v s', write_bytes bs v0 = Ret v /\
    paint (mkConsole v pos) s lfb = Ret (mkConsole (vt_clean v) (row_position v, column_position v), s', back_lfb s') /\
    screen_ok s' /\ sc s' = sc s /\ settled (vt_clean v) /\ shows_text s' (vt_clean v) /\ shows_cursor s' (vt_clean v).
Proof.
  intros Hs Hh Hl Hv0 Hsh Hn. pose proof Hv0 as (Hok0 & _ & Hns).
  destruct (follows_batch bs v0 v0) as (v & Ew & Hv & Hf); [done | done | by apply follows_refl | rewrite Hns; lia |].
  destruct (paint_pixels (mkConsole v pos) s lfb) as (c & s' & E & Hs' & Hsc & Hc & Hp); [done | lia | done | done |].
  subst c. cbn [c_terminal] in *. exists v, s'. do 4 (split; [done |]). split; [by apply vt_clean_settled |]. split.
  - intros q row col Hq Hcell Hdue Hcol Hne. change (cell (vt_clean v) row col) with (cell v row col).
    change (due (vt_clean v) row col) with (due v row col) in Hdue.
    change ((row, col) <> (row_position v, column_position v)) in Hne.
    assert (Hq' : on_screen s q) by (unfold on_screen; by rewrite <- Hsc).
    rewrite (Hp q Hq'). unfold painted_pixel, repaint. rewrite Hcell, bool_decide_false by congruence.
    pose proof (cell_of_nonneg q row col Hcell). pose proof (vo_row v Hv). unfold dirty_cell. destruct (decide (dirty v row)).
    + by rewrite bool_decide_true by (split_and!; try done; destruct Hdue; lia).
    + rewrite bool_decide_false by tauto. by apply (clean_row_shown v0).
  - intros q Hq Hcell. change (cell_of q = Some (row_position v, column_position v)) in Hcell.
    rewrite Hp by (unfold on_screen; by rewrite <- Hsc). unfold painted_pixel. by rewrite bool_decide_true.
Qed.

(** Batches of bytes, with a paint after each of them. *)
Fixpoint write_and_paint (batches : list (list Z)) (c : Console) (s : Screen) (lfb : list Z) : outcome (Console * Screen * list Z) :=
  match batches with
  | [] => Ret (c, s, lfb)
  | bs :: batches =>
      let! v := write_bytes bs (c_terminal c) in
      let! '(c, s, lfb) := paint (mkConsole v (last_cursor_pos c)) s lfb in
      write_and_paint batches c s lfb
  end.

(** No batch scrolls more than once, and only one that starts on the last row
    scrolls. *)
Fixpoint paced (batches : list (list Z)) (v : VirtualTerminal) : bool :=
  match batches with
  | [] => true
  | bs :: batches =>
      bool_decide (scroll_count bs v <= if (row_position v =? 39)%Z then 1 else 0)%nat &&
      match write_bytes bs v with Ret v => paced batches (vt_clean v) | _ => false end
  end.

Lemma write_and_paint_shows batches : forall c s lfb,
  screen_ok s -> 700 <= height (sc s) -> length lfb = length (back_lfb s) -> settled (c_terminal c) ->
  shows_text s (c_terminal c) -> paced batches (c_terminal c) = true -> batches <> [] ->
  exists c' s', write_and_paint batches c s lfb = Ret (c', s', back_lfb s') /\ screen_ok s' /\ sc s' = sc s /\
    settled (c_terminal c') /\ shows_text s' (c_terminal c') /\ shows_cursor s' (c_terminal c').
Proof.
  induction batches as [|bs batches IH]; intros c s lfb Hs Hh Hl Hc Hsh Hp Hne; [done |]. clear Hne.
  cbn [paced write_and_paint] in *. apply andb_true_iff in Hp as [Hn%bool_decide_eq_true Hp].
  destruct (paint_shows_step (c_terminal c) bs (last_cursor_pos c) s lfb) as (v & s1 & Ew & Ep & Hs1 & Hsc & Hst & Hsh1 & Hcur); [done.. |].
  rewrite Ew in *. cbn [obind]. rewrite Ep. cbn [obind]. destruct batches as [|bs2 batches].
  { eexists _, s1. split; [reflexivity |]. done. }
  destruct (IH (mkConsole (vt_clean v) (row_position v, column_position v)) s1 (back_lfb s1))
    as (c2 & s2 & E2 & Hs2 & Hsc2 & Hst2 & Hsh2 & Hcur2); try done; [by rewrite Hsc |].
  exists c2, s2. split; [done |]. split; [done |]. split; [congruence |]. done.
Qed.

(** [C29] The screen shows the terminal.  From the start of the console, on a
    screen that shows anything, after any batches of bytes with a paint after
    each, where no batch scrolls the terminal more than once and only one that
    starts on the last row does: nothing panics, and in the back buffer and the
    frame buffer every cell of the rows above the cursor's and every cell with
    text shows the character that the terminal holds there, point by point,
    and the cursor is shown where it is.  Cells may be off the screen on the
    right. *)
Theorem console_shows_terminal batches s lfb :
  screen_ok s -> 700 <= height (sc s) -> length lfb = length (back_lfb s) ->
  paced batches vt_new = true -> batches <> [] ->
  exists c s', write_and_paint batches console_new s lfb = Ret (c, s', back_lfb s') /\ screen_ok s' /\ sc s' = sc s /\
    settled (c_terminal c) /\ shows_text s' (c_terminal c) /\ shows_cursor s' (c_terminal c).
Proof.
  intros Hs Hh Hl Hp Hne. apply write_and_paint_shows; try done.
  - exact vt_new_settled.
  - intros q row col Hq Hcell Hdue. pose proof (cell_of_nonneg q row col Hcell). exfalso.
    destruct Hdue as [Hlt|[_ Hb]]; [cbn in Hlt; lia |]. by rewrite blank_cell in Hb.
Qed.

(** The cursor behind the last column stays on the screen when the line is
    wrapped: the column after the last one is never repainted. *)
Theorem wrap_leaves_cursor v pos s lfb byte q :
  screen_ok s -> 17 <= height (sc s) -> length lfb = length (back_lfb s) -> settled v ->
  column_position v = 150 -> row_position v < 39 -> byte <> 10 -> byte <> 8 ->
  on_screen s q -> cell_of q = Some (row_position v, 150) -> pixel s q = cursor_color ->
  exists v1 c s', write_byte byte v = Ret v1 /\ paint (mkConsole v1 pos) s lfb = Ret (c, s', back_lfb s') /\
    last_cursor_pos c = (row_position v + 1, 1) /\ pixel s' q = cursor_color.
Proof.
  intros Hs Hh Hl (Hv & Hd & Hns) Hc Hr H10 H8 Hq Hcell Hpix. destruct (write_byte_spec byte v Hv) as [E Hv1].
  assert (E1 : spec_write byte v = spec_put byte (spec_new_line v)).
  { unfold spec_write. rewrite (proj2 (Z.eqb_neq _ _) H10), (proj2 (Z.eqb_neq _ _) H8), Hc. done. }
  rewrite E1 in *. assert (E2 : spec_new_line v = {| buffer := buffer v; dirty_row := dirtied (row_position v) (dirty_row v);
    column_position := 0; row_position := row_position v + 1; needs_scroll := needs_scroll v |}).
  { unfold spec_new_line. by rewrite (proj2 (Z.eqb_neq _ _)) by lia. }
  destruct (paint_pixels (mkConsole (spec_put byte (spec_new_line v)) pos) s lfb) as (c & s' & Ep & Hs' & Hsc & Hct & Hp); [done.. |].
  exists (spec_put byte (spec_new_line v)), c, s'. split_and!; try done.
  - by rewrite Hct, E2.
  - rewrite (Hp q Hq). unfold painted_pixel, repaint. rewrite Hcell, E2. cbn [c_terminal spec_put row_position column_position].
    rewrite bool_decide_false by (intros [=]; lia). unfold dirty_cell. rewrite bool_decide_false by lia.
    unfold after_scroll. cbn [needs_scroll]. by rewrite Hns.
Qed.

(** A scroll leaves the line that scrolls away in the padding above the first
    row, seventeen points higher. *)
Theorem scroll_leaves_line v pos s lfb q col :
  screen_ok s -> 700 <= height (sc s) -> length lfb = length (back_lfb s) -> settled v -> row_position v = 39 ->
  on_screen s q -> cell_of q = Some (0, col) ->
  exists v1 c s', write_byte 10 v = Ret v1 /\ paint (mkConsole v1 pos) s lfb = Ret (c, s', back_lfb s') /\
    pixel s' (mkPoint (px q) (py q - 17)) = pixel s q.
Proof.
  intros Hs Hh Hl (Hv & Hd & Hns) Hr Hq Hcell. destruct (write_byte_spec 10 v Hv) as [E Hv1].
  change (spec_write 10 v) with (spec_new_line v) in *.
  destruct (paint_pixels (mkConsole (spec_new_line v) pos) s lfb) as (c & s' & Ep & Hs' & Hsc & Hct & Hp); [done | lia | done.. |].
  exists (spec_new_line v), c, s'. split_and!; [done.. |].
  pose proof (cell_of_nonneg q 0 col Hcell) as [_ Hc0]. apply cell_of_inside in Hcell as [Hx Hy]; [| lia..]. cbn in Hx, Hy.
  destruct Hq as [Hqx Hqy]. rewrite Hp by (split; cbn; lia). unfold painted_pixel, repaint.
  assert (cell_of (mkPoint (px q) (py q - 17)) = None) as -> by (unfold cell_of; cbn [px py]; rewrite bool_decide_false; [done | lia]).
  rewrite bool_decide_false by done. unfold after_scroll. cbn [c_terminal px py].
  assert (needs_scroll (spec_new_line v) = true) as -> by (unfold spec_new_line; by rewrite Hr).
  rewrite bool_decide_true by lia. cbn [andb]. f_equal. destruct q. cbn. f_equal. lia.
Qed.
End Cells.

(** ** A font by arithmetic, and screens of one colour *)
Module RenderWitness.
Import GraphicsWitness.

#[export] Instance texts : TextApi := {|
  char_width := 7; char_height := 14; character_spacing := 0;
  font_bits c := if c =? 32 then replicate 98 false else (fun i => Z.testbit c (Z.of_nat i mod 8)) <$> seq 0 98;
  rgb565_new r g b := r mod 32 * 2048 + g mod 64 * 32 + b mod 32;
  text_draw s t p fg bg :=
    match t with
    | [c] => fill_contiguous s (mkRect p 7 14) ((fun b : bool => if b then fg else bg) <$>
        (if c =? 32 then replicate 98 false else (fun i => Z.testbit c (Z.of_nat i mod 8)) <$> seq 0 98))
    | _ => Ret s
    end;
  styled_rect_draw s r c := fill_solid s r c
|}.

#[export] Instance texts_laws : TextLaws texts.
Proof.
  split; try done.
  - intros c. cbn. by destruct (c =? 32).
  - intros r g b. cbn. pose proof (Z.mod_pos_bound r 32 ltac:(lia)). pose proof (Z.mod_pos_bound g 64 ltac:(lia)).
    pose proof (Z.mod_pos_bound b 32 ltac:(lia)). lia.
Qed.

(** A screen [w] by [h] of one colour. *)
Definition plain (w h color : Z) : Screen :=
  clear false color (mkScreen {| width := w; height := h; bytes_per_pixel := 2; bytes_per_line := 2 * w |} 0
                       (replicate (Z.to_nat (2 * w * h)) 0)).

Lemma plain_blank_ok w h : 0 <= w < 2000 -> 0 <= h < 2000 ->
  screen_ok (mkScreen {| width := w; height := h; bytes_per_pixel := 2; bytes_per_line := 2 * w |} 0
               (replicate (Z.to_nat (2 * w * h)) 0)).
Proof.
  intros Hw Hh. split; cbn; try lia; try nia.
  - rewrite Z.mul_comm. apply Z.mod_mul. lia.
  - rewrite length_replicate. nia.
Qed.

Lemma plain_ok w h color : 0 <= w < 2000 -> 0 <= h < 2000 -> screen_ok (plain w h color).
Proof.
  intros Hw Hh. apply set_back_ok; [by apply plain_blank_ok |]. apply length_put.
  rewrite length_words, !length_replicate. pose proof (Nat.div_mod (length (back_lfb (mkScreen {| width := w; height := h;
    bytes_per_pixel := 2; bytes_per_line := 2 * w |} 0 (replicate (Z.to_nat (2 * w * h)) 0))) - 0) 2 ltac:(lia)).
  cbn [back_lfb] in *. rewrite length_replicate in *. lia.
Qed.

Lemma plain_pixel w h color q : 0 <= w < 2000 -> 0 <= h < 2000 -> on_screen (plain w h color) q ->
  pixel (plain w h color) q = color mod 2 ^ 16.
Proof. intros Hw Hh Hq. apply clear_pixels; [by apply plain_blank_ok | exact Hq]. Qed.

Lemma plain_length w h color : 0 <= w < 2000 -> 0 <= h < 2000 ->
  length (replicate (Z.to_nat (2 * w * h)) 0) = length (back_lfb (plain w h color)).
Proof.
  intros Hw Hh. pose proof (so_len _ (plain_ok w h color Hw Hh)) as E. cbn [plain clear set_back sc bytes_per_line height] in E.
  rewrite length_replicate. lia.
Qed.

(** The cursor far right on the last row of an empty terminal. *)
Definition vt_last : VirtualTerminal := set_col 140 (set_row 39 vt_new).
Lemma vt_last_settled : settled vt_last.
Proof. split; [| done]. split; try done. by apply Forall_replicate. Qed.

Definition narrow : Screen := plain 30 700 background_color.
(** Thirty-nine line feeds, a word, and a batch that scrolls. *)
Definition some_batches : list (list Z) := [replicate 39 10; [72; 105]; [33; 10; 65]].

Lemma console_shows_terminal_witness :
  exists c s', write_and_paint some_batches console_new narrow (replicate (Z.to_nat (2 * 30 * 700)) 0) = Ret (c, s', back_lfb s') /\
    screen_ok s' /\ sc s' = sc narrow /\
    settled (c_terminal c) /\ shows_text s' (c_terminal c) /\ shows_cursor s' (c_terminal c).
Proof.
  apply (console_shows_terminal some_batches narrow (replicate (Z.to_nat (2 * 30 * 700)) 0)).
  - apply plain_ok; lia.
  - cbn. lia.
  - apply plain_length; lia.
  - vm_compute. reflexivity.
  - done.
Defined.

(** The pace matters: text on the row before the last and two line feeds in
    one batch leave the text off the screen, since the row it scrolls to is not
    dirty. *)
Example text_then_scroll_stale :
  match write_bytes [65; 10; 10] (set_row 38 vt_new) with
  | Ret v =>
      match paint_dirty v {| shown := buffer vt_new; below := blank_row |} with
      | Ret (v, d) => (shown d !! 37%nat, buffer v !! 37%nat)
      | _ => (None, None)
      end
  | _ => (None, None)
  end = (Some blank_row, Some (glyph 65 :: replicate 149 blank)).
Proof. vm_compute. reflexivity. Qed.

Definition vt_full : VirtualTerminal := set_col 150 vt_new.
Lemma vt_full_settled : settled vt_full.
Proof. split; [| done]. split; try done. by apply Forall_replicate. Qed.
Definition wide : Screen := plain 1080 40 cursor_color.

Lemma wrap_leaves_cursor_witness :
  exists v1 c s', write_byte 65 vt_full = Ret v1 /\
    paint (mkConsole v1 (0, 0)) wide (replicate (Z.to_nat (2 * 1080 * 40)) 0) = Ret (c, s', back_lfb s') /\
    last_cursor_pos c = (row_position vt_full + 1, 1) /\ pixel s' (mkPoint 1070 20) = cursor_color.
Proof.
  apply (wrap_leaves_cursor vt_full (0, 0) wide (replicate (Z.to_nat (2 * 1080 * 40)) 0) 65 (mkPoint 1070 20)).
  - apply plain_ok; lia.
  - cbn. lia.
  - apply plain_length; lia.
  - exact vt_full_settled.
  - reflexivity.
  - cbn. lia.
  - done.
  - done.
  - split; cbn; lia.
  - reflexivity.
  - unfold wide. rewrite plain_pixel; [reflexivity | lia | lia | split; cbn; lia].
Defined.

Lemma scroll_leaves_line_witness :
  exists v1 c s', write_byte 10 vt_last = Ret v1 /\
    paint (mkConsole v1 (0, 0)) narrow (replicate (Z.to_nat (2 * 30 * 700)) 0) = Ret (c, s', back_lfb s') /\
    pixel s' (mkPoint 20 (20 - 17)) = pixel narrow (mkPoint 20 20).
Proof.
  apply (scroll_leaves_line vt_last (0, 0) narrow (replicate (Z.to_nat (2 * 30 * 700)) 0) (mkPoint 20 20) 0).
  - apply plain_ok; lia.
  - cbn. lia.
  - apply plain_length; lia.
  - exact vt_last_settled.
  - reflexivity.
  - split; cbn; lia.
  - reflexivity.
Defined.
End RenderWitness.
