(* ===== verification/Compositor.v ===== *)
(** * The compositor

    [compositor_task] of [kernel/src/main.rs]: every process that has a back
    buffer is painted by copying the frames of its window over the screen's
    back buffer, which is then flushed.  What a process reads in its window is
    what the frame buffer shows, when the screen is a whole number of pages;
    otherwise the copy of the last page runs over the end of the buffer. *)
From S2P Require Import Prelude Text Memory Paging PagingMap UserMem UserStack Elf Isolation Slab Lock Thread ThreadInv Sched ThreadKeep Proc ProcInv ProcOps ProcSys Graphics Slices.

Section Compositor.
Context {A : Type} {FA : FrameAllocator A} {FL : FrameAllocatorLaws A} {PA : PageApi A} {PL : PageLaws A PA}
  {AA : AddrApi} {AL : AddrLaws PA AA} {S : Type} {SL : Slab S}.
Implicit Types (m : gmap Z (list Z)) (s : System A S).

(** The 4096 bytes of a frame. *)
Definition frame_bytes m (f : Z) : outcome (list Z) := let! ws := unwrap (m !! f) in Ret (concat (le_bytes 8 <$> ws)).

(** The frames of one process.  [heap] is the memory from the start of the
    back buffer on: the buffer and what lies behind it.  The number of bytes to
    copy is computed and not used. *)
Fixpoint paint_frames m (i : Z) (bb_frames : list Z) (bytes_remaining : Z) (heap : list Z) : outcome (list Z) :=
  match bb_frames with
  | [] => Ret heap
  | frame :: bb_frames =>
      let offset := i * 4096 in
      let bytes_to_copy := Z.min 4096 bytes_remaining in
      let! data := frame_bytes m frame in
      let! heap := splice heap offset data in
      let! bytes_remaining := sub_u bytes_remaining bytes_to_copy in
      paint_frames m (i + 1) bb_frames bytes_remaining heap
  end.

(** The loop over the process table. *)
Fixpoint paint_procs s (scr : Screen) (procs : list Z) (heap : list Z) : outcome (list Z) :=
  match procs with
  | [] => Ret heap
  | x :: procs =>
      let! p := unwrap (pcbs s !! x) in
      let! heap :=
        match backbuffer_frames (adsp p) with
        | None => Ret heap
        | Some bb_frames => let! len := buffer_len scr in paint_frames (ram s) 0 bb_frames len heap
        end in
      paint_procs s scr procs heap
  end.

(** One turn of the loop after [block_task]; [after] is the memory behind the
    back buffer, [lfb] the frame buffer. *)
Definition compositor_turn s (scr : Screen) (after lfb : list Z) : outcome (Screen * list Z * list Z) :=
  let n := length (back_lfb scr) in
  let! heap := paint_procs s scr (PROC s) (back_lfb scr ++ after) in
  let scr := set_back (take n heap) scr in
  let! lfb := flush scr lfb in
  Ret (scr, drop n heap, lfb).

(** [Rgb565::new(3, 6, 3)] *)
Definition wallpaper : Z := Z.lor (Z.shiftl 3 11) (Z.lor (Z.shiftl 6 5) 3).
Definition compositor_start (odd : bool) (scr : Screen) (lfb : list Z) : outcome (Screen * list Z) :=
  let scr := clear odd wallpaper scr in
  let! lfb := flush scr lfb in
  Ret (scr, lfb).

(** ** Frames *)
Lemma lookup_words (ws : list Z) (i : nat) :
  concat (le_bytes 8 <$> ws) !! i = (w ← ws !! (i / 8)%nat; le_bytes 8 w !! (i mod 8)%nat).
Proof.
  revert i. induction ws as [|w ws IH]; intros i; [done |]. cbn [fmap list_fmap concat].
  destruct (decide (i < 8)%nat) as [Hi|Hi].
  - rewrite lookup_app_l by (rewrite le_bytes_length; lia). by rewrite Nat.div_small, Nat.mod_small by lia.
  - rewrite lookup_app_r by (rewrite le_bytes_length; lia). rewrite le_bytes_length, IH.
    assert (E : (i / 8 = Datatypes.S ((i - 8) / 8) /\ i mod 8 = (i - 8) mod 8)%nat) 
      by (pose proof (Nat.div_mod_eq i 8); pose proof (Nat.div_mod_eq (i - 8) 8);
          pose proof (Nat.mod_upper_bound i 8); pose proof (Nat.mod_upper_bound (i - 8) 8); lia).
    destruct E as [-> ->]. done.
Qed.

Lemma length_words8 (ws : list Z) : length (concat (le_bytes 8 <$> ws)) = (8 * length ws)%nat.
Proof. induction ws as [|w ws IH]; [done |]. cbn [fmap list_fmap concat]. rewrite length_app, le_bytes_length, IH. cbn [length]. lia. Qed.

Lemma frame_bytes_ret m f : mem_sized m -> is_Some (m !! f) -> frame_ok f ->
  exists bs, frame_bytes m f = Ret bs /\ length bs = 4096%nat /\ forall i, (i < 4096)%nat -> bs !! i = read_byte m (f + Z.of_nat i).
Proof.
  intros Hm [ws Hw] Hf. unfold frame_bytes. rewrite Hw. eexists. split; [done |]. pose proof (Hm f ws Hw) as Hl.
  split; [rewrite length_words8; lia |]. intros i Hi. rewrite lookup_words. unfold read_byte.
  destruct (in_frame f (Z.of_nat i) Hf ltac:(lia)) as [-> _]. rewrite Hw. cbn [mbind option_bind]. destruct Hf as [Hf _].
  assert (E1 : (f + Z.of_nat i) mod 4096 = Z.of_nat i) by (rewrite Z.add_mod, Hf, Z.add_0_l, Z.mod_mod by lia; apply Z.mod_small; lia).
  assert (E2 : (f + Z.of_nat i) mod 8 = Z.of_nat i mod 8).
  { rewrite Z.add_mod by lia. replace (f mod 8) with 0; [by rewrite Z.add_0_l, Z.mod_mod by lia |].
    rewrite (Z.div_mod f 4096), Hf by lia. rewrite Z.add_0_r, Z.mul_comm. change 4096 with (512 * 8).
    by rewrite Z.mul_assoc, Z.mod_mul by lia. }
  rewrite E1, E2. change 8 with (Z.of_nat 8). rewrite <- Nat2Z.inj_div, <- Nat2Z.inj_mod, !Nat2Z.id. done.
Qed.

(** Frames that can be copied. *)
Definition frame_there m (f : Z) : Prop := is_Some (m !! f) /\ frame_ok f.
(** [data] is what is in the frames [fs]. *)
Definition holds_frames m (fs data : list Z) : Prop :=
  length data = (4096 * length fs)%nat /\
  forall j f i, fs !! j = Some f -> (i < 4096)%nat -> data !! (j * 4096 + i)%nat = read_byte m (f + Z.of_nat i).

Lemma paint_frames_ret m fs : forall i rem heap,
  mem_sized m -> Forall (frame_there m) fs -> 0 <= i -> 0 <= rem -> (i + Z.of_nat (length fs)) * 4096 <= Z.of_nat (length heap) ->
  exists data, paint_frames m i fs rem heap = Ret (put heap (Z.to_nat (i * 4096)) data) /\ holds_frames m fs data.
Proof.
  induction fs as [|f fs IH]; intros i rem heap Hm Hfs Hi Hr Hlen.
  { exists []. rewrite put_nil. split; [done |]. split; [done |]. intros j f k Hj. by rewrite lookup_nil in Hj. }
  apply Forall_cons in Hfs as [[Hf Hfo] Hfs]. destruct (frame_bytes_ret m f Hm Hf Hfo) as (bs & Eb & Lb & Hb).
  cbn [paint_frames length] in *. rewrite Eb. cbn [obind]. rewrite splice_put by lia. cbn [obind]. rewrite sub_u_ret by lia. cbn [obind].
  destruct (IH (i + 1) (rem - Z.min 4096 rem) (put heap (Z.to_nat (i * 4096)) bs)) as (data & E & Ld & Hd); try done; [lia | lia | |].
  { rewrite length_put by lia. lia. }
  exists (bs ++ data). rewrite E. split.
  - replace (Z.to_nat ((i + 1) * 4096)) with (Z.to_nat (i * 4096) + length bs)%nat by lia. by rewrite put_put_app by lia.
  - split; [rewrite length_app; cbn [length]; lia |]. intros [|j] g k Hj Hk.
    + cbn in Hj. injection Hj as <-. rewrite lookup_app_l by lia. by apply Hb.
    + rewrite lookup_app_r by lia. rewrite Lb. rewrite <- (Hd j g k Hj Hk). f_equal. lia.
Qed.

Section Turn.
Variables (s : System A S) (scr : Screen).
Abbreviation len := (bytes_per_line (sc scr) * height (sc scr)) (only parsing).
Variable k : nat.

(** Processes whose window, if they have one, is [k] frames. *)
Definition paintable (x : Z) : Prop :=
  exists p, pcbs s !! x = Some p /\
    forall fs, backbuffer_frames (adsp p) = Some fs -> length fs = k /\ Forall (frame_there (ram s)) fs.
Definition no_window (x : Z) : Prop := exists p, pcbs s !! x = Some p /\ backbuffer_frames (adsp p) = None.

Hypotheses (Hm : mem_sized (ram s)) (Hlen : 0 <= len < 2 ^ 32).

Lemma paint_procs_app l l' heap :
  paint_procs s scr (l ++ l') heap = let! heap := paint_procs s scr l heap in paint_procs s scr l' heap.
Proof.
  revert heap. induction l as [|x l IH]; intros heap; [done |]. cbn [app paint_procs].
  destruct (pcbs s !! x); [| done]. cbn [unwrap obind]. destruct (match backbuffer_frames _ with Some _ => _ | None => _ end); cbn [obind]; auto.
Qed.

Lemma paint_one (p : ProcessControlBlock S) heap fs :
  backbuffer_frames (adsp p) = Some fs -> length fs = k -> Forall (frame_there (ram s)) fs -> (4096 * k <= length heap)%nat ->
  exists data, (let! n := buffer_len scr in paint_frames (ram s) 0 fs n heap) = Ret (put heap 0 data) /\ holds_frames (ram s) fs data.
Proof.
  intros Hb Hk Hfs Hl. unfold buffer_len. rewrite chk_u_ret by lia. cbn [obind].
  apply (paint_frames_ret (ram s) fs 0); [done | done | lia | lia | lia].
Qed.

(** Painting stays in the first [k] pages. *)
Lemma paint_procs_ret l : forall heap, Forall paintable l -> (4096 * k <= length heap)%nat ->
  exists heap', paint_procs s scr l heap = Ret heap' /\ length heap' = length heap /\
    forall i, (4096 * k <= i)%nat -> heap' !! i = heap !! i.
Proof.
  induction l as [|x l IH]; intros heap Hl Hh; [by exists heap |].
  apply Forall_cons in Hl as [(p & Hp & Hfs) Hl]. cbn [paint_procs]. rewrite Hp. cbn [unwrap obind].
  destruct (backbuffer_frames (adsp p)) as [fs|] eqn:Eb; [| cbn [obind]; by apply IH].
  destruct (Hfs fs eq_refl) as [Hk Hf]. destruct (paint_one p heap fs Eb Hk Hf Hh) as (data & -> & Ld & _). cbn [obind].
  destruct (IH (put heap 0 data) Hl) as (h' & E & Lh & Hi); [rewrite length_put by lia; done |].
  exists h'. split; [done |]. split; [by rewrite Lh, length_put by lia |]. intros i Hik. rewrite Hi by done. apply lookup_put_out; lia.
Qed.

Lemma paint_nothing l heap : Forall no_window l -> paint_procs s scr l heap = Ret heap.
Proof. induction 1 as [|x l (p & Hp & Hb) _ IH]; [done |]. cbn [paint_procs]. rewrite Hp. cbn [unwrap obind]. by rewrite Hb. Qed.

(** The window painted last is what is left. *)
Lemma paint_last l1 x p fs l2 heap :
  Forall paintable l1 -> pcbs s !! x = Some p -> backbuffer_frames (adsp p) = Some fs -> length fs = k ->
  Forall (frame_there (ram s)) fs -> Forall no_window l2 -> (4096 * k <= length heap)%nat ->
  exists data heap', paint_procs s scr (l1 ++ x :: l2) heap = Ret (put heap' 0 data) /\ holds_frames (ram s) fs data /\
    length heap' = length heap /\ forall i, (4096 * k <= i)%nat -> heap' !! i = heap !! i.
Proof.
  intros H1 Hp Hb Hk Hfs H2 Hl. rewrite paint_procs_app. destruct (paint_procs_ret l1 heap H1 Hl) as (h1 & -> & L1 & Hi). cbn [obind paint_procs].
  rewrite Hp. cbn [unwrap obind]. rewrite Hb. destruct (paint_one p h1 fs Hb Hk Hfs) as (data & -> & Hd); [lia |]. cbn [obind].
  rewrite paint_nothing by done. by exists data, h1.
Qed.
End Turn.

(** ** What the screen shows *)
(** The window of an address space: [k] pages from [MMAP_BASE] on, mapped to
    the frames of its back buffer in order. *)
Record window m (d : AddressSpace) (k : nat) (fs : list Z) : Prop := {
  wi_frames : backbuffer_frames d = Some fs;
  wi_length : length fs = k;
  wi_maps i f : fs !! i = Some f -> user_maps m (Paging.cr3 d) (MMAP_BASE / 4096 + Z.of_nat i) f
}.

Lemma window_page i : (Z.of_nat i < 2 ^ 20) -> user_page (page_of (MMAP_BASE / 4096 + Z.of_nat i)).
Proof. intros Hi. apply page_of_user. unfold user_pagenum, MMAP_BASE. change (70368744177664 / 4096) with 17179869184. lia. Qed.

Lemma window_frames m a d k fs : space_ok m a d -> Z.of_nat k <= 2 ^ 20 -> window m d k fs -> Forall (frame_there m) fs.
Proof.
  intros Hok Hk [_ Hl H]. apply Forall_lookup. intros i f Hi. pose proof (lookup_lt_Some _ _ _ Hi).
  destruct (H i f Hi) as (e & He & Hf & _). split; [| by eapply entry_frame_ok].
  destruct (so_frames m a d Hok _ e (window_page i ltac:(lia)) He) as (g & dd & Hg & Hd & _). rewrite Hf in Hg. injection Hg as <-. by eexists.
Qed.

Lemma window_byte m a d k fs data i :
  space_ok m a d -> window m d k fs -> holds_frames m fs data -> (i < 4096 * k)%nat -> Z.of_nat k <= 2 ^ 20 ->
  data !! i = user_byte m (Paging.cr3 d) (MMAP_BASE + Z.of_nat i).
Proof.
  intros Hok [_ Hk Hw] [_ Hd] Hi Hk2. pose proof (Nat.div_mod_eq i 4096) as E. pose proof (Nat.mod_upper_bound i 4096 ltac:(lia)).
  destruct (lookup_lt_is_Some_2 fs (i / 4096)%nat) as [f Hf]; [apply Nat.Div0.div_lt_upper_bound; lia |].
  replace i with (i / 4096 * 4096 + i mod 4096)%nat at 1 by lia. rewrite (Hd _ f _ Hf) by done.
  assert (Hdm : (MMAP_BASE + Z.of_nat i) / 4096 = MMAP_BASE / 4096 + Z.of_nat (i / 4096) /\ (MMAP_BASE + Z.of_nat i) mod 4096 = Z.of_nat (i mod 4096)).
  { change MMAP_BASE with (17179869184 * 4096). rewrite Z.div_add_l, Z.div_mul, (Z.add_comm (_ * _)), Z.mod_add by lia.
    change 4096 with (Z.of_nat 4096). by rewrite <- Nat2Z.inj_div, <- Nat2Z.inj_mod. }
  destruct Hdm as [Hdv Hmd].
  rewrite (user_byte_maps m a d (MMAP_BASE / 4096 + Z.of_nat (i / 4096)) f) by (done || auto || split; unfold MMAP_BASE; lia).
  by rewrite Hmd.
Qed.

(** The screen of [k] pages (the last one perhaps only in part), and the
    processes: [x] is the last one with a window. *)
Record shown (cfg : Config) s (scr : Screen) (lfb : list Z) (k : nat) (l1 : list Z) (x : Z) p (fs l2 : list Z) : Prop := {
  sh_inv : proc_inv cfg s;
  sh_screen : screen_ok scr;
  sh_pages : bytes_per_line (sc scr) * height (sc scr) <= 4096 * Z.of_nat k < bytes_per_line (sc scr) * height (sc scr) + 4096;
  sh_lfb : (length (back_lfb scr) <= length lfb)%nat;
  sh_procs : PROC s = l1 ++ x :: l2;
  sh_before : Forall (paintable s k) l1;
  sh_pcb : pcbs s !! x = Some p;
  sh_window : window (ram s) (adsp p) k fs;
  sh_after : Forall (no_window s) l2
}.

Lemma shown_space cfg s scr lfb k l1 x p fs l2 : shown cfg s scr lfb k l1 x p fs l2 -> space_ok (ram s) (ALLOC s) (adsp p).
Proof.
  intros H. destruct (pi_mem cfg s (sh_inv _ _ _ _ _ _ _ _ _ _ H)). apply (is_space x (adsp p)).
  apply live_space_Some. rewrite (sh_procs _ _ _ _ _ _ _ _ _ _ H). split; [set_solver |]. exists p. split; [apply H | done].
Qed.

(** A turn writes the window over the buffer and what lies behind it. *)
Lemma turn_paints cfg s scr after lfb k l1 x p fs l2 :
  shown cfg s scr lfb k l1 x p fs l2 -> (4096 * k <= length (back_lfb scr) + length after)%nat ->
  exists data, holds_frames (ram s) fs data /\ length data = (4096 * k)%nat /\
    compositor_turn s scr after lfb =
      Ret (set_back (take (length (back_lfb scr)) data) scr,
           drop (length (back_lfb scr)) data ++ drop (4096 * k - length (back_lfb scr)) after,
           put lfb 0 (take (length (back_lfb scr)) data)).
Proof.
  intros H Hroom. pose proof (shown_space _ _ _ _ _ _ _ _ _ _ H) as Hok. destruct H as [Hinv Hs Hlen Hl Hpr H1 Hp Hw H2].
  pose proof (so_len scr Hs) as Hb. pose proof (so_bytes scr Hs) as Hb32. pose proof (is_sized _ _ _ _ (pi_mem cfg s Hinv)) as Hm.
  assert (Hk20 : Z.of_nat k <= 2 ^ 20) by lia. pose proof (window_frames _ _ _ _ _ Hok Hk20 Hw) as Hfr. pose proof Hw as [Hbb Hk _].
  destruct (paint_last s scr k Hm ltac:(lia) l1 x p fs l2 (back_lfb scr ++ after) H1 Hp Hbb Hk Hfr H2)
    as (data & heap & E & Hd & Lh & Hrest); [rewrite length_app; lia |].
  pose proof Hd as [Ld _]. exists data. split; [done |]. split; [lia |].
  unfold compositor_turn. rewrite Hpr, E. cbn [obind]. rewrite length_app in Lh.
  change (put heap 0 data) with (data ++ drop (length data) heap). rewrite take_app_le, drop_app_le by lia.
  assert (Ed : drop (length data) heap = drop (4096 * k - length (back_lfb scr)) after).
  { apply list_eq. intros i. rewrite !lookup_drop. rewrite Hrest, lookup_app_r by lia. f_equal. lia. }
  rewrite Ed. unfold flush, buffer_len. cbn [sc set_back back_lfb]. rewrite chk_u_ret by lia. cbn [obind].
  by rewrite splice_put by (rewrite ?length_take; lia).
Qed.


End Compositor.

(** ** A process draws *)
Module CompositorWitness.
#[local] Existing Instance align_down_frames.
#[local] Existing Instance align_down_frames_laws.
Import Memory.MemoryWitness PagingMap.PagingWitness Elf.ElfWitness ProcSys.ProcWitness.
#[local] Existing Instance page_api.
#[local] Existing Instance UserMem.UserMemWitness.addr_laws.
#[local] Existing Instance table_slab.

(** A screen of one page. *)
Definition page_screen : ScreenSize := {| width := 64; height := 16; bytes_per_pixel := 2; bytes_per_line := 256 |}.
Definition scr0 : Screen := mkScreen page_screen 0 (replicate (Z.to_nat 4096) 0).
Definition opened : Sys := match proc_back_buffer page_screen s3 with Ret (_, s) => s | _ => s3 end.
(** The process writes to its window. *)
Definition drawn : Sys := match user_store (CR3 opened) (MMAP_BASE + 7) 99 (ram opened) with Ret m => set_mem m (ALLOC opened) opened | _ => opened end.

Lemma page_unmapped n : unmapped (ram s3) (Paging.cr3 (adsp p3)) n -> Forall (unmapped (ram s3) (Paging.cr3 (adsp p3))) (page_range n 1).
Proof. intros H. cbn. rewrite Z.add_0_r. by constructor. Qed.

Lemma opened_step : any_step cfg0 s3 opened.
Proof.
  assert (E : is_ret (proc_back_buffer page_screen s3)) by (apply is_retb_ret; vm_compute; reflexivity). destruct E as [[win s] E].
  exists (Some 1000). eapply (ps_back cfg0 1000 p3 page_screen win s3);
    [exact s3_may_call | exact s3_proc | split; vm_compute; congruence | | |].
  - apply page_unmapped. vm_compute. reflexivity.
  - apply can_allocate_avail. vm_compute. reflexivity.
  - unfold opened. rewrite E. reflexivity.
Qed.

Lemma opened_reached : rtc (any_step cfg0) s0 opened.
Proof. exact (rtc_r _ _ _ s3_reached opened_step). Qed.

Lemma opened_proc : curr_proc opened = Ret (1000, pcb_or opened).
Proof. vm_compute. reflexivity. Qed.

Lemma drawn_inv : proc_inv cfg0 drawn.
Proof.
  apply (reachable_proc_inv cfg0 s0 drawn s0_boot). eapply rtc_r; [exact opened_reached |]. exists (Some 1000).
  assert (E : is_ret (user_store (CR3 opened) (MMAP_BASE + 7) 99 (ram opened))) by (apply is_retb_ret; vm_compute; reflexivity).
  destruct E as [m E]. assert (Ed : drawn = set_mem m (ALLOC opened) opened) by (unfold drawn; rewrite E; reflexivity). rewrite Ed.
  eapply (ps_store cfg0 1000 (pcb_or opened) (MMAP_BASE + 7) 99 m opened);
    [| exact opened_proc | split; vm_compute; congruence | exact E].
  apply curr_runs_may_call. vm_compute. reflexivity.
Qed.

Definition pd : ProcessControlBlock (list (option Z)) := pcb_or drawn.
Definition fd0 : Z := match backbuffer_frames (adsp pd) with Some [f] => f | _ => 0 end.
Definition lfb0 : list Z := replicate (Z.to_nat 5000) 255.

Lemma drawn_shown : shown cfg0 drawn scr0 lfb0 1 [] 1000 pd [fd0] [].
Proof.
  split; [exact drawn_inv | by repeat split | split; vm_compute; congruence | | vm_compute; reflexivity | constructor | | | constructor].
  - unfold lfb0, scr0. cbn [back_lfb]. rewrite !length_replicate. lia.
  - vm_compute. reflexivity.
  - split; [vm_compute; reflexivity | reflexivity |]. intros [|i] f Hf; [| discriminate Hf].
    change (Some fd0 = Some f) in Hf. apply (inj Some) in Hf as <-. eexists. split; [vm_compute; reflexivity |]. split; vm_compute; reflexivity.
Qed.

End CompositorWitness.
