(* ===== verification/Pci.v ===== *)
(** * The PCI bus

    [kernel/src/driver/pci.rs]: configuration space through the address and
    data ports, and the enumeration of the devices on all buses.  What the
    ports do is a class with the law of configuration mechanism one; on a bus
    that obeys it enumeration returns exactly the functions that are present,
    except that only the first function of a device that does not say it has
    several is asked for. *)
From S2P Require Import Prelude.

(** 32-bit ports. *)
Class Port32 (H : Type) := { inl : Z -> H -> Z * H; outl : Z -> Z -> H -> H }.

Inductive HeaderType := GeneralDevice | PciPciBridge | PciCardBusBridge.
Definition header_try_from (v : Z) : option HeaderType :=
  match v with 0 => Some GeneralDevice | 1 => Some PciPciBridge | 2 => Some PciCardBusBridge | _ => None end.

Record PciDevice := {
  bus : Z; device : Z; function_id : Z; vendor_id : Z; device_id : Z; class : Z; subclass : Z; revision_id : Z;
  prog_if : Z; header_type : HeaderType
}.

(** The address of a register, before it is cut to 32 bits. *)
Definition pci_address (bus slot func offset : Z) : Z :=
  Z.lor (Z.lor (Z.lor (Z.lor (Z.shiftl bus 16) (Z.shiftl slot 11)) (Z.shiftl func 8)) (Z.land offset 252)) (Z.shiftl 1 31).

Section Pci.
Context {H : Type} {P32 : Port32 H}.
Implicit Type hw : H.

Definition pci_read_32 (bus slot func offset : Z) hw : Z * H :=
  let hw := outl 3320 (wrap_u 32 (pci_address bus slot func offset)) hw in inl 3324 hw.

Definition pci_read_word (bus slot func offset : Z) hw : Z * H :=
  let '(v, hw) := pci_read_32 bus slot func offset hw in
  (Z.land (Z.shiftr v (Z.land offset 2 * 8)) 65535, hw).

Definition pci_write (bus slot func offset value : Z) hw : H :=
  let hw := outl 3320 (wrap_u 32 (pci_address bus slot func offset)) hw in outl 3324 value hw.

(** The body of the innermost loop: nothing, or a device and whether it has
    more functions. *)
Definition pci_function (bus device function : Z) hw : outcome (option (PciDevice * bool) * H) :=
  let '(vendor_id, hw) := pci_read_word bus device function 0 hw in
  if vendor_id =? 65535 then Ret (None, hw) else
  let '(device_id, hw) := pci_read_word bus device function 2 hw in
  let '(prog_revision, hw) := pci_read_word bus device function 8 hw in
  let revision_id := Z.land prog_revision 255 in
  let prog_if := Z.land (Z.shiftr prog_revision 8) 255 in
  let '(class_subclass, hw) := pci_read_word bus device function 10 hw in
  let subclass := Z.land class_subclass 255 in
  let class := Z.land (Z.shiftr class_subclass 8) 255 in
  let '(header_type_raw, hw) := pci_read_word bus device function 14 hw in
  let header_type := Z.land header_type_raw 255 in
  let is_multi_functional := negb (Z.land header_type 128 =? 0) in
  let! header_type := unwrap (header_try_from (Z.land header_type 127)) in
  Ret (Some ({| bus := bus; device := device; function_id := function; vendor_id := vendor_id; device_id := device_id;
                class := class; subclass := subclass; revision_id := revision_id; prog_if := prog_if;
                header_type := header_type |}, is_multi_functional), hw).

Fixpoint functions_loop (bus device : Z) (fs : list Z) (found : list PciDevice) hw : outcome (list PciDevice * H) :=
  match fs with
  | [] => Ret (found, hw)
  | function :: fs =>
      let! '(r, hw) := pci_function bus device function hw in
      match r with
      | None => functions_loop bus device fs found hw
      | Some (d, is_multi_functional) =>
          if (function =? 0) && negb is_multi_functional then Ret (found ++ [d], hw)
          else functions_loop bus device fs (found ++ [d]) hw
      end
  end.

Fixpoint devices_loop (bus : Z) (ds : list Z) (found : list PciDevice) hw : outcome (list PciDevice * H) :=
  match ds with
  | [] => Ret (found, hw)
  | device :: ds => let! '(found, hw) := functions_loop bus device (seqZ 0 8) found hw in devices_loop bus ds found hw
  end.

Fixpoint buses_loop (bs : list Z) (found : list PciDevice) hw : outcome (list PciDevice * H) :=
  match bs with
  | [] => Ret (found, hw)
  | bus :: bs => let! '(found, hw) := devices_loop bus (seqZ 0 32) found hw in buses_loop bs found hw
  end.

Definition pci_enumerate hw : outcome (list PciDevice * H) := buses_loop (seqZ 0 256) [] hw.
End Pci.

(** [hda.rs]: the first device of class 4, subclass 3. *)
Definition find_intel_hda_pci (devices : list PciDevice) : option PciDevice :=
  find (fun d => (class d =? 4) && (subclass d =? 3)) devices.

(** The size of a memory region from what its base register reads after all
    ones were written to it, rounded up to pages. *)
Definition bar_size (v : Z) : Z :=
  let size := wrap_u 32 (Z.lnot (Z.land v (Z.lnot 15)) + 1) in
  let r := size mod 4096 in if r =? 0 then size else size - r + 4096.

(** ** The bus *)

(** Configuration space: the 32-bit register at a function and offset. *)
Definition Config := Z -> Z -> Z -> Z -> Z.

(** Configuration mechanism one: the address port holds the address, the data
    port reads the register it names; reading changes nothing. *)
Class PciLaws (H : Type) (P32 : Port32 H) := {
  pci_cfg : H -> Config;
  pci_read_law b d f o hw :
    0 <= b < 256 -> 0 <= d < 32 -> 0 <= f < 8 -> 0 <= o < 64 ->
    let hw' := outl 3320 (2147483648 + b * 65536 + d * 2048 + f * 256 + o * 4) hw in
    fst (inl 3324 hw') = pci_cfg hw b d f (o * 4) /\ pci_cfg (snd (inl 3324 hw')) = pci_cfg hw
}.

(** ** What is there *)
Definition word (c : Config) (b d f o : Z) : Z := c b d f (o - o mod 4) / 2 ^ (o mod 4 * 8) mod 65536.
Definition present (c : Config) (b d f : Z) : bool := negb (word c b d f 0 =? 65535).
Definition header (c : Config) (b d f : Z) : Z := word c b d f 14 mod 256.
Definition multi (c : Config) (b d f : Z) : bool := 128 <=? header c b d f.

Definition described (c : Config) (b d f : Z) (t : HeaderType) : PciDevice :=
  {| bus := b; device := d; function_id := f; vendor_id := word c b d f 0; device_id := word c b d f 2;
     class := word c b d f 10 / 256; subclass := word c b d f 10 mod 256; revision_id := word c b d f 8 mod 256;
     prog_if := word c b d f 8 / 256; header_type := t |}.
Definition describe (c : Config) (b d f : Z) : option PciDevice :=
  if present c b d f then option_map (described c b d f) (header_try_from (header c b d f mod 128)) else None.

(** The functions of a device that enumeration visits. *)
Definition functions (c : Config) (b d : Z) : list Z :=
  if present c b d 0 && negb (multi c b d 0) then [0] else seqZ 0 8.
Definition all_devices (c : Config) : list PciDevice :=
  b ← seqZ 0 256; d ← seqZ 0 32; omap (describe c b d) (functions c b d).

(** Every function that is present has a header of a known type. *)
Definition headers_known (c : Config) : Prop :=
  forall b d f, 0 <= b < 256 -> 0 <= d < 32 -> 0 <= f < 8 -> present c b d f = true ->
    is_Some (header_try_from (header c b d f mod 128)).
(** Registers are 32 bits. *)
Definition cfg_ok (c : Config) : Prop := forall b d f o, 0 <= c b d f o < 2 ^ 32.

(** ** Reading *)
Lemma pci_address_sum b d f o offset :
  0 <= b < 256 -> 0 <= d < 32 -> 0 <= f < 8 -> 0 <= o < 64 -> Z.land offset 252 = 4 * o ->
  wrap_u 32 (pci_address b d f offset) = 2147483648 + b * 65536 + d * 2048 + f * 256 + o * 4.
Proof.
  intros Hb Hd Hf Ho Hoff. unfold pci_address. rewrite Hoff, !Z.shiftl_mul_pow2 by lia.
  rewrite (lor_low b (d * 2 ^ 11) 16) by lia.
  replace (b * 2 ^ 16 + d * 2 ^ 11) with ((b * 32 + d) * 2 ^ 11) by lia. rewrite (lor_low (b * 32 + d) (f * 2 ^ 8) 11) by lia.
  replace ((b * 32 + d) * 2 ^ 11 + f * 2 ^ 8) with ((b * 256 + d * 8 + f) * 2 ^ 8) by lia.
  rewrite (lor_low (b * 256 + d * 8 + f) (4 * o) 8) by lia. rewrite Z.lor_comm, (lor_low 1) by lia.
  apply eq_trans with (1 * 2 ^ 31 + ((b * 256 + d * 8 + f) * 2 ^ 8 + 4 * o)); [apply wrap_u_small; lia | lia].
Qed.

Lemma word_cut c b d f o : cfg_ok c -> 0 <= word c b d f o < 65536.
Proof. intros _. apply Z.mod_pos_bound. lia. Qed.

Section Reading.
Context {H : Type} {P32 : Port32 H} {PL : PciLaws H P32}.
Implicit Type hw : H.

Lemma read_word_ok b d f offset o hw :
  0 <= b < 256 -> 0 <= d < 32 -> 0 <= f < 8 -> 0 <= o < 64 -> Z.land offset 252 = 4 * o -> offset - offset mod 4 = 4 * o ->
  Z.land offset 2 = offset mod 4 ->
  exists hw', pci_read_word b d f offset hw = (word (pci_cfg hw) b d f offset, hw') /\ pci_cfg hw' = pci_cfg hw.
Proof.
  intros Hb Hd Hf Ho Hl Hm H2. unfold pci_read_word, pci_read_32. rewrite (pci_address_sum b d f o) by done.
  destruct (pci_read_law b d f o hw Hb Hd Hf Ho) as [E1 E2]. cbv zeta in E1, E2.
  destruct (inl 3324 _) as [v hw'] eqn:E. cbn [fst snd] in E1, E2.
  exists hw'. split; [| done]. f_equal. unfold word. rewrite Hm, H2, E1, Z.mul_comm. pose proof (Z.mod_pos_bound offset 4).
  rewrite Z.shiftr_div_pow2 by lia. by apply (land_ones_mod _ 16).
Qed.

Ltac read_word b d f o q hw :=
  let hw' := fresh "hw" in let E := fresh "E" in let Ec := fresh "Ec" in
  destruct (read_word_ok b d f o q hw) as (hw' & E & Ec); [lia | lia | lia | lia | done | done | done |]; rewrite E; clear E.

Lemma pci_function_ok b d f hw :
  0 <= b < 256 -> 0 <= d < 32 -> 0 <= f < 8 -> cfg_ok (pci_cfg hw) -> headers_known (pci_cfg hw) ->
  exists hw', pci_function b d f hw = Ret ((fun x => (x, multi (pci_cfg hw) b d f)) <$> describe (pci_cfg hw) b d f, hw') /\
    pci_cfg hw' = pci_cfg hw /\ (is_Some (describe (pci_cfg hw) b d f) <-> present (pci_cfg hw) b d f = true).
Proof.
  intros Hb Hd Hf Hok Hk. unfold pci_function, describe. set (c := pci_cfg hw) in *. read_word b d f 0 0 hw. fold c. unfold present.
  destruct (Z.eqb_spec (word c b d f 0) 65535) as [E0|E0]; cbn [negb].
  { exists hw0. split; [done |]. split; [done |]. split; [by intros [? [=]] | done]. }
  read_word b d f 2 0 hw0. read_word b d f 8 2 hw1. read_word b d f 10 2 hw2. read_word b d f 14 3 hw3.
  assert (Ehw : pci_cfg hw0 = c /\ pci_cfg hw1 = c /\ pci_cfg hw2 = c /\ pci_cfg hw3 = c /\ pci_cfg hw4 = c) by (unfold c; split_and!; congruence).
  destruct Ehw as (-> & -> & -> & -> & E4).
  pose proof (word_cut c b d f 8 Hok). pose proof (word_cut c b d f 10 Hok). pose proof (word_cut c b d f 14 Hok).
  rewrite !Z.shiftr_div_pow2 by lia. change 255 with (2 ^ 8 - 1). change 127 with (2 ^ 7 - 1). rewrite !land_ones_mod by lia.
  rewrite !(Z.mod_small (_ / 2 ^ 8)) by (split; [apply Z.div_pos; lia | apply Z.div_lt_upper_bound; lia]).
  change (word c b d f 14 mod 2 ^ 8) with (header c b d f). change (2 ^ 7) with 128.
  destruct (Hk b d f Hb Hd Hf) as [t Ht]; [unfold present; fold c; by rewrite (proj2 (Z.eqb_neq _ _) E0) |]. fold c in Ht.
  rewrite Ht. cbn [unwrap obind option_map fmap option_fmap]. exists hw4.
  assert (Em : negb (Z.land (header c b d f) 128 =? 0) = multi c b d f).
  { change 128 with (2 ^ 7). rewrite land_flag, negb_involutive by lia. unfold multi.
    assert (Hh : 0 <= header c b d f < 256) by (apply Z.mod_pos_bound; lia).
    pose proof (Z.testbit_spec' (header c b d f) 7 ltac:(lia)) as Ht7.
    destruct (Z.leb_spec 128 (header c b d f)); destruct (Z.testbit _ 7); cbn [Z.b2z] in Ht7; try done.
    - rewrite Z.mod_small in Ht7; [| split; [apply Z.div_pos; lia | apply Z.div_lt_upper_bound; lia]].
      assert (1 <= header c b d f / 2 ^ 7) by (apply Z.div_le_lower_bound; lia). lia.
    - rewrite Z.div_small in Ht7 by lia. done. }
  rewrite Em. split; [reflexivity |]. split; [done |]. split; [done | by eexists].
Qed.

(** ** Enumerating *)
Section Loops.
Variable c : Config.
Hypotheses (Hok : cfg_ok c) (Hk : headers_known c).

(** The functions after the first, or all of them. *)
Lemma functions_rest b d fs : forall found hw,
  0 <= b < 256 -> 0 <= d < 32 -> Forall (fun f => 0 <= f < 8) fs -> pci_cfg hw = c ->
  (0 ∈ fs -> present c b d 0 = true -> multi c b d 0 = true) ->
  exists hw', functions_loop b d fs found hw = Ret (found ++ omap (describe c b d) fs, hw') /\ pci_cfg hw' = c.
Proof.
  induction fs as [|f fs IH]; intros found hw Hb Hd Hfs Hc H0; [exists hw; by rewrite app_nil_r |].
  apply Forall_cons in Hfs as [Hf Hfs]. cbn [functions_loop]. subst c.
  destruct (pci_function_ok b d f hw Hb Hd Hf Hok Hk) as (hw1 & -> & Ec & Hp). cbn [obind].
  cbn [omap list_omap]. destruct (describe (pci_cfg hw) b d f) as [x|] eqn:Ex; cbn [fmap option_fmap option_map].
  - assert ((f =? 0) && negb (multi (pci_cfg hw) b d f) = false) as ->.
    { destruct (Z.eqb_spec f 0) as [->|]; [| done]. rewrite H0; [done | set_solver |]. apply Hp. by eexists. }
    destruct (IH (found ++ [x]) hw1 Hb Hd Hfs Ec) as (hw2 & E & Ec2); [set_solver |]. rewrite <- app_assoc in E. by exists hw2.
  - by apply IH; [done.. | set_solver].
Qed.

Lemma functions_all b d found hw :
  0 <= b < 256 -> 0 <= d < 32 -> pci_cfg hw = c ->
  exists hw', functions_loop b d (seqZ 0 8) found hw = Ret (found ++ omap (describe c b d) (functions c b d), hw') /\ pci_cfg hw' = c.
Proof.
  intros Hb Hd Hc. unfold functions. destruct (present c b d 0 && negb (multi c b d 0)) eqn:E.
  - apply andb_true_iff in E as [Hp Hm]. rewrite (seqZ_cons 0 8) by lia. cbn [functions_loop]. subst c.
    destruct (pci_function_ok b d 0 hw Hb Hd ltac:(lia) Hok Hk) as (hw1 & -> & Ec & Hd0). cbn [obind].
    destruct (proj2 Hd0 Hp) as [x Ex]. rewrite Ex. cbn [fmap option_fmap option_map]. rewrite Hm. cbn [Z.eqb andb].
    exists hw1. split; [| done]. cbn [omap list_omap]. by rewrite Ex.
  - apply functions_rest; [done | done | | done |].
    + apply Forall_forall. intros f Hf%elem_of_seqZ. lia.
    + intros _ Hp. rewrite Hp in E. by destruct (multi c b d 0).
Qed.

Lemma devices_all b ds : forall found hw,
  0 <= b < 256 -> Forall (fun d => 0 <= d < 32) ds -> pci_cfg hw = c ->
  exists hw', devices_loop b ds found hw = Ret (found ++ (d ← ds; omap (describe c b d) (functions c b d)), hw') /\ pci_cfg hw' = c.
Proof.
  induction ds as [|d ds IH]; intros found hw Hb Hds Hc; [exists hw; by rewrite app_nil_r |].
  apply Forall_cons in Hds as [Hd Hds]. cbn [devices_loop]. destruct (functions_all b d found hw Hb Hd Hc) as (hw1 & -> & Hc1). cbn [obind].
  destruct (IH (found ++ omap (describe c b d) (functions c b d)) hw1 Hb Hds Hc1) as (hw2 & -> & Hc2). exists hw2. by rewrite <- app_assoc.
Qed.

Lemma buses_all bs : forall found hw,
  Forall (fun b => 0 <= b < 256) bs -> pci_cfg hw = c ->
  exists hw', buses_loop bs found hw =
      Ret (found ++ (b ← bs; d ← seqZ 0 32; omap (describe c b d) (functions c b d)), hw') /\ pci_cfg hw' = c.
Proof.
  induction bs as [|b bs IH]; intros found hw Hbs Hc; [exists hw; by rewrite app_nil_r |].
  apply Forall_cons in Hbs as [Hb Hbs]. cbn [buses_loop].
  destruct (devices_all b (seqZ 0 32) found hw Hb) as (hw1 & -> & Hc1); [apply Forall_forall; intros d Hd%elem_of_seqZ; lia | done |].
  cbn [obind]. destruct (IH (found ++ (d ← seqZ 0 32; omap (describe c b d) (functions c b d))) hw1 Hbs Hc1) as (hw2 & -> & Hc2).
  exists hw2. by rewrite <- app_assoc.
Qed.
End Loops.

(** Enumeration returns, leaves configuration space as it was, and its result
    is the list of the functions that are present, in order of bus, device and
    function, each with what its configuration registers say. *)
Theorem pci_enumerate_exact hw :
  cfg_ok (pci_cfg hw) -> headers_known (pci_cfg hw) ->
  exists hw', pci_enumerate hw = Ret (all_devices (pci_cfg hw), hw') /\ pci_cfg hw' = pci_cfg hw.
Proof.
  intros Hok Hk. apply (buses_all (pci_cfg hw) Hok Hk (seqZ 0 256) [] hw); [| done].
  apply Forall_forall. intros b Hb%elem_of_seqZ. lia.
Qed.
End Reading.

(** ** Sizes *)

(** A region of [2 ^ n] bytes, at least a page: its base register keeps the
    upper bits that were written, and its four type bits [t]. *)
Lemma bar_size_pow n t : 12 <= n < 32 -> 0 <= t < 16 -> bar_size (2 ^ 32 - 2 ^ n + t) = 2 ^ n.
Proof.
  intros Hn Ht. assert (Hp : 2 ^ n = 2 ^ (n - 12) * 4096) by (change 4096 with (2 ^ 12); rewrite <- Z.pow_add_r by lia; f_equal; lia).
  assert (Hq : 2 ^ 32 = 2 ^ (32 - n) * 2 ^ n) by (rewrite <- Z.pow_add_r by lia; f_equal; lia).
  pose proof (Z.pow_pos_nonneg 2 (n - 12) ltac:(lia) ltac:(lia)). pose proof (Z.pow_lt_mono_r 2 n 32 ltac:(lia) ltac:(lia) ltac:(lia)).
  assert (El : Z.land (2 ^ 32 - 2 ^ n + t) (Z.lnot 15) = 2 ^ 32 - 2 ^ n).
  { change 15 with (Z.ones 4). rewrite <- Z.ldiff_land, Z.ldiff_ones_r by lia.
    rewrite Z.shiftr_div_pow2, Z.shiftl_mul_pow2 by lia.
    replace (2 ^ 32 - 2 ^ n + t) with ((268435456 - 2 ^ (n - 12) * 256) * 16 + t) by lia. rewrite Z.div_add_l by lia.
    rewrite (Z.div_small t) by lia. lia. }
  unfold bar_size. rewrite El. unfold Z.lnot. replace (Z.pred (- (2 ^ 32 - 2 ^ n)) + 1) with (2 ^ n + -1 * 2 ^ 32) by lia.
  unfold wrap_u. rewrite Z.mod_add by lia. rewrite (Z.mod_small (2 ^ n) (2 ^ 32)) by lia. rewrite Hp, Z.mod_mul by lia. done.
Qed.

(** ** A bus with two devices *)
Module PciWitness.
(** The address port, and configuration space. *)
Record Bus := { addr : Z; space : Config }.
Definition sel_bus (a : Z) : Z := a / 65536 mod 256.
Definition sel_device (a : Z) : Z := a / 2048 mod 32.
Definition sel_function (a : Z) : Z := a / 256 mod 8.
Definition sel_offset (a : Z) : Z := a mod 256 - a mod 4.
(** The base register of the sound card's region of 16 kB is hard-wired below
    bit 14. *)
Definition kept (b d f o old v : Z) : Z :=
  if (b =? 0) && (d =? 27) && (f =? 0) && (o =? 16) then v - v mod 2 ^ 14 + 4 else v.
Definition written (a v : Z) (c : Config) : Config := fun b d f o =>
  if (b =? sel_bus a) && (d =? sel_device a) && (f =? sel_function a) && (o =? sel_offset a) then kept b d f o (c b d f o) v else c b d f o.
#[export] Instance bus_ports : Port32 Bus := {|
  inl p h := (if p =? 3324 then let a := addr h in space h (sel_bus a) (sel_device a) (sel_function a) (sel_offset a) else 0, h);
  outl p v h := if p =? 3320 then {| addr := v; space := space h |} else if p =? 3324 then {| addr := addr h; space := written (addr h) v (space h) |} else h
|}.

Lemma selected b d f o :
  0 <= b < 256 -> 0 <= d < 32 -> 0 <= f < 8 -> 0 <= o < 64 ->
  let a := 2147483648 + b * 65536 + d * 2048 + f * 256 + o * 4 in
  sel_bus a = b /\ sel_device a = d /\ sel_function a = f /\ sel_offset a = o * 4.
Proof.
  intros Hb Hd Hf Ho a. unfold sel_bus, sel_device, sel_function, sel_offset. split_and!.
  - replace a with ((32768 + b) * 65536 + (d * 2048 + f * 256 + o * 4)) by (unfold a; lia).
    rewrite Z.div_add_l, Z.div_small, Z.add_0_r by lia. rewrite <- (Z.add_mod_idemp_l 32768) by lia. change (32768 mod 256) with 0.
    apply Z.mod_small. lia.
  - replace a with ((1048576 + b * 32 + d) * 2048 + (f * 256 + o * 4)) by (unfold a; lia).
    rewrite Z.div_add_l, (Z.div_small (_ + _)), Z.add_0_r by lia. replace (1048576 + b * 32 + d) with (d + (32768 + b) * 32) by lia.
    rewrite Z.mod_add by lia. apply Z.mod_small. lia.
  - replace a with ((8388608 + b * 256 + d * 8 + f) * 256 + o * 4) by (unfold a; lia).
    rewrite Z.div_add_l, (Z.div_small (_ * _)), Z.add_0_r by lia. replace (8388608 + b * 256 + d * 8 + f) with (f + (1048576 + b * 32 + d) * 8) by lia.
    rewrite Z.mod_add by lia. apply Z.mod_small. lia.
  - replace a with (o * 4 + (8388608 + b * 256 + d * 8 + f) * 256) at 1 by (unfold a; lia). rewrite Z.mod_add, Z.mod_small by lia.
    replace a with (0 + (536870912 + b * 16384 + d * 512 + f * 64 + o) * 4) by (unfold a; lia). rewrite Z.mod_add, Z.mod_0_l by lia. lia.
Qed.

#[export] Instance bus_laws : PciLaws Bus bus_ports.
Proof.
  refine {| pci_cfg := space |}. intros b d f o h Hb Hd Hf Ho. cbn -[Z.add Z.mul sel_bus sel_device sel_function sel_offset].
  destruct (selected b d f o Hb Hd Hf Ho) as (-> & -> & -> & ->). done.
Defined.

(** A sound card at 0:27:0 and a device with functions 0 and 3 at 2:1. *)
Definition space0 : Config := fun b d f o =>
  if (b =? 0) && (d =? 27) && (f =? 0) then
    if o =? 0 then 0x26688086 else if o =? 8 then 0x04030001 else if o =? 16 then 0xFEBF0004 else if o =? 60 then 0x0000010B else 0
  else if (b =? 2) && (d =? 1) && ((f =? 0) || (f =? 3)) then
    if o =? 0 then 0x70008086 else if o =? 8 then 0x06010000 else if o =? 12 then 0x00800000 else 0
  else 0xFFFFFFFF.
Definition bus0 : Bus := {| addr := 0; space := space0 |}.

Lemma space0_ok : cfg_ok space0.
Proof. intros b d f o. unfold space0. repeat case_match; lia. Qed.
Lemma space0_headers : headers_known space0.
Proof.
  intros b d f Hb Hd Hf. unfold present, header, word, space0.
  destruct ((b =? 0) && (d =? 27) && (f =? 0)); [cbn; by eexists |].
  destruct ((b =? 2) && (d =? 1) && ((f =? 0) || (f =? 3))); [cbn; by eexists |]. intros E. vm_compute in E. discriminate E.
Qed.

Lemma pci_enumerate_exact_witness :
  exists hw', pci_enumerate bus0 = Ret (all_devices space0, hw') /\ pci_cfg hw' = space0.
Proof. exact (pci_enumerate_exact bus0 space0_ok space0_headers). Defined.

Example space0_devices : (fun d => (bus d, device d, function_id d)) <$> all_devices space0 = [(0, 27, 0); (2, 1, 0); (2, 1, 3)].
Proof. vm_compute. reflexivity. Qed.
Example space0_sound : (fun d => (bus d, device d)) <$> find_intel_hda_pci (all_devices space0) = Some (0, 27).
Proof. vm_compute. reflexivity. Qed.
End PciWitness.
