(* ===== verification/Sound.v ===== *)
(** * Sound

    [kernel/src/driver/sound]: the command ring (CORB) and the response ring
    (RIRB) shared with the HDA controller, the samples of the built-in WAV
    file, the verbs sent to the codec ([main.rs]) and the interrupt handler
    ([interrupts.rs]) that refills the sample buffer and delivers responses.
    The controller's registers are a class; reading one may change it. *)
From S2P Require Import Prelude Slices Queue.

(** [read_reg::<T>] and [write_reg::<T>], by the width of [T] in bits. *)
Class Mmio (M : Type) := { read_reg : Z -> Z -> M -> Z * M; write_reg : Z -> Z -> Z -> M -> M }.

Definition GCAP : Z := 0x00.
Definition INTSTS : Z := 0x24.
Definition CORBWP : Z := 0x48.
Definition RIRBWP : Z := 0x58.
Definition RIRBSTS : Z := 0x5D.

(** ** The rings *)
Record CorbBuffer := { cb_buffer : list Z; wp : Z }.
Definition corb_new : CorbBuffer := {| cb_buffer := replicate 256 0; wp := 0 |}.
Definition corb_push (val : Z) (c : CorbBuffer) : outcome CorbBuffer :=
  let! n := chk_u 64 (wp c + 1) in
  let wp := n mod 256 in
  let! b := upd (cb_buffer c) wp val in
  Ret {| cb_buffer := b; wp := wp |}.

Record RirbResponseEntry := { raw_response : Z; metadata : Z }.
Record RirbBuffer := { rb_buffer : list RirbResponseEntry; rp : Z }.
Definition rirb_new : RirbBuffer := {| rb_buffer := replicate 256 {| raw_response := 0; metadata := 0 |}; rp := 0 |}.
Definition rirb_pop (r : RirbBuffer) : outcome (RirbResponseEntry * RirbBuffer) :=
  let rp := wrap_u 8 (rp r + 1) in
  let! val := idx (rb_buffer r) rp in
  Ret (val, {| rb_buffer := rb_buffer r; rp := rp |}).

(** ** Samples *)

(** The samples of the file behind its header of 44 bytes. *)
Record WavStream := { samples : list Z; cursor : Z }.
(** [align_to::<i16>()] of an even address. *)
Fixpoint i16s (l : list Z) : list Z :=
  match l with lo :: hi :: l => wrap_i 16 (lo + 256 * hi) :: i16s l | _ => [] end.
Definition wav_format_size : Z := 44.
Definition wav_new (data : list Z) : outcome WavStream :=
  let! audio_bytes := slice data wav_format_size (Z.of_nat (length data)) in
  let! _ := ensure (Z.of_nat (length audio_bytes) mod 2 =? 0) in
  Ret {| samples := i16s audio_bytes; cursor := 0 |}.
Definition next_samples (requested_frames : Z) (w : WavStream) : outcome (list Z * WavStream) :=
  let! elements_needed := chk_u 64 (requested_frames * 2) in
  let! sum := chk_u 64 (cursor w + elements_needed) in
  let cursor := if sum >? Z.of_nat (length (samples w)) then 0 else cursor w in
  let! sliced_samples := slice (samples w) cursor (cursor + elements_needed) in
  Ret (sliced_samples, {| samples := samples w; cursor := cursor + elements_needed |}).

(** [chunks_exact(2)] as frames of a left and a right sample. *)
Fixpoint pcm_frames (l : list Z) : list (Z * Z) :=
  match l with x :: y :: l => (x, y) :: pcm_frames l | _ => [] end.

(** [setup_bg_stream]: the first 4096 frames fill the sample buffer. *)
Definition setup_bg_stream (w : WavStream) (pcm : list (Z * Z)) : outcome (list (Z * Z) * WavStream) :=
  let! '(s, w) := next_samples 4096 w in
  let! pcm := splice pcm 0 (pcm_frames s) in
  Ret (pcm, w).

(** ** Verbs *)
Definition hda_verb (codec_addr node_id verb payload : Z) : Z :=
  Z.lor (Z.lor (Z.lor (wrap_u 32 (Z.shiftl codec_addr 28)) (wrap_u 32 (Z.shiftl node_id 20))) (wrap_u 32 (Z.shiftl verb 8))) payload.

Section Hda.
Context {M : Type} {MM : Mmio M} {Q R : Type} {AQ : ArrayQueue Z Q} {AR : ArrayQueue RirbResponseEntry R}.

(** The controller, the rings, the queues between the interrupt handler and
    the tasks, the samples and the buffer of four pages they are played from. *)
Record Hda := mkHda {
  mmio : M; corb : CorbBuffer; rirb : RirbBuffer; awaiting_req : Q; ready_resp : R; wav : WavStream; pcm : list (Z * Z)
}.
Implicit Type h : Hda.
Definition set_mmio (m : M) h : Hda := mkHda m (corb h) (rirb h) (awaiting_req h) (ready_resp h) (wav h) (pcm h).
Definition set_corb (c : CorbBuffer) h : Hda := mkHda (mmio h) c (rirb h) (awaiting_req h) (ready_resp h) (wav h) (pcm h).
Definition set_rirb (r : RirbBuffer) h : Hda := mkHda (mmio h) (corb h) r (awaiting_req h) (ready_resp h) (wav h) (pcm h).
Definition set_resp (q : Q) (r : R) h : Hda := mkHda (mmio h) (corb h) (rirb h) q r (wav h) (pcm h).
Definition set_sound (w : WavStream) (p : list (Z * Z)) h : Hda := mkHda (mmio h) (corb h) (rirb h) (awaiting_req h) (ready_resp h) w p.

Definition hda_read (w reg : Z) h : Z * Hda := let '(v, m) := read_reg w reg (mmio h) in (v, set_mmio m h).
Definition hda_write (w reg v : Z) h : Hda := set_mmio (write_reg w reg v (mmio h)) h.

Definition hda_request_verb_no_res (codec_addr node_id verb payload : Z) h : outcome Hda :=
  let! c := corb_push (hda_verb codec_addr node_id verb payload) (corb h) in
  let h := set_corb c h in
  Ret (hda_write 16 CORBWP (wrap_u 16 (wp c)) h).

(** [hda_request_verb] up to its wait for the response. *)
Definition hda_request_verb (codec_addr node_id verb payload : Z) h : outcome Hda :=
  let v := hda_verb codec_addr node_id verb payload in
  let! c := corb_push v (corb h) in
  let h := set_corb c h in
  let h := set_resp (aq_force_push v (awaiting_req h)) (ready_resp h) h in
  Ret (hda_write 16 CORBWP (wrap_u 16 (wp c)) h).

(** The registers of the first output stream lie behind those of the input
    streams. *)
Definition stream_base (gcap : Z) : outcome Z :=
  let iss := Z.land (Z.shiftr gcap 8) 15 in
  let! n := chk_u 8 (iss * 32) in
  Ret (128 + n).

Definition start_dma h : outcome Hda :=
  let '(gcap, h) := hda_read 32 GCAP h in
  let! base := stream_base gcap in
  let stream_mask := Z.shiftl (2 ^ 4 - 1) 20 in
  let '(ctl_val, h) := hda_read 32 base h in
  let ctl_val := Z.land ctl_val (2 ^ 32 - 2) in
  let ctl_val := Z.lor (Z.lor (Z.lor (Z.lor ctl_val 2) 4) 8) 16 in
  let ctl_val := Z.lor (Z.land ctl_val (2 ^ 32 - 1 - stream_mask)) (Z.land (Z.shiftl 1 20) stream_mask) in
  Ret (hda_write 32 base ctl_val h).

Definition hda_qemu_setup h : outcome Hda :=
  let! h := hda_request_verb_no_res 0 3 0x707 0x40 h in
  let! h := hda_request_verb_no_res 0 3 0x300 (Z.lor 0xB000 0x40) h in
  let! h := hda_request_verb_no_res 0 2 0x300 (Z.lor 0xB000 0x40) h in
  let! h := hda_request_verb_no_res 0 2 0x706 0x10 h in
  let! h := hda_request_verb_no_res 0 2 0x2 0x0011 h in
  start_dma h.

(** ** The interrupt handler *)

(** [while rirb.rp != wp]: the pointer is 8 bits wide, so it meets [wp] within
    256 turns.  The number of wake-ups of the waiting task comes with it. *)
Fixpoint responses_loop (fuel : nat) (wp : Z) (n : nat) h : outcome (nat * Hda) :=
  match fuel with
  | O => NoFuel
  | S fuel =>
      if rp (rirb h) =? wp then Ret (n, h) else
      let! '(item, r) := rirb_pop (rirb h) in
      let h := set_rirb r h in
      match aq_pop (awaiting_req h) with
      | (Some _, q) => responses_loop fuel wp (S n) (set_resp q (aq_force_push item (ready_resp h)) h)
      | (None, q) => responses_loop fuel wp n (set_resp q (ready_resp h) h)
      end
  end.

(** The block that is played is [lpib / 4096]; the one three further on, modulo
    four, is filled. *)
Definition refill (base : Z) h : outcome Hda :=
  let '(sts, h) := hda_read 8 (base + 3) h in
  if Z.land sts 4 =? 0 then Ret h else
  let '(lpib, h) := hda_read 32 (base + 4) h in
  let to_fill_bdl := (lpib / 4096 + 3) mod 4 in
  let! '(s, w) := next_samples 1024 (wav h) in
  let! p := splice (pcm h) (1024 * to_fill_bdl) (pcm_frames s) in
  Ret (hda_write 8 (base + 3) 4 (set_sound w p h)).

Definition hda_interrupt_handler h : outcome (nat * Hda) :=
  let '(status, h) := hda_read 32 INTSTS h in
  let '(gcap, h) := hda_read 32 GCAP h in
  let! base := stream_base gcap in
  let! h := refill base h in
  let is_not_spurious := negb (Z.land status (2 ^ 31) =? 0) in
  let is_controller := negb (Z.land status (2 ^ 30) =? 0) in
  let '(status, h) := hda_read 8 RIRBSTS h in
  let has_codec_resp := negb (Z.land status 1 =? 0) in
  let! '(n, h) :=
    if is_not_spurious && is_controller && has_codec_resp then
      let '(wp, h) := hda_read 16 RIRBWP h in
      responses_loop 257 (Z.land wp 255) 0 h
    else Ret (0%nat, h) in
  Ret (n, hda_write 8 RIRBSTS 1 h).
End Hda.
Arguments Hda : clear implicits.

(** ** The command ring *)
Definition ring_entry {T} (b : list T) (from i : Z) : option T := b !! Z.to_nat ((from + 1 + i) mod 256).
(** The entries after [from] up to [upto]. *)
Definition between {T} (b : list T) (from upto : Z) : list T :=
  omap (fun i => ring_entry b from i) (seqZ 0 ((upto - from) mod 256)).
Definition corb_ok (c : CorbBuffer) : Prop := length (cb_buffer c) = 256%nat /\ 0 <= wp c < 256.

Lemma omap_ext_in {T U} (f g : T -> option U) (l : list T) : (forall x, x ∈ l -> f x = g x) -> omap f l = omap g l.
Proof. intros H. induction l as [|x l IH]; [done |]. cbn. rewrite H by set_solver. rewrite IH by set_solver. done. Qed.

Lemma omap_fmap {T U V} (f : U -> option V) (g : T -> U) (l : list T) : omap f (g <$> l) = omap (fun x => f (g x)) l.
Proof. induction l as [|x l IH]; [done |]. cbn. by rewrite IH. Qed.

(** While fewer than 255 commands wait, a push appends to what the controller,
    which has read up to [hrp], still has to read. *)
Lemma corb_push_appends c hrp val :
  corb_ok c -> 0 <= hrp < 256 -> (wp c - hrp) mod 256 < 255 ->
  exists c', corb_push val c = Ret c' /\ corb_ok c' /\ between (cb_buffer c') hrp (wp c') = between (cb_buffer c) hrp (wp c) ++ [val].
Proof.
  intros [Hl Hw] Hh Hroom. unfold corb_push. rewrite chk_u_ret by lia. cbn [obind].
  pose proof (Z.mod_pos_bound (wp c + 1) 256 ltac:(lia)) as Hb. rewrite upd_ret by lia. cbn [obind].
  eexists. split; [reflexivity |]. split; [split; cbn; [by rewrite length_insert | done] |]. cbn [cb_buffer wp].
  set (k := (wp c - hrp) mod 256) in *. pose proof (Z.mod_pos_bound (wp c - hrp) 256 ltac:(lia)) as Hk. fold k in Hk.
  assert (E : ((wp c + 1) mod 256 - hrp) mod 256 = k + 1).
  { rewrite Zminus_mod_idemp_l. replace (wp c + 1 - hrp) with (wp c - hrp + 1) by lia. rewrite <- Z.add_mod_idemp_l by lia. fold k.
    apply Z.mod_small. lia. }
  unfold between. fold k. rewrite E, seqZ_app, omap_app by lia. f_equal.
  - apply omap_ext_in. intros i Hi%elem_of_seqZ. unfold ring_entry. apply list_lookup_insert_ne. intros Eq.
    pose proof (Z.mod_pos_bound (hrp + 1 + i) 256 ltac:(lia)). apply Z2Nat.inj in Eq; [| lia | lia].
    assert (Hc : (wp c - hrp) mod 256 = i mod 256).
    { replace (wp c - hrp) with ((wp c + 1) - (hrp + 1)) by lia. rewrite <- Zminus_mod_idemp_l, Eq, Zminus_mod_idemp_l.
      f_equal. lia. }
    fold k in Hc. rewrite Z.mod_small in Hc by lia. lia.
  - assert (seqZ (0 + k) 1 = [k]) as -> by (rewrite seqZ_cons, seqZ_nil by lia; f_equal; lia). cbn [omap list_omap]. unfold ring_entry.
    assert ((hrp + 1 + k) mod 256 = (wp c + 1) mod 256) as -> by (unfold k; rewrite Z.add_mod_idemp_r by lia; f_equal; lia).
    by rewrite list_lookup_insert_eq by lia.
Qed.

(** ** Responses *)
Section Responses.
Context {M : Type} {MM : Mmio M} {Q R : Type} {AQ : ArrayQueue Z Q} {AL : ArrayQueueLaws Z Q AQ}
  {AR : ArrayQueue RirbResponseEntry R} {RL : ArrayQueueLaws RirbResponseEntry R AR}.
Implicit Type h : Hda M Q R.

Definition rirb_ok (r : RirbBuffer) : Prop := length (rb_buffer r) = 256%nat /\ 0 <= rp r < 256.

Lemma between_cons (b : list RirbResponseEntry) from upto :
  length b = 256%nat -> 0 <= from < 256 -> 0 <= upto < 256 -> from <> upto ->
  exists x, b !! Z.to_nat (wrap_u 8 (from + 1)) = Some x /\ between b from upto = x :: between b (wrap_u 8 (from + 1)) upto /\
    (upto - wrap_u 8 (from + 1)) mod 256 = (upto - from) mod 256 - 1.
Proof.
  intros Hl Hf Hu Hne. unfold wrap_u. change (2 ^ 8) with 256. pose proof (Z.mod_pos_bound (from + 1) 256 ltac:(lia)) as Hb.
  destruct (lookup_lt_is_Some_2 b (Z.to_nat ((from + 1) mod 256))) as [x Hx]; [lia |]. exists x. split; [done |].
  set (k := (upto - from) mod 256). pose proof (Z.mod_pos_bound (upto - from) 256 ltac:(lia)) as Hk. fold k in Hk.
  assert (Hk0 : k <> 0). { intros E. apply Hne. unfold k in E. apply Z.mod_divide in E as [q Hq]; lia. }
  assert (E : (upto - (from + 1) mod 256) mod 256 = k - 1).
  { rewrite Zminus_mod_idemp_r. replace (upto - (from + 1)) with (upto - from - 1) by lia. rewrite <- Zminus_mod_idemp_l. fold k.
    apply Z.mod_small. lia. }
  split; [| done]. unfold between. fold k. rewrite E, (seqZ_cons 0 k) by lia. cbn [omap list_omap].
  unfold ring_entry at 1. rewrite Z.add_0_r, Hx. cbn. f_equal. replace (Z.pred k) with (k - 1) by lia.
  change (Z.succ 0) with (1 + 0). rewrite <- fmap_add_seqZ, omap_fmap. apply omap_ext_in. intros i _.
  unfold ring_entry. do 2 f_equal. rewrite <- (Z.add_assoc (_ mod _)), Z.add_mod_idemp_l by lia. f_equal.
Qed.

Record hda_ok h : Prop := {
  ho_rirb : rirb_ok (rirb h);
  ho_corb : corb_ok (corb h);
  ho_req : aq_ok (awaiting_req h);
  ho_resp : aq_ok (ready_resp h);
  ho_wav : (2048 <= length (samples (wav h)))%nat /\ 0 <= cursor (wav h) <= Z.of_nat (length (samples (wav h)));
  ho_pcm : length (pcm h) = 4096%nat
}.

Lemma responses_loop_spec fuel : forall h w n,
  hda_ok h -> 0 <= w < 256 -> (w - rp (rirb h)) mod 256 < Z.of_nat fuel ->
  let items := between (rb_buffer (rirb h)) (rp (rirb h)) w in
  let matched := take (length (aq_list (awaiting_req h))) items in
  aq_len (ready_resp h) + Z.of_nat (length matched) <= aq_capacity (ready_resp h) ->
  exists h', responses_loop fuel w n h = Ret ((n + length matched)%nat, h') /\ hda_ok h' /\ rp (rirb h') = w /\
    aq_list (ready_resp h') = aq_list (ready_resp h) ++ matched /\
    aq_list (awaiting_req h') = drop (length items) (aq_list (awaiting_req h)) /\
    (mmio h', corb h', wav h', pcm h') = (mmio h, corb h, wav h, pcm h).
Proof.
  induction fuel as [|fuel IH]; intros h w n Hh Hw Hf items matched Hroom.
  { pose proof (Z.mod_pos_bound (w - rp (rirb h)) 256). lia. }
  destruct Hh as [[Hlr Hrp] Hc Hq Hr Hwav Hpcm]. cbn [responses_loop]. destruct (Z.eqb_spec (rp (rirb h)) w) as [E|Hne].
  { assert (items = []) as Hi by (unfold items, between; rewrite E, Z.sub_diag; done).
    exists h. unfold matched. rewrite Hi, take_nil, app_nil_r, Nat.add_0_r. done. }
  destruct (between_cons (rb_buffer (rirb h)) (rp (rirb h)) w Hlr Hrp Hw Hne) as (x & Hx & Ei & Ek).
  unfold rirb_pop. rewrite (idx_ret _ _ x) by (try apply wrap_u_range; done || lia). cbn [obind].
  assert (Hrp' : 0 <= wrap_u 8 (rp (rirb h) + 1) < 256) by (apply (wrap_u_range 8); lia).
  set (r := {| rb_buffer := rb_buffer (rirb h); rp := wrap_u 8 (rp (rirb h) + 1) |}).
  cbn [awaiting_req set_rirb ready_resp]. pose proof (aq_pop_law (awaiting_req h) Hq) as Hpop.
  destruct (aq_pop (awaiting_req h)) as [[c|] q'].
  - destruct Hpop as (Hq' & _ & Hpop). destruct (aq_list (awaiting_req h)) as [|c0 l] eqn:El; [by destruct Hpop |].
    destruct Hpop as [_ Hl]. destruct (aq_force_law x (ready_resp h) Hr) as (Hr' & Hcap & Hlr').
    set (rest := between (rb_buffer (rirb h)) (wrap_u 8 (rp (rirb h) + 1)) w) in *.
    assert (Hma : matched = x :: take (length l) rest) by (unfold matched, items; by rewrite ?El, Ei).
    rewrite Hma in Hroom |- *. change items with (between (rb_buffer (rirb h)) (rp (rirb h)) w). rewrite Ei. cbn [length] in Hroom |- *.
    destruct (aq_len_law _ Hr) as [Hlen _]. destruct (aq_len_law _ Hr') as [Hlen' _].
    rewrite (proj2 (Z.ltb_lt _ _)) in Hlr' by lia. rewrite Hlr', length_app in Hlen'. cbn in Hlen'.
    set (h1 := set_resp q' (aq_force_push x (ready_resp h)) (set_rirb r h)).
    destruct (IH h1 w (S n)) as (h' & E & Hok' & Hrp1 & Hready & Hawait & Hrest);
      [by split | done | change (rp (rirb h1)) with (wrap_u 8 (rp (rirb h) + 1)); lia | |].
    { change (awaiting_req h1) with q'. change (ready_resp h1) with (aq_force_push x (ready_resp h)).
      change (rirb h1) with r. cbn [rb_buffer rp r]. fold rest. rewrite Hl. lia. }
    change (awaiting_req h1) with q' in E, Hready, Hawait. change (ready_resp h1) with (aq_force_push x (ready_resp h)) in Hready.
    change (rirb h1) with r in E, Hready, Hawait. cbn [rb_buffer rp r] in E, Hready, Hawait. fold rest in E, Hready, Hawait. rewrite Hl in E, Hready, Hawait.
    exists h'. split; [rewrite E; f_equal; f_equal; lia |]. split; [done |]. split; [done |].
    split; [rewrite Hready, Hlr', <- app_assoc; done |]. split; [exact Hawait | exact Hrest].
  - destruct Hpop as (Hq' & _ & Hpop). destruct (aq_list (awaiting_req h)) as [|c0 l] eqn:El; [| by destruct Hpop].
    destruct Hpop as [_ Hl]. set (h1 := set_resp q' (ready_resp h) (set_rirb r h)).
    destruct (IH h1 w n) as (h' & E & Hok' & Hrp1 & Hready & Hawait & Hrest);
      [by split | done | change (rp (rirb h1)) with (wrap_u 8 (rp (rirb h) + 1)); lia | |].
    { change (awaiting_req h1) with q'. change (ready_resp h1) with (ready_resp h). rewrite Hl. cbn [length]. rewrite take_0. cbn [length]. destruct (aq_len_law _ Hr). lia. }
    change (awaiting_req h1) with q' in E, Hready, Hawait. change (ready_resp h1) with (ready_resp h) in Hready.
    rewrite Hl in E, Hready, Hawait. rewrite drop_nil in Hawait. cbn [length] in E, Hready. rewrite take_0 in E, Hready.
    assert (matched = []) as -> by (unfold matched; by rewrite ?El). rewrite drop_nil. exists h'. done.
Qed.

(** ** Samples *)
Lemma pcm_frames_length n : forall l, length l = (2 * n)%nat -> length (pcm_frames l) = n.
Proof.
  induction n as [|n IH]; intros [|x [|y l]] Hl; try (cbn in Hl; lia); [done |]. cbn in *. f_equal. apply IH. lia.
Qed.

(** The next samples from the cursor on, or from the start when not enough are
    left. *)
Lemma next_samples_ret n w :
  0 <= n < 2 ^ 62 -> 2 * n <= Z.of_nat (length (samples w)) -> 0 <= cursor w <= Z.of_nat (length (samples w)) ->
  Z.of_nat (length (samples w)) < 2 ^ 63 ->
  let c := if cursor w + 2 * n >? Z.of_nat (length (samples w)) then 0 else cursor w in
  next_samples n w = Ret (get (samples w) (Z.to_nat c) (Z.to_nat (2 * n)), {| samples := samples w; cursor := c + 2 * n |}) /\
  0 <= c /\ c + 2 * n <= Z.of_nat (length (samples w)).
Proof.
  intros Hn Hl Hc Hm c. unfold next_samples. rewrite chk_u_ret by lia. cbn [obind]. rewrite chk_u_ret by lia. cbn [obind].
  replace (n * 2) with (2 * n) by lia. fold c.
  assert (Hb : 0 <= c /\ c + 2 * n <= Z.of_nat (length (samples w))).
  { unfold c. destruct (cursor w + 2 * n >? _) eqn:E; [lia |]. rewrite Z.gtb_ltb, Z.ltb_ge in E. lia. }
  rewrite slice_get by lia. cbn [obind]. replace (c + 2 * n - c) with (2 * n) by lia. done.
Qed.

(** A file of whole samples is read as they are. *)
Lemma i16s_length n : forall l, length l = (2 * n)%nat -> length (i16s l) = n.
Proof. induction n as [|n IH]; intros [|x [|y l]] Hl; simpl in Hl |- *; try lia. rewrite IH; lia. Qed.

Lemma wav_new_ok data n : length data = (44 + 2 * n)%nat ->
  wav_new data = Ret {| samples := i16s (drop 44 data); cursor := 0 |} /\ length (i16s (drop 44 data)) = n.
Proof.
  intros Hl. assert (Hd : length (drop 44 data) = (2 * n)%nat) by (rewrite length_drop; lia). split; [| by apply i16s_length].
  unfold wav_new, wav_format_size. rewrite slice_get by lia. cbn [obind]. unfold get. change (Z.to_nat 44) with 44%nat.
  rewrite take_ge by lia. rewrite Hd. replace (Z.of_nat (2 * n)) with (Z.of_nat n * 2) by lia. by rewrite Z.mod_mul by lia.
Qed.

Lemma take_min_length {T} k (l : list T) : take (Nat.min k (length l)) l = take k l.
Proof. rewrite <- take_take. by rewrite (firstn_all2 l) by lia. Qed.

(** What the registers can hold. *)
Definition mmio_ok : Prop := forall w r (m : M), 0 < w -> 0 <= fst (read_reg w r m) < 2 ^ w.
(** At most seven input streams. *)
Definition few_inputs : Prop := forall m : M, Z.land (Z.shiftr (fst (read_reg 32 GCAP m)) 8) 15 < 8.
Hypothesis (Hmm : mmio_ok).

Lemma hda_write_ok w r v h : hda_ok h -> hda_ok (hda_write w r v h).
Proof. intros []. by split. Qed.

Lemma hda_read_ok w r h : hda_ok h -> 0 < w ->
  exists v m, hda_read w r h = (v, set_mmio m h) /\ 0 <= v < 2 ^ w /\ hda_ok (set_mmio m h).
Proof.
  intros [] Hw. unfold hda_read. pose proof (Hmm w r (mmio h) Hw). destruct (read_reg w r (mmio h)) as [v m]. exists v, m.
  split; [done |]. split; [done |]. by split.
Qed.

(** The refill changes only one of the four blocks of the sample buffer, and
    not the one that is played. *)
Lemma refill_spares_playing base h :
  hda_ok h -> Z.of_nat (length (samples (wav h))) < 2 ^ 63 ->
  exists h' lpib, refill base h = Ret h' /\ hda_ok h' /\ 0 <= lpib < 2 ^ 32 /\
    (rirb h', awaiting_req h', ready_resp h') = (rirb h, awaiting_req h, ready_resp h) /\
    forall b, 0 <= b < 4 -> b <> (lpib / 4096 + 3) mod 4 -> get (pcm h') (Z.to_nat (1024 * b)) 1024 = get (pcm h) (Z.to_nat (1024 * b)) 1024.
Proof.
  intros Hh Hm. unfold refill. destruct (hda_read_ok 8 (base + 3) h Hh ltac:(lia)) as (sts & m1 & -> & _ & Hh1).
  destruct (Z.land sts 4 =? 0); [by exists (set_mmio m1 h), 0 |].
  destruct (hda_read_ok 32 (base + 4) _ Hh1 ltac:(lia)) as (lpib & m2 & -> & Hl & Hh2). cbn [wav set_mmio pcm].
  destruct (ho_wav _ Hh) as [Hs Hc].
  destruct (next_samples_ret 1024 (wav h) ltac:(lia) ltac:(lia) Hc Hm) as (E & Hc0 & Hc1). rewrite E. cbn [obind]. clear E.
  set (c := if _ >? _ then 0 else cursor (wav h)) in *. set (fr := pcm_frames _).
  assert (Hfr : length fr = 1024%nat) by (apply pcm_frames_length; rewrite length_get by lia; lia).
  set (t := (lpib / 4096 + 3) mod 4). pose proof (Z.mod_pos_bound (lpib / 4096 + 3) 4 ltac:(lia)) as Ht. fold t in Ht.
  pose proof (ho_pcm _ Hh) as Hp. rewrite splice_put by lia. cbn [obind]. eexists _, lpib. split; [reflexivity |].
  destruct Hh as [H1 H2 H3 H4 H5 H6]. split; [| split; [done |]; split; [done |]].
  - split; try done; [cbn; lia |]. cbn. rewrite length_put by lia. done.
  - intros b Hb Hne. cbn [pcm hda_write set_mmio set_sound]. apply get_put_out; lia.
Qed.

(** The interrupt handler of the sound card returns whatever the
    controller's registers hold: the loop over the response ring ends with its
    pointer at the controller's, responses are queued in order for the oldest
    requests, and of the sample buffer at most one block changes, not the one
    that is played. *)
Theorem hda_interrupt_returns h :
  few_inputs -> hda_ok h -> Z.of_nat (length (samples (wav h))) < 2 ^ 63 ->
  aq_len (ready_resp h) + aq_len (awaiting_req h) <= aq_capacity (ready_resp h) ->
  exists n h' w lpib, hda_interrupt_handler h = Ret (n, h') /\ hda_ok h' /\ 0 <= w < 256 /\ 0 <= lpib < 2 ^ 32 /\ rp (rirb h') = w /\
    (let items := between (rb_buffer (rirb h)) (rp (rirb h)) w in
     aq_list (ready_resp h') = aq_list (ready_resp h) ++ take n items /\
     aq_list (awaiting_req h') = drop (length items) (aq_list (awaiting_req h)) /\
     n = Nat.min (length items) (length (aq_list (awaiting_req h)))) /\
    forall b, 0 <= b < 4 -> b <> (lpib / 4096 + 3) mod 4 -> get (pcm h') (Z.to_nat (1024 * b)) 1024 = get (pcm h) (Z.to_nat (1024 * b)) 1024.
Proof.
  intros Hfew Hh Hm Hroom. unfold hda_interrupt_handler.
  destruct (hda_read_ok 32 INTSTS h Hh ltac:(lia)) as (st & m1 & -> & _ & H1).
  assert (Hg : exists v m, hda_read 32 GCAP (set_mmio m1 h) = (v, set_mmio m h) /\ stream_base v = Ret (128 + Z.land (Z.shiftr v 8) 15 * 32) /\ hda_ok (set_mmio m h)).
  { pose proof (Hfew m1) as Hf. pose proof (Hmm 32 GCAP m1 ltac:(lia)) as Hv. unfold hda_read. cbn [mmio set_mmio].
    destruct (read_reg 32 GCAP m1) as [v m]. exists v, m. split; [done |]. cbn [fst] in *. split; [| by destruct H1].
    unfold stream_base. pose proof (Z.land_nonneg (Z.shiftr v 8) 15). rewrite chk_u_ret by lia. done. }
  destruct Hg as (v & m2 & -> & -> & H2). cbn [obind].
  destruct (refill_spares_playing (128 + Z.land (Z.shiftr v 8) 15 * 32) _ H2 Hm) as (h3 & lpib & -> & H3 & Hlp & Erest & Hblocks). cbn [obind].
  injection Erest as Er Eq Ey. cbn [rirb set_mmio awaiting_req ready_resp pcm] in *.
  destruct (hda_read_ok 8 RIRBSTS h3 H3 ltac:(lia)) as (st2 & m4 & -> & _ & H4).
  destruct (_ && _).
  - destruct (hda_read_ok 16 RIRBWP _ H4 ltac:(lia)) as (w & m5 & -> & Hw & H5).
    assert (Hwb : 0 <= Z.land w 255 < 256) by (change 255 with (2 ^ 8 - 1); rewrite land_ones_mod by lia; apply Z.mod_pos_bound; lia).
    destruct (aq_len_law _ (ho_resp _ Hh)) as [Hl1 _]. destruct (aq_len_law _ (ho_req _ Hh)) as [Hl2 _].
    destruct (responses_loop_spec 257 (set_mmio m5 (set_mmio m4 h3)) (Z.land w 255) 0 H5 Hwb) as (h6 & E & H6 & Hrp & Hready & Hawait & Emisc).
    { cbn [rirb set_mmio]. pose proof (Z.mod_pos_bound (Z.land w 255 - rp (rirb h3)) 256). lia. }
    { cbn [rirb set_mmio ready_resp awaiting_req]. rewrite Ey, Eq, length_take. lia. }
    cbn [rirb set_mmio ready_resp awaiting_req] in *. rewrite Er, Ey, Eq in *. rewrite E. cbn [obind]. injection Emisc as _ _ _ Ep.
    eexists _, _, (Z.land w 255), lpib. split; [reflexivity |]. split; [by apply hda_write_ok |]. split; [done |]. split; [done |].
    split; [done |]. split; [| intros b Hb Hne; cbn [pcm hda_write set_mmio]; rewrite Ep; by apply Hblocks].
    cbn [ready_resp awaiting_req hda_write set_mmio]. rewrite Hready, Hawait, length_take. split; [| split; [done | lia]].
    f_equal. cbn [Nat.add]. symmetry. apply take_min_length.
  - cbn [obind]. eexists 0%nat, _, (rp (rirb h)), lpib. split; [reflexivity |]. split; [by apply hda_write_ok |].
    split; [apply (ho_rirb _ Hh) |]. split; [done |]. cbn [rirb hda_write set_mmio ready_resp awaiting_req pcm]. rewrite Er, Ey, Eq. split; [done |].
    assert (between (rb_buffer (rirb h)) (rp (rirb h)) (rp (rirb h)) = []) as -> by (unfold between; by rewrite Z.sub_diag).
    split; [| exact Hblocks]. rewrite take_nil, app_nil_r. done.
Qed.
End Responses.

(** ** A small controller *)
Module SoundWitness.
Import ListQueue.
(** Registers that read back what the machine holds: an interrupt of the output
    stream and of the response ring, five responses behind the pointer. *)
Definition regs (r : Z) : Z :=
  if r =? INTSTS then 0xC0000010 else if r =? GCAP then 0x4401 else if r =? 128 + 4 * 32 + 3 then 4
  else if r =? 128 + 4 * 32 + 4 then 4096 + 12 else if r =? RIRBSTS then 1 else if r =? RIRBWP then 2 else 0.
#[local] Instance fixed_regs : Mmio unit := {| read_reg := fun w r m => (wrap_u w (regs r), m); write_reg := fun _ _ _ m => m |}.
Definition entry (i : Z) : RirbResponseEntry := {| raw_response := i; metadata := 0 |}.
Definition card : Hda unit (Z * list Z) (Z * list RirbResponseEntry) :=
  mkHda tt corb_new {| rb_buffer := entry <$> seqZ 0 256; rp := 253 |} (256, [7; 8; 9]) (256, [])
    {| samples := seqZ 0 5000; cursor := 4000 |} (replicate 4096 (0, 0)).

Lemma card_regs : mmio_ok (M := unit).
Proof. intros w r m Hw. apply wrap_u_range. lia. Qed.
Lemma card_inputs : few_inputs (M := unit).
Proof. intros m. vm_compute. reflexivity. Qed.
Lemma card_ok : hda_ok card.
Proof. split; try split; try (vm_compute; intuition congruence). apply Nat.leb_le. by vm_compute. Qed.

(** The five responses after entry 253 meet three requests, block 0 is filled
    while block 1 is played. *)
Lemma hda_interrupt_returns_witness :
  exists n h' w lpib, hda_interrupt_handler card = Ret (n, h') /\ hda_ok h' /\ 0 <= w < 256 /\ 0 <= lpib < 2 ^ 32 /\ rp (rirb h') = w /\
    (let items := between (rb_buffer (rirb card)) (rp (rirb card)) w in
     aq_list (ready_resp h') = aq_list (ready_resp card) ++ take n items /\
     aq_list (awaiting_req h') = drop (length items) (aq_list (awaiting_req card)) /\
     n = Nat.min (length items) (length (aq_list (awaiting_req card)))) /\
    forall b, 0 <= b < 4 -> b <> (lpib / 4096 + 3) mod 4 -> get (pcm h') (Z.to_nat (1024 * b)) 1024 = get (pcm card) (Z.to_nat (1024 * b)) 1024.
Proof.
  apply (hda_interrupt_returns card_regs card card_inputs card_ok); [by apply Z.ltb_lt; vm_compute | by apply Z.leb_le; vm_compute].
Defined.

Definition delivered (o : outcome (nat * Hda unit (Z * list Z) (Z * list RirbResponseEntry))) : option (nat * Z * list Z * list Z) :=
  match o with
  | Ret (n, h) => Some (n, rp (rirb h), raw_response <$> (ready_resp h).2, (awaiting_req h).2)
  | _ => None
  end.
Example responses_delivered : delivered (hda_interrupt_handler card) = Some (3%nat, 2, [254; 255; 0], []).
Proof. vm_compute. reflexivity. Qed.
End SoundWitness.
