(* ===== verification/HdaSetup.v ===== *)
(** * Setting up the sound controller

    [driver/sound/hda.rs]: [init_pci] finds the controller and probes its
    register region, [setup] resets it, gives it the two rings and the list of
    buffers, and fills the sample buffer. *)
From S2P Require Import Prelude Slices Pci Sound.

(** ** Probing *)
Section Probe.
Context {H : Type} {P32 : Port32 H}.
Implicit Type hw : H.

(** [init_pci] up to [setup]: the controller's registers, the size of their
    region and its interrupt; the last is an 8-bit addition. *)
Definition init_pci (devices : list PciDevice) hw : outcome (Z * Z * Z * H) :=
  let! d := unwrap (find_intel_hda_pci devices) in
  let '(cmd, hw) := pci_read_word (bus d) (device d) (function_id d) 0x04 hw in
  let hw := pci_write (bus d) (device d) (function_id d) 0x04 (Z.lor (Z.lor cmd 2) 4) hw in
  let '(_, hw) := pci_read_word (bus d) (device d) (function_id d) 6 hw in
  let '(bar0, hw) := pci_read_32 (bus d) (device d) (function_id d) 0x10 hw in
  let hw := pci_write (bus d) (device d) (function_id d) 0x10 0xFFFFFFFF hw in
  let '(size, hw) := pci_read_32 (bus d) (device d) (function_id d) 0x10 hw in
  let hw := pci_write (bus d) (device d) (function_id d) 0x10 bar0 hw in
  let size := bar_size size in
  let '(bar1, hw) := pci_read_32 (bus d) (device d) (function_id d) 0x14 hw in
  let hda_mmio_base := Z.lor (Z.shiftl bar1 32) (Z.land bar0 (Z.lnot 15)) in
  let '(interrupts, hw) := pci_read_word (bus d) (device d) (function_id d) 0x3C hw in
  let int_line := Z.land interrupts 255 in
  let! pic_irq := chk_u 8 (int_line + 32) in
  Ret (hda_mmio_base, size, pic_irq, hw).
End Probe.

(** What a register keeps of a value that is written to it; no other register
    changes. *)
Class PciWriteLaws (H : Type) (P32 : Port32 H) (PL : PciLaws H P32) := {
  pci_kept : Z -> Z -> Z -> Z -> Z -> Z -> Z;
  pci_write_law b d f o v hw :
    0 <= b < 256 -> 0 <= d < 32 -> 0 <= f < 8 -> 0 <= o < 64 -> 0 <= v < 2 ^ 32 ->
    let hw' := outl 3324 v (outl 3320 (2147483648 + b * 65536 + d * 2048 + f * 256 + o * 4) hw) in
    pci_cfg hw' b d f (o * 4) = pci_kept b d f (o * 4) (pci_cfg hw b d f (o * 4)) v /\
    forall b' d' f' o', (b', d', f', o') <> (b, d, f, o * 4) -> pci_cfg hw' b' d' f' o' = pci_cfg hw b' d' f' o'
}.

Section Probed.
Context {H : Type} {P32 : Port32 H} {PL : PciLaws H P32} {PW : PciWriteLaws H P32 PL}.
Implicit Type hw : H.

Lemma read_32_ok b d f o hw :
  0 <= b < 256 -> 0 <= d < 32 -> 0 <= f < 8 -> 0 <= o < 64 -> Z.land (o * 4) 252 = 4 * o ->
  exists hw', pci_read_32 b d f (o * 4) hw = (pci_cfg hw b d f (o * 4), hw') /\ pci_cfg hw' = pci_cfg hw.
Proof.
  intros Hb Hd Hf Ho Hl. unfold pci_read_32. rewrite (pci_address_sum b d f o) by done.
  destruct (pci_read_law b d f o hw Hb Hd Hf Ho) as [E1 E2]. cbv zeta in E1, E2. destruct (inl 3324 _) as [v hw']. cbn [fst snd] in *.
  exists hw'. by rewrite E1.
Qed.

Lemma write_32_ok b d f o v hw :
  0 <= b < 256 -> 0 <= d < 32 -> 0 <= f < 8 -> 0 <= o < 64 -> Z.land (o * 4) 252 = 4 * o -> 0 <= v < 2 ^ 32 ->
  pci_cfg (pci_write b d f (o * 4) v hw) b d f (o * 4) = pci_kept b d f (o * 4) (pci_cfg hw b d f (o * 4)) v /\
  forall b' d' f' o', (b', d', f', o') <> (b, d, f, o * 4) -> pci_cfg (pci_write b d f (o * 4) v hw) b' d' f' o' = pci_cfg hw b' d' f' o'.
Proof.
  intros Hb Hd Hf Ho Hl Hv. unfold pci_write. rewrite (pci_address_sum b d f o) by done. apply (pci_write_law b d f o v hw Hb Hd Hf Ho Hv).
Qed.

(** The base register of a region of [2 ^ n] bytes with type bits [t]. *)
Definition bar_of (b d f n t : Z) : Prop := forall old v, 0 <= v < 2 ^ 32 -> pci_kept b d f 16 old v = v - v mod 2 ^ n + t.

Lemma bar_base v n t : 12 <= n < 32 -> 0 <= t < 16 -> 0 <= v -> v mod 2 ^ n = t -> Z.land v (Z.lnot 15) = v - t.
Proof.
  intros Hn Ht Hv Hm. change 15 with (Z.ones 4). rewrite <- Z.ldiff_land, Z.ldiff_ones_r, Z.shiftr_div_pow2, Z.shiftl_mul_pow2 by lia.
  assert (Hp : 2 ^ n = 2 ^ (n - 4) * 16) by (change 16 with (2 ^ 4); rewrite <- Z.pow_add_r by lia; f_equal; lia).
  assert (E : v mod 16 = t).
  { pose proof (Z.div_mod v (2 ^ n) ltac:(lia)) as Hd. rewrite Hm, Hp in Hd. rewrite Hd.
    replace (2 ^ (n - 4) * 16 * (v / (2 ^ (n - 4) * 16)) + t) with (t + (2 ^ (n - 4) * (v / (2 ^ (n - 4) * 16))) * 16) by lia.
    rewrite Z.mod_add by lia. apply Z.mod_small. lia. }
  pose proof (Z.div_mod v 16 ltac:(lia)). change (2 ^ 4) with 16. lia.
Qed.

Lemma all_ones_kept n t : 12 <= n < 32 -> 0xFFFFFFFF - 0xFFFFFFFF mod 2 ^ n + t = 2 ^ 32 - 2 ^ n + t.
Proof.
  intros Hn. assert (Hq : 2 ^ 32 = 2 ^ (32 - n) * 2 ^ n) by (rewrite <- Z.pow_add_r by lia; f_equal; lia).
  pose proof (Z.pow_pos_nonneg 2 n ltac:(lia) ltac:(lia)).
  assert (E : 0xFFFFFFFF mod 2 ^ n = 2 ^ n - 1); [| lia].
  change 0xFFFFFFFF with (2 ^ 32 - 1). rewrite Hq. replace (2 ^ (32 - n) * 2 ^ n - 1) with (2 ^ n - 1 + (2 ^ (32 - n) - 1) * 2 ^ n) by lia.
  rewrite Z.mod_add by lia. apply Z.mod_small. lia.
Qed.

Lemma lor_cmd v : 0 <= v < 65536 -> 0 <= Z.lor (Z.lor v 2) 4 < 2 ^ 32.
Proof.
  intros Hv. split; [apply Z.lor_nonneg; split; [apply Z.lor_nonneg |]; lia |]. apply (Z.lt_le_trans _ (2 ^ 16)); [| lia].
  apply Z.log2_lt_cancel. rewrite Z.log2_pow2 by lia. rewrite !Z.log2_lor by (try apply Z.lor_nonneg; lia). change (Z.log2 2) with 1. change (Z.log2 4) with 2.
  destruct (decide (v = 0)) as [->|]; [cbn; lia |]. pose proof (proj1 (Z.log2_lt_pow2 v 16 ltac:(lia)) ltac:(lia)). lia.
Qed.

(** Probing finds the region and leaves the controller as it was: [init_pci]
    returns the address in the base registers and the size of the region, and
    afterwards every configuration register but the command register holds
    what it held, the base register included. *)
Theorem init_pci_probes devices d hw n t :
  find_intel_hda_pci devices = Some d -> 0 <= bus d < 256 -> 0 <= device d < 32 -> 0 <= function_id d < 8 ->
  cfg_ok (pci_cfg hw) -> 12 <= n < 32 -> 0 <= t < 16 -> bar_of (bus d) (device d) (function_id d) n t ->
  pci_cfg hw (bus d) (device d) (function_id d) 16 mod 2 ^ n = t ->
  word (pci_cfg hw) (bus d) (device d) (function_id d) 60 mod 256 < 224 ->
  exists irq hw', init_pci devices hw =
      Ret (pci_cfg hw (bus d) (device d) (function_id d) 20 * 2 ^ 32 + (pci_cfg hw (bus d) (device d) (function_id d) 16 - t), 2 ^ n, irq, hw') /\
    32 <= irq < 256 /\
    forall b' d' f' o', (b', d', f', o') <> (bus d, device d, function_id d, 4) -> pci_cfg hw' b' d' f' o' = pci_cfg hw b' d' f' o'.
Proof.
  intros Ef Hb Hd Hf Hok Hn Ht Hbar Hm Hirq. unfold init_pci. rewrite Ef. cbn [unwrap obind]. clear Ef.
  set (b := bus d) in *. set (dv := device d) in *. set (f := function_id d) in *. set (c := pci_cfg hw) in *.
  destruct (read_word_ok b dv f 4 1 hw) as (hw1 & -> & E1); [done.. |]. fold c in E1 |- *.
  assert (Hcmd : 0 <= Z.lor (Z.lor (word c b dv f 4) 2) 4 < 2 ^ 32) by (apply lor_cmd, word_cut, Hok).
  destruct (write_32_ok b dv f 1 (Z.lor (Z.lor (word c b dv f 4) 2) 4) hw1) as [_ W1]; [done | done | done | lia | done | done |]. change (1 * 4) with 4 in W1.
  set (hw2 := pci_write b dv f 4 _ hw1) in *. destruct (read_word_ok b dv f 6 1 hw2) as (hw3 & -> & E3); [done.. |].
  destruct (read_32_ok b dv f 4 hw3) as (hw4 & E4 & E4'); [done | done | done | lia | done |]. change (4 * 4) with 16 in E4. rewrite E4. clear E4.
  assert (Hbar0 : pci_cfg hw3 b dv f 16 = c b dv f 16) by (rewrite E3, W1, E1 by (intros [=]); done). rewrite Hbar0.
  destruct (write_32_ok b dv f 4 0xFFFFFFFF hw4) as [V2 W2]; [done | done | done | lia | done | lia |]. change (4 * 4) with 16 in V2, W2.
  set (hw5 := pci_write b dv f 16 0xFFFFFFFF hw4) in *.
  destruct (read_32_ok b dv f 4 hw5) as (hw6 & E6 & E6'); [done | done | done | lia | done |]. change (4 * 4) with 16 in E6. rewrite E6, V2. rewrite Hbar by lia. clear E6.
  pose proof (Hok b dv f 16) as Hr. fold c in Hr. destruct (write_32_ok b dv f 4 (c b dv f 16) hw6) as [V3 W3]; [done | done | done | lia | done | done |]. change (4 * 4) with 16 in V3, W3.
  set (hw7 := pci_write b dv f 16 (c b dv f 16) hw6) in *.
  destruct (read_32_ok b dv f 5 hw7) as (hw8 & E8 & E8'); [done | done | done | lia | done |]. change (5 * 4) with 20 in E8. rewrite E8. clear E8.
  destruct (read_word_ok b dv f 60 15 hw8) as (hw9 & -> & E9); [done.. |].
  assert (Hall : forall b' d' f' o', (b', d', f', o') <> (b, dv, f, 4) -> pci_cfg hw7 b' d' f' o' = c b' d' f' o').
  { intros b' d' f' o' Hne. destruct (decide ((b', d', f', o') = (b, dv, f, 16))) as [[= -> -> -> ->] | Hne'].
    - rewrite V3, Hbar by done. lia.
    - rewrite W3, E6', W2, E4', E3, W1, E1 by done. done. }
  assert (Hw : word (pci_cfg hw8) b dv f 60 = word c b dv f 60) by (unfold word; rewrite E8', Hall by (cbn; intros [=]); done).
  rewrite Hw, Hall by (intros [=]). change 255 with (2 ^ 8 - 1). rewrite land_ones_mod by lia. change (2 ^ 8) with 256.
  pose proof (Z.mod_pos_bound (word c b dv f 60) 256 ltac:(lia)). rewrite chk_u_ret by lia. cbn [obind].
  eexists _, hw9. split; [| split; [| by intros; rewrite E9, E8', Hall]].
  - pose proof (Z.mod_le (c b dv f 16) (2 ^ n) ltac:(lia) ltac:(lia)). pose proof (Hok b dv f 20) as Hr20. fold c in Hr20.
    rewrite all_ones_kept, bar_size_pow, (bar_base _ n t), Z.shiftl_mul_pow2, lor_low by (done || lia). done.
  - lia.
Qed.
End Probed.

(** ** The sequence of [setup] *)
Definition GCTL : Z := 0x08.
Definition STATESTS : Z := 0x0E.
Definition INTCTL : Z := 0x20.
Definition CORBLBASE : Z := 0x40.
Definition CORBUBASE : Z := 0x44.
Definition CORBRP : Z := 0x4A.
Definition CORBCTL : Z := 0x4C.
Definition CORBSIZE : Z := 0x4E.
Definition RIRBLBASE : Z := 0x50.
Definition RIRBUBASE : Z := 0x54.
Definition RINTCNT : Z := 0x5A.
Definition RIRBCTL : Z := 0x5C.
Definition RIRBSIZE : Z := 0x5E.

Section Setup.
Context {M : Type} {MM : Mmio M}.
Implicit Type m : M.

(** [while !stop(read_reg(reg)) { spin_loop() }] *)
Fixpoint spin (fuel : nat) (reg : Z) (stop : Z -> bool) m : outcome M :=
  match fuel with
  | O => NoFuel
  | S fuel => let '(v, m) := read_reg 32 reg m in if stop v then Ret m else spin fuel reg stop m
  end.
Definition bit_set (v : Z) : bool := negb (Z.land v 1 =? 0).
Definition bit_clear (v : Z) : bool := Z.land v 1 =? 0.

(** [write_reg(reg, read_reg(reg) & !mask)] and [... | mask]. *)
Definition reg_clear (w reg mask : Z) m : M := let '(v, m) := read_reg w reg m in write_reg w reg (Z.land v (2 ^ w - 1 - mask)) m.
Definition reg_set (w reg mask : Z) m : M := let '(v, m) := read_reg w reg m in write_reg w reg (Z.lor v mask) m.

Definition reset_controller (fuel : nat) m : outcome M :=
  let m := reg_clear 32 GCTL 1 m in
  let! m := spin fuel GCTL bit_clear m in
  let m := reg_set 32 GCTL 1 m in
  spin fuel GCTL bit_set m.

(** A ring's address in its two registers. *)
Definition write_address (lbase ubase addr : Z) m : M :=
  let m := write_reg 32 ubase (Z.land (Z.shiftr addr 32) (2 ^ 32 - 1)) m in
  write_reg 32 lbase (Z.land addr (2 ^ 32 - 1)) m.

Definition setup_corb (corb_addr : Z) m : M :=
  let m := write_reg 8 CORBSIZE 2 m in
  let m := reg_clear 8 CORBCTL 2 m in
  let m := write_address CORBLBASE CORBUBASE corb_addr m in
  let m := write_reg 16 CORBWP 0 m in
  let m := write_reg 16 CORBRP 0x8000 m in
  let m := write_reg 16 CORBRP 0 m in
  reg_set 8 CORBCTL 2 m.

Definition setup_rirb (rirb_addr : Z) m : M :=
  let m := reg_clear 8 RIRBCTL 2 m in
  let m := write_reg 8 RIRBSIZE 2 m in
  let m := write_address RIRBLBASE RIRBUBASE rirb_addr m in
  let m := write_reg 16 RIRBWP 0x8000 m in
  let m := write_reg 16 RIRBWP 0 m in
  let m := write_reg 16 RINTCNT 1 m in
  reg_set 8 RIRBCTL 3 m.

(** Stop the output stream and reset it. *)
Definition reset_stream (fuel : nat) (base : Z) m : outcome M :=
  let m := reg_clear 32 base 2 m in
  let '(ctl_val, m) := read_reg 32 base m in
  let m := write_reg 32 base (Z.lor ctl_val 1) m in
  let! m := spin fuel base bit_set m in
  let m := write_reg 32 base (Z.land ctl_val (2 ^ 32 - 2)) m in
  spin fuel base bit_clear m.

Definition setup_stream (base bdpl_addr : Z) m : M :=
  let m := write_address (base + 0x18) (base + 0x1C) bdpl_addr m in
  let m := write_reg 32 (base + 0x08) (4096 * 4) m in
  let m := write_reg 16 (base + 0x0C) 3 m in
  let m := write_reg 16 (base + 0x12) 0x0011 m in
  write_reg 8 (base + 0x03) 0xFF m.

(** [setup] after the registers are mapped; the addresses of the rings and of
    the list of buffers are what [translate] returns for them. *)
Definition hda_setup (fuel : nat) (corb_addr rirb_addr bdpl_addr : Z) (w : WavStream) (pcm : list (Z * Z)) m
  : outcome (M * CorbBuffer * RirbBuffer * WavStream * list (Z * Z)) :=
  let! m := reset_controller fuel m in
  let '(gcap, m) := read_reg 32 GCAP m in
  let iss := Z.land (Z.shiftr gcap 8) 15 in
  let '(_, m) := read_reg 16 STATESTS m in
  let m := setup_corb corb_addr m in
  let m := setup_rirb rirb_addr m in
  let m := reg_set 32 INTCTL (Z.lor (Z.lor (2 ^ 31) (2 ^ 30)) (2 ^ iss)) m in
  let! base := stream_base gcap in
  let! m := reset_stream fuel base m in
  let! '(pcm, w) := setup_bg_stream w pcm in
  let m := setup_stream base bdpl_addr m in
  Ret (m, corb_new, rirb_new, w, pcm).
End Setup.

(** ** The controller *)
Fixpoint reads {M} {MM : Mmio M} (n : nat) (r : Z) (m : M) : M :=
  match n with O => m | S n => reads n r (snd (read_reg 32 r m)) end.

(** The registers that hold what is written to them; [base] is that of the
    output stream. *)
Definition plain (base r : Z) : bool :=
  existsb (Z.eqb r) [INTCTL; CORBLBASE; CORBUBASE; CORBWP; CORBCTL; CORBSIZE; RIRBLBASE; RIRBUBASE; RINTCNT; RIRBCTL; RIRBSIZE;
                     base + 0x08; base + 0x0C; base + 0x12; base + 0x18; base + 0x1C].

(** Plain registers keep their values; the two reset bits read back what was
    written to them within [lag] reads. *)
Class HdaLaws (M : Type) (MM : Mmio M) (lag : nat) (gcap base : Z) := {
  reg : M -> Z -> Z;
  read_gcap m : read_reg 32 GCAP m = (gcap, m);
  read_plain w r m : plain base r = true -> read_reg w r m = (reg m r, m);
  read_keeps w r m r' : plain base r' = true -> reg (snd (read_reg w r m)) r' = reg m r';
  write_plain w r v m : plain base r = true -> reg (write_reg w r v m) r = v;
  write_keeps w r v m r' : plain base r' = true -> r' <> r -> reg (write_reg w r v m) r' = reg m r';
  reset_settles r v m : r = GCTL \/ r = base -> exists n, (n < lag)%nat /\
    Z.land (fst (read_reg 32 r (reads n r (write_reg 32 r v m)))) 1 = Z.land v 1
}.

Section Programmed.
Context {M : Type} {MM : Mmio M} {lag : nat} {gcap base : Z} {HL : HdaLaws M MM lag gcap base}.
Implicit Type m : M.

Definition same_plain m m' : Prop := forall r, plain base r = true -> reg m' r = reg m r.

Lemma spin_ret r stop (n : nat) : forall fuel m,
  (n < fuel)%nat -> stop (fst (read_reg 32 r (reads n r m))) = true -> exists m', spin fuel r stop m = Ret m' /\ same_plain m m'.
Proof.
  induction n as [|n IH]; intros [|fuel] m Hf Hs; try lia; cbn [spin]; cbn [reads] in Hs;
    pose proof (fun r' => read_keeps 32 r m r') as Hk; destruct (read_reg 32 r m) as [v m1]; cbn [fst snd] in *.
  - rewrite Hs. by exists m1.
  - destruct (stop v); [by exists m1 |]. destruct (IH fuel m1 ltac:(lia) Hs) as (m' & E & Hm). exists m'. split; [done |].
    intros r' Hr'. rewrite Hm, Hk by done. done.
Qed.

Lemma spin_settles r v m (stop : Z -> bool) :
  r = GCTL \/ r = base -> (forall x, Z.land x 1 = Z.land v 1 -> stop x = true) ->
  exists m', spin lag r stop (write_reg 32 r v m) = Ret m' /\ same_plain (write_reg 32 r v m) m'.
Proof. intros Hr Hs. destruct (reset_settles r v m Hr) as (n & Hn & E). apply (spin_ret r stop n lag); [done | by apply Hs]. Qed.

Lemma reg_write w r v m r' : plain base r' = true -> reg (write_reg w r v m) r' = if r' =? r then v else reg m r'.
Proof. intros Hp. destruct (Z.eqb_spec r' r) as [->|Hne]; [by apply write_plain | by apply write_keeps]. Qed.
Lemma reg_reg_set w r mask m r' : plain base r = true -> plain base r' = true ->
  reg (reg_set w r mask m) r' = if r' =? r then Z.lor (reg m r) mask else reg m r'.
Proof. intros Hr Hp. unfold reg_set. rewrite read_plain by done. by apply reg_write. Qed.
Lemma reg_reg_clear w r mask m r' : plain base r = true -> plain base r' = true ->
  reg (reg_clear w r mask m) r' = if r' =? r then Z.land (reg m r) (2 ^ w - 1 - mask) else reg m r'.
Proof. intros Hr Hp. unfold reg_clear. rewrite read_plain by done. by apply reg_write. Qed.

Lemma reset_controller_ret m : plain base GCTL = false -> exists m', reset_controller lag m = Ret m' /\ same_plain m m'.
Proof.
  intros Hg. unfold reset_controller, reg_clear, reg_set. pose proof (fun r' => read_keeps 32 GCTL m r') as K1. destruct (read_reg 32 GCTL m) as [v m1].
  destruct (spin_settles GCTL (Z.land v (2 ^ 32 - 1 - 1)) m1 bit_clear) as (m2 & -> & H2); [by left | |].
  { intros x Hx. unfold bit_clear. rewrite Hx, <- Z.land_assoc. change (Z.land (2 ^ 32 - 1 - 1) 1) with 0. by rewrite Z.land_0_r. }
  cbn [obind]. pose proof (fun r' => read_keeps 32 GCTL m2 r') as K2. destruct (read_reg 32 GCTL m2) as [v2 m3]. cbn [snd] in *.
  destruct (spin_settles GCTL (Z.lor v2 1) m3 bit_set) as (m4 & -> & H4); [by left | |].
  { intros x Hx. unfold bit_set. rewrite Hx, Z.land_lor_distr_l. change (Z.land 1 1) with 1.
    destruct (Z.lor (Z.land v2 1) 1) eqn:E; try done. apply Z.lor_eq_0_iff in E. lia. }
  exists m4. split; [done |]. intros r Hr. assert (r <> GCTL) by (intros ->; congruence).
  rewrite H4, write_keeps, K2, H2, write_keeps by done. by apply K1.
Qed.

Lemma reset_stream_ret m : plain base base = false -> exists m', reset_stream lag base m = Ret m' /\ same_plain m m'.
Proof.
  intros Hg. unfold reset_stream, reg_clear. pose proof (fun r' => read_keeps 32 base m r') as K1. destruct (read_reg 32 base m) as [v m1].
  set (m2 := write_reg 32 base _ m1). pose proof (fun r' => read_keeps 32 base m2 r') as K2. destruct (read_reg 32 base m2) as [c m3]. cbn [snd] in *.
  destruct (spin_settles base (Z.lor c 1) m3 bit_set) as (m4 & -> & H4); [by right | |].
  { intros x Hx. unfold bit_set. rewrite Hx, Z.land_lor_distr_l. change (Z.land 1 1) with 1.
    destruct (Z.lor (Z.land c 1) 1) eqn:E; try done. apply Z.lor_eq_0_iff in E. lia. }
  cbn [obind]. destruct (spin_settles base (Z.land c (2 ^ 32 - 2)) m4 bit_clear) as (m5 & -> & H5); [by right | |].
  { intros x Hx. unfold bit_clear. rewrite Hx, <- Z.land_assoc. change (Z.land (2 ^ 32 - 2) 1) with 0. by rewrite Z.land_0_r. }
  exists m5. split; [done |]. intros r Hr. assert (r <> base) by (intros ->; congruence).
  rewrite H5, write_keeps, H4, write_keeps, K2 by done. unfold m2. rewrite write_keeps by done. by apply K1.
Qed.
(** An address from its two halves. *)
Definition address_in m (lbase ubase : Z) : Z := reg m lbase + 2 ^ 32 * reg m ubase.

Lemma halves a : 0 <= a < 2 ^ 64 -> Z.land a (2 ^ 32 - 1) + 2 ^ 32 * Z.land (Z.shiftr a 32) (2 ^ 32 - 1) = a.
Proof.
  intros Ha. rewrite !land_ones_mod, Z.shiftr_div_pow2 by lia. rewrite (Z.mod_small (a / 2 ^ 32)).
  - pose proof (Z.div_mod a (2 ^ 32) ltac:(lia)). lia.
  - split; [apply Z.div_pos; lia | apply Z.div_lt_upper_bound; lia].
Qed.

Lemma put_all {T} (l l' : list T) : length l' = 4096%nat -> length l = 4096%nat -> put l (Z.to_nat 0) l' = l'.
Proof. intros H1 H2. unfold put. cbn. rewrite drop_ge by lia. by rewrite app_nil_r. Qed.

(** Which registers the last writes have reached, by the distance of the
    stream's registers from the controller's. *)
Ltac regs :=
  repeat (rewrite ?reg_reg_set, ?reg_reg_clear, ?reg_write by (cbn; rewrite ?Z.eqb_refl, ?orb_true_r; done));
  repeat match goal with
  | |- context [?a =? ?b] => first [rewrite (proj2 (Z.eqb_eq a b)) by (cbn; lia) | rewrite (proj2 (Z.eqb_neq a b)) by (cbn; lia)]
  end.

(** The stream's registers behind the controller's. *)
Hypothesis (Hbase : stream_base gcap = Ret base).

Lemma base_far : 128 <= base.
Proof.
  unfold stream_base in Hbase. run_inv_all. apply chk_u_inv in E as [-> ?]. injection Hbase as <-. lia.
Qed.
Lemma not_plain r : r = GCTL \/ r = base -> plain base r = false.
Proof.
  pose proof base_far. intros [-> | ->]; unfold plain; cbn [existsb]; unfold INTCTL, CORBLBASE, CORBUBASE, CORBWP, CORBCTL, CORBSIZE, RIRBLBASE, RIRBUBASE, RINTCNT, RIRBCTL, RIRBSIZE, GCTL; lia.
Qed.

(** The command ring, its pointer and that it runs; the response ring
    likewise, with an interrupt for each response; the list of four buffers of
    a page each. *)
Record programmed (corb_addr rirb_addr bdpl_addr : Z) m : Prop := {
  pg_corb : address_in m CORBLBASE CORBUBASE = corb_addr;
  pg_corb_wp : reg m CORBWP = wp corb_new;
  pg_corb_runs : Z.testbit (reg m CORBCTL) 1 = true;
  pg_rirb : address_in m RIRBLBASE RIRBUBASE = rirb_addr;
  pg_rirb_runs : Z.testbit (reg m RIRBCTL) 1 = true /\ Z.testbit (reg m RIRBCTL) 0 = true;
  pg_rirb_count : reg m RINTCNT = 1;
  pg_interrupts : Z.testbit (reg m INTCTL) 31 = true /\ Z.testbit (reg m INTCTL) 30 = true /\
                  Z.testbit (reg m INTCTL) (Z.land (Z.shiftr gcap 8) 15) = true;
  pg_list : address_in m (base + 0x18) (base + 0x1C) = bdpl_addr;
  pg_length : reg m (base + 0x08) = 4096 * (reg m (base + 0x0C) + 1) /\ reg m (base + 0x0C) = 3
}.

Ltac unfold_regs := unfold setup_stream, setup_rirb, setup_corb, write_address.

Lemma stream_written m a :
  let m' := setup_stream base a m in
  (forall r, plain base r = true -> r < 128 -> reg m' r = reg m r) /\
  reg m' (base + 0x18) = Z.land a (2 ^ 32 - 1) /\ reg m' (base + 0x1C) = Z.land (Z.shiftr a 32) (2 ^ 32 - 1) /\
  reg m' (base + 0x08) = 4096 * 4 /\ reg m' (base + 0x0C) = 3.
Proof.
  pose proof base_far. cbv zeta. unfold_regs. split; [intros r Hr Hlt; rewrite !write_keeps by (done || lia); done |].
  split_and!; regs; done.
Qed.

Lemma rings_written m ca ra mask :
  let m' := reg_set 32 INTCTL mask (setup_rirb ra (setup_corb ca m)) in
  reg m' CORBLBASE = Z.land ca (2 ^ 32 - 1) /\ reg m' CORBUBASE = Z.land (Z.shiftr ca 32) (2 ^ 32 - 1) /\
  reg m' CORBWP = 0 /\ (exists v, reg m' CORBCTL = Z.lor v 2) /\
  reg m' RIRBLBASE = Z.land ra (2 ^ 32 - 1) /\ reg m' RIRBUBASE = Z.land (Z.shiftr ra 32) (2 ^ 32 - 1) /\
  reg m' RINTCNT = 1 /\ (exists v, reg m' RIRBCTL = Z.lor v 3) /\ (exists v, reg m' INTCTL = Z.lor v mask).
Proof.
  cbv zeta. unfold_regs. split_and!; try (eexists; regs; reflexivity); regs; done.
Qed.

Lemma lor_bit v mask k : Z.testbit mask k = true -> Z.testbit (Z.lor v mask) k = true.
Proof. intros H. by rewrite Z.lor_spec, H, orb_true_r. Qed.

(** After [setup] the controller is programmed: on one whose registers keep
    what is written and whose resets are acknowledged within [lag] reads, it
    returns; both rings are empty, running and where the registers say, the
    interrupts are enabled, and the output stream plays a list of four buffers
    of a page each, filled with the first 4096 frames. *)
Theorem hda_setup_programs ca ra ba w pcm m :
  0 <= ca < 2 ^ 64 -> 0 <= ra < 2 ^ 64 -> 0 <= ba < 2 ^ 64 ->
  8192 <= Z.of_nat (length (samples w)) < 2 ^ 63 -> cursor w = 0 -> length pcm = 4096%nat ->
  exists m' w', hda_setup lag ca ra ba w pcm m = Ret (m', corb_new, rirb_new, w', pcm_frames (take (Z.to_nat 8192) (samples w))) /\
    programmed ca ra ba m' /\ cursor w' = 8192.
Proof.
  intros Hca Hra Hba Hs Hc Hp. unfold hda_setup. destruct (reset_controller_ret m (not_plain _ (or_introl eq_refl))) as (m1 & -> & _). cbn [obind].
  rewrite read_gcap. destruct (read_reg 16 STATESTS m1) as [x m2]. rewrite Hbase. cbn [obind].
  set (mask := Z.lor _ _). set (m3 := reg_set 32 INTCTL mask _).
  destruct (rings_written m2 ca ra mask) as (R1 & R2 & R3 & [v4 R4] & R5 & R6 & R7 & [v8 R8] & [v9 R9]). fold m3 in R1, R2, R3, R4, R5, R6, R7, R8, R9.
  destruct (reset_stream_ret m3 (not_plain _ (or_intror eq_refl))) as (m4 & -> & H4). cbn [obind].
  destruct (next_samples_ret 4096 w ltac:(lia) ltac:(lia) ltac:(lia) ltac:(lia)) as (En & _ & _). unfold setup_bg_stream. rewrite En. cbn [obind]. clear En.
  rewrite Hc, Z.gtb_ltb. rewrite (proj2 (Z.ltb_ge _ _)) by lia.
  assert (Hfr : get (samples w) (Z.to_nat 0) (Z.to_nat (2 * 4096)) = take (Z.to_nat 8192) (samples w)) by (unfold get; by rewrite drop_0).
  rewrite Hfr. assert (Hl : length (pcm_frames (take (Z.to_nat 8192) (samples w))) = 4096%nat) by (apply pcm_frames_length; rewrite length_take; lia).
  rewrite splice_put by lia. cbn [obind]. eexists _, _. split; [do 2 f_equal; apply (put_all _ _ Hl Hp) |]. split; [| done].
  destruct (stream_written m4 ba) as (K & S1 & S2 & S3 & S4). set (m5 := setup_stream base ba m4) in *.
  assert (K' : forall r, plain base r = true -> r < 128 -> reg m5 r = reg m3 r) by (intros r Hr Hlt; by rewrite K, H4).
  split; unfold address_in.
  - rewrite !K', R1, R2 by done. by apply halves.
  - by rewrite K', R3 by done.
  - rewrite K', R4 by done. by apply lor_bit.
  - rewrite !K', R5, R6 by done. by apply halves.
  - rewrite K', R8 by done. split; by apply lor_bit.
  - by rewrite K', R7 by done.
  - rewrite K', R9 by done. split_and!; apply lor_bit; unfold mask; rewrite !Z.lor_spec; [done | done |].
    rewrite Z.pow2_bits_true by (apply Z.land_nonneg; lia). by rewrite orb_true_r.
  - rewrite S1, S2. by apply halves.
  - by rewrite S3, S4.
Qed.
End Programmed.

(** ** A controller *)
Module HdaWitness.
Import PciWitness.
#[export] Instance bus_writes : PciWriteLaws Bus bus_ports bus_laws.
Proof.
  refine {| pci_kept := kept |}. intros b d f o v h Hb Hd Hf Ho Hv. cbn -[Z.add Z.mul sel_bus sel_device sel_function sel_offset kept].
  unfold written. destruct (selected b d f o Hb Hd Hf Ho) as (-> & -> & -> & ->). split; [by rewrite !Z.eqb_refl |].
  intros b' d' f' o' Hne. destruct (_ && _ && _ && _) eqn:E; [| done]. rewrite !andb_true_iff, !Z.eqb_eq in E. destruct E as [[[-> ->] ->] ->]. done.
Defined.

Definition sound_card : PciDevice :=
  {| bus := 0; device := 27; function_id := 0; vendor_id := 0x8086; device_id := 0x2668; class := 4; subclass := 3; revision_id := 1; prog_if := 0;
     header_type := GeneralDevice |}.

(** The region of 16 kB at [0xFEBF0000], with interrupt line 11. *)
Lemma init_pci_probes_witness :
  exists irq hw', init_pci [sound_card] bus0 = Ret (space0 0 27 0 20 * 2 ^ 32 + (space0 0 27 0 16 - 4), 2 ^ 14, irq, hw') /\ 32 <= irq < 256 /\
    forall b' d' f' o', (b', d', f', o') <> (0, 27, 0, 4) -> pci_cfg hw' b' d' f' o' = space0 b' d' f' o'.
Proof.
  assert (Hb : bar_of (PW := bus_writes) 0 27 0 14 4) by (intros old v Hv; reflexivity).
  exact (init_pci_probes (PW := bus_writes) [sound_card] sound_card bus0 14 4 eq_refl ltac:(cbn; lia) ltac:(cbn; lia) ltac:(cbn; lia) space0_ok ltac:(lia) ltac:(lia) Hb eq_refl eq_refl).
Defined.

Example sound_card_region : space0 0 27 0 20 * 2 ^ 32 + (space0 0 27 0 16 - 4) = 0xFEBF0000.
Proof. reflexivity. Qed.

(** Registers, and whether a reset was asked for and has not been seen yet: the
    next read of a reset bit is still the old one. *)
Record Card := { file : Z -> Z; late : bool }.
Definition card_base : Z := 0x100.
Definition is_reset (r : Z) : bool := (r =? GCTL) || (r =? card_base).
Definition card_gcap : Z := 0x4401.
#[export] Instance card_mmio : Mmio Card := {|
  read_reg w r m :=
    if r =? GCAP then (card_gcap, m)
    else if is_reset r && late m then (Z.lxor (file m r) 1, {| file := file m; late := false |}) else (file m r, m);
  write_reg w r v m := {| file := fun r' => if r' =? r then v else file m r'; late := is_reset r |}
|}.

Lemma card_plain r : plain card_base r = true -> (r =? GCAP) = false /\ is_reset r = false.
Proof. intros Hp. unfold plain in Hp. apply existsb_exists in Hp as (x & Hx & ->%Z.eqb_eq). cbn in Hx. repeat destruct Hx as [<-|Hx]; try done. Qed.

#[export] Instance card_laws : HdaLaws Card card_mmio 2 card_gcap card_base.
Proof.
  refine {| reg := file |}; cbn [read_reg write_reg card_mmio].
  - done.
  - intros w r m Hp. destruct (card_plain r Hp) as [-> ->]. done.
  - intros w r m r' _. by destruct (r =? GCAP), (is_reset r && late m).
  - intros w r v m _. cbn. by rewrite Z.eqb_refl.
  - intros w r v m r' _ Hne. cbn. by rewrite (proj2 (Z.eqb_neq _ _) Hne).
  - intros r v m Hr. exists 1%nat. split; [lia |]. destruct Hr as [-> | ->]; reflexivity.
Defined.

Lemma hda_setup_programs_witness :
  exists m' w', hda_setup 2 0x1000 0x123456000 0x3000 {| samples := replicate (Z.to_nat 8192) 0; cursor := 0 |} (replicate 4096 (1, 1)) {| file := fun _ => 0; late := false |} =
      Ret (m', corb_new, rirb_new, w', pcm_frames (take (Z.to_nat 8192) (replicate (Z.to_nat 8192) 0))) /\
    programmed (HL := card_laws) 0x1000 0x123456000 0x3000 m' /\ cursor w' = 8192.
Proof.
  apply (hda_setup_programs (HL := card_laws)); [reflexivity | lia | lia | lia | cbn [samples]; rewrite length_replicate; lia | reflexivity | apply length_replicate].
Defined.
End HdaWitness.
