(* ===== verification/SoundStart.v ===== *)
(** * The sound controller at start-up

    [init_pci] of [driver/sound/hda.rs] as a whole: the search of the bus, the
    probe, and [setup] with its mappings, the addresses of the rings in physical
    memory and the programming of the registers, which [Pci], [KernelMap] and
    [HdaSetup] model separately. *)
From S2P Require Import Prelude Slices Memory Paging PagingMap UserMem KernelMap Pci Sound HdaSetup.

(** Where the heap puts the two rings and the list of buffers. *)
Record RingAddrs := { corb_ptr : Z; rirb_ptr : Z; bdl_ptr : Z }.

(** What [init_pci] leaves behind. *)
Record SoundState (H M : Type) := {
  HDA : HdaPci;
  pci_bus : H;
  regs : M;
  CORB : CorbBuffer;
  RIRB : RirbBuffer;
  WAV : WavStream;
  pcm_buffer : list (Z * Z);
  BDL : list BDLEntry
}.
Arguments HDA {H M}.
Arguments pci_bus {H M}.
Arguments regs {H M}.
Arguments CORB {H M}.
Arguments RIRB {H M}.
Arguments WAV {H M}.
Arguments pcm_buffer {H M}.
Arguments BDL {H M}.

Section Start.
Context {A : Type} {FA : FrameAllocator A} {PA : PageApi A} {AA : AddrApi} {F : FrameApi}
  {H : Type} {P32 : Port32 H} {M : Type} {MM : Mmio M}.
Implicit Types (w : gmap Z (list Z) * A) (hw : H) (m : M).

(** [HdaPci::setup] *)
Definition setup (fuel : nat) (page_table_address : Z) (r : RingAddrs) (file : list Z) (pcm : list (Z * Z)) (self : HdaPci) w m
  : outcome (M * CorbBuffer * RirbBuffer * WavStream * list (Z * Z) * list BDLEntry * (gmap Z (list Z) * A)) :=
  let! w := map_hdi_mmio page_table_address self w in
  let! m := reset_controller fuel m in
  let '(gcap, m) := read_reg 32 GCAP m in
  let iss := Z.land (Z.shiftr gcap 8) 15 in
  let '(_, m) := read_reg 16 STATESTS m in
  let! corb_addr := translate page_table_address (fst w) (corb_ptr r) in
  let m := setup_corb corb_addr m in
  let! rirb_addr := translate page_table_address (fst w) (rirb_ptr r) in
  let m := setup_rirb rirb_addr m in
  let m := reg_set 32 INTCTL (Z.lor (Z.lor (2 ^ 31) (2 ^ 30)) (2 ^ iss)) m in
  let! base := stream_base gcap in
  let! m := reset_stream fuel base m in
  let! '(bdpl, w) := create_bdpl page_table_address w in
  let! wav := wav_new file in
  let! '(pcm, wav) := setup_bg_stream wav pcm in
  let! bdpl_addr := translate page_table_address (fst w) (bdl_ptr r) in
  let m := setup_stream base bdpl_addr m in
  Ret (m, corb_new, rirb_new, wav, pcm, bdpl, w).

(** [init_pci] *)
Definition start_sound (fuel : nat) (page_table_address : Z) (r : RingAddrs) (file : list Z) (pcm : list (Z * Z)) w hw m
  : outcome (SoundState H M * (gmap Z (list Z) * A)) :=
  let! '(devices, hw) := pci_enumerate hw in
  let! '(base, size, _, hw) := init_pci devices hw in
  let hda := {| hda_base := base; mmio_region_size := size |} in
  let! '(m, corb, rirb, wav, pcm, bdl, w) := setup fuel page_table_address r file pcm hda w m in
  Ret ({| HDA := hda; pci_bus := hw; regs := m; CORB := corb; RIRB := rirb; WAV := wav; pcm_buffer := pcm; BDL := bdl |}, w).

(** The mappings and the registers do not meet: [setup] is the programming of
    the controller with the addresses that [translate] returns. *)
Lemma setup_split fuel l4 r file wav pcm self w m w1 ca ra ba bdl w2 :
  wav_new file = Ret wav -> map_hdi_mmio l4 self w = Ret w1 -> create_bdpl l4 w1 = Ret (bdl, w2) ->
  translate l4 (fst w1) (corb_ptr r) = Ret ca -> translate l4 (fst w1) (rirb_ptr r) = Ret ra -> translate l4 (fst w2) (bdl_ptr r) = Ret ba ->
  setup fuel l4 r file pcm self w m = let! x := hda_setup fuel ca ra ba wav pcm m in Ret (x, bdl, w2).
Proof.
  intros Ew E1 E2 Ec Er Eb. unfold setup, hda_setup. rewrite E1. cbn [obind].
  destruct (reset_controller fuel m) as [m1| |]; [| done | done]. cbn [obind]. destruct (read_reg 32 GCAP m1) as [gcap m2].
  destruct (read_reg 16 STATESTS m2) as [x m3]. rewrite Ec, Er. cbn [obind].
  destruct (stream_base gcap) as [base| |]; [| done | done]. cbn [obind].
  destruct (reset_stream fuel base _) as [m4| |]; [| done | done]. cbn [obind]. rewrite E2, Ew. cbn [obind].
  destruct (setup_bg_stream wav pcm) as [[pcm' wav']| |]; [| done | done]. cbn [obind]. by rewrite Eb.
Qed.
End Start.

(** ** The bus *)
Lemma device_place c d : d ∈ all_devices c -> 0 <= bus d < 256 /\ 0 <= device d < 32 /\ 0 <= function_id d < 8.
Proof.
  unfold all_devices. intros Hd. apply list_elem_of_bind in Hd as (b & Hd & Hb%elem_of_seqZ). apply list_elem_of_bind in Hd as (dv & Hd & Hdv%elem_of_seqZ).
  apply list_elem_of_omap in Hd as (f & Hf & Hd). unfold describe in Hd. destruct (present c b dv f); [| done].
  destruct (header_try_from _); [| done]. injection Hd as <-. cbn. split; [lia |]. split; [lia |].
  unfold functions in Hf. destruct (_ && _); [set_solver by lia | apply elem_of_seqZ in Hf; lia].
Qed.

(** The first sound controller on the bus, [d], has its registers in a region of
    [2 ^ n] bytes, described by [self], and an interrupt line. *)
Record card_found {H : Type} {P32 : Port32 H} {PL : PciLaws H P32} {PW : PciWriteLaws H P32 PL}
  (hw : H) (d : PciDevice) (n t : Z) (self : HdaPci) : Prop := {
  cf_cfg : cfg_ok (pci_cfg hw) /\ headers_known (pci_cfg hw);
  cf_found : find_intel_hda_pci (all_devices (pci_cfg hw)) = Some d;
  cf_size : 12 <= n < 32 /\ 0 <= t < 16;
  cf_bar : bar_of (bus d) (device d) (function_id d) n t /\ pci_cfg hw (bus d) (device d) (function_id d) 16 mod 2 ^ n = t;
  cf_irq : word (pci_cfg hw) (bus d) (device d) (function_id d) 60 mod 256 < 224;
  cf_self : self = {| hda_base := pci_cfg hw (bus d) (device d) (function_id d) 20 * 2 ^ 32 + (pci_cfg hw (bus d) (device d) (function_id d) 16 - t);
                      mmio_region_size := 2 ^ n |}
}.

Lemma probed {H : Type} {P32 : Port32 H} {PL : PciLaws H P32} {PW : PciWriteLaws H P32 PL} hw d n t self :
  card_found hw d n t self ->
  exists devices hw1 irq hw', pci_enumerate hw = Ret (devices, hw1) /\ init_pci devices hw1 = Ret (hda_base self, mmio_region_size self, irq, hw').
Proof.
  intros [[Hok Hk] Hf [Hn Ht] [Hb Hm] Hi ->]. destruct (pci_enumerate_exact hw Hok Hk) as (hw1 & E & Hc).
  destruct (device_place (pci_cfg hw) d) as (P1 & P2 & P3).
  { unfold find_intel_hda_pci in Hf. apply find_some in Hf as [Hin _]. by apply list_elem_of_In. }
  exists (all_devices (pci_cfg hw)), hw1. rewrite <- Hc in Hf, Hok, Hm, Hi.
  destruct (init_pci_probes (all_devices (pci_cfg hw1)) d hw1 n t Hf P1 P2 P3 Hok Hn Ht Hb Hm Hi) as (irq & hw' & E' & _).
  exists irq, hw'. rewrite Hc in E'. done.
Qed.

(** ** The heap below its entry of the root *)
Lemma heap_in_region n : heap_page <= n < heap_page + 25600 -> in_region heap_region n.
Proof.
  intros Hn. assert (H : Forall (in_region heap_region) (page_range heap_page heap_pages)) by (apply in_run; [done | by rewrite heap_pages_Z]).
  rewrite Forall_forall in H. apply H, elem_of_page_range. by rewrite heap_pages_Z.
Qed.

Definition in_heap (x : Z) : Prop := HEAP_START <= x < HEAP_START + HEAP_SIZE.

Section Started.
Context {A : Type} {FA : FrameAllocator A} {FL : FrameAllocatorLaws A} {PA : PageApi A} {AA : AddrApi} {F : FrameApi} {FrL : FrameApiLaws F} {KL : KernelLaws A PA AA}
  {H : Type} {P32 : Port32 H} {PL : PciLaws H P32} {PW : PciWriteLaws H P32 PL}
  {M : Type} {MM : Mmio M} {lag : nat} {gcap base : Z} {HL : HdaLaws M MM lag gcap base}.
Hypothesis (Hbase : stream_base gcap = Ret base).

Definition heap_mapped (l4 : Z) (m : gmap Z (list Z)) (a : A) : Prop :=
  region_ok 320 l4 m a /\
  forall n, heap_page <= n < heap_page + 25600 -> exists f, frame_ok f /\ kernel_maps m l4 KERNEL_FLAGS n f.

Lemma heap_translate l4 m a x : heap_mapped l4 m a -> in_heap x ->
  exists f, frame_ok f /\ kernel_maps m l4 KERNEL_FLAGS (x / 4096) f /\ translate l4 m x = Ret (f + x mod 4096).
Proof.
  intros [Hr Hm] Hx. assert (Hn : heap_page <= x / 4096 < heap_page + 25600).
  { unfold in_heap, heap_page, HEAP_START, HEAP_SIZE in *. Z.to_euclidean_division_equations. lia. }
  destruct (Hm _ Hn) as (f & Hf & Hk). exists f. split; [done |]. split; [done |]. unfold translate.
  assert (Ha : kernel_addr x) by (unfold kernel_addr, in_heap, HEAP_START, HEAP_SIZE in *; lia).
  rewrite va_new_kernel by done. cbn [obind].
  by rewrite (maps_translate heap_region l4 m a KERNEL_FLAGS (x / 4096) f x Hr (heap_in_region _ Hn) Hk Ha eq_refl).
Qed.

(** The heap is where it was after the mappings of the sound controller. *)
Lemma heap_kept l4 m a m' a' : heap_mapped l4 m a -> root_kept 416 l4 m a m' a' ->
  heap_mapped l4 m' a' /\ forall x, in_heap x -> translate l4 m' x = translate l4 m x.
Proof.
  intros Hh Hk. pose proof Hh as [Hr Hm]. destruct (region_kept 320 416 l4 m a m' a' Hk ltac:(lia) Hr) as [Hr' Hp].
  assert (Hkm : forall n f, heap_page <= n < heap_page + 25600 -> kernel_maps m l4 KERNEL_FLAGS n f -> kernel_maps m' l4 KERNEL_FLAGS n f).
  { intros n f Hn (e & He & ?). exists e. split; [| done]. rewrite Hp; [done | | done]. apply (region_path heap_region), heap_in_region, Hn. }
  assert (Hh' : heap_mapped l4 m' a') by (split; [done |]; intros n Hn; destruct (Hm n Hn) as (f & Hf & ?); eauto).
  split; [done |]. intros x Hx. destruct (heap_translate l4 m a x Hh Hx) as (f & _ & Hf & ->), (heap_translate l4 m' a' x Hh' Hx) as (f' & _ & Hf' & ->).
  assert (Hn : heap_page <= x / 4096 < heap_page + 25600).
  { unfold in_heap, heap_page, HEAP_START, HEAP_SIZE in *. Z.to_euclidean_division_equations. lia. }
  apply (Hkm _ _ Hn) in Hf as (e & He & Ef & _). destruct Hf' as (e' & He' & Ef' & _). congruence.
Qed.

Lemma heap_address l4 m a x : heap_mapped l4 m a -> in_heap x -> exists p, translate l4 m x = Ret p /\ 0 <= p < 2 ^ 64.
Proof.
  intros Hh Hx. destruct (heap_translate l4 m a x Hh Hx) as (f & [_ Hf] & _ & E). exists (f + x mod 4096). split; [done |].
  pose proof (Z.mod_pos_bound x 4096 ltac:(lia)). lia.
Qed.

(** The sound controller plays: [init_pci] finds it, maps its registers and a
    sample buffer, and programs it with the physical addresses of its rings and
    of the list of buffers, which are where the heap has them; the list names the
    four frames of the sample buffer, which holds the first 4096 frames of the
    file.  Nothing that was in use changes. *)
Theorem sound_started l4 r file len pcm m a hw d n t self rest (m0 : M) :
  root_free 416 l4 m a -> heap_mapped l4 m a -> in_heap (corb_ptr r) -> in_heap (rirb_ptr r) -> in_heap (bdl_ptr r) ->
  card_found hw d n t self -> hda_at self -> avail (hda_frames self + rest) a ->
  length file = (44 + 2 * len)%nat -> 8192 <= Z.of_nat len < 2 ^ 63 -> length pcm = 4096%nat ->
  exists st m' a' ca ra ba, start_sound lag l4 r file pcm (m, a) hw m0 = Ret (st, (m', a')) /\ HDA st = self /\
    translate l4 m' (corb_ptr r) = Ret ca /\ translate l4 m' (rirb_ptr r) = Ret ra /\ translate l4 m' (bdl_ptr r) = Ret ba /\
    programmed ca ra ba (regs st) /\ pcm_buffer st = pcm_frames (take (Z.to_nat 8192) (i16s (drop 44 file))) /\
    (forall i, 0 <= i < 16384 -> exists e, BDL st !! Z.to_nat (i / 4096) = Some e /\ bdl_length e = 4096 /\
      translate l4 m' (PCA_BUFFER_VIRT_START + i) = Ret (bdl_address e + i mod 4096)) /\
    heap_mapped l4 m' a' /\ root_kept 416 l4 m a m' a' /\ avail rest a'.
Proof.
  intros Hfree Hh Hc Hr Hb Hcard Hat Hav Hl Hs Hp. destruct (wav_new_ok file len Hl) as [Ew Hsl]. set (wav := {| samples := _ |}) in Ew.
  destruct (probed hw d n t self Hcard) as (ds & hw1 & irq & hw2 & Ee & Ei).
  destruct (sound_windows l4 self m a rest Hfree Hat Hav) as (bdl & m1 & a1 & m' & a' & E1 & E2 & _ & Hbuf & _ & _ & Hk1 & Hk & Hav').
  destruct (heap_kept l4 m a m1 a1 Hh Hk1) as [_ Ht1]. destruct (heap_kept l4 m a m' a' Hh Hk) as [Hh' Ht'].
  destruct (heap_address l4 m a _ Hh Hc) as (ca & Ec & Bc), (heap_address l4 m a _ Hh Hr) as (ra & Er & Br), (heap_address l4 m a _ Hh Hb) as (ba & Eb & Bb).
  destruct (hda_setup_programs Hbase ca ra ba wav pcm m0 Bc Br Bb ltac:(by cbn; rewrite Hsl) eq_refl Hp) as (mr & w' & Es & Hpr & _).
  assert (Esetup : setup lag l4 r file pcm self (m, a) m0 = Ret (mr, corb_new, rirb_new, w', pcm_frames (take (Z.to_nat 8192) (samples wav)), bdl, (m', a'))).
  { rewrite (setup_split lag l4 r file wav pcm self (m, a) m0 (m1, a1) ca ra ba bdl (m', a')); cbn [fst]; try done; [| by rewrite Ht1 | by rewrite Ht1 | by rewrite Ht'].
    by rewrite Es. }
  assert (Eself : {| hda_base := hda_base self; mmio_region_size := mmio_region_size self |} = self) by (by destruct self).
  eexists _, m', a', ca, ra, ba. split; [unfold start_sound; rewrite Ee; cbn [obind]; rewrite Ei; cbn [obind]; rewrite Eself, Esetup; reflexivity |].
  cbn [HDA regs pcm_buffer BDL]. rewrite !Ht' by done. split_and!; try done.
  intros i Hi. destruct (Hbuf i Hi) as (e & ? & ? & _ & _ & ?). eauto.
Qed.
End Started.
