(* ===== verification/HdaCodec.v ===== *)
(** * Talking to the codec

    [hda_request_verb] and [hda_discovery] of [kernel/src/main.rs] with
    [CorbRespStream] of [driver/sound/corb.rs]: a task that sends verbs through
    the command ring and waits for each response, while the controller answers
    and interrupts at any moment.  The task is a tree of requests and messages;
    its steps are those of the code between two points at which an interrupt
    can come.  The thread that polls it goes to sleep when the task is parked
    and not queued ([sleep_if_idle] of [task/executor.rs]); a wake-up between
    that test and its [block_task] is lost. *)
From S2P Require Import Prelude Slices Queue Sound.

(** ** The task *)

(** What [hda_discovery] reports on the serial line. *)
Inductive Msg :=
| Codec (vendor_id device_id : Z)
| FuncGroups (start_node total_nodes : Z)
| FuncGroup (node type : Z)
| Widgets (start_node total_nodes : Z)
| Widget (node type : Z)
| ConnectionEntry (nid : Z).

Inductive Disc :=
| Finish
| Overflow                         (** an addition of bytes that panics *)
| Say (x : Msg) (k : Disc)
| Request (codec_addr node_id verb payload : Z) (k : RirbResponseEntry -> Disc).

(** [start..(start + total)] of bytes. *)
Definition node_range (start total : Z) (k : list Z -> Disc) : Disc :=
  if start + total <? 256 then k (seqZ start total) else Overflow.

Definition start_of (r : RirbResponseEntry) : Z := wrap_u 8 (Z.shiftr (raw_response r) 16).
Definition total_of (r : RirbResponseEntry) : Z := wrap_u 8 (raw_response r).

(** The loop over the widgets of a group, and what comes after it. *)
Fixpoint widgets_loop (codec_addr : Z) (nodes : list Z) (k : Disc) : Disc :=
  match nodes with
  | [] => k
  | wg_node :: nodes =>
      Request codec_addr wg_node 0xF00 0x09 (fun resp =>
      let widget_type := Z.land (Z.shiftr (raw_response resp) 20) 15 in
      Say (Widget wg_node widget_type) (
      Request codec_addr wg_node 0xF00 0x0E (fun resp =>
      let list_length := Z.land (raw_response resp) 63 in
      if 0 <? list_length then
        Request codec_addr wg_node 0xF02 0x00 (fun resp =>
        Say (ConnectionEntry (wrap_u 8 (raw_response resp))) (widgets_loop codec_addr nodes k))
      else widgets_loop codec_addr nodes k)))
  end.

Fixpoint groups_loop (codec_addr : Z) (nodes : list Z) (k : Disc) : Disc :=
  match nodes with
  | [] => k
  | fg_node :: nodes =>
      Request codec_addr fg_node 0xF00 0x05 (fun resp =>
      Say (FuncGroup fg_node (wrap_u 8 (raw_response resp))) (
      Request codec_addr fg_node 0xF00 0x04 (fun resp =>
      Say (Widgets (start_of resp) (total_of resp)) (
      node_range (start_of resp) (total_of resp) (fun widgets =>
      widgets_loop codec_addr widgets (groups_loop codec_addr nodes k))))))
  end.

Definition hda_discovery : Disc :=
  let codec_addr := 0 in
  let node_id := 0 in
  Request codec_addr node_id 0xF00 0 (fun resp =>
  Say (Codec (wrap_u 16 (Z.shiftr (raw_response resp) 16)) (wrap_u 16 (raw_response resp))) (
  Request codec_addr node_id 0xF00 0x04 (fun resp =>
  Say (FuncGroups (start_of resp) (total_of resp)) (
  node_range (start_of resp) (total_of resp) (fun groups =>
  groups_loop codec_addr groups Finish))))).

(** ** The steps of the task *)

(** Before a step of the task itself; the three points of [poll_next]; and
    returned [Pending]. *)
Inductive Pc := Run | First | Register | Recheck | Parked.
#[global] Instance Pc_eq : EqDecision Pc.
Proof. solve_decision. Defined.

Section Steps.
Context {M : Type} {MM : Mmio M} {Q R : Type} {AQ : ArrayQueue Z Q} {AR : ArrayQueue RirbResponseEntry R}.

(** The driver, the task, whether its waker is in [RESP_WAKER], whether it is in
    the executor's queue, and what it has reported. *)
Record State := mkState {
  hda : Hda M Q R; task : Disc; pc : Pc; waker : bool; queued : bool; log : list Msg
}.
Implicit Type s : State.

(** The response is there: the task goes on with it. *)
Definition resume (r : R) (resp : RirbResponseEntry) (waker : bool) s : State :=
  let h := set_resp (awaiting_req (hda s)) r (hda s) in
  match task s with
  | Request _ _ _ _ k => mkState h (k resp) Run waker (queued s) (log s)
  | t => mkState h t Run waker (queued s) (log s)
  end.

(** [None] when the task has ended, or is parked and not queued. *)
Definition task_step s : outcome (option State) :=
  let '(mkState h t pc w q l) := s in
  match pc with
  | Run =>
      match t with
      | Finish => Ret None
      | Overflow => Panic
      | Say x k => Ret (Some (mkState h k Run w q (l ++ [x])))
      | Request codec_addr node_id verb payload _ =>
          let! h := hda_request_verb codec_addr node_id verb payload h in
          Ret (Some (mkState h t First w q l))
      end
  | First =>
      match aq_pop (ready_resp h) with
      | (Some resp, r) => Ret (Some (resume r resp w s))
      | (None, r) => Ret (Some (mkState (set_resp (awaiting_req h) r h) t Register w q l))
      end
  | Register => Ret (Some (mkState h t Recheck true q l))
  | Recheck =>
      match aq_pop (ready_resp h) with
      | (Some resp, r) => Ret (Some (resume r resp false s))
      | (None, r) => Ret (Some (mkState (set_resp (awaiting_req h) r h) t Parked w q l))
      end
  | Parked => Ret (if q then Some (mkState h t First w false l) else None)
  end.

(** [RESP_WAKER.wake()], [n] times: the waker is taken out and its task queued. *)
Definition wake (n : nat) (h : Hda M Q R) s : State :=
  match n with
  | O => mkState h (task s) (pc s) (waker s) (queued s) (log s)
  | _ => mkState h (task s) (pc s) false (queued s || waker s) (log s)
  end.

Definition started (h : Hda M Q R) (t : Disc) : State := mkState h t Run false false [].
End Steps.
Arguments State : clear implicits.

(** ** The controller *)

(** How far it has read the command ring, how far the driver has filled it, how
    far it has filled the response ring, and whether it interrupts. *)
Record Ctl := mkCtl { crp : Z; cwp : Z; rwp : Z; raised : bool }.

Class CodecLaws (M : Type) (MM : Mmio M) := {
  ctl : M -> Ctl;
  answered : M -> M;
  ctl_bounds m : 0 <= crp (ctl m) < 256 /\ 0 <= cwp (ctl m) < 256 /\ 0 <= rwp (ctl m) < 256;
  ctl_read w r m : ctl (snd (read_reg w r m)) = ctl m;
  read_rirbwp m : Z.land (fst (read_reg 16 RIRBWP m)) 255 = rwp (ctl m);
  read_rirbsts m : (Z.land (fst (read_reg 8 RIRBSTS m)) 1 =? 0) = negb (raised (ctl m));
  read_intsts m : raised (ctl m) = true ->
    Z.land (fst (read_reg 32 INTSTS m)) (2 ^ 31) <> 0 /\ Z.land (fst (read_reg 32 INTSTS m)) (2 ^ 30) <> 0;
  write_corbwp v m : 0 <= v < 256 -> ctl (write_reg 16 CORBWP v m) = mkCtl (crp (ctl m)) v (rwp (ctl m)) (raised (ctl m));
  write_rirbsts m : ctl (write_reg 8 RIRBSTS 1 m) = mkCtl (crp (ctl m)) (cwp (ctl m)) (rwp (ctl m)) false;
  write_stream w r v m : 128 <= r -> ctl (write_reg w r v m) = ctl m;
  ctl_answered m : ctl (answered m) = mkCtl ((crp (ctl m) + 1) mod 256) (cwp (ctl m)) ((rwp (ctl m) + 1) mod 256) true
}.

Section Controller.
Context {M : Type} {MM : Mmio M} {CL : CodecLaws M MM} {Q R : Type} {AQ : ArrayQueue Z Q} {AL : ArrayQueueLaws Z Q AQ}
  {AR : ArrayQueue RirbResponseEntry R} {RL : ArrayQueueLaws RirbResponseEntry R AR}.
(** The codec's answer to a verb. *)
Variable codec : Z -> RirbResponseEntry.
Implicit Types (h : Hda M Q R) (s : State M Q R).

(** The controller takes the next command and puts the codec's answer in the
    response ring. *)
Definition serve h : option (Hda M Q R) :=
  if crp (ctl (mmio h)) =? cwp (ctl (mmio h)) then None else
  cmd ← cb_buffer (corb h) !! Z.to_nat ((crp (ctl (mmio h)) + 1) mod 256);
  let slot := Z.to_nat ((rwp (ctl (mmio h)) + 1) mod 256) in
  Some (set_mmio (answered (mmio h)) (set_rirb {| rb_buffer := <[slot := codec cmd]> (rb_buffer (rirb h)); rp := rp (rirb h) |} h)).

(** One step of the machine: the task's, the controller's, or an interrupt. *)
Inductive step : State M Q R -> State M Q R -> Prop :=
| step_task s s' : task_step s = Ret (Some s') -> step s s'
| step_serve s h : serve (hda s) = Some h -> step s (mkState h (task s) (pc s) (waker s) (queued s) (log s))
| step_interrupt s n h : raised (ctl (mmio (hda s))) = true -> hda_interrupt_handler (hda s) = Ret (n, h) -> step s (wake n h s).

(** *** The executor's thread *)

(** It polls, has found no task queued, or is blocked. *)
Inductive Ex := Polls | Tested | Asleep.
#[export] Instance Ex_eq : EqDecision Ex.
Proof. solve_decision. Defined.

(** [wake_executor] unblocks the thread when it is blocked. *)
Definition wake_executor (e : Ex) : Ex := match e with Asleep => Polls | e => e end.

(** The waker that the handler takes out wakes the thread too. *)
Definition woken (n : nat) (w : bool) (e : Ex) : Ex := if negb (n =? 0)%nat && w then wake_executor e else e.

Inductive ex_step : State M Q R * Ex -> State M Q R * Ex -> Prop :=
| ex_task s s' : task_step s = Ret (Some s') -> ex_step (s, Polls) (s', Polls)
| ex_serve s h e : serve (hda s) = Some h -> ex_step (s, e) (mkState h (task s) (pc s) (waker s) (queued s) (log s), e)
| ex_interrupt s n h e : raised (ctl (mmio (hda s))) = true -> hda_interrupt_handler (hda s) = Ret (n, h) ->
    ex_step (s, e) (wake n h s, woken n (waker s) e)
| ex_idle s : pc s = Parked -> queued s = false -> ex_step (s, Polls) (s, Tested)
| ex_block s : ex_step (s, Tested) (s, Asleep).

(** Another task's wake-up of the same thread. *)
Inductive other_wake : State M Q R * Ex -> State M Q R * Ex -> Prop :=
| other s e : other_wake (s, e) (s, wake_executor e).

(** ** What the task should report *)

(** The messages of a task whose requests the codec answers at once, and whether
    it ends without a panic; the number of its steps. *)
Fixpoint ask (t : Disc) : list Msg * bool :=
  match t with
  | Finish => ([], true)
  | Overflow => ([], false)
  | Say x k => let '(l, b) := ask k in (x :: l, b)
  | Request c n v p k => ask (k (codec (hda_verb c n v p)))
  end.
Fixpoint size (t : Disc) : nat :=
  match t with
  | Finish | Overflow => 0
  | Say _ k => S (size k)
  | Request c n v p k => S (size (k (codec (hda_verb c n v p))))
  end.

(** ** The driver *)
Hypothesis (Hmm : mmio_ok (M := M)) (Hfew : few_inputs (M := M)).

Record driver_ok h : Prop := {
  dk_ok : hda_ok h;
  dk_wp : wp (corb h) = cwp (ctl (mmio h));
  dk_room : 1 <= aq_capacity (ready_resp h) /\ 1 <= aq_capacity (awaiting_req h);
  dk_wav : Z.of_nat (length (samples (wav h))) < 2 ^ 63
}.

(** Requests and responses in the queues, commands the controller has not read,
    responses the handler has not read, and whether it interrupts. *)
Record holds h (req : list Z) (resp : list RirbResponseEntry) (unread ring : Z) (irq : bool) : Prop := {
  hd_req : aq_list (awaiting_req h) = req;
  hd_resp : aq_list (ready_resp h) = resp;
  hd_corb : cwp (ctl (mmio h)) = (crp (ctl (mmio h)) + unread) mod 256;
  hd_rirb : rwp (ctl (mmio h)) = (rp (rirb h) + ring) mod 256;
  hd_irq : raised (ctl (mmio h)) = irq
}.
Definition quiet h : Prop := holds h [] [] 0 0 false.

(** A request on its way: in the command ring, in the response ring, in the
    queue of responses. *)
Inductive Phase := Sent | Answered | Delivered.
Definition in_phase (ph : Phase) (verb : Z) h : Prop :=
  match ph with
  | Sent => holds h [verb] [] 1 0 false /\ cb_buffer (corb h) !! Z.to_nat (cwp (ctl (mmio h))) = Some verb
  | Answered => holds h [verb] [] 0 1 true /\ rb_buffer (rirb h) !! Z.to_nat (rwp (ctl (mmio h))) = Some (codec verb)
  | Delivered => holds h [] [codec verb] 0 0 false
  end.

Lemma mod_next x : 0 <= x < 256 -> 0 <= (x + 1) mod 256 < 256 /\ (x + 1) mod 256 <> x.
Proof. intros Hx. split; [apply Z.mod_pos_bound; lia |]. intros E. pose proof (Z.div_mod (x + 1) 256 ltac:(lia)). lia. Qed.

(** [hda_request_verb] puts the verb in the ring and tells the controller. *)
Lemma request_sent c n v p h : driver_ok h -> quiet h ->
  exists h', hda_request_verb c n v p h = Ret h' /\ driver_ok h' /\ in_phase Sent (hda_verb c n v p) h'.
Proof.
  intros [Hh Hwp [Hc1 Hc2] Hw] [Hq Hr Hcb Hrb Hi]. pose proof Hh as [Hrk [Hl Hb] Haq Har Hwav Hpcm]. unfold hda_request_verb, corb_push.
  set (verb := hda_verb c n v p). destruct (mod_next (wp (corb h)) Hb) as [Hn _]. rewrite chk_u_ret by lia. cbn [obind].
  rewrite upd_ret by lia. cbn [obind wp set_corb hda_write set_mmio set_resp].
  assert (Ew : wrap_u 16 ((wp (corb h) + 1) mod 256) = (wp (corb h) + 1) mod 256) by (apply wrap_u_small; lia). rewrite Ew.
  destruct (aq_force_law verb (awaiting_req h) Haq) as (Haq' & Hcap & Hlist).
  rewrite Hq in Hlist. destruct (aq_len_law _ Haq) as [Hlen _]. rewrite Hq in Hlen. cbn in Hlen.
  rewrite (proj2 (Z.ltb_lt (aq_len (awaiting_req h)) (aq_capacity (awaiting_req h)))) in Hlist by lia.
  eexists. split; [reflexivity |]. destruct (ctl_bounds (mmio h)) as (B1 & B2 & _). rewrite Z.add_0_r, Z.mod_small in Hcb by done.
  assert (Ec : ctl (write_reg 16 CORBWP ((wp (corb h) + 1) mod 256) (mmio h)) =
    mkCtl (crp (ctl (mmio h))) ((wp (corb h) + 1) mod 256) (rwp (ctl (mmio h))) (raised (ctl (mmio h)))) by (by apply write_corbwp).
  split; [split; [split; cbn; try done; split; cbn; [by rewrite length_insert | done] | | | done]; cbn |].
  - by rewrite Ec.
  - by rewrite Hcap.
  - split; [split; cbn; rewrite ?Ec; cbn; try done; by rewrite Hwp, Hcb |]. cbn. rewrite Ec. cbn. by rewrite list_lookup_insert_eq by lia.
Qed.

(** The controller answers what was sent, and only that. *)
Lemma serve_sent verb h : driver_ok h -> in_phase Sent verb h ->
  exists h', serve h = Some h' /\ driver_ok h' /\ in_phase Answered verb h'.
Proof.
  intros [Hh Hwp Hc Hw] [[Hq Hr Hcb Hrb Hi] Hv]. destruct (ctl_bounds (mmio h)) as (B1 & B2 & B3). unfold serve.
  pose proof Hh as [[Hrl Hrp] Hck Haq Har Hwav Hpcm]. destruct (mod_next _ B1) as [_ Hne]. destruct (mod_next _ B3) as [Hs _].
  rewrite (proj2 (Z.eqb_neq _ _)) by congruence. rewrite <- Hcb, Hv. cbn [mbind option_bind]. eexists. split; [reflexivity |].
  rewrite Z.add_0_r, Z.mod_small in Hrb by done.
  assert (Ec : ctl (answered (mmio h)) = mkCtl (cwp (ctl (mmio h))) (cwp (ctl (mmio h))) ((rwp (ctl (mmio h)) + 1) mod 256) true) by (by rewrite ctl_answered, Hcb).
  split; [split; [split; cbn; try done; split; cbn; [by rewrite length_insert | done] | cbn; by rewrite Ec | done | done] |].
  split; [split; cbn; rewrite ?Ec; cbn; try done |].
  - by rewrite Z.add_0_r, Z.mod_small.
  - by rewrite Hrb.
  - cbn. rewrite Ec. cbn. by rewrite list_lookup_insert_eq by lia.
Qed.

Lemma serve_none h : cwp (ctl (mmio h)) = (crp (ctl (mmio h)) + 0) mod 256 -> serve h = None.
Proof. intros E. destruct (ctl_bounds (mmio h)) as (B1 & _). rewrite Z.add_0_r, Z.mod_small in E by done. unfold serve. by rewrite E, Z.eqb_refl. Qed.

(** The refill of the sample buffer leaves the rings alone. *)
Lemma refill_ctl base h h' : 128 <= base -> refill base h = Ret h' -> ctl (mmio h') = ctl (mmio h) /\ corb h' = corb h /\ samples (wav h') = samples (wav h).
Proof.
  intros Hb E. unfold refill, hda_read in E. pose proof (ctl_read 8 (base + 3) (mmio h)) as C1.
  destruct (read_reg 8 (base + 3) (mmio h)) as [v1 m1]. cbn [snd] in C1. destruct (Z.land v1 4 =? 0); [by injection E as <- |].
  cbn [mmio set_mmio] in E. pose proof (ctl_read 32 (base + 4) m1) as C2. destruct (read_reg 32 (base + 4) m1) as [v2 m2]. cbn [snd] in C2.
  run_inv E. destruct v as [sm w]. run_inv E. injection E as <-. cbn. rewrite write_stream, C2, C1 by lia. split; [done |]. split; [done |].
  cbn [wav set_mmio] in E0. unfold next_samples in E0. run_inv E0. run_inv E0. run_inv E0. by injection E0 as _ <-.
Qed.

Lemma responses_capacity fuel : forall w n h n' h', aq_ok (awaiting_req h) -> aq_ok (ready_resp h) -> responses_loop fuel w n h = Ret (n', h') ->
  aq_capacity (awaiting_req h') = aq_capacity (awaiting_req h) /\ aq_capacity (ready_resp h') = aq_capacity (ready_resp h).
Proof.
  induction fuel as [|fuel IH]; intros w n h n' h' Hq Hr E; [done |]. cbn [responses_loop] in E.
  destruct (rp (rirb h) =? w); [by injection E as _ <- |]. run_inv E. destruct v as [item r]. cbn [awaiting_req set_rirb ready_resp] in E.
  pose proof (aq_pop_law (awaiting_req h) Hq) as Hp. destruct (aq_pop (awaiting_req h)) as [[c|] q]; destruct Hp as (Hq' & Hc & _).
  - destruct (aq_force_law item (ready_resp h) Hr) as (Hr' & Hc' & _). apply IH in E as [-> ->]; cbn; done.
  - apply IH in E as [-> ->]; cbn; done.
Qed.

(** The interrupt delivers the answer and wakes once. *)
Lemma interrupt_delivers verb h : driver_ok h -> in_phase Answered verb h ->
  exists h', hda_interrupt_handler h = Ret (1%nat, h') /\ driver_ok h' /\ in_phase Delivered verb h'.
Proof.
  intros [Hh Hwp Hc Hw] [[Hq Hr Hcb Hrb Hi] Hv]. unfold hda_interrupt_handler.
  pose proof (read_intsts (mmio h) Hi) as [I1 I2]. pose proof (ctl_read 32 INTSTS (mmio h)) as C1.
  unfold hda_read at 1. destruct (read_reg 32 INTSTS (mmio h)) as [st m1]. cbn [fst snd] in *.
  pose proof (Hfew m1) as Hf. pose proof (ctl_read 32 GCAP m1) as C2. unfold hda_read at 1. cbn [mmio set_mmio].
  destruct (read_reg 32 GCAP m1) as [v m2]. cbn [fst snd] in *.
  assert (Eb : stream_base v = Ret (128 + Z.land (Z.shiftr v 8) 15 * 32)).
  { unfold stream_base. pose proof (Z.land_nonneg (Z.shiftr v 8) 15). rewrite chk_u_ret by lia. done. }
  rewrite Eb. cbn [obind]. set (base := 128 + _). assert (Hbase : 128 <= base) by (unfold base; pose proof (Z.land_nonneg (Z.shiftr v 8) 15); lia).
  set (h2 := set_mmio m2 _). assert (Hh2 : hda_ok h2) by (destruct Hh; by split).
  destruct (refill_spares_playing Hmm base h2 Hh2 Hw) as (h3 & _ & E3 & Hh3 & _ & Erest & _). rewrite E3. cbn [obind].
  destruct (refill_ctl base h2 h3 Hbase E3) as (C3 & K3 & W3). unfold h2 in C3. cbn [mmio set_mmio] in C3. injection Erest as Er Eq Ey.
  cbn in Er, Eq, Ey, K3, W3. unfold hda_read at 1. pose proof (read_rirbsts (mmio h3)) as Hsts. pose proof (ctl_read 8 RIRBSTS (mmio h3)) as C4.
  destruct (read_reg 8 RIRBSTS (mmio h3)) as [st2 m4]. cbn [fst snd] in *.
  assert (C : ctl m4 = ctl (mmio h)) by congruence. rewrite C3, C2, C1, Hi in Hsts. cbn [negb] in Hsts.
  rewrite Hsts, !(proj2 (Z.eqb_neq _ 0)) by done. cbn [negb andb].
  unfold hda_read at 1. cbn [mmio set_mmio]. pose proof (read_rirbwp m4) as Hrw. pose proof (ctl_read 16 RIRBWP m4) as C5.
  destruct (read_reg 16 RIRBWP m4) as [w m5]. cbn [fst snd] in *. rewrite Hrw, C. set (h5 := set_mmio m5 _).
  assert (Hh5 : hda_ok h5) by (destruct Hh3; by split). destruct (ctl_bounds (mmio h)) as (_ & B2 & B3).
  pose proof Hh as [[Hrl Hrp] _ Haq Har _ _]. destruct (mod_next _ Hrp) as [_ Hne].
  destruct (between_cons (rb_buffer (rirb h)) (rp (rirb h)) (rwp (ctl (mmio h))) Hrl Hrp B3 ltac:(congruence)) as (x & Hx & Eit & _).
  assert (Ex : wrap_u 8 (rp (rirb h) + 1) = rwp (ctl (mmio h))) by (by rewrite Hrb). rewrite Ex in Hx, Eit. rewrite Hv in Hx. injection Hx as <-.
  assert (Eit' : between (rb_buffer (rirb h)) (rp (rirb h)) (rwp (ctl (mmio h))) = [codec verb]).
  { rewrite Eit. unfold between. by rewrite Z.sub_diag. }
  destruct (responses_loop_spec 257 h5 (rwp (ctl (mmio h))) 0 Hh5 B3) as (h6 & E6 & Hh6 & Hrp6 & Hr6 & Hq6 & Em6).
  { pose proof (Z.mod_pos_bound (rwp (ctl (mmio h)) - rp (rirb h5)) 256). lia. }
  { unfold h5. cbn. rewrite Er, Ey, Eq, Hq, Eit'. cbn. destruct (aq_len_law _ Har) as [Hlen _]. rewrite Hr in Hlen. cbn in Hlen. lia. }
  revert E6 Hr6 Hq6 Em6. unfold h5. cbn [rirb set_mmio awaiting_req ready_resp mmio corb wav pcm]. rewrite Er, Ey, Eq, Hq, Hr, Eit'. cbn [length take app drop Nat.add].
  intros E6 Hr6 Hq6 Em6. injection Em6 as Em Ec Ewv _. rewrite E6. cbn [obind]. eexists. split; [reflexivity |].
  assert (C6 : ctl (write_reg 8 RIRBSTS 1 (mmio h6)) = mkCtl (crp (ctl (mmio h))) (cwp (ctl (mmio h))) (rwp (ctl (mmio h))) false).
  { rewrite write_rirbsts, Em, C5, C. done. }
  split.
  - destruct (responses_capacity _ _ _ _ _ _ (ho_req _ Hh5) (ho_resp _ Hh5) E6) as [Q1 Q2]. cbn in Q1, Q2. rewrite Eq in Q1. rewrite Ey in Q2.
    split; [by apply hda_write_ok | cbn; by rewrite C6, Ec, K3 | cbn; by rewrite Q1, Q2 | cbn; by rewrite Ewv, W3].
  - split; cbn; rewrite ?C6; cbn; try done. by rewrite Hrp6, Z.add_0_r, Z.mod_small.
Qed.

(** Taking a response from the queue. *)
Lemma popped h o r : driver_ok h -> aq_pop (ready_resp h) = (o, r) ->
  let h' := set_resp (awaiting_req h) r h in
  driver_ok h' /\ forall req resp u g i, holds h req resp u g i -> o = head resp /\ holds h' req (tail resp) u g i.
Proof.
  intros [Hh Hwp [Hc1 Hc2] Hw] E h'. pose proof Hh as [Hrk Hck Haq Har Hwav Hpcm]. pose proof (aq_pop_law (ready_resp h) Har) as Hp. rewrite E in Hp.
  destruct Hp as (Hok & Hcap & Hp). split; [split; [by split | done | cbn; by rewrite Hcap | done] |].
  intros req resp u g i [Hq Hr Hcb Hrb Hi]. rewrite Hr in Hp. destruct resp as [|x resp]; destruct Hp as [-> Hl]; (split; [done | by split]).
Qed.

(** ** The invariant *)

(** A task that waits for a response that is still to come has its waker where
    the handler finds it, and one that is parked when it has come is queued. *)
Definition guarded (ph : Phase) (p : Pc) (w q : bool) : Prop :=
  match ph with Delivered => p = Parked -> q = true | _ => p = Recheck \/ p = Parked -> w = true end.
Definition waiting s : Prop := exists c n v pl k ph, task s = Request c n v pl k /\
  in_phase ph (hda_verb c n v pl) (hda s) /\ guarded ph (pc s) (waker s) (queued s).

Record inv (t0 : Disc) s : Prop := {
  iv_driver : driver_ok (hda s);
  iv_log : ask t0 = (log s ++ fst (ask (task s)), snd (ask (task s)));
  iv_pc : match pc s with Run => quiet (hda s) | _ => waiting s end
}.

(** Steps left: those of the task, and of the request that is on its way. *)
Definition bit (b : bool) : nat := if b then 4 else 0.
Definition weight h : nat := if raised (ctl (mmio h)) then 6 else if crp (ctl (mmio h)) =? cwp (ctl (mmio h)) then 0 else 7.
Definition left (s : State M Q R) : nat :=
  match pc s with
  | Run => 20 * size (task s)
  | p => 20 * (size (task s) - 1) + match p with First => 3 | Register => 2 | Recheck => 1 | _ => 0 end + weight (hda s)
  end + bit (queued s).

Lemma serve_phase ph verb h h' : driver_ok h -> in_phase ph verb h -> serve h = Some h' -> ph = Sent /\ driver_ok h' /\ in_phase Answered verb h'.
Proof.
  intros Hd Hp E. destruct ph.
  - destruct (serve_sent verb h Hd Hp) as (h1 & E1 & ? & ?). rewrite E1 in E. by injection E as <-.
  - destruct Hp as [[_ _ Hc _ _] _]. by rewrite serve_none in E.
  - destruct Hp as [_ _ Hc _ _]. by rewrite serve_none in E.
Qed.

Lemma raised_phase ph verb h : in_phase ph verb h -> raised (ctl (mmio h)) = true -> ph = Answered.
Proof. destruct ph; [intros [[_ _ _ _ ->] _] | done | intros [_ _ _ _ ->]]; done. Qed.

(** The weight of a request on its way. *)
Lemma phase_weight ph verb h : in_phase ph verb h ->
  weight h = match ph with Sent => 7 | Answered => 6 | Delivered => 0 end%nat.
Proof.
  unfold weight. destruct (ctl_bounds (mmio h)) as (B1 & _). destruct ph; [intros [[_ _ Hc _ ->] _] | intros [[_ _ _ _ ->] _] | intros [_ _ Hc _ ->]]; try done.
  - destruct (mod_next _ B1) as [_ Hne]. by rewrite (proj2 (Z.eqb_neq _ _)) by congruence.
  - rewrite Hc, Z.add_0_r, Z.mod_small, Z.eqb_refl by done. done.
Qed.

(** A response that has come is taken, and the task goes on. *)
Lemma resume_inv t0 s r resp w : inv t0 s -> pc s <> Run -> aq_pop (ready_resp (hda s)) = (Some resp, r) ->
  inv t0 (resume r resp w s) /\ (left (resume r resp w s) + match pc s with First => 3 | Register => 2 | Recheck => 1 | _ => 0 end <= left s)%nat.
Proof.
  intros [Hd Hl Hp] Hne E. assert (Hw : waiting s) by (by destruct (pc s)). clear Hp. destruct Hw as (c & n & v & pl & k & ph & Et & Hph & _).
  destruct (popped _ _ _ Hd E) as [Hd' Hpop]. assert (Hph' : ph = Delivered /\ resp = codec (hda_verb c n v pl) /\ quiet (set_resp (awaiting_req (hda s)) r (hda s))).
  { destruct ph; cbn [in_phase] in Hph; [destruct Hph as [Hph _] | destruct Hph as [Hph _] |]; destruct (Hpop _ _ _ _ _ Hph) as [Eo Hh]; try done.
    by injection Eo as ->. }
  destruct Hph' as (-> & -> & Hq). rewrite Et in Hl. cbn [ask] in Hl. pose proof (phase_weight _ _ _ Hph) as Hwt. cbn in Hwt.
  unfold resume, left. rewrite Et. cbn [task pc hda queued log size]. split; [by split |].
  destruct (pc s); try done; rewrite Hwt; cbn [size]; lia.
Qed.

(** Nothing there yet: the task goes on waiting. *)
Lemma nothing_there t0 s r : inv t0 s -> pc s <> Run -> aq_pop (ready_resp (hda s)) = (None, r) ->
  let h' := set_resp (awaiting_req (hda s)) r (hda s) in
  driver_ok h' /\ exists c n v pl k ph, task s = Request c n v pl k /\ in_phase ph (hda_verb c n v pl) h' /\ ph <> Delivered /\
    guarded ph (pc s) (waker s) (queued s).
Proof.
  intros [Hd Hl Hp] Hne E. assert (Hw : waiting s) by (by destruct (pc s)). clear Hp. destruct Hw as (c & n & v & pl & k & ph & Et & Hph & Hg).
  destruct (popped _ _ _ Hd E) as [Hd' Hpop]. split; [done |]. exists c, n, v, pl, k, ph. split; [done |].
  destruct ph; cbn [in_phase] in *; [destruct Hph as [Hph Hx] | destruct Hph as [Hph Hx] |]; destruct (Hpop _ _ _ _ _ Hph) as [Eo Hh]; done.
Qed.

Lemma step_inv t0 s s' : inv t0 s -> step s s' -> inv t0 s' /\ (left s' < left s)%nat.
Proof.
  intros Hi Hs. destruct Hs as [s s' E | s h E | s n h Hra E].
  - destruct s as [h t p w q l]. unfold task_step in E. destruct p.
    + pose proof Hi as [Hd Hl Hq]. cbn in Hd, Hl, Hq. destruct t as [| |x k|c n v pl k]; [done | done | |].
      * injection E as <-. cbn [ask] in Hl. destruct (ask k) as [lk bk] eqn:Ek. cbn in Hl. unfold left. cbn. split; [| lia].
        split; cbn; [done | rewrite Ek; cbn; by rewrite <- app_assoc | done].
      * destruct (request_sent c n v pl h Hd Hq) as (h' & Er & Hd' & Hph). rewrite Er in E. injection E as <-.
        split; [split; cbn [pc hda task log]; [done | done |]; exists c, n, v, pl, k, Sent; split; [done |]; split; [done |]; intros [? | ?]; done |].
        unfold left. cbn [pc hda task queued]. rewrite (phase_weight _ _ _ Hph). cbn [size]. lia.
    + destruct (aq_pop (ready_resp h)) as [[resp|] r] eqn:Ep; injection E as <-.
      * destruct (resume_inv t0 _ r resp w Hi ltac:(done) Ep) as [? Hm]. cbn [pc] in Hm. split; [done | lia].
      * destruct (nothing_there t0 _ r Hi ltac:(done) Ep) as (Hd & c & n & v & pl & k & ph & Et & Hph & Hnd & Hg). destruct Hi as [_ Hl _].
        split; [split; cbn; [done | done |]; exists c, n, v, pl, k, ph; split; [done |]; split; [done |]; destruct ph; [| | done]; cbn; intros [? | ?]; done |].
        unfold left, weight. cbn [pc hda task queued mmio set_resp]. lia.
    + injection E as <-. destruct Hi as [Hd Hl (c & n & v & pl & k & ph & Et & Hph & Hg)]. split; [| unfold left; cbn [pc hda task queued]; lia].
      split; [done | done |]. exists c, n, v, pl, k, ph. split; [done |]. split; [done |]. by destruct ph.
    + destruct (aq_pop (ready_resp h)) as [[resp|] r] eqn:Ep; injection E as <-.
      * destruct (resume_inv t0 _ r resp false Hi ltac:(done) Ep) as [? Hm]. cbn [pc] in Hm. split; [done | lia].
      * destruct (nothing_there t0 _ r Hi ltac:(done) Ep) as (Hd & c & n & v & pl & k & ph & Et & Hph & Hnd & Hg). destruct Hi as [_ Hl _].
        split; [split; cbn; [done | done |]; exists c, n, v, pl, k, ph; split; [done |]; split; [done |]; destruct ph; [| | done]; cbn in *; intros _; apply Hg; by left |].
        unfold left, weight. cbn [pc hda task queued mmio set_resp]. lia.
    + destruct q; [| done]. injection E as <-. destruct Hi as [Hd Hl (c & n & v & pl & k & ph & Et & Hph & Hg)].
      split; [| unfold left; cbn [pc hda task queued bit]; lia].
      split; [done | done |]. exists c, n, v, pl, k, ph. split; [done |]. split; [done |]. destruct ph; cbn; [intros [? | ?] | intros [? | ?] |]; done.
  - pose proof Hi as [Hd Hl Hp]. destruct (decide (pc s = Run)) as [Er | Hne].
    { rewrite Er in Hp. destruct Hp as [_ _ Hc _ _]. by rewrite serve_none in E. }
    assert (Hw : waiting s) by (by destruct (pc s)). clear Hp. destruct Hw as (c & n & v & pl & k & ph & Et & Hph & Hg).
    destruct (serve_phase _ _ _ _ Hd Hph E) as (-> & Hd' & Hph'). split.
    + split; cbn [hda task log pc]; [done | done |]. assert (waiting (mkState h (task s) (pc s) (waker s) (queued s) (log s))) by (exists c, n, v, pl, k, Answered; done).
      by destruct (pc s).
    + unfold left. cbn [pc hda task queued]. rewrite (phase_weight _ _ _ Hph), (phase_weight _ _ _ Hph'). destruct (pc s); try done; lia.
  - pose proof Hi as [Hd Hl Hp]. destruct (decide (pc s = Run)) as [Er | Hne].
    { rewrite Er in Hp. destruct Hp as [_ _ _ _ Hr]. congruence. }
    assert (Hw : waiting s) by (by destruct (pc s)). clear Hp. destruct Hw as (c & n' & v & pl & k & ph & Et & Hph & Hg).
    pose proof (raised_phase _ _ _ Hph Hra) as ->. destruct (interrupt_delivers _ _ Hd Hph) as (h' & E' & Hd' & Hph').
    rewrite E' in E. injection E as <- <-. cbn [wake]. split.
    + split; cbn [hda task log pc]; [done | done |].
      assert (waiting (mkState h' (task s) (pc s) false (queued s || waker s) (log s))).
      { exists c, n', v, pl, k, Delivered. split; [done |]. split; [done |]. cbn. intros Hpk. rewrite Hg by (by right). apply orb_true_r. }
      by destruct (pc s).
    + unfold left. cbn [pc hda task queued]. rewrite (phase_weight _ _ _ Hph), (phase_weight _ _ _ Hph').
      destruct (pc s); try done; destruct (queued s), (waker s); cbn; lia.
Qed.

Lemma inv_steps t0 n : forall s s', inv t0 s -> nsteps step n s s' -> inv t0 s' /\ (n + left s' <= left s)%nat.
Proof.
  induction n as [|n IH]; intros s s' Hi Hs; inversion Hs as [|? ? y ? H1 H2]; subst; [split; [done | lia] |].
  destruct (step_inv t0 s y Hi H1) as [Hy Hl]. destruct (IH y s' Hy H2) as [? ?]. split; [done | lia].
Qed.

(** While the executor's thread polls, a task that has not ended can always go
    on, or the controller or its interrupt can. *)
Lemma inv_progress t0 s : inv t0 s -> snd (ask t0) = true -> pc s = Run /\ task s = Finish \/ exists s', step s s'.
Proof.
  intros [Hd Hl Hp] Hok. rewrite Hl in Hok. destruct s as [h t p w q l]. cbn in *. destruct p.
  - destruct t as [| |x k|c n v pl k]; [by left | done | |]; right.
    + eexists. by apply step_task.
    + destruct (request_sent c n v pl h Hd Hp) as (h' & Er & _). eexists. apply step_task. cbn. by rewrite Er.
  - right. destruct (aq_pop (ready_resp h)) as [[resp|] r] eqn:E; eexists; apply step_task; cbn; by rewrite E.
  - right. eexists. by apply step_task.
  - right. destruct (aq_pop (ready_resp h)) as [[resp|] r] eqn:E; eexists; apply step_task; cbn; by rewrite E.
  - right. destruct Hp as (c & n & v & pl & k & ph & Et & Hph & Hg). cbn in *. destruct ph.
    + destruct (serve_sent _ _ Hd Hph) as (h' & E & _). eexists. by apply step_serve.
    + destruct (interrupt_delivers _ _ Hd Hph) as (h' & E & _). eexists. apply step_interrupt; [| exact E]. by destruct Hph as [[_ _ _ _ ?] _].
    + cbn in Hg. rewrite Hg by done. eexists. by apply step_task.
Qed.

(** Through the rings, the interrupts and the queues a task gets the codec's
    answers, one for one: every run from an idle driver ends within [20] steps
    for each message and request, wherever interrupts fall between its steps,
    and when it ends the task has reported what it would if the codec answered
    at once.  The thread that polls the task does not sleep here. *)
Theorem task_answered h t0 : driver_ok h -> quiet h -> snd (ask t0) = true ->
  (forall n s, nsteps step n (started h t0) s -> (n <= 20 * size t0)%nat) /\
  (forall s, rtc step (started h t0) s -> (forall s', ~ step s s') -> pc s = Run /\ task s = Finish /\ log s = fst (ask t0) /\ quiet (hda s)).
Proof.
  intros Hd Hq Hok. assert (Hi : inv t0 (started h t0)) by (split; cbn; [done | by destruct (ask t0) | done]).
  split.
  - intros n s Hs. destruct (inv_steps t0 n _ s Hi Hs) as [_ Hl]. unfold left, started in Hl. cbn in Hl. lia.
  - intros s [n Hs]%rtc_nsteps Hend. destruct (inv_steps t0 n _ s Hi Hs) as [Hi' _].
    destruct (inv_progress t0 s Hi' Hok) as [[Ep Et] | [s' Hs']]; [| by destruct (Hend s')]. destruct Hi' as [_ Hl Hp]. rewrite Ep in Hp.
    rewrite Et in Hl. cbn in Hl. rewrite app_nil_r in Hl. rewrite Hl. done.
Qed.

(** ** The graph of the codec *)
Definition param (node p : Z) : Z := raw_response (codec (hda_verb 0 node 0xF00 p)).
Definition first_node (node : Z) : Z := param node 4 / 2 ^ 16 mod 256.
Definition node_count (node : Z) : Z := param node 4 mod 256.
Definition nodes_below (node : Z) : list Z := seqZ (first_node node) (node_count node).

Definition widget_report (wg : Z) : list Msg :=
  Widget wg (param wg 9 / 2 ^ 20 mod 16) ::
  if 0 <? param wg 14 mod 64 then [ConnectionEntry (raw_response (codec (hda_verb 0 wg 0xF02 0)) mod 256)] else [].
Definition group_report (fg : Z) : list Msg :=
  FuncGroup fg (param fg 5 mod 256) :: Widgets (first_node fg) (node_count fg) :: (nodes_below fg ≫= widget_report).
Definition report : list Msg :=
  Codec (param 0 0 / 2 ^ 16 mod 2 ^ 16) (param 0 0 mod 2 ^ 16) :: FuncGroups (first_node 0) (node_count 0) :: (nodes_below 0 ≫= group_report).

(** The numbers of the nodes are bytes. *)
Definition graph_fits : Prop :=
  first_node 0 + node_count 0 < 256 /\ forall fg, fg ∈ nodes_below 0 -> first_node fg + node_count fg < 256.

Lemma start_of_first n : start_of (codec (hda_verb 0 n 0xF00 4)) = first_node n.
Proof. unfold start_of, first_node, param, wrap_u. by rewrite Z.shiftr_div_pow2 by lia. Qed.

Lemma ask_widgets nodes : forall k, ask (widgets_loop 0 nodes k) = ((nodes ≫= widget_report) ++ fst (ask k), snd (ask k)).
Proof.
  induction nodes as [|wg nodes IH]; intros k; [by cbn; destruct (ask k) |]. cbn [widgets_loop ask].
  rewrite Z.shiftr_div_pow2 by lia. change 15 with (2 ^ 4 - 1). change 63 with (2 ^ 6 - 1).
  rewrite !land_ones_mod by lia. change (2 ^ 4) with 16. change (2 ^ 6) with 64. rewrite bind_cons. unfold widget_report at 1, param.
  destruct (0 <? _); cbn [ask]; rewrite IH; done.
Qed.

Lemma ask_groups nodes : forall k, (forall fg, fg ∈ nodes -> first_node fg + node_count fg < 256) ->
  ask (groups_loop 0 nodes k) = ((nodes ≫= group_report) ++ fst (ask k), snd (ask k)).
Proof.
  induction nodes as [|fg nodes IH]; intros k Hf; [by cbn; destruct (ask k) |]. cbn [groups_loop ask]. rewrite start_of_first.
  unfold total_of, node_range, wrap_u. change (raw_response (codec (hda_verb 0 fg 0xF00 4)) mod 2 ^ 8) with (node_count fg).
  rewrite (proj2 (Z.ltb_lt _ _)) by (apply Hf; set_solver). rewrite ask_widgets, IH by (intros; apply Hf; set_solver).
  rewrite bind_cons. unfold group_report at 2. cbn. by rewrite <- !app_assoc.
Qed.

Lemma ask_discovery : graph_fits -> ask hda_discovery = (report, true).
Proof.
  intros [H0 Hf]. unfold hda_discovery. cbn [ask]. rewrite start_of_first. unfold total_of, node_range, wrap_u.
  change (raw_response (codec (hda_verb 0 0 0xF00 4)) mod 2 ^ 8) with (node_count 0).
  rewrite (proj2 (Z.ltb_lt _ _)) by done. rewrite (ask_groups _ _ Hf). cbn [ask fst snd]. rewrite app_nil_r, Z.shiftr_div_pow2 by lia. done.
Qed.

(** ** With the executor's sleep *)

(** The thread tests and sleeps only while the task is parked. *)
Definition ex_inv (t0 : Disc) (x : State M Q R * Ex) : Prop := inv t0 (fst x) /\ (snd x <> Polls -> pc (fst x) = Parked).
Definition ex_left (x : State M Q R * Ex) : nat :=
  3 * left (fst x) + match snd x with Polls => 2 | Tested => 1 | Asleep => 0 end.

Lemma ex_step_inv t0 x x' : ex_inv t0 x -> ex_step x x' -> ex_inv t0 x' /\ (ex_left x' < ex_left x)%nat.
Proof.
  intros [Hi He] Hs. unfold ex_inv, ex_left. destruct Hs as [s s' E | s h e E | s n h e Hra E | s Ep Eq | s]; cbn [fst snd] in *.
  - destruct (step_inv t0 s s' Hi (step_task s s' E)). split; [done | lia].
  - destruct (step_inv t0 s _ Hi (step_serve s h E)). split; [done | lia].
  - destruct (step_inv t0 s _ Hi (step_interrupt s n h Hra E)) as [Hi' Hl]. split.
    + split; [done |]. intros Hne. assert (Hp : pc (wake n h s) = pc s) by (by destruct n). rewrite Hp. apply He.
      intros ->. apply Hne. unfold woken. by destruct (_ && _).
    + unfold woken. destruct (_ && _), e; cbn [wake_executor]; lia.
  - split; [done | lia].
  - split; [| lia]. split; [done |]. intros _. by apply He.
Qed.

Lemma ex_steps_bound t0 n : forall x x', ex_inv t0 x -> nsteps ex_step n x x' -> (n + ex_left x' <= ex_left x)%nat.
Proof.
  induction n as [|n IH]; intros x x' Hi Hs; inversion Hs as [|? ? y ? H1 H2]; subst; [lia |].
  destruct (ex_step_inv t0 x y Hi H1) as [Hy Hl]. specialize (IH y x' Hy H2). lia.
Qed.

Lemma ex_reachable t0 x x' : rtc (fun x y => ex_step x y \/ other_wake x y) x x' -> ex_inv t0 x -> ex_inv t0 x'.
Proof.
  induction 1 as [x | x y x' [Hs | Hs] _ IH]; intros Hi; [done | apply IH; by eapply ex_step_inv |]. apply IH. destruct Hs as [s e].
  destruct Hi as [Hi He]. split; [done |]. cbn [fst snd] in *. intros Hne. apply He. intros ->. done.
Qed.

(** A run stops when the task has ended, or with the thread asleep although
    the task is queued. *)
Lemma ex_progress t0 x : ex_inv t0 x -> snd (ask t0) = true ->
  pc (fst x) = Run /\ task (fst x) = Finish \/ (snd x = Asleep /\ pc (fst x) = Parked /\ queued (fst x) = true) \/ exists x', ex_step x x'.
Proof.
  intros [Hi He] Hok. destruct x as [s e]. cbn [fst snd] in *.
  destruct (inv_progress t0 s Hi Hok) as [? | [s' Hs]]; [by left |]. right.
  destruct Hs as [s s' E | s h E | s n h Hra E]; [| right; eexists; by eapply ex_serve | right; eexists; by eapply ex_interrupt].
  destruct e; [right; eexists; by apply ex_task | right; eexists; by apply ex_block |]. left. split; [done |].
  pose proof (He ltac:(done)) as Ep. split; [done |]. destruct s as [h t p w q l]. cbn in *. subst p. cbn in E. by destruct q.
Qed.

(** [C40] The discovery of the codec reports its graph.  From an idle driver, and
    wherever the controller's answers, its interrupts and the sleep of the
    executor's thread fall between the steps of the task, every run is of bounded
    length; in every state what the task has reported is the beginning of the
    function groups, widgets and connections that the codec's parameters
    describe, in order, so that no answer is lost or mistaken for another; and
    where a run can go no further the task has ended, has reported all of them
    and has left the driver idle, or the thread sleeps with the task queued: the
    wake-up fell between its test of the queue and its [block_task] and was
    lost.  From there the task goes on with the next wake-up of that thread. *)
Theorem discovery_exact h : driver_ok h -> quiet h -> graph_fits ->
  (forall n x, nsteps ex_step n (started h hda_discovery, Polls) x -> (n <= 60 * size hda_discovery + 2)%nat) /\
  forall s e, rtc (fun x y => ex_step x y \/ other_wake x y) (started h hda_discovery, Polls) (s, e) ->
    log s `prefix_of` report /\
    ((forall x, ~ ex_step (s, e) x) ->
      pc s = Run /\ task s = Finish /\ log s = report /\ quiet (hda s) \/
      e = Asleep /\ pc s = Parked /\ queued s = true /\ exists s', task_step s = Ret (Some s') /\ ex_step (s, wake_executor e) (s', Polls)).
Proof.
  intros Hd Hq Hg. pose proof (ask_discovery Hg) as E.
  assert (Hi : ex_inv hda_discovery (started h hda_discovery, Polls)).
  { split; [| done]. split; [done | | done]. cbn [fst started task log]. by destruct (ask hda_discovery). }
  split.
  - intros n x Hs. pose proof (ex_steps_bound _ n _ x Hi Hs). unfold ex_left, left, started in *. cbn [fst snd pc task queued bit] in *. lia.
  - intros s e Hr. pose proof (ex_reachable _ _ _ Hr Hi) as [Hi' He]. cbn [fst snd] in *. pose proof Hi' as [_ Hl Hp]. rewrite E in Hl. injection Hl as Hl Hb.
    split; [rewrite Hl; by eexists |]. intros Hend.
    destruct (ex_progress hda_discovery (s, e) (conj Hi' He)) as [[Ep Et] | [(Ee & Ep & Eq) | [x Hx]]]; [by rewrite E | | | by destruct (Hend x)].
    + left. cbn [fst] in *. rewrite Ep in Hp. rewrite Et in Hl. cbn in Hl. rewrite app_nil_r in Hl. done.
    + right. cbn [fst snd] in *. subst e. split; [done |]. split; [done |]. split; [done |]. destruct s as [h1 t1 p1 w1 q1 l1]. cbn in Ep, Eq. subst p1 q1.
      eexists. split; [reflexivity |]. by apply ex_task.
Qed.
End Controller.

(** ** A controller with a small codec *)
Module CodecWitness.
Import ListQueue.
Definition ctl_of (m : Ctl) : Ctl := mkCtl (crp m mod 256) (cwp m mod 256) (rwp m mod 256) (raised m).
Definition ctl_reg (r : Z) (m : Ctl) : Z :=
  if r =? RIRBWP then rwp m mod 256 else if r =? RIRBSTS then (if raised m then 1 else 0)
  else if r =? INTSTS then (if raised m then 0xC0000000 else 0) else 0.
#[local] Instance ctl_mmio : Mmio Ctl := {|
  read_reg w r m := (wrap_u w (ctl_reg r m), m);
  write_reg w r v m :=
    if r =? CORBWP then mkCtl (crp m) v (rwp m) (raised m) else if r =? RIRBSTS then mkCtl (crp m) (cwp m) (rwp m) false else m
|}.
#[local] Instance ctl_laws : CodecLaws Ctl ctl_mmio.
Proof.
  refine {| ctl := ctl_of; answered m := mkCtl (crp m + 1) (cwp m) (rwp m + 1) true |}; cbn [read_reg write_reg ctl_mmio fst snd].
  - intros m. cbn. split_and!; apply Z.mod_pos_bound; lia.
  - done.
  - intros m. change (ctl_reg RIRBWP m) with (rwp m mod 256). pose proof (Z.mod_pos_bound (rwp m) 256 ltac:(lia)).
    rewrite wrap_u_small by lia. change 255 with (2 ^ 8 - 1). rewrite land_ones_mod by lia. by apply Z.mod_small.
  - intros [? ? ? []]; done.
  - intros [? ? ? []] E; done.
  - intros v m Hv. unfold ctl_of. cbn. by rewrite (Z.mod_small v).
  - done.
  - intros w r v m Hr. unfold CORBWP, RIRBSTS. by rewrite !(proj2 (Z.eqb_neq _ _)) by lia.
  - intros m. unfold ctl_of. cbn. by rewrite !Zplus_mod_idemp_l.
Defined.

Lemma ctl_regs : mmio_ok (M := Ctl).
Proof. intros w r m Hw. apply wrap_u_range. lia. Qed.
Lemma ctl_inputs : few_inputs (M := Ctl).
Proof. intros m. vm_compute. reflexivity. Qed.

(** One function group, node 1, with two widgets: a converter, and a pin
    connected to it. *)
Definition small_codec (verb : Z) : RirbResponseEntry :=
  let node := verb / 2 ^ 20 mod 256 in
  let p := verb mod 256 in
  let raw := if verb / 2 ^ 8 mod 2 ^ 12 =? 0xF02 then 2 else
    if p =? 0 then 0x1AF40012 else
    if p =? 4 then (if node =? 0 then 0x10001 else 0x20002) else
    if p =? 5 then 1 else
    if p =? 9 then (if node =? 2 then 0 else 0x400000) else
    if (p =? 14) && (node =? 3) then 1 else 0 in
  {| raw_response := raw; metadata := 0 |}.

Definition idle : Hda Ctl (Z * list Z) (Z * list RirbResponseEntry) :=
  mkHda (mkCtl 0 0 0 false) corb_new rirb_new (256, []) (256, []) {| samples := seqZ 0 5000; cursor := 0 |} (replicate 4096 (0, 0)).

Lemma idle_ok : driver_ok idle.
Proof.
  split; [| done | split; vm_compute; discriminate | apply Z.ltb_lt; by vm_compute].
  split; try split; try (vm_compute; intuition congruence). apply Nat.leb_le. by vm_compute.
Qed.

Lemma small_codec_fits : graph_fits small_codec.
Proof.
  split; [vm_compute; reflexivity |]. intros fg Hfg. assert (fg = 1) as ->; [| vm_compute; reflexivity].
  revert Hfg. change (nodes_below small_codec 0) with [1]. by rewrite list_elem_of_singleton.
Qed.

Lemma discovery_exact_witness :
  report small_codec = [Codec 0x1AF4 0x12; FuncGroups 1 1; FuncGroup 1 1; Widgets 2 2; Widget 2 0; Widget 3 4; ConnectionEntry 2] /\
  (forall n x, nsteps (ex_step small_codec) n (started idle hda_discovery, Polls) x -> (n <= 60 * size small_codec hda_discovery + 2)%nat) /\
  forall s e, rtc (fun x y => ex_step small_codec x y \/ other_wake x y) (started idle hda_discovery, Polls) (s, e) ->
    log s `prefix_of` report small_codec /\
    ((forall x, ~ ex_step small_codec (s, e) x) ->
      pc s = Run /\ task s = Finish /\ log s = report small_codec /\ quiet (hda s) \/
      e = Asleep /\ pc s = Parked /\ queued s = true /\ exists s', task_step s = Ret (Some s') /\ ex_step small_codec (s, wake_executor e) (s', Polls)).
Proof.
  split; [vm_compute; reflexivity |]. apply (discovery_exact small_codec ctl_regs ctl_inputs idle idle_ok); [by split | exact small_codec_fits].
Defined.
End CodecWitness.
