(* ===== verification/Executor.v ===== *)
(** * The asynchronous executor

    [kernel/src/task/executor.rs] and [task/mod.rs]: the queue of tasks to poll,
    the wakers, and the loop that polls until the queue is empty and then
    blocks its thread; the streams of scancodes and console characters
    ([task/keyboard.rs], [task/tty.rs]) and the tasks that read them
    ([console.rs], [main.rs]).  The executor is a machine of small steps, one
    per access to shared state; keys and characters printed by other threads
    arrive between any two of them. *)
From S2P Require Import Prelude Queue Console.

(** A task's waker, or the one of [now_or_never], which does nothing. *)
Inductive Waker := TaskWaker (task_id : Z) | NoopWaker.

(** The futures: [hda_qemu_setup], which never waits; [handle_keyboard] before
    and after its first poll; [listen_console_buffer]. *)
Inductive Future := HdaSetup | KeyboardNew | KeyboardLoop | ConsoleLoop.

(** What the tasks do with what they receive. *)
Class TaskBodies (W : Type) := {
  on_setup : W -> outcome W;
  on_scancode : Z -> W -> outcome W;
  on_char : ScreenChar -> W -> outcome W;
  on_flush : W -> outcome W
}.

(** Where the executor's thread is: [run_ready_tasks] before its pop; in a
    stream's [poll_next] before the first pop, before [register], before the
    second pop, for the keyboard, for [next().await] of the console and for its
    [now_or_never]; in [sleep_if_idle] before its test and before
    [block_task]. *)
Inductive Pc :=
| Pop
| SetupPoll (i : Z)
| KeyFirst (i : Z) | KeyNext (i : Z) | KeyRegister (i : Z) | KeyRecheck (i : Z)
| CharNext (i : Z) | CharRegister (i : Z) | CharRecheck (i : Z)
| FlushNext (i : Z) | FlushRegister (i : Z) | FlushRecheck (i : Z)
| IdleTest | Blocking.
#[export] Instance pc_eq : EqDecision Pc.
Proof. solve_decision. Defined.

Section Executor.
Context {Q C : Type} {AQ : ArrayQueue Z Q} {AC : ArrayQueue ScreenChar C} {W : Type} {TB : TaskBodies W}.

(** The executor, the two streams' queues and wakers, whether thread 4 is
    blocked, and the rest of the machine. *)
Record Exec := mkExec {
  tasks : gmap Z Future; task_queue : Q; waker_cache : gset Z; next_id : Z;
  scancode_queue : option Q; key_waker : option Waker;
  console_queue : C; console_waker : option Waker;
  pc : Pc; asleep : bool; world : W
}.
Implicit Type e : Exec.

Definition set_queue (q : Q) e := mkExec (tasks e) q (waker_cache e) (next_id e) (scancode_queue e) (key_waker e) (console_queue e) (console_waker e) (pc e) (asleep e) (world e).
Definition set_tasks (t : gmap Z Future) (c : gset Z) e := mkExec t (task_queue e) c (next_id e) (scancode_queue e) (key_waker e) (console_queue e) (console_waker e) (pc e) (asleep e) (world e).
Definition set_keys (q : option Q) (w : option Waker) e := mkExec (tasks e) (task_queue e) (waker_cache e) (next_id e) q w (console_queue e) (console_waker e) (pc e) (asleep e) (world e).
Definition set_chars (q : C) (w : option Waker) e := mkExec (tasks e) (task_queue e) (waker_cache e) (next_id e) (scancode_queue e) (key_waker e) q w (pc e) (asleep e) (world e).
Definition set_pc (p : Pc) e := mkExec (tasks e) (task_queue e) (waker_cache e) (next_id e) (scancode_queue e) (key_waker e) (console_queue e) (console_waker e) p (asleep e) (world e).
Definition set_asleep (b : bool) e := mkExec (tasks e) (task_queue e) (waker_cache e) (next_id e) (scancode_queue e) (key_waker e) (console_queue e) (console_waker e) (pc e) b (world e).
Definition set_world (w : W) e := mkExec (tasks e) (task_queue e) (waker_cache e) (next_id e) (scancode_queue e) (key_waker e) (console_queue e) (console_waker e) (pc e) (asleep e) w.

(** ** Spawning *)

(** [Executor::new], with the console's queue of [init_console_char_queue]. *)
Definition executor_new (w : W) : Exec := mkExec ∅ (aq_new 100) ∅ 0 None None (aq_new (80 * 40)) None Pop false w.

(** [Task::new] takes the next number. *)
Definition task_new e : Z * Exec :=
  (next_id e, mkExec (tasks e) (task_queue e) (waker_cache e) (wrap_u 64 (next_id e + 1)) (scancode_queue e) (key_waker e)
     (console_queue e) (console_waker e) (pc e) (asleep e) (world e)).

Definition spawn (f : Future) e : outcome Exec :=
  let '(i, e) := task_new e in
  match tasks e !! i with
  | Some _ => Panic
  | None =>
      let e := set_tasks (<[i := f]> (tasks e)) (waker_cache e) e in
      let '(q, ok) := aq_push i (task_queue e) in
      let! _ := ensure ok in
      Ret (set_queue q e)
  end.

Definition async_executor_task (w : W) : outcome Exec :=
  let! e := spawn HdaSetup (executor_new w) in
  let! e := spawn KeyboardNew e in
  spawn ConsoleLoop e.

(** ** Waking *)

(** [unblock_task(4)] makes the thread ready if it is blocked. *)
Definition wake_executor e : Exec := set_asleep false e.
Definition wake_task (i : Z) e : outcome Exec :=
  let '(q, ok) := aq_push i (task_queue e) in
  let! _ := ensure ok in
  Ret (wake_executor (set_queue q e)).

(** What [AtomicWaker::wake] does with the waker it has taken. *)
Definition wake_with (w : option Waker) e : outcome Exec :=
  match w with Some (TaskWaker i) => wake_task i e | Some NoopWaker | None => Ret e end.

(** [write_byte] and [write_string] of [task/tty.rs]. *)
Definition write_byte (byte : Z) e : outcome Exec :=
  let c := {| ascii_character := byte; color_code := color_code_new Yellow Black |} in
  wake_with (console_waker e) (set_chars (aq_force_push c (console_queue e)) None e).
Definition printable (byte : Z) : bool := ((32 <=? byte) && (byte <=? 126)) || (byte =? 10).
Fixpoint write_string (s : list Z) e : outcome Exec :=
  match s with
  | [] => Ret e
  | byte :: s => let! e := write_byte (if printable byte then byte else 254) e in write_string s e
  end.

(** [add_scancode]: a full queue drops the key and prints a warning. *)
Definition add_scancode (warning : list Z) (scancode : Z) e : outcome Exec :=
  match scancode_queue e with
  | Some q =>
      let '(q, ok) := aq_push scancode q in
      if ok then wake_with (key_waker e) (set_keys (Some q) None e)
      else write_string warning (set_keys (Some q) (key_waker e) e)
  | None => Ret e
  end.

(** ** The steps of the executor's thread *)
Definition first_poll (i : Z) (f : Future) : Pc :=
  match f with HdaSetup => SetupPoll i | KeyboardNew => KeyFirst i | KeyboardLoop => KeyNext i | ConsoleLoop => CharNext i end.

(** [Poll::Ready(())]: the task is removed. *)
Definition task_done (i : Z) e : Exec := set_pc Pop (set_tasks (delete i (tasks e)) (waker_cache e ∖ {[i]}) e).

Definition key_received (i code : Z) e : outcome Exec :=
  let! w := on_scancode code (world e) in Ret (set_pc (KeyNext i) (set_world w e)).
Definition char_received (i : Z) (c : ScreenChar) e : outcome Exec :=
  let! w := on_char c (world e) in Ret (set_pc (FlushNext i) (set_world w e)).

(** [run_ready_tasks]: the next task, whose future is polled from where it
    waits; none is left. *)
Definition run_ready_tasks e : outcome Exec :=
  let '(o, q) := aq_pop (task_queue e) in
  let e := set_queue q e in
  match o with
  | None => Ret (set_pc IdleTest e)
  | Some i =>
      match tasks e !! i with
      | None => Ret e
      | Some f => Ret (set_pc (first_poll i f) (set_tasks (tasks e) ({[i]} ∪ waker_cache e) e))
      end
  end.

Definition poll_setup (i : Z) e : outcome Exec := let! w := on_setup (world e) in Ret (task_done i (set_world w e)).

(** [ScancodeStream::new], once. *)
Definition scancode_stream_new (i : Z) e : outcome Exec :=
  match scancode_queue e with
  | Some _ => Panic
  | None => Ret (set_pc (KeyNext i) (set_tasks (<[i := KeyboardLoop]> (tasks e)) (waker_cache e) (set_keys (Some (aq_new 100)) (key_waker e) e)))
  end.

(** [ScancodeStream::poll_next]: the fast path, then [register], then the
    second look at the queue. *)
Definition key_next (i : Z) e : outcome Exec :=
  let! q := unwrap (scancode_queue e) in
  let '(o, q) := aq_pop q in
  let e := set_keys (Some q) (key_waker e) e in
  match o with Some code => key_received i code e | None => Ret (set_pc (KeyRegister i) e) end.
Definition key_register (i : Z) e : outcome Exec :=
  Ret (set_pc (KeyRecheck i) (set_keys (scancode_queue e) (Some (TaskWaker i)) e)).
Definition key_recheck (i : Z) e : outcome Exec :=
  let! q := unwrap (scancode_queue e) in
  let '(o, q) := aq_pop q in
  match o with
  | Some code => key_received i code (set_keys (Some q) None e)
  | None => Ret (set_pc Pop (set_keys (Some q) (key_waker e) e))
  end.

(** [ConsoleStream::poll_next], likewise; with which waker and what comes after
    depends on the caller, [next().await] or [now_or_never]. *)
Definition console_next (i : Z) (empty : Pc) e : outcome Exec :=
  let '(o, q) := aq_pop (console_queue e) in
  let e := set_chars q (console_waker e) e in
  match o with Some c => char_received i c e | None => Ret (set_pc empty e) end.
Definition console_register (w : Waker) (then_ : Pc) e : outcome Exec :=
  Ret (set_pc then_ (set_chars (console_queue e) (Some w) e)).
Definition console_recheck (i : Z) (pending : Exec -> outcome Exec) e : outcome Exec :=
  let '(o, q) := aq_pop (console_queue e) in
  match o with
  | Some c => char_received i c (set_chars q None e)
  | None => pending (set_chars q (console_waker e) e)
  end.
(** The queue is flushed: wake the renderer and wait for the next character. *)
Definition flushed (i : Z) e : outcome Exec :=
  let! w := on_flush (world e) in Ret (set_pc (CharNext i) (set_world w e)).

Definition sleep_if_idle e : outcome Exec := Ret (set_pc (if aq_is_empty (task_queue e) then Blocking else Pop) e).
Definition sleep_block e : outcome Exec := Ret (set_pc Pop (set_asleep true e)).

(** One step of [Executor::run]. *)
Definition exec_step e : outcome Exec :=
  if asleep e then Ret e else
  match pc e with
  | Pop => run_ready_tasks e
  | SetupPoll i => poll_setup i e
  | KeyFirst i => scancode_stream_new i e
  | KeyNext i => key_next i e
  | KeyRegister i => key_register i e
  | KeyRecheck i => key_recheck i e
  | CharNext i => console_next i (CharRegister i) e
  | CharRegister i => console_register (TaskWaker i) (CharRecheck i) e
  | CharRecheck i => console_recheck i (fun e => Ret (set_pc Pop e)) e
  | FlushNext i => console_next i (FlushRegister i) e
  | FlushRegister i => console_register NoopWaker (FlushRecheck i) e
  | FlushRecheck i => console_recheck i (flushed i) e
  | IdleTest => sleep_if_idle e
  | Blocking => sleep_block e
  end.

Fixpoint exec_steps (n : nat) e : outcome Exec :=
  match n with O => Ret e | S n => let! e := exec_step e in exec_steps n e end.
End Executor.
Arguments Exec : clear implicits.

Ltac unfold_step H := unfold exec_step, run_ready_tasks, poll_setup, scancode_stream_new, key_next, key_register, key_recheck, console_next, console_register, console_recheck, flushed, sleep_if_idle, sleep_block in H.
Ltac unfold_step_goal := unfold exec_step, run_ready_tasks, poll_setup, scancode_stream_new, key_next, key_register, key_recheck, console_next, console_register, console_recheck, flushed, sleep_if_idle, sleep_block.

(** ** Nothing is left unattended *)

(** Where the executor is with respect to one stream. *)
Inductive Phase := Outside | Polling | Rechecking.
Definition key_phase (p : Pc) : Phase :=
  match p with KeyFirst _ | KeyNext _ | KeyRegister _ => Polling | KeyRecheck _ => Rechecking | _ => Outside end.
Definition char_phase (p : Pc) : Phase :=
  match p with
  | CharNext _ | CharRegister _ | FlushNext _ | FlushRegister _ | FlushRecheck _ => Polling
  | CharRecheck _ => Rechecking
  | _ => Outside
  end.

(** Task [i], whose stream holds [n] items, will see them: its number is in the
    queue, or it is being polled, or its waker is registered and there is
    nothing to see. *)
Definition attended (i : Z) (q : list Z) (ph : Phase) (w : option Waker) (n : nat) : Prop :=
  i ∈ q \/ match ph with
           | Outside => w = Some (TaskWaker i) /\ n = O
           | Polling => True
           | Rechecking => w = Some (TaskWaker i)
           end.

Lemma attended_mono i q q' ph w n : (forall x, x ∈ q -> x ∈ q') -> attended i q ph w n -> attended i q' ph w n.
Proof. intros H [Hq | Hp]; [left; by apply H | by right]. Qed.

Section Attended.
Context {Q C : Type} {AQ : ArrayQueue Z Q} {AL : ArrayQueueLaws Z Q AQ}
  {AC : ArrayQueue ScreenChar C} {CL : ArrayQueueLaws ScreenChar C AC} {W : Type} {TB : TaskBodies W}.
Implicit Type e : Exec Q C W.

Definition keys e : list Z := match scancode_queue e with Some q => aq_list q | None => [] end.
Definition chars e : list ScreenChar := aq_list (console_queue e).
Definition queued e : list Z := aq_list (task_queue e).

(** Tasks 0, 1 and 2 are the three that [async_executor_task] spawns. *)
Definition known_task e (i : Z) (f : Future) : Prop :=
  (i = 0 /\ f = HdaSetup) \/ (i = 1 /\ f = (if scancode_queue e then KeyboardLoop else KeyboardNew)) \/ (i = 2 /\ f = ConsoleLoop).
Definition pc_ok e : Prop :=
  match pc e with
  | SetupPoll i => i = 0
  | KeyFirst i => i = 1 /\ scancode_queue e = None
  | KeyNext i | KeyRegister i | KeyRecheck i => i = 1 /\ is_Some (scancode_queue e)
  | CharNext i | CharRegister i | CharRecheck i | FlushNext i | FlushRegister i | FlushRecheck i => i = 2
  | Pop | IdleTest | Blocking => True
  end.

Record exec_ok e : Prop := {
  xo_queue : aq_ok (task_queue e);
  xo_chars : aq_ok (console_queue e);
  xo_keys : forall q, scancode_queue e = Some q -> aq_ok q;
  xo_tasks : forall i f, tasks e !! i = Some f -> known_task e i f;
  xo_task1 : is_Some (tasks e !! 1);
  xo_task2 : is_Some (tasks e !! 2);
  xo_pc : pc_ok e;
  xo_key : attended 1 (queued e) (key_phase (pc e)) (key_waker e) (length (keys e));
  xo_char : attended 2 (queued e) (char_phase (pc e)) (console_waker e) (length (chars e))
}.

(** What waking with a waker leaves alone, and what it adds to the queue. *)
Lemma wake_with_inv w e e' :
  aq_ok (task_queue e) -> wake_with w e = Ret e' ->
  aq_ok (task_queue e') /\ (forall x, x ∈ queued e -> x ∈ queued e') /\
  (forall i, w = Some (TaskWaker i) -> i ∈ queued e' /\ asleep e' = false) /\
  (tasks e', scancode_queue e', console_queue e', key_waker e', console_waker e', pc e', world e') =
  (tasks e, scancode_queue e, console_queue e, key_waker e, console_waker e, pc e, world e) /\
  (asleep e' = true -> e' = e).
Proof.
  intros Hq E. destruct w as [[i|]|]; cbn [wake_with] in E; [| by injection E as <-..].
  unfold wake_task in E. pose proof (aq_push_law i (task_queue e) Hq) as Hp. destruct (aq_push i (task_queue e)) as [q ok].
  destruct Hp as (Hq' & _ & Hp). destruct ok; [| done]. cbn in E. injection E as <-.
  destruct (aq_len _ <? _); destruct Hp as [? Hl]; [| done]. unfold queued. cbn. rewrite Hl.
  split; [done |]. split; [set_solver |]. split; [intros j [= ->]; split; [set_solver | done] | done].
Qed.

(** The stream that has been woken is attended whatever it holds. *)
Lemma attended_woken i q q' ph w n n' :
  attended i q ph w n -> (forall x, x ∈ q -> x ∈ q') -> (w = Some (TaskWaker i) -> i ∈ q') -> attended i q' ph None n'.
Proof.
  intros [Hq | Hp] Hm Hw; [left; by apply Hm |]. destruct ph; [left; by apply Hw, Hp | by right | left; by apply Hw].
Qed.

Lemma console_byte_ok byte e e' :
  exec_ok e -> write_byte byte e = Ret e' ->
  exec_ok e' /\ (pc e', scancode_queue e') = (pc e, scancode_queue e) /\ (forall x, x ∈ queued e -> x ∈ queued e').
Proof.
  intros [] E. unfold write_byte in E. set (c := Build_ScreenChar _ _) in E. set (e1 := set_chars _ _ _) in E.
  destruct (wake_with_inv _ e1 e' xo_queue0 E) as (Hq & Hm & Hw & Erest & _). injection Erest as E1 E2 E3 E4 E5 E6 _.
  assert (Hc : aq_ok (console_queue e')) by (rewrite E3; apply aq_force_law, xo_chars0).
  split; [| by rewrite E6, E2]. split; unfold known_task, pc_ok, keys, chars in *; rewrite ?E1, ?E2, ?E4, ?E5, ?E6; try done.
  - by apply (attended_mono 1 (queued e)).
  - apply (attended_woken 2 (queued e) _ _ _ _ _ xo_char0 Hm). intros Ew. by apply Hw.
Qed.

Lemma write_string_ok s : forall e e',
  exec_ok e -> write_string s e = Ret e' -> exec_ok e' /\ (pc e', scancode_queue e') = (pc e, scancode_queue e).
Proof.
  induction s as [|x s IH]; intros e e' He E; cbn [write_string] in E; [by injection E as <- |]. run_inv E.
  destruct (console_byte_ok _ _ _ He E0) as (Hv & Ev & _). destruct (IH _ _ Hv E) as [H1 H2]. split; [done | congruence].
Qed.

Lemma add_scancode_ok warning code e e' :
  exec_ok e -> add_scancode warning code e = Ret e' -> exec_ok e' /\ pc e' = pc e.
Proof.
  intros He E. pose proof He as []. unfold add_scancode in E. destruct (scancode_queue e) as [q|] eqn:Eq; [| by injection E as <-].
  pose proof (aq_push_law code q (xo_keys0 q eq_refl)) as Hp. destruct (aq_push code q) as [q' ok]. destruct Hp as (Hq' & _ & Hp). destruct ok.
  - set (e1 := set_keys _ _ _) in E. destruct (wake_with_inv _ e1 e' xo_queue0 E) as (Hq & Hm & Hw & Erest & _).
    injection Erest as E1 E2 E3 E4 E5 E6 _. split; [| done].
    split; unfold known_task, pc_ok, keys, chars in *; rewrite ?E1, ?E2, ?E3, ?E4, ?E5, ?E6; rewrite Eq in *; try done.
    + by intros ? [= <-].
    + cbn. destruct (pc e); try done; destruct xo_pc0 as [? Hs]; by eauto || done.
    + apply (attended_woken 1 (queued e) _ _ _ _ _ xo_key0 Hm). intros Ew. by apply Hw.
    + by apply (attended_mono 2 (queued e)).
  - assert (Hl : aq_list q' = aq_list q) by (by destruct (aq_len q <? aq_capacity q); destruct Hp). set (e1 := set_keys _ _ _) in E.
    assert (H1 : exec_ok e1).
    { split; unfold known_task, pc_ok, keys in *; cbn; rewrite Eq in *; try done; [by intros ? [= <-] | | by rewrite Hl].
      destruct (pc e); try done; destruct xo_pc0 as [? Hs]; by eauto || done. }
    destruct (write_string_ok _ _ _ H1 E) as [H2 H3]. split; [done |]. by injection H3 as -> _.
Qed.
Lemma attended_pop i x l ph w n : attended i (x :: l) ph w n -> i <> x -> attended i l ph w n.
Proof. intros [[-> | Hl]%elem_of_cons | Hp] Hne; [done | by left | by right]. Qed.

Lemma pop_step_ok e e' : exec_ok e -> asleep e = false -> pc e = Pop -> exec_step e = Ret e' -> exec_ok e'.
Proof.
  intros [] Ha Ep E. unfold_step E. rewrite Ha, Ep in E. unfold queued in *. rewrite Ep in *.
  pose proof (aq_pop_law (task_queue e) xo_queue0) as Hp. destruct (aq_pop (task_queue e)) as [o q]. destruct Hp as (Hq & _ & Hp).
  destruct (aq_list (task_queue e)) as [|x l]; destruct Hp as [-> Hl].
  { injection E as <-. split; unfold queued; cbn; rewrite ?Hl; done. }
  cbn [tasks set_queue] in E. destruct (tasks e !! x) as [f|] eqn:Ex.
  - injection E as <-. destruct (xo_tasks0 x f Ex) as [[-> ->] | [[-> ->] | [-> ->]]]; [| destruct (scancode_queue e) eqn:Es |];
      split; unfold queued, pc_ok, known_task, keys, chars in *; cbn in *; rewrite ?Hl; try done;
      try (by rewrite Es); try (by right); try (by apply (attended_pop _ _ _ _ _ _ xo_key0)); by apply (attended_pop _ _ _ _ _ _ xo_char0).
  - injection E as <-. assert (1 <> x /\ 2 <> x) as [H1 H2].
    { split; intros <-; [destruct xo_task3 | destruct xo_task4]; congruence. }
    split; unfold queued, pc_ok, known_task, keys, chars in *; cbn in *; rewrite ?Hl, ?Ep; try done;
      [by apply (attended_pop _ _ _ _ _ _ xo_key0) | by apply (attended_pop _ _ _ _ _ _ xo_char0)].
Qed.
(** The executor in one stream only: the other is attended as before. *)
Ltac stream_step :=
  split; unfold queued, pc_ok, known_task, keys, chars, attended in *; cbn in *; try done; try (by right); try (by eauto).

Lemma key_step_ok e e' : exec_ok e -> asleep e = false -> key_phase (pc e) <> Outside -> exec_step e = Ret e' -> exec_ok e'.
Proof.
  intros [] Ha Ep E. unfold_step E. rewrite Ha in E. unfold pc_ok in xo_pc0. destruct (pc e) eqn:Epc; try done.
  - destruct xo_pc0 as [-> Es]. rewrite Es in E. injection E as <-. destruct (aq_new_law (AQ := AQ) 100 ltac:(lia)) as (Hn & _ & _).
    split; unfold queued, pc_ok, known_task, keys, chars in *; cbn in *; try done; try (by right).
    + by intros q [= <-].
    + intros i f Hi. rewrite lookup_insert_Some in Hi. destruct Hi as [[<- <-] | [Hne Hi]]; [by right; left |].
      destruct (xo_tasks0 i f Hi) as [? | [[-> _] | ?]]; [by left | done | by right; right].
    + rewrite lookup_insert_eq. by eauto.
    + by rewrite lookup_insert_ne.
  - destruct xo_pc0 as [-> [q Es]]. rewrite Es in E. cbn [unwrap obind] in E.
    pose proof (aq_pop_law q (xo_keys0 q Es)) as Hp. destruct (aq_pop q) as [[code|] q']; destruct Hp as (Hq & _ & _);
      [unfold key_received in E; run_inv E |]; injection E as <-; stream_step; try (by intros ? [= <-]); by rewrite Es in *.
  - destruct xo_pc0 as [-> [q Es]]. injection E as <-. stream_step.
  - destruct xo_pc0 as [-> [q Es]]. rewrite Es in E. cbn [unwrap obind] in E.
    pose proof (aq_pop_law q (xo_keys0 q Es)) as Hp. destruct (aq_pop q) as [[code|] q']; destruct Hp as (Hq & _ & Hp);
      [unfold key_received in E; run_inv E |]; injection E as <-.
    + stream_step; try (by intros ? [= <-]); by rewrite Es in *.
    + assert (Hl : aq_list q' = []) by (by destruct (aq_list q); destruct Hp). stream_step; [by intros ? [= <-] | by rewrite Es in * |].
      rewrite Hl. destruct xo_key0 as [?|?]; [by left | by right].
Qed.

Lemma char_step_ok e e' : exec_ok e -> asleep e = false -> char_phase (pc e) <> Outside -> exec_step e = Ret e' -> exec_ok e'.
Proof.
  intros [] Ha Ep E. unfold_step E. rewrite Ha in E. unfold pc_ok in xo_pc0.
  pose proof (aq_pop_law (console_queue e) xo_chars0) as Hp. destruct (aq_pop (console_queue e)) as [o q]. destruct Hp as (Hq & _ & Hp).
  destruct (pc e) eqn:Epc; try done; subst i;
    try (destruct o as [c|]; [unfold char_received in E; run_inv E | try run_inv E]); injection E as <-; stream_step.
  assert (aq_list q = []) as -> by (by destruct (aq_list (console_queue e)); destruct Hp).
  destruct xo_char0 as [?|?]; [by left | by right].
Qed.

Lemma exec_step_ok e e' : exec_ok e -> exec_step e = Ret e' -> exec_ok e'.
Proof.
  intros He E. destruct (asleep e) eqn:Ha; [unfold_step E; rewrite Ha in E; by injection E as <- |].
  destruct (pc e) eqn:Epc; try (by apply (pop_step_ok e e')); try (by apply (key_step_ok e e'); rewrite ?Epc);
    try (by apply (char_step_ok e e'); rewrite ?Epc).
  all: destruct He; unfold_step E; rewrite Ha, Epc in E.
  - run_inv E. injection E as <-. unfold pc_ok in xo_pc0. rewrite Epc in *. subst i.
    split; unfold queued, pc_ok, known_task, keys, chars in *; cbn in *; try done.
    + intros i f [_ Hi]%lookup_delete_Some. by apply xo_tasks0.
    + by rewrite lookup_delete_ne.
    + by rewrite lookup_delete_ne.
  - injection E as <-. rewrite Epc in *. destruct (aq_is_empty _); split; unfold queued, pc_ok, known_task, keys, chars in *; cbn in *; done.
  - injection E as <-. rewrite Epc in *. split; unfold queued, pc_ok, known_task, keys, chars in *; cbn in *; done.
Qed.
(** ** Reachable states *)

(** A step of the executor, a key, or text printed by another thread. *)
Inductive exec_event (e e' : Exec Q C W) : Prop :=
| executor_steps : exec_step e = Ret e' -> exec_event e e'
| key_arrives warning code : add_scancode warning code e = Ret e' -> exec_event e e'
| text_printed s : write_string s e = Ret e' -> exec_event e e'.

Lemma exec_event_ok e e' : exec_event e e' -> exec_ok e -> exec_ok e'.
Proof.
  intros [E | warning code E | s E] He; [by apply (exec_step_ok e) | by apply (add_scancode_ok warning code e) | by apply (write_string_ok s e)].
Qed.

Lemma push_room (i : Z) (q : Q) :
  aq_ok q -> Z.of_nat (length (aq_list q)) < aq_capacity q ->
  exists q', aq_push i q = (q', true) /\ aq_ok q' /\ aq_list q' = aq_list q ++ [i] /\ aq_capacity q' = aq_capacity q.
Proof.
  intros Hq Hl. pose proof (aq_push_law i q Hq) as Hp. destruct (aq_push i q) as [q' ok]. destruct (aq_len_law q Hq) as [El _].
  destruct Hp as (Hq' & Hc & Hp). rewrite (proj2 (Z.ltb_lt _ _)) in Hp by lia. destruct Hp as [-> Hp]. by exists q'.
Qed.

Lemma spawn_ret f e :
  tasks e !! next_id e = None -> aq_ok (task_queue e) -> Z.of_nat (length (queued e)) < aq_capacity (task_queue e) ->
  exists q, spawn f e = Ret (mkExec (<[next_id e := f]> (tasks e)) q (waker_cache e) (wrap_u 64 (next_id e + 1)) (scancode_queue e)
      (key_waker e) (console_queue e) (console_waker e) (pc e) (asleep e) (world e)) /\
    aq_ok q /\ aq_list q = queued e ++ [next_id e] /\ aq_capacity q = aq_capacity (task_queue e).
Proof.
  intros Ht Hq Hl. destruct (push_room (next_id e) (task_queue e) Hq Hl) as (q & E & H1 & H2 & H3). exists q.
  unfold spawn. cbn -[wrap_u lookup]. by rewrite Ht, E.
Qed.

Lemma executor_start_ok w : exists e, async_executor_task (Q := Q) (C := C) w = Ret e /\ exec_ok e /\ asleep e = false /\ pc e = Pop /\
  queued e = [0; 1; 2] /\ world e = w.
Proof.
  destruct (aq_new_law (AQ := AQ) 100 ltac:(lia)) as (H0 & L0 & C0).
  destruct (aq_new_law (AQ := AC) (80 * 40) ltac:(lia)) as (Hc & Lc & _). unfold async_executor_task.
  destruct (spawn_ret HdaSetup (executor_new w)) as (q1 & -> & H1 & L1 & C1); [done | done | unfold queued; cbn; rewrite L0, C0; cbn; lia |].
  cbn [obind]. unfold queued in *. cbn in L1, C1. rewrite L0 in L1.
  match goal with |- context [spawn KeyboardNew ?x] => destruct (spawn_ret KeyboardNew x) as (q2 & -> & H2 & L2 & C2) end;
    [done | done | unfold queued; cbn -[wrap_u]; rewrite L1, C1, C0; cbn; lia |].
  cbn [obind]. unfold queued in *. cbn in L2, C2. rewrite L1 in L2.
  match goal with |- context [spawn ConsoleLoop ?x] => destruct (spawn_ret ConsoleLoop x) as (q3 & -> & H3 & L3 & C3) end;
    [done | done | unfold queued; cbn -[wrap_u]; rewrite L2, C2, C1, C0; cbn; lia |].
  eexists. split; [reflexivity |]. unfold queued in *. cbn in L3. rewrite L2 in L3. split; [| done].
  split; unfold queued, known_task, pc_ok, attended; cbn -[lookup insert]; rewrite ?L3; try done; try (left; set_solver).
  intros i f Hi. cbn -[lookup insert] in Hi. rewrite !lookup_insert_Some, lookup_empty in Hi. naive_solver.
Qed.

(** [C34] No input is left unattended.  In every state the executor and its
    interrupts reach, while a scancode waits the keyboard task is queued to be
    polled or is being polled, and while a printed character waits the console
    task is: registering the waker before the second look at the queue leaves
    no gap. *)
Theorem nothing_unattended w e0 e :
  async_executor_task w = Ret e0 -> rtc exec_event e0 e ->
  (keys e <> [] -> 1 ∈ queued e \/ key_phase (pc e) <> Outside) /\
  (chars e <> [] -> 2 ∈ queued e \/ char_phase (pc e) <> Outside).
Proof.
  intros E0 Hr. destruct (executor_start_ok w) as (e1 & E1 & H1 & _). assert (e1 = e0) as -> by congruence.
  assert (He : exec_ok e) by (revert H1; apply (rtc_preserve _ exec_ok _ _ (fun x y => exec_event_ok x y) Hr)).
  destruct He as [_ _ _ _ _ _ _ Hk Hc].
  split; intros Hn.
  - destruct Hk as [? | Hk]; [by left | right]. intros Ep. rewrite Ep in Hk. destruct Hk as [_ Hk]. by apply nil_length_inv in Hk.
  - destruct Hc as [? | Hc]; [by left | right]. intros Ep. rewrite Ep in Hc. destruct Hc as [_ Hc]. by apply nil_length_inv in Hc.
Qed.
End Attended.

(** ** Draining *)

(** The tasks' bodies return. *)
Class TaskBodiesLaws (W : Type) (TB : TaskBodies W) := {
  world_ok : W -> Prop;
  on_setup_law : forall w, world_ok w -> exists w', on_setup w = Ret w' /\ world_ok w';
  on_scancode_law : forall c w, world_ok w -> exists w', on_scancode c w = Ret w' /\ world_ok w';
  on_char_law : forall c w, world_ok w -> exists w', on_char c w = Ret w' /\ world_ok w';
  on_flush_law : forall w, world_ok w -> exists w', on_flush w = Ret w' /\ world_ok w'
}.

Section Drain.
Context {Q C : Type} {AQ : ArrayQueue Z Q} {AL : ArrayQueueLaws Z Q AQ}
  {AC : ArrayQueue ScreenChar C} {CL : ArrayQueueLaws ScreenChar C AC}
  {W : Type} {TB : TaskBodies W} {TL : TaskBodiesLaws W TB}.
Implicit Type e : Exec Q C W.

(** How many steps the executor may still make without interrupts. *)
Definition pc_weight (p : Pc) : nat :=
  match p with
  | Blocking => 0 | IdleTest => 3 | Pop => 4 | SetupPoll _ => 5
  | KeyRecheck _ | CharRecheck _ => 5 | KeyRegister _ | CharRegister _ => 6 | KeyNext _ | CharNext _ => 7
  | KeyFirst _ | FlushRecheck _ => 8 | FlushRegister _ => 9 | FlushNext _ => 10
  end.
Definition weight e : nat :=
  20 * length (queued e) + 10 * (length (keys e) + length (chars e)) + pc_weight (pc e) +
  (match pc e, queued e with IdleTest, _ :: _ => 2 | _, _ => 0 end).

(** Progress: a step of the executor awake returns, and comes nearer to
    sleeping; it blocks only with an empty queue. *)
Definition quiet e : Prop := pc e = Blocking -> queued e = [].
Definition progress e (o : outcome (Exec Q C W)) : Prop :=
  exists e', o = Ret e' /\ world_ok (world e') /\ quiet e' /\ asleep e' = false /\ (weight e' < weight e)%nat.

Ltac progress_by := eexists; split; [reflexivity |]; split; [done |]; split; [done |]; split; [done |];
  unfold weight, queued, keys, chars in *; cbn -[Nat.mul Nat.add] in *.

Lemma key_received_progress i code e e0 :
  asleep e = false -> world_ok (world e) -> (weight (set_pc (KeyNext i) e) < weight e0)%nat -> progress e0 (key_received i code e).
Proof.
  intros Ha Hw Hl. destruct (on_scancode_law code _ Hw) as (w & E & Hw'). unfold key_received. rewrite E. cbn [obind].
  eexists. split; [reflexivity |]. done.
Qed.
Lemma char_received_progress i c e e0 :
  asleep e = false -> world_ok (world e) -> (weight (set_pc (FlushNext i) e) < weight e0)%nat -> progress e0 (char_received i c e).
Proof.
  intros Ha Hw Hl. destruct (on_char_law c _ Hw) as (w & E & Hw'). unfold char_received. rewrite E. cbn [obind].
  eexists. split; [reflexivity |]. done.
Qed.

Lemma key_progress e :
  exec_ok e -> world_ok (world e) -> asleep e = false -> key_phase (pc e) <> Outside -> progress e (exec_step e).
Proof.
  intros [] Hw Ha Ep. unfold_step_goal. rewrite Ha. unfold pc_ok in xo_pc0. destruct (pc e) eqn:Epc; try done.
  - destruct xo_pc0 as [-> Es]. rewrite Es. destruct (aq_new_law (AQ := AQ) 100 ltac:(lia)) as (_ & Hn & _).
    progress_by. rewrite Epc, Es, Hn. cbn. lia.
  - destruct xo_pc0 as [-> [q Es]]. rewrite Es. cbn [unwrap obind]. pose proof (aq_pop_law q (xo_keys0 q Es)) as Hp.
    destruct (aq_pop q) as [o q']. destruct Hp as (_ & _ & Hp). destruct (aq_list q) as [|x l] eqn:El; destruct Hp as [-> Hl].
    + progress_by. rewrite Epc, Es, Hl, El. cbn. lia.
    + apply key_received_progress; [done | done |]. unfold weight, queued, keys, chars. cbn. rewrite Epc, Es, Hl, El. cbn. lia.
  - progress_by. rewrite Epc. cbn. lia.
  - destruct xo_pc0 as [-> [q Es]]. rewrite Es. cbn [unwrap obind]. pose proof (aq_pop_law q (xo_keys0 q Es)) as Hp.
    destruct (aq_pop q) as [o q']. destruct Hp as (_ & _ & Hp). destruct (aq_list q) as [|x l] eqn:El; destruct Hp as [-> Hl].
    + progress_by. rewrite Epc, Es, Hl, El. cbn. lia.
    + apply key_received_progress; [done | done |]. unfold weight, queued, keys, chars. cbn. rewrite Epc, Es, Hl, El. cbn. lia.
Qed.

Lemma char_progress e :
  exec_ok e -> world_ok (world e) -> asleep e = false -> char_phase (pc e) <> Outside -> progress e (exec_step e).
Proof.
  intros [] Hw Ha Ep. unfold_step_goal. rewrite Ha. pose proof (aq_pop_law (console_queue e) xo_chars0) as Hp.
  destruct (aq_pop (console_queue e)) as [o q]. destruct Hp as (_ & _ & Hp).
  destruct (aq_list (console_queue e)) as [|x l] eqn:El; destruct Hp as [-> Hl]; destruct (pc e) eqn:Epc; try done;
    try (apply char_received_progress; [done | done |]; unfold weight, queued, keys, chars; cbn; rewrite Epc, ?Hl, ?El; cbn; lia);
    try (progress_by; rewrite Epc, ?Hl, ?El; cbn; lia).
  destruct (on_flush_law _ Hw) as (w & E & Hw'). cbn [world set_chars]. rewrite E. cbn [obind]. progress_by. rewrite Epc, Hl, El. cbn. lia.
Qed.

Lemma outside_progress e :
  exec_ok e -> world_ok (world e) -> asleep e = false -> key_phase (pc e) = Outside -> char_phase (pc e) = Outside -> pc e <> Blocking ->
  progress e (exec_step e).
Proof.
  intros [] Hw Ha Ek Ec Hb. unfold_step_goal. rewrite Ha. destruct (pc e) eqn:Epc; try done.
  - pose proof (aq_pop_law (task_queue e) xo_queue0) as Hp. destruct (aq_pop (task_queue e)) as [o q]. destruct Hp as (_ & _ & Hp).
    destruct (aq_list (task_queue e)) as [|x l] eqn:El; destruct Hp as [-> Hl].
    + progress_by. rewrite Epc, Hl, El. cbn. lia.
    + cbn [tasks set_queue]. destruct (tasks e !! x) as [f|].
      * assert (Hf : (pc_weight (first_poll x f) <= 8)%nat) by (destruct f; cbn; lia).
        eexists. split; [reflexivity |]. split; [done |]. split; [by destruct f |]. split; [done |].
        unfold weight, queued, keys, chars in *. cbn -[Nat.mul Nat.add] in *. rewrite Epc, Hl, El. destruct f; cbn in *; lia.
      * eexists. split; [reflexivity |]. split; [done |]. split; [unfold quiet; cbn; congruence |]. split; [done |].
        unfold weight, queued, keys, chars in *. cbn -[Nat.mul Nat.add] in *. rewrite Epc, Hl, El. cbn. lia.
  - destruct (on_setup_law _ Hw) as (w & -> & Hw'). cbn [obind]. progress_by. rewrite Epc. cbn. lia.
  - rewrite aq_empty_law by done. destruct (bool_decide_reflect (aq_list (task_queue e) = [])) as [En|En].
    + eexists. split; [reflexivity |]. split; [done |]. split; [by intros _ |]. split; [done |].
      unfold weight, queued, keys, chars in *. cbn -[Nat.mul Nat.add] in *. rewrite Epc, En. cbn. lia.
    + progress_by. rewrite Epc. destruct (aq_list (task_queue e)); [done |]. cbn. lia.
Qed.
Lemma exec_progress e : exec_ok e -> world_ok (world e) -> asleep e = false -> pc e <> Blocking -> progress e (exec_step e).
Proof.
  intros He Hw Ha Hb. destruct (key_phase (pc e)) eqn:Ek; [| by apply key_progress; rewrite ?Ek..].
  destruct (char_phase (pc e)) eqn:Ec; [by apply outside_progress | by apply char_progress; rewrite ?Ec..].
Qed.

Lemma drains n : forall e,
  (weight e <= n)%nat -> exec_ok e -> world_ok (world e) -> asleep e = false -> quiet e ->
  exists m e', (m <= S n)%nat /\ exec_steps m e = Ret e' /\ exec_ok e' /\ asleep e' = true /\ pc e' = Pop /\ queued e' = [].
Proof.
  induction n as [n IH] using lt_wf_ind. intros e Hn He Hw Ha Hq. destruct (decide (pc e = Blocking)) as [Eb|Eb].
  - exists 1%nat, (set_pc Pop (set_asleep true e)). split; [lia |].
    assert (E : exec_step e = Ret (set_pc Pop (set_asleep true e))) by (unfold_step_goal; by rewrite Ha, Eb).
    split; [cbn [exec_steps]; by rewrite E |]. split; [by apply (exec_step_ok e) |]. by rewrite <- (Hq Eb).
  - destruct (exec_progress e He Hw Ha Eb) as (e1 & E1 & Hw1 & Hq1 & Ha1 & Hlt).
    destruct (IH (weight e1) ltac:(lia) e1 ltac:(lia) (exec_step_ok e e1 He E1) Hw1 Ha1 Hq1) as (m & e' & Hm & E' & H').
    exists (S m), e'. split; [lia |]. cbn [exec_steps]. by rewrite E1.
Qed.

(** The machine behind the tasks stays in order, whatever happens. *)
Lemma wake_with_world (w : option Waker) e e' : wake_with w e = Ret e' -> world e' = world e.
Proof.
  destruct w as [[i|]|]; cbn [wake_with]; [| by intros [= <-]..]. unfold wake_task. destruct (aq_push _ _) as [q ok].
  intros E. run_inv E. by injection E as <-.
Qed.
Lemma write_string_world s : forall e e', write_string s e = Ret e' -> world e' = world e.
Proof.
  induction s as [|x s IH]; intros e e' E; cbn [write_string] in E; [by injection E as <- |]. run_inv E. rewrite (IH _ _ E).
  unfold write_byte in E0. by rewrite (wake_with_world _ _ _ E0).
Qed.
Lemma event_world e e' : exec_event e e' -> exec_ok e -> world_ok (world e) -> world_ok (world e').
Proof.
  intros [E | warning code E | s E] He Hw; [| | by rewrite (write_string_world _ _ _ E)].
  - destruct (asleep e) eqn:Ha; [unfold_step E; rewrite Ha in E; by injection E as <- |].
    destruct (decide (pc e = Blocking)) as [Eb|Eb]; [unfold_step E; rewrite Ha, Eb in E; by injection E as <- |].
    destruct (exec_progress e He Hw Ha Eb) as (e1 & E1 & Hw1 & _). assert (e1 = e') as -> by congruence. done.
  - unfold add_scancode in E. destruct (scancode_queue e) as [q|]; [| by injection E as <-]. destruct (aq_push code q) as [q' ok].
    destruct ok; [by rewrite (wake_with_world _ _ _ E) | by rewrite (write_string_world _ _ _ E)].
Qed.

Lemma events_ok e e' : rtc exec_event e e' -> exec_ok e /\ world_ok (world e) -> exec_ok e' /\ world_ok (world e').
Proof.
  intros Hr. apply (rtc_preserve exec_event (fun e => exec_ok e /\ world_ok (world e))); [| done].
  intros x y Hxy [Hx Hw]. split; [by apply (exec_event_ok x) | by apply (event_world x)].
Qed.

(** [C35] The executor catches up.  From every state it reaches awake, except
    between the test for an empty queue and [block_task] with a task queued
    meanwhile, and without further interrupts, it goes to sleep after a bounded
    number of steps, and then no task is queued, no scancode and no character
    waits, and both wakers are registered. *)
Theorem executor_drains w e0 e :
  world_ok w -> async_executor_task w = Ret e0 -> rtc exec_event e0 e -> asleep e = false -> quiet e ->
  exists n e', (n <= 12 + 20 * length (queued e) + 10 * (length (keys e) + length (chars e)))%nat /\
    exec_steps n e = Ret e' /\ asleep e' = true /\
    queued e' = [] /\ keys e' = [] /\ chars e' = [] /\
    key_waker e' = Some (TaskWaker 1) /\ console_waker e' = Some (TaskWaker 2).
Proof.
  intros Hw E0 Hr Ha Hq. destruct (executor_start_ok w) as (e1 & E1 & H1 & _ & _ & _ & W1). assert (e1 = e0) as -> by congruence.
  destruct (events_ok _ _ Hr) as [He Hwe]; [by rewrite W1 |].
  destruct (drains (weight e) e ltac:(done) He Hwe Ha Hq) as (n & e' & Hn & E & H' & Ha' & Ep & Eq).
  exists n, e'. split.
  { unfold weight in Hn. destruct (pc e), (queued e); cbn [pc_weight length] in *; lia. }
  destruct H' as [_ _ _ _ _ _ _ Hk Hc]. rewrite Ep, Eq in *. split; [done |]. split; [done |]. split; [done |].
  destruct Hk as [Hk | [Hk1 Hk2]]; [set_solver |]. destruct Hc as [Hc | [Hc1 Hc2]]; [set_solver |].
  apply nil_length_inv in Hk2, Hc2. done.
Qed.

(** ** A wake-up that is lost *)
Fixpoint add_scancodes (warning codes : list Z) e : outcome (Exec Q C W) :=
  match codes with [] => Ret e | c :: codes => let! e := add_scancode warning c e in add_scancodes warning codes e end.

Lemma unregistered_keys warning codes : forall e q,
  scancode_queue e = Some q -> aq_ok q -> key_waker e = None ->
  Z.of_nat (length (aq_list q) + length codes) <= aq_capacity q ->
  exists e', add_scancodes warning codes e = Ret e' /\ asleep e' = asleep e /\ keys e' = keys e ++ codes.
Proof.
  induction codes as [|c codes IH]; intros e q Es Hq Hk Hl; cbn [add_scancodes]; [exists e; by rewrite app_nil_r |].
  destruct (push_room c q Hq) as (q' & Ep & Hq' & Hl' & Hc'); [cbn in Hl; lia |]. unfold add_scancode. rewrite Es, Ep, Hk. cbn [wake_with obind].
  destruct (IH (set_keys (Some q') None e) q') as (e' & E & Ha & Hke); [done | done | done | rewrite Hl', length_app, Hc'; cbn in *; lia |].
  exists e'. split; [done |]. split; [done |]. rewrite Hke. unfold keys. cbn. by rewrite Es, Hl', <- app_assoc.
Qed.

(** A key that arrives between the test for an empty queue and [block_task] is
    not seen: the executor blocks with the keyboard task queued, and no number
    of further keys wakes it, because the waker has been taken. *)
Theorem key_before_block_lost e q warning code codes :
  exec_ok e -> asleep e = false -> pc e = Blocking -> queued e = [] -> 1 <= aq_capacity (task_queue e) ->
  scancode_queue e = Some q -> Z.of_nat (length codes) < aq_capacity q ->
  exists e1 e2 e3, add_scancode warning code e = Ret e1 /\ exec_step e1 = Ret e2 /\ add_scancodes warning codes e2 = Ret e3 /\
    asleep e3 = true /\ keys e3 = code :: codes.
Proof.
  intros He Ha Ep Eq Hcap Es Hl. pose proof He as [Hq _ Hks _ _ _ _ Hk _]. rewrite Ep, Eq in Hk. destruct Hk as [Hk | [Hkw Hk]]; [set_solver |].
  unfold keys in Hk. rewrite Es in Hk. apply nil_length_inv in Hk.
  destruct (push_room code q (Hks q Es)) as (q' & Epu & Hq' & Hl' & Hc'); [rewrite Hk; cbn; lia |].
  destruct (push_room 1 (task_queue e) Hq) as (tq & Etq & _); [unfold queued in Eq; rewrite Eq; cbn; lia |].
  eexists. assert (E1 : add_scancode warning code e = Ret (wake_executor (set_queue tq (set_keys (Some q') None e)))).
  { unfold add_scancode. rewrite Es, Epu, Hkw. cbn [wake_with]. unfold wake_task. cbn [task_queue set_keys]. by rewrite Etq. }
  assert (E2 : exec_step (wake_executor (set_queue tq (set_keys (Some q') None e))) =
      Ret (set_pc Pop (set_asleep true (wake_executor (set_queue tq (set_keys (Some q') None e)))))) by (unfold_step_goal; cbn; by rewrite Ep).
  destruct (unregistered_keys warning codes (set_pc Pop (set_asleep true (wake_executor (set_queue tq (set_keys (Some q') None e))))) q')
    as (e3 & E3 & Ha3 & Hk3); [done | done | done | rewrite Hl', Hk, Hc'; cbn; lia |].
  eexists _, e3. split; [exact E1 |]. split; [exact E2 |]. split; [exact E3 |]. split; [done |]. rewrite Hk3. unfold keys. cbn. by rewrite Hl', Hk.
Qed.
End Drain.
