(* ===== verification/Tasks.v ===== *)
(** * The executor's tasks

    The bodies of the tasks of [Executor], from [console.rs] and [main.rs]:
    the keyboard task decodes scancodes (pc_keyboard, a class) and hands keys
    to the terminal, the console task writes printed characters on it, both
    wake the thread that paints, and the first task sets up the sound card.
    They return on every input, as the executor's theorems ask. *)
From S2P Require Import Prelude Queue Lock Thread ThreadInv Sched Pipe Console Tty Sound Devfs Executor.

(** [pc_keyboard::Keyboard]: [add_byte] gives an event ([Ok(Some(_))]) or not. *)
Class PcKeyboard (KB KE : Type) := {
  add_byte : Z -> KB -> option KE * KB;
  process_keyevent : KE -> KB -> option DecodedKey * KB
}.

Section Tasks.
Context {KB KE : Type} {PK : PcKeyboard KB KE} {Q : Type} {AQ : ArrayQueue Z Q}
  {M : Type} {MM : Mmio M} {R : Type} {AR : ArrayQueue RirbResponseEntry R}.

(** The keyboard's decoder, the terminal, the scheduler with the threads of
    the processes, and the sound card. *)
Record TaskWorld := mkWorld { w_keyboard : KB; w_tty : TTY Q; w_kernel : Kernel; w_procs : list Z; w_hda : Hda M Q R }.
Implicit Type w : TaskWorld.
Definition set_keyboard (kb : KB) w : TaskWorld := mkWorld kb (w_tty w) (w_kernel w) (w_procs w) (w_hda w).
Definition set_tty (t : TTY Q) (k : Kernel) w : TaskWorld := mkWorld (w_keyboard w) t k (w_procs w) (w_hda w).
Definition set_hda (h : Hda M Q R) w : TaskWorld := mkWorld (w_keyboard w) (w_tty w) (w_kernel w) (w_procs w) h.

(** The body of [handle_keyboard]'s loop. *)
Definition handle_scancode (scancode : Z) w : outcome TaskWorld :=
  let '(key_event, kb) := add_byte scancode (w_keyboard w) in
  let w := set_keyboard kb w in
  match key_event with
  | Some key_event =>
      let '(key, kb) := process_keyevent key_event (w_keyboard w) in
      let w := set_keyboard kb w in
      match key with
      | Some key =>
          let! '(t, k, changed) := handle_key (w_procs w) key (w_tty w) (w_kernel w) in
          Ret (set_tty t (if changed then wake_tty_renderer k else k) w)
      | None => Ret w
      end
  | None => Ret w
  end.

(** [tty.output_byte] and [wake_tty_renderer] of [listen_console_buffer]. *)
Definition console_char (c : ScreenChar) w : outcome TaskWorld :=
  let! t := output_byte (ascii_character c) (w_tty w) in Ret (set_tty t (w_kernel w) w).
Definition console_flushed w : outcome TaskWorld := Ret (set_tty (w_tty w) (wake_tty_renderer (w_kernel w)) w).

Definition sound_setup w : outcome TaskWorld :=
  let! h := hda_qemu_setup (w_hda w) in Ret (set_hda h w).

#[export] Instance task_bodies : TaskBodies TaskWorld :=
  {| on_setup := sound_setup; on_scancode := handle_scancode; on_char := console_char; on_flush := console_flushed |}.
End Tasks.
Arguments TaskWorld : clear implicits.

(** ** The bodies return *)
#[export] Instance decoded_key_eq : EqDecision DecodedKey.
Proof. solve_decision. Defined.

Lemma has_id_write (k : Kernel) a f i b : (forall t, id (f t) = id t) -> has_id (write_tcb a f k) i b = has_id k i b.
Proof.
  intros Hf. unfold has_id, write_tcb. cbn. destruct (decide (a = b)) as [<- | Hne]; [rewrite lookup_alter_eq | by rewrite lookup_alter_ne].
  destruct (store k !! a); [cbn; by rewrite Hf | done].
Qed.

Lemma find_in_ext (k k' : Kernel) i l : (forall b, has_id k' i b = has_id k i b) -> find_in k' i l = find_in k i l.
Proof. intros H. induction l as [|b l IH]; [done |]. cbn. by rewrite H, IH. Qed.

Lemma find_unblock i k j : find_thread (locked_unblock i k) j = find_thread k j.
Proof.
  unfold find_thread, locked_unblock. assert (E : threads (unblock_task i (sched_lock k)) = threads k) by (unfold unblock_task; repeat case_match; done).
  change (threads (sched_unlock _)) with (threads (unblock_task i (sched_lock k))). rewrite E. apply find_in_ext. intros b.
  change (has_id (sched_unlock ?x) j b) with (has_id x j b). unfold unblock_task. repeat case_match; try done.
  change (has_id (set_needs true (push_back i ?x)) j b) with (has_id x j b). by rewrite has_id_write.
Qed.

Definition kernel_ok (procs : list Z) (k : Kernel) : Prop := sched_inv k /\ known k procs.

Lemma unblock_kernel_ok procs i k : kernel_ok procs k -> kernel_ok procs (locked_unblock i k).
Proof.
  intros [Hk Hp]. split; [by apply locked_unblock_inv |]. unfold known in *. eapply Forall_impl; [exact Hp |].
  intros j [a Ha]. exists a. by rewrite find_unblock.
Qed.

Section Returns.
Context {KB KE : Type} {PK : PcKeyboard KB KE} {Q : Type} {AQ : ArrayQueue Z Q} {AL : ArrayQueueLaws Z Q AQ}
  {M : Type} {MM : Mmio M} {R : Type} {AR : ArrayQueue RirbResponseEntry R}.
Hypothesis (Hmm : mmio_ok (M := M)) (Hfew : few_inputs (M := M)).

Lemma commit_returns procs (t : TTY Q) k :
  tty_ok t -> kernel_ok procs k -> exists t' k', commit_line procs t k = Ret (t', k') /\ tty_ok t' /\ kernel_ok procs k'.
Proof.
  intros [Hq Hv] [Hk Hp]. unfold commit_line, wakeup_readers. set (t1 := set_line [] _).
  destruct (sleepers_spec k (waits_stdin (tty_id t1)) procs (inv_core _ Hk) Hp) as (l & -> & _). cbn [obind].
  eexists t1, _. split; [reflexivity |]. split; [split; [by apply force_all_ok | done] |].
  assert (H : kernel_ok procs k) by done. clear Hk Hp. revert k H. induction l as [|i l IH]; intros k H; cbn; [done |].
  by apply IH, unblock_kernel_ok.
Qed.

Lemma key_returns procs key (t : TTY Q) k :
  tty_ok t -> kernel_ok procs k -> exists t' k' b, handle_key procs key t k = Ret (t', k', b) /\ tty_ok t' /\ kernel_ok procs k'.
Proof.
  intros Ht Hk. destruct (decide (key = Unicode 10 \/ key = Unicode 4)) as [[-> | ->] | Hne].
  - destruct Ht as [Hq Hv]. cbn [handle_key Z.eqb Pos.eqb]. unfold output_byte. change (terminal (input_byte 10 t)) with (terminal t).
    destruct (write_byte_spec 10 (terminal t) Hv) as [-> Hv']. cbn [obind].
    destruct (commit_returns procs (set_terminal (spec_write 10 (terminal t)) (input_byte 10 t)) k) as (t' & k' & -> & Ht' & Hk'); [by split | done |].
    by exists t', k', true.
  - cbn [handle_key Z.eqb Pos.eqb]. destruct (line_buf t); [by exists (set_eof true t), k, false |].
    destruct (commit_returns procs t k Ht Hk) as (t' & k' & -> & Ht' & Hk'). by exists t', k', false.
  - destruct (edit_key_spec procs key t k Ht) as (t' & b & -> & Ht' & _); [| by exists t', k, b].
    destruct key as [c | c]; [| done]. split; intros ->; apply Hne; [by left | by right].
Qed.

Lemma corb_push_returns val c : corb_ok c -> exists c', corb_push val c = Ret c' /\ corb_ok c'.
Proof.
  intros [Hl Hw]. unfold corb_push. rewrite chk_u_ret by lia. cbn [obind].
  pose proof (Z.mod_pos_bound (wp c + 1) 256 ltac:(lia)). rewrite upd_ret by lia. cbn [obind].
  eexists. split; [reflexivity |]. split; cbn; [by rewrite length_insert | done].
Qed.

Lemma verb_returns codec node verb payload (h : Hda M Q R) :
  corb_ok (corb h) -> exists h', hda_request_verb_no_res codec node verb payload h = Ret h' /\ corb_ok (corb h').
Proof.
  intros Hc. unfold hda_request_verb_no_res. destruct (corb_push_returns (hda_verb codec node verb payload) (corb h) Hc) as (c & -> & Hc').
  cbn [obind]. by eexists.
Qed.

Lemma setup_returns (h : Hda M Q R) : corb_ok (corb h) -> exists h', hda_qemu_setup h = Ret h' /\ corb_ok (corb h').
Proof.
  intros H0. unfold hda_qemu_setup.
  edestruct verb_returns as (h1 & -> & H1); [exact H0 |]. cbn [obind]. edestruct verb_returns as (h2 & -> & H2); [exact H1 |]. cbn [obind].
  edestruct verb_returns as (h3 & -> & H3); [exact H2 |]. cbn [obind]. edestruct verb_returns as (h4 & -> & H4); [exact H3 |]. cbn [obind].
  edestruct verb_returns as (h5 & -> & H5); [exact H4 |]. cbn [obind]. unfold start_dma, hda_read.
  pose proof (Hfew (mmio h5)) as Hf. pose proof (Hmm 32 GCAP (mmio h5) ltac:(lia)) as Hv. destruct (read_reg 32 GCAP (mmio h5)) as [g m]. cbn [fst] in *.
  unfold stream_base. pose proof (Z.land_nonneg (Z.shiftr g 8) 15). rewrite chk_u_ret by lia. cbn [obind mmio set_mmio].
  destruct (read_reg 32 _ m) as [v m']. by eexists.
Qed.

#[export] Instance task_bodies_laws : TaskBodiesLaws (TaskWorld KB Q M R) task_bodies.
Proof using Hmm Hfew AL.
  refine {| world_ok := fun w => tty_ok (w_tty w) /\ kernel_ok (w_procs w) (w_kernel w) /\ corb_ok (corb (w_hda w)) |}.
  - intros w (Ht & Hk & Hc). cbn. unfold sound_setup. destruct (setup_returns (w_hda w) Hc) as (h & -> & Hh). cbn [obind]. by eexists.
  - intros c w (Ht & Hk & Hc). cbn. unfold handle_scancode. destruct (add_byte c (w_keyboard w)) as [[ev|] kb]; [| by eexists].
    cbn [w_keyboard set_keyboard]. destruct (process_keyevent ev kb) as [[key|] kb']; [| by eexists]. cbn [w_procs w_tty w_kernel set_keyboard].
    destruct (key_returns (w_procs w) key (w_tty w) (w_kernel w) Ht Hk) as (t & k & b & -> & Ht' & Hk'). cbn [obind]. eexists. split; [reflexivity |].
    split; [done |]. split; [| done]. cbn. destruct b; [by apply unblock_kernel_ok | done].
  - intros c w ([Hq Hv] & Hk & Hc). cbn. unfold console_char, output_byte. destruct (write_byte_spec (ascii_character c) (terminal (w_tty w)) Hv) as [-> Hv'].
    cbn [obind]. by eexists.
  - intros w (Ht & Hk & Hc). cbn. eexists. split; [reflexivity |]. split; [done |]. split; [by apply unblock_kernel_ok | done].
Defined.
End Returns.

(** ** A machine with a letter typed and a letter printed while it sleeps *)
Module TasksWitness.
Import ListQueue SchedWitness PipeWitness TtyWitness SoundWitness.
(** Scancodes that are characters. *)
#[local] Instance plain_keyboard : PcKeyboard unit Z :=
  {| add_byte := fun c k => (Some c, k); process_keyevent := fun c k => (Some (Unicode c), k) |}.
#[local] Existing Instance fixed_regs.
Definition World : Type := TaskWorld unit (Z * list Z) unit (Z * list RirbResponseEntry).
Definition Machine : Type := Exec (Z * list Z) (Z * list ScreenChar) World.
Definition world0 : World := mkWorld tt tty1 k_sleep [65536] card.
#[local] Instance bodies_laws : TaskBodiesLaws World task_bodies := task_bodies_laws card_regs card_inputs.

Definition get_exec (o : outcome Machine) : Machine := match o with Ret e => e | _ => executor_new world0 end.
Definition started : Machine := get_exec (async_executor_task world0).
Definition sleeping : Machine := get_exec (exec_steps 14 started).
Definition typed : Machine := get_exec (add_scancode [] 97 sleeping).
Definition printed : Machine := get_exec (write_string [65] typed).

Lemma steps_events n : forall e e' : Machine, exec_steps n e = Ret e' -> rtc exec_event e e'.
Proof.
  induction n as [|n IH]; intros e e' E; cbn [exec_steps] in E; [by injection E as <- |]. run_inv E.
  eapply rtc_l; [by apply executor_steps | by apply IH].
Qed.

Lemma get_exec_ret (o : outcome Machine) : is_retb o = true -> o = Ret (get_exec o).
Proof. by destruct o. Qed.

Lemma started_ret : async_executor_task world0 = Ret started.
Proof. apply get_exec_ret. vm_compute. reflexivity. Qed.
Lemma printed_reached : rtc exec_event started printed.
Proof.
  transitivity sleeping; [apply (steps_events 14), get_exec_ret; vm_compute; reflexivity |]. eapply rtc_l; [| apply rtc_once].
  - apply (key_arrives sleeping typed [] 97), get_exec_ret. vm_compute. reflexivity.
  - apply (text_printed typed printed [65]), get_exec_ret. vm_compute. reflexivity.
Qed.
Lemma world0_ok : world_ok world0.
Proof. split; [apply tty1_ok |]. split; [split; [apply k_sleep_inv | apply k_sleep_procs] | split; vm_compute; intuition congruence]. Qed.

(** The executor has gone to sleep with its wakers registered; the key and the
    character wake it. *)
Example wakers_registered :
  (asleep sleeping, key_waker sleeping, console_waker sleeping, queued sleeping) = (true, Some (TaskWaker 1), Some (TaskWaker 2), []) /\
  (asleep printed, keys printed, queued printed) = (false, [97], [1; 2]).
Proof. vm_compute. done. Qed.

Lemma nothing_unattended_witness :
  (keys printed <> [] -> 1 ∈ queued printed \/ key_phase (pc printed) <> Outside) /\
  (chars printed <> [] -> 2 ∈ queued printed \/ char_phase (pc printed) <> Outside).
Proof. exact (nothing_unattended world0 started printed started_ret printed_reached). Defined.

Lemma executor_drains_witness :
  exists n e', (n <= 12 + 20 * length (queued printed) + 10 * (length (keys printed) + length (chars printed)))%nat /\
    exec_steps n printed = Ret e' /\ asleep e' = true /\
    queued e' = [] /\ keys e' = [] /\ chars e' = [] /\
    key_waker e' = Some (TaskWaker 1) /\ console_waker e' = Some (TaskWaker 2).
Proof.
  apply (executor_drains world0 started printed world0_ok started_ret printed_reached); [vm_compute; reflexivity |].
  unfold quiet. vm_compute. discriminate.
Defined.

(** A key between the test for an empty queue and [block_task]: the executor
    sleeps with the keyboard task queued, and the next key does not wake it. *)
Example key_lost :
  let e := get_exec (exec_steps 13 started) in
  let e := get_exec (add_scancode [] 98 (get_exec (exec_step (get_exec (add_scancode [] 97 e))))) in
  (asleep e, queued e, keys e, key_waker e) = (true, [1], [97; 98], None).
Proof. vm_compute. reflexivity. Qed.
End TasksWitness.
