(* ===== verification/UserLib.v ===== *)
(** * The user library

    [userland/src/lib.rs]: the functions that programs call.  Each puts its
    arguments in the registers its [asm!] block names, enters the kernel with
    [int 0x80], and takes its result from [rax]; registers it does not name hold
    what they held.  Strings and buffers are in the process's own memory; where,
    the process's heap or stack decides, so their addresses are inputs.

    The theorems follow values through both sides: the arguments of [execvp]
    from the caller's strings to the stack of the new program, and a path from
    [chdir] to what [pwd] returns. *)
From S2P Require Import Prelude Slices Text Memory Paging PagingMap UserMem UserStack Elf Isolation Slab Lock Thread ThreadInv Sched ThreadKeep Queue Pipe Proc ProcInv ProcOps ProcSys Files UserCopy Syscall.

(** [_start], which every program begins with: the number of arguments is popped
    and the pointers start where it was. *)
Definition start_main {A S : Type} {FA : FrameAllocator A} {PA : PageApi A} {AA : AddrApi} (tf : TrapFrame) (s : System A S) : outcome (Z * Z) :=
  let! argc := read_user 8 (tf_rsp tf) s in Ret (le_num argc, tf_rsp tf + 8).

(** The registers at [int 0x80]. *)
Definition int_0x80 (rax : Z) (rdi rsi rdx : option Z) (tf : TrapFrame) : TrapFrame :=
  {| tf_r15 := tf_r15 tf; tf_r14 := tf_r14 tf; tf_r13 := tf_r13 tf; tf_r12 := tf_r12 tf; tf_r11 := tf_r11 tf;
     tf_r10 := tf_r10 tf; tf_r9 := tf_r9 tf; tf_r8 := tf_r8 tf; tf_rbp := tf_rbp tf;
     tf_rdi := default (tf_rdi tf) rdi; tf_rsi := default (tf_rsi tf) rsi; tf_rdx := default (tf_rdx tf) rdx;
     tf_rcx := tf_rcx tf; tf_rbx := tf_rbx tf; tf_rax := rax;
     tf_rip := tf_rip tf; tf_cs := tf_cs tf; tf_rflags := tf_rflags tf; tf_rsp := tf_rsp tf; tf_ss := tf_ss tf |}.

(** [CString::new(..).unwrap()]: the bytes with the final NUL. *)
Definition cstring_new (s : list Z) : outcome (list Z) := if existsb (Z.eqb 0) s then Panic else Ret (s ++ [0]).
Fixpoint cstrings_new (l : list (list Z)) : outcome (list (list Z)) :=
  match l with
  | [] => Ret []
  | s :: l => let! c := cstring_new s in let! cs := cstrings_new l in Ret (c :: cs)
  end.

(** Where the strings and the pointer array of [execvp] are. *)
Record ExecAddrs := { prog_at : Z; strs_at : list Z; ptrs_at : Z }.

Definition HEAP_SIZE : Z := 1024 * 1024 * 5.
(** "/dev/serial" *)
Definition serial_path : list Z := [47; 100; 101; 118; 47; 115; 101; 114; 105; 97; 108].

Section UserLib.
Context {A : Type} {FA : FrameAllocator A} {PA : PageApi A} {AA : AddrApi} {S : Type} {SL : Slab S}
  {Q : Type} {AQ : ArrayQueue Z Q} {V FO : Type} {VO : VfsOps V FO}
  {LD : Layout DEntryMinimal} {LS : Layout Stat}.
Abbreviation Mach := (Machine A S Q V FO) (only parsing).
Implicit Type m : Mach.
Variables (cfg : Config) (e : Inputs).

Definition trap (rax : Z) (rdi rsi rdx : option Z) (tf : TrapFrame) m : outcome (CallResult * Mach) :=
  syscall_handler cfg e (int_0x80 rax rdi rsi rdx tf) m.

(** A call goes on from turn to turn until it returns; a call that ends the
    process does not. *)
Fixpoint finish (fuel : nat) (r : CallResult) m : outcome (TrapFrame * Mach) :=
  match r with
  | Returned tf => Ret (tf, m)
  | Ended => NoFuel
  | Waiting tf rest =>
      match fuel with
      | O => NoFuel
      | Datatypes.S fuel => let! '(r, m) := take_up cfg e tf rest m in finish fuel r m
      end
  end.

Definition user_call (fuel : nat) (rax : Z) (rdi rsi rdx : option Z) (tf : TrapFrame) m : outcome (Z * TrapFrame * Mach) :=
  let! '(r, m) := trap rax rdi rsi rdx tf m in
  let! '(tf, m) := finish fuel r m in
  Ret (tf_rax tf, tf, m).

(** Values that the program puts in its memory. *)
Fixpoint store_blocks (bs : list (Z * list Z)) (s : System A S) : outcome (System A S) :=
  match bs with
  | [] => Ret s
  | (a, b) :: bs => let! s := write_user a b s in store_blocks bs s
  end.

(** ** Processes *)
Definition user_waitpid fuel (pid : Z) tf m := user_call fuel 29 (Some pid) None None tf m.
Definition user_fork fuel tf m := user_call fuel 18 None None None tf m.
Definition user_get_pid fuel tf m := user_call fuel 21 None None None tf m.
Definition user_get_unix_time fuel tf m := user_call fuel 26 None None None tf m.
Definition user_exit (status : Z) tf m := trap 20 (Some status) None None tf m.
Definition user_sleep fuel (millisec : Z) tf m := user_call fuel 22 (Some millisec) None None tf m.

Definition exec_blocks (at_ : ExecAddrs) (prog : list Z) (c_strings : list (list Z)) : list (Z * list Z) :=
  (prog_at at_, prog) :: zip (strs_at at_) c_strings ++ [(ptrs_at at_, concat (le_bytes 8 <$> (strs_at at_ ++ [0])))].

Definition user_execvp (at_ : ExecAddrs) (program_name : list Z) (argv : list (list Z)) tf m : outcome (CallResult * Mach) :=
  let! prog := cstring_new program_name in
  let! c_strings := cstrings_new argv in
  let! s := store_blocks (exec_blocks at_ prog c_strings) (sys m) in
  trap 28 (Some (prog_at at_)) (Some (Z.of_nat (length argv))) (Some (ptrs_at at_)) tf (set_sys s m).

(** ** Files *)
Definition user_open fuel (path_at : Z) (path : list Z) tf m : outcome (Z * TrapFrame * Mach) :=
  let! c := cstring_new path in
  let! s := write_user path_at c (sys m) in
  user_call fuel 0 (Some path_at) None None tf (set_sys s m).
Definition user_close fuel (d : Z) tf m := user_call fuel 1 (Some d) None None tf m.
(** The buffers are borrowed: an address and a length. *)
Definition user_read fuel (d ptr len : Z) tf m := user_call fuel 2 (Some d) (Some ptr) (Some len) tf m.
Definition user_write fuel (d ptr len : Z) tf m := user_call fuel 3 (Some d) (Some ptr) (Some len) tf m.

Definition user_serial_log fuel (path_at ptr len : Z) tf m : outcome (Z * TrapFrame * Mach) :=
  let! '(d, tf, m) := user_open fuel path_at serial_path tf m in
  let! '(_, tf, m) := user_write fuel d ptr len tf m in
  user_close fuel d tf m.
Definition sys_print fuel (ptr len : Z) tf m := user_write fuel 1 ptr len tf m.

Definition user_pwd fuel (path_at : Z) tf m : outcome (list Z * TrapFrame * Mach) :=
  let! s := write_user path_at (replicate 200 0) (sys m) in
  let! '(written, tf, m) := user_call fuel 8 (Some path_at) (Some 200) None tf (set_sys s m) in
  let! path := read_user 200 path_at (sys m) in
  let! bytes := slice path 0 written in
  let! str := to_str bytes in
  Ret (str, tf, m).

Definition user_chdir fuel (path_at : Z) (path : list Z) tf m : outcome (Z * TrapFrame * Mach) :=
  let! c := cstring_new path in
  let! s := write_user path_at c (sys m) in
  user_call fuel 7 (Some path_at) None None tf (set_sys s m).

(** [DEntryMinimal::default()] *)
Definition default_dent : DEntryMinimal := {| de_name := replicate 64 0; de_inum := 0; de_filetype := NtFile; de_size := 0 |}.
(** The [name] of the entry at an address, checked for UTF-8; [name_field] takes
    it from the bytes of an entry. *)
Fixpoint dent_names (name_field : list Z -> list Z) (n : nat) (va : Z) (s : System A S) : outcome (list (list Z)) :=
  match n with
  | O => Ret []
  | Datatypes.S n =>
      let! bs := read_user (Z.to_nat (size_of DEntryMinimal)) va s in
      let! name := to_str (name_field bs) in
      let! names := dent_names name_field n (va + size_of DEntryMinimal) s in
      Ret (name :: names)
  end.
Definition user_get_dents fuel (name_field : list Z -> list Z) (d buffer_at : Z) tf m : outcome (list (list Z) * TrapFrame * Mach) :=
  let! s := write_user buffer_at (concat (replicate 10 (bytes_of default_dent))) (sys m) in
  let! '(entries_written, tf, m) := user_call fuel 11 (Some d) (Some buffer_at) (Some 10) tf (set_sys s m) in
  let len := if entries_written <? 2 ^ 63 then Z.to_nat entries_written else O in
  let! names := dent_names name_field len buffer_at (sys m) in
  Ret (names, tf, m).

(** ** The window and the heap *)
Definition syscall_get_backbuffer fuel (window_at : Z) tf m := user_call fuel 24 (Some window_at) None None tf m.
Definition syscall_notify_frame_update fuel tf m := user_call fuel 25 None None None tf m.
Definition sbrk fuel (size : Z) tf m := user_call fuel 23 (Some size) None None tf m.
(** The region that the user heap is given. *)
Definition init_heap fuel tf m : outcome (Z * Z * TrapFrame * Mach) :=
  let! '(start, tf, m) := sbrk fuel HEAP_SIZE tf m in Ret (start, HEAP_SIZE, tf, m).
End UserLib.

(** ** Blocks in the caller's memory *)
Section Blocks.
Context {A : Type} {FA : FrameAllocator A} {FL : FrameAllocatorLaws A} {PA : PageApi A} {PL : PageLaws A PA}
  {AA : AddrApi} {AL : AddrLaws PA AA} {S : Type} {SL : Slab S}.
Variable cfg : Config.
Implicit Types (s : System A S) (p : ProcessControlBlock S) (b : Z * list Z).

Definition block_end b : Z := fst b + Z.of_nat (length (snd b)).
Definition in_block (va : Z) b : Prop := fst b <= va < block_end b.
Definition apart b c : Prop := block_end b <= fst c \/ block_end c <= fst b.
Definition block_ok s b : Prop := mapped_bytes s (fst b) (Z.of_nat (length (snd b))) /\ Forall is_byte (snd b).
(** The block is there. *)
Definition holds_block s b : Prop := forall i x, snd b !! i = Some x -> user_byte (ram s) (CR3 s) (fst b + Z.of_nat i) = Some x.

(** The processes, the scheduler and the page table in use are the same. *)
Definition same_but_ram s s' : Prop :=
  (kern s', pcbs s', PROC s', PID s', ALLOC s', CR3 s') = (kern s, pcbs s, PROC s, PID s, ALLOC s, CR3 s).

Lemma same_curr s s' : same_but_ram s s' -> curr_proc s' = curr_proc s.
Proof. intros [= Ek Ep _ _ _ _]. unfold curr_proc, curr_thread. by rewrite Ek, Ep. Qed.

Lemma others_same_trans s s1 s2 x : proc_inv cfg s -> others_same s s1 x -> PROC s1 = PROC s -> others_same s1 s2 x -> others_same s s2 x.
Proof.
  intros Hi H1 HP H2 y q Hy Hne Hq. destruct (H1 y q Hy Hne Hq) as [Hq1 Hv1]. rewrite <- HP in Hy.
  destruct (H2 y q Hy Hne Hq1) as [Hq2 Hv2]. split; [done |]. intros f Hf. rewrite Hv2; [by apply Hv1 |]. rewrite HP in Hy.
  apply (view_owns (ram s) (ram s1) (ALLOC s) (adsp q)); [| done | done].
  apply (is_space _ _ _ _ (pi_mem _ s Hi) y). apply live_space_Some. split; [done |]. by exists q.
Qed.

Lemma store_blocks_ok bs : forall s x p,
  proc_inv cfg s -> may_call (kern s) -> curr_proc s = Ret (x, p) -> Forall (block_ok s) bs -> ForallOrdPairs apart bs ->
  exists s', store_blocks bs s = Ret s' /\ proc_inv cfg s' /\ others_same s s' x /\ same_but_ram s s' /\ Forall (holds_block s') bs /\
    forall va, user_addr va -> Forall (fun b => ~ in_block va b) bs -> user_byte (ram s') (CR3 s) va = user_byte (ram s) (CR3 s) va.
Proof.
  induction bs as [|[a b] bs IH]; intros s x p Hi Hm Hc Hok Hap; [by exists s |].
  apply Forall_cons in Hok as [[Hmap Hb] Hok]. inversion Hap as [|? ? Ha Hap']; subst. cbn [fst snd] in *. cbn [store_blocks].
  destruct (write_user_ok cfg b a s x p Hi Hm Hc Hmap Hb) as (s1 & E & Hi1 & Ho1 & Es1 & Hr1). rewrite E. cbn [obind].
  assert (Ek : kern s1 = kern s /\ CR3 s1 = CR3 s /\ PROC s1 = PROC s) by (by injection Es1). destruct Ek as (Ek & EC & EP).
  destruct (IH s1 x p) as (s' & E' & Hi' & Ho' & Es' & Hh & Hr'); [done | by rewrite Ek | by rewrite (same_curr s s1 Es1) | | done |].
  { eapply Forall_impl; [exact Hok |]. intros [c l] [(H0 & H1 & Hmp) Hl]. split; [| done]. split; [done |]. split; [done |].
    cbn [fst snd] in *. intros i Hi0. rewrite EC, Hr1 by (unfold user_addr; lia). case_decide; [| by apply Hmp].
    apply lookup_lt_is_Some_2. lia. }
  exists s'. split; [exact E' |]. split; [done |]. split; [by apply (others_same_trans s s1) |]. split; [unfold same_but_ram in *; congruence |].
  assert (HC' : CR3 s' = CR3 s) by (injection Es' as ? ? ? ? ? ->; done). split.
  - constructor; [| done]. intros i y Hy. cbn [fst snd] in *. apply lookup_lt_Some in Hy as Hlt. destruct Hmap as (H0 & H1 & _).
    assert (Hua : user_addr (a + Z.of_nat i)) by (unfold user_addr; lia).
    rewrite HC', <- EC, Hr'; [| done |].
    + rewrite EC, Hr1 by done. rewrite decide_True by lia. by replace (Z.to_nat (a + Z.of_nat i - a)) with i by lia.
    + eapply Forall_impl; [exact Ha |]. intros [c l] Hac [Hin1 Hin2]. unfold apart, block_end in *. cbn [fst snd] in *. lia.
  - intros va Hva Hn. apply Forall_cons in Hn as [Hn Hns]. rewrite <- EC, Hr' by done. rewrite EC, Hr1 by done.
    unfold in_block, block_end in Hn. cbn [fst snd] in Hn. by rewrite decide_False.
Qed.

(** ** Strings *)
Lemma cstring_ret (str : list Z) : ~ 0 ∈ str -> cstring_new str = Ret (str ++ [0]).
Proof.
  intros H. unfold cstring_new. destruct (existsb (Z.eqb 0) str) eqn:E; [| done]. apply existsb_exists in E as (x & Hx & E).
  apply Z.eqb_eq in E as <-. destruct H. by apply list_elem_of_In.
Qed.

Lemma cstrings_ret (l : list (list Z)) : Forall (fun str => ~ 0 ∈ str) l -> cstrings_new l = Ret ((fun str => str ++ [0]) <$> l).
Proof. induction 1 as [|str l Hs _ IH]; [done |]. cbn [cstrings_new]. rewrite cstring_ret by done. cbn [obind]. by rewrite IH. Qed.

Lemma cstr_loop_ok str : forall fuel va s,
  ~ 0 ∈ str -> holds_block s (va, str ++ [0]) -> (length str < fuel)%nat -> cstr_loop fuel va s = Ret str.
Proof.
  induction str as [|c str IH]; intros [|fuel] va s Hn Hh Hf; cbn [length] in Hf; try lia.
  - cbn [cstr_loop]. pose proof (Hh 0%nat 0 eq_refl) as H0. cbn [fst] in H0. rewrite Z.add_0_r in H0. rewrite H0. done.
  - cbn [cstr_loop]. pose proof (Hh 0%nat c eq_refl) as H0. cbn [fst] in H0. rewrite Z.add_0_r in H0. rewrite H0. cbn [unwrap obind].
    apply not_elem_of_cons in Hn as [Hc Hn]. rewrite (proj2 (Z.eqb_neq c 0)) by congruence.
    rewrite (IH fuel (va + 1)); [done | done | | lia]. intros i x Hx. cbn [fst snd] in *.
    replace (va + 1 + Z.of_nat i) with (va + Z.of_nat (Datatypes.S i)) by lia. by apply (Hh (Datatypes.S i)).
Qed.

(** Memory that is mapped is at least one frame. *)
Lemma some_frame s va (y : Z) : user_byte (ram s) (CR3 s) va = Some y -> (0 < base.size (ram s))%nat.
Proof.
  intros H. destruct (decide (ram s = ∅)) as [E | Hne].
  - exfalso. unfold user_byte in H. rewrite E in H. destruct (translate_addr _ _ _) as [pa|]; [| done]. done.
  - assert (base.size (ram s) <> 0%nat) by (intros E0%map_size_empty_inv; done). lia.
Qed.

Lemma cstr_ok str va s :
  ~ 0 ∈ str -> holds_block s (va, str ++ [0]) -> (length str < Z.to_nat 4096)%nat -> cstr va s = Ret str.
Proof.
  intros Hn Hh Hl. apply cstr_loop_ok; [done | done |].
  assert (Hs : (0 < base.size (ram s))%nat).
  { apply (some_frame s (va + Z.of_nat (length str)) 0), (Hh (length str)). cbn [snd]. by rewrite lookup_app_r, Nat.sub_diag. }
  nia.
Qed.
End Blocks.

(** ** The arguments of a program *)
Section Exec.
Context {A : Type} {FA : FrameAllocator A} {FL : FrameAllocatorLaws A} {PA : PageApi A} {PL : PageLaws A PA}
  {AA : AddrApi} {AL : AddrLaws PA AA} {S : Type} {SL : Slab S}
  {Q : Type} {AQ : ArrayQueue Z Q} {V FO : Type} {VO : VfsOps V FO}
  {LD : Layout DEntryMinimal} {LS : Layout Stat}.
Variables (cfg : Config) (e : Inputs).
Abbreviation Mach := (Machine A S Q V FO) (only parsing).
Implicit Types (s : System A S) (p : ProcessControlBlock S) (m : Mach).

Lemma holds_app s va (l l' : list Z) :
  holds_block s (va, l ++ l') -> holds_block s (va, l) /\ holds_block s (va + Z.of_nat (length l), l').
Proof.
  intros H. split; intros i x Hx; cbn [fst snd] in *.
  - apply (H i x). cbn [snd]. by apply lookup_app_l_Some.
  - replace (va + Z.of_nat (length l) + Z.of_nat i) with (va + Z.of_nat (length l + i)) by lia. apply (H _ x). cbn [snd].
    by rewrite lookup_app_r, Nat.add_comm, Nat.add_sub by lia.
Qed.

(** The pointer array and the strings behind the pointers. *)
Lemma read_argv_ok strs : forall ptrs rest va s,
  length ptrs = length strs -> Forall (fun a => 0 <= a < 2 ^ 64) ptrs ->
  holds_block s (va, concat (le_bytes 8 <$> ptrs) ++ rest) ->
  Forall2 (fun a str => ~ 0 ∈ str /\ (length str < Z.to_nat 4096)%nat /\ holds_block s (a, str ++ [0])) ptrs strs ->
  read_argv (length strs) va s = Ret strs.
Proof.
  induction strs as [|str strs IH]; intros [|a ptrs] rest va s Hl Hr Hh H2; try done. cbn [length] in Hl.
  apply Forall_cons in Hr as [Ha Hr]. apply Forall2_cons in H2 as [(Hn & Hlen & Hs) H2].
  cbn [fmap list_fmap concat] in Hh. rewrite <- app_assoc in Hh. destruct (holds_app _ _ _ _ Hh) as [H8 Hrest]. rewrite le_bytes_length in Hrest.
  cbn [length read_argv]. pose proof (read_user_ok (le_bytes 8 a) va s H8) as Er. rewrite le_bytes_length in Er. rewrite Er. cbn [obind].
  rewrite le_num_bytes, Z.mod_small by done. rewrite (cstr_ok str a s Hn Hs Hlen). cbn [obind].
  rewrite (IH ptrs rest (va + 8) s); [done | lia | done | exact Hrest | done].
Qed.

Lemma strings_short strs str : str ∈ strs -> (length str < length (strings_image strs))%nat.
Proof.
  induction strs as [|y strs IH]; [by intros ?%elem_of_nil |]. intros [-> | H]%elem_of_cons; unfold strings_image in *; cbn; rewrite !length_app; cbn [length].
  - lia.
  - specialize (IH H). lia.
Qed.

Lemma can_exec_same s s' program args file limit :
  ALLOC s' = ALLOC s -> can_exec cfg s program args file limit -> can_exec cfg s' program args file limit.
Proof. intros E []. split; try done. by rewrite E. Qed.

(** [main] gets the strings on the stack. *)
Lemma main_args tf s strs :
  args_at (ram s) (CR3 s) (tf_rsp tf) strs -> Forall (fun str => ~ 0 ∈ str) strs -> Z.of_nat (length (strings_image strs)) <= 4096 ->
  Z.of_nat (length strs) < 2 ^ 64 ->
  start_main tf s = Ret (Z.of_nat (length strs), tf_rsp tf + 8) /\ read_argv (length strs) (tf_rsp tf + 8) s = Ret strs.
Proof.
  intros (_ & ptrs & Hl & Hr & Hb & Hs) Hn Hlen Hmax.
  assert (Hh : holds_block s (tf_rsp tf, le_bytes 8 (Z.of_nat (length strs)) ++ concat (le_bytes 8 <$> ptrs) ++ le_bytes 8 0)) by (intros i y Hy; exact (Hb i y Hy)).
  destruct (holds_app _ _ _ _ Hh) as [H8 Hrest]. rewrite le_bytes_length in Hrest. split.
  - unfold start_main. pose proof (read_user_ok (le_bytes 8 (Z.of_nat (length strs))) (tf_rsp tf) s H8) as Er. rewrite le_bytes_length in Er. rewrite Er. cbn [obind].
    rewrite le_num_bytes, Z.mod_small by (change (256 ^ Z.of_nat 8) with (2 ^ 64); lia). done.
  - apply (read_argv_ok strs ptrs (le_bytes 8 0)); [done | eapply Forall_impl; [exact Hr |]; cbn beta; lia | exact Hrest |].
    apply Forall2_same_length_lookup_2; [done |]. intros k a str Ha Hst. rewrite Forall_lookup in Hn. split; [by eapply Hn |].
    split; [| intros i y Hy; exact (Hs k str a Hst Ha i y Hy)].
    pose proof (strings_short strs str (list_elem_of_lookup_2 _ _ _ Hst)). lia.
Qed.

Definition nul_terminated (str : list Z) : list Z := str ++ [0].

(** What the strings in memory are for [read_argv]. *)
Lemma strings_held s ptrs strs :
  length ptrs = length strs -> Forall (fun str => ~ 0 ∈ str /\ (length str < Z.to_nat 4096)%nat) strs ->
  Forall (holds_block s) (zip ptrs (nul_terminated <$> strs)) ->
  Forall2 (fun a str => ~ 0 ∈ str /\ (length str < Z.to_nat 4096)%nat /\ holds_block s (a, str ++ [0])) ptrs strs.
Proof.
  revert ptrs. induction strs as [|str strs IH]; intros [|a ptrs] Hl Hs Hh; try done. apply Forall_cons in Hs as [[? ?] Hs].
  cbn in Hh. apply Forall_cons in Hh as [? Hh]. constructor; [done |]. apply IH; [by injection Hl | done | done].
Qed.

(** The blocks of [execvp] are mapped and do not overlap, as the heap hands
    them out. *)
Record exec_memory s (at_ : ExecAddrs) (program : list Z) (args : list (list Z)) : Prop := {
  em_length : length (strs_at at_) = length args;
  em_ok : Forall (block_ok s) (exec_blocks at_ (nul_terminated program) (nul_terminated <$> args));
  em_apart : ForallOrdPairs apart (exec_blocks at_ (nul_terminated program) (nul_terminated <$> args))
}.

Lemma strs_range s at_ program args : exec_memory s at_ program args -> Forall (fun a => 0 <= a < 2 ^ 64) (strs_at at_).
Proof.
  intros [Hl Hok _]. unfold exec_blocks in Hok. apply Forall_cons in Hok as [_ Hok]. apply Forall_app in Hok as [Hok _].
  revert args Hl Hok. generalize (strs_at at_) as l. induction l as [|a l IH]; intros [|str args] Hl Hok; try done.
  cbn in Hok. apply Forall_cons in Hok as [[(H0 & H1 & _) _] Hok]. cbn [fst snd] in *. constructor; [lia |].
  apply (IH args); [by injection Hl | done].
Qed.

(** The kernel reads the program's name and its arguments as they were given. *)
Lemma execvp_reads m x p at_ program args :
  proc_inv cfg (sys m) -> may_call (kern (sys m)) -> curr_proc (sys m) = Ret (x, p) ->
  Forall (fun str => ~ 0 ∈ str) (program :: args) -> Z.of_nat (length (strings_image (program :: args))) <= 4096 ->
  exec_memory (sys m) at_ program args ->
  exists s', proc_inv cfg s' /\ others_same (sys m) s' x /\ same_but_ram (sys m) s' /\
    forall tf, user_execvp cfg e at_ program args tf m =
      let! '(tf, s2) := exec cfg program args s' in Ret (Returned (set_rax 0 tf), set_sys s2 m).
Proof.
  intros Hi Hm Hc Hn Hlen Hem. apply Forall_cons in Hn as [Hnp Hna].
  assert (Hshort : Forall (fun str => (length str < Z.to_nat 4096)%nat) (program :: args)).
  { apply Forall_forall. intros str Hs. pose proof (strings_short _ _ Hs). lia. }
  apply Forall_cons in Hshort as [Hsp Hsa].
  destruct (store_blocks_ok cfg _ (sys m) x p Hi Hm Hc (em_ok _ _ _ _ Hem) (em_apart _ _ _ _ Hem)) as (s' & E & Hi' & Ho & Hsame & Hh & _).
  exists s'. split; [done |]. split; [done |]. split; [done |]. intros tf. unfold user_execvp. rewrite cstring_ret, cstrings_ret by done. cbn [obind].
  unfold nul_terminated in E. rewrite E. cbn [obind]. unfold trap, syscall_handler. cbn [int_0x80 tf_rax tf_rdi tf_rsi tf_rdx default from_option kind_from obind].
  unfold call_exec. cbn [sys set_sys]. unfold exec_blocks in Hh. apply Forall_cons in Hh as [Hp Hh]. apply Forall_app in Hh as [Hs Hptr].
  unfold Datatypes.id. rewrite Forall_singleton in Hptr. rewrite (cstr_ok program _ s' Hnp Hp Hsp). cbn [obind]. rewrite Nat2Z.id.
  rewrite fmap_app, concat_app in Hptr.
  rewrite (read_argv_ok args (strs_at at_) _ (ptrs_at at_) s' (em_length _ _ _ _ Hem) (strs_range _ _ _ _ Hem) Hptr).
  - cbn [obind]. by destruct (exec cfg program args s') as [[tf2 s2] | |].
  - apply strings_held; [apply Hem | | done]. by apply Forall_and.
Qed.

End Exec.

(** ** The working directory *)
Section Cwd.
Context {A : Type} {FA : FrameAllocator A} {FL : FrameAllocatorLaws A} {PA : PageApi A} {PL : PageLaws A PA}
  {AA : AddrApi} {AL : AddrLaws PA AA} {S : Type} {SL : Slab S}
  {Q : Type} {AQ : ArrayQueue Z Q} {V FO : Type} {VO : VfsOps V FO}
  {LD : Layout DEntryMinimal} {LS : Layout Stat}.
Variables (cfg : Config) (e : Inputs).
Abbreviation Mach := (Machine A S Q V FO) (only parsing).
Implicit Types (s : System A S) (p : ProcessControlBlock S) (m : Mach).

(** A process changes its directory: the invariant is kept. *)
Lemma set_cwd_inv s x p d :
  proc_inv cfg s -> may_call (kern s) -> curr_proc s = Ret (x, p) ->
  let s' := write_pcb x (set_cwd d) s in
  proc_inv cfg s' /\ curr_proc s' = Ret (x, set_cwd d p) /\ others_same s s' x.
Proof.
  intros Hi Hm Hc s'. destruct (curr_proc_caller cfg s x p Hi Hm Hc) as (t & Hca). pose proof Hca as [Hx Hp [Hcin Hct] Hof Hid Hcr HCR _].
  assert (Ep : pcbs s' = <[x := set_cwd d p]> (pcbs s)) by exact (alter_insert_eq (pcbs s) x p (set_cwd d) Hp).
  split; [| split].
  - apply (change_space_inv cfg s s' x p (set_cwd d p) t); try done.
    + cbn [adsp set_cwd]. rewrite <- Hcr. symmetry. by apply write_cr3_same.
    + assert (Hl : forall y, live_space s' y = live_space s y); [| destruct (pi_mem _ s Hi) as [? ? ? ? ? ? ?]; split; try done; intros *; rewrite !Hl; eauto].
      intros y. unfold live_space. rewrite Ep. cbn [PROC s' write_pcb set_pcbs]. destruct (decide (y = x)) as [-> | Hne].
      * by rewrite lookup_insert_eq, Hp.
      * by rewrite lookup_insert_ne.
  - unfold curr_proc, curr_thread, read_tcb. change (kern s') with (kern s). rewrite Hct. cbn [unwrap obind]. rewrite Hof. cbn [unwrap obind].
    rewrite Ep, lookup_insert_eq. done.
  - intros y q Hy Hne Hq. split; [| done]. by rewrite Ep, lookup_insert_ne.
Qed.

Lemma chdir_ret m x p at_ path d v fuel tf :
  proc_inv cfg (sys m) -> may_call (kern (sys m)) -> curr_proc (sys m) = Ret (x, p) ->
  ~ 0 ∈ path -> utf8_valid path = true -> (length path < Z.to_nat 4096)%nat -> block_ok (sys m) (at_, path ++ [0]) ->
  v_find_dentry (cwd p) path (vfs m) = Ret (Some d, v) ->
  exists s1 tf1, user_chdir cfg e fuel at_ path tf m = Ret (0, tf1, set_sys (write_pcb x (set_cwd d) s1) (set_vfs v m)) /\
    proc_inv cfg s1 /\ same_but_ram (sys m) s1 /\ others_same (sys m) s1 x /\
    forall va, user_addr va -> is_Some (user_byte (ram (sys m)) (CR3 (sys m)) va) -> is_Some (user_byte (ram s1) (CR3 s1) va).
Proof.
  intros Hi Hm Hc Hn Hu Hl [Hmap Hb] Hf. cbn [fst snd] in *.
  destruct (write_user_ok cfg (path ++ [0]) at_ (sys m) x p Hi Hm Hc Hmap Hb) as (s1 & E & Hi1 & Ho1 & Hs1 & Hr1).
  assert (HC : CR3 s1 = CR3 (sys m)) by (by injection Hs1).
  assert (Hh : holds_block s1 (at_, path ++ [0])).
  { intros i y Hy. cbn [fst snd] in *. apply lookup_lt_Some in Hy as Hlt. destruct Hmap as (H0 & H1 & _).
    rewrite HC, Hr1 by (unfold user_addr; lia). rewrite decide_True by lia. by replace (Z.to_nat (at_ + Z.of_nat i - at_)) with i by lia. }
  exists s1. eexists. unfold user_chdir. rewrite cstring_ret by done. cbn [obind]. rewrite E. cbn [obind].
  unfold user_call, trap, syscall_handler. cbn [int_0x80 tf_rax tf_rdi tf_rsi tf_rdx default from_option kind_from obind]. unfold Datatypes.id.
  unfold call_chdir, user_str, find_path. cbn [sys set_sys]. rewrite (cstr_ok path at_ s1 Hn Hh Hl). cbn [obind]. unfold to_str. rewrite Hu. cbn [obind].
  rewrite (same_curr _ _ Hs1), Hc. cbn [obind vfs set_sys]. rewrite Hf. cbn [obind unwrap sys set_sys set_vfs]. rewrite (same_curr _ _ Hs1), Hc. cbn [obind].
  split; [destruct fuel; reflexivity |]. split; [done |]. split; [done |]. split; [done |].
  intros va Hva Hsome. rewrite HC, Hr1 by done. case_decide; [| done]. apply lookup_lt_is_Some_2. lia.
Qed.

(** [pwd] returns the path of the working directory, or its first 200 bytes. *)
Lemma pwd_ret m x p at_ path fuel tf :
  proc_inv cfg (sys m) -> may_call (kern (sys m)) -> curr_proc (sys m) = Ret (x, p) ->
  mapped_bytes (sys m) at_ 200 -> v_full_path (vfs m) (cwd p) = Ret path -> Forall is_byte path -> utf8_valid (take 200 path) = true ->
  exists tf1 s1, user_pwd cfg e fuel at_ tf m = Ret (take 200 path, tf1, set_sys s1 m) /\ proc_inv cfg s1 /\
    others_same (sys m) s1 x /\ same_but_ram (sys m) s1.
Proof.
  intros Hi Hm Hc Hmap Hp Hb Hu.
  assert (Hz : Forall is_byte (replicate 200 0)) by (apply Forall_replicate; unfold is_byte; lia).
  destruct (write_user_ok cfg (replicate 200 0) at_ (sys m) x p Hi Hm Hc) as (s1 & E1 & Hi1 & Ho1 & Hs1 & Hr1); [by rewrite length_replicate | done |].
  assert (Ek : kern s1 = kern (sys m) /\ CR3 s1 = CR3 (sys m) /\ PROC s1 = PROC (sys m)) by (by injection Hs1). destruct Ek as (Ek & HC1 & HP1).
  rewrite length_replicate in Hr1. destruct Hmap as (H0 & H1 & Hmap).
  set (n := Z.min 200 (Z.of_nat (length path))). set (out := take (Z.to_nat n) path).
  assert (Hout : out = take 200 path).
  { unfold out, n. destruct (Z.min_spec 200 (Z.of_nat (length path))) as [[? ->] | [? ->]]; [done |]. rewrite Nat2Z.id. by rewrite !take_ge by lia. }
  assert (Hlen : Z.of_nat (length out) = n) by (unfold out, n; rewrite length_take; lia).
  destruct (write_user_ok cfg out at_ s1 x p Hi1) as (s2 & E2 & Hi2 & Ho2 & Hs2 & Hr2); [by rewrite Ek | by rewrite (same_curr _ _ Hs1) | | by apply Forall_take |].
  { split; [done |]. split; [lia |]. intros i Hi0. rewrite HC1, Hr1 by (unfold user_addr; lia). rewrite decide_True by lia. apply lookup_lt_is_Some_2. rewrite length_replicate. lia. }
  assert (HC2 : CR3 s2 = CR3 s1) by (by injection Hs2).
  assert (Er : read_user 200 at_ s2 = Ret (out ++ drop (length out) (replicate 200 0))).
  { assert (Hl : length (out ++ drop (length out) (replicate 200 0)) = 200%nat) by (rewrite length_app, length_drop, length_replicate; lia).
    rewrite <- Hl at 1. apply read_user_ok. intros i y Hy. apply lookup_lt_Some in Hy as Hlt.
    rewrite HC2, Hr2 by (unfold user_addr; lia). apply lookup_app_Some in Hy as [Hy | [Hge Hy]].
    - apply lookup_lt_Some in Hy as Hlt'. rewrite decide_True by lia. by replace (Z.to_nat (at_ + Z.of_nat i - at_)) with i by lia.
    - rewrite decide_False by lia. rewrite HC1, Hr1 by (unfold user_addr; lia). rewrite decide_True by lia.
      rewrite lookup_drop in Hy. replace (Z.to_nat (at_ + Z.of_nat i - at_)) with (length out + (i - length out))%nat by lia. done. }
  eexists _, s2. unfold user_pwd. rewrite E1. cbn [obind].
  unfold user_call, trap, syscall_handler. cbn [int_0x80 tf_rax tf_rdi tf_rsi tf_rdx default from_option kind_from obind]. unfold Datatypes.id.
  unfold call_getcwd. cbn [sys set_sys vfs]. rewrite (same_curr _ _ Hs1), Hc. cbn [obind]. rewrite Hp. cbn [obind]. fold n. fold out. rewrite E2. cbn [obind].
  split; [| split; [done |]].
  - assert (Es : slice (out ++ drop (length out) (replicate 200 0)) 0 n = Ret out).
    { rewrite slice_get by (rewrite ?length_app; lia). unfold get. cbn [Z.to_nat]. rewrite Z.sub_0_r, drop_0, <- Hlen, Nat2Z.id, take_app_length. done. }
    assert (Et : to_str out = Ret out) by (unfold to_str; by rewrite Hout, Hu).
    destruct fuel; cbn [returns_value returns obind finish tf_rax set_rax sys set_sys]; rewrite Er; cbn [obind]; rewrite Es; cbn [obind]; rewrite Et; cbn [obind]; rewrite Hout; reflexivity.
  - split; [by apply (others_same_trans cfg (sys m) s1) | unfold same_but_ram in *; congruence].
Qed.

(** [C39] [chdir] and [pwd] agree: after a process has changed to a path that
    resolves to [d], [pwd] returns the full path of [d], or its first 200 bytes;
    the path goes through the process's memory to the kernel and back.  The
    process's directory is [d], and no other process sees a change. *)
Theorem chdir_then_pwd m x p at1 at2 path d v full fuel tf tf2 :
  proc_inv cfg (sys m) -> may_call (kern (sys m)) -> curr_proc (sys m) = Ret (x, p) ->
  ~ 0 ∈ path -> utf8_valid path = true -> (length path < Z.to_nat 4096)%nat -> block_ok (sys m) (at1, path ++ [0]) ->
  v_find_dentry (cwd p) path (vfs m) = Ret (Some d, v) -> v_full_path v d = Ret full ->
  mapped_bytes (sys m) at2 200 -> Forall is_byte full -> utf8_valid (take 200 full) = true ->
  exists tf1 m1 tf3 m2, user_chdir cfg e fuel at1 path tf m = Ret (0, tf1, m1) /\
    user_pwd cfg e fuel at2 tf2 m1 = Ret (take 200 full, tf3, m2) /\
    proc_inv cfg (sys m2) /\ curr_proc (sys m2) = Ret (x, set_cwd d p) /\ others_same (sys m) (sys m2) x /\ files m2 = files m.
Proof.
  intros Hi Hm Hc Hn Hu Hl Hok Hf Hfull Hmap Hb Hu2.
  destruct (chdir_ret m x p at1 path d v fuel tf Hi Hm Hc Hn Hu Hl Hok Hf) as (s1 & tf1 & E1 & Hi1 & Hs1 & Ho1 & Hsome).
  assert (Ek : kern s1 = kern (sys m) /\ PROC s1 = PROC (sys m)) by (by injection Hs1). destruct Ek as (Ek & EP).
  destruct (set_cwd_inv s1 x p d Hi1) as (Hi2 & Hc2 & Ho2); [by rewrite Ek | by rewrite (same_curr _ _ Hs1) |].
  set (m1 := set_sys (write_pcb x (set_cwd d) s1) (set_vfs v m)) in *.
  destruct (pwd_ret m1 x (set_cwd d p) at2 full fuel tf2 Hi2) as (tf3 & s3 & E3 & Hi3 & Ho3 & Hs3); [by cbn; rewrite Ek | done | | done | done | done |].
  { destruct Hmap as (H0 & H1 & Hmap). split; [done |]. split; [done |]. intros i Hi0. apply Hsome; [unfold user_addr; lia | by apply Hmap]. }
  exists tf1, m1, tf3, (set_sys s3 m1). split; [done |]. split; [done |]. split; [done |].
  split; [by cbn [sys set_sys]; rewrite (same_curr _ _ Hs3) |]. split; [| done].
  apply (others_same_trans cfg (sys m) s1); [done | done | done |]. by apply (others_same_trans cfg s1 (sys m1)).
Qed.
End Cwd.
