(* ===== verification/Programs.v ===== *)
(** * User programs

    The shell, [ls] and [print_mouse_movement] of [userland/src/bin] as
    programs over the functions of the user library: a program is a tree of
    library calls, each with the rest of the program for every answer.  What
    the calls do is in [UserLib]; here a [World] answers them.

    The mouse program never leaves the screen; the shell ends every turn with
    the prompt of the directory it is in, runs a program in the child and
    waits for it in the parent, and the lines that make it panic are known. *)
From S2P Require Import Prelude Slices Text UserMem XqUi.

(** ** Programs *)

(** The library functions the programs call, with the types of their results.
    [read] answers the buffer and the number it returns. *)
Inductive LibCall : Type -> Type :=
| LInitHeap : LibCall unit
| LPwd : LibCall (list Z)
| LPrint (text : list Z) : LibCall unit
| LSerial (text : list Z) : LibCall unit
| LOpen (path : list Z) : LibCall Z
| LClose (fd : Z) : LibCall unit
| LRead (fd len : Z) : LibCall (list Z * Z)
| LGetDents (fd : Z) : LibCall (list (list Z))
| LChdir (path : list Z) : LibCall unit
| LFork : LibCall Z
| LExecvp (program_name : list Z) (argv : list (list Z)) : LibCall unit
| LWaitpid (pid : Z) : LibCall unit
| LGetBackbuffer : LibCall UserWindow.

Inductive Prog (R : Type) :=
| Done (r : R)
| Crash
| Call {X : Type} (c : LibCall X) (k : X -> Prog R).
Arguments Done {R}.
Arguments Crash {R}.
Arguments Call {R X}.

#[export] Instance prog_ret : MRet Prog := @Done.
#[export] Instance prog_bind : MBind Prog :=
  fun R R' f => fix bind p :=
    match p with
    | Done r => f r
    | Crash => Crash
    | Call c k => Call c (fun x => bind (k x))
    end.
Definition lift {X} (c : LibCall X) : Prog X := Call c Done.
Definition of_outcome {R} (o : outcome R) : Prog R := match o with Ret r => Done r | _ => Crash end.

(** ** [print_mouse_movement] *)

(** The packets of one read. *)
Fixpoint move_loop (fuel : nat) (buffer : list Z) (bytes_read i x y : Z) : outcome (Z * Z) :=
  match fuel with
  | O => NoFuel
  | S fuel =>
      if i + 2 <? bytes_read then
        let! status := idx buffer i in
        let! x_mov := idx buffer (i + 1) in
        let! y_mov := idx buffer (i + 2) in
        let! x := chk_i 32 (x + decode_delta status 4 x_mov) in
        let! y := chk_i 32 (y - decode_delta status 5 y_mov) in
        move_loop fuel buffer bytes_read (i + 3) x y
      else Ret (x, y)
  end.

(** One turn of the loop: the movement, and the bounds of the screen. *)
Definition mouse_moved (width height : Z) (buffer : list Z) (bytes_read x y : Z) : outcome (Z * Z) :=
  let! '(x, y) := move_loop (S (Z.to_nat bytes_read)) buffer bytes_read 0 x y in
  let! w := chk_u 32 (width - 1) in
  let! h := chk_u 32 (height - 1) in
  let '(max_x, max_y) := (wrap_i 32 w, wrap_i 32 h) in
  let x := if x <? 0 then 0 else x in
  let y := if y <? 0 then 0 else y in
  let x := if max_x <? x then max_x else x in
  let y := if max_y <? y then max_y else y in
  Ret (x, y).

Section Mouse.
(** The line ({}, {} and a line feed) that [serial_println!] formats. *)
Variable show_point : Z -> Z -> list Z.

Definition mouse_turn (fd width height x y : Z) : Prog (Z * Z) :=
  br ← lift (LRead fd 30);
  let '(buffer, bytes_read) := br in
  if 0 <? bytes_read then
    p ← of_outcome (mouse_moved width height buffer bytes_read x y);
    let '(x, y) := p in
    lift (LSerial (show_point x y)) ;; Done (x, y)
  else Done (x, y).

Fixpoint mouse_turns (n : nat) (fd width height x y : Z) : Prog (Z * Z) :=
  match n with
  | O => Done (x, y)
  | S n => p ← mouse_turn fd width height x y; mouse_turns n fd width height (fst p) (snd p)
  end.

(** "/dev/mouse" *)
Definition mouse_path : list Z := [47; 100; 101; 118; 47; 109; 111; 117; 115; 101].

(** The program with [n] turns of its endless loop. *)
Definition print_mouse_movement (n : nat) : Prog (Z * Z) :=
  lift LInitHeap ;;
  fd ← lift (LOpen mouse_path);
  display ← lift LGetBackbuffer;
  let x := Z.quot (wrap_i 32 (uw_width display)) 2 in
  let y := Z.quot (wrap_i 32 (uw_height display)) 2 in
  mouse_turns n fd (uw_width display) (uw_height display) x y.
End Mouse.

(** ** [ls], which says hello *)
Definition hello : list Z :=
  [72; 101; 108; 108; 111; 32; 87; 111; 114; 108; 100; 32; 102; 114; 111; 109; 32; 88; 105; 97; 110; 103; 81; 105; 33].
Definition ls_main : Prog Z := lift LInitHeap ;; lift (LPrint (hello ++ [10])) ;; Done 0.

(** ** The shell *)

(** The characters of a valid UTF-8 string. *)
Fixpoint chars (l : list Z) : list Z :=
  match l with
  | [] => []
  | b0 :: l1 =>
      if b0 <=? 127 then b0 :: chars l1 else
      match l1 with
      | [] => []
      | b1 :: l2 =>
          if b0 <=? 223 then (b0 - 192) * 64 + (b1 - 128) :: chars l2 else
          match l2 with
          | [] => []
          | b2 :: l3 =>
              if b0 <=? 239 then ((b0 - 224) * 64 + (b1 - 128)) * 64 + (b2 - 128) :: chars l3 else
              match l3 with
              | [] => []
              | b3 :: l4 => (((b0 - 240) * 64 + (b1 - 128)) * 64 + (b2 - 128)) * 64 + (b3 - 128) :: chars l4
              end
          end
      end
  end.

(** [line.trim().is_empty()] *)
Definition is_blank (line : list Z) : bool := match trim (chars line) with [] => true | _ => false end.

Definition PROMPT_PREFIX : list Z := [114; 111; 111; 116; 64; 113; 105; 58].
Definition prompt (cwd : list Z) : list Z := PROMPT_PREFIX ++ cwd ++ [32; 36; 32].
Definition w_cd : list Z := [99; 100].
Definition w_ls : list Z := [108; 115].
Definition w_pwd : list Z := [112; 119; 100].
Definition w_export : list Z := [101; 120; 112; 111; 114; 116].
Definition w_unset : list Z := [117; 110; 115; 101; 116].

(** [&buffer[..bytes_read]] as a string. *)
Definition line_of (buffer : list Z) (bytes_read : Z) : outcome (list Z) :=
  if bytes_read <=? Z.of_nat (length buffer) then
    let s := take (Z.to_nat bytes_read) buffer in if utf8_valid s then Ret s else Panic
  else Panic.
Definition read_line : Prog (list Z) :=
  br ← lift (LRead 0 100); of_outcome (line_of (fst br) (snd br)).

Fixpoint print_lines (l : list (list Z)) : Prog unit :=
  match l with
  | [] => Done tt
  | entry :: l => lift (LPrint (entry ++ [10])) ;; print_lines l
  end.

Section Shell.
(** [shell_words::split(..).ok()] *)
Variable parse_shell_input : list Z -> option (list (list Z)).

Definition run_line (cwd : list Z) (parsed : list (list Z)) : Prog unit :=
  match parsed with
  | [] => Crash
  | program_name :: args =>
      if bool_decide (program_name = w_cd) then
        match args with [] => Crash | path :: _ => lift (LChdir path) end
      else if bool_decide (program_name = w_ls) then
        fd ← lift (LOpen cwd);
        entries ← lift (LGetDents fd);
        print_lines entries ;; lift (LClose fd)
      else if bool_decide (program_name = w_pwd) then lift (LPrint (cwd ++ [10]))
      else if bool_decide (program_name = w_export) then Done tt
      else if bool_decide (program_name = w_unset) then Done tt
      else
        childpid ← lift LFork;
        if childpid =? 0 then lift (LExecvp program_name args) else lift (LWaitpid childpid)
  end.

(** One turn of the loop; the result is the new [cwd]. *)
Definition shell_turn (cwd : list Z) : Prog (list Z) :=
  line ← read_line;
  (if is_blank line then Done tt else
   match parse_shell_input line with
   | Some parsed => run_line cwd parsed
   | None => Done tt
   end) ;;
  cwd ← lift LPwd;
  lift (LPrint (prompt cwd)) ;; Done cwd.

Fixpoint shell_turns (n : nat) (cwd : list Z) : Prog (list Z) :=
  match n with
  | O => Done cwd
  | S n => cwd ← shell_turn cwd; shell_turns n cwd
  end.

Definition shell_main (n : nat) : Prog (list Z) :=
  lift LInitHeap ;;
  cwd ← lift LPwd;
  lift (LPrint (prompt cwd)) ;; shell_turns n cwd.
End Shell.

(** ** Running *)

(** What answers the calls: the library and the kernel, in some state. *)
Class World (W : Type) := answer : forall X, LibCall X -> W -> X * W.
Arguments answer {W _ X}.

Record Event := mkEvent { ev_type : Type; ev_call : LibCall ev_type; ev_answer : ev_type }.
Arguments mkEvent {ev_type}.

Fixpoint run {W} `{World W} {R} (p : Prog R) (w : W) : outcome R * list Event * W :=
  match p with
  | Done r => (Ret r, [], w)
  | Crash => (Panic, [], w)
  | Call c k =>
      let '(x, w) := answer c w in
      let '(o, evs, w) := run (k x) w in (o, mkEvent c x :: evs, w)
  end.
Definition result {W} `{World W} {R} (p : Prog R) (w : W) : outcome R := fst (fst (run p w)).
Definition events {W} `{World W} {R} (p : Prog R) (w : W) : list Event := snd (fst (run p w)).
Definition after {W} `{World W} {R} (p : Prog R) (w : W) : W := snd (run p w).

(** ** Lemmas on runs *)
Section Runs.
Context {W : Type} {HW : World W}.

Lemma run_bind {R R'} (p : Prog R) (f : R -> Prog R') : forall w o evs w1, run p w = (Ret o, evs, w1) ->
  run (p ≫= f) w = let '(o2, evs2, w2) := run (f o) w1 in (o2, evs ++ evs2, w2).
Proof.
  induction p as [r| |X c k IH]; intros w o evs w1 E.
  - cbn in *. injection E as <- <- <-. by destruct (run (f r) w) as [[]].
  - done.
  - cbn in E. change (run (Call c k ≫= f) w) with
      (let '(x, w0) := answer c w in let '(o2, evs2, w2) := run (k x ≫= f) w0 in (o2, mkEvent c x :: evs2, w2)).
    destruct (answer c w) as [x w0]. destruct (run (k x) w0) as [[o0 e0] w0'] eqn:E0.
    injection E as -> <- <-. rewrite (IH x w0 o e0 w0' E0). by destruct (run (f o) w0') as [[]].
Qed.

Lemma run_lift {X} (c : LibCall X) w : run (lift c) w = (Ret (fst (answer c w)), [mkEvent c (fst (answer c w))], snd (answer c w)).
Proof. cbn. by destruct (answer c w). Qed.

Lemma run_call {X R} (c : LibCall X) (f : X -> Prog R) w x w1 : answer c w = (x, w1) ->
  run (lift c ≫= f) w = let '(o, evs, w2) := run (f x) w1 in (o, mkEvent c x :: evs, w2).
Proof. intros E. rewrite (run_bind (lift c) f w x [mkEvent c x] w1); [done |]. rewrite run_lift, E. done. Qed.
End Runs.

(** ** The path of the mouse *)

(** A movement is a number of nine bits in two's complement, its sign in the
    status byte. *)
Lemma decode_delta_nine status bit mov :
  is_byte status -> is_byte mov -> bit = 4 \/ bit = 5 ->
  decode_delta status bit mov = mov - (if Z.testbit status bit then 256 else 0).
Proof.
  intros Hs Hm Hb. unfold decode_delta.
  assert (E1 : (Z.land status (Z.shiftl 1 bit) =? 0) = negb (Z.testbit status bit)).
  { assert (C : forallb (fun s => forallb (fun b => Bool.eqb (Z.land s (Z.shiftl 1 b) =? 0) (negb (Z.testbit s b))) [4; 5]) (seqZ 0 256) = true)
      by (vm_compute; reflexivity).
    rewrite forallb_forall in C. specialize (C status). rewrite <- list_elem_of_In, elem_of_seqZ in C.
    specialize (C ltac:(unfold is_byte in Hs; lia)). rewrite forallb_forall in C. apply Bool.eqb_prop, C. cbn. intuition. }
  rewrite E1. destruct (Z.testbit status bit); cbn [negb]; [| unfold is_byte in *; rewrite wrap_i_small by lia; lia].
  assert (C : forallb (fun m => wrap_i 16 (Z.lor m 0xFF00) =? m - 256) (seqZ 0 256) = true) by (vm_compute; reflexivity).
  rewrite forallb_forall in C. apply Z.eqb_eq, C. rewrite <- list_elem_of_In. apply elem_of_seqZ. unfold is_byte in *. lia.
Qed.

Definition movement (status bit mov : Z) : Z := mov - (if Z.testbit status bit then 256 else 0).

(** The sum of the movements of the packets in some bytes. *)
Fixpoint moved (l : list Z) : Z * Z :=
  match l with
  | status :: x :: y :: l => (movement status 4 x + fst (moved l), movement status 5 y + snd (moved l))
  | _ => (0, 0)
  end.

(** The point after a read: as far as the mouse was moved, up for positive
    numbers, and not further than the edge of the screen. *)
Definition next_point (width height : Z) (p : Z * Z) (bytes : list Z) : Z * Z :=
  (Z.max 0 (Z.min (width - 1) (fst p + fst (moved bytes))), Z.max 0 (Z.min (height - 1) (snd p - snd (moved bytes)))).

Fixpoint trail (width height : Z) (p : Z * Z) (reads : list (list Z)) : list (Z * Z) :=
  match reads with
  | [] => []
  | bytes :: reads => next_point width height p bytes :: trail width height (next_point width height p bytes) reads
  end.

Lemma movement_range status bit mov : is_byte mov -> -256 <= movement status bit mov < 256.
Proof. unfold is_byte, movement. destruct (Z.testbit status bit); lia. Qed.

Lemma move_loop_spec buffer n : forall fuel i x y,
  Forall is_byte buffer -> 0 <= n <= Z.of_nat (length buffer) -> 0 <= i -> Z.max 0 (n - i) < Z.of_nat fuel ->
  - 2 ^ 30 - 256 * i <= x <= 2 ^ 30 + 256 * i -> - 2 ^ 30 - 256 * i <= y <= 2 ^ 30 + 256 * i -> n <= 30 ->
  move_loop fuel buffer n i x y =
    Ret (x + fst (moved (drop (Z.to_nat i) (take (Z.to_nat n) buffer))), y - snd (moved (drop (Z.to_nat i) (take (Z.to_nat n) buffer)))).
Proof.
  induction fuel as [|fuel IH]; intros i x y Hb Hn Hi Hf Hx Hy H30; [lia |].
  cbn [move_loop]. destruct (Z.ltb_spec (i + 2) n) as [Hlt|Hge].
  - destruct (lookup_lt_is_Some_2 buffer (Z.to_nat i)) as [s Hs]; [lia |].
    destruct (lookup_lt_is_Some_2 buffer (Z.to_nat (i + 1))) as [xm Hxm]; [lia |].
    destruct (lookup_lt_is_Some_2 buffer (Z.to_nat (i + 2))) as [ym Hym]; [lia |].
    pose proof (proj1 (Forall_lookup _ _) Hb _ _ Hs) as Bs. pose proof (proj1 (Forall_lookup _ _) Hb _ _ Hxm) as Bx.
    pose proof (proj1 (Forall_lookup _ _) Hb _ _ Hym) as By. cbn in Bs, Bx, By.
    rewrite (idx_ret _ _ s), (idx_ret _ _ xm), (idx_ret _ _ ym) by (done || lia). cbn [obind].
    rewrite !decode_delta_nine by auto. fold (movement s 4 xm) (movement s 5 ym).
    pose proof (movement_range s 4 xm Bx). pose proof (movement_range s 5 ym By).
    rewrite !chk_i_ret by lia. cbn [obind]. rewrite IH by (done || lia).
    assert (E : drop (Z.to_nat i) (take (Z.to_nat n) buffer) = s :: xm :: ym :: drop (Z.to_nat (i + 3)) (take (Z.to_nat n) buffer)).
    { rewrite (drop_S _ s) by (rewrite lookup_take_lt by lia; done).
      rewrite (drop_S _ xm) by (rewrite lookup_take_lt by lia; by replace (S (Z.to_nat i)) with (Z.to_nat (i + 1)) by lia).
      rewrite (drop_S _ ym) by (rewrite lookup_take_lt by lia; by replace (S (S (Z.to_nat i))) with (Z.to_nat (i + 2)) by lia).
      do 4 f_equal. lia. }
    rewrite E. cbn [moved fst snd]. do 2 f_equal; lia.
  - assert (Hl : (length (drop (Z.to_nat i) (take (Z.to_nat n) buffer)) <= 2)%nat) by (rewrite length_drop, length_take; lia).
    destruct (drop (Z.to_nat i) (take (Z.to_nat n) buffer)) as [|? [|? [|? ?]]]; cbn [moved fst snd] in *; try (do 2 f_equal; lia).
    simpl in Hl. lia.
Qed.

Definition in_screen (width height : Z) (p : Z * Z) : Prop := 0 <= fst p < width /\ 0 <= snd p < height.

Lemma next_point_in width height p bytes : 0 < width -> 0 < height -> in_screen width height (next_point width height p bytes).
Proof. unfold in_screen, next_point. cbn. lia. Qed.

Lemma bounded v m : 0 <= m -> (if m <? (if v <? 0 then 0 else v) then m else if v <? 0 then 0 else v) = Z.max 0 (Z.min m v).
Proof. intros Hm. destruct (Z.ltb_spec v 0); [| destruct (Z.ltb_spec m v)]; try lia. destruct (Z.ltb_spec m 0); lia. Qed.

Lemma mouse_moved_spec width height buffer n x y :
  0 < width <= 2 ^ 30 -> 0 < height <= 2 ^ 30 -> in_screen width height (x, y) ->
  Forall is_byte buffer -> 0 <= n <= Z.of_nat (length buffer) -> n <= 30 ->
  mouse_moved width height buffer n x y = Ret (next_point width height (x, y) (take (Z.to_nat n) buffer)).
Proof.
  intros Hw Hh [Hx Hy] Hb Hn H30. cbn in Hx, Hy. unfold mouse_moved. rewrite move_loop_spec by (done || lia). cbn [obind].
  change (Z.to_nat 0) with 0%nat. rewrite drop_0, !chk_u_ret by lia. cbn [obind]. rewrite !wrap_i_small by lia.
  unfold next_point. cbn [fst snd]. set (dx := fst (moved _)). set (dy := snd (moved _)). clearbody dx dy.
  cbv beta iota zeta. by rewrite !bounded by lia.
Qed.

(** What the program writes to the serial port, and the reads that brought
    something. *)
Definition serial_of (ev : Event) : option (list Z) := match ev_call ev with LSerial text => Some text | _ => None end.
Definition read_of (ev : Event) : option (list Z) :=
  match ev_call ev in LibCall X return X -> option (list Z) with
  | LRead _ _ => fun '(buffer, bytes_read) => if 0 <? bytes_read then Some (take (Z.to_nat bytes_read) buffer) else None
  | _ => fun _ => None
  end (ev_answer ev).

(** The window has a size, and a read fills part of the buffer. *)
Record mouse_world {W} `{World W} (window : UserWindow) : Prop := {
  mw_window w : fst (answer LGetBackbuffer w) = window;
  mw_width : 0 < uw_width window <= 2 ^ 30;
  mw_height : 0 < uw_height window <= 2 ^ 30;
  mw_buffer w fd : length (fst (fst (answer (LRead fd 30) w))) = 30%nat /\ Forall is_byte (fst (fst (answer (LRead fd 30) w)));
  mw_count w fd : 0 <= snd (fst (answer (LRead fd 30) w)) <= 30
}.

Section MouseRuns.
Context {W : Type} {HW : World W} (window : UserWindow) (HM : mouse_world window) (show_point : Z -> Z -> list Z).
Abbreviation wd := (uw_width window).
Abbreviation ht := (uw_height window).

Lemma mouse_turn_runs fd x y w : in_screen wd ht (x, y) ->
  exists p evs w', run (mouse_turn show_point fd wd ht x y) w = (Ret p, evs, w') /\ in_screen wd ht p /\
    p = foldl (next_point wd ht) (x, y) (omap read_of evs) /\
    omap serial_of evs = uncurry show_point <$> trail wd ht (x, y) (omap read_of evs).
Proof.
  intros Hp. pose proof (mw_width window HM). pose proof (mw_height window HM). unfold mouse_turn.
  destruct (mw_buffer window HM w fd) as [Hl Hb]. pose proof (mw_count window HM w fd) as Hk.
  destruct (answer (LRead fd 30) w) as [[b k] w1] eqn:E. cbn [fst snd] in *. rewrite (run_call _ _ _ _ _ E).
  destruct (Z.ltb_spec 0 k) as [Hk0|Hk0].
  - rewrite mouse_moved_spec by (done || lia). cbn [of_outcome]. change (Done ?p ≫= ?f) with (f p). cbn beta.
    destruct (next_point wd ht (x, y) (take (Z.to_nat k) b)) as [x' y'] eqn:En.
    pose proof (next_point_in wd ht (x, y) (take (Z.to_nat k) b) ltac:(lia) ltac:(lia)) as Hin. rewrite En in Hin.
    destruct (answer (LSerial (show_point x' y')) w1) as [[] w2] eqn:E2. rewrite (run_call _ _ _ _ _ E2). cbn [run].
    eexists _, _, _. split; [reflexivity |]. cbn [omap list_omap read_of serial_of ev_call ev_answer].
    rewrite (proj2 (Z.ltb_lt _ _) Hk0). cbn. split; [done |]. split; [done |]. by injection En as <- <-.
  - eexists _, _, _. split; [reflexivity |]. cbn [omap list_omap read_of serial_of ev_call ev_answer].
    rewrite (proj2 (Z.ltb_ge _ _) Hk0). cbn. done.
Qed.

Lemma trail_app p l l' : trail wd ht p (l ++ l') = trail wd ht p l ++ trail wd ht (foldl (next_point wd ht) p l) l'.
Proof. revert p. induction l as [|b l IH]; intros p; [done |]. cbn. by rewrite IH. Qed.

Lemma mouse_turns_run n : forall fd x y w, in_screen wd ht (x, y) ->
  exists p evs w', run (mouse_turns show_point n fd wd ht x y) w = (Ret p, evs, w') /\ in_screen wd ht p /\
    omap serial_of evs = uncurry show_point <$> trail wd ht (x, y) (omap read_of evs).
Proof.
  induction n as [|n IH]; intros fd x y w Hp; cbn [mouse_turns]; [by eexists _, _, _ |].
  destruct (mouse_turn_runs fd x y w Hp) as (p & evs & w1 & E & Hp1 & Ef & Es). rewrite (run_bind _ _ _ _ _ _ E).
  destruct (IH fd (fst p) (snd p) w1) as (p2 & evs2 & w2 & E2 & Hp2 & Es2); [by destruct p |]. rewrite E2.
  eexists _, _, _. split; [reflexivity |]. split; [done |]. rewrite !omap_app, Es, Es2, trail_app, fmap_app, <- Ef. by destruct p.
Qed.

Lemma trail_in p reads : Forall (in_screen wd ht) (trail wd ht p reads).
Proof.
  pose proof (mw_width window HM). pose proof (mw_height window HM). revert p.
  induction reads as [|b reads IH]; intros p; constructor; [apply next_point_in; lia | apply IH].
Qed.
End MouseRuns.

(** [C36] The mouse program follows the mouse within the screen.  Whatever
    bytes the mouse sends, for any number of turns the program does not
    panic; the points it reports are, from the middle of the screen on, the
    sums of the movements of each read, as signed numbers of nine bits with the
    vertical axis turned, stopped at the edges; all of them are on the screen. *)
Theorem mouse_stays_on_screen {W} {HW : World W} window show_point n w :
  mouse_world window ->
  exists p reads, result (print_mouse_movement show_point n) w = Ret p /\
    reads = omap read_of (events (print_mouse_movement show_point n) w) /\
    omap serial_of (events (print_mouse_movement show_point n) w)
      = uncurry show_point <$> trail (uw_width window) (uw_height window) (uw_width window / 2, uw_height window / 2) reads /\
    Forall (in_screen (uw_width window) (uw_height window))
      (p :: trail (uw_width window) (uw_height window) (uw_width window / 2, uw_height window / 2) reads).
Proof.
  intros HM. pose proof (mw_width window HM). pose proof (mw_height window HM). unfold result, events, print_mouse_movement.
  destruct (answer LInitHeap w) as [[] w1] eqn:E1. rewrite (run_call _ _ _ _ _ E1).
  destruct (answer (LOpen mouse_path) w1) as [fd w2] eqn:E2. rewrite (run_call _ _ _ _ _ E2).
  pose proof (mw_window window HM w2) as Hw. destruct (answer LGetBackbuffer w2) as [d w3] eqn:E3. cbn in Hw. subst d.
  rewrite (run_call _ _ _ _ _ E3), !wrap_i_small, !Z.quot_div_nonneg by lia.
  destruct (mouse_turns_run window HM show_point n fd (uw_width window / 2) (uw_height window / 2) w3) as (p & evs & w4 & E & Hp & Es).
  { split; cbn; (split; [apply Z.div_pos; lia | apply Z.div_lt_upper_bound; lia]). }
  rewrite E. cbn [fst snd omap list_omap]. eexists p, _. split; [done |]. split; [reflexivity |]. split; [exact Es |].
  constructor; [done | by apply trail_in].
Qed.

(** ** The turns of the shell *)
Section ShellRuns.
Context {W : Type} {HW : World W} (parse_shell_input : list Z -> option (list (list Z))).

(** The program runs to its end. *)
Definition ends {R} (p : Prog R) : Prop := forall w, exists r evs w', run p w = (Ret r, evs, w').

Lemma ends_lift {X} (c : LibCall X) : ends (lift c).
Proof. intros w. rewrite run_lift. eauto. Qed.
Lemma ends_bind {R R'} (p : Prog R) (f : R -> Prog R') : ends p -> (forall r, ends (f r)) -> ends (p ≫= f).
Proof.
  intros Hp Hf w. destruct (Hp w) as (r & evs & w1 & E). rewrite (run_bind _ _ _ _ _ _ E).
  destruct (Hf r w1) as (r2 & evs2 & w2 & E2). rewrite E2. eauto.
Qed.
Lemma ends_done {R} (r : R) : ends (Done r).
Proof. intros w. by eexists _, _, _. Qed.
Lemma ends_print_lines l : ends (print_lines l).
Proof. induction l as [|x l IH]; cbn [print_lines]; [apply ends_done | apply ends_bind; [apply ends_lift | done]]. Qed.

Lemma run_line_ends cwd name args : ~ (name = w_cd /\ args = []) -> ends (run_line cwd (name :: args)).
Proof.
  intros Hcd. cbn [run_line]. case_bool_decide; [destruct args; [by destruct Hcd | apply ends_lift] |].
  repeat (case_bool_decide; [first [apply ends_lift | apply ends_done |
    apply ends_bind; [apply ends_lift |]; intros fd; apply ends_bind; [apply ends_lift |]; intros l; apply ends_bind;
      [apply ends_print_lines | intros _; apply ends_lift]] |]).
  apply ends_bind; [apply ends_lift |]. intros pid. destruct (pid =? 0); apply ends_lift.
Qed.

(** The line that a turn reads. *)
Definition line_read (w : W) : outcome (list Z) :=
  line_of (fst (fst (answer (LRead 0 100) w))) (snd (fst (answer (LRead 0 100) w))).

Lemma line_of_cases b n : line_of b n = Panic \/ exists l, line_of b n = Ret l.
Proof. unfold line_of. destruct (n <=? _); [| by left]. cbn zeta. destruct (utf8_valid _); eauto. Qed.

Lemma run_read_line {R} (f : list Z -> Prog R) w line :
  line_read w = Ret line ->
  run (read_line ≫= f) w = let '(o, evs, w2) := run (f line) (snd (answer (LRead 0 100) w)) in
    (o, mkEvent (LRead 0 100) (fst (answer (LRead 0 100) w)) :: evs, w2).
Proof.
  intros E. unfold line_read in E. unfold read_line.
  rewrite (run_bind (lift (LRead 0 100) ≫= fun br => of_outcome (line_of (fst br) (snd br))) f w line
    [mkEvent (LRead 0 100) (fst (answer (LRead 0 100) w))] (snd (answer (LRead 0 100) w))); [done |].
  destruct (answer (LRead 0 100) w) as [br w1] eqn:Ea. cbn [fst snd] in *. rewrite (run_call _ _ _ _ _ Ea), E. done.
Qed.

(** What the turn does with the line. *)
Definition line_action (cwd line : list Z) : Prog unit :=
  if is_blank line then Done tt else
  match parse_shell_input line with Some parsed => run_line cwd parsed | None => Done tt end.
Definition prompt_again : Prog (list Z) := cwd ← lift LPwd; lift (LPrint (prompt cwd)) ;; Done cwd.

Lemma shell_turn_eq cwd : shell_turn parse_shell_input cwd = (line ← read_line; line_action cwd line ;; prompt_again).
Proof. reflexivity. Qed.

Lemma run_prompt_again w : exists cwd' w', run prompt_again w = (Ret cwd', [mkEvent LPwd cwd'; mkEvent (LPrint (prompt cwd')) tt], w').
Proof.
  unfold prompt_again. destruct (answer LPwd w) as [cwd' w1] eqn:E1. rewrite (run_call _ _ _ _ _ E1).
  destruct (answer (LPrint (prompt cwd')) w1) as [[] w2] eqn:E2. rewrite (run_call _ _ _ _ _ E2). by eexists _, _.
Qed.

(** The lines the shell cannot run: bytes that are no UTF-8, a line without
    words that is not blank (a comment), and [cd] alone. *)
Definition breaks_shell (o : outcome (list Z)) : Prop :=
  o = Panic \/ exists line, o = Ret line /\ is_blank line = false /\
    (parse_shell_input line = Some [] \/ parse_shell_input line = Some [w_cd]).

Lemma line_action_ends cwd line : ~ breaks_shell (Ret line) -> ends (line_action cwd line).
Proof.
  intros Hb. unfold line_action. destruct (is_blank line) eqn:E; [apply ends_done |].
  destruct (parse_shell_input line) as [[|name args]|] eqn:Ep; [| | apply ends_done].
  - destruct Hb. right. eauto.
  - apply run_line_ends. intros [-> ->]. destruct Hb. right. eauto 6.
Qed.

(** A turn panics exactly on the lines that the shell cannot run; after any
    other line it ends with the prompt of the directory that [pwd] returns. *)
Theorem shell_turn_prompts cwd w :
  (breaks_shell (line_read w) -> result (shell_turn parse_shell_input cwd) w = Panic) /\
  (~ breaks_shell (line_read w) -> exists cwd' evs, result (shell_turn parse_shell_input cwd) w = Ret cwd' /\
     events (shell_turn parse_shell_input cwd) w = evs ++ [mkEvent LPwd cwd'; mkEvent (LPrint (prompt cwd')) tt]).
Proof.
  unfold result, events. rewrite shell_turn_eq. split.
  - intros [E|(line & E & Hbl & Hp)].
    + unfold line_read in E. unfold read_line.
      change ((lift (LRead 0 100) ≫= ?f) ≫= ?g) with (lift (LRead 0 100) ≫= fun br => f br ≫= g).
      destruct (answer (LRead 0 100) w) as [br w1] eqn:Ea. cbn [fst snd] in *. rewrite (run_call _ _ _ _ _ Ea), E. done.
    + rewrite (run_read_line _ _ _ E). unfold line_action. rewrite Hbl. destruct Hp as [-> | ->]; done.
  - intros Hb. destruct (line_of_cases (fst (fst (answer (LRead 0 100) w))) (snd (fst (answer (LRead 0 100) w)))) as [E|[line E]].
    { destruct Hb. by left. }
    assert (El : line_read w = Ret line) by exact E. rewrite El in Hb. rewrite (run_read_line _ _ _ El).
    destruct (line_action_ends cwd line Hb (snd (answer (LRead 0 100) w))) as ([] & evs & w1 & E1).
    rewrite (run_bind _ _ _ _ _ _ E1). destruct (run_prompt_again w1) as (cwd' & w2 & E2). rewrite E2.
    exists cwd', (mkEvent (LRead 0 100) (fst (answer (LRead 0 100) w)) :: evs). done.
Qed.

(** A line that names a program: after [fork] the child executes the program
    with its arguments and the parent waits for the child. *)
Theorem shell_runs_program cwd w line name args :
  line_read w = Ret line -> is_blank line = false -> parse_shell_input line = Some (name :: args) ->
  name ∉ [w_cd; w_ls; w_pwd; w_export; w_unset] ->
  exists read pid cwd', result (shell_turn parse_shell_input cwd) w = Ret cwd' /\
    events (shell_turn parse_shell_input cwd) w =
      [mkEvent (LRead 0 100) read; mkEvent LFork pid;
       if decide (pid = 0) then mkEvent (LExecvp name args) tt else mkEvent (LWaitpid pid) tt;
       mkEvent LPwd cwd'; mkEvent (LPrint (prompt cwd')) tt].
Proof.
  intros El Hbl Hp Hn. unfold result, events. rewrite shell_turn_eq, (run_read_line _ _ _ El).
  unfold line_action. rewrite Hbl, Hp. cbn [run_line]. rewrite !bool_decide_false by set_solver.
  set (w1 := snd _). destruct (answer LFork w1) as [pid w2] eqn:E2.
  assert (exists w3, run (childpid ← lift LFork; if childpid =? 0 then lift (LExecvp name args) else lift (LWaitpid childpid)) w1
    = (Ret tt, [mkEvent LFork pid; if decide (pid = 0) then mkEvent (LExecvp name args) tt else mkEvent (LWaitpid pid) tt], w3)) as [w3 E3].
  { rewrite (run_call _ _ _ _ _ E2). destruct (Z.eqb_spec pid 0) as [->|Hne].
    - rewrite run_lift. destruct (answer (LExecvp name args) w2) as [[] w3]. by exists w3.
    - rewrite run_lift, decide_False by done. destruct (answer (LWaitpid pid) w2) as [[] w3]. by exists w3. }
  rewrite (run_bind _ _ _ _ _ _ E3). destruct (run_prompt_again w3) as (cwd' & w4 & E4). rewrite E4.
  by eexists _, pid, cwd'.
Qed.
End ShellRuns.

(** ** A world: a mouse that goes up and right, and a line "xiangqi 1" *)
Module ProgramsWitness.
Definition a_window : UserWindow :=
  {| base_addr := 0; uw_width := 1280; uw_height := 1024; uw_bytes_per_pixel := 2; uw_bytes_per_line := 2560 |}.
(** Two packets: 200 to the right and 16 up, 200 to the right and 3 down. *)
Definition packets : list Z := [8; 200; 16; 40; 200; 253] ++ replicate 24 0.
Definition the_line : list Z := [120; 105; 97; 110; 103; 113; 105; 32; 49; 10].

(** The answers but those of [read]. *)
Definition rest_of_world (X : Type) (c : LibCall X) (rd : list Z * Z) : X :=
  match c in LibCall X return X with
  | LInitHeap | LPrint _ | LSerial _ | LClose _ | LChdir _ | LExecvp _ _ | LWaitpid _ => tt
  | LPwd => [47]
  | LOpen _ => 3
  | LRead _ _ => rd
  | LGetDents _ => []
  | LFork => 7
  | LGetBackbuffer => a_window
  end.
Definition shell_world : World nat := fun X c w => (rest_of_world X c (the_line ++ replicate 90 0, 10), S w).
Definition mouse_only : World nat := fun X c w => (rest_of_world X c (packets, if Nat.even w then 6 else 0), S w).

Definition words (line : list Z) : option (list (list Z)) :=
  Some (filter (fun x => x <> []) (Text.split 32 (filter (fun c => c <> 10) line))).

Lemma mouse_only_ok : @mouse_world nat mouse_only a_window.
Proof.
  split; try done.
  - intros w fd. split; [done |]. cbn [mouse_only answer rest_of_world fst snd]. apply Forall_app.
    split; [repeat (constructor; [unfold is_byte; lia |]); constructor | apply Forall_replicate; unfold is_byte; lia].
  - intros w fd. cbn. destruct (Nat.even w); lia.
Qed.
Definition show_pair (x y : Z) : list Z := [x; y].

Lemma mouse_stays_on_screen_witness :
  exists p reads, @result nat mouse_only _ (print_mouse_movement show_pair 5) 0%nat = Ret p /\
    reads = omap read_of (@events nat mouse_only _ (print_mouse_movement show_pair 5) 0%nat) /\
    omap serial_of (@events nat mouse_only _ (print_mouse_movement show_pair 5) 0%nat)
      = uncurry show_pair <$> trail (uw_width a_window) (uw_height a_window) (uw_width a_window / 2, uw_height a_window / 2) reads /\
    Forall (in_screen (uw_width a_window) (uw_height a_window))
      (p :: trail (uw_width a_window) (uw_height a_window) (uw_width a_window / 2, uw_height a_window / 2) reads).
Proof. exact (@mouse_stays_on_screen nat mouse_only a_window show_pair 5 0%nat mouse_only_ok). Defined.

(** The points of five turns: at the right edge the mouse stops. *)
Example mouse_path_seen : omap serial_of (@events nat mouse_only _ (print_mouse_movement show_pair 5) 0%nat)
  = [[1040; 499]; [1279; 486]; [1279; 473]; [1279; 460]].
Proof. vm_compute. reflexivity. Qed.

Lemma shell_runs_program_witness :
  exists read pid cwd', @result nat shell_world _ (shell_turn words [47]) 0%nat = Ret cwd' /\
    @events nat shell_world _ (shell_turn words [47]) 0%nat =
      [mkEvent (LRead 0 100) read; mkEvent LFork pid;
       if decide (pid = 0) then mkEvent (LExecvp (take 7 the_line) [[49]]) tt else mkEvent (LWaitpid pid) tt;
       mkEvent LPwd cwd'; mkEvent (LPrint (prompt cwd')) tt].
Proof.
  apply (@shell_runs_program nat shell_world words [47] 0%nat the_line (take 7 the_line) [[49]]).
  - vm_compute. reflexivity.
  - vm_compute. reflexivity.
  - vm_compute. reflexivity.
  - vm_compute. intros H. repeat (apply elem_of_cons in H as [H|H]; [discriminate H |]). by apply elem_of_nil in H.
Defined.

(** [cd] alone panics; a comment does, when it has no words. *)
Example cd_alone : breaks_shell words (Ret [99; 100; 10]).
Proof. right. exists [99; 100; 10]. split; [done |]. split; [vm_compute; reflexivity | right; vm_compute; reflexivity]. Qed.
End ProgramsWitness.
