(* ===== verification/FatVfs.v ===== *)
(** * The FAT file system behind the VFS

    The trait implementations of [kernel/src/fs/fat.rs] and [mount_fat32] of
    [kernel/src/fs/vfs/mod.rs]: the root file system as the VFS and the system
    calls see it.  An inode is made for a dentry and held by it and by the files
    that are open on it, so the address of the dentry names it; its directory
    entry is behind a lock and changes with the file. *)
From S2P Require Import Prelude Slices Text Memory Paging PagingMap UserMem UserStack Elf Isolation Slab Lock Thread ThreadInv Sched ThreadKeep Queue Pipe Proc ProcInv ProcOps ProcSys Disk Time Fat FatTable FatData FatFile FatProps Vfs Files UserCopy Syscall PipeCalls UserLib.

Record FatINode := mkFatINode { fi_inum : Z; fi_meta : FsMetadata; fi_mode : NodeType; fi_data : DirEntryWithLoc }.
Definition set_data (d : DirEntryWithLoc) (n : FatINode) : FatINode := mkFatINode (fi_inum n) (fi_meta n) (fi_mode n) d.
Definition set_meta (md : FsMetadata) (n : FatINode) : FatINode := mkFatINode (fi_inum n) md (fi_mode n) (fi_data n).

Definition attr_to_node_type (a : Z) : NodeType := if Z.land a FAT_ATTR_DIRECTORY =? FAT_ATTR_DIRECTORY then NtDirectory else NtFile.
Definition new_meta (e : DirEntry) : FsMetadata := {| meta_size := file_size e; mtime := 0; dirty := false |}.

(** [name_as_str]: the two fields without the spaces around them. *)
Definition name_as_str (e : DirEntry) : outcome (list Z) :=
  let! n := to_str (Fat.name e) in
  let! x := to_str (ext e) in
  Ret (trim n ++ [46] ++ trim x).

Section FatVfs.
Context {D : Type} {BD : BlockDevice D} {U : UnicodeTable}.

(** The driver, the dentries with their inodes, and the time of day. *)
Record FatFs := mkFatFs { fs_vfs : Vfs FatINode; fs_fat : Fat32 D; fs_now : Z }.
Implicit Type v : FatFs.
Definition set_fs_vfs (x : Vfs FatINode) v : FatFs := mkFatFs x (fs_fat v) (fs_now v).
Definition set_fs_fat (f : Fat32 D) v : FatFs := mkFatFs (fs_vfs v) f (fs_now v).

(** No chain is longer than the number of clusters. *)
Definition chain_fuel (f : Fat32 D) : nat := Z.to_nat (4 * max_cluster f + 4).
Definition dent_fuel v : nat := Z.to_nat (next_dent (fs_vfs v)).

Definition get_inode (i : Z) v : outcome FatINode := let! e := unwrap (dents (fs_vfs v) !! i) in Ret (d_inode e).
Definition put_inode (i : Z) (g : FatINode -> FatINode) v : FatFs :=
  set_fs_vfs (set_dents (alter (fun e => mkDEntry (d_name e) (g (d_inode e)) (d_parent e) (d_children e)) i (dents (fs_vfs v))) (next_dent (fs_vfs v)) (fs_vfs v)) v.

(** ** [INodeOps] *)
Definition to_inode (r : Z * DirEntryWithLoc) : FatINode :=
  let '(inum, d) := r in mkFatINode inum (new_meta (entry d)) (attr_to_node_type (attr (entry d))) d.
Definition fat_lookup (f : Fat32 D) (parent : FatINode) (nm : list Z) : outcome (option FatINode) :=
  let! r := lookup_inode (chain_fuel f) f (fi_inum parent) nm in
  Ret (to_inode <$> r).
#[local] Instance fat_inode_ops (f : Fat32 D) : INodeOps FatINode := {| i_lookup := fat_lookup f |}.

Definition fat_create_file (i : Z) (nm : list Z) v : outcome FatFs :=
  let! n := get_inode i v in
  let! f := create_file (chain_fuel (fs_fat v)) (fs_now v) (fs_fat v) (wrap_u 32 (fi_inum n)) nm in
  Ret (set_fs_fat f v).
Definition fat_mkdir (i : Z) (nm : list Z) v : outcome FatFs :=
  let! n := get_inode i v in
  let! f := create_dir (chain_fuel (fs_fat v)) (fs_now v) (fs_fat v) (fi_data n) nm in
  Ret (set_fs_fat f v).
(** An operation on the locked directory entry of an inode. *)
Definition with_data (i : Z) (op : Fat32 D -> DirEntryWithLoc -> outcome (Fat32 D * DirEntryWithLoc)) v : outcome FatFs :=
  let! n := get_inode i v in
  let! '(f, d) := op (fs_fat v) (fi_data n) in
  Ret (put_inode i (set_data d) (set_fs_fat f v)).
Definition fat_rename (i : Z) (to : list Z) v : outcome FatFs := with_data i (fun f d => mv f d to) v.
Definition fat_delete_file (i : Z) v : outcome FatFs := with_data i (fun f d => delete_file (chain_fuel f) f d) v.
Definition fat_rmdir (i : Z) v : outcome FatFs := with_data i (fun f d => delete_dir (chain_fuel f) f d) v.

(** An entry with its name cut to 64 bytes. *)
Definition dent_minimal (d : DirEntryWithLoc) : outcome DEntryMinimal :=
  let! nm := name_as_str (entry d) in
  let name_buf := take 64 nm ++ replicate (64 - length nm) 0 in
  Ret {| de_name := name_buf; de_inum := first_cluster (entry d); de_filetype := attr_to_node_type (attr (entry d));
         de_size := file_size (entry d) |}.
Fixpoint dent_minimals (l : list DirEntryWithLoc) : outcome (list DEntryMinimal) :=
  match l with
  | [] => Ret []
  | d :: l => let! x := dent_minimal d in let! xs := dent_minimals l in Ret (x :: xs)
  end.
Definition fat_readdir v (i : Z) : outcome (list DEntryMinimal) :=
  let! n := get_inode i v in
  let! entries := read_dir_from_cluster (chain_fuel (fs_fat v)) (fs_fat v) (wrap_u 32 (fi_inum n)) in
  dent_minimals entries.
Definition fat_stat v (i : Z) : outcome Stat :=
  let! n := get_inode i v in
  let md := fi_meta n in
  Ret {| st_dev := bd_id (disk (fs_fat v)); st_ino := fi_inum n; st_mode := fi_mode n; st_rdev := 0; st_nlink := 1;
         st_size := meta_size md; st_blksize := 512; st_blocks := div_ceil (meta_size md) 512; st_mtime := mtime md |}.

(** ** [FileOps] *)
Definition fat_read (i : Z) (buffer : list Z) v : outcome (Z * list Z) :=
  let! n := get_inode i v in
  read_buffer (chain_fuel (fs_fat v)) (fs_fat v) (fi_data n) buffer.
Definition fat_write (i pos : Z) (buffer : list Z) v : outcome (FatFs * Z) :=
  let! n := get_inode i v in
  let! '(f, d, w) := write_buffer (chain_fuel (fs_fat v)) (fs_fat v) (fi_data n) pos buffer in
  Ret (put_inode i (set_data d) (set_fs_fat f v), w).

(** ** All together *)
#[export] Instance fat_vfs_ops : VfsOps FatFs unit := {|
  v_find_dentry cwd path v :=
    let! '(x, r) := find_dentry (OPS := fat_inode_ops (fs_fat v)) (dent_fuel v) (fs_vfs v) cwd path in Ret (r, set_fs_vfs x v);
  v_inode v d := let! _ := unwrap (dents (fs_vfs v) !! d) in Ret d;
  v_full_path v d := full_path (dent_fuel v) (fs_vfs v) d;
  v_root v := get_root_dentry (fs_vfs v);
  i_open _ _ _ := Ret tt;
  i_create_file := fat_create_file;
  i_mkdir := fat_mkdir;
  i_rename := fat_rename;
  i_delete_file := fat_delete_file;
  i_rmdir := fat_rmdir;
  i_readdir := fat_readdir;
  i_stat := fat_stat;
  i_meta v i := let! n := get_inode i v in Ret (fi_meta n);
  i_set_meta i md v := let! _ := get_inode i v in Ret (put_inode i (set_meta md) v);
  f_read _ _ i _ len st :=
    let! '(n, buffer) := fat_read i (replicate len 0) (snd st) in
    Ret (fst st, snd st, take (Z.to_nat n) buffer, Some n);
  f_write _ _ i pos bs st := let! '(v, w) := fat_write i pos bs (snd st) in Ret (fst st, v, Some w);
  f_ioctl _ _ _ v := Ret v
|}.

(** [get_root_inode] and [mount_fat32]. *)
Definition root_inode (f : Fat32 D) : FatINode :=
  let d := root_direntry f in
  mkFatINode (first_cluster (entry d)) (new_meta (entry d)) NtDirectory d.
Definition mount_fat32 (now : Z) (f : Fat32 D) : FatFs :=
  mkFatFs (mount [47] (root_inode f) {| dents := ∅; next_dent := 0; MOUNT_TABLE := ∅ |}) f now.
End FatVfs.
Arguments FatFs : clear implicits.

(** ** Calls on files of a file system that does not block *)
Section FsCalls.
Context {A : Type} {FA : FrameAllocator A} {FL : FrameAllocatorLaws A} {PA : PageApi A} {PL : PageLaws A PA}
  {AA : AddrApi} {AL : AddrLaws PA AA} {S : Type} {SL : Slab S}
  {Q : Type} {AQ : ArrayQueue Z Q} {V FO : Type} {VO : VfsOps V FO}
  {LD : Layout DEntryMinimal} {LS : Layout Stat}.
Variables (cfg : Config) (e : Inputs).
Abbreviation Mach := (Machine A S Q V FO) (only parsing).
Implicit Types (s : System A S) (p : ProcessControlBlock S) (m : Mach).

(** Descriptor [d] of process [p] is the open file [f] at [a], on inode [i],
    which nobody holds. *)
Record open_file m p (d a i : Z) (o : FO) (f : File FO) : Prop := {
  of_fd : slab_get (Z.to_nat d) (fd p) = Some a;
  of_file : files m !! a = Some f;
  of_ops : f_ops f = FsOps o;
  of_inode : f_inode f = FsINode i;
  of_held : f_held f = false
}.

(** The lock is taken, the position moved and the lock given back. *)
Lemma released m1 m a f pos m2 :
  files m !! a = Some f -> f_held f = false -> m1 = write_file a (set_held true) m -> files m2 = files m1 ->
  write_file a (fun f => set_held false (set_pos pos f)) m2 = set_files (<[a := set_pos pos f]> (files m)) m2.
Proof.
  intros Hf Hh -> E. unfold write_file, set_files. f_equal. rewrite E. cbn [files write_file set_files]. apply map_eq. intros b.
  destruct (decide (a = b)) as [<- | Hne]; [rewrite !lookup_alter_eq | rewrite !lookup_alter_ne by done].
  - rewrite lookup_insert_eq, Hf. cbn. f_equal. destruct f. cbn in *. by subst.
  - by rewrite lookup_insert_ne.
Qed.

Lemma write_fs_ret m x p d a i o f ptr data v md v2 n fuel tf :
  proc_inv cfg (sys m) -> may_call (kern (sys m)) -> curr_proc (sys m) = Ret (x, p) -> open_file m p d a i o f ->
  holds_block (sys m) (ptr, data) -> 0 <= f_pos f + n < 2 ^ 64 ->
  (forall procs, f_write procs o i (f_pos f) data (kern (sys m), vfs m) = Ret (kern (sys m), v, Some n)) ->
  i_meta v i = Ret md -> i_set_meta i {| meta_size := meta_size md; mtime := cmos_now e; dirty := true |} v = Ret v2 ->
  exists tf', user_write cfg e fuel d ptr (Z.of_nat (length data)) tf m =
    Ret (n, tf', set_files (<[a := set_pos (f_pos f + n) f]> (files m)) (set_vfs v2 m)).
Proof.
  intros Hi Hm Hc [Hd Hf Ho Hin Hh] Hb Hn Hw Hmd Hset. eexists. unfold user_write, user_call, trap, syscall_handler.
  cbn [int_0x80 tf_rax tf_rdi tf_rsi tf_rdx default from_option kind_from obind]. unfold Datatypes.id, call_write, curr_fd.
  rewrite Hc. cbn [obind]. rewrite Hd. cbn [unwrap obind]. rewrite Hf. cbn [unwrap obind]. rewrite Hh, Nat2Z.id.
  rewrite (read_user_ok data ptr (sys m) Hb). cbn [obind]. unfold finish_write, write_turn, start_write. rewrite Ho.
  set (m1 := write_file a (set_held true) m). assert (Hf1 : files m1 !! a = Some (set_held true f)) by (cbn; by rewrite lookup_alter_eq, Hf).
  rewrite Hf1. cbn [unwrap obind]. change (sys m1) with (sys m). destruct (proc_pids_ok cfg (sys m) Hi) as (ids & -> & _). cbn [obind].
  change (f_ops (set_held true f)) with (f_ops f). change (f_inode (set_held true f)) with (f_inode f). change (f_pos (set_held true f)) with (f_pos f).
  rewrite Ho, Hin. change (vfs m1) with (vfs m). rewrite Hw. cbn [obind]. change (sys (set_vfs v m1)) with (sys m).
  destruct (resume_idle cfg (sys m) Hi Hm) as [-> _]. cbn [obind]. rewrite chk_u_ret by lia. cbn [obind inode_meta]. cbn [vfs set_sys set_vfs].
  rewrite Hmd. cbn [obind set_inode_meta vfs set_sys set_vfs]. rewrite Hset. cbn [obind returns_or_waits returns].
  rewrite (released m1 m a f (f_pos f + n) (set_vfs v2 (set_sys (sys m) (set_vfs v m1))) Hf Hh eq_refl eq_refl).
  destruct fuel; cbn [finish obind]; reflexivity.
Qed.

Lemma read_fs_ret m x p d a i o f ptr len data v n fuel tf :
  proc_inv cfg (sys m) -> may_call (kern (sys m)) -> curr_proc (sys m) = Ret (x, p) -> open_file m p d a i o f ->
  mapped_bytes (sys m) ptr (Z.of_nat (length data)) -> Forall is_byte data -> 0 <= f_pos f + n < 2 ^ 64 ->
  (forall procs, f_read procs o i (f_pos f) (Z.to_nat len) (kern (sys m), vfs m) = Ret (kern (sys m), v, data, Some n)) ->
  exists tf' s1, user_read cfg e fuel d ptr len tf m =
      Ret (n, tf', set_files (<[a := set_pos (f_pos f + n) f]> (files m)) (set_sys s1 (set_vfs v m))) /\
    proc_inv cfg s1 /\ others_same (sys m) s1 x /\ same_but_ram (sys m) s1 /\
    forall va, user_addr va -> user_byte (ram s1) (CR3 s1) va =
      if decide (ptr <= va < ptr + Z.of_nat (length data)) then data !! Z.to_nat (va - ptr) else user_byte (ram (sys m)) (CR3 (sys m)) va.
Proof.
  intros Hi Hm Hc [Hd Hf Ho Hin Hh] Hmap Hb Hn Hr.
  destruct (write_user_ok cfg data ptr (sys m) x p Hi Hm Hc Hmap Hb) as (s1 & E & Hi1 & Ho1 & Hs1 & Hby).
  assert (Ek : kern s1 = kern (sys m) /\ CR3 s1 = CR3 (sys m)) by (by injection Hs1). destruct Ek as [Ek EC].
  eexists _, s1. split; [| split; [done |]; split; [done |]; split; [done |]; rewrite EC; exact Hby].
  unfold user_read, user_call, trap, syscall_handler.
  cbn [int_0x80 tf_rax tf_rdi tf_rsi tf_rdx default from_option kind_from obind]. unfold Datatypes.id, call_read, curr_fd.
  rewrite Hc. cbn [obind]. rewrite Hd. cbn [unwrap obind]. rewrite Hf. cbn [unwrap obind]. rewrite Hh. unfold finish_read, read_turn.
  set (m1 := write_file a (set_held true) m). assert (Hf1 : files m1 !! a = Some (set_held true f)) by (cbn; by rewrite lookup_alter_eq, Hf).
  rewrite Hf1. cbn [unwrap obind]. change (sys m1) with (sys m). destruct (proc_pids_ok cfg (sys m) Hi) as (ids & -> & _). cbn [obind].
  change (f_ops (set_held true f)) with (f_ops f). change (f_inode (set_held true f)) with (f_inode f). change (f_pos (set_held true f)) with (f_pos f).
  rewrite Ho, Hin. change (vfs m1) with (vfs m). rewrite Hr. cbn [obind]. change (sys (set_vfs v m1)) with (sys m). rewrite E. cbn [obind].
  destruct (resume_idle cfg s1 Hi1) as [Er _]; [by rewrite Ek |]. rewrite Ek in Er. rewrite Er. cbn [obind]. rewrite chk_u_ret by lia.
  cbn [obind returns_or_waits returns].
  rewrite (released m1 m a f (f_pos f + n) (set_sys s1 (set_vfs v m1)) Hf Hh eq_refl eq_refl). destruct fuel; reflexivity.
Qed.
End FsCalls.

(** ** Files on a disk *)
Section OnDisk.
Context {D : Type} {BD : BlockDevice D} {BL : BlockDeviceLaws D BD} {U : UnicodeTable}.
Context {A : Type} {FA : FrameAllocator A} {FL : FrameAllocatorLaws A} {PA : PageApi A} {PL : PageLaws A PA}
  {AA : AddrApi} {AL : AddrLaws PA AA} {S : Type} {SL : Slab S}
  {Q : Type} {AQ : ArrayQueue Z Q} {LD : Layout DEntryMinimal} {LS : Layout Stat}.
Variables (cfg : Config) (e : Inputs).
Abbreviation Mach := (Machine A S Q (FatFs D) unit) (only parsing).
Implicit Types (m : Mach) (p : ProcessControlBlock S).

Lemma few_clusters (f : Fat32 D) (l : list Z) : NoDup l -> Forall (fun c => 2 <= c < max_cluster f) l -> Z.of_nat (length l) <= Z.max 0 (max_cluster f - 2).
Proof.
  intros Hn Hv. assert (Hs : l ⊆+ seqZ 2 (max_cluster f - 2)).
  { apply NoDup_submseteq; [done |]. intros c Hc. rewrite Forall_forall in Hv. specialize (Hv c Hc). apply elem_of_seqZ. lia. }
  apply submseteq_length in Hs. rewrite length_seqZ in Hs. lia.
Qed.

Lemma chain_short f dir l : fat_ok f -> file_ok f dir l -> Z.of_nat (length l) <= Z.max 0 (max_cluster f - 2).
Proof.
  intros Hf Hok. destruct (fo_chain _ _ _ Hok) as [[_ ->] | [_ Hl]]; [cbn; lia |].
  apply few_clusters; [by eapply linked_nodup | exact (linked_valids f _ l Hl)].
Qed.

Lemma content_bytes f l : fat_ok f -> Forall is_byte (content f l).
Proof.
  intros Hf. apply Forall_concat, Forall_map, Forall_true. intros c. apply Forall_take, Forall_drop, image_bytes, Hf.
Qed.

Lemma get_put_inode i n g (v : FatFs D) : get_inode i v = Ret n -> get_inode i (put_inode i g v) = Ret (g n).
Proof.
  unfold get_inode, put_inode. cbn. intros H. run_inv H. injection H as <-. rewrite lookup_alter_eq.
  destruct (dents (fs_vfs v) !! i); [| done]. injection E as <-. done.
Qed.

(** What a write leaves: the file is as long as it has to be, its bytes are the
    old ones but for those written. *)
Record rewritten (f : Fat32 D) (dir : DirEntryWithLoc) (l : list Z) (pos : Z) (data : list Z) (g : Fat32 D) (dir' : DirEntryWithLoc) (l' : list Z) : Prop := {
  rw_vol : same_vol f g;
  rw_ok : file_ok g dir' l';
  rw_size : file_size (entry dir') = Z.max (file_size (entry dir)) (pos + Z.of_nat (length data));
  rw_data k : 0 <= k < Z.of_nat (length data) -> content g l' !! Z.to_nat (pos + k) = data !! Z.to_nat k;
  rw_rest k : 0 <= k < file_size (entry dir) -> ~ (pos <= k < pos + Z.of_nat (length data)) -> content g l' !! Z.to_nat k = content f l !! Z.to_nat k
}.

Lemma write_rewrites (f : Fat32 D) dir l fl pos data :
  fat_ok f -> file_ok f dir l -> free_list f fl -> 0 <= pos -> (0 < length data)%nat -> Forall is_byte data ->
  pos + Z.of_nat (length data) < 2 ^ 32 ->
  div_ceil (pos + Z.of_nat (length data)) (cluster_bytes f) - Z.of_nat (length l) <= Z.of_nat (length fl) ->
  exists g dir' l', write_buffer (chain_fuel f) f dir pos data = Ret (g, dir', Z.of_nat (length data) + 1) /\ rewritten f dir l pos data g dir' l'.
Proof.
  intros Hf Hok Hfl Hp Hd Hb Hr Hroom. pose proof (ok_root _ Hf) as Hroot. pose proof (chain_short f dir l Hf Hok) as Hl.
  assert (Hfl' : Z.of_nat (length fl) <= Z.max 0 (max_cluster f - 2)).
  { destruct Hfl as [Hn Hv]. apply few_clusters; [done |]. eapply Forall_impl; [exact Hv |]. intros c [Hu _]. by apply usable_valid. }
  destruct (write_buffer_spec (chain_fuel f) f dir l fl pos data Hf Hok Hfl Hp Hd Hb Hr Hroom) as (g & dir' & ln & E & Hvol & Hok' & Hsz & Hcont).
  { unfold chain_fuel. rewrite Z2Nat.id by lia. lia. }
  exists g, dir', (l ++ ln). split; [done |].
  assert (Hg : fat_ok g) by apply Hvol. pose proof (content_covers g dir' _ Hg Hok') as Hcov. pose proof (content_covers f dir l Hf Hok) as Hcov0.
  pose proof (same_vol_geom f g Hvol) as (_ & _ & Ecn & _ & _ & Evc).
  assert (Hlc : length (content g (l ++ ln)) = length (content f (l ++ ln))).
  { pose proof (file_chain_valids g _ _ (fo_chain _ _ _ Hok')) as Hv. rewrite (content_length g), (content_length f), Ecn; try done.
    eapply Forall_impl; [exact Hv |]. intros x. by rewrite Evc. }
  split; try done.
  - intros k Hk. rewrite Hcont, lookup_put_in by lia. f_equal. lia.
  - intros k Hk Hout. rewrite Hcont, lookup_put_out by lia. rewrite content_app. by apply lookup_app_l; lia.
Qed.

Lemma read_rewritten (g : Fat32 D) dir' l' n :
  fat_ok g -> file_ok g dir' l' -> n = file_size (entry dir') ->
  read_buffer (chain_fuel g) g dir' (replicate (Z.to_nat n) 0) = Ret (n, take (Z.to_nat n) (content g l')).
Proof.
  intros Hg Hok ->. pose proof (ew_size _ (fo_wf _ _ _ Hok)) as Hs. unfold is_u in Hs. pose proof (content_covers g dir' l' Hg Hok) as Hcov.
  pose proof (chain_short g dir' l' Hg Hok). rewrite (read_buffer_spec (chain_fuel g) g dir' l' _ Hg Hok).
  - rewrite length_replicate, Z2Nat.id, Z.min_id by lia. f_equal. f_equal.
    unfold Slices.put. cbn [take Nat.add app]. rewrite drop_ge; [by rewrite app_nil_r |]. rewrite length_replicate, length_take. lia.
  - unfold chain_fuel. pose proof (ok_root _ Hg). lia.
Qed.

(** The file of a descriptor on the disk: its inode and the clusters of its
    chain; [fl] are free clusters for what a write of [data] adds. *)
Record disk_file m p (d a i : Z) (f : File unit) (node : FatINode) (l fl data : list Z) : Prop := {
  df_open : open_file m p d a i tt f;
  df_inode : get_inode i (vfs m) = Ret node;
  df_fat : fat_ok (fs_fat (vfs m));
  df_file : file_ok (fs_fat (vfs m)) (fi_data node) l;
  df_free : free_list (fs_fat (vfs m)) fl;
  df_pos : 0 <= f_pos f /\ f_pos f + Z.of_nat (length data) < 2 ^ 32;
  df_data : (0 < length data)%nat /\ Forall is_byte data;
  df_room : div_ceil (f_pos f + Z.of_nat (length data)) (cluster_bytes (fs_fat (vfs m))) - Z.of_nat (length l) <= Z.of_nat (length fl)
}.

(** [C19] What a process writes to a file on the disk it reads back, through every
    layer: the library, the system call, the copy through the page table, the
    descriptor, the inode and its directory entry, the chain of clusters and
    the sectors.  The write returns one more than the number of bytes (a bug
    of [write_buffer]); a read of the whole file then returns its size and
    leaves in the caller's memory the data at the position it was written to
    and elsewhere what the file held.  No other process sees a change. *)
Theorem disk_file_roundtrip m x p d a i f node l fl ptr data ptr2 fuel tf tf2 :
  proc_inv cfg (sys m) -> may_call (kern (sys m)) -> curr_proc (sys m) = Ret (x, p) ->
  disk_file m p d a i f node l fl data -> holds_block (sys m) (ptr, data) ->
  let old := file_size (entry (fi_data node)) in
  let size := Z.max old (f_pos f + Z.of_nat (length data)) in
  mapped_bytes (sys m) ptr2 size ->
  exists tf1 m1 tf3 m2,
    user_write cfg e fuel d ptr (Z.of_nat (length data)) tf m = Ret (Z.of_nat (length data) + 1, tf1, m1) /\
    user_read cfg e fuel d ptr2 size tf2 m1 = Ret (size, tf3, m2) /\
    proc_inv cfg (sys m2) /\ others_same (sys m) (sys m2) x /\
    (forall k, 0 <= k < Z.of_nat (length data) ->
      user_byte (ram (sys m2)) (CR3 (sys m2)) (ptr2 + f_pos f + k) = data !! Z.to_nat k) /\
    (forall k, 0 <= k < old -> ~ (f_pos f <= k < f_pos f + Z.of_nat (length data)) ->
      user_byte (ram (sys m2)) (CR3 (sys m2)) (ptr2 + k) = content (fs_fat (vfs m)) l !! Z.to_nat k).
Proof.
  intros Hi Hm Hc [Hof Hnode Hf Hok Hfl [Hp Hr] [Hd Hb] Hroom] Hblk old size Hmap.
  destruct (write_rewrites (fs_fat (vfs m)) (fi_data node) l fl (f_pos f) data Hf Hok Hfl Hp Hd Hb Hr Hroom) as (g & dir' & l' & E & [Hvol Hok' Hsz Hdat Hrest]).
  assert (Hg : fat_ok g) by apply Hvol. assert (Hold : 0 <= old < 2 ^ 32) by apply (ew_size _ (fo_wf _ _ _ Hok)).
  set (v1 := put_inode i (set_data dir') (set_fs_fat g (vfs m))).
  assert (Hn1 : get_inode i v1 = Ret (set_data dir' node)) by by apply get_put_inode.
  destruct (write_fs_ret cfg e m x p d a i tt f ptr data v1 (fi_meta node)
    (put_inode i (set_meta {| meta_size := meta_size (fi_meta node); mtime := cmos_now e; dirty := true |}) v1) (Z.of_nat (length data) + 1) fuel tf
    Hi Hm Hc Hof Hblk ltac:(lia)) as (tf1 & Ew).
  { intros procs. cbn [f_write fat_vfs_ops fst snd]. unfold fat_write. rewrite Hnode. cbn [obind]. rewrite E. reflexivity. }
  { cbn [i_meta fat_vfs_ops]. by rewrite Hn1. } { cbn [i_set_meta fat_vfs_ops]. by rewrite Hn1. }
  set (v2 := put_inode i _ v1) in Ew. set (f1 := set_pos (f_pos f + (Z.of_nat (length data) + 1)) f) in Ew.
  set (m1 := set_files (<[a := f1]> (files m)) (set_vfs v2 m)) in Ew.
  assert (Hof1 : open_file m1 p d a i tt f1) by (destruct Hof; split; try done; cbn; apply lookup_insert_eq).
  set (out := take (Z.to_nat size) (content g l')).
  assert (Hlen : Z.of_nat (length out) = size).
  { pose proof (content_covers g dir' l' Hg Hok') as Hcov. unfold out. rewrite length_take. rewrite Hsz in Hcov. fold old in Hcov. fold size in Hcov. lia. }
  destruct (read_fs_ret cfg e m1 x p d a i tt f1 ptr2 size out v2 size fuel tf2 Hi Hm Hc Hof1) as (tf3 & s2 & Er & Hi2 & Ho2 & Hs2 & Hby).
  { by rewrite Hlen. } { unfold out. by apply Forall_take, content_bytes. } { unfold f1. cbn. lia. }
  { intros procs. cbn [f_read fat_vfs_ops fst snd]. unfold fat_read. change (vfs m1) with v2.
    assert (Hn2 : get_inode i v2 = Ret (set_meta {| meta_size := meta_size (fi_meta node); mtime := cmos_now e; dirty := true |} (set_data dir' node))) by by apply get_put_inode.
    rewrite Hn2. cbn [obind fi_data set_meta set_data]. change (fs_fat v2) with g.
    rewrite (read_rewritten g dir' l' size Hg Hok') by (unfold size, old; by rewrite Hsz). cbn [obind]. unfold out. by rewrite take_take, Nat.min_id. }
  exists tf1, m1, tf3. eexists. split; [exact Ew |]. split; [exact Er |]. split; [done |]. split; [done |]. destruct Hmap as (H0 & H1 & _).
  cbn [sys set_files set_sys]. split.
  - intros k Hk. rewrite Hby by (unfold user_addr; lia). rewrite decide_True by lia. rewrite <- Hdat by done. unfold out.
    rewrite lookup_take_lt by lia. f_equal. lia.
  - intros k Hk Hout. rewrite Hby by (unfold user_addr; lia). rewrite decide_True by lia. rewrite <- Hrest by done. unfold out.
    rewrite lookup_take_lt by lia. f_equal. lia.
Qed.
End OnDisk.
