(* ===== verification/MountFat.v ===== *)
(** * Mounting the disk

    [mount_fat32] of [kernel/src/fs/vfs/mod.rs] from the drive on: the slave of
    the first bus is looked for, its boot sector and the sector with the free
    counts are read and taken as the packed structures [BPB] and [FSInfo] of
    [kernel/src/fs/fat.rs], the FAT driver is made from them and its root is
    put into the mount table.  FatVfs.v has the last two steps, Ata.v the
    driver; here they are put together. *)
From S2P Require Import Prelude Slices Text Disk Ports Ata Time Fat FatTable FatData FatFile FatProps FatDir Vfs Files FatVfs.

(** ** The packed structures *)

(** The 512 bytes of a boot sector as a [BPB]. *)
Definition read_bpb (l : list Z) : BPB :=
  {| jmp_bytes := get l 0 3; oem_identifier := get l 3 8;
     bytes_per_sector := num_at l 11 2; sectors_per_cluster := num_at l 13 1;
     reserved_sector_count := num_at l 14 2; num_fats := num_at l 16 1;
     root_entry_count := num_at l 17 2; total_sectors_16 := num_at l 19 2;
     media := num_at l 21 1; fat_size_16 := num_at l 22 2;
     sectors_per_track := num_at l 24 2; num_heads := num_at l 26 2;
     hidden_sectors := num_at l 28 4; total_sectors_32 := num_at l 32 4;
     fat_size_32 := num_at l 36 4; ext_flags := num_at l 40 2; fs_ver := num_at l 42 2;
     root_cluster := num_at l 44 4; fs_info_sector := num_at l 48 2;
     backup_boot_sector := num_at l 50 2; bpb_reserved := get l 52 12;
     drive_num := num_at l 64 1; reserved_1 := num_at l 65 1; boot_signature := num_at l 66 1;
     volume_id := num_at l 67 4; volume_label := get l 71 11; filesys_type := get l 82 8;
     boot_code := get l 90 420; boot_sector_signature := num_at l 510 2 |}.

Definition read_fs_info (l : list Z) : FSInfo :=
  {| lead_signature := num_at l 0 4; fsi_reserved_1 := get l 4 480; struct_signature := num_at l 484 4;
     free_count := num_at l 488 4; next_free := num_at l 492 4; fsi_reserved2 := get l 496 12;
     trail_signature := num_at l 508 4 |}.

(** ** Mounting *)
Section Mount.
Context {P : Type} {IO : PortIo P}.

(** [const SECTOR] *)
Definition SECTOR : nat := 512.

(** [driver.read(lba, 1, &mut buffer).unwrap()] *)
Definition read_sector_unwrap (driver : AtaDriver) (fuel : nat) (lba : Z) (hw : P) : outcome (P * list Z) :=
  let! '(hw, buffer, r) := ata_read driver fuel lba 1 (replicate SECTOR 0) hw in
  match r with inl _ => Panic | inr _ => Ret (hw, buffer) end.

Definition mount_disk (fuel : nat) (now : Z) (hw : P) : outcome (P * FatFs AtaDriver) :=
  let driver := ata_new Primary Slave in
  let! '(hw, _) := availability driver fuel hw in
  let! '(hw, buffer) := read_sector_unwrap driver fuel 0 hw in
  let b := read_bpb buffer in
  let! '(hw, buffer) := read_sector_unwrap driver fuel (fs_info_sector b) hw in
  let i := read_fs_info buffer in
  let! f := fat_new b i driver in
  Ret (hw, mount_fat32 now f).
End Mount.

(** ** The structures as bytes *)
Definition bpb_fields (b : BPB) : list (list Z) :=
  [jmp_bytes b; oem_identifier b; le_bytes 2 (bytes_per_sector b); le_bytes 1 (sectors_per_cluster b);
   le_bytes 2 (reserved_sector_count b); le_bytes 1 (num_fats b); le_bytes 2 (root_entry_count b);
   le_bytes 2 (total_sectors_16 b); le_bytes 1 (media b); le_bytes 2 (fat_size_16 b);
   le_bytes 2 (sectors_per_track b); le_bytes 2 (num_heads b); le_bytes 4 (hidden_sectors b);
   le_bytes 4 (total_sectors_32 b); le_bytes 4 (fat_size_32 b); le_bytes 2 (ext_flags b);
   le_bytes 2 (fs_ver b); le_bytes 4 (root_cluster b); le_bytes 2 (fs_info_sector b);
   le_bytes 2 (backup_boot_sector b); bpb_reserved b; le_bytes 1 (drive_num b);
   le_bytes 1 (reserved_1 b); le_bytes 1 (boot_signature b); le_bytes 4 (volume_id b);
   volume_label b; filesys_type b; boot_code b; le_bytes 2 (boot_sector_signature b)].
Definition fs_info_fields (i : FSInfo) : list (list Z) :=
  [le_bytes 4 (lead_signature i); fsi_reserved_1 i; le_bytes 4 (struct_signature i);
   le_bytes 4 (free_count i); le_bytes 4 (next_free i); fsi_reserved2 i; le_bytes 4 (trail_signature i)].

(** The sizes of the fields in the structure's declaration. *)
Definition bpb_sizes : list nat :=
  [3; 8; 2; 1; 2; 1; 2; 2; 1; 2; 2; 2; 4; 4; 4; 2; 2; 4; 2; 2; 12; 1; 1; 1; 4; 11; 8; 420; 2]%nat.
Definition fs_info_sizes : list nat := [4; 480; 4; 4; 4; 12; 4]%nat.

Definition encode_bpb (b : BPB) : list Z := concat (bpb_fields b).
Definition encode_fs_info (i : FSInfo) : list Z := concat (fs_info_fields i).

(** Cutting a sector into fields of given sizes. *)
Fixpoint cut (sizes : list nat) (l : list Z) : list (list Z) :=
  match sizes with [] => [] | n :: sizes => take n l :: cut sizes (drop n l) end.

Lemma cut_concat fs : forall sizes, length <$> fs = sizes -> cut sizes (concat fs) = fs.
Proof.
  induction fs as [|f fs IH]; intros sizes <-; [done |]. cbn [fmap list_fmap cut concat].
  rewrite take_app_length, drop_app_length. f_equal. by apply IH.
Qed.
Lemma concat_cut sizes : forall l, length l = sum_list sizes -> concat (cut sizes l) = l.
Proof.
  induction sizes as [|n sizes IH]; intros l Hl; simpl in Hl; [by destruct l |].
  cbn [cut concat]. rewrite IH; [apply take_drop | rewrite length_drop; lia].
Qed.

(** The fields of the decoded structures are the cuts of the sector. *)
Definition bpb_of (fs : list (list Z)) : BPB :=
  let raw k := default [] (fs !! k) in
  let num k := le_num (raw k) in
  {| jmp_bytes := raw 0%nat; oem_identifier := raw 1%nat; bytes_per_sector := num 2%nat;
     sectors_per_cluster := num 3%nat; reserved_sector_count := num 4%nat; num_fats := num 5%nat;
     root_entry_count := num 6%nat; total_sectors_16 := num 7%nat; media := num 8%nat;
     fat_size_16 := num 9%nat; sectors_per_track := num 10%nat; num_heads := num 11%nat;
     hidden_sectors := num 12%nat; total_sectors_32 := num 13%nat; fat_size_32 := num 14%nat;
     ext_flags := num 15%nat; fs_ver := num 16%nat; root_cluster := num 17%nat;
     fs_info_sector := num 18%nat; backup_boot_sector := num 19%nat; bpb_reserved := raw 20%nat;
     drive_num := num 21%nat; reserved_1 := num 22%nat; boot_signature := num 23%nat;
     volume_id := num 24%nat; volume_label := raw 25%nat; filesys_type := raw 26%nat;
     boot_code := raw 27%nat; boot_sector_signature := num 28%nat |}.
Definition fs_info_of (fs : list (list Z)) : FSInfo :=
  let raw k := default [] (fs !! k) in
  let num k := le_num (raw k) in
  {| lead_signature := num 0%nat; fsi_reserved_1 := raw 1%nat; struct_signature := num 2%nat;
     free_count := num 3%nat; next_free := num 4%nat; fsi_reserved2 := raw 5%nat; trail_signature := num 6%nat |}.

Lemma read_bpb_cut l : read_bpb l = bpb_of (cut bpb_sizes l).
Proof.
  unfold read_bpb, bpb_of, bpb_sizes, num_at, get. cbn [cut lookup list_lookup default from_option id].
  rewrite !drop_drop. by rewrite drop_0.
Qed.
Lemma read_fs_info_cut l : read_fs_info l = fs_info_of (cut fs_info_sizes l).
Proof.
  unfold read_fs_info, fs_info_of, fs_info_sizes, num_at, get. cbn [cut lookup list_lookup default from_option id].
  rewrite !drop_drop. by rewrite drop_0.
Qed.

(** The values a structure can hold: the arrays have their lengths and the
    numbers fit their fields. *)
Record bpb_wf (b : BPB) : Prop := {
  bw_arrays : length (jmp_bytes b) = 3%nat /\ length (oem_identifier b) = 8%nat /\ length (bpb_reserved b) = 12%nat /\
    length (volume_label b) = 11%nat /\ length (filesys_type b) = 8%nat /\ length (boot_code b) = 420%nat;
  bw_u8 : Forall (is_u 8) [sectors_per_cluster b; num_fats b; media b; drive_num b; reserved_1 b; boot_signature b];
  bw_u16 : Forall (is_u 16) [bytes_per_sector b; reserved_sector_count b; root_entry_count b; total_sectors_16 b;
    fat_size_16 b; sectors_per_track b; num_heads b; ext_flags b; fs_ver b; fs_info_sector b; backup_boot_sector b;
    boot_sector_signature b];
  bw_u32 : Forall (is_u 32) [hidden_sectors b; total_sectors_32 b; fat_size_32 b; root_cluster b; volume_id b]
}.
Record fs_info_wf (i : FSInfo) : Prop := {
  fw_arrays : length (fsi_reserved_1 i) = 480%nat /\ length (fsi_reserved2 i) = 12%nat;
  fw_u32 : Forall (is_u 32) [lead_signature i; struct_signature i; free_count i; next_free i; trail_signature i]
}.

Ltac in_range := repeat match goal with H : Forall _ (_ :: _) |- _ => apply Forall_cons in H; destruct H end.
Ltac field_num := first [by apply (le_num_u 8 1) | by apply (le_num_u 16 2) | by apply (le_num_u 32 4) | done].

(** Writing a structure to a sector and reading it back. *)
Lemma bpb_roundtrip b : bpb_wf b -> read_bpb (encode_bpb b) = b.
Proof.
  intros [(A1 & A2 & A3 & A4 & A5 & A6) W8 W16 W32]. rewrite read_bpb_cut. unfold encode_bpb. rewrite cut_concat.
  2:{ unfold bpb_fields. cbn [fmap list_fmap]. rewrite !le_bytes_length. by rewrite A1, A2, A3, A4, A5, A6. }
  clear A1 A2 A3 A4 A5 A6. destruct b. cbn in W8, W16, W32. in_range.
  unfold bpb_of, bpb_fields. cbn -[le_bytes le_num]. f_equal; field_num.
Qed.
Lemma fs_info_roundtrip i : fs_info_wf i -> read_fs_info (encode_fs_info i) = i.
Proof.
  intros [(A1 & A2) W32]. rewrite read_fs_info_cut. unfold encode_fs_info. rewrite cut_concat.
  2:{ unfold fs_info_fields. cbn [fmap list_fmap]. rewrite !le_bytes_length. by rewrite A1, A2. }
  clear A1 A2. destruct i. cbn in W32. in_range. unfold fs_info_of, fs_info_fields. cbn -[le_bytes le_num]. f_equal; field_num.
Qed.

Lemma length_encode_bpb b : bpb_wf b -> length (encode_bpb b) = 512%nat.
Proof.
  intros [(A1 & A2 & A3 & A4 & A5 & A6) _ _ _]. unfold encode_bpb, bpb_fields. cbn [concat].
  rewrite !length_app, !le_bytes_length, A1, A2, A3, A4, A5, A6. done.
Qed.

(** Nothing of a sector is lost in the structure. *)
Lemma num_bytes n f : length f = n -> Forall is_byte f -> le_bytes n (le_num f) = f.
Proof. intros <-. apply le_bytes_num. Qed.
Lemma cut_parts sizes : forall l, length l = sum_list sizes -> Forall is_byte l ->
  Forall2 (fun n f => length f = n /\ Forall is_byte f) sizes (cut sizes l).
Proof.
  induction sizes as [|n sizes IH]; intros l Hl Hb; [constructor |]. simpl in Hl. constructor.
  - split; [rewrite length_take; lia | by apply Forall_take].
  - apply IH; [rewrite length_drop; lia | by apply Forall_drop].
Qed.
Ltac parts := repeat match goal with
  | H : Forall2 _ (_ :: _) _ |- _ => apply Forall2_cons_inv_l in H as (? & ? & [? ?] & H & ->)
  | H : Forall2 _ [] _ |- _ => apply Forall2_nil_inv_l in H as -> end.

Lemma bpb_sector l : length l = 512%nat -> Forall is_byte l -> encode_bpb (read_bpb l) = l.
Proof.
  intros Hl Hb. rewrite read_bpb_cut. rewrite <- (concat_cut bpb_sizes l) at 2 by done.
  pose proof (cut_parts bpb_sizes l Hl Hb) as Hp. unfold encode_bpb. f_equal. set (fs := cut bpb_sizes l) in *. clearbody fs.
  unfold bpb_sizes in Hp. parts. unfold bpb_of, bpb_fields. cbn -[le_bytes le_num]. by rewrite !num_bytes.
Qed.
Lemma fs_info_in_sector l : length l = 512%nat -> Forall is_byte l -> encode_fs_info (read_fs_info l) = l.
Proof.
  intros Hl Hb. rewrite read_fs_info_cut. rewrite <- (concat_cut fs_info_sizes l) at 2 by done.
  pose proof (cut_parts fs_info_sizes l Hl Hb) as Hp. unfold encode_fs_info. f_equal. set (fs := cut fs_info_sizes l) in *. clearbody fs.
  unfold fs_info_sizes in Hp. parts. unfold fs_info_of, fs_info_fields. cbn -[le_bytes le_num]. by rewrite !num_bytes.
Qed.

(** ** The drive *)
Section MountProps.
#[local] Existing Instance RamDisk.ram_disk.
#[local] Existing Instance RamDisk.ram_disk_laws.
Context {P : Type} {IO : PortIo P}.

Section Present.
Context {HW : AtaHardware P IO Primary 176}.

(** The volume an image holds, by its boot sector. *)
Definition volume (b : BPB) (i : FSInfo) (image : list Z) : Fat32 (list Z) :=
  mkFat b i image (reserved_sector_count b) (reserved_sector_count b + num_fats b * fat_size_32 b).

Lemma sector_read fuel lba hw : ready Primary 176 hw -> (max_busy < fuel)%nat -> 0 <= lba -> lba + 1 < 2 ^ 28 ->
  512 * (lba + 1) <= Z.of_nat (length (Ata.img (view hw))) ->
  exists hw', read_sector_unwrap (ata_new Primary Slave) fuel lba hw = Ret (hw', get (Ata.img (view hw)) (Z.to_nat (512 * lba)) 512) /\
    ready Primary 176 hw' /\ Ata.img (view hw') = Ata.img (view hw).
Proof.
  intros Hr Hf Hl Hl' Hi. unfold read_sector_unwrap.
  destruct (ata_read_ok Primary 176 fuel lba 1 (replicate SECTOR 0) hw) as (hw' & E & Hr' & Hi'); try done; try lia;
    [by right |].
  change (ata_new Primary Slave) with {| bus_type := Primary; drive := 176 |}. rewrite E. by exists hw'.
Qed.

Lemma fat_new_volume b i (image : list Z) (d : AtaDriver) : bpb_wf b -> fat_ok (volume b i image) ->
  fat_new b i d = Ret (mkFat b i d (fat_start (volume b i image)) (data_start (volume b i image))).
Proof.
  intros [_ W8 W16 W32] Hok. in_range. pose proof (ok_total _ Hok) as Ht. cbn in Ht. unfold is_u in *.
  assert (0 <= num_fats b * fat_size_32 b) by nia. unfold fat_new.
  rewrite chk_u_ret by (unfold is_u; lia). cbn [obind]. rewrite chk_u_ret by (unfold is_u; lia). done.
Qed.

Lemma root_first_cluster {D} (f : Fat32 D) : 0 <= root_cluster (bpb f) < 2 ^ 32 ->
  first_cluster (entry (root_direntry f)) = root_cluster (bpb f).
Proof.
  intros Hr. etrans; [| apply (first_cluster_set _ (entry (root_direntry f))); exact Hr].
  unfold first_cluster, set_first_cluster, root_direntry, wrap_u. cbn [entry first_cluster_high first_cluster_low].
  by rewrite <- (Z.land_ones (root_cluster (bpb f)) 16).
Qed.

(** The drive is idle and holds a volume: a boot sector, an information sector
    and an image of that geometry. *)
Record formatted (b : BPB) (i : FSInfo) (hw : P) : Prop := {
  fm_idle : (busy_for (view hw) <= 1)%nat /\ phase (view hw) = Idle;
  fm_wf : bpb_wf b /\ fs_info_wf i;
  fm_ok : fat_ok (volume b i (Ata.img (view hw)));
  fm_boot : get (Ata.img (view hw)) 0 512 = encode_bpb b;
  fm_info : get (Ata.img (view hw)) (Z.to_nat (512 * fs_info_sector b)) 512 = encode_fs_info i;
  fm_room : 512 * (fs_info_sector b + 1) <= Z.of_nat (length (Ata.img (view hw)))
}.

(** The file system is that volume, mounted at its root, and the drive is as
    it was. *)
Record mounted (b : BPB) (i : FSInfo) (hw hw' : P) (fs : FatFs AtaDriver) : Prop := {
  mo_volume : mkFat (bpb (fs_fat fs)) (fs_info (fs_fat fs)) (Ata.img (view hw')) (fat_start (fs_fat fs)) (data_start (fs_fat fs)) =
    volume b i (Ata.img (view hw));
  mo_disk : disk (fs_fat fs) = ata_new Primary Slave;
  mo_root : exists a e, get_root_dentry (fs_vfs fs) = Ret a /\ dents (fs_vfs fs) !! a = Some e /\
    fi_inum (d_inode e) = root_cluster b /\ fi_mode (d_inode e) = NtDirectory;
  mo_drive : ready Primary 176 hw' /\ Ata.img (view hw') = Ata.img (view hw)
}.

Lemma mount_disk_ok fuel now b i hw :
  formatted b i hw -> (max_busy < fuel)%nat -> exists hw' fs, mount_disk fuel now hw = Ret (hw', fs) /\ mounted b i hw hw' fs.
Proof.
  intros [[Hb Hp] [Wb Wi] Hok E0 E1 Hi] Hf. pose proof (ok_dev _ Hok) as Hby. pose proof (ok_image _ Hok) as Hlen.
  pose proof (ok_total _ Hok) as Ht. cbn in Hby, Hlen, Ht.
  assert (Hl : 512 <= Z.of_nat (length (Ata.img (view hw)))).
  { pose proof (length_encode_bpb b Wb) as L. rewrite <- E0 in L. unfold get in L. rewrite drop_0, length_take in L. lia. }
  assert (Hs : 0 <= fs_info_sector b < 2 ^ 16 /\ 0 <= root_cluster b < 2 ^ 32) by (destruct Wb as [_ _ W16 W32]; in_range; unfold is_u in *; lia).
  unfold mount_disk. change (ata_new Primary Slave) with {| bus_type := Primary; drive := 176 |}.
  destruct (availability_ok Primary 176 fuel hw) as (h1 & info & -> & _ & R1 & I1); try done; [by right |]. cbn [obind].
  destruct (sector_read fuel 0 h1) as (h2 & E2 & R2 & I2); try done; try lia; [rewrite I1; lia |].
  change (ata_new Primary Slave) with {| bus_type := Primary; drive := 176 |} in E2. rewrite E2. cbn [obind].
  rewrite I1. change (Z.to_nat (512 * 0)) with 0%nat. rewrite E0, bpb_roundtrip by done.
  destruct (sector_read fuel (fs_info_sector b) h2) as (h3 & E3 & R3 & I3); try done; try lia; [rewrite I2, I1; lia |].
  change (ata_new Primary Slave) with {| bus_type := Primary; drive := 176 |} in E3. rewrite E3. cbn [obind].
  rewrite I2, I1, E1, fs_info_roundtrip by done. rewrite (fat_new_volume b i (Ata.img (view hw))) by done. cbn [obind].
  eexists h3, _. split; [done |]. split; rewrite ?I3, ?I2, ?I1; [done | done | | done].
  exists 0. eexists. split; [done |]. split; [done |]. split; [| done].
  exact (root_first_cluster (mkFat b i (ata_new Primary Slave) 0 0) (proj2 Hs)).
Qed.

(** [C20] Mounting the disk.  On a drive that obeys the ATA protocol and holds
    the bytes of a boot sector and of an information sector, with an image that
    is a volume of that geometry, [mount_fat32] returns; the FAT driver it makes
    is the one of that volume, field by field and with the start of the table
    and of the data computed without overflow, the path [/] is mounted on the
    root directory's cluster, and the drive is left ready with its image
    unchanged: what the FAT driver's theorems assume of the volume holds from
    here. *)
Theorem mount_disk_mounts fuel now b i hw :
  (busy_for (view hw) <= 1)%nat -> phase (view hw) = Idle -> (max_busy < fuel)%nat ->
  bpb_wf b -> fs_info_wf i -> fat_ok (volume b i (Ata.img (view hw))) ->
  get (Ata.img (view hw)) 0 512 = encode_bpb b ->
  get (Ata.img (view hw)) (Z.to_nat (512 * fs_info_sector b)) 512 = encode_fs_info i ->
  512 * (fs_info_sector b + 1) <= Z.of_nat (length (Ata.img (view hw))) ->
  exists hw' fs, mount_disk fuel now hw = Ret (hw', fs) /\
    mkFat (bpb (fs_fat fs)) (fs_info (fs_fat fs)) (Ata.img (view hw')) (fat_start (fs_fat fs)) (data_start (fs_fat fs)) =
      volume b i (Ata.img (view hw)) /\
    disk (fs_fat fs) = ata_new Primary Slave /\
    (exists a e, get_root_dentry (fs_vfs fs) = Ret a /\ dents (fs_vfs fs) !! a = Some e /\
       fi_inum (d_inode e) = root_cluster b /\ fi_mode (d_inode e) = NtDirectory) /\
    ready Primary 176 hw' /\ Ata.img (view hw') = Ata.img (view hw).
Proof.
  intros Hb Hp Hf Wb Wi Hok E0 E1 Hi. destruct (mount_disk_ok fuel now b i hw) as (hw' & fs & E & [? ? ? []]); [by split | done |].
  by exists hw', fs.
Qed.
End Present.

(** Without a drive every port reads as 255.  [availability] finds that out, but
    its result is dropped, and the wait for the drive before the first read
    never ends: bit 7 of 255 is the busy flag. *)
Lemma mount_without_drive_hangs fuel now hw : (forall p h, fst (inb p h) = 255) -> mount_disk (P := P) fuel now hw = NoFuel.
Proof.
  intros Hff.
  assert (Hw : forall n h, wait_not_busy (ata_new Primary Slave) n h = NoFuel).
  { induction n as [|n IH]; intros h; [done |]. cbn [wait_not_busy]. unfold get_status, read_u8_reg.
    destruct (inb _ h) as [st h1] eqn:E. pose proof (Hff (absolute Command (bus_type (ata_new Primary Slave))) h) as X. rewrite E in X. cbn in X. subst st. apply IH. }
  unfold mount_disk, availability, read_u8_reg at 1.
  destruct (inb _ _) as [st h1] eqn:E. match type of E with inb ?p ?h = _ => pose proof (Hff p h) as X end.
  rewrite E in X. cbn in X. subst st. cbn [Z.eqb Pos.eqb obind]. unfold read_sector_unwrap, ata_read.
  rewrite length_replicate. cbn [Z.eqb]. change (div_ceil (Z.of_nat SECTOR) 512) with 1. change (Z.of_nat SECTOR mod 512) with 0.
  cbn [Z.ltb Z.compare Z.eqb Pos.eqb negb orb]. by rewrite Hw.
Qed.
End MountProps.

(** ** A formatted drive *)
Module MountWitness.
Import AtaDevice FatWitness.
Definition bpb1 : BPB :=
  {| jmp_bytes := [235; 88; 144]; oem_identifier := replicate 8 32; bytes_per_sector := 512; sectors_per_cluster := 1;
     reserved_sector_count := 2; num_fats := 1; root_entry_count := 0; total_sectors_16 := 0;
     media := 248; fat_size_16 := 0; sectors_per_track := 0; num_heads := 0; hidden_sectors := 0;
     total_sectors_32 := 13; fat_size_32 := 1; ext_flags := 0; fs_ver := 0; root_cluster := 2;
     fs_info_sector := 1; backup_boot_sector := 0; bpb_reserved := replicate 12 0; drive_num := 128;
     reserved_1 := 0; boot_signature := 41; volume_id := 3405691582; volume_label := replicate 11 32;
     filesys_type := replicate 8 32; boot_code := replicate 420 0; boot_sector_signature := 43605 |}.
Definition fsi1 : FSInfo :=
  {| lead_signature := 1096897106; fsi_reserved_1 := replicate 480 0; struct_signature := 1631679090; free_count := 8;
     next_free := 3; fsi_reserved2 := replicate 12 0; trail_signature := 2857697280 |}.
Definition image1 : list Z := encode_bpb bpb1 ++ encode_fs_info fsi1 ++ drop 512 disk0.
Definition drive1 : Device :=
  {| Ata.img := image1; phase := Idle; busy_for := 1;
     tf := {| r_count := 0; r_low := 0; r_mid := 0; r_high := 0; r_drive := 0 |} |}.

#[local] Instance slave_hardware : AtaHardware Device dev_io Primary 176 := dev_laws 176.

Ltac fits := repeat (apply Forall_cons; split; [split; vm_compute; congruence |]); apply Forall_nil; exact I.
Lemma bpb1_wf : bpb_wf bpb1.
Proof. split; [vm_compute; intuition congruence |..]; fits. Qed.
Lemma fsi1_wf : fs_info_wf fsi1.
Proof. split; [vm_compute; intuition congruence |]; fits. Qed.
Lemma image1_ok : fat_ok (volume bpb1 fsi1 image1).
Proof. split; try (vm_compute; intuition congruence). apply bytesb_spec. vm_compute. reflexivity. Qed.

Lemma mount_disk_mounts_witness : exists hw' fs, mount_disk 3 0 drive1 = Ret (hw', fs) /\
  fat_start (fs_fat fs) = 2 /\ data_start (fs_fat fs) = 3 /\ free_count (fs_info (fs_fat fs)) = 8.
Proof.
  destruct (mount_disk_mounts 3 0 bpb1 fsi1 drive1) as (hw' & fs & E & Hf & _).
  - simpl. lia.
  - reflexivity.
  - simpl. lia.
  - exact bpb1_wf.
  - exact fsi1_wf.
  - exact image1_ok.
  - vm_compute. reflexivity.
  - vm_compute. reflexivity.
  - vm_compute. congruence.
  - exists hw', fs. split; [exact E |]. pose proof (f_equal fat_start Hf) as F1. pose proof (f_equal data_start Hf) as F2. pose proof (f_equal fs_info Hf) as F3.
    cbn in F1, F2, F3. rewrite F1, F2, F3. repeat split; reflexivity.
Defined.
End MountWitness.
