(* ===== verification/Startup.v ===== *)
(** * The start of the kernel

    [_start] of [kernel/src/main.rs] with [init], [RawBootInfo] and [KernelInfo]
    of [lib.rs], from the tables the boot loader leaves in memory to the first
    process: the segments, the interrupt table and its controllers, the frame
    allocator, the heap, the screen, the console, the timer chip, the mouse, the
    boot thread, the random numbers, the disk, the sound controller, the four
    kernel threads and the shell.  Messages are left out, and so are the serial
    line, which the [uart_16550] crate sets up, the queues, which start empty,
    and the entry [/dev] of the mount table, which [Devfs] has. *)
From S2P Require Import Prelude Slices Text Disk Ports Ata Time Fat FatTable FatData FatFile FatProps FatDir Vfs Files FatVfs MountFat.
From S2P Require Import Prelude Slices Text Ports Interrupts Queue Mouse Ps2Setup Random Pci Sound HdaSetup SoundStart Console Render.
From S2P Require Import Memory Boot Paging PagingMap UserMem KernelMap UserStack Elf Isolation Slab Lock Thread ThreadInv Sched ThreadKeep Proc ProcInv ProcOps ProcSys KernelHalf Graphics.

Definition PHYS_MEM_OFFSET : Z := 0xFFFF800000000000.

Record RawBootInfo := {
  screen_phys_addr : Z;
  physical_memory_offset : Z;
  kernel_base_virt : Z;
  kernel_loaded_address : Z;
  kernel_size : Z;
  kstack_top : Z;
  kstack_bottom : Z;
  mem_map_phys_addr : Z;
  mem_map_entry_count : Z;
  l4_table_phys_addr : Z;
  free_memory_start_phys : Z
}.

(** ** The end of the boot loader

    The [RawBootInfo] that [_start] of [bootloader/src/main.rs] passes in [rdi];
    the stack's pages start at [stack_start]. *)
Definition boot_stack_start : Z := 0xFFFFFFFF82000000.
Definition boot_stack_end : Z := boot_stack_start + 512 * 4096.

Definition hand_over {F : FrameApi} (screen kernel_size_bytes mem_map mem_map_len kernel_level_4_frame : Z)
  (frame_allocator : BootInfoFrameAllocator) : outcome RawBootInfo :=
  let kstack_top := boot_stack_end - boot_stack_end mod 16 in
  let kstack_bottom := boot_stack_start in
  let! free := next_free_phys_addr frame_allocator in
  Ret {| screen_phys_addr := screen;
         physical_memory_offset := PHYS_MEM_OFFSET;
         kernel_base_virt := 0xFFFFFFFF80000000;
         kstack_top := kstack_top;
         kstack_bottom := kstack_bottom;
         kernel_size := kernel_size_bytes;
         kernel_loaded_address := 0x100000;
         mem_map_phys_addr := mem_map;
         mem_map_entry_count := mem_map_len;
         l4_table_phys_addr := kernel_level_4_frame;
         free_memory_start_phys := free |}.

(** ** Structures in physical memory, read through the window *)
Definition window_le (m : gmap Z (list Z)) (virt n : Z) : Z :=
  le_num ((fun i => default 0 (read_byte m (virt - PHYS_MEM_OFFSET + i))) <$> seqZ 0 n).

(** The [BootScreenInfo] at [screen_virt]: twelve [u32]s *)
Definition read_screen (m : gmap Z (list Z)) (virt : Z) : BootScreenInfo :=
  let field i := window_le m (virt + 4 * i) 4 in
  {| bi_width := field 0; bi_height := field 1; bi_bpp := field 2; bi_bytes_per_pixel := field 3;
     bi_bytes_per_line := field 4; bi_screen_size := field 5; bi_screen_size_dqwords := field 6;
     bi_framebuffer := field 7; bi_x := field 8; bi_y := field 9; bi_x_max := field 10; bi_y_max := field 11 |}.

Definition read_entry_at (m : gmap Z (list Z)) (virt : Z) : MemoryMapEntry :=
  {| base_address := window_le m virt 8; length_ := window_le m (virt + 8) 8;
     mem_type := window_le m (virt + 16) 4; acpi_flags := window_le m (virt + 20) 4 |}.

(** [core::slice::from_raw_parts_mut]; an entry takes 24 bytes. *)
Definition read_mem_map (m : gmap Z (list Z)) (virt count : Z) : list MemoryMapEntry :=
  (fun i => read_entry_at m (virt + 24 * i)) <$> seqZ 0 count.

(** Where the heap puts the block and the stack of a kernel thread, and the
    function it runs. *)
Record KernelThread := { kt_tcb : Z; kt_stack : Z; kt_entry : Z }.
Record StartAddrs := {
  main_tcb : Z; main_rsp : Z; startup_hook : Z; rings : RingAddrs;
  cleaner_task : KernelThread; compositor_task : KernelThread;
  async_executor_task : KernelThread; render_tty_task : KernelThread
}.

Definition kspawn (hook cr3 tid : Z) (t : KernelThread) (k : Kernel) : Kernel :=
  spawn {| stack_base := kt_stack t; task_startup_hook := hook; active_cr3 := cr3 |} (kt_tcb t) tid (kt_entry t) k.

(** The block that spawns the kernel's threads under the scheduler's lock. *)
Definition start_threads (sa : StartAddrs) (cr3 : Z) (k : Kernel) : Kernel :=
  let k := sched_lock k in
  let k := kspawn (startup_hook sa) cr3 2 (cleaner_task sa) k in
  let k := kspawn (startup_hook sa) cr3 3 (compositor_task sa) k in
  let k := kspawn (startup_hook sa) cr3 4 (async_executor_task sa) k in
  let k := kspawn (startup_hook sa) cr3 5 (render_tty_task sa) k in
  sched_unlock k.

(** [x86_64::instructions::interrupts::enable()] *)
Definition interrupts_enable (k : Kernel) : Kernel :=
  set_irq {| interrupts := true; IRQ_DISABLE_COUNTER := IRQ_DISABLE_COUNTER (irq k); WAS_IRQ_ENABLED := WAS_IRQ_ENABLED (irq k) |} k.

(** What the start reads besides memory: three readings of the time stamp
    counter and the hardware's seed, the built-in sound file, what the frames of
    the sample buffer hold, and the time of day. *)
Record BootInputs := { tsc0 : Z; tsc1 : Z; tsc2 : Z; hw_seed : option Z; wav_file : list Z; pcm_frames0 : list (Z * Z); boot_time : Z }.

Section Start.
Context {F : FrameApi} {PA : PageApi BumpAllocator} {AA : AddrApi} {S : Type} {SL : Slab S}
  {P : Type} {IO : PortIo P} {B : Type} {BIO : PortIo B} {H : Type} {P32 : Port32 H} {M : Type} {MM : Mmio M}
  {G : Type} {GA : GdtApi G} {T : Type} {IA : IdtApi T} {C : Type} {PI : PicApi C}.

(** The devices before the kernel. *)
Record Hardware := { hw_pics : C; hw_ports : P; hw_disk : B; hw_pci : H; hw_sound : M }.

(** What [_start] sets up. *)
Record Machine := {
  sys : System BumpAllocator S;
  SCREEN : Screen;
  CONS : Console;
  RAND_GEN : option RandomGenerator;
  heap_given : option (Z * Z);          (** the region the global allocator has *)
  cpu : SegmentRegisters * T;           (** the loaded segments and interrupt table *)
  pics : C;
  ports : P;
  bus : B;
  root_fs : FatFs AtaDriver;            (** what [MOUNT_TABLE] has at [/] *)
  sound : SoundState H M
}.

(** Up to [ALLOC.init_once]. *)
Definition start_allocator (info : RawBootInfo) (m : gmap Z (list Z)) : outcome (BootScreenInfo * BumpAllocator) :=
  let phys_offset := physical_memory_offset info in
  let! screen_virt := chk_u 64 (screen_phys_addr info + phys_offset) in
  let screen := read_screen m screen_virt in
  let! mem_map_virt := chk_u 64 (mem_map_phys_addr info + phys_offset) in
  let mem_map := read_mem_map m mem_map_virt (mem_map_entry_count info) in
  let! allocator := starts_at (free_memory_start_phys info) mem_map
    {| start_address := kernel_loaded_address info; size := kernel_size info |} in
  Ret (screen, allocator).

(** Up to [interrupts::enable()]; [cr3] is the register the boot loader has set.
    [flush], [polls] and [spins] bound the loops that empty the keyboard
    controller and wait for the drive and for the sound controller. *)
Definition start_kernel (flush polls spins : nat) (sa : StartAddrs) (inp : BootInputs) (info : RawBootInfo) (hw : Hardware)
  (m : gmap Z (list Z)) (cr3 : Z) : outcome Machine :=
  let '(segments, idt, pics) := Interrupts.init (hw_pics hw) in
  let! '(screen, allocator) := start_allocator info m in
  let page_table_address := l4_table_phys_addr info in
  let! '(r, heap, w) := init_heap cr3 (m, allocator) in
  let! _ := match r with Mapped => Ret tt | _ => Panic end in
  let! screen := screen_new screen in
  let cons := console_new in
  let p := init_pit (hw_ports hw) in
  let! p := init_ps2 flush p in
  let! '(_, p) := init_ps2_mouse p in
  let k := boot (main_tcb sa) (main_rsp sa) cr3 in
  let rand := init_rand (tsc0 inp) (tsc1 inp) (tsc2 inp) (hw_seed inp) in
  let! '(bus, root_fs) := mount_disk polls (boot_time inp) (hw_disk hw) in
  let! '(sound, (m, allocator)) :=
    start_sound spins page_table_address (rings sa) (wav_file inp) (pcm_frames0 inp) w (hw_pci hw) (hw_sound hw) in
  let k := start_threads sa cr3 k in
  let k := interrupts_enable k in
  Ret {| sys := mkSystem k ∅ [] 65536 m allocator cr3; SCREEN := screen; CONS := cons; RAND_GEN := Some rand;
         heap_given := heap; cpu := (segments, idt); pics := pics; ports := p; bus := bus; root_fs := root_fs; sound := sound |}.

(** [c"test"] *)
Definition arg_test : list Z := [116; 101; 115; 116].

(** [spawn_proc(c"shell", args.as_ptr(), 1)], with the root directory and the
    descriptors it opens. *)
Definition start_shell (cfg : Config) (n : SpawnAddrs) (root : Z) (fds : S) (s : System BumpAllocator S) : outcome (System BumpAllocator S) :=
  spawn_proc cfg n name_shell [arg_test] root fds s.
End Start.
Arguments Machine : clear implicits.
Arguments Hardware : clear implicits.

(** ** The scheduler at the start *)

(** The boot thread is current, the threads [l] with numbers below [n] are
    listed, those of [q] are queued. *)
Record starting (main rsp cr3 : Z) (l : list Z) (n : Z) (q : list Z) (k : Kernel) : Prop := {
  sg_inv : sched_inv k;
  sg_main : CURR_THREAD_PTR k = main /\ store k !! main = Some (tcb_kmain rsp cr3);
  sg_store a t : store k !! a = Some t -> (a = main \/ a ∈ l) /\ id t < n /\ pcb t = None /\ ~ terminated t;
  sg_lists : threads k = l /\ ready_queue k = q;
  sg_irq : irq k = idle false
}.

Lemma boot_starting main r c : starting main r c [] 2 [] (boot main r c).
Proof.
  split; [apply boot_inv | | | done | done].
  - split; [done |]. apply lookup_singleton_eq.
  - intros a t Ht. cbn in Ht. apply lookup_singleton_Some in Ht as [<- <-]. split; [by left |]. split; [cbn; lia |].
    split; [done |]. by intros [st [=]].
Qed.

Definition spawned (hook cr3 tid : Z) (t : KernelThread) (k : Kernel) : Kernel :=
  sched_unlock (kspawn hook cr3 tid t (sched_lock k)).

Lemma spawned_starting main r c l n q k hook tid t :
  starting main r c l n q k -> kt_tcb t <> main -> kt_tcb t ∉ l -> n <= tid -> 2 <= tid ->
  starting main r c (l ++ [kt_tcb t]) (tid + 1) (if tid >? 2 then q ++ [tid] else q) (spawned hook c tid t k).
Proof.
  intros [Hinv [Hcu Hma] Hst [Hth Hq] Hirq] Hm Hl Hn Htid.
  assert (Hno : store k !! kt_tcb t = None).
  { destruct (store k !! kt_tcb t) as [t0|] eqn:E; [| done]. destruct (Hst _ _ E) as [[? | ?] _]; done. }
  assert (Hfr : fresh k (kt_tcb t) tid).
  { split; [done |]. split; [lia |]. intros a t0 _ Ht0. destruct (Hst a t0 Ht0) as (_ & ? & _). lia. }
  unfold spawned, kspawn. split.
  - by apply spawn_inv.
  - unfold spawn. destruct (tid >? 2); cbn; (split; [done |]); by rewrite lookup_insert_ne.
  - intros a t0 Ht0. assert (Hc : a = kt_tcb t /\ id t0 = tid /\ pcb t0 = None /\ ~ terminated t0 \/ store k !! a = Some t0).
    { unfold spawn in Ht0. destruct (tid >? 2); cbn [store sched_unlock set_irq push_back set_queue set_threads set_store sched_lock] in Ht0;
        apply lookup_insert_Some in Ht0 as [[<- <-] | [_ ?]]; try (by right); left; (do 3 (split; [done |])); by intros [st [=]]. }
    destruct Hc as [(-> & -> & Hp & Ht) | (H1 & H2 & H3)%Hst].
    + split; [right; set_solver |]. split; [lia | done].
    + split; [set_solver |]. split; [lia | done].
  - unfold spawn. destruct (tid >? 2); cbn; by rewrite Hth, Hq.
  - unfold spawn. destruct (tid >? 2); cbn; by rewrite Hirq.
Qed.

Lemma start_threads_spawned sa c main r :
  start_threads sa c (boot main r c) =
  spawned (startup_hook sa) c 5 (render_tty_task sa) (spawned (startup_hook sa) c 4 (async_executor_task sa)
    (spawned (startup_hook sa) c 3 (compositor_task sa) (spawned (startup_hook sa) c 2 (cleaner_task sa) (boot main r c)))).
Proof. reflexivity. Qed.

Definition thread_blocks (sa : StartAddrs) : list Z :=
  [kt_tcb (cleaner_task sa); kt_tcb (compositor_task sa); kt_tcb (async_executor_task sa); kt_tcb (render_tty_task sa)].

Lemma start_threads_starting sa c :
  NoDup (main_tcb sa :: thread_blocks sa) ->
  starting (main_tcb sa) (main_rsp sa) c (thread_blocks sa) 6 [3; 4; 5] (start_threads sa c (boot (main_tcb sa) (main_rsp sa) c)).
Proof.
  intros Hnd. rewrite start_threads_spawned. unfold thread_blocks in *.
  repeat setoid_rewrite NoDup_cons in Hnd. repeat setoid_rewrite not_elem_of_cons in Hnd.
  apply (spawned_starting _ _ _ [_; _; _] 5 [3; 4] _ _ 5 (render_tty_task sa)); [| set_solver | set_solver | lia | lia].
  apply (spawned_starting _ _ _ [_; _] 4 [3] _ _ 4 (async_executor_task sa)); [| set_solver | set_solver | lia | lia].
  apply (spawned_starting _ _ _ [_] 3 [] _ _ 3 (compositor_task sa)); [| set_solver | set_solver | lia | lia].
  apply (spawned_starting _ _ _ [] 2 [] _ _ 2 (cleaner_task sa)); [apply boot_starting | set_solver | set_solver | lia | lia].
Qed.

Lemma enabled_inv k : sched_inv k -> sched_inv (interrupts_enable k).
Proof. by intros [? ? ?]. Qed.

(** ** What the boot loader leaves *)
Section Booted.
Context {F : FrameApi} {FrL : FrameApiLaws F} {PA : PageApi BumpAllocator} {PL : PageLaws BumpAllocator PA}
  {AA : AddrApi} {AL : AddrLaws PA AA} {KL : KernelLaws BumpAllocator PA AA} {S : Type} {SL : Slab S}
  {P : Type} {IO : PortIo P} {mouse : Z} {slow : nat} {P2 : Ps2Laws P IO mouse slow}
  {B : Type} {BIO : PortIo B} {HW : AtaHardware B BIO Primary 176}
  {G : Type} {GA : GdtApi G} {T : Type} {IA : IdtApi T} {C : Type} {PI : PicApi C}
  {H : Type} {P32 : Port32 H} {PCL : PciLaws H P32} {PW : PciWriteLaws H P32 PCL}
  {M : Type} {MM : Mmio M} {lag : nat} {gcap base : Z} {HL : HdaLaws M MM lag gcap base}.
Hypothesis (Hbase : stream_base gcap = Ret base).
Implicit Types (m : gmap Z (list Z)) (info : RawBootInfo) (sa : StartAddrs) (hda : HdaPci) (inp : BootInputs) (hw : Hardware P B H M C).
Abbreviation Mach := (Machine S P B H M T C) (only parsing).

Definition boot_map info m : list MemoryMapEntry :=
  read_mem_map m (mem_map_phys_addr info + PHYS_MEM_OFFSET) (mem_map_entry_count info).
Definition boot_screen info m : BootScreenInfo := read_screen m (screen_phys_addr info + PHYS_MEM_OFFSET).

(** The allocator that [_start] makes. *)
Definition boot_alloc info m : BumpAllocator :=
  let last := kernel_loaded_address info + kernel_size info - 1 in
  {| memory_map := boot_map info m; used_start := kernel_loaded_address info - kernel_loaded_address info mod 4096;
     used_end := last - last mod 4096; current_region_index := 0; next_phys_addr := free_memory_start_phys info |}.

(** The boot loader's tables are in memory, its root table is loaded, lies
    below the free memory, and has no entry for the heap or the sound
    controller. *)
Record boots info hda m (cr3 : Z) : Prop := {
  bo_window : physical_memory_offset info = PHYS_MEM_OFFSET;
  bo_structs : 0 <= screen_phys_addr info < 2 ^ 46 /\ 0 <= mem_map_phys_addr info < 2 ^ 46;
  bo_map : map_ok (boot_map info m) /\ 0 <= mem_map_entry_count info < 2 ^ 32;
  bo_free : 0 <= free_memory_start_phys info <= 2 ^ 52 - 4096;
  bo_image : 0 <= kernel_loaded_address info /\ 1 <= kernel_size info /\
    kernel_loaded_address info + kernel_size info <= 2 ^ 52 - 16384;
  bo_cr3 : cr3 = l4_table_phys_addr info /\ cr3 < free_memory_start_phys info;
  bo_root : exists es, m !! cr3 = Some es /\ length es = 512%nat;
  bo_sized : mem_sized m;
  bo_unused : used m cr3 320 = None /\ used m cr3 416 = None;
  bo_screen : 0 <= bi_bytes_per_line (boot_screen info m) * bi_height (boot_screen info m) < 2 ^ 32;
  bo_hda : hda_at hda
}.

Lemma start_allocator_ok info hda m cr3 :
  boots info hda m cr3 -> start_allocator info m = Ret (boot_screen info m, boot_alloc info m) /\ alloc_ok (boot_alloc info m).
Proof.
  intros [Hw [Hs Hmm] [Hm Hc] Hf Hi _ _ _ _ _ _]. unfold start_allocator. rewrite Hw. unfold PHYS_MEM_OFFSET.
  rewrite !chk_u_ret by lia. cbn [obind].
  assert (E : starts_at (free_memory_start_phys info) (boot_map info m)
    {| start_address := kernel_loaded_address info; size := kernel_size info |} = Ret (boot_alloc info m)).
  { unfold starts_at. cbn [start_address size]. rewrite containing_address_ok by lia. cbn [obind].
    rewrite chk_u_ret by lia. cbn [obind]. rewrite chk_u_ret by lia. cbn [obind]. by rewrite containing_address_ok by lia. }
  unfold boot_map, PHYS_MEM_OFFSET in E |- *. rewrite E. cbn [obind]. split; [done |].
  eapply (kernel_starts _ _ _ _ Hm); [| | | | | exact E]; cbn [start_address size]; try lia.
  unfold boot_map, read_mem_map. rewrite length_fmap, length_seqZ. lia.
Qed.

(** What the boot loader hands over: the first frame it took is the root table,
    and all it took lie below the free memory it names. *)
Lemma hand_over_below map used low s0 n l4 fs s1 screen ksize mm len info :
  map_ok map -> boot_starts_at low map used = Ret s0 -> boot_take (Datatypes.S n) s0 = Ret (l4 :: fs, s1) ->
  hand_over screen ksize mm len l4 s1 = Ret info ->
  physical_memory_offset info = PHYS_MEM_OFFSET /\ l4_table_phys_addr info = l4 /\
  Forall (fun f => f < free_memory_start_phys info) (l4 :: fs).
Proof.
  intros Hm E0 Et Eh. unfold hand_over in Eh. run_inv Eh. rename v into a. injection Eh as <-. cbn [physical_memory_offset l4_table_phys_addr free_memory_start_phys].
  split; [done |]. split; [done |]. unfold boot_starts_at in E0. run_inv E0. run_inv E0. run_inv E0. run_inv E0. injection E0 as Es0.
  assert (Hs0 : bi_memory_map s0 = map /\ next s0 = 0) by (by subst s0). clear Es0. destruct Hs0 as [Emap En].
  destruct (usable_frames_ret s0) as (l & El & Ho & _); [by rewrite Emap |].
  destruct (boot_take_inv _ s0 l _ s1 El ltac:(lia) Et) as (Efs & Hlen & El1 & En1).
  unfold next_free_phys_addr in E. rewrite El1 in E. cbn [obind] in E.
  rewrite En in En1, Efs. rewrite En1 in E.
  replace (Z.to_nat (0 + Z.of_nat (Datatypes.S n))) with (Datatypes.S n) in E by lia.
  destruct (l !! Datatypes.S n) as [a'|] eqn:Ela; [| done]. injection E as ->. change (Z.to_nat 0) with O in Efs.
  assert (Hsplit : l = (l4 :: fs) ++ a :: drop (Datatypes.S (Datatypes.S n)) l)
    by (rewrite Efs; unfold Slices.get; rewrite drop_0; symmetry; by apply take_drop_middle).
  eapply Forall_impl; [apply (in_order_before (l4 :: fs) a (drop (Datatypes.S (Datatypes.S n)) l)); by rewrite <- Hsplit |].
  intros f Hf. simpl in Hf. lia.
Qed.

(** The devices before the kernel: the keyboard controller has no byte on its
    way, the drive holds a volume with the boot sector [b] and the information
    sector [i], [hda] is the sound controller on the bus, the file has enough
    samples, and the rings are in the heap. *)
Record devices sa inp hw hda (b : BPB) (i : FSInfo) (flush polls : nat) : Prop := {
  dv_ps2 : hidden (ps2_view (init_pit (hw_ports hw))) = 0%nat /\ is_byte (conf (ps2_view (init_pit (hw_ports hw))));
  dv_flush : (length (out (ps2_view (init_pit (hw_ports hw)))) < flush)%nat;
  dv_disk : formatted b i (hw_disk hw) /\ (max_busy < polls)%nat;
  dv_card : exists d n t, card_found (hw_pci hw) d n t hda;
  dv_wav : exists n, length (wav_file inp) = (44 + 2 * n)%nat /\ 8192 <= Z.of_nat n < 2 ^ 63;
  dv_pcm : length (pcm_frames0 inp) = 4096%nat;
  dv_rings : in_heap (corb_ptr (rings sa)) /\ in_heap (rirb_ptr (rings sa)) /\ in_heap (bdl_ptr (rings sa))
}.

(** The devices after it: the mouse sends its packets and both ports interrupt;
    the volume of the drive is mounted; the sound controller is programmed with
    the physical addresses of its rings and plays the frames of the sample
    buffer; the segments, the interrupt table and its controllers are those of
    [Interrupts]. *)
Record devices_ready sa info hw (b : BPB) (i : FSInfo) (mach : Mach) : Prop := {
  dr_cpu : cpu mach = (gdt_init, IDT) /\ pics mach = init_pics (hw_pics hw);
  dr_disk : mounted b i (hw_disk hw) (bus mach) (root_fs mach);
  dr_mouse : streaming (ps2_view (ports mach)) = true /\ out (ps2_view (ports mach)) = [] /\
    Z.land (conf (ps2_view (ports mach))) 51 = 3;
  dr_sound : exists ca ra ba, translate (l4_table_phys_addr info) (ram (sys mach)) (corb_ptr (rings sa)) = Ret ca /\
    translate (l4_table_phys_addr info) (ram (sys mach)) (rirb_ptr (rings sa)) = Ret ra /\
    translate (l4_table_phys_addr info) (ram (sys mach)) (bdl_ptr (rings sa)) = Ret ba /\ programmed ca ra ba (regs (sound mach));
  dr_buffer o : 0 <= o < 16384 -> exists e, BDL (sound mach) !! Z.to_nat (o / 4096) = Some e /\ bdl_length e = 4096 /\
    translate (l4_table_phys_addr info) (ram (sys mach)) (PCA_BUFFER_VIRT_START + o) = Ret (bdl_address e + o mod 4096)
}.

Lemma ports_open c : is_byte c -> Z.land (Z.ldiff (Z.lor c 3) 48) 51 = 3.
Proof.
  intros Hc. assert (Hall : forallb (fun c => Z.land (Z.ldiff (Z.lor c 3) 48) 51 =? 3) (seqZ 0 256) = true) by (vm_compute; reflexivity).
  rewrite forallb_forall in Hall. apply Z.eqb_eq, Hall. rewrite <- list_elem_of_In, elem_of_seqZ. unfold is_byte in Hc. lia.
Qed.

(** The kernel's memory when the first process starts. *)
Record kernel_space info m (rest : nat) (mach : Mach) : Prop := {
  ks_heap n : heap_page <= n < heap_page + 25600 ->
    exists f, kernel_maps (ram (sys mach)) (l4_table_phys_addr info) KERNEL_FLAGS n f /\
      ~ taken (boot_alloc info m) f /\ taken (ALLOC (sys mach)) f;
  ks_region : region_ok 320 (l4_table_phys_addr info) (ram (sys mach)) (ALLOC (sys mach));
  ks_avail : avail rest (ALLOC (sys mach))
}.

(** The heap of [init_heap], in the form the later mappings keep it. *)
Lemma heap_ready l4 m a rest : root_free 320 l4 m a -> avail (heap_frames + rest) a ->
  exists m1 a1, init_heap l4 (m, a) = Ret (Mapped, Some (HEAP_START, HEAP_SIZE), (m1, a1)) /\
    heap_mapped l4 m1 a1 /\ root_kept 320 l4 m a m1 a1 /\ avail rest a1 /\
    forall n, heap_page <= n < heap_page + 25600 -> exists f, kernel_maps m1 l4 KERNEL_FLAGS n f /\ ~ taken a f /\ taken a1 f.
Proof.
  intros Hf Hav. destruct (init_heap_ok l4 m a rest Hf Hav) as (fs & m1 & a1 & E & Hk & Hfs & Hav1). exists m1, a1.
  assert (Hall : forall n, heap_page <= n < heap_page + 25600 ->
    exists f, kernel_maps m1 l4 KERNEL_FLAGS n f /\ ~ taken a f /\ taken a1 f /\ frame_ok f).
  { intros n Hn. destruct (run_lookup _ _ _ _ _ _ _ _ _ (n - heap_page) Hfs) as (f & Hfi & Hm); [rewrite heap_pages_Z; lia |].
    replace (heap_page + (n - heap_page)) with n in Hm by lia. exists f. split; [done |]. destruct Hfs as (_ & _ & Hfs).
    rewrite Forall_lookup in Hfs. by apply (Hfs _ f Hfi). }
  split_and!; [done | split; [apply Hk |] | done | done |]; intros n Hn; destruct (Hall n Hn) as (f & ? & ? & ? & ?); eauto.
Qed.

(** The threads when interrupts are switched on. *)
Definition threads_ready sa (k : Kernel) : Prop :=
  threads k = thread_blocks sa /\ ready_queue k = [3; 4; 5] /\ CURR_THREAD_PTR k = main_tcb sa /\ interrupts (irq k) = true.

Lemma start_kernel_ok cfg flush polls sa inp info hw hda b i m cr3 rest :
  boots info hda m cr3 -> devices sa inp hw hda b i flush polls -> NoDup (main_tcb sa :: thread_blocks sa) ->
  page_table_address cfg = l4_table_phys_addr info -> avail (heap_frames + (hda_frames hda + rest)) (boot_alloc info m) ->
  exists mach : Mach, start_kernel flush polls lag sa inp info hw m cr3 = Ret mach /\ proc_boot cfg (sys mach) /\ threads_ready sa (kern (sys mach)) /\
    heap_given mach = Some (HEAP_START, HEAP_SIZE) /\ pcbs (sys mach) = ∅ /\ devices_ready sa info hw b i mach /\ kernel_space info m rest mach.
Proof.
  intros Hbo [[Hp1 Hp2] Hp3 [Hfm Hpl] (d & n & t & Hcard) (len & Hw & Hlen) Hpcm (R1 & R2 & R3)] Hnd Hcfg Hav.
  destruct (start_allocator_ok info hda m cr3 Hbo) as [Ea Hwf]. pose proof Hbo as [_ _ _ _ _ [-> Hl4] Hroot Hsz [Hu1 Hu2] Hscr Hhda].
  set (l4 := l4_table_phys_addr info) in *. set (a0 := boot_alloc info m) in *.
  destruct (heap_ready l4 m a0 _ ltac:(by split) Hav) as (m1 & a1 & E1 & Hh & Hk1 & Hav1 & Hall).
  assert (Hf2 : root_free 416 l4 m1 a1).
  { destruct Hk1 as [[Hok _ Hwf1] Hsl _ Hmono _]. split; [| by auto | done |].
    - apply (pt_table _ _ _ _ Hok l4 (in_tree_root _ _ _ _)).
    - unfold used in *. by rewrite Hsl. }
  destruct (sound_started Hbase l4 (rings sa) (wav_file inp) len (pcm_frames0 inp) m1 a1 (hw_pci hw) d n t hda rest (hw_sound hw))
    as (st & m3 & a3 & ca & ra & ba & Es & _ & Ec & Er & Eb & Hpr & _ & Hbuf & Hh3 & Hk2 & Hav3); try done.
  destruct (mount_disk_ok polls (boot_time inp) b i (hw_disk hw) Hfm Hpl) as (bus1 & fs1 & Em & Hmo).
  destruct (init_ps2_ok flush _ _ _ _ _ (conj eq_refl (conj eq_refl (conj eq_refl eq_refl))) Hp1 Hp3 Hp2) as (p1 & Ep1 & Sp1).
  destruct (init_ps2_mouse_ok p1 _ _ _ Sp1) as (p2 & Ep2 & (Sc & So & _ & Ss)).
  assert (exists scr, screen_new (boot_screen info m) = Ret scr) as [scr Escr] by (unfold screen_new; rewrite chk_u_ret by lia; eauto).
  pose proof (start_threads_starting sa l4 Hnd) as [Hinv [Hcu Hma] Hst [Hth Hq] _].
  assert (Hstart : start_kernel (S := S) flush polls lag sa inp info hw m l4 =
    Ret {| sys := mkSystem (interrupts_enable (start_threads sa l4 (boot (main_tcb sa) (main_rsp sa) l4))) ∅ [] 65536 m3 a3 l4;
           SCREEN := scr; CONS := console_new; RAND_GEN := Some (init_rand (tsc0 inp) (tsc1 inp) (tsc2 inp) (hw_seed inp));
           heap_given := Some (HEAP_START, HEAP_SIZE); cpu := (gdt_init, IDT); pics := init_pics (hw_pics hw);
           ports := p2; bus := bus1; root_fs := fs1; sound := st |}).
  { unfold start_kernel. rewrite Ea. cbn [obind]. fold l4. rewrite E1. cbn [obind]. rewrite Escr. cbn [obind]. rewrite Ep1. cbn [obind].
    rewrite Ep2. cbn [obind]. rewrite Em. cbn [obind]. by rewrite Es. }
  revert Hstart Hinv Hcu Hma Hst Hth Hq. generalize (start_threads sa l4 (boot (main_tcb sa) (main_rsp sa) l4)) as k.
  intros k Hstart Hinv Hcu Hma Hst Hth Hq. eexists. split; [exact Hstart |]. cbn [sys heap_given kern pcbs ports sound bus root_fs].
  split; [| split; [by split_and! |]; split; [done |]; split; [done |]; split].
  - split; cbn [kern PROC PID ALLOC ram CR3 sys]; [by apply enabled_inv | done | | |].
    + intros a tt Ht. destruct (Hst a tt Ht) as (_ & ? & ? & ?). split; [done |]. split; [lia | done].
    + rewrite Hcfg. split; [apply Hk2 |]. split; [apply (rt_sized _ _ _ _ _ _ Hk2), (rt_sized _ _ _ _ _ _ Hk1), Hsz |]. split.
      * destruct (pt_table _ _ _ _ (rk_tree _ _ _ _ (proj1 Hh3)) _ (in_tree_root _ _ _ _)) as (es & -> & _). eauto.
      * apply (rk_taken _ _ _ _ (proj1 Hh3)), in_tree_root.
    + intros tt Ht. change (store k !! CURR_THREAD_PTR k = Some tt) in Ht. rewrite Hcu, Hma in Ht. by injection Ht as <-.
  - split; cbn [ports sys ram sound]; [done | exact Hmo | | by exists ca, ra, ba | done]. rewrite Sc, So, Ss. split_and!; [done | done | by apply ports_open].
  - split; cbn [sys ram ALLOC]; [| apply Hh3 | done]. intros pg Hpg. destruct (Hall pg Hpg) as (f & (e & He & Hef) & Hnf & Htf). exists f.
    split; [| split; [done | by apply (rt_mono _ _ _ _ _ _ Hk2)]]. exists e. split; [| done].
    destruct (region_kept 320 416 l4 m1 a1 m3 a3 Hk2 ltac:(lia) (proj1 Hh)) as [_ Hpte].
    rewrite Hpte; [done | | done]. apply (region_path heap_region), heap_in_region, Hpg.
Qed.

(** Its thread blocks are those of the threads it spawned. *)
Lemma start_kernel_store flush polls spins sa inp info hw m cr3 (mach : Mach) :
  NoDup (main_tcb sa :: thread_blocks sa) -> start_kernel flush polls spins sa inp info hw m cr3 = Ret mach ->
  forall a t, store (kern (sys mach)) !! a = Some t -> a = main_tcb sa \/ a ∈ thread_blocks sa.
Proof.
  intros Hnd E a t Ht. unfold start_kernel, Interrupts.init in E. run_inv E. destruct v as [scr0 al]. run_inv E. destruct v as [[r h] w].
  run_inv E. run_inv E. run_inv E. run_inv E. destruct v2 as [id p]. run_inv E. destruct v2 as [bus1 fs1]. run_inv E. destruct v2 as [st [m3 a3]]. injection E as <-. cbn [sys kern] in Ht.
  by destruct (sg_store _ _ _ _ _ _ _ (start_threads_starting sa cr3 Hnd) a t Ht).
Qed.


(** The shell is the first process: [spawn_proc] starts it from the state that
    [_start] has set up, as process 65536, behind the kernel's threads. *)
Theorem shell_first cfg flush polls sa inp info hw hda b i m cr3 rest n root fds file limit :
  boots info hda m cr3 -> devices sa inp hw hda b i flush polls -> NoDup (main_tcb sa :: thread_blocks sa) ->
  page_table_address cfg = l4_table_phys_addr info -> avail (heap_frames + (hda_frames hda + rest)) (boot_alloc info m) ->
  (forall s : System BumpAllocator S, avail rest (ALLOC s) -> can_exec cfg s name_shell [arg_test] file limit) ->
  new_tcb n ∉ main_tcb sa :: thread_blocks sa ->
  exists (mach : Mach) s p t, start_kernel flush polls lag sa inp info hw m cr3 = Ret mach /\ start_shell cfg n root fds (sys mach) = Ret s /\
    proc_inv cfg s /\ PROC s = [new_pcb n] /\ pcbs s !! new_pcb n = Some p /\ pid p = 65536 /\ cwd p = root /\ fd p = fds /\
    ready_queue (kern s) = [3; 4; 5; 65536] /\ store (kern s) !! new_tcb n = Some t /\ id t = 65536 /\
    CURR_THREAD_PTR (kern s) = main_tcb sa.
Proof.
  intros Hbo Hdv Hnd Hcfg Hav Hce Hnt. destruct (start_kernel_ok cfg flush polls sa inp info hw hda b i m cr3 rest Hbo Hdv Hnd Hcfg Hav)
    as (mach & E & Hb & (Hth & Hq & Hcu & _) & _ & Hpc & _ & [_ _ Hav3]).
  assert (Hsf : spawn_fresh (sys mach) n).
  { split; [rewrite (proj2 (pb_procs _ _ Hb)); lia | by rewrite Hpc |].
    destruct (store (kern (sys mach)) !! new_tcb n) as [t|] eqn:Ht; [| done]. exfalso. apply Hnt.
    destruct (start_kernel_store flush polls lag sa inp info hw m cr3 mach Hnd E (new_tcb n) t Ht); set_solver. }
  destruct (spawn_proc_spec cfg (sys mach) n name_shell [arg_test] root fds file limit (proc_boot_inv _ _ Hb) (Hce _ Hav3) Hsf)
    as (p & t & r & s & Es & Hi & _ & HP & Hq' & _ & Hk & Hp & Hf & Hfd & Ht & Hid & _).
  destruct (pb_procs _ _ Hb) as [HP0 HPID]. exists mach, s, p, t.
  injection Hf as Hf1 Hf2 Hf3 Hf4 Hf5 Hf6. rewrite HPID in *.
  split_and!; try done; [by rewrite HP, HP0 | by rewrite Hq', Hq | by rewrite Hk].
Qed.
End Booted.

Module StartupWitness.
#[local] Existing Instance align_down_frames.
#[local] Existing Instance align_down_frames_laws.
#[local] Existing Instance page_api.
#[local] Existing Instance UserMem.UserMemWitness.addr_laws.
#[local] Existing Instance table_slab.
Import KernelMap.KernelMapWitness Elf.ElfWitness.
#[local] Existing Instance Ps2Setup.Ps2Witness.c_io.
#[local] Existing Instance Ps2Setup.Ps2Witness.c_laws.
Import PciWitness HdaWitness Ata.AtaDevice MountFat.MountWitness InterruptsWitness.
#[local] Instance slave_hardware : AtaHardware Device dev_io Primary 176 := dev_laws 176.
#[local] Existing Instances fun_idt fun_pic.
(** A segment table as the list of its entries. *)
#[local] Instance list_gdt : GdtApi (list Descriptor) := {|
  gdt_new := []; add_entry d g := (8 * (1 + Z.of_nat (length g)) + ring d, g ++ [d])
|}.

(** A PC with 128 MiB: the memory map at [0x1008], the screen's parameters at
    [0x1100], the root table behind the kernel image. *)
Definition low_words : list Z :=
  [0; 0; 654336; 1; 1048576; 133169152; 1] ++ replicate 25 0 ++
  [800 + 600 * 2 ^ 32; 16 + 2 * 2 ^ 32; 1600 + 960000 * 2 ^ 32; 60000 + 0xFD000000 * 2 ^ 32; 0; 799 + 599 * 2 ^ 32] ++ replicate 474 0.
Definition boot_ram : gmap Z (list Z) := {[ 4096 := low_words; 0x200000 := root ]}.
Definition boot_info : RawBootInfo :=
  {| screen_phys_addr := 0x1100; physical_memory_offset := PHYS_MEM_OFFSET; kernel_base_virt := 0xFFFFFFFF80000000;
     kernel_loaded_address := 0x100000; kernel_size := 0xFF800; kstack_top := 0xFFFFFFFF82200000; kstack_bottom := 0xFFFFFFFF82000000;
     mem_map_phys_addr := 0x1008; mem_map_entry_count := 2; l4_table_phys_addr := 0x200000; free_memory_start_phys := 0x201000 |}.
Definition addrs : StartAddrs :=
  let t n := {| kt_tcb := n; kt_stack := n * 1000000; kt_entry := n * 7 |} in
  {| main_tcb := 100; main_rsp := 0xFFFFFFFF821FFF00; startup_hook := 7;
     rings := {| corb_ptr := HEAP_START + 0x2000; rirb_ptr := HEAP_START + 0x3000; bdl_ptr := HEAP_START + 0x5080 |};
     cleaner_task := t 102; compositor_task := t 103; async_executor_task := t 104; render_tty_task := t 105 |}.
Definition boot_cfg : Config :=
  {| page_table_address := 0x200000; SHELL_ELF := tiny; XIANGQI_ELF := tiny; PRINTMOUSEMOVEMENT_ELF := tiny;
     user_code_selector := 43; user_data_selector := 51 |}.

Lemma boot_ram_map : boot_map boot_info boot_ram = ram128.
Proof. vm_compute. reflexivity. Qed.

Lemma boot_ram_boots : boots boot_info qemu_hda boot_ram 0x200000.
Proof.
  assert (Hr : boot_ram !! 0x200000 = Some root) by (vm_compute; reflexivity).
  assert (Hu : forall j, (256 < j < 512)%nat -> used boot_ram 0x200000 j = None).
  { intros j Hj. unfold used, slot. rewrite Hr. cbn [mbind option_bind]. unfold root.
    rewrite list_lookup_insert_ne, lookup_replicate_2 by lia. done. }
  split; [done | cbn; lia | | cbn; lia | cbn; lia | cbn; lia | | | | | exact qemu_hda_at].
  - rewrite boot_ram_map. split; [| cbn; lia]. repeat split; repeat constructor; cbn; unfold after_region; cbn; done || lia.
  - exists root. split; [exact Hr |]. vm_compute. reflexivity.
  - intros f ws Hf. unfold boot_ram in Hf. apply lookup_insert_Some in Hf as [[_ <-] | [_ Hf]]; [vm_compute; reflexivity |].
    apply lookup_singleton_Some in Hf as [_ <-]. vm_compute. reflexivity.
  - split; apply Hu; lia.
  - vm_compute. split; [discriminate | reflexivity].
Qed.

Lemma boot_avail : avail (heap_frames + (hda_frames qemu_hda + 200)) (boot_alloc boot_info boot_ram).
Proof.
  change (hda_frames qemu_hda) with 10%nat. apply (avail_le _ (Datatypes.S (heap_frames + 210))); [lia |].
  exists 0x201000. eexists. split; [vm_compute; reflexivity |].
  eapply avail_within; [vm_compute; reflexivity | vm_compute; reflexivity | ..]; [by repeat split | | done | done | |].
  all: rewrite ?Nat2Z.inj_add, ?heap_frames_Z; simpl; lia.
Qed.

Lemma addrs_apart : NoDup (main_tcb addrs :: thread_blocks addrs).
Proof. apply (bool_decide_unpack _). vm_compute. exact I. Qed.

(** The sound card of [Pci] and [HdaSetup] and the keyboard controller of
    [Ps2Setup] with a byte waiting, the drive of [MountFat]. *)
Definition pc_hardware : Hardware Ps2Witness.Controller Device Bus Card ((Z -> bool) * (Z * Z)) :=
  {| hw_pics := ((fun _ => false), (0, 0)); hw_ports := Ps2Witness.cold; hw_disk := drive1; hw_pci := bus0; hw_sound := {| file := fun _ => 0; late := false |} |}.
Definition pc_inputs : BootInputs :=
  {| tsc0 := 17; tsc1 := 20; tsc2 := 40; hw_seed := None; wav_file := replicate (44 + 2 * Z.to_nat 8192) 0;
     pcm_frames0 := replicate 4096 (0, 0); boot_time := 1700000000 |}.

Lemma pc_devices : devices addrs pc_inputs pc_hardware qemu_hda bpb1 fsi1 2 3.
Proof.
  split; [split; [reflexivity | by split] | cbn; lia | split; [| cbn; lia] | | | by apply length_replicate | unfold in_heap; cbn [rings addrs corb_ptr rirb_ptr bdl_ptr]; unfold HEAP_START, KernelMap.HEAP_SIZE; lia].
  - split; [split; [cbn; lia | reflexivity] | exact (conj bpb1_wf fsi1_wf) | exact image1_ok | vm_compute; reflexivity | vm_compute; reflexivity | vm_compute; congruence].
  - eexists _, 14, 4. split; [split; [exact space0_ok | exact space0_headers] | vm_compute; reflexivity | lia | | reflexivity | reflexivity].
    split; [intros old v Hv; reflexivity | reflexivity].
  - exists (Z.to_nat 8192). cbn [wav_file pc_inputs]. rewrite length_replicate. split; [done | lia].
Qed.

End StartupWitness.
