(* ===== verification/CallSteps.v ===== *)
(** * System calls are sequences of process steps

    [ProcSys] states what processes do to the machine as steps and proves what
    every sequence of them keeps.  Here the dispatcher of the system calls is
    shown to be such a sequence: every call, and every later turn of a call that
    blocked, with everything it copies to the caller's memory.  The theorems on
    reachable states thus hold between any two calls and, the steps being
    separate, with the steps of other threads in the middle of a call.

    A call copies its results through pointers that the kernel does not check;
    [honest] is that they lie in the lower half, where programs have their
    memory.  [resources] is that a fork, exec or allocation finds the memory it
    takes. *)
From S2P Require Import Prelude Text Memory Paging PagingMap UserMem UserStack Elf Isolation Slab Lock Thread ThreadInv Sched ThreadKeep Queue Pipe Proc ProcInv ProcOps ProcSys ProcWait Files UserCopy Syscall PipeCalls.

(** ** What a call does to the scheduler's state *)

(** Wake threads, or stop and switch. *)
Inductive kern_turn : Kernel -> Kernel -> Prop :=
| kt_none k : kern_turn k k
| kt_wake l k : Forall (fun i => i < 65536 \/ not_held ended_or_joining k i) l -> kern_turn k (locked_unblock_all l k)
| kt_block r k k' : (forall st, r <> Terminated st) -> block_task r k = Ret k' -> kern_turn k k'.

(** What the dispatcher relies on in a file system: its drivers wake and block
    threads and do nothing else to them, and store no more than was asked for. *)
Class VfsLaws (V FO : Type) (VO : VfsOps V FO) := {
  f_read_law procs o i pos len k v k' v' data r :
    f_read procs o i pos len (k, v) = Ret (k', v', data, r) -> kern_turn k k' /\ (length data <= len)%nat;
  f_write_law procs o i pos bs k v k' v' r :
    f_write procs o i pos bs (k, v) = Ret (k', v', r) -> kern_turn k k'
}.

Class LayoutLaws (T : Type) (L : Layout T) := layout_size (v : T) : Z.of_nat (length (bytes_of v)) = size_of T.

Lemma upd_length (l l' : list Z) i b : upd l i b = Ret l' -> length l' = length l.
Proof. unfold upd. repeat case_match; try done. intros [= <-]. apply length_insert. Qed.

Lemma drain_length {Q : Type} {AQ : ArrayQueue Z Q} (q q' : Q) buffer buffer' n :
  drain q buffer = Ret (q', buffer', n) -> length buffer' = length buffer.
Proof.
  unfold drain. generalize (Datatypes.S (Z.to_nat (aq_len q))) as fuel, 0 as i. intros fuel. revert q buffer.
  induction fuel as [|fuel IH]; intros q buffer i H; [done |]. cbn [drain_loop] in H.
  destruct (aq_pop q) as [[b|] q1]; [| congruence]. destruct (_ <=? i); [congruence |]. run_inv H.
  rewrite (IH _ _ _ H). by eapply upd_length.
Qed.

Lemma sleepers_wait k waiting procs l :
  sleepers k waiting procs = Ret l -> forall i, i ∈ l -> exists a t, listed k a t /\ id t = i /\ waiting (state t) = true.
Proof.
  revert l. induction procs as [|pid procs IH]; intros l H i Hi; cbn [sleepers] in H.
  - injection H as <-. by apply elem_of_nil in Hi.
  - run_inv H. run_inv H. run_inv H. injection H as <-. destruct (waiting (state v0)) eqn:Hw; [| eauto].
    apply elem_of_cons in Hi as [-> | Hi]; [| eauto].
    unfold unwrap in E. destruct (find_thread k pid) as [a|] eqn:Hf; [| done]. injection E as <-.
    destruct (find_in_spec _ _ _ _ Hf) as (Ha & t & Ht & Hid). unfold read_tcb in E0. rewrite Ht in E0. injection E0 as <-.
    exists a, t. done.
Qed.

Lemma wake_turn procs n dir k k' : core_of k -> wake_pipe_sleepers procs n dir k = Ret k' -> kern_turn k k'.
Proof.
  intros Hc H. unfold wake_pipe_sleepers in H. run_inv H. injection H as <-. apply (kt_wake v). apply Forall_forall.
  intros i Hi. right. intros b u Hb Hu Hid Hj. destruct (sleepers_wait _ _ _ _ E i Hi) as (a & t & [Ha Ht] & Hid' & Hw).
  assert (a = b) as -> by (eapply (core_uniq _ _ _ _ Hc); eauto; congruence). assert (t = u) as -> by congruence.
  destruct Hj as [[st Est] | [c Ec]]; rewrite ?Est, ?Ec in Hw; by destruct dir.
Qed.

Section CallSteps.
Context {A : Type} {FA : FrameAllocator A} {FL : FrameAllocatorLaws A} {PA : PageApi A} {PL : PageLaws A PA}
  {AA : AddrApi} {AL : AddrLaws PA AA} {S : Type} {SL : Slab S}
  {Q : Type} {AQ : ArrayQueue Z Q} {V FO : Type} {VO : VfsOps V FO} {VL : VfsLaws V FO VO}
  {LD : Layout DEntryMinimal} {LS : Layout Stat} {LDL : LayoutLaws DEntryMinimal LD} {LSL : LayoutLaws Stat LS}.
Variable cfg : Config.
Abbreviation Mach := (Machine A S Q V FO) (only parsing).
Implicit Types (s : System A S) (p : ProcessControlBlock S) (m : Mach).

(** Process [x], whose control block is [p], is in a system call. *)
Definition calls x p s : Prop := proc_inv cfg s /\ may_call (kern s) /\ curr_proc s = Ret (x, p).

(** A piece of a call: steps, after which the same process is in the call. *)
Record piece x p p' s s' : Prop := {
  pc_steps : rtc (step_by cfg x) s s';
  pc_calls : calls x p' s';
  pc_kern : kern s' = kern s
}.

Lemma piece_refl x p s : calls x p s -> piece x p p s s.
Proof. by split. Qed.
Lemma piece_trans x p1 p2 p3 s1 s2 s3 : piece x p1 p2 s1 s2 -> piece x p2 p3 s2 s3 -> piece x p1 p3 s1 s3.
Proof. intros [H1 _ K1] [H2 C2 K2]. split; [by etransitivity | done | congruence]. Qed.

(** *** Copying to the caller's memory *)
Definition buffer_ok (ptr n : Z) : Prop := 0 <= ptr /\ 0 <= n /\ ptr + n <= 2 ^ 47.

Lemma store_piece x p bs : forall ptr s s',
  calls x p s -> buffer_ok ptr (Z.of_nat (length bs)) -> write_user ptr bs s = Ret s' -> piece x p p s s'.
Proof.
  induction bs as [|b bs IH]; intros ptr s s' Hc (H0 & _ & Hmax) H; cbn [write_user length] in *.
  - injection H as <-. by apply piece_refl.
  - run_inv H. destruct Hc as (Hi & Hm & Hcur).
    assert (Hs : proc_step cfg (Some x) s (set_mem v (ALLOC s) s)).
    { eapply ps_store; [done | done | | exact E]. unfold user_addr. lia. }
    eapply piece_trans; [split; [apply rtc_once; left; exact Hs | | done] |].
    + split; [by apply (proc_step_inv cfg _ _ _ Hs) | done].
    + apply (IH (ptr + 1)); [| split_and!; lia | exact H]. split; [by apply (proc_step_inv cfg _ _ _ Hs) | done].
Qed.

(** *** Changing the caller's control block *)
Lemma own_piece x p f s : calls x p s -> own_change f p -> piece x p (f p) s (write_pcb x f s).
Proof.
  intros (Hi & Hm & Hc) Hf. assert (Hs : proc_step cfg (Some x) s (write_pcb x f s)) by by eapply ps_own.
  destruct (curr_proc_caller cfg s x p Hi Hm Hc) as (t & [_ Hp [_ Ht] Hpt _ _ _ _]).
  split; [by apply rtc_once; left | | done]. split; [by apply (proc_step_inv cfg _ _ _ Hs) |]. split; [done |].
  unfold curr_proc, curr_thread, read_tcb. cbn [kern write_pcb set_pcbs pcbs]. rewrite Ht. cbn [unwrap obind].
  rewrite Hpt. cbn [unwrap obind]. by rewrite lookup_alter_eq, Hp.
Qed.

(** *** Waking and blocking *)
Lemma resume_switch s k k' s' :
  proc_inv cfg (set_kern k s) -> switch_if_needed k = Ret k' -> resume_kern k' s = Ret s' ->
  switch_space (set_kern k s) = Ret s'.
Proof.
  intros Hi Hs Hr. unfold switch_if_needed in Hs. run_inv Hs. destruct v as [next k1]. injection Hs as <-.
  unfold switch_space. cbn [kern set_kern]. rewrite E. cbn [obind]. unfold resume_kern in Hr. run_inv Hr. injection Hr as <-.
  destruct next as [a|]; cbn [switch_to_task set_curr CURR_THREAD_PTR] in *.
  - unfold switch_space_to. cbn [kern set_kern].
    replace (read_tcb k1 a) with (read_tcb (switch_to_task a k1) a) by done. by rewrite E0.
  - assert (Ek : k1 = k).
    { unfold switch_pick in E. destruct (negb (NEEDS_RESCHEDULE k)); [congruence |].
      destruct (_ >? 0); [done |]. run_inv E. run_inv E. by destruct v1. }
    subst k1. unfold read_tcb in E0. destruct (store k !! CURR_THREAD_PTR k) as [t|] eqn:Ht; [| done]. injection E0 as <-.
    rewrite <- (pi_cr3 _ _ Hi t Ht). by destruct s.
Qed.

Lemma turn_steps x p s k s' : calls x p s -> kern_turn (kern s) k -> resume_kern k s = Ret s' -> rtc (step_by cfg x) s s'.
Proof.
  intros (Hi & Hm & Hc) Ht Hr. inversion Ht as [k0 E1 E2 | l k0 Hl E1 E2 | r k0 k' Hnt Hb E1 E2]; subst.
  - destruct (resume_idle cfg s Hi Hm) as [E _]. rewrite E in Hr. by injection Hr as <-.
  - destruct (curr_proc_kern cfg s (locked_unblock_all l (kern s)) (locked_unblock_all_stays cfg s l Hi Hl)
      (unblock_all_curr l (sched_lock (kern s))) Hi) as [_ E]. rewrite E in Hr. injection Hr as <-.
    apply rtc_once. right. by apply ps_wake.
  - apply (block_steps cfg x r s s' Hi Hm Hnt). eapply resume_switch; [| exact Hb | exact Hr].
    by apply (proc_step_inv cfg None s); [apply ps_block |].
Qed.

Lemma yield_steps x p s k s' : calls x p s -> yield_sched (kern s) = Ret k -> resume_kern k s = Ret s' -> rtc (step_by cfg x) s s'.
Proof.
  intros (Hi & Hm & Hc) H Hr. unfold yield_sched in H. run_inv H.
  destruct (curr_proc_caller cfg s x p Hi Hm Hc) as (t & [_ _ [Ht _] _ _ _ _ _]).
  assert (Hs : proc_step cfg None s (set_kern v s)) by by apply ps_yield.
  eapply rtc_l; [right; exact Hs |]. pose proof (proj1 (proc_step_inv cfg _ _ _ Hs Hi)) as Hi1.
  apply switch_steps; [done |]. by eapply resume_switch.
Qed.

Lemma buffer_part ptr n n' : buffer_ok ptr n -> 0 <= n' <= n -> buffer_ok ptr n'.
Proof. unfold buffer_ok. lia. Qed.

(** *** Descriptors *)
Lemma set_fd_piece x p g m m' :
  set_curr_fd g m = Ret m' -> calls x p (sys m) -> exists p', piece x p p' (sys m) (sys m').
Proof.
  intros H Hc. unfold set_curr_fd in H. rewrite (proj2 (proj2 Hc)) in H. cbn [obind] in H. run_inv H. injection H as <-.
  exists (set_fd v p). by apply own_piece.
Qed.
Lemma insert_fd_piece x p a m d m' :
  insert_fd a m = Ret (d, m') -> calls x p (sys m) -> exists p', piece x p p' (sys m) (sys m').
Proof.
  intros H Hc. unfold insert_fd in H. rewrite (proj2 (proj2 Hc)) in H. cbn [obind] in H.
  destruct (slab_insert a (fd p)) as [key t]. injection H as _ <-. exists (set_fd t p). by apply own_piece.
Qed.

Lemma pipe_steps x p ptr m m' :
  calls x p (sys m) -> buffer_ok ptr 16 -> call_pipe ptr m = Ret m' -> rtc (step_by cfg x) (sys m) (sys m').
Proof.
  intros Hc [H0 [_ Hb]] H. unfold call_pipe in H. cbn zeta in H. unfold open_node, new_file in H.
  run_inv H. destruct v as [rfd m1]. run_inv H. destruct v as [wfd m2]. run_inv H. run_inv H. injection H as <-.
  destruct (insert_fd_piece x p _ _ _ _ E Hc) as (p1 & P1). destruct (insert_fd_piece x p1 _ _ _ _ E0 (pc_calls _ _ _ _ _ P1)) as (p2 & P2).
  pose proof (piece_trans _ _ _ _ _ _ _ P1 P2) as P. pose proof (pc_calls _ _ _ _ _ P) as Hc2.
  assert (B1 : buffer_ok ptr (Z.of_nat (length (le_bytes 8 rfd)))) by (unfold buffer_ok; rewrite le_bytes_length; lia).
  assert (B2 : buffer_ok (ptr + 8) (Z.of_nat (length (le_bytes 8 wfd)))) by (unfold buffer_ok; rewrite le_bytes_length; lia).
  pose proof (store_piece x p2 _ _ _ _ Hc2 B1 E1) as P3. pose proof (store_piece x p2 _ _ _ _ (pc_calls _ _ _ _ _ P3) B2 E2) as P4.
  exact (pc_steps _ _ _ _ _ (piece_trans _ _ _ _ _ _ _ P (piece_trans _ _ _ _ _ _ _ P3 P4))).
Qed.

(** *** Reading and writing *)
Lemma pipe_read_turn_law procs n k (q q' : Pipe Q) buffer buffer' k' r :
  core_of k -> pipe_read_turn procs n k q buffer = Ret (k', q', buffer', r) ->
  kern_turn k k' /\ length buffer' = length buffer.
Proof.
  intros Hc H. unfold pipe_read_turn in H. destruct (negb _).
  - run_inv H. destruct v as [[q1 b1] n1]. run_inv H. injection H as <- _ <- _. split; [| by eapply drain_length].
    destruct (0 <? n1); [by eapply wake_turn | injection E0 as <-; constructor].
  - destruct (_ =? 0); [injection H as <- _ <- _; split; [constructor | done] |]. run_inv H. injection H as <- _ <- _.
    split; [| done]. by apply (kt_block (WaitPipeRead n)).
Qed.

Lemma pipe_write_turn_law procs n k (q q' : Pipe Q) w w' k' r :
  core_of k -> pipe_write_turn procs n k q w = Ret (k', q', w', r) -> kern_turn k k'.
Proof.
  intros Hc H. unfold pipe_write_turn in H. destruct (todo w) as [|c rest]; [injection H as <- _ _ _; constructor |].
  destruct (try_write q c).
  - run_inv H. injection H as <- _ _ _. by eapply wake_turn.
  - destruct (_ =? 0); [injection H as <- _ _ _; constructor |]. run_inv H. injection H as <- _ _ _.
    by apply (kt_block (WaitPipeWrite n)).
Qed.

Lemma read_turn_steps x p a ptr len m r m' :
  calls x p (sys m) -> buffer_ok ptr len -> read_turn a ptr len m = Ret (r, m') -> rtc (step_by cfg x) (sys m) (sys m').
Proof.
  intros Hc Hb H. unfold read_turn in H. run_inv H. run_inv H. run_inv H. destruct v1 as [[[k m1] data] r1].
  run_inv H. run_inv H.
  assert (Hk : sys m1 = sys m /\ kern_turn (kern (sys m)) k /\ (length data <= Z.to_nat len)%nat).
  { destruct (f_ops v); destruct (f_inode v); try discriminate E1.
    - run_inv E1. run_inv E1. destruct v4 as [[[k1 q1] b1] r2]. injection E1 as -> <- <- _. split; [done |].
      destruct (pipe_read_turn_law _ _ _ _ _ _ _ _ _ (inv_core _ (pi_sched _ _ (proj1 Hc))) E5) as [? Hl]. split; [done |].
      rewrite length_take, Hl, length_replicate. lia.
    - run_inv E1. destruct v3 as [[[k1 v3] b1] r2]. injection E1 as -> <- <- _. split; [done |]. by eapply f_read_law. }
  destruct Hk as (Em & Ht & Hl). rewrite Em in E2. unfold buffer_ok in Hb.
  assert (Hp : piece x p p (sys m) v1) by (apply (store_piece x p data ptr); [done | split_and!; lia | done]).
  assert (Hs : rtc (step_by cfg x) (sys m) v2).
  { etransitivity; [apply Hp |]. apply (turn_steps x p v1 k); [apply Hp | by rewrite (pc_kern _ _ _ _ _ Hp) | done]. }
  destruct r1 as [n|]; [run_inv H |]; injection H as _ <-; exact Hs.
Qed.

Lemma set_meta_sys i md m m' : set_inode_meta i md m = Ret m' -> sys m' = sys m.
Proof. unfold set_inode_meta. destruct i; intros H; run_inv H; by injection H as <-. Qed.

Lemma write_turn_steps x p now a w m r w' m' :
  calls x p (sys m) -> write_turn now a w m = Ret (r, w', m') -> rtc (step_by cfg x) (sys m) (sys m').
Proof.
  intros Hc H. unfold write_turn in H. run_inv H. run_inv H. run_inv H. destruct v1 as [[[k m1] w1] r1]. run_inv H.
  assert (Hk : sys m1 = sys m /\ kern_turn (kern (sys m)) k).
  { destruct (f_ops v), w, (f_inode v); try discriminate E1.
    - run_inv E1. run_inv E1. destruct v3 as [[[k1 q1] b1] r2]. injection E1 as -> <- _ _. split; [done |].
      by eapply pipe_write_turn_law; [apply Hc |].
    - run_inv E1. destruct v2 as [[k1 v3] r2]. injection E1 as -> <- _ _. split; [done |]. by eapply f_write_law. }
  destruct Hk as (Em & Ht). rewrite Em in E2. pose proof (turn_steps x p (sys m) k v1 Hc Ht E2) as Hs.
  destruct r1 as [n|]; [run_inv H; run_inv H; run_inv H; apply set_meta_sys in E5 |]; injection H as _ _ <-; [| exact Hs].
  cbn [sys write_file set_files]. rewrite E5. exact Hs.
Qed.

Lemma call_read_steps x p d ptr len m v rest m' :
  calls x p (sys m) -> buffer_ok ptr len -> call_read d ptr len m = Ret (v, rest, m') -> rtc (step_by cfg x) (sys m) (sys m').
Proof.
  intros Hc Hb H. unfold call_read in H. run_inv H. run_inv H. destruct (f_held v1); [injection H as _ _ <-; apply rtc_refl |].
  unfold finish_read in H. run_inv H. destruct v2 as [r m1]. apply (read_turn_steps x p) in E1; [| done | done].
  destruct r; injection H as _ _ <-; exact E1.
Qed.

Lemma finish_write_steps x p now a w m v rest m' :
  calls x p (sys m) -> finish_write now a w m = Ret (v, rest, m') -> rtc (step_by cfg x) (sys m) (sys m').
Proof.
  intros Hc H. unfold finish_write in H. run_inv H. destruct v0 as [[r w1] m1].
  apply (write_turn_steps x p) in E; [| done]. destruct r; injection H as _ _ <-; exact E.
Qed.
Lemma call_write_steps x p now d ptr len m v rest m' :
  calls x p (sys m) -> call_write now d ptr len m = Ret (v, rest, m') -> rtc (step_by cfg x) (sys m) (sys m').
Proof.
  intros Hc H. unfold call_write in H. run_inv H. run_inv H. destruct (f_held v1); [injection H as _ _ <-; apply rtc_refl |].
  run_inv H. eapply (finish_write_steps x p) in H; [exact H | exact Hc].
Qed.

(** *** Files and directories *)
Lemma open_steps x p path flags m r m' :
  calls x p (sys m) -> sys_open path flags m = Ret (r, m') -> rtc (step_by cfg x) (sys m) (sys m').
Proof.
  intros Hc H. unfold sys_open in H. run_inv H. run_inv H. destruct v0 as [x0 p0]. run_inv H. destruct v0 as [de v1]. run_inv H.
  destruct de as [d|]; [| injection H as _ <-; apply rtc_refl]. run_inv H. run_inv H. cbn zeta in H.
  unfold open_node, new_file in H. run_inv H. destruct v4 as [entry m1]. injection H as _ <-.
  destruct (insert_fd_piece x p _ _ _ _ E5 Hc) as (p1 & P1). exact (pc_steps _ _ _ _ _ P1).
Qed.

Lemma find_path_sys path m d m' : find_path path m = Ret (d, m') -> sys m' = sys m.
Proof.
  unfold find_path. intros H. run_inv H. destruct v as [x p]. run_inv H. destruct v as [o v]. run_inv H. by injection H as _ <-.
Qed.

Lemma chdir_steps x p a m m' : calls x p (sys m) -> call_chdir a m = Ret m' -> rtc (step_by cfg x) (sys m) (sys m').
Proof.
  intros Hc H. unfold call_chdir in H. run_inv H. run_inv H. destruct v0 as [d m1]. apply find_path_sys in E0. run_inv H.
  destruct v0 as [x1 p1]. injection H as <-. rewrite E0 in *. destruct Hc as (Hi & Hm & Hc). assert (x1 = x) as -> by congruence.
  apply (pc_steps x p (set_cwd d p)). by apply own_piece.
Qed.

(** The calls on directories that change only the file system. *)
Lemma dir_calls_sys m m' :
  (exists a, call_mkdir a m = Ret m' \/ call_rename a m = Ret m' \/ exists op, call_remove op a m = Ret m') -> sys m' = sys m.
Proof.
  intros (a & [H | [H | (op & H)]]).
  - unfold call_mkdir in H. run_inv H. run_inv H. destruct v0. run_inv H. destruct v0. apply find_path_sys in E1.
    run_inv H. run_inv H. by injection H as <-.
  - unfold call_rename in H. run_inv H. run_inv H. run_inv H. destruct v1. apply find_path_sys in E1. run_inv H. run_inv H. by injection H as <-.
  - unfold call_remove in H. run_inv H. run_inv H. destruct v0. apply find_path_sys in E0. run_inv H. run_inv H. by injection H as <-.
Qed.

(** A call on a locked file: the body, or nothing while the lock is taken. *)
Lemma with_file_steps x d m body v m' :
  with_file d m body = Ret (v, m') ->
  (forall a f, body a f = Ret (v, m') -> rtc (step_by cfg x) (sys m) (sys m')) -> rtc (step_by cfg x) (sys m) (sys m').
Proof.
  intros H Hb. unfold with_file in H. run_inv H. run_inv H. destruct (f_held v1); [injection H as _ <-; apply rtc_refl | eauto].
Qed.

Lemma copy_steps x p ptr bs m s' :
  calls x p (sys m) -> buffer_ok ptr (Z.of_nat (length bs)) -> write_user ptr bs (sys m) = Ret s' -> rtc (step_by cfg x) (sys m) s'.
Proof. intros Hc Hb H. by apply (pc_steps x p p), (store_piece x p bs ptr). Qed.

Lemma fstat_steps x p d m v m' :
  calls x p (sys m) -> buffer_ok d (size_of Stat) -> call_fstat d m = Ret (v, m') -> rtc (step_by cfg x) (sys m) (sys m').
Proof.
  intros Hc Hb H. apply (with_file_steps x _ _ _ _ _ H). intros a f H1. run_inv H1. run_inv H1. injection H1 as _ <-.
  apply (copy_steps x p) in E0; [exact E0 | done | by rewrite layout_size].
Qed.

Lemma dents_length (l : list DEntryMinimal) : Z.of_nat (length (concat (bytes_of <$> l))) = Z.of_nat (length l) * size_of DEntryMinimal.
Proof. induction l as [|e l IH]; [done |]. cbn [fmap list_fmap concat length]. rewrite length_app, Nat2Z.inj_add, IH, layout_size. lia. Qed.

Lemma size_of_pos (e : DEntryMinimal) : 0 <= size_of DEntryMinimal.
Proof. rewrite <- (layout_size e). lia. Qed.

Lemma getdents_steps x p d ptr count m v m' :
  calls x p (sys m) -> 0 <= count -> buffer_ok ptr (count * size_of DEntryMinimal) -> call_getdents d ptr count m = Ret (v, m') ->
  rtc (step_by cfg x) (sys m) (sys m').
Proof.
  intros Hc Hn Hb H. apply (with_file_steps x _ _ _ _ _ H). intros a f H1. run_inv H1. cbn zeta in H1. run_inv H1. injection H1 as _ <-.
  apply (copy_steps x p) in E0; [exact E0 | done |]. rewrite dents_length, length_take. eapply buffer_part; [exact Hb |].
  destruct (drop (Z.to_nat (f_pos f)) v0) as [|e l]; [cbn; unfold buffer_ok in Hb; lia |].
  pose proof (size_of_pos e). split; [apply Z.mul_nonneg_nonneg; lia | apply Z.mul_le_mono_nonneg_r; lia].
Qed.

Lemma getcwd_steps x p ptr len m v m' :
  calls x p (sys m) -> buffer_ok ptr len -> call_getcwd ptr len m = Ret (v, m') -> rtc (step_by cfg x) (sys m) (sys m').
Proof.
  intros Hc Hb H. unfold call_getcwd in H. run_inv H. destruct v0 as [x0 p0]. run_inv H. run_inv H. injection H as _ <-.
  apply (copy_steps x p) in E1; [exact E1 | done |]. eapply buffer_part; [exact Hb |]. rewrite length_take. unfold buffer_ok in Hb. lia.
Qed.

(** *** Memory, sleep *)
Lemma back_buffer_steps x p screen ptr m m' :
  calls x p (sys m) -> 0 <= bytes_per_line screen * height screen < 2 ^ 32 ->
  (let k := Z.to_nat (div_ceil (bytes_per_line screen * height screen) 4096) in
   Forall (unmapped (ram (sys m)) (Paging.cr3 (adsp p))) (page_range (MMAP_BASE / 4096) k) /\ avail (4 * k) (ALLOC (sys m))) ->
  buffer_ok ptr 24 -> call_back_buffer screen ptr m = Ret m' -> rtc (step_by cfg x) (sys m) (sys m').
Proof.
  intros (Hi & Hm & Hc) Hr [Hun Hav] Hb H. unfold call_back_buffer in H. run_inv H. destruct v as [win s]. run_inv H. injection H as <-.
  destruct (back_buffer_proc_spec cfg (sys m) x p screen Hi Hm Hc Hr Hun Hav) as (win' & fs & s1 & E1 & Hi1 & _ & Hx & _ & _ & _ & Hk & _).
  rewrite E in E1. injection E1 as <- <-. eapply rtc_l; [left; by eapply ps_back |].
  destruct (curr_proc_caller cfg (sys m) x p Hi Hm Hc) as (t & [_ _ [_ Ht] Hpt _ _ _ _]).
  assert (Hc1 : calls x (set_adsp (set_backbuffer (Some fs) (adsp p)) p) s).
  { split; [done |]. rewrite Hk. split; [done |]. unfold curr_proc, curr_thread, read_tcb. rewrite Hk, Ht. cbn [unwrap obind].
    rewrite Hpt. cbn [unwrap obind]. by rewrite Hx. }
  apply (pc_steps x _ _ _ _ (store_piece x _ _ _ _ _ Hc1 (Hb : buffer_ok ptr (Z.of_nat (length (window_bytes win)))) E0)).
Qed.

Lemma sleep_turn ms k k' : sys_sleep ms k = Ret k' -> kern_turn k k'.
Proof.
  intros H. unfold sys_sleep in H. run_inv H. unfold nano_sleep in H. run_inv H. run_inv H. unfold nano_sleep_until in H. run_inv H.
  destruct (_ <=? _); [injection H as <-; constructor |]. by eapply (kt_block (Thread.Sleep _)).
Qed.

(** *** Descriptors again, exec, wait and exit *)
Lemma dup_steps x p d m v m' : calls x p (sys m) -> call_dup d m = Ret (v, m') -> rtc (step_by cfg x) (sys m) (sys m').
Proof.
  intros Hc H. unfold call_dup in H. rewrite (proj2 (proj2 Hc)) in H. cbn [obind] in H. run_inv H. run_inv H. run_inv H.
  injection H as _ <-. destruct (set_fd_piece x p _ _ _ E1 Hc) as (p1 & P). apply P.
Qed.
Lemma dup2_steps x p d d' m v m' : calls x p (sys m) -> call_dup2 d d' m = Ret (v, m') -> rtc (step_by cfg x) (sys m) (sys m').
Proof.
  intros Hc H. unfold call_dup2 in H. destruct (_ =? _); [by injection H as _ <- |]. run_inv H. run_inv H. injection H as _ <-.
  destruct (set_fd_piece x p _ _ _ E0 Hc) as (p1 & P). apply P.
Qed.
Lemma exec_steps x p arg1 arg2 arg3 m tf m' :
  calls x p (sys m) ->
  (forall program args, cstr arg1 (sys m) = Ret program -> read_argv (Z.to_nat arg2) arg3 (sys m) = Ret args ->
    exists file limit, can_exec cfg (sys m) program args file limit) ->
  call_exec cfg arg1 arg2 arg3 m = Ret (tf, m') -> rtc (step_by cfg x) (sys m) (sys m').
Proof.
  intros (Hi & Hm & Hc) Hres H. unfold call_exec in H. run_inv H. run_inv H. run_inv H. destruct v1 as [tf1 s1]. injection H as _ <-.
  destruct (Hres _ _ E E0) as (file & limit & Hce). apply rtc_once. left. by eapply ps_exec.
Qed.
Lemma wait_steps x p child s s' : calls x p s -> wait_pid child s = Ret s' -> rtc (step_by cfg x) s s'.
Proof.
  intros (Hi & Hm & _) H. unfold wait_pid in H. run_inv H. destruct (negb v); [injection H as <-; apply rtc_refl |].
  by apply (block_steps cfg x (WaitThread child) s).
Qed.
Lemma exit_steps x p st s s' : calls x p s -> sys_exit st s = Ret s' -> rtc (step_by cfg x) s s'.
Proof.
  intros (Hi & Hm & Hc) H. unfold sys_exit in H. run_inv H. assert (Hs : proc_step cfg (Some x) s v) by by eapply ps_exit.
  eapply rtc_l; [left; exact Hs |]. apply switch_steps; [by apply (proc_step_inv cfg _ _ _ Hs) | exact H].
Qed.

(** ** The dispatcher *)

(** Every buffer the call copies a result to is in the lower half. *)
Definition honest (e : Inputs) (tf : TrapFrame) : Prop :=
  match kind_from (tf_rax tf) with
  | Ret KRead => buffer_ok (tf_rsi tf) (tf_rdx tf)
  | Ret Getcwd => buffer_ok (tf_rdi tf) (tf_rsi tf)
  | Ret Getdents => 0 <= tf_rdx tf /\ buffer_ok (tf_rsi tf) (tf_rdx tf * size_of DEntryMinimal)
  | Ret Fstat => buffer_ok (tf_rdi tf) (size_of Stat)
  | Ret KPipe => buffer_ok (tf_rdi tf) 16
  | Ret Uname => buffer_ok (tf_rdi tf) (Z.of_nat (length (uname_bytes e)))
  | Ret AllocBackBuffer => buffer_ok (tf_rdi tf) 24
  | _ => True
  end.

(** The memory a call takes is there. *)
Definition resources (e : Inputs) (tf : TrapFrame) s p : Prop :=
  match kind_from (tf_rax tf) with
  | Ret Fork => can_fork s p /\ fork_fresh s (in_fork e)
  | Ret Exec => forall program args, cstr (tf_rdi tf) s = Ret program ->
      read_argv (Z.to_nat (tf_rsi tf)) (tf_rdx tf) s = Ret args -> exists file limit, can_exec cfg s program args file limit
  | Ret Alloc => exists limit, heap_ok (ram s) (adsp p) limit /\ 0 <= tf_rdi tf /\ heap_end (adsp p) + tf_rdi tf <= limit /\
      avail (4 * Z.to_nat (pages_to (heap_end (adsp p) + tf_rdi tf) - pages_to (heap_end (adsp p)))) (ALLOC s)
  | Ret AllocBackBuffer => let bytes := bytes_per_line (in_screen e) * height (in_screen e) in
      let k := Z.to_nat (div_ceil bytes 4096) in
      0 <= bytes < 2 ^ 32 /\ Forall (unmapped (ram s) (Paging.cr3 (adsp p))) (page_range (MMAP_BASE / 4096) k) /\ avail (4 * k) (ALLOC s)
  | _ => True
  end.

Lemma spins_steps x tf o r (m m' : Mach) :
  returns_or_spins tf o = Ret (r, m') ->
  (forall v m1, o = Ret (v, m1) -> rtc (step_by cfg x) (sys m) (sys m1)) -> rtc (step_by cfg x) (sys m) (sys m').
Proof. intros H Ho. unfold returns_or_spins in H. run_inv H. destruct v as [[v|] m1]; injection H as _ <-; eauto. Qed.
Lemma waits_steps x tf o r (m m' : Mach) :
  returns_or_waits tf o = Ret (r, m') ->
  (forall v w m1, o = Ret (v, w, m1) -> rtc (step_by cfg x) (sys m) (sys m1)) -> rtc (step_by cfg x) (sys m) (sys m').
Proof. intros H Ho. unfold returns_or_waits in H. run_inv H. destruct v as [[[v|] [w|]] m1]; try discriminate H; injection H as _ <-; eauto. Qed.
Lemma zero_steps x tf o r (m m' : Mach) :
  returns_zero tf o = Ret (r, m') ->
  (forall m1, o = Ret m1 -> rtc (step_by cfg x) (sys m) (sys m1)) -> rtc (step_by cfg x) (sys m) (sys m').
Proof. intros H Ho. unfold returns_zero in H. run_inv H. injection H as _ <-. eauto. Qed.
Lemma value_steps x tf o r (m m' : Mach) :
  returns_value tf o = Ret (r, m') ->
  (forall v m1, o = Ret (v, m1) -> rtc (step_by cfg x) (sys m) (sys m1)) -> rtc (step_by cfg x) (sys m) (sys m').
Proof. intros H Ho. unfold returns_value in H. run_inv H. destruct v as [v m1]. injection H as _ <-. eauto. Qed.

Lemma syscall_steps x p e tf m r m' :
  calls x p (sys m) -> honest e tf -> resources e tf (sys m) p -> syscall_handler cfg e tf m = Ret (r, m') ->
  rtc (step_by cfg x) (sys m) (sys m').
Proof.
  intros Hc Hh Hres H. unfold syscall_handler in H. run_inv H. unfold honest in Hh. unfold resources in Hres. rewrite E in Hh, Hres.
  destruct Hc as (Hi & Hm & Hcur). assert (Hc : calls x p (sys m)) by done. destruct v; cbn iota in *.
  - run_inv H. destruct v. run_inv H. injection H as _ <-. by eapply open_steps.
  - apply (zero_steps x _ _ _ _ _ H). intros m1 H1. destruct (set_fd_piece x p _ _ _ H1 Hc) as (p1 & P). apply P.
  - apply (waits_steps x _ _ _ _ _ H). intros v w m1. by apply (call_read_steps x p).
  - apply (waits_steps x _ _ _ _ _ H). intros v w m1. by apply (call_write_steps x p).
  - apply (spins_steps x _ _ _ _ _ H). intros v m1 H1. apply (with_file_steps x _ _ _ _ _ H1). intros a f H2.
    run_inv H2. run_inv H2. injection H2 as _ <-. apply rtc_refl.
  - apply (zero_steps x _ _ _ _ _ H). intros m1. by apply (chdir_steps x p).
  - apply (value_steps x _ _ _ _ _ H). intros v m1. by apply (getcwd_steps x p).
  - apply (zero_steps x _ _ _ _ _ H). intros m1 H1. rewrite (dir_calls_sys m m1); [done | eauto].
  - apply (zero_steps x _ _ _ _ _ H). intros m1 H1. rewrite (dir_calls_sys m m1); [done | eauto].
  - apply (spins_steps x _ _ _ _ _ H). intros v m1. destruct Hh. by apply (getdents_steps x p).
  - apply (spins_steps x _ _ _ _ _ H). intros v m1. by apply (fstat_steps x p).
  - apply (zero_steps x _ _ _ _ _ H). intros m1 H1. rewrite (dir_calls_sys m m1); [done | eauto].
  - apply (zero_steps x _ _ _ _ _ H). intros m1 H1. rewrite (dir_calls_sys m m1); [done | eauto].
  - apply (value_steps x _ _ _ _ _ H). intros v m1. by apply (dup_steps x p).
  - apply (value_steps x _ _ _ _ _ H). intros v m1. by apply (dup2_steps x p).
  - apply (zero_steps x _ _ _ _ _ H). intros m1. by apply (pipe_steps x p).
  - apply (spins_steps x _ _ _ _ _ H). intros v m1 H1. apply (with_file_steps x _ _ _ _ _ H1). intros a f H2.
    destruct (f_ops f); [| run_inv H2]; injection H2 as _ <-; apply rtc_refl.
  - apply (spins_steps x _ _ _ _ _ H). intros v m1 H1. unfold call_fcntl in H1. run_inv H1. apply (with_file_steps x _ _ _ _ _ H1).
    intros a f H2. destruct v0; injection H2 as _ <-; apply rtc_refl.
  - run_inv H. destruct v as [child s]. injection H as _ <-. destruct Hres. by eapply fork_steps.
  - run_inv H. destruct v as [tf1 m1]. injection H as _ <-. by eapply (exec_steps x p).
  - run_inv H. injection H as _ <-. by eapply (wait_steps x p).
  - run_inv H. injection H as _ <-. unfold call_yield in E0. run_inv E0. run_inv E0. injection E0 as <-. by eapply (yield_steps x p).
  - run_inv H. injection H as _ <-. by eapply (exit_steps x p).
  - run_inv H. destruct v as [v s]. injection H as _ <-. destruct Hres as (limit & ? & ? & ? & ?).
    apply rtc_once. left. by eapply ps_alloc.
  - run_inv H. injection H as _ <-. apply rtc_refl.
  - apply (zero_steps x _ _ _ _ _ H). intros m1. destruct Hres as [? Hr]. by apply (back_buffer_steps x p).
  - injection H as _ <-. apply rtc_once. right. apply (ps_wake cfg [3] (sys m)). constructor; [left; lia | constructor].
  - apply (zero_steps x _ _ _ _ _ H). intros m1 H1. unfold call_sleep in H1. run_inv H1. run_inv H1. injection H1 as <-.
    eapply (turn_steps x p); [exact Hc | by eapply sleep_turn | exact E1].
  - run_inv H. injection H as _ <-. apply rtc_refl.
  - run_inv H. injection H as _ <-. by apply (copy_steps x p) in E0.
Qed.

(** The next turn of a call: the buffer of a read that blocked, the call again
    when it found a lock taken. *)
Definition rest_ok (e : Inputs) (tf : TrapFrame) (rest : Rest) s p : Prop :=
  match rest with
  | ReadMore _ ptr len => buffer_ok ptr len
  | Spinning => honest e tf /\ resources e tf s p
  | WriteMore _ _ | Unreachable => True
  end.

Lemma take_up_steps x p e tf rest m r m' :
  calls x p (sys m) -> rest_ok e tf rest (sys m) p -> take_up cfg e tf rest m = Ret (r, m') ->
  rtc (step_by cfg x) (sys m) (sys m').
Proof.
  intros Hc Hr H. destruct rest as [file ptr len | file w | |]; cbn [take_up rest_ok] in *; [| | | done].
  - apply (waits_steps x _ _ _ _ _ H). intros v rest m1 H1. unfold finish_read in H1. run_inv H1. destruct v0 as [r1 m2].
    apply (read_turn_steps x p) in E; [| done | done]. destruct r1; injection H1 as _ _ <-; exact E.
  - apply (waits_steps x _ _ _ _ _ H). intros v rest m1. by apply (finish_write_steps x p).
  - destruct Hr. by eapply syscall_steps.
Qed.

(** ** What the other processes see *)

(** Every process of [s] but [x] is still there, with its control block and
    every byte it reads. *)
Definition unseen (x : Z) s s' : Prop :=
  forall y q, y ∈ PROC s -> pcbs s !! y = Some q -> y <> x ->
    y ∈ PROC s' /\ pcbs s' !! y = Some q /\
    forall va, user_addr va -> user_byte (ram s') (Paging.cr3 (adsp q)) va = user_byte (ram s) (Paging.cr3 (adsp q)) va.

Lemma step_unseen x s s' : step_by cfg x s s' -> proc_inv cfg s -> proc_inv cfg s' /\ unseen x s s'.
Proof.
  intros Hs Hi. assert (exists o, proc_step cfg o s s' /\ forall y, y <> x -> o <> Some y) as (o & Ho & Hox).
  { destruct Hs as [H | H]; eexists; (split; [exact H |]); congruence. }
  destruct (proc_step_inv cfg o s s' Ho Hi) as [Hi' Hsame]. split; [done |]. intros y q Hy Hq Hne.
  destruct (Hsame y q Hy Hq (Hox y Hne)) as [Hq' Hv]. split; [| split; [done |]].
  - destruct (decide (y ∈ PROC s')) as [? | Hn]; [done |]. destruct (step_removes cfg o s s' y Ho Hi Hy Hn) as (p & st & E & _).
    by apply Hox in Hne.
  - intros va Hva. apply (view_user_byte _ _ (ALLOC s)); [| done | done].
    apply (is_space _ _ _ _ (pi_mem _ s Hi) y). apply live_space_Some. split; [done |]. by exists q.
Qed.

Lemma steps_unseen x s s' : rtc (step_by cfg x) s s' -> proc_inv cfg s -> unseen x s s'.
Proof.
  induction 1 as [s | s s1 s' Hs _ IH]; intros Hi; [by intros y q |].
  destruct (step_unseen x s s1 Hs Hi) as [Hi1 Hu]. intros y q Hy Hq Hne. destruct (Hu y q Hy Hq Hne) as (Hy1 & Hq1 & Hb1).
  destruct (IH Hi1 y q Hy1 Hq1 Hne) as (? & ? & Hb). split; [done |]. split; [done |]. intros va Hva. rewrite Hb by done. by apply Hb1.
Qed.

End CallSteps.
