(* ===== verification/CallFs.v ===== *)
(** * The devices and the disk keep the laws of the dispatcher

    [CallSteps] shows system calls to be sequences of process steps for any
    file system whose drivers only wake and block threads and store no more than
    was asked for.  The devices of [Devfs] and the files of [FatVfs] are such. *)
From S2P Require Import Prelude Slices Text Lock Thread ThreadInv Sched ThreadKeep Queue Pipe Proc Console Tty Random Ports Mouse Disk Time Fat Vfs Files Syscall PipeCalls Devfs FatVfs CallSteps.

Lemma mouse_loop_length {Q : Type} {AQ : ArrayQueue GenericPs2Packet Q} fuel : forall (q q' : Q) buffer n buffer' r,
  mouse_read_loop fuel q buffer n = Ret (q', buffer', r) -> length buffer' = length buffer.
Proof.
  induction fuel as [|fuel IH]; intros q q' buffer n buffer' r H; [done |]. cbn [mouse_read_loop] in H.
  destruct (_ <? 3); [congruence |]. destruct (aq_pop q) as [[packet|] q1]; [| congruence].
  run_inv H. run_inv H. run_inv H. rewrite (IH _ _ _ _ _ _ H). by rewrite (upd_length _ _ _ _ E1), (upd_length _ _ _ _ E0), (upd_length _ _ _ _ E).
Qed.

Lemma urandom_fill_length n : forall g g' l, urandom_fill n g = Ret (g', l) -> length l = n.
Proof.
  induction n as [|n IH]; intros g g' l H; cbn [urandom_fill] in H; [by injection H as _ <- |].
  run_inv H. destruct v. run_inv H. destruct v. injection H as _ <-. cbn. f_equal. by eapply IH.
Qed.

Section DevLaws.
Context {Q : Type} {AQ : ArrayQueue Z Q} {P : Type} {AP : ArrayQueue GenericPs2Packet P}.

Lemma dev_read_law (o : DeviceOps) len k (v : DevState Q P) k' v' data r :
  dev_read o len k v = Ret (k', v', data, r) -> kern_turn k k' /\ (length data <= len)%nat.
Proof.
  intros H. unfold dev_read in H. destruct o.
  - injection H as <- _ <- _. split; [constructor | by rewrite !length_replicate].
  - injection H as <- _ <- _. split; [constructor | cbn; lia].
  - run_inv H. destruct v0 as [[g b] n]. injection H as <- _ <- _. unfold urandom_read in E. run_inv E. destruct v0 as [g1 l].
    injection E as _ <- _. apply urandom_fill_length in E0. rewrite length_replicate in E0. split; [constructor | lia].
  - run_inv H. destruct v0 as [[[t k1] b] r1]. injection H as <- _ <- _. unfold tty_read_turn in E. destruct (negb _).
    + run_inv E. destruct v0 as [[q b1] n]. injection E as _ <- <- _. apply drain_length in E0. rewrite length_replicate in E0.
      split; [constructor | rewrite length_take; lia].
    + destruct (is_eof (dv_tty v)); [injection E as _ <- <- _; split; [constructor | rewrite length_take, length_replicate; lia] |].
      run_inv E. injection E as _ <- <- _. split; [| rewrite length_take, length_replicate; lia].
      by eapply (kt_block (WaitStdin _)).
  - run_inv H. destruct v0 as [[[p k1] b] r1]. injection H as <- _ <- _. unfold mouse_read_turn in E. run_inv E. run_inv E.
    destruct v1 as [[q b1] r2]. apply mouse_loop_length in E1. rewrite length_replicate in E1.
    destruct r2; [injection E as _ <- <- _; split; [constructor | rewrite length_take; lia] |].
    run_inv E. injection E as _ <- <- _. split; [| rewrite length_take; lia]. by apply (kt_block (WaitMouse 0)).
  - injection H as <- _ <- _. split; [constructor | cbn; lia].
Qed.

Lemma dev_write_law (o : DeviceOps) bs k (v : DevState Q P) k' v' r :
  dev_write o bs k v = Ret (k', v', r) -> kern_turn k k'.
Proof.
  intros H. unfold dev_write in H. destruct o.
  - injection H as <- _ _. constructor.
  - injection H as <- _ _. constructor.
  - destruct (urandom_write bs (dv_rng v)). injection H as <- _ _. constructor.
  - run_inv H. destruct v0. injection H as <- _ _. apply (kt_wake [5]). constructor; [left; lia | constructor].
  - injection H as <- _ _. constructor.
  - destruct (utf8_valid bs); [| done]. injection H as <- _ _. constructor.
Qed.

#[export] Instance dev_vfs_laws : VfsLaws (DevState Q P) DeviceOps dev_vfs_ops.
Proof.
  split.
  - intros procs o i pos len k v k' v' data r. apply dev_read_law.
  - intros procs o i pos bs k v k' v' r. apply dev_write_law.
Qed.
End DevLaws.

Section FatLaws.
Context {D : Type} {BD : BlockDevice D} {U : UnicodeTable}.

Lemma splice_length {T : Type} (l src l' : list T) o : splice l o src = Ret l' -> length l' = length l.
Proof.
  unfold splice. destruct ((_ && _)) eqn:E; [| done]. intros [= <-]. rewrite !length_app, length_take, length_drop. lia.
Qed.

Lemma read_loop_length fuel : forall (f : Fat32 D) target cluster n buffer r buffer',
  read_loop fuel f target cluster n buffer = Ret (r, buffer') -> length buffer' = length buffer.
Proof.
  induction fuel as [|fuel IH]; intros f target cluster n buffer r buffer' H; [done |]. cbn [read_loop] in H.
  destruct (_ && _); [| congruence]. run_inv H. run_inv H. cbn zeta in H. run_inv H. run_inv H. run_inv H. run_inv H.
  rewrite (IH _ _ _ _ _ _ _ H). by eapply splice_length.
Qed.

#[export] Instance fat_vfs_laws : VfsLaws (FatFs D) unit fat_vfs_ops.
Proof.
  split.
  - intros procs o i pos len k v k' v' data r H. cbn [f_read fat_vfs_ops fst snd] in H. run_inv H. destruct v0 as [n buffer].
    injection H as <- _ <- _. split; [constructor |]. rewrite length_take. unfold fat_read in E. run_inv E. unfold read_buffer in E.
    destruct (_ =? 0).
    + injection E as _ <-. rewrite length_replicate. lia.
    + apply read_loop_length in E. rewrite length_replicate in E. lia.
  - intros procs o i pos bs k v k' v' r H. cbn [f_write fat_vfs_ops fst snd] in H. run_inv H. destruct v0. injection H as <- _ _. constructor.
Qed.
End FatLaws.
