(* ===== verification/CallWitness.v ===== *)
(** * A running system

    A machine with the device file system, a process and a pipe: the witnesses
    of the theorems on system calls, and the system calls evaluated. *)
From S2P Require Import Prelude Text Memory Paging PagingMap UserMem UserStack Elf Isolation Slab Lock Thread ThreadInv Sched ThreadKeep Queue Pipe Proc ProcInv ProcOps ProcSys Console Tty Random Ports Mouse Vfs Files UserCopy Syscall FileTypes FileCalls PipeCalls Devfs UserLib Disk Fat FatTable FatFile FatProps FatDir FatVfs CallSteps CallFs.

Module CallWitness.
#[local] Existing Instance align_down_frames.
#[local] Existing Instance align_down_frames_laws.
Import Memory.MemoryWitness PagingMap.PagingWitness Elf.ElfWitness ProcSys.ProcWitness Queue.ListQueue.
#[local] Existing Instance page_api.
#[local] Existing Instance UserMem.UserMemWitness.addr_laws.
#[local] Existing Instance table_slab.
#[local] Existing Instance table_slab_laws.

(** [size_of] and some layout of the values copied to user memory. *)
#[local] Instance dent_layout : Layout DEntryMinimal :=
  {| size_of := 88; bytes_of e := take 64 (de_name e ++ replicate 64 0) ++ le_bytes 8 (de_inum e) ++ le_bytes 8 (de_size e) ++ replicate 8 0 |}.
#[local] Instance stat_layout : Layout Stat := {| size_of := 72; bytes_of s := le_bytes 8 (st_ino s) ++ replicate 64 0 |}.
#[local] Instance dent_layout_laws : LayoutLaws DEntryMinimal dent_layout.
Proof. intros e. cbn [bytes_of dent_layout size_of]. rewrite !length_app, length_take, length_app, !length_replicate, !le_bytes_length. lia. Qed.
#[local] Instance stat_layout_laws : LayoutLaws Stat stat_layout.
Proof. intros s. cbn [bytes_of stat_layout size_of]. rewrite length_app, length_replicate, le_bytes_length. reflexivity. Qed.

Abbreviation ByteQueue := (Z * list Z)%type (only parsing).
Abbreviation PacketQueue := (Z * list GenericPs2Packet)%type (only parsing).
Abbreviation Mach := (Machine BumpAllocator (list (option Z)) ByteQueue (DevState ByteQueue PacketQueue) DeviceOps) (only parsing).

Definition ps20 : Ps2 PacketQueue ByteQueue :=
  {| ps2_mouse_state := WaitingForByte1; PACKET_QUEUE := Some (100, []); SCANCODE_QUEUE := Some (100, []) |}.
Definition dev0 : DevState ByteQueue PacketQueue := dev_boot None ps20.
Definition inputs0 : Inputs :=
  {| in_fork := fork0; cmos_now := 1700000000; boot_unix := 1699999000;
     in_screen := {| width := 4; height := 8; bytes_per_pixel := 4; bytes_per_line := 16 |}; uname_bytes := replicate 80 0 |}.

(** Before the first process. *)
Definition boot0 : Mach := mkMachine s0 ∅ 0 ∅ 0 dev0.
Definition shell0 : Mach := ret_or boot0 (spawn_process cfg0 spawn0 name_shell arg0 boot0).

Lemma shell0_step : file_step cfg0 boot0 shell0.
Proof.
  assert (E : is_ret (spawn_process cfg0 spawn0 name_shell arg0 boot0)) by (apply is_retb_ret; vm_compute; reflexivity).
  destruct E as [m E]. apply (fs_spawn cfg0 spawn0 name_shell arg0). unfold shell0. rewrite E. reflexivity.
Qed.

Lemma descriptors_typed_witness :
  exists q f, pcbs (sys shell0) !! 1000 = Some q /\ slab_get 1 (fd q) = Some 1 /\ files shell0 !! 1 = Some f /\ file_typed shell0 f.
Proof.
  destruct (pcbs (sys shell0) !! 1000) as [q|] eqn:Hq.
  2:{ assert (H : match pcbs (sys shell0) !! 1000 with Some _ => true | None => false end = true) by (vm_compute; reflexivity).
      rewrite Hq in H. discriminate H. }
  assert (Hfd : slab_get 1 (fd q) = Some 1).
  { assert (H : (pcbs (sys shell0) !! 1000 ≫= fun q => slab_get 1 (fd q)) = Some 1) by (vm_compute; reflexivity).
    rewrite Hq in H. exact H. }
  destruct (descriptors_typed cfg0 boot0 shell0 eq_refl eq_refl (rtc_once _ _ shell0_step) 1000 q 1%nat 1 Hq Hfd) as (f & Hf & Ht).
  exists q, f. split; [reflexivity |]. split; [exact Hfd |]. split; [exact Hf | exact Ht].
Defined.

(** ** A process with both ends of a pipe *)
Definition fds1 : list (option Z) := [Some 10; Some 11].
Definition end1 : File DeviceOps := mkFile (PipeINode 3) 0 0 PipeOps false.
Definition piped : Mach :=
  mkMachine (running fds1) {[ 10 := end1; 11 := end1 ]} 12 {[ 3 := Build_PipeNode pipe_new no_meta ]} 4 dev0.
Definition pp : ProcessControlBlock (list (option Z)) := pcb_or (running fds1).

Lemma piped_proc : curr_proc (sys piped) = Ret (1000, pp).
Proof. vm_compute. reflexivity. Qed.

Lemma end1_ok : pipe_end end1 3 false.
Proof. split; try reflexivity. cbn. lia. Qed.

Lemma piped_listed : all_listed (sys piped).
Proof.
  apply (all_listed_intro cfg0 (sys piped) (running_inv fds1)).
  assert (EP : PROC (sys piped) = [1000]) by (vm_compute; reflexivity). rewrite EP. constructor; [| constructor].
  assert (Ht : pcb <$> store (kern (sys piped)) !! 2000 = Some (Some 1000)) by (vm_compute; reflexivity).
  apply fmap_Some in Ht as (t & Ht & E). exists 2000, t. split; [split; [| exact Ht] | exact (eq_sym E)].
  apply (bool_decide_unpack _). vm_compute. exact I.
Qed.

Lemma piped_fds : pipe_fds piped pp 1 0 11 10 3.
Proof.
  split; [vm_compute; reflexivity | vm_compute; reflexivity | discriminate | |]; exists end1; (split; [reflexivity | exact end1_ok]).
Qed.

Lemma piped_holds : pipe_holds piped 3 [].
Proof. eexists. split; [reflexivity |]. split; [| split; reflexivity]. vm_compute. intuition congruence. Qed.

(** The caller's memory, by evaluation. *)
Abbreviation Sys := (System BumpAllocator (list (option Z))) (only parsing).
Definition sys_mapped (s : Sys) (va : Z) (n : nat) : bool :=
  forallb (fun i => match user_byte (ram s) (CR3 s) (va + Z.of_nat i) with Some _ => true | None => false end) (seq 0 n).

Lemma sys_mapped_ok s va n : 0 <= va -> va + Z.of_nat n <= 2 ^ 47 -> sys_mapped s va n = true -> mapped_bytes s va (Z.of_nat n).
Proof.
  intros H0 H1 H. split; [done |]. split; [done |]. intros i Hi. unfold sys_mapped in H. rewrite forallb_forall in H.
  specialize (H (Z.to_nat i)). rewrite Z2Nat.id in H by lia.
  destruct (user_byte (ram s) (CR3 s) (va + i)); [eauto |]. discriminate H. apply in_seq. lia.
Qed.
Definition all_mapped (m : Mach) : Z -> nat -> bool := sys_mapped (sys m).
Lemma all_mapped_ok m va n : 0 <= va -> va + Z.of_nat n <= 2 ^ 47 -> all_mapped m va n = true -> mapped_bytes (sys m) va (Z.of_nat n).
Proof. exact (sys_mapped_ok (sys m) va n). Qed.

Definition frame_of (number a1 a2 a3 : Z) : TrapFrame :=
  {| tf_r15 := 0; tf_r14 := 0; tf_r13 := 0; tf_r12 := 0; tf_r11 := 0; tf_r10 := 0; tf_r9 := 0; tf_r8 := 0;
     tf_rbp := 0; tf_rdi := a1; tf_rsi := a2; tf_rdx := a3; tf_rcx := 0; tf_rbx := 0; tf_rax := number;
     tf_rip := 0; tf_cs := 43; tf_rflags := 514; tf_rsp := 0; tf_ss := 51 |}.

Lemma pipe_carries_bytes_witness :
  exists c m1 c' m2,
    syscall_handler cfg0 inputs0 (frame_of 3 1 4194304 3) piped = Ret c /\
    completes cfg0 inputs0 c (set_rax 3 (frame_of 3 1 4194304 3)) m1 /\
    syscall_handler cfg0 inputs0 (frame_of 2 0 4194816 16) m1 = Ret c' /\
    completes cfg0 inputs0 c' (set_rax 3 (frame_of 2 0 4194816 16)) m2 /\
    proc_inv cfg0 (sys m2) /\ pipe_holds m2 3 [] /\ others_same (sys piped) (sys m2) 1000 /\
    forall va, user_addr va -> user_byte (ram (sys m2)) (CR3 (sys m2)) va =
      if decide (4194816 <= va < 4194816 + 3) then [1; 2; 3] !! Z.to_nat (va - 4194816)
      else user_byte (ram (sys piped)) (CR3 (sys piped)) va.
Proof.
  refine (pipe_carries_bytes cfg0 piped 1000 pp inputs0 (frame_of 3 1 4194304 3) (frame_of 2 0 4194816 16) 1 0 11 10 3 []
    4194304 [1; 2; 3] 4194816 16 (running_inv fds1) piped_listed (running_may_call fds1) piped_proc piped_fds piped_holds
    _ _ _ _ _ _ _ _ _).
  - discriminate.
  - cbn. lia.
  - constructor.
  - repeat (constructor; [split; vm_compute; congruence |]). constructor.
  - intros [|[|[|i]]] b Hb; cbn in Hb; [..| discriminate Hb]; injection Hb as <-; vm_compute; reflexivity.
  - repeat split.
  - apply (all_mapped_ok piped 4194816 16); [lia | lia | vm_compute; reflexivity].
  - cbn. lia.
  - repeat split.
Defined.

(** ** A call of the child of another process *)
Definition child6 : Mach := mkMachine s6 ∅ 0 ∅ 0 dev0.


(** ** Opening a device and seeking *)
Definition with_path : Mach :=
  ret_or piped (let! s := write_user 4194816 (dev_tty1 ++ [0]) (sys piped) in Ret (set_sys s piped)).
Definition v_tty : DevState ByteQueue PacketQueue :=
  match v_find_dentry 0 dev_tty1 dev0 with Ret (_, v) => v | _ => dev0 end.

Lemma open_then_close_witness :
  exists n m1 m2 p1 p2, sys_open 4194816 0 with_path = Ret (Some (Z.of_nat n), m1) /\ sys_close (Z.of_nat n) m1 = Ret m2 /\
    slab_get n (fd pp) = None /\ curr_proc (sys m1) = Ret (1000, p1) /\ curr_proc (sys m2) = Ret (1000, p2) /\
    slab_get n (fd p1) = Some 12 /\
    files m1 !! 12 = Some (mkFile (FsINode 4) 0 0 (FsOps (TtyDeviceHandle 1)) false) /\
    (forall k, k <> n -> slab_get k (fd p1) = slab_get k (fd pp)) /\
    (forall a f, files with_path !! a = Some f -> files m1 !! a = Some f) /\
    (forall k, slab_get k (fd p2) = slab_get k (fd pp)).
Proof.
  refine (open_then_close with_path 1000 pp 4194816 0 dev_tty1 2 v_tty 4 (TtyDeviceHandle 1) _ _ _ _ _ _); vm_compute; reflexivity.
Defined.

Lemma lseek_bounded_witness :
  exists m' f', call_lseek 1 5 piped = Ret (Some 0, m') /\ files m' !! 11 = Some f' /\
    f_pos f' = Z.min (meta_size no_meta) (f_pos end1 + 5) /\ f_pos f' <= meta_size no_meta /\
    f' = set_pos (f_pos f') end1 /\ (forall b, b <> 11 -> files m' !! b = files piped !! b) /\ sys m' = sys piped.
Proof.
  refine (lseek_bounded piped 1000 pp 1 11 end1 no_meta 5 piped_proc _ _ _ _ _ _);
    [vm_compute; reflexivity | reflexivity | reflexivity | reflexivity | cbn; lia | lia].
Defined.

(** ** The user library *)
Definition prog3 : Mach := mkMachine s3 ∅ 0 ∅ 0 dev0.
(** The C strings "shell" and "-a" and the array of two pointers. *)
Definition addrs3 : ExecAddrs := {| prog_at := 4194816; strs_at := [4194848]; ptrs_at := 4194880 |}.

Lemma bytes_ok (l : list Z) : forallb (fun b => (0 <=? b) && (b <? 256)) l = true -> Forall is_byte l.
Proof.
  intros H. apply Forall_forall. intros b Hb. rewrite forallb_forall in H. apply list_elem_of_In, H in Hb.
  apply andb_true_iff in Hb as [H0 H1]. apply Z.leb_le in H0. apply Z.ltb_lt in H1. split; assumption.
Qed.

Lemma mapped_block m (va : Z) (l : list Z) :
  0 <= va -> va + Z.of_nat (length l) <= 2 ^ 47 -> forallb (fun b => (0 <=? b) && (b <? 256)) l = true ->
  all_mapped m va (length l) = true -> block_ok (sys m) (va, l).
Proof. intros H0 H1 Hb Hm. split; [exact (all_mapped_ok m va (length l) H0 H1 Hm) | exact (bytes_ok l Hb)]. Qed.

Lemma prog3_memory : exec_memory (sys prog3) addrs3 name_shell arg0.
Proof.
  split; [reflexivity | |].
  - repeat (constructor; [apply (mapped_block prog3); [cbn; lia | cbn; lia | vm_compute; reflexivity | vm_compute; reflexivity] |]). constructor.
  - repeat (constructor; [repeat (constructor; [left; vm_compute; discriminate |]); constructor |]). constructor.
Qed.

Lemma no_nul (l : list Z) : existsb (Z.eqb 0) l = false -> ~ 0 ∈ l.
Proof.
  intros H Hin. assert (E : existsb (Z.eqb 0) l = true); [| congruence]. apply existsb_exists. exists 0. split; [by apply list_elem_of_In | reflexivity].
Qed.


(** The terminal's file, whose path is that below the root of its file system. *)
Lemma chdir_then_pwd_witness :
  exists tf1 m1 tf3 m2, user_chdir cfg0 inputs0 0 4194816 dev_tty1 zero_out prog3 = Ret (0, tf1, m1) /\
    user_pwd cfg0 inputs0 0 4194880 zero_out m1 = Ret (take 200 [47; 116; 116; 121; 49], tf3, m2) /\
    proc_inv cfg0 (sys m2) /\ curr_proc (sys m2) = Ret (1000, set_cwd 2 p3) /\ others_same (sys prog3) (sys m2) 1000 /\ files m2 = files prog3.
Proof.
  refine (chdir_then_pwd cfg0 inputs0 prog3 1000 p3 4194816 4194880 dev_tty1 2 v_tty [47; 116; 116; 121; 49] 0 zero_out zero_out
    s3_inv s3_may_call s3_proc _ _ _ _ _ _ _ _ _).
  - apply no_nul. reflexivity.
  - reflexivity.
  - apply Nat.ltb_lt. vm_compute. reflexivity.
  - apply (mapped_block prog3); [cbn; lia | cbn; lia | vm_compute; reflexivity | vm_compute; reflexivity].
  - vm_compute. reflexivity.
  - vm_compute. reflexivity.
  - apply (all_mapped_ok prog3 4194880 200); [lia | lia | vm_compute; reflexivity].
  - apply bytes_ok. reflexivity.
  - reflexivity.
Defined.

(** ** A file on a disk *)
Import FatWitness.
#[local] Existing Instance FatDirWitness.no_unicode.
(** "/a.txt" *)
Definition a_txt : list Z := [47; 97; 46; 116; 120; 116].
Definition root_fs : FatFs (list Z) := mount_fat32 1700000000 vol.
(** The path is resolved: the file's dentry is the second. *)
Definition fs1 : FatFs (list Z) := match v_find_dentry 0 a_txt root_fs with Ret (_, v) => v | _ => root_fs end.
Definition node1 : FatINode := {| fi_inum := 1024; fi_meta := new_meta entry0; fi_mode := NtFile; fi_data := dir0 |}.
Definition file1 : File unit := mkFile (FsINode 1) 600 0 (FsOps tt) false.
Definition on_disk : Machine BumpAllocator (list (option Z)) ByteQueue (FatFs (list Z)) unit :=
  mkMachine (running fds1) {[ 10 := file1 ]} 12 ∅ 0 fs1.

Lemma on_disk_file : disk_file on_disk pp 0 10 1 file1 node1 [] [3; 4; 5; 6] [1; 2; 3].
Proof.
  split.
  - split; [vm_compute; reflexivity | reflexivity | reflexivity | reflexivity | reflexivity].
  - vm_compute. reflexivity.
  - exact vol_ok.
  - exact dir0_ok.
  - exact vol_free.
  - cbn. lia.
  - split; [cbn; lia | apply bytes_ok; reflexivity].
  - apply Z.leb_le. vm_compute. reflexivity.
Qed.

Lemma on_disk_inv : proc_inv cfg0 (sys on_disk).
Proof. exact (running_inv fds1). Qed.
Lemma on_disk_may_call : may_call (kern (sys on_disk)).
Proof. exact (running_may_call fds1). Qed.
Lemma on_disk_proc : curr_proc (sys on_disk) = Ret (1000, pp).
Proof. vm_compute. reflexivity. Qed.

(** The three bytes are written behind the first cluster of an empty file. *)
Definition three : list Z := [1; 2; 3].
Definition size1 : Z := Z.max (file_size (entry (fi_data node1))) (f_pos file1 + Z.of_nat (length three)).
Lemma size1_603 : size1 = 603.
Proof. reflexivity. Qed.

Lemma disk_file_roundtrip_witness :
  exists tf1 m1 tf3 m2,
    user_write cfg0 inputs0 0 0 4194304 (Z.of_nat (length three)) zero_out on_disk = Ret (Z.of_nat (length three) + 1, tf1, m1) /\
    user_read cfg0 inputs0 0 0 4194816 size1 zero_out m1 = Ret (size1, tf3, m2) /\
    proc_inv cfg0 (sys m2) /\ others_same (sys on_disk) (sys m2) 1000 /\
    (forall k, 0 <= k < Z.of_nat (length three) ->
      user_byte (ram (sys m2)) (CR3 (sys m2)) (4194816 + f_pos file1 + k) = three !! Z.to_nat k) /\
    (forall k, 0 <= k < file_size (entry (fi_data node1)) -> ~ (f_pos file1 <= k < f_pos file1 + Z.of_nat (length three)) ->
      user_byte (ram (sys m2)) (CR3 (sys m2)) (4194816 + k) = content (fs_fat (vfs on_disk)) [] !! Z.to_nat k).
Proof.
  refine (disk_file_roundtrip cfg0 inputs0 on_disk 1000 pp 0 10 1 file1 node1 [] [3; 4; 5; 6] 4194304 three 4194816 0 zero_out zero_out
    on_disk_inv on_disk_may_call on_disk_proc on_disk_file _ _).
  - intros [|[|[|i]]] b Hb; cbn in Hb; [..| discriminate Hb]; injection Hb as <-; vm_compute; reflexivity.
  - apply (sys_mapped_ok (sys on_disk) 4194816 603); [lia | lia | vm_compute; reflexivity].
Defined.
End CallWitness.
